(* ===== verification/_CoqProject ===== *)
-Q . S2P
Prelude.v
State.v
Monad.v
Machine.v
Testbed.v
Bitmap.v
VmStats.v
Ram.v
VmTlb.v
Swapfile.v
Heap.v
Coremap.v
CoremapSpec.v
KernelPages.v
Pt.v
Segment.v
AddrSpace.v
PageMap.v
LooseQueue.v
Release.v
Semaphore.v
Proc.v
UserPage.v
Replacement.v
PageVm.v
LoadElf.v
KMalloc.v
KMallocRefs.v
KMallocSpec.v
KMallocAlloc.v
KMallocFree.v
KMallocPages.v
StopState.v
Threadlist.v
Synch.v
SynchTypes.v
SynchWake.v
Sched.v
SchedSpec.v
SchedInv.v
SchedWake.v
SchedMigrate.v
SchedFork.v
SchedOps.v
Array.v
Uio.v
Device.v
Lhd.v
Sfs.v
SfsSpec.v
SfsBlock.v
SfsBmap.v
SfsRead.v
SfsIo.v
SfsWrite.v
SfsTrunc.v
SfsFile.v
SfsDir.v
SfsMeta.v
SfsKeeps.v
SfsDirSpec.v
SfsDirMap.v
SfsFault.v
SfsInode.v
SfsVolume.v
SfsInodeRun.v
SfsReclaim.v
SfsVnops.v
SfsNames.v
SfsNamespace.v
SfsHistory.v
SfsMount.v
SfsMountRun.v
SfsRemount.v
Scenario.v
