(* ===== verification/Prelude.v ===== *)
(** * A verification of the paging kernel of OS/161

    The program is the OS/161 kernel of [src/kern] in its PAGING configuration
    (options paging, waitpid, synch, syscalls, sfs; fork and dumbvm off): demand
    paging with a swap file, processes with wait and exit, the kernel heap, the
    thread system with its synchronisation primitives, the disk driver and the
    files, directories and inodes of SFS.  [KASSERT] is enabled and modelled; [DEBUGASSERT] is disabled in this configuration and checks
    nothing.  Machine words are integers with their 32-bit wrap-around written
    out ([u32]).

    ** The parts, and where they are modelled

    The virtual memory code runs on one state, [kstate] of [State.v], in the
    monad of [Monad.v]: a function returns a value and a state, or stops with
    the reason (a failed assertion, a panic, an access through a bad pointer, a
    thread that goes to sleep, a loop that does not end).  [wp] is total
    correctness.  [Machine.v] holds spinlocks, interrupt level and console as
    that code sees them, [Heap.v] the structures it allocates, [Testbed.v] an
    instance of the file layer for evaluation.
    - [Bitmap.v]: [lib/bitmap.c].
    - [Ram.v]: [arch/mips/vm/ram.c], the memory stolen before the coremap runs.
    - [VmStats.v], [VmTlb.v]: [vm/vmstats.c], [vm/vm_tlb.c].
    - [Swapfile.v]: [vm/swapfile.c], over the interface of the file layer.
    - [Coremap.v], [CoremapSpec.v], [KernelPages.v], [UserPage.v],
      [Replacement.v]: [vm/coremap.c], the frame table, kernel pages, the FIFO
      queue of user frames and the eviction of the oldest one.
    - [Pt.v], [Segment.v], [AddrSpace.v]: [vm/pt.c], [vm/segment.c],
      [vm/addrspace.c].
    - [PageMap.v]: the abstract view, a map from the pages of the address
      spaces to their bytes, and [vm_inv], which ties frames, swap slots and
      page table entries to it.
    - [PageVm.v]: [vm/pagevm.c], the page fault handler, boot and shutdown.
    - [LooseQueue.v], [Release.v]: destruction of address spaces, also after
      evictions, when the links of the frames need not be a list any more.
    - [Semaphore.v], [Proc.v]: [proc/proc.c] and [syscall/proc_syscalls.c].
    - [LoadElf.v]: [syscall/loadelf.c], [syscall/runprogram.c].
    - [Scenario.v]: a small machine under memory pressure, on which the
      witnesses and the defects found are evaluated.

    The kernel heap has its own state, an array of words: [KMalloc.v] is
    [vm/kmalloc.c]; [KMallocRefs.v], [KMallocSpec.v], [KMallocAlloc.v],
    [KMallocFree.v] prove it against an interface of the page allocator, a type
    class, which [KMallocPages.v] discharges with the coremap.

    The thread code runs in the monad of [StopState.v].
    - [Threadlist.v]: [thread/threadlist.c], linked nodes in one store.
    - [Synch.v], [SynchTypes.v], [SynchWake.v]: [thread/synch.c] as programs
      whose single steps are interleaved in any way.
    - [Sched.v], [SchedSpec.v], [SchedInv.v], [SchedWake.v], [SchedMigrate.v],
      [SchedFork.v], [SchedOps.v]: [thread/thread.c], [thread/spl.c],
      [thread/spinlock.c], several CPUs with run queues, zombies and wait
      channels.

    The file code runs in the same monad, on a byte memory.
    - [Array.v]: [lib/array.c], resizeable arrays as blocks of cells.
    - [Uio.v]: [lib/uio.c] and [vm/copyinout.c].
    - [Device.v]: the device interface of [include/device.h], two type classes,
      the operation and the laws a file system relies on.
    - [Lhd.v]: [dev/lamebus/lhd.c], which discharges them.
    - [Sfs.v]: [fs/sfs/sfs_balloc.c], [sfs_bmap.c], [sfs_io.c] over any device,
      with the recursive lock of [vfs/vfslist.c].  [SfsSpec.v] is the abstract
      view (a file is a map from offsets to bytes) and the invariant
      [sfs_ok]; [SfsBlock.v], [SfsBmap.v], [SfsRead.v], [SfsIo.v],
      [SfsWrite.v], [SfsTrunc.v] prove the operations in the order of their
      calls; [SfsFile.v] has the theorems on files, on SFS over any block
      device; [SfsFault.v] puts SFS on a disk with a media error.
    - [SfsDir.v]: [fs/sfs/sfs_dir.c] over [sfs_metaio].  [SfsMeta.v],
      [SfsKeeps.v] and [SfsDirSpec.v] prove the access to single entries;
      [SfsDirMap.v] has the theorems: a directory is a map from names to inode
      numbers.
    - [SfsInode.v]: [fs/sfs/sfs_inode.c] and the reference counts of
      [vfs/vnode.c], on a [volume], which adds the table of the vnodes in memory
      and their counts to the state of [Sfs.v].  [SfsVolume.v] is the invariant
      [volume_ok]: the inodes in memory and those only on the disk together own
      every block once.  [SfsInodeRun.v] and [SfsReclaim.v] prove loading,
      writing back, creating and erasing inodes.
    - [SfsVnops.v]: [fs/sfs/sfs_vnops.c].  [SfsNames.v] is the invariant
      [root_ok], by which the names of the root directory are those of files and
      the link count of a file is the number of its names; [SfsNamespace.v]
      proves the operations on names against it; [SfsHistory.v] has the theorems
      on them and on sequences of them, and a volume on which they are
      evaluated.
    - [SfsMount.v]: [fs/sfs/sfs_fsops.c], on a [mount], which adds the
      superblock to the volume.  [SfsMountRun.v] proves the writing back against
      the invariant [mount_ok]; [SfsRemount.v] proves unmounting and mounting
      and has the theorems.

    ** What the theorems show

    - Paging: a valid fault is served, the page has the bytes the executable or
      the swap file holds for it, every other page of every process keeps its
      bytes, and [vm_inv] is kept ([vm_fault_correct]); an invalid one returns
      an error and changes nothing; demand loading of a page equals eager
      loading ([seg_load_page_image]); eviction is FIFO and loses nothing: the
      entry of the evicted page is swapped and its slot holds its bytes
      ([alloc_user_page_fifo]); a page swapped out is read back unchanged
      ([swap_roundtrip]).
    - Frames: kernel blocks are first fit, disjoint and given back exactly;
      destroying an address space frees its frames and slots and no other.
      An eviction leaves a back link in the oldest frame, so [as_destroy] takes
      that frame for one in the middle of the queue ([link_ok]): the frames and
      slots are released all the same, but only without such a link does the
      rest of the frames stay a queue and [vm_inv] hold again
      ([as_destroy_releases]).
    - Processes: pids are unique and chosen in circular order, a waiting parent
      sleeps until the exit, goes on or finds the child gone, gets the low 8
      bits of the status and reaps the child ([exit_wait_reaps]); a program is
      loaded into an address space that satisfies [vm_inv].
    - Heap: the blocks of any sequence of [kmalloc] and [kfree] calls are
      disjoint, no call changes a word of another block, no call fails an
      assertion, as long as fewer than 255 requests found no page
      ([heap_client_safe]); after 256 the allocator can panic.
    - Threads: the lists refine sequences; the lock code is race free, excludes
      and loses no wake-up, whatever the interleaving; every thread is in the
      one place its state names after any sequence of operations, all of which
      return; a ready thread gets its turn.
    - Files: [uiomove] moves exactly the bytes asked for and confines a user
      request to its buffers; the driver moves sectors in order up to the
      first bad one and is idle again in any case ([lhd_io_transfers]); what is
      written to a file is read back, a write changes no other byte of any
      file, holes read as zeros, no block has two owners.
    - Arrays: they implement lists; the loop that doubles their capacity ends
      for every size up to 2^31 and for no other.
    - Names: lookups, creations, links, removals and renamings are operations on
      a map from names to files, in any sequence and without a panic
      ([sfs_names_refine]); a file is erased, with its inode and exactly its
      blocks in the free map, when it has no name and no reference any more, and not before
      ([sfs_remove_removes], [sfs_reclaim_erases]); an inode that left memory
      comes back from the disk as it was ([sfs_reclaim_load]).
    - Mounting: [sfs_sync] makes the disk what the memory is and leaves nothing
      dirty ([sfs_sync_writes]); a volume written back, unmounted and mounted again is
      the same volume ([sfs_remount]).
    - Defects, as theorems about the code as it is: the stale back link after
      an eviction and what the next release makes of it, the stale TLB entry, the overflow
      of the last page of a segment, [pt_copy], the leaks of [pt_create] and of
      the heap descriptors, the wrap of [ram_stealmem], the lost write error
      of [sfs_rwblock], the block [sfs_itrunc] forgets, the doubling of an array
      that never ends.

    ** Loops and fuel

    Loops over arrays are recursion on the array or on the index range.  Other
    loops carry fuel, enough in every state of the invariant, which the
    theorems prove by showing that the function returns: the lists of heap pages
    4097 (one more than the pages there are), the bits of a descriptor bitmap
    33, the search of a pid one round of the table, the list traversals of the
    thread code as many as there are threads or nodes, [uiomove] two rounds for
    each buffer and one more, the doubling of an array 64 rounds, which is
    enough for every size it ends for.  [sfs_rwblock] counts its ten
    retries itself.

    ** Parameters

    The file system below a vnode is a type class ([State.v]) with the laws of
    [VOP_READ] and [VOP_WRITE] the code relies on: bytes written are read back,
    and other offsets and files are unchanged.  [Testbed.v] is an instance.
    That a read is complete is assumed of the file layer only inside a file:
    for whole slots of the swap file ([SwapReliable]) and for the headers and
    the segments of an executable ([reads_full]).
    The allocator the virtual memory code calls is an oracle that says which
    requests succeed.  For the file code: which user addresses can be reached
    ([accessible]) and the current address space ([curas]), the disk card
    ([LhdCard] with the laws of its register interface, for good and for bad
    sectors, instance [plain_card]),
    where the static buffers of SFS, the entries on the stacks of its functions
    and the inodes in memory lie ([Layout], [tsd] and [sd], [inode_addr]), the
    answers of the allocator to come ([v_memory], the argument [memory] of the
    arrays), where the free map and the superblock lie in memory
    ([freemap_addr], [sb_addr]), and the blocks of the superblock and the free map ([meta]).  The
    theorems on SFS ask for a volume of at most 2^23 blocks and offsets below
    2^41, beyond which the code's 32-bit products wrap.

    ** Not modelled

    - The tables of file system and vnode operations: a call through one is a
      call of the function of SFS.  [sfs_mount], which hands [sfs_domount] to the
      VFS layer, and mksfs, which makes the first volume: the theorems start
      from a well-formed one.
    - The VFS layer above (paths, device names, the open file of a process), the
      other file systems and drivers, and the menu.
    - Several threads inside SFS: every operation holds the big lock from its
      start to its end and is run as one piece.
    - System call dispatch and trap entry, which only decode registers.
    - The start of the CPUs, shutdown and the handler of inter-processor
      interrupts; [t_state] of a boot thread stays [S_READY] until its first
      switch, so the theorems on the thread system start from states in which
      each CPU has switched once.
    - In the process code, [thread_exit] is modelled up to [thread_switch] and
      without [thread_checkstack]; a call that would sleep ends the run of that
      code, and the rest of the sleeper is run as [P_resumed] and
      [proc_wait_resumed].
    - Interleavings inside an operation of the thread system, and the effect of
      several CPUs on the virtual memory code, which takes one lock per
      operation and is run as one thread between them.
    - dumbvm, fork, the debugging modes of the heap, hangman: not compiled in
      this configuration. *)

From Stdlib Require Export ZArith Lia Bool.
From stdpp Require Export base tactics numbers list gmap strings.

#[export] Set Warnings "-clear-no-such-hyp".

#[global] Open Scope Z_scope.

(** [lia] reasons about division and remainder by constants everywhere. *)
Ltac Zify.zify_post_hook ::= Z.to_euclidean_division_equations.

(** ** Machine words *)

(** Unsigned 32-bit wrap-around: every [unsigned], [unsigned long], [size_t],
    [vaddr_t] and [paddr_t] of the 32-bit MIPS kernel. *)
Definition u32 (x : Z) : Z := x mod 2^32.
Definition is_u32 (x : Z) : Prop := 0 <= x < 2^32.

Definition PAGE_SIZE : Z := 4096.
Definition PAGE_FRAME : Z := 0xfffff000.
(** [~PAGE_FRAME] at 32 bits. *)
Definition PAGE_OFFSET_MASK : Z := 0xfff.
Definition MIPS_KSEG0 : Z := 0x80000000.
Definition USERSTACK : Z := MIPS_KSEG0.

Definition PADDR_TO_KVADDR (paddr : Z) : Z := u32 (paddr + MIPS_KSEG0).

Lemma u32_small x : is_u32 x -> u32 x = x.
Proof. unfold is_u32, u32. intros. apply Z.mod_small. lia. Qed.

Lemma u32_range x : is_u32 (u32 x).
Proof. unfold is_u32, u32. apply Z.mod_pos_bound. lia. Qed.

Lemma u32_idem x : u32 (u32 x) = u32 x.
Proof. apply u32_small, u32_range. Qed.

(** Equality of machine words: congruence modulo 2^32. *)
Definition eq32 (x y : Z) : Prop := u32 x = u32 y.

#[global] Instance eq32_equivalence : Equivalence eq32.
Proof. unfold eq32. split; [done|by intros ???|by intros ??? -> ->]. Qed.

#[global] Instance eq32_add : Proper (eq32 ==> eq32 ==> eq32) Z.add.
Proof.
  intros x x' Hx y y' Hy. unfold eq32, u32 in *. rewrite (Zplus_mod x y), (Zplus_mod x' y'). by rewrite Hx, Hy.
Qed.

Lemma u32_eq32 x : eq32 (u32 x) x.
Proof. apply u32_idem. Qed.

(** Arithmetic reading of the mask operations the code uses. *)
Lemma land_frame x : is_u32 x -> Z.land x PAGE_FRAME = PAGE_SIZE * (x / PAGE_SIZE).
Proof.
  unfold is_u32, PAGE_FRAME, PAGE_SIZE. intros Hx.
  replace 0xfffff000 with (Z.shiftl (Z.ones 20) 12) by reflexivity.
  replace (Z.land x (Z.shiftl (Z.ones 20) 12))
    with (Z.shiftl (Z.land (Z.shiftr x 12) (Z.ones 20)) 12).
  - rewrite Z.land_ones, Z.shiftl_mul_pow2, Z.shiftr_div_pow2 by lia.
    rewrite Z.mod_small; [change (2^12) with 4096; lia|].
    change (2^12) with 4096. change (2^20) with 1048576. lia.
  - apply Z.bits_inj'. intros n Hn.
    rewrite Z.land_spec, !Z.shiftl_spec by lia.
    destruct (Z_lt_le_dec n 12).
    + rewrite !(Z.testbit_neg_r _ (n - 12)) by lia. by rewrite andb_false_r.
    + rewrite Z.land_spec, Z.shiftr_spec by lia. do 2 f_equal. lia.
Qed.

Lemma land_offset x : Z.land x PAGE_OFFSET_MASK = x mod PAGE_SIZE.
Proof. change PAGE_OFFSET_MASK with (Z.ones 12). by rewrite Z.land_ones by lia. Qed.

Lemma land_one x : Z.land x 1 = x mod 2.
Proof. change 1 with (Z.ones 1) at 1. by rewrite Z.land_ones by lia. Qed.

Lemma land_minus_two x : is_u32 x -> Z.land x 0xfffffffe = x - x mod 2.
Proof.
  unfold is_u32. intros Hx.
  replace 0xfffffffe with (Z.ldiff (Z.ones 32) (Z.ones 1)) by reflexivity.
  replace (Z.land x (Z.ldiff (Z.ones 32) (Z.ones 1)))
    with (Z.ldiff (Z.land x (Z.ones 32)) (Z.ones 1)).
  - rewrite Z.land_ones, Z.mod_small, Z.ldiff_ones_r by lia.
    rewrite Z.shiftl_mul_pow2, Z.shiftr_div_pow2 by lia. change (2^1) with 2. lia.
  - apply Z.bits_inj'. intros n Hn.
    by rewrite Z.land_spec, !Z.ldiff_spec, Z.land_spec, andb_assoc.
Qed.

Lemma lor_one_even x : x mod 2 = 0 -> Z.lor x 1 = x + 1.
Proof.
  intros H. rewrite Z.add_nocarry_lxor, Z.lxor_lor by (by rewrite land_one). done.
Qed.

Create Rewrite HintDb masks.
#[export] Hint Rewrite land_offset land_one : masks.
#[export] Hint Rewrite land_frame land_minus_two u32_small using (unfold is_u32 in *; lia) : masks.

(** ** Arrays indexed by C integers *)

Definition zlen {A} (l : list A) : Z := Z.of_nat (length l).

(** [l[i]]: [None] when [i] is outside the array. *)
Definition zlookup {A} (l : list A) (i : Z) : option A :=
  if i <? 0 then None else l !! Z.to_nat i.

(** [l[i] = x] for an in-range [i]; callers test the range with [zlookup]. *)
Definition zinsert {A} (i : Z) (x : A) (l : list A) : list A :=
  if i <? 0 then l else <[Z.to_nat i := x]> l.

Section arrays.
Context {A : Type}.
Implicit Types (l : list A) (i j : Z) (x : A).

Lemma zlookup_Some_range l i x : zlookup l i = Some x -> 0 <= i < zlen l.
Proof.
  unfold zlookup, zlen. destruct (Z.ltb_spec i 0); [done|].
  intros Hl%lookup_lt_Some. lia.
Qed.

Lemma zlookup_in_range l i : 0 <= i < zlen l -> exists x, zlookup l i = Some x.
Proof.
  unfold zlookup, zlen. intros Hi. destruct (Z.ltb_spec i 0); [lia|].
  apply lookup_lt_is_Some_2. lia.
Qed.

Lemma zlen_zinsert i x l : zlen (zinsert i x l) = zlen l.
Proof. unfold zlen, zinsert. destruct (i <? 0); [done|]. by rewrite length_insert. Qed.

Lemma zlookup_zinsert_eq l i x : 0 <= i < zlen l -> zlookup (zinsert i x l) i = Some x.
Proof.
  unfold zlookup, zinsert, zlen. intros Hi. destruct (Z.ltb_spec i 0); [lia|].
  apply list_lookup_insert_eq. lia.
Qed.

Lemma zlookup_zinsert_ne l i j x : i <> j -> zlookup (zinsert i x l) j = zlookup l j.
Proof.
  unfold zlookup, zinsert. intros Hij.
  destruct (Z.ltb_spec i 0), (Z.ltb_spec j 0); try done.
  apply list_lookup_insert_ne. lia.
Qed.

Lemma zlookup_zinsert l i j x :
  0 <= i < zlen l -> zlookup (zinsert i x l) j = if decide (i = j) then Some x else zlookup l j.
Proof.
  intros. case_decide; subst; [by apply zlookup_zinsert_eq|by apply zlookup_zinsert_ne].
Qed.

Lemma zinsert_zinsert_eq l i x y : zinsert i x (zinsert i y l) = zinsert i x l.
Proof. unfold zinsert. destruct (i <? 0); [done|]. apply list_insert_insert_eq. Qed.

Lemma zinsert_id l i x : zlookup l i = Some x -> zinsert i x l = l.
Proof. unfold zlookup, zinsert. destruct (i <? 0); [done|]. apply list_insert_id. Qed.

Lemma zlookup_replicate n x i :
  zlookup (replicate n x) i = if decide (0 <= i < Z.of_nat n) then Some x else None.
Proof.
  unfold zlookup. destruct (Z.ltb_spec i 0); case_decide; try lia; [done| |].
  - apply lookup_replicate_2. lia.
  - apply lookup_ge_None. rewrite length_replicate. lia.
Qed.

Lemma zlen_replicate n x : zlen (replicate n x) = Z.of_nat n.
Proof. unfold zlen. by rewrite length_replicate. Qed.

Lemma take_zlookup l i x :
  zlookup l i = Some x -> take (Z.to_nat (i + 1)) l = take (Z.to_nat i) l ++ [x].
Proof.
  unfold zlookup. destruct (Z.ltb_spec i 0); [done|]. intros Hx.
  rewrite <- (take_S_r _ _ _ Hx). f_equal. lia.
Qed.

(** Overwriting the element after a prefix of known elements. *)
Lemma zinsert_prefix p l i x :
  0 <= i < zlen l -> zlen p = i ->
  zinsert i x (p ++ drop (Z.to_nat i) l) = (p ++ [x]) ++ drop (Z.to_nat (i + 1)) l.
Proof.
  unfold zinsert, zlen. intros Hi Hp. destruct (Z.ltb_spec i 0); [lia|].
  destruct (lookup_lt_is_Some_2 l (Z.to_nat i)) as [y Hy]; [lia|].
  rewrite (drop_S _ _ _ Hy). replace (S (Z.to_nat i)) with (Z.to_nat (i + 1)) by lia.
  rewrite insert_app_r_alt by lia. replace (Z.to_nat i - length p)%nat with 0%nat by lia.
  cbn. by rewrite <- (assoc_L (++)).
Qed.

Lemma zlist_ext l1 l2 :
  zlen l1 = zlen l2 -> (forall i, 0 <= i < zlen l1 -> zlookup l1 i = zlookup l2 i) -> l1 = l2.
Proof.
  unfold zlen. intros Hlen Hl. apply list_eq. intros i.
  destruct (decide (i < length l1)%nat) as [Hi|Hi].
  - specialize (Hl (Z.of_nat i)). unfold zlookup in Hl.
    rewrite Nat2Z.id in Hl. destruct (Z.ltb_spec (Z.of_nat i) 0); [lia|]. apply Hl. lia.
  - rewrite !lookup_ge_None_2; [done|lia|lia].
Qed.
End arrays.

Create Rewrite HintDb arrays.
Create HintDb arrays discriminated.
#[export] Hint Rewrite @zlen_zinsert @zlen_replicate @zinsert_zinsert_eq : arrays.
#[export] Hint Rewrite @zlookup_zinsert_eq using (autorewrite with arrays; lia) : arrays.
#[export] Hint Rewrite @zlookup_zinsert_ne using (done || lia || congruence) : arrays.
#[export] Hint Resolve zlookup_Some_range : arrays.
