(* ===== verification/State.v ===== *)
(** * The kernel state

    The data types of the headers ([pt.h], [segment.h], [addrspace.h],
    [coremap.h], [proc.h], [bitmap.c]), the record of everything the virtual
    memory and process code mutates, and the interface of the file layer. *)

From S2P Require Import Prelude.

(** ** Error numbers ([kern/errno.h]) *)

Definition ENOSYS : Z := 1.
Definition ENOMEM : Z := 3.
Definition EFAULT : Z := 6.
Definition EINVAL : Z := 8.
Definition EACCES : Z := 10.
Definition ENOEXEC : Z := 13.
Definition ENOSPC : Z := 36.

(** ** Pointers and data types *)

(** A kernel pointer to a structure: [None] is [NULL]. *)
Abbreviation ptr := (option positive).
Abbreviation vnode := positive.

(** [pt_t]: [page_buffer] is the array it points to, [None] for [NULL]. *)
Record pt_t := mk_pt {
  pt_num_pages : Z;
  pt_base_vaddr : Z;
  page_buffer : option (list Z)
}.

Inductive seg_permissions_t := PAGE_RONLY | PAGE_RW | PAGE_EXE | PAGE_STACK.
#[global] Instance seg_permissions_eq_dec : EqDecision seg_permissions_t.
Proof. solve_decision. Defined.

Record ps_t := mk_ps {
  permissions : seg_permissions_t;
  seg_size_bytes : Z;
  file_offset : Z;
  base_vaddr : Z;
  num_pages : Z;
  seg_size_words : Z;
  elf_vnode : option vnode;
  page_table : ptr
}.

Record addrspace_t := mk_as {
  seg_code : ptr;
  seg_data : ptr;
  seg_stack : ptr
}.

Inductive coremap_entry_state :=
  | COREMAP_BUSY_KERNEL | COREMAP_BUSY_USER | COREMAP_UNTRACKED | COREMAP_FREED.
#[global] Instance coremap_entry_state_eq_dec : EqDecision coremap_entry_state.
Proof. solve_decision. Defined.

Record coremap_entry := mk_cme {
  entry_type : coremap_entry_state;
  allocation_size : Z;
  previous_allocated : Z;
  next_allocated : Z;
  virtual_address : Z;
  address_space : ptr
}.

(** [struct bitmap]: the words are bytes. *)
Record bitmap := mk_bitmap { nbits : Z; bm_v : list Z }.

(** [struct proc] in the configuration with [OPT_WAITPID]. *)
Record proc := mk_proc {
  p_name : string;
  p_numthreads : Z;
  p_addrspace : ptr;
  p_cwd : option vnode;
  p_status : Z;
  p_pid : Z;
  p_sem : ptr
}.

(** [struct semaphore]: the wait channel as the list of the threads that sleep
    on it. *)
Record semaphore := mk_sem {
  sem_name : string;
  sem_wchan : list positive;
  sem_count : Z
}.

(** [struct thread], as far as the process code reads it. *)
Record thread := mk_thread { t_proc : ptr }.

(** The spinlocks of the modelled files. *)
Inductive lockid :=
  | coremap_lock | stealmem_lock | page_replacement_lock
  | swaplock | vmstats_lock | processTable_lk | p_lock (p : positive) | sem_lock (x : positive).
#[global] Instance lockid_eq_dec : EqDecision lockid.
Proof. solve_decision. Defined.

(** A line printed by [kprintf]: the format and its integer arguments. *)
Record kmsg := mk_kmsg { km_format : string; km_args : list Z }.

(** ** The mutable state, component by component *)

(** The current CPU and thread: the spinlocks it holds (newest first; the C
    counter [c_spinlocks] is the length of this list), the interrupt level and
    the current process, [curthread->t_proc]. *)
Record cpu_st := mk_cpu {
  held : list lockid;
  t_curspl : Z;
  t_in_interrupt : bool;
  curproc : ptr
}.

Record ram_st := mk_ram { firstfree : Z; firstpaddr : Z; lastpaddr : Z }.

Record coremap_st := mk_cm {
  coremap : list coremap_entry;
  total_ram_frames : Z;
  is_coremap_initialized : bool;
  invalid_reference : Z;
  last_allocated_page : Z;
  current_victim_page : Z
}.

(** The 64 hardware TLB entries [(entryhi, entrylo)] and [vm_tlb.c]'s cursor. *)
Record tlb_st := mk_tlb { tlb_entries : list (Z * Z); current_victim : Z }.

Record stats_st := mk_stats { vmstats_active : bool; vmstats_counts : list Z }.

Record swap_st := mk_swap { swapfile : option vnode; swapmap : option bitmap }.

(** The kernel heap: live structures by address, the next fresh address, and
    the answers [kmalloc] will give ([true]: memory, [false]: [NULL]; an
    exhausted script answers [true]). *)
Record heap_st := mk_heap {
  h_as : gmap positive addrspace_t;
  h_ps : gmap positive ps_t;
  h_pt : gmap positive pt_t;
  h_proc : gmap positive proc;
  h_sem : gmap positive semaphore;
  h_thread : gmap positive thread;
  h_next : positive;
  kmalloc_script : list bool
}.

Record proctab_st := mk_ptab {
  pt_active : Z;
  pt_proc : list ptr;
  pt_last_i : Z;
  kproc : ptr
}.

(** ** The file layer

    [VOP_READ], [VOP_WRITE], [VOP_INCREF], [VOP_DECREF], [vfs_open] and
    [vfs_close] dispatch on the vnode to
    a file system; the virtual memory code relies only on what [vnode.h]
    documents.  An operation on a kernel buffer is given the offset and the
    length (or the bytes) and returns an error number, the bytes transferred
    and the new file-layer state. *)
Class VnodeOps (FS : Type) := {
  vop_read : vnode -> Z -> Z -> FS -> Z * list Z * FS;
  vop_write : vnode -> Z -> list Z -> FS -> Z * Z * FS;
  vfs_open : string -> Z -> FS -> Z * vnode * FS;
  vfs_close : vnode -> FS -> FS;
  vop_incref : vnode -> FS -> FS;
  vop_decref : vnode -> FS -> FS
}.

(** What the documentation of the vnode operations promises: the bytes of a
    file are a function of the offset; a read returns them, a write replaces
    those it reports as taken and no others, and the reference operations keep
    the contents of the other files. *)
Class VnodeLaws (FS : Type) {VO : VnodeOps FS} := {
  file_byte : FS -> vnode -> Z -> Z;
  vop_read_length v off len fs e bs fs' :
    vop_read v off len fs = (e, bs, fs') -> 0 <= len -> zlen bs <= len;
  vop_read_bytes v off len fs e bs fs' :
    vop_read v off len fs = (e, bs, fs') ->
    forall i b, zlookup bs i = Some b -> b = file_byte fs v (off + i);
  vop_read_frame v off len fs e bs fs' :
    vop_read v off len fs = (e, bs, fs') ->
    forall w o, file_byte fs' w o = file_byte fs w o;
  vop_write_count v off bs fs e n fs' :
    vop_write v off bs fs = (e, n, fs') -> 0 <= n <= zlen bs;
  vop_write_bytes v off bs fs e n fs' :
    vop_write v off bs fs = (e, n, fs') ->
    forall i b, zlookup bs i = Some b -> i < n -> file_byte fs' v (off + i) = b;
  vop_write_frame v off bs fs e n fs' :
    vop_write v off bs fs = (e, n, fs') ->
    forall w o, w <> v \/ ~ (off <= o < off + n) -> file_byte fs' w o = file_byte fs w o;
  vfs_close_frame v fs w o : w <> v -> file_byte (vfs_close v fs) w o = file_byte fs w o;
  vop_incref_frame v fs w o : file_byte (vop_incref v fs) w o = file_byte fs w o;
  vop_decref_frame v fs w o : w <> v -> file_byte (vop_decref v fs) w o = file_byte fs w o
}.

(** ** The whole state *)

Record kstate (FS : Type) := mk_state {
  s_cpu : cpu_st;
  s_ram : ram_st;
  s_cm : coremap_st;
  s_tlb : tlb_st;
  s_stats : stats_st;
  s_swap : swap_st;
  s_heap : heap_st;
  s_ptab : proctab_st;
  s_mem : Z -> Z;
  s_fs : FS;
  s_log : list kmsg
}.
Arguments mk_state {FS}.
Arguments s_cpu {FS}. Arguments s_ram {FS}. Arguments s_cm {FS}. Arguments s_tlb {FS}.
Arguments s_stats {FS}. Arguments s_swap {FS}. Arguments s_heap {FS}. Arguments s_ptab {FS}.
Arguments s_mem {FS}. Arguments s_fs {FS}. Arguments s_log {FS}.

Section setters.
Context {FS : Type}.
Implicit Types s : kstate FS.
Definition set_cpu (x : cpu_st) s : kstate FS :=
  mk_state x (s_ram s) (s_cm s) (s_tlb s) (s_stats s) (s_swap s) (s_heap s) (s_ptab s) (s_mem s) (s_fs s) (s_log s).
Definition set_ram (x : ram_st) s : kstate FS :=
  mk_state (s_cpu s) x (s_cm s) (s_tlb s) (s_stats s) (s_swap s) (s_heap s) (s_ptab s) (s_mem s) (s_fs s) (s_log s).
Definition set_cm (x : coremap_st) s : kstate FS :=
  mk_state (s_cpu s) (s_ram s) x (s_tlb s) (s_stats s) (s_swap s) (s_heap s) (s_ptab s) (s_mem s) (s_fs s) (s_log s).
Definition set_tlb (x : tlb_st) s : kstate FS :=
  mk_state (s_cpu s) (s_ram s) (s_cm s) x (s_stats s) (s_swap s) (s_heap s) (s_ptab s) (s_mem s) (s_fs s) (s_log s).
Definition set_stats (x : stats_st) s : kstate FS :=
  mk_state (s_cpu s) (s_ram s) (s_cm s) (s_tlb s) x (s_swap s) (s_heap s) (s_ptab s) (s_mem s) (s_fs s) (s_log s).
Definition set_swap (x : swap_st) s : kstate FS :=
  mk_state (s_cpu s) (s_ram s) (s_cm s) (s_tlb s) (s_stats s) x (s_heap s) (s_ptab s) (s_mem s) (s_fs s) (s_log s).
Definition set_heap (x : heap_st) s : kstate FS :=
  mk_state (s_cpu s) (s_ram s) (s_cm s) (s_tlb s) (s_stats s) (s_swap s) x (s_ptab s) (s_mem s) (s_fs s) (s_log s).
Definition set_ptab (x : proctab_st) s : kstate FS :=
  mk_state (s_cpu s) (s_ram s) (s_cm s) (s_tlb s) (s_stats s) (s_swap s) (s_heap s) x (s_mem s) (s_fs s) (s_log s).
Definition set_mem (x : Z -> Z) s : kstate FS :=
  mk_state (s_cpu s) (s_ram s) (s_cm s) (s_tlb s) (s_stats s) (s_swap s) (s_heap s) (s_ptab s) x (s_fs s) (s_log s).
Definition set_fs (x : FS) s : kstate FS :=
  mk_state (s_cpu s) (s_ram s) (s_cm s) (s_tlb s) (s_stats s) (s_swap s) (s_heap s) (s_ptab s) (s_mem s) x (s_log s).
Definition set_log (x : list kmsg) s : kstate FS :=
  mk_state (s_cpu s) (s_ram s) (s_cm s) (s_tlb s) (s_stats s) (s_swap s) (s_heap s) (s_ptab s) (s_mem s) (s_fs s) x.
End setters.
