(* ===== verification/Monad.v ===== *)
(** * The state-and-stop monad of the kernel code

    A kernel function either returns a value and a new state or stops the
    run: a failed [KASSERT], a call of [panic], or an access through a [NULL],
    freed or out-of-range pointer, and, in the code of processes, a thread that
    has to sleep or a loop that does not end.  [wp] is total correctness: the
    function returns, without stopping, in a state that satisfies the
    postcondition. *)

From S2P Require Import Prelude State.

Inductive stop_reason :=
  | KASSERT_failed (what : string)
  | panic_called (msg : string)
  | bad_access (what : string)
  | would_sleep (what : string)
  | loops_forever (what : string).

Inductive res (FS A : Type) :=
  | Ok (a : A) (s : kstate FS)
  | Stop (why : stop_reason).
Arguments Ok {FS A}.
Arguments Stop {FS A}.

Definition M (FS A : Type) : Type := kstate FS -> res FS A.

Declare Scope kern_scope.
Delimit Scope kern_scope with kern.

Section monad.
Context {FS : Type}.

Definition ret {A} (a : A) : M FS A := fun s => Ok a s.
Definition stop {A} (r : stop_reason) : M FS A := fun _ => Stop r.
Definition bind {A B} (m : M FS A) (k : A -> M FS B) : M FS B := fun s =>
  match m s with Ok a s' => k a s' | Stop r => Stop r end.
Definition get {A} (f : kstate FS -> A) : M FS A := fun s => Ok (f s) s.
Definition modify (f : kstate FS -> kstate FS) : M FS unit := fun s => Ok tt (f s).

(** [KASSERT(b)] and [panic(msg)]. *)
Definition kassert (b : bool) (what : string) : M FS unit := fun s =>
  if b then Ok tt s else Stop (KASSERT_failed what).
Definition panic {A} (msg : string) : M FS A := stop (panic_called msg).

(** The value behind a pointer, an array element, ...: absent means the
    access is invalid. *)
Definition deref {A} (o : option A) (what : string) : M FS A := fun s =>
  match o with Some a => Ok a s | None => Stop (bad_access what) end.

(** A pure computation that may stop. *)
Definition lift {A} (r : stop_reason + A) : M FS A :=
  match r with inl e => stop e | inr a => ret a end.

(** [for (i = lo; n times; i++) body(i)] *)
Fixpoint mfor (n : nat) (i : Z) (body : Z -> M FS unit) : M FS unit :=
  match n with
  | O => ret tt
  | S n' => bind (body i) (fun _ => mfor n' (i + 1) body)
  end.

Definition wp {A} (m : M FS A) (s : kstate FS) (Q : A -> kstate FS -> Prop) : Prop :=
  match m s with Ok a s' => Q a s' | Stop _ => False end.

Lemma wp_ret {A} (a : A) s (Q : A -> kstate FS -> Prop) : Q a s -> wp (ret a) s Q.
Proof. done. Qed.

Lemma wp_bind {A B} (m : M FS A) (k : A -> M FS B) s Q :
  wp m s (fun a s' => wp (k a) s' Q) -> wp (bind m k) s Q.
Proof. unfold wp, bind. by destruct (m s). Qed.

Lemma wp_mono {A} (m : M FS A) s (P Q : A -> kstate FS -> Prop) :
  wp m s P -> (forall a s', P a s' -> Q a s') -> wp m s Q.
Proof. unfold wp. destruct (m s); naive_solver. Qed.

Lemma wp_run {A} (m : M FS A) s a s' (Q : A -> kstate FS -> Prop) :
  m s = Ok a s' -> Q a s' -> wp m s Q.
Proof. unfold wp. by intros ->. Qed.

Lemma wp_Ok {A} (m : M FS A) s (Q : A -> kstate FS -> Prop) :
  wp m s Q -> exists a s', m s = Ok a s' /\ Q a s'.
Proof. unfold wp. destruct (m s); naive_solver. Qed.

Lemma bind_Ok {A B} (m : M FS A) (k : A -> M FS B) s a s' :
  m s = Ok a s' -> bind m k s = k a s'.
Proof. unfold bind. by intros ->. Qed.

Lemma bind_Stop {A B} (m : M FS A) (k : A -> M FS B) s r :
  m s = Stop r -> bind m k s = Stop r.
Proof. unfold bind. by intros ->. Qed.

(** One step of execution. *)
Lemma run_ret {A B} (a : A) (k : A -> M FS B) s : bind (ret a) k s = k a s.
Proof. done. Qed.
Lemma run_get {A B} (f : kstate FS -> A) (k : A -> M FS B) s : bind (get f) k s = k (f s) s.
Proof. done. Qed.
Lemma run_modify {B} f (k : unit -> M FS B) s : bind (modify f) k s = k tt (f s).
Proof. done. Qed.
Lemma run_bind {A B C} (m : M FS A) (f : A -> M FS B) (k : B -> M FS C) s :
  bind (bind m f) k s = bind m (fun a => bind (f a) k) s.
Proof. unfold bind. by destruct (m s). Qed.
Lemma run_kassert {B} b what (k : unit -> M FS B) s :
  b = true -> bind (kassert b what) k s = k tt s.
Proof. unfold bind, kassert. by intros ->. Qed.
Lemma run_deref {A B} (o : option A) what a (k : A -> M FS B) s :
  o = Some a -> bind (deref o what) k s = k a s.
Proof. unfold bind, deref. by intros ->. Qed.

Lemma wp_kassert b what s (Q : unit -> kstate FS -> Prop) :
  b = true -> Q tt s -> wp (kassert b what) s Q.
Proof. unfold wp, kassert. by intros ->. Qed.

Lemma wp_deref {A} (o : option A) what a s (Q : A -> kstate FS -> Prop) :
  o = Some a -> Q a s -> wp (deref o what) s Q.
Proof. unfold wp, deref. by intros ->. Qed.

(** A counted loop whose states are known: [st i] is the state before
    iteration [i]. *)
Lemma mfor_run (st : Z -> kstate FS) n lo body s :
  s = st lo ->
  (forall i, lo <= i < lo + Z.of_nat n -> body i (st i) = Ok tt (st (i + 1))) ->
  mfor n lo body s = Ok tt (st (lo + Z.of_nat n)).
Proof.
  intros ->. revert lo. induction n as [|n IH]; intros lo H; cbn [mfor].
  - by rewrite Z.add_0_r.
  - rewrite (bind_Ok _ _ _ _ _ (H lo ltac:(lia))), IH; [do 2 f_equal; lia|].
    intros i Hi. apply H. lia.
Qed.

(** A counted loop with an invariant indexed by the counter. *)
Lemma wp_mfor (I : Z -> kstate FS -> Prop) n lo body s (Q : unit -> kstate FS -> Prop) :
  I lo s ->
  (forall i s', lo <= i < lo + Z.of_nat n -> I i s' -> wp (body i) s' (fun _ s'' => I (i + 1) s'')) ->
  (forall s', I (lo + Z.of_nat n) s' -> Q tt s') ->
  wp (mfor n lo body) s Q.
Proof.
  revert lo s. induction n as [|n IH]; intros lo s HI Hbody HQ; cbn [mfor].
  - apply wp_ret, HQ. by rewrite Z.add_0_r.
  - apply wp_bind. eapply wp_mono; [apply Hbody; [lia|done]|].
    intros [] s' HI'. apply IH; [done| |].
    + intros i s'' Hi. apply Hbody. lia.
    + intros s'' H. apply HQ. by replace (lo + Z.of_nat (S n)) with (lo + 1 + Z.of_nat n) by lia.
Qed.
End monad.

Notation "x <- m ;; k" := (bind m (fun x => k))
  (at level 100, m at next level, k at level 200, right associativity) : kern_scope.
Notation "m ;; k" := (bind m (fun _ => k)) : kern_scope.

#[global] Open Scope kern_scope.

Create Rewrite HintDb run.
#[export] Hint Rewrite @run_ret @run_get @run_modify @run_bind : run.
