(* ===== verification/Machine.v ===== *)
(** * Locks, interrupt level, kernel memory and console

    [spinlock.c] and [spl.c] as one CPU sees them, the kernel allocator as its
    callers see it, physical memory through the direct-mapped segment, and the
    transfers between a kernel buffer and a vnode. *)

From S2P Require Import Prelude State Monad.

(** ** Physical memory *)

(** The bytes [bs] stored from address [a] on. *)
Definition mem_write (m : Z -> Z) (a : Z) (bs : list Z) : Z -> Z := fun x =>
  if (a <=? x) && (x <? a + zlen bs) then default 0 (zlookup bs (x - a)) else m x.

(** [n] zero bytes from address [a] on. *)
Definition mem_zero (m : Z -> Z) (a n : Z) : Z -> Z := fun x =>
  if (a <=? x) && (x <? a + n) then 0 else m x.

(** The [n] bytes from address [a] on. *)
Definition mem_read (m : Z -> Z) (a n : Z) : list Z :=
  (fun i => m (a + Z.of_nat i)) <$> seq 0 (Z.to_nat n).

Lemma zlen_mem_read m a n : 0 <= n -> zlen (mem_read m a n) = n.
Proof. intros. unfold zlen, mem_read. rewrite length_fmap, length_seq. lia. Qed.

Lemma zlookup_mem_read m a n i : 0 <= i < n -> zlookup (mem_read m a n) i = Some (m (a + i)).
Proof.
  intros Hi. unfold zlookup, mem_read. destruct (Z.ltb_spec i 0); [lia|].
  rewrite list_lookup_fmap, lookup_seq_lt by lia. cbn. do 2 f_equal. lia.
Qed.

Lemma mem_write_in m a bs x :
  a <= x < a + zlen bs -> mem_write m a bs x = default 0 (zlookup bs (x - a)).
Proof.
  intros Hx. unfold mem_write.
  destruct (Z.leb_spec a x), (Z.ltb_spec x (a + zlen bs)); try lia; done.
Qed.

Lemma mem_write_out m a bs x : ~ (a <= x < a + zlen bs) -> mem_write m a bs x = m x.
Proof.
  intros Hx. unfold mem_write.
  destruct (Z.leb_spec a x), (Z.ltb_spec x (a + zlen bs)); try lia; done.
Qed.

Lemma mem_zero_spec m a n x :
  mem_zero m a n x = if decide (a <= x < a + n) then 0 else m x.
Proof.
  unfold mem_zero. case_decide; destruct (Z.leb_spec a x), (Z.ltb_spec x (a + n)); try lia; done.
Qed.

(** Address of a kernel pointer of the direct-mapped segment. *)
Definition kva_to_pa (kva : Z) : Z := u32 (kva - MIPS_KSEG0).

Lemma kva_to_pa_kva pa : is_u32 pa -> kva_to_pa (PADDR_TO_KVADDR pa) = pa.
Proof.
  unfold kva_to_pa, PADDR_TO_KVADDR, u32, is_u32, MIPS_KSEG0. intros H.
  rewrite Zminus_mod_idemp_l. rewrite Z.mod_small; lia.
Qed.

(** ** Locks and interrupt level *)

Section machine.
Context {FS : Type}.
Implicit Types s : kstate FS.

Definition with_held (h : list lockid) s : kstate FS :=
  set_cpu (mk_cpu h (t_curspl (s_cpu s)) (t_in_interrupt (s_cpu s)) (curproc (s_cpu s))) s.

Definition with_spl (l : Z) s : kstate FS :=
  set_cpu (mk_cpu (held (s_cpu s)) l (t_in_interrupt (s_cpu s)) (curproc (s_cpu s))) s.

(** [spinlock_acquire]: a lock this CPU already holds is a deadlock. *)
Definition spinlock_acquire (l : lockid) : M FS unit :=
  h <- get (fun s => held (s_cpu s)) ;;
  if bool_decide (l ∈ h) then panic "Deadlock on spinlock"
  else modify (with_held (l :: h)).

Definition spinlock_release (l : lockid) : M FS unit :=
  h <- get (fun s => held (s_cpu s)) ;;
  kassert (bool_decide (l ∈ h)) "splk->splk_holder == curcpu->c_self" ;;
  modify (with_held (filter (fun k => k <> l) h)).

Definition IPL_NONE : Z := 0.
Definition IPL_HIGH : Z := 1.

(** [splx]: returns the level that was in force. *)
Definition splx (spl : Z) : M FS Z :=
  old <- get (fun s => t_curspl (s_cpu s)) ;;
  modify (with_spl spl) ;;
  ret old.

Definition splhigh : M FS Z := splx IPL_HIGH.

(** No spinlock is held: the state every entry point of the VM code runs in. *)
Definition idle s : Prop := held (s_cpu s) = [].

Lemma with_held_held s : with_held (held (s_cpu s)) s = s.
Proof. destruct s as [[]]. done. Qed.

Lemma with_held_idle s : idle s -> with_held [] s = s.
Proof. unfold idle. destruct s as [[]]. cbn. by intros ->. Qed.

Lemma with_spl_same s : with_spl (t_curspl (s_cpu s)) s = s.
Proof. destruct s as [[]]. done. Qed.

Lemma acquire_run l s : idle s -> spinlock_acquire l s = Ok tt (with_held [l] s).
Proof. unfold idle, spinlock_acquire, bind, get. by intros ->. Qed.

Lemma release_run l s : spinlock_release l (with_held [l] s) = Ok tt (with_held [] s).
Proof.
  unfold spinlock_release, bind, get, kassert, modify, with_held. cbn.
  rewrite bool_decide_eq_true_2 by set_solver.
  rewrite decide_False by congruence. done.
Qed.

Lemma release_run' l s : held (s_cpu s) = [l] -> spinlock_release l s = Ok tt (with_held [] s).
Proof.
  intros Hh. replace s with (with_held [l] s) at 1; [by rewrite release_run|].
  rewrite <- Hh. apply with_held_held.
Qed.

Lemma run_acquire {B} l (k : unit -> M FS B) s :
  idle s -> bind (spinlock_acquire l) k s = k tt (with_held [l] s).
Proof. intros. apply bind_Ok. by apply acquire_run. Qed.

Lemma run_release {B} l (k : unit -> M FS B) s :
  held (s_cpu s) = [l] -> bind (spinlock_release l) k s = k tt (with_held [] s).
Proof. intros. apply bind_Ok. by apply release_run'. Qed.
End machine.

#[export] Hint Rewrite @run_acquire using (assumption || reflexivity) : run.
#[export] Hint Rewrite @run_release using reflexivity : run.

(** Two states built from the same idle state are equal. *)
Ltac state_eq :=
  repeat match goal with s : kstate _ |- _ =>
    destruct s as [[] [] [] [] [] [] [] [] ? ? ?] end;
  unfold idle in *; cbn in *; simplify_eq; reflexivity.

(** Execute the straight-line code of the goal [m s = _]. *)
Ltac run := autorewrite with run.

(** ** The kernel allocator, the console and file transfers *)

Section services.
Context {FS : Type}.
Implicit Types s : kstate FS.

(** [kmalloc(size) != NULL]: the next answer of the script. *)
Definition kmalloc (size : Z) : M FS bool := fun s =>
  let h := s_heap s in
  match kmalloc_script h with
  | [] => Ok true s
  | b :: rest =>
      Ok b (set_heap (mk_heap (h_as h) (h_ps h) (h_pt h) (h_proc h) (h_sem h) (h_thread h) (h_next h) rest) s)
  end.

(** The answer and the state after it. *)
Definition kmalloc_answer s : bool := match kmalloc_script (s_heap s) with [] => true | b :: _ => b end.
Definition kmalloc_after s : kstate FS :=
  let h := s_heap s in
  set_heap (mk_heap (h_as h) (h_ps h) (h_pt h) (h_proc h) (h_sem h) (h_thread h) (h_next h) (tail (kmalloc_script h))) s.

Lemma run_kmalloc {B} n (k : bool -> M FS B) s :
  bind (kmalloc n) k s = k (kmalloc_answer s) (kmalloc_after s).
Proof.
  unfold bind, kmalloc, kmalloc_answer, kmalloc_after.
  destruct s as [? ? ? ? ? ? [? ? ? ? ? ? ? []] ? ? ? ?]; done.
Qed.

(** The address of a structure just allocated. *)
Definition fresh_ptr : M FS positive := fun s =>
  let h := s_heap s in
  Ok (h_next h)
     (set_heap (mk_heap (h_as h) (h_ps h) (h_pt h) (h_proc h) (h_sem h) (h_thread h) (Pos.succ (h_next h)) (kmalloc_script h)) s).

Definition kprintf (fmt : string) (args : list Z) : M FS unit :=
  modify (fun s => set_log (s_log s ++ [mk_kmsg fmt args]) s).

(** [bzero] on a kernel address. *)
Definition bzero (kva n : Z) : M FS unit :=
  modify (fun s => set_mem (mem_zero (s_mem s) (kva_to_pa kva) n) s).

Context {VO : VnodeOps FS}.

(** [uio_kinit(&iov, &u, kbuf, len, off, UIO_READ); e = VOP_READ(v, &u)]:
    the error number and [u.uio_resid]. *)
Definition vnode_kread (v : vnode) (kbuf len off : Z) : M FS (Z * Z) := fun s =>
  let '(e, bs, fs') := vop_read v off len (s_fs s) in
  Ok (e, len - zlen bs) (set_mem (mem_write (s_mem s) (kva_to_pa kbuf) bs) (set_fs fs' s)).

(** The same with [UIO_WRITE] and [VOP_WRITE]. *)
Definition vnode_kwrite (v : vnode) (kbuf len off : Z) : M FS (Z * Z) := fun s =>
  let '(e, n, fs') := vop_write v off (mem_read (s_mem s) (kva_to_pa kbuf) len) (s_fs s) in
  Ok (e, len - n) (set_fs fs' s).
End services.

#[export] Hint Rewrite @run_kmalloc : run.
