(* ===== verification/Testbed.v ===== *)
(** * A concrete file layer and blank states for evaluation

    The interface of the file layer instantiated by files of unbounded length
    held in memory; it satisfies the documented laws, and the definitions of
    the development evaluate on it. *)

From S2P Require Import Prelude State Monad Machine.

(** The byte at each offset of each vnode. *)
Record memfs := mk_memfs { mf_byte : vnode -> Z -> Z }.

Definition memfs_read (v : vnode) (off len : Z) (fs : memfs) : Z * list Z * memfs :=
  (0, mem_read (mf_byte fs v) off len, fs).

Definition memfs_write (v : vnode) (off : Z) (bs : list Z) (fs : memfs) : Z * Z * memfs :=
  (0, zlen bs, mk_memfs (fun w => if bool_decide (w = v) then mem_write (mf_byte fs v) off bs else mf_byte fs w)).

Definition memfs_open (path : string) (flags : Z) (fs : memfs) : Z * vnode * memfs :=
  (0, if String.eqb path "emu0:/SWAPFILE" then 1%positive else 2%positive, fs).

#[global] Instance memfs_ops : VnodeOps memfs := {
  vop_read := memfs_read;
  vop_write := memfs_write;
  vfs_open := memfs_open;
  vfs_close _ fs := fs;
  vop_incref _ fs := fs;
  vop_decref _ fs := fs
}.

#[global] Instance memfs_laws : VnodeLaws memfs.
Proof.
  refine {| file_byte fs v o := mf_byte fs v o |}; cbn.
  - intros ???????. unfold memfs_read. intros [= <- <- <-] ?. rewrite zlen_mem_read; lia.
  - intros v off len fs e bs fs'. unfold memfs_read. intros [= <- <- <-] i b Hb.
    destruct (decide (0 <= i < len)).
    + rewrite zlookup_mem_read in Hb by done. congruence.
    + apply zlookup_Some_range in Hb. unfold zlen, mem_read in Hb.
      rewrite length_fmap, length_seq in Hb. lia.
  - intros ???????. unfold memfs_read. by intros [= <- <- <-].
  - intros ???????. unfold memfs_write. intros [= <- <- <-]. unfold zlen. lia.
  - intros v off bs fs e n fs'. unfold memfs_write. intros [= <- <- <-] i b Hb Hi.
    cbn. rewrite bool_decide_eq_true_2 by done. pose proof (zlookup_Some_range _ _ _ Hb).
    rewrite mem_write_in by lia. replace (off + i - off) with i by lia. by rewrite Hb.
  - intros v off bs fs e n fs'. unfold memfs_write. intros [= <- <- <-] w o Hwo. cbn.
    case_bool_decide as Hw; [subst|done]. apply mem_write_out. by destruct Hwo.
  - done.
  - done.
  - done.
Defined.

(** Nothing initialised yet: no coremap, empty heap, counters off. *)
Definition blank_cpu : cpu_st := mk_cpu [] 0 false None.
Definition blank_tlb : tlb_st := mk_tlb (replicate 64 (0, 0)) 0.
Definition blank_stats : stats_st := mk_stats false (replicate 10 0).
Definition blank_heap : heap_st := mk_heap ∅ ∅ ∅ ∅ ∅ ∅ 1 [].
Definition blank_cm : coremap_st := mk_cm [] 0 false 0 0 0.
Definition blank_fs : memfs := mk_memfs (fun v o => (Z.pos v + o) mod 256).

Definition blank_state : kstate memfs :=
  mk_state blank_cpu (mk_ram 0 0 0) blank_cm blank_tlb blank_stats (mk_swap None None)
    blank_heap (mk_ptab 0 (replicate 101 None) 0 None) (fun _ => 0xaa) blank_fs [].
