(* ===== verification/Bitmap.v ===== *)
(** * Bitmaps ([kern/lib/bitmap.c])

    The operations on the byte array, the well-formedness invariant, and the
    view of a bitmap as a set of allocated indices: allocation returns the
    least free index and no [KASSERT] of the file can fail on a well-formed
    bitmap. *)

From S2P Require Import Prelude State Monad Machine.

Definition BITS_PER_WORD : Z := 8.
Definition WORD_ALLBITS : Z := 0xff.

(** [DIVROUNDUP(a, b)] on unsigned operands. *)
Definition DIVROUNDUP (a b : Z) : Z := u32 (a + b - 1) / b.

(** [bitmap_translate]: word index and mask of a bit. *)
Definition bitmap_translate (bitno : Z) : Z * Z :=
  let ix := bitno / BITS_PER_WORD in
  let offset := bitno mod BITS_PER_WORD in
  (ix, Z.shiftl 1 offset).

(** The loop [for (j=overbits; j<BITS_PER_WORD; j++) b->v[ix] |= 1 << j]. *)
Fixpoint set_leftover (fuel : nat) (j w : Z) : Z :=
  match fuel with
  | O => w
  | S fuel' => if j <? BITS_PER_WORD then set_leftover fuel' (j + 1) (Z.lor w (Z.shiftl 1 j)) else w
  end.

(** The part of [bitmap_create] that follows the two allocations. *)
Definition bitmap_setup (nb : Z) : stop_reason + bitmap :=
  let words := DIVROUNDUP nb BITS_PER_WORD in
  let v := replicate (Z.to_nat words) 0 in
  if nb / BITS_PER_WORD <? words then
    let ix := words - 1 in
    let overbits := nb - ix * BITS_PER_WORD in
    if negb (nb / BITS_PER_WORD =? words - 1) then inl (KASSERT_failed "nbits / BITS_PER_WORD == words-1")
    else if negb ((0 <? overbits) && (overbits <? BITS_PER_WORD)) then
      inl (KASSERT_failed "overbits > 0 && overbits < BITS_PER_WORD")
    else match zlookup v ix with
         | Some w => inr (mk_bitmap nb (zinsert ix (set_leftover 8 overbits w) v))
         | None => inl (bad_access "b->v[ix]")
         end
  else inr (mk_bitmap nb v).

(** The inner loop of [bitmap_alloc]: the first clear bit of a word. *)
Fixpoint bitmap_alloc_offset (fuel : nat) (offset w : Z) : option Z :=
  match fuel with
  | O => None
  | S fuel' =>
      if Z.land w (Z.shiftl 1 offset) =? 0 then Some offset
      else bitmap_alloc_offset fuel' (offset + 1) w
  end.

(** The outer loop: [fuel] words are left, starting at word [ix]. *)
Fixpoint bitmap_alloc_from (fuel : nat) (ix : Z) (b : bitmap) : stop_reason + (Z * Z * bitmap) :=
  match fuel with
  | O => inr (ENOSPC, 0, b)
  | S fuel' =>
      match zlookup (bm_v b) ix with
      | None => inl (bad_access "b->v[ix]")
      | Some w =>
          if w =? WORD_ALLBITS then bitmap_alloc_from fuel' (ix + 1) b
          else match bitmap_alloc_offset 8 0 w with
               | None => inl (KASSERT_failed "0")
               | Some offset =>
                   let index := ix * BITS_PER_WORD + offset in
                   if index <? nbits b then
                     inr (0, index, mk_bitmap (nbits b) (zinsert ix (Z.lor w (Z.shiftl 1 offset)) (bm_v b)))
                   else inl (KASSERT_failed "*index < b->nbits")
               end
      end
  end.

(** [bitmap_alloc]: error number, index, updated bitmap. *)
Definition bitmap_alloc (b : bitmap) : stop_reason + (Z * Z * bitmap) :=
  bitmap_alloc_from (Z.to_nat (DIVROUNDUP (nbits b) BITS_PER_WORD)) 0 b.

Definition bitmap_mark (b : bitmap) (index : Z) : stop_reason + bitmap :=
  if negb (index <? nbits b) then inl (KASSERT_failed "index < b->nbits")
  else let '(ix, mask) := bitmap_translate index in
       match zlookup (bm_v b) ix with
       | None => inl (bad_access "b->v[ix]")
       | Some w =>
           if Z.land w mask =? 0 then inr (mk_bitmap (nbits b) (zinsert ix (Z.lor w mask) (bm_v b)))
           else inl (KASSERT_failed "(b->v[ix] & mask)==0")
       end.

Definition bitmap_unmark (b : bitmap) (index : Z) : stop_reason + bitmap :=
  if negb (index <? nbits b) then inl (KASSERT_failed "index < b->nbits")
  else let '(ix, mask) := bitmap_translate index in
       match zlookup (bm_v b) ix with
       | None => inl (bad_access "b->v[ix]")
       | Some w =>
           if Z.land w mask =? 0 then inl (KASSERT_failed "(b->v[ix] & mask)!=0")
           else inr (mk_bitmap (nbits b) (zinsert ix (Z.land w (Z.lnot mask)) (bm_v b)))
       end.

(** [bitmap_isset] has no range check of its own. *)
Definition bitmap_isset (b : bitmap) (index : Z) : stop_reason + bool :=
  let '(ix, mask) := bitmap_translate index in
  match zlookup (bm_v b) ix with
  | None => inl (bad_access "b->v[ix]")
  | Some w => inr (negb (Z.land w mask =? 0))
  end.

(** [bitmap_create] with its two allocations. *)
Definition bitmap_create {FS} (nb : Z) : M FS (option bitmap) :=
  ok <- kmalloc 8 ;;
  if negb ok then ret None else
  ok' <- kmalloc (DIVROUNDUP nb BITS_PER_WORD) ;;
  if negb ok' then ret None else
  match bitmap_setup nb with
  | inl r => stop r
  | inr b => ret (Some b)
  end.

(** ** The bitmap as a set of indices *)

(** Bit [i] is set. *)
Definition bit (b : bitmap) (i : Z) : bool :=
  match zlookup (bm_v b) (i / 8) with Some w => Z.testbit w (i mod 8) | None => false end.

(** Words are bytes, there are exactly enough of them, and the bits beyond
    [nbits] are in use. *)
Record bitmap_wf (b : bitmap) : Prop := {
  bwf_nbits : 0 <= nbits b < 2^32 - 8;
  bwf_len : zlen (bm_v b) = (nbits b + 7) / 8;
  bwf_bytes : forall i w, zlookup (bm_v b) i = Some w -> 0 <= w < 256;
  bwf_leftover : forall i, nbits b <= i < 8 * zlen (bm_v b) -> bit b i = true
}.

(** Bytes. *)
Lemma land_bit_0 w o : 0 <= o -> (Z.land w (Z.shiftl 1 o) =? 0) = negb (Z.testbit w o).
Proof.
  intros Ho. destruct (Z.testbit w o) eqn:E; cbn.
  - apply Z.eqb_neq. intros H. apply (f_equal (fun z => Z.testbit z o)) in H.
    rewrite Z.land_spec, Z.shiftl_spec, Z.sub_diag, E, Z.bits_0 in H by lia. done.
  - apply Z.eqb_eq, Z.bits_inj'. intros n Hn.
    rewrite Z.land_spec, Z.shiftl_spec, Z.bits_0 by lia.
    destruct (decide (n = o)) as [->|]; [by rewrite E|].
    destruct (Z_lt_le_dec n o); [rewrite (Z.testbit_neg_r 1) by lia; apply andb_false_r|].
    replace (Z.testbit 1 (n - o)) with false by (symmetry; apply (Z.bits_above_log2 1); cbn; lia).
    apply andb_false_r.
Qed.

Lemma testbit_shiftl_1 o n : 0 <= o -> 0 <= n -> Z.testbit (Z.shiftl 1 o) n = bool_decide (n = o).
Proof.
  intros Ho Hn. rewrite Z.shiftl_spec by lia. case_bool_decide as E.
  - subst. by rewrite Z.sub_diag.
  - destruct (Z_lt_le_dec n o); [by rewrite Z.testbit_neg_r by lia|].
    apply (Z.bits_above_log2 1); cbn; lia.
Qed.

Lemma byte_range_bits w : 0 <= w -> (forall n, 8 <= n -> Z.testbit w n = false) -> w < 256.
Proof.
  intros Hw H. change 256 with (2^8). destruct (decide (w = 0)) as [->|]; [lia|].
  apply Z.log2_lt_pow2; [lia|]. destruct (Z_lt_le_dec (Z.log2 w) 8); [done|].
  assert (Z.testbit w (Z.log2 w) = true) by (apply Z.bit_log2; lia).
  rewrite H in H0 by done. done.
Qed.

Lemma byte_high_bits w n : 0 <= w < 256 -> 8 <= n -> Z.testbit w n = false.
Proof.
  intros Hw Hn. destruct (decide (w = 0)) as [->|]; [apply Z.bits_0|].
  apply Z.bits_above_log2; [lia|]. apply Z.lt_le_trans with 8; [|done].
  apply Z.log2_lt_pow2; lia.
Qed.

Lemma byte_set_bit w o : 0 <= w < 256 -> 0 <= o < 8 -> 0 <= Z.lor w (Z.shiftl 1 o) < 256.
Proof.
  intros Hw Ho. assert (0 <= Z.shiftl 1 o) by (apply Z.shiftl_nonneg; lia).
  assert (0 <= Z.lor w (Z.shiftl 1 o)) by (apply Z.lor_nonneg; lia).
  split; [done|]. apply byte_range_bits; [done|]. intros n Hn.
  rewrite Z.lor_spec, byte_high_bits, testbit_shiftl_1 by lia.
  apply bool_decide_eq_false_2. lia.
Qed.

Lemma byte_clear_bit w o : 0 <= w < 256 -> 0 <= Z.land w (Z.lnot (Z.shiftl 1 o)) < 256.
Proof.
  intros Hw. assert (0 <= Z.land w (Z.lnot (Z.shiftl 1 o))) by (apply Z.land_nonneg; lia).
  split; [done|]. apply byte_range_bits; [done|]. intros n Hn.
  by rewrite Z.land_spec, byte_high_bits.
Qed.

Lemma byte_all_bits w : 0 <= w < 256 -> (forall o, 0 <= o < 8 -> Z.testbit w o = true) -> w = 255.
Proof.
  intros Hw H. change 255 with (Z.ones 8). apply Z.bits_inj'. intros n Hn.
  destruct (Z_lt_le_dec n 8).
  - by rewrite H, Z.ones_spec_low by lia.
  - by rewrite byte_high_bits, Z.ones_spec_high by lia.
Qed.

Lemma bit_zinsert b ix w' i :
  0 <= ix < zlen (bm_v b) ->
  bit (mk_bitmap (nbits b) (zinsert ix w' (bm_v b))) i =
    if decide (ix = i / 8) then Z.testbit w' (i mod 8) else bit b i.
Proof. intros H. unfold bit; cbn [bm_v]. rewrite zlookup_zinsert by done. by case_decide. Qed.

(** Replacing one byte by another that only differs from it by setting or
    clearing bits below [nbits] keeps a bitmap well formed. *)
Lemma bitmap_wf_zinsert b ix w' :
  bitmap_wf b -> 0 <= ix < zlen (bm_v b) -> 0 <= w' < 256 ->
  (forall i, i / 8 = ix -> nbits b <= i -> Z.testbit w' (i mod 8) = true) ->
  bitmap_wf (mk_bitmap (nbits b) (zinsert ix w' (bm_v b))).
Proof.
  intros [Hn Hlen Hb Hl] Hix Hw' Hleft. constructor; cbn [nbits bm_v].
  - done.
  - by rewrite zlen_zinsert.
  - intros i w. rewrite zlookup_zinsert by done. case_decide; [by intros [= <-]|apply Hb].
  - intros i. rewrite zlen_zinsert. intros Hi. rewrite bit_zinsert by done.
    case_decide; [apply Hleft; lia|by apply Hl].
Qed.

Lemma bitmap_alloc_offset_Some n o w k :
  0 <= o -> bitmap_alloc_offset n o w = Some k ->
  o <= k < o + Z.of_nat n /\ Z.testbit w k = false /\ forall j, o <= j < k -> Z.testbit w j = true.
Proof.
  revert o. induction n as [|n IH]; intros o Ho; cbn; [done|].
  rewrite land_bit_0 by done. destruct (Z.testbit w o) eqn:E; cbn.
  - intros (Hk & Hf & Hj)%IH; [|lia]. split_and!; [lia|lia|done|].
    intros j Hoj. destruct (decide (j = o)) as [->|]; [done|]. apply Hj. lia.
  - intros [= <-]. split_and!; [lia|lia|done|]. lia.
Qed.

Lemma bitmap_alloc_offset_None n o w :
  0 <= o -> bitmap_alloc_offset n o w = None ->
  forall j, o <= j < o + Z.of_nat n -> Z.testbit w j = true.
Proof.
  revert o. induction n as [|n IH]; intros o Ho; cbn; [lia|].
  rewrite land_bit_0 by done. destruct (Z.testbit w o) eqn:E; cbn; [|done].
  intros H j Hj. destruct (decide (j = o)) as [->|]; [done|]. apply (IH (o + 1)); [lia|done|lia].
Qed.

(** What setting the free bit [k] does. *)
Definition bit_set_at (b b' : bitmap) (k : Z) : Prop :=
  nbits b' = nbits b /\ bitmap_wf b' /\ forall i, 0 <= i -> bit b' i = bool_decide (i = k) || bit b i.

Definition bit_cleared_at (b b' : bitmap) (k : Z) : Prop :=
  nbits b' = nbits b /\ bitmap_wf b' /\ forall i, 0 <= i -> bit b' i = negb (bool_decide (i = k)) && bit b i.

Lemma bit_word b k w : zlookup (bm_v b) (k / 8) = Some w -> bit b k = Z.testbit w (k mod 8).
Proof. unfold bit. by intros ->. Qed.

Lemma bitmap_set_word b k w :
  bitmap_wf b -> 0 <= k -> zlookup (bm_v b) (k / 8) = Some w ->
  bit_set_at b (mk_bitmap (nbits b) (zinsert (k / 8) (Z.lor w (Z.shiftl 1 (k mod 8))) (bm_v b))) k.
Proof.
  intros Hwf Hk Hw. pose proof (zlookup_Some_range _ _ _ Hw) as Hr.
  pose proof (bwf_bytes _ Hwf _ _ Hw) as Hby. split_and!; [done| |].
  - apply bitmap_wf_zinsert; [done|done|apply byte_set_bit; lia|].
    intros i Hi Hle. rewrite Z.lor_spec. apply orb_true_iff. left.
    rewrite <- Hi in *. rewrite <- (bit_word b i w) by done. apply (bwf_leftover _ Hwf). lia.
  - intros i Hi. rewrite bit_zinsert by done. case_decide as E.
    + rewrite E in Hw. rewrite (bit_word b i w Hw), Z.lor_spec, testbit_shiftl_1 by lia.
      rewrite orb_comm. f_equal. apply bool_decide_ext. lia.
    + rewrite bool_decide_eq_false_2; [done|]. by intros ->.
Qed.

Lemma bitmap_clear_word b k w :
  bitmap_wf b -> 0 <= k < nbits b -> zlookup (bm_v b) (k / 8) = Some w ->
  bit_cleared_at b (mk_bitmap (nbits b) (zinsert (k / 8) (Z.land w (Z.lnot (Z.shiftl 1 (k mod 8)))) (bm_v b))) k.
Proof.
  intros Hwf Hk Hw. pose proof (zlookup_Some_range _ _ _ Hw) as Hr.
  pose proof (bwf_bytes _ Hwf _ _ Hw) as Hby. split_and!; [done| |].
  - apply bitmap_wf_zinsert; [done|done|by apply byte_clear_bit|].
    intros i Hi Hle. rewrite Z.land_spec, Z.lnot_spec, testbit_shiftl_1 by lia.
    rewrite bool_decide_eq_false_2 by lia. rewrite andb_true_r.
    rewrite <- Hi in *. rewrite <- (bit_word b i w) by done. apply (bwf_leftover _ Hwf). lia.
  - intros i Hi. rewrite bit_zinsert by done. case_decide as E.
    + rewrite E in Hw. rewrite (bit_word b i w Hw), Z.land_spec, Z.lnot_spec, testbit_shiftl_1 by lia.
      rewrite andb_comm. do 2 f_equal. apply bool_decide_ext. lia.
    + rewrite bool_decide_eq_false_2; [done|]. by intros ->.
Qed.

(** The two possible results of [bitmap_alloc]. *)
Inductive alloc_spec (b : bitmap) : stop_reason + (Z * Z * bitmap) -> Prop :=
  | alloc_found k b' :
      0 <= k < nbits b -> bit b k = false -> (forall j, 0 <= j < k -> bit b j = true) ->
      bit_set_at b b' k -> alloc_spec b (inr (0, k, b'))
  | alloc_full :
      (forall j, 0 <= j < nbits b -> bit b j = true) -> alloc_spec b (inr (ENOSPC, 0, b)).

Lemma bitmap_alloc_from_spec b fuel ix :
  bitmap_wf b -> 0 <= ix -> ix + Z.of_nat fuel = zlen (bm_v b) ->
  (forall j, 0 <= j < 8 * ix -> bit b j = true) ->
  alloc_spec b (bitmap_alloc_from fuel ix b).
Proof.
  intros Hwf. revert ix. induction fuel as [|fuel IH]; intros ix Hix Hlen Hpre; cbn [bitmap_alloc_from].
  { apply alloc_full. intros j Hj. apply Hpre. pose proof (bwf_len _ Hwf). lia. }
  destruct (zlookup_in_range (bm_v b) ix) as [w Hw]; [lia|]. rewrite Hw.
  pose proof (bwf_bytes _ Hwf _ _ Hw) as Hby.
  destruct (Z.eqb_spec w WORD_ALLBITS) as [->|Hne].
  - apply IH; [lia|lia|]. intros j Hj. destruct (Z_lt_le_dec j (8 * ix)); [apply Hpre; lia|].
    assert (j / 8 = ix) as E by lia. rewrite <- E in Hw. rewrite (bit_word _ _ _ Hw).
    change WORD_ALLBITS with (Z.ones 8). apply Z.ones_spec_low. lia.
  - destruct (bitmap_alloc_offset 8 0 w) as [o|] eqn:Eo.
    + apply bitmap_alloc_offset_Some in Eo as (Ho & Hclear & Hlow); [|lia].
      unfold BITS_PER_WORD. set (k := ix * 8 + o).
      assert (k / 8 = ix) as Ek by (subst k; lia). assert (k mod 8 = o) as Eo by (subst k; lia).
      rewrite <- Ek in Hw. pose proof (bit_word _ _ _ Hw) as Hbit. rewrite Eo in Hbit.
      destruct (Z.ltb_spec k (nbits b)) as [Hlt|Hge].
      * rewrite <- Ek, <- Eo. apply alloc_found; [lia|congruence| |apply bitmap_set_word; [done|lia|done]].
        intros j Hj. destruct (Z_lt_le_dec j (8 * ix)); [apply Hpre; lia|].
        assert (j / 8 = k / 8) as Ej by lia. rewrite <- Ej in Hw. rewrite (bit_word _ _ _ Hw). apply Hlow. lia.
      * assert (bit b k = true); [|congruence]. apply (bwf_leftover _ Hwf). lia.
    + destruct Hne. apply byte_all_bits; [done|].
      intros o Ho. by apply (bitmap_alloc_offset_None 8 0); [|done|lia].
Qed.

Lemma bitmap_alloc_ok b : bitmap_wf b -> alloc_spec b (bitmap_alloc b).
Proof.
  intros Hwf. pose proof (bwf_len _ Hwf). pose proof (bwf_nbits _ Hwf).
  apply bitmap_alloc_from_spec; [done|lia| |lia].
  unfold DIVROUNDUP, BITS_PER_WORD. rewrite u32_small by (unfold is_u32; lia).
  replace (nbits b + 8 - 1) with (nbits b + 7) by lia. lia.
Qed.

Lemma bitmap_in_range b k : bitmap_wf b -> 0 <= k < nbits b -> exists w, zlookup (bm_v b) (k / 8) = Some w.
Proof. intros Hwf Hk. apply zlookup_in_range. rewrite (bwf_len _ Hwf). lia. Qed.

Lemma bitmap_isset_ok b k : bitmap_wf b -> 0 <= k < nbits b -> bitmap_isset b k = inr (bit b k).
Proof.
  intros Hwf Hk. destruct (bitmap_in_range b k) as [w Hw]; [done..|].
  unfold bitmap_isset, bitmap_translate, BITS_PER_WORD.
  by rewrite Hw, land_bit_0, negb_involutive, (bit_word _ _ _ Hw) by lia.
Qed.

Lemma bitmap_unmark_ok b k :
  bitmap_wf b -> 0 <= k < nbits b -> bit b k = true ->
  exists b', bitmap_unmark b k = inr b' /\ bit_cleared_at b b' k.
Proof.
  intros Hwf Hk Hset. destruct (bitmap_in_range b k) as [w Hw]; [done..|].
  unfold bitmap_unmark, bitmap_translate, BITS_PER_WORD.
  destruct (Z.ltb_spec k (nbits b)); [|lia]. cbn [negb].
  rewrite Hw, land_bit_0, <- (bit_word _ _ _ Hw), Hset by lia. cbn [negb].
  eexists. split; [done|]. by apply bitmap_clear_word.
Qed.

Lemma bitmap_mark_ok b k :
  bitmap_wf b -> 0 <= k < nbits b -> bit b k = false ->
  exists b', bitmap_mark b k = inr b' /\ bit_set_at b b' k.
Proof.
  intros Hwf Hk Hset. destruct (bitmap_in_range b k) as [w Hw]; [done..|].
  unfold bitmap_mark, bitmap_translate, BITS_PER_WORD.
  destruct (Z.ltb_spec k (nbits b)); [|lia]. cbn [negb].
  rewrite Hw, land_bit_0, <- (bit_word _ _ _ Hw), Hset by lia. cbn [negb].
  eexists. split; [done|]. apply bitmap_set_word; [done|lia|done].
Qed.

Lemma set_leftover_spec fuel j w :
  0 <= j -> 8 - j <= Z.of_nat fuel -> 0 <= w < 256 ->
  0 <= set_leftover fuel j w < 256 /\
  forall n, 0 <= n -> Z.testbit (set_leftover fuel j w) n = ((j <=? n) && (n <? 8)) || Z.testbit w n.
Proof.
  revert j w. induction fuel as [|fuel IH]; intros j w Hj Hf Hw; cbn [set_leftover].
  - split; [done|]. intros n Hn. destruct (Z.leb_spec j n), (Z.ltb_spec n 8); try lia; done.
  - unfold BITS_PER_WORD. destruct (Z.ltb_spec j 8).
    + destruct (IH (j + 1) (Z.lor w (Z.shiftl 1 j))) as [Hr Hbits]; [lia|lia|apply byte_set_bit; lia|].
      split; [done|]. intros n Hn. rewrite Hbits, Z.lor_spec, testbit_shiftl_1 by lia.
      destruct (decide (n = j)) as [->|].
      * rewrite bool_decide_eq_true_2 by done.
        destruct (Z.leb_spec j j), (Z.ltb_spec j 8); lia.
      * rewrite bool_decide_eq_false_2, orb_false_r by done. f_equal.
        destruct (Z.leb_spec (j + 1) n), (Z.leb_spec j n), (Z.ltb_spec n 8); lia || done.
    + split; [done|]. intros n Hn. destruct (Z.leb_spec j n), (Z.ltb_spec n 8); try lia; done.
Qed.

(** A fresh bitmap is well formed and has every index free. *)
Lemma bitmap_setup_ok nb :
  0 <= nb < 2^32 - 8 ->
  exists b, bitmap_setup nb = inr b /\ nbits b = nb /\ bitmap_wf b /\ forall i, 0 <= i < nb -> bit b i = false.
Proof.
  intros Hnb. unfold bitmap_setup, DIVROUNDUP, BITS_PER_WORD.
  rewrite u32_small by (unfold is_u32; lia). replace (nb + 8 - 1) with (nb + 7) by lia.
  set (words := (nb + 7) / 8). set (v := replicate (Z.to_nat words) 0).
  assert (zlen v = words) as Hlen by (subst v; rewrite zlen_replicate; lia).
  assert (forall i, 0 <= i < words -> zlookup v i = Some 0) as Hv.
  { intros i Hi. subst v. rewrite zlookup_replicate, decide_True by lia. done. }
  assert (forall i, bit (mk_bitmap nb v) i = false) as Hclear.
  { intros i. unfold bit; cbn [bm_v]. subst v. rewrite zlookup_replicate.
    case_decide; [apply Z.bits_0|done]. }
  assert (forall i w, zlookup v i = Some w -> 0 <= w < 256) as Hbytes.
  { intros i w. subst v. rewrite zlookup_replicate. case_decide; [|done]. intros [= <-]. lia. }
  destruct (Z.ltb_spec (nb / 8) words) as [Hlt|Hge].
  - destruct (Z.eqb_spec (nb / 8) (words - 1)); [|lia]. cbn [negb].
    destruct (Z.ltb_spec 0 (nb - (words - 1) * 8)), (Z.ltb_spec (nb - (words - 1) * 8) 8); try lia.
    cbn [negb andb]. rewrite Hv by lia.
    destruct (set_leftover_spec 8 (nb - (words - 1) * 8) 0) as [Hr Hbits]; [lia..|].
    set (w' := set_leftover _ _ _) in *.
    eexists. split; [done|]. cbn [nbits]. split; [done|].
    assert (forall i, 0 <= i -> bit (mk_bitmap nb (zinsert (words - 1) w' v)) i =
      if decide (words - 1 = i / 8) then (nb <=? i) else false) as Hbit.
    { intros i Hi. change v with (bm_v (mk_bitmap nb v)). change nb with (nbits (mk_bitmap nb v)) at 1.
      rewrite bit_zinsert by (cbn; lia). case_decide; [|apply Hclear].
      rewrite Hbits, Z.bits_0, orb_false_r by lia.
      destruct (Z.leb_spec (nb - (words - 1) * 8) (i mod 8)), (Z.ltb_spec (i mod 8) 8), (Z.leb_spec nb i); lia || done. }
    split.
    + constructor; cbn [nbits bm_v]; [lia|by rewrite zlen_zinsert| |].
      * intros i w. rewrite zlookup_zinsert by lia. case_decide; [by intros [= <-]|apply Hbytes].
      * intros i Hi. rewrite zlen_zinsert in Hi. rewrite Hbit by lia.
        rewrite decide_True by lia. destruct (Z.leb_spec nb i); lia || done.
    + intros i Hi. rewrite Hbit by lia. case_decide; [|done]. destruct (Z.leb_spec nb i); lia || done.
  - eexists. split; [done|]. cbn [nbits]. split; [done|]. split; [|intros; apply Hclear].
    constructor; cbn [nbits bm_v]; [lia|lia|done|lia].
Qed.

(** ** Properties *)

(** [bitmap_alloc] on a well-formed bitmap never fails an assertion: when
    a free index exists it returns the least one, sets exactly that bit and
    keeps the bitmap well formed; otherwise it returns [ENOSPC] and leaves the
    bitmap unchanged. *)
Theorem bitmap_alloc_least_free b :
  bitmap_wf b ->
  (exists k b', bitmap_alloc b = inr (0, k, b') /\ 0 <= k < nbits b /\ bit b k = false /\
     (forall j, 0 <= j < k -> bit b j = true) /\
     bitmap_wf b' /\ nbits b' = nbits b /\
     (forall i, 0 <= i -> bit b' i = bool_decide (i = k) || bit b i))
  \/ (bitmap_alloc b = inr (ENOSPC, 0, b) /\ forall j, 0 <= j < nbits b -> bit b j = true).
Proof.
  intros Hwf. destruct (bitmap_alloc_ok b Hwf) as [k b' Hk Hc Hlow (Hn & Hw & Hb)|Hfull].
  - left. eauto 10.
  - right. done.
Qed.

Lemma bitmap_alloc_least_free_witness :
  bitmap_wf (mk_bitmap 10 [0x0f; 0xfc]) /\
  ((exists k b', bitmap_alloc (mk_bitmap 10 [0x0f; 0xfc]) = inr (0, k, b') /\
      0 <= k < 10 /\ bit (mk_bitmap 10 [0x0f; 0xfc]) k = false /\
      (forall j, 0 <= j < k -> bit (mk_bitmap 10 [0x0f; 0xfc]) j = true) /\
      bitmap_wf b' /\ nbits b' = 10 /\
      (forall i, 0 <= i -> bit b' i = bool_decide (i = k) || bit (mk_bitmap 10 [0x0f; 0xfc]) i))
   \/ (bitmap_alloc (mk_bitmap 10 [0x0f; 0xfc]) = inr (ENOSPC, 0, mk_bitmap 10 [0x0f; 0xfc]) /\
      forall j, 0 <= j < 10 -> bit (mk_bitmap 10 [0x0f; 0xfc]) j = true)).
Proof.
  assert (bitmap_wf (mk_bitmap 10 [0x0f; 0xfc])) as H.
  { constructor; cbn [nbits bm_v]; [lia|done| |].
    - intros i w. unfold zlookup. destruct (i <? 0); [done|].
      destruct (Z.to_nat i) as [|[|?]]; cbn; intros [= <-]; lia.
    - intros i Hi. change (8 * zlen [15; 252]) with 16 in Hi.
      assert (i = 10 \/ i = 11 \/ i = 12 \/ i = 13 \/ i = 14 \/ i = 15) as Hc by lia.
      destruct_or! Hc; subst; reflexivity. }
  split; [exact H|]. exact (bitmap_alloc_least_free _ H).
Defined.

(** [bitmap_create]'s initialisation: for every size the code can be asked
    for, no assertion fails, every index is free and the leftover bits of the
    last word are marked in use. *)
Theorem bitmap_setup_all_free nb :
  0 <= nb < 2^32 - 8 ->
  exists b, bitmap_setup nb = inr b /\ nbits b = nb /\ bitmap_wf b /\
    (forall i, 0 <= i < nb -> bit b i = false) /\
    (forall i, nb <= i < 8 * zlen (bm_v b) -> bit b i = true).
Proof.
  intros (b & H1 & H2 & H3 & H4)%bitmap_setup_ok. exists b. split_and!; [done..|].
  rewrite <- H2. apply (bwf_leftover _ H3).
Qed.

Lemma bitmap_setup_all_free_witness :
  exists b, bitmap_setup 2304 = inr b /\ nbits b = 2304 /\ bitmap_wf b /\
    (forall i, 0 <= i < 2304 -> bit b i = false) /\
    (forall i, 2304 <= i < 8 * zlen (bm_v b) -> bit b i = true).
Proof. apply (bitmap_setup_all_free 2304). lia. Defined.

(** Allocating an index and unmarking it restores exactly the set of
    allocated indices the bitmap had. *)
Theorem bitmap_alloc_unmark_roundtrip b k b' :
  bitmap_wf b -> bitmap_alloc b = inr (0, k, b') ->
  exists b'', bitmap_unmark b' k = inr b'' /\ bitmap_wf b'' /\ nbits b'' = nbits b /\
    forall i, 0 <= i -> bit b'' i = bit b i.
Proof.
  intros Hwf Halloc. pose proof (bitmap_alloc_ok b Hwf) as Hspec. rewrite Halloc in Hspec.
  inversion Hspec as [k' b1 Hk Hfree Hlow (Hn & Hw & Hb)|]; subst.
  destruct (bitmap_unmark_ok b' k) as (b'' & Hu & Hn' & Hw' & Hb'); [done|lia| |].
  { rewrite Hb by lia. by rewrite bool_decide_eq_true_2. }
  exists b''. split_and!; [done|done|congruence|]. intros i Hi. rewrite Hb', Hb by done.
  case_bool_decide; subst; cbn; congruence.
Qed.

Lemma bitmap_alloc_unmark_roundtrip_witness :
  exists b'', bitmap_unmark (mk_bitmap 8 [0x07]) 2 = inr b'' /\ bitmap_wf b'' /\ nbits b'' = 8 /\
    forall i, 0 <= i -> bit b'' i = bit (mk_bitmap 8 [0x03]) i.
Proof.
  apply (bitmap_alloc_unmark_roundtrip (mk_bitmap 8 [0x03]) 2); [|reflexivity].
  constructor; cbn [nbits bm_v]; [lia|done| |].
  - intros i w. unfold zlookup. destruct (i <? 0); [done|].
    destruct (Z.to_nat i) as [|?]; cbn; intros [= <-]; lia.
  - intros i Hi. change (8 * zlen [3]) with 8 in Hi. lia.
Defined.
