(* ===== verification/VmStats.v ===== *)
(** * Statistics ([kern/vm/vmstats.c]) *)

From S2P Require Import Prelude State Monad Machine Testbed.

Definition VMSTATS_NUM : Z := 10.

Inductive vmstats_counters :=
  | VMSTAT_TLB_MISS | VMSTAT_TLB_MISS_FREE | VMSTAT_TLB_MISS_REPLACE
  | VMSTAT_TLB_INVALIDATION | VMSTAT_TLB_RELOAD
  | VMSTAT_PAGE_FAULT_ZERO | VMSTAT_PAGE_FAULT_DISK
  | VMSTAT_PAGE_FAULT_ELF | VMSTAT_PAGE_FAULT_SWAPFILE | VMSTAT_SWAPFILE_WRITE.

(** The value of the C enumerator. *)
Definition stat_index (c : vmstats_counters) : Z :=
  match c with
  | VMSTAT_TLB_MISS => 0 | VMSTAT_TLB_MISS_FREE => 1 | VMSTAT_TLB_MISS_REPLACE => 2
  | VMSTAT_TLB_INVALIDATION => 3 | VMSTAT_TLB_RELOAD => 4
  | VMSTAT_PAGE_FAULT_ZERO => 5 | VMSTAT_PAGE_FAULT_DISK => 6
  | VMSTAT_PAGE_FAULT_ELF => 7 | VMSTAT_PAGE_FAULT_SWAPFILE => 8 | VMSTAT_SWAPFILE_WRITE => 9
  end.

Definition vmstats_names : list string :=
  [ "TLB faults"; "TLB faults with free"; "TLB faults with replace"; "TLB invalidations";
    "TLB reloads"; "Page faults (zeroed)"; "Page faults (disk)"; "Page faults from ELF";
    "Page faults from swapfile"; "Swapfile writes" ].

(** [vmstats_counts[c]] *)
Definition count (st : stats_st) (c : vmstats_counters) : Z :=
  default 0 (zlookup (vmstats_counts st) (stat_index c)).

Section vmstats.
Context {FS : Type}.
Implicit Types s : kstate FS.

Definition counts_modify (f : list Z -> list Z) : M FS unit :=
  modify (fun s => set_stats (mk_stats (vmstats_active (s_stats s)) (f (vmstats_counts (s_stats s)))) s).

Definition vmstats_init : M FS unit :=
  spinlock_acquire vmstats_lock ;;
  mfor (Z.to_nat VMSTATS_NUM) 0 (fun i => counts_modify (zinsert i 0)) ;;
  modify (fun s => set_stats (mk_stats true (vmstats_counts (s_stats s))) s) ;;
  spinlock_release vmstats_lock.

Definition vmstats_increment (stat : Z) : M FS unit :=
  kassert (stat <? VMSTATS_NUM) "stat_index < VMSTATS_NUM" ;;
  spinlock_acquire vmstats_lock ;;
  st <- get s_stats ;;
  (if vmstats_active st then
     c <- deref (zlookup (vmstats_counts st) stat) "vmstats_counts" ;;
     counts_modify (zinsert stat (u32 (c + 1)))
   else ret tt) ;;
  spinlock_release vmstats_lock.

Definition warn_free_replace : string :=
  "Warning: sum of TLB faults with free (%d) and with replace (%d) not equal to number of TLB faults (%d)".
Definition warn_reload : string :=
  "Warning: sum of TLB reloads (%d), zeroed-page faults (%d) and page faults from disk (%d) not equal to number of TLB faults (%d)".
Definition warn_disk : string :=
  "Warning: sum of page faults from ELF (%d) and from swapfile (%d) not equal to number of page faults from disk (%d)".

(** The loop that prints the counters. *)
Definition vmstats_show_counts : M FS unit :=
  mfor (Z.to_nat VMSTATS_NUM) 0 (fun i =>
    name <- deref (zlookup vmstats_names i) "vmstats_names" ;;
    st <- get s_stats ;;
    c <- deref (zlookup (vmstats_counts st) i) "vmstats_counts" ;;
    kprintf name [c]).

Definition vmstats_show : M FS unit :=
  kprintf "--Virtual memory statistics--" [] ;;
  vmstats_show_counts ;;
  st <- get s_stats ;;
  let c := count st in
  (if c VMSTAT_TLB_MISS =? u32 (c VMSTAT_TLB_MISS_FREE + c VMSTAT_TLB_MISS_REPLACE) then ret tt
   else kprintf warn_free_replace
          [c VMSTAT_TLB_MISS_FREE; c VMSTAT_TLB_MISS_REPLACE; c VMSTAT_TLB_MISS]) ;;
  (if c VMSTAT_TLB_MISS =?
      u32 (u32 (c VMSTAT_TLB_RELOAD + c VMSTAT_PAGE_FAULT_ZERO) + c VMSTAT_PAGE_FAULT_DISK) then ret tt
   else kprintf warn_reload
          [c VMSTAT_TLB_RELOAD; c VMSTAT_PAGE_FAULT_ZERO; c VMSTAT_PAGE_FAULT_DISK; c VMSTAT_TLB_MISS]) ;;
  (if c VMSTAT_PAGE_FAULT_DISK =? u32 (c VMSTAT_PAGE_FAULT_ELF + c VMSTAT_PAGE_FAULT_SWAPFILE) then ret tt
   else kprintf warn_disk
          [c VMSTAT_PAGE_FAULT_ELF; c VMSTAT_PAGE_FAULT_SWAPFILE; c VMSTAT_PAGE_FAULT_DISK]).

(** ** Behaviour *)

Definition stats_wf (st : stats_st) : Prop := zlen (vmstats_counts st) = VMSTATS_NUM.

(** The effect of one increment on the counters. *)
Definition bump (i : Z) (st : stats_st) : stats_st :=
  if vmstats_active st
  then mk_stats true (zinsert i (u32 (default 0 (zlookup (vmstats_counts st) i) + 1)) (vmstats_counts st))
  else st.

Lemma bump_wf i st : stats_wf st -> stats_wf (bump i st).
Proof. unfold stats_wf, bump. destruct (vmstats_active st); cbn; [by rewrite zlen_zinsert|done]. Qed.

Lemma bump_active i st : vmstats_active (bump i st) = vmstats_active st.
Proof. unfold bump. by destruct (vmstats_active st) eqn:E. Qed.

Lemma vmstats_increment_run i s :
  idle s -> stats_wf (s_stats s) -> 0 <= i < VMSTATS_NUM ->
  vmstats_increment i s = Ok tt (set_stats (bump i (s_stats s)) s).
Proof.
  intros Hs Hwf Hi. unfold vmstats_increment.
  rewrite run_kassert by (destruct (Z.ltb_spec i VMSTATS_NUM); [done|lia]). run.
  destruct (zlookup_in_range (vmstats_counts (s_stats s)) i) as [c Hc]; [by rewrite Hwf|].
  unfold bump, counts_modify. cbn [s_stats with_held set_cpu].
  destruct (vmstats_active (s_stats s)) eqn:E; run.
  - rewrite (run_deref _ _ c) by done. rewrite run_modify, release_run' by done.
    rewrite Hc. state_eq.
  - rewrite release_run' by done. state_eq.
Qed.
End vmstats.

Lemma stat_index_range c : 0 <= stat_index c < VMSTATS_NUM.
Proof. destruct c; cbn; unfold VMSTATS_NUM; lia. Qed.

#[global] Instance vmstats_counters_eq_dec : EqDecision vmstats_counters.
Proof. solve_decision. Defined.

Lemma run_increment {FS B} c (k : unit -> M FS B) (s : kstate FS) :
  idle s -> stats_wf (s_stats s) ->
  bind (vmstats_increment (stat_index c)) k s = k tt (set_stats (bump (stat_index c) (s_stats s)) s).
Proof. intros. apply bind_Ok, vmstats_increment_run; [done..|apply stat_index_range]. Qed.

Lemma stat_index_inj c d : stat_index c = stat_index d -> c = d.
Proof. destruct c, d; cbn; done. Qed.

Lemma count_bump st c d :
  stats_wf st -> vmstats_active st = true ->
  count (bump (stat_index c) st) d = if decide (c = d) then u32 (count st d + 1) else count st d.
Proof.
  intros Hwf Ha. unfold count, bump. rewrite Ha; cbn [vmstats_counts].
  pose proof (stat_index_range c). rewrite zlookup_zinsert by (by rewrite Hwf).
  destruct (decide (c = d)) as [->|Hne].
  - by rewrite decide_True.
  - rewrite decide_False; [done|]. intros H'%stat_index_inj. done.
Qed.

(** The relations between the counters that [vmstats_show] checks, in the
    arithmetic of [unsigned int]. *)
Definition stats_consistent (st : stats_st) : Prop :=
  count st VMSTAT_TLB_MISS = u32 (count st VMSTAT_TLB_MISS_FREE + count st VMSTAT_TLB_MISS_REPLACE) /\
  count st VMSTAT_TLB_MISS =
    u32 (count st VMSTAT_TLB_RELOAD + count st VMSTAT_PAGE_FAULT_ZERO + count st VMSTAT_PAGE_FAULT_DISK) /\
  count st VMSTAT_PAGE_FAULT_DISK =
    u32 (count st VMSTAT_PAGE_FAULT_ELF + count st VMSTAT_PAGE_FAULT_SWAPFILE).

#[global] Instance stats_consistent_dec st : Decision (stats_consistent st).
Proof. unfold stats_consistent. apply _. Defined.

Lemma u32_add_l x y : u32 (u32 x + y) = u32 (x + y).
Proof. unfold u32. apply Zplus_mod_idemp_l. Qed.

Lemma u32_add_r x y : u32 (x + u32 y) = u32 (x + y).
Proof. unfold u32. apply Zplus_mod_idemp_r. Qed.

Section show.
Context {FS : Type}.
Implicit Types s : kstate FS.

Lemma vmstats_init_run s :
  idle s -> stats_wf (s_stats s) ->
  vmstats_init s = Ok tt (set_stats (mk_stats true (replicate 10 0)) s).
Proof.
  intros Hs Hwf. unfold vmstats_init. run.
  erewrite bind_Ok; cycle 1.
  { apply (mfor_run (fun i => set_stats (mk_stats (vmstats_active (s_stats s))
      (replicate (Z.to_nat i) 0 ++ drop (Z.to_nat i) (vmstats_counts (s_stats s)))) (with_held [vmstats_lock] s))); [by destruct s as [? ? ? ? [] ? ? ? ? ? ?]|].
    intros i Hi. unfold counts_modify, modify. cbn [s_stats set_stats vmstats_counts vmstats_active].
    rewrite zinsert_prefix by (rewrite ?Hwf, ?zlen_replicate; unfold VMSTATS_NUM in *; lia).
    rewrite <- replicate_S_end. by replace (S (Z.to_nat i)) with (Z.to_nat (i + 1)) by lia. }
  run. rewrite release_run' by done. f_equal.
  change (Z.to_nat (0 + Z.of_nat (Z.to_nat VMSTATS_NUM))) with 10%nat.
  unfold stats_wf, zlen, VMSTATS_NUM in Hwf. rewrite drop_ge by lia. rewrite app_nil_r. state_eq.
Qed.

(** The lines printed whatever the counters are. *)
Definition counter_lines (st : stats_st) : list kmsg :=
  mk_kmsg "--Virtual memory statistics--" [] ::
  zip_with (fun n c => mk_kmsg n [c]) vmstats_names (vmstats_counts st).

Lemma vmstats_show_counts_run s :
  stats_wf (s_stats s) ->
  vmstats_show_counts s =
    Ok tt (set_log (s_log s ++ zip_with (fun n c => mk_kmsg n [c]) vmstats_names (vmstats_counts (s_stats s))) s).
Proof.
  intros Hwf. set (lines := zip_with _ _ _).
  assert (length lines = 10%nat) as Hlen.
  { subst lines. rewrite length_zip_with. unfold stats_wf, zlen, VMSTATS_NUM in Hwf. change (length vmstats_names) with 10%nat. lia. }
  rewrite <- (firstn_all lines) at 1. rewrite Hlen.
  apply (mfor_run (fun i => set_log (s_log s ++ take (Z.to_nat i) lines) s)).
  { change (Z.to_nat 0) with 0%nat. cbn [take]. rewrite app_nil_r. by destruct s. }
  intros i Hi.
  destruct (zlookup_in_range vmstats_names i) as [n Hn]; [change (zlen vmstats_names) with 10; unfold VMSTATS_NUM in Hi; lia|].
  destruct (zlookup_in_range (vmstats_counts (s_stats s)) i) as [c Hc]; [rewrite Hwf; lia|].
  rewrite (run_deref _ _ n), run_get, (run_deref _ _ c) by done.
  unfold kprintf, modify. cbn [s_log set_log]. erewrite (take_zlookup lines).
  - by rewrite (assoc_L (++)).
  - subst lines. unfold zlookup in *. destruct (i <? 0); [done|].
    rewrite lookup_zip_with, Hn. cbn. by rewrite Hc.
Qed.

Local Ltac show_log :=
  lazymatch goal with
  | |- Ok tt (set_log (?l ++ ?x :: ?t) _) = Ok tt (set_log (_ ++ _ :: ?t ++ ?e) _) =>
      instantiate (1 := []); by rewrite app_nil_r
  | _ => reflexivity
  end.

(** The report printed at shutdown: [vmstats_show] prints the header and
    the ten counters, and prints no warning exactly when the three relations
    between the counters hold. *)
Theorem vmstats_show_warns s :
  stats_wf (s_stats s) ->
  exists warnings,
    vmstats_show s = Ok tt (set_log (s_log s ++ counter_lines (s_stats s) ++ warnings) s) /\
    (warnings = [] <-> stats_consistent (s_stats s)).
Proof.
  intros Hwf. unfold vmstats_show, kprintf. run.
  erewrite bind_Ok by (by apply vmstats_show_counts_run). run. cbn [s_stats set_log s_log].
  rewrite u32_add_l. unfold stats_consistent.
  destruct (Z.eqb_spec (count (s_stats s) VMSTAT_TLB_MISS)
    (u32 (count (s_stats s) VMSTAT_TLB_MISS_FREE + count (s_stats s) VMSTAT_TLB_MISS_REPLACE)));
  destruct (Z.eqb_spec (count (s_stats s) VMSTAT_TLB_MISS)
    (u32 (count (s_stats s) VMSTAT_TLB_RELOAD + count (s_stats s) VMSTAT_PAGE_FAULT_ZERO
          + count (s_stats s) VMSTAT_PAGE_FAULT_DISK)));
  destruct (Z.eqb_spec (count (s_stats s) VMSTAT_PAGE_FAULT_DISK)
    (u32 (count (s_stats s) VMSTAT_PAGE_FAULT_ELF + count (s_stats s) VMSTAT_PAGE_FAULT_SWAPFILE)));
  run; unfold ret, modify; cbn [s_log set_log s_stats];
  eexists; (split; [unfold counter_lines; rewrite <- ?(assoc_L (++)); cbn [app]; show_log
                   |split; [try discriminate; tauto|tauto]]).
Qed.
End show.

Lemma vmstats_show_warns_witness :
  exists warnings,
    vmstats_show blank_state =
      Ok tt (set_log (s_log blank_state ++ counter_lines (s_stats blank_state) ++ warnings) blank_state) /\
    (warnings = [] <-> stats_consistent (s_stats blank_state)).
Proof. apply (vmstats_show_warns blank_state). reflexivity. Defined.
