(* ===== verification/Ram.v ===== *)
(** * Early physical memory ([kern/arch/mips/vm/ram.c]) *)

From S2P Require Import Prelude State Monad Machine Testbed.

Section ram.
Context {FS : Type}.
Implicit Types s : kstate FS.

(** [ram_bootstrap]; [ramsize] is what [mainbus_ramsize] reports. *)
Definition ram_bootstrap (ramsize : Z) : M FS unit :=
  let ramsize := if 512 * 1024 * 1024 <? ramsize then 512 * 1024 * 1024 else ramsize in
  r <- get s_ram ;;
  let firstp := u32 (firstfree r - MIPS_KSEG0) in
  modify (set_ram (mk_ram (firstfree r) firstp ramsize)) ;;
  kprintf "%uk physical memory available" [u32 (ramsize - firstp) / 1024].

(** [ram_stealmem]: 0 is failure. *)
Definition ram_stealmem (npages : Z) : M FS Z :=
  r <- get s_ram ;;
  let size := u32 (npages * PAGE_SIZE) in
  if lastpaddr r <? u32 (firstpaddr r + size) then ret 0
  else
    let paddr := firstpaddr r in
    modify (set_ram (mk_ram (firstfree r) (u32 (firstpaddr r + size)) (lastpaddr r))) ;;
    ret paddr.

Definition ram_getsize : M FS Z := r <- get s_ram ;; ret (lastpaddr r).

Definition ram_getfirstfree : M FS Z :=
  r <- get s_ram ;;
  modify (set_ram (mk_ram (firstfree r) 0 0)) ;;
  ret (firstpaddr r).

(** What [ram_bootstrap] establishes: the free area starts at a page
    boundary above page 0 and lies in the first 512 MB. *)
Record ram_wf (r : ram_st) : Prop := {
  rwf_first : 0 < firstpaddr r;
  rwf_aligned : firstpaddr r mod PAGE_SIZE = 0;
  rwf_order : firstpaddr r <= lastpaddr r;
  rwf_last : lastpaddr r <= 512 * 1024 * 1024
}.

Definition ram_advance (n : Z) (r : ram_st) : ram_st :=
  mk_ram (firstfree r) (firstpaddr r + n * PAGE_SIZE) (lastpaddr r).

Lemma ram_stealmem_run n s :
  ram_wf (s_ram s) -> 0 <= n < 2^19 ->
  ram_stealmem n s =
    if lastpaddr (s_ram s) <? firstpaddr (s_ram s) + n * PAGE_SIZE then Ok 0 s
    else Ok (firstpaddr (s_ram s)) (set_ram (ram_advance n (s_ram s)) s).
Proof.
  intros [H1 H2 H3 H4] Hn. unfold ram_stealmem, PAGE_SIZE in *. run.
  rewrite (u32_small (n * 4096)) by (unfold is_u32; lia).
  rewrite !u32_small by (unfold is_u32; lia).
  destruct (_ <? _); done.
Qed.

Lemma ram_advance_wf n r :
  ram_wf r -> 0 <= n -> firstpaddr r + n * PAGE_SIZE <= lastpaddr r -> ram_wf (ram_advance n r).
Proof. intros [H1 H2 H3 H4] Hn Hle. unfold PAGE_SIZE in *. constructor; cbn; unfold PAGE_SIZE; lia. Qed.

(** [ram_stealmem] hands out page-aligned, non-null, pairwise disjoint
    blocks inside physical memory: a block it returns starts exactly where
    the free area started, the free area afterwards starts where the block
    ends, and when it returns 0 nothing changed because the block does not
    fit. *)
Theorem ram_stealmem_disjoint n s :
  ram_wf (s_ram s) -> 0 <= n < 2^19 ->
  exists a s', ram_stealmem n s = Ok a s' /\ ram_wf (s_ram s') /\
    ((a = 0 /\ s' = s /\ lastpaddr (s_ram s) < firstpaddr (s_ram s) + n * PAGE_SIZE) \/
     (0 < a /\ a mod PAGE_SIZE = 0 /\ a = firstpaddr (s_ram s) /\
      a + n * PAGE_SIZE = firstpaddr (s_ram s') /\ firstpaddr (s_ram s') <= lastpaddr (s_ram s) /\
      s' = set_ram (s_ram s') s)).
Proof.
  intros Hwf Hn. rewrite ram_stealmem_run by done.
  destruct (Z.ltb_spec (lastpaddr (s_ram s)) (firstpaddr (s_ram s) + n * PAGE_SIZE)).
  - eauto 10.
  - do 2 eexists. split; [done|]. split; [apply ram_advance_wf; [done|lia|done]|].
    right. destruct Hwf. cbn. auto 10.
Qed.

(** The size computation of [ram_stealmem] wraps: a request for 2^20
    pages succeeds and reserves nothing, so the next request is given the
    same memory. *)
Theorem ram_stealmem_wraps s :
  ram_wf (s_ram s) -> ram_stealmem (2^20) s = Ok (firstpaddr (s_ram s)) s.
Proof.
  intros [H1 H2 H3 H4]. unfold ram_stealmem. run.
  change (u32 (2^20 * PAGE_SIZE)) with 0. rewrite Z.add_0_r, u32_small by (unfold is_u32; lia).
  destruct (Z.ltb_spec (lastpaddr (s_ram s)) (firstpaddr (s_ram s))); [lia|]. run.
  unfold ret. f_equal. by destruct s as [? [] ? ? ? ? ? ? ? ? ?].
Qed.
End ram.

Lemma ram_stealmem_disjoint_witness :
  let s := set_ram (mk_ram 0x80005000 0x5000 0x80000) blank_state in
  exists a s', ram_stealmem 3 s = Ok a s' /\ ram_wf (s_ram s') /\
      ((a = 0 /\ s' = s /\ 0x80000 < 0x5000 + 3 * PAGE_SIZE) \/
       (0 < a /\ a mod PAGE_SIZE = 0 /\ a = 0x5000 /\
        a + 3 * PAGE_SIZE = firstpaddr (s_ram s') /\ firstpaddr (s_ram s') <= 0x80000 /\
        s' = set_ram (s_ram s') s)).
Proof. apply ram_stealmem_disjoint; [constructor; vm_compute; done|lia]. Defined.

Lemma ram_stealmem_wraps_witness :
  ram_stealmem (2^20) (set_ram (mk_ram 0x80005000 0x5000 0x80000) blank_state) =
    Ok 0x5000 (set_ram (mk_ram 0x80005000 0x5000 0x80000) blank_state).
Proof. apply ram_stealmem_wraps. constructor; vm_compute; done. Defined.
