(* ===== verification/VmTlb.v ===== *)
(** * TLB handling ([kern/vm/vm_tlb.c])

    The 64-entry hardware TLB as an array, the wrappers of [vm_tlb.c], and what
    they mean for address translation: no virtual page is ever matched by two
    entries, a written mapping is the one the hardware finds, and the victims
    go round the array. *)

From S2P Require Import Prelude State Monad Machine Testbed.

Definition NUM_TLB : Z := 64.
Definition TLBLO_DIRTY : Z := 0x400.
Definition TLBLO_VALID : Z := 0x200.

(** [TLBHI_INVALID(i)] and [TLBLO_INVALID()]. *)
Definition TLBHI_INVALID (entryno : Z) : Z := u32 (Z.shiftl (0x80000 + entryno) 12).
Definition TLBLO_INVALID : Z := 0.

Section tlb.
Context {FS : Type}.
Implicit Types s : kstate FS.

(** The hardware operations ([tlb-mips161.S]). *)
Definition tlb_write (entryhi entrylo index : Z) : M FS unit :=
  t <- get s_tlb ;;
  _ <- deref (zlookup (tlb_entries t) index) "tlb index" ;;
  modify (set_tlb (mk_tlb (zinsert index (entryhi, entrylo) (tlb_entries t)) (current_victim t))).

Definition tlb_read (index : Z) : M FS (Z * Z) :=
  t <- get s_tlb ;;
  deref (zlookup (tlb_entries t) index) "tlb index".

Definition vm_tlb_get_victim_round_robin : M FS Z :=
  t <- get s_tlb ;;
  let victim := current_victim t in
  modify (set_tlb (mk_tlb (tlb_entries t) (u32 (current_victim t + 1) mod NUM_TLB))) ;;
  ret victim.

Definition vm_tlb_invalidate_entries : M FS unit :=
  mfor (Z.to_nat NUM_TLB) 0 (fun i => tlb_write (TLBHI_INVALID i) TLBLO_INVALID i).

Definition vm_tlb_reset_current_victim : M FS unit :=
  modify (fun s => set_tlb (mk_tlb (tlb_entries (s_tlb s)) 0) s).

(** The victim entry as one 64-bit value, high word first. *)
Definition vm_tlb_peek_victim : M FS Z :=
  t <- get s_tlb ;;
  e <- tlb_read (current_victim t) ;;
  let '(entry_hi, entry_lo) := e in
  ret (Z.lor (Z.shiftl (Z.lor 0 entry_hi) 32) entry_lo).

Definition vm_tlb_write (vaddr paddr : Z) (dirty : bool) : M FS unit :=
  let entry_hi := Z.land vaddr PAGE_FRAME in
  let entry_lo := Z.lor paddr TLBLO_VALID in
  let entry_lo := if dirty then Z.lor entry_lo TLBLO_DIRTY else entry_lo in
  index <- vm_tlb_get_victim_round_robin ;;
  tlb_write entry_hi entry_lo index.
End tlb.

(** ** What the TLB translates *)

Definition entry_vpage (e : Z * Z) : Z := Z.land (fst e) PAGE_FRAME.
Definition entry_valid (e : Z * Z) : bool := negb (Z.land (snd e) TLBLO_VALID =? 0).
Definition entry_writable (e : Z * Z) : bool := negb (Z.land (snd e) TLBLO_DIRTY =? 0).
Definition entry_paddr (e : Z * Z) : Z := Z.land (snd e) PAGE_FRAME.

(** The entry whose page field matches the address. *)
Definition tlb_match (es : list (Z * Z)) (vaddr : Z) : option (Z * Z) :=
  snd <$> list_find (fun e => entry_vpage e = Z.land vaddr PAGE_FRAME) es.

(** The rule of [mips/tlb.h]: no two entries have the same page field. *)
Definition tlb_unique (es : list (Z * Z)) : Prop :=
  forall i j e1 e2, zlookup es i = Some e1 -> zlookup es j = Some e2 ->
    entry_vpage e1 = entry_vpage e2 -> i = j.

Record tlb_wf (t : tlb_st) : Prop := {
  twf_len : zlen (tlb_entries t) = NUM_TLB;
  twf_victim : 0 <= current_victim t < NUM_TLB;
  twf_unique : tlb_unique (tlb_entries t)
}.

Lemma zlookup_list_lookup {A} (l : list A) (i : nat) : zlookup l (Z.of_nat i) = l !! i.
Proof. unfold zlookup. destruct (Z.ltb_spec (Z.of_nat i) 0); [lia|]. by rewrite Nat2Z.id. Qed.

Lemma tlb_match_Some es va i e :
  tlb_unique es -> zlookup es i = Some e -> entry_vpage e = Z.land va PAGE_FRAME ->
  tlb_match es va = Some e.
Proof.
  intros Hu Hi He. unfold tlb_match.
  destruct (list_find _ es) as [[j e']|] eqn:E; cbn.
  - apply list_find_Some in E as (Hj & He' & _).
    rewrite <- zlookup_list_lookup in Hj. pose proof (Hu _ _ _ _ Hi Hj ltac:(congruence)). congruence.
  - apply list_find_None in E. rewrite Forall_forall in E. destruct (E e); [|done].
    unfold zlookup in Hi. destruct (i <? 0); [done|]. by apply list_elem_of_lookup_2 in Hi.
Qed.

Lemma tlb_match_None es va :
  tlb_match es va = None <-> forall i e, zlookup es i = Some e -> entry_vpage e <> Z.land va PAGE_FRAME.
Proof.
  unfold tlb_match. rewrite fmap_None, list_find_None, Forall_forall. split.
  - intros H i e Hi. apply H. unfold zlookup in Hi. destruct (i <? 0); [done|].
    by apply list_elem_of_lookup_2 in Hi.
  - intros H e [i Hi]%list_elem_of_lookup. apply (H (Z.of_nat i)). by rewrite zlookup_list_lookup.
Qed.

(** The entry [vm_tlb_write] stores. *)
Definition tlb_entry (vaddr paddr : Z) (dirty : bool) : Z * Z :=
  (Z.land vaddr PAGE_FRAME,
   if dirty then Z.lor (Z.lor paddr TLBLO_VALID) TLBLO_DIRTY else Z.lor paddr TLBLO_VALID).

Section tlb_run.
Context {FS : Type}.
Implicit Types s : kstate FS.

Definition tlb_after_write (va pa : Z) (dirty : bool) (t : tlb_st) : tlb_st :=
  mk_tlb (zinsert (current_victim t) (tlb_entry va pa dirty) (tlb_entries t))
         ((current_victim t + 1) mod NUM_TLB).

Lemma vm_tlb_write_run va pa dirty s :
  zlen (tlb_entries (s_tlb s)) = NUM_TLB -> 0 <= current_victim (s_tlb s) < NUM_TLB ->
  vm_tlb_write va pa dirty s = Ok tt (set_tlb (tlb_after_write va pa dirty (s_tlb s)) s).
Proof.
  intros Hl Hv. unfold vm_tlb_write, vm_tlb_get_victim_round_robin, tlb_write. run.
  destruct (zlookup_in_range (tlb_entries (s_tlb s)) (current_victim (s_tlb s))) as [e He]; [by rewrite Hl|].
  cbn [s_tlb set_tlb tlb_entries]. rewrite (run_deref _ _ e) by done.
  unfold modify, tlb_after_write, tlb_entry. cbn. unfold NUM_TLB in *.
  rewrite u32_small by (unfold is_u32; lia). by destruct s.
Qed.

Lemma vm_tlb_peek_victim_run s e :
  zlookup (tlb_entries (s_tlb s)) (current_victim (s_tlb s)) = Some e ->
  vm_tlb_peek_victim s = Ok (Z.lor (Z.shiftl (fst e) 32) (snd e)) s.
Proof.
  intros He. unfold vm_tlb_peek_victim, tlb_read. run. rewrite (run_deref _ _ e) by done.
  by destruct e.
Qed.

(** The TLB after an invalidation. *)
Definition invalid_entries : list (Z * Z) := (fun i => (TLBHI_INVALID (Z.of_nat i), TLBLO_INVALID)) <$> seq 0 64.

Lemma vm_tlb_invalidate_entries_run s :
  zlen (tlb_entries (s_tlb s)) = NUM_TLB ->
  vm_tlb_invalidate_entries s = Ok tt (set_tlb (mk_tlb invalid_entries (current_victim (s_tlb s))) s).
Proof.
  intros Hl. unfold vm_tlb_invalidate_entries.
  assert (length invalid_entries = 64%nat) as Hinv by done.
  rewrite (mfor_run (fun i => set_tlb (mk_tlb (take (Z.to_nat i) invalid_entries ++
    drop (Z.to_nat i) (tlb_entries (s_tlb s))) (current_victim (s_tlb s))) s)).
  - change (Z.to_nat (0 + Z.of_nat (Z.to_nat NUM_TLB))) with 64%nat.
    unfold zlen, NUM_TLB in Hl. rewrite take_ge, drop_ge, app_nil_r by lia. done.
  - by destruct s as [? ? ? [] ? ? ? ? ? ? ?].
  - intros i Hi. unfold NUM_TLB in *. unfold tlb_write. run. cbn [s_tlb set_tlb tlb_entries current_victim].
    set (pre := take (Z.to_nat i) invalid_entries).
    assert (zlen pre = i) as Hpre by (unfold pre, zlen; rewrite length_take; lia).
    destruct (zlookup_in_range (pre ++ drop (Z.to_nat i) (tlb_entries (s_tlb s))) i) as [e He].
    { unfold zlen in *. rewrite length_app, length_drop. lia. }
    rewrite (run_deref _ _ e) by done. unfold modify. rewrite zinsert_prefix by lia.
    subst pre. rewrite (take_zlookup invalid_entries i (TLBHI_INVALID i, TLBLO_INVALID)); [by destruct s|].
    unfold zlookup. destruct (Z.ltb_spec i 0); [lia|]. unfold invalid_entries.
    rewrite list_lookup_fmap, lookup_seq_lt by lia. cbn. by rewrite Z2Nat.id by lia.
Qed.
End tlb_run.

(** ** The bits of an entry *)

Lemma aligned_land pa m : pa mod PAGE_SIZE = 0 -> 0 <= m < PAGE_SIZE -> Z.land pa m = 0.
Proof.
  unfold PAGE_SIZE. intros Hpa Hm. rewrite <- (Z.mod_small m 4096) by done.
  change 4096 with (2^12). rewrite <- Z.land_ones, (Z.land_comm m), Z.land_assoc, Z.land_ones by lia.
  change (2^12) with 4096. by rewrite Hpa.
Qed.

Lemma aligned_land_frame pa : is_u32 pa -> pa mod PAGE_SIZE = 0 -> Z.land pa PAGE_FRAME = pa.
Proof. intros Hr Ha. rewrite land_frame by done. unfold PAGE_SIZE in *. lia. Qed.

Lemma tlb_entry_bits va pa d :
  is_u32 pa -> pa mod PAGE_SIZE = 0 ->
  entry_valid (tlb_entry va pa d) = true /\ entry_writable (tlb_entry va pa d) = d /\
  entry_paddr (tlb_entry va pa d) = pa.
Proof.
  intros Hr Ha. unfold entry_valid, entry_writable, entry_paddr, tlb_entry. cbn [snd].
  destruct d; rewrite !Z.land_lor_distr_l, !(aligned_land pa), (aligned_land_frame pa)
    by (done || unfold PAGE_SIZE, TLBLO_VALID, TLBLO_DIRTY; lia); cbn; split_and!; try done;
  rewrite !Z.lor_0_r; done.
Qed.

Lemma tlb_entry_vpage va pa d : entry_vpage (tlb_entry va pa d) = Z.land va PAGE_FRAME.
Proof.
  unfold entry_vpage, tlb_entry. cbn [fst]. by rewrite <- Z.land_assoc, Z.land_diag.
Qed.

Lemma TLBHI_INVALID_vpage i :
  0 <= i < NUM_TLB -> Z.land (TLBHI_INVALID i) PAGE_FRAME = 0x80000000 + i * 4096.
Proof.
  unfold NUM_TLB. intros Hi. unfold TLBHI_INVALID. rewrite Z.shiftl_mul_pow2 by lia.
  change (2^12) with 4096. rewrite u32_small by (unfold is_u32; lia).
  rewrite aligned_land_frame by (unfold is_u32, PAGE_SIZE; lia). lia.
Qed.

Lemma invalid_entries_lookup i e :
  zlookup invalid_entries i = Some e -> 0 <= i < NUM_TLB /\ e = (TLBHI_INVALID i, TLBLO_INVALID).
Proof.
  intros He. pose proof (zlookup_Some_range _ _ _ He) as Hr.
  change (zlen invalid_entries) with 64 in Hr. unfold NUM_TLB. split; [done|].
  unfold zlookup, invalid_entries in He. destruct (i <? 0); [done|].
  rewrite list_lookup_fmap, lookup_seq_lt in He by lia. cbn in He. rewrite Z2Nat.id in He by lia. congruence.
Qed.

Lemma invalid_entries_unique : tlb_unique invalid_entries.
Proof.
  intros i j e1 e2 [Hi ->]%invalid_entries_lookup [Hj ->]%invalid_entries_lookup.
  unfold entry_vpage. cbn [fst]. rewrite !TLBHI_INVALID_vpage by done. lia.
Qed.

Lemma tlb_after_write_wf va pa d t :
  tlb_wf t -> tlb_match (tlb_entries t) va = None -> tlb_wf (tlb_after_write va pa d t).
Proof.
  intros [Hl Hv Hu] Hm. rewrite tlb_match_None in Hm. constructor; cbn.
  - by rewrite zlen_zinsert.
  - unfold NUM_TLB in *. lia.
  - intros i j e1 e2. rewrite !zlookup_zinsert by lia.
    repeat case_decide; subst; try done; intros H1 H2 He; simplify_eq.
    + destruct (Hm _ _ H2). by rewrite <- He, tlb_entry_vpage.
    + destruct (Hm _ _ H1). by rewrite He, tlb_entry_vpage.
    + by eapply Hu.
Qed.

(** No user address matches an invalidated entry. *)
Lemma invalid_entries_no_match va : 0 <= va < USERSTACK -> tlb_match invalid_entries va = None.
Proof.
  intros Hva. unfold USERSTACK, MIPS_KSEG0 in Hva. apply tlb_match_None.
  intros i e [Hi ->]%invalid_entries_lookup. unfold entry_vpage. cbn [fst].
  rewrite TLBHI_INVALID_vpage, land_frame by (done || unfold is_u32; lia). unfold PAGE_SIZE. lia.
Qed.

(** ** Properties *)

Section tlb_properties.
Context {FS : Type}.
Implicit Types s : kstate FS.

(** [vm_tlb_invalidate_entries] leaves a TLB in which no user address
    matches any entry, no entry is valid, and no two entries have the same
    page field; the replacement cursor is kept. *)
Theorem vm_tlb_invalidate_entries_flushes s :
  tlb_wf (s_tlb s) ->
  exists s', vm_tlb_invalidate_entries s = Ok tt s' /\ s' = set_tlb (s_tlb s') s /\
    tlb_wf (s_tlb s') /\ current_victim (s_tlb s') = current_victim (s_tlb s) /\
    (forall i e, zlookup (tlb_entries (s_tlb s')) i = Some e -> entry_valid e = false) /\
    (forall va, 0 <= va < USERSTACK -> tlb_match (tlb_entries (s_tlb s')) va = None).
Proof.
  intros [Hl Hv Hu]. eexists. split; [by apply vm_tlb_invalidate_entries_run|]. cbn [s_tlb set_tlb tlb_entries current_victim].
  split_and!; [done| |done| |].
  - constructor; [done|done|apply invalid_entries_unique].
  - by intros i e [_ ->]%invalid_entries_lookup.
  - apply invalid_entries_no_match.
Qed.

(** On a miss, [vm_tlb_write] installs exactly the mapping asked for: the
    hardware finds one entry for the page, valid, with the frame and the
    write permission given; every entry outside the victim slot is kept, and
    no page becomes doubly mapped. *)
Theorem vm_tlb_write_maps s va pa d :
  tlb_wf (s_tlb s) -> is_u32 pa -> pa mod PAGE_SIZE = 0 ->
  tlb_match (tlb_entries (s_tlb s)) va = None ->
  exists s' e, vm_tlb_write va pa d s = Ok tt s' /\ s' = set_tlb (s_tlb s') s /\ tlb_wf (s_tlb s') /\
    tlb_match (tlb_entries (s_tlb s')) va = Some e /\
    entry_valid e = true /\ entry_writable e = d /\ entry_paddr e = pa /\
    (forall i, i <> current_victim (s_tlb s) ->
       zlookup (tlb_entries (s_tlb s')) i = zlookup (tlb_entries (s_tlb s)) i) /\
    current_victim (s_tlb s') = (current_victim (s_tlb s) + 1) mod NUM_TLB.
Proof.
  intros Hwf Hr Ha Hm. pose proof Hwf as [Hl Hv Hu].
  pose proof (tlb_after_write_wf va pa d _ Hwf Hm) as Hwf'.
  destruct (tlb_entry_bits va pa d Hr Ha) as (Hb1 & Hb2 & Hb3).
  do 2 eexists. split; [by apply vm_tlb_write_run|]. cbn [s_tlb set_tlb]. split_and!; [done|done| |done..| |done].
  - eapply tlb_match_Some; [apply Hwf'| |apply tlb_entry_vpage].
    cbn. apply zlookup_zinsert_eq. by rewrite Hl.
  - intros i Hi. cbn. apply zlookup_zinsert_ne. done.
Qed.

(** A sequence of TLB writes. *)
Definition vm_tlb_write_all (l : list (Z * Z * bool)) : M FS unit :=
  foldr (fun x m => vm_tlb_write (fst (fst x)) (snd (fst x)) (snd x) ;; m) (ret tt) l.

(** Round-robin replacement: [n] writes advance the cursor by [n] modulo
    the TLB size, and as long as fewer than 64 mappings are written the slots
    not yet reached keep their entries: an entry survives exactly the writes
    that do not come round to it. *)
Theorem vm_tlb_write_round_robin l s :
  zlen (tlb_entries (s_tlb s)) = NUM_TLB -> 0 <= current_victim (s_tlb s) < NUM_TLB ->
  exists s', vm_tlb_write_all l s = Ok tt s' /\
    current_victim (s_tlb s') = (current_victim (s_tlb s) + zlen l) mod NUM_TLB /\
    zlen (tlb_entries (s_tlb s')) = NUM_TLB /\
    (forall k, zlen l <= k < NUM_TLB ->
       zlookup (tlb_entries (s_tlb s')) ((current_victim (s_tlb s) + k) mod NUM_TLB) =
       zlookup (tlb_entries (s_tlb s)) ((current_victim (s_tlb s) + k) mod NUM_TLB)).
Proof.
  revert s. induction l as [|[[va pa] d] l IH]; intros s Hl Hv; cbn [vm_tlb_write_all foldr].
  - exists s. split; [done|]. split; [|done]. unfold zlen, NUM_TLB in *. cbn. lia.
  - rewrite (bind_Ok _ _ _ _ _ (vm_tlb_write_run va pa d s Hl Hv)).
    destruct (IH (set_tlb (tlb_after_write va pa d (s_tlb s)) s)) as (s' & Hrun & Hcv & Hlen & Hkeep).
    { cbn. by rewrite zlen_zinsert. }
    { cbn. unfold NUM_TLB. lia. }
    exists s'. cbn in Hcv, Hkeep. unfold zlen, NUM_TLB in *. cbn [length].
    split; [exact Hrun|]. split; [rewrite Hcv; lia|]. split; [done|]. intros k Hk.
    specialize (Hkeep (k - 1)).
    replace ((((current_victim (s_tlb s) + 1) mod 64 + (k - 1)) mod 64))
      with ((current_victim (s_tlb s) + k) mod 64) in Hkeep by lia.
    rewrite Hkeep by lia. apply zlookup_zinsert_ne. lia.
Qed.
End tlb_properties.

(** A TLB that maps one user page. *)
Definition tlb_demo : kstate memfs := set_tlb (mk_tlb (<[3%nat := (0x400000, 0x7200)]> invalid_entries) 5) blank_state.

Lemma tlb_demo_wf : tlb_wf (s_tlb tlb_demo).
Proof.
  constructor; [done|done|].
  intros i j e1 e2. change (tlb_entries (s_tlb tlb_demo)) with (zinsert 3 (0x400000, 0x7200) invalid_entries).
  rewrite !zlookup_zinsert by (change (zlen invalid_entries) with 64; lia).
  repeat case_decide; subst; intros; simplify_eq; try done;
    try solve [by eapply invalid_entries_unique];
    match goal with
    | H : zlookup invalid_entries _ = Some _, He : entry_vpage _ = entry_vpage _ |- _ =>
        apply invalid_entries_lookup in H as [Hj ->]; unfold entry_vpage in He; cbn [fst] in He;
        rewrite TLBHI_INVALID_vpage in He by done; change (Z.land 0x400000 PAGE_FRAME) with 0x400000 in He;
        unfold NUM_TLB in Hj; lia
    end.
Qed.

Lemma vm_tlb_invalidate_entries_flushes_witness :
  exists s', vm_tlb_invalidate_entries tlb_demo = Ok tt s' /\ s' = set_tlb (s_tlb s') tlb_demo /\
      tlb_wf (s_tlb s') /\ current_victim (s_tlb s') = current_victim (s_tlb tlb_demo) /\
      (forall i e, zlookup (tlb_entries (s_tlb s')) i = Some e -> entry_valid e = false) /\
      (forall va, 0 <= va < USERSTACK -> tlb_match (tlb_entries (s_tlb s')) va = None).
Proof. apply (vm_tlb_invalidate_entries_flushes tlb_demo), tlb_demo_wf. Defined.

Lemma vm_tlb_write_maps_witness :
  exists s' e, vm_tlb_write 0x401234 0x9000 true tlb_demo = Ok tt s' /\ s' = set_tlb (s_tlb s') tlb_demo /\
      tlb_wf (s_tlb s') /\
      tlb_match (tlb_entries (s_tlb s')) 0x401234 = Some e /\
      entry_valid e = true /\ entry_writable e = true /\ entry_paddr e = 0x9000 /\
      (forall i, i <> current_victim (s_tlb tlb_demo) ->
         zlookup (tlb_entries (s_tlb s')) i = zlookup (tlb_entries (s_tlb tlb_demo)) i) /\
      current_victim (s_tlb s') = (current_victim (s_tlb tlb_demo) + 1) mod NUM_TLB.
Proof. apply vm_tlb_write_maps; [apply tlb_demo_wf|vm_compute; done|reflexivity|reflexivity]. Defined.

Lemma vm_tlb_write_round_robin_witness :
  exists s', vm_tlb_write_all [(0x401000, 0x9000, true); (0x402000, 0xa000, false)] tlb_demo = Ok tt s' /\
      current_victim (s_tlb s') = (current_victim (s_tlb tlb_demo) + 2) mod NUM_TLB /\
      zlen (tlb_entries (s_tlb s')) = NUM_TLB /\
      (forall k, 2 <= k < NUM_TLB ->
         zlookup (tlb_entries (s_tlb s')) ((current_victim (s_tlb tlb_demo) + k) mod NUM_TLB) =
         zlookup (tlb_entries (s_tlb tlb_demo)) ((current_victim (s_tlb tlb_demo) + k) mod NUM_TLB)).
Proof. apply (vm_tlb_write_round_robin [(0x401000, 0x9000, true); (0x402000, 0xa000, false)]); done. Defined.
