(* ===== verification/Swapfile.v ===== *)
(** * The swap file ([kern/vm/swapfile.c])

    Slots of one page in a file of 9 MB, tracked by a bitmap.  The theorems
    show that a page swapped out is read back unchanged, that slots never
    overlap, and what happens when the file is full. *)

From S2P Require Import Prelude State Monad Machine Testbed Bitmap VmStats.

Definition SWAPFILE_SIZE : Z := 9 * 1024 * 1024.
Definition SWAPFILE_PATH : string := "emu0:/SWAPFILE".
(** [O_RDWR | O_CREAT] *)
Definition O_RDWR_O_CREAT : Z := Z.lor 2 4.

(** Number of slots: the expression [SWAPFILE_SIZE / PAGE_SIZE] of [swap_init],
    whose macro is not parenthesised, is [9 * 1024 * 1024 / 4096]. *)
Definition SWAP_SLOTS : Z := 9 * 1024 * 1024 / PAGE_SIZE.

Section swap.
Context {FS : Type} {VO : VnodeOps FS}.
Implicit Types s : kstate FS.

Definition set_swapmap (b : bitmap) : M FS unit :=
  modify (fun s => set_swap (mk_swap (swapfile (s_swap s)) (Some b)) s).

Definition swap_init : M FS Z :=
  r <- (fun s => let '(e, v, fs') := vfs_open SWAPFILE_PATH O_RDWR_O_CREAT (s_fs s) in Ok (e, v) (set_fs fs' s)) ;;
  if negb (fst r =? 0) then panic "swapfile.c: Failed to open the swap file" else
  modify (fun s => set_swap (mk_swap (Some (snd r)) (swapmap (s_swap s))) s) ;;
  b <- bitmap_create SWAP_SLOTS ;;
  modify (fun s => set_swap (mk_swap (swapfile (s_swap s)) b) s) ;;
  ret 0.

(** The result and [*ret_offset]. *)
Definition swap_out (page_paddr : Z) : M FS (Z * Z) :=
  kassert (negb (page_paddr =? 0)) "page_paddr != 0" ;;
  kassert (Z.land page_paddr PAGE_FRAME =? page_paddr) "(page_paddr & PAGE_FRAME) == page_paddr" ;;
  spinlock_acquire swaplock ;;
  sw <- get s_swap ;;
  b <- deref (swapmap sw) "swapmap" ;;
  r <- lift (bitmap_alloc b) ;;
  let '(result, free_index, b') := r in
  set_swapmap b' ;;
  if negb (result =? 0) then panic "swapfile.c: No space available in swap file" else
  spinlock_release swaplock ;;
  let free_offset := u32 (free_index * PAGE_SIZE) in
  kassert (free_offset <? SWAPFILE_SIZE) "free_offset < SWAPFILE_SIZE" ;;
  v <- deref (swapfile sw) "swapfile" ;;
  io <- vnode_kwrite v (PADDR_TO_KVADDR page_paddr) PAGE_SIZE free_offset ;;
  if negb (snd io =? 0) then panic "swapfile.c: Failed to write to swap file" else
  vmstats_increment (stat_index VMSTAT_SWAPFILE_WRITE) ;;
  ret (0, free_offset).

Definition swap_in (page_paddr swap_offset : Z) : M FS Z :=
  kassert (Z.land page_paddr PAGE_FRAME =? page_paddr) "(page_paddr & PAGE_FRAME) == page_paddr" ;;
  kassert (Z.land swap_offset PAGE_FRAME =? swap_offset) "(swap_offset & PAGE_FRAME) == swap_offset" ;;
  kassert (swap_offset <? SWAPFILE_SIZE) "swap_offset < SWAPFILE_SIZE" ;;
  let swap_index := swap_offset / PAGE_SIZE in
  spinlock_acquire swaplock ;;
  sw <- get s_swap ;;
  b <- deref (swapmap sw) "swapmap" ;;
  isset <- lift (bitmap_isset b swap_index) ;;
  if negb isset then panic "swapfile.c: Accessing an uninitialized page in swap file" else
  spinlock_release swaplock ;;
  v <- deref (swapfile sw) "swapfile" ;;
  io <- vnode_kread v (PADDR_TO_KVADDR page_paddr) PAGE_SIZE swap_offset ;;
  if negb (snd io =? 0) then panic "swapfile.c: Failed to read from swap file" else
  spinlock_acquire swaplock ;;
  sw' <- get s_swap ;;
  b1 <- deref (swapmap sw') "swapmap" ;;
  b' <- lift (bitmap_unmark b1 swap_index) ;;
  set_swapmap b' ;;
  spinlock_release swaplock ;;
  vmstats_increment (stat_index VMSTAT_PAGE_FAULT_SWAPFILE) ;;
  vmstats_increment (stat_index VMSTAT_PAGE_FAULT_DISK) ;;
  ret 0.

Definition swap_free (swap_offset : Z) : M FS unit :=
  kassert (Z.land swap_offset PAGE_FRAME =? swap_offset) "(swap_offset & PAGE_FRAME) == swap_offset" ;;
  kassert (swap_offset <? SWAPFILE_SIZE) "swap_offset < SWAPFILE_SIZE" ;;
  let swap_index := swap_offset / PAGE_SIZE in
  spinlock_acquire swaplock ;;
  sw <- get s_swap ;;
  b <- deref (swapmap sw) "swapmap" ;;
  isset <- lift (bitmap_isset b swap_index) ;;
  if negb isset then panic "swapfile.c: Invalid attempt to free an uninitialized page" else
  b' <- lift (bitmap_unmark b swap_index) ;;
  set_swapmap b' ;;
  spinlock_release swaplock.

(** The bitmap is freed: later accesses through it are invalid. *)
Definition swap_shutdown : M FS unit :=
  sw <- get s_swap ;;
  kassert (bool_decide (is_Some (swapfile sw))) "swapfile != NULL" ;;
  kassert (bool_decide (is_Some (swapmap sw))) "swapmap != NULL" ;;
  v <- deref (swapfile sw) "swapfile" ;;
  modify (fun s => set_fs (vfs_close v (s_fs s)) s) ;;
  modify (fun s => set_swap (mk_swap (swapfile (s_swap s)) None) s).

(** ** Specification *)

(** The swap system is up: the file is open and the bitmap has one bit per slot. *)
Definition swap_ready (sw : swap_st) (v : vnode) (b : bitmap) : Prop :=
  sw = mk_swap (Some v) (Some b) /\ bitmap_wf b /\ nbits b = SWAP_SLOTS.

(** Transfers of whole slots to and from the swap file are complete; the code
    panics when one is not.  (Nothing is asked of other transfers: the file
    has the size of the swap space.) *)
Class SwapReliable (v : vnode) : Prop := {
  swap_writes_fully k bs fs e n fs' : 0 <= k < SWAP_SLOTS -> zlen bs = PAGE_SIZE ->
    vop_write v (k * PAGE_SIZE) bs fs = (e, n, fs') -> n = PAGE_SIZE;
  swap_reads_fully k fs e bs fs' : 0 <= k < SWAP_SLOTS ->
    vop_read v (k * PAGE_SIZE) PAGE_SIZE fs = (e, bs, fs') -> zlen bs = PAGE_SIZE
}.

(** A page address the frame allocator can hand out. *)
Definition page_paddr_ok (p : Z) : Prop := is_u32 p /\ p mod PAGE_SIZE = 0.

Lemma page_paddr_land p : page_paddr_ok p -> (Z.land p PAGE_FRAME =? p) = true.
Proof.
  intros [Hr Ha]. apply Z.eqb_eq. rewrite land_frame by done. unfold PAGE_SIZE in *. lia.
Qed.

Lemma slot_offset_ok k : 0 <= k < SWAP_SLOTS -> page_paddr_ok (k * PAGE_SIZE) /\ k * PAGE_SIZE < SWAPFILE_SIZE.
Proof. unfold page_paddr_ok, is_u32, SWAPFILE_SIZE, SWAP_SLOTS, PAGE_SIZE. lia. Qed.

Definition free_slot (b : bitmap) : Prop := exists k, 0 <= k < SWAP_SLOTS /\ bit b k = false.
End swap.

Section swap_spec.
Context {FS : Type} {VO : VnodeOps FS} {VL : VnodeLaws FS}.
Implicit Types s : kstate FS.

(** The [len] bytes at [off] are inside the file [v]: as long as it has the
    contents it has in [fs0], reading them succeeds and is complete. *)
Definition reads_full (fs0 : FS) (v : vnode) (off len : Z) : Prop :=
  forall fs, (forall o, file_byte fs v o = file_byte fs0 v o) -> exists bs fs', vop_read v off len fs = (0, bs, fs') /\ zlen bs = len.

(** The state after a page went to slot [k]. *)
Definition swapped_out s (v : vnode) (b' : bitmap) (fs' : FS) : kstate FS :=
  set_stats (bump (stat_index VMSTAT_SWAPFILE_WRITE) (s_stats s))
    (set_fs fs' (set_swap (mk_swap (Some v) (Some b')) s)).

Lemma swap_out_run s p v b :
  idle s -> stats_wf (s_stats s) -> swap_ready (s_swap s) v b -> SwapReliable v ->
  page_paddr_ok p -> p <> 0 -> free_slot b ->
  exists k b' fs', swap_out p s = Ok (0, k * PAGE_SIZE) (swapped_out s v b' fs') /\
    0 <= k < SWAP_SLOTS /\ bit b k = false /\ bit_set_at b b' k /\
    (forall j, 0 <= j < PAGE_SIZE -> file_byte fs' v (k * PAGE_SIZE + j) = s_mem s (p + j)) /\
    (forall w o, w <> v \/ ~ (k * PAGE_SIZE <= o < k * PAGE_SIZE + PAGE_SIZE) ->
       file_byte fs' w o = file_byte (s_fs s) w o).
Proof.
  intros Hidle Hst (Hsw & Hwf & Hn) Hrel Hp Hp0 (k0 & Hk0 & Hfree0).
  destruct (bitmap_alloc b) as [|[[e k] b']] eqn:Ealloc;
    pose proof (bitmap_alloc_ok b Hwf) as Hspec; rewrite Ealloc in Hspec;
    inversion Hspec as [k' b1 Hk Hfree Hlow Hset|Hfull]; subst; [|by rewrite Hfull in Hfree0 by lia].
  rewrite Hn in Hk. destruct (slot_offset_ok k Hk) as [[Hk1 Hk2] Hk3].
  destruct (vop_write v (k * PAGE_SIZE) (mem_read (s_mem s) p PAGE_SIZE) (s_fs s)) as [[e n] fs'] eqn:Ew.
  pose proof (swap_writes_fully _ _ _ _ _ _ Hk ltac:(apply zlen_mem_read; unfold PAGE_SIZE; lia) Ew) as Hfull. subst n.
  exists k, b', fs'. split; [|split_and!; [lia|lia|done|done| |]].
  - unfold swap_out, set_swapmap.
    rewrite run_kassert by (by destruct (Z.eqb_spec p 0)).
    rewrite run_kassert by (by apply page_paddr_land). run.
    cbn [s_swap with_held set_cpu]. rewrite Hsw. cbn [swapmap swapfile].
    rewrite (run_deref _ _ b) by done. rewrite Ealloc. cbn [lift]. run. cbn [negb Z.eqb]. run.
    rewrite u32_small by done.
    rewrite run_kassert by (apply Z.ltb_lt; lia).
    rewrite (run_deref _ _ v) by done.
    unfold vnode_kwrite. rewrite kva_to_pa_kva by apply Hp. unfold bind at 1.
    cbn [s_mem s_fs with_held set_cpu set_swap]. rewrite Ew.
    cbn [snd]. rewrite Z.sub_diag. cbn [negb Z.eqb].
    rewrite run_increment by done.
    unfold ret, swapped_out. f_equal. state_eq.
  - intros j Hj. apply (vop_write_bytes _ _ _ _ _ _ _ Ew); [|lia].
    by apply zlookup_mem_read.
  - intros w o Hw. by apply (vop_write_frame _ _ _ _ _ _ _ Ew).
Qed.

(** The state after slot [k] was read into frame [p] and released. *)
Definition swapped_in s (v : vnode) (b' : bitmap) (m' : Z -> Z) (fs' : FS) : kstate FS :=
  set_stats (bump (stat_index VMSTAT_PAGE_FAULT_DISK)
              (bump (stat_index VMSTAT_PAGE_FAULT_SWAPFILE) (s_stats s)))
    (set_swap (mk_swap (Some v) (Some b')) (set_mem m' (set_fs fs' s))).

Lemma swap_in_run s p k v b :
  idle s -> stats_wf (s_stats s) -> swap_ready (s_swap s) v b -> SwapReliable v ->
  page_paddr_ok p -> 0 <= k < SWAP_SLOTS -> bit b k = true ->
  exists b' m' fs', swap_in p (k * PAGE_SIZE) s = Ok 0 (swapped_in s v b' m' fs') /\
    bit_cleared_at b b' k /\
    (forall j, 0 <= j < PAGE_SIZE -> m' (p + j) = file_byte (s_fs s) v (k * PAGE_SIZE + j)) /\
    (forall x, ~ (p <= x < p + PAGE_SIZE) -> m' x = s_mem s x) /\
    (forall w o, file_byte fs' w o = file_byte (s_fs s) w o).
Proof.
  intros Hidle Hst (Hsw & Hwf & Hn) Hrel Hp Hk Hset.
  destruct (slot_offset_ok k Hk) as [Hko Hk3].
  destruct (bitmap_unmark_ok b k) as (b' & Hun & Hclr); [done|lia|done|].
  destruct (vop_read v (k * PAGE_SIZE) PAGE_SIZE (s_fs s)) as [[e bs] fs'] eqn:Er.
  pose proof (swap_reads_fully _ _ _ _ _ Hk Er) as Hlen.
  exists b', (mem_write (s_mem s) p bs), fs'. split; [|split_and!; [done| | |]].
  - assert (k * PAGE_SIZE / PAGE_SIZE = k) as Hdiv by (unfold PAGE_SIZE; lia).
    unfold swap_in, set_swapmap.
    rewrite run_kassert by (by apply page_paddr_land).
    rewrite run_kassert by (by apply page_paddr_land).
    rewrite run_kassert by (apply Z.ltb_lt; lia).
    rewrite Hdiv. run. cbn [s_swap with_held set_cpu]. rewrite Hsw. cbn [swapmap swapfile].
    rewrite (run_deref _ _ b) by done. rewrite bitmap_isset_ok by (done || lia).
    cbn [lift]. run. rewrite Hset. cbn [negb]. run.
    rewrite (run_deref _ _ v) by done. unfold vnode_kread. rewrite kva_to_pa_kva by apply Hp.
    unfold bind at 1. cbn [s_fs with_held set_cpu]. rewrite Er. cbn [snd]. rewrite Hlen, Z.sub_diag.
    cbn [negb Z.eqb]. rewrite run_acquire by done. run. cbn [s_swap set_mem set_fs with_held set_cpu].
    rewrite Hsw. cbn [swapmap]. rewrite (run_deref _ _ b) by done. rewrite Hun. cbn [lift]. run.
    rewrite run_increment by done.
    rewrite run_increment by (done || by apply bump_wf).
    unfold ret, swapped_in. f_equal. state_eq.
  - intros j Hj. rewrite mem_write_in by lia. replace (p + j - p) with j by lia.
    destruct (zlookup_in_range bs j) as [x Hx]; [lia|]. rewrite Hx. cbn.
    by apply (vop_read_bytes _ _ _ _ _ _ _ Er).
  - intros x Hx. apply mem_write_out. by rewrite Hlen.
  - apply (vop_read_frame _ _ _ _ _ _ _ Er).
Qed.

Lemma swap_free_run s k v b :
  idle s -> swap_ready (s_swap s) v b -> 0 <= k < SWAP_SLOTS -> bit b k = true ->
  exists b', swap_free (k * PAGE_SIZE) s = Ok tt (set_swap (mk_swap (Some v) (Some b')) s) /\
    bit_cleared_at b b' k.
Proof.
  intros Hidle (Hsw & Hwf & Hn) Hk Hset.
  destruct (slot_offset_ok k Hk) as [Hko Hk3].
  destruct (bitmap_unmark_ok b k) as (b' & Hun & Hclr); [done|lia|done|].
  exists b'. split; [|done].
  assert (k * PAGE_SIZE / PAGE_SIZE = k) as Hdiv by (unfold PAGE_SIZE; lia).
  unfold swap_free, set_swapmap.
  rewrite run_kassert by (by apply page_paddr_land).
  rewrite run_kassert by (apply Z.ltb_lt; lia).
  rewrite Hdiv. run. cbn [s_swap with_held set_cpu]. rewrite Hsw. cbn [swapmap swapfile].
  rewrite (run_deref _ _ b) by done. rewrite bitmap_isset_ok by (done || lia).
  cbn [lift]. run. rewrite Hset. cbn [negb]. rewrite Hun. cbn [lift]. run.
  rewrite release_run' by done. f_equal. state_eq.
Qed.
End swap_spec.

(** ** Properties *)

Section swap_properties.
Context {FS : Type} {VO : VnodeOps FS} {VL : VnodeLaws FS}.
Implicit Types s : kstate FS.

(** (C31) Swapping is lossless: a page written to the swap file and later read
    back into any frame, whatever happened to memory in between, has the
    same 4096 bytes; the slot used was free, is inside the file, and is free
    again afterwards, and the code does not panic. *)
Theorem swap_roundtrip s p p' v b m :
  idle s -> stats_wf (s_stats s) -> swap_ready (s_swap s) v b -> SwapReliable v ->
  page_paddr_ok p -> p <> 0 -> page_paddr_ok p' -> free_slot b ->
  exists off s1 s2, swap_out p s = Ok (0, off) s1 /\ swap_in p' off (set_mem m s1) = Ok 0 s2 /\
    0 <= off < SWAPFILE_SIZE /\ off mod PAGE_SIZE = 0 /\ bit b (off / PAGE_SIZE) = false /\
    (forall j, 0 <= j < PAGE_SIZE -> s_mem s2 (p' + j) = s_mem s (p + j)) /\
    (exists b2, swap_ready (s_swap s2) v b2 /\ forall i, 0 <= i -> bit b2 i = bit b i).
Proof.
  intros Hidle Hst Hsw Hrel Hp Hp0 Hp' Hfree.
  destruct (swap_out_run s p v b) as (k & b' & fs' & Hrun & Hk & Hbk & (Hn & Hwf & Hb') & Hcont & _); [done..|].
  destruct (slot_offset_ok k Hk) as [[Hk1 Hk2] Hk3]. pose proof Hsw as (_ & Hwfb & Hnb).
  destruct (swap_in_run (set_mem m (swapped_out s v b' fs')) p' k v b')
    as (b2 & m2 & fs2 & Hin & (Hn2 & Hwf2 & Hb2) & Hm2 & _).
  - done.
  - by apply bump_wf.
  - split_and!; [done|done|congruence].
  - done.
  - done.
  - done.
  - rewrite Hb' by lia. by rewrite bool_decide_eq_true_2.
  - do 3 eexists. split; [exact Hrun|]. split; [exact Hin|].
    split_and!; [unfold PAGE_SIZE; lia|done|done| | |].
    + by replace (k * PAGE_SIZE / PAGE_SIZE) with k by (unfold PAGE_SIZE; lia).
    + intros j Hj. cbn. rewrite Hm2 by done. cbn. by apply Hcont.
    + exists b2. split; [split_and!; [done|done|congruence]|].
      intros i Hi. rewrite Hb2, Hb' by done. case_bool_decide; subst; cbn; congruence.
Qed.

(** Pages in the swap file are isolated from each other: swapping one
    page out changes no byte of any slot that was in use, and no byte of any
    other file. *)
Theorem swap_out_isolated s p v b :
  idle s -> stats_wf (s_stats s) -> swap_ready (s_swap s) v b -> SwapReliable v ->
  page_paddr_ok p -> p <> 0 -> free_slot b ->
  exists off s', swap_out p s = Ok (0, off) s' /\
    (forall k j, 0 <= k < SWAP_SLOTS -> bit b k = true -> 0 <= j < PAGE_SIZE ->
       file_byte (s_fs s') v (k * PAGE_SIZE + j) = file_byte (s_fs s) v (k * PAGE_SIZE + j)) /\
    (forall w o, w <> v -> file_byte (s_fs s') w o = file_byte (s_fs s) w o).
Proof.
  intros Hidle Hst Hsw Hrel Hp Hp0 Hfree.
  destruct (swap_out_run s p v b) as (k & b' & fs' & Hrun & Hk & Hbk & Hset & _ & Hframe); [done..|].
  do 2 eexists. split; [exact Hrun|]. cbn. split.
  - intros k' j Hk' Hbit Hj. apply Hframe. right.
    assert (k <> k') by congruence. unfold PAGE_SIZE in *. lia.
  - intros w o Hw. apply Hframe. by left.
Qed.

(** When all 2304 slots are in use, [swap_out] stops the kernel with the
    documented panic. *)
Theorem swap_out_full_panics s p v b :
  idle s -> swap_ready (s_swap s) v b -> page_paddr_ok p -> p <> 0 ->
  (forall k, 0 <= k < SWAP_SLOTS -> bit b k = true) ->
  swap_out p s = Stop (panic_called "swapfile.c: No space available in swap file").
Proof.
  intros Hidle (Hsw & Hwf & Hn) Hp Hp0 Hfull.
  destruct (bitmap_alloc b) as [|[[e k] b']] eqn:Ealloc;
    pose proof (bitmap_alloc_ok b Hwf) as Hspec; rewrite Ealloc in Hspec;
    inversion Hspec as [k' b1 Hk Hfree Hlow Hset|Hfull']; subst; [rewrite Hfull in Hfree by lia; done|].
  unfold swap_out, set_swapmap.
  rewrite run_kassert by (by destruct (Z.eqb_spec p 0)).
  rewrite run_kassert by (by apply page_paddr_land). run.
  cbn [s_swap with_held set_cpu]. rewrite Hsw. cbn [swapmap].
  rewrite (run_deref _ _ b') by done. rewrite Ealloc. done.
Qed.

(** Releasing a slot twice, or reading a slot that holds no page, stops
    the kernel instead of corrupting the map. *)
Theorem swap_unused_slot_panics s p k v b :
  idle s -> swap_ready (s_swap s) v b -> page_paddr_ok p ->
  0 <= k < SWAP_SLOTS -> bit b k = false ->
  swap_free (k * PAGE_SIZE) s =
    Stop (panic_called "swapfile.c: Invalid attempt to free an uninitialized page") /\
  swap_in p (k * PAGE_SIZE) s =
    Stop (panic_called "swapfile.c: Accessing an uninitialized page in swap file").
Proof.
  intros Hidle (Hsw & Hwf & Hn) Hp Hk Hclear. destruct (slot_offset_ok k Hk) as [Hko Hk3].
  assert (k * PAGE_SIZE / PAGE_SIZE = k) as Hdiv by (unfold PAGE_SIZE; lia).
  assert ((k * PAGE_SIZE <? SWAPFILE_SIZE) = true) as Hlt by (by apply Z.ltb_lt).
  split; unfold swap_free, swap_in; rewrite !run_kassert by (done || by apply page_paddr_land);
    rewrite Hdiv; run; cbn [s_swap with_held set_cpu]; rewrite Hsw; cbn [swapmap];
    rewrite (run_deref _ _ b) by done; rewrite bitmap_isset_ok by (done || lia); rewrite Hclear; done.
Qed.
End swap_properties.

#[global] Instance memfs_reliable v : SwapReliable (VO := memfs_ops) v.
Proof.
  constructor.
  - intros k bs fs e n fs' _ Hl. cbn. unfold memfs_write. by intros [= <- <- <-].
  - intros k fs e bs fs' _. cbn. unfold memfs_read. intros [= <- <- <-]. apply zlen_mem_read. unfold PAGE_SIZE. lia.
Qed.

(** An open swap file in which only the last slot, or no slot, is free. *)
Definition swap_demo (words : list Z) : kstate memfs :=
  set_swap (mk_swap (Some 1%positive) (Some (mk_bitmap SWAP_SLOTS words))) blank_state.
Definition last_slot_free : list Z := replicate 287 255 ++ [127].
Definition no_slot_free : list Z := replicate 288 255.

Lemma full_words_wf words :
  length words = 288%nat -> (forall w, w ∈ words -> 0 <= w < 256) -> bitmap_wf (mk_bitmap SWAP_SLOTS words).
Proof.
  intros Hl Hw. constructor; cbn [nbits bm_v].
  - by vm_compute.
  - unfold zlen. by rewrite Hl.
  - intros i w. unfold zlookup. destruct (i <? 0); [done|]. intros H. apply Hw. by eapply list_elem_of_lookup_2.
  - intros i. unfold zlen. rewrite Hl. change SWAP_SLOTS with 2304. lia.
Qed.

Lemma last_slot_free_wf : bitmap_wf (mk_bitmap SWAP_SLOTS last_slot_free).
Proof.
  apply full_words_wf; [done|]. intros w [Hw|Hw]%elem_of_app.
  - apply elem_of_replicate in Hw as [-> _]. lia.
  - apply list_elem_of_singleton in Hw as ->. lia.
Qed.

Lemma no_slot_free_wf : bitmap_wf (mk_bitmap SWAP_SLOTS no_slot_free).
Proof. apply full_words_wf; [done|]. intros w [-> _]%elem_of_replicate. lia. Qed.

Lemma swap_roundtrip_witness :
  exists off s1 s2, swap_out 0x5000 (swap_demo last_slot_free) = Ok (0, off) s1 /\
      swap_in 0x9000 off (set_mem (fun _ => 7) s1) = Ok 0 s2 /\
      0 <= off < SWAPFILE_SIZE /\ off mod PAGE_SIZE = 0 /\
      bit (mk_bitmap SWAP_SLOTS last_slot_free) (off / PAGE_SIZE) = false /\
      (forall j, 0 <= j < PAGE_SIZE -> s_mem s2 (0x9000 + j) = s_mem (swap_demo last_slot_free) (0x5000 + j)) /\
      (exists b2, swap_ready (s_swap s2) 1%positive b2 /\
         forall i, 0 <= i -> bit b2 i = bit (mk_bitmap SWAP_SLOTS last_slot_free) i).
Proof.
  apply (swap_roundtrip (swap_demo last_slot_free) 0x5000 0x9000 1%positive (mk_bitmap SWAP_SLOTS last_slot_free)).
  - reflexivity.
  - reflexivity.
  - split_and!; [done|apply last_slot_free_wf|done].
  - apply _.
  - split; vm_compute; done.
  - done.
  - split; vm_compute; done.
  - exists 2303. split; [vm_compute; done|vm_compute; done].
Defined.

Lemma swap_out_isolated_witness :
  exists off s', swap_out 0x5000 (swap_demo last_slot_free) = Ok (0, off) s' /\
      (forall k j, 0 <= k < SWAP_SLOTS -> bit (mk_bitmap SWAP_SLOTS last_slot_free) k = true -> 0 <= j < PAGE_SIZE ->
         file_byte (s_fs s') 1%positive (k * PAGE_SIZE + j) =
         file_byte (s_fs (swap_demo last_slot_free)) 1%positive (k * PAGE_SIZE + j)) /\
      (forall w o, w <> 1%positive -> file_byte (s_fs s') w o = file_byte (s_fs (swap_demo last_slot_free)) w o).
Proof.
  apply (swap_out_isolated (swap_demo last_slot_free) 0x5000 1%positive (mk_bitmap SWAP_SLOTS last_slot_free)).
  - reflexivity.
  - reflexivity.
  - split_and!; [done|apply last_slot_free_wf|done].
  - apply _.
  - split; vm_compute; done.
  - done.
  - exists 2303. split; [vm_compute; done|vm_compute; done].
Defined.

Lemma swap_out_full_panics_witness :
  swap_out 0x5000 (swap_demo no_slot_free) = Stop (panic_called "swapfile.c: No space available in swap file").
Proof.
  apply (swap_out_full_panics (swap_demo no_slot_free) 0x5000 1%positive (mk_bitmap SWAP_SLOTS no_slot_free)).
  - reflexivity.
  - split_and!; [done|apply no_slot_free_wf|done].
  - split; vm_compute; done.
  - done.
  - intros k Hk. unfold bit. cbn [bm_v]. unfold no_slot_free. rewrite zlookup_replicate, decide_True.
    + change 255 with (Z.ones 8). apply Z.ones_spec_low. lia.
    + change SWAP_SLOTS with 2304 in Hk. lia.
Defined.

Lemma swap_unused_slot_panics_witness :
  swap_free (2303 * PAGE_SIZE) (swap_demo last_slot_free) =
    Stop (panic_called "swapfile.c: Invalid attempt to free an uninitialized page") /\
  swap_in 0x5000 (2303 * PAGE_SIZE) (swap_demo last_slot_free) =
    Stop (panic_called "swapfile.c: Accessing an uninitialized page in swap file").
Proof.
  apply (swap_unused_slot_panics (swap_demo last_slot_free) 0x5000 2303 1%positive (mk_bitmap SWAP_SLOTS last_slot_free)).
  - reflexivity.
  - split_and!; [done|apply last_slot_free_wf|done].
  - split; vm_compute; done.
  - vm_compute. done.
  - vm_compute. done.
Defined.
