(* ===== verification/Heap.v ===== *)
(** * Structures on the kernel heap

    One interface for the kinds of heap structures of the model (page tables,
    segments, address spaces, processes, semaphores, threads): access through a pointer,
    allocation and release.  Access through [NULL] or a released pointer stops
    the machine. *)

From S2P Require Import Prelude State Monad Machine.

(** A kind of structure: its live instances inside the heap. *)
Class Cell (T : Type) := {
  cells : heap_st -> gmap positive T;
  set_cells : gmap positive T -> heap_st -> heap_st;
  cell_name : string
}.

(** What the accesses rely on: a view of the heap is a store of its own. *)
Class CellLaws (T : Type) {C : Cell T} : Prop := {
  cells_set m h : cells (set_cells m h) = m;
  set_cells_set m m' h : set_cells m (set_cells m' h) = set_cells m h;
  set_cells_same h : set_cells (cells h) h = h;
  set_cells_next m h : h_next (set_cells m h) = h_next h
}.

#[global] Instance pt_cell : Cell pt_t := {
  cells := h_pt;
  set_cells m h := mk_heap (h_as h) (h_ps h) m (h_proc h) (h_sem h) (h_thread h) (h_next h) (kmalloc_script h);
  cell_name := "pt_t"
}.
#[global] Instance ps_cell : Cell ps_t := {
  cells := h_ps;
  set_cells m h := mk_heap (h_as h) m (h_pt h) (h_proc h) (h_sem h) (h_thread h) (h_next h) (kmalloc_script h);
  cell_name := "ps_t"
}.
#[global] Instance as_cell : Cell addrspace_t := {
  cells := h_as;
  set_cells m h := mk_heap m (h_ps h) (h_pt h) (h_proc h) (h_sem h) (h_thread h) (h_next h) (kmalloc_script h);
  cell_name := "addrspace_t"
}.
#[global] Instance proc_cell : Cell proc := {
  cells := h_proc;
  set_cells m h := mk_heap (h_as h) (h_ps h) (h_pt h) m (h_sem h) (h_thread h) (h_next h) (kmalloc_script h);
  cell_name := "struct proc"
}.
#[global] Instance sem_cell : Cell semaphore := {
  cells := h_sem;
  set_cells m h := mk_heap (h_as h) (h_ps h) (h_pt h) (h_proc h) m (h_thread h) (h_next h) (kmalloc_script h);
  cell_name := "struct semaphore"
}.
#[global] Instance thread_cell : Cell thread := {
  cells := h_thread;
  set_cells m h := mk_heap (h_as h) (h_ps h) (h_pt h) (h_proc h) (h_sem h) m (h_next h) (kmalloc_script h);
  cell_name := "struct thread"
}.

#[global] Instance pt_cell_laws : CellLaws pt_t.
Proof. split; by try intros ? []; try intros []. Qed.
#[global] Instance ps_cell_laws : CellLaws ps_t.
Proof. split; by try intros ? []; try intros []. Qed.
#[global] Instance as_cell_laws : CellLaws addrspace_t.
Proof. split; by try intros ? []; try intros []. Qed.
#[global] Instance proc_cell_laws : CellLaws proc.
Proof. split; by try intros ? []; try intros []. Qed.
#[global] Instance sem_cell_laws : CellLaws semaphore.
Proof. split; by try intros ? []; try intros []. Qed.
#[global] Instance thread_cell_laws : CellLaws thread.
Proof. split; by try intros ? []; try intros []. Qed.

Section heap.
Context {FS : Type} {T : Type} {C : Cell T}.
Implicit Types (s : kstate FS) (x : positive) (p : ptr) (v : T).

Definition cell_at s x : option T := cells (s_heap s) !! x.

Definition upd_cells (m : gmap positive T) s : kstate FS := set_heap (set_cells m (s_heap s)) s.
Definition put_cell x v s : kstate FS := upd_cells (<[x := v]> (cells (s_heap s))) s.

(** [*p] *)
Definition load p : M FS T :=
  h <- get s_heap ;; deref (x ← p; cells h !! x) cell_name.

(** [*p = v] *)
Definition store p v : M FS unit :=
  x <- deref p cell_name ;;
  h <- get s_heap ;;
  _ <- deref (cells h !! x) cell_name ;;
  modify (put_cell x v).

(** The state after the address of a new structure was taken. *)
Definition next_ptr s : kstate FS :=
  let h := s_heap s in
  set_heap (mk_heap (h_as h) (h_ps h) (h_pt h) (h_proc h) (h_sem h) (h_thread h) (Pos.succ (h_next h)) (kmalloc_script h)) s.

(** A structure just allocated, with its first contents. *)
Definition new v : M FS positive :=
  x <- fresh_ptr ;; modify (put_cell x v) ;; ret x.

(** [kfree(p)] *)
Definition kfree p : M FS unit :=
  match p with
  | None => ret tt
  | Some x =>
      h <- get s_heap ;;
      _ <- deref (cells h !! x) cell_name ;;
      modify (upd_cells (delete x (cells h)))
  end.

Definition kassert_ptr {A} (p : option A) (what : string) : M FS unit :=
  kassert (bool_decide (is_Some p)) what.

Lemma run_load {B} x v (k : T -> M FS B) s : cell_at s x = Some v -> bind (load (Some x)) k s = k v s.
Proof. intros Hx. unfold load. run. cbn. by rewrite (run_deref _ _ v). Qed.

Lemma run_store {B} x v0 v (k : unit -> M FS B) s :
  cell_at s x = Some v0 -> bind (store (Some x) v) k s = k tt (put_cell x v s).
Proof. intros Hx. unfold store. run. rewrite (run_deref _ _ x) by done. run. by rewrite (run_deref _ _ v0). Qed.

Lemma store_run x v0 v s : cell_at s x = Some v0 -> store (Some x) v s = Ok tt (put_cell x v s).
Proof. intros Hx. unfold store. rewrite (run_deref _ _ x) by done. run. by rewrite (run_deref _ _ v0). Qed.

Lemma run_new {B} v (k : positive -> M FS B) s :
  bind (new v) k s = k (h_next (s_heap s)) (put_cell (h_next (s_heap s)) v (next_ptr s)).
Proof. done. Qed.

Lemma run_kfree {B} x v (k : unit -> M FS B) s :
  cell_at s x = Some v -> bind (kfree (Some x)) k s = k tt (upd_cells (delete x (cells (s_heap s))) s).
Proof. intros Hx. unfold kfree. run. by rewrite (run_deref _ _ v). Qed.

Lemma run_kassert_ptr {A B} (a : A) what (k : unit -> M FS B) s :
  bind (kassert_ptr (Some a) what) k s = k tt s.
Proof. unfold kassert_ptr. rewrite run_kassert; [done|]. by apply bool_decide_eq_true_2. Qed.

Context {L : CellLaws T}.

Lemma cell_at_put_eq s x v : cell_at (put_cell x v s) x = Some v.
Proof. unfold cell_at, put_cell, upd_cells. cbn. by rewrite cells_set, lookup_insert_eq. Qed.

Lemma cell_at_put_ne s x y v : x <> y -> cell_at (put_cell x v s) y = cell_at s y.
Proof. intros. unfold cell_at, put_cell, upd_cells. cbn. by rewrite cells_set, lookup_insert_ne. Qed.

Lemma put_put s x v v' : put_cell x v (put_cell x v' s) = put_cell x v s.
Proof.
  unfold put_cell, upd_cells, set_heap. cbn. by rewrite cells_set, set_cells_set, insert_insert_eq.
Qed.

Lemma put_same s x v : cell_at s x = Some v -> put_cell x v s = s.
Proof.
  intros Hx. unfold put_cell, upd_cells. rewrite insert_id by done. rewrite set_cells_same. by destruct s.
Qed.
End heap.

#[export] Hint Rewrite @run_kassert_ptr : run.
