(* ===== verification/Coremap.v ===== *)
(** * The coremap ([kern/vm/coremap.c])

    The array of frame descriptors, the first-fit search for freed frames, the
    kernel page allocator, the release of user frames and the FIFO list of user
    frames kept in the descriptors.  The allocation of a user frame, which may
    evict another one, is in [UserPage.v]: it needs the address space code. *)

From S2P Require Import Prelude State Monad Machine Ram.

(** ** Fields of a descriptor *)

Definition set_entry_type (t : coremap_entry_state) (e : coremap_entry) : coremap_entry :=
  mk_cme t (allocation_size e) (previous_allocated e) (next_allocated e) (virtual_address e) (address_space e).
Definition set_allocation_size (n : Z) (e : coremap_entry) : coremap_entry :=
  mk_cme (entry_type e) n (previous_allocated e) (next_allocated e) (virtual_address e) (address_space e).
Definition set_previous_allocated (i : Z) (e : coremap_entry) : coremap_entry :=
  mk_cme (entry_type e) (allocation_size e) i (next_allocated e) (virtual_address e) (address_space e).
Definition set_next_allocated (i : Z) (e : coremap_entry) : coremap_entry :=
  mk_cme (entry_type e) (allocation_size e) (previous_allocated e) i (virtual_address e) (address_space e).
Definition set_owner (a : ptr) (va : Z) (e : coremap_entry) : coremap_entry :=
  mk_cme (entry_type e) (allocation_size e) (previous_allocated e) (next_allocated e) va a.

Definition set_coremap (l : list coremap_entry) (c : coremap_st) : coremap_st :=
  mk_cm l (total_ram_frames c) (is_coremap_initialized c) (invalid_reference c)
    (last_allocated_page c) (current_victim_page c).
Definition set_queue_ends (last victim : Z) (c : coremap_st) : coremap_st :=
  mk_cm (coremap c) (total_ram_frames c) (is_coremap_initialized c) (invalid_reference c) last victim.
Definition set_active (b : bool) (c : coremap_st) : coremap_st :=
  mk_cm (coremap c) (total_ram_frames c) b (invalid_reference c) (last_allocated_page c) (current_victim_page c).

(** [i == 0 || coremap[i - 1].entry_type != COREMAP_FREED] *)
Definition starts_block (cm : list coremap_entry) (i : Z) : bool :=
  (i =? 0) ||
  match zlookup cm (i - 1) with
  | Some p => negb (bool_decide (entry_type p = COREMAP_FREED))
  | None => false
  end.

(** The search loop of [allocate_free_pages]: [fuel] frames are left from [i]
    on; the result is [found_block_start]. *)
Fixpoint find_free_block (fuel : nat) (cm : list coremap_entry) (i first_free_page pages_needed : Z)
    : stop_reason + Z :=
  match fuel with
  | O => inr (-1)
  | S fuel' =>
      match zlookup cm i with
      | None => inl (bad_access "coremap[i]")
      | Some e =>
          if bool_decide (entry_type e = COREMAP_FREED) then
            let first_free_page := if starts_block cm i then i else first_free_page in
            if pages_needed <=? i - first_free_page + 1 then inr first_free_page
            else find_free_block fuel' cm (i + 1) first_free_page pages_needed
          else find_free_block fuel' cm (i + 1) first_free_page pages_needed
      end
  end.

Section coremap.
Context {FS : Type}.
Implicit Types s : kstate FS.

Definition cm_get (i : Z) : M FS coremap_entry :=
  c <- get s_cm ;; deref (zlookup (coremap c) i) "coremap[i]".

Definition cm_update (i : Z) (f : coremap_entry -> coremap_entry) : M FS unit :=
  c <- get s_cm ;;
  e <- deref (zlookup (coremap c) i) "coremap[i]" ;;
  modify (set_cm (set_coremap (zinsert i (f e) (coremap c)) c)).

Definition is_coremap_active : M FS bool :=
  spinlock_acquire coremap_lock ;;
  active <- get (fun s => is_coremap_initialized (s_cm s)) ;;
  spinlock_release coremap_lock ;;
  ret active.

(** The marking loop of [allocate_free_pages]; [Some] is an early return. *)
Fixpoint mark_block (n : nat) (i : Z) (t : coremap_entry_state) (a : ptr) (va : Z) : M FS (option Z) :=
  match n with
  | O => ret None
  | S n' =>
      cm_update i (set_entry_type t) ;;
      match t with
      | COREMAP_BUSY_USER => cm_update i (set_owner a va) ;; mark_block n' (i + 1) t a va
      | COREMAP_BUSY_KERNEL => cm_update i (set_owner None 0) ;; mark_block n' (i + 1) t a va
      | _ => ret (Some EINVAL)
      end
  end.

Definition allocate_free_pages (npages : Z) (t : coremap_entry_state) (a : ptr) (vaddr : Z) : M FS Z :=
  active <- is_coremap_active ;;
  if negb active then ret 0 else
  spinlock_acquire coremap_lock ;;
  c <- get s_cm ;;
  found <- lift (find_free_block (Z.to_nat (total_ram_frames c)) (coremap c) 0 (-1) npages) ;;
  if 0 <=? found then
    early <- mark_block (Z.to_nat npages) found t a vaddr ;;
    match early with
    | Some r => ret r
    | None =>
        cm_update found (set_allocation_size npages) ;;
        spinlock_release coremap_lock ;;
        ret (u32 (found * PAGE_SIZE))
    end
  else
    spinlock_release coremap_lock ;;
    ret 0.

Definition allocate_kernel_pages (npages : Z) : M FS Z :=
  address <- allocate_free_pages npages COREMAP_BUSY_KERNEL None 0 ;;
  address <- (if address =? 0 then
                spinlock_acquire stealmem_lock ;;
                address <- ram_stealmem npages ;;
                spinlock_release stealmem_lock ;;
                ret address
              else ret address) ;;
  active <- is_coremap_active ;;
  (if negb (address =? 0) && active then
     spinlock_acquire coremap_lock ;;
     mfor (Z.to_nat npages) 0 (fun i =>
       cm_update (address / PAGE_SIZE + i) (set_entry_type COREMAP_BUSY_KERNEL)) ;;
     cm_update (address / PAGE_SIZE) (set_allocation_size npages) ;;
     spinlock_release coremap_lock
   else ret tt) ;;
  ret address.

Definition free_pages (address npages : Z) : M FS Z :=
  active <- is_coremap_active ;;
  if negb active then ret 0 else
  let first_page := address / PAGE_SIZE in
  c <- get s_cm ;;
  kassert (first_page <? total_ram_frames c) "total_ram_frames > first_page" ;;
  spinlock_acquire coremap_lock ;;
  mfor (Z.to_nat npages) first_page (fun i =>
    cm_update i (set_entry_type COREMAP_FREED) ;; cm_update i (set_owner None 0)) ;;
  cm_update first_page (set_allocation_size 0) ;;
  spinlock_release coremap_lock ;;
  ret 1.

(** The relinking of [free_page_user]: the page leaves the allocation queue;
    the result is [(last_allocated_new, current_victim_new)]. *)
Definition unlink_page (page_index last victim : Z) : M FS (Z * Z) :=
  e <- cm_get page_index ;;
  inv <- get (fun s => invalid_reference (s_cm s)) ;;
  (if previous_allocated e =? inv then
       if next_allocated e =? inv then ret (inv, inv)
       else
         kassert (page_index =? victim) "page_index == current_victim_new" ;;
         cm_update (next_allocated e) (set_previous_allocated inv) ;;
         e' <- cm_get page_index ;;
         ret (last, next_allocated e')
     else
       if next_allocated e =? inv then
         kassert (page_index =? last) "page_index == last_allocated_new" ;;
         cm_update (previous_allocated e) (set_next_allocated inv) ;;
         e' <- cm_get page_index ;;
         ret (previous_allocated e', victim)
       else
         cm_update (next_allocated e) (set_previous_allocated (previous_allocated e)) ;;
         e' <- cm_get page_index ;;
         cm_update (previous_allocated e') (set_next_allocated (next_allocated e')) ;;
         ret (last, victim)).

Definition free_page_user (paddr : Z) : M FS unit :=
  active <- is_coremap_active ;;
  if negb active then ret tt else
  let page_index := paddr / PAGE_SIZE in
  c <- get s_cm ;;
  kassert (page_index <? total_ram_frames c) "total_ram_frames > page_index" ;;
  e <- cm_get page_index ;;
  kassert (allocation_size e =? 1) "coremap[page_index].allocation_size == 1" ;;
  spinlock_acquire page_replacement_lock ;;
  last <- get (fun s => last_allocated_page (s_cm s)) ;;
  victim <- get (fun s => current_victim_page (s_cm s)) ;;
  spinlock_release page_replacement_lock ;;
  spinlock_acquire coremap_lock ;;
  inv <- get (fun s => invalid_reference (s_cm s)) ;;
  ends <- unlink_page page_index last victim ;;
  cm_update page_index (set_next_allocated inv) ;;
  cm_update page_index (set_previous_allocated inv) ;;
  spinlock_release coremap_lock ;;
  _ <- free_pages paddr 1 ;;
  spinlock_acquire page_replacement_lock ;;
  modify (fun s => set_cm (set_queue_ends (fst ends) (snd ends) (s_cm s)) s) ;;
  spinlock_release page_replacement_lock.

(** The descriptor [coremap_init] stores everywhere; it runs while
    [invalid_reference] still has its initial value. *)
Definition untracked_entry (inv : Z) : coremap_entry := mk_cme COREMAP_UNTRACKED 0 inv inv 0 None.

Definition coremap_init : M FS unit :=
  size <- ram_getsize ;;
  let total := size / PAGE_SIZE in
  modify (fun s => set_cm (mk_cm (coremap (s_cm s)) total (is_coremap_initialized (s_cm s))
    (invalid_reference (s_cm s)) (last_allocated_page (s_cm s)) (current_victim_page (s_cm s))) s) ;;
  ok <- kmalloc (24 * total) ;;
  if negb ok then panic "Failed to allocate memory for coremap" else
  modify (fun s => set_cm (mk_cm (replicate (Z.to_nat total) (untracked_entry (invalid_reference (s_cm s))))
    total (is_coremap_initialized (s_cm s)) total total total) s) ;;
  spinlock_acquire coremap_lock ;;
  modify (fun s => set_cm (set_active true (s_cm s)) s) ;;
  spinlock_release coremap_lock.

(** The array is freed: later accesses through it are invalid. *)
Definition coremap_shutdown : M FS unit :=
  spinlock_acquire coremap_lock ;;
  modify (fun s => set_cm (set_active false (s_cm s)) s) ;;
  spinlock_release coremap_lock ;;
  modify (fun s => set_cm (set_coremap [] (s_cm s)) s).

(** [pagevm_can_sleep] of [pagevm.c]. *)
Definition pagevm_can_sleep : M FS unit :=
  c <- get s_cpu ;;
  kassert (bool_decide (held c = [])) "curcpu->c_spinlocks == 0" ;;
  kassert (negb (t_in_interrupt c)) "curthread->t_in_interrupt == 0".

Definition alloc_kpages (npages : Z) : M FS Z :=
  pagevm_can_sleep ;;
  physical_address <- allocate_kernel_pages npages ;;
  if physical_address =? 0 then ret 0 else ret (PADDR_TO_KVADDR physical_address).

Definition free_kpages (addr : Z) : M FS unit :=
  active <- is_coremap_active ;;
  if negb active then ret tt else
  let physical_address := u32 (addr - MIPS_KSEG0) in
  let first_page := physical_address / PAGE_SIZE in
  c <- get s_cm ;;
  kassert (first_page <? total_ram_frames c) "total_ram_frames > first_page" ;;
  e <- cm_get first_page ;;
  _ <- free_pages physical_address (allocation_size e) ;;
  ret tt.

Definition free_user_page (paddr : Z) : M FS unit := free_page_user paddr.
End coremap.
