(* ===== verification/CoremapSpec.v ===== *)
(** * What the coremap guarantees

    The first-fit search against its reference definition, the FIFO list of
    user frames as a doubly linked list segment, and the behaviour of the
    kernel page allocator and of the release of user frames. *)

From S2P Require Import Prelude State Monad Machine Testbed Ram Coremap.

(** ** First fit *)

Definition freed (cm : list coremap_entry) (i : Z) : Prop :=
  exists e, zlookup cm i = Some e /\ entry_type e = COREMAP_FREED.

(** The [n] frames from [b] on are all freed. *)
Definition block_freed (cm : list coremap_entry) (b n : Z) : Prop :=
  0 <= b /\ forall i, b <= i < b + n -> freed cm i.

(** The reference: [b] is the lowest start of a block of [n] freed frames, or
    [-1] when there is none. *)
Definition first_fit (cm : list coremap_entry) (n b : Z) : Prop :=
  (block_freed cm b n /\ forall b', 0 <= b' < b -> ~ block_freed cm b' n) \/
  (b = -1 /\ forall b', ~ block_freed cm b' n).

Lemma freed_type cm i e : zlookup cm i = Some e -> freed cm i <-> entry_type e = COREMAP_FREED.
Proof. unfold freed. intros He. split; [intros (e' & He' & ?); congruence|eauto]. Qed.

Lemma starts_block_true cm i :
  0 <= i < zlen cm -> starts_block cm i = true -> i = 0 \/ ~ freed cm (i - 1).
Proof.
  intros Hi. unfold starts_block. rewrite orb_true_iff, Z.eqb_eq. intros [|H]; [by left|right].
  destruct (zlookup cm (i - 1)) as [p|] eqn:Ep; [|done]. rewrite (freed_type _ _ _ Ep).
  by apply negb_true_iff, bool_decide_eq_false in H.
Qed.

Lemma starts_block_false cm i :
  0 <= i < zlen cm -> starts_block cm i = false -> 0 < i /\ freed cm (i - 1).
Proof.
  intros Hi. unfold starts_block. rewrite orb_false_iff, Z.eqb_neq. intros [H0 H].
  destruct (zlookup_in_range cm (i - 1)) as [p Ep]; [lia|]. rewrite Ep in H.
  split; [lia|]. rewrite (freed_type _ _ _ Ep). by apply negb_false_iff, bool_decide_eq_true in H.
Qed.

(** The loop invariant: [first] is the start of the run of freed frames that
    ends before [i], if there is one, that run is too short, and no block
    fits below [i]. *)
Definition scan_inv (cm : list coremap_entry) (n i first : Z) : Prop :=
  (forall b, block_freed cm b n -> i < b + n) /\
  (0 < i -> freed cm (i - 1) ->
     0 <= first < i /\ i - first < n /\ (forall j, first <= j < i -> freed cm j) /\
     (first = 0 \/ ~ freed cm (first - 1))).

Lemma find_free_block_first_fit fuel cm i first n :
  1 <= n -> 0 <= i -> i + Z.of_nat fuel = zlen cm -> scan_inv cm n i first ->
  exists b, find_free_block fuel cm i first n = inr b /\ first_fit cm n b.
Proof.
  intros Hn. revert i first. induction fuel as [|fuel IH]; intros i first Hi Hlen [Hno Hrun]; cbn [find_free_block].
  { exists (-1). split; [done|]. right. split; [done|]. intros b Hb.
    pose proof (Hno b Hb). destruct Hb as [Hb0 Hb]. destruct (Hb (b + n - 1)) as (e & He & _); [lia|].
    apply zlookup_Some_range in He. lia. }
  destruct (zlookup_in_range cm i) as [e He]; [lia|]. rewrite He.
  case_bool_decide as Hf.
  - assert (freed cm i) as Hfi by (by exists e).
    set (f := if starts_block cm i then i else first).
    assert (0 <= f <= i /\ (forall j, f <= j < i + 1 -> freed cm j) /\ (f = 0 \/ ~ freed cm (f - 1)))
      as (Hf0 & Hff & Hfs).
    { subst f. destruct (starts_block cm i) eqn:Est.
      - apply starts_block_true in Est; [|lia]. split_and!; [lia|lia| |].
        + intros j Hj. by replace j with i by lia.
        + destruct Est; [by left|by right].
      - apply starts_block_false in Est as [Hpos Hp]; [|lia].
        destruct (Hrun Hpos Hp) as (Hr1 & Hr2 & Hr3 & Hr4). split_and!; [lia|lia| |done].
        intros j Hj. destruct (decide (j = i)) as [->|]; [done|]. apply Hr3. lia. }
    destruct (Z.leb_spec n (i - f + 1)) as [Hfit|Hnofit].
    + exists f. split; [done|]. left. split; [split; [lia|]; intros j Hj; apply Hff; lia|].
      intros b' Hb' Hblk. pose proof (Hno b' Hblk). destruct Hblk as [_ Hblk].
      destruct Hfs as [|Hfs]; [lia|]. apply Hfs, Hblk. lia.
    + apply IH; [lia|lia|]. split.
      * intros b Hb. destruct (decide (i + 1 < b + n)); [done|].
        pose proof (Hno b Hb). destruct Hb as [Hb0 Hb].
        assert (b < f) by lia. destruct Hfs as [|Hfs]; [lia|]. destruct Hfs. apply Hb. lia.
      * intros _ _. split_and!; [lia|lia|lia| |done]. intros j Hj. apply Hff. lia.
  - assert (~ freed cm i) as Hnf by (by rewrite (freed_type _ _ _ He)).
    apply IH; [lia|lia|]. split.
    + intros b Hb. pose proof (Hno b Hb). destruct (decide (i + 1 < b + n)); [done|].
      destruct Hb as [Hb0 Hb]. destruct Hnf. apply Hb. lia.
    + intros _. replace (i + 1 - 1) with i by lia. done.
Qed.

Lemma find_free_block_ok cm n :
  1 <= n -> exists b, find_free_block (length cm) cm 0 (-1) n = inr b /\ first_fit cm n b.
Proof.
  intros Hn. apply find_free_block_first_fit; [done|done|unfold zlen; lia|]. split; [|lia].
  intros b [Hb _]. lia.
Qed.

(** ** Updating a range of descriptors *)

Definition update_range (lo n : Z) (f : coremap_entry -> coremap_entry) (cm : list coremap_entry) :=
  imap (fun k e => if (lo <=? Z.of_nat k) && (Z.of_nat k <? lo + n) then f e else e) cm.

Lemma zlen_update_range lo n f cm : zlen (update_range lo n f cm) = zlen cm.
Proof. unfold zlen, update_range. by rewrite length_imap. Qed.

Lemma zlookup_update_range lo n f cm i :
  zlookup (update_range lo n f cm) i =
    (if decide (lo <= i < lo + n) then f <$> zlookup cm i else zlookup cm i).
Proof.
  unfold zlookup, update_range. destruct (Z.ltb_spec i 0); [by case_decide|].
  rewrite list_lookup_imap, Z2Nat.id by lia.
  destruct (cm !! Z.to_nat i); cbn; [|by case_decide].
  case_decide; destruct (Z.leb_spec lo i), (Z.ltb_spec i (lo + n)); try lia; done.
Qed.

Lemma update_range_nil lo f cm : update_range lo 0 f cm = cm.
Proof.
  apply zlist_ext; [apply zlen_update_range|]. intros i _.
  rewrite zlookup_update_range, decide_False by lia. done.
Qed.

Lemma update_range_S lo n f cm e :
  zlookup cm lo = Some e -> 0 <= n ->
  update_range (lo + 1) n f (zinsert lo (f e) cm) = update_range lo (n + 1) f cm.
Proof.
  intros He Hn. pose proof (zlookup_Some_range _ _ _ He).
  apply zlist_ext; [by rewrite !zlen_update_range, zlen_zinsert|].
  intros i Hi. rewrite !zlookup_update_range, !zlookup_zinsert by done.
  repeat case_decide; subst; try lia; try done. by rewrite He.
Qed.

Section coremap_run.
Context {FS : Type}.
Implicit Types s : kstate FS.

Definition upd_cm (l : list coremap_entry) s : kstate FS := set_cm (set_coremap l (s_cm s)) s.

Lemma upd_cm_same s : upd_cm (coremap (s_cm s)) s = s.
Proof. by destruct s as [? ? [] ? ? ? ? ? ? ? ?]. Qed.

Lemma run_cm_update {B} i f e (k : unit -> M FS B) s :
  zlookup (coremap (s_cm s)) i = Some e ->
  bind (cm_update i f) k s = k tt (upd_cm (zinsert i (f e) (coremap (s_cm s))) s).
Proof. intros He. unfold cm_update. run. by rewrite (run_deref _ _ e). Qed.

Lemma run_cm_get {B} i e (k : coremap_entry -> M FS B) s :
  zlookup (coremap (s_cm s)) i = Some e -> bind (cm_get i) k s = k e s.
Proof. intros He. unfold cm_get. run. by rewrite (run_deref _ _ e). Qed.

Lemma run_is_coremap_active {B} (k : bool -> M FS B) s :
  idle s -> bind is_coremap_active k s = k (is_coremap_initialized (s_cm s)) s.
Proof. intros Hs. unfold is_coremap_active. run. f_equal. state_eq. Qed.

(** What claiming a freed frame writes in its descriptor. *)
Definition claim (t : coremap_entry_state) (a : ptr) (va : Z) (e : coremap_entry) : coremap_entry :=
  match t with
  | COREMAP_BUSY_USER => set_owner a va (set_entry_type t e)
  | _ => set_owner None 0 (set_entry_type t e)
  end.

Definition claimable (t : coremap_entry_state) : Prop := t = COREMAP_BUSY_USER \/ t = COREMAP_BUSY_KERNEL.

Lemma mark_block_run n i t a va s :
  claimable t -> 0 <= i -> i + Z.of_nat n <= zlen (coremap (s_cm s)) ->
  mark_block n i t a va s =
    Ok None (upd_cm (update_range i (Z.of_nat n) (claim t a va) (coremap (s_cm s))) s).
Proof.
  intros Ht. revert i s. induction n as [|n IH]; intros i s Hi Hlen; cbn [mark_block].
  - rewrite update_range_nil, upd_cm_same. done.
  - destruct (zlookup_in_range (coremap (s_cm s)) i) as [e He]; [lia|].
    rewrite (run_cm_update _ _ e) by done.
    assert (zlookup (zinsert i (set_entry_type t e) (coremap (s_cm s))) i = Some (set_entry_type t e)) as He'
      by (apply zlookup_zinsert_eq; lia).
    replace (Z.of_nat (S n)) with (Z.of_nat n + 1) by lia.
    rewrite <- (update_range_S i (Z.of_nat n) (claim t a va) (coremap (s_cm s)) e) by (done || lia).
    destruct Ht as [-> | ->];
      erewrite run_cm_update by exact He'; cbn [s_cm upd_cm set_cm set_coremap coremap];
      rewrite zinsert_zinsert_eq; (rewrite IH; [done|lia|cbn; rewrite zlen_zinsert; lia]).
Qed.

(** ** The bookkeeping invariant of the frame table *)
Record frames_wf (r : ram_st) (c : coremap_st) : Prop := {
  fw_active : is_coremap_initialized c = true;
  fw_len : zlen (coremap c) = total_ram_frames c;
  fw_inv : invalid_reference c = total_ram_frames c;
  fw_ram : ram_wf r;
  fw_total : total_ram_frames c = lastpaddr r / PAGE_SIZE;
  fw_untracked : forall i e, firstpaddr r <= i * PAGE_SIZE -> zlookup (coremap c) i = Some e ->
    entry_type e = COREMAP_UNTRACKED;
  fw_zero : forall e, zlookup (coremap c) 0 = Some e -> entry_type e = COREMAP_UNTRACKED
}.

Lemma fw_total_range r c : frames_wf r c -> 0 < total_ram_frames c <= 2^17.
Proof.
  intros Hwf. pose proof (fw_total _ _ Hwf). destruct (fw_ram _ _ Hwf) as [H1 H2 H3 H4].
  unfold PAGE_SIZE in *. lia.
Qed.

Definition claimed (b n : Z) t a va (cm : list coremap_entry) : list coremap_entry :=
  match zlookup (update_range b n (claim t a va) cm) b with
  | Some e => zinsert b (set_allocation_size n e) (update_range b n (claim t a va) cm)
  | None => cm
  end.

Lemma freed_range cm i : freed cm i -> 0 <= i < zlen cm.
Proof. intros (e & He & _). by apply zlookup_Some_range in He. Qed.

(** [allocate_free_pages]: first fit among the freed frames, or 0. *)
Lemma allocate_free_pages_run n t a va s :
  idle s -> frames_wf (s_ram s) (s_cm s) -> claimable t -> 1 <= n ->
  (exists b, 0 < b /\ first_fit (coremap (s_cm s)) n b /\ block_freed (coremap (s_cm s)) b n /\
     allocate_free_pages n t a va s =
       Ok (b * PAGE_SIZE) (upd_cm (claimed b n t a va (coremap (s_cm s))) s)) \/
  ((forall b, ~ block_freed (coremap (s_cm s)) b n) /\ allocate_free_pages n t a va s = Ok 0 s).
Proof.
  intros Hs Hwf Ht Hn. unfold allocate_free_pages. rewrite run_is_coremap_active by done.
  rewrite (fw_active _ _ Hwf). cbn [negb]. run. cbn [s_cm with_held set_cpu].
  pose proof (fw_len _ _ Hwf) as Hlen. pose proof (fw_total_range _ _ Hwf) as Htot.
  replace (Z.to_nat (total_ram_frames (s_cm s))) with (length (coremap (s_cm s))) by (unfold zlen in Hlen; lia).
  destruct (find_free_block_ok (coremap (s_cm s)) n Hn) as (b & Hfind & Hff). rewrite Hfind. cbn [lift]. run.
  destruct Hff as [[Hblk Hleast]|[-> Hnone]].
  - left. exists b. pose proof Hblk as [Hb0 Hfr].
    assert (0 < b) as Hb.
    { destruct (decide (b = 0)) as [->|]; [|lia]. destruct (Hfr 0) as (e & He & Ht0); [lia|]. rewrite (fw_zero _ _ Hwf _ He) in Ht0. done. }
    assert (b + n <= zlen (coremap (s_cm s))) as Hend.
    { destruct (freed_range _ (b + n - 1) ltac:(apply Hfr; lia)). lia. }
    split; [done|]. split; [by left|]. split; [done|]. destruct (Z.leb_spec 0 b); [|lia].
    rewrite (bind_Ok _ _ _ None (upd_cm (update_range b n (claim t a va) (coremap (s_cm s))) (with_held [coremap_lock] s))).
    2:{ rewrite mark_block_run by (done || cbn; lia). by rewrite Z2Nat.id by lia. }
    unfold claimed. destruct (zlookup_in_range (update_range b n (claim t a va) (coremap (s_cm s))) b) as [e He].
    { rewrite zlen_update_range. lia. }
    rewrite He. erewrite run_cm_update by exact He. run.
    unfold ret. rewrite u32_small by (unfold is_u32, PAGE_SIZE; lia). f_equal. state_eq.
  - right. split; [done|]. cbn. run. unfold ret. f_equal. state_eq.
Qed.
End coremap_run.

(** ** The FIFO list of user frames *)

(** The frame is allocated to a user page. *)
Definition user_frame (e : coremap_entry) : Prop := entry_type e = COREMAP_BUSY_USER /\ allocation_size e = 1.

(** [dseg cm p q n]: the descriptors of the frames [q] are linked in that order
    by [next_allocated], the last one to [n], and backwards by
    [previous_allocated]; the first one links back to [x] when [p = Some x]. *)
Fixpoint dseg (cm : list coremap_entry) (p : option Z) (q : list Z) (n : Z) : Prop :=
  match q with
  | [] => True
  | i :: q' =>
      (exists e, zlookup cm i = Some e /\ user_frame e /\ next_allocated e = hd n q' /\
         match p with Some x => previous_allocated e = x | None => True end) /\
      dseg cm (Some i) q' n
  end.

(** The predecessor of what follows [q]. *)
Definition tail_of (p : option Z) (q : list Z) : option Z := match last q with Some x => Some x | None => p end.

Lemma tail_of_cons p i q : tail_of p (i :: q) = tail_of (Some i) q.
Proof. unfold tail_of. rewrite last_cons. by destruct (last q). Qed.

Lemma tail_of_snoc p q i : tail_of p (q ++ [i]) = Some i.
Proof. unfold tail_of. by rewrite last_snoc. Qed.

Lemma dseg_app cm p q1 q2 n :
  dseg cm p (q1 ++ q2) n <-> dseg cm p q1 (hd n q2) /\ dseg cm (tail_of p q1) q2 n.
Proof.
  revert p. induction q1 as [|i q1 IH]; intros p; cbn [app dseg]; [tauto|].
  rewrite tail_of_cons, IH. replace (hd n (q1 ++ q2)) with (hd (hd n q2) q1) by (by destruct q1). tauto.
Qed.

Lemma dseg_ext cm cm' p q n :
  (forall i, i ∈ q -> zlookup cm' i = zlookup cm i) -> dseg cm p q n -> dseg cm' p q n.
Proof.
  revert p. induction q as [|i q IH]; intros p Hext; cbn [dseg]; [done|].
  intros [(e & He & H) Hq]. split.
  - exists e. rewrite Hext by set_solver. done.
  - apply IH; [|done]. intros j Hj. apply Hext. set_solver.
Qed.

Lemma dseg_insert cm p q n i e : i ∉ q -> dseg cm p q n -> dseg (zinsert i e cm) p q n.
Proof. intros Hi. apply dseg_ext. intros j Hj. apply zlookup_zinsert_ne. set_solver. Qed.

Lemma dseg_weaken cm p q n : dseg cm p q n -> dseg cm None q n.
Proof. destruct q as [|i q]; cbn [dseg]; [done|]. intros [(e & He & Hu & Hn & _) Hq]. eauto 10. Qed.

Lemma dseg_elem cm p q n i : dseg cm p q n -> i ∈ q -> exists e, zlookup cm i = Some e /\ user_frame e.
Proof.
  revert p. induction q as [|j q IH]; intros p; cbn [dseg]; [set_solver|].
  intros [(e & He & Hu & _) Hq] [->|Hi]%elem_of_cons; [eauto|]. by eapply IH.
Qed.

(** Relinking the ends of a segment. *)
Lemma dseg_set_next cm p q l n x e :
  l ∉ q -> zlookup cm l = Some e -> dseg cm p (q ++ [l]) n ->
  dseg (zinsert l (set_next_allocated x e) cm) p (q ++ [l]) x.
Proof.
  intros Hl He. rewrite !dseg_app. cbn [hd dseg]. intros [Hq [(e' & He' & Hu & Hn & Hp) _]].
  simplify_eq. split; [by apply dseg_insert|]. split; [|done].
  exists (set_next_allocated x e). split; [apply zlookup_zinsert_eq; by eapply zlookup_Some_range|]. done.
Qed.

Lemma dseg_set_prev cm p h q n x e :
  h ∉ q -> zlookup cm h = Some e -> dseg cm p (h :: q) n ->
  dseg (zinsert h (set_previous_allocated x e) cm) (Some x) (h :: q) n.
Proof.
  intros Hh He. cbn [dseg]. intros [(e' & He' & Hu & Hn & Hp) Hq]. simplify_eq.
  split; [|by apply dseg_insert].
  exists (set_previous_allocated x e). split; [apply zlookup_zinsert_eq; by eapply zlookup_Some_range|]. done.
Qed.

(** The FIFO list of a coremap is [q], oldest frame first.  With
    [hp = Some (invalid_reference c)] the oldest frame has no predecessor; with
    [hp = None] its back link is unconstrained. *)
Record fifo (hp : option Z) (c : coremap_st) (q : list Z) : Prop := {
  ff_seg : dseg (coremap c) hp q (invalid_reference c);
  ff_nodup : NoDup q;
  ff_victim : current_victim_page c = hd (invalid_reference c) q;
  ff_last : last_allocated_page c = default (invalid_reference c) (last q);
  ff_complete : forall i e, zlookup (coremap c) i = Some e -> entry_type e = COREMAP_BUSY_USER -> i ∈ q
}.

Lemma fifo_weaken hp c q : fifo hp c q -> fifo None c q.
Proof. intros [H1 H2 H3 H4 H5]. constructor; try done. by eapply dseg_weaken. Qed.

Lemma fifo_range hp c q i : fifo hp c q -> i ∈ q -> 0 <= i < zlen (coremap c).
Proof. intros Hf Hi. destruct (dseg_elem _ _ _ _ _ (ff_seg _ _ _ Hf) Hi) as (e & He & _). by eapply zlookup_Some_range. Qed.

Lemma fifo_not_freed hp c q i : fifo hp c q -> i ∈ q -> ~ freed (coremap c) i.
Proof.
  intros Hf Hi. destruct (dseg_elem _ _ _ _ _ (ff_seg _ _ _ Hf) Hi) as (e & He & [Hu _]).
  rewrite (freed_type _ _ _ He). congruence.
Qed.

(** Everything in a descriptor but the links. *)
Definition owner_view (e : coremap_entry) : coremap_entry_state * Z * Z * ptr :=
  (entry_type e, allocation_size e, virtual_address e, address_space e).

(** The two tables agree on everything but links outside the frames of [except]. *)
Definition same_owners (except : list Z) (cm cm' : list coremap_entry) : Prop :=
  zlen cm' = zlen cm /\ forall i, i ∉ except -> owner_view <$> zlookup cm' i = owner_view <$> zlookup cm i.

Lemma same_owners_refl x cm : same_owners x cm cm.
Proof. done. Qed.

Lemma same_owners_trans x cm1 cm2 cm3 : same_owners x cm1 cm2 -> same_owners x cm2 cm3 -> same_owners x cm1 cm3.
Proof. intros [L1 H1] [L2 H2]. split; [congruence|]. intros i Hi. rewrite H2, H1 by done. done. Qed.

Lemma same_owners_link x cm cm' i e e' :
  same_owners x cm cm' -> zlookup cm' i = Some e -> owner_view e' = owner_view e ->
  same_owners x cm (zinsert i e' cm').
Proof.
  intros [Hl H] He Hv. split; [by rewrite zlen_zinsert|]. intros j Hj.
  rewrite zlookup_zinsert by (by eapply zlookup_Some_range).
  case_decide; [subst|by apply H]. cbn. rewrite Hv, <- H, He by done. done.
Qed.

Lemma same_owners_except x cm cm' i e' :
  same_owners x cm cm' -> i ∈ x -> same_owners x cm (zinsert i e' cm').
Proof.
  intros [Hl H] Hi. split; [by rewrite zlen_zinsert|]. intros j Hj.
  rewrite zlookup_zinsert_ne by set_solver. by apply H.
Qed.

Lemma same_owners_lookup x cm cm' i e' :
  same_owners x cm cm' -> i ∉ x -> zlookup cm' i = Some e' ->
  exists e, zlookup cm i = Some e /\ owner_view e' = owner_view e.
Proof.
  intros [_ H] Hi He. specialize (H i Hi). rewrite He in H. cbn in H.
  destruct (zlookup cm i) as [e|]; [|done]. exists e. cbn in H. split; congruence.
Qed.

Lemma same_owners_lookup' x cm cm' i e :
  same_owners x cm cm' -> i ∉ x -> zlookup cm i = Some e ->
  exists e', zlookup cm' i = Some e' /\ owner_view e' = owner_view e.
Proof.
  intros [_ H] Hi He. specialize (H i Hi). rewrite He in H. cbn in H.
  destruct (zlookup cm' i) as [e'|]; [|done]. exists e'. cbn in H. split; congruence.
Qed.

Lemma owner_view_type e e' : owner_view e = owner_view e' -> entry_type e = entry_type e'.
Proof. unfold owner_view. congruence. Qed.

(** Removing a frame from the middle of a segment joins its neighbours. *)
Section unlink.
Context {FS : Type}.
Implicit Types s : kstate FS.

Lemma unlink_page_run hp s a p b :
  fifo hp (s_cm s) (a ++ p :: b) -> zlen (coremap (s_cm s)) = invalid_reference (s_cm s) ->
  (hp = Some (invalid_reference (s_cm s)) \/ a <> []) ->
  exists cm', unlink_page p (last_allocated_page (s_cm s)) (current_victim_page (s_cm s)) s =
      Ok (default (invalid_reference (s_cm s)) (last (a ++ b)), hd (invalid_reference (s_cm s)) (a ++ b))
         (upd_cm cm' s) /\
    dseg cm' hp (a ++ b) (invalid_reference (s_cm s)) /\ same_owners [] (coremap (s_cm s)) cm'.
Proof.
  intros Hf Hinv Hhp. pose proof Hf as [Hseg Hnd Hv Hl _].
  set (inv := invalid_reference (s_cm s)) in *. set (cm := coremap (s_cm s)) in *.
  assert (forall i, i ∈ a ++ p :: b -> i <> inv) as Hne.
  { intros i Hi. pose proof (fifo_range _ _ _ _ Hf Hi). subst cm. lia. }
  pose proof Hseg as Hseg'. rewrite dseg_app in Hseg'. cbn [hd dseg] in Hseg'.
  destruct Hseg' as [Ha [(e & He & Hu & Hnext & Hprev) Hb]].
  apply NoDup_app in Hnd as (Hnda & Hdis & Hndpb). apply NoDup_cons in Hndpb as [Hpb Hndb].
  unfold unlink_page. erewrite run_cm_get by exact He. run. fold inv.
  destruct a as [|l a] using rev_ind; [|clear IHa].
  - (* the oldest frame *)
    destruct Hhp as [->|]; [|done]. cbn in Hprev. rewrite Hprev, Z.eqb_refl, Hnext.
    destruct b as [|h b]; cbn [hd].
    + rewrite Z.eqb_refl. exists cm. split; [unfold cm; by rewrite upd_cm_same|]. split; [done|apply same_owners_refl].
    + destruct (Z.eqb_spec h inv) as [Hh|_]; [destruct (Hne h); set_solver|].
      rewrite run_kassert by (rewrite Hv; apply Z.eqb_refl).
      destruct Hb as [(eh & Heh & Huh & Hnh & Hph) Hb].
      rewrite (run_cm_update _ _ eh) by done.
      assert (zlookup (zinsert h (set_previous_allocated inv eh) cm) p = Some e) as He'
        by (rewrite zlookup_zinsert_ne by set_solver; done).
      rewrite (run_cm_get _ e) by done. unfold ret. rewrite Hl, Hnext.
      exists (zinsert h (set_previous_allocated inv eh) cm). cbn [app hd].
      split; [rewrite last_cons_cons; done|]. split.
      * apply (dseg_set_prev _ (Some p)); [by apply NoDup_cons in Hndb as []|done|]. split; [|done]. eauto 10.
      * by eapply same_owners_link.
  - (* a predecessor *)
    rewrite tail_of_snoc in Hprev. assert (l <> inv) as Hlinv by (apply Hne; set_solver).
    assert (l ∉ a) as Hla by (intros Hin; apply NoDup_app in Hnda as (_ & Hd & _); apply (Hd l Hin); set_solver).
    assert (l <> p) as Hlp by (intros ->; apply (Hdis p); set_solver).
    destruct (dseg_elem _ _ _ _ l Ha ltac:(set_solver)) as (el & Hel & _).
    rewrite Hprev. destruct (Z.eqb_spec l inv) as [|_]; [done|]. rewrite Hnext.
    destruct b as [|h b]; cbn [hd].
    + rewrite Z.eqb_refl. rewrite run_kassert.
      2:{ rewrite Hl, last_snoc. apply Z.eqb_refl. }
      rewrite (run_cm_update _ _ el) by done.
      assert (zlookup (zinsert l (set_next_allocated inv el) cm) p = Some e) as He'
        by (by rewrite zlookup_zinsert_ne).
      rewrite (run_cm_get _ e) by done. unfold ret. rewrite Hprev, Hv, app_nil_r, last_snoc.
      exists (zinsert l (set_next_allocated inv el) cm).
      split; [by destruct a|]. split; [by eapply dseg_set_next|by eapply same_owners_link].
    + destruct (Z.eqb_spec h inv) as [Hh|_]; [destruct (Hne h); set_solver|].
      assert (h <> l) as Hhl by (intros ->; apply (Hdis l); set_solver).
      assert (h <> p) as Hhp' by set_solver.
      destruct Hb as [(eh & Heh & Huh & Hnh & Hph) Hb].
      rewrite (run_cm_update _ _ eh) by done.
      set (cm1 := zinsert h (set_previous_allocated l eh) cm).
      assert (zlookup cm1 p = Some e) as He1 by (subst cm1; by rewrite zlookup_zinsert_ne).
      assert (zlookup cm1 l = Some el) as Hel1 by (subst cm1; by rewrite zlookup_zinsert_ne).
      rewrite (run_cm_get _ e) by done. rewrite Hprev, Hnext. cbn [hd].
      rewrite (run_cm_update _ _ el) by done. unfold ret.
      exists (zinsert l (set_next_allocated h el) cm1).
      split; [|split].
      * rewrite Hl, Hv, !last_app_cons, last_cons_cons. by destruct a.
      * rewrite dseg_app, tail_of_snoc. cbn [hd]. split.
        -- eapply dseg_set_next; [done|done|]. apply dseg_insert; [|done]. intros Hin. apply (Hdis h); set_solver.
        -- apply dseg_insert; [|]. { intros Hin. apply (Hdis l); set_solver. }
           apply (dseg_set_prev _ (Some p)); [by apply NoDup_cons in Hndb as []|done|]. split; [|done]. eauto 10.
      * eapply same_owners_link; [by eapply same_owners_link|done|done].
Qed.
End unlink.

Lemma update_range_snoc lo n f cm e :
  zlookup cm (lo + n) = Some e -> 0 <= n ->
  zinsert (lo + n) (f e) (update_range lo n f cm) = update_range lo (n + 1) f cm.
Proof.
  intros He Hn. pose proof (zlookup_Some_range _ _ _ He).
  apply zlist_ext; [by rewrite zlen_zinsert, !zlen_update_range|].
  intros i Hi. rewrite zlookup_zinsert, !zlookup_update_range by (by rewrite zlen_update_range).
  repeat case_decide; subst; try lia; try done. by rewrite He.
Qed.

Section coremap_free.
Context {FS : Type}.
Implicit Types s : kstate FS.

(** A loop that rewrites the descriptors of a block one after the other. *)
Lemma mfor_update_range n lo (f : coremap_entry -> coremap_entry) (body : Z -> M FS unit) s :
  0 <= lo -> lo + Z.of_nat n <= zlen (coremap (s_cm s)) ->
  (forall i e s', zlookup (coremap (s_cm s')) i = Some e ->
     body i s' = Ok tt (upd_cm (zinsert i (f e) (coremap (s_cm s'))) s')) ->
  mfor n lo body s = Ok tt (upd_cm (update_range lo (Z.of_nat n) f (coremap (s_cm s))) s).
Proof.
  intros Hlo Hlen Hbody.
  rewrite (mfor_run (fun i => upd_cm (update_range lo (i - lo) f (coremap (s_cm s))) s)).
  - do 2 f_equal. f_equal. lia.
  - by rewrite Z.sub_diag, update_range_nil, upd_cm_same.
  - intros i Hi. destruct (zlookup_in_range (coremap (s_cm s)) i) as [e He]; [lia|].
    erewrite Hbody; cycle 1.
    { cbn. rewrite zlookup_update_range, decide_False by lia. exact He. }
    cbn. f_equal. replace (i + 1 - lo) with (i - lo + 1) by lia.
    rewrite <- (update_range_snoc _ _ _ _ e) by (lia || by replace (lo + (i - lo)) with i by lia).
    by replace (lo + (i - lo)) with i by lia.
Qed.

(** What releasing a frame writes in its descriptor. *)
Definition release (e : coremap_entry) : coremap_entry := set_owner None 0 (set_entry_type COREMAP_FREED e).

Definition released (b n : Z) (cm : list coremap_entry) : list coremap_entry :=
  match zlookup (update_range b n release cm) b with
  | Some e => zinsert b (set_allocation_size 0 e) (update_range b n release cm)
  | None => cm
  end.

Lemma run_free_pages {B} b n (k : Z -> M FS B) s :
  idle s -> is_coremap_initialized (s_cm s) = true -> zlen (coremap (s_cm s)) = total_ram_frames (s_cm s) ->
  0 <= b < total_ram_frames (s_cm s) -> 0 <= n -> b + n <= total_ram_frames (s_cm s) ->
  bind (free_pages (b * PAGE_SIZE) n) k s = k 1 (upd_cm (released b n (coremap (s_cm s))) s).
Proof.
  intros Hs Hact Hlen Hb Hn Hbn. unfold free_pages. rewrite run_bind, run_is_coremap_active, Hact by done.
  cbn [negb]. replace (b * PAGE_SIZE / PAGE_SIZE) with b by (unfold PAGE_SIZE; lia). run.
  rewrite run_kassert by (apply Z.ltb_lt; lia). run.
  erewrite bind_Ok; cycle 1.
  { apply (mfor_update_range _ _ release); [lia|cbn; lia|].
    intros i e s' He. rewrite (run_cm_update _ _ e) by done. unfold cm_update. run.
    erewrite run_deref; cycle 1. { cbn. apply zlookup_zinsert_eq. by eapply zlookup_Some_range. }
    unfold modify. cbn. by rewrite zinsert_zinsert_eq. }
  rewrite Z2Nat.id by lia. run. cbn [s_cm with_held set_cpu]. unfold released.
  destruct (zlookup_in_range (update_range b n release (coremap (s_cm s))) b) as [e He];
    [rewrite zlen_update_range; lia|]. rewrite He.
  rewrite (run_cm_update _ _ e) by done. run. f_equal. state_eq.
Qed.

(** ** Releasing a user frame *)

Definition freed_user_entry (inv : Z) (e : coremap_entry) : coremap_entry :=
  set_allocation_size 0 (release (set_previous_allocated inv (set_next_allocated inv e))).

Lemma released_one p cm e :
  zlookup cm p = Some e -> released p 1 cm = zinsert p (set_allocation_size 0 (release e)) cm.
Proof.
  intros He. unfold released.
  replace (update_range p 1 release cm) with (zinsert p (release e) cm).
  - rewrite zlookup_zinsert_eq by (by eapply zlookup_Some_range). apply zinsert_zinsert_eq.
  - rewrite <- (update_range_nil p release cm) at 1. replace p with (p + 0) at 1 by lia.
    by rewrite (update_range_snoc p 0) by (lia || by rewrite Z.add_0_r).
Qed.

(** [free_page_user], once the outcome of the relinking is known. *)
Lemma run_free_page_user_links {B} p e e1 ends cm1 (k : unit -> M FS B) s :
  idle s -> frames_wf (s_ram s) (s_cm s) -> zlookup (coremap (s_cm s)) p = Some e -> allocation_size e = 1 ->
  unlink_page p (last_allocated_page (s_cm s)) (current_victim_page (s_cm s)) (with_held [coremap_lock] s) =
    Ok ends (upd_cm cm1 (with_held [coremap_lock] s)) ->
  zlen cm1 = zlen (coremap (s_cm s)) -> zlookup cm1 p = Some e1 ->
  bind (free_page_user (p * PAGE_SIZE)) k s =
    k tt (set_cm (set_queue_ends (fst ends) (snd ends)
            (set_coremap (zinsert p (freed_user_entry (invalid_reference (s_cm s)) e1) cm1) (s_cm s))) s).
Proof.
  intros Hs Hwf He Hsize Hun Hl1 He1. pose proof (fw_len _ _ Hwf) as Hlen.
  pose proof (zlookup_Some_range _ _ _ He) as Hp.
  unfold free_page_user. rewrite run_bind, run_is_coremap_active by done. rewrite (fw_active _ _ Hwf).
  cbn [negb]. replace (p * PAGE_SIZE / PAGE_SIZE) with p by (unfold PAGE_SIZE; lia). run.
  rewrite run_kassert by (apply Z.ltb_lt; lia). run. rewrite (run_cm_get _ e) by done.
  run. rewrite run_kassert by (by rewrite Hsize). run. cbn [s_cm with_held set_cpu].
  set (s1 := with_held [coremap_lock] _).
  assert (s1 = with_held [coremap_lock] s) as Es1 by (subst s1; state_eq).
  rewrite Es1, (bind_Ok _ _ _ _ _ Hun). clear s1 Es1 Hun. run.
  set (inv := invalid_reference (s_cm s)) in *.
  rewrite (run_cm_update _ _ e1) by done. run. cbn [s_cm upd_cm set_cm set_coremap coremap].
  assert (0 <= p < zlen cm1) as Hp1 by (by eapply zlookup_Some_range).
  rewrite (run_cm_update _ _ (set_next_allocated inv e1)) by (cbn; by apply zlookup_zinsert_eq). run.
  cbn [s_cm upd_cm set_cm set_coremap coremap]. rewrite zinsert_zinsert_eq. run.
  rewrite run_free_pages; [|done|by apply (fw_active _ _ Hwf)|cbn; rewrite zlen_zinsert; congruence|cbn; lia|lia|cbn; lia].
  cbn [s_cm upd_cm set_cm set_coremap coremap with_held set_cpu].
  rewrite (released_one _ _ (set_previous_allocated inv (set_next_allocated inv e1)))
    by (by apply zlookup_zinsert_eq). rewrite zinsert_zinsert_eq. run.
  f_equal. unfold inv, freed_user_entry. state_eq.
Qed.

Lemma run_free_page_user {B} hp a p b (k : unit -> M FS B) s :
  idle s -> frames_wf (s_ram s) (s_cm s) -> fifo hp (s_cm s) (a ++ p :: b) ->
  (hp = Some (invalid_reference (s_cm s)) \/ a <> []) ->
  exists cm', bind (free_page_user (p * PAGE_SIZE)) k s =
      k tt (set_cm (set_queue_ends (default (invalid_reference (s_cm s)) (last (a ++ b)))
                      (hd (invalid_reference (s_cm s)) (a ++ b)) (set_coremap cm' (s_cm s))) s) /\
    dseg cm' hp (a ++ b) (invalid_reference (s_cm s)) /\ same_owners [p] (coremap (s_cm s)) cm' /\
    (exists e, zlookup cm' p = Some e /\ entry_type e = COREMAP_FREED).
Proof.
  intros Hs Hwf Hf Hhp. pose proof (fw_len _ _ Hwf) as Hlen. pose proof (fw_inv _ _ Hwf) as Hinv.
  destruct (dseg_elem _ _ _ _ p (ff_seg _ _ _ Hf) ltac:(set_solver)) as (e & He & [Hu1 Hu2]).
  destruct (unlink_page_run hp (with_held [coremap_lock] s) a p b) as (cm1 & Hun & Hseg1 & Hown1);
    [done|cbn; congruence|done|].
  cbn [s_cm with_held set_cpu] in Hun, Hseg1, Hown1.
  destruct (same_owners_lookup' _ _ _ p e Hown1 ltac:(set_solver) He) as (e1 & He1 & Hv1).
  pose proof (zlookup_Some_range _ _ _ He1) as Hp1.
  eexists. split; [by apply (run_free_page_user_links p e e1 _ cm1 k s Hs Hwf He Hu2 Hun (proj1 Hown1))|]. split_and!.
  - apply dseg_insert; [|done]. pose proof (ff_nodup _ _ _ Hf) as Hnd.
    apply NoDup_app in Hnd as (_ & Hd & Hnd). apply NoDup_cons in Hnd as [Hpb _].
    intros [Ha|Hb]%elem_of_app; [|done]. apply (Hd p Ha). set_solver.
  - apply same_owners_except; [|set_solver]. destruct Hown1 as [Hl1 Ho1]. split; [done|].
    intros i _. apply Ho1. set_solver.
  - eexists. split; [by apply zlookup_zinsert_eq|done].
Qed.
End coremap_free.

(** ** Preservation of the invariants *)

(** A change of the table that keeps the types of all frames but those of [x],
    where [x] are frames below the untouched part of memory and not frame 0. *)
Lemma frames_wf_update r c c' x :
  frames_wf r c -> same_owners x (coremap c) (coremap c') ->
  (forall i, i ∈ x -> 0 < i /\ i * PAGE_SIZE < firstpaddr r) ->
  is_coremap_initialized c' = is_coremap_initialized c -> total_ram_frames c' = total_ram_frames c ->
  invalid_reference c' = invalid_reference c -> frames_wf r c'.
Proof.
  intros Hwf Hown Hx Ha Ht Hi. pose proof Hown as [Hlen _]. destruct Hwf. constructor; try congruence.
  - intros i e Hle He. destruct (decide (i ∈ x)) as [Hix|Hix]; [destruct (Hx i Hix); lia|].
    destruct (same_owners_lookup _ _ _ _ _ Hown Hix He) as (e0 & He0 & Hv).
    rewrite (owner_view_type _ _ Hv). by eapply fw_untracked0.
  - intros e He. destruct (decide (0 ∈ x)) as [Hix|Hix]; [destruct (Hx 0 Hix); lia|].
    destruct (same_owners_lookup _ _ _ _ _ Hown Hix He) as (e0 & He0 & Hv).
    rewrite (owner_view_type _ _ Hv). by eapply fw_zero0.
Qed.

(** A frame with a tracked type is below the free area and is not frame 0. *)
Lemma frames_wf_tracked r c i e :
  frames_wf r c -> zlookup (coremap c) i = Some e -> entry_type e <> COREMAP_UNTRACKED ->
  0 < i /\ i * PAGE_SIZE < firstpaddr r.
Proof.
  intros Hwf He Ht. split.
  - destruct (zlookup_Some_range _ _ _ He). destruct (decide (i = 0)) as [->|]; [|lia].
    destruct Ht. by apply (fw_zero _ _ Hwf).
  - destruct (Z_lt_le_dec (i * PAGE_SIZE) (firstpaddr r)); [done|]. destruct Ht.
    by apply (fw_untracked _ _ Hwf i).
Qed.

Section coremap_free_properties.
Context {FS : Type}.
Implicit Types s : kstate FS.

(** Releasing a user frame that has a predecessor in the queue, or the oldest
    frame when its back link is cleared. *)
Lemma free_user_page_ok hp a p b s :
  idle s -> frames_wf (s_ram s) (s_cm s) -> fifo hp (s_cm s) (a ++ p :: b) ->
  (hp = Some (invalid_reference (s_cm s)) \/ a <> []) ->
  exists c', free_user_page (p * PAGE_SIZE) s = Ok tt (set_cm c' s) /\
    fifo hp c' (a ++ b) /\ frames_wf (s_ram s) c' /\ freed (coremap c') p /\
    same_owners [p] (coremap (s_cm s)) (coremap c') /\
    total_ram_frames c' = total_ram_frames (s_cm s) /\ invalid_reference c' = invalid_reference (s_cm s).
Proof.
  intros Hs Hwf Hf Hhp.
  destruct (run_free_page_user hp a p b (fun _ => ret tt) s Hs Hwf Hf Hhp) as (cm' & Hrun & Hseg & Hown & (e & He & Ht)).
  destruct (dseg_elem _ _ _ _ p (ff_seg _ _ _ Hf) ltac:(set_solver)) as (e0 & He0 & [Hu1 Hu2]).
  eexists. split.
  { unfold free_user_page. unfold bind in Hrun. destruct (free_page_user _ s) as [[] s'|]; [|done].
    unfold ret in Hrun. exact Hrun. }
  split_and!; cbn; try done.
  - pose proof (ff_nodup _ _ _ Hf) as Hnd. constructor; cbn; try done.
    + apply NoDup_app in Hnd as (H1 & H2 & H3). apply NoDup_cons in H3 as [H3 H4].
      apply NoDup_app. split_and!; [done|set_solver|done].
    + intros i e' He' Ht'. destruct (decide (i = p)) as [->|Hip]; [congruence|].
      destruct (same_owners_lookup _ _ _ i _ Hown ltac:(set_solver) He') as (e1 & He1 & Hv).
      pose proof (ff_complete _ _ _ Hf i e1 He1 ltac:(rewrite <- (owner_view_type _ _ Hv); done)). set_solver.
  - eapply (frames_wf_update _ _ _ [p]); [done|done| |done..].
    intros i ->%list_elem_of_singleton. apply (frames_wf_tracked _ _ _ e0 Hwf He0). congruence.
  - by exists e.
Qed.

(** Releasing a user frame while the queue is intact. *)
Lemma free_user_page_fifo_step s a p b :
  idle s -> frames_wf (s_ram s) (s_cm s) ->
  fifo (Some (invalid_reference (s_cm s))) (s_cm s) (a ++ p :: b) ->
  exists c', free_user_page (p * PAGE_SIZE) s = Ok tt (set_cm c' s) /\
    fifo (Some (invalid_reference c')) c' (a ++ b) /\ frames_wf (s_ram s) c' /\
    freed (coremap c') p /\ same_owners [p] (coremap (s_cm s)) (coremap c').
Proof.
  intros Hs Hwf Hf. destruct (free_user_page_ok _ a p b s Hs Hwf Hf) as (c' & H1 & H2 & H3 & H4 & H5 & H6 & H7);
    [by left|]. exists c'. rewrite H7. done.
Qed.

(** Freeing a user page while the queue is intact (no eviction has
    happened since the oldest frame became the oldest, so it has no back
    link) removes exactly that frame from the FIFO queue, wherever it is,
    keeps the order of the others, marks the frame as freed, and touches the
    ownership of no other frame; no assertion of [free_page_user] fails. *)
Theorem free_user_page_fifo s a p b :
  idle s -> frames_wf (s_ram s) (s_cm s) ->
  fifo (Some (invalid_reference (s_cm s))) (s_cm s) (a ++ p :: b) ->
  exists c', free_user_page (p * PAGE_SIZE) s = Ok tt (set_cm c' s) /\
    fifo (Some (invalid_reference c')) c' (a ++ b) /\ frames_wf (s_ram s) c' /\
    freed (coremap c') p /\ same_owners [p] (coremap (s_cm s)) (coremap c').
Proof. apply free_user_page_fifo_step. Qed.
End coremap_free_properties.

(** A machine with eight frames: 0 to 2 for the kernel image, 3 to 5 user
    frames of one address space in the order 4, 3, 5, frame 6 freed, frame 7
    never used. *)
Definition demo_entry (t : coremap_entry_state) (n prev next va : Z) (a : ptr) := mk_cme t n prev next va a.
Definition demo_untracked : coremap_entry := mk_cme COREMAP_UNTRACKED 0 0 0 0 None.
Definition queue_demo (head_prev : Z) : kstate memfs :=
  set_ram (mk_ram 0x80003000 0x7000 0x8000)
    (set_cm (mk_cm
      [ demo_untracked; demo_untracked; demo_untracked;
        mk_cme COREMAP_BUSY_USER 1 4 5 0x401000 (Some 1%positive);
        mk_cme COREMAP_BUSY_USER 1 head_prev 3 0x400000 (Some 1%positive);
        mk_cme COREMAP_BUSY_USER 1 3 8 0x402000 (Some 1%positive);
        mk_cme COREMAP_FREED 0 8 8 0 None; demo_untracked ] 8 true 8 5 4) blank_state).

(** Case analysis on the index of a concrete table. *)
Ltac zcases H :=
  let i := fresh "i" in
  match type of H with zlookup ?l ?j = Some _ =>
    unfold zlookup in H; destruct (j <? 0) eqn:?; [discriminate H|];
    destruct (Z.to_nat j) as [|[|[|[|[|[|[|[|i]]]]]]]] eqn:?; cbn in H; try discriminate H; injection H as <-
  end.

Lemma queue_demo_frames hp : frames_wf (s_ram (queue_demo hp)) (s_cm (queue_demo hp)).
Proof.
  constructor; try reflexivity.
  - constructor; vm_compute; done.
  - intros i e Hi He. cbn in Hi. unfold PAGE_SIZE in Hi. cbn in He. zcases He; cbn; lia || done.
  - intros e He. cbn in He. by injection He as <-.
Qed.

Lemma queue_demo_fifo : fifo (Some 8) (s_cm (queue_demo 8)) [4; 3; 5].
Proof.
  constructor; try reflexivity.
  - cbn. repeat split; eexists; repeat split; reflexivity.
  - apply (bool_decide_unpack _). reflexivity.
  - intros i e He Ht. cbn in He. zcases He; try done; assert (i = 3 \/ i = 4 \/ i = 5) by lia; set_solver.
Qed.

Lemma free_user_page_fifo_witness :
  exists c', free_user_page (3 * PAGE_SIZE) (queue_demo 8) = Ok tt (set_cm c' (queue_demo 8)) /\
      fifo (Some (invalid_reference c')) c' [4; 5] /\ frames_wf (s_ram (queue_demo 8)) c' /\
      freed (coremap c') 3 /\ same_owners [3] (coremap (s_cm (queue_demo 8))) (coremap c').
Proof.
  apply (free_user_page_fifo (queue_demo 8) [4] 3 [5]); [reflexivity|apply queue_demo_frames|apply queue_demo_fifo].
Defined.
