(* ===== verification/KernelPages.v ===== *)
(** * Kernel pages: allocation, release and the start of the coremap

    [alloc_kpages] and [free_kpages] of [coremap.c] with the memory they take
    from [ram.c], and what [coremap_init] establishes. *)

From S2P Require Import Prelude State Monad Machine Testbed Ram Coremap CoremapSpec.

(** ** Blocks of kernel frames *)

(** The [n] frames from [b] on became a kernel block; nothing else changed. *)
Record kernel_block (b n : Z) (cm cm' : list coremap_entry) : Prop := {
  kb_len : zlen cm' = zlen cm;
  kb_range : 0 < b /\ b + n <= zlen cm;
  kb_type : forall i, b <= i < b + n -> exists e, zlookup cm' i = Some e /\ entry_type e = COREMAP_BUSY_KERNEL;
  kb_size : exists e, zlookup cm' b = Some e /\ allocation_size e = n;
  kb_frame : forall i, ~ (b <= i < b + n) -> zlookup cm' i = zlookup cm i;
  kb_was : forall i e, b <= i < b + n -> zlookup cm i = Some e ->
    entry_type e = COREMAP_FREED \/ entry_type e = COREMAP_UNTRACKED
}.

(** The table after the final loop of [allocate_kernel_pages]. *)
Definition kernel_marked (b n : Z) (cm : list coremap_entry) : list coremap_entry :=
  match zlookup (update_range b n (set_entry_type COREMAP_BUSY_KERNEL) cm) b with
  | Some e => zinsert b (set_allocation_size n e) (update_range b n (set_entry_type COREMAP_BUSY_KERNEL) cm)
  | None => cm
  end.

Lemma zlookup_kernel_marked b n cm i :
  0 <= b < zlen cm -> 1 <= n ->
  zlookup (kernel_marked b n cm) i =
    (if decide (b <= i < b + n)
     then (fun e => (if decide (i = b) then set_allocation_size n else id) (set_entry_type COREMAP_BUSY_KERNEL e))
            <$> zlookup cm i
     else zlookup cm i).
Proof.
  intros Hb Hn. unfold kernel_marked.
  destruct (zlookup_in_range cm b Hb) as [e He].
  assert (zlookup (update_range b n (set_entry_type COREMAP_BUSY_KERNEL) cm) b =
          Some (set_entry_type COREMAP_BUSY_KERNEL e)) as Hb'
    by (rewrite zlookup_update_range, decide_True, He by lia; done).
  rewrite Hb', zlookup_zinsert by (by rewrite zlen_update_range).
  rewrite zlookup_update_range. repeat case_decide; subst; try lia; try done. by rewrite He.
Qed.

Lemma zlen_kernel_marked b n cm : zlen (kernel_marked b n cm) = zlen cm.
Proof.
  unfold kernel_marked. destruct (zlookup _ b); [|done]. by rewrite zlen_zinsert, zlen_update_range.
Qed.

Lemma zlookup_claimed b n t a va cm i :
  0 <= b < zlen cm -> 1 <= n ->
  zlookup (claimed b n t a va cm) i =
    (if decide (b <= i < b + n)
     then (fun e => (if decide (i = b) then set_allocation_size n else id) (claim t a va e)) <$> zlookup cm i
     else zlookup cm i).
Proof.
  intros Hb Hn. unfold claimed. destruct (zlookup_in_range cm b Hb) as [e He].
  assert (zlookup (update_range b n (claim t a va) cm) b = Some (claim t a va e)) as Hb'
    by (rewrite zlookup_update_range, decide_True, He by lia; done).
  rewrite Hb', zlookup_zinsert by (by rewrite zlen_update_range).
  rewrite zlookup_update_range. repeat case_decide; subst; try lia; try done. by rewrite He.
Qed.

Lemma zlen_claimed b n t a va cm : zlen (claimed b n t a va cm) = zlen cm.
Proof. unfold claimed. destruct (zlookup _ b); [|done]. by rewrite zlen_zinsert, zlen_update_range. Qed.

(** Marking a table as a kernel block, when the block was free. *)
Lemma kernel_marked_block b n cm cm0 :
  1 <= n -> 0 < b -> b + n <= zlen cm0 -> zlen cm = zlen cm0 ->
  (forall i, ~ (b <= i < b + n) -> zlookup cm i = zlookup cm0 i) ->
  (forall i e, b <= i < b + n -> zlookup cm0 i = Some e ->
     entry_type e = COREMAP_FREED \/ entry_type e = COREMAP_UNTRACKED) ->
  kernel_block b n cm0 (kernel_marked b n cm).
Proof.
  intros Hn Hb Hlen Hz Hframe Hwas. constructor.
  - by rewrite zlen_kernel_marked.
  - lia.
  - intros i Hi. rewrite zlookup_kernel_marked, decide_True by lia.
    destruct (zlookup_in_range cm i) as [e ->]; [lia|]. eexists. split; [done|]. by case_decide.
  - rewrite zlookup_kernel_marked, decide_True by lia. destruct (zlookup_in_range cm b) as [e ->]; [lia|].
    eexists. split; [done|]. by rewrite decide_True.
  - intros i Hi. rewrite zlookup_kernel_marked, decide_False by lia. by apply Hframe.
  - done.
Qed.

Lemma kernel_block_fifo b n cm' hp c q :
  kernel_block b n (coremap c) cm' -> fifo hp c q -> fifo hp (set_coremap cm' c) q.
Proof.
  intros Hk Hf. pose proof Hf as [Hs Hn Hv Hl Hc].
  assert (forall i, i ∈ q -> zlookup cm' i = zlookup (coremap c) i) as Hext.
  { intros i Hi. apply (kb_frame _ _ _ _ Hk). intros Hin.
    destruct (dseg_elem _ _ _ _ _ Hs Hi) as (e & He & [Hu _]).
    destruct (kb_was _ _ _ _ Hk i e Hin He); congruence. }
  constructor; cbn; try done.
  - by eapply dseg_ext.
  - intros i e He Ht. destruct (decide (b <= i < b + n)) as [Hin|Hin].
    + destruct (kb_type _ _ _ _ Hk i Hin) as (e' & He' & Ht'). congruence.
    + rewrite (kb_frame _ _ _ _ Hk) in He by done. by eapply Hc.
Qed.

Section kernel_pages.
Context {FS : Type}.
Implicit Types s : kstate FS.

(** The tail of [allocate_kernel_pages] at a state in which the block starts
    at frame [b]. *)
Lemma mark_kernel_run b n s :
  idle s -> is_coremap_initialized (s_cm s) = true -> 0 < b -> 1 <= n -> b + n <= zlen (coremap (s_cm s)) ->
  (spinlock_acquire coremap_lock ;;
   mfor (Z.to_nat n) 0 (fun i => cm_update (b + i) (set_entry_type COREMAP_BUSY_KERNEL)) ;;
   cm_update b (set_allocation_size n) ;;
   spinlock_release coremap_lock) s = Ok tt (upd_cm (kernel_marked b n (coremap (s_cm s))) s).
Proof.
  intros Hs Ha Hb Hn Hlen. run.
  erewrite bind_Ok; cycle 1.
  { apply (mfor_run (fun i => upd_cm (update_range b i (set_entry_type COREMAP_BUSY_KERNEL) (coremap (s_cm s)))
      (with_held [coremap_lock] s))).
    - rewrite update_range_nil. state_eq.
    - intros i Hi. destruct (zlookup_in_range (coremap (s_cm s)) (b + i)) as [e He]; [lia|].
      unfold cm_update. run. erewrite run_deref; cycle 1.
      { cbn. rewrite zlookup_update_range, decide_False by lia. exact He. }
      unfold modify. cbn. f_equal. rewrite <- (update_range_snoc _ _ _ _ e) by (done || lia). done. }
  rewrite Z.add_0_l, Z2Nat.id by lia. run. unfold kernel_marked.
  destruct (zlookup_in_range (update_range b n (set_entry_type COREMAP_BUSY_KERNEL) (coremap (s_cm s))) b)
    as [e He]; [rewrite zlen_update_range; lia|].
  rewrite He, (run_cm_update _ _ e) by done. rewrite release_run' by done. f_equal. state_eq.
Qed.

Lemma block_frames_wf r c b n cm' :
  frames_wf r c -> kernel_block b n (coremap c) cm' -> (b + n) * PAGE_SIZE <= firstpaddr r ->
  frames_wf r (set_coremap cm' c).
Proof.
  intros Hwf Hk Hle. pose proof (kb_range _ _ _ _ Hk). pose proof Hwf as [W1 W2 W3 W4 W5 W6 W7]. constructor; cbn; try done.
  - by rewrite (kb_len _ _ _ _ Hk).
  - intros i e Hi He. rewrite (kb_frame _ _ _ _ Hk) in He by (unfold PAGE_SIZE in *; lia). by apply (W6 i).
  - intros e He. change (zlookup cm' 0 = Some e) in He.
    rewrite (kb_frame _ _ _ _ Hk) in He by lia. by apply W7.
Qed.

Lemma frames_wf_advance n r c :
  frames_wf r c -> 0 <= n -> firstpaddr r + n * PAGE_SIZE <= lastpaddr r -> frames_wf (ram_advance n r) c.
Proof.
  intros Hwf Hn Hle. pose proof Hwf as [W1 W2 W3 W4 W5 W6 W7]. constructor; try done; [by apply ram_advance_wf|].
  intros i e Hi. apply W6. cbn in Hi. unfold PAGE_SIZE in *. lia.
Qed.

(** Both ways of finding [n] contiguous frames, then the marking. *)
Lemma kernel_block_claimed b n cm :
  1 <= n -> 0 < b -> block_freed cm b n ->
  kernel_block b n cm (kernel_marked b n (claimed b n COREMAP_BUSY_KERNEL None 0 cm)).
Proof.
  intros Hn Hb [_ Hfr]. assert (b + n <= zlen cm) by (destruct (freed_range cm (b + n - 1)); [apply Hfr|]; lia).
  apply kernel_marked_block; [done|done|done|apply zlen_claimed| |].
  - intros i Hi. by rewrite zlookup_claimed, decide_False by lia.
  - intros i e Hi He. left. by apply (freed_type _ _ _ He), Hfr.
Qed.

Lemma kernel_block_stolen b n r c :
  frames_wf r c -> 1 <= n -> b * PAGE_SIZE = firstpaddr r -> firstpaddr r + n * PAGE_SIZE <= lastpaddr r ->
  kernel_block b n (coremap c) (kernel_marked b n (coremap c)).
Proof.
  intros Hwf Hn Hb Hle. destruct (fw_ram _ _ Hwf) as [Hr _ _ _].
  pose proof (fw_len _ _ Hwf) as Hlen. pose proof (fw_total _ _ Hwf) as Htot. unfold PAGE_SIZE in *.
  apply kernel_marked_block; [done|lia|lia|done|done|].
  intros i e Hi He. right. apply (fw_untracked _ _ Hwf i); [unfold PAGE_SIZE; lia|done].
Qed.

Lemma mark_kernel_block b n s :
  idle s -> is_coremap_initialized (s_cm s) = true -> 0 < b -> 1 <= n -> b + n <= zlen (coremap (s_cm s)) ->
  (active <- is_coremap_active ;;
   (if negb (b * PAGE_SIZE =? 0) && active then
      spinlock_acquire coremap_lock ;;
      mfor (Z.to_nat n) 0 (fun i =>
        cm_update (b * PAGE_SIZE / PAGE_SIZE + i) (set_entry_type COREMAP_BUSY_KERNEL)) ;;
      cm_update (b * PAGE_SIZE / PAGE_SIZE) (set_allocation_size n) ;;
      spinlock_release coremap_lock
    else ret tt) ;;
   ret (b * PAGE_SIZE)) s = Ok (b * PAGE_SIZE) (upd_cm (kernel_marked b n (coremap (s_cm s))) s).
Proof.
  intros Hs Ha Hb Hn Hlen. rewrite run_is_coremap_active, Ha by done.
  replace (b * PAGE_SIZE =? 0) with false by (unfold PAGE_SIZE; symmetry; apply Z.eqb_neq; lia). cbn [negb andb].
  replace (b * PAGE_SIZE / PAGE_SIZE) with b by (unfold PAGE_SIZE; lia).
  by rewrite (bind_Ok _ _ _ _ _ (mark_kernel_run b n s Hs Ha Hb Hn Hlen)).
Qed.

(** The three outcomes of [allocate_kernel_pages]. *)
Inductive kpages_outcome (n : Z) s : Z -> kstate FS -> Prop :=
  | kpages_none :
      (forall b, ~ block_freed (coremap (s_cm s)) b n) ->
      lastpaddr (s_ram s) < firstpaddr (s_ram s) + n * PAGE_SIZE ->
      kpages_outcome n s 0 s
  | kpages_reused b cm' :
      first_fit (coremap (s_cm s)) n b -> kernel_block b n (coremap (s_cm s)) cm' ->
      (b + n) * PAGE_SIZE <= firstpaddr (s_ram s) ->
      kpages_outcome n s (b * PAGE_SIZE) (upd_cm cm' s)
  | kpages_stolen b cm' :
      (forall b', ~ block_freed (coremap (s_cm s)) b' n) ->
      b * PAGE_SIZE = firstpaddr (s_ram s) -> firstpaddr (s_ram s) + n * PAGE_SIZE <= lastpaddr (s_ram s) ->
      kernel_block b n (coremap (s_cm s)) cm' ->
      kpages_outcome n s (b * PAGE_SIZE) (upd_cm cm' (set_ram (ram_advance n (s_ram s)) s)).

Lemma freed_block_below r c b n :
  frames_wf r c -> 1 <= n -> block_freed (coremap c) b n -> (b + n) * PAGE_SIZE <= firstpaddr r.
Proof.
  intros Hwf Hn [Hb0 Hfr]. destruct (Hfr (b + n - 1)) as (e & He & Ht); [lia|].
  destruct (frames_wf_tracked _ _ _ _ Hwf He) as [_ Hlt]; [congruence|].
  destruct (fw_ram _ _ Hwf). unfold PAGE_SIZE in *. lia.
Qed.

Lemma allocate_kernel_pages_run n s :
  idle s -> frames_wf (s_ram s) (s_cm s) -> 1 <= n < 2^19 ->
  exists addr s', allocate_kernel_pages n s = Ok addr s' /\ kpages_outcome n s addr s'.
Proof.
  intros Hs Hwf Hn. unfold allocate_kernel_pages.
  destruct (allocate_free_pages_run n COREMAP_BUSY_KERNEL None 0 s) as
    [(b & Hb & Hff & Hblk & Hrun)|[Hnone Hrun]]; [done|done|by right|lia| |];
    rewrite (bind_Ok _ _ _ _ _ Hrun).
  - pose proof (freed_block_below _ _ b n Hwf ltac:(lia) Hblk) as Hbelow.
    pose proof (kernel_block_claimed b n _ ltac:(lia) Hb Hblk) as Hkb.
    replace (b * PAGE_SIZE =? 0) with false by (unfold PAGE_SIZE; symmetry; apply Z.eqb_neq; lia).
    rewrite run_ret, mark_kernel_block; [|done|by apply (fw_active _ _ Hwf)|done|lia|].
    2:{ cbn. rewrite zlen_claimed. by apply (kb_range _ _ _ _ Hkb). }
    do 2 eexists. split; [done|]. by apply (kpages_reused n s b).
  - cbn [Z.eqb]. run.
    pose proof (ram_stealmem_run n (with_held [stealmem_lock] s) (fw_ram _ _ Hwf) ltac:(lia)) as Hst.
    cbn [s_ram with_held set_cpu] in Hst. destruct (Z.ltb_spec (lastpaddr (s_ram s)) (firstpaddr (s_ram s) + n * PAGE_SIZE)).
    + rewrite (bind_Ok _ _ _ _ _ Hst). run. rewrite run_is_coremap_active by done. cbn. unfold ret.
      do 2 eexists. split; [done|]. replace (with_held [] _) with s by state_eq. by apply kpages_none.
    + rewrite (bind_Ok _ _ _ _ _ Hst). run.
      destruct (fw_ram _ _ Hwf) as [Hr1 Hr2 Hr3 Hr4].
      assert (firstpaddr (s_ram s) / PAGE_SIZE * PAGE_SIZE = firstpaddr (s_ram s)) as Hb by (unfold PAGE_SIZE in *; lia).
      pose proof (kernel_block_stolen _ n _ _ Hwf ltac:(lia) Hb ltac:(lia)) as Hkb.
      replace (with_held [] _) with (set_ram (ram_advance n (s_ram s)) s) by state_eq.
      pose proof (mark_kernel_block (firstpaddr (s_ram s) / PAGE_SIZE) n (set_ram (ram_advance n (s_ram s)) s) Hs
        (fw_active _ _ Hwf) (proj1 (kb_range _ _ _ _ Hkb)) ltac:(lia) (proj2 (kb_range _ _ _ _ Hkb))) as Hm.
      pose proof (kpages_stolen n s _ _ Hnone Hb ltac:(lia) Hkb) as Ho. rewrite Hb in Hm, Ho. eauto.
Qed.

(** Releasing a block. *)
Lemma zlookup_released b n cm i :
  0 <= b < zlen cm -> 1 <= n ->
  zlookup (released b n cm) i =
    (if decide (b <= i < b + n)
     then (fun e => (if decide (i = b) then set_allocation_size 0 else id) (release e)) <$> zlookup cm i
     else zlookup cm i).
Proof.
  intros Hb Hn. unfold released. destruct (zlookup_in_range cm b Hb) as [e He].
  assert (zlookup (update_range b n release cm) b = Some (release e)) as Hb'
    by (rewrite zlookup_update_range, decide_True, He by lia; done).
  rewrite Hb', zlookup_zinsert by (by rewrite zlen_update_range).
  rewrite zlookup_update_range. repeat case_decide; subst; try lia; try done. by rewrite He.
Qed.

Lemma zlen_released b n cm : zlen (released b n cm) = zlen cm.
Proof. unfold released. destruct (zlookup _ b); [|done]. by rewrite zlen_zinsert, zlen_update_range. Qed.

Lemma free_kpages_run b n e s :
  idle s -> frames_wf (s_ram s) (s_cm s) -> 0 < b -> 1 <= n -> b + n <= zlen (coremap (s_cm s)) ->
  zlookup (coremap (s_cm s)) b = Some e -> allocation_size e = n ->
  free_kpages (PADDR_TO_KVADDR (b * PAGE_SIZE)) s = Ok tt (upd_cm (released b n (coremap (s_cm s))) s).
Proof.
  intros Hs Hwf Hb Hn Hlen He Hsize. unfold free_kpages.
  pose proof (fw_total_range _ _ Hwf) as Htot. pose proof (fw_len _ _ Hwf) as Hl.
  rewrite run_is_coremap_active, (fw_active _ _ Hwf) by done. cbn [negb].
  change (u32 (PADDR_TO_KVADDR (b * PAGE_SIZE) - MIPS_KSEG0)) with (kva_to_pa (PADDR_TO_KVADDR (b * PAGE_SIZE))).
  rewrite kva_to_pa_kva by (unfold is_u32, PAGE_SIZE; lia).
  replace (b * PAGE_SIZE / PAGE_SIZE) with b by (unfold PAGE_SIZE; lia).
  run. rewrite run_kassert by (apply Z.ltb_lt; lia). run. rewrite (run_cm_get _ e), Hsize by done.
  rewrite run_free_pages by (done || lia || apply (fw_active _ _ Hwf)). done.
Qed.

(** A kernel block that is given back: the frames are freed, no others change. *)
Lemma released_wf r c b n cm0 :
  frames_wf r c -> kernel_block b n cm0 (coremap c) -> 1 <= n -> (b + n) * PAGE_SIZE <= firstpaddr r ->
  frames_wf r (set_coremap (released b n (coremap c)) c).
Proof.
  intros Hwf Hk Hn Hle. pose proof (kb_range _ _ _ _ Hk) as Hr. pose proof (kb_len _ _ _ _ Hk).
  pose proof Hwf as [W1 W2 W3 W4 W5 W6 W7]. constructor; try done.
  - cbn [coremap set_coremap]. by rewrite zlen_released.
  - intros i e Hi He. cbn [coremap set_coremap] in He.
    rewrite zlookup_released, decide_False in He by (unfold PAGE_SIZE in *; lia). by apply (W6 i).
  - intros e He. cbn [coremap set_coremap] in He.
    rewrite zlookup_released, decide_False in He by lia. by apply W7.
Qed.

Lemma released_fifo hp c b n q cm0 :
  kernel_block b n cm0 (coremap c) -> 1 <= n -> fifo hp c q ->
  fifo hp (set_coremap (released b n (coremap c)) c) q.
Proof.
  intros Hk Hn Hf. pose proof (kb_range _ _ _ _ Hk) as Hr. pose proof (kb_len _ _ _ _ Hk).
  pose proof Hf as [Hs Hnd Hv Hl Hc]. constructor; cbn; try done.
  - eapply dseg_ext; [|done]. intros i Hi. rewrite zlookup_released by lia. case_decide; [|done].
    destruct (dseg_elem _ _ _ _ _ Hs Hi) as (e & He & [Hu _]).
    destruct (kb_type _ _ _ _ Hk i) as (e' & He' & Ht); [lia|]. congruence.
  - intros i e He Ht. rewrite zlookup_released in He by lia. case_decide; [|by eapply Hc].
    destruct (zlookup (coremap c) i); [|done]. cbn in He. injection He as <-. by case_decide.
Qed.

(** What an allocation establishes, whichever way the block was found. *)
Lemma kpages_outcome_block n hp q s addr s' :
  kpages_outcome n s addr s' -> frames_wf (s_ram s) (s_cm s) -> fifo hp (s_cm s) q -> 1 <= n -> addr <> 0 ->
  exists b, addr = b * PAGE_SIZE /\ kernel_block b n (coremap (s_cm s)) (coremap (s_cm s')) /\
    frames_wf (s_ram s') (s_cm s') /\ fifo hp (s_cm s') q /\ (b + n) * PAGE_SIZE <= firstpaddr (s_ram s') /\
    s' = set_ram (s_ram s') (set_cm (s_cm s') s) /\ held (s_cpu s') = held (s_cpu s) /\
    (first_fit (coremap (s_cm s)) n b \/ b * PAGE_SIZE = firstpaddr (s_ram s)).
Proof.
  intros Ho Hwf Hf Hn Hne. destruct Ho as [|b cm' Hff Hk Hle|b cm' Hno Hb Hle Hk]; [done| |].
  - exists b. split_and!; try done; [by eapply block_frames_wf|by eapply kernel_block_fifo|by left].
  - exists b. assert ((b + n) * PAGE_SIZE <= firstpaddr (ram_advance n (s_ram s))) by (cbn; lia).
    split_and!; try done; [|by eapply kernel_block_fifo|by right].
    eapply block_frames_wf; [|done|done]. apply frames_wf_advance; [done|lia|done].
Qed.

Lemma alloc_kpages_run n s :
  idle s -> t_in_interrupt (s_cpu s) = false -> frames_wf (s_ram s) (s_cm s) -> 1 <= n < 2^19 ->
  exists addr s', alloc_kpages n s = Ok (if addr =? 0 then 0 else PADDR_TO_KVADDR addr) s' /\
    kpages_outcome n s addr s'.
Proof.
  intros Hs Hi Hwf Hn. destruct (allocate_kernel_pages_run n s Hs Hwf Hn) as (addr & s' & Hrun & Ho).
  exists addr, s'. split; [|done]. unfold alloc_kpages, pagevm_can_sleep. run.
  rewrite run_kassert by (by apply bool_decide_eq_true). run. rewrite run_kassert by (by rewrite Hi).
  rewrite (bind_Ok _ _ _ _ _ Hrun). by destruct (addr =? 0).
Qed.

(** (C32) [alloc_kpages] returns the kernel address of [n] contiguous frames,
    and only of frames that were freed or never used: the lowest block of
    freed frames that fits if there is one, otherwise fresh memory; the
    frames become kernel frames, the size is recorded at the first one, every
    other descriptor and the queue of user frames are untouched, and the
    frame table stays consistent with the memory left.  It returns 0 only
    when no freed block fits and not enough memory is left, and then changes
    nothing. *)
Theorem alloc_kpages_first_fit n hp q s :
  idle s -> t_in_interrupt (s_cpu s) = false -> frames_wf (s_ram s) (s_cm s) -> fifo hp (s_cm s) q ->
  1 <= n < 2^19 ->
  exists kva s', alloc_kpages n s = Ok kva s' /\
    ((kva = 0 /\ s' = s /\ (forall b, ~ block_freed (coremap (s_cm s)) b n) /\
      lastpaddr (s_ram s) < firstpaddr (s_ram s) + n * PAGE_SIZE) \/
     (exists b, kva = PADDR_TO_KVADDR (b * PAGE_SIZE) /\
        kernel_block b n (coremap (s_cm s)) (coremap (s_cm s')) /\
        frames_wf (s_ram s') (s_cm s') /\ fifo hp (s_cm s') q /\
        s' = set_ram (s_ram s') (set_cm (s_cm s') s) /\
        (first_fit (coremap (s_cm s)) n b \/ b * PAGE_SIZE = firstpaddr (s_ram s)))).
Proof.
  intros Hs Hi Hwf Hf Hn. destruct (alloc_kpages_run n s Hs Hi Hwf Hn) as (addr & s' & Hrun & Ho).
  do 2 eexists. split; [done|]. destruct (Z.eqb_spec addr 0) as [->|Hne].
  - inversion Ho as [|b cm' _ Hk _ Hb|b cm' _ _ _ Hk Hb]; subst; [by left|exfalso..];
      destruct (kb_range _ _ _ _ Hk); unfold PAGE_SIZE in *; lia.
  - right. destruct (kpages_outcome_block n hp q s addr s' Ho Hwf Hf ltac:(lia) Hne)
      as (b & -> & H1 & H2 & H3 & _ & H4 & _ & H5). eauto 10.
Qed.

(** Freeing what [alloc_kpages] returned gives back exactly the block:
    its [n] frames become freed, so that the next request of that size can
    use them, and every other frame is as it was before the allocation; the
    invariants hold again. *)
Theorem free_kpages_roundtrip n hp q s kva s' :
  idle s -> t_in_interrupt (s_cpu s) = false -> frames_wf (s_ram s) (s_cm s) -> fifo hp (s_cm s) q ->
  1 <= n < 2^19 -> alloc_kpages n s = Ok kva s' -> kva <> 0 ->
  exists b s'', kva = PADDR_TO_KVADDR (b * PAGE_SIZE) /\ free_kpages kva s' = Ok tt s'' /\
    block_freed (coremap (s_cm s'')) b n /\
    (forall i, ~ (b <= i < b + n) -> zlookup (coremap (s_cm s'')) i = zlookup (coremap (s_cm s)) i) /\
    frames_wf (s_ram s'') (s_cm s'') /\ fifo hp (s_cm s'') q.
Proof.
  intros Hs Hi Hwf Hf Hn Hrun Hkva. destruct (alloc_kpages_run n s Hs Hi Hwf Hn) as (addr & s1 & Hrun' & Ho).
  rewrite Hrun' in Hrun. injection Hrun as <- <-. destruct (Z.eqb_spec addr 0) as [|Hne]; [done|].
  destruct (kpages_outcome_block n hp q s addr s1 Ho Hwf Hf ltac:(lia) Hne)
    as (b & -> & Hk & Hwf1 & Hf1 & Hle & Hfr & Hh & _).
  pose proof (kb_range _ _ _ _ Hk) as Hr. pose proof (kb_len _ _ _ _ Hk) as Hl.
  destruct (kb_size _ _ _ _ Hk) as (e & He & Hsz).
  exists b. eexists. split; [done|]. split.
  { apply (free_kpages_run b n e); [unfold idle; congruence|done|lia|lia|lia|done|done]. }
  cbn [upd_cm s_cm s_ram set_cm]. split_and!.
  - split; [lia|]. intros i Hi'. unfold freed. cbn [coremap set_coremap]. rewrite zlookup_released, decide_True by lia.
    destruct (zlookup_in_range (coremap (s_cm s1)) i) as [ei ->]; [lia|]. eexists. split; [done|]. by case_decide.
  - intros i Hi'. cbn [coremap set_coremap]. rewrite zlookup_released, decide_False by lia. by apply (kb_frame _ _ _ _ Hk).
  - by eapply released_wf; [|done|lia|].
  - by eapply released_fifo; [|lia|].
Qed.

(** [coremap_init] turns any machine with usable memory into one whose
    frame table is consistent: one untracked descriptor per frame, an empty
    queue of user frames, the coremap active and no lock held; without memory
    for the table it panics. *)
Theorem coremap_init_establishes s :
  idle s -> ram_wf (s_ram s) -> PAGE_SIZE <= lastpaddr (s_ram s) ->
  match kmalloc (FS := FS) 0 s with
  | Ok true s1 => exists c, coremap_init s = Ok tt (set_cm c s1) /\ frames_wf (s_ram s) c /\
      fifo (Some (invalid_reference c)) c [] /\ total_ram_frames c = lastpaddr (s_ram s) / PAGE_SIZE
  | _ => coremap_init s = Stop (panic_called "Failed to allocate memory for coremap")
  end.
Proof.
  intros Hs Hram Hlast. destruct s as [[h spl ii cp] r c t st sw [ha hp hpt hpr hse hth hn scr] ptb m fs lg].
  unfold idle in Hs. cbn in Hs, Hram, Hlast. subst h.
  assert (Z.of_nat (Z.to_nat (lastpaddr r / PAGE_SIZE)) = lastpaddr r / PAGE_SIZE) as Htot
    by (destruct Hram; unfold PAGE_SIZE; lia).
  set (c' := mk_cm (replicate (Z.to_nat (lastpaddr r / PAGE_SIZE)) (untracked_entry (invalid_reference c)))
    (lastpaddr r / PAGE_SIZE) true (lastpaddr r / PAGE_SIZE) (lastpaddr r / PAGE_SIZE) (lastpaddr r / PAGE_SIZE)).
  assert (frames_wf r c' /\ fifo (Some (invalid_reference c')) c' [] /\
    total_ram_frames c' = lastpaddr r / PAGE_SIZE) as Hc'.
  { subst c'. split_and!; try done.
    - constructor; cbn [coremap total_ram_frames is_coremap_initialized invalid_reference]; try done.
      + rewrite zlen_replicate. done.
      + intros i e _ He. rewrite zlookup_replicate in He. case_decide; [|done]. by injection He as <-.
      + intros e He. rewrite zlookup_replicate in He. case_decide; [|done]. by injection He as <-.
    - constructor; try done; [apply NoDup_nil_2|]. cbn [coremap]. intros i e He Ht.
      rewrite zlookup_replicate in He. case_decide; [|done]. by injection He as <-. }
  destruct scr as [|[] scr]; [exists c'; split; [reflexivity|done]|exists c'; split; [reflexivity|done]|reflexivity].
Qed.
End kernel_pages.

Lemma alloc_kpages_first_fit_witness :
  exists kva s', alloc_kpages 1 (queue_demo 8) = Ok kva s' /\
      ((kva = 0 /\ s' = queue_demo 8 /\ (forall b, ~ block_freed (coremap (s_cm (queue_demo 8))) b 1) /\
        lastpaddr (s_ram (queue_demo 8)) < firstpaddr (s_ram (queue_demo 8)) + 1 * PAGE_SIZE) \/
       (exists b, kva = PADDR_TO_KVADDR (b * PAGE_SIZE) /\
          kernel_block b 1 (coremap (s_cm (queue_demo 8))) (coremap (s_cm s')) /\
          frames_wf (s_ram s') (s_cm s') /\ fifo (Some 8) (s_cm s') [4; 3; 5] /\
          s' = set_ram (s_ram s') (set_cm (s_cm s') (queue_demo 8)) /\
          (first_fit (coremap (s_cm (queue_demo 8))) 1 b \/ b * PAGE_SIZE = firstpaddr (s_ram (queue_demo 8))))).
Proof.
  apply (alloc_kpages_first_fit 1 (Some 8) [4; 3; 5]); [reflexivity|reflexivity|apply queue_demo_frames|apply queue_demo_fifo|lia].
Defined.

Lemma free_kpages_roundtrip_witness :
  exists kva s' b s'', alloc_kpages 1 (queue_demo 8) = Ok kva s' /\
      kva = PADDR_TO_KVADDR (b * PAGE_SIZE) /\ free_kpages kva s' = Ok tt s'' /\
      block_freed (coremap (s_cm s'')) b 1 /\
      (forall i, ~ (b <= i < b + 1) -> zlookup (coremap (s_cm s'')) i = zlookup (coremap (s_cm (queue_demo 8))) i) /\
      frames_wf (s_ram s'') (s_cm s'') /\ fifo (Some 8) (s_cm s'') [4; 3; 5].
Proof.
  destruct (alloc_kpages 1 (queue_demo 8)) as [kva s'|] eqn:E; [|vm_compute in E; discriminate E].
  assert (kva <> 0) as Hne by (vm_compute in E; injection E as <- _; discriminate).
  exists kva, s'.
  destruct (free_kpages_roundtrip 1 (Some 8) [4; 3; 5] (queue_demo 8) kva s' eq_refl eq_refl
    (queue_demo_frames 8) queue_demo_fifo ltac:(lia) E Hne) as (b & s'' & H).
  exists b, s''. split; [reflexivity|exact H].
Defined.

Lemma coremap_init_establishes_witness :
  let s := set_ram (mk_ram 0x80005000 0x5000 0x80000) blank_state in
  match kmalloc (FS := memfs) 0 s with
  | Ok true s1 => exists c, coremap_init s = Ok tt (set_cm c s1) /\ frames_wf (s_ram s) c /\
      fifo (Some (invalid_reference c)) c [] /\ total_ram_frames c = lastpaddr (s_ram s) / PAGE_SIZE
  | _ => coremap_init s = Stop (panic_called "Failed to allocate memory for coremap")
  end.
Proof. apply coremap_init_establishes; [reflexivity|constructor; vm_compute; done|vm_compute; done]. Defined.
