(* ===== verification/Pt.v ===== *)
(** * Page tables ([kern/vm/pt.c], [kern/include/pt.h])

    One entry per page of a segment: empty, the physical address of a frame, or
    the offset of a swap slot marked by its lowest bit.  The theorems show that
    the encoding of the three cases is unambiguous and that the operations act
    on it as on a map from pages. *)

From S2P Require Import Prelude State Monad Machine Testbed Bitmap VmStats Ram Swapfile Heap Coremap.

Definition PT_EMPTY_ENTRY : Z := 0.
Definition PT_SWAPPED_ENTRY : Z := 1.
Definition PT_SWAPPED_MASK : Z := 1.
(** [~PT_SWAPPED_MASK] at 32 bits. *)
Definition PT_SWAPPED_CLEAR : Z := 0xfffffffe.

(** [(e & PT_SWAPPED_MASK) == PT_SWAPPED_ENTRY] *)
Definition is_swapped (e : Z) : bool := Z.land e PT_SWAPPED_MASK =? PT_SWAPPED_ENTRY.

Definition set_page_buffer (b : list Z) (t : pt_t) : pt_t := mk_pt (pt_num_pages t) (pt_base_vaddr t) (Some b).

Section pt.
Context {FS : Type}.
Implicit Types s : kstate FS.

(** [pt->page_buffer[i]] and [pt->page_buffer[i] = e] *)
Definition pt_entry_load (pt : ptr) (i : Z) : M FS Z :=
  t <- load pt ;;
  deref (b ← page_buffer t; zlookup b i) "pt->page_buffer[i]".

Definition pt_entry_store (pt : ptr) (i e : Z) : M FS unit :=
  t <- load pt ;;
  b <- deref (page_buffer t) "pt->page_buffer" ;;
  _ <- deref (zlookup b i) "pt->page_buffer[i]" ;;
  store pt (set_page_buffer (zinsert i e b) t).

Definition pt_page_buffer_copy (src dest : ptr) : M FS unit :=
  t <- load src ;;
  mfor (Z.to_nat (pt_num_pages t)) 0 (fun i =>
    e <- pt_entry_load src i ;; pt_entry_store dest i e).

Definition pt_get_entry_index (pt : ptr) (vaddr : Z) : M FS Z :=
  t <- load pt ;;
  let page_vaddr := Z.land vaddr PAGE_FRAME in
  let index := u32 (page_vaddr - Z.land (pt_base_vaddr t) PAGE_FRAME) / PAGE_SIZE in
  kassert (index <? pt_num_pages t) "index < pt->num_pages" ;;
  ret index.

(** A structure whose buffer could not be allocated stays on the heap. *)
Definition pt_create (num_pages base_address : Z) : M FS ptr :=
  ok <- kmalloc 12 ;;
  if negb ok then ret None else
  pt <- new (mk_pt num_pages base_address None) ;;
  let size := u32 (4 * num_pages) in
  ok <- kmalloc size ;;
  if negb ok then ret None else
  t <- load (Some pt) ;;
  store (Some pt) (set_page_buffer (replicate (Z.to_nat (size / 4)) 0xdeadbeef) t) ;;
  mfor (Z.to_nat num_pages) 0 (fun i => pt_entry_store (Some pt) i PT_EMPTY_ENTRY) ;;
  ret (Some pt).

(** The result and [*dest]. *)
Definition pt_copy (src : ptr) : M FS (Z * ptr) :=
  kassert_ptr src "src != NULL" ;;
  t <- load src ;;
  new_page_table <- pt_create (pt_num_pages t) (pt_base_vaddr t) ;;
  match new_page_table with
  | None => ret (ENOMEM, None)
  | Some _ =>
      n <- load new_page_table ;;
      store new_page_table (mk_pt (pt_num_pages t) (pt_base_vaddr t) (page_buffer n)) ;;
      pt_page_buffer_copy new_page_table src ;;
      ret (0, new_page_table)
  end.

(** [KASSERT(pt != NULL); KASSERT(pt->page_buffer != NULL)] *)
Definition pt_check (pt : ptr) : M FS unit :=
  kassert_ptr pt "pt != NULL" ;;
  t <- load pt ;;
  kassert_ptr (page_buffer t) "pt->page_buffer != NULL".

Definition pt_get_entry (pt : ptr) (vaddr : Z) : M FS Z :=
  pt_check pt ;;
  index <- pt_get_entry_index pt vaddr ;;
  e <- pt_entry_load pt index ;;
  if e =? PT_EMPTY_ENTRY then ret PT_EMPTY_ENTRY
  else if is_swapped e then ret PT_SWAPPED_ENTRY
  else ret e.

Definition pt_add_entry (pt : ptr) (vaddr paddr : Z) : M FS unit :=
  pt_check pt ;;
  index <- pt_get_entry_index pt vaddr ;;
  e <- pt_entry_load pt index ;;
  kassert ((e =? PT_EMPTY_ENTRY) || is_swapped e) "empty or swapped entry" ;;
  pt_entry_store pt index paddr.

Definition pt_swap_out (pt : ptr) (swapfile_offset vaddr : Z) : M FS unit :=
  pt_check pt ;;
  index <- pt_get_entry_index pt vaddr ;;
  e <- pt_entry_load pt index ;;
  kassert (negb (e =? PT_EMPTY_ENTRY)) "pt->page_buffer[index] != PT_EMPTY_ENTRY" ;;
  kassert (negb (is_swapped e)) "(pt->page_buffer[index] & PT_SWAPPED_MASK) != PT_SWAPPED_ENTRY" ;;
  pt_entry_store pt index (u32 (Z.lor swapfile_offset PT_SWAPPED_MASK)).

Definition pt_swap_in (pt : ptr) (vaddr paddr : Z) : M FS unit := pt_add_entry pt vaddr paddr.

Definition pt_get_swap_offset (pt : ptr) (vaddr : Z) : M FS Z :=
  pt_check pt ;;
  index <- pt_get_entry_index pt vaddr ;;
  e <- pt_entry_load pt index ;;
  kassert (is_swapped e) "(pt->page_buffer[index] & PT_SWAPPED_MASK) == PT_SWAPPED_ENTRY" ;;
  ret (Z.land e PT_SWAPPED_CLEAR).

Definition pt_destroy (pt : ptr) : M FS unit :=
  pt_check pt ;;
  kfree (T := pt_t) pt.

Context {VO : VnodeOps FS}.

Definition pt_clear_content (pt : ptr) : M FS unit :=
  kassert_ptr pt "pt != NULL" ;;
  t <- load pt ;;
  mfor (Z.to_nat (pt_num_pages t)) 0 (fun i =>
    e <- pt_entry_load pt i ;;
    if is_swapped e then swap_free (Z.land e PT_SWAPPED_CLEAR)
    else if negb (e =? PT_EMPTY_ENTRY) then free_user_page e
    else ret tt).
End pt.

(** ** The meaning of an entry *)

Inductive pte := pte_empty | pte_swapped (off : Z) | pte_resident (pa : Z).

Definition pte_of (e : Z) : pte :=
  if e =? PT_EMPTY_ENTRY then pte_empty
  else if is_swapped e then pte_swapped (Z.land e PT_SWAPPED_CLEAR)
  else pte_resident e.

(** The word stored for a page. *)
Definition pte_word (p : pte) : Z :=
  match p with pte_empty => 0 | pte_swapped off => u32 (Z.lor off PT_SWAPPED_MASK) | pte_resident pa => pa end.

(** What [pt_get_entry] answers. *)
Definition pte_answer (p : pte) : Z :=
  match p with pte_empty => PT_EMPTY_ENTRY | pte_swapped _ => PT_SWAPPED_ENTRY | pte_resident pa => pa end.

(** Offsets and frames the rest of the code produces: multiples of the page
    size, and frame 0 is never handed out. *)
Definition pte_ok (p : pte) : Prop :=
  match p with
  | pte_empty => True
  | pte_swapped off => page_paddr_ok off
  | pte_resident pa => page_paddr_ok pa /\ pa <> 0
  end.

Lemma is_swapped_odd e : is_swapped e = (e mod 2 =? 1).
Proof. unfold is_swapped, PT_SWAPPED_MASK, PT_SWAPPED_ENTRY. by rewrite land_one. Qed.

Lemma swapped_word off : page_paddr_ok off -> u32 (Z.lor off PT_SWAPPED_MASK) = off + 1.
Proof.
  intros [Hr Ha]. unfold PT_SWAPPED_MASK, PAGE_SIZE, is_u32 in *. rewrite lor_one_even by lia.
  apply u32_small. unfold is_u32. lia.
Qed.

Lemma pte_of_word p : pte_ok p -> pte_of (pte_word p) = p.
Proof.
  unfold pte_of, pte_word, PT_EMPTY_ENTRY. destruct p as [|off|pa]; [done| |].
  - intros Hok. rewrite swapped_word by done. destruct Hok as [Hr Ha]. unfold is_u32, PAGE_SIZE in *.
    rewrite is_swapped_odd. destruct (Z.eqb_spec (off + 1) 0); [lia|].
    destruct (Z.eqb_spec ((off + 1) mod 2) 1); [|lia].
    unfold PT_SWAPPED_CLEAR. rewrite land_minus_two by (unfold is_u32; lia). f_equal. lia.
  - intros [[Hr Ha] H0]. unfold is_u32, PAGE_SIZE in *. rewrite is_swapped_odd.
    destruct (Z.eqb_spec pa 0); [lia|]. destruct (Z.eqb_spec (pa mod 2) 1); [lia|]. done.
Qed.

(** ** Page tables as maps from pages *)

Definition page_of (va : Z) : Z := va / PAGE_SIZE.

(** The index of the page of [va]. *)
Definition pt_index (t : pt_t) (va : Z) : Z := page_of va - page_of (pt_base_vaddr t).

Record pt_wf (t : pt_t) (buf : list Z) : Prop := {
  ptw_buf : page_buffer t = Some buf;
  ptw_len : zlen buf = pt_num_pages t;
  ptw_base : is_u32 (pt_base_vaddr t);
  ptw_words : forall i e, zlookup buf i = Some e -> exists p, pte_ok p /\ e = pte_word p
}.

(** The entry of the page of [va], if the table covers it. *)
Definition pt_view (t : pt_t) (va : Z) : option pte :=
  b ← page_buffer t; pte_of <$> zlookup b (pt_index t va).

(** The table with the entry of the page of [va] set to [p]. *)
Definition pt_set (va : Z) (p : pte) (t : pt_t) : pt_t :=
  match page_buffer t with
  | Some b => set_page_buffer (zinsert (pt_index t va) (pte_word p) b) t
  | None => t
  end.

Lemma pt_view_word t buf va p :
  pt_wf t buf -> pt_view t va = Some p -> zlookup buf (pt_index t va) = Some (pte_word p) /\ pte_ok p.
Proof.
  intros Hwf. unfold pt_view. rewrite (ptw_buf _ _ Hwf). cbn.
  destruct (zlookup buf (pt_index t va)) as [e|] eqn:He; [|done]. cbn. intros [= <-].
  destruct (ptw_words _ _ Hwf _ _ He) as (q & Hq & ->). by rewrite pte_of_word.
Qed.

Lemma pt_view_covers t buf va p :
  pt_wf t buf -> pt_view t va = Some p -> 0 <= pt_index t va < pt_num_pages t.
Proof.
  intros Hwf Hv. destruct (pt_view_word _ _ _ _ Hwf Hv) as [He _]. apply zlookup_Some_range in He.
  by rewrite (ptw_len _ _ Hwf) in He.
Qed.

Lemma pt_view_total t buf va :
  pt_wf t buf -> 0 <= pt_index t va < pt_num_pages t -> exists p, pt_view t va = Some p.
Proof.
  intros Hwf Hi. unfold pt_view. rewrite (ptw_buf _ _ Hwf). cbn.
  destruct (zlookup_in_range buf (pt_index t va)) as [e ->]; [by rewrite (ptw_len _ _ Hwf)|]. cbn. eauto.
Qed.

Lemma pt_set_wf t buf va p :
  pt_wf t buf -> pte_ok p -> pt_wf (pt_set va p t) (zinsert (pt_index t va) (pte_word p) buf).
Proof.
  intros Hwf Hp. unfold pt_set. rewrite (ptw_buf _ _ Hwf). destruct Hwf as [H1 H2 H3 H4].
  constructor; cbn; [done|by rewrite zlen_zinsert|done|].
  intros i e He. destruct (decide (0 <= pt_index t va < zlen buf)) as [Hr|Hr].
  - rewrite zlookup_zinsert in He by done. case_decide; [|by eapply H4]. injection He as <-. eauto.
  - unfold zinsert in He. destruct (Z.ltb_spec (pt_index t va) 0); [by eapply H4|].
    rewrite list_insert_ge in He by (unfold zlen in Hr; lia). by eapply H4.
Qed.

Lemma pt_index_set t va p va' : pt_index (pt_set va p t) va' = pt_index t va'.
Proof. unfold pt_set. by destruct (page_buffer t). Qed.

Lemma pt_num_pages_set t va p : pt_num_pages (pt_set va p t) = pt_num_pages t.
Proof. unfold pt_set. by destruct (page_buffer t). Qed.

Lemma pt_base_set t va p : pt_base_vaddr (pt_set va p t) = pt_base_vaddr t.
Proof. unfold pt_set. by destruct (page_buffer t). Qed.

Lemma pt_view_set t buf va p q va' :
  pt_wf t buf -> pte_ok p -> pt_view t va = Some q ->
  pt_view (pt_set va p t) va' = if decide (page_of va' = page_of va) then Some p else pt_view t va'.
Proof.
  intros Hwf Hp Hv. destruct (pt_view_word _ _ _ _ Hwf Hv) as [Hw _].
  unfold pt_view. rewrite pt_index_set. unfold pt_set. rewrite (ptw_buf _ _ Hwf). cbn.
  rewrite zlookup_zinsert by (by eapply zlookup_Some_range). unfold pt_index.
  repeat case_decide; try lia; [by cbn; rewrite pte_of_word|done].
Qed.

(** ** The operations on the view *)

Section pt_run.
Context {FS : Type}.
Implicit Types s : kstate FS.

Lemma pt_index_land t va :
  is_u32 va -> is_u32 (pt_base_vaddr t) -> 0 <= pt_index t va ->
  u32 (Z.land va PAGE_FRAME - Z.land (pt_base_vaddr t) PAGE_FRAME) / PAGE_SIZE = pt_index t va.
Proof.
  intros Hva Hb Hi. rewrite !land_frame by done. unfold pt_index, page_of, is_u32, PAGE_SIZE in *.
  rewrite u32_small by (unfold is_u32; lia). lia.
Qed.

Lemma run_pt_check {B} x t buf (k : unit -> M FS B) s :
  cell_at s x = Some t -> page_buffer t = Some buf -> bind (pt_check (Some x)) k s = k tt s.
Proof. intros Hx Hb. unfold pt_check. run. rewrite (run_load x t), Hb by done. by run. Qed.

Lemma run_pt_get_entry_index {B} x t va (k : Z -> M FS B) s :
  cell_at s x = Some t -> is_u32 va -> is_u32 (pt_base_vaddr t) -> 0 <= pt_index t va < pt_num_pages t ->
  bind (pt_get_entry_index (Some x) va) k s = k (pt_index t va) s.
Proof.
  intros Hx Hva Hb Hi. unfold pt_get_entry_index. run. rewrite (run_load x t) by done.
  rewrite run_bind, pt_index_land, run_kassert by (try apply Z.ltb_lt; done || lia). done.
Qed.

Lemma run_pt_entry_load {B} x t buf i e (k : Z -> M FS B) s :
  cell_at s x = Some t -> page_buffer t = Some buf -> zlookup buf i = Some e ->
  bind (pt_entry_load (Some x) i) k s = k e s.
Proof.
  intros Hx Hb He. unfold pt_entry_load. run. rewrite (run_load x t), Hb by done.
  by rewrite (run_deref _ _ e).
Qed.

Lemma pt_entry_store_run x t buf i e0 e s :
  cell_at s x = Some t -> page_buffer t = Some buf -> zlookup buf i = Some e0 ->
  pt_entry_store (Some x) i e s = Ok tt (put_cell x (set_page_buffer (zinsert i e buf) t) s).
Proof.
  intros Hx Hb He. unfold pt_entry_store. rewrite (run_load x t) by done.
  rewrite (run_deref _ _ buf), (run_deref _ _ e0) by done. by eapply store_run.
Qed.

(** The common head of the operations: the word of the page is found. *)
Lemma run_pt_lookup {B} x t buf va p (k : Z -> Z -> M FS B) s :
  cell_at s x = Some t -> pt_wf t buf -> is_u32 va -> pt_view t va = Some p ->
  (pt_check (Some x) ;; index <- pt_get_entry_index (Some x) va ;;
   e <- pt_entry_load (Some x) index ;; k index e) s = k (pt_index t va) (pte_word p) s.
Proof.
  intros Hx Hwf Hva Hv. destruct (pt_view_word _ _ _ _ Hwf Hv) as [He _].
  rewrite (run_pt_check x t buf) by (done || apply (ptw_buf _ _ Hwf)).
  rewrite (run_pt_get_entry_index x t) by (done || apply (ptw_base _ _ Hwf) || by eapply pt_view_covers).
  by rewrite (run_pt_entry_load x t buf _ (pte_word p)) by (done || apply (ptw_buf _ _ Hwf)).
Qed.

Lemma pt_word_tests p :
  pte_ok p ->
  (pte_word p =? PT_EMPTY_ENTRY) = (match p with pte_empty => true | _ => false end) /\
  is_swapped (pte_word p) = (match p with pte_swapped _ => true | _ => false end).
Proof.
  intros Hok. destruct p as [|off|pa]; [done| |].
  - unfold pte_word. rewrite swapped_word, is_swapped_odd by done. destruct Hok as [Hr Ha].
    unfold is_u32, PAGE_SIZE, PT_EMPTY_ENTRY in *.
    destruct (Z.eqb_spec (off + 1) 0), (Z.eqb_spec ((off + 1) mod 2) 1); try lia; done.
  - unfold pte_word. rewrite is_swapped_odd. destruct Hok as [[Hr Ha] H0].
    unfold is_u32, PAGE_SIZE, PT_EMPTY_ENTRY in *.
    destruct (Z.eqb_spec pa 0), (Z.eqb_spec (pa mod 2) 1); try lia; done.
Qed.

Lemma pt_get_entry_run x t buf va p s :
  cell_at s x = Some t -> pt_wf t buf -> is_u32 va -> pt_view t va = Some p ->
  pt_get_entry (Some x) va s = Ok (pte_answer p) s.
Proof.
  intros Hx Hwf Hva Hv. unfold pt_get_entry. rewrite (run_pt_lookup x t buf va p) by done.
  destruct (pt_view_word _ _ _ _ Hwf Hv) as [_ Hok]. destruct (pt_word_tests p Hok) as [-> ->]. by destruct p.
Qed.

Lemma pt_add_entry_run x t buf va p pa s :
  cell_at s x = Some t -> pt_wf t buf -> is_u32 va -> pt_view t va = Some p ->
  (forall q, p <> pte_resident q) ->
  pt_add_entry (Some x) va pa s = Ok tt (put_cell x (pt_set va (pte_resident pa) t) s).
Proof.
  intros Hx Hwf Hva Hv Hp. unfold pt_add_entry. rewrite (run_pt_lookup x t buf va p) by done.
  destruct (pt_view_word _ _ _ _ Hwf Hv) as [He Hok]. destruct (pt_word_tests p Hok) as [-> ->].
  rewrite run_kassert by (destruct p; [done|done|by destruct (Hp pa0)]).
  rewrite (pt_entry_store_run x t buf _ _ _ s Hx (ptw_buf _ _ Hwf) He). unfold pt_set. by rewrite (ptw_buf _ _ Hwf).
Qed.

Lemma pt_swap_out_run x t buf va pa off s :
  cell_at s x = Some t -> pt_wf t buf -> is_u32 va -> pt_view t va = Some (pte_resident pa) ->
  pt_swap_out (Some x) off va s = Ok tt (put_cell x (pt_set va (pte_swapped off) t) s).
Proof.
  intros Hx Hwf Hva Hv. unfold pt_swap_out. rewrite (run_pt_lookup x t buf va _ _ s Hx Hwf Hva Hv).
  destruct (pt_view_word _ _ _ _ Hwf Hv) as [He Hok]. destruct (pt_word_tests _ Hok) as [-> ->].
  rewrite !run_kassert by done.
  rewrite (pt_entry_store_run x t buf _ _ _ s Hx (ptw_buf _ _ Hwf) He). unfold pt_set. by rewrite (ptw_buf _ _ Hwf).
Qed.

Lemma pt_get_swap_offset_run x t buf va off s :
  cell_at s x = Some t -> pt_wf t buf -> is_u32 va -> pt_view t va = Some (pte_swapped off) ->
  pt_get_swap_offset (Some x) va s = Ok off s.
Proof.
  intros Hx Hwf Hva Hv. unfold pt_get_swap_offset. rewrite (run_pt_lookup x t buf va _ _ s Hx Hwf Hva Hv).
  destruct (pt_view_word _ _ _ _ Hwf Hv) as [_ Hok]. destruct (pt_word_tests _ Hok) as [He Hsw].
  rewrite run_kassert by done. pose proof (pte_of_word _ Hok) as Hp. unfold pte_of in Hp.
  rewrite He, Hsw in Hp. injection Hp as Hp. unfold ret. f_equal. exact Hp.
Qed.
End pt_run.

(** ** Creation, copy and release *)

Section pt_create_run.
Context {FS : Type}.
Implicit Types s : kstate FS.

(** Initialising a buffer entry by entry. *)
Lemma fill_run x n t buf f (body : Z -> M FS unit) s :
  cell_at s x = Some t -> page_buffer t = Some buf -> Z.of_nat n <= zlen buf ->
  (forall i buf', zlen buf' = zlen buf -> 0 <= i < zlen buf ->
     body i (put_cell x (set_page_buffer buf' t) s) =
       Ok tt (put_cell x (set_page_buffer (zinsert i (f i) buf') t) s)) ->
  mfor n 0 body s =
    Ok tt (put_cell x (set_page_buffer (imap (fun k e => if Z.of_nat k <? Z.of_nat n then f (Z.of_nat k) else e) buf) t) s).
Proof.
  intros Hx Hb Hn Hbody. set (st i := put_cell x (set_page_buffer
    (imap (fun k e => if Z.of_nat k <? i then f (Z.of_nat k) else e) buf) t) s).
  rewrite (mfor_run st); [done| |].
  - subst st. cbn. symmetry. rewrite put_same; [done|]. rewrite Hx. f_equal.
    destruct t as [np bv pb]. cbn in *. subst pb. unfold set_page_buffer. cbn. do 2 f_equal.
    symmetry.
    apply list_eq. intros k. rewrite list_lookup_imap. destruct (buf !! k); [|done]. cbn.
    destruct (Z.ltb_spec (Z.of_nat k) 0); [lia|done].
  - intros i Hi. subst st. cbn beta. rewrite Hbody; [|unfold zlen; by rewrite length_imap|lia].
    do 3 f_equal. apply zlist_ext.
    { rewrite zlen_zinsert. unfold zlen. by rewrite !length_imap. }
    intros j Hj. rewrite zlookup_zinsert; [|unfold zlen in *; rewrite length_imap; lia].
    unfold zlookup. rewrite !list_lookup_imap. destruct (Z.ltb_spec j 0); [case_decide; lia|].
    rewrite zlen_zinsert in Hj. unfold zlen in Hj. rewrite length_imap in Hj.
    destruct (lookup_lt_is_Some_2 buf (Z.to_nat j)) as [e He]; [lia|]. rewrite He. cbn. rewrite Z2Nat.id by lia.
    case_decide; destruct (Z.ltb_spec j i), (Z.ltb_spec j (i + 1)); subst; try lia; done.
Qed.

Definition empty_table (n base : Z) : pt_t := mk_pt n base (Some (replicate (Z.to_nat n) 0)).

(** The state in which [pt_create] asks for the buffer. *)
Definition pt_struct_allocated (n base : Z) s : kstate FS :=
  let s1 := kmalloc_after s in put_cell (h_next (s_heap s)) (mk_pt n base None) (next_ptr s1).

Lemma pt_create_run n base s :
  0 <= n < 2^30 ->
  pt_create n base s =
    (if kmalloc_answer s then
       let s2 := pt_struct_allocated n base s in
       if kmalloc_answer s2
       then Ok (Some (h_next (s_heap s))) (put_cell (h_next (s_heap s)) (empty_table n base) (kmalloc_after s2))
       else Ok None (kmalloc_after s2)
     else Ok None (kmalloc_after s)).
Proof.
  intros Hn. unfold pt_create. run. destruct (kmalloc_answer s); [|done]. cbn [negb].
  rewrite run_new.
  run. change (h_next (s_heap (kmalloc_after s))) with (h_next (s_heap s)).
  fold (pt_struct_allocated n base s). set (s2 := pt_struct_allocated n base s). cbn zeta.
  destruct (kmalloc_answer s2); [|done]. cbn [negb]. set (x := h_next (s_heap s)).
  assert (cell_at (kmalloc_after s2) x = Some (mk_pt n base None)) as Hx
    by (change (cell_at s2 x = Some (mk_pt n base None)); apply cell_at_put_eq).
  rewrite (run_load x (mk_pt n base None)) by done.
  rewrite (run_store x (mk_pt n base None)) by done.
  rewrite (u32_small (4 * n)) by (unfold is_u32; lia). replace (4 * n / 4) with n by lia.
  erewrite bind_Ok; cycle 1.
  { eapply (fill_run x _ _ _ (fun _ => PT_EMPTY_ENTRY)); [apply cell_at_put_eq|done|rewrite zlen_replicate; lia|].
    intros i buf' Hl Hi. destruct (zlookup_in_range buf' i) as [e0 He0]; [by rewrite Hl|].
    by rewrite (pt_entry_store_run x _ buf' i e0 _ _ (cell_at_put_eq _ _ _)), put_put. }
  rewrite put_put. unfold ret, empty_table, set_page_buffer. cbn. do 4 f_equal.
  apply list_eq. intros k. rewrite list_lookup_imap.
  destruct (decide (k < Z.to_nat n)%nat).
  - rewrite !lookup_replicate_2 by lia. cbn. by destruct (Z.ltb_spec (Z.of_nat k) (Z.of_nat (Z.to_nat n))); [|lia].
  - rewrite !lookup_ge_None_2 by (rewrite length_replicate; lia). done.
Qed.

Lemma empty_table_wf n base :
  0 <= n -> is_u32 base -> pt_wf (empty_table n base) (replicate (Z.to_nat n) 0).
Proof.
  intros Hn Hb. constructor; cbn; try done; [rewrite zlen_replicate; lia|].
  intros i e He. rewrite zlookup_replicate in He. case_decide; [|done]. injection He as <-. by exists pte_empty.
Qed.

Lemma empty_table_view n base va p : pt_view (empty_table n base) va = Some p -> p = pte_empty.
Proof.
  unfold pt_view. cbn. rewrite zlookup_replicate. case_decide; [|done]. cbn. by intros [= <-].
Qed.
End pt_create_run.

(** ** Properties *)

Section pt_properties.
Context {FS : Type}.
Implicit Types s : kstate FS.

(** The life of a page table entry: a resident page that is swapped out
    reads as swapped and remembers its swap offset exactly; swapped in again
    it reads as the address of its new frame; no step fails an assertion, and
    the entries of all other pages read the same throughout. *)
Theorem pt_swap_cycle s x t buf va pa off pa' :
  cell_at s x = Some t -> pt_wf t buf -> is_u32 va -> pt_view t va = Some (pte_resident pa) ->
  page_paddr_ok off -> page_paddr_ok pa' -> pa' <> 0 ->
  exists s1 s2, pt_swap_out (Some x) off va s = Ok tt s1 /\
    pt_get_entry (Some x) va s1 = Ok PT_SWAPPED_ENTRY s1 /\
    pt_get_swap_offset (Some x) va s1 = Ok off s1 /\
    pt_swap_in (Some x) va pa' s1 = Ok tt s2 /\
    pt_get_entry (Some x) va s2 = Ok pa' s2 /\
    (forall va' p, is_u32 va' -> page_of va' <> page_of va -> pt_view t va' = Some p ->
       pt_get_entry (Some x) va' s = Ok (pte_answer p) s /\
       pt_get_entry (Some x) va' s1 = Ok (pte_answer p) s1 /\
       pt_get_entry (Some x) va' s2 = Ok (pte_answer p) s2).
Proof.
  intros Hx Hwf Hva Hv Hoff Hpa' Hne.
  pose proof (pt_set_wf t buf va (pte_swapped off) Hwf Hoff) as Hwf1.
  pose proof (pt_set_wf _ _ va (pte_resident pa') Hwf1 (conj Hpa' Hne)) as Hwf2.
  pose proof (pt_view_set t buf va (pte_swapped off) _ va Hwf Hoff Hv) as Hv1. rewrite decide_True in Hv1 by done.
  pose proof (pt_view_set _ _ va (pte_resident pa') _ va Hwf1 (conj Hpa' Hne) Hv1) as Hv2.
  rewrite decide_True in Hv2 by done.
  do 2 eexists. split_and!.
  - by eapply pt_swap_out_run.
  - by rewrite (pt_get_entry_run x _ _ va _ _ (cell_at_put_eq _ _ _) Hwf1 Hva Hv1).
  - by eapply pt_get_swap_offset_run; [apply cell_at_put_eq| | |].
  - by eapply pt_add_entry_run; [apply cell_at_put_eq|done|done|done|].
  - by rewrite (pt_get_entry_run x _ _ va _ _ (cell_at_put_eq _ _ _) Hwf2 Hva Hv2).
  - intros va' p Hva' Hpg Hv'.
    pose proof (pt_view_set t buf va (pte_swapped off) _ va' Hwf Hoff Hv) as Hv1'. rewrite decide_False in Hv1' by done.
    pose proof (pt_view_set _ _ va (pte_resident pa') _ va' Hwf1 (conj Hpa' Hne) Hv1) as Hv2'.
    rewrite decide_False, Hv1' in Hv2' by done. rewrite Hv' in Hv1', Hv2'. split_and!.
    + by eapply pt_get_entry_run.
    + by eapply pt_get_entry_run; [apply cell_at_put_eq| | |].
    + by eapply pt_get_entry_run; [apply cell_at_put_eq| | |].
Qed.

(** The bounds check of the page table is exact: for a table that does
    not run past the end of the address space, looking up an address
    succeeds for every address of the pages it covers, and stops at the
    assertion of [pt_get_entry_index] for every other address, the addresses
    below the segment included, whose index wraps around. *)
Theorem pt_get_entry_bounds s x t buf va :
  cell_at s x = Some t -> pt_wf t buf -> is_u32 va ->
  page_of (pt_base_vaddr t) + pt_num_pages t <= 2^20 ->
  (0 <= pt_index t va < pt_num_pages t ->
     exists p, pt_view t va = Some p /\ pt_get_entry (Some x) va s = Ok (pte_answer p) s) /\
  (~ (0 <= pt_index t va < pt_num_pages t) ->
     pt_get_entry (Some x) va s = Stop (KASSERT_failed "index < pt->num_pages")).
Proof.
  intros Hx Hwf Hva Hend. split.
  - intros Hi. destruct (pt_view_total _ _ _ Hwf Hi) as [p Hp]. exists p. split; [done|]. by eapply pt_get_entry_run.
  - intros Hi. unfold pt_get_entry. rewrite (run_pt_check x t buf) by (done || apply (ptw_buf _ _ Hwf)).
    apply bind_Stop. unfold pt_get_entry_index. rewrite (run_load x t) by done. apply bind_Stop.
    rewrite !land_frame by (done || apply (ptw_base _ _ Hwf)). unfold kassert.
    destruct (Z.ltb_spec (u32 (PAGE_SIZE * (va / PAGE_SIZE) - PAGE_SIZE * (pt_base_vaddr t / PAGE_SIZE)) / PAGE_SIZE)
      (pt_num_pages t)) as [Hlt|]; [|done]. exfalso. apply Hi. clear Hi.
    destruct (ptw_base _ _ Hwf). unfold pt_index, page_of, is_u32, PAGE_SIZE in *.
    destruct (Z_le_gt_dec (pt_base_vaddr t / 4096) (va / 4096)).
    + rewrite u32_small in Hlt by (unfold is_u32; lia). lia.
    + unfold u32 in Hlt.
      replace ((4096 * (va / 4096) - 4096 * (pt_base_vaddr t / 4096)) mod 2^32)
        with (4096 * (va / 4096) - 4096 * (pt_base_vaddr t / 4096) + 2^32) in Hlt by lia. lia.
Qed.

(** A new page table is empty: with memory available [pt_create] returns
    a fresh table in which every page of the segment reads as empty; without
    memory it returns [NULL], and when only the buffer is missing the
    structure itself stays allocated with no pointer to it left. *)
Theorem pt_create_spec s n base :
  0 <= n < 2^30 -> is_u32 base -> cells (T := pt_t) (s_heap s) !! h_next (s_heap s) = None ->
  match kmalloc_answer s, kmalloc_answer (kmalloc_after s) with
  | true, true => exists x s' t, pt_create n base s = Ok (Some x) s' /\ cell_at (T := pt_t) s x = None /\
      cell_at s' x = Some t /\ pt_wf t (replicate (Z.to_nat n) 0) /\ pt_num_pages t = n /\
      (forall va, is_u32 va -> 0 <= page_of va - page_of base < n -> pt_get_entry (Some x) va s' = Ok PT_EMPTY_ENTRY s')
  | true, false => exists s', pt_create n base s = Ok None s' /\
      size (cells (T := pt_t) (s_heap s')) = S (size (cells (T := pt_t) (s_heap s)))
  | false, _ => pt_create n base s = Ok None (kmalloc_after s)
  end.
Proof.
  intros Hn Hb Hfresh. rewrite pt_create_run by done.
  destruct (kmalloc_answer s); [|done].
  cbn zeta. change (kmalloc_answer (pt_struct_allocated n base s)) with (kmalloc_answer (kmalloc_after s)).
  destruct (kmalloc_answer (kmalloc_after s)).
  - do 3 eexists. split; [done|]. split; [exact Hfresh|]. split; [apply cell_at_put_eq|].
    pose proof (empty_table_wf n base ltac:(lia) Hb) as Hwf. split; [done|]. split; [done|].
    intros va Hva Hi. destruct (pt_view_total (empty_table n base) _ va Hwf Hi) as [p Hp].
    erewrite pt_get_entry_run; [|apply cell_at_put_eq|done|done|done]. by rewrite (empty_table_view _ _ _ _ Hp).
  - eexists. split; [done|]. cbn. by rewrite map_size_insert_None.
Qed.

(** [pt_copy] passes its arguments to [pt_page_buffer_copy] in the wrong
    order: it reports success, but the new table is empty and the source
    table has lost all its entries. *)
Theorem pt_copy_empties_source s x t buf :
  cell_at s x = Some t -> pt_wf t buf -> pt_num_pages t < 2^30 ->
  cells (T := pt_t) (s_heap s) !! h_next (s_heap s) = None ->
  kmalloc_answer s = true -> kmalloc_answer (kmalloc_after s) = true ->
  exists y s', pt_copy (Some x) s = Ok (0, Some y) s' /\ x <> y /\
    cell_at s' y = Some (empty_table (pt_num_pages t) (pt_base_vaddr t)) /\
    cell_at s' x = Some (empty_table (pt_num_pages t) (pt_base_vaddr t)).
Proof.
  intros Hx Hwf Hn Hfresh Hk1 Hk2. set (y := h_next (s_heap s)).
  assert (x <> y) as Hxy by (intros E; unfold cell_at in Hx; rewrite E in Hx; subst y; congruence).
  pose proof (ptw_len _ _ Hwf) as Hlen. assert (0 <= pt_num_pages t) by (unfold zlen in Hlen; lia).
  unfold pt_copy. run. rewrite (run_load x t) by done.
 
  pose proof (pt_create_run (pt_num_pages t) (pt_base_vaddr t) s ltac:(lia)) as Hc. cbn zeta in Hc.
  change (kmalloc_answer (pt_struct_allocated (pt_num_pages t) (pt_base_vaddr t) s))
    with (kmalloc_answer (kmalloc_after s)) in Hc. rewrite Hk1, Hk2 in Hc. fold y in Hc.
  rewrite (bind_Ok _ _ _ _ _ Hc). clear Hc.
  set (s1 := put_cell y _ _). set (n := pt_num_pages t) in *. set (bv := pt_base_vaddr t).
  assert (cell_at s1 y = Some (empty_table n bv)) as Hy by apply cell_at_put_eq.
  assert (cell_at s1 x = Some t) as Hx1.
  { subst s1. rewrite cell_at_put_ne by done. change (cell_at (pt_struct_allocated n bv s) x = Some t).
    unfold pt_struct_allocated. by rewrite cell_at_put_ne. }
  rewrite (run_load y (empty_table n bv)) by done. rewrite (run_store y (empty_table n bv)) by done.
  fold bv. change (mk_pt n bv (page_buffer (empty_table n bv))) with (empty_table n bv).
  rewrite (put_same s1 y (empty_table n bv) Hy).
  exists y. eexists. split.
  { erewrite bind_Ok; [reflexivity|]. unfold pt_page_buffer_copy. rewrite (run_load y (empty_table n bv)) by done.
    eapply (fill_run x _ t buf (fun _ => 0)); [done|apply (ptw_buf _ _ Hwf)|cbn; lia|].
    intros i buf' Hl Hi.
    rewrite (run_pt_entry_load y (empty_table n bv) (replicate (Z.to_nat n) 0) i 0);
      [|by rewrite cell_at_put_ne|done|rewrite zlookup_replicate, decide_True by lia; done].
    destruct (zlookup_in_range buf' i) as [e0 He0]; [lia|].
    by rewrite (pt_entry_store_run x _ buf' i e0 _ _ (cell_at_put_eq _ _ _)), put_put. }
  split; [done|]. split; [by rewrite cell_at_put_ne|]. rewrite cell_at_put_eq. f_equal.
  unfold empty_table, set_page_buffer. fold n bv. do 2 f_equal. cbn [pt_num_pages empty_table].
  apply list_eq. intros k. rewrite list_lookup_imap.
  destruct (decide (k < Z.to_nat n)%nat).
  - rewrite lookup_replicate_2 by lia. destruct (lookup_lt_is_Some_2 buf k) as [e ->]; [unfold zlen in Hlen; lia|].
    cbn. by destruct (Z.ltb_spec (Z.of_nat k) (Z.of_nat (Z.to_nat n))); [|lia].
  - rewrite !lookup_ge_None_2; [done|rewrite length_replicate; lia|unfold zlen in Hlen; lia].
Qed.
End pt_properties.

(** ** A concrete table: a resident page, a swapped page and an empty one *)

Definition pt_demo_buf : list Z := [0x5000; 0x3001; 0].
Definition pt_demo_table : pt_t := mk_pt 3 0x400123 (Some pt_demo_buf).
Definition pt_demo : kstate memfs :=
  put_cell 1 pt_demo_table (set_heap (mk_heap ∅ ∅ ∅ ∅ ∅ ∅ 2 []) blank_state).

Lemma pt_demo_wf : pt_wf pt_demo_table pt_demo_buf.
Proof.
  constructor; try done. intros i e He. unfold zlookup in He. destruct (i <? 0); [done|].
  destruct (Z.to_nat i) as [|[|[|k]]]; cbn in He; try done; injection He as <-.
  - by exists (pte_resident 0x5000).
  - by exists (pte_swapped 0x3000).
  - by exists pte_empty.
Qed.

Lemma pt_swap_cycle_witness :
  exists s1 s2, pt_swap_out (Some 1%positive) 0x7000 0x400abc pt_demo = Ok tt s1 /\
      pt_get_entry (Some 1%positive) 0x400abc s1 = Ok PT_SWAPPED_ENTRY s1 /\
      pt_get_swap_offset (Some 1%positive) 0x400abc s1 = Ok 0x7000 s1 /\
      pt_swap_in (Some 1%positive) 0x400abc 0x6000 s1 = Ok tt s2 /\
      pt_get_entry (Some 1%positive) 0x400abc s2 = Ok 0x6000 s2 /\
      (forall va' p, is_u32 va' -> page_of va' <> page_of 0x400abc -> pt_view pt_demo_table va' = Some p ->
         pt_get_entry (Some 1%positive) va' pt_demo = Ok (pte_answer p) pt_demo /\
         pt_get_entry (Some 1%positive) va' s1 = Ok (pte_answer p) s1 /\
         pt_get_entry (Some 1%positive) va' s2 = Ok (pte_answer p) s2).
Proof.
  apply (pt_swap_cycle pt_demo 1 pt_demo_table pt_demo_buf 0x400abc 0x5000); try (vm_compute; done). apply pt_demo_wf.
Defined.

Lemma pt_get_entry_bounds_witness :
  (0 <= pt_index pt_demo_table 0x402fff < 3 ->
     exists p, pt_view pt_demo_table 0x402fff = Some p /\
       pt_get_entry (Some 1%positive) 0x402fff pt_demo = Ok (pte_answer p) pt_demo) /\
  (~ (0 <= pt_index pt_demo_table 0x402fff < 3) ->
     pt_get_entry (Some 1%positive) 0x402fff pt_demo = Stop (KASSERT_failed "index < pt->num_pages")).
Proof. eapply pt_get_entry_bounds; [reflexivity|apply pt_demo_wf|vm_compute; done|vm_compute; done]. Defined.

Lemma pt_create_spec_witness :
  match kmalloc_answer pt_demo, kmalloc_answer (kmalloc_after pt_demo) with
  | true, true => exists x s' t, pt_create 4 0x7fff0000 pt_demo = Ok (Some x) s' /\ cell_at (T := pt_t) pt_demo x = None /\
      cell_at s' x = Some t /\ pt_wf t (replicate (Z.to_nat 4) 0) /\ pt_num_pages t = 4 /\
      (forall va, is_u32 va -> 0 <= page_of va - page_of 0x7fff0000 < 4 ->
         pt_get_entry (Some x) va s' = Ok PT_EMPTY_ENTRY s')
  | true, false => exists s', pt_create 4 0x7fff0000 pt_demo = Ok None s' /\
      size (cells (T := pt_t) (s_heap s')) = S (size (cells (T := pt_t) (s_heap pt_demo)))
  | false, _ => pt_create 4 0x7fff0000 pt_demo = Ok None (kmalloc_after pt_demo)
  end.
Proof. apply pt_create_spec; [lia|vm_compute; done|reflexivity]. Defined.

Lemma pt_copy_empties_source_witness :
  exists y s', pt_copy (Some 1%positive) pt_demo = Ok (0, Some y) s' /\ 1%positive <> y /\
      cell_at s' y = Some (empty_table 3 0x400123) /\ cell_at s' 1%positive = Some (empty_table 3 0x400123).
Proof. apply (pt_copy_empties_source pt_demo 1 pt_demo_table pt_demo_buf); try reflexivity. apply pt_demo_wf. Defined.
