(* ===== verification/Segment.v ===== *)
(** * Segments ([kern/vm/segment.c], [kern/include/segment.h])

    A segment is a range of virtual pages with its page table and, for code and
    data, the part of the ELF file it is loaded from, page by page, on demand. *)

From S2P Require Import Prelude State Monad Machine Testbed Bitmap VmStats Ram Swapfile Heap Coremap Pt.

Definition set_page_table (pt : ptr) (g : ps_t) : ps_t :=
  mk_ps (permissions g) (seg_size_bytes g) (file_offset g) (base_vaddr g) (num_pages g) (seg_size_words g)
    (elf_vnode g) pt.

(** [load_paddr], [elf_offset] and [load_len_bytes] of [seg_load_page] for the
    page of index [index]. *)
Definition seg_load_extent (g : ps_t) (index paddr : Z) : Z * Z * Z :=
  let seg_base_offset_in_page := Z.land (base_vaddr g) PAGE_OFFSET_MASK in
  if index =? 0 then
    (u32 (paddr + seg_base_offset_in_page), file_offset g,
     if PAGE_SIZE - seg_base_offset_in_page <? seg_size_bytes g
     then PAGE_SIZE - seg_base_offset_in_page else seg_size_bytes g)
  else if index =? u32 (num_pages g - 1) then
    let previous_pages_offset := u32 (u32 (num_pages g - 1) * PAGE_SIZE - seg_base_offset_in_page) in
    (paddr, file_offset g + previous_pages_offset,
     if seg_size_bytes g <=? previous_pages_offset then 0
     else u32 (seg_size_bytes g - previous_pages_offset))
  else
    let previous_pages_offset := u32 (index * PAGE_SIZE - seg_base_offset_in_page) in
    (paddr, file_offset g + previous_pages_offset,
     if seg_size_bytes g <=? previous_pages_offset then 0
     else if u32 (PAGE_SIZE + previous_pages_offset) <? seg_size_bytes g then PAGE_SIZE
     else u32 (seg_size_bytes g - previous_pages_offset)).

Section segment.
Context {FS : Type}.
Implicit Types s : kstate FS.

Definition seg_create : M FS ptr :=
  ok <- kmalloc 40 ;;
  if negb ok then ret None else
  x <- new (mk_ps PAGE_RONLY 0 0 0 0 0 None None) ;;
  ret (Some x).

Definition seg_define (proc_seg : ptr) (size_bytes offset base npages size_words : Z)
    (v : option vnode) (read write execute : Z) : M FS Z :=
  kassert (negb (read =? 0)) "read" ;;
  kassert_ptr proc_seg "proc_seg != NULL" ;;
  kassert_ptr v "elf_vnode != NULL" ;;
  g <- load proc_seg ;;
  kassert (bool_decide (page_table g = None)) "proc_seg->page_table == NULL" ;;
  let perm := if negb (write =? 0) then PAGE_RW else if negb (execute =? 0) then PAGE_EXE else PAGE_RONLY in
  store proc_seg (mk_ps perm size_bytes offset base npages size_words v (page_table g)) ;;
  ret 0.

Definition seg_define_stack (proc_seg : ptr) (base npages : Z) : M FS Z :=
  kassert_ptr proc_seg "proc_seg != NULL" ;;
  g <- load proc_seg ;;
  kassert (bool_decide (page_table g = None)) "proc_seg->page_table == NULL" ;;
  kassert (0 <? npages) "num_pages > 0" ;;
  store proc_seg (mk_ps PAGE_STACK 0 0 base npages (u32 (npages * PAGE_SIZE)) None (page_table g)) ;;
  g' <- load proc_seg ;;
  pt <- pt_create (num_pages g') (base_vaddr g') ;;
  match pt with
  | None => ret ENOMEM
  | Some _ => store proc_seg (set_page_table pt g') ;; ret 0
  end.

Definition seg_prepare (proc_seg : ptr) : M FS Z :=
  g <- load proc_seg ;;
  pt <- pt_create (num_pages g) (base_vaddr g) ;;
  match pt with
  | None => ret ENOMEM
  | Some _ => store proc_seg (set_page_table pt g) ;; ret 0
  end.

(** The result and, when it is 0, [*dest]. *)
Definition seg_copy (src : ptr) : M FS (Z * ptr) :=
  kassert_ptr src "src != NULL" ;;
  g <- load src ;;
  kassert_ptr (page_table g) "src->page_table != NULL" ;;
  kassert (bool_decide (permissions g = PAGE_STACK) || bool_decide (is_Some (elf_vnode g)))
    "src->permissions == PAGE_STACK || src->elf_vnode != NULL" ;;
  new_seg <- seg_create ;;
  match new_seg with
  | None => ret (ENOMEM, None)
  | Some _ =>
      r <- (if bool_decide (permissions g <> PAGE_STACK) then
              let writable := if bool_decide (permissions g = PAGE_RW) then 1 else 0 in
              let executable := if bool_decide (permissions g = PAGE_EXE) then 1 else 0 in
              seg_define new_seg (seg_size_bytes g) (file_offset g) (base_vaddr g) (num_pages g)
                (seg_size_words g) (elf_vnode g) 1 writable executable
            else seg_define_stack new_seg (base_vaddr g) (num_pages g)) ;;
      if negb (r =? 0) then ret (ENOMEM, None) else
      (if bool_decide (permissions g <> PAGE_STACK) then _ <- seg_prepare new_seg ;; ret tt else ret tt) ;;
      ret (0, new_seg)
  end.

(** [KASSERT(proc_seg != NULL); KASSERT(proc_seg->page_table != NULL)] *)
Definition seg_check (proc_seg : ptr) : M FS ps_t :=
  kassert_ptr proc_seg "proc_seg != NULL" ;;
  g <- load proc_seg ;;
  kassert_ptr (page_table g) "proc_seg->page_table != NULL" ;;
  ret g.

Definition seg_get_paddr (proc_seg : ptr) (vaddr : Z) : M FS Z :=
  g <- seg_check proc_seg ;; pt_get_entry (page_table g) vaddr.

Definition seg_add_pt_entry (proc_seg : ptr) (vaddr paddr : Z) : M FS unit :=
  g <- seg_check proc_seg ;; pt_add_entry (page_table g) vaddr paddr.

Definition seg_swap_out (proc_seg : ptr) (swapfile_offset vaddr : Z) : M FS unit :=
  g <- seg_check proc_seg ;; pt_swap_out (page_table g) swapfile_offset vaddr.

Context {VO : VnodeOps FS}.

Definition seg_load_page (proc_seg : ptr) (vaddr paddr : Z) : M FS Z :=
  kassert_ptr proc_seg "proc_seg != NULL" ;;
  g <- load proc_seg ;;
  kassert_ptr (elf_vnode g) "proc_seg->elf_vnode != NULL" ;;
  let page_seg_base_vaddr := Z.land (base_vaddr g) PAGE_FRAME in
  let index := u32 (vaddr - page_seg_base_vaddr) / PAGE_SIZE in
  kassert (index <? num_pages g) "index < proc_seg->num_pages" ;;
  let '(load_paddr, elf_offset, load_len_bytes) := seg_load_extent g index paddr in
  bzero (PADDR_TO_KVADDR paddr) PAGE_SIZE ;;
  (if load_len_bytes =? 0 then vmstats_increment (stat_index VMSTAT_PAGE_FAULT_ZERO)
   else
     vmstats_increment (stat_index VMSTAT_PAGE_FAULT_DISK) ;;
     vmstats_increment (stat_index VMSTAT_PAGE_FAULT_ELF)) ;;
  v <- deref (elf_vnode g) "proc_seg->elf_vnode" ;;
  io <- vnode_kread v (PADDR_TO_KVADDR load_paddr) load_len_bytes elf_offset ;;
  let '(result, resid) := io in
  if negb (result =? 0) then ret result
  else if 0 <? resid then
    kprintf "Error: truncated read on executable" [] ;;
    ret ENOEXEC
  else ret 0.

Definition seg_swap_in (proc_seg : ptr) (vaddr paddr : Z) : M FS unit :=
  g <- load proc_seg ;;
  swapfile_offset <- pt_get_swap_offset (page_table g) vaddr ;;
  _ <- swap_in paddr swapfile_offset ;;
  pt_swap_in (page_table g) vaddr paddr.

Definition seg_destroy (proc_seg : ptr) : M FS unit :=
  kassert_ptr proc_seg "proc_seg != NULL" ;;
  g <- load proc_seg ;;
  (match page_table g with
   | None => ret tt
   | Some _ => pt_clear_content (page_table g) ;; pt_destroy (page_table g)
   end) ;;
  kfree (T := ps_t) proc_seg.
End segment.

(** ** Demand loading against the eager reference *)

(** The byte the program image has at virtual address [va]: the contents of
    the file inside the initialised part of the segment, 0 elsewhere. *)
Definition image_byte (content : Z -> Z) (g : ps_t) (va : Z) : Z :=
  if bool_decide (base_vaddr g <= va < base_vaddr g + seg_size_bytes g)
  then content (file_offset g + (va - base_vaddr g)) else 0.

(** A segment as [as_define_region] defines it for a user program: its pages
    are in user space and its file part fits into them. *)
Record seg_geom (g : ps_t) : Prop := {
  sg_base : 0 <= base_vaddr g;
  sg_pages : 1 <= num_pages g;
  sg_end : page_of (base_vaddr g) + num_pages g <= 2^19;
  sg_size : 0 <= seg_size_bytes g
}.

Definition seg_fits (g : ps_t) : Prop :=
  base_vaddr g mod PAGE_SIZE + seg_size_bytes g <= num_pages g * PAGE_SIZE.

Definition page_base (va : Z) : Z := page_of va * PAGE_SIZE.

(** [va] is in a page of the segment. *)
Definition seg_covers (g : ps_t) (va : Z) : Prop :=
  0 <= page_of va - page_of (base_vaddr g) < num_pages g.

(** The part of a page that comes from the file: [lo] up to [lo + len]. *)
Definition span_lo (g : ps_t) (va : Z) : Z := Z.max (page_base va) (base_vaddr g).
Definition span_len (g : ps_t) (va : Z) : Z :=
  Z.max 0 (Z.min (base_vaddr g + seg_size_bytes g) (page_base va + PAGE_SIZE) - span_lo g va).

Lemma seg_load_extent_span g va pa :
  seg_geom g -> seg_fits g -> seg_covers g va -> 0 <= pa <= 2^31 ->
  seg_load_extent g (page_of va - page_of (base_vaddr g)) pa =
    (pa + (span_lo g va - page_base va), file_offset g + (span_lo g va - base_vaddr g), span_len g va).
Proof.
  intros [H1 H2 H3 H4] Hf Hc Hpa. unfold seg_load_extent, seg_fits, seg_covers, span_len, span_lo, page_base in *.
  rewrite land_offset. unfold page_of, PAGE_SIZE in *.
  set (q := va / 4096) in *. set (n := num_pages g) in *. set (z := seg_size_bytes g) in *.
  destruct (Z.eqb_spec (q - base_vaddr g / 4096) 0).
  - rewrite u32_small by (unfold is_u32; lia). destruct (Z.ltb_spec (4096 - base_vaddr g mod 4096) z); f_equal; try f_equal; lia.
  - rewrite (u32_small (n - 1)) by (unfold is_u32; lia).
    destruct (Z.eqb_spec (q - base_vaddr g / 4096) (n - 1)).
    + rewrite (u32_small ((n - 1) * 4096 - _)) by (unfold is_u32; lia).
      destruct (Z.leb_spec z ((n - 1) * 4096 - base_vaddr g mod 4096)); rewrite ?u32_small by (unfold is_u32; lia);
        f_equal; try f_equal; lia.
    + rewrite (u32_small (_ * 4096 - _)) by (unfold is_u32; lia).
      rewrite (u32_small (4096 + _)) by (unfold is_u32; lia).
      destruct (Z.leb_spec z ((q - base_vaddr g / 4096) * 4096 - base_vaddr g mod 4096));
        [f_equal; try f_equal; lia|].
      destruct (Z.ltb_spec (4096 + ((q - base_vaddr g / 4096) * 4096 - base_vaddr g mod 4096)) z);
        rewrite ?u32_small by (unfold is_u32; lia); f_equal; try f_equal; lia.
Qed.

Section load.
Context {FS : Type} {VO : VnodeOps FS} {VL : VnodeLaws FS}.
Implicit Types s : kstate FS.

Definition load_stats (len : Z) (st : stats_st) : stats_st :=
  if len =? 0 then bump (stat_index VMSTAT_PAGE_FAULT_ZERO) st
  else bump (stat_index VMSTAT_PAGE_FAULT_ELF) (bump (stat_index VMSTAT_PAGE_FAULT_DISK) st).

(** The state after the transfer of [bs] to [lp]. *)
Definition page_loaded (pa lp len : Z) (bs : list Z) (fs' : FS) s : kstate FS :=
  set_stats (load_stats len (s_stats s))
    (set_fs fs' (set_mem (mem_write (mem_zero (s_mem s) pa PAGE_SIZE) lp bs) s)).

Definition truncated_msg s : kstate FS :=
  set_log (s_log s ++ [mk_kmsg "Error: truncated read on executable" []]) s.

Lemma seg_index_covers g va :
  seg_geom g -> seg_covers g va ->
  u32 (va - Z.land (base_vaddr g) PAGE_FRAME) / PAGE_SIZE = page_of va - page_of (base_vaddr g).
Proof.
  intros [H1 H2 H3 H4] Hc. unfold seg_covers, page_of, PAGE_SIZE in *.
  rewrite land_frame by (unfold is_u32; lia). unfold PAGE_SIZE. rewrite u32_small by (unfold is_u32; lia). lia.
Qed.

Lemma seg_load_page_run x g v va pa lp off len s :
  idle s -> stats_wf (s_stats s) -> cell_at s x = Some g -> elf_vnode g = Some v -> seg_geom g -> seg_covers g va ->
  is_u32 pa -> is_u32 lp -> seg_load_extent g (page_of va - page_of (base_vaddr g)) pa = (lp, off, len) ->
  seg_load_page (Some x) va pa s =
    let '(e, bs, fs') := vop_read v off len (s_fs s) in
    let s1 := page_loaded pa lp len bs fs' s in
    if negb (e =? 0) then Ok e s1
    else if 0 <? len - zlen bs then Ok ENOEXEC (truncated_msg s1) else Ok 0 s1.
Proof.
  intros Hs Hst Hx Hv Hg Hc Hpa Hlp Hext. unfold seg_load_page. run. rewrite (run_load x g) by done.
  rewrite Hv. run. rewrite seg_index_covers by done.
  rewrite run_kassert by (apply Z.ltb_lt; unfold seg_covers in Hc; lia). rewrite Hext.
  unfold bzero. run. rewrite kva_to_pa_kva by done.
  set (s0 := set_mem _ s).
  assert ((if len =? 0 then vmstats_increment (stat_index VMSTAT_PAGE_FAULT_ZERO)
     else vmstats_increment (stat_index VMSTAT_PAGE_FAULT_DISK) ;;
          vmstats_increment (stat_index VMSTAT_PAGE_FAULT_ELF)) s0 =
    Ok tt (set_stats (load_stats len (s_stats s)) s0)) as Hinc.
  { unfold load_stats. destruct (len =? 0); [by rewrite vmstats_increment_run by done|].
    rewrite run_increment by done. by rewrite vmstats_increment_run by (done || by apply bump_wf). }
  rewrite (bind_Ok _ _ _ _ _ Hinc), (run_deref _ _ v) by done.
  unfold vnode_kread, bind at 1. cbn [s_fs set_stats s0 set_mem]. rewrite kva_to_pa_kva by done.
  destruct (vop_read v off len (s_fs s)) as [[e bs] fs'] eqn:Er.
  destruct (e =? 0); [|done]. cbn [negb]. by destruct (0 <? len - zlen bs).
Qed.

(** Every byte of the frame is the image's or 0, the image's where it was read. *)
Lemma page_loaded_bytes g v va pa e bs fs' s :
  seg_geom g -> seg_fits g -> seg_covers g va ->
  vop_read v (file_offset g + (span_lo g va - base_vaddr g)) (span_len g va) (s_fs s) = (e, bs, fs') ->
  let m := s_mem (page_loaded pa (pa + (span_lo g va - page_base va)) (span_len g va) bs fs' s) in
  (forall j, 0 <= j < PAGE_SIZE ->
     m (pa + j) = image_byte (file_byte (s_fs s) v) g (page_base va + j) \/ (m (pa + j) = 0 /\ zlen bs < span_len g va)) /\
  (forall a, ~ (pa <= a < pa + PAGE_SIZE) -> m a = s_mem s a).
Proof.
  intros [H1 H2 H3 H4] Hf Hc Er. cbn.
  pose proof (vop_read_length _ _ _ _ _ _ _ Er ltac:(unfold span_len; lia)) as Hlen.
  set (lp := pa + (span_lo g va - page_base va)).
  assert (span_len g va = 0 \/ page_base va <= span_lo g va /\ base_vaddr g <= span_lo g va /\
    span_lo g va + span_len g va <= page_base va + PAGE_SIZE /\
    span_lo g va + span_len g va <= base_vaddr g + seg_size_bytes g) as Hspan by (unfold span_len, span_lo; lia).
  assert (0 <= zlen bs) by (unfold zlen; lia). split.
  - intros j Hj. destruct (decide (lp <= pa + j < lp + zlen bs)) as [Hin|Hout].
    + left. rewrite mem_write_in by done. destruct (zlookup_in_range bs (pa + j - lp)) as [b Hb]; [lia|].
      rewrite Hb. cbn. rewrite (vop_read_bytes _ _ _ _ _ _ _ Er _ _ Hb). unfold image_byte.
      rewrite bool_decide_eq_true_2 by (subst lp; lia). f_equal. subst lp. lia.
    + rewrite mem_write_out, mem_zero_spec, decide_True by (done || lia).
      destruct (decide (zlen bs < span_len g va)); [by right|left].
      unfold image_byte. rewrite bool_decide_eq_false_2; [done|].
      assert (zlen bs = span_len g va) as Hz by lia. rewrite Hz in Hout. unfold span_len, span_lo in *. subst lp. lia.
  - intros a Ha. rewrite mem_write_out, mem_zero_spec, decide_False by (done || (subst lp; lia)). done.
Qed.
End load.

(** ** Properties *)

Section segment_properties.
Context {FS : Type} {VO : VnodeOps FS} {VL : VnodeLaws FS}.
Implicit Types s : kstate FS.

(** (C30) Demand loading agrees with eager loading: [seg_load_page] always
    returns, and when it returns 0 the frame holds exactly the bytes the
    program image has in that page, file contents where the segment has them
    and zeros before, after and between; when it reports an error every byte
    of the frame is still the image's byte or 0, so that no old contents of
    the frame leak.  Nothing outside the frame, no file and no heap structure
    changes, and the fault is counted as a zero fill or as a disk read from
    the ELF file, whichever it was. *)
Theorem seg_load_page_image x g v va pa s :
  idle s -> stats_wf (s_stats s) -> cell_at s x = Some g -> elf_vnode g = Some v ->
  seg_geom g -> seg_fits g -> seg_covers g va -> page_paddr_ok pa -> pa < 2^31 ->
  exists r s', seg_load_page (Some x) va pa s = Ok r s' /\
    (r = 0 -> forall j, 0 <= j < PAGE_SIZE ->
       s_mem s' (pa + j) = image_byte (file_byte (s_fs s) v) g (page_base va + j)) /\
    (forall j, 0 <= j < PAGE_SIZE ->
       s_mem s' (pa + j) = image_byte (file_byte (s_fs s) v) g (page_base va + j) \/ s_mem s' (pa + j) = 0) /\
    (forall a, ~ (pa <= a < pa + PAGE_SIZE) -> s_mem s' a = s_mem s a) /\
    (forall w o, file_byte (s_fs s') w o = file_byte (s_fs s) w o) /\
    s_heap s' = s_heap s /\ s_stats s' = load_stats (span_len g va) (s_stats s).
Proof.
  intros Hs Hst Hx Hv Hg Hf Hc [Hpa Hal] Hlt. pose proof Hg as [G1 G2 G3 G4].
  pose proof (seg_load_extent_span g va pa Hg Hf Hc ltac:(destruct Hpa; lia)) as Hext.
  assert (is_u32 (pa + (span_lo g va - page_base va))) as Hlp.
  { unfold is_u32, span_lo, page_base, seg_covers, page_of, PAGE_SIZE in *. lia. }
  rewrite (seg_load_page_run _ _ _ _ _ _ _ _ _ Hs Hst Hx Hv Hg Hc Hpa Hlp Hext).
  destruct (vop_read v (file_offset g + (span_lo g va - base_vaddr g)) (span_len g va) (s_fs s))
    as [[e bs] fs'] eqn:Er.
  pose proof (page_loaded_bytes g v va pa e bs fs' s Hg Hf Hc Er) as [Hb Ho]. cbv zeta in Hb, Ho.
  pose proof (vop_read_frame _ _ _ _ _ _ _ Er) as Hfr. cbv zeta.
  destruct (Z.eqb_spec e 0) as [->|He]; cbn [negb].
  - destruct (Z.ltb_spec 0 (span_len g va - zlen bs)); do 2 eexists; (split; [reflexivity|]);
      (split_and!; [|intros j Hj; destruct (Hb j Hj) as [|[]]; auto|done|done|done|done]); [done|].
    intros _ j Hj. destruct (Hb j Hj) as [|[_ ?]]; [done|lia].
  - do 2 eexists. split; [reflexivity|].
    split_and!; [done|intros j Hj; destruct (Hb j Hj) as [|[]]; auto|done|done|done|done].
Qed.

(** (C40) The last page is not capped: when the file part of a segment of at
    least two pages is longer than its pages, which nothing in the loading
    path rules out, loading the last page succeeds and writes the excess
    bytes over the frame that follows. *)
Theorem seg_load_page_overflow x g v va pa s bs fs' :
  idle s -> stats_wf (s_stats s) -> cell_at s x = Some g -> elf_vnode g = Some v ->
  seg_geom g -> 2 <= num_pages g -> seg_size_bytes g < 2^31 ->
  page_of va = page_of (base_vaddr g) + num_pages g - 1 -> page_paddr_ok pa ->
  let prev := (num_pages g - 1) * PAGE_SIZE - base_vaddr g mod PAGE_SIZE in
  num_pages g * PAGE_SIZE < base_vaddr g mod PAGE_SIZE + seg_size_bytes g ->
  vop_read v (file_offset g + prev) (seg_size_bytes g - prev) (s_fs s) = (0, bs, fs') ->
  zlen bs = seg_size_bytes g - prev ->
  exists s', seg_load_page (Some x) va pa s = Ok 0 s' /\
    forall j, 0 <= j < base_vaddr g mod PAGE_SIZE + seg_size_bytes g - num_pages g * PAGE_SIZE ->
      s_mem s' (pa + PAGE_SIZE + j) = file_byte (s_fs s) v (file_offset g + prev + PAGE_SIZE + j).
Proof.
  intros Hs Hst Hx Hv Hg Hn Hsz Hva [Hpa Hal] prev Hbig Er Hlen. pose proof Hg as [G1 G2 G3 G4].
  assert (seg_covers g va) as Hc by (unfold seg_covers; lia).
  assert (seg_load_extent g (page_of va - page_of (base_vaddr g)) pa =
    (pa, file_offset g + prev, seg_size_bytes g - prev)) as Hext.
  { unfold seg_load_extent. rewrite land_offset. subst prev. unfold page_of, PAGE_SIZE in *.
    destruct (Z.eqb_spec (va / 4096 - base_vaddr g / 4096) 0); [lia|].
    rewrite (u32_small (num_pages g - 1)) by (unfold is_u32; lia).
    destruct (Z.eqb_spec (va / 4096 - base_vaddr g / 4096) (num_pages g - 1)); [|lia].
    rewrite (u32_small (_ * 4096 - _)) by (unfold is_u32; lia).
    destruct (Z.leb_spec (seg_size_bytes g) ((num_pages g - 1) * 4096 - base_vaddr g mod 4096)); [lia|].
    rewrite u32_small by (unfold is_u32; lia). done. }
  rewrite (seg_load_page_run _ _ _ _ _ _ _ _ _ Hs Hst Hx Hv Hg Hc Hpa Hpa Hext), Er. cbv zeta. cbn [negb Z.eqb].
  destruct (Z.ltb_spec 0 (seg_size_bytes g - prev - zlen bs)); [lia|].
  eexists. split; [reflexivity|]. intros j Hj. unfold page_loaded. cbn.
  rewrite mem_write_in by (subst prev; unfold PAGE_SIZE in *; lia). destruct (zlookup_in_range bs (pa + PAGE_SIZE + j - pa)) as [b Hb].
  { unfold PAGE_SIZE in *. subst prev. lia. }
  rewrite Hb. cbn. rewrite (vop_read_bytes _ _ _ _ _ _ _ Er _ _ Hb). f_equal. lia.
Qed.
End segment_properties.

(** A data segment of two pages that starts inside its first page, with 5000
    bytes in the file, and one whose file part is longer than its pages. *)
Definition seg_demo_geom (size : Z) : ps_t := mk_ps PAGE_RW size 0x2000 0x400800 2 0x1700 (Some 2%positive) None.
Definition seg_demo (size : Z) : kstate memfs :=
  put_cell 1 (seg_demo_geom size) (set_heap (mk_heap ∅ ∅ ∅ ∅ ∅ ∅ 2 []) blank_state).

Lemma seg_load_page_image_witness :
  exists r s', seg_load_page (Some 1%positive) 0x401234 0x6000 (seg_demo 5000) = Ok r s' /\
      (r = 0 -> forall j, 0 <= j < PAGE_SIZE ->
         s_mem s' (0x6000 + j) = image_byte (file_byte blank_fs 2%positive) (seg_demo_geom 5000) (page_base 0x401234 + j)) /\
      (forall j, 0 <= j < PAGE_SIZE ->
         s_mem s' (0x6000 + j) = image_byte (file_byte blank_fs 2%positive) (seg_demo_geom 5000) (page_base 0x401234 + j) \/
         s_mem s' (0x6000 + j) = 0) /\
      (forall a, ~ (0x6000 <= a < 0x6000 + PAGE_SIZE) -> s_mem s' a = 0xaa) /\
      (forall w o, file_byte (s_fs s') w o = file_byte blank_fs w o) /\
      s_heap s' = s_heap (seg_demo 5000) /\
      s_stats s' = load_stats (span_len (seg_demo_geom 5000) 0x401234) (s_stats (seg_demo 5000)).
Proof.
  apply (seg_load_page_image 1 (seg_demo_geom 5000) 2%positive 0x401234 0x6000 (seg_demo 5000));
    try (vm_compute; done); by split.
Defined.

Lemma seg_load_page_overflow_witness :
  exists s', seg_load_page (Some 1%positive) 0x401234 0x6000 (seg_demo 6200) = Ok 0 s' /\
      forall j, 0 <= j < 0x800 + 6200 - 2 * PAGE_SIZE ->
        s_mem s' (0x6000 + PAGE_SIZE + j) = file_byte blank_fs 2%positive (0x2000 + (PAGE_SIZE - 0x800) + PAGE_SIZE + j).
Proof.
  eapply (seg_load_page_overflow 1 (seg_demo_geom 6200) 2%positive 0x401234 0x6000 (seg_demo 6200));
    try (vm_compute; done); by split.
Defined.
