(* ===== verification/AddrSpace.v ===== *)
(** * Address spaces ([kern/vm/addrspace.c])

    A code, a data and a stack segment; creation, definition, search of the
    segment of an address, and destruction.  [proc_getas] and [proc_setas] of
    [proc.c] are here because the address space code calls them. *)

From S2P Require Import Prelude State Monad Machine Testbed Bitmap VmStats Ram VmTlb Swapfile Heap Coremap Pt Segment.

Definition PAGEVM_STACKPAGES : Z := 18.
Definition STACK_BASE : Z := USERSTACK - PAGEVM_STACKPAGES * PAGE_SIZE.

Definition set_seg_code (x : ptr) (a : addrspace_t) : addrspace_t := mk_as x (seg_data a) (seg_stack a).
Definition set_seg_data (x : ptr) (a : addrspace_t) : addrspace_t := mk_as (seg_code a) x (seg_stack a).
Definition set_seg_stack (x : ptr) (a : addrspace_t) : addrspace_t := mk_as (seg_code a) (seg_data a) x.

Definition set_p_addrspace (a : ptr) (p : proc) : proc :=
  mk_proc (p_name p) (p_numthreads p) a (p_cwd p) (p_status p) (p_pid p) (p_sem p).

(** The three-way test at the end of both searches. *)
Definition pick_segment (a : addrspace_t) (base_code top_code base_data top_data base_stack top_stack vaddr : Z) : ptr :=
  if (base_code <=? vaddr) && (vaddr <? top_code) then seg_code a
  else if (base_data <=? vaddr) && (vaddr <? top_data) then seg_data a
  else if (base_stack <=? vaddr) && (vaddr <? top_stack) then seg_stack a
  else None.

Section addrspace.
Context {FS : Type}.
Implicit Types s : kstate FS.

Definition proc_getas : M FS ptr :=
  p <- get (fun s => curproc (s_cpu s)) ;;
  match p with
  | None => ret None
  | Some x =>
      spinlock_acquire (p_lock x) ;;
      pr <- load (T := proc) p ;;
      spinlock_release (p_lock x) ;;
      ret (p_addrspace pr)
  end.

Definition proc_setas (newas : ptr) : M FS ptr :=
  p <- get (fun s => curproc (s_cpu s)) ;;
  kassert_ptr p "proc != NULL" ;;
  x <- deref p "proc" ;;
  spinlock_acquire (p_lock x) ;;
  pr <- load (T := proc) p ;;
  store p (set_p_addrspace newas pr) ;;
  spinlock_release (p_lock x) ;;
  ret (p_addrspace pr).

Definition as_create : M FS ptr :=
  ok <- kmalloc 12 ;;
  if negb ok then ret None else
  x <- new (mk_as None None None) ;;
  ret (Some x).

Definition as_activate : M FS unit :=
  a <- proc_getas ;;
  match a with
  | None => ret tt
  | Some _ =>
      spl <- splhigh ;;
      vm_tlb_invalidate_entries ;;
      vmstats_increment (stat_index VMSTAT_TLB_INVALIDATION) ;;
      _ <- splx spl ;;
      ret tt
  end.

Definition as_deactivate : M FS unit := ret tt.

Definition as_prepare_load (a : ptr) : M FS Z :=
  A <- load (T := addrspace_t) a ;;
  r <- seg_prepare (seg_code A) ;;
  if negb (r =? 0) then ret ENOMEM else
  A' <- load (T := addrspace_t) a ;;
  r <- seg_prepare (seg_data A') ;;
  if negb (r =? 0) then ret ENOMEM else ret 0.

Definition as_complete_load (a : ptr) : M FS Z := ret 0.

(** The page count of [as_define_region]. *)
Definition region_npages (vaddr memsize : Z) : Z :=
  let npages := u32 (memsize + Z.land vaddr PAGE_OFFSET_MASK) in
  let npages := Z.land (u32 (npages + PAGE_SIZE - 1)) PAGE_FRAME in
  npages / PAGE_SIZE.

(** The arguments [readable], [writeable] and [executable] become [char]s. *)
Definition as_char (x : Z) : Z := x mod 256.

Definition as_define_region (a : ptr) (vaddr memsize file_size offset : Z) (v : option vnode)
    (readable writeable executable : Z) : M FS Z :=
  kassert_ptr a "as != NULL" ;;
  kassert_ptr v "v != NULL" ;;
  let npages := region_npages vaddr memsize in
  A <- load (T := addrspace_t) a ;;
  if bool_decide (seg_code A = None) then
    x <- seg_create ;;
    store a (set_seg_code x A) ;;
    match x with
    | None => ret ENOMEM
    | Some _ =>
        _ <- seg_define x file_size offset vaddr npages memsize v
               (as_char readable) (as_char writeable) (as_char executable) ;;
        ret 0
    end
  else if bool_decide (seg_data A = None) then
    x <- seg_create ;;
    store a (set_seg_data x A) ;;
    match x with
    | None => ret ENOMEM
    | Some _ =>
        _ <- seg_define x file_size offset vaddr npages memsize v
               (as_char readable) (as_char writeable) (as_char executable) ;;
        ret 0
    end
  else
    kprintf "paging: Warning: too many regions" [] ;;
    ret ENOSYS.

(** The result and, when it is 0, [*initstackptr]. *)
Definition as_define_stack (a : ptr) : M FS (Z * Z) :=
  let stack_size := PAGEVM_STACKPAGES * PAGE_SIZE in
  kassert_ptr a "as!=NULL" ;;
  A <- load (T := addrspace_t) a ;;
  kassert (bool_decide (seg_stack A = None)) "as->seg_stack==NULL" ;;
  x <- seg_create ;;
  store a (set_seg_stack x A) ;;
  match x with
  | None => ret (ENOMEM, 0)
  | Some _ =>
      r <- seg_define_stack x (u32 (USERSTACK - stack_size)) PAGEVM_STACKPAGES ;;
      if negb (r =? 0) then ret (ENOMEM, 0) else ret (0, USERSTACK)
  end.

(** The assertions of both searches; the address space and its segments. *)
Definition as_check (a : ptr) : M FS (addrspace_t * ps_t * ps_t * ps_t) :=
  kassert_ptr a "as != NULL" ;;
  A <- load (T := addrspace_t) a ;;
  kassert_ptr (seg_code A) "as->seg_code != NULL" ;;
  kassert_ptr (seg_data A) "as->seg_data != NULL" ;;
  kassert_ptr (seg_stack A) "as->seg_stack != NULL" ;;
  gc <- load (T := ps_t) (seg_code A) ;;
  gd <- load (T := ps_t) (seg_data A) ;;
  gk <- load (T := ps_t) (seg_stack A) ;;
  kassert_ptr (page_table gc) "as->seg_code->page_table != NULL" ;;
  kassert_ptr (page_table gd) "as->seg_data->page_table != NULL" ;;
  kassert_ptr (page_table gk) "as->seg_stack->page_table != NULL" ;;
  ret (A, gc, gd, gk).

Definition as_find_segment (a : ptr) (vaddr : Z) : M FS ptr :=
  r <- as_check a ;;
  let '(A, gc, gd, gk) := r in
  ret (pick_segment A (base_vaddr gc) (u32 (base_vaddr gc + seg_size_words gc))
         (base_vaddr gd) (u32 (base_vaddr gd + seg_size_words gd)) (base_vaddr gk) USERSTACK vaddr).

Definition as_find_segment_coarse (a : ptr) (vaddr : Z) : M FS ptr :=
  r <- as_check a ;;
  let '(A, gc, gd, gk) := r in
  let base_code := Z.land (base_vaddr gc) PAGE_FRAME in
  let base_data := Z.land (base_vaddr gd) PAGE_FRAME in
  ret (pick_segment A base_code (u32 (base_code + u32 (num_pages gc * PAGE_SIZE)))
         base_data (u32 (base_data + u32 (num_pages gd * PAGE_SIZE)))
         STACK_BASE USERSTACK vaddr).

Context {VO : VnodeOps FS}.

Definition seg_destroy_if (x : ptr) : M FS unit :=
  match x with None => ret tt | Some _ => seg_destroy x end.

Definition as_destroy (a : ptr) : M FS unit :=
  kassert_ptr a "as != NULL" ;;
  A <- load (T := addrspace_t) a ;;
  g <- load (T := ps_t) (seg_code A) ;;
  let v := elf_vnode g in
  seg_destroy_if (seg_code A) ;;
  seg_destroy_if (seg_data A) ;;
  seg_destroy_if (seg_stack A) ;;
  (match v with
   | None => ret tt
   | Some v => modify (fun s => set_fs (vfs_close v (s_fs s)) s)
   end) ;;
  kfree (T := addrspace_t) a.

(** [seg_copy(src, &field)]: the field is assigned when the copy succeeds. *)
Definition seg_copy_into (a src : ptr) (set : ptr -> addrspace_t -> addrspace_t) : M FS Z :=
  r <- seg_copy src ;;
  (if fst r =? 0 then
     A <- load (T := addrspace_t) a ;; store a (set (snd r) A)
   else ret tt) ;;
  ret (fst r).

(** The result and, when it is 0, [*ret]. *)
Definition as_copy (old_as : ptr) : M FS (Z * ptr) :=
  kassert_ptr old_as "old_as != NULL" ;;
  O <- load (T := addrspace_t) old_as ;;
  kassert_ptr (seg_code O) "old_as->seg_code != NULL" ;;
  kassert_ptr (seg_data O) "old_as->seg_data != NULL" ;;
  kassert_ptr (seg_stack O) "old_as->seg_stack != NULL" ;;
  new_as <- as_create ;;
  match new_as with
  | None => ret (ENOMEM, None)
  | Some _ =>
      r <- seg_copy_into new_as (seg_code O) set_seg_code ;;
      if r =? 0 then as_destroy new_as ;; ret (ENOMEM, None) else
      r <- seg_copy_into new_as (seg_data O) set_seg_data ;;
      if r =? 0 then
        N <- load (T := addrspace_t) new_as ;;
        seg_destroy (seg_code N) ;;
        as_destroy new_as ;; ret (ENOMEM, None) else
      r <- seg_copy_into new_as (seg_stack O) set_seg_stack ;;
      if r =? 0 then
        N <- load (T := addrspace_t) new_as ;;
        seg_destroy (seg_code N) ;;
        seg_destroy (seg_data N) ;;
        as_destroy new_as ;; ret (ENOMEM, None) else
      ret (0, new_as)
  end.
End addrspace.

(** ** Well-formed address spaces *)

(** A segment whose page table is in place. *)
Record seg_live {FS} (s : kstate FS) (x : positive) (g : ps_t) (y : positive) (t : pt_t) : Prop := {
  sl_seg : cell_at s x = Some g;
  sl_ptr : page_table g = Some y;
  sl_tab : cell_at s y = Some t;
  sl_wf : exists buf, pt_wf t buf;
  sl_num : pt_num_pages t = num_pages g;
  sl_base : pt_base_vaddr t = base_vaddr g;
  sl_geom : seg_geom g
}.

Inductive role := Code | Data | Stack.
#[global] Instance role_eq_dec : EqDecision role.
Proof. solve_decision. Defined.

Definition seg_ptr (A : addrspace_t) (r : role) : ptr :=
  match r with Code => seg_code A | Data => seg_data A | Stack => seg_stack A end.

(** What the definition of each segment fixes. *)
Definition role_ok (r : role) (g : ps_t) : Prop :=
  match r with
  | Stack => permissions g = PAGE_STACK /\ base_vaddr g = STACK_BASE /\ num_pages g = PAGEVM_STACKPAGES
  | _ => permissions g <> PAGE_STACK /\ is_Some (elf_vnode g) /\ seg_fits g /\
      0 <= seg_size_words g /\ base_vaddr g mod PAGE_SIZE + seg_size_words g <= num_pages g * PAGE_SIZE
  end.

(** The segments of an address space, resolved. *)
Record segs := mk_segs { sg_ptr : role -> positive; sg_seg : role -> ps_t; sg_ptp : role -> positive; sg_tab : role -> pt_t }.

Record as_ok {FS} (s : kstate FS) (a : positive) (G : segs) : Prop := {
  ao_as : exists A, cell_at s a = Some A /\ forall r, seg_ptr A r = Some (sg_ptr G r);
  ao_live : forall r, seg_live s (sg_ptr G r) (sg_seg G r) (sg_ptp G r) (sg_tab G r);
  ao_role : forall r, role_ok r (sg_seg G r);
  ao_disjoint : forall r r' va, seg_covers (sg_seg G r) va -> seg_covers (sg_seg G r') va -> r = r'
}.

(** The addresses [as_find_segment] accepts for a segment. *)
Definition seg_contains (r : role) (g : ps_t) (va : Z) : Prop :=
  match r with
  | Stack => base_vaddr g <= va < USERSTACK
  | _ => base_vaddr g <= va < base_vaddr g + seg_size_words g
  end.

Lemma seg_contains_covers r g va : role_ok r g -> seg_geom g -> seg_contains r g va -> seg_covers g va.
Proof.
  intros Hr [H1 H2 H3 H4] Hc. unfold seg_covers, page_of in *.
  destruct r; cbn [role_ok seg_contains] in Hr, Hc; [destruct Hr as (_ & _ & _ & ? & ?)..|destruct Hr as (_ & ? & ?)];
    unfold USERSTACK, MIPS_KSEG0, STACK_BASE, PAGEVM_STACKPAGES, USERSTACK, MIPS_KSEG0, PAGE_SIZE in *; lia.
Qed.

Section find.
Context {FS : Type}.
Implicit Types s : kstate FS.

Lemma run_as_check {B} a G A (k : addrspace_t * ps_t * ps_t * ps_t -> M FS B) s :
  as_ok s a G -> cell_at s a = Some A -> (forall r, seg_ptr A r = Some (sg_ptr G r)) ->
  bind (as_check (Some a)) k s = k (A, sg_seg G Code, sg_seg G Data, sg_seg G Stack) s.
Proof.
  intros Hok HA Hp. unfold as_check. run. rewrite (run_load a A) by done.
  pose proof (Hp Code) as Hc. pose proof (Hp Data) as Hd. pose proof (Hp Stack) as Hk. cbn in Hc, Hd, Hk.
  rewrite Hc, Hd, Hk. run.
  pose proof (ao_live _ _ _ Hok) as HL.
  rewrite (run_load _ _ _ _ (sl_seg _ _ _ _ _ (HL Code))). run.
  rewrite (run_load _ _ _ _ (sl_seg _ _ _ _ _ (HL Data))). run.
  rewrite (run_load _ _ _ _ (sl_seg _ _ _ _ _ (HL Stack))). run.
  rewrite (sl_ptr _ _ _ _ _ (HL Code)), (sl_ptr _ _ _ _ _ (HL Data)), (sl_ptr _ _ _ _ _ (HL Stack)). by run.
Qed.

Lemma between_spec (lo hi x : Z) (P : Prop) :
  (P <-> lo <= x < hi) -> (lo <=? x) && (x <? hi) = true <-> P.
Proof. rewrite andb_true_iff, Z.leb_le, Z.ltb_lt. tauto. Qed.

(** The three-way test finds the only segment whose range holds the address. *)
Lemma pick_segment_spec A bc tc bd td bs ts va (P : role -> Prop) :
  (P Code <-> bc <= va < tc) -> (P Data <-> bd <= va < td) -> (P Stack <-> bs <= va < ts) ->
  (forall r r', P r -> P r' -> r = r') ->
  (forall r, P r -> pick_segment A bc tc bd td bs ts va = seg_ptr A r) /\
  ((forall r, ~ P r) -> pick_segment A bc tc bd td bs ts va = None).
Proof.
  intros Hc%between_spec Hd%between_spec Hs%between_spec Hu. unfold pick_segment. split.
  - intros r Hr. destruct ((bc <=? va) && (va <? tc)).
    { by rewrite (Hu r Code Hr) by (by apply Hc). }
    destruct ((bd <=? va) && (va <? td)). { by rewrite (Hu r Data Hr) by (by apply Hd). }
    destruct ((bs <=? va) && (va <? ts)). { by rewrite (Hu r Stack Hr) by (by apply Hs). }
    destruct r; exfalso; [by apply Hc in Hr|by apply Hd in Hr|by apply Hs in Hr].
  - intros Hno. destruct ((bc <=? va) && (va <? tc)); [by destruct (Hno Code); apply Hc|].
    destruct ((bd <=? va) && (va <? td)); [by destruct (Hno Data); apply Hd|].
    destruct ((bs <=? va) && (va <? ts)); [by destruct (Hno Stack); apply Hs|done].
Qed.

Lemma as_find_segment_run a G va s :
  as_ok s a G ->
  (forall r, seg_contains r (sg_seg G r) va -> as_find_segment (Some a) va s = Ok (Some (sg_ptr G r)) s) /\
  ((forall r, ~ seg_contains r (sg_seg G r) va) -> as_find_segment (Some a) va s = Ok None s).
Proof.
  intros Hok. destruct (ao_as _ _ _ Hok) as (A & HA & Hp). unfold as_find_segment.
  rewrite (run_as_check a G A) by done. cbn.
  pose proof (fun r => sl_geom _ _ _ _ _ (ao_live _ _ _ Hok r)) as Hg. pose proof (ao_role _ _ _ Hok) as Hr.
  assert (forall r, r <> Stack -> is_u32 (base_vaddr (sg_seg G r) + seg_size_words (sg_seg G r))) as Hu.
  { intros r Hne. destruct (Hg r) as [H1 H2 H3 H4]. pose proof (Hr r) as Hrr.
    unfold is_u32, page_of, PAGE_SIZE in *. destruct r; [| |done]; cbn in Hrr; unfold PAGE_SIZE in *; lia. }
  rewrite !u32_small by (by apply Hu).
  destruct (pick_segment_spec A (base_vaddr (sg_seg G Code)) (base_vaddr (sg_seg G Code) + seg_size_words (sg_seg G Code))
    (base_vaddr (sg_seg G Data)) (base_vaddr (sg_seg G Data) + seg_size_words (sg_seg G Data))
    (base_vaddr (sg_seg G Stack)) USERSTACK va (fun r => seg_contains r (sg_seg G r) va)) as [H1 H2];
    [done|done|done| |].
  { intros r r' Hc Hc'. eapply (ao_disjoint _ _ _ Hok); by eapply seg_contains_covers. }
  split; [intros r Hc|intros Hno]; unfold ret; f_equal; [by rewrite (H1 r Hc)|by apply H2].
Qed.

Lemma as_find_segment_coarse_run a G r va s :
  as_ok s a G -> seg_covers (sg_seg G r) va ->
  as_find_segment_coarse (Some a) va s = Ok (Some (sg_ptr G r)) s.
Proof.
  intros Hok Hc. destruct (ao_as _ _ _ Hok) as (A & HA & Hp). unfold as_find_segment_coarse.
  rewrite (run_as_check a G A) by done. cbn.
  pose proof (fun r => sl_geom _ _ _ _ _ (ao_live _ _ _ Hok r)) as Hg.
  assert (forall r, is_u32 (base_vaddr (sg_seg G r)) /\ is_u32 (num_pages (sg_seg G r) * PAGE_SIZE) /\
    is_u32 (PAGE_SIZE * page_of (base_vaddr (sg_seg G r)) + num_pages (sg_seg G r) * PAGE_SIZE)) as Hu.
  { intros r'. destruct (Hg r') as [H1 H2 H3 H4]. unfold is_u32, page_of, PAGE_SIZE in *. lia. }
  rewrite !land_frame by apply Hu. fold (page_of (base_vaddr (sg_seg G Code))) (page_of (base_vaddr (sg_seg G Data))).
  rewrite (u32_small (num_pages (sg_seg G Code) * PAGE_SIZE)), (u32_small (num_pages (sg_seg G Data) * PAGE_SIZE)) by apply Hu.
  rewrite !u32_small by apply Hu.
  destruct (ao_role _ _ _ Hok Stack) as (_ & Hsb & Hsn).
  match goal with |- ret (pick_segment _ ?bc ?tc ?bd ?td ?bs ?ts _) _ = _ =>
    destruct (pick_segment_spec A bc tc bd td bs ts va (fun r => seg_covers (sg_seg G r) va)) as [H1 _] end.
  4:{ intros r1 r2. apply (ao_disjoint _ _ _ Hok). }
  4:{ unfold ret. f_equal. rewrite <- Hp. by apply H1. }
  all: unfold seg_covers, page_of; rewrite ?Hsb, ?Hsn;
    unfold STACK_BASE, PAGEVM_STACKPAGES, USERSTACK, MIPS_KSEG0, PAGE_SIZE; lia.
Qed.
End find.
