(* ===== verification/PageMap.v ===== *)
(** * The abstract view of virtual memory

    An address space is a partial map from virtual pages to page states; a
    physical frame, a swap slot and a page table entry are three descriptions
    of the same page.  [vm_inv] ties them together: it is the invariant the
    page fault handler keeps. *)

From S2P Require Import Prelude State Monad Machine Testbed Bitmap VmStats Ram VmTlb Swapfile Heap Coremap CoremapSpec Pt Segment AddrSpace.

Section page_map.
Context {FS : Type}.
Implicit Types s : kstate FS.

(** The page of [va] in the address space [a] is in state [p]. *)
Definition page_at s (a : positive) (va : Z) (p : pte) : Prop :=
  exists G r, as_ok s a G /\ seg_covers (sg_seg G r) va /\ pt_view (sg_tab G r) va = Some p.

(** [G] with the page table at [y] replaced. *)
Definition retab (y : positive) (t : pt_t) (G : segs) : segs :=
  mk_segs (sg_ptr G) (sg_seg G) (sg_ptp G) (fun r => if decide (sg_ptp G r = y) then t else sg_tab G r).

(** Distinct segments of distinct address spaces have their own tables. *)
Definition tables_separate s : Prop :=
  forall a G r a' G' r', as_ok s a G -> as_ok s a' G' -> sg_ptp G r = sg_ptp G' r' -> a = a' /\ r = r'.

Lemma as_ok_lookups s s' a G :
  as_ok s a G -> cell_at (T := addrspace_t) s' a = cell_at s a ->
  (forall r, cell_at (T := ps_t) s' (sg_ptr G r) = cell_at s (sg_ptr G r)) ->
  (forall r, cell_at (T := pt_t) s' (sg_ptp G r) = cell_at s (sg_ptp G r)) -> as_ok s' a G.
Proof.
  intros [H1 H2 H3 H4] Ha Hx Hy. split; [by rewrite Ha| |done|done].
  intros r. destruct (H2 r) as [L1 L2 L3 L4 L5 L6 L7]. split; try done; by rewrite ?Hx, ?Hy.
Qed.

(** The two states have the same address spaces, segments and page tables. *)
Record same_maps s s' : Prop := {
  sm_as : h_as (s_heap s') = h_as (s_heap s);
  sm_ps : h_ps (s_heap s') = h_ps (s_heap s);
  sm_pt : h_pt (s_heap s') = h_pt (s_heap s)
}.

Lemma same_maps_heap s s' : s_heap s' = s_heap s -> same_maps s s'.
Proof. intros Hh. split; by rewrite Hh. Qed.

Lemma same_maps_sym s s' : same_maps s s' -> same_maps s' s.
Proof. intros []. by split. Qed.

Lemma as_ok_maps s s' a G : same_maps s s' -> as_ok s a G -> as_ok s' a G.
Proof.
  intros [M1 M2 M3] Hok. apply (as_ok_lookups _ _ _ _ Hok); unfold cell_at; cbn; [by rewrite M1|intros; by rewrite M2|intros; by rewrite M3].
Qed.

Lemma page_at_maps s s' a va p : same_maps s s' -> page_at s a va p <-> page_at s' a va p.
Proof.
  intros Hm. split; intros (G & r & Hok & H); exists G, r; (split; [|done]); eapply as_ok_maps; [done|done| |done].
  by apply same_maps_sym.
Qed.

Lemma as_ok_heap s s' a G : s_heap s' = s_heap s -> as_ok s a G -> as_ok s' a G.
Proof. intros Hh. by apply as_ok_maps, same_maps_heap. Qed.

Lemma page_at_heap s s' a va p : s_heap s' = s_heap s -> page_at s a va p -> page_at s' a va p.
Proof. intros Hh. by apply page_at_maps, same_maps_heap. Qed.

Lemma as_ok_unique s a G G' :
  as_ok s a G -> as_ok s a G' ->
  forall r, sg_ptr G r = sg_ptr G' r /\ sg_seg G r = sg_seg G' r /\ sg_ptp G r = sg_ptp G' r /\ sg_tab G r = sg_tab G' r.
Proof.
  intros H H' r. destruct (ao_as _ _ _ H) as (A & HA & Hp). destruct (ao_as _ _ _ H') as (A' & HA' & Hp').
  pose proof (Hp r) as Hr. pose proof (Hp' r) as Hr'. assert (A = A') as <- by congruence.
  destruct (ao_live _ _ _ H r) as [L1 L2 L3 _ _ _ _]. destruct (ao_live _ _ _ H' r) as [M1 M2 M3 _ _ _ _].
  assert (sg_ptr G r = sg_ptr G' r) as E1 by congruence. rewrite E1 in L1.
  assert (sg_seg G r = sg_seg G' r) as E2 by congruence. rewrite E2 in L2.
  assert (sg_ptp G r = sg_ptp G' r) as E3 by congruence. rewrite E3 in L3.
  split_and!; try done. congruence.
Qed.

Lemma as_ok_retab s a G y t0 t buf :
  as_ok s a G -> cell_at s y = Some t0 -> pt_wf t buf ->
  pt_num_pages t = pt_num_pages t0 -> pt_base_vaddr t = pt_base_vaddr t0 ->
  as_ok (put_cell y t s) a (retab y t G).
Proof.
  intros [H1 H2 H3 H4] Hy Hwf Hn Hb. split; try done.
  intros r. destruct (H2 r) as [L1 L2 L3 L4 L5 L6 L7]. split; cbn; try done.
  - case_decide as E; [by rewrite E, lookup_insert_eq|by rewrite lookup_insert_ne].
  - case_decide; [by exists buf|done].
  - case_decide as E; [|done]. rewrite E in L3. congruence.
  - case_decide as E; [|done]. rewrite E in L3. congruence.
Qed.

Lemma page_at_unique s a va p p' : page_at s a va p -> page_at s a va p' -> p = p'.
Proof.
  intros (G & r & Hok & Hc & Hv) (G' & r' & Hok' & Hc' & Hv').
  destruct (as_ok_unique _ _ _ _ Hok Hok' r') as (_ & E2 & _ & E4). rewrite <- E2 in Hc'. rewrite <- E4 in Hv'.
  assert (r = r') as <- by (by eapply (ao_disjoint _ _ _ Hok)). congruence.
Qed.

(** The entry of a page depends on the page only. *)
Lemma page_at_page s a va va' p : page_of va = page_of va' -> page_at s a va p -> page_at s a va' p.
Proof.
  intros Hp (G & r & Hok & Hc & Hv). exists G, r. unfold seg_covers, pt_view, pt_index in *. by rewrite <- Hp.
Qed.

(** Changing one entry of one table changes the state of that page only. *)
Lemma page_at_set s a G r va q p :
  tables_separate s -> as_ok s a G -> seg_covers (sg_seg G r) va ->
  pt_view (sg_tab G r) va = Some q -> pte_ok p ->
  let s' := put_cell (sg_ptp G r) (pt_set va p (sg_tab G r)) s in
  (forall a' va' p', page_at s' a' va' p' <->
     if decide (a' = a /\ page_of va' = page_of va) then p' = p else page_at s a' va' p') /\
  tables_separate s' /\ as_ok s' a (retab (sg_ptp G r) (pt_set va p (sg_tab G r)) G).
Proof.
  intros Hsep Hok Hc Hv Hp s'. destruct (ao_live _ _ _ Hok r) as [L1 L2 L3 [buf L4] L5 L6 L7].
  set (y := sg_ptp G r) in *. set (t0 := sg_tab G r) in *. set (t := pt_set va p t0) in *.
  pose proof (pt_set_wf t0 buf va p L4 Hp) as Hwf. fold t in Hwf.
  assert (pt_num_pages t = pt_num_pages t0) as Hn by apply pt_num_pages_set.
  assert (pt_base_vaddr t = pt_base_vaddr t0) as Hb by apply pt_base_set.
  assert (forall a1 G1, as_ok s a1 G1 -> as_ok s' a1 (retab y t G1)) as Hfwd.
  { intros a1 G1 H1. by eapply as_ok_retab. }
  assert (forall a1 G1, as_ok s' a1 G1 -> as_ok s a1 (retab y t0 G1)) as Hbwd.
  { intros a1 G1 H1. replace s with (put_cell y t0 s') by (unfold s'; rewrite put_put; by apply put_same).
    eapply as_ok_retab; [done|apply cell_at_put_eq|done|done|done]. }
  split_and!; [|intros a1 G1 r1 a2 G2 r2 H1 H2 E; exact (Hsep a1 _ r1 a2 _ r2 (Hbwd _ _ H1) (Hbwd _ _ H2) E)|by apply Hfwd].
  assert (page_at s' a va p) as Hat.
  { exists (retab y t G), r. split_and!; [by apply Hfwd|done|]. cbn. rewrite decide_True by done.
    unfold t. rewrite (pt_view_set _ _ _ _ q) by done. by rewrite decide_True. }
  intros a' va' p'. case_decide as Hd.
  - destruct Hd as [-> Hpg]. split; [|intros ->; by eapply page_at_page].
    intros Hp'. eapply page_at_unique; [exact Hp'|by eapply page_at_page].
  - split.
    + intros (G1 & r1 & H1 & H2 & H3). exists (retab y t0 G1), r1. split_and!; [by apply Hbwd|done|]. cbn.
      case_decide as E; [|done]. destruct (ao_live _ _ _ H1 r1) as [_ _ M3 _ _ _ _].
      rewrite E in M3. unfold s' in M3. rewrite cell_at_put_eq in M3. injection M3 as M3. rewrite <- M3 in H3.
      destruct (Hsep a' _ r1 a _ r (Hbwd _ _ H1) Hok E) as [-> ->].
      unfold t in H3. rewrite (pt_view_set _ _ _ _ q) in H3 by done. rewrite decide_False in H3 by tauto. done.
    + intros (G1 & r1 & H1 & H2 & H3). exists (retab y t G1), r1. split_and!; [by apply Hfwd|done|]. cbn.
      case_decide as E; [|done].
      destruct (Hsep a' _ r1 a _ r H1 Hok E) as [-> ->].
      destruct (as_ok_unique _ _ _ _ H1 Hok r) as (_ & _ & _ & E4). rewrite E4 in H3. fold t0 in H3.
      unfold t. rewrite (pt_view_set _ _ _ _ q) by done. rewrite decide_False by tauto. done.
Qed.
End page_map.

(** ** Segment operations on an address space *)

Section seg_run.
Context {FS : Type}.
Implicit Types s : kstate FS.
Context (s : kstate FS) (a : positive) (G : segs) (r : role) (va : Z) (p : pte).
Hypotheses (Hok : as_ok s a G) (Hva : is_u32 va) (Hv : pt_view (sg_tab G r) va = Some p).

Lemma run_seg_check {B} (k : ps_t -> M FS B) : bind (seg_check (Some (sg_ptr G r))) k s = k (sg_seg G r) s.
Proof.
  unfold seg_check. run. rewrite (run_load _ _ _ _ (sl_seg _ _ _ _ _ (ao_live _ _ _ Hok r))).
  rewrite (sl_ptr _ _ _ _ _ (ao_live _ _ _ Hok r)). by run.
Qed.

Lemma seg_get_paddr_run : seg_get_paddr (Some (sg_ptr G r)) va s = Ok (pte_answer p) s.
Proof.
  unfold seg_get_paddr. rewrite run_seg_check. destruct (ao_live _ _ _ Hok r) as [L1 L2 L3 [buf L4] L5 L6 L7].
  rewrite L2. by eapply pt_get_entry_run.
Qed.

Lemma seg_add_pt_entry_run pa :
  (forall q, p <> pte_resident q) ->
  seg_add_pt_entry (Some (sg_ptr G r)) va pa s =
    Ok tt (put_cell (sg_ptp G r) (pt_set va (pte_resident pa) (sg_tab G r)) s).
Proof.
  intros Hp. unfold seg_add_pt_entry. rewrite run_seg_check.
  destruct (ao_live _ _ _ Hok r) as [L1 L2 L3 [buf L4] L5 L6 L7]. rewrite L2. by eapply pt_add_entry_run.
Qed.

Lemma seg_swap_out_run pa off :
  p = pte_resident pa ->
  seg_swap_out (Some (sg_ptr G r)) off va s =
    Ok tt (put_cell (sg_ptp G r) (pt_set va (pte_swapped off) (sg_tab G r)) s).
Proof.
  intros ->. unfold seg_swap_out. rewrite run_seg_check.
  destruct (ao_live _ _ _ Hok r) as [L1 L2 L3 [buf L4] L5 L6 L7]. rewrite L2. by eapply pt_swap_out_run.
Qed.
End seg_run.

(** ** The invariant of virtual memory *)

Section vm_inv.
Context {FS : Type} {VO : VnodeOps FS} {VL : VnodeLaws FS}.
Implicit Types s : kstate FS.

(** [q]: the user frames, oldest first; [v], [b]: the swap file and its
    bitmap; [hole]: a frame that is allocated but not yet mapped. *)
Record vm_inv (hole : option Z) s (q : list Z) (v : vnode) (b : bitmap) : Prop := {
  vi_idle : idle s;
  vi_frames : frames_wf (s_ram s) (s_cm s);
  vi_fifo : fifo None (s_cm s) q;
  vi_stats : stats_wf (s_stats s);
  vi_swap : swap_ready (s_swap s) v b;
  vi_sep : tables_separate s;
  vi_owner : forall i e, i ∈ q -> hole <> Some i -> zlookup (coremap (s_cm s)) i = Some e ->
    exists a, address_space e = Some a /\ is_u32 (virtual_address e) /\
      page_at s a (virtual_address e) (pte_resident (i * PAGE_SIZE));
  vi_resident : forall a va pa, page_at s a va (pte_resident pa) ->
    exists i e, pa = i * PAGE_SIZE /\ i ∈ q /\ hole <> Some i /\ zlookup (coremap (s_cm s)) i = Some e /\
      address_space e = Some a /\ page_of (virtual_address e) = page_of va;
  vi_swapped : forall a va off, page_at s a va (pte_swapped off) ->
    exists k, off = k * PAGE_SIZE /\ 0 <= k < SWAP_SLOTS /\ bit b k = true;
  vi_slots : forall a va a' va' off, page_at s a va (pte_swapped off) -> page_at s a' va' (pte_swapped off) ->
    a = a' /\ page_of va = page_of va'
}.

(** Byte [j] of a populated page, wherever the page is. *)
Definition page_byte s (v : vnode) (a : positive) (va j x : Z) : Prop :=
  (exists pa, page_at s a va (pte_resident pa) /\ x = s_mem s (pa + j)) \/
  (exists off, page_at s a va (pte_swapped off) /\ x = file_byte (s_fs s) v (off + j)).

Lemma vi_frame_range hole s q v b i :
  vm_inv hole s q v b -> i ∈ q -> 0 < i /\ i * PAGE_SIZE < firstpaddr (s_ram s) /\ i * PAGE_SIZE < 2^31 /\
    page_paddr_ok (i * PAGE_SIZE).
Proof.
  intros Hinv Hi. destruct (dseg_elem _ _ _ _ _ (ff_seg _ _ _ (vi_fifo _ _ _ _ _ Hinv)) Hi) as (e & He & [Hu _]).
  destruct (frames_wf_tracked _ _ _ _ (vi_frames _ _ _ _ _ Hinv) He) as [H0 Hlt]; [congruence|].
  destruct (fw_ram _ _ (vi_frames _ _ _ _ _ Hinv)) as [R1 R2 R3 R4].
  unfold page_paddr_ok, is_u32, PAGE_SIZE in *. lia.
Qed.

(** The invariant depends on the frame table, the swap map and the address
    spaces only. *)
Lemma vm_inv_iff hole s s' q v b :
  vm_inv hole s q v b -> idle s' -> s_ram s' = s_ram s -> s_cm s' = s_cm s -> s_swap s' = s_swap s ->
  (forall a G, as_ok s' a G <-> as_ok s a G) -> stats_wf (s_stats s') -> vm_inv hole s' q v b.
Proof.
  intros [I1 I2 I3 I4 I5 I6 I7 I8 I9 I10] Hcpu Hram Hcm Hsw Hm Hst.
  assert (forall a0 va0 p, page_at s' a0 va0 p <-> page_at s a0 va0 p) as Hat
    by (intros; unfold page_at; by setoid_rewrite Hm).
  constructor; rewrite ?Hram, ?Hcm, ?Hsw; try done.
  - intros a0 G0 r0 a1 G1 r1 K0 K1. apply (I6 a0 G0 r0 a1 G1 r1); by apply Hm.
  - intros j ej Hj Hne Hej. destruct (I7 j ej Hj Hne Hej) as (a0 & A1 & A2 & A3%Hat). by exists a0.
  - intros a0 va0 pa' Hp'%Hat. by apply I8.
  - intros a0 va0 off Hp'%Hat. by apply (I9 a0 va0).
  - intros a0 va0 a1 va1 off K0%Hat K1%Hat. by eapply I10.
Qed.

Lemma vm_inv_maps hole s s' q v b :
  vm_inv hole s q v b -> idle s' -> s_ram s' = s_ram s -> s_cm s' = s_cm s -> s_swap s' = s_swap s ->
  same_maps s s' -> stats_wf (s_stats s') -> vm_inv hole s' q v b.
Proof.
  intros Hinv Hcpu Hram Hcm Hsw Hm Hst. apply (vm_inv_iff hole s); try done.
  intros a G. split; apply as_ok_maps; [by apply same_maps_sym|done].
Qed.

Lemma vm_inv_ext hole s s' q v b :
  vm_inv hole s q v b -> s_cpu s' = s_cpu s -> s_ram s' = s_ram s -> s_cm s' = s_cm s -> s_swap s' = s_swap s ->
  s_heap s' = s_heap s -> stats_wf (s_stats s') -> vm_inv hole s' q v b.
Proof.
  intros Hinv Hcpu Hram Hcm Hsw Hh Hst. apply (vm_inv_maps hole s); try done; [|by apply same_maps_heap].
  unfold idle. rewrite Hcpu. apply (vi_idle _ _ _ _ _ Hinv).
Qed.
End vm_inv.
