(* ===== verification/LooseQueue.v ===== *)
(** * The allocation queue after an eviction

    An eviction leaves the new oldest frame with a back link to the frame that
    was evicted, so [free_page_user] unlinks it as if it were in the middle
    of the queue; from then on the links of the frames are no list.  [loose] is
    what remains true of them, whatever the order in which frames are freed,
    and it is all that freeing a frame needs: no assertion of
    [free_page_user] fails and exactly the frame is freed.  [linked] covers
    both cases: a queue whose oldest frame has no back link stays a queue, any
    other stays loose. *)

From S2P Require Import Prelude State Monad Machine Ram VmTlb Heap Coremap CoremapSpec.

(** The links of a frame in use: the back link names a frame, and so does the
    forward link, but for [last]. *)
Definition live_links (cm : list coremap_entry) (last i : Z) : Prop :=
  exists e, zlookup cm i = Some e /\ user_frame e /\ 0 <= previous_allocated e < zlen cm /\
    (0 <= next_allocated e < zlen cm \/ (next_allocated e = zlen cm /\ last = i)).

Lemma live_insert cm L i j e : j <> i -> live_links cm L i -> live_links (zinsert j e cm) L i.
Proof. intros Hj (ei & Hi & H). exists ei. rewrite zlookup_zinsert_ne, zlen_zinsert by done. done. Qed.

Lemma live_set_previous cm L i j e x :
  live_links cm L i -> 0 <= x < zlen cm -> zlookup cm j = Some e -> live_links (zinsert j (set_previous_allocated x e) cm) L i.
Proof.
  intros Hl Hx He. destruct (decide (j = i)) as [->|Hj]; [|by apply live_insert]. destruct Hl as (ei & Hi & Hu & Hp & Hn). simplify_eq.
  eexists. rewrite zlen_zinsert. split; [apply zlookup_zinsert_eq; by eapply zlookup_Some_range|]. done.
Qed.

Lemma live_set_next cm L i j e x :
  live_links cm L i -> 0 <= x < zlen cm -> zlookup cm j = Some e -> live_links (zinsert j (set_next_allocated x e) cm) L i.
Proof.
  intros Hl Hx He. destruct (decide (j = i)) as [->|Hj]; [|by apply live_insert]. destruct Hl as (ei & Hi & Hu & Hp & Hn). simplify_eq.
  eexists. rewrite zlen_zinsert. split; [apply zlookup_zinsert_eq; by eapply zlookup_Some_range|]. split; [done|]. split; [done|]. by left.
Qed.

(** The last frame goes, [j] becomes the last. *)
Lemma live_set_last cm p i j e :
  live_links cm p i -> i <> p -> zlookup cm j = Some e -> live_links (zinsert j (set_next_allocated (zlen cm) e) cm) j i.
Proof.
  intros (ei & Hi & Hu & Hp & Hn) Hne He. destruct (decide (j = i)) as [->|Hj].
  - simplify_eq. eexists. rewrite zlen_zinsert. split; [apply zlookup_zinsert_eq; by eapply zlookup_Some_range|]. split; [done|]. split; [done|]. by right.
  - exists ei. rewrite zlookup_zinsert_ne, zlen_zinsert by done. split; [done|]. split; [done|]. split; [done|]. left. by destruct Hn as [|[_ ->]].
Qed.

(** The frames of [q] in use, with links as an eviction or the release of such
    frames leaves them. *)
Record loose (c : coremap_st) (q : list Z) : Prop := mk_loose {
  lo_nodup : NoDup q;
  lo_live : forall i, i ∈ q -> live_links (coremap c) (last_allocated_page c) i
}.

Lemma fifo_loose x c q : fifo (Some x) c q -> 0 <= x < zlen (coremap c) -> zlen (coremap c) = invalid_reference c -> loose c q.
Proof.
  intros Hf Hx Hlen. pose proof Hf as [Hseg Hnd Hv Hl _]. constructor; [done|]. intros i (q1 & q2 & ->)%list_elem_of_split.
  pose proof Hseg as Hseg'. rewrite dseg_app in Hseg'. cbn [hd dseg] in Hseg'. destruct Hseg' as [_ [(e & He & Hu & Hnext & Hprev) _]].
  exists e. split; [done|]. split; [done|]. split.
  - destruct q1 as [|l q1 _] using rev_ind; [cbn in Hprev; by rewrite Hprev|]. rewrite tail_of_snoc in Hprev. rewrite Hprev.
    apply (fifo_range _ _ _ _ Hf). set_solver.
  - destruct q2 as [|h q2]; cbn in Hnext; rewrite Hnext.
    + right. split; [done|]. by rewrite Hl, last_snoc.
    + left. apply (fifo_range _ _ _ _ Hf). set_solver.
Qed.

Section loose.
Context {FS : Type}.
Implicit Types s : kstate FS.

Lemma unlink_page_loose s p q :
  loose (s_cm s) q -> p ∈ q -> zlen (coremap (s_cm s)) = invalid_reference (s_cm s) ->
  exists cm' L, unlink_page p (last_allocated_page (s_cm s)) (current_victim_page (s_cm s)) s = Ok (L, current_victim_page (s_cm s)) (upd_cm cm' s) /\
    same_owners [] (coremap (s_cm s)) cm' /\ forall i, i ∈ q -> i <> p -> live_links cm' L i.
Proof.
  intros [Hnd Hlive] Hp Hinv. destruct (Hlive p Hp) as (e & He & Hu & Hprev & Hnext). set (cm := coremap (s_cm s)) in *. set (L := last_allocated_page (s_cm s)) in *.
  destruct (zlookup_in_range cm _ Hprev) as [ep Hep]. unfold unlink_page. rewrite (run_cm_get _ e) by done. run. rewrite <- Hinv.
  rewrite (proj2 (Z.eqb_neq _ _)) by lia. destruct Hnext as [Hnext|[Hnext HL]].
  - rewrite (proj2 (Z.eqb_neq _ _)) by lia. destruct (zlookup_in_range cm _ Hnext) as [en Hen].
    rewrite (run_cm_update _ _ en) by done. fold cm. set (cm1 := zinsert _ _ cm).
    assert (exists e', zlookup cm1 p = Some e' /\ previous_allocated e' = previous_allocated e /\ next_allocated e' = next_allocated e) as (e' & He' & E1 & E2).
    { unfold cm1. destruct (decide (next_allocated e = p)) as [E|E]; [|exists e; by rewrite zlookup_zinsert_ne].
      rewrite E in *. assert (en = e) as -> by congruence. eexists. split; [by apply zlookup_zinsert_eq|done]. }
    rewrite (run_cm_get _ e') by done. rewrite E1, E2.
    assert (zlen cm1 = zlen cm) as El by apply zlen_zinsert. destruct (zlookup_in_range cm1 (previous_allocated e)) as [ep' Hep']; [by rewrite El|].
    rewrite (run_cm_update _ _ ep') by done. eexists _, L. split; [reflexivity|]. split.
    + eapply same_owners_link; [by eapply same_owners_link|done|done].
    + intros i Hi Hne. apply live_set_next; [|cbn; unfold cm1; by rewrite zlen_zinsert|done]. apply live_set_previous; [by apply Hlive|done|done].
  - rewrite Hnext, Z.eqb_refl. rewrite run_kassert by (apply Z.eqb_eq; lia). rewrite (run_cm_update _ _ ep) by done. fold cm. set (cm1 := zinsert _ _ cm).
    assert (exists e', zlookup cm1 p = Some e' /\ previous_allocated e' = previous_allocated e) as (e' & He' & E1).
    { unfold cm1. destruct (decide (previous_allocated e = p)) as [E|E]; [|exists e; by rewrite zlookup_zinsert_ne].
      rewrite E in *. assert (ep = e) as -> by congruence. eexists. split; [by apply zlookup_zinsert_eq|done]. }
    rewrite (run_cm_get _ e') by done. rewrite E1. exists cm1, (previous_allocated e). split; [reflexivity|]. split; [by eapply same_owners_link|].
    intros i Hi Hne. apply (live_set_last cm p); [|done|done]. rewrite <- HL at 1. by apply Hlive.
Qed.

Lemma filter_ne_elem (p i : Z) (q : list Z) : i ∈ filter (fun i => i ∉ [p]) q <-> i ∈ q /\ i <> p.
Proof. rewrite list_elem_of_filter, list_elem_of_singleton. tauto. Qed.

(** Freeing a frame of a loose queue. *)
Lemma free_user_page_loose s p q :
  idle s -> frames_wf (s_ram s) (s_cm s) -> loose (s_cm s) q -> p ∈ q ->
  exists c', free_user_page (p * PAGE_SIZE) s = Ok tt (set_cm c' s) /\
    loose c' (filter (fun i => i ∉ [p]) q) /\ frames_wf (s_ram s) c' /\ freed (coremap c') p /\ same_owners [p] (coremap (s_cm s)) (coremap c').
Proof.
  intros Hs Hwf Hlo Hp. pose proof (fw_len _ _ Hwf) as Hlen. pose proof (fw_inv _ _ Hwf) as Hinv.
  destruct (unlink_page_loose (with_held [coremap_lock] s) p q) as (cm1 & L & Hun & Hown & Hlive); [done|done|cbn; congruence|].
  cbn [s_cm with_held set_cpu] in Hun, Hown. destruct (lo_live _ _ Hlo p Hp) as (e & He & [Hu1 Hu2] & _).
  destruct (same_owners_lookup' _ _ _ p e Hown ltac:(set_solver) He) as (e1 & He1 & Hv1).
  pose proof (run_free_page_user_links p e e1 _ cm1 (fun _ => ret tt) s Hs Hwf He Hu2 Hun (proj1 Hown) He1) as Hrun.
  assert (same_owners [p] (coremap (s_cm s)) (zinsert p (freed_user_entry (invalid_reference (s_cm s)) e1) cm1)) as Hown'.
  { apply same_owners_except; [|set_solver]. destruct Hown as [Hl1 Ho1]. split; [done|]. intros i _. apply Ho1. set_solver. }
  eexists. split.
  { unfold free_user_page. unfold bind in Hrun. destruct (free_page_user _ s) as [[] s'|]; [|done]. unfold ret in Hrun. exact Hrun. }
  split_and!; [|..|exact Hown'].
  - constructor; [apply NoDup_filter, Hlo|]. intros i [Hi Hne]%filter_ne_elem. apply live_insert; [done|]. by apply Hlive.
  - eapply (frames_wf_update _ _ _ [p]); [done|exact Hown'| |done..].
    intros i ->%list_elem_of_singleton. apply (frames_wf_tracked _ _ _ e Hwf He). congruence.
  - eexists. split; [apply zlookup_zinsert_eq; by eapply zlookup_Some_range|done].
Qed.

(** ** Both kinds of queue *)

(** With [clean], the frames of [q] are the queue, and the oldest has no
    back link. *)
Definition linked (clean : bool) (c : coremap_st) (q : list Z) : Prop :=
  if clean then fifo (Some (invalid_reference c)) c q else loose c q.

(** The back link of the oldest frame: none ([invalid_reference]) at first, the
    frame evicted last after an eviction. *)
Definition back_link (c : coremap_st) (q : list Z) : Z :=
  match q with
  | [] => invalid_reference c
  | h :: _ => default (invalid_reference c) (previous_allocated <$> zlookup (coremap c) h)
  end.

Lemma fifo_back_link c q : fifo None c q -> fifo (Some (back_link c q)) c q.
Proof.
  intros [Hseg Hnd Hv Hl Hc]. constructor; try done. destruct q as [|h q]; [done|]. cbn [dseg] in *.
  destruct Hseg as [(e & He & Hu & Hn & _) Hq]. split; [|done]. exists e. cbn. by rewrite He.
Qed.

(** [x] is the link of the oldest frame. *)
Lemma back_link_fifo x c q : fifo (Some x) c q -> q <> [] -> back_link c q = x.
Proof. intros [Hseg _ _ _ _] Hq. destruct q as [|h q]; [done|]. destruct Hseg as [(e & He & _ & _ & Hp) _]. cbn. by rewrite He. Qed.

(** A queue is handled right as long as that link is no link or some frame. *)
Definition link_ok (c : coremap_st) (q : list Z) : Prop := 0 <= back_link c q <= invalid_reference c.

Lemma fifo_linked c q :
  fifo None c q -> link_ok c q -> zlen (coremap c) = invalid_reference c -> linked (bool_decide (back_link c q = invalid_reference c)) c q.
Proof.
  intros Hf%fifo_back_link [H1 H2] Hlen. case_bool_decide as E; [cbn; by rewrite E in Hf|]. apply (fifo_loose (back_link c q)); [done|lia|done].
Qed.

Lemma filter_all {A} (P : A -> Prop) `{!forall x, Decision (P x)} (l : list A) : (forall x, x ∈ l -> P x) -> filter P l = l.
Proof.
  induction l as [|x l IH]; intros Hl; [done|]. rewrite filter_cons_True by (apply Hl; set_solver).
  f_equal. apply IH. set_solver.
Qed.

Lemma filter_remove (p : Z) (a b : list Z) : NoDup (a ++ p :: b) -> filter (fun i => i ∉ [p]) (a ++ p :: b) = a ++ b.
Proof.
  intros (Ha & Hd & [Hp Hb]%NoDup_cons)%NoDup_app. rewrite filter_app, filter_cons_False by set_solver.
  f_equal; apply filter_all; intros x Hx ->%list_elem_of_singleton; [by apply (Hd p Hx); left|done].
Qed.

Lemma free_user_page_linked clean s p q :
  idle s -> frames_wf (s_ram s) (s_cm s) -> linked clean (s_cm s) q -> p ∈ q ->
  exists c', free_user_page (p * PAGE_SIZE) s = Ok tt (set_cm c' s) /\
    linked clean c' (filter (fun i => i ∉ [p]) q) /\ frames_wf (s_ram s) c' /\ freed (coremap c') p /\ same_owners [p] (coremap (s_cm s)) (coremap c').
Proof.
  intros Hs Hwf Hl Hp. destruct clean; [|by apply free_user_page_loose]. apply list_elem_of_split in Hp as (q1 & q2 & ->).
  destruct (free_user_page_fifo_step s q1 p q2) as (c' & Hrun & H2 & H3 & H4 & H5); [done..|]. exists c'.
  rewrite filter_remove by (by eapply ff_nodup). done.
Qed.
End loose.
