(* ===== verification/Release.v ===== *)
(** * Releasing what a process owns

    [pt_clear_content], [seg_destroy] and [as_destroy] together: every frame of
    the address space goes back to the frame allocator and leaves the
    allocation queue, every swap slot is free again, and nothing of another
    process changes; when the queue has not been through an eviction it is intact
    afterwards. *)

From S2P Require Import Prelude State Monad Machine Testbed Bitmap VmStats Ram VmTlb Swapfile Heap Coremap CoremapSpec LooseQueue.
From S2P Require Import Pt Segment AddrSpace PageMap.

(** ** Lists *)

(** Elements that come from one index each. *)
Lemma NoDup_omap {A B} (f : A -> option B) (l : list A) :
  (forall i j x y z, l !! i = Some x -> l !! j = Some y -> f x = Some z -> f y = Some z -> i = j) -> NoDup (omap f l).
Proof.
  induction l as [|x l IH]; intros Hinj; [apply NoDup_nil_2|]. cbn.
  assert (NoDup (omap f l)) as Hnd.
  { apply IH. intros i j x1 y1 z Hi Hj Hx Hy. injection (Hinj (S i) (S j) x1 y1 z Hi Hj Hx Hy). done. }
  destruct (f x) as [z|] eqn:Ez; [|done]. apply NoDup_cons. split; [|done].
  intros (y & [j Hj]%list_elem_of_lookup & Hy)%list_elem_of_omap. by discriminate (Hinj 0%nat (S j) x y z eq_refl Hj Ez Hy).
Qed.

(** ** Frames and slots named by a page table *)

Definition entry_frame (e : Z) : option Z :=
  match pte_of e with pte_resident pa => Some (pa / PAGE_SIZE) | _ => None end.
Definition entry_slot (e : Z) : option Z :=
  match pte_of e with pte_swapped off => Some (off / PAGE_SIZE) | _ => None end.

Definition buf_frames (buf : list Z) : list Z := omap entry_frame buf.
Definition buf_slots (buf : list Z) : list Z := omap entry_slot buf.

(** ** The effect of releasing frames and slots *)

(** The frames of [fr] left the queue [q] and are freed; the ownership of all
    others is unchanged. *)
Record frames_released (clean : bool) (r : ram_st) (fr q : list Z) (c c' : coremap_st) : Prop := {
  fr_queue : linked clean c' (filter (fun i => i ∉ fr) q);
  fr_wf : frames_wf r c';
  fr_freed : forall i, i ∈ fr -> freed (coremap c') i;
  fr_owners : same_owners fr (coremap c) (coremap c')
}.

(** The slots of [sl] are free in [b']; all others are as in [b]. *)
Record slots_released (sl : list Z) (b b' : bitmap) : Prop := {
  sr_len : nbits b' = nbits b;
  sr_wf : bitmap_wf b';
  sr_bits : forall k, 0 <= k -> bit b' k = bit b k && bool_decide (k ∉ sl)
}.

Lemma frames_released_nil clean r q c :
  frames_wf r c -> linked clean c q -> frames_released clean r [] q c c.
Proof.
  intros Hwf Hf. constructor; [|done|set_solver|apply same_owners_refl].
  rewrite filter_all; [done|]. set_solver.
Qed.

Lemma same_owners_sub x y cm cm' : x ⊆ y -> same_owners x cm cm' -> same_owners y cm cm'.
Proof. intros Hsub [Hl H]. split; [done|]. intros i Hi. apply H. set_solver. Qed.

Lemma freed_same_owners x cm cm' i : same_owners x cm cm' -> i ∉ x -> freed cm i -> freed cm' i.
Proof.
  intros Hown Hi (e & He & Ht). destruct (same_owners_lookup' _ _ _ _ _ Hown Hi He) as (e' & He' & Hv).
  exists e'. split; [done|]. by rewrite (owner_view_type _ _ Hv).
Qed.

Lemma frames_released_app clean r f1 f2 q c c1 c2 :
  frames_released clean r f1 q c c1 -> frames_released clean r f2 (filter (fun i => i ∉ f1) q) c1 c2 ->
  frames_released clean r (f1 ++ f2) q c c2.
Proof.
  intros [A1 A2 A3 A4] [B1 B2 B3 B4]. constructor; [|done| |].
  - rewrite list_filter_filter in B1.
    replace (filter (fun i => i ∉ (f1 ++ f2)) q) with (filter (fun i => (i ∉ f2) /\ (i ∉ f1)) q); [done|].
    apply list_filter_iff. set_solver.
  - intros i [Hi|Hi]%elem_of_app; [|by apply B3].
    destruct (decide (i ∈ f2)); [by apply B3|]. eapply freed_same_owners; [done|done|by apply A3].
  - eapply same_owners_trans; [apply (same_owners_sub f1)|apply (same_owners_sub f2)]; set_solver.
Qed.

Lemma slots_released_nil b : bitmap_wf b -> slots_released [] b b.
Proof. intros Hwf. split; [done|done|]. intros k _. by rewrite bool_decide_eq_true_2, andb_true_r by set_solver. Qed.

Lemma slots_released_app l1 l2 b b1 b2 :
  slots_released l1 b b1 -> slots_released l2 b1 b2 -> slots_released (l1 ++ l2) b b2.
Proof.
  intros [A1 A2 A3] [B1 B2 B3]. split; [congruence|done|]. intros k Hk.
  rewrite B3, A3 by done. rewrite <- andb_assoc. f_equal. rewrite <- bool_decide_and.
  apply bool_decide_ext. set_solver.
Qed.

Lemma slots_released_one k b b' : bit_cleared_at b b' k -> slots_released [k] b b'.
Proof.
  intros (H1 & H2 & H3). split; [done|done|]. intros i Hi. rewrite H3, andb_comm by done. f_equal.
  rewrite <- bool_decide_not. apply bool_decide_ext. set_solver.
Qed.

Section clear.
Context {FS : Type} {VO : VnodeOps FS} (clean : bool).
Implicit Types s : kstate FS.

(** The state with frame table [c] and swap map [b]. *)
Definition with_resources (v : vnode) (c : coremap_st) (b : bitmap) s : kstate FS :=
  set_cm c (set_swap (mk_swap (Some v) (Some b)) s).

(** One resident page. *)
Lemma release_frame r p q c v b s :
  idle s -> frames_wf (s_ram s) c -> linked clean c q -> s_ram s = r -> p ∈ q ->
  exists c', free_user_page (p * PAGE_SIZE) (with_resources v c b s) = Ok tt (with_resources v c' b s) /\
    frames_released clean r [p] q c c'.
Proof.
  intros Hs Hwf Hf <- Hp. destruct (free_user_page_linked clean (with_resources v c b s) p q) as (c' & Hrun & H2 & H3 & H4 & H5); [done..|].
  exists c'. split; [done|]. constructor; [done|done| |done]. by intros i ->%list_elem_of_singleton.
Qed.

(** One swapped page. *)
Lemma release_slot k c v b s :
  idle s -> bitmap_wf b -> nbits b = SWAP_SLOTS -> 0 <= k < SWAP_SLOTS -> bit b k = true ->
  exists b', swap_free (k * PAGE_SIZE) (with_resources v c b s) = Ok tt (with_resources v c b' s) /\
    slots_released [k] b b'.
Proof.
  intros Hs Hwf Hn Hk Hbit. destruct (swap_free_run (with_resources v c b s) k v b) as (b' & Hrun & Hclr); [done..|].
  exists b'. split; [rewrite Hrun; f_equal; state_eq|by apply slots_released_one].
Qed.

(** What the loop needs of a table. *)
Record releasable (buf q : list Z) (b : bitmap) : Prop := {
  rl_frames_nodup : NoDup (buf_frames buf);
  rl_frames_in : forall p, p ∈ buf_frames buf -> p ∈ q;
  rl_slots_nodup : NoDup (buf_slots buf);
  rl_slots_in : forall k, k ∈ buf_slots buf -> 0 <= k < SWAP_SLOTS /\ bit b k = true
}.

Definition cleared_upto (buf q : list Z) (v : vnode) (b : bitmap) s (i : Z) (s' : kstate FS) : Prop :=
  let done := take (Z.to_nat i) buf in
  exists c' b', s' = with_resources v c' b' s /\
    frames_released clean (s_ram s) (buf_frames done) q (s_cm s) c' /\ slots_released (buf_slots done) b b'.

(** Processed and current entries do not share a frame or a slot. *)
Lemma omap_take_fresh {A B} (f : A -> option B) (l : list A) i x y :
  zlookup l i = Some x -> f x = Some y -> NoDup (omap f l) ->
  omap f (take (Z.to_nat (i + 1)) l) = omap f (take (Z.to_nat i) l) ++ [y] /\
  (y ∉ omap f (take (Z.to_nat i) l)) /\ y ∈ omap f l.
Proof.
  intros Hx Hy Hnd. pose proof (take_zlookup _ _ _ Hx) as Ht. pose proof (f_equal (omap f) Ht) as Ho.
  rewrite omap_app in Ho. cbn in Ho. rewrite Hy in Ho. split; [done|].
  rewrite <- (take_drop (Z.to_nat (i + 1)) l), omap_app, Ho in Hnd.
  rewrite <- (take_drop (Z.to_nat (i + 1)) l) at 2. rewrite omap_app, Ho. split; [|set_solver].
  apply NoDup_app in Hnd as ((_ & Hd & _)%NoDup_app & _). intros Hin. apply (Hd y Hin). set_solver.
Qed.

Lemma omap_take_skip {A B} (f : A -> option B) (l : list A) i x :
  zlookup l i = Some x -> f x = None -> omap f (take (Z.to_nat (i + 1)) l) = omap f (take (Z.to_nat i) l).
Proof.
  intros Hx Hy. rewrite (take_zlookup _ _ _ Hx), omap_app. cbn. rewrite Hy. by rewrite app_nil_r.
Qed.

Lemma clear_step x t buf q v b s i s' :
  idle s -> cell_at s x = Some t -> pt_wf t buf -> releasable buf q b -> nbits b = SWAP_SLOTS ->
  0 <= i < zlen buf -> cleared_upto buf q v b s i s' ->
  wp (e <- pt_entry_load (Some x) i ;;
      if is_swapped e then swap_free (Z.land e PT_SWAPPED_CLEAR)
      else if negb (e =? PT_EMPTY_ENTRY) then free_user_page e else ret tt) s'
     (fun _ => cleared_upto buf q v b s (i + 1)).
Proof.
  intros Hs Hx Hwf [R1 R2 R3 R4] Hn Hi (c' & b' & -> & Hfr & Hsl).
  destruct (zlookup_in_range buf i Hi) as [e He]. destruct (ptw_words _ _ Hwf i e He) as (p & Hp & ->).
  assert (pte_of (pte_word p) = p) as Hpte by (by apply pte_of_word).
  destruct (pt_word_tests p Hp) as [He0 Hsw]. unfold wp.
  rewrite (run_pt_entry_load x t buf i (pte_word p)) by (done || apply (ptw_buf _ _ Hwf)). rewrite He0, Hsw.
  destruct p as [|off|pa]; cbn [negb].
  - exists c', b'. split; [done|]. unfold buf_frames, buf_slots.
    by rewrite (omap_take_skip entry_frame _ _ _ He), (omap_take_skip entry_slot _ _ _ He) by done.
  - set (k := off / PAGE_SIZE). assert (entry_slot (pte_word (pte_swapped off)) = Some k) as Ek
      by (unfold entry_slot; by rewrite Hpte).
    assert (Z.land (pte_word (pte_swapped off)) PT_SWAPPED_CLEAR = k * PAGE_SIZE) as ->.
    { unfold pte_of in Hpte. rewrite He0, Hsw in Hpte. injection Hpte as Hoff. transitivity off; [exact Hoff|]. destruct Hp. unfold k, PAGE_SIZE in *. lia. }
    destruct (omap_take_fresh _ _ _ _ _ He Ek R3) as (Et & Hfresh & Hin). destruct (R4 k Hin) as [Hk Hbit].
    destruct (release_slot k c' v b' s Hs) as (b2 & -> & Hb2);
      [apply (sr_wf _ _ _ Hsl)|rewrite (sr_len _ _ _ Hsl); done|done| |].
    { rewrite (sr_bits _ _ _ Hsl) by lia. rewrite Hbit. by apply bool_decide_eq_true_2. }
    exists c', b2. split; [done|]. unfold buf_frames. rewrite (omap_take_skip entry_frame _ _ _ He) by (unfold entry_frame; by rewrite Hpte).
    split; [done|]. unfold buf_slots. rewrite Et. by eapply slots_released_app.
  - set (k := pa / PAGE_SIZE). assert (entry_frame (pte_word (pte_resident pa)) = Some k) as Ek
      by (unfold entry_frame; by rewrite Hpte).
    destruct (omap_take_fresh _ _ _ _ _ He Ek R1) as (Et & Hfresh & Hin).
    assert (pte_word (pte_resident pa) = k * PAGE_SIZE) as ->.
    { destruct Hp as [[_ Hp] _]. cbn. unfold k, PAGE_SIZE in *. lia. }
    destruct (release_frame (s_ram s) k _ c' v b' s Hs (fr_wf _ _ _ _ _ _ Hfr) (fr_queue _ _ _ _ _ _ Hfr) eq_refl)
      as (c2 & -> & Hc2). { apply list_elem_of_filter. split; [done|by apply R2]. }
    exists c2, b'. split; [done|]. unfold buf_slots. rewrite (omap_take_skip entry_slot _ _ _ He) by (unfold entry_slot; by rewrite Hpte).
    split; [|done]. unfold buf_frames. rewrite Et. by eapply frames_released_app.
Qed.

Lemma pt_clear_content_run x t buf q v b s :
  idle s -> cell_at s x = Some t -> pt_wf t buf -> frames_wf (s_ram s) (s_cm s) ->
  linked clean (s_cm s) q -> swap_ready (s_swap s) v b -> releasable buf q b ->
  exists c' b', pt_clear_content (Some x) s = Ok tt (with_resources v c' b' s) /\
    frames_released clean (s_ram s) (buf_frames buf) q (s_cm s) c' /\ slots_released (buf_slots buf) b b'.
Proof.
  intros Hs Hx Hwf Hfw Hf (Hsw & Hbw & Hn) Hrel.
  assert (wp (pt_clear_content (Some x)) s (fun _ => cleared_upto buf q v b s (zlen buf))) as Hrun.
  { unfold pt_clear_content, wp. run. rewrite (run_load x t) by done.
    apply (wp_mfor (cleared_upto buf q v b s)).
    - exists (s_cm s), b. split; [|split; [by apply frames_released_nil|by apply slots_released_nil]].
      unfold with_resources. rewrite <- Hsw. by destruct s.
    - intros i s' Hi Hinv. eapply clear_step; try done. pose proof (ptw_len _ _ Hwf). unfold zlen in *. lia.
    - intros s' Hinv. rewrite <- (ptw_len _ _ Hwf) in Hinv. unfold zlen in *. by rewrite Nat2Z.id, Z.add_0_l in Hinv. }
  apply wp_Ok in Hrun as ([] & s' & Hrun & c' & b' & -> & Hfr & Hsl). exists c', b'.
  replace (take (Z.to_nat (zlen buf)) buf) with buf in * by (unfold zlen; rewrite Nat2Z.id; by rewrite firstn_all). done.
Qed.

(** ** Segments *)

(** The structures of a segment are gone. *)
Definition drop_seg (x y : positive) s : kstate FS :=
  upd_cells (T := ps_t) (delete x (cells (s_heap s))) (upd_cells (T := pt_t) (delete y (cells (s_heap s))) s).

Lemma seg_destroy_run x g y t buf q v b s :
  idle s -> seg_live s x g y t -> pt_wf t buf -> frames_wf (s_ram s) (s_cm s) ->
  linked clean (s_cm s) q -> swap_ready (s_swap s) v b -> releasable buf q b ->
  exists c' b', seg_destroy (Some x) s = Ok tt (drop_seg x y (with_resources v c' b' s)) /\
    frames_released clean (s_ram s) (buf_frames buf) q (s_cm s) c' /\ slots_released (buf_slots buf) b b'.
Proof.
  intros Hs [L1 L2 L3 _ _ _ _] Hwf Hfw Hf Hsw Hrel.
  destruct (pt_clear_content_run y t buf q v b s) as (c' & b' & Hrun & Hfr & Hsl); [done..|].
  exists c', b'. split; [|done]. unfold seg_destroy. run. rewrite (run_load x g) by done. rewrite L2, run_bind.
  rewrite (bind_Ok _ _ _ _ _ Hrun). unfold pt_destroy. rewrite run_bind.
  rewrite (run_pt_check y t buf) by (done || apply (ptw_buf _ _ Hwf)). rewrite (run_kfree y t) by done.
  unfold kfree. run. by rewrite (run_deref _ _ g).
Qed.
End clear.

(** ** Address spaces *)

Lemma releasable_after buf q b (f1 l1 : list Z) b1 :
  releasable buf q b -> slots_released l1 b b1 ->
  (forall p, p ∈ buf_frames buf -> p ∉ f1) -> (forall k, k ∈ buf_slots buf -> k ∉ l1) ->
  releasable buf (filter (fun i => i ∉ f1) q) b1.
Proof.
  intros [R1 R2 R3 R4] Hsl Hf Hl. constructor; [done| |done|].
  - intros p Hp. apply list_elem_of_filter. split; [by apply Hf|by apply R2].
  - intros k Hk. destruct (R4 k Hk) as [Hr Hb]. split; [done|].
    rewrite (sr_bits _ _ _ Hsl), Hb by lia. by apply bool_decide_eq_true_2, Hl.
Qed.

Definition tab_buf (G : segs) (r : role) : list Z := default [] (page_buffer (sg_tab G r)).
Definition as_frames (G : segs) : list Z :=
  (buf_frames (tab_buf G Code) ++ buf_frames (tab_buf G Data)) ++ buf_frames (tab_buf G Stack).
Definition as_slots (G : segs) : list Z :=
  (buf_slots (tab_buf G Code) ++ buf_slots (tab_buf G Data)) ++ buf_slots (tab_buf G Stack).

Section owned.
Context {FS : Type} {VO : VnodeOps FS} {VL : VnodeLaws FS}.
Implicit Types s : kstate FS.

Lemma tab_buf_wf s a G r : as_ok s a G -> pt_wf (sg_tab G r) (tab_buf G r).
Proof.
  intros Hok. destruct (sl_wf _ _ _ _ _ (ao_live _ _ _ Hok r)) as [buf Hwf].
  unfold tab_buf. by rewrite (ptw_buf _ _ Hwf).
Qed.

(** Entry [i] of a table is the state of a page of the address space. *)
Lemma tab_entry_page s a G r i e :
  as_ok s a G -> zlookup (tab_buf G r) i = Some e ->
  exists va, page_of va = page_of (base_vaddr (sg_seg G r)) + i /\ seg_covers (sg_seg G r) va /\
    page_at s a va (pte_of e) /\ pte_ok (pte_of e).
Proof.
  intros Hok He. pose proof (tab_buf_wf s a G r Hok) as Hwf. destruct (ao_live _ _ _ Hok r) as [L1 L2 L3 L4 L5 L6 L7].
  pose proof (zlookup_Some_range _ _ _ He) as Hi. rewrite (ptw_len _ _ Hwf), L5 in Hi.
  set (va := (page_of (base_vaddr (sg_seg G r)) + i) * PAGE_SIZE).
  assert (page_of va = page_of (base_vaddr (sg_seg G r)) + i) as Hva by (unfold va, page_of, PAGE_SIZE; lia).
  assert (pt_view (sg_tab G r) va = Some (pte_of e)) as Hv.
  { unfold pt_view, pt_index. rewrite (ptw_buf _ _ Hwf), Hva, L6. cbn.
    replace (page_of _ + i - page_of _) with i by lia. by rewrite He. }
  exists va. assert (seg_covers (sg_seg G r) va) by (unfold seg_covers; lia). split_and!; [done|done|by exists G, r|].
  by destruct (pt_view_word _ _ _ _ Hwf Hv).
Qed.

Lemma page_tab_entry s a G va p :
  as_ok s a G -> page_at s a va p -> exists r i e, zlookup (tab_buf G r) i = Some e /\ pte_of e = p.
Proof.
  intros Hok (G' & r & Hok' & Hc & Hv). destruct (as_ok_unique _ _ _ _ Hok Hok' r) as (_ & _ & _ & E).
  rewrite <- E in Hv. pose proof (tab_buf_wf s a G r Hok) as Hwf. unfold pt_view in Hv. rewrite (ptw_buf _ _ Hwf) in Hv.
  cbn in Hv. destruct (zlookup _ _) as [e|] eqn:Ee; [|done]. injection Hv as Hv. by exists r, (pt_index (sg_tab G r) va), e.
Qed.

Lemma elem_of_omap_zlookup {A B} (f : A -> option B) (l : list A) y :
  y ∈ omap f l <-> exists i x, zlookup l i = Some x /\ f x = Some y.
Proof.
  rewrite list_elem_of_omap. split.
  - intros (x & [i Hi]%list_elem_of_lookup & Hy). exists (Z.of_nat i), x. split; [|done].
    unfold zlookup. destruct (Z.ltb_spec (Z.of_nat i) 0); [lia|]. by rewrite Nat2Z.id.
  - intros (i & x & Hi & Hy). exists x. split; [|done]. unfold zlookup in Hi. destruct (i <? 0); [done|].
    by eapply list_elem_of_lookup_2.
Qed.

(** Two entries of an address space that denote the same frame, or the same
    slot, are one entry. *)
Lemma entries_distinct s a G r r' i i' e e' (f : Z -> option Z) y :
  as_ok s a G -> zlookup (tab_buf G r) i = Some e -> zlookup (tab_buf G r') i' = Some e' ->
  f e = Some y -> f e' = Some y ->
  (forall va va' e1 e2, page_at s a va (pte_of e1) -> page_at s a va' (pte_of e2) -> pte_ok (pte_of e1) ->
     pte_ok (pte_of e2) -> f e1 = Some y -> f e2 = Some y -> page_of va = page_of va') ->
  r = r' /\ i = i'.
Proof.
  intros Hok He He' Hf Hf' Hinj. destruct (tab_entry_page s a G r i e Hok He) as (va & Hva & Hc & Hat & Hp).
  destruct (tab_entry_page s a G r' i' e' Hok He') as (va' & Hva' & Hc' & Hat' & Hp').
  pose proof (Hinj va va' e e' Hat Hat' Hp Hp' Hf Hf') as Hpg.
  assert (r = r') as <-. { apply (ao_disjoint _ _ _ Hok r r' va Hc). unfold seg_covers in *. by rewrite Hpg. }
  split; [done|lia].
Qed.

Lemma entry_frame_resident e y : pte_ok (pte_of e) -> entry_frame e = Some y -> pte_of e = pte_resident (y * PAGE_SIZE).
Proof.
  unfold entry_frame. destruct (pte_of e) as [| |pa]; try done. intros [[_ Ha] _] [= <-]. f_equal. unfold PAGE_SIZE in *. lia.
Qed.

Lemma entry_slot_swapped e y : pte_ok (pte_of e) -> entry_slot e = Some y -> pte_of e = pte_swapped (y * PAGE_SIZE).
Proof.
  unfold entry_slot. destruct (pte_of e) as [|off|]; try done. intros [_ Ha] [= <-]. f_equal. unfold PAGE_SIZE in *. lia.
Qed.

Context (s : kstate FS) (q : list Z) (v : vnode) (b : bitmap) (a : positive) (G : segs).
Hypotheses (Hinv : vm_inv None s q v b) (Hok : as_ok s a G).

Lemma resident_owner va y :
  page_at s a va (pte_resident (y * PAGE_SIZE)) ->
  y ∈ q /\ exists e, zlookup (coremap (s_cm s)) y = Some e /\ address_space e = Some a /\
    page_of (virtual_address e) = page_of va.
Proof.
  intros Hat. destruct (vi_resident _ _ _ _ _ Hinv _ _ _ Hat) as (i & e & Hpa & Hq & _ & He & Ha & Hpg).
  assert (y = i) as <- by (unfold PAGE_SIZE in Hpa; lia). split; [done|]. by exists e.
Qed.

Lemma frames_distinct r r' i i' e e' y :
  zlookup (tab_buf G r) i = Some e -> zlookup (tab_buf G r') i' = Some e' ->
  entry_frame e = Some y -> entry_frame e' = Some y -> r = r' /\ i = i'.
Proof.
  intros He He' Hf Hf'. eapply (entries_distinct s a G); try done.
  intros va va' e1 e2 H1 H2 K1 K2 F1 F2. rewrite (entry_frame_resident e1 y K1 F1) in H1.
  rewrite (entry_frame_resident e2 y K2 F2) in H2.
  destruct (resident_owner va y H1) as (_ & x1 & X1 & _ & P1). destruct (resident_owner va' y H2) as (_ & x2 & X2 & _ & P2).
  congruence.
Qed.

Lemma slots_distinct r r' i i' e e' y :
  zlookup (tab_buf G r) i = Some e -> zlookup (tab_buf G r') i' = Some e' ->
  entry_slot e = Some y -> entry_slot e' = Some y -> r = r' /\ i = i'.
Proof.
  intros He He' Hf Hf'. eapply (entries_distinct s a G); try done.
  intros va va' e1 e2 H1 H2 K1 K2 F1 F2. rewrite (entry_slot_swapped e1 y K1 F1) in H1.
  rewrite (entry_slot_swapped e2 y K2 F2) in H2. by apply (vi_slots _ _ _ _ _ Hinv a va a va' _ H1 H2).
Qed.

(** The frames and slots of an address space, by its pages. *)
Lemma tab_frames r y :
  y ∈ buf_frames (tab_buf G r) -> exists va, page_at s a va (pte_resident (y * PAGE_SIZE)).
Proof.
  intros (i & e & He & Hf)%elem_of_omap_zlookup. destruct (tab_entry_page s a G r i e Hok He) as (va & _ & _ & Hat & Hp).
  exists va. by rewrite (entry_frame_resident e y Hp Hf) in Hat.
Qed.

Lemma tab_slots r y :
  y ∈ buf_slots (tab_buf G r) -> exists va, page_at s a va (pte_swapped (y * PAGE_SIZE)).
Proof.
  intros (i & e & He & Hf)%elem_of_omap_zlookup. destruct (tab_entry_page s a G r i e Hok He) as (va & _ & _ & Hat & Hp).
  exists va. by rewrite (entry_slot_swapped e y Hp Hf) in Hat.
Qed.

Lemma as_frames_spec y : y ∈ as_frames G <-> exists va, page_at s a va (pte_resident (y * PAGE_SIZE)).
Proof.
  unfold as_frames. rewrite !elem_of_app. split; [intros [[H|H]|H]; by eapply tab_frames|].
  intros (va & Hat). destruct (page_tab_entry s a G va _ Hok Hat) as (r & i & e & He & Hp).
  assert (y ∈ buf_frames (tab_buf G r)) as Hy.
  { apply elem_of_omap_zlookup. exists i, e. split; [done|]. unfold entry_frame. rewrite Hp. f_equal. unfold PAGE_SIZE. lia. }
  destruct r; tauto.
Qed.

Lemma as_slots_spec y : y ∈ as_slots G <-> exists va, page_at s a va (pte_swapped (y * PAGE_SIZE)).
Proof.
  unfold as_slots. rewrite !elem_of_app. split; [intros [[H|H]|H]; by eapply tab_slots|].
  intros (va & Hat). destruct (page_tab_entry s a G va _ Hok Hat) as (r & i & e & He & Hp).
  assert (y ∈ buf_slots (tab_buf G r)) as Hy.
  { apply elem_of_omap_zlookup. exists i, e. split; [done|]. unfold entry_slot. rewrite Hp. f_equal. unfold PAGE_SIZE. lia. }
  destruct r; tauto.
Qed.

Lemma zlookup_of_nat {A} (l : list A) i : zlookup l (Z.of_nat i) = l !! i.
Proof. unfold zlookup. destruct (Z.ltb_spec (Z.of_nat i) 0); [lia|]. by rewrite Nat2Z.id. Qed.

Lemma as_releasable r : releasable (tab_buf G r) q b.
Proof.
  constructor.
  - apply NoDup_omap. intros i j x y z Hi Hj Hx Hy. rewrite <- zlookup_of_nat in Hi, Hj.
    destruct (frames_distinct r r _ _ x y z Hi Hj Hx Hy). lia.
  - intros p (va & Hat)%tab_frames. by apply (resident_owner va p).
  - apply NoDup_omap. intros i j x y z Hi Hj Hx Hy. rewrite <- zlookup_of_nat in Hi, Hj.
    destruct (slots_distinct r r _ _ x y z Hi Hj Hx Hy). lia.
  - intros k (va & Hat)%tab_slots. destruct (vi_swapped _ _ _ _ _ Hinv _ _ _ Hat) as (k' & E & Hk & Hb).
    assert (k = k') as -> by (unfold PAGE_SIZE in E; lia). done.
Qed.

Lemma tabs_disjoint r r' :
  r <> r' ->
  (forall p, p ∈ buf_frames (tab_buf G r) -> p ∉ buf_frames (tab_buf G r')) /\
  (forall k, k ∈ buf_slots (tab_buf G r) -> k ∉ buf_slots (tab_buf G r')).
Proof.
  intros Hne. split; intros p (i & e & He & Hf)%elem_of_omap_zlookup (i' & e' & He' & Hf')%elem_of_omap_zlookup; apply Hne.
  - by eapply frames_distinct.
  - by eapply slots_distinct.
Qed.

(** The three segments have structures of their own. *)
Lemma seg_ptrs_distinct r r' : r <> r' -> sg_ptr G r <> sg_ptr G r' /\ sg_ptp G r <> sg_ptp G r'.
Proof.
  intros Hne. assert (sg_ptp G r <> sg_ptp G r') as Hp.
  { intros E. by destruct (vi_sep _ _ _ _ _ Hinv a G r a G r' Hok Hok E). }
  split; [|done]. intros E. apply Hp.
  destruct (ao_live _ _ _ Hok r) as [L1 L2 _ _ _ _ _]. destruct (ao_live _ _ _ Hok r') as [M1 M2 _ _ _ _ _].
  rewrite E in L1. rewrite L1 in M1. injection M1 as M1. rewrite <- M1, L2 in M2. by injection M2.
Qed.
End owned.

Section destroy.
Context {FS : Type} {VO : VnodeOps FS} {VL : VnodeLaws FS}.
Implicit Types s : kstate FS.

Lemma seg_live_drop s x g y t x' y' v c b :
  seg_live s x g y t -> x <> x' -> y <> y' -> seg_live (drop_seg x' y' (with_resources v c b s)) x g y t.
Proof.
  intros [L1 L2 L3 L4 L5 L6 L7] Hx Hy. split; try done; unfold cell_at in *; cbn; by rewrite lookup_delete_ne.
Qed.

(** The heap without the structures of an address space. *)
Definition drop_segs (G : segs) s : kstate FS :=
  drop_seg (sg_ptr G Stack) (sg_ptp G Stack)
    (drop_seg (sg_ptr G Data) (sg_ptp G Data) (drop_seg (sg_ptr G Code) (sg_ptp G Code) s)).

Definition as_gone (a : positive) (G : segs) (w v : vnode) (c : coremap_st) (b : bitmap) s : kstate FS :=
  let s1 := drop_segs G (with_resources v c b s) in
  let s2 := set_fs (vfs_close w (s_fs s1)) s1 in
  upd_cells (T := addrspace_t) (delete a (cells (s_heap s2))) s2.

Lemma as_destroy_run clean s q v b a G w :
  vm_inv None s q v b -> linked clean (s_cm s) q -> as_ok s a G ->
  elf_vnode (sg_seg G Code) = Some w ->
  exists c' b', as_destroy (Some a) s = Ok tt (as_gone a G w v c' b' s) /\
    frames_released clean (s_ram s) (as_frames G) q (s_cm s) c' /\ slots_released (as_slots G) b b'.
Proof.
  intros Hinv Hf Hok Hw. pose proof Hinv as [I1 I2 _ _ (Hsw & Hbw & Hn) _ _ _ _ _].
  pose proof (ao_live _ _ _ Hok) as HL. destruct (ao_as _ _ _ Hok) as (A & HA & Hp).
  pose proof (as_releasable s q v b a G Hinv Hok) as Hrel. pose proof (tabs_disjoint s q v b a G Hinv Hok) as Hdis.
  pose proof (seg_ptrs_distinct s q v b a G Hinv Hok) as Hptr. pose proof (fun r => tab_buf_wf s a G r Hok) as Hwf.
  destruct (seg_destroy_run clean _ _ _ _ _ q v b s I1 (HL Code) (Hwf Code)) as (c1 & b1 & R1 & F1 & S1); [done..|].
  set (s1 := drop_seg _ _ _) in R1.
  assert (seg_live s1 (sg_ptr G Data) (sg_seg G Data) (sg_ptp G Data) (sg_tab G Data)) as HD
    by (apply seg_live_drop; [apply HL|by apply Hptr|by apply Hptr]).
  destruct (seg_destroy_run clean _ _ _ _ _ (filter (fun i => i ∉ buf_frames (tab_buf G Code)) q) v b1 s1 I1 HD (Hwf Data))
    as (c2 & b2 & R2 & F2 & S2);
    [apply (fr_wf _ _ _ _ _ _ F1)|apply (fr_queue _ _ _ _ _ _ F1)|split_and!; [done|apply (sr_wf _ _ _ S1)|rewrite (sr_len _ _ _ S1); done]| |].
  { eapply releasable_after; [done|done|by apply Hdis|by apply Hdis]. }
  pose proof (frames_released_app _ _ _ _ _ _ _ _ F1 F2) as F12. pose proof (slots_released_app _ _ _ _ _ S1 S2) as S12.
  set (s2 := drop_seg _ _ _) in R2.
  assert (seg_live s2 (sg_ptr G Stack) (sg_seg G Stack) (sg_ptp G Stack) (sg_tab G Stack)) as HK.
  { apply seg_live_drop; [apply seg_live_drop; [apply HL|by apply Hptr|by apply Hptr]|by apply Hptr|by apply Hptr]. }
  destruct (seg_destroy_run clean _ _ _ _ _ _ v b2 s2 I1 HK (Hwf Stack) (fr_wf _ _ _ _ _ _ F12) (fr_queue _ _ _ _ _ _ F12))
    as (c3 & b3 & R3 & F3 & S3); [split_and!; [done|apply (sr_wf _ _ _ S12)|rewrite (sr_len _ _ _ S12); done]| |].
  { eapply releasable_after; [done|done| |].
    - intros p Hk Hin. apply elem_of_app in Hin as [Hin|Hin]; revert Hin; by apply (Hdis Stack).
    - intros p Hk Hin. apply elem_of_app in Hin as [Hin|Hin]; revert Hin; by apply (Hdis Stack). }
  exists c3, b3. split; [|split; [by eapply frames_released_app|by eapply slots_released_app]].
  unfold as_destroy. run. rewrite (run_load a A) by done.
  pose proof (Hp Code) as Pc. pose proof (Hp Data) as Pd. pose proof (Hp Stack) as Pk. cbn in Pc, Pd, Pk.
  rewrite Pc, Pd, Pk, (run_load _ _ _ _ (sl_seg _ _ _ _ _ (HL Code))), Hw. cbn [seg_destroy_if].
  rewrite (bind_Ok _ _ _ _ _ R1), (bind_Ok _ _ _ _ _ R2), (bind_Ok _ _ _ _ _ R3). run. unfold kfree. run.
  rewrite (run_deref _ _ A) by done. by destruct s.
Qed.

(** ** The other address spaces *)

(** What is still there after the destruction was there before. *)
Lemma gone_cells a G w v c b s :
  (forall x A, cell_at (T := addrspace_t) (as_gone a G w v c b s) x = Some A -> x <> a /\ cell_at s x = Some A) /\
  (forall x g, cell_at (T := ps_t) (as_gone a G w v c b s) x = Some g ->
     (forall r, x <> sg_ptr G r) /\ cell_at s x = Some g) /\
  (forall x t, cell_at (T := pt_t) (as_gone a G w v c b s) x = Some t ->
     (forall r, x <> sg_ptp G r) /\ cell_at s x = Some t).
Proof.
  unfold cell_at. cbn. split_and!.
  - intros x A [Hne HA]%lookup_delete_Some. done.
  - intros x g (N1 & (N2 & (N3 & Hg)%lookup_delete_Some)%lookup_delete_Some)%lookup_delete_Some.
    split; [intros []; congruence|done].
  - intros x g (N1 & (N2 & (N3 & Hg)%lookup_delete_Some)%lookup_delete_Some)%lookup_delete_Some.
    split; [intros []; congruence|done].
Qed.

Lemma gone_cells_keep a G w v c b s :
  (forall x, x <> a -> cell_at (T := addrspace_t) (as_gone a G w v c b s) x = cell_at s x) /\
  (forall x, (forall r, x <> sg_ptr G r) -> cell_at (T := ps_t) (as_gone a G w v c b s) x = cell_at s x) /\
  (forall x, (forall r, x <> sg_ptp G r) -> cell_at (T := pt_t) (as_gone a G w v c b s) x = cell_at s x).
Proof.
  unfold cell_at. cbn. split_and!.
  - intros x Hx. by rewrite lookup_delete_ne.
  - intros x Hx. by rewrite !lookup_delete_ne by (intros E; by eapply Hx).
  - intros x Hx. by rewrite !lookup_delete_ne by (intros E; by eapply Hx).
Qed.

Context (s : kstate FS) (q : list Z) (v : vnode) (b : bitmap) (a : positive) (G : segs) (w : vnode).
Hypotheses (Hinv : vm_inv None s q v b) (Hok : as_ok s a G).

Lemma as_ok_gone c b' a' G' : as_ok (as_gone a G w v c b' s) a' G' <-> a' <> a /\ as_ok s a' G'.
Proof.
  destruct (gone_cells a G w v c b' s) as (Ca & Cs & Ct). destruct (gone_cells_keep a G w v c b' s) as (Ka & Ks & Kt). split.
  - intros H. destruct (ao_as _ _ _ H) as (A & HA & Hp). destruct (Ca _ _ HA) as [Hne HA']. split; [done|].
    apply (as_ok_lookups _ _ _ _ H); [congruence| |]; intros r; destruct (ao_live _ _ _ H r) as [L1 L2 L3 _ _ _ _].
    + destruct (Cs _ _ L1). congruence.
    + destruct (Ct _ _ L3). congruence.
  - intros [Hne H].
    assert (forall r r', sg_ptp G' r <> sg_ptp G r') as Hp.
    { intros r r' E. by destruct (vi_sep _ _ _ _ _ Hinv a' G' r a G r' H Hok E). }
    assert (forall r r', sg_ptr G' r <> sg_ptr G r') as Hx.
    { intros r r' E. apply (Hp r r'). destruct (ao_live _ _ _ H r) as [L1 L2 _ _ _ _ _].
      destruct (ao_live _ _ _ Hok r') as [M1 M2 _ _ _ _ _]. rewrite E in L1. congruence. }
    apply (as_ok_lookups _ _ _ _ H); [by apply Ka|intros r; apply Ks, Hx|intros r; apply Kt, Hp].
Qed.

Lemma page_at_gone c b' a' va p : page_at (as_gone a G w v c b' s) a' va p <-> a' <> a /\ page_at s a' va p.
Proof.
  unfold page_at. setoid_rewrite as_ok_gone. naive_solver.
Qed.

Lemma gone_inv c' b' :
  frames_released true (s_ram s) (as_frames G) q (s_cm s) c' -> slots_released (as_slots G) b b' ->
  vm_inv None (as_gone a G w v c' b' s) (filter (fun i => i ∉ as_frames G) q) v b'.
Proof.
  intros Hfr Hsl. pose proof (page_at_gone c' b') as Hat. pose proof (as_ok_gone c' b') as Hao.
  pose proof (as_frames_spec s a G Hok) as Hframes. pose proof (as_slots_spec s a G Hok) as Hslots.
  pose proof Hinv as [I1 I2 I3 I4 (Hsw & Hbw & Hn) I6 I7 I8 I9 I10]. constructor.
  - done.
  - apply (fr_wf _ _ _ _ _ _ Hfr).
  - eapply fifo_weaken, (fr_queue _ _ _ _ _ _ Hfr).
  - done.
  - split_and!; [done|apply (sr_wf _ _ _ Hsl)|rewrite (sr_len _ _ _ Hsl); done].
  - intros a1 G1 r1 a2 G2 r2 [_ H1]%Hao [_ H2]%Hao. by apply I6.
  - intros i e [Hni Hi]%list_elem_of_filter _ He.
    destruct (same_owners_lookup _ _ _ _ _ (fr_owners _ _ _ _ _ _ Hfr) Hni He) as (e0 & He0 & Hv).
    destruct (I7 i e0 Hi ltac:(done) He0) as (a0 & A1 & A2 & A3). unfold owner_view in Hv. injection Hv as _ _ Hva Has.
    exists a0. rewrite Hva, Has. split_and!; [done|done|]. apply Hat. split; [|done]. intros ->. apply Hni, Hframes. eauto.
  - intros a0 va0 pa [Hne H0]%Hat. destruct (I8 a0 va0 pa H0) as (i & e & -> & Hi & _ & He & Ha & Hpg).
    assert (i ∉ as_frames G) as Hni.
    { intros (va' & H')%Hframes. destruct (resident_owner s q v b a Hinv va' i H') as (_ & e' & He' & Ha' & _). congruence. }
    destruct (same_owners_lookup' _ _ _ _ _ (fr_owners _ _ _ _ _ _ Hfr) Hni He) as (e1 & He1 & Hv).
    unfold owner_view in Hv. injection Hv as _ _ Hva Has. exists i, e1.
    split_and!; [done|by apply list_elem_of_filter|done|done|congruence|congruence].
  - intros a0 va0 off [Hne H0]%Hat. destruct (I9 a0 va0 off H0) as (k & -> & Hk & Hb). exists k. split_and!; [done|lia|lia|].
    rewrite (sr_bits _ _ _ Hsl), Hb by lia. apply bool_decide_eq_true_2. intros (va' & H')%Hslots.
    by destruct (I10 _ _ _ _ _ H0 H').
  - intros a0 va0 a1 va1 off [_ H0]%Hat [_ H1]%Hat. by eapply I10.
Qed.
End destroy.

(** ** Property *)

Section release_property.
Context {FS : Type} {VO : VnodeOps FS} {VL : VnodeLaws FS}.
Implicit Types s : kstate FS.

(** The contents of a page are the same in both states. *)
Definition same_page (v : vnode) s s' (a : positive) (va : Z) : Prop :=
  (forall p, page_at s a va p <-> page_at s' a va p) /\
  forall j x, 0 <= j < PAGE_SIZE -> page_byte s v a va j x <-> page_byte s' v a va j x.

(** What the destruction of the address space [a] leaves, whatever its frames
    and slots. *)
Record as_released s s' (v : vnode) (b b' : bitmap) (a : positive) (G : segs) : Prop := mk_as_released {
  ar_frames : forall i, (exists va, page_at s a va (pte_resident (i * PAGE_SIZE))) -> freed (coremap (s_cm s')) i;
  ar_owners : same_owners (as_frames G) (coremap (s_cm s)) (coremap (s_cm s'));
  ar_frames_wf : frames_wf (s_ram s') (s_cm s');
  ar_swap : swap_ready (s_swap s') v b';
  ar_bits : forall k, 0 <= k < SWAP_SLOTS -> bit b' k = bit b k && bool_decide (k ∉ as_slots G);
  ar_slots : forall k, k ∈ as_slots G <-> exists va, page_at s a va (pte_swapped (k * PAGE_SIZE));
  ar_gone : cell_at (T := addrspace_t) s' a = None;
  ar_others : forall a' va, a' <> a -> same_page v s s' a' va
}.

(** (C3) The end of a process gives back everything and takes nothing else:
    on a well-formed machine, [as_destroy] returns; every frame of the
    address space is freed and the owner of every other frame is what it was;
    exactly its swap slots become free; its structures are gone; and every
    page of every other address space keeps its state and its bytes.  This
    holds also after evictions: of the back link of the oldest frame it is
    only needed that it is no link, as at first, or names a frame, as after an
    eviction.  If it is no link, then the frames that remain stay the queue,
    in order, and the invariant of virtual memory holds again.  (Otherwise
    the queue can be left wrong: [eviction_then_free_keeps_freed_victim].) *)
Theorem as_destroy_releases s q v b a G w :
  vm_inv None s q v b -> link_ok (s_cm s) q -> as_ok s a G -> elf_vnode (sg_seg G Code) = Some w -> w <> v ->
  exists s' b', as_destroy (Some a) s = Ok tt s' /\ as_released s s' v b b' a G /\
    (back_link (s_cm s) q = invalid_reference (s_cm s) -> vm_inv None s' (filter (fun i => i ∉ as_frames G) q) v b' /\
       fifo (Some (invalid_reference (s_cm s'))) (s_cm s') (filter (fun i => i ∉ as_frames G) q)).
Proof.
  intros Hinv Hx Hok Hw Hwv. pose proof (vi_frames _ _ _ _ _ Hinv) as Hfw. pose proof (vi_swap _ _ _ _ _ Hinv) as (Hsw & Hbw & Hn).
  pose proof (fifo_linked _ _ (vi_fifo _ _ _ _ _ Hinv) Hx ltac:(rewrite (fw_len _ _ Hfw), (fw_inv _ _ Hfw); done)) as Hlk.
  destruct (as_destroy_run _ s q v b a G w Hinv Hlk Hok Hw) as (c' & b' & Hrun & Hfr & Hsl).
  pose proof (page_at_gone s q v b a G w Hinv Hok c' b') as Hat.
  exists (as_gone a G w v c' b' s), b'. split; [done|]. split.
  - constructor.
    + intros i Hi. apply (fr_freed _ _ _ _ _ _ Hfr). by apply (as_frames_spec s a G Hok).
    + apply (fr_owners _ _ _ _ _ _ Hfr).
    + apply (fr_wf _ _ _ _ _ _ Hfr).
    + split_and!; [done|apply (sr_wf _ _ _ Hsl)|rewrite (sr_len _ _ _ Hsl); done].
    + intros k Hk. apply (sr_bits _ _ _ Hsl). lia.
    + intros k. by apply (as_slots_spec s a G Hok).
    + unfold cell_at. cbn. apply lookup_delete_eq.
    + intros a' va Hne.
      assert (forall p, page_at s a' va p <-> page_at (as_gone a G w v c' b' s) a' va p) as Hp.
      { intros p. rewrite Hat. tauto. }
      split; [done|]. intros j x' Hj. unfold page_byte. setoid_rewrite <- Hp. cbn. setoid_rewrite vfs_close_frame; done.
  - intros E. rewrite bool_decide_eq_true_2 in Hfr by done. split; [by eapply gone_inv|]. apply (fr_queue _ _ _ _ _ _ Hfr).
Qed.
End release_property.
