(* ===== verification/Semaphore.v ===== *)
(** * Semaphores as the process code uses them ([kern/thread/synch.c])

    Creation, destruction, [P] and [V] of one semaphore as the current thread
    runs them; a [P] that finds the count at 0 puts the thread to sleep, which
    is where its run ends in this model. *)

From S2P Require Import Prelude State Monad Machine Heap.

Definition set_sem_count (n : Z) (m : semaphore) : semaphore := mk_sem (sem_name m) (sem_wchan m) n.
Definition set_sem_wchan (w : list positive) (m : semaphore) : semaphore := mk_sem (sem_name m) w (sem_count m).

Section semaphore.
Context {FS : Type}.
Implicit Types s : kstate FS.

(** [kstrdup(name)]: whether there was memory for the copy. *)
Definition kstrdup (name : string) : M FS bool := kmalloc (Z.of_nat (String.length name) + 1).

Definition spinlock_cleanup (l : lockid) : M FS unit :=
  h <- get (fun s => held (s_cpu s)) ;;
  kassert (bool_decide (l ∉ h)) "splk->splk_holder == NULL".

Definition sem_create (name : string) (initial_count : Z) : M FS ptr :=
  ok <- kmalloc 20 ;;
  if negb ok then ret None else
  x <- new (mk_sem name [] 0) ;;
  ok <- kstrdup name ;;
  if negb ok then kfree (T := semaphore) (Some x) ;; ret None else
  ok <- kmalloc 12 ;;
  if negb ok then kfree (T := semaphore) (Some x) ;; ret None else
  m <- load (Some x) ;;
  store (Some x) (set_sem_count initial_count m) ;;
  ret (Some x).

Definition sem_destroy (sem : ptr) : M FS unit :=
  kassert_ptr sem "sem != NULL" ;;
  x <- deref sem "sem" ;;
  spinlock_cleanup (sem_lock x) ;;
  m <- load sem ;;
  kassert (bool_decide (sem_wchan m = [])) "threadlist_isempty(tl)" ;;
  kfree (T := semaphore) sem.

(** The loop of [P] and what follows it, with the spinlock held.  The run of a
    thread that finds the count 0 stops: [wchan_sleep] gives up the lock and the
    processor. *)
Definition P_loop (sem : ptr) (x : positive) : M FS unit :=
  m <- load sem ;;
  if sem_count m =? 0 then stop (would_sleep "wchan_sleep(sem->sem_wchan, &sem->sem_lock)") else
  kassert (0 <? sem_count m) "sem->sem_count > 0" ;;
  store sem (set_sem_count (u32 (sem_count m - 1)) m) ;;
  spinlock_release (sem_lock x).

Definition P (sem : ptr) : M FS unit :=
  kassert_ptr sem "sem != NULL" ;;
  c <- get s_cpu ;;
  kassert (negb (t_in_interrupt c)) "curthread->t_in_interrupt == false" ;;
  x <- deref sem "sem" ;;
  spinlock_acquire (sem_lock x) ;;
  P_loop sem x.

(** A thread asleep in [P], when it has the processor again: [wchan_sleep] ends
    by taking the spinlock, and the loop goes on. *)
Definition P_resumed (sem : ptr) : M FS unit :=
  x <- deref sem "sem" ;;
  spinlock_acquire (sem_lock x) ;;
  P_loop sem x.

(** [wchan_wakeone] takes the first sleeper off the channel. *)
Definition V (sem : ptr) : M FS unit :=
  kassert_ptr sem "sem != NULL" ;;
  x <- deref sem "sem" ;;
  spinlock_acquire (sem_lock x) ;;
  m <- load sem ;;
  store sem (set_sem_count (u32 (sem_count m + 1)) m) ;;
  m <- load sem ;;
  kassert (0 <? sem_count m) "sem->sem_count > 0" ;;
  store sem (set_sem_wchan (tail (sem_wchan m)) m) ;;
  spinlock_release (sem_lock x).

(** ** Runs *)

Lemma with_held_put {T} `{!Cell T} l x (c : T) s : idle s -> with_held [] (put_cell x c (with_held l s)) = put_cell x c s.
Proof. intros Hs. destruct s as [[]]. unfold idle in Hs. cbn in Hs. by subst. Qed.

Lemma run_V {B} x m (k : unit -> M FS B) s :
  idle s -> cell_at s x = Some m -> 0 <= sem_count m < 2^32 - 1 ->
  bind (V (Some x)) k s = k tt (put_cell x (mk_sem (sem_name m) (tail (sem_wchan m)) (sem_count m + 1)) s).
Proof.
  intros Hs Hx Hc. unfold V. run. rewrite (run_deref _ _ x) by done. run.
  rewrite (run_load x m) by done. run. rewrite (run_store x m) by done. run.
  rewrite (run_load x _ _ _ (cell_at_put_eq _ _ _)).
  rewrite u32_small by (unfold is_u32; lia). run. rewrite run_kassert by (apply Z.ltb_lt; cbn; lia). run.
  erewrite run_store by apply cell_at_put_eq. run. rewrite put_put, with_held_put by done. done.
Qed.

Lemma run_P {B} x m (k : unit -> M FS B) s :
  idle s -> t_in_interrupt (s_cpu s) = false -> cell_at s x = Some m -> 0 < sem_count m < 2^32 ->
  bind (P (Some x)) k s = k tt (put_cell x (set_sem_count (sem_count m - 1) m) s).
Proof.
  intros Hs Hi Hx Hc. unfold P, P_loop. run. rewrite Hi, run_kassert by done. run. rewrite (run_deref _ _ x) by done. run.
  rewrite (run_load x m) by done. destruct (Z.eqb_spec (sem_count m) 0); [lia|]. run.
  rewrite run_kassert by (apply Z.ltb_lt; lia). run. rewrite (run_store x m) by done. run.
  rewrite with_held_put by done. by rewrite u32_small by (unfold is_u32; lia).
Qed.

(** A [P] on a count of 0 does not return. *)
Lemma P_sleeps x m s :
  idle s -> t_in_interrupt (s_cpu s) = false -> cell_at s x = Some m -> sem_count m = 0 ->
  P (Some x) s = Stop (would_sleep "wchan_sleep(sem->sem_wchan, &sem->sem_lock)").
Proof.
  intros Hs Hi Hx Hc. unfold P, P_loop. run. rewrite Hi, run_kassert by done. rewrite (run_deref _ _ x) by done. run.
  rewrite (run_load x m) by done. by rewrite Hc.
Qed.

(** A thread that slept goes on as one that starts. *)
Lemma P_resumed_run {B} x (k : unit -> M FS B) s :
  t_in_interrupt (s_cpu s) = false -> bind (P_resumed (Some x)) k s = bind (P (Some x)) k s.
Proof. intros Hi. unfold P_resumed, P. run. rewrite Hi, run_kassert by done. by run. Qed.

Lemma run_spinlock_cleanup {B} l (k : unit -> M FS B) s : idle s -> bind (spinlock_cleanup l) k s = k tt s.
Proof.
  intros Hs. unfold spinlock_cleanup. run. unfold idle in Hs. rewrite Hs, run_kassert; [done|].
  apply bool_decide_eq_true_2. set_solver.
Qed.

Lemma run_sem_destroy {B} x m (k : unit -> M FS B) s :
  idle s -> cell_at s x = Some m -> sem_wchan m = [] ->
  bind (sem_destroy (Some x)) k s = k tt (upd_cells (T := semaphore) (delete x (cells (s_heap s))) s).
Proof.
  intros Hs Hx Hw. unfold sem_destroy. run. rewrite (run_deref _ _ x) by done. run.
  rewrite run_spinlock_cleanup by done. run. rewrite (run_load x m), Hw by done. run. rewrite run_kassert by done.
  by rewrite (run_kfree x m).
Qed.

(** The states in which [sem_create] asks for the name and the channel. *)
Definition sem_struct_allocated (name : string) s : kstate FS :=
  put_cell (h_next (s_heap s)) (mk_sem name [] 0) (next_ptr (kmalloc_after s)).

Lemma run_sem_create {B} name n (k : ptr -> M FS B) s :
  let s1 := sem_struct_allocated name s in
  let x := h_next (s_heap s) in
  bind (sem_create name n) k s =
    (if kmalloc_answer s then
       if kmalloc_answer s1 then
         if kmalloc_answer (kmalloc_after s1)
         then k (Some x) (put_cell x (mk_sem name [] n) (kmalloc_after (kmalloc_after s1)))
         else k None (upd_cells (T := semaphore) (delete x (cells (s_heap s1))) (kmalloc_after (kmalloc_after s1)))
       else k None (upd_cells (T := semaphore) (delete x (cells (s_heap s1))) (kmalloc_after s1))
     else k None (kmalloc_after s)).
Proof.
  intros s1 x. unfold sem_create. run. destruct (kmalloc_answer s); [|done]. cbn [negb]. rewrite run_bind, run_new.
  change (h_next (s_heap (kmalloc_after s))) with x.
  change (put_cell x (mk_sem name [] 0) (next_ptr (kmalloc_after s))) with s1. unfold kstrdup. run.
  assert (cell_at (kmalloc_after s1) x = Some (mk_sem name [] 0)) as H1
    by (change (cell_at s1 x = Some (mk_sem name [] 0)); apply cell_at_put_eq).
  destruct (kmalloc_answer s1); cbn [negb]; [|by rewrite run_bind, (run_kfree x (mk_sem name [] 0))].
  run. destruct (kmalloc_answer (kmalloc_after s1)); cbn [negb]; [|by rewrite run_bind, (run_kfree x (mk_sem name [] 0))].
  rewrite run_bind, (run_load x (mk_sem name [] 0)) by done. rewrite run_bind, (run_store x (mk_sem name [] 0)) by done. done.
Qed.

(** With memory available. *)
Lemma kmalloc_plenty s : kmalloc_script (s_heap s) = [] -> kmalloc_answer s = true /\ kmalloc_after s = s.
Proof.
  intros H. unfold kmalloc_answer, kmalloc_after. rewrite H. split; [done|].
  destruct s as [? ? ? ? ? ? []]. cbn in *. by subst.
Qed.

Lemma run_sem_create_plenty {B} name n (k : ptr -> M FS B) s :
  kmalloc_script (s_heap s) = [] ->
  bind (sem_create name n) k s =
    k (Some (h_next (s_heap s))) (put_cell (h_next (s_heap s)) (mk_sem name [] n) (next_ptr s)).
Proof.
  intros Hk. rewrite run_sem_create. unfold sem_struct_allocated. destruct (kmalloc_plenty s Hk) as [-> ->].
  set (s1 := put_cell _ _ _). destruct (kmalloc_plenty s1 Hk) as [E1 E2]. rewrite E2, E1, E2.
  subst s1. by rewrite put_put.
Qed.
End semaphore.
