(* ===== verification/Proc.v ===== *)
(** * Processes ([kern/proc/proc.c], [kern/syscall/proc_syscalls.c])

    The process table with its circular choice of pids, creation and
    destruction of processes, the exit status and the semaphore on which
    [waitpid] waits.  [sys__exit] is modelled up to the point where
    [thread_exit] gives the processor away. *)

From S2P Require Import Prelude State Monad Machine Testbed Bitmap VmStats Ram VmTlb Swapfile Heap Coremap CoremapSpec.
From S2P Require Import LooseQueue Pt Segment AddrSpace PageMap Release Semaphore.

Definition MAX_PROC : Z := 100.

Definition set_p_numthreads (n : Z) (p : proc) : proc :=
  mk_proc (p_name p) n (p_addrspace p) (p_cwd p) (p_status p) (p_pid p) (p_sem p).
Definition set_p_cwd (v : option vnode) (p : proc) : proc :=
  mk_proc (p_name p) (p_numthreads p) (p_addrspace p) v (p_status p) (p_pid p) (p_sem p).
Definition set_p_status (st : Z) (p : proc) : proc :=
  mk_proc (p_name p) (p_numthreads p) (p_addrspace p) (p_cwd p) st (p_pid p) (p_sem p).
Definition set_p_pid (pid : Z) (p : proc) : proc :=
  mk_proc (p_name p) (p_numthreads p) (p_addrspace p) (p_cwd p) (p_status p) pid (p_sem p).
Definition set_p_sem (x : ptr) (p : proc) : proc :=
  mk_proc (p_name p) (p_numthreads p) (p_addrspace p) (p_cwd p) (p_status p) (p_pid p) x.

(** [if (i > MAX_PROC) i = 1] *)
Definition wrap_pid (i : Z) : Z := if MAX_PROC <? i then 1 else i.

(** The search loop of [proc_init_waitpid] from index [i]: the free index, or
    [None] when it comes back to [last_i].  A run of more than [MAX_PROC]
    rounds has seen every index and never ends. *)
Fixpoint find_pid (fuel : nat) (tab : list ptr) (last_i i : Z) : stop_reason + option Z :=
  match fuel with
  | O => inl (loops_forever "proc_init_waitpid")
  | S fuel' =>
      if i =? last_i then inr None else
      match zlookup tab i with
      | None => inl (bad_access "processTable.proc[i]")
      | Some None => inr (Some i)
      | Some (Some _) => find_pid fuel' tab last_i (wrap_pid (i + 1))
      end
  end.

(** A thread argument: the current one or another one. *)
Inductive thread_ref := Curthread | Thread (t : positive).

Section proc.
Context {FS : Type}.
Implicit Types s : kstate FS.

Definition set_table (tab : list ptr) (last : Z) s : kstate FS :=
  set_ptab (mk_ptab (pt_active (s_ptab s)) tab last (kproc (s_ptab s))) s.

Definition proc_search_pid (pid : Z) : M FS ptr :=
  kassert ((0 <=? pid) && (pid <? MAX_PROC)) "pid>=0&&pid<MAX_PROC" ;;
  tab <- get (fun s => pt_proc (s_ptab s)) ;;
  p <- deref (zlookup tab pid) "processTable.proc[pid]" ;;
  pr <- load (T := proc) p ;;
  kassert (p_pid pr =? pid) "p->p_pid==pid" ;;
  ret p.

Definition proc_init_waitpid (p : ptr) (name : string) : M FS unit :=
  spinlock_acquire processTable_lk ;;
  t <- get s_ptab ;;
  pr <- load (T := proc) p ;;
  store p (set_p_pid 0 pr) ;;
  found <- lift (find_pid 101 (pt_proc t) (pt_last_i t) (wrap_pid (pt_last_i t + 1))) ;;
  (match found with
   | None => ret tt
   | Some i =>
       modify (set_table (zinsert i p (pt_proc t)) i) ;;
       pr <- load (T := proc) p ;;
       store p (set_p_pid i pr)
   end) ;;
  spinlock_release processTable_lk ;;
  pr <- load (T := proc) p ;;
  if p_pid pr =? 0 then panic "too many processes. proc table is full" else
  store p (set_p_status 0 pr) ;;
  x <- sem_create name 0 ;;
  pr <- load (T := proc) p ;;
  store p (set_p_sem x pr).

Definition proc_end_waitpid (p : ptr) : M FS unit :=
  spinlock_acquire processTable_lk ;;
  pr <- load (T := proc) p ;;
  let i := p_pid pr in
  kassert ((0 <? i) && (i <=? MAX_PROC)) "i>0 && i<=MAX_PROC" ;;
  t <- get s_ptab ;;
  _ <- deref (zlookup (pt_proc t) i) "processTable.proc[i]" ;;
  modify (set_table (zinsert i None (pt_proc t)) (pt_last_i t)) ;;
  spinlock_release processTable_lk ;;
  sem_destroy (p_sem pr).

(** The fields the allocator leaves undefined are set to 0 here; all are
    assigned before the process is returned. *)
Definition proc_create (name : string) : M FS ptr :=
  ok <- kmalloc 32 ;;
  if negb ok then ret None else
  x <- new (mk_proc name 0 None None 0 0 None) ;;
  ok <- kstrdup name ;;
  if negb ok then kfree (T := proc) (Some x) ;; ret None else
  proc_init_waitpid (Some x) name ;;
  ret (Some x).

Definition proc_bootstrap : M FS unit :=
  p <- proc_create "[kernel]" ;;
  modify (fun s => set_ptab (mk_ptab (pt_active (s_ptab s)) (pt_proc (s_ptab s)) (pt_last_i (s_ptab s)) p) s) ;;
  match p with
  | None => panic "proc_create for kproc failed"
  | Some _ =>
      modify (fun s => set_ptab (mk_ptab 1 (pt_proc (s_ptab s)) (pt_last_i (s_ptab s)) (kproc (s_ptab s))) s)
  end.

(** [t->t_proc] and its assignment; [curproc] is [curthread->t_proc]. *)
Definition get_t_proc (t : thread_ref) : M FS ptr :=
  match t with
  | Curthread => get (fun s => curproc (s_cpu s))
  | Thread x => th <- load (T := thread) (Some x) ;; ret (t_proc th)
  end.

Definition set_t_proc (t : thread_ref) (p : ptr) : M FS unit :=
  match t with
  | Curthread =>
      modify (fun s => set_cpu (mk_cpu (held (s_cpu s)) (t_curspl (s_cpu s)) (t_in_interrupt (s_cpu s)) p) s)
  | Thread x => store (Some x) (mk_thread p)
  end.

Definition proc_addthread (p : ptr) (t : thread_ref) : M FS Z :=
  tp <- get_t_proc t ;;
  kassert (bool_decide (tp = None)) "t->t_proc == NULL" ;;
  x <- deref p "proc" ;;
  spinlock_acquire (p_lock x) ;;
  pr <- load (T := proc) p ;;
  store p (set_p_numthreads (u32 (p_numthreads pr + 1)) pr) ;;
  spinlock_release (p_lock x) ;;
  spl <- splhigh ;;
  set_t_proc t p ;;
  _ <- splx spl ;;
  ret 0.

Definition proc_remthread (t : thread_ref) : M FS unit :=
  p <- get_t_proc t ;;
  kassert_ptr p "proc != NULL" ;;
  x <- deref p "proc" ;;
  spinlock_acquire (p_lock x) ;;
  pr <- load (T := proc) p ;;
  kassert (0 <? p_numthreads pr) "proc->p_numthreads > 0" ;;
  store p (set_p_numthreads (u32 (p_numthreads pr - 1)) pr) ;;
  spinlock_release (p_lock x) ;;
  spl <- splhigh ;;
  set_t_proc t None ;;
  _ <- splx spl ;;
  ret tt.

(** Up to the call of [thread_switch], which does not return.  The check of the
    guard words of the kernel stack ([thread_checkstack]) is left out: the
    kernel stacks are not in the state. *)
Definition thread_exit : M FS unit :=
  tp <- get_t_proc Curthread ;;
  (match tp with None => ret tt | Some _ => proc_remthread Curthread end) ;;
  tp <- get_t_proc Curthread ;;
  kassert (bool_decide (tp = None)) "cur->t_proc == NULL" ;;
  _ <- splhigh ;;
  ret tt.

Definition sys__exit (status : Z) : M FS unit :=
  p <- get (fun s => curproc (s_cpu s)) ;;
  pr <- load (T := proc) p ;;
  store p (set_p_status (Z.land status 0xff) pr) ;;
  proc_remthread Curthread ;;
  pr <- load (T := proc) p ;;
  V (p_sem pr) ;;
  thread_exit.

Definition sys_getpid : M FS Z :=
  p <- get (fun s => curproc (s_cpu s)) ;;
  kassert_ptr p "curproc != NULL" ;;
  pr <- load (T := proc) p ;;
  ret (p_pid pr).

Context {VO : VnodeOps FS}.

Definition proc_create_runprogram (name : string) : M FS ptr :=
  newproc <- proc_create name ;;
  match newproc with
  | None => ret None
  | Some _ =>
      n <- load (T := proc) newproc ;;
      store newproc (set_p_addrspace None n) ;;
      cur <- get (fun s => curproc (s_cpu s)) ;;
      c <- deref cur "curproc" ;;
      spinlock_acquire (p_lock c) ;;
      pr <- load (T := proc) cur ;;
      (match p_cwd pr with
       | None => ret tt
       | Some d =>
           modify (fun s => set_fs (vop_incref d (s_fs s)) s) ;;
           n <- load (T := proc) newproc ;;
           store newproc (set_p_cwd (Some d) n)
       end) ;;
      spinlock_release (p_lock c) ;;
      ret newproc
  end.

Definition proc_destroy (p : ptr) : M FS unit :=
  kassert_ptr p "proc != NULL" ;;
  k <- get (fun s => kproc (s_ptab s)) ;;
  kassert (bool_decide (p <> k)) "proc != kproc" ;;
  pr <- load (T := proc) p ;;
  (match p_cwd pr with
   | None => ret tt
   | Some d =>
       modify (fun s => set_fs (vop_decref d (s_fs s)) s) ;;
       store p (set_p_cwd None pr)
   end) ;;
  pr <- load (T := proc) p ;;
  (match p_addrspace pr with
   | None => ret tt
   | Some _ =>
       cur <- get (fun s => curproc (s_cpu s)) ;;
       a <- (if bool_decide (p = cur) then
               a <- proc_setas None ;; as_deactivate ;; ret a
             else
               store p (set_p_addrspace None pr) ;; ret (p_addrspace pr)) ;;
       as_destroy a
   end) ;;
  pr <- load (T := proc) p ;;
  kassert (p_numthreads pr =? 0) "proc->p_numthreads == 0" ;;
  x <- deref p "proc" ;;
  spinlock_cleanup (p_lock x) ;;
  proc_end_waitpid p ;;
  kfree (T := proc) p.

(** [proc_wait] after the [P]. *)
Definition proc_wait_end (p : ptr) : M FS Z :=
  pr <- load (T := proc) p ;;
  proc_destroy p ;;
  ret (p_status pr).

Definition proc_wait (p : ptr) : M FS Z :=
  kassert_ptr p "proc != NULL" ;;
  k <- get (fun s => kproc (s_ptab s)) ;;
  kassert (bool_decide (p <> k)) "proc != kproc" ;;
  pr <- load (T := proc) p ;;
  P (p_sem pr) ;;
  proc_wait_end p.

(** A parent asleep in [proc_wait] on the semaphore [sem], when it has the
    processor again. *)
Definition proc_wait_resumed (sem p : ptr) : M FS Z :=
  P_resumed sem ;;
  proc_wait_end p.

(** The result and what is stored through [statusp], if it is not [NULL]; the
    user pointer is written directly. *)
Definition sys_waitpid (pid statusp : Z) : M FS (Z * option Z) :=
  p <- proc_search_pid pid ;;
  match p with
  | None => ret (-1, None)
  | Some _ =>
      st <- proc_wait p ;;
      ret (pid, if statusp =? 0 then None else Some st)
  end.
End proc.

(** ** The choice of a pid *)

(** The index [j] steps after [last] on the circle 1 .. 100. *)
Definition circ (last j : Z) : Z := (last - 1 + j) mod MAX_PROC + 1.

Definition occupied (tab : list ptr) (i : Z) : Prop := exists x, zlookup tab i = Some (Some x).

(** The reference: [i] is the first free index after [last] on the circle,
    [last] itself excluded. *)
Definition next_pid (tab : list ptr) (last i : Z) : Prop :=
  exists j, 1 <= j < MAX_PROC /\ i = circ last j /\ zlookup tab i = Some None /\
    forall k, 1 <= k < j -> occupied tab (circ last k).

Definition no_pid (tab : list ptr) (last : Z) : Prop := forall k, 1 <= k < MAX_PROC -> occupied tab (circ last k).

Lemma circ_range last j : 1 <= circ last j <= MAX_PROC.
Proof. unfold circ, MAX_PROC. lia. Qed.

Lemma circ_S last j : wrap_pid (circ last j + 1) = circ last (j + 1).
Proof. unfold wrap_pid, circ, MAX_PROC. destruct (Z.ltb_spec 100 ((last - 1 + j) mod 100 + 1 + 1)); lia. Qed.

Lemma circ_last last j : 1 <= last <= MAX_PROC -> 1 <= j <= MAX_PROC -> circ last j = last <-> j = MAX_PROC.
Proof. unfold circ, MAX_PROC. lia. Qed.

Lemma find_pid_spec fuel tab last j :
  zlen tab = MAX_PROC + 1 -> 0 <= last <= MAX_PROC -> 1 <= j <= MAX_PROC -> MAX_PROC + 1 <= j + Z.of_nat fuel ->
  (last = 0 -> j < MAX_PROC /\ zlookup tab (circ 0 j) = Some None) ->
  (forall k, 1 <= k < j -> occupied tab (circ last k)) ->
  exists r, find_pid fuel tab last (circ last j) = inr r /\
    match r with Some i => next_pid tab last i | None => no_pid tab last end.
Proof.
  intros Hlen Hlast. revert j. induction fuel as [|fuel IH]; intros j Hj Hfuel H0 Hocc; [unfold MAX_PROC in *; lia|].
  cbn [find_pid]. pose proof (circ_range last j) as Hc. destruct (Z.eqb_spec (circ last j) last) as [E|E].
  - exists None. split; [done|]. apply circ_last in E; [|lia|done]. subst j. exact Hocc.
  - assert (j < MAX_PROC).
    { destruct (decide (last = 0)) as [->|]; [by apply H0|]. rewrite circ_last in E by lia. lia. }
    destruct (zlookup_in_range tab (circ last j)) as [[x|] Hx]; [lia| |]; rewrite Hx.
    + rewrite circ_S. apply IH; [lia|lia| |].
      * intros ->. destruct (H0 eq_refl) as [_ H0']. congruence.
      * intros k Hk. destruct (decide (k = j)) as [->|]; [by exists x|apply Hocc; lia].
    + exists (Some (circ last j)). split; [done|]. exists j. split_and!; done || lia.
Qed.

(** ** The invariant of the process table *)

Record table_wf {FS} (s : kstate FS) : Prop := {
  tw_len : zlen (pt_proc (s_ptab s)) = MAX_PROC + 1;
  tw_last : 0 <= pt_last_i (s_ptab s) <= MAX_PROC;
  tw_zero : zlookup (pt_proc (s_ptab s)) 0 = Some None;
  tw_start : pt_last_i (s_ptab s) = 0 -> zlookup (pt_proc (s_ptab s)) 1 = Some None;
  tw_reg : forall i x, zlookup (pt_proc (s_ptab s)) i = Some (Some x) <->
    exists pr, cell_at s x = Some pr /\ p_pid pr = i
}.

Section table.
Context {FS : Type}.
Implicit Types s : kstate FS.

Lemma find_pid_run s :
  table_wf s ->
  let t := s_ptab s in
  exists r, find_pid 101 (pt_proc t) (pt_last_i t) (wrap_pid (pt_last_i t + 1)) = inr r /\
    match r with Some i => next_pid (pt_proc t) (pt_last_i t) i | None => no_pid (pt_proc t) (pt_last_i t) end.
Proof.
  intros [H1 H2 H3 H4 H5] t.
  replace (wrap_pid (pt_last_i t + 1)) with (circ (pt_last_i t) 1).
  2:{ subst t. unfold circ, wrap_pid, MAX_PROC in *. destruct (Z.ltb_spec 100 (pt_last_i (s_ptab s) + 1)); lia. }
  apply find_pid_spec; [done|done|unfold MAX_PROC; lia|unfold MAX_PROC; lia| |lia].
  intros E. split; [unfold MAX_PROC; lia|]. change (circ 0 1) with 1. by apply H4.
Qed.

Lemma next_pid_free tab last i : next_pid tab last i -> zlookup tab i = Some None /\ 1 <= i <= MAX_PROC.
Proof. intros (j & _ & -> & H & _). split; [done|apply circ_range]. Qed.

Lemma next_pid_unique tab last i i' : next_pid tab last i -> next_pid tab last i' -> i = i'.
Proof.
  intros (j & Hj & -> & Hf & Ho) (j' & Hj' & -> & Hf' & Ho').
  destruct (Z.lt_trichotomy j j') as [H|[->|H]]; [|done|].
  - destruct (Ho' j ltac:(lia)). congruence.
  - destruct (Ho j' ltac:(lia)). congruence.
Qed.

(** Distinct processes have distinct pids. *)
Lemma pid_unique s x y pr pr' :
  table_wf s -> cell_at s x = Some pr -> cell_at s y = Some pr' -> p_pid pr = p_pid pr' -> x = y.
Proof.
  intros Hwf Hx Hy E. assert (zlookup (pt_proc (s_ptab s)) (p_pid pr) = Some (Some x)) as H1 by (apply (tw_reg _ Hwf); eauto).
  assert (zlookup (pt_proc (s_ptab s)) (p_pid pr) = Some (Some y)) as H2 by (apply (tw_reg _ Hwf); eauto). congruence.
Qed.
End table.

(** ** Creation *)

Section create.
Context {FS : Type}.
Implicit Types s : kstate FS.

(** The state after a process got pid [i]. *)
Definition registered (x : positive) (i : Z) s : kstate FS :=
  set_table (zinsert i (Some x) (pt_proc (s_ptab s))) i s.

Lemma proc_init_waitpid_run x pr i name s :
  idle s -> kmalloc_script (s_heap s) = [] -> cell_at s x = Some pr -> i <> 0 ->
  find_pid 101 (pt_proc (s_ptab s)) (pt_last_i (s_ptab s)) (wrap_pid (pt_last_i (s_ptab s) + 1)) = inr (Some i) ->
  let y := h_next (s_heap s) in
  proc_init_waitpid (Some x) name s =
    Ok tt (put_cell x (set_p_sem (Some y) (set_p_status 0 (set_p_pid i pr)))
             (put_cell y (mk_sem name [] 0) (next_ptr (registered x i s)))).
Proof.
  intros Hs Hk Hx Hi Hf y. unfold proc_init_waitpid. run. rewrite (run_load x pr), (run_store x pr) by done.
  cbn [s_ptab with_held set_cpu]. rewrite Hf. cbn [lift]. run.
  rewrite (run_load x (set_p_pid 0 pr)) by apply (cell_at_put_eq (with_held [processTable_lk] s)).
  rewrite (run_store x (set_p_pid 0 pr)) by apply (cell_at_put_eq (with_held [processTable_lk] s)). run.
  erewrite run_load by apply cell_at_put_eq. cbn [p_pid set_p_pid].
  destruct (Z.eqb_spec i 0); [done|]. erewrite run_store by apply cell_at_put_eq.
  set (s1 := put_cell x _ _).
  assert (s1 = put_cell x (set_p_status 0 (set_p_pid i pr)) (registered x i s)) as ->.
  { subst s1. unfold idle in Hs. destruct s as [[] ? ? ? ? ? [] [] ? ? ?]. cbn in *. subst.
    unfold put_cell, upd_cells, set_heap, registered, set_table, with_held. cbn. by rewrite !insert_insert_eq. }
  rewrite run_sem_create_plenty by exact Hk. change (h_next _) with y.
  set (pr1 := set_p_status 0 (set_p_pid i pr)). set (s2 := put_cell y _ _).
  assert (cell_at s2 x = Some pr1) as H2 by (unfold s2, cell_at; cbn; apply lookup_insert_eq).
  rewrite (run_load x pr1), (store_run x pr1) by done. f_equal.
  unfold put_cell, upd_cells, set_heap. cbn. by rewrite insert_insert_eq.
Qed.

(** The state after a process with pid [i] was created. *)
Definition proc_created (name : string) (i : Z) s : kstate FS :=
  let x := h_next (s_heap s) in
  let y := Pos.succ x in
  put_cell x (mk_proc name 0 None None 0 i (Some y))
    (put_cell y (mk_sem name [] 0) (next_ptr (registered x i (next_ptr s)))).

Lemma proc_create_run name s :
  idle s -> kmalloc_script (s_heap s) = [] -> table_wf s ->
  let t := s_ptab s in
  (forall i, next_pid (pt_proc t) (pt_last_i t) i ->
     proc_create name s = Ok (Some (h_next (s_heap s))) (proc_created name i s)) /\
  (no_pid (pt_proc t) (pt_last_i t) ->
     proc_create name s = Stop (panic_called "too many processes. proc table is full")).
Proof.
  intros Hs Hk Hwf t. destruct (find_pid_run s Hwf) as (r & Hf & Hr). fold t in Hf, Hr.
  destruct (kmalloc_plenty s Hk) as [Ea Eb]. unfold proc_create. run. rewrite Ea, Eb. cbn [negb]. rewrite run_new.
  set (x := h_next (s_heap s)). set (s1 := put_cell x _ _). unfold kstrdup. run.
  destruct (kmalloc_plenty s1 Hk) as [-> ->]. cbn [negb].
  assert (cell_at s1 x = Some (mk_proc name 0 None None 0 0 None)) as Hx by apply cell_at_put_eq.
  split.
  - intros i Hi. destruct r as [i'|].
    + rewrite (next_pid_unique _ _ _ _ Hi Hr) in *. destruct (next_pid_free _ _ _ Hr) as [_ Hrange].
      rewrite (bind_Ok _ _ _ _ _ (proc_init_waitpid_run x _ i' name s1 Hs Hk Hx ltac:(lia) Hf)).
      unfold ret, proc_created. f_equal. unfold put_cell, upd_cells, set_heap, registered, set_table. cbn.
      by rewrite insert_insert_eq.
    + destruct Hi as (j & Hj & -> & Hfree & _). destruct (Hr j Hj). congruence.
  - intros Hno. destruct r as [i'|].
    + destruct Hr as (j & Hj & -> & Hfree & _). destruct (Hno j Hj). congruence.
    + apply bind_Stop. unfold proc_init_waitpid. run. rewrite (run_load x (mk_proc name 0 None None 0 0 None)) by done.
      erewrite run_store by exact Hx. cbn [s_ptab with_held set_cpu]. change (s_ptab s1) with t. rewrite Hf. cbn [lift]. run.
      erewrite run_load by (cbn; apply lookup_insert_eq). done.
Qed.

#[local] Arguments zlookup : simpl never.
#[local] Arguments zinsert : simpl never.

Lemma proc_created_wf name i s :
  table_wf s -> next_pid (pt_proc (s_ptab s)) (pt_last_i (s_ptab s)) i -> cell_at (T := proc) s (h_next (s_heap s)) = None ->
  table_wf (proc_created name i s).
Proof.
  intros [H1 H2 H3 H4 H5] Hi Hfresh. destruct (next_pid_free _ _ _ Hi) as [Hfree Hr].
  set (x := h_next (s_heap s)). unfold MAX_PROC in *.
  assert (forall x', cell_at (T := proc) (proc_created name i s) x' =
    if decide (x = x') then Some (mk_proc name 0 None None 0 i (Some (Pos.succ x))) else cell_at s x') as Hcell.
  { intros x'. unfold cell_at. cbn. apply lookup_insert. }
  split; cbn; rewrite ?zlen_zinsert; unfold MAX_PROC; try lia.
  - rewrite zlookup_zinsert_ne by lia. done.
  - intros i' x'. rewrite Hcell. rewrite zlookup_zinsert by lia. fold x. case_decide as E; [subst i'|].
    + case_decide as E'; [subst x'|]; [naive_solver|]. split; [congruence|].
      intros (pr & Hpr & Hp). assert (zlookup (pt_proc (s_ptab s)) i = Some (Some x')) by (apply H5; eauto). congruence.
    + rewrite H5. case_decide as E'; [subst x'|done]. split; [intros (pr & Hpr & _); unfold x in Hpr; congruence|].
      intros (pr & [= <-] & Hp). by destruct E.
Qed.
End create.

(** ** Destruction *)

Section destroy.
Context {FS : Type} {VO : VnodeOps FS} {VL : VnodeLaws FS}.
Implicit Types s : kstate FS.

(** The working directory reference is dropped. *)
Definition drop_cwd (x : positive) (pr : proc) s : kstate FS :=
  match p_cwd pr with
  | None => s
  | Some d => put_cell x (set_p_cwd None pr) (set_fs (vop_decref d (s_fs s)) s)
  end.

(** The process has left the table, its structures are gone. *)
Definition reaped (x y : positive) (pid : Z) s : kstate FS :=
  let s1 := set_table (zinsert pid None (pt_proc (s_ptab s))) (pt_last_i (s_ptab s)) s in
  let s2 := upd_cells (T := semaphore) (delete y (cells (s_heap s1))) s1 in
  upd_cells (T := proc) (delete x (cells (s_heap s2))) s2.

Lemma same_maps_reaped x y pid s : same_maps s (reaped x y pid s).
Proof. by split. Qed.

Lemma vm_inv_reaped x y pid hole s q v b : vm_inv hole s q v b -> vm_inv hole (reaped x y pid s) q v b.
Proof.
  intros Hinv. apply (vm_inv_maps hole s); try done; [apply (vi_idle _ _ _ _ _ Hinv)|apply (vi_stats _ _ _ _ _ Hinv)].
Qed.

Lemma drop_cwd_cell x pr s : cell_at s x = Some pr -> cell_at (drop_cwd x pr s) x = Some (set_p_cwd None pr).
Proof.
  intros Hx. unfold drop_cwd. destruct (p_cwd pr) eqn:E; [apply cell_at_put_eq|]. rewrite Hx. f_equal.
  destruct pr. cbn in *. by subst.
Qed.

Lemma drop_cwd_fields x pr s :
  s_ram (drop_cwd x pr s) = s_ram s /\ s_cm (drop_cwd x pr s) = s_cm s /\ s_swap (drop_cwd x pr s) = s_swap s /\
  s_stats (drop_cwd x pr s) = s_stats s /\ s_cpu (drop_cwd x pr s) = s_cpu s /\ same_maps s (drop_cwd x pr s) /\
  s_ptab (drop_cwd x pr s) = s_ptab s /\ h_sem (s_heap (drop_cwd x pr s)) = h_sem (s_heap s) /\ s_mem (drop_cwd x pr s) = s_mem s.
Proof. unfold drop_cwd. by destruct (p_cwd pr). Qed.

Lemma proc_end_waitpid_run {B} x y pr m (k : unit -> M FS B) s :
  idle s -> cell_at s x = Some pr -> 1 <= p_pid pr <= MAX_PROC -> zlen (pt_proc (s_ptab s)) = MAX_PROC + 1 ->
  p_sem pr = Some y -> cell_at s y = Some m -> sem_wchan m = [] ->
  bind (proc_end_waitpid (Some x)) k s =
    k tt (let s1 := set_table (zinsert (p_pid pr) None (pt_proc (s_ptab s))) (pt_last_i (s_ptab s)) s in
          upd_cells (T := semaphore) (delete y (cells (s_heap s1))) s1).
Proof.
  intros Hs Hx Hp Hlen Hy Hm Hw. unfold proc_end_waitpid. run. rewrite (run_load x pr) by done. run.
  rewrite run_kassert by (rewrite andb_true_iff, Z.ltb_lt, Z.leb_le; lia). run.
  cbn [s_ptab with_held set_cpu]. destruct (zlookup_in_range (pt_proc (s_ptab s)) (p_pid pr)) as [o Ho]; [lia|].
  rewrite (run_deref _ _ o) by done. run. rewrite Hy.
  set (s1 := with_held [] _).
  assert (s1 = set_table (zinsert (p_pid pr) None (pt_proc (s_ptab s))) (pt_last_i (s_ptab s)) s) as ->
    by (subst s1; unfold idle in Hs; destruct s as [[]]; cbn in *; by subst).
  by rewrite (run_sem_destroy y m).
Qed.

Context (s : kstate FS) (q : list Z) (v : vnode) (b : bitmap) (a : positive) (G : segs) (w : vnode).
Context (x y : positive) (pr : proc) (m : semaphore).

(** A process that can be reaped: it has exited, and it is neither the kernel
    process nor the current one. *)
Record reapable : Prop := {
  rp_inv : vm_inv None s q v b;
  rp_link : link_ok (s_cm s) q;
  rp_as : as_ok s a G;
  rp_elf : elf_vnode (sg_seg G Code) = Some w;
  rp_table : table_wf s;
  rp_kproc : kproc (s_ptab s) <> Some x;
  rp_cur : curproc (s_cpu s) <> Some x;
  rp_proc : cell_at s x = Some pr;
  rp_space : p_addrspace pr = Some a;
  rp_threads : p_numthreads pr = 0;
  rp_sem : p_sem pr = Some y;
  rp_sema : cell_at s y = Some m;
  rp_waiters : sem_wchan m = []
}.

(** The state in which [as_destroy] runs. *)
Definition detached : kstate FS :=
  put_cell x (set_p_addrspace None (set_p_cwd None pr)) (drop_cwd x pr s).

Hypothesis H : reapable.

Lemma reapable_pid : 1 <= p_pid pr <= MAX_PROC /\ zlookup (pt_proc (s_ptab s)) (p_pid pr) = Some (Some x).
Proof.
  pose proof (rp_table H) as [T1 T2 T3 T4 T5].
  assert (zlookup (pt_proc (s_ptab s)) (p_pid pr) = Some (Some x)) as Hz by (apply T5; eexists; split; [apply (rp_proc H)|done]).
  split; [|done]. pose proof (zlookup_Some_range _ _ _ Hz) as Hr. rewrite T1 in Hr.
  destruct (decide (p_pid pr = 0)) as [E|]; [rewrite E in Hz; congruence|]. lia.
Qed.

Lemma detached_inv : vm_inv None detached q v b.
Proof.
  destruct (drop_cwd_fields x pr s) as (D1 & D2 & D3 & D4 & D5 & [D6 D7 D8] & D9).
  apply (vm_inv_maps None s); [apply (rp_inv H)|unfold idle; cbn; rewrite D5; apply (vi_idle _ _ _ _ _ (rp_inv H))|done|done|done| |].
  - by split.
  - cbn. rewrite D4. apply (vi_stats _ _ _ _ _ (rp_inv H)).
Qed.

Lemma proc_destroy_run :
  exists c' b', proc_destroy (Some x) s = Ok tt (reaped x y (p_pid pr) (as_gone a G w v c' b' detached)) /\
    frames_released (bool_decide (back_link (s_cm s) q = invalid_reference (s_cm s))) (s_ram s) (as_frames G) q (s_cm s) c' /\
    slots_released (as_slots G) b b'.
Proof.
  destruct (drop_cwd_fields x pr s) as (D1 & D2 & D3 & D4 & D5 & [D6 D7 D8] & D9 & D10 & D11).
  pose proof (vi_frames _ _ _ _ _ (rp_inv H)) as Hfw.
  pose proof (fifo_linked _ _ (vi_fifo _ _ _ _ _ (rp_inv H)) (rp_link H) ltac:(rewrite (fw_len _ _ Hfw), (fw_inv _ _ Hfw); done)) as Hlk.
  assert (as_ok detached a G) as Hok by (apply (as_ok_maps s); [by split|apply (rp_as H)]).
  destruct (as_destroy_run _ detached q v b a G w detached_inv ltac:(cbn; rewrite D2; exact Hlk) Hok (rp_elf H)) as (c' & b' & Hrun & Hfr & Hsl).
  exists c', b'. cbn in Hfr. rewrite D1, D2 in Hfr. split; [|done].
  unfold proc_destroy. run. rewrite run_kassert by (apply bool_decide_eq_true_2; intros E; by destruct (rp_kproc H)).
  rewrite (run_load x pr) by apply (rp_proc H).
  assert (forall (k : unit -> M FS unit), bind (match p_cwd pr with
    | None => ret tt | Some d => modify (fun s => set_fs (vop_decref d (s_fs s)) s) ;; store (Some x) (set_p_cwd None pr) end) k s
    = k tt (drop_cwd x pr s)) as Hcwd.
  { intros k. unfold drop_cwd. destruct (p_cwd pr); [|done]. run. rewrite (run_store x pr); [done|apply (rp_proc H)]. }
  rewrite Hcwd. set (pr1 := set_p_cwd None pr). pose proof (drop_cwd_cell x pr s (rp_proc H)) as Hx1. fold pr1 in Hx1.
  rewrite (run_load x pr1) by done. change (p_addrspace pr1) with (p_addrspace pr). rewrite (rp_space H). run.
  rewrite D5, bool_decide_eq_false_2 by (intros E; by destruct (rp_cur H)). run. rewrite (run_store x pr1) by done. run.
  change (put_cell x (set_p_addrspace None pr1) (drop_cwd x pr s)) with detached.
  rewrite (bind_Ok _ _ _ _ _ Hrun). set (s2 := as_gone _ _ _ _ _ _ _). set (pr2 := set_p_addrspace None pr1).
  assert (cell_at s2 x = Some pr2) as Hx2 by (unfold s2, cell_at; cbn; apply lookup_insert_eq).
  rewrite (run_load x pr2) by done. rewrite run_kassert by (cbn; by rewrite (rp_threads H)). rewrite (run_deref _ _ x) by done.
  assert (idle s2) as Hs2 by (unfold idle; cbn; rewrite D5; apply (vi_idle _ _ _ _ _ (rp_inv H))).
  rewrite run_spinlock_cleanup by done.
  rewrite (proc_end_waitpid_run x y pr2 m); [|done|done|apply reapable_pid| |apply (rp_sem H)| |apply (rp_waiters H)].
  - unfold kfree. run. rewrite (run_deref _ _ pr2) by exact Hx2. change (p_pid pr2) with (p_pid pr).
    clearbody s2. reflexivity.
  - cbn. rewrite D9. apply (tw_len _ (rp_table H)).
  - unfold cell_at. cbn. rewrite D10. apply (rp_sema H).
Qed.
End destroy.

(** ** Exit and wait *)

Section exit.
Context {FS : Type}.
Implicit Types s : kstate FS.

(** What [table_wf] depends on. *)
Lemma table_wf_same s s' :
  s_ptab s' = s_ptab s -> (forall x, p_pid <$> cell_at (T := proc) s' x = p_pid <$> cell_at s x) -> table_wf s -> table_wf s'.
Proof.
  intros Ht Hp [T1 T2 T3 T4 T5]. split; rewrite ?Ht; try done. intros i x. rewrite T5. specialize (Hp x).
  split; intros (pr & Hpr & E); rewrite Hpr in Hp; cbn in Hp.
  - destruct (cell_at s' x) as [pr'|]; [|done]. exists pr'. cbn in Hp. split; congruence.
  - destruct (cell_at s x) as [pr'|]; [|done]. exists pr'. cbn in Hp. split; congruence.
Qed.

Lemma table_wf_reaped x y pr s s' :
  table_wf s -> cell_at s x = Some pr -> s_ptab s' = s_ptab s ->
  (forall x', x' <> x -> cell_at (T := proc) s' x' = cell_at s x') ->
  table_wf (reaped x y (p_pid pr) s') /\ zlookup (pt_proc (s_ptab (reaped x y (p_pid pr) s'))) (p_pid pr) = Some None.
Proof.
  intros Hwf Hx Ht Hp. pose proof Hwf as [T1 T2 T3 T4 T5].
  assert (zlookup (pt_proc (s_ptab s)) (p_pid pr) = Some (Some x)) as Hz by (apply T5; eauto).
  pose proof (zlookup_Some_range _ _ _ Hz) as Hr.
  assert (forall i, zlookup (zinsert (p_pid pr) None (pt_proc (s_ptab s))) i =
    if decide (p_pid pr = i) then Some None else zlookup (pt_proc (s_ptab s)) i) as Hzi by (intros; by apply zlookup_zinsert).
  assert (forall x', cell_at (T := proc) (reaped x y (p_pid pr) s') x' = if decide (x = x') then None else cell_at s x') as Hc.
  { intros x'. unfold cell_at, reaped. cbn. case_decide as E; [subst; apply lookup_delete_eq|].
    rewrite lookup_delete_ne by done. by apply Hp. }
  split; [|cbn; by rewrite Ht, Hzi, decide_True].
  split; cbn [reaped upd_cells set_heap s_ptab set_table set_ptab pt_proc pt_last_i]; rewrite ?Ht, ?zlen_zinsert; try done.
  - rewrite Hzi. by case_decide.
  - intros E. rewrite Hzi. case_decide; [done|by apply T4].
  - intros i x'. rewrite Hzi, Hc. case_decide as E; [subst i|].
    + split; [done|]. intros (pr' & Hpr' & Hpid). case_decide as E'; [done|]. destruct E'. by eapply pid_unique.
    + rewrite T5. case_decide as E'; [subst x'|done].
      split; [intros (pr' & Hpr' & <-); congruence|by intros (pr' & Hpr' & _)].
Qed.

(** The state after the current thread of process [x] has exited. *)
Definition exited (x y : positive) (pr : proc) (m : semaphore) (st : Z) s : kstate FS :=
  set_cpu (mk_cpu [] IPL_HIGH (t_in_interrupt (s_cpu s)) None)
    (put_cell y (mk_sem (sem_name m) (tail (sem_wchan m)) (sem_count m + 1))
      (put_cell x (set_p_numthreads (p_numthreads pr - 1) (set_p_status (Z.land st 0xff) pr)) s)).

Lemma sys__exit_run x y pr m st s :
  idle s -> curproc (s_cpu s) = Some x -> cell_at s x = Some pr -> 1 <= p_numthreads pr < 2^32 ->
  p_sem pr = Some y -> cell_at s y = Some m -> 0 <= sem_count m < 2^32 - 1 ->
  sys__exit st s = Ok tt (exited x y pr m st s).
Proof.
  intros Hs Hc Hx Hn Hy Hm Hcount. unfold sys__exit. run. rewrite Hc, (run_load x pr), (run_store x pr) by done.
  set (pr1 := set_p_status (Z.land st 255) pr). unfold proc_remthread, get_t_proc. run. cbn [s_cpu put_cell upd_cells set_heap].
  rewrite Hc. run. rewrite (run_deref _ _ x) by done. run. erewrite run_load by apply cell_at_put_eq. run.
  rewrite run_kassert by (apply Z.ltb_lt; cbn; lia). run. erewrite run_store by apply cell_at_put_eq. run.
  unfold splhigh, splx, set_t_proc. run.
  rewrite u32_small by (unfold is_u32; cbn; lia).
  set (s1 := with_spl _ (set_cpu _ _)). set (pr2 := set_p_numthreads (p_numthreads pr1 - 1) pr1).
  assert (s1 = set_cpu (mk_cpu [] (t_curspl (s_cpu s)) (t_in_interrupt (s_cpu s)) None) (put_cell x pr2 s)) as ->.
  { subst s1. unfold idle in Hs. destruct s as [[] ? ? ? ? ? [] ? ? ? ?]. cbn in *. subst.
    unfold put_cell, upd_cells, set_heap, with_held, with_spl. cbn. by rewrite insert_insert_eq. }
  set (s1 := set_cpu _ _). rewrite (run_load x pr2) by (unfold s1, cell_at; cbn; apply lookup_insert_eq).
  change (p_sem pr2) with (p_sem pr). rewrite Hy, (run_V y m) by done.
  unfold thread_exit, get_t_proc, splhigh, splx. run. cbn. done.
Qed.

Lemma proc_wait_sleeps x y pr m s :
  idle s -> t_in_interrupt (s_cpu s) = false -> cell_at s x = Some pr -> kproc (s_ptab s) <> Some x ->
  p_sem pr = Some y -> cell_at s y = Some m -> sem_count m = 0 ->
  forall (VO : VnodeOps FS), proc_wait (Some x) s = Stop (would_sleep "wchan_sleep(sem->sem_wchan, &sem->sem_lock)").
Proof.
  intros Hs Hi Hx Hk Hy Hm Hc VO. unfold proc_wait. run. rewrite run_kassert by (apply bool_decide_eq_true_2; congruence).
  rewrite (run_load x pr), Hy by done. apply bind_Stop. by apply (P_sleeps y m).
Qed.

(** Another thread, of process [pp], gets the processor. *)
Definition resume (pp : ptr) s : kstate FS := set_cpu (mk_cpu [] IPL_NONE false pp) s.
End exit.

(** A process with one thread, which is running. *)
Record running_child {FS} {VO : VnodeOps FS} {VL : VnodeLaws FS} (s : kstate FS) (q : list Z) (v : vnode) (b : bitmap)
    (a : positive) (G : segs) (w : vnode) (x y : positive) (pr : proc) (m : semaphore) : Prop := {
  rc_inv : vm_inv None s q v b;
  rc_link : link_ok (s_cm s) q;
  rc_as : as_ok s a G;
  rc_elf : elf_vnode (sg_seg G Code) = Some w;
  rc_table : table_wf s;
  rc_kproc : kproc (s_ptab s) <> Some x;
  rc_cur : curproc (s_cpu s) = Some x;
  rc_proc : cell_at s x = Some pr;
  rc_space : p_addrspace pr = Some a;
  rc_threads : p_numthreads pr = 1;
  rc_sem : p_sem pr = Some y;
  rc_sema : cell_at s y = Some m;
  rc_count : sem_count m = 0;
  rc_waiters : tail (sem_wchan m) = []
}.

Section exit_wait.
Context {FS : Type} {VO : VnodeOps FS} {VL : VnodeLaws FS}.
Context (s : kstate FS) (q : list Z) (v : vnode) (b : bitmap) (a : positive) (G : segs) (w : vnode).
Context (x y : positive) (pr : proc) (m : semaphore) (st : Z) (pp : ptr).
Hypotheses (H : running_child s q v b a G w x y pr m) (Hpp : pp <> Some x).

(** The state in which the parent, past its [P], destroys the child. *)
Definition collected : kstate FS := put_cell y (mk_sem (sem_name m) [] 0) (resume pp (exited x y pr m st s)).
Definition exited_proc : proc := set_p_numthreads 0 (set_p_status (Z.land st 0xff) pr).

Lemma collected_reapable : reapable collected q v b a G w x y exited_proc (mk_sem (sem_name m) [] 0).
Proof.
  pose proof H as [C1 C2 C3 C4 C5 C6 C7 C8 C9 C10 C11 C12 C13 C14]. split; try done.
  - apply (vm_inv_maps None s); try done. apply (vi_stats _ _ _ _ _ C1).
  - by apply (as_ok_maps s).
  - apply (table_wf_same s); [done| |done]. intros x'. unfold cell_at in *. cbn.
    destruct (decide (x = x')) as [<-|]; [rewrite lookup_insert_eq; cbn in C8; by rewrite C8|by rewrite lookup_insert_ne].
  - unfold cell_at. cbn. rewrite lookup_insert_eq. unfold exited_proc. by rewrite C10.
  - unfold cell_at. cbn. apply lookup_insert_eq.
Qed.

Lemma proc_wait_collects s2 :
  proc_destroy (Some x) collected = Ok tt s2 ->
  proc_wait (Some x) (resume pp (exited x y pr m st s)) = Ok (Z.land st 0xff) s2.
Proof.
  intros Hd. pose proof collected_reapable as R. unfold proc_wait, proc_wait_end. run.
  rewrite run_kassert by (apply bool_decide_eq_true_2; intros E; by destruct (rp_kproc _ _ _ _ _ _ _ _ _ _ _ R)).
  rewrite (run_load x exited_proc) by apply (rp_proc _ _ _ _ _ _ _ _ _ _ _ R).
  change (p_sem exited_proc) with (p_sem pr). rewrite (rc_sem _ _ _ _ _ _ _ _ _ _ _ H).
  rewrite (run_P y (mk_sem (sem_name m) [] 1)); [|done|done| |cbn; lia].
  - change (put_cell y _ _) with collected.
    rewrite (run_load x exited_proc) by apply (rp_proc _ _ _ _ _ _ _ _ _ _ _ R). by rewrite (bind_Ok _ _ _ _ _ Hd).
  - unfold cell_at. cbn. rewrite lookup_insert_eq.
    by rewrite (rc_waiters _ _ _ _ _ _ _ _ _ _ _ H), (rc_count _ _ _ _ _ _ _ _ _ _ _ H).
Qed.

(** The parent that slept goes on in the same way. *)
Lemma proc_wait_resumes :
  proc_wait_resumed (Some y) (Some x) (resume pp (exited x y pr m st s)) = proc_wait (Some x) (resume pp (exited x y pr m st s)).
Proof.
  pose proof collected_reapable as R. unfold proc_wait_resumed. rewrite P_resumed_run by done. unfold proc_wait. run.
  rewrite run_kassert by (apply bool_decide_eq_true_2; intros E; by destruct (rp_kproc _ _ _ _ _ _ _ _ _ _ _ R)).
  rewrite (run_load x exited_proc) by apply (rp_proc _ _ _ _ _ _ _ _ _ _ _ R).
  change (p_sem exited_proc) with (p_sem pr). by rewrite (rc_sem _ _ _ _ _ _ _ _ _ _ _ H).
Qed.
End exit_wait.

(** ** Properties *)

Section proc_properties.
Context {FS : Type} {VO : VnodeOps FS} {VL : VnodeLaws FS}.
Implicit Types s : kstate FS.


(** (C4) Exit and wait meet: while the child runs, a parent that calls
    [proc_wait] sleeps in it; once the child has called [sys__exit], the
    sleeping parent goes on, and a parent that only now calls [proc_wait] does
    not sleep.  Either way it returns the low eight bits of the child's status
    and reaps it: the process, its semaphore and its address space are gone,
    its pid is free, all its frames and swap slots are released, the pages of
    the other processes keep their state and bytes, and the process table is
    consistent.  Evictions before the exit do not matter for this
    ([link_ok]); if there was none, so that the oldest frame has no back link,
    the invariant of virtual memory holds again as well. *)
Theorem exit_wait_reaps s q v b a G w x y pr m st pp :
  running_child s q v b a G w x y pr m -> pp <> Some x ->
  proc_wait (Some x) (resume pp s) = Stop (would_sleep "wchan_sleep(sem->sem_wchan, &sem->sem_lock)") /\
  exists s1 s2 b', sys__exit st s = Ok tt s1 /\ proc_wait (Some x) (resume pp s1) = Ok (Z.land st 0xff) s2 /\
    proc_wait_resumed (Some y) (Some x) (resume pp s1) = Ok (Z.land st 0xff) s2 /\
    cell_at (T := proc) s2 x = None /\ cell_at (T := semaphore) s2 y = None /\ cell_at (T := addrspace_t) s2 a = None /\
    table_wf s2 /\ zlookup (pt_proc (s_ptab s2)) (p_pid pr) = Some None /\
    (forall i, (exists va, page_at s a va (pte_resident (i * PAGE_SIZE))) -> freed (coremap (s_cm s2)) i) /\
    (forall k, (exists va, page_at s a va (pte_swapped (k * PAGE_SIZE))) -> bit b' k = false) /\ swap_ready (s_swap s2) v b' /\
    (w <> v -> p_cwd pr <> Some v -> forall a' va, a' <> a -> same_page v s s2 a' va) /\
    (back_link (s_cm s) q = invalid_reference (s_cm s) -> vm_inv None s2 (filter (fun i => i ∉ as_frames G) q) v b').
Proof.
  intros H Hpp. pose proof H as [C1 C2 C3 C4 C5 C6 C7 C8 C9 C10 C11 C12 C13 C14]. split.
  { by apply (proc_wait_sleeps x y pr m). }
  pose proof (collected_reapable s q v b a G w x y pr m st pp H Hpp) as R.
  destruct (proc_destroy_run _ _ _ _ _ _ _ _ _ _ _ R) as (c' & b' & Hd & Hfr & Hsl).
  set (sc := collected s x y pr m st pp) in *. set (pr1 := exited_proc pr st) in *. set (sd := detached sc x pr1) in *.
  set (sg := as_gone a G w v c' b' sd) in *.
  eexists _, _, b'. split; [apply (sys__exit_run x y pr m st s (vi_idle _ _ _ _ _ C1) C7 C8); rewrite ?C10, ?C13; done || lia|].
  split; [by eapply proc_wait_collects|]. split; [rewrite (proc_wait_resumes s q v b a G w x y pr m st pp H Hpp); by eapply proc_wait_collects|].
  destruct (drop_cwd_fields x pr1 sc) as (D1 & D2 & D3 & D4 & D5 & [D6 D7 D8] & D9 & D10 & D11).
  destruct (table_wf_reaped x y pr1 sc sg (rp_table _ _ _ _ _ _ _ _ _ _ _ R) (rp_proc _ _ _ _ _ _ _ _ _ _ _ R) D9) as [Hw1 Hw2].
  { intros x' Hne. unfold cell_at. cbn. rewrite lookup_insert_ne by done. unfold drop_cwd.
    destruct (p_cwd pr1); [|done]. cbn. by rewrite lookup_insert_ne. }
  pose proof (detached_inv _ _ _ _ _ _ _ _ _ _ _ R) as Hdi. fold sd in Hdi.
  assert (as_ok sd a G) as Hok by (apply (as_ok_maps sc); [by split|apply (rp_as _ _ _ _ _ _ _ _ _ _ _ R)]).
  set (s2 := reaped x y (p_pid pr1) sg) in *.
  assert (same_maps s sd) as Hsd by (split; [exact D6|exact D7|exact D8]).
  assert (forall a' va p, a' <> a -> page_at s a' va p <-> page_at s2 a' va p) as Hat.
  { intros a' va p Hne. transitivity (page_at sg a' va p); [|apply page_at_maps, same_maps_reaped].
    transitivity (page_at sd a' va p); [apply page_at_maps; exact Hsd|]. pose proof (page_at_gone sd q v b a G w Hdi Hok c' b' a' va p) as [E1 E2].
    split; [intros Hp; apply E2; by split|by intros [_ ?]%E1]. }
  split_and!.
  - unfold cell_at, reaped. cbn. apply lookup_delete_eq.
  - unfold cell_at, reaped. cbn. apply lookup_delete_eq.
  - unfold cell_at, reaped. cbn. apply lookup_delete_eq.
  - exact Hw1.
  - exact Hw2.
  - intros i Hi. apply (fr_freed _ _ _ _ _ _ Hfr). by apply (as_frames_spec s a G C3).
  - intros k Hk. assert (k ∈ as_slots G) as Hin by (by apply (as_slots_spec s a G C3)).
    destruct Hk as [va Hk]. destruct (vi_swapped _ _ _ _ _ C1 _ _ _ Hk) as (k' & E & Hk' & _).
    rewrite (sr_bits _ _ _ Hsl), bool_decide_eq_false_2 by (done || (unfold PAGE_SIZE in E; lia) || tauto). apply andb_false_r.
  - destruct (vi_swap _ _ _ _ _ C1) as (_ & _ & Hn). split_and!; [done|apply (sr_wf _ _ _ Hsl)|rewrite (sr_len _ _ _ Hsl); done].
  - intros Hwv Hcwd a' va Hne. split; [intros p; by apply Hat|].
    assert (s_mem s2 = s_mem s) as Hmem by (unfold s2; cbn; by rewrite D11).
    assert (forall o, file_byte (s_fs s2) v o = file_byte (s_fs s) v o) as Hfb.
    { intros o. cbn. rewrite vfs_close_frame by done. unfold drop_cwd. change (p_cwd pr1) with (p_cwd pr).
      destruct (p_cwd pr); [cbn; rewrite vop_decref_frame by congruence|]; done. }
    intros j c Hj. split; (intros [(pa & Hp & ->)|(off & Hp & ->)]; [left; exists pa|right; exists off]); (split; [by apply (Hat a' va _ Hne)|by rewrite ?Hmem, ?Hfb]).
  - intros E. rewrite bool_decide_eq_true_2 in Hfr by done.
    assert (vm_inv None sg (filter (fun i => i ∉ as_frames G) q) v b') as Hg.
    { apply (gone_inv sd q v b a G w Hdi Hok c' b'); [|done]. cbn. by rewrite D1, D2. }
    exact (vm_inv_reaped x y (p_pid pr) _ _ _ _ _ Hg).
Qed.
End proc_properties.

(** ** A witness: the first process of the machine *)

Lemma blank_table : table_wf blank_state.
Proof.
  split; try done. intros i x. change (pt_proc (s_ptab blank_state)) with (replicate 101 (None : ptr)). split.
  - rewrite zlookup_replicate. by case_decide.
  - by intros (pr & Hpr & _).
Qed.

