(* ===== verification/UserPage.v ===== *)
(** * User page allocation and replacement ([coremap.c], second part)

    [alloc_user_page]: a freed frame, or fresh memory, or the oldest user
    frame, whose page goes to the swap file and whose page table entry is
    redirected there. *)

From S2P Require Import Prelude State Monad Machine Testbed Bitmap VmStats Ram VmTlb Swapfile Heap Coremap CoremapSpec KernelPages Pt Segment AddrSpace PageMap.

Section user_page.
Context {FS : Type}.
Implicit Types s : kstate FS.

Definition get_queue_ends : M FS (Z * Z) :=
  spinlock_acquire page_replacement_lock ;;
  last <- get (fun s => last_allocated_page (s_cm s)) ;;
  victim <- get (fun s => current_victim_page (s_cm s)) ;;
  spinlock_release page_replacement_lock ;;
  ret (last, victim).

(** The branch with a frame: the frame goes to the end of the queue. *)
Definition append_user_page (address last victim : Z) (current_as : ptr) (va : Z) : M FS unit :=
  let page_index := address / PAGE_SIZE in
  c <- get s_cm ;;
  kassert (page_index <? total_ram_frames c) "total_ram_frames > page_index" ;;
  spinlock_acquire coremap_lock ;;
  cm_update page_index (set_entry_type COREMAP_BUSY_USER) ;;
  cm_update page_index (set_allocation_size 1) ;;
  cm_update page_index (set_owner current_as va) ;;
  inv <- get (fun s => invalid_reference (s_cm s)) ;;
  (if negb (last =? inv) then
     cm_update last (set_next_allocated page_index) ;;
     cm_update page_index (set_previous_allocated last) ;;
     cm_update page_index (set_next_allocated inv)
   else
     cm_update page_index (set_previous_allocated inv) ;;
     cm_update page_index (set_next_allocated inv)) ;;
  spinlock_release coremap_lock ;;
  spinlock_acquire page_replacement_lock ;;
  (if victim =? inv
   then modify (fun s => set_cm (set_queue_ends (last_allocated_page (s_cm s)) page_index (s_cm s)) s)
   else ret tt) ;;
  modify (fun s => set_cm (set_queue_ends page_index (current_victim_page (s_cm s)) (s_cm s)) s) ;;
  spinlock_release page_replacement_lock.

(** A frame without eviction: a freed one or fresh memory; 0 if none. *)
Definition find_user_frame (current_as : ptr) (va : Z) : M FS Z :=
  address <- allocate_free_pages 1 COREMAP_BUSY_USER current_as va ;;
  if address =? 0 then
    spinlock_acquire stealmem_lock ;;
    address <- ram_stealmem 1 ;;
    spinlock_release stealmem_lock ;;
    ret address
  else ret address.

(** The end of the eviction: the descriptor of the victim gets its new owner
    and moves to the end of the queue. *)
Definition hand_over (last victim : Z) (a : ptr) (va address : Z) : M FS Z :=
  e <- cm_get victim ;;
  kassert (bool_decide (entry_type e = COREMAP_BUSY_USER)) "entry_type == COREMAP_BUSY_USER" ;;
  kassert (allocation_size e =? 1) "allocation_size == 1" ;;
  cm_update victim (set_owner a va) ;;
  e <- cm_get victim ;;
  let new_victim := next_allocated e in
  inv <- get (fun s => invalid_reference (s_cm s)) ;;
  cm_update last (set_next_allocated victim) ;;
  cm_update victim (set_next_allocated inv) ;;
  cm_update victim (set_previous_allocated last) ;;
  spinlock_release coremap_lock ;;
  spinlock_acquire page_replacement_lock ;;
  kassert (negb (new_victim =? inv)) "new_victim != invalid_reference" ;;
  modify (fun s => set_cm (set_queue_ends victim new_victim (s_cm s)) s) ;;
  spinlock_release page_replacement_lock ;;
  ret address.

Context {VO : VnodeOps FS}.

(** The branch without a frame: the oldest user frame is swapped out and
    goes to the end of the queue with its new owner. *)
Definition evict_user_page (last victim : Z) (current_as : ptr) (va : Z) : M FS Z :=
  let address := u32 (victim * PAGE_SIZE) in
  r <- swap_out address ;;
  let '(result, swapfile_offset) := r in
  if negb (result =? 0) then panic "Failed to swap out a page to file" else
  spinlock_acquire coremap_lock ;;
  e <- cm_get victim ;;
  victim_ps <- as_find_segment_coarse (address_space e) (virtual_address e) ;;
  kassert_ptr victim_ps "victim_ps != NULL" ;;
  e <- cm_get victim ;;
  seg_swap_out victim_ps swapfile_offset (virtual_address e) ;;
  hand_over last victim current_as va address.

Definition allocate_user_page (associated_vaddr : Z) : M FS Z :=
  current_as <- proc_getas ;;
  kassert_ptr current_as "current_as != NULL" ;;
  kassert (Z.land associated_vaddr PAGE_FRAME =? associated_vaddr)
    "(associated_vaddr & PAGE_FRAME) == associated_vaddr" ;;
  address <- find_user_frame current_as associated_vaddr ;;
  active <- is_coremap_active ;;
  if negb active then ret address else
  ends <- get_queue_ends ;;
  if negb (address =? 0) then
    append_user_page address (fst ends) (snd ends) current_as associated_vaddr ;;
    ret address
  else evict_user_page (fst ends) (snd ends) current_as associated_vaddr.

Definition alloc_user_page (vaddr : Z) : M FS Z :=
  pagevm_can_sleep ;; allocate_user_page vaddr.
End user_page.

(** ** Appending to the queue *)

Lemma dseg_push cm cm' p q0 l i el ei n n' :
  dseg cm p (q0 ++ [l]) n -> NoDup (q0 ++ [l]) -> zlookup cm l = Some el ->
  zlookup cm' l = Some (set_next_allocated i el) ->
  zlookup cm' i = Some ei -> user_frame ei -> next_allocated ei = n' -> previous_allocated ei = l ->
  (forall j, j ∈ q0 -> zlookup cm' j = zlookup cm j) ->
  dseg cm' p ((q0 ++ [l]) ++ [i]) n'.
Proof.
  intros Hseg Hnd Hel Hl Hi Hu Hn Hp Hext. rewrite dseg_app, tail_of_snoc. cbn [hd].
  apply dseg_app in Hseg as [Hq [(e & He & Hue & Hne & Hpe) _]]. rewrite Hel in He. injection He as <-.
  split; [apply dseg_app; split|].
  - eapply dseg_ext; [|done]. done.
  - cbn. split; [|done]. exists (set_next_allocated i el). done.
  - cbn. split; [|done]. exists ei. done.
Qed.

(** The table after [i] was given to [(a, va)] and appended to the queue. *)
Definition claimed_user (a : ptr) (va : Z) (e : coremap_entry) : coremap_entry :=
  set_owner a va (set_allocation_size 1 (set_entry_type COREMAP_BUSY_USER e)).

Section append.
Context {FS : Type}.
Implicit Types s : kstate FS.

Lemma run_get_queue_ends {B} (k : Z * Z -> M FS B) s :
  idle s -> bind get_queue_ends k s = k (last_allocated_page (s_cm s), current_victim_page (s_cm s)) s.
Proof. intros Hs. unfold get_queue_ends. run. f_equal. state_eq. Qed.

Definition appended (hp : option Z) (q : list Z) (i : Z) (a : ptr) (va : Z) (c c' : coremap_st) : Prop :=
  fifo hp c' (q ++ [i]) /\ same_owners [i] (coremap c) (coremap c') /\
  (exists e, zlookup (coremap c') i = Some e /\ user_frame e /\ address_space e = a /\ virtual_address e = va) /\
  total_ram_frames c' = total_ram_frames c /\ invalid_reference c' = invalid_reference c /\
  is_coremap_initialized c' = is_coremap_initialized c.

(** The links written for a frame that is not in the queue. *)
Lemma appended_links hp q i a va e c cm' :
  (q <> [] \/ hp = None \/ hp = Some (invalid_reference c)) ->
  fifo hp c q -> i ∉ q -> zlen cm' = zlen (coremap c) ->
  let prev := default (invalid_reference c) (last q) in
  let e' := set_next_allocated (invalid_reference c) (set_previous_allocated prev (claimed_user a va e)) in
  zlookup cm' i = Some e' ->
  (forall j, j <> i -> zlookup cm' j =
     if decide (last q = Some j) then set_next_allocated i <$> zlookup (coremap c) j else zlookup (coremap c) j) ->
  appended hp q i a va c (set_queue_ends i (hd i q) (set_coremap cm' c)).
Proof.
  intros Hhp Hf Hi Hlen prev e' Hi' Hother. pose proof Hf as [Hseg Hnd Hv Hl Hc].
  split; [|split_and!; try done].
  - constructor; cbn; [|by apply NoDup_app; split_and!; [|set_solver|apply NoDup_singleton]| | |].
    + destruct q as [|l q0 _] using rev_ind.
      * cbn. split; [|done]. exists e'. split_and!; try done. destruct Hhp as [|[-> | ->]]; done.
      * destruct (dseg_elem _ _ _ _ l Hseg ltac:(set_solver)) as (el & Hel & _).
        eapply dseg_push; [done|done|exact Hel| |exact Hi'|done|done|cbn; unfold prev; by rewrite last_snoc|]; rewrite last_snoc in Hother.
        -- rewrite Hother by set_solver. by rewrite decide_True, Hel.
        -- intros j Hj. rewrite Hother by set_solver. rewrite decide_False; [done|]. intros [= ->].
           apply NoDup_app in Hnd as (_ & Hd & _). apply (Hd j Hj). set_solver.
    + by destruct q.
    + by rewrite last_snoc.
    + intros j ej Hj Ht. destruct (decide (j = i)) as [->|Hji]; [set_solver|]. rewrite Hother in Hj by done.
      apply elem_of_app. left. case_decide as El; [|by eapply Hc]. apply last_Some in El as [l' ->]; set_solver.
  - split; [done|]. intros j Hj. cbn. rewrite Hother by set_solver. case_decide; [|done]. by destruct (zlookup (coremap c) j).
  - exists e'. done.
Qed.

(** Three updates of one descriptor. *)
Lemma run_cm_update_again {B} i f e s0 cm (k : unit -> M FS B) :
  zlookup cm i = Some e -> bind (cm_update i f) k (upd_cm cm s0) = k tt (upd_cm (zinsert i (f e) cm) s0).
Proof. intros He. by rewrite (run_cm_update i f e). Qed.

(** [c] is the coremap before the search, which may already have claimed
    the descriptor of [i]. *)
Lemma append_user_page_run hp q i a va e c s :
  (q <> [] \/ hp = None \/ hp = Some (invalid_reference c)) ->
  idle s -> zlen (coremap c) = total_ram_frames c -> invalid_reference c = total_ram_frames c ->
  fifo hp c q -> i ∉ q -> s_cm s = set_coremap (coremap (s_cm s)) c -> zlen (coremap (s_cm s)) = zlen (coremap c) ->
  (forall j, j <> i -> zlookup (coremap (s_cm s)) j = zlookup (coremap c) j) ->
  zlookup (coremap (s_cm s)) i = Some e ->
  exists c', append_user_page (i * PAGE_SIZE) (last_allocated_page c) (current_victim_page c) a va s =
      Ok tt (set_cm c' s) /\ appended hp q i a va c c'.
Proof.
  intros Hhp Hs Hlen Hinv Hf Hi Hc Hzl Hsame He. pose proof (zlookup_Some_range _ _ _ He) as Hr.
  pose proof (ff_last _ _ _ Hf) as Hl. pose proof (ff_victim _ _ _ Hf) as Hv.
  set (inv := invalid_reference c) in *. set (cm := coremap (s_cm s)) in *.
  set (e3 := claimed_user a va e).
  assert (exists cm', append_user_page (i * PAGE_SIZE) (last_allocated_page c) (current_victim_page c) a va s =
      Ok tt (set_cm (set_queue_ends i (hd i q) (set_coremap cm' c)) s) /\ zlen cm' = zlen cm /\
      zlookup cm' i = Some (set_next_allocated inv (set_previous_allocated (default inv (last q)) e3)) /\
      (forall j, j <> i -> zlookup cm' j =
        if decide (last q = Some j) then set_next_allocated i <$> zlookup cm j else zlookup cm j)) as Hrun.
  2:{ destruct Hrun as (cm' & Hrun & H1 & H2 & H3). eexists. split; [exact Hrun|].
      apply (appended_links hp q i a va e); try done; [congruence|].
      intros j Hj. rewrite H3 by done. by rewrite Hsame. }
  unfold append_user_page. replace (i * PAGE_SIZE / PAGE_SIZE) with i by (unfold PAGE_SIZE; lia). run.
  rewrite run_kassert by (rewrite Hc; apply Z.ltb_lt; cbn; lia). run.
  rewrite (run_cm_update _ _ e) by done. cbn [s_cm with_held set_cpu]. fold cm.
  set (s0 := with_held [coremap_lock] s).
  rewrite (run_cm_update_again _ _ (set_entry_type COREMAP_BUSY_USER e)) by (by apply zlookup_zinsert_eq).
  rewrite zinsert_zinsert_eq.
  rewrite (run_cm_update_again _ _ (set_allocation_size 1 (set_entry_type COREMAP_BUSY_USER e)))
    by (by apply zlookup_zinsert_eq).
  rewrite zinsert_zinsert_eq. fold (claimed_user a va e). fold e3. run.
  cbn [s_cm upd_cm set_cm set_coremap invalid_reference]. 
  replace (invalid_reference (s_cm s0)) with inv by (change (s_cm s0) with (s_cm s); by rewrite Hc).
  assert (forall j, last q = Some j -> j ∈ q) as Hin by (intros j [l' ->]%last_Some; set_solver).
  destruct (last q) as [l|] eqn:El; rewrite Hl;
    [change (default inv (Some l)) with l|change (default inv None) with inv].
  - pose proof (fifo_range _ _ _ _ Hf (Hin l eq_refl)) as Hlr. rewrite <- Hzl in Hlr.
    destruct (Z.eqb_spec l inv) as [->|_]; [lia|]. cbn [negb].
    destruct (zlookup_in_range cm l Hlr) as [el Hel]. assert (i <> l) as Hil by (intros ->; by apply Hi, Hin).
    run. rewrite (run_cm_update_again _ _ el) by (by rewrite zlookup_zinsert_ne).
    run. rewrite (run_cm_update_again _ _ e3)
      by (rewrite zlookup_zinsert_ne by done; by apply zlookup_zinsert_eq).
    rewrite (run_cm_update_again _ _ (set_previous_allocated l e3))
      by (apply zlookup_zinsert_eq; by rewrite !zlen_zinsert).
    rewrite zinsert_zinsert_eq. run. destruct q as [|h q']; [done|]. cbn [hd] in Hv |- *.
    assert (h <> inv) as Hh by (pose proof (fifo_range _ _ _ h Hf ltac:(set_solver)); unfold cm, inv in *; lia).
    rewrite Hv. destruct (Z.eqb_spec h inv); [done|]. run.
    exists (zinsert i (set_next_allocated inv (set_previous_allocated l e3))
      (zinsert l (set_next_allocated i el) (zinsert i e3 cm))). split; [|split_and!].
    + rewrite release_run' by done. f_equal. subst h. unfold s0, inv, cm in *. clear - Hs Hc. unfold set_coremap in Hc. destruct c; state_eq.
    + by rewrite !zlen_zinsert.
    + rewrite zlookup_zinsert_eq by (by rewrite !zlen_zinsert). done.
    + intros j Hj. rewrite zlookup_zinsert_ne by done. destruct (decide (l = j)) as [<-|Hlj].
      * rewrite zlookup_zinsert_eq by (by rewrite zlen_zinsert). by rewrite decide_True, Hel.
      * rewrite !zlookup_zinsert_ne by done. by rewrite decide_False by congruence.
  - apply last_None in El as ->. rewrite Z.eqb_refl. cbn [negb hd] in *. run.
    rewrite (run_cm_update_again _ _ e3) by (by apply zlookup_zinsert_eq). rewrite zinsert_zinsert_eq.
    rewrite (run_cm_update_again _ _ (set_previous_allocated inv e3)) by (by apply zlookup_zinsert_eq).
    rewrite zinsert_zinsert_eq. run. rewrite Hv, Z.eqb_refl. run.
    exists (zinsert i (set_next_allocated inv (set_previous_allocated inv e3)) cm). split; [|split_and!].
    + rewrite release_run' by done. f_equal. unfold s0, inv, cm in *. clear - Hs Hc. unfold set_coremap in Hc. destruct c; state_eq.
    + by rewrite zlen_zinsert.
    + by apply zlookup_zinsert_eq.
    + intros j Hj. by rewrite zlookup_zinsert_ne by done.
Qed.
End append.

(** ** Finding a frame *)

Section find_frame.
Context {FS : Type}.
Implicit Types s : kstate FS.

(** No frame can be had without eviction. *)
Definition no_frame s : Prop :=
  (forall b, ~ freed (coremap (s_cm s)) b) /\ lastpaddr (s_ram s) < firstpaddr (s_ram s) + PAGE_SIZE.

(** A frame [i] was found: only its descriptor may have changed. *)
Record frame_found s (i : Z) (r1 : ram_st) (cm1 : list coremap_entry) : Prop := {
  fo_range : 0 < i /\ i * PAGE_SIZE < firstpaddr r1;
  fo_len : zlen cm1 = zlen (coremap (s_cm s));
  fo_same : forall j, j <> i -> zlookup cm1 j = zlookup (coremap (s_cm s)) j;
  fo_entry : is_Some (zlookup cm1 i);
  fo_wf : frames_wf r1 (s_cm s);
  fo_idle : forall e, zlookup (coremap (s_cm s)) i = Some e -> entry_type e <> COREMAP_BUSY_USER;
  fo_avail : ~ no_frame s
}.

Lemma find_user_frame_run a va s :
  idle s -> frames_wf (s_ram s) (s_cm s) ->
  (exists i r1 cm1, find_user_frame a va s = Ok (i * PAGE_SIZE) (set_ram r1 (upd_cm cm1 s)) /\ frame_found s i r1 cm1) \/
  (find_user_frame a va s = Ok 0 s /\ no_frame s).
Proof.
  intros Hs Hwf. unfold find_user_frame.
  destruct (allocate_free_pages_run 1 COREMAP_BUSY_USER a va s) as
    [(b & Hb & _ & Hblk & Hrun)|[Hnone Hrun]]; [done|done|by left|lia| |]; rewrite (bind_Ok _ _ _ _ _ Hrun).
  - left. destruct Hblk as [_ Hfr]. destruct (Hfr b) as (e & He & Ht); [lia|].
    destruct (frames_wf_tracked _ _ _ _ Hwf He) as [H0 Hlt]; [congruence|].
    pose proof (zlookup_Some_range _ _ _ He) as Hr.
    destruct (Z.eqb_spec (b * PAGE_SIZE) 0) as [E|_]; [unfold PAGE_SIZE in E; lia|].
    exists b, (s_ram s). eexists. split; [unfold ret; f_equal; by destruct s|]. split; try done.
    + by rewrite zlen_claimed.
    + intros j Hj. by rewrite zlookup_claimed, decide_False by lia.
    + rewrite zlookup_claimed, decide_True, He by lia. by eexists.
    + intros e' He'. congruence.
    + intros [Hno _]. apply (Hno b). by exists e.
  - cbn [Z.eqb]. rewrite run_acquire by done.
    pose proof (ram_stealmem_run 1 (with_held [stealmem_lock] s) (fw_ram _ _ Hwf) ltac:(lia)) as Hst.
    cbn [s_ram with_held set_cpu] in Hst. rewrite Z.mul_1_l in Hst.
    destruct (Z.ltb_spec (lastpaddr (s_ram s)) (firstpaddr (s_ram s) + PAGE_SIZE)) as [Hfull|Hroom];
      rewrite (bind_Ok _ _ _ _ _ Hst); run; unfold ret.
    + right. split; [f_equal; state_eq|]. split; [|done]. intros b Hb. apply (Hnone b).
      split; [apply freed_range in Hb; lia|]. intros i Hi. by replace i with b by lia.
    + left. destruct (fw_ram _ _ Hwf) as [R1 R2 R3 R4]. pose proof (fw_len _ _ Hwf) as Hlen.
      pose proof (fw_total _ _ Hwf) as Htot. set (i := firstpaddr (s_ram s) / PAGE_SIZE).
      assert (i * PAGE_SIZE = firstpaddr (s_ram s)) as Hi by (unfold i, PAGE_SIZE in *; lia).
      exists i, (ram_advance 1 (s_ram s)), (coremap (s_cm s)). rewrite Hi.
      split; [f_equal; rewrite upd_cm_same; state_eq|].
      assert (0 <= i < zlen (coremap (s_cm s))) as Hir by (unfold PAGE_SIZE in *; lia).
      split; try done.
      * cbn. unfold PAGE_SIZE in *. lia.
      * apply zlookup_in_range in Hir as [e He]. by exists e.
      * apply frames_wf_advance; [done|lia|lia].
      * intros e He Ht. rewrite (fw_untracked _ _ Hwf i) in Ht; [done|lia|done].
      * intros [_ Hno]. lia.
Qed.

(** The calling process has an address space. *)
Definition current_as s (a : positive) : Prop :=
  exists x pr, curproc (s_cpu s) = Some x /\ cell_at s x = Some pr /\ p_addrspace pr = Some a.

Lemma run_proc_getas {B} a (k : ptr -> M FS B) s :
  idle s -> current_as s a -> bind proc_getas k s = k (Some a) s.
Proof.
  intros Hs (x & pr & Hx & Hpr & Ha). unfold proc_getas. run. rewrite Hx. run.
  rewrite (run_load x pr) by done. run. rewrite Ha. f_equal. state_eq.
Qed.

(** The common prefix of the allocation. *)
Lemma page_aligned_land va : is_u32 va -> va mod PAGE_SIZE = 0 -> (Z.land va PAGE_FRAME =? va) = true.
Proof. intros H1 H2. by apply page_paddr_land. Qed.
End find_frame.

Section allocate.
Context {FS : Type} {VO : VnodeOps FS}.
Implicit Types s : kstate FS.

Lemma allocate_user_page_appends hp q a va s :
  (q <> [] \/ hp = None \/ hp = Some (invalid_reference (s_cm s))) ->
  idle s -> frames_wf (s_ram s) (s_cm s) -> fifo hp (s_cm s) q -> current_as s a ->
  is_u32 va -> va mod PAGE_SIZE = 0 -> ~ no_frame s ->
  exists i r' c', allocate_user_page va s = Ok (i * PAGE_SIZE) (set_ram r' (set_cm c' s)) /\
    appended hp q i (Some a) va (s_cm s) c' /\ (i ∉ q) /\ 0 < i /\ i * PAGE_SIZE < firstpaddr r' /\ frames_wf r' c'.
Proof.
  intros Hhp Hs Hwf Hf Ha Hva Hal Hfr. unfold allocate_user_page. rewrite (run_proc_getas a) by done. run.
  rewrite run_kassert by (by apply page_aligned_land).
  destruct (find_user_frame_run (Some a) va s Hs Hwf) as [(i & r1 & cm1 & Hrun & Hfo)|[_ Hno]]; [|done].
  rewrite (bind_Ok _ _ _ _ _ Hrun). destruct Hfo as [Hrange Hlen Hsame [e He] Hwf1 Hidle _].
  rewrite run_is_coremap_active by done. change (is_coremap_initialized _) with (is_coremap_initialized (s_cm s)).
  rewrite (fw_active _ _ Hwf). cbn [negb]. rewrite run_get_queue_ends by done.
  destruct (Z.eqb_spec (i * PAGE_SIZE) 0) as [E|_]; [unfold PAGE_SIZE in E; lia|]. cbn [negb fst snd].
  assert (i ∉ q) as Hiq.
  { intros Hin. destruct (dseg_elem _ _ _ _ _ (ff_seg _ _ _ Hf) Hin) as (e0 & He0 & [Hu _]). by eapply Hidle. }
  destruct (append_user_page_run hp q i (Some a) va e (s_cm s) (set_ram r1 (upd_cm cm1 s))) as (c' & Happ & Hpost);
    [done|done|by apply (fw_len _ _ Hwf)|by apply (fw_inv _ _ Hwf)|done|done|done|done|done|done|].
  cbn [s_cm set_ram upd_cm set_cm set_coremap last_allocated_page current_victim_page] in Happ |- *.
  rewrite (bind_Ok _ _ _ _ _ Happ). exists i, r1, c'. split; [done|]. split; [done|]. split; [done|].
  destruct Hrange as [H0 Hlt]. split; [done|]. split; [done|].
  destruct Hpost as (_ & Hown & _ & T1 & T2 & T3).
  eapply (frames_wf_update _ _ _ [i]); [done|done| |done..]. by intros j ->%list_elem_of_singleton.
Qed.
End allocate.

(** ** Eviction *)

(** The links after the oldest frame was given to a new owner and moved to the
    end of the queue. *)
Lemma evicted_links c v0 q0 l a va e cm' :
  fifo None c (v0 :: q0 ++ [l]) -> zlookup (coremap c) v0 = Some e -> zlen cm' = zlen (coremap c) ->
  zlookup cm' v0 = Some (set_previous_allocated l (set_next_allocated (invalid_reference c) (set_owner a va e))) ->
  (forall j, j <> v0 -> zlookup cm' j =
     if decide (j = l) then set_next_allocated v0 <$> zlookup (coremap c) j else zlookup (coremap c) j) ->
  let c' := set_queue_ends v0 (hd l q0) (set_coremap cm' c) in
  fifo (Some v0) c' ((q0 ++ [l]) ++ [v0]) /\ same_owners [v0] (coremap c) (coremap c').
Proof.
  intros Hf He Hlen Hv Hother c'. pose proof Hf as [Hseg Hnd Hvic Hlast Hc].
  apply NoDup_cons in Hnd as [Hv0 Hnd]. cbn [dseg] in Hseg. destruct Hseg as [(e0 & He0 & Hu & _) Hseg].
  rewrite He in He0. injection He0 as <-.
  destruct (dseg_elem _ _ _ _ l Hseg ltac:(set_solver)) as (el & Hel & _).
  split; [constructor; cbn|].
  - eapply (dseg_push (coremap c)); [done|done|done| |exact Hv|done|done|done|].
    + rewrite Hother by set_solver. by rewrite decide_True, Hel.
    + intros j Hj. rewrite Hother by set_solver. rewrite decide_False; [done|]. intros ->.
      apply NoDup_app in Hnd as (_ & Hd & _). apply (Hd l Hj). set_solver.
  - apply NoDup_app. split_and!; [done|set_solver|apply NoDup_singleton].
  - by destruct q0.
  - by rewrite last_snoc.
  - intros j ej Hj Ht. destruct (decide (j = v0)) as [->|Hne]; [set_solver|]. rewrite Hother in Hj by done.
    case_decide as El; [subst; set_solver|]. specialize (Hc j ej Hj Ht). set_solver.
  - split; [done|]. intros j Hj. cbn. rewrite Hother by set_solver. case_decide; [|done]. by destruct (zlookup (coremap c) j).
Qed.

Section evict.
Context {FS : Type} {VO : VnodeOps FS} {VL : VnodeLaws FS}.
Implicit Types s : kstate FS.

(** The new oldest frame still has the link to the frame that was evicted. *)
Definition handed_over (q' : list Z) (v0 : Z) (a : ptr) (va : Z) (c c' : coremap_st) : Prop :=
  fifo (Some v0) c' (q' ++ [v0]) /\ same_owners [v0] (coremap c) (coremap c') /\
  (exists e, zlookup (coremap c') v0 = Some e /\ user_frame e /\ address_space e = a /\ virtual_address e = va) /\
  total_ram_frames c' = total_ram_frames c /\ invalid_reference c' = invalid_reference c /\
  is_coremap_initialized c' = is_coremap_initialized c.

Lemma hand_over_run v0 q' a va address s :
  idle s -> zlen (coremap (s_cm s)) = invalid_reference (s_cm s) ->
  fifo None (s_cm s) (v0 :: q') -> q' <> [] ->
  exists c', hand_over (last_allocated_page (s_cm s)) v0 a va address (with_held [coremap_lock] s) =
      Ok address (set_cm c' s) /\ handed_over q' v0 a va (s_cm s) c'.
Proof.
  intros Hs Hlen Hf Hne. destruct q' as [|l q0 _] using rev_ind; [done|]. clear Hne.
  pose proof (ff_last _ _ _ Hf) as Hl. rewrite last_cons, last_snoc in Hl. cbn in Hl.
  pose proof (ff_nodup _ _ _ Hf) as Hnd. apply NoDup_cons in Hnd as [Hv0 Hnd].
  destruct (ff_seg _ _ _ Hf) as [(e & He & [Hu1 Hu2] & Hnext & _) _].
  pose proof (zlookup_Some_range _ _ _ He) as Hr. assert (l <> v0) as Hlv by set_solver.
  pose proof (fifo_range _ _ _ l Hf ltac:(set_solver)) as Hlr. destruct (zlookup_in_range _ _ Hlr) as [el Hel].
  set (cm := coremap (s_cm s)) in *. set (inv := invalid_reference (s_cm s)) in *.
  set (cm' := zinsert v0 (set_previous_allocated l (set_next_allocated inv (set_owner a va e)))
                (zinsert l (set_next_allocated v0 el) (zinsert v0 (set_owner a va e) cm))).
  exists (set_queue_ends v0 (hd l q0) (set_coremap cm' (s_cm s))). split.
  - unfold hand_over. rewrite (run_cm_get _ e) by done. rewrite run_kassert by (by apply bool_decide_eq_true).
    rewrite run_kassert by (by rewrite Hu2). rewrite (run_cm_update _ _ e) by done.
    change (coremap (s_cm (with_held [coremap_lock] s))) with cm.
    rewrite (run_cm_get _ (set_owner a va e)) by (by apply zlookup_zinsert_eq). run.
    change (invalid_reference (s_cm (upd_cm _ _))) with inv. rewrite Hl.
    rewrite (run_cm_update_again _ _ el) by (by rewrite zlookup_zinsert_ne).
    rewrite (run_cm_update_again _ _ (set_owner a va e))
      by (rewrite zlookup_zinsert_ne by done; by apply zlookup_zinsert_eq).
    rewrite (run_cm_update_again _ _ (set_next_allocated inv (set_owner a va e)))
      by (apply zlookup_zinsert_eq; by rewrite !zlen_zinsert).
    rewrite zinsert_zinsert_eq. fold cm'. run. rewrite run_kassert.
    2:{ apply negb_true_iff, Z.eqb_neq. cbn. rewrite Hnext.
        pose proof (fifo_range _ _ _ (hd inv (q0 ++ [l])) Hf ltac:(destruct q0; set_solver)). unfold inv, cm in *. lia. }
    run. unfold ret. f_equal. cbn [next_allocated set_owner]. rewrite Hnext.
    replace (hd inv (q0 ++ [l])) with (hd l q0) by (by destruct q0). unfold cm', inv, cm. clear - Hs. state_eq.
  - destruct (evicted_links (s_cm s) v0 q0 l a va e cm') as [H1 H2]; [done|done| | | |].
    + unfold cm'. by rewrite !zlen_zinsert.
    + unfold cm'. by rewrite zlookup_zinsert_eq by (by rewrite !zlen_zinsert).
    + intros j Hj. unfold cm'. rewrite zlookup_zinsert_ne by done. case_decide as El.
      * subst j. rewrite zlookup_zinsert_eq by (by rewrite zlen_zinsert). unfold cm in Hel. by rewrite Hel.
      * by rewrite !zlookup_zinsert_ne by done.
    + split_and!; try done. exists (set_previous_allocated l (set_next_allocated inv (set_owner a va e))).
      split_and!; [|done..]. cbn. unfold cm'. by rewrite zlookup_zinsert_eq by (by rewrite !zlen_zinsert).
Qed.

Lemma evict_user_page_run s v0 q' a va v b e av G r :
  idle s -> frames_wf (s_ram s) (s_cm s) -> fifo None (s_cm s) (v0 :: q') -> q' <> [] ->
  stats_wf (s_stats s) -> swap_ready (s_swap s) v b -> SwapReliable v -> free_slot b ->
  zlookup (coremap (s_cm s)) v0 = Some e -> address_space e = Some av -> is_u32 (virtual_address e) ->
  as_ok s av G -> seg_covers (sg_seg G r) (virtual_address e) ->
  pt_view (sg_tab G r) (virtual_address e) = Some (pte_resident (v0 * PAGE_SIZE)) ->
  page_paddr_ok (v0 * PAGE_SIZE) -> 0 < v0 ->
  exists k b' fs' c',
    evict_user_page (last_allocated_page (s_cm s)) (current_victim_page (s_cm s)) (Some a) va s =
      Ok (v0 * PAGE_SIZE)
        (set_cm c' (put_cell (sg_ptp G r) (pt_set (virtual_address e) (pte_swapped (k * PAGE_SIZE)) (sg_tab G r))
           (swapped_out s v b' fs'))) /\
    handed_over q' v0 (Some a) va (s_cm s) c' /\
    0 <= k < SWAP_SLOTS /\ bit b k = false /\ bit_set_at b b' k /\
    (forall j, 0 <= j < PAGE_SIZE -> file_byte fs' v (k * PAGE_SIZE + j) = s_mem s (v0 * PAGE_SIZE + j)) /\
    (forall w o, w <> v \/ ~ (k * PAGE_SIZE <= o < k * PAGE_SIZE + PAGE_SIZE) ->
       file_byte fs' w o = file_byte (s_fs s) w o).
Proof.
  intros Hs Hwf Hf Hne Hst Hsw Hrel Hfree He Hav Hva Hok Hc Hv Hpa H0.
  pose proof (ff_victim _ _ _ Hf) as Hvic. cbn in Hvic. rewrite Hvic.
  destruct (swap_out_run s (v0 * PAGE_SIZE) v b Hs Hst Hsw Hrel Hpa ltac:(unfold PAGE_SIZE; lia) Hfree)
    as (k & b' & fs' & Hrun & Hk & Hbk & Hset & Hcont & Hfr).
  set (s1 := swapped_out s v b' fs') in *.
  destruct (hand_over_run v0 q' (Some a) va (v0 * PAGE_SIZE)
    (put_cell (sg_ptp G r) (pt_set (virtual_address e) (pte_swapped (k * PAGE_SIZE)) (sg_tab G r)) s1))
    as (c' & Hho & Hpost); [done| |done|done|].
  { change (zlen (coremap (s_cm s)) = invalid_reference (s_cm s)). by rewrite (fw_len _ _ Hwf), (fw_inv _ _ Hwf). }
  exists k, b', fs', c'. split; [|split_and!; done || lia].
  unfold evict_user_page. rewrite u32_small by apply Hpa. rewrite (bind_Ok _ _ _ _ _ Hrun). cbn [negb Z.eqb].
  rewrite run_acquire by done. rewrite (run_cm_get _ e) by done.
  assert (as_ok (with_held [coremap_lock] s1) av G) as Hok' by (by apply (as_ok_heap s)).
  rewrite Hav, (bind_Ok _ _ _ _ _ (as_find_segment_coarse_run av G r _ _ Hok' Hc)). run.
  rewrite (run_cm_get _ e) by done.
  rewrite (bind_Ok _ _ _ _ _ (seg_swap_out_run _ av G r _ _ Hok' Hva Hv _ _ eq_refl)). exact Hho.
Qed.
End evict.
