(* ===== verification/Replacement.v ===== *)
(** * Page replacement keeps the contents of every page

    [alloc_user_page] against the invariant of [PageMap.v]: whichever frame it
    returns, every populated page of every address space keeps its bytes,
    in memory or in the swap file. *)

From S2P Require Import Prelude State Monad Machine Testbed Bitmap VmStats Ram VmTlb Swapfile Heap Coremap CoremapSpec LooseQueue KernelPages Pt Segment AddrSpace PageMap UserPage.

Section replacement.
Context {FS : Type} {VO : VnodeOps FS} {VL : VnodeLaws FS}.
Implicit Types s : kstate FS.

(** A frame can be had, with or without eviction. *)
Definition can_allocate s (q : list Z) (b : bitmap) : Prop :=
  ~ no_frame s \/ ((2 <= length q)%nat /\ free_slot b).

(** The page [va] of [a], which was in frame [i], is now in a slot of the swap
    file that was free, and its entry says so. *)
Definition evicted_to s s' (i : Z) (a : positive) (va : Z) (v : vnode) (b b' : bitmap) : Prop :=
  exists k, 0 <= k < SWAP_SLOTS /\ bit b k = false /\ bit b' k = true /\ page_at s' a va (pte_swapped (k * PAGE_SIZE)) /\
    forall j, 0 <= j < PAGE_SIZE -> file_byte (s_fs s') v (k * PAGE_SIZE + j) = s_mem s (i * PAGE_SIZE + j).

(** What an allocation for [(a, va)] that returned frame [i] keeps. *)
Record frame_given s s' (i : Z) (a : positive) (va : Z) (v : vnode) (b b' : bitmap) : Prop := {
  fg_owner : exists e, zlookup (coremap (s_cm s')) i = Some e /\ address_space e = Some a /\ virtual_address e = va;
  fg_states : forall a0 va0 p, (forall pa, p <> pte_resident pa) -> page_at s a0 va0 p -> page_at s' a0 va0 p;
  fg_segs : forall a0 G, as_ok s a0 G ->
    exists G', as_ok s' a0 G' /\ forall r, sg_ptr G' r = sg_ptr G r /\ sg_seg G' r = sg_seg G r;
  fg_bytes : forall a0 va0 j x, 0 <= j < PAGE_SIZE -> page_byte s v a0 va0 j x -> page_byte s' v a0 va0 j x;
  fg_files : forall w o, w <> v -> file_byte (s_fs s') w o = file_byte (s_fs s) w o;
  fg_slots : forall k, 0 <= k -> bit b k = true -> bit b' k = true;
  fg_mem : s_mem s' = s_mem s;
  fg_tlb : s_tlb s' = s_tlb s;
  fg_cpu : s_cpu s' = s_cpu s;
  fg_stats : s_stats s' = s_stats s \/ s_stats s' = bump (stat_index VMSTAT_SWAPFILE_WRITE) (s_stats s);
  fg_kept : forall a0 va0 p, p <> pte_resident (i * PAGE_SIZE) -> page_at s a0 va0 p -> page_at s' a0 va0 p;
  fg_evicted : forall a0 va0, page_at s a0 va0 (pte_resident (i * PAGE_SIZE)) -> evicted_to s s' i a0 va0 v b b'
}.

Lemma run_pagevm_can_sleep {B} (k : unit -> M FS B) s :
  idle s -> t_in_interrupt (s_cpu s) = false -> bind pagevm_can_sleep k s = k tt s.
Proof.
  intros Hs Hi. unfold pagevm_can_sleep. run. rewrite run_kassert by (by apply bool_decide_eq_true).
  by rewrite run_kassert by (by rewrite Hi).
Qed.

(** The descriptors of the frames other than [i] describe the same owners. *)
Lemma same_owners_entry i cm cm' j e' :
  same_owners [i] cm cm' -> j <> i -> zlookup cm' j = Some e' ->
  exists e, zlookup cm j = Some e /\ address_space e' = address_space e /\ virtual_address e' = virtual_address e.
Proof.
  intros Hown Hj He'. destruct (same_owners_lookup _ _ _ j e' Hown ltac:(set_solver) He') as (e & He & Hv).
  exists e. unfold owner_view in Hv. split_and!; [done|congruence..].
Qed.

Lemma same_owners_entry' i cm cm' j e :
  same_owners [i] cm cm' -> j <> i -> zlookup cm j = Some e ->
  exists e', zlookup cm' j = Some e' /\ address_space e' = address_space e /\ virtual_address e' = virtual_address e.
Proof.
  intros Hown Hj He. destruct (same_owners_lookup' _ _ _ j e Hown ltac:(set_solver) He) as (e' & He' & Hv).
  exists e'. unfold owner_view in Hv. split_and!; [done|congruence..].
Qed.

(** Without eviction. *)
Lemma appended_inv s q v b i a va r' c' :
  vm_inv None s q v b -> appended None q i (Some a) va (s_cm s) c' -> i ∉ q -> frames_wf r' c' ->
  let s' := set_ram r' (set_cm c' s) in
  vm_inv (Some i) s' (q ++ [i]) v b /\ frame_given s s' i a va v b b.
Proof.
  intros Hinv (Hf & Hown & (e & He & _ & Ha & Hva) & _) Hi Hwf s'. destruct Hinv as [I1 I2 I3 I4 I5 I6 I7 I8 I9 I10].
  assert (forall a0 va0 p, page_at s' a0 va0 p <-> page_at s a0 va0 p) as Hat
    by (intros; split; by apply page_at_heap).
  split; [constructor; try done|constructor; try done].
  - intros a0 G0 r0 a1 G1 r1 H0 H1. apply (I6 a0 G0 r0 a1 G1 r1); by apply (as_ok_heap s').
  - intros j ej Hj Hne Hej. assert (j <> i) as Hji by congruence.
    destruct (same_owners_entry _ _ _ _ _ Hown Hji Hej) as (e0 & He0 & Ea & Ev).
    destruct (I7 j e0 ltac:(set_solver) ltac:(done) He0) as (a0 & A1 & A2 & A3).
    exists a0. rewrite Ea, Ev, Hat. done.
  - intros a0 va0 pa Hp%Hat. destruct (I8 _ _ _ Hp) as (j & ej & E1 & E2 & _ & E3 & E4 & E5).
    assert (j <> i) as Hji by (intros ->; done).
    destruct (same_owners_entry' _ _ _ _ _ Hown Hji E3) as (e' & He' & Ea & Ev).
    exists j, e'. rewrite Ea, Ev. split_and!; try done; [set_solver|congruence].
  - intros a0 va0 off Hp%Hat. by apply (I9 a0 va0).
  - intros a0 va0 a1 va1 off Hp%Hat Hp'%Hat. by eapply I10.
  - by exists e.
  - intros a0 va0 p _ Hp. by apply Hat.
  - intros a0 G HG. exists G. split; [by apply (as_ok_heap s)|done].
  - intros a0 va0 j x _ [(pa & Hp & ->)|(off & Hp & ->)]; [left|right]; eexists; (split; [by apply Hat|done]).
  - by left.
  - intros a0 va0 p _ Hp. by apply Hat.
  - intros a0 va0 Hp. destruct (I8 _ _ _ Hp) as (j & ej & E1 & E2 & _). assert (j = i) as -> by (unfold PAGE_SIZE in E1; lia). done.
Qed.

(** With eviction: [v0] held the page [vav] of [av], which went to slot [k]. *)
Lemma evicted_inv s q' v b b' v0 a va e av G r k fs' c' :
  vm_inv None s (v0 :: q') v b ->
  zlookup (coremap (s_cm s)) v0 = Some e -> address_space e = Some av -> is_u32 (virtual_address e) ->
  as_ok s av G -> seg_covers (sg_seg G r) (virtual_address e) ->
  pt_view (sg_tab G r) (virtual_address e) = Some (pte_resident (v0 * PAGE_SIZE)) ->
  handed_over q' v0 (Some a) va (s_cm s) c' -> frames_wf (s_ram s) c' ->
  0 <= k < SWAP_SLOTS -> bit b k = false -> bit_set_at b b' k ->
  (forall j, 0 <= j < PAGE_SIZE -> file_byte fs' v (k * PAGE_SIZE + j) = s_mem s (v0 * PAGE_SIZE + j)) ->
  (forall w o, w <> v \/ ~ (k * PAGE_SIZE <= o < k * PAGE_SIZE + PAGE_SIZE) ->
     file_byte fs' w o = file_byte (s_fs s) w o) ->
  let s' := set_cm c' (put_cell (sg_ptp G r) (pt_set (virtual_address e) (pte_swapped (k * PAGE_SIZE)) (sg_tab G r))
                         (swapped_out s v b' fs')) in
  vm_inv (Some v0) s' (q' ++ [v0]) v b' /\ frame_given s s' v0 a va v b b'.
Proof.
  intros Hinv He Hav Hvav Hok Hc Hv (Hf%fifo_weaken & Hown & (e1 & He1 & _ & Ha1 & Hva1) & _) Hwf Hk Hbk (Bn & Bwf & Bset)
    Hcont Hfr s'. destruct Hinv as [I1 I2 I3 I4 I5 I6 I7 I8 I9 I10].
  set (vav := virtual_address e) in *. destruct (slot_offset_ok k Hk) as [Hoff _].
  set (t := pt_set vav (pte_swapped (k * PAGE_SIZE)) (sg_tab G r)) in *.
  destruct (page_at_set s av G r vav _ (pte_swapped (k * PAGE_SIZE)) I6 Hok Hc Hv Hoff) as (Hset & Hsep & _).
  fold t in Hset, Hsep. set (s1 := put_cell (sg_ptp G r) t s) in *.
  assert (forall a0 va0 p, page_at s' a0 va0 p <->
    if decide (a0 = av /\ page_of va0 = page_of vav) then p = pte_swapped (k * PAGE_SIZE) else page_at s a0 va0 p) as Hat.
  { intros a0 va0 p. rewrite <- Hset. split; by apply page_at_heap. }
  assert (page_at s av vav (pte_resident (v0 * PAGE_SIZE))) as Hvic by (by exists G, r).
  assert (v0 ∉ q') as Hnd by (pose proof (ff_nodup _ _ _ I3) as N; by apply NoDup_cons in N as []).
  assert (forall a0 va0 p, page_at s a0 va0 p -> (forall pa, p <> pte_resident pa) ->
    ~ (a0 = av /\ page_of va0 = page_of vav)) as Hother.
  { intros a0 va0 p Hp Hne [-> Hpg]. apply (Hne (v0 * PAGE_SIZE)).
    eapply page_at_unique; [exact Hp|]. by eapply page_at_page. }
  assert (forall a0 va0 off, page_at s a0 va0 (pte_swapped off) -> off <> k * PAGE_SIZE) as Hfresh.
  { intros a0 va0 off Hp E. destruct (I9 _ _ _ Hp) as (k' & -> & Hk' & Hb).
    assert (k' = k) as -> by (unfold PAGE_SIZE in E; lia). congruence. }
  split; constructor; try done.
  - by apply bump_wf.
  - split; [done|]. split; [done|]. by rewrite Bn; apply I5.
  - intros a0 G0 r0 a2 G2 r2 H0 H2. apply (Hsep a0 G0 r0 a2 G2 r2); by apply (as_ok_heap s').
  - intros j ej Hj Hne Hej. assert (j <> v0) as Hji by congruence.
    destruct (same_owners_entry _ _ _ _ _ Hown Hji Hej) as (e0 & He0 & Ea & Ev).
    destruct (I7 j e0 ltac:(set_solver) ltac:(done) He0) as (a0 & A1 & A2 & A3).
    exists a0. rewrite Ea, Ev, Hat. split_and!; [done|done|]. rewrite decide_False; [done|].
    intros [-> Hpg]. assert (pte_resident (j * PAGE_SIZE) = pte_resident (v0 * PAGE_SIZE)) as E.
    { eapply page_at_unique; [exact A3|]. by eapply page_at_page. }
    injection E as E. unfold PAGE_SIZE in E. lia.
  - intros a0 va0 pa Hp%Hat. case_decide as Hd; [done|].
    destruct (I8 _ _ _ Hp) as (j & ej & E1 & E2 & _ & E3 & E4 & E5).
    assert (j <> v0) as Hji. { intros ->. apply Hd. rewrite He in E3. injection E3 as <-. split; [congruence|done]. }
    destruct (same_owners_entry' _ _ _ _ _ Hown Hji E3) as (e' & He' & Ea & Ev).
    exists j, e'. rewrite Ea, Ev. split_and!; try done; [set_solver|congruence].
  - intros a0 va0 off Hp%Hat. case_decide as Hd.
    + injection Hp as ->. exists k. split_and!; [done|lia|lia|]. rewrite Bset by lia. by rewrite bool_decide_eq_true_2.
    + destruct (I9 _ _ _ Hp) as (k' & -> & Hk' & Hb). exists k'. split_and!; [done|lia|lia|].
      rewrite Bset by lia. by rewrite Hb, orb_true_r.
  - intros a0 va0 a2 va2 off Hp%Hat Hp'%Hat. case_decide as Hd; case_decide as Hd'.
    + destruct Hd as [-> ->], Hd' as [-> ->]. done.
    + injection Hp' as ->. by destruct (Hfresh _ _ _ Hp).
    + injection Hp as ->. by destruct (Hfresh _ _ _ Hp').
    + by eapply I10.
  - by exists e1.
  - intros a0 va0 p Hne Hp. apply Hat. rewrite decide_False by (by eapply Hother). done.
  - intros a0 G0 HG0. exists (retab (sg_ptp G r) t G0). split; [|done]. apply (as_ok_heap s1); [done|].
    destruct (ao_live _ _ _ Hok r) as [L1 L2 L3 [buf L4] L5 L6 L7].
    eapply as_ok_retab; [done|exact L3|by eapply pt_set_wf|apply pt_num_pages_set|apply pt_base_set].
  - intros a0 va0 j x Hj [(pa & Hp & ->)|(off & Hp & ->)].
    + destruct (decide (a0 = av /\ page_of va0 = page_of vav)) as [Hd|Hd].
      * right. exists (k * PAGE_SIZE). split; [by apply Hat; rewrite decide_True|]. destruct Hd as [-> Hpg].
        assert (pte_resident pa = pte_resident (v0 * PAGE_SIZE)) as [= ->].
        { eapply page_at_unique; [exact Hp|]. by eapply page_at_page. }
        cbn. by rewrite Hcont.
      * left. exists pa. split; [by apply Hat; rewrite decide_False|done].
    + right. exists off. split; [apply Hat; rewrite decide_False; [done|by eapply Hother]|].
      destruct (I9 _ _ _ Hp) as (k' & -> & Hk' & _). pose proof (Hfresh _ _ _ Hp).
      cbn. rewrite Hfr; [done|]. right. unfold PAGE_SIZE in *. lia.
  - intros w o Hw. cbn. apply Hfr. by left.
  - intros k' Hk' Hb. rewrite Bset by lia. by rewrite Hb, orb_true_r.
  - by right.
  - intros a0 va0 p Hne Hp. apply Hat. rewrite decide_False; [done|]. intros [-> Hpg]. apply Hne.
    eapply page_at_unique; [exact Hp|]. by eapply page_at_page.
  - intros a0 va0 Hp. exists k. split_and!; [lia|lia|done| | |exact Hcont].
    + rewrite Bset by lia. by rewrite bool_decide_eq_true_2.
    + apply Hat. rewrite decide_True; [done|]. destruct (I8 _ _ _ Hp) as (j & ej & E1 & _ & _ & E3 & E4 & E5).
      assert (j = v0) as -> by (unfold PAGE_SIZE in E1; lia). rewrite He in E3. injection E3 as <-. split; [congruence|done].
Qed.

(** The eviction branch is reached when no frame is left. *)
Lemma allocate_user_page_full a va s :
  idle s -> frames_wf (s_ram s) (s_cm s) -> current_as s a -> is_u32 va -> va mod PAGE_SIZE = 0 -> no_frame s ->
  allocate_user_page va s =
    evict_user_page (last_allocated_page (s_cm s)) (current_victim_page (s_cm s)) (Some a) va s.
Proof.
  intros Hs Hwf Ha Hva Hal Hno. unfold allocate_user_page. rewrite (run_proc_getas a) by done. run.
  rewrite run_kassert by (by apply page_aligned_land).
  destruct (find_user_frame_run (Some a) va s Hs Hwf) as [(i & r1 & cm1 & Hrun & Hfo)|[Hrun _]].
  - by destruct (fo_avail _ _ _ _ Hfo).
  - rewrite (bind_Ok _ _ _ _ _ Hrun). rewrite run_is_coremap_active, (fw_active _ _ Hwf) by done. cbn [negb].
    rewrite run_get_queue_ends by done. done.
Qed.

Lemma alloc_user_page_inv s q v b a va :
  vm_inv None s q v b -> t_in_interrupt (s_cpu s) = false -> current_as s a ->
  is_u32 va -> va mod PAGE_SIZE = 0 -> SwapReliable v -> can_allocate s q b ->
  exists i s' q' b', alloc_user_page va s = Ok (i * PAGE_SIZE) s' /\ vm_inv (Some i) s' q' v b' /\ i ∈ q' /\
    frame_given s s' i a va v b b' /\
    (((i ∉ q) /\ q' = q ++ [i]) \/ (no_frame s /\ exists q0, q = i :: q0 /\ q' = q0 ++ [i])) /\
    (link_ok (s_cm s) q -> link_ok (s_cm s') q').
Proof.
  intros Hinv Hint Ha Hva Hal Hrel Hcan. pose proof Hinv as [I1 I2 I3 I4 I5 I6 I7 I8 I9 I10].
  unfold alloc_user_page. rewrite run_pagevm_can_sleep by done.
  assert (~ no_frame s \/ no_frame s /\ (2 <= length q)%nat /\ free_slot b) as [Hfr|(Hno & Hlen & Hfree)].
  { destruct Hcan as [|[]]; [by left|].
    destruct (find_user_frame_run (Some a) va s I1 I2) as [(i & r1 & cm1 & Hrun & Hfo)|[_ Hno]]; [|by right].
    left. apply (fo_avail _ _ _ _ Hfo). }
  - destruct (allocate_user_page_appends (Some (back_link (s_cm s) q)) q a va s) as (i & r' & c' & Hrun & Happ & Hi & _ & _ & Hwf);
      [destruct q; [right; by right|by left]|done|done|by apply fifo_back_link|done..|].
    pose proof Happ as (Hf' & A2 & A3 & A4 & A5 & A6).
    destruct (appended_inv s q v b i a va r' c' Hinv ltac:(split; [by eapply fifo_weaken|done]) Hi Hwf) as [H1 H2].
    exists i. do 3 eexists. split; [exact Hrun|]. split; [exact H1|]. split; [set_solver|].
    split; [exact H2|]. split; [by left|]. unfold link_ok. cbn [s_cm set_ram set_cm]. rewrite (back_link_fifo _ _ _ Hf'), A5 by (by destruct q). done.
  - rewrite (allocate_user_page_full a va s) by done. destruct q as [|v0 q']; [cbn in Hlen; lia|].
    destruct (ff_seg _ _ _ I3) as [(e & He & _) _].
    destruct (I7 v0 e ltac:(set_solver) ltac:(done) He) as (av & Hav & Hvav & (G & r & Hok & Hc & Hv)).
    destruct (vi_frame_range _ _ _ _ _ v0 Hinv ltac:(set_solver)) as (H0 & Hlt0 & _ & Hpa).
    destruct (evict_user_page_run s v0 q' a va v b e av G r) as
      (k & b' & fs' & c' & Hrun & Hho & Hk & Hbk & Hset & Hcont & Hfr); try done.
    { intros ->. cbn in Hlen. lia. }
    assert (frames_wf (s_ram s) c') as Hwf.
    { destruct Hho as (_ & Hown & _ & T1 & T2 & T3). eapply (frames_wf_update _ _ _ [v0]); [done|done| |done..].
      by intros j ->%list_elem_of_singleton. }
    destruct (evicted_inv s q' v b b' v0 a va e av G r k fs' c' Hinv He Hav Hvav Hok Hc Hv Hho Hwf Hk Hbk Hset Hcont Hfr)
      as [H1 H2].
    exists v0. do 3 eexists. split; [exact Hrun|]. split; [exact H1|]. split; [set_solver|].
    split; [exact H2|]. split; [right; split; [done|]; by exists q'|]. destruct Hho as (Hf' & _ & _ & _ & A5 & _). intros _. unfold link_ok. cbn [s_cm set_cm].
    rewrite (back_link_fifo _ _ _ Hf'), A5 by (by destruct q'). rewrite (fw_inv _ _ I2), <- (fw_len _ _ I2). pose proof (zlookup_Some_range _ _ _ He). lia.
Qed.

(** Mapping the frame that was given closes the hole.  [s2] differs from [s1]
    by the entry of [va], by the contents of frame [i] and, when the page was
    swapped, by the release of its slot. *)
Record hole_closed s1 s2 (i : Z) (a : positive) (G : segs) (r : role) (va : Z) (p0 : pte) (v : vnode) (b1 b2 : bitmap) : Prop := {
  hc_heap : s_heap s2 = s_heap (put_cell (sg_ptp G r) (pt_set va (pte_resident (i * PAGE_SIZE)) (sg_tab G r)) s1);
  hc_cm : s_cm s2 = s_cm s1;
  hc_ram : s_ram s2 = s_ram s1;
  hc_cpu : s_cpu s2 = s_cpu s1;
  hc_stats : stats_wf (s_stats s2);
  hc_swap : swap_ready (s_swap s2) v b2;
  hc_bits : forall k, 0 <= k -> bit b1 k = true -> p0 <> pte_swapped (k * PAGE_SIZE) -> bit b2 k = true;
  hc_mem : forall x, ~ (i * PAGE_SIZE <= x < i * PAGE_SIZE + PAGE_SIZE) -> s_mem s2 x = s_mem s1 x;
  hc_files : forall w o, file_byte (s_fs s2) w o = file_byte (s_fs s1) w o
}.

Lemma close_hole s1 s2 i q v b1 b2 a G r va p0 e :
  vm_inv (Some i) s1 q v b1 -> i ∈ q -> is_u32 va ->
  zlookup (coremap (s_cm s1)) i = Some e -> address_space e = Some a -> virtual_address e = page_base va ->
  as_ok s1 a G -> seg_covers (sg_seg G r) va -> pt_view (sg_tab G r) va = Some p0 ->
  (forall pa, p0 <> pte_resident pa) ->
  hole_closed s1 s2 i a G r va p0 v b1 b2 ->
  vm_inv None s2 q v b2 /\
  (forall a0 va0 p, page_at s2 a0 va0 p <->
     if decide (a0 = a /\ page_of va0 = page_of va) then p = pte_resident (i * PAGE_SIZE) else page_at s1 a0 va0 p) /\
  (forall a0 va0 j x, 0 <= j < PAGE_SIZE -> ~ (a0 = a /\ page_of va0 = page_of va) ->
     page_byte s1 v a0 va0 j x -> page_byte s2 v a0 va0 j x).
Proof.
  intros Hinv Hi Hva He Hea Hev Hok Hc Hv Hnr [C1 C2 C3 C4 C5 C6 C7 C8 C9].
  destruct (vi_frame_range _ _ _ _ _ i Hinv Hi) as (H0 & Hlt & _ & Hpa). pose proof Hinv as [I1 I2 I3 I4 I5 I6 I7 I8 I9 I10].
  assert (pte_ok (pte_resident (i * PAGE_SIZE))) as Hpok by (split; [done|unfold PAGE_SIZE; lia]).
  destruct (page_at_set s1 a G r va _ (pte_resident (i * PAGE_SIZE)) I6 Hok Hc Hv Hpok) as (Hset & Hsep & _).
  set (s1' := put_cell _ _ s1) in *.
  assert (forall a0 va0 p, page_at s2 a0 va0 p <->
     if decide (a0 = a /\ page_of va0 = page_of va) then p = pte_resident (i * PAGE_SIZE) else page_at s1 a0 va0 p) as Hat.
  { intros a0 va0 p. rewrite <- Hset. split; by apply page_at_heap. }
  assert (page_at s1 a va p0) as Hp0 by (by exists G, r).
  assert (forall a0 va0 pa, page_at s1 a0 va0 (pte_resident pa) -> ~ (a0 = a /\ page_of va0 = page_of va)) as Hne.
  { intros a0 va0 pa Hp [-> Hpg]. apply (Hnr pa). eapply page_at_unique; [exact Hp0|]. by eapply page_at_page. }
  assert (page_of (page_base va) = page_of va) as Hpb by (unfold page_base, page_of, PAGE_SIZE; lia).
  split; [|split; [done|]].
  - constructor; try congruence.
    + intros a0 G0 r0 a2 G2 r2 K0 K2. apply (Hsep a0 G0 r0 a2 G2 r2); by apply (as_ok_heap s2).
    + intros j ej Hj _. rewrite C2. intros Hej. destruct (decide (j = i)) as [->|Hji].
      * rewrite He in Hej. injection Hej as <-. exists a. rewrite Hev. split; [done|]. split.
        { unfold is_u32, page_base, page_of, PAGE_SIZE in *. lia. }
        apply Hat. by rewrite decide_True.
      * destruct (I7 j ej Hj ltac:(congruence) Hej) as (a0 & A1 & A2 & A3). exists a0. split; [done|]. split; [done|].
        apply Hat. rewrite decide_False; [done|]. by eapply Hne.
    + intros a0 va0 pa Hp%Hat. rewrite C2. case_decide as Hd.
      * injection Hp as ->. destruct Hd as [-> Hpg]. exists i, e. rewrite Hev. split_and!; try done; congruence.
      * destruct (I8 _ _ _ Hp) as (j & ej & E1 & E2 & E3 & E4 & E5 & E6). exists j, ej. done.
    + intros a0 va0 off Hp%Hat. case_decide as Hd; [done|].
      destruct (I9 _ _ _ Hp) as (k & -> & Hk & Hb). exists k. split; [done|]. split; [done|].
      apply C7; [lia|done|]. intros ->. apply Hd. eapply I10; [exact Hp|exact Hp0].
    + intros a0 va0 a2 va2 off Hp%Hat Hp'%Hat. case_decide; [done|]. case_decide; [done|]. by eapply I10.
  - intros a0 va0 j x Hj Hd [(pa & Hp & ->)|(off & Hp & ->)].
    + left. exists pa. split; [by apply Hat; rewrite decide_False|].
      destruct (I8 _ _ _ Hp) as (i' & e' & -> & _ & Hii & _). symmetry. apply C8.
      assert (i' <> i) by congruence. unfold PAGE_SIZE in *. lia.
    + right. exists off. split; [by apply Hat; rewrite decide_False|]. by rewrite C9.
Qed.


(** What releasing the oldest frame does when it still has a back link. *)
Lemma unlink_linked_head v0 q' x s :
  fifo (Some x) (s_cm s) (v0 :: q') -> q' <> [] -> x ∈ v0 :: q' -> x <> v0 ->
  zlen (coremap (s_cm s)) = invalid_reference (s_cm s) ->
  exists cm', unlink_page v0 (last_allocated_page (s_cm s)) (current_victim_page (s_cm s)) s =
      Ok (last_allocated_page (s_cm s), current_victim_page (s_cm s)) (upd_cm cm' s) /\
    same_owners [] (coremap (s_cm s)) cm'.
Proof.
  intros Hf Hne Hx Hxv Hinv. destruct (ff_seg _ _ _ Hf) as [(e & He & Hu & Hnext & Hprev) _].
  destruct q' as [|h q']; [done|]. cbn in Hnext.
  assert (forall i, i ∈ v0 :: h :: q' -> exists ei, zlookup (coremap (s_cm s)) i = Some ei /\ i <> invalid_reference (s_cm s)) as Hin.
  { intros i Hi. pose proof (fifo_range _ _ _ _ Hf Hi) as Hr. destruct (zlookup_in_range _ _ Hr) as [ei Hei].
    exists ei. split; [done|lia]. }
  destruct (Hin h ltac:(set_solver)) as (eh & Heh & Hhi). destruct (Hin x Hx) as (ex & Hex & Hxi).
  assert (h <> v0) as Hhv by (pose proof (ff_nodup _ _ _ Hf) as N; apply NoDup_cons in N as [N _]; set_solver).
  unfold unlink_page. rewrite (run_cm_get _ e) by done. run. rewrite Hprev, Hnext.
  destruct (Z.eqb_spec x (invalid_reference (s_cm s))); [done|].
  destruct (Z.eqb_spec h (invalid_reference (s_cm s))); [done|].
  rewrite (run_cm_update _ _ eh) by done. rewrite (run_cm_get _ e) by (cbn; by rewrite zlookup_zinsert_ne).
  rewrite Hprev, Hnext. pose proof (zlookup_Some_range _ _ _ Heh) as Hr.
  destruct (zlookup_in_range (zinsert h (set_previous_allocated x eh) (coremap (s_cm s))) x) as [ex' Hex'].
  { rewrite zlen_zinsert. by eapply zlookup_Some_range. }
  rewrite (run_cm_update _ _ ex') by done. eexists. split; [reflexivity|]. cbn.
  eapply same_owners_link; [eapply same_owners_link; [apply same_owners_refl|done|done]|done|done].
Qed.

(** The eviction as [alloc_user_page] performs it. *)
Lemma alloc_user_page_evicts s v0 q' v b a va :
  vm_inv None s (v0 :: q') v b -> t_in_interrupt (s_cpu s) = false -> current_as s a ->
  is_u32 va -> va mod PAGE_SIZE = 0 -> SwapReliable v -> no_frame s -> free_slot b -> q' <> [] ->
  exists s1, alloc_user_page va s = Ok (v0 * PAGE_SIZE) s1 /\ idle s1 /\ frames_wf (s_ram s1) (s_cm s1) /\
    fifo (Some v0) (s_cm s1) (q' ++ [v0]).
Proof.
  intros Hinv Hint Ha Hva Hal Hrel Hno Hfree Hne. pose proof Hinv as [I1 I2 I3 I4 I5 I6 I7 I8 I9 I10].
  unfold alloc_user_page. rewrite run_pagevm_can_sleep, (allocate_user_page_full a va s) by done.
  destruct (ff_seg _ _ _ I3) as [(e & He & _) _].
  destruct (I7 v0 e ltac:(set_solver) ltac:(done) He) as (av & Hav & Hvav & (G & r & Hok & Hc & Hv)).
  destruct (vi_frame_range _ _ _ _ _ v0 Hinv ltac:(set_solver)) as (H0 & Hlt0 & _ & Hpa).
  destruct (evict_user_page_run s v0 q' a va v b e av G r) as (k & b' & fs' & c' & Hrun & Hho & _); try done.
  eexists. split; [exact Hrun|]. destruct Hho as (Hf & Hown & _ & T1 & T2 & T3). split_and!; try done.
  eapply (frames_wf_update _ _ _ [v0]); [done|done| |done..]. by intros j ->%list_elem_of_singleton.
Qed.

(** (C39) An eviction leaves the queue in a state that the release code does
    not expect: the back link of the new oldest frame is not cleared.  When
    the owner of that frame frees it next (as at the exit of a process),
    [free_page_user] takes it for a frame in the middle of the queue, and
    [current_victim_page] keeps pointing to the frame just freed. *)
Theorem eviction_then_free_keeps_freed_victim s v0 h q'' v b a va :
  vm_inv None s (v0 :: h :: q'') v b -> t_in_interrupt (s_cpu s) = false -> current_as s a ->
  is_u32 va -> va mod PAGE_SIZE = 0 -> SwapReliable v -> no_frame s -> free_slot b ->
  exists s1 s2, alloc_user_page va s = Ok (v0 * PAGE_SIZE) s1 /\ free_user_page (h * PAGE_SIZE) s1 = Ok tt s2 /\
    current_victim_page (s_cm s2) = h /\ freed (coremap (s_cm s2)) h.
Proof.
  intros Hinv Hint Ha Hva Hal Hrel Hno Hfree.
  destruct (alloc_user_page_evicts s v0 (h :: q'') v b a va) as (s1 & Hrun & Hs1 & Hwf1 & Hf1); [done..|].
  cbn [app] in Hf1. destruct (ff_seg _ _ _ Hf1) as [(e & He & [_ Hsz] & _) _].
  assert (v0 <> h) as Hvh by (pose proof (ff_nodup _ _ _ (vi_fifo _ _ _ _ _ Hinv)) as N; apply NoDup_cons in N as [N _]; set_solver).
  destruct (unlink_linked_head h (q'' ++ [v0]) v0 (with_held [coremap_lock] s1)) as (cm1 & Hun & Hown);
    [done|by destruct q''|set_solver|done|by cbn; rewrite (fw_len _ _ Hwf1), (fw_inv _ _ Hwf1)|].
  destruct (same_owners_lookup' _ _ _ h e Hown ltac:(set_solver) He) as (e1 & He1 & _).
  pose proof (run_free_page_user_links h e e1 _ cm1 (fun _ => ret tt) s1 Hs1 Hwf1 He Hsz Hun (proj1 Hown) He1) as Hfree'.
  exists s1. eexists. split; [done|]. split.
  { unfold free_user_page. unfold bind in Hfree'. destruct (free_page_user _ s1) as [[] s2|]; [|done].
    unfold ret in Hfree'. exact Hfree'. }
  split; [exact (ff_victim _ _ _ Hf1)|]. 
  exists (freed_user_entry (invalid_reference (s_cm s1)) e1). split; [|done]. cbn. apply zlookup_zinsert_eq.
  by eapply zlookup_Some_range.
Qed.
End replacement.
