(* ===== verification/PageVm.v ===== *)
(** * The page fault handler and the life of the VM system ([kern/vm/pagevm.c]) *)

From S2P Require Import Prelude State Monad Machine Testbed Bitmap VmStats Ram VmTlb Swapfile Heap Coremap CoremapSpec KernelPages Pt Segment AddrSpace PageMap UserPage Replacement.

Definition VM_FAULT_READ : Z := 0.
Definition VM_FAULT_WRITE : Z := 1.
Definition VM_FAULT_READONLY : Z := 2.

(** [permissions == PAGE_RW || permissions == PAGE_STACK] *)
Definition seg_writable (g : ps_t) : bool :=
  bool_decide (permissions g = PAGE_RW) || bool_decide (permissions g = PAGE_STACK).

Section pagevm.
Context {FS : Type} {VO : VnodeOps FS}.
Implicit Types s : kstate FS.

Definition vm_bootstrap : M FS unit :=
  vm_tlb_reset_current_victim ;;
  coremap_init ;;
  _ <- swap_init ;;
  vmstats_init.

Definition vm_shutdown : M FS unit :=
  swap_shutdown ;;
  coremap_shutdown ;;
  vmstats_show.

(** The frame of the page: given by the page table, or allocated; the flag is
    [unpopulated]. *)
Definition fault_page (ps : ptr) (faultaddress : Z) : M FS (Z * bool) :=
  let page_aligned_fault_address := Z.land faultaddress PAGE_FRAME in
  physical_address <- seg_get_paddr ps faultaddress ;;
  if physical_address =? PT_EMPTY_ENTRY then
    physical_address <- alloc_user_page page_aligned_fault_address ;;
    seg_add_pt_entry ps faultaddress physical_address ;;
    g <- load (T := ps_t) ps ;;
    (if bool_decide (permissions g = PAGE_STACK) then
       bzero (PADDR_TO_KVADDR physical_address) PAGE_SIZE ;;
       vmstats_increment (stat_index VMSTAT_PAGE_FAULT_ZERO)
     else ret tt) ;;
    ret (physical_address, true)
  else if physical_address =? PT_SWAPPED_ENTRY then
    physical_address <- alloc_user_page page_aligned_fault_address ;;
    seg_swap_in ps faultaddress physical_address ;;
    ret (physical_address, false)
  else
    vmstats_increment (stat_index VMSTAT_TLB_RELOAD) ;;
    ret (physical_address, false).

(** The update of the TLB, with interrupts off. *)
Definition install_mapping (ps : ptr) (faultaddress physical_address : Z) : M FS unit :=
  spl <- splhigh ;;
  peek <- vm_tlb_peek_victim ;;
  (if negb (Z.land peek TLBLO_VALID =? 0)
   then vmstats_increment (stat_index VMSTAT_TLB_MISS_REPLACE)
   else vmstats_increment (stat_index VMSTAT_TLB_MISS_FREE)) ;;
  vmstats_increment (stat_index VMSTAT_TLB_MISS) ;;
  g <- load (T := ps_t) ps ;;
  vm_tlb_write faultaddress physical_address (seg_writable g) ;;
  _ <- splx spl ;;
  ret tt.

(** The contents of a code or data page touched for the first time, then the TLB. *)
Definition fault_finish (ps : ptr) (faultaddress : Z) (r : Z * bool) : M FS Z :=
  let '(physical_address, unpopulated) := r in
  kassert (Z.land physical_address PAGE_FRAME =? physical_address)
    "(physical_address & PAGE_FRAME) == physical_address" ;;
  g <- load (T := ps_t) ps ;;
  result <- (if bool_decide (permissions g <> PAGE_STACK) && unpopulated
             then seg_load_page ps faultaddress physical_address
             else ret 0) ;;
  if negb (result =? 0) then ret EFAULT else
  install_mapping ps faultaddress physical_address ;;
  ret 0.

Definition vm_fault (faulttype faultaddress : Z) : M FS Z :=
  if negb (faulttype =? VM_FAULT_READONLY) && negb (faulttype =? VM_FAULT_READ)
     && negb (faulttype =? VM_FAULT_WRITE) then ret EINVAL
  else if faulttype =? VM_FAULT_READONLY then ret EACCES
  else
    cp <- get (fun s => curproc (s_cpu s)) ;;
    if bool_decide (cp = None) then ret EFAULT else
    a <- proc_getas ;;
    if bool_decide (a = None) then ret EFAULT else
    process_segment <- as_find_segment a faultaddress ;;
    if bool_decide (process_segment = None) then ret EFAULT else
    r <- fault_page process_segment faultaddress ;;
    fault_finish process_segment faultaddress r.
End pagevm.

(** ** The faulting page becomes resident *)

Section fault.
Context {FS : Type} {VO : VnodeOps FS} {VL : VnodeLaws FS}.
Implicit Types s : kstate FS.

(** What bringing the page of [va] into frame [pa] achieves.  [new j x] says
    what the bytes of a page that was empty must be. *)
Record page_mapped s s' (a : positive) (va pa : Z) (v : vnode) : Prop := {
  pm_page : page_at s' a va (pte_resident pa);
  pm_pa : page_paddr_ok pa /\ pa < 2^31;
  pm_segs : forall G, as_ok s a G ->
    exists G', as_ok s' a G' /\ forall r, sg_ptr G' r = sg_ptr G r /\ sg_seg G' r = sg_seg G r;
  pm_bytes : forall a0 va0 j x, 0 <= j < PAGE_SIZE -> page_byte s v a0 va0 j x -> page_byte s' v a0 va0 j x;
  pm_empty : forall a0 va0, ~ (a0 = a /\ page_of va0 = page_of va) ->
    page_at s a0 va0 pte_empty -> page_at s' a0 va0 pte_empty;
  pm_files : forall w o, w <> v -> file_byte (s_fs s') w o = file_byte (s_fs s) w o;
  pm_tlb : s_tlb s' = s_tlb s;
  pm_cpu : s_cpu s' = s_cpu s
}.

Lemma page_of_base va : page_of (page_base va) = page_of va.
Proof. unfold page_base, page_of, PAGE_SIZE. lia. Qed.

Lemma land_page_base va : is_u32 va -> Z.land va PAGE_FRAME = page_base va.
Proof. intros H. rewrite land_frame by done. unfold page_base, page_of. lia. Qed.

Lemma page_base_ok va : is_u32 va -> is_u32 (page_base va) /\ page_base va mod PAGE_SIZE = 0.
Proof. unfold is_u32, page_base, page_of, PAGE_SIZE. lia. Qed.

(** The page table of a segment, found again after the allocation. *)
Lemma page_at_view s a G r va p :
  as_ok s a G -> seg_covers (sg_seg G r) va -> page_at s a va p -> pt_view (sg_tab G r) va = Some p.
Proof.
  intros Hok Hc (G' & r' & Hok' & Hc' & Hv'). destruct (as_ok_unique _ _ _ _ Hok Hok' r') as (_ & E2 & _ & E4).
  rewrite <- E2 in Hc'. rewrite <- E4 in Hv'. by rewrite (ao_disjoint _ _ _ Hok r r' va Hc Hc').
Qed.

(** From an allocation and the closing of its hole to a mapped page. *)
Lemma page_mapped_close s s1 s2 i a G r va p0 v b b1 b2 q e :
  vm_inv (Some i) s1 q v b1 -> i ∈ q -> is_u32 va -> frame_given s s1 i a (page_base va) v b b1 ->
  zlookup (coremap (s_cm s1)) i = Some e -> address_space e = Some a -> virtual_address e = page_base va ->
  as_ok s1 a G -> seg_covers (sg_seg G r) va -> pt_view (sg_tab G r) va = Some p0 ->
  (forall pa, p0 <> pte_resident pa) -> hole_closed s1 s2 i a G r va p0 v b1 b2 -> s_tlb s2 = s_tlb s1 ->
  (forall j x, 0 <= j < PAGE_SIZE -> page_byte s1 v a va j x -> x = s_mem s2 (i * PAGE_SIZE + j)) ->
  vm_inv None s2 q v b2 /\ page_mapped s s2 a va (i * PAGE_SIZE) v.
Proof.
  intros Hinv Hi Hva Hfg He Hea Hev Hok Hc Hv Hnr Hcl Htlb Hself.
  destruct (close_hole _ _ _ _ _ _ _ _ _ _ _ _ _ Hinv Hi Hva He Hea Hev Hok Hc Hv Hnr Hcl) as (Hinv2 & Hat & Hbytes).
  split; [done|]. destruct (vi_frame_range _ _ _ _ _ i Hinv Hi) as (H0 & _ & Hlt & Hpa).
  assert (page_at s2 a va (pte_resident (i * PAGE_SIZE))) as Hres by (apply Hat; by rewrite decide_True).
  constructor; [done|done| | | | | |].
  - intros G0 HG0. destruct (fg_segs _ _ _ _ _ _ _ _ Hfg _ _ HG0) as (G1 & HG1 & Hsame).
    exists (retab (sg_ptp G r) (pt_set va (pte_resident (i * PAGE_SIZE)) (sg_tab G r)) G1). split; [|done].
    eapply as_ok_heap; [apply (hc_heap _ _ _ _ _ _ _ _ _ _ _ Hcl)|].
    destruct (ao_live _ _ _ Hok r) as [L1 L2 L3 [buf L4] L5 L6 L7].
    eapply as_ok_retab; [done|exact L3|eapply pt_set_wf; [done|]|apply pt_num_pages_set|apply pt_base_set].
    split; [done|unfold PAGE_SIZE; lia].
  - intros a0 va0 j x Hj Hb%(fg_bytes _ _ _ _ _ _ _ _ Hfg); [|done].
    destruct (decide (a0 = a /\ page_of va0 = page_of va)) as [[-> Hpg]|Hne]; [|by apply Hbytes].
    left. exists (i * PAGE_SIZE). split; [by eapply page_at_page|]. apply Hself; [done|].
    destruct Hb as [(pa & Hp & ->)|(off & Hp & ->)]; [left|right]; eexists; (split; [by eapply page_at_page|done]).
  - intros a0 va0 Hne Hp. apply Hat. rewrite decide_False by done. by apply (fg_states _ _ _ _ _ _ _ _ Hfg).
  - intros w o Hw. rewrite (hc_files _ _ _ _ _ _ _ _ _ _ _ Hcl). by apply (fg_files _ _ _ _ _ _ _ _ Hfg).
  - by rewrite Htlb, (fg_tlb _ _ _ _ _ _ _ _ Hfg).
  - by rewrite (hc_cpu _ _ _ _ _ _ _ _ _ _ _ Hcl), (fg_cpu _ _ _ _ _ _ _ _ Hfg).
Qed.

Section one_fault.
Context (s : kstate FS) (q : list Z) (v : vnode) (b : bitmap) (a : positive) (G : segs) (r : role) (va : Z).
Hypotheses (Hinv : vm_inv None s q v b) (Hint : t_in_interrupt (s_cpu s) = false) (Hcur : current_as s a)
  (Hva : is_u32 va) (Hrel : SwapReliable v) (Hok : as_ok s a G) (Hc : seg_covers (sg_seg G r) va).

(** The page is in memory: only the counter changes. *)
Lemma fault_page_resident pa :
  page_at s a va (pte_resident pa) ->
  exists s', fault_page (Some (sg_ptr G r)) va s = Ok (pa, false) s' /\
    vm_inv None s' q v b /\ page_mapped s s' a va pa v /\
    s_stats s' = bump (stat_index VMSTAT_TLB_RELOAD) (s_stats s).
Proof.
  intros Hp. pose proof (page_at_view _ _ _ _ _ _ Hok Hc Hp) as Hv. unfold fault_page.
  rewrite (bind_Ok _ _ _ _ _ (seg_get_paddr_run s a G r va _ Hok Hva Hv)).
  destruct (vi_resident _ _ _ _ _ Hinv _ _ _ Hp) as (i & e & -> & Hi & _).
  destruct (vi_frame_range _ _ _ _ _ i Hinv Hi) as (H0 & _ & Hlt & Hpa). cbn [pte_answer].
  destruct (Z.eqb_spec (i * PAGE_SIZE) PT_EMPTY_ENTRY) as [E|_]; [unfold PAGE_SIZE, PT_EMPTY_ENTRY in E; lia|].
  destruct (Z.eqb_spec (i * PAGE_SIZE) PT_SWAPPED_ENTRY) as [E|_]; [unfold PAGE_SIZE, PT_SWAPPED_ENTRY in E; lia|].
  rewrite run_increment by apply Hinv. eexists. split; [reflexivity|].
  set (s' := set_stats _ s).
  assert (forall a0 va0 p, page_at s' a0 va0 p <-> page_at s a0 va0 p) as Hat
    by (intros; split; by apply page_at_heap).
  split; [|split; [|done]].
  - apply (vm_inv_ext _ s); try done. by apply bump_wf, Hinv.
  - constructor; try done.
    + by apply Hat.
    + intros G0 HG0. exists G0. split; [by apply (as_ok_heap s)|done].
    + intros a0 va0 j x _ [(pa & Hp' & ->)|(off & Hp' & ->)]; [left|right]; eexists; (split; [by apply Hat|done]).
    + intros a0 va0 _ Hp'. by apply Hat.
Qed.

(** An allocation for this page, and what is known after it. *)
Lemma fault_alloc p0 :
  can_allocate s q b -> page_at s a va p0 -> (forall pa, p0 <> pte_resident pa) ->
  exists i s1 q1 b1 G1 e, alloc_user_page (Z.land va PAGE_FRAME) s = Ok (i * PAGE_SIZE) s1 /\
    vm_inv (Some i) s1 q1 v b1 /\ i ∈ q1 /\ frame_given s s1 i a (page_base va) v b b1 /\
    zlookup (coremap (s_cm s1)) i = Some e /\ address_space e = Some a /\ virtual_address e = page_base va /\
    as_ok s1 a G1 /\ sg_ptr G1 r = sg_ptr G r /\ sg_seg G1 r = sg_seg G r /\
    pt_view (sg_tab G1 r) va = Some p0 /\ page_at s1 a va p0.
Proof.
  intros Hcan Hp Hnr. rewrite land_page_base by done. destruct (page_base_ok va Hva) as [Hb1 Hb2].
  destruct (alloc_user_page_inv s q v b a (page_base va)) as (i & s1 & q1 & b1 & Hrun & Hinv1 & Hi & Hfg & _); [done..|].
  destruct (fg_owner _ _ _ _ _ _ _ _ Hfg) as (e & He & Hea & Hev).
  destruct (fg_segs _ _ _ _ _ _ _ _ Hfg _ _ Hok) as (G1 & HG1 & Hsame). destruct (Hsame r) as [E1 E2].
  pose proof (fg_states _ _ _ _ _ _ _ _ Hfg _ _ _ Hnr Hp) as Hp1.
  exists i, s1, q1, b1, G1, e. split_and!; try done.
  eapply page_at_view; [done|by rewrite E2|done].
Qed.

(** The page is in the swap file: it comes back with its bytes. *)
Lemma fault_page_swapped off :
  can_allocate s q b -> page_at s a va (pte_swapped off) ->
  exists pa s' q' b', fault_page (Some (sg_ptr G r)) va s = Ok (pa, false) s' /\
    vm_inv None s' q' v b' /\ page_mapped s s' a va pa v /\
    (exists st, (st = s_stats s \/ st = bump (stat_index VMSTAT_SWAPFILE_WRITE) (s_stats s)) /\
       s_stats s' = bump (stat_index VMSTAT_PAGE_FAULT_DISK) (bump (stat_index VMSTAT_PAGE_FAULT_SWAPFILE) st)).
Proof.
  intros Hcan Hp. pose proof (page_at_view _ _ _ _ _ _ Hok Hc Hp) as Hv. unfold fault_page.
  rewrite (bind_Ok _ _ _ _ _ (seg_get_paddr_run s a G r va _ Hok Hva Hv)). cbn [pte_answer Z.eqb PT_EMPTY_ENTRY PT_SWAPPED_ENTRY].
  change (1 =? 1)%positive with true. cbv iota.
  destruct (fault_alloc (pte_swapped off) Hcan Hp ltac:(done))
    as (i & s1 & q1 & b1 & G1 & e & Hrun & Hinv1 & Hi & Hfg & He & Hea & Hev & HG1 & E1 & E2 & Hv1 & Hp1).
  rewrite (bind_Ok _ _ _ _ _ Hrun). destruct (vi_frame_range _ _ _ _ _ i Hinv1 Hi) as (H0 & _ & Hlt & Hpa).
  destruct (vi_swapped _ _ _ _ _ Hinv1 _ _ _ Hp1) as (k & -> & Hk & Hbk).
  destruct (swap_in_run s1 (i * PAGE_SIZE) k v b1 (vi_idle _ _ _ _ _ Hinv1) (vi_stats _ _ _ _ _ Hinv1)
    (vi_swap _ _ _ _ _ Hinv1) Hrel Hpa Hk Hbk) as (b2 & m2 & fs2 & Hin & (Bn & Bwf & Bclr) & Hm & Hmo & Hfs).
  destruct (ao_live _ _ _ HG1 r) as [L1 L2 L3 [buf L4] L5 L6 L7].
  set (s2 := put_cell (sg_ptp G1 r) (pt_set va (pte_resident (i * PAGE_SIZE)) (sg_tab G1 r)) (swapped_in s1 v b2 m2 fs2)).
  assert (seg_swap_in (Some (sg_ptr G r)) va (i * PAGE_SIZE) s1 = Ok tt s2) as Hsi.
  { unfold seg_swap_in. rewrite <- E1, (run_load _ _ _ _ L1), L2.
    rewrite (bind_Ok _ _ _ _ _ (pt_get_swap_offset_run _ _ _ va _ s1 L3 L4 Hva Hv1)).
    rewrite (bind_Ok _ _ _ _ _ Hin). by eapply pt_add_entry_run. }
  rewrite (bind_Ok _ _ _ _ _ Hsi). exists (i * PAGE_SIZE), s2, q1, b2. split; [done|].
  assert (vm_inv None s2 q1 v b2 /\ page_mapped s s2 a va (i * PAGE_SIZE) v) as [Hinv2 Hmap];
    [|split_and!; [done|done|exists (s_stats s1); split; [apply (fg_stats _ _ _ _ _ _ _ _ Hfg)|done]]].
  apply (page_mapped_close s s1 s2 i a G1 r va (pte_swapped (k * PAGE_SIZE)) v b b1 b2 q1 e); try done; [by rewrite E2| |].
  - constructor; try done.
    + by apply bump_wf, bump_wf, (vi_stats _ _ _ _ _ Hinv1).
    + split; [done|]. split; [done|]. rewrite Bn. apply (vi_swap _ _ _ _ _ Hinv1).
    + intros k' Hk' Hb' Hne. rewrite Bclr by done. rewrite Hb', bool_decide_eq_false_2; [done|]. congruence.
  - intros j x Hj [(pa & Hp' & ->)|(off & Hp' & ->)].
    + pose proof (page_at_unique _ _ _ _ _ Hp1 Hp'). done.
    + pose proof (page_at_unique _ _ _ _ _ Hp1 Hp') as [= <-]. cbn. by rewrite Hm.
Qed.

Definition stats_alloc (st : stats_st) : Prop :=
  st = s_stats s \/ st = bump (stat_index VMSTAT_SWAPFILE_WRITE) (s_stats s).

(** A stack page that was never touched: a frame of zeros. *)
Lemma fault_page_zero :
  r = Stack -> can_allocate s q b -> page_at s a va pte_empty ->
  exists pa s' q', fault_page (Some (sg_ptr G r)) va s = Ok (pa, true) s' /\
    (exists b', vm_inv None s' q' v b') /\ page_mapped s s' a va pa v /\
    (forall j, 0 <= j < PAGE_SIZE -> s_mem s' (pa + j) = 0) /\
    exists st, stats_alloc st /\ s_stats s' = bump (stat_index VMSTAT_PAGE_FAULT_ZERO) st.
Proof.
  intros Hr Hcan Hp. pose proof (page_at_view _ _ _ _ _ _ Hok Hc Hp) as Hv. unfold fault_page.
  rewrite (bind_Ok _ _ _ _ _ (seg_get_paddr_run s a G r va _ Hok Hva Hv)). cbn [pte_answer Z.eqb PT_EMPTY_ENTRY].
  destruct (fault_alloc pte_empty Hcan Hp ltac:(done))
    as (i & s1 & q1 & b1 & G1 & e & Hrun & Hinv1 & Hi & Hfg & He & Hea & Hev & HG1 & E1 & E2 & Hv1 & Hp1).
  rewrite (bind_Ok _ _ _ _ _ Hrun). destruct (vi_frame_range _ _ _ _ _ i Hinv1 Hi) as (H0 & _ & Hlt & Hpa).
  rewrite <- E1, (bind_Ok _ _ _ _ _ (seg_add_pt_entry_run s1 a G1 r va _ HG1 Hva Hv1 (i * PAGE_SIZE) ltac:(done))).
  destruct (ao_live _ _ _ HG1 r) as [L1 L2 L3 [buf L4] L5 L6 L7].
  set (s1' := put_cell _ _ s1). assert (cell_at s1' (sg_ptr G1 r) = Some (sg_seg G1 r)) as L1' by done.
  rewrite (run_load _ _ _ _ L1'), E2. rewrite bool_decide_eq_true_2.
  2:{ pose proof (ao_role _ _ _ Hok r) as Hro. rewrite Hr in *. apply Hro. }
  unfold bzero. run. rewrite kva_to_pa_kva by apply Hpa.
  rewrite run_increment by (done || apply (vi_idle _ _ _ _ _ Hinv1) || apply (vi_stats _ _ _ _ _ Hinv1)).
  set (s2 := set_stats _ _). exists (i * PAGE_SIZE), s2, q1. split; [done|].
  assert (vm_inv None s2 q1 v b1 /\ page_mapped s s2 a va (i * PAGE_SIZE) v) as [Hinv2 Hmap].
  - apply (page_mapped_close s s1 s2 i a G1 r va pte_empty v b b1 b1 q1 e); try done; [by rewrite E2| |].
    + constructor; try done.
      * by apply bump_wf, (vi_stats _ _ _ _ _ Hinv1).
      * apply (vi_swap _ _ _ _ _ Hinv1).
      * intros x Hx. cbn. by rewrite mem_zero_spec, decide_False.
    + intros j x Hj [(pa & Hp' & ->)|(off & Hp' & ->)]; by pose proof (page_at_unique _ _ _ _ _ Hp1 Hp').
  - split; [by exists b1|]. split; [done|]. split.
    + intros j Hj. cbn. rewrite mem_zero_spec, decide_True by lia. done.
    + exists (s_stats s1). split; [apply (fg_stats _ _ _ _ _ _ _ _ Hfg)|done].
Qed.

(** A code or data page that was never touched: its image from the file. *)
Lemma fault_page_file w :
  r <> Stack -> can_allocate s q b -> page_at s a va pte_empty -> elf_vnode (sg_seg G r) = Some w -> w <> v ->
  (forall d len, 0 <= d -> 0 <= len -> len = 0 \/ d + len <= seg_size_bytes (sg_seg G r) ->
    reads_full (s_fs s) w (file_offset (sg_seg G r) + d) len) ->
  exists pa s2 s' q', fault_page (Some (sg_ptr G r)) va s = Ok (pa, true) s2 /\
    cell_at s2 (sg_ptr G r) = Some (sg_seg G r) /\ page_paddr_ok pa /\
    seg_load_page (Some (sg_ptr G r)) va pa s2 = Ok 0 s' /\
    (exists b', vm_inv None s' q' v b') /\ page_mapped s s' a va pa v /\
    (forall j, 0 <= j < PAGE_SIZE ->
       s_mem s' (pa + j) = image_byte (file_byte (s_fs s) w) (sg_seg G r) (page_base va + j)) /\
    exists st, stats_alloc st /\ s_stats s' = load_stats (span_len (sg_seg G r) va) st.
Proof.
  intros Hr Hcan Hp Hw Hwv Helf. pose proof (page_at_view _ _ _ _ _ _ Hok Hc Hp) as Hv. unfold fault_page.
  rewrite (bind_Ok _ _ _ _ _ (seg_get_paddr_run s a G r va _ Hok Hva Hv)). cbn [pte_answer Z.eqb PT_EMPTY_ENTRY].
  destruct (fault_alloc pte_empty Hcan Hp ltac:(done))
    as (i & s1 & q1 & b1 & G1 & e & Hrun & Hinv1 & Hi & Hfg & He & Hea & Hev & HG1 & E1 & E2 & Hv1 & Hp1).
  rewrite (bind_Ok _ _ _ _ _ Hrun). destruct (vi_frame_range _ _ _ _ _ i Hinv1 Hi) as (H0 & _ & Hlt & Hpa).
  rewrite <- E1, (bind_Ok _ _ _ _ _ (seg_add_pt_entry_run s1 a G1 r va _ HG1 Hva Hv1 (i * PAGE_SIZE) ltac:(done))).
  destruct (ao_live _ _ _ HG1 r) as [L1 L2 L3 [buf L4] L5 L6 L7].
  set (s1' := put_cell _ _ s1). assert (cell_at s1' (sg_ptr G1 r) = Some (sg_seg G1 r)) as L1' by done.
  rewrite (run_load _ _ _ _ L1'), E2. set (g := sg_seg G r) in *.
  pose proof (ao_role _ _ _ Hok r) as Hro. fold g in Hro.
  assert (permissions g <> PAGE_STACK /\ seg_fits g) as [Hperm Hfits] by (destruct r; [| |done]; by destruct Hro as (? & _ & ? & _)).
  rewrite bool_decide_eq_false_2 by done. run. rewrite E2 in L7, L1'.
  pose proof (seg_load_extent_span g va (i * PAGE_SIZE) L7 Hfits Hc ltac:(unfold PAGE_SIZE in *; lia)) as Hext.
  destruct (Helf (span_lo g va - base_vaddr g) (span_len g va)) with (fs := s_fs s1) as (bs & fs2 & Er & Hbs);
    [unfold span_lo; lia|unfold span_len; lia|unfold span_len; lia|intros o; by apply (fg_files _ _ _ _ _ _ _ _ Hfg)|].
  assert (is_u32 (i * PAGE_SIZE + (span_lo g va - page_base va))) as Hlp.
  { destruct L7, Hpa. unfold is_u32, span_lo, page_base, seg_covers, page_of, PAGE_SIZE in *. lia. }
  pose proof (seg_load_page_run (sg_ptr G1 r) g w va _ _ _ _ s1' (vi_idle _ _ _ _ _ Hinv1)
    (vi_stats _ _ _ _ _ Hinv1) L1' Hw L7 Hc (proj1 Hpa) Hlp Hext) as Hld.
  change (s_fs s1') with (s_fs s1) in Hld. rewrite Er in Hld. cbv zeta in Hld. cbn [negb Z.eqb] in Hld.
  destruct (Z.ltb_spec 0 (span_len g va - zlen bs)); [lia|].
  pose proof (page_loaded_bytes g w va (i * PAGE_SIZE) 0 bs fs2 s1' L7 Hfits Hc Er) as [Hb Ho]. cbv zeta in Hb, Ho.
  set (s3 := page_loaded _ _ _ bs fs2 s1') in *.
  exists (i * PAGE_SIZE), s1', s3, q1. split; [done|]. split; [done|]. split; [done|]. split; [done|].
  assert (vm_inv None s3 q1 v b1 /\ page_mapped s s3 a va (i * PAGE_SIZE) v) as [Hinv2 Hmap].
  - apply (page_mapped_close s s1 s3 i a G1 r va pte_empty v b b1 b1 q1 e); try done; [by rewrite E2| |].
    + constructor; try done.
      * unfold s3, page_loaded, load_stats. cbn. destruct (_ =? 0); repeat apply bump_wf; apply (vi_stats _ _ _ _ _ Hinv1).
      * apply (vi_swap _ _ _ _ _ Hinv1).
      * apply (vop_read_frame _ _ _ _ _ _ _ Er).
    + intros j x Hj [(pa & Hp' & ->)|(off & Hp' & ->)]; by pose proof (page_at_unique _ _ _ _ _ Hp1 Hp').
  - split; [by exists b1|]. split; [done|]. split.
    + intros j Hj. destruct (Hb j Hj) as [->|[_ ?]]; [|lia]. unfold image_byte. case_bool_decide; [|done].
      change (s_fs s1') with (s_fs s1). by apply (fg_files _ _ _ _ _ _ _ _ Hfg).
    + exists (s_stats s1). split; [apply (fg_stats _ _ _ _ _ _ _ _ Hfg)|done].
Qed.
End one_fault.
End fault.

(** ** The counters of one fault *)

(** What a fault counts before the TLB counters. *)
Inductive page_source (st : stats_st) : stats_st -> Prop :=
  | src_reload : page_source st (bump (stat_index VMSTAT_TLB_RELOAD) st)
  | src_zero : page_source st (bump (stat_index VMSTAT_PAGE_FAULT_ZERO) st)
  | src_elf : page_source st (bump (stat_index VMSTAT_PAGE_FAULT_ELF) (bump (stat_index VMSTAT_PAGE_FAULT_DISK) st))
  | src_swap : page_source st (bump (stat_index VMSTAT_PAGE_FAULT_DISK) (bump (stat_index VMSTAT_PAGE_FAULT_SWAPFILE) st)).

Definition tlb_counted (c : vmstats_counters) (st : stats_st) : stats_st :=
  bump (stat_index VMSTAT_TLB_MISS) (bump (stat_index c) st).

Ltac count_bumps :=
  repeat (rewrite count_bump by (repeat apply bump_wf; done || rewrite !bump_active; done));
  repeat match goal with |- context [decide (?x = ?y)] =>
    first [rewrite (decide_True (P := x = y)) by done|rewrite (decide_False (P := x = y)) by done] end.

Lemma page_source_consistent st st' c :
  stats_wf st -> vmstats_active st = true -> page_source st st' ->
  c = VMSTAT_TLB_MISS_FREE \/ c = VMSTAT_TLB_MISS_REPLACE ->
  stats_consistent st -> stats_consistent (tlb_counted c st').
Proof.
  intros Hwf Hact Hsrc Hc (H1 & H2 & H3). unfold stats_consistent, tlb_counted.
  assert (eq32 (count st VMSTAT_TLB_MISS) (count st VMSTAT_TLB_MISS_FREE + count st VMSTAT_TLB_MISS_REPLACE)) as E1
    by (rewrite H1; apply u32_eq32).
  assert (eq32 (count st VMSTAT_TLB_MISS)
    (count st VMSTAT_TLB_RELOAD + count st VMSTAT_PAGE_FAULT_ZERO + count st VMSTAT_PAGE_FAULT_DISK)) as E2
    by (rewrite H2; apply u32_eq32).
  assert (eq32 (count st VMSTAT_PAGE_FAULT_DISK) (count st VMSTAT_PAGE_FAULT_ELF + count st VMSTAT_PAGE_FAULT_SWAPFILE)) as E3
    by (rewrite H3; apply u32_eq32).
  destruct Hsrc, Hc as [-> | ->]; count_bumps; (split; [|split]); try done;
    match goal with |- u32 ?x = u32 ?y => change (eq32 x y) end; rewrite ?u32_eq32;
    first [rewrite E1 at 1; unfold eq32; f_equal; lia|rewrite E2 at 1; unfold eq32; f_equal; lia
          |rewrite E3 at 1; unfold eq32; f_equal; lia].
Qed.

Lemma write_counted_consistent st :
  stats_wf st -> vmstats_active st = true -> stats_consistent st ->
  stats_consistent (bump (stat_index VMSTAT_SWAPFILE_WRITE) st).
Proof. intros Hwf Hact (H1 & H2 & H3). unfold stats_consistent. by count_bumps. Qed.

(** ** The handler as a whole *)

Section handler.
Context {FS : Type} {VO : VnodeOps FS} {VL : VnodeLaws FS}.
Implicit Types s : kstate FS.

(** The state after the TLB part of the handler. *)
Definition mapping_installed (g : ps_t) (va pa : Z) (c : vmstats_counters) s : kstate FS :=
  set_tlb (tlb_after_write va pa (seg_writable g) (s_tlb s)) (set_stats (tlb_counted c (s_stats s)) s).

Lemma install_mapping_run x g va pa s :
  idle s -> stats_wf (s_stats s) -> tlb_wf (s_tlb s) -> cell_at s x = Some g ->
  exists c, (c = VMSTAT_TLB_MISS_FREE \/ c = VMSTAT_TLB_MISS_REPLACE) /\
    install_mapping (Some x) va pa s = Ok tt (mapping_installed g va pa c s).
Proof.
  intros Hs Hst [Hl Hv _] Hx. unfold install_mapping, splhigh, splx. run.
  destruct (zlookup_in_range (tlb_entries (s_tlb s)) (current_victim (s_tlb s))) as [e He]; [by rewrite Hl|].
  set (s0 := with_spl _ s).
  rewrite (bind_Ok _ _ s0 _ _ (vm_tlb_peek_victim_run s0 e He)).
  set (c := if negb (Z.land (Z.lor (Z.shiftl (fst e) 32) (snd e)) TLBLO_VALID =? 0)
            then VMSTAT_TLB_MISS_REPLACE else VMSTAT_TLB_MISS_FREE).
  exists c. split; [unfold c; destruct (negb _); auto|].
  assert ((if negb (Z.land (Z.lor (Z.shiftl (fst e) 32) (snd e)) TLBLO_VALID =? 0)
    then vmstats_increment (stat_index VMSTAT_TLB_MISS_REPLACE)
    else vmstats_increment (stat_index VMSTAT_TLB_MISS_FREE)) s0 =
    Ok tt (set_stats (bump (stat_index c) (s_stats s)) s0)) as Hinc.
  { unfold c. destruct (negb _); by rewrite vmstats_increment_run by done. }
  rewrite (bind_Ok _ _ _ _ _ Hinc), run_increment by (done || by apply bump_wf).
  rewrite (run_load x g) by done.
  erewrite bind_Ok; [|by apply vm_tlb_write_run]. run. unfold ret. f_equal.
  unfold mapping_installed, tlb_counted, s0. state_eq.
Qed.

Lemma vm_inv_frame s g va pa c q v b : vm_inv None s q v b -> vm_inv None (mapping_installed g va pa c s) q v b.
Proof. intros Hinv. apply (vm_inv_ext _ s); try done. by apply bump_wf, bump_wf, Hinv. Qed.

(** The hypotheses under which a fault can be served: the invariant, a
    process with a well-formed address space, a page of one of its segments
    that the TLB does not map, and a frame for it; the bytes that the segment
    takes from the executable are inside that file, which is not the swap
    file. *)
Record fault_ready s (q : list Z) (v : vnode) (b : bitmap) (a : positive) (G : segs) (r : role) (va : Z) : Prop := {
  fr_inv : vm_inv None s q v b;
  fr_int : t_in_interrupt (s_cpu s) = false;
  fr_cur : current_as s a;
  fr_as : as_ok s a G;
  fr_va : is_u32 va;
  fr_seg : seg_contains r (sg_seg G r) va;
  fr_rel : SwapReliable v;
  fr_elf : forall w, elf_vnode (sg_seg G r) = Some w -> w <> v /\ forall d len, 0 <= d -> 0 <= len -> len = 0 \/ d + len <= seg_size_bytes (sg_seg G r) ->
    reads_full (s_fs s) w (file_offset (sg_seg G r) + d) len;
  fr_tlb : tlb_wf (s_tlb s);
  fr_miss : tlb_match (tlb_entries (s_tlb s)) va = None;
  fr_frame : can_allocate s q b \/ exists pa, page_at s a va (pte_resident pa)
}.

(** The bytes of a page that is touched for the first time. *)
Definition first_byte s (r : role) (g : ps_t) (va : Z) : Z :=
  match r, elf_vnode g with
  | Stack, _ => 0
  | _, Some w => image_byte (file_byte (s_fs s) w) g va
  | _, None => 0
  end.

Lemma vm_fault_enter s q v b a G r va ft :
  fault_ready s q v b a G r va -> ft = VM_FAULT_READ \/ ft = VM_FAULT_WRITE ->
  vm_fault ft va s = (r' <- fault_page (Some (sg_ptr G r)) va ;; fault_finish (Some (sg_ptr G r)) va r') s.
Proof.
  intros [R1 R2 R3 R4 R5 R6 R7 R8 R9 R10 R11] Hft. pose proof (vi_idle _ _ _ _ _ R1) as Hs.
  unfold vm_fault. replace (negb (ft =? VM_FAULT_READONLY) && negb (ft =? VM_FAULT_READ) && negb (ft =? VM_FAULT_WRITE))
    with false by (by destruct Hft as [-> | ->]).
  replace (ft =? VM_FAULT_READONLY) with false by (by destruct Hft as [-> | ->]).
  run. pose proof R3 as (x & pr & Hx & Hpr & Ha). rewrite bool_decide_eq_false_2 by (by rewrite Hx).
  rewrite (run_proc_getas a) by done. rewrite bool_decide_eq_false_2 by done.
  destruct (as_find_segment_run a G va s R4) as [Hfind _]. rewrite (bind_Ok _ _ _ _ _ (Hfind r R6)).
  by rewrite bool_decide_eq_false_2 by done.
Qed.

(** Nothing to load: the page was populated, or is a stack page. *)
Lemma fault_finish_mapped s s1 a G r va pa v u :
  as_ok s a G -> page_mapped s s1 a va pa v -> (u = true -> permissions (sg_seg G r) = PAGE_STACK) ->
  fault_finish (Some (sg_ptr G r)) va (pa, u) s1 = (install_mapping (Some (sg_ptr G r)) va pa ;; ret 0) s1.
Proof.
  intros Hok Hm Hu. unfold fault_finish. rewrite run_kassert by (apply page_paddr_land, Hm).
  destruct (pm_segs _ _ _ _ _ _ Hm _ Hok) as (G1 & HG1 & Hsame). destruct (Hsame r) as [E1 E2].
  rewrite <- E1, (run_load _ (sg_seg G r)) by (rewrite <- E2; apply (ao_live _ _ _ HG1 r)).
  destruct u; [rewrite bool_decide_eq_false_2 by (intros Hn; by apply Hn, Hu); done|by rewrite andb_false_r].
Qed.

(** Everything but the TLB part. *)
Lemma fault_served s q v b a G r va ft :
  fault_ready s q v b a G r va -> ft = VM_FAULT_READ \/ ft = VM_FAULT_WRITE ->
  exists pa s1 q1 b1 st,
    vm_fault ft va s = (install_mapping (Some (sg_ptr G r)) va pa ;; ret 0) s1 /\
    vm_inv None s1 q1 v b1 /\ page_mapped s s1 a va pa v /\
    (page_at s a va pte_empty -> forall j, 0 <= j < PAGE_SIZE ->
       s_mem s1 (pa + j) = first_byte s r (sg_seg G r) (page_base va + j)) /\
    stats_alloc s st /\ page_source st (s_stats s1).
Proof.
  intros Hrdy Hft. rewrite (vm_fault_enter _ _ _ _ _ _ _ _ _ Hrdy Hft).
  destruct Hrdy as [R1 R2 R3 R4 R5 R6 R7 R8 R9 R10 R11].
  destruct (ao_live _ _ _ R4 r) as [L1 L2 L3 [buf L4] L5 L6 L7]. pose proof (ao_role _ _ _ R4 r) as Hro.
  pose proof (seg_contains_covers _ _ _ Hro L7 R6) as Hc.
  destruct (pt_view_total _ _ va L4) as [p Hp]; [unfold pt_index; rewrite L5, L6; exact Hc|].
  assert (page_at s a va p) as Hat by (by exists G, r).
  assert (can_allocate s q b \/ exists pa, p = pte_resident pa) as Hcan.
  { destruct R11 as [|[pa Hpa]]; [by left|right]. exists pa. by eapply page_at_unique. }
  destruct p as [|off|pa].
  - destruct Hcan as [Hcan|[? ?]]; [|done]. destruct (decide (r = Stack)) as [Hr|Hr].
    + destruct (fault_page_zero s q v b a G r va) as (pa & s1 & q1 & Hrun & [b1 Hinv1] & Hm & Hz & st & Hst & Hs1); try done.
      exists pa, s1, q1, b1, st. split_and!; try done.
      * rewrite (bind_Ok _ _ _ _ _ Hrun). eapply fault_finish_mapped; [done|done|]. intros _. rewrite Hr in *. apply Hro.
      * intros _ j Hj. rewrite Hz by done. unfold first_byte. by rewrite Hr.
      * rewrite Hs1. constructor.
    + assert (exists w, elf_vnode (sg_seg G r) = Some w) as [w Hw] by (destruct r; [| |done]; apply Hro).
      destruct (R8 w Hw) as [Hwv Helf].
      destruct (fault_page_file s q v b a G r va) with (w := w)
        as (pa & s2 & s1 & q1 & Hrun & Hg2 & Hpa & Hld & [b1 Hinv1] & Hm & Him & st & Hst & Hs1); try done.
      exists pa, s1, q1, b1, st. split_and!; try done.
      * rewrite (bind_Ok _ _ _ _ _ Hrun). unfold fault_finish. rewrite run_kassert by (by apply page_paddr_land).
        rewrite (run_load _ _ _ _ Hg2). rewrite bool_decide_eq_true_2 by (destruct r; [| |done]; apply Hro).
        cbn [andb]. by rewrite (bind_Ok _ _ _ _ _ Hld).
      * intros _ j Hj. rewrite Him by done. unfold first_byte. by destruct r; rewrite ?Hw.
      * rewrite Hs1. unfold load_stats. destruct (_ =? 0); constructor.
  - destruct Hcan as [Hcan|[? ?]]; [|done].
    destruct (fault_page_swapped s q v b a G r va) with (off := off)
      as (pa & s1 & q1 & b1 & Hrun & Hinv1 & Hm & st & Hst & Hs1); try done.
    exists pa, s1, q1, b1, st. split_and!; try done.
    + rewrite (bind_Ok _ _ _ _ _ Hrun). by eapply fault_finish_mapped.
    + intros He. by pose proof (page_at_unique _ _ _ _ _ Hat He).
    + rewrite Hs1. constructor.
  - destruct (fault_page_resident s q v b a G r va) with (pa := pa) as (s1 & Hrun & Hinv1 & Hm & Hs1); try done.
    exists pa, s1, q, b, (s_stats s). split_and!; try done.
    + rewrite (bind_Ok _ _ _ _ _ Hrun). by eapply fault_finish_mapped.
    + intros He. by pose proof (page_at_unique _ _ _ _ _ Hat He).
    + by left.
    + rewrite Hs1. constructor.
Qed.

Lemma vm_fault_run s q v b a G r va ft :
  fault_ready s q v b a G r va -> ft = VM_FAULT_READ \/ ft = VM_FAULT_WRITE ->
  exists s' q' b' pa e, vm_fault ft va s = Ok 0 s' /\
    vm_inv None s' q' v b' /\ page_at s' a va (pte_resident pa) /\
    tlb_wf (s_tlb s') /\ tlb_match (tlb_entries (s_tlb s')) va = Some e /\
    entry_valid e = true /\ entry_paddr e = pa /\ entry_writable e = seg_writable (sg_seg G r) /\
    (forall a0 va0 j x, 0 <= j < PAGE_SIZE -> page_byte s v a0 va0 j x -> page_byte s' v a0 va0 j x) /\
    (forall a0 va0, ~ (a0 = a /\ page_of va0 = page_of va) ->
       page_at s a0 va0 pte_empty -> page_at s' a0 va0 pte_empty) /\
    (page_at s a va pte_empty -> forall j, 0 <= j < PAGE_SIZE ->
       page_byte s' v a va j (first_byte s r (sg_seg G r) (page_base va + j))).
Proof.
  intros Hrdy Hft. destruct (fault_served _ _ _ _ _ _ _ _ _ Hrdy Hft) as (pa & s1 & q1 & b1 & st & Hrun & Hinv1 & Hm & Hnew & _).
  destruct (pm_segs _ _ _ _ _ _ Hm _ (fr_as _ _ _ _ _ _ _ _ Hrdy)) as (G1 & HG1 & Hsame). destruct (Hsame r) as [E1 E2].
  pose proof (fr_tlb _ _ _ _ _ _ _ _ Hrdy) as Htlb. rewrite <- (pm_tlb _ _ _ _ _ _ Hm) in Htlb.
  pose proof (fr_miss _ _ _ _ _ _ _ _ Hrdy) as Hmiss. rewrite <- (pm_tlb _ _ _ _ _ _ Hm) in Hmiss.
  destruct (install_mapping_run (sg_ptr G r) (sg_seg G r) va pa s1) as (c & _ & Hins);
    [apply Hinv1|apply Hinv1|done|rewrite <- E1, <- E2; apply (ao_live _ _ _ HG1 r)|].
  destruct (pm_pa _ _ _ _ _ _ Hm) as [[Hpu Hpa] _].
  destruct (tlb_entry_bits va pa (seg_writable (sg_seg G r)) Hpu Hpa) as (B1 & B2 & B3).
  pose proof (tlb_after_write_wf va pa (seg_writable (sg_seg G r)) _ Htlb Hmiss) as Htlb'.
  set (s2 := mapping_installed (sg_seg G r) va pa c s1) in *.
  assert (forall a0 va0 p, page_at s1 a0 va0 p -> page_at s2 a0 va0 p) as Hat by (intros; by apply (page_at_heap s1)).
  assert (forall a0 va0 j x, page_byte s1 v a0 va0 j x -> page_byte s2 v a0 va0 j x) as Hby.
  { intros a0 va0 j x [(p & Hp & ->)|(o & Hp & ->)]; [left|right]; eexists; (split; [by apply Hat|done]). }
  exists s2, q1, b1, pa, (tlb_entry va pa (seg_writable (sg_seg G r))). split; [by rewrite Hrun, (bind_Ok _ _ _ _ _ Hins)|].
  split; [by apply vm_inv_frame|]. split; [apply Hat, Hm|]. split; [done|]. split.
  { eapply tlb_match_Some; [apply Htlb'| |apply tlb_entry_vpage]. cbn. apply zlookup_zinsert_eq. destruct Htlb. lia. }
  split_and!; try done.
  - intros a0 va0 j x Hj Hb. by apply Hby, (pm_bytes _ _ _ _ _ _ Hm).
  - intros a0 va0 Hne Hp. by apply Hat, (pm_empty _ _ _ _ _ _ Hm).
  - intros He j Hj. apply Hby. left. exists pa. split; [apply Hm|]. by rewrite Hnew.
Qed.

(** (C1) The page fault handler is correct.  For a read or write fault on an
    address of a segment of the current process, when a frame can be had,
    [vm_fault] returns 0 without failing any assertion.  Afterwards the
    page is resident, the TLB maps it to its frame with write permission
    exactly for writable segments, and the invariant that ties page tables,
    frame table, swap map and FIFO queue together holds again.  Every page
    of every address space that was populated, the evicted one included, has
    the bytes it had; the faulting page, if it was touched for the first
    time, has the bytes of the program image (zeros for the stack). *)
Theorem vm_fault_correct s q v b a G r va ft :
  fault_ready s q v b a G r va -> ft = VM_FAULT_READ \/ ft = VM_FAULT_WRITE ->
  exists s' q' b' pa e, vm_fault ft va s = Ok 0 s' /\
    vm_inv None s' q' v b' /\ page_at s' a va (pte_resident pa) /\
    tlb_wf (s_tlb s') /\ tlb_match (tlb_entries (s_tlb s')) va = Some e /\
    entry_valid e = true /\ entry_paddr e = pa /\ entry_writable e = seg_writable (sg_seg G r) /\
    (forall a0 va0 j x, 0 <= j < PAGE_SIZE -> page_byte s v a0 va0 j x -> page_byte s' v a0 va0 j x) /\
    (forall a0 va0, ~ (a0 = a /\ page_of va0 = page_of va) ->
       page_at s a0 va0 pte_empty -> page_at s' a0 va0 pte_empty) /\
    (page_at s a va pte_empty -> forall j, 0 <= j < PAGE_SIZE ->
       page_byte s' v a va j (first_byte s r (sg_seg G r) (page_base va + j))).
Proof. apply vm_fault_run. Qed.

(** The counters stay consistent: after a fault that is served, the
    relations between the statistics that [vmstats_show] verifies at
    shutdown still hold (with and without an eviction on the way). *)
Theorem vm_fault_counts s q v b a G r va ft :
  fault_ready s q v b a G r va -> ft = VM_FAULT_READ \/ ft = VM_FAULT_WRITE ->
  vmstats_active (s_stats s) = true -> stats_consistent (s_stats s) ->
  exists s', vm_fault ft va s = Ok 0 s' /\ stats_consistent (s_stats s').
Proof.
  intros Hrdy Hft Hact Hcons. destruct (fault_served _ _ _ _ _ _ _ _ _ Hrdy Hft)
    as (pa & s1 & q1 & b1 & st & Hrun & Hinv1 & Hm & _ & Hst & Hsrc).
  destruct (pm_segs _ _ _ _ _ _ Hm _ (fr_as _ _ _ _ _ _ _ _ Hrdy)) as (G1 & HG1 & Hsame). destruct (Hsame r) as [E1 E2].
  pose proof (fr_tlb _ _ _ _ _ _ _ _ Hrdy) as Htlb. rewrite <- (pm_tlb _ _ _ _ _ _ Hm) in Htlb.
  destruct (install_mapping_run (sg_ptr G r) (sg_seg G r) va pa s1) as (c & Hc & Hins);
    [apply Hinv1|apply Hinv1|done|rewrite <- E1, <- E2; apply (ao_live _ _ _ HG1 r)|].
  eexists. split; [by rewrite Hrun, (bind_Ok _ _ _ _ _ Hins)|].
  pose proof (vi_stats _ _ _ _ _ (fr_inv _ _ _ _ _ _ _ _ Hrdy)) as Hwf.
  apply (page_source_consistent st); [| |done|done|]; destruct Hst as [-> | ->]; try done.
  - by apply bump_wf.
  - by rewrite bump_active.
  - by apply write_counted_consistent.
Qed.

(** (C37) Invalid requests change nothing: an unknown fault type is [EINVAL], a
    write to a read-only page [EACCES], and [EFAULT] is the answer when there
    is no current process, when it has no address space, or when the address
    is in no segment of it; the state is untouched in each case. *)
Theorem vm_fault_errors s ft va :
  idle s ->
  (~ (0 <= ft <= 2) -> vm_fault ft va s = Ok EINVAL s) /\
  (ft = VM_FAULT_READONLY -> vm_fault ft va s = Ok EACCES s) /\
  (ft = VM_FAULT_READ \/ ft = VM_FAULT_WRITE ->
     (curproc (s_cpu s) = None -> vm_fault ft va s = Ok EFAULT s) /\
     (forall x pr, curproc (s_cpu s) = Some x -> cell_at s x = Some pr -> p_addrspace pr = None ->
        vm_fault ft va s = Ok EFAULT s) /\
     (forall a G, current_as s a -> as_ok s a G -> (forall r, ~ seg_contains r (sg_seg G r) va) ->
        vm_fault ft va s = Ok EFAULT s)).
Proof.
  intros Hs. unfold vm_fault, VM_FAULT_READ, VM_FAULT_WRITE, VM_FAULT_READONLY. split_and!.
  - intros Hft. destruct (Z.eqb_spec ft 2), (Z.eqb_spec ft 0), (Z.eqb_spec ft 1); try lia. done.
  - by intros ->.
  - intros Hft. replace (negb (ft =? 2) && negb (ft =? 0) && negb (ft =? 1)) with false by (by destruct Hft as [-> | ->]).
    replace (ft =? 2) with false by (by destruct Hft as [-> | ->]). split_and!.
    + intros Hc. run. by rewrite bool_decide_eq_true_2.
    + intros x pr Hx Hpr Ha. run. rewrite bool_decide_eq_false_2 by (by rewrite Hx).
      unfold proc_getas. run. rewrite Hx. run. rewrite (run_load x pr) by done. run. rewrite Ha.
      rewrite bool_decide_eq_true_2 by done. unfold ret. f_equal. state_eq.
    + intros a G Hcur Hok Hno. run. pose proof Hcur as (x & pr & Hx & _). rewrite bool_decide_eq_false_2 by (by rewrite Hx).
      rewrite (run_proc_getas a) by done. rewrite bool_decide_eq_false_2 by done.
      destruct (as_find_segment_run a G va s Hok) as [_ Hf]. rewrite (bind_Ok _ _ _ _ _ (Hf Hno)).
      by rewrite bool_decide_eq_true_2.
Qed.
End handler.
