(* ===== verification/LoadElf.v ===== *)
(** * Loading a program ([kern/syscall/loadelf.c], [kern/syscall/runprogram.c])

    The ELF headers as they are read from the executable, the definition of
    the regions, and the start of a program up to the entry into user mode.
    The theorems show that a well-formed executable gives an address space
    that satisfies the invariant the page fault handler relies on, with every
    page still to be loaded. *)

From S2P Require Import Prelude State Monad Machine Testbed Bitmap VmStats Ram VmTlb Swapfile Heap Coremap CoremapSpec.
From S2P Require Import Pt Segment AddrSpace PageMap Semaphore UserPage Replacement PageVm.

(** ** ELF structures ([kern/include/elf.h]) *)

(** Bytes and big-endian fields of a structure read from a file. *)
Definition u8_at (bs : list Z) (i : Z) : Z := default 0 (zlookup bs i) mod 256.
Definition u16_at (bs : list Z) (i : Z) : Z := u8_at bs i * 256 + u8_at bs (i + 1).
Definition u32_at (bs : list Z) (i : Z) : Z := u16_at bs i * 65536 + u16_at bs (i + 2).

Record Elf_Ehdr := mk_ehdr {
  e_ident : list Z;
  e_type : Z;
  e_machine : Z;
  e_version : Z;
  e_entry : Z;
  e_phoff : Z;
  e_phentsize : Z;
  e_phnum : Z
}.

Record Elf_Phdr := mk_phdr {
  p_type : Z;
  p_offset : Z;
  p_vaddr : Z;
  p_filesz : Z;
  p_memsz : Z;
  p_flags : Z
}.

Definition sizeof_Ehdr : Z := 52.
Definition sizeof_Phdr : Z := 32.

Definition ehdr_of (bs : list Z) : Elf_Ehdr :=
  mk_ehdr (u8_at bs <$> [0; 1; 2; 3; 4; 5; 6; 7; 8; 9; 10; 11; 12; 13; 14; 15])
    (u16_at bs 16) (u16_at bs 18) (u32_at bs 20) (u32_at bs 24) (u32_at bs 28) (u16_at bs 42) (u16_at bs 44).

Definition phdr_of (bs : list Z) : Elf_Phdr :=
  mk_phdr (u32_at bs 0) (u32_at bs 4) (u32_at bs 8) (u32_at bs 16) (u32_at bs 20) (u32_at bs 24).

(** [e_ident[EI_MAG0..3, EI_CLASS, EI_DATA, EI_VERSION]], then [e_version],
    [e_type] and [e_machine]. *)
Definition ehdr_ok (eh : Elf_Ehdr) : bool :=
  bool_decide (take 7 (e_ident eh) = [0x7f; 0x45; 0x4c; 0x46; 1; 2; 1]) &&
  (e_version eh =? 1) && (e_type eh =? 2) && (e_machine eh =? 8).

Definition PT_NULL : Z := 0.
Definition PT_LOAD : Z := 1.
Definition PT_PHDR : Z := 6.
Definition PT_MIPS_REGINFO : Z := 0x70000000.
Definition PF_R : Z := 4.
Definition PF_W : Z := 2.
Definition PF_X : Z := 1.

Section loadelf.
Context {FS : Type} {VO : VnodeOps FS}.
Implicit Types s : kstate FS.

(** [uio_kinit(&iov, &ku, &x, n, off, UIO_READ); VOP_READ(v, &ku)] for a local
    structure [x]: the error number, [uio_resid] and the bytes. *)
Definition read_struct (v : vnode) (off n : Z) : M FS (Z * Z * list Z) := fun s =>
  let '(e, bs, fs') := vop_read v off n (s_fs s) in
  Ok (e, n - zlen bs, bs) (set_fs fs' s).

(** The loop over the program headers, from header [i] on. *)
Fixpoint load_phdrs (n : nat) (i : Z) (eh : Elf_Ehdr) (a : ptr) (v : vnode) : M FS Z :=
  match n with
  | O => ret 0
  | S n' =>
      io <- read_struct v (u32 (e_phoff eh + i * e_phentsize eh)) sizeof_Phdr ;;
      let '(result, resid, bs) := io in
      if negb (result =? 0) then ret result
      else if negb (resid =? 0) then
        kprintf "ELF: short read on phdr - file truncated?" [] ;; ret ENOEXEC
      else
        let ph := phdr_of bs in
        if (p_type ph =? PT_NULL) || (p_type ph =? PT_PHDR) || (p_type ph =? PT_MIPS_REGINFO)
        then load_phdrs n' (i + 1) eh a v
        else if p_type ph =? PT_LOAD then
          result <- as_define_region a (p_vaddr ph) (p_memsz ph) (p_filesz ph) (p_offset ph) (Some v)
                      (Z.land (p_flags ph) PF_R) (Z.land (p_flags ph) PF_W) (Z.land (p_flags ph) PF_X) ;;
          if negb (result =? 0) then ret result else load_phdrs n' (i + 1) eh a v
        else
          kprintf "loadelf: unknown segment type %d" [p_type ph] ;; ret ENOEXEC
  end.

(** The result and, when it is 0, [*entrypoint]. *)
Definition load_elf (v : vnode) : M FS (Z * Z) :=
  a <- proc_getas ;;
  io <- read_struct v 0 sizeof_Ehdr ;;
  let '(result, resid, bs) := io in
  if negb (result =? 0) then ret (result, 0)
  else if negb (resid =? 0) then
    kprintf "ELF: short read on header - file truncated?" [] ;; ret (ENOEXEC, 0)
  else
    let eh := ehdr_of bs in
    if negb (ehdr_ok eh) then ret (ENOEXEC, 0) else
    result <- load_phdrs (Z.to_nat (e_phnum eh)) 0 eh a v ;;
    if negb (result =? 0) then ret (result, 0) else
    result <- as_prepare_load a ;;
    if negb (result =? 0) then ret (result, 0) else
    result <- as_complete_load a ;;
    if negb (result =? 0) then ret (result, 0) else
    ret (0, e_entry eh).

(** An error number, or the stack pointer and the entry point with which
    [enter_new_process] goes to user mode. *)
Definition runprogram (progname : string) : M FS (Z + Z * Z) :=
  fs <- get s_fs ;;
  let '(result, v, fs') := vfs_open progname 0 fs in
  modify (set_fs fs') ;;
  if negb (result =? 0) then ret (inl result) else
  old <- proc_getas ;;
  kassert (bool_decide (old = None)) "proc_getas() == NULL" ;;
  a <- as_create ;;
  match a with
  | None => modify (fun s => set_fs (vfs_close v (s_fs s)) s) ;; ret (inl ENOMEM)
  | Some _ =>
      _ <- proc_setas a ;;
      as_activate ;;
      r <- load_elf v ;;
      if negb (fst r =? 0) then
        modify (fun s => set_fs (vfs_close v (s_fs s)) s) ;; ret (inl (fst r))
      else
        st <- as_define_stack a ;;
        if negb (fst st =? 0) then ret (inl (fst st)) else ret (inr (snd st, snd r))
  end.
End loadelf.

(** ** The construction of an address space, with memory available *)

Definition region_perm (flags : Z) : seg_permissions_t :=
  if negb (Z.land flags PF_W =? 0) then PAGE_RW
  else if negb (Z.land flags PF_X =? 0) then PAGE_EXE else PAGE_RONLY.

(** The segment a program header describes, before its page table exists. *)
Definition region (v : vnode) (ph : Elf_Phdr) : ps_t :=
  mk_ps (region_perm (p_flags ph)) (p_filesz ph) (p_offset ph) (p_vaddr ph)
    (region_npages (p_vaddr ph) (p_memsz ph)) (p_memsz ph) (Some v) None.

Section construct.
Context {FS : Type}.
Implicit Types s : kstate FS.

Lemma run_as_create {B} (k : ptr -> M FS B) s :
  kmalloc_script (s_heap s) = [] ->
  bind as_create k s = k (Some (h_next (s_heap s))) (put_cell (h_next (s_heap s)) (mk_as None None None) (next_ptr s)).
Proof. intros Hk. unfold as_create. run. by destruct (kmalloc_plenty s Hk) as [-> ->]. Qed.

Lemma run_seg_create {B} (k : ptr -> M FS B) s :
  kmalloc_script (s_heap s) = [] ->
  bind seg_create k s =
    k (Some (h_next (s_heap s))) (put_cell (h_next (s_heap s)) (mk_ps PAGE_RONLY 0 0 0 0 0 None None) (next_ptr s)).
Proof. intros Hk. unfold seg_create. run. by destruct (kmalloc_plenty s Hk) as [-> ->]. Qed.

Lemma run_pt_create {B} n base (k : ptr -> M FS B) s :
  kmalloc_script (s_heap s) = [] -> 0 <= n < 2^30 ->
  bind (pt_create n base) k s =
    k (Some (h_next (s_heap s))) (put_cell (h_next (s_heap s)) (empty_table n base) (next_ptr s)).
Proof.
  intros Hk Hn. unfold bind. rewrite pt_create_run by done. unfold pt_struct_allocated.
  destruct (kmalloc_plenty s Hk) as [-> ->]. set (s1 := put_cell _ _ _). destruct (kmalloc_plenty s1 Hk) as [E1 E2].
  cbn zeta. rewrite E1, E2. subst s1. by rewrite put_put.
Qed.

Lemma flag_char flags bit : bit = PF_R \/ bit = PF_W \/ bit = PF_X -> as_char (Z.land flags bit) = Z.land flags bit.
Proof.
  intros Hb. unfold as_char. change 256 with (2^8). rewrite <- Z.land_ones, <- Z.land_assoc by lia.
  by destruct Hb as [->|[->| ->]].
Qed.

(** The state after [as_define_region] stored a new segment in a field. *)
Definition region_added (a : positive) (set : ptr -> addrspace_t -> addrspace_t) (A : addrspace_t) (g : ps_t) s : kstate FS :=
  let x := h_next (s_heap s) in put_cell x g (put_cell a (set (Some x) A) (next_ptr s)).

Lemma as_define_region_run a A v ph s :
  kmalloc_script (s_heap s) = [] -> cell_at s a = Some A -> Z.land (p_flags ph) PF_R <> 0 ->
  as_define_region (Some a) (p_vaddr ph) (p_memsz ph) (p_filesz ph) (p_offset ph) (Some v)
    (Z.land (p_flags ph) PF_R) (Z.land (p_flags ph) PF_W) (Z.land (p_flags ph) PF_X) s =
  match seg_code A, seg_data A with
  | None, _ => Ok 0 (region_added a set_seg_code A (region v ph) s)
  | Some _, None => Ok 0 (region_added a set_seg_data A (region v ph) s)
  | Some _, Some _ => Ok ENOSYS (set_log (s_log s ++ [mk_kmsg "paging: Warning: too many regions" []]) s)
  end.
Proof.
  intros Hk HA HR. unfold as_define_region. run. rewrite (run_load a A) by done. rewrite !flag_char by tauto.
  assert (forall set, bind seg_create (fun x => store (Some a) (set x A) ;; match x with None => ret ENOMEM | Some _ =>
    _ <- seg_define x (p_filesz ph) (p_offset ph) (p_vaddr ph) (region_npages (p_vaddr ph) (p_memsz ph)) (p_memsz ph) (Some v)
           (Z.land (p_flags ph) PF_R) (Z.land (p_flags ph) PF_W) (Z.land (p_flags ph) PF_X) ;; ret 0 end) s =
    Ok 0 (region_added a set A (region v ph) s)) as Hseg.
  { intros set. rewrite run_seg_create by done. set (x := h_next (s_heap s)).
    rewrite (run_store a A) by done. unfold seg_define.
    rewrite run_bind, run_kassert by (apply negb_true_iff; by apply Z.eqb_neq). run.
    set (s1 := put_cell a _ _). set (g0 := mk_ps PAGE_RONLY 0 0 0 0 0 None None).
    assert (cell_at s1 x = Some g0) as Hx by (unfold s1, cell_at; cbn; apply lookup_insert_eq).
    rewrite (run_load x g0) by done. rewrite run_bind, run_kassert by done. rewrite run_bind, (run_store x g0) by done.
    unfold ret. run. f_equal. unfold region_added, region, s1. fold x. unfold put_cell, upd_cells, set_heap. cbn.
    by rewrite insert_insert_eq. }
  destruct (seg_code A) as [c|]; cbn [bool_decide decide_rel]; [|apply Hseg].
  rewrite bool_decide_eq_false_2 by done. destruct (seg_data A) as [d|]; [|apply Hseg].
  by rewrite bool_decide_eq_false_2.
Qed.
End construct.

(** ** The headers of a file *)

Section headers.
Context {FS : Type} {VO : VnodeOps FS} {VL : VnodeLaws FS}.
Implicit Types (s : kstate FS) (fs : FS).

Definition ehdr_at fs (v : vnode) : Elf_Ehdr := ehdr_of (mem_read (file_byte fs v) 0 sizeof_Ehdr).
Definition phdr_at fs (v : vnode) (eh : Elf_Ehdr) (i : Z) : Elf_Phdr :=
  phdr_of (mem_read (file_byte fs v) (u32 (e_phoff eh + i * e_phentsize eh)) sizeof_Phdr).
Definition phdrs_from fs (v : vnode) (eh : Elf_Ehdr) (i : Z) (n : nat) : list Elf_Phdr :=
  (fun k => phdr_at fs v eh (i + Z.of_nat k)) <$> seq 0 n.

Definition skipped (ph : Elf_Phdr) : bool :=
  (p_type ph =? PT_NULL) || (p_type ph =? PT_PHDR) || (p_type ph =? PT_MIPS_REGINFO).
Definition loads (phs : list Elf_Phdr) : list Elf_Phdr := filter (fun ph => p_type ph = PT_LOAD) phs.

(** Program headers [i] to [i + n - 1] are inside the file. *)
Definition phdrs_inside fs (v : vnode) (eh : Elf_Ehdr) (i : Z) (n : nat) : Prop :=
  forall k, i <= k < i + Z.of_nat n -> reads_full fs v (u32 (e_phoff eh + k * e_phentsize eh)) sizeof_Phdr.

(** The header and the program headers are inside the file. *)
Definition headers_inside fs (v : vnode) : Prop :=
  reads_full fs v 0 sizeof_Ehdr /\ phdrs_inside fs v (ehdr_at fs v) 0 (Z.to_nat (e_phnum (ehdr_at fs v))).

Definition same_files fs fs' : Prop := forall w o, file_byte fs' w o = file_byte fs w o.

Lemma same_files_mem fs fs' v off n : same_files fs fs' -> mem_read (file_byte fs' v) off n = mem_read (file_byte fs v) off n.
Proof. intros Hf. unfold mem_read. apply list_fmap_ext. intros. apply Hf. Qed.

Lemma reads_full_same fs fs' v off n : same_files fs fs' -> reads_full fs v off n -> reads_full fs' v off n.
Proof. intros Hf Hr fs1 H1. apply Hr. intros o. by rewrite H1, Hf. Qed.

Lemma read_struct_run v off n s :
  reads_full (s_fs s) v off n -> 0 <= n ->
  exists fs', read_struct v off n s = Ok (0, 0, mem_read (file_byte (s_fs s) v) off n) (set_fs fs' s) /\
    same_files (s_fs s) fs'.
Proof.
  intros Hv Hn. destruct (Hv (s_fs s) ltac:(done)) as (bs & fs' & Hr & Hl). exists fs'.
  split; [|intros w o; by apply (vop_read_frame _ _ _ _ _ _ _ Hr)].
  unfold read_struct. rewrite Hr, Hl, Z.sub_diag. do 2 f_equal.
  apply zlist_ext; [by rewrite zlen_mem_read|]. intros i Hi. rewrite zlookup_mem_read by lia.
  destruct (zlookup_in_range bs i Hi) as [x Hx]. rewrite Hx. f_equal. by apply (vop_read_bytes _ _ _ _ _ _ _ Hr).
Qed.

(** How many more regions [as_define_region] accepts. *)
Definition room (A : addrspace_t) : nat :=
  match seg_code A, seg_data A with
  | None, None => 2 | None, Some _ => 1 | Some _, None => 1 | Some _, Some _ => 0
  end.

(** The regions of the headers added one after the other. *)
Fixpoint add_regions (a : positive) (v : vnode) (ls : list Elf_Phdr) s : kstate FS :=
  match ls with
  | [] => s
  | ph :: ls' =>
      match cell_at s a with
      | None => s
      | Some A =>
          match seg_code A with
          | None => add_regions a v ls' (region_added a set_seg_code A (region v ph) s)
          | Some _ => add_regions a v ls' (region_added a set_seg_data A (region v ph) s)
          end
      end
  end.

Lemma add_regions_set_fs a v ls fs s : add_regions a v ls (set_fs fs s) = set_fs fs (add_regions a v ls s).
Proof.
  revert s. induction ls as [|ph ls IH]; intros s; [done|]. cbn [add_regions].
  change (cell_at (set_fs fs s) a) with (cell_at (T := addrspace_t) s a). destruct (cell_at s a) as [A|]; [|done].
  destruct (seg_code A).
  - change (region_added a set_seg_data A (region v ph) (set_fs fs s))
      with (set_fs fs (region_added a set_seg_data A (region v ph) s)). apply IH.
  - change (region_added a set_seg_code A (region v ph) (set_fs fs s))
      with (set_fs fs (region_added a set_seg_code A (region v ph) s)). apply IH.
Qed.

Lemma phdrs_from_S fs v eh i n : phdrs_from fs v eh i (S n) = phdr_at fs v eh i :: phdrs_from fs v eh (i + 1) n.
Proof.
  unfold phdrs_from. cbn [seq]. rewrite fmap_cons, Z.add_0_r. f_equal. rewrite <- (fmap_S_seq 0 n), <- list_fmap_compose.
  apply list_fmap_ext. intros j k _. cbn. f_equal. lia.
Qed.

Lemma phdrs_same fs fs' v eh i n : same_files fs fs' -> phdrs_from fs' v eh i n = phdrs_from fs v eh i n.
Proof. intros Hf. apply list_fmap_ext. intros. unfold phdr_at. by rewrite (same_files_mem fs). Qed.

(** A header that [load_elf] accepts. *)
Definition acceptable (ph : Elf_Phdr) : Prop :=
  skipped ph = true \/ (p_type ph = PT_LOAD /\ Z.land (p_flags ph) PF_R <> 0).

Lemma loads_cons ph phs : loads (ph :: phs) = if decide (p_type ph = PT_LOAD) then ph :: loads phs else loads phs.
Proof. unfold loads. by rewrite filter_cons. Qed.

Lemma load_phdrs_run n i eh a v s A :
  phdrs_inside (s_fs s) v eh i n -> kmalloc_script (s_heap s) = [] -> cell_at s a = Some A ->
  Forall acceptable (phdrs_from (s_fs s) v eh i n) ->
  (length (loads (phdrs_from (s_fs s) v eh i n)) <= room A)%nat ->
  exists fs', load_phdrs n i eh (Some a) v s =
      Ok 0 (set_fs fs' (add_regions a v (loads (phdrs_from (s_fs s) v eh i n)) s)) /\ same_files (s_fs s) fs'.
Proof.
  revert i s A. induction n as [|n IH]; intros i s A Hv Hk HA Hacc Hroom.
  { exists (s_fs s). split; [by destruct s|done]. }
  rewrite phdrs_from_S in *. apply Forall_cons in Hacc as [Hph Hacc]. cbn [load_phdrs].
  destruct (read_struct_run v (u32 (e_phoff eh + i * e_phentsize eh)) sizeof_Phdr s (Hv i ltac:(lia)) ltac:(unfold sizeof_Phdr; lia)) as (fs1 & Hrun & Hf1).
  assert (phdrs_inside fs1 v eh (i + 1) n) as Hv1 by (intros k Hk'; apply (reads_full_same (s_fs s)); [done|apply Hv; lia]).
  rewrite (bind_Ok _ _ _ _ _ Hrun). clear Hrun. cbn [negb Z.eqb].
  fold (phdr_at (s_fs s) v eh i). set (ph := phdr_at (s_fs s) v eh i) in *.
  cbn zeta. fold (skipped ph). rewrite <- (phdrs_same _ _ v eh (i + 1) n Hf1) in *.
  destruct Hph as [Hskip|[Hload Hread]].
  - assert (p_type ph <> PT_LOAD) as Hne.
    { intros E. unfold skipped in Hskip. rewrite E in Hskip. done. }
    rewrite Hskip. rewrite loads_cons, decide_False in * by done.
    destruct (IH (i + 1) (set_fs fs1 s) A Hv1 Hk HA Hacc Hroom) as (fs2 & Hrun & Hf2).
    exists fs2. split; [rewrite Hrun, add_regions_set_fs; by destruct (add_regions _ _ _ _)|].
    intros w o. rewrite Hf2. apply Hf1.
  - assert (skipped ph = false) as Hskip by (unfold skipped; rewrite Hload; done).
    rewrite Hskip, Hload, Z.eqb_refl. rewrite loads_cons, decide_True in * by done. cbn [length] in Hroom.
    pose proof (as_define_region_run a A v ph (set_fs fs1 s) Hk HA Hread) as Hdef. cbn [add_regions]. rewrite HA.
    unfold room in Hroom. destruct (seg_code A) eqn:Ec.
    + destruct (seg_data A) eqn:Ed; [lia|]. rewrite (bind_Ok _ _ _ _ _ Hdef). cbn [negb Z.eqb].
      set (s1 := region_added a set_seg_data A (region v ph) s).
      destruct (IH (i + 1) (set_fs fs1 s1) (set_seg_data (Some (h_next (s_heap s))) A)) as (fs2 & Hrun & Hf2);
        [exact Hv1|done|unfold cell_at; cbn; apply lookup_insert_eq|done|unfold room; cbn; rewrite Ec; cbn; lia|].
      exists fs2. split; [|intros w o; rewrite Hf2; apply Hf1].
      change (region_added _ _ _ _ (set_fs fs1 s)) with (set_fs fs1 s1). rewrite Hrun, add_regions_set_fs.
      by destruct (add_regions _ _ _ _).
    + rewrite (bind_Ok _ _ _ _ _ Hdef). cbn [negb Z.eqb].
      set (s1 := region_added a set_seg_code A (region v ph) s).
      destruct (IH (i + 1) (set_fs fs1 s1) (set_seg_code (Some (h_next (s_heap s))) A)) as (fs2 & Hrun & Hf2);
        [exact Hv1|done|unfold cell_at; cbn; apply lookup_insert_eq|done|unfold room; cbn; destruct (seg_data A); cbn in *; lia|].
      exists fs2. split; [|intros w o; rewrite Hf2; apply Hf1].
      change (region_added _ _ _ _ (set_fs fs1 s)) with (set_fs fs1 s1). rewrite Hrun, add_regions_set_fs.
      by destruct (add_regions _ _ _ _).
Qed.
End headers.

(** ** Page tables and stack *)

Section prepare.
Context {FS : Type}.
Implicit Types s : kstate FS.

(** A segment gets its empty page table. *)
Definition prepared (x : positive) (g : ps_t) s : kstate FS :=
  let y := h_next (s_heap s) in
  put_cell x (set_page_table (Some y) g) (put_cell y (empty_table (num_pages g) (base_vaddr g)) (next_ptr s)).

Lemma set_fs_twice fs fs' s : set_fs fs (set_fs fs' s) = set_fs fs s.
Proof. by destruct s. Qed.

Lemma prepared_set_fs x g fs s : prepared x g (set_fs fs s) = set_fs fs (prepared x g s).
Proof. by destruct s. Qed.

Lemma run_seg_prepare {B} x g (k : Z -> M FS B) s :
  kmalloc_script (s_heap s) = [] -> cell_at s x = Some g -> 0 <= num_pages g < 2^30 ->
  bind (seg_prepare (Some x)) k s = k 0 (prepared x g s).
Proof.
  intros Hk Hx Hn. unfold seg_prepare. run. rewrite (run_load x g) by done. run. rewrite run_pt_create by done. run.
  by rewrite (run_store x g).
Qed.

Lemma run_as_prepare_load {B} a A x1 g1 x2 g2 (k : Z -> M FS B) s :
  kmalloc_script (s_heap s) = [] -> cell_at s a = Some A -> seg_code A = Some x1 -> seg_data A = Some x2 -> x1 <> x2 ->
  cell_at s x1 = Some g1 -> cell_at s x2 = Some g2 -> 0 <= num_pages g1 < 2^30 -> 0 <= num_pages g2 < 2^30 ->
  bind (as_prepare_load (Some a)) k s = k 0 (prepared x2 g2 (prepared x1 g1 s)).
Proof.
  intros Hk HA H1 H2 Hne Hg1 Hg2 Hn1 Hn2. unfold as_prepare_load. run. rewrite (run_load a A), H1 by done. run.
  rewrite (run_seg_prepare x1 g1) by done. cbn [negb Z.eqb]. run. rewrite (run_load a A), H2 by done. run.
  rewrite (run_seg_prepare x2 g2); [done|done| |done]. unfold cell_at. cbn. by rewrite lookup_insert_ne.
Qed.

(** The segment [seg_define_stack] stores, before its page table exists. *)
Definition stack_seg : ps_t :=
  mk_ps PAGE_STACK 0 0 STACK_BASE PAGEVM_STACKPAGES (PAGEVM_STACKPAGES * PAGE_SIZE) None None.

Lemma run_as_define_stack {B} a A (k : Z * Z -> M FS B) s :
  kmalloc_script (s_heap s) = [] -> cell_at s a = Some A -> seg_stack A = None ->
  let x := h_next (s_heap s) in
  bind (as_define_stack (Some a)) k s =
    k (0, USERSTACK) (prepared x stack_seg (put_cell x stack_seg (put_cell a (set_seg_stack (Some x) A) (next_ptr s)))).
Proof.
  intros Hk HA Hst x. unfold as_define_stack. run. rewrite (run_load a A) by done. run.
  rewrite run_kassert by (by rewrite Hst). run. rewrite run_seg_create by done. fold x. run.
  rewrite (run_store a A) by done. run. unfold seg_define_stack. run.
  set (g0 := mk_ps PAGE_RONLY 0 0 0 0 0 None None). set (s1 := put_cell a _ _).
  assert (cell_at s1 x = Some g0) as Hx by (unfold s1, cell_at; cbn; apply lookup_insert_eq).
  rewrite (run_load x g0) by done. run. rewrite run_kassert by done. run. rewrite run_kassert by done. run.
  change (mk_ps PAGE_STACK _ _ _ _ _ _ _) with stack_seg.
  rewrite (run_store x g0) by done. run. rewrite (run_load x stack_seg) by apply cell_at_put_eq.
  assert (put_cell x stack_seg s1 = put_cell x stack_seg (put_cell a (set_seg_stack (Some x) A) (next_ptr s))) as ->.
  { unfold s1, put_cell, upd_cells, set_heap. cbn. by rewrite insert_insert_eq. }
  set (s2 := put_cell x stack_seg _). run. rewrite run_pt_create by (done || unfold PAGEVM_STACKPAGES; cbn; lia). run.
  erewrite run_store by (unfold cell_at; cbn; apply lookup_insert_eq). run. done.
Qed.
End prepare.

(** ** The whole construction *)

(** What is asked of the two loadable headers: non-empty, no more file bytes
    than memory, below the stack, and in different pages. *)
Record loadable (ph : Elf_Phdr) : Prop := {
  ld_base : 0 <= p_vaddr ph;
  ld_mem : 1 <= p_memsz ph;
  ld_file : 0 <= p_filesz ph <= p_memsz ph;
  ld_end : p_vaddr ph + p_memsz ph <= STACK_BASE
}.

Definition last_page (ph : Elf_Phdr) : Z := page_of (p_vaddr ph + p_memsz ph - 1).
Definition pages_apart (p1 p2 : Elf_Phdr) : Prop :=
  last_page p1 < page_of (p_vaddr p2) \/ last_page p2 < page_of (p_vaddr p1).

(** The page count covers exactly the pages the region touches. *)
Lemma region_npages_exact ph :
  loadable ph -> region_npages (p_vaddr ph) (p_memsz ph) = last_page ph - page_of (p_vaddr ph) + 1.
Proof.
  intros [H1 H2 H3 H4]. unfold region_npages, last_page, page_of, STACK_BASE, USERSTACK, MIPS_KSEG0, PAGEVM_STACKPAGES, PAGE_SIZE in *.
  rewrite land_offset. unfold PAGE_SIZE. rewrite (u32_small (p_memsz ph + _)) by (unfold is_u32; lia).
  rewrite u32_small by (unfold is_u32; lia). rewrite land_frame by (unfold is_u32; lia). unfold PAGE_SIZE. lia.
Qed.

Lemma region_geom v ph y :
  loadable ph -> seg_geom (set_page_table y (region v ph)) /\ role_ok Code (set_page_table y (region v ph)).
Proof.
  intros Hl. pose proof (region_npages_exact ph Hl) as Hn. destruct Hl as [H1 H2 H3 H4].
  unfold last_page, page_of, STACK_BASE, USERSTACK, MIPS_KSEG0, PAGEVM_STACKPAGES, PAGE_SIZE in *. split.
  - constructor; cbn; rewrite ?Hn; unfold page_of, PAGE_SIZE; lia.
  - cbn. split_and!; [|by eexists|unfold seg_fits; cbn; rewrite Hn; unfold PAGE_SIZE; lia|lia|rewrite Hn; unfold PAGE_SIZE; lia].
    unfold region_perm. destruct (negb _); [done|]. by destruct (negb _).
Qed.

Lemma region_covers v ph y va :
  loadable ph -> seg_covers (set_page_table y (region v ph)) va -> page_of (p_vaddr ph) <= page_of va <= last_page ph.
Proof. intros Hl. unfold seg_covers. cbn. rewrite (region_npages_exact ph Hl). lia. Qed.

Section build.
Context {FS : Type}.
Implicit Types s : kstate FS.

(** The segments of the new program; [n] is the first fresh address. *)
Definition new_segs (v : vnode) (p1 p2 : Elf_Phdr) (n : positive) : segs :=
  let n1 := Pos.succ n in let n2 := Pos.succ n1 in let n3 := Pos.succ n2 in
  let n4 := Pos.succ n3 in let n5 := Pos.succ n4 in
  mk_segs (fun r => match r with Code => n | Data => n1 | Stack => n4 end)
    (fun r => match r with
       | Code => set_page_table (Some n2) (region v p1)
       | Data => set_page_table (Some n3) (region v p2)
       | Stack => set_page_table (Some n5) stack_seg end)
    (fun r => match r with Code => n2 | Data => n3 | Stack => n5 end)
    (fun r => match r with
       | Code => empty_table (num_pages (region v p1)) (p_vaddr p1)
       | Data => empty_table (num_pages (region v p2)) (p_vaddr p2)
       | Stack => empty_table PAGEVM_STACKPAGES STACK_BASE end).

(** The state after the two regions, the page tables and the stack. *)
Definition built (a : positive) (v : vnode) (p1 p2 : Elf_Phdr) s : kstate FS :=
  let n := h_next (s_heap s) in
  let A := mk_as (Some n) (Some (Pos.succ n)) None in
  let s1 := prepared (Pos.succ n) (region v p2) (prepared n (region v p1) (add_regions a v [p1; p2] s)) in
  let x := h_next (s_heap s1) in
  prepared x stack_seg (put_cell x stack_seg (put_cell a (set_seg_stack (Some x) A) (next_ptr s1))).

Ltac lookups := unfold cell_at; cbn; repeat (rewrite lookup_insert_eq || rewrite lookup_insert_ne by lia); try reflexivity.

Lemma add_regions_two a v p1 p2 s :
  cell_at s a = Some (mk_as None None None) ->
  let n := h_next (s_heap s) in
  add_regions a v [p1; p2] s =
    region_added a set_seg_data (mk_as (Some n) None None) (region v p2)
      (region_added a set_seg_code (mk_as None None None) (region v p1) s).
Proof.
  intros Ha n. cbn [add_regions]. rewrite Ha. cbn [seg_code].
  assert (cell_at (region_added a set_seg_code (mk_as None None None) (region v p1) s) a = Some (mk_as (Some n) None None)) as ->
    by lookups. done.
Qed.

(** The new address space, and everything else on the heap. *)
Lemma built_cells a v p1 p2 s :
  cell_at s a = Some (mk_as None None None) ->
  let n := h_next (s_heap s) in let G := new_segs v p1 p2 n in let s' := built a v p1 p2 s in
  cell_at s' a = Some (mk_as (Some (sg_ptr G Code)) (Some (sg_ptr G Data)) (Some (sg_ptr G Stack))) /\
  (forall r, cell_at s' (sg_ptr G r) = Some (sg_seg G r) /\ cell_at s' (sg_ptp G r) = Some (sg_tab G r)) /\
  (forall x, x <> a -> cell_at (T := addrspace_t) s' x = cell_at s x) /\
  (forall x, (forall r, x <> sg_ptr G r) -> cell_at (T := ps_t) s' x = cell_at s x) /\
  (forall x, (forall r, x <> sg_ptp G r) -> cell_at (T := pt_t) s' x = cell_at s x).
Proof.
  intros Ha n G s'. unfold s', built. rewrite (add_regions_two a v p1 p2 s Ha). fold n. split_and!.
  - unfold G. lookups.
  - intros []; unfold G; split; lookups.
  - intros x Hx. lookups.
  - intros x Hx. pose proof (Hx Code). pose proof (Hx Data). pose proof (Hx Stack). cbn in *. lookups.
  - intros x Hx. pose proof (Hx Code). pose proof (Hx Data). pose proof (Hx Stack). cbn in *. lookups.
Qed.

Lemma new_segs_as_ok a v p1 p2 s :
  cell_at s a = Some (mk_as None None None) -> loadable p1 -> loadable p2 -> pages_apart p1 p2 ->
  as_ok (built a v p1 p2 s) a (new_segs v p1 p2 (h_next (s_heap s))).
Proof.
  intros Ha L1 L2 Hap. destruct (built_cells a v p1 p2 s Ha) as (C1 & C2 & _). set (G := new_segs _ _ _ _) in *. constructor.
  - eexists. split; [exact C1|]. by intros [].
  - intros r. destruct (C2 r) as [D1 D2].
    assert (seg_geom (sg_seg G r)) as Hg.
    { destruct r; [by apply region_geom|by apply region_geom|constructor; vm_compute; done]. }
    constructor; [done|by destruct r|done| |by destruct r|by destruct r|done].
    destruct Hg as [G1 G2 G3 G4].
    exists (replicate (Z.to_nat (num_pages (sg_seg G r))) 0).
    assert (sg_tab G r = empty_table (num_pages (sg_seg G r)) (base_vaddr (sg_seg G r))) as -> by (by destruct r).
    apply empty_table_wf; [lia|]. unfold is_u32, page_of, PAGE_SIZE in *. lia.
  - intros []; [by apply region_geom|by apply region_geom|]. done.
  - intros r r' va. pose proof (region_covers v p1 (Some (sg_ptp G Code)) va L1) as K1.
    pose proof (region_covers v p2 (Some (sg_ptp G Data)) va L2) as K2. destruct L1, L2.
    unfold pages_apart, last_page, page_of, STACK_BASE, USERSTACK, MIPS_KSEG0, PAGEVM_STACKPAGES, PAGE_SIZE in *.
    assert (seg_covers (sg_seg G Stack) va -> 0x7ffee <= va / 4096) as K3
      by (intros X; change (0 <= va / 4096 - 0x7ffee < 18) in X; lia).
    destruct r, r'; try done; intros X1 X2;
      repeat match goal with H : seg_covers ?g va -> _, X : seg_covers _ va |- _ => specialize (H X) end; lia.
Qed.
End build.

(** ** The other address spaces *)

(** Every address in use is below the next fresh one. *)
Record heap_bounded {FS} (s : kstate FS) : Prop := {
  hb_as : forall x A, cell_at s x = Some A ->
    (x < h_next (s_heap s))%positive /\ forall r y, seg_ptr A r = Some y -> (y < h_next (s_heap s))%positive;
  hb_ps : forall x g, cell_at s x = Some g ->
    (x < h_next (s_heap s))%positive /\ forall y, page_table g = Some y -> (y < h_next (s_heap s))%positive;
  hb_pt : forall x (t : pt_t), cell_at s x = Some t -> (x < h_next (s_heap s))%positive
}.

Section others.
Context {FS : Type} {VO : VnodeOps FS} {VL : VnodeLaws FS}.
Context (s : kstate FS) (a : positive) (v : vnode) (p1 p2 : Elf_Phdr).
Hypotheses (Hb : heap_bounded s) (Ha : cell_at s a = Some (mk_as None None None)).
Hypotheses (L1 : loadable p1) (L2 : loadable p2) (Hap : pages_apart p1 p2).

Let n := h_next (s_heap s).
Let G := new_segs v p1 p2 n.
Let s' := built a v p1 p2 s.

Lemma new_ptrs_fresh r : (n <= sg_ptr G r)%positive /\ (n <= sg_ptp G r)%positive.
Proof. unfold G. destruct r; cbn; lia. Qed.

Lemma as_ok_old a' G' : a' <> a -> as_ok s' a' G' <-> as_ok s a' G'.
Proof.
  intros Hne. destruct (built_cells a v p1 p2 s Ha) as (_ & _ & K1 & K2 & K3). fold n G s' in K1, K2, K3.
  assert (forall x, (x < n)%positive -> cell_at (T := ps_t) s' x = cell_at s x) as J2.
  { intros x Hx. apply K2. intros r E. pose proof (new_ptrs_fresh r). lia. }
  assert (forall x, (x < n)%positive -> cell_at (T := pt_t) s' x = cell_at s x) as J3.
  { intros x Hx. apply K3. intros r E. pose proof (new_ptrs_fresh r). lia. }
  split; intros Hok; destruct (ao_as _ _ _ Hok) as (A & HA & Hp).
  - rewrite K1 in HA by done. assert (forall r, (sg_ptr G' r < n)%positive) as B1.
    { intros r. apply (proj2 (hb_as _ Hb _ _ HA) r _ (Hp r)). }
    assert (forall r, cell_at (T := ps_t) s (sg_ptr G' r) = cell_at s' (sg_ptr G' r)) as E1 by (intros; symmetry; by apply J2).
    apply (as_ok_lookups _ _ _ _ Hok); [by rewrite K1|done|].
    intros r. symmetry. apply J3. destruct (ao_live _ _ _ Hok r) as [M1 M2 _ _ _ _ _]. rewrite <- E1 in M1.
    apply (proj2 (hb_ps _ Hb _ _ M1) _ M2).
  - apply (as_ok_lookups _ _ _ _ Hok); [by rewrite K1| |]; intros r; destruct (ao_live _ _ _ Hok r) as [M1 M2 M3 _ _ _ _].
    + apply J2, (proj1 (hb_ps _ Hb _ _ M1)).
    + apply J3, (hb_pt _ Hb _ _ M3).
Qed.

Lemma no_old_as G' : ~ as_ok s a G'.
Proof.
  intros Hok. destruct (ao_as _ _ _ Hok) as (A & HA & Hp). rewrite Ha in HA. injection HA as <-. by specialize (Hp Code).
Qed.

Lemma page_at_built a' va p :
  page_at s' a' va p <->
    (if decide (a' = a) then p = pte_empty /\ exists r, seg_covers (sg_seg G r) va else page_at s a' va p).
Proof.
  pose proof (new_segs_as_ok a v p1 p2 s Ha L1 L2 Hap) as Hok. fold n G s' in Hok. case_decide as E; [subst a'|].
  - assert (forall r, sg_tab G r = empty_table (num_pages (sg_seg G r)) (base_vaddr (sg_seg G r))) as Ht by (by intros []).
    split.
    + intros (G' & r & Hok' & Hc & Hv). destruct (as_ok_unique _ _ _ _ Hok Hok' r) as (_ & E2 & _ & E4).
      rewrite <- E2 in Hc. rewrite <- E4, Ht in Hv. split; [by eapply empty_table_view|by exists r].
    + intros (-> & r & Hc). exists G, r. split; [done|]. split; [done|].
      destruct (ao_live _ _ _ Hok r) as [_ _ _ [buf Hwf] N1 N2 _].
      destruct (pt_view_total (sg_tab G r) buf va Hwf) as [p' Hp']; [unfold pt_index; by rewrite N1, N2|].
      rewrite Hp', Ht in *. f_equal. by eapply empty_table_view.
  - unfold page_at. by setoid_rewrite (as_ok_old a' _ E).
Qed.

Lemma tables_separate_built : tables_separate s -> tables_separate s'.
Proof.
  intros Hsep a1 G1 r1 a2 G2 r2 H1 H2 E.
  pose proof (new_segs_as_ok a v p1 p2 s Ha L1 L2 Hap) as Hok. fold n G s' in Hok.
  assert (forall a0 G0 r0, a0 <> a -> as_ok s' a0 G0 -> (sg_ptp G0 r0 < n)%positive) as Hold.
  { intros a0 G0 r0 Hne H0. apply as_ok_old in H0; [|done]. destruct (ao_live _ _ _ H0 r0) as [_ _ M3 _ _ _ _].
    apply (hb_pt _ Hb _ _ M3). }
  assert (forall G0 r0, as_ok s' a G0 -> sg_ptp G0 r0 = sg_ptp G r0) as Hnew.
  { intros G0 r0 H0. by destruct (as_ok_unique _ _ _ _ H0 Hok r0) as (_ & _ & ? & _). }
  destruct (decide (a1 = a)) as [->|N1], (decide (a2 = a)) as [->|N2].
  - split; [done|]. rewrite (Hnew G1 r1 H1), (Hnew G2 r2 H2) in E. unfold G in E. destruct r1, r2; cbn in E; lia || done.
  - pose proof (Hold a2 G2 r2 N2 H2). pose proof (new_ptrs_fresh r1). rewrite (Hnew G1 r1 H1) in E. lia.
  - pose proof (Hold a1 G1 r1 N1 H1). pose proof (new_ptrs_fresh r2). rewrite (Hnew G2 r2 H2) in E. lia.
  - apply (Hsep a1 G1 r1 a2 G2 r2); [by apply as_ok_old|by apply as_ok_old|done].
Qed.

Lemma built_frame :
  s_cpu s' = s_cpu s /\ s_ram s' = s_ram s /\ s_cm s' = s_cm s /\ s_swap s' = s_swap s /\ s_stats s' = s_stats s /\
  s_tlb s' = s_tlb s /\ s_mem s' = s_mem s /\ h_proc (s_heap s') = h_proc (s_heap s).
Proof. unfold s', built. by rewrite (add_regions_two a v p1 p2 s Ha). Qed.

Lemma built_inv q vs b : vm_inv None s q vs b -> vm_inv None s' q vs b.
Proof.
  intros [I1 I2 I3 I4 I5 I6 I7 I8 I9 I10]. pose proof page_at_built as Hat.
  assert (forall a0 va p, p <> pte_empty -> page_at s' a0 va p <-> page_at s a0 va p) as Hat'.
  { intros a0 va p Hne. rewrite Hat. case_decide as E; [subst a0|done]. split; [by intros [? _]|].
    intros (G' & r & Hok & _). by destruct (no_old_as G'). }
  destruct built_frame as (F1 & F2 & F3 & F4 & F5 & _). constructor; unfold idle; rewrite ?F1, ?F2, ?F3, ?F4, ?F5; try done.
  - by apply tables_separate_built.
  - intros i e Hi Hne He. destruct (I7 i e Hi Hne He) as (a0 & A1 & A2 & A3). exists a0. split_and!; [done|done|]. by apply Hat'.
  - intros a0 va pa Hp. apply Hat' in Hp; [|done]. by apply I8.
  - intros a0 va off Hp. apply Hat' in Hp; [|done]. by apply (I9 a0 va).
  - intros a0 va a1 va1 off K0 K1. apply Hat' in K0, K1; [|done..]. by eapply I10.
Qed.
End others.

(** ** Starting a program *)

Section start.
Context {FS : Type} {VO : VnodeOps FS} {VL : VnodeLaws FS}.
Implicit Types s : kstate FS.

(** The executable [v]: its headers are accepted and describe two regions. *)
Record program_ok (fs : FS) (v : vnode) (p1 p2 : Elf_Phdr) : Prop := {
  po_reads : headers_inside fs v;
  po_header : ehdr_ok (ehdr_at fs v) = true;
  po_accept : Forall acceptable (phdrs_from fs v (ehdr_at fs v) 0 (Z.to_nat (e_phnum (ehdr_at fs v))));
  po_loads : loads (phdrs_from fs v (ehdr_at fs v) 0 (Z.to_nat (e_phnum (ehdr_at fs v)))) = [p1; p2];
  po_first : loadable p1;
  po_second : loadable p2;
  po_apart : pages_apart p1 p2
}.

Lemma same_files_ehdr fs fs' v : same_files fs fs' -> ehdr_at fs' v = ehdr_at fs v.
Proof. intros Hf. unfold ehdr_at. by rewrite (same_files_mem fs). Qed.

Lemma loadable_npages v ph : loadable ph -> 0 <= num_pages (region v ph) < 2^30.
Proof.
  intros Hl. cbn. rewrite (region_npages_exact ph Hl). destruct Hl.
  unfold last_page, page_of, STACK_BASE, USERSTACK, MIPS_KSEG0, PAGEVM_STACKPAGES, PAGE_SIZE in *. lia.
Qed.

Lemma load_elf_run a v p1 p2 s :
  idle s -> current_as s a -> cell_at s a = Some (mk_as None None None) -> kmalloc_script (s_heap s) = [] ->
  program_ok (s_fs s) v p1 p2 ->
  let n := h_next (s_heap s) in
  exists fs', load_elf v s = Ok (0, e_entry (ehdr_at (s_fs s) v))
      (set_fs fs' (prepared (Pos.succ n) (region v p2) (prepared n (region v p1) (add_regions a v [p1; p2] s)))) /\
    same_files (s_fs s) fs'.
Proof.
  intros Hs Hcur Ha Hk [[P0 P1] P2 P3 P4 P5 P6 P7] n. unfold load_elf. rewrite (run_proc_getas a) by done.
  destruct (read_struct_run v 0 sizeof_Ehdr s P0) as (fs1 & Hrun & Hf1); [unfold sizeof_Ehdr; lia|].
  rewrite (bind_Ok _ _ _ _ _ Hrun). clear Hrun. cbn [negb Z.eqb]. cbn zeta. fold (ehdr_at (s_fs s) v).
  set (eh := ehdr_at (s_fs s) v) in *. rewrite P2. cbn [negb].
  rewrite <- (phdrs_same _ _ v eh 0 _ Hf1) in P3, P4.
  assert (phdrs_inside fs1 v eh 0 (Z.to_nat (e_phnum eh))) as P1' by (intros k Hk'; by apply (reads_full_same (s_fs s)), P1).
  destruct (load_phdrs_run (Z.to_nat (e_phnum eh)) 0 eh a v (set_fs fs1 s) (mk_as None None None) P1' Hk Ha P3)
    as (fs2 & Hrun & Hf2); [cbn [s_fs set_fs]; rewrite P4; cbn; lia|]. cbn [s_fs set_fs] in Hrun, Hf2. rewrite P4 in Hrun.
  rewrite (bind_Ok _ _ _ _ _ Hrun). clear Hrun. cbn [negb Z.eqb].
  rewrite add_regions_set_fs, (add_regions_two a v p1 p2 s Ha). fold n. set (s1 := region_added a set_seg_data _ _ _).
  assert (cell_at s1 a = Some (mk_as (Some n) (Some (Pos.succ n)) None)) as H1 by (unfold cell_at; cbn; apply lookup_insert_eq).
  assert (cell_at s1 n = Some (region v p1)) as H2
    by (unfold cell_at; cbn; rewrite lookup_insert_ne by (unfold n; lia); apply lookup_insert_eq).
  assert (cell_at s1 (Pos.succ n) = Some (region v p2)) as H3 by (unfold cell_at; cbn; apply lookup_insert_eq).
  rewrite (run_as_prepare_load a (mk_as (Some n) (Some (Pos.succ n)) None) n (region v p1) (Pos.succ n) (region v p2) _ (set_fs fs2 (set_fs fs1 s1)));
    [|done|exact H1|done|done|lia|exact H2|exact H3|by apply loadable_npages|by apply loadable_npages].
  cbn [negb Z.eqb]. unfold as_complete_load. run. cbn [negb Z.eqb]. exists fs2.
  rewrite !prepared_set_fs, set_fs_twice. split; [reflexivity|]. intros w o. rewrite Hf2. apply Hf1.
Qed.

Lemma run_proc_setas {B} x pr na (k : ptr -> M FS B) s :
  idle s -> curproc (s_cpu s) = Some x -> cell_at s x = Some pr ->
  bind (proc_setas na) k s = k (p_addrspace pr) (put_cell x (set_p_addrspace na pr) s).
Proof.
  intros Hs Hc Hx. unfold proc_setas. run. rewrite Hc. run. rewrite (run_deref _ _ x) by done. run.
  rewrite (run_load x pr) by done. run. rewrite (run_store x pr) by done. run. by rewrite with_held_put.
Qed.

(** The state after [as_activate] with an address space. *)
Definition activated s : kstate FS :=
  set_stats (bump (stat_index VMSTAT_TLB_INVALIDATION) (s_stats s))
    (set_tlb (mk_tlb invalid_entries (current_victim (s_tlb s))) s).

Lemma run_as_activate {B} a (k : unit -> M FS B) s :
  idle s -> current_as s a -> zlen (tlb_entries (s_tlb s)) = NUM_TLB -> stats_wf (s_stats s) ->
  bind as_activate k s = k tt (activated s).
Proof.
  intros Hs Ha Hl Hst. unfold as_activate. run. rewrite (run_proc_getas a) by done. unfold splhigh, splx. run.
  rewrite (bind_Ok _ _ _ _ _ (vm_tlb_invalidate_entries_run (with_spl IPL_HIGH s) Hl)). run.
  rewrite run_increment; [|exact Hs|exact Hst]. run. f_equal. unfold activated. by destruct s as [[]].
Qed.

(** The states of [runprogram] before the executable is loaded: the empty
    address space is current. *)
Definition entered (x : positive) (pr : proc) s : kstate FS :=
  let a := h_next (s_heap s) in
  activated (put_cell x (set_p_addrspace (Some a) pr) (put_cell a (mk_as None None None) (next_ptr s))).

Lemma entered_bounded x pr s : heap_bounded s -> heap_bounded (entered x pr s).
Proof.
  intros [B1 B2 B3]. split; cbn.
  - intros y A. unfold cell_at. cbn. intros [[<- <-]|[Hne HA]]%lookup_insert_Some; [split; [lia|by intros []]|].
    destruct (B1 y A HA) as [H1 H2]. split; [lia|]. intros r z Hz. specialize (H2 r z Hz). lia.
  - intros y g Hg. destruct (B2 y g Hg) as [H1 H2]. split; [lia|]. intros z Hz. specialize (H2 z Hz). lia.
  - intros y t Ht. specialize (B3 y t Ht). lia.
Qed.

Lemma entered_as_ok x pr s a G : heap_bounded s -> as_ok (entered x pr s) a G <-> as_ok s a G.
Proof.
  intros Hb. set (n := h_next (s_heap s)).
  assert (cell_at (T := addrspace_t) s n = None) as Hn.
  { destruct (cell_at s n) as [A|] eqn:E; [|done]. destruct (hb_as _ Hb _ _ E) as [E' _]. unfold n in E'. lia. }
  assert (cell_at (entered x pr s) n = Some (mk_as None None None)) as Hn' by (unfold cell_at; cbn; apply lookup_insert_eq).
  assert (forall y, y <> n -> cell_at (T := addrspace_t) (entered x pr s) y = cell_at s y) as Hy
    by (intros y Hne; unfold cell_at; cbn; by rewrite lookup_insert_ne).
  split; intros Hok; destruct (ao_as _ _ _ Hok) as (A & HA & Hp);
    (destruct (decide (a = n)) as [->|Hne]; [|apply (as_ok_lookups _ _ _ _ Hok); [by rewrite Hy|done|done]]).
  - rewrite Hn' in HA. injection HA as <-. by specialize (Hp Code).
  - congruence.
Qed.

Lemma entered_page_at x pr s a va p : heap_bounded s -> page_at (entered x pr s) a va p <-> page_at s a va p.
Proof. intros Hb. unfold page_at. by setoid_rewrite (entered_as_ok x pr s _ _ Hb). Qed.

Lemma entered_inv x pr s q vs b : heap_bounded s -> vm_inv None s q vs b -> vm_inv None (entered x pr s) q vs b.
Proof.
  intros Hb Hinv. apply (vm_inv_iff None s); [done|apply (vi_idle _ _ _ _ _ Hinv)|done|done|done| |].
  - intros a G. by apply entered_as_ok.
  - apply bump_wf, (vi_stats _ _ _ _ _ Hinv).
Qed.

Lemma runprogram_run s name x pr v fs0 p1 p2 :
  idle s -> stats_wf (s_stats s) -> zlen (tlb_entries (s_tlb s)) = NUM_TLB -> kmalloc_script (s_heap s) = [] ->
  curproc (s_cpu s) = Some x -> cell_at s x = Some pr -> p_addrspace pr = None ->
  vfs_open name 0 (s_fs s) = (0, v, fs0) -> program_ok fs0 v p1 p2 ->
  exists fs', runprogram name s = Ok (inr (USERSTACK, e_entry (ehdr_at fs0 v)))
    (set_fs fs' (built (h_next (s_heap s)) v p1 p2 (entered x pr s))).
Proof.
  intros Hs Hst Hl Hk Hc Hx Hpa Hopen Hprog. unfold runprogram. run. rewrite Hopen. run. cbn [negb Z.eqb].
  set (s0 := set_fs fs0 s). unfold proc_getas. run. change (curproc (s_cpu s0)) with (curproc (s_cpu s)). rewrite Hc. run.
  rewrite (run_load x pr) by done. run. rewrite Hpa, run_kassert by done.
  assert (with_held [] (with_held [p_lock x] s0) = s0) as -> by (subst s0; unfold idle in Hs; destruct s as [[]]; cbn in *; by subst).
  rewrite run_as_create by exact Hk. rewrite (run_proc_setas x pr); [|exact Hs|exact Hc|exact Hx].
  set (a := h_next (s_heap s0)). set (s2 := put_cell x _ _).
  assert (current_as s2 a) as Hcur.
  { exists x, (set_p_addrspace (Some a) pr). split_and!; [exact Hc|unfold s2, cell_at; cbn; apply lookup_insert_eq|done]. }
  rewrite (run_as_activate a); [|exact Hs|exact Hcur|exact Hl|exact Hst].
  assert (activated s2 = set_fs fs0 (entered x pr s)) as -> by (by destruct s). clear Hcur s2.
  set (s3 := set_fs fs0 (entered x pr s)).
  assert (current_as s3 a) as Hcur.
  { exists x, (set_p_addrspace (Some a) pr). split_and!; [exact Hc|unfold s3, cell_at; cbn; apply lookup_insert_eq|done]. }
  assert (cell_at s3 a = Some (mk_as None None None)) as Ha by (unfold s3, cell_at; cbn; apply lookup_insert_eq).
  destruct (load_elf_run a v p1 p2 s3 Hs Hcur Ha Hk Hprog) as (fs' & Hrun & _). rewrite (bind_Ok _ _ _ _ _ Hrun). clear Hrun.
  cbn [fst snd negb Z.eqb]. unfold s3. rewrite add_regions_set_fs, !prepared_set_fs, set_fs_twice.
  set (n := h_next (s_heap (entered x pr s))). change (h_next (s_heap (set_fs fs0 (entered x pr s)))) with n.
  rewrite (add_regions_two a v p1 p2 (entered x pr s) Ha). fold n.
  set (s4 := prepared (Pos.succ n) (region v p2) _).
  rewrite (run_as_define_stack a (mk_as (Some n) (Some (Pos.succ n)) None)); [|exact Hk| |done].
  - cbn [fst snd negb Z.eqb]. unfold ret. exists fs'. unfold built. change (h_next (s_heap s)) with a.
    rewrite (add_regions_two a v p1 p2 (entered x pr s) Ha). fold n s4. clearbody s4.
    destruct s4. reflexivity.
  - unfold s4, cell_at. cbn. apply lookup_insert_eq.
Qed.

Lemma same_maps_set_fs fs s : same_maps s (set_fs fs s).
Proof. done. Qed.

Lemma vm_inv_set_fs fs s q vs b : vm_inv None s q vs b -> vm_inv None (set_fs fs s) q vs b.
Proof.
  intros Hi. apply (vm_inv_maps None s); try done; [apply (vi_idle _ _ _ _ _ Hi)|apply (vi_stats _ _ _ _ _ Hi)].
Qed.

(** What the construction gives, whatever state it starts from. *)
Record ready (s3 s' : kstate FS) (a : positive) (G : segs) (q : list Z) (vs : vnode) (b : bitmap) : Prop := {
  rd_inv : vm_inv None s' q vs b;
  rd_current : current_as s' a;
  rd_ok : as_ok s' a G;
  rd_pages : forall r va, seg_covers (sg_seg G r) va -> page_at s' a va pte_empty;
  rd_others : forall a' va p, a' <> a -> page_at s' a' va p <-> page_at s3 a' va p;
  rd_tlb : s_tlb s' = s_tlb s3
}.

Lemma ready_set_fs s3 s' a G q vs b fs : ready s3 s' a G q vs b -> ready s3 (set_fs fs s') a G q vs b.
Proof.
  intros [R1 R2 R3 R4 R5 R6]. pose proof (same_maps_set_fs fs s') as Hm. constructor.
  - by apply vm_inv_set_fs.
  - exact R2.
  - by apply (as_ok_maps s' _ _ _ Hm).
  - intros r va Hc. by apply (page_at_maps s' _ _ _ _ Hm), (R4 r).
  - intros a' va p Hne. rewrite <- (page_at_maps s' _ _ _ _ Hm). by apply R5.
  - exact R6.
Qed.

Lemma built_ready s3 a x pr q vs b v p1 p2 :
  vm_inv None s3 q vs b -> heap_bounded s3 -> cell_at s3 a = Some (mk_as None None None) ->
  curproc (s_cpu s3) = Some x -> cell_at s3 x = Some pr -> p_addrspace pr = Some a ->
  loadable p1 -> loadable p2 -> pages_apart p1 p2 ->
  ready s3 (built a v p1 p2 s3) a (new_segs v p1 p2 (h_next (s_heap s3))) q vs b.
Proof.
  intros Hinv Hb Ha Hc Hx Hpa L1 L2 Hap.
  destruct (built_frame s3 a v p1 p2 Ha) as (F1 & _ & _ & _ & _ & F6 & _ & F8). constructor.
  - exact (built_inv s3 a v p1 p2 Hb Ha L1 L2 Hap q vs b Hinv).
  - exists x, pr. rewrite F1. split; [exact Hc|]. split; [|exact Hpa]. etrans; [exact (f_equal (lookup x) F8)|exact Hx].
  - exact (new_segs_as_ok a v p1 p2 s3 Ha L1 L2 Hap).
  - intros r va Hcov. apply (page_at_built s3 a v p1 p2 Hb Ha L1 L2 Hap). rewrite decide_True by done.
    split; [reflexivity|]. exists r. exact Hcov.
  - intros a' va p Hne. rewrite (page_at_built s3 a v p1 p2 Hb Ha L1 L2 Hap). by rewrite decide_False by done.
  - exact F6.
Qed.
(** (C5) Starting a program establishes what the page fault handler needs:
    for an executable with an acceptable header and two loadable regions
    below the stack in different pages, on a machine in a consistent state
    with kernel memory available, [runprogram] reaches user mode with the
    entry point of the header and the top of the stack; the new current
    address space is well formed, its code and data segments are the two
    regions of the file, every page of it is still to be loaded; no address
    has a TLB entry; the other address spaces and the global invariant are
    untouched. *)
Theorem runprogram_ready s name x pr q vs b v fs0 p1 p2 :
  vm_inv None s q vs b -> zlen (tlb_entries (s_tlb s)) = NUM_TLB -> 0 <= current_victim (s_tlb s) < NUM_TLB ->
  kmalloc_script (s_heap s) = [] -> heap_bounded s ->
  curproc (s_cpu s) = Some x -> cell_at s x = Some pr -> p_addrspace pr = None ->
  vfs_open name 0 (s_fs s) = (0, v, fs0) -> program_ok fs0 v p1 p2 ->
  exists s' a G, runprogram name s = Ok (inr (USERSTACK, e_entry (ehdr_at fs0 v))) s' /\
    vm_inv None s' q vs b /\ current_as s' a /\ as_ok s' a G /\
    (forall va, seg_contains Code (sg_seg G Code) va <-> p_vaddr p1 <= va < p_vaddr p1 + p_memsz p1) /\
    (forall va, seg_contains Data (sg_seg G Data) va <-> p_vaddr p2 <= va < p_vaddr p2 + p_memsz p2) /\
    (forall r va, seg_covers (sg_seg G r) va -> page_at s' a va pte_empty) /\
    (forall a' va p, a' <> a -> page_at s' a' va p <-> page_at s a' va p) /\
    tlb_wf (s_tlb s') /\ (forall va, 0 <= va < USERSTACK -> tlb_match (tlb_entries (s_tlb s')) va = None).
Proof.
  intros Hinv Hl Hv Hk Hb Hc Hx Hpa Hopen Hprog. pose proof Hprog as [_ _ _ _ L1 L2 Hap].
  destruct (runprogram_run s name x pr v fs0 p1 p2 (vi_idle _ _ _ _ _ Hinv) (vi_stats _ _ _ _ _ Hinv) Hl Hk Hc Hx Hpa Hopen Hprog)
    as (fs' & Hrun).
  set (a := h_next (s_heap s)) in *. set (s3 := entered x pr s) in *.
  assert (ready s3 (set_fs fs' (built a v p1 p2 s3)) a (new_segs v p1 p2 (h_next (s_heap s3))) q vs b) as [R1 R2 R3 R4 R5 R6].
  { apply ready_set_fs, (built_ready s3 a x (set_p_addrspace (Some a) pr)); try done.
    - by apply entered_inv.
    - by apply entered_bounded.
    - exact (lookup_insert_eq _ _ _).
    - exact (lookup_insert_eq _ _ _). }
  exists (set_fs fs' (built a v p1 p2 s3)), a, (new_segs v p1 p2 (h_next (s_heap s3))).
  split; [exact Hrun|]. split; [exact R1|]. split; [exact R2|]. split; [exact R3|].
  split; [done|]. split; [done|]. split; [exact R4|]. split.
  { intros a' va p Hne. rewrite R5 by exact Hne. exact (entered_page_at x pr s a' va p Hb). }
  rewrite R6. split; [constructor; [done|exact Hv|apply invalid_entries_unique]|apply invalid_entries_no_match].
Qed.
End start.
