(* ===== verification/KMalloc.v ===== *)
(** * The kernel heap allocator ([kern/vm/kmalloc.c])

    The pool-based subpage allocator: whole pages obtained from the page
    allocator are cut into blocks of one of eight sizes; each page has a free
    list threaded through the first word of its free blocks and a descriptor
    ([struct pageref]) that is on two linked lists; the descriptors are
    themselves kept in pages, with a bitmap of the entries in use.  Memory is
    an array of 32-bit words: the free list links and the descriptors are
    words of it.  The page allocator is an interface; the coremap discharges
    it in [KMallocPages]. *)

From S2P Require Import Prelude State Monad.

(** ** The page allocator, as the heap sees it *)

Class KPages (PS : Type) := {
  kp_alloc : Z -> PS -> stop_reason + (Z * PS);
  kp_free : Z -> PS -> stop_reason + PS
}.

(** What [vm.h] promises of [alloc_kpages] and [free_kpages].  [kp_inv ps B]:
    the blocks handed out are those of [B], by address, with their number of
    pages. *)
Class KPagesLaws (PS : Type) {KP : KPages PS} := {
  kp_inv : PS -> gmap Z Z -> Prop;
  kp_block ps B va n : kp_inv ps B -> B !! va = Some n ->
    va mod PAGE_SIZE = 0 /\ MIPS_KSEG0 <= va /\ 1 <= n /\ va + n * PAGE_SIZE < 2^32;
  kp_apart ps B va n va' n' : kp_inv ps B -> B !! va = Some n -> B !! va' = Some n' -> va <> va' ->
    va + n * PAGE_SIZE <= va' \/ va' + n' * PAGE_SIZE <= va;
  kp_alloc_ok ps B n : kp_inv ps B -> 1 <= n < 2^19 ->
    exists va ps', kp_alloc n ps = inr (va, ps') /\
      ((va = 0 /\ kp_inv ps' B) \/ (va <> 0 /\ B !! va = None /\ kp_inv ps' (<[va := n]> B)));
  kp_free_ok ps B va n : kp_inv ps B -> B !! va = Some n ->
    exists ps', kp_free va ps = inr ps' /\ kp_inv ps' (delete va B)
}.

(** ** Data *)

Definition NSIZES : Z := 8.
Definition sizes : list Z := [16; 32; 64; 128; 256; 512; 1024; 2048].
Definition SMALLEST_SUBPAGE_SIZE : Z := 16.
Definition LARGEST_SUBPAGE_SIZE : Z := 2048.
Definition INVALID_OFFSET : Z := 0xffff.

(** [sizeof(struct pageref)], and how many fit on a page. *)
Definition sizeof_pageref : Z := 16.
Definition NPAGEREFS_PER_PAGE : Z := PAGE_SIZE / sizeof_pageref.
Definition INUSE_WORDS : Z := NPAGEREFS_PER_PAGE / 32.
Definition NUM_PAGEREFPAGES : Z := 16.
Definition TOTAL_PAGEREFS : Z := NUM_PAGEREFPAGES * NPAGEREFS_PER_PAGE.

Definition MKPAB (pa blk : Z) : Z := Z.lor (Z.land pa PAGE_FRAME) (Z.land blk PAGE_OFFSET_MASK).

(** The word at each address. *)
Definition words := Z -> Z.
Definition poke (a v : Z) (m : words) : words := fun x => if x =? a then v else m x.

(** [struct pageref] at address [pr]: two pointers, the page address with the
    block type, and two halfwords in one big-endian word. *)
Record pageref := mk_pageref {
  next_samesize : Z;
  next_all : Z;
  pageaddr_and_blocktype : Z;
  freelist_offset : Z;
  nfree : Z
}.

Definition peek_pageref (m : words) (pr : Z) : pageref :=
  mk_pageref (m pr) (m (pr + 4)) (m (pr + 8)) (m (pr + 12) / 65536) (m (pr + 12) mod 65536).
Definition poke_counts (pr off n : Z) (m : words) : words :=
  poke (pr + 12) (off mod 65536 * 65536 + n mod 65536) m.

Definition PR_PAGEADDR (p : pageref) : Z := Z.land (pageaddr_and_blocktype p) PAGE_FRAME.
Definition PR_BLOCKTYPE (p : pageref) : Z := Z.land (pageaddr_and_blocktype p) PAGE_OFFSET_MASK.

Record kheap_root := mk_root { r_page : Z; pagerefs_inuse : list Z; numinuse : Z }.

Record kheap_st (PS : Type) := mk_kheap {
  kheaproots : list kheap_root;
  sizebases : list Z;
  allbase : Z;
  k_words : words;
  k_locked : bool;
  k_pages : PS;
  k_log : list kmsg
}.
Arguments mk_kheap {PS}.
Arguments kheaproots {PS}. Arguments sizebases {PS}. Arguments allbase {PS}. Arguments k_words {PS}.
Arguments k_locked {PS}. Arguments k_pages {PS}. Arguments k_log {PS}.

Section setters.
Context {PS : Type}.
Implicit Types k : kheap_st PS.
Definition set_roots (x : list kheap_root) k := mk_kheap x (sizebases k) (allbase k) (k_words k) (k_locked k) (k_pages k) (k_log k).
Definition set_sizebases (x : list Z) k := mk_kheap (kheaproots k) x (allbase k) (k_words k) (k_locked k) (k_pages k) (k_log k).
Definition set_allbase (x : Z) k := mk_kheap (kheaproots k) (sizebases k) x (k_words k) (k_locked k) (k_pages k) (k_log k).
Definition set_words (x : words) k := mk_kheap (kheaproots k) (sizebases k) (allbase k) x (k_locked k) (k_pages k) (k_log k).
Definition set_locked (x : bool) k := mk_kheap (kheaproots k) (sizebases k) (allbase k) (k_words k) x (k_pages k) (k_log k).
Definition set_pages (x : PS) k := mk_kheap (kheaproots k) (sizebases k) (allbase k) (k_words k) (k_locked k) x (k_log k).
Definition set_klog (x : list kmsg) k := mk_kheap (kheaproots k) (sizebases k) (allbase k) (k_words k) (k_locked k) (k_pages k) x.
End setters.

(** ** The monad of the allocator: its state, or a stop *)

Declare Scope km_scope.
Delimit Scope km_scope with km.

Section km.
Context {PS : Type}.
Definition KM (A : Type) : Type := kheap_st PS -> stop_reason + (A * kheap_st PS).
Definition kret {A} (a : A) : KM A := fun k => inr (a, k).
Definition kstop {A} (r : stop_reason) : KM A := fun _ => inl r.
Definition kbind {A B} (m : KM A) (f : A -> KM B) : KM B := fun k =>
  match m k with inr (a, k') => f a k' | inl r => inl r end.
Definition kget {A} (f : kheap_st PS -> A) : KM A := fun k => inr (f k, k).
Definition kmodify (f : kheap_st PS -> kheap_st PS) : KM unit := fun k => inr (tt, f k).
Definition KASSERT (b : bool) (what : string) : KM unit := fun k =>
  if b then inr (tt, k) else inl (KASSERT_failed what).
Definition kderef {A} (o : option A) (what : string) : KM A := fun k =>
  match o with Some a => inr (a, k) | None => inl (bad_access what) end.
End km.
Arguments KM : clear implicits.

Notation "x <- m ;; k" := (kbind m (fun x => k)) : km_scope.
Notation "m ;; k" := (kbind m (fun _ => k)) : km_scope.
#[local] Open Scope km_scope.

Section kmalloc.
Context {PS : Type} {KP : KPages PS}.

Definition kprint (fmt : string) (args : list Z) : KM PS unit :=
  kmodify (fun k => set_klog (k_log k ++ [mk_kmsg fmt args]) k).

(** [kmalloc_spinlock] *)
Definition lock_heap : KM PS unit := fun k =>
  if k_locked k then inl (KASSERT_failed "deadlock on spinlock") else inr (tt, set_locked true k).
Definition unlock_heap : KM PS unit := fun k =>
  if k_locked k then inr (tt, set_locked false k) else inl (KASSERT_failed "spinlock_do_i_hold(splk)").

Definition alloc_pages (n : Z) : KM PS Z := fun k =>
  match kp_alloc n (k_pages k) with
  | inr (va, ps) => inr (va, set_pages ps k)
  | inl r => inl r
  end.
Definition free_pages_at (va : Z) : KM PS unit := fun k =>
  match kp_free va (k_pages k) with
  | inr ps => inr (tt, set_pages ps k)
  | inl r => inl r
  end.

Definition get_root (r : Z) : KM PS kheap_root := fun k => kderef (zlookup (kheaproots k) r) "kheaproots[whichroot]" k.
Definition put_root (r : Z) (x : kheap_root) : KM PS unit := kmodify (fun k => set_roots (zinsert r x (kheaproots k)) k).
Definition get_pageref (pr : Z) : KM PS pageref := kget (fun k => peek_pageref (k_words k) pr).
Definition write (a v : Z) : KM PS unit := kmodify (fun k => set_words (poke a v (k_words k)) k).
Definition read (a : Z) : KM PS Z := kget (fun k => k_words k a).
Definition write_counts (pr off n : Z) : KM PS unit :=
  kmodify (fun k => set_words (poke_counts pr off n (k_words k)) k).
Definition size_at (t : Z) : KM PS Z := kderef (zlookup sizes t) "sizes[blktype]".

(** [fill_deadbeef(ptr, len)]: [n] words from [a] on. *)
Fixpoint fill_words (n : nat) (a : Z) (m : words) : words :=
  match n with O => m | S n' => fill_words n' (a + 4) (poke a 0xdeadbeef m) end.
Definition fill_deadbeef (vptr len : Z) : KM PS unit :=
  kmodify (fun k => set_words (fill_words (Z.to_nat (len / 4)) vptr (k_words k)) k).

(** ** Descriptors *)

Definition allocpagerefpage (r : Z) : KM PS unit :=
  root <- get_root r ;;
  KASSERT (r_page root =? 0) "root->page == NULL" ;;
  unlock_heap ;;
  va <- alloc_pages 1 ;;
  lock_heap ;;
  if va =? 0 then kprint "kmalloc: Couldn't get a pageref page" [] else
  KASSERT (va mod PAGE_SIZE =? 0) "va % PAGE_SIZE == 0" ;;
  root <- get_root r ;;
  if negb (r_page root =? 0) then
    unlock_heap ;;
    free_pages_at va ;;
    lock_heap ;;
    root <- get_root r ;;
    KASSERT (negb (r_page root =? 0)) "root->page != NULL"
  else put_root r (mk_root va (pagerefs_inuse root) (numinuse root)).

(** [for (k=1,j=0; k!=0; k<<=1,j++) if ((w & k) == 0) ...] *)
Fixpoint first_clear (fuel : nat) (k j w : Z) : option (Z * Z) :=
  match fuel with
  | O => None
  | S fuel' =>
      if k =? 0 then None
      else if Z.land w k =? 0 then Some (j, k)
      else first_clear fuel' (u32 (Z.shiftl k 1)) (j + 1) w
  end.

(** The loop over the words of [pagerefs_inuse]: the index of the first word
    with a clear bit, the bit and its mask; [None] when every word is full. *)
Fixpoint first_free_ref (ws : list Z) (i : Z) : stop_reason + option (Z * Z * Z) :=
  match ws with
  | [] => inr None
  | w :: ws' =>
      if w =? 0xffffffff then first_free_ref ws' (i + 1)
      else match first_clear 33 1 0 w with
           | Some (j, k) => inr (Some (i, j, k))
           | None => inl (KASSERT_failed "0")
           end
  end.

(** The loop over the roots; [n] are left, from [whichroot] on. *)
Fixpoint allocpageref_from (n : nat) (whichroot : Z) : KM PS Z :=
  match n with
  | O => kret 0
  | S n' =>
      root <- get_root whichroot ;;
      if NPAGEREFS_PER_PAGE <=? numinuse root then allocpageref_from n' (whichroot + 1) else
      match first_free_ref (pagerefs_inuse root) 0 with
      | inl r => kstop r
      | inr None => allocpageref_from n' (whichroot + 1)
      | inr (Some (i, j, k)) =>
          w <- kderef (zlookup (pagerefs_inuse root) i) "root->pagerefs_inuse[i]" ;;
          put_root whichroot (mk_root (r_page root) (zinsert i (Z.lor w k) (pagerefs_inuse root)) (numinuse root + 1)) ;;
          (if r_page root =? 0 then allocpagerefpage whichroot else kret tt) ;;
          root' <- get_root whichroot ;;
          if r_page root' =? 0 then kret 0
          else kret (r_page root' + sizeof_pageref * (i * 32 + j))
      end
  end.

Definition allocpageref : KM PS Z := allocpageref_from (Z.to_nat NUM_PAGEREFPAGES) 0.

Fixpoint freepageref_from (n : nat) (whichroot p : Z) : KM PS unit :=
  match n with
  | O => KASSERT false "0"
  | S n' =>
      root <- get_root whichroot ;;
      if r_page root =? 0 then
        KASSERT (numinuse root =? 0) "root->numinuse == 0" ;;
        freepageref_from n' (whichroot + 1) p
      else
        let j := u32 ((p - r_page root) / sizeof_pageref) in
        if j <? NPAGEREFS_PER_PAGE then
          let i := j / 32 in
          let k := Z.shiftl 1 (j mod 32) in
          w <- kderef (zlookup (pagerefs_inuse root) i) "root->pagerefs_inuse[i]" ;;
          KASSERT (negb (Z.land w k =? 0)) "(root->pagerefs_inuse[i] & k) != 0" ;;
          KASSERT (0 <? numinuse root) "root->numinuse > 0" ;;
          put_root whichroot (mk_root (r_page root) (zinsert i (Z.ldiff w k) (pagerefs_inuse root)) (numinuse root - 1))
        else freepageref_from n' (whichroot + 1) p
  end.

Definition freepageref (p : Z) : KM PS unit := freepageref_from (Z.to_nat NUM_PAGEREFPAGES) 0 p.

(** ** The two lists of descriptors *)

(** What a [struct pageref **] of the code can point to. *)
Inductive link := SizeBase (t : Z) | NextSamesize (pr : Z) | AllBase | NextAll (pr : Z).

Definition read_link (l : link) : KM PS Z :=
  match l with
  | SizeBase t => fun k => kderef (zlookup (sizebases k) t) "sizebases[blktype]" k
  | NextSamesize pr => read pr
  | AllBase => kget allbase
  | NextAll pr => read (pr + 4)
  end.
Definition write_link (l : link) (v : Z) : KM PS unit :=
  match l with
  | SizeBase t => kmodify (fun k => set_sizebases (zinsert t v (sizebases k)) k)
  | NextSamesize pr => write pr v
  | AllBase => kmodify (set_allbase v)
  | NextAll pr => write (pr + 4) v
  end.

(** The loop over [guy]: it unlinks [pr] from the list that starts at [guy] and
    goes on through the link [next] of each descriptor. *)
Fixpoint remove_from (fuel : nat) (next : Z -> link) (guy : link) (pr : Z) : KM PS unit :=
  match fuel with
  | O => kstop (loops_forever "remove_lists")
  | S fuel' =>
      cur <- read_link guy ;;
      if cur =? 0 then kret tt
      else if cur =? pr then v <- read_link (next pr) ;; write_link guy v
      else remove_from fuel' next (next cur) pr
  end.

(** More iterations than there are descriptors. *)
Definition list_fuel : nat := Z.to_nat (TOTAL_PAGEREFS + 1).

Definition remove_lists (pr blktype : Z) : KM PS unit :=
  KASSERT ((0 <=? blktype) && (blktype <? NSIZES)) "blktype>=0 && blktype<NSIZES" ;;
  remove_from list_fuel NextSamesize (SizeBase blktype) pr ;;
  remove_from list_fuel NextAll AllBase pr.

(** ** Blocks *)

Fixpoint blocktype_from (ss : list Z) (i clientsz : Z) : option Z :=
  match ss with
  | [] => None
  | x :: ss' => if clientsz <=? x then Some i else blocktype_from ss' (i + 1) clientsz
  end.
Definition blocktype (clientsz : Z) : KM PS Z :=
  match blocktype_from sizes 0 clientsz with
  | Some i => kret i
  | None => kstop (panic_called "Subpage allocator cannot handle allocation of size %zu")
  end.

(** The code at the label [doalloc]: take the first block of the free list. *)
Definition doalloc (pr : Z) : KM PS Z :=
  p <- get_pageref pr ;;
  KASSERT (freelist_offset p <? PAGE_SIZE) "pr->freelist_offset < PAGE_SIZE" ;;
  let prpage := PR_PAGEADDR p in
  let retptr := u32 (prpage + freelist_offset p) in
  fl <- read retptr ;;
  let n := (nfree p - 1) mod 65536 in
  (if negb (fl =? 0) then
     KASSERT (0 <? n) "pr->nfree > 0" ;;
     KASSERT (u32 (fl - prpage) <? PAGE_SIZE) "fla - prpage < PAGE_SIZE" ;;
     write_counts pr (u32 (fl - prpage)) n
   else
     KASSERT (n =? 0) "pr->nfree == 0" ;;
     write_counts pr INVALID_OFFSET n) ;;
  unlock_heap ;;
  kret retptr.

(** The search in [sizebases[blktype]]: a descriptor with a free block, or 0. *)
Fixpoint find_partial (fuel : nat) (pr blktype : Z) : KM PS Z :=
  match fuel with
  | O => kstop (loops_forever "subpage_kmalloc")
  | S fuel' =>
      if pr =? 0 then kret 0 else
      p <- get_pageref pr ;;
      KASSERT (PR_BLOCKTYPE p =? blktype) "PR_BLOCKTYPE(pr) == blktype" ;;
      if 0 <? nfree p then kret pr else find_partial fuel' (next_samesize p) blktype
  end.

(** The loop that threads the free list through a new page. *)
Fixpoint thread_page (n : nat) (i fla sz : Z) : KM PS unit :=
  match n with
  | O => kret tt
  | S n' =>
      let fl := fla + i * sz in
      let next := fla + (i - 1) * sz in
      write fl next ;;
      KASSERT (negb (fl =? next)) "fl != fl->next" ;;
      thread_page n' (i + 1) fla sz
  end.

(** The initialisation of a new page and its descriptor, and their insertion
    in the two lists. *)
Definition setup_page (pr prpage blktype : Z) : KM PS unit :=
  size <- size_at blktype ;;
  let n := PAGE_SIZE / size in
  write (pr + 8) (MKPAB prpage blktype) ;;
  write prpage 0 ;;
  thread_page (Z.to_nat (n - 1)) 1 prpage size ;;
  write_counts pr ((n - 1) * size) n ;;
  p <- get_pageref pr ;;
  KASSERT (freelist_offset p =? (nfree p - 1) * size) "pr->freelist_offset == (pr->nfree-1)*sizes[blktype]" ;;
  sb <- read_link (SizeBase blktype) ;;
  write_link (NextSamesize pr) sb ;;
  write_link (SizeBase blktype) pr ;;
  ab <- read_link AllBase ;;
  write_link (NextAll pr) ab ;;
  write_link AllBase pr.

Definition subpage_kmalloc (sz : Z) : KM PS Z :=
  blktype <- blocktype sz ;;
  lock_heap ;;
  base <- read_link (SizeBase blktype) ;;
  pr <- find_partial list_fuel base blktype ;;
  if negb (pr =? 0) then doalloc pr else
  unlock_heap ;;
  prpage <- alloc_pages 1 ;;
  if prpage =? 0 then
    kprint "kmalloc: Subpage allocator couldn't get a page" [] ;; kret 0
  else
    KASSERT (prpage mod PAGE_SIZE =? 0) "prpage % PAGE_SIZE == 0" ;;
    lock_heap ;;
    pr <- allocpageref ;;
    if pr =? 0 then
      unlock_heap ;;
      free_pages_at prpage ;;
      kprint "kmalloc: Subpage allocator couldn't get pageref" [] ;; kret 0
    else
      setup_page pr prpage blktype ;;
      doalloc pr.

(** The search of the page that holds [ptraddr]: its descriptor, or 0. *)
Fixpoint find_page (fuel : nat) (pr ptraddr : Z) : KM PS Z :=
  match fuel with
  | O => kstop (loops_forever "subpage_kfree")
  | S fuel' =>
      if pr =? 0 then kret 0 else
      p <- get_pageref pr ;;
      KASSERT ((0 <=? PR_BLOCKTYPE p) && (PR_BLOCKTYPE p <? NSIZES)) "blktype >= 0 && blktype < NSIZES" ;;
      if (PR_PAGEADDR p <=? ptraddr) && (ptraddr <? u32 (PR_PAGEADDR p + PAGE_SIZE)) then kret pr
      else find_page fuel' (next_all p) ptraddr
  end.

(** 0, or -1 when the pointer is on no heap page. *)
Definition subpage_kfree (ptraddr : Z) : KM PS Z :=
  lock_heap ;;
  base <- read_link AllBase ;;
  pr <- find_page list_fuel base ptraddr ;;
  if pr =? 0 then unlock_heap ;; kret (-1) else
  p <- get_pageref pr ;;
  let prpage := PR_PAGEADDR p in
  let blktype := PR_BLOCKTYPE p in
  let offset := u32 (ptraddr - prpage) in
  size <- size_at blktype ;;
  if (PAGE_SIZE <=? offset) || negb (offset mod size =? 0) then
    kstop (panic_called "kfree: subpage free of invalid addr %p")
  else
    fill_deadbeef ptraddr size ;;
    let fl := prpage + offset in
    (if freelist_offset p =? INVALID_OFFSET then write fl 0
     else
       write fl (prpage + freelist_offset p) ;;
       KASSERT (negb (fl =? prpage + freelist_offset p)) "fl != fl->next") ;;
    let n := (nfree p + 1) mod 65536 in
    write_counts pr offset n ;;
    KASSERT (n <=? PAGE_SIZE / size) "pr->nfree <= PAGE_SIZE / sizes[blktype]" ;;
    (if n =? PAGE_SIZE / size then
       remove_lists pr blktype ;;
       freepageref pr ;;
       unlock_heap ;;
       free_pages_at prpage
     else unlock_heap) ;;
    kret 0.

(** ** The interface *)

Definition kmalloc (sz : Z) : KM PS Z :=
  if LARGEST_SUBPAGE_SIZE <=? sz then
    let npages := u32 (sz + PAGE_SIZE - 1) / PAGE_SIZE in
    address <- alloc_pages npages ;;
    if address =? 0 then kret 0 else
    KASSERT (address mod PAGE_SIZE =? 0) "address % PAGE_SIZE == 0" ;;
    kret address
  else subpage_kmalloc sz.

Definition kfree (ptr : Z) : KM PS unit :=
  if ptr =? 0 then kret tt else
  r <- subpage_kfree ptr ;;
  if negb (r =? 0) then
    KASSERT (ptr mod PAGE_SIZE =? 0) "(vaddr_t)ptr%PAGE_SIZE==0" ;;
    free_pages_at ptr
  else kret tt.
End kmalloc.
