(* ===== verification/KMallocRefs.v ===== *)
(** * The descriptors of heap pages

    [allocpageref] and [freepageref] of [kmalloc.c]: the bitmaps of the
    descriptor pages as sets of entries in use, and the invariant of the
    roots.  An entry handed out is fresh and stays in use until it is given
    back; no assertion of the two functions can fail as long as fewer than
    256 attempts to obtain a descriptor page have failed. *)

From S2P Require Import Prelude State Monad Bitmap KMalloc.
#[local] Open Scope km_scope.

(** ** Stepping through the monad *)

Section steps.
Context {PS : Type}.
Implicit Types k : kheap_st PS.

Lemma krun_ret {A B} (a : A) (f : A -> KM PS B) k : kbind (kret a) f k = f a k.
Proof. done. Qed.
Lemma krun_get {A B} (g : kheap_st PS -> A) (f : A -> KM PS B) k : kbind (kget g) f k = f (g k) k.
Proof. done. Qed.
Lemma krun_modify {B} g (f : unit -> KM PS B) k : kbind (kmodify g) f k = f tt (g k).
Proof. done. Qed.
Lemma krun_bind {A B C} (m : KM PS A) (g : A -> KM PS B) (f : B -> KM PS C) k :
  kbind (kbind m g) f k = kbind m (fun a => kbind (g a) f) k.
Proof. unfold kbind. by destruct (m k) as [|[]]. Qed.
Lemma krun_KASSERT {B} b what (f : unit -> KM PS B) k : b = true -> kbind (KASSERT b what) f k = f tt k.
Proof. unfold kbind, KASSERT. by intros ->. Qed.
Lemma krun_deref {A B} (o : option A) what a (f : A -> KM PS B) k : o = Some a -> kbind (kderef o what) f k = f a k.
Proof. unfold kbind, kderef. by intros ->. Qed.
Lemma kbind_inr {A B} (m : KM PS A) (f : A -> KM PS B) k a k' : m k = inr (a, k') -> kbind m f k = f a k'.
Proof. unfold kbind. by intros ->. Qed.
Lemma krun_get_root {B} r root (f : kheap_root -> KM PS B) k :
  zlookup (kheaproots k) r = Some root -> kbind (get_root r) f k = f root k.
Proof. unfold kbind, get_root, kderef. by intros ->. Qed.
Lemma krun_lock {B} (f : unit -> KM PS B) k : k_locked k = false -> kbind lock_heap f k = f tt (set_locked true k).
Proof. unfold kbind, lock_heap. by intros ->. Qed.
Lemma krun_unlock {B} (f : unit -> KM PS B) k : k_locked k = true -> kbind unlock_heap f k = f tt (set_locked false k).
Proof. unfold kbind, unlock_heap. by intros ->. Qed.
Lemma krun_alloc {KP : KPages PS} {B} n va ps (f : Z -> KM PS B) k :
  kp_alloc n (k_pages k) = inr (va, ps) -> kbind (alloc_pages n) f k = f va (set_pages ps k).
Proof. unfold kbind, alloc_pages. by intros ->. Qed.
Lemma krun_free {KP : KPages PS} {B} va ps (f : unit -> KM PS B) k :
  kp_free va (k_pages k) = inr ps -> kbind (free_pages_at va) f k = f tt (set_pages ps k).
Proof. unfold kbind, free_pages_at. by intros ->. Qed.
End steps.

Create Rewrite HintDb krun.
#[export] Hint Rewrite @krun_ret @krun_get @krun_modify @krun_bind : krun.
Ltac krun := repeat (progress autorewrite with krun; cbn beta).

(** ** The bitmap of a descriptor page *)

Definition inuse (ws : list Z) (i : Z) : bool :=
  match zlookup ws (i / 32) with Some w => Z.testbit w (i mod 32) | None => false end.

Definition count_inuse (ws : list Z) : Z := zlen (filter (fun i => inuse ws i = true) (seqZ 0 256)).

Record root_ok (x : kheap_root) : Prop := {
  ro_len : zlen (pagerefs_inuse x) = 8;
  ro_words : Forall is_u32 (pagerefs_inuse x);
  ro_count : numinuse x = count_inuse (pagerefs_inuse x)
}.

Lemma filter_ext_in {A} (P Q : A -> Prop) {_ : forall x, Decision (P x)} {_ : forall x, Decision (Q x)} (l : list A) :
  (forall x, x ∈ l -> P x <-> Q x) -> filter P l = filter Q l.
Proof.
  induction l as [|x l IH]; intros H; [done|]. rewrite !filter_cons, IH by set_solver.
  pose proof (H x ltac:(set_solver)). destruct (decide (P x)), (decide (Q x)); tauto || done.
Qed.

Lemma filter_every {A} (P : A -> Prop) {_ : forall x, Decision (P x)} (l : list A) :
  (forall x, x ∈ l -> P x) -> filter P l = l.
Proof.
  induction l as [|x l IH]; intros H; [done|]. rewrite filter_cons, decide_True, IH by set_solver. done.
Qed.

(** Changing one entry of a bitmap changes the count by one. *)
Lemma filter_flip (P Q : Z -> bool) (l : list Z) i :
  NoDup l -> i ∈ l -> P i = false -> Q i = true -> (forall j, j <> i -> Q j = P j) ->
  zlen (filter (fun j => Q j = true) l) = zlen (filter (fun j => P j = true) l) + 1.
Proof.
  intros Hnd Hi HP HQ Hne. unfold zlen. induction Hnd as [|x l Hx Hnd IH]; [by apply not_elem_of_nil in Hi|].
  rewrite !filter_cons. apply elem_of_cons in Hi as [<-|Hi].
  - rewrite HP, HQ, decide_True, decide_False by done. cbn [length].
    assert (filter (fun j => Q j = true) l = filter (fun j => P j = true) l) as ->; [|lia].
    apply filter_ext_in. intros j Hj. rewrite Hne; [done|]. by intros ->.
  - rewrite Hne by (by intros ->). specialize (IH Hi). destruct (decide (P x = true)); cbn [length]; lia.
Qed.

Lemma count_bounds ws : 0 <= count_inuse ws <= 256.
Proof.
  unfold count_inuse, zlen. pose proof (length_filter (fun i => inuse ws i = true) (seqZ 0 256)).
  rewrite length_seqZ in *. lia.
Qed.

Lemma count_pos ws i : 0 <= i < 256 -> inuse ws i = true -> 0 < count_inuse ws.
Proof.
  intros Hi Hu. unfold count_inuse, zlen.
  assert (i ∈ filter (fun i => inuse ws i = true) (seqZ 0 256)) as Hin by (apply list_elem_of_filter; split; [done|apply elem_of_seqZ; lia]).
  destruct (filter _ _); [by apply not_elem_of_nil in Hin|]. cbn. lia.
Qed.

Lemma count_full ws : (forall i, 0 <= i < 256 -> inuse ws i = true) -> count_inuse ws = 256.
Proof.
  intros Hall. unfold count_inuse, zlen.
  rewrite filter_every, length_seqZ; [lia|]. intros i Hi%elem_of_seqZ. apply Hall. lia.
Qed.

Lemma count_all_ones ws : zlen ws = 8 -> Forall (fun w => w = 0xffffffff) ws -> count_inuse ws = 256.
Proof.
  intros Hlen Hall. apply count_full. intros i Hi. unfold inuse.
  destruct (zlookup_in_range ws (i / 32)) as [w Hw]; [lia|]. rewrite Hw.
  assert (w = Z.ones 32) as ->.
  { unfold zlookup in Hw. destruct (_ <? 0); [done|]. by eapply (Forall_lookup_1 _ _ _ _ Hall). }
  apply Z.ones_spec_low. lia.
Qed.

Lemma u32_bits w n : is_u32 w -> 32 <= n -> Z.testbit w n = false.
Proof.
  unfold is_u32. intros Hw Hn. destruct (Z.eq_dec w 0) as [->|]; [apply Z.testbit_0_l|].
  apply Z.bits_above_log2; [lia|]. assert (Z.log2 w < 32) by (apply Z.log2_lt_pow2; lia). lia.
Qed.

Lemma u32_of_bits w : 0 <= w -> (forall n, 32 <= n -> Z.testbit w n = false) -> is_u32 w.
Proof.
  intros Hw Hb. split; [done|]. destruct (Z.eq_dec w 0) as [->|]; [lia|].
  destruct (Z_lt_le_dec w (2^32)); [done|].
  assert (32 <= Z.log2 w) by (apply Z.log2_le_pow2; lia).
  pose proof (Z.bit_log2 w ltac:(lia)). rewrite Hb in *; [done|lia].
Qed.

Lemma lor_u32 w j : is_u32 w -> 0 <= j < 32 -> is_u32 (Z.lor w (Z.shiftl 1 j)).
Proof.
  intros Hw Hj. apply u32_of_bits.
  - apply Z.lor_nonneg. split; [apply Hw|]. apply Z.shiftl_nonneg. lia.
  - intros n Hn. rewrite Z.lor_spec, u32_bits, testbit_shiftl_1 by (done || lia). apply bool_decide_eq_false. lia.
Qed.

Lemma ldiff_u32 w k : is_u32 w -> is_u32 (Z.ldiff w k).
Proof.
  intros Hw. apply u32_of_bits.
  - apply Z.ldiff_nonneg. left. apply Hw.
  - intros n Hn. by rewrite Z.ldiff_spec, u32_bits by done.
Qed.

Lemma inuse_zinsert ws i w' x :
  0 <= i < zlen ws ->
  inuse (zinsert i w' ws) x = if decide (x / 32 = i) then Z.testbit w' (x mod 32) else inuse ws x.
Proof.
  intros Hi. unfold inuse. rewrite zlookup_zinsert by done. repeat case_decide; congruence || done.
Qed.

Lemma inuse_set ws i j w x :
  zlookup ws i = Some w -> 0 <= j < 32 ->
  inuse (zinsert i (Z.lor w (Z.shiftl 1 j)) ws) x = if decide (x = i * 32 + j) then true else inuse ws x.
Proof.
  intros Hw Hj. rewrite inuse_zinsert by eauto with arrays. case_decide as E.
  - rewrite Z.lor_spec, testbit_shiftl_1 by lia. unfold inuse. rewrite E, Hw. case_decide as E'.
    + rewrite bool_decide_eq_true_2 by lia. apply orb_true_r.
    + rewrite bool_decide_eq_false_2 by lia. apply orb_false_r.
  - by rewrite decide_False by lia.
Qed.

Lemma inuse_clear ws i j w x :
  zlookup ws i = Some w -> 0 <= j < 32 ->
  inuse (zinsert i (Z.ldiff w (Z.shiftl 1 j)) ws) x = if decide (x = i * 32 + j) then false else inuse ws x.
Proof.
  intros Hw Hj. rewrite inuse_zinsert by eauto with arrays. case_decide as E.
  - rewrite Z.ldiff_spec, testbit_shiftl_1 by lia. unfold inuse. rewrite E, Hw. case_decide as E'.
    + rewrite bool_decide_eq_true_2 by lia. apply andb_false_r.
    + rewrite bool_decide_eq_false_2 by lia. apply andb_true_r.
  - by rewrite decide_False by lia.
Qed.

Lemma root_ok_set p ws n i j w :
  root_ok (mk_root p ws n) -> zlookup ws i = Some w -> 0 <= j < 32 -> inuse ws (i * 32 + j) = false -> forall p',
  root_ok (mk_root p' (zinsert i (Z.lor w (Z.shiftl 1 j)) ws) (n + 1)).
Proof.
  intros [H1 H2 H3] Hw Hj Hb p'. cbn in *. pose proof (zlookup_Some_range _ _ _ Hw). split; cbn.
  - by rewrite zlen_zinsert.
  - unfold zinsert, zlookup in *. destruct (i <? 0); [done|]. apply Forall_insert; [done|].
    apply lor_u32; [|done]. by eapply Forall_lookup_1.
  - rewrite H3. symmetry. apply (filter_flip _ _ _ (i * 32 + j)); [apply NoDup_seqZ|apply elem_of_seqZ; lia|done| |].
    + by rewrite (inuse_set _ _ _ _ _ Hw), decide_True.
    + intros x Hx. by rewrite (inuse_set _ _ _ _ _ Hw), decide_False.
Qed.

Lemma root_ok_clear p ws n i j w :
  root_ok (mk_root p ws n) -> zlookup ws i = Some w -> 0 <= j < 32 -> inuse ws (i * 32 + j) = true ->
  root_ok (mk_root p (zinsert i (Z.ldiff w (Z.shiftl 1 j)) ws) (n - 1)).
Proof.
  intros [H1 H2 H3] Hw Hj Hb. cbn in *. pose proof (zlookup_Some_range _ _ _ Hw). split; cbn.
  - by rewrite zlen_zinsert.
  - unfold zinsert, zlookup in *. destruct (i <? 0); [done|]. apply Forall_insert; [done|].
    apply ldiff_u32. by eapply Forall_lookup_1.
  - rewrite H3. unfold count_inuse at 1.
    rewrite (filter_flip (inuse (zinsert i (Z.ldiff w (Z.shiftl 1 j)) ws)) (inuse ws) (seqZ 0 256) (i * 32 + j));
      [unfold count_inuse; lia|apply NoDup_seqZ|apply elem_of_seqZ; lia| |done|].
    + by rewrite (inuse_clear _ _ _ _ _ Hw), decide_True.
    + intros x Hx. by rewrite (inuse_clear _ _ _ _ _ Hw), decide_False.
Qed.

Lemma shiftl_u32 j : 0 <= j < 32 -> u32 (Z.shiftl 1 j) = Z.shiftl 1 j.
Proof.
  intros Hj. rewrite Z.shiftl_1_l. apply u32_small. split; [apply Z.pow_nonneg; lia|]. apply Z.pow_lt_mono_r; lia.
Qed.

Lemma first_clear_spec fuel j w :
  is_u32 w -> w <> 0xffffffff -> 0 <= j <= 32 -> 33 - j <= Z.of_nat fuel ->
  (forall n, 0 <= n < j -> Z.testbit w n = true) ->
  exists j', first_clear fuel (u32 (Z.shiftl 1 j)) j w = Some (j', Z.shiftl 1 j') /\ 0 <= j' < 32 /\ Z.testbit w j' = false.
Proof.
  intros Hw Hne. revert j. induction fuel as [|fuel IH]; intros j Hj Hf Hb; [lia|]. cbn [first_clear].
  destruct (Z.eq_dec j 32) as [->|].
  { exfalso. apply Hne. apply Z.bits_inj'. intros n Hn. change 0xffffffff with (Z.ones 32).
    destruct (Z_lt_le_dec n 32); [rewrite Hb, Z.ones_spec_low by lia; done|].
    by rewrite u32_bits, Z.ones_spec_high by (done || lia). }
  rewrite shiftl_u32 by lia.
  replace (Z.shiftl 1 j =? 0) with false by (symmetry; apply Z.eqb_neq; rewrite Z.shiftl_1_l; pose proof (Z.pow_pos_nonneg 2 j); lia).
  rewrite land_bit_0 by lia. destruct (Z.testbit w j) eqn:E; cbn [negb].
  - rewrite Z.shiftl_shiftl by lia. apply IH; [lia|lia|]. intros n' Hn. destruct (Z.eq_dec n' j) as [->|]; [done|]. apply Hb. lia.
  - exists j. split; [done|]. split; [lia|done].
Qed.

(** The search finds the first word with a clear bit, if there is one. *)
Lemma first_free_ref_spec ws i :
  Forall is_u32 ws ->
  (exists n j w, first_free_ref ws i = inr (Some (i + n, j, Z.shiftl 1 j)) /\ zlookup ws n = Some w /\
     0 <= j < 32 /\ Z.testbit w j = false) \/
  (first_free_ref ws i = inr None /\ Forall (fun w => w = 0xffffffff) ws).
Proof.
  revert i. induction ws as [|w ws IH]; intros i Hall; [by right|]. cbn [first_free_ref].
  apply Forall_cons in Hall as [Hw Hall]. destruct (Z.eqb_spec w 0xffffffff) as [->|Hne].
  - destruct (IH (i + 1) Hall) as [(n & j & w & H1 & H2 & H3)|[H1 H2]]; [left|right; split; [done|by constructor]].
    exists (n + 1), j, w. rewrite H1. split; [by replace (i + 1 + n) with (i + (n + 1)) by lia|]. split; [|done].
    pose proof (zlookup_Some_range _ _ _ H2). unfold zlookup in *.
    destruct (Z.ltb_spec n 0), (Z.ltb_spec (n + 1) 0); try lia. by replace (Z.to_nat (n + 1)) with (S (Z.to_nat n)) by lia.
  - destruct (first_clear_spec 33 0 w Hw Hne) as (j & H1 & H2 & H3); [lia|lia|lia|]. left.
    change (u32 (Z.shiftl 1 0)) with 1 in H1. rewrite H1. exists 0, j, w. by rewrite Z.add_0_r.
Qed.

(** ** The invariant of the roots *)

Section roots.
Context {PS : Type} {KP : KPages PS} {KL : KPagesLaws PS}.
Implicit Types (k : kheap_st PS) (rs : list kheap_root) (B : gmap Z Z).

(** Descriptor pages are owned, each by one root; roots are put to use in
    order, so the ones after a root without a page are unused. *)
Record roots_ok rs B : Prop := {
  rk_len : zlen rs = NUM_PAGEREFPAGES;
  rk_root : forall r x, zlookup rs r = Some x -> root_ok x;
  rk_owned : forall r x, zlookup rs r = Some x -> r_page x <> 0 -> B !! r_page x = Some 1;
  rk_inj : forall r x r' x', zlookup rs r = Some x -> zlookup rs r' = Some x' -> r_page x <> 0 ->
    r_page x = r_page x' -> r = r';
  rk_unused : forall r x r' x', zlookup rs r = Some x -> zlookup rs r' = Some x' -> r_page x = 0 -> r < r' ->
    r_page x' = 0 /\ numinuse x' = 0
}.

(** Entries marked in roots that have no page: the failed attempts. *)
Definition lost_at_most (n : Z) rs : Prop := forall r x, zlookup rs r = Some x -> r_page x = 0 -> numinuse x <= n.

Lemma lost_weaken n n' rs : n <= n' -> lost_at_most n rs -> lost_at_most n' rs.
Proof. intros Hn H r x Hx Hp. specialize (H r x Hx Hp). lia. Qed.

(** [p] is the address of a descriptor in use. *)
Definition ref_at (x : kheap_root) (j p : Z) : Prop :=
  r_page x <> 0 /\ 0 <= j < NPAGEREFS_PER_PAGE /\ p = r_page x + sizeof_pageref * j.
Definition ref_used rs (p : Z) : Prop :=
  exists r x j, zlookup rs r = Some x /\ ref_at x j p /\ inuse (pagerefs_inuse x) j = true.

(** Two roots do not share a descriptor. *)
Lemma ref_at_unique ps B rs r x j r' x' j' p :
  kp_inv ps B -> roots_ok rs B -> zlookup rs r = Some x -> zlookup rs r' = Some x' ->
  ref_at x j p -> ref_at x' j' p -> r = r' /\ j = j'.
Proof.
  intros Hkp Hrs Hx Hx' (H1 & H2 & H3) (H1' & H2' & H3').
  unfold NPAGEREFS_PER_PAGE, sizeof_pageref, PAGE_SIZE in *.
  destruct (Z.eq_dec (r_page x) (r_page x')) as [E|Hne].
  - pose proof (rk_inj _ _ Hrs _ _ _ _ Hx Hx' H1 E) as ->. split; [done|lia].
  - pose proof (kp_apart _ _ _ _ _ _ Hkp (rk_owned _ _ Hrs _ _ Hx H1) (rk_owned _ _ Hrs _ _ Hx' H1') Hne).
    unfold PAGE_SIZE in *. lia.
Qed.

Lemma ref_used_mono rs rs' p :
  (forall r x, zlookup rs r = Some x -> r_page x <> 0 -> exists x', zlookup rs' r = Some x' /\ r_page x' = r_page x /\
     forall j, inuse (pagerefs_inuse x) j = true -> inuse (pagerefs_inuse x') j = true) ->
  ref_used rs p -> ref_used rs' p.
Proof.
  intros H (r & x & j & Hx & (H1 & H2 & H3) & Hu). destruct (H r x Hx H1) as (x' & Hx' & E & Hj).
  exists r, x', j. unfold ref_at. rewrite E. auto.
Qed.

(** Replacing one root. *)
Lemma roots_ok_zinsert rs B B' r x x' :
  roots_ok rs B -> zlookup rs r = Some x -> root_ok x' ->
  (forall a, B !! a = Some 1 -> B' !! a = Some 1) ->
  (r_page x' = r_page x \/ (B !! r_page x' = None /\ B' !! r_page x' = Some 1)) -> (r_page x <> 0 -> r_page x' <> 0) ->
  (forall r0 x0, zlookup rs r0 = Some x0 -> r0 < r -> r_page x0 <> 0) ->
  roots_ok (zinsert r x' rs) B'.
Proof.
  intros [H1 H2 H3 H4 H5] Hx Hok HB Hp Hp' Hbefore. pose proof (zlookup_Some_range _ _ _ Hx) as Hr.
  assert (forall r0 x0, zlookup (zinsert r x' rs) r0 = Some x0 ->
    (r0 = r /\ x0 = x') \/ (r0 <> r /\ zlookup rs r0 = Some x0)) as Hl.
  { intros r0 x0. rewrite zlookup_zinsert by done. case_decide; [subst|]; [intros [= <-]|]; auto. }
  split.
  - by rewrite zlen_zinsert.
  - intros r0 x0 [[-> ->]|[_ H]]%Hl; [done|by eapply H2].
  - intros r0 x0 [[-> ->]|[_ H]]%Hl Hne; [|by apply HB, (H3 r0)]. destruct Hp as [E|[_ ?]]; [|done].
    rewrite E in *. by apply HB, (H3 r).
  - intros r0 x0 r1 x1 [[-> ->]|[N0 H0]]%Hl [[-> ->]|[N1 H1']]%Hl Hne E; [done| | |by eapply H4].
    + destruct Hp as [Hp|[Hp _]]; [apply (H4 r x r1 x1); congruence|]. rewrite E in Hp, Hne. by rewrite (H3 _ _ H1' Hne) in Hp.
    + destruct Hp as [Hp|[Hp _]]; [apply (H4 r0 x0 r x); congruence|]. rewrite <- E in Hp. by rewrite (H3 _ _ H0 Hne) in Hp.
  - intros r0 x0 r1 x1 [[-> ->]|[N0 H0]]%Hl [[-> ->]|[N1 H1']]%Hl E Hlt; [lia| | |exact (H5 _ _ _ _ H0 H1' E Hlt)].
    + apply (H5 r x r1 x1 Hx H1'); [|done]. destruct (decide (r_page x = 0)); [done|]. by apply Hp' in n.
    + by apply (Hbefore _ _ H0) in Hlt.
Qed.

(** The state with other roots. *)
Definition rooted rs (ps : PS) (lg : list kmsg) k : kheap_st PS :=
  mk_kheap rs (sizebases k) (allbase k) (k_words k) (k_locked k) ps lg.

Lemma allocpagerefpage_run r x B k :
  k_locked k = true -> kp_inv (k_pages k) B -> zlookup (kheaproots k) r = Some x -> r_page x = 0 ->
  exists ps lg, (allocpagerefpage r k = inr (tt, rooted (kheaproots k) ps lg k) /\ kp_inv ps B) \/
    (exists va, allocpagerefpage r k =
        inr (tt, rooted (zinsert r (mk_root va (pagerefs_inuse x) (numinuse x)) (kheaproots k)) ps lg k) /\
      va <> 0 /\ B !! va = None /\ kp_inv ps (<[va := 1]> B)).
Proof.
  intros Hl Hkp Hx Hp. unfold allocpagerefpage. rewrite (krun_get_root r x), krun_KASSERT, krun_unlock by (done || by apply Z.eqb_eq).
  destruct (kp_alloc_ok _ _ 1 Hkp ltac:(lia)) as (va & ps' & Hal & Hout).
  exists ps'. rewrite (krun_alloc 1 va ps'), krun_lock by done. destruct (Z.eqb_spec va 0) as [->|Hne]; cbv iota.
  - destruct Hout as [[_ Hkp']|[? _]]; [|done]. eexists. left. split; [|done]. unfold kprint, kmodify, rooted. cbn. by rewrite Hl.
  - destruct Hout as [[? _]|(_ & Hn & Hkp')]; [done|]. exists (k_log k). right. exists va.
    rewrite krun_KASSERT by (apply Z.eqb_eq; by apply (kp_block _ _ _ 1 Hkp'), lookup_insert_eq).
    rewrite (krun_get_root r x) by done. rewrite Hp. cbn [Z.eqb negb]. unfold put_root, kmodify, rooted. cbn. by rewrite Hl.
Qed.

(** What a successful or failed request leaves. *)
Record ref_outcome (n : Z) B k (p : Z) rs' (B' : gmap Z Z) (ps' : PS) : Prop := {
  oc_kp : kp_inv ps' B';
  oc_roots : roots_ok rs' B';
  oc_lost : lost_at_most (if p =? 0 then n + 1 else n) rs';
  oc_owned : B' = B \/ exists r x va, zlookup rs' r = Some x /\ r_page x = va /\ B !! va = None /\ B' = <[va := 1]> B;
  oc_pages : forall r x', zlookup rs' r = Some x' ->
    (exists x, zlookup (kheaproots k) r = Some x /\ r_page x' = r_page x) \/ (r_page x' <> 0 /\ B !! r_page x' = None);
  oc_keeps : forall q, ref_used (kheaproots k) q -> ref_used rs' q;
  oc_fresh : p = 0 \/ (ref_used rs' p /\ ~ ref_used (kheaproots k) p)
}.

Lemma ref_used_nonzero ps B rs p : kp_inv ps B -> roots_ok rs B -> ref_used rs p -> MIPS_KSEG0 <= p < 2^32.
Proof.
  intros Hkp Hrs (r & x & j & Hx & (H1 & H2 & H3) & _).
  pose proof (kp_block _ _ _ _ Hkp (rk_owned _ _ Hrs _ _ Hx H1)).
  unfold NPAGEREFS_PER_PAGE, sizeof_pageref, PAGE_SIZE, MIPS_KSEG0 in *. lia.
Qed.

Section request.
Context (n : Z) B k (r : Z) (x : kheap_root) (i j w : Z).
Hypothesis Hrs : roots_ok (kheaproots k) B.
Hypotheses (Hlost : lost_at_most n (kheaproots k)) (Hx : zlookup (kheaproots k) r = Some x).
Hypotheses (Hw : zlookup (pagerefs_inuse x) i = Some w) (Hj : 0 <= j < 32) (Hbit : Z.testbit w j = false).
Hypothesis Hbefore : forall r0 x0, zlookup (kheaproots k) r0 = Some x0 -> r0 < r -> r_page x0 <> 0.

Definition marked_root (va : Z) : kheap_root :=
  mk_root va (zinsert i (Z.lor w (Z.shiftl 1 j)) (pagerefs_inuse x)) (numinuse x + 1).

Lemma request_clear : inuse (pagerefs_inuse x) (i * 32 + j) = false /\ 0 <= i * 32 + j < 256.
Proof.
  pose proof (zlookup_Some_range _ _ _ Hw) as Hi. rewrite (ro_len _ (rk_root _ _ Hrs _ _ Hx)) in Hi. split; [|lia].
  unfold inuse. replace ((i * 32 + j) / 32) with i by lia. rewrite Hw. by replace ((i * 32 + j) mod 32) with j by lia.
Qed.

Lemma marked_ok va : root_ok (marked_root va).
Proof.
  destruct request_clear as [Hc _]. destruct (rk_root _ _ Hrs _ _ Hx) as [H1 H2 H3].
  by apply (root_ok_set (r_page x) (pagerefs_inuse x) (numinuse x) i j w).
Qed.

(** The three ends of a request: a descriptor on an existing page, one on a
    new page, or a failure that leaves the entry marked. *)
Lemma marked_outcome va B' ps' :
  kp_inv ps' B' ->
  ((va = r_page x /\ B' = B) \/ (va <> 0 /\ r_page x = 0 /\ B !! va = None /\ B' = <[va := 1]> B)) ->
  ref_outcome n B k (if va =? 0 then 0 else va + sizeof_pageref * (i * 32 + j))
    (zinsert r (marked_root va) (kheaproots k)) B' ps'.
Proof.
  intros Hkp' Hva. destruct request_clear as [Hc Hrange]. pose proof (zlookup_Some_range _ _ _ Hx) as Hr.
  assert (roots_ok (zinsert r (marked_root va) (kheaproots k)) B') as Hrs'.
  { apply (roots_ok_zinsert _ B _ _ x); [done|done|apply marked_ok| | | |done].
    - intros a Ha. destruct Hva as [[_ ->]|(_ & _ & Hn' & ->)]; [done|]. rewrite lookup_insert_ne by congruence. done.
    - destruct Hva as [[-> _]|(_ & _ & Hn' & ->)]; [by left|right]. split; [done|apply lookup_insert_eq].
    - destruct Hva as [[-> _]|(? & ? & _)]; [done|by intros]. }
  split.
  - done.
  - done.
  - intros r0 x0. rewrite zlookup_zinsert by done. case_decide as E.
    + subst r0. intros [= <-]. cbn. intros ->. destruct Hva as [[Hp _]|(? & _)]; [|done].
      specialize (Hlost r x Hx ltac:(congruence)). cbn. lia.
    + intros H0 Hp. specialize (Hlost r0 x0 H0 Hp). destruct (_ =? 0); lia.
  - destruct Hva as [[_ ->]|(_ & _ & Hn' & ->)]; [by left|right].
    exists r, (marked_root va), va. split; [by apply zlookup_zinsert_eq|done].
  - intros r0 x0. rewrite zlookup_zinsert by done. case_decide as E; [subst r0; intros [= <-]|eauto].
    destruct Hva as [[-> _]|(? & _ & ? & _)]; [left; eauto|by right].
  - intros q. apply ref_used_mono. intros r0 x0 H0 Hp. rewrite zlookup_zinsert by done. case_decide as E; [|eauto].
    subst r0. rewrite Hx in H0. injection H0 as <-. eexists. split; [done|]. split; [by destruct Hva as [[-> _]|(_ & ? & _)]|].
    intros j0 Hu. cbn. rewrite (inuse_set _ _ _ _ _ Hw) by done. by case_decide.
  - destruct (Z.eqb_spec va 0) as [->|Hne]; [by left|right].
    assert (ref_at (marked_root va) (i * 32 + j) (va + sizeof_pageref * (i * 32 + j))) as Hat by done.
    assert (zlookup (zinsert r (marked_root va) (kheaproots k)) r = Some (marked_root va)) as Hnew by (by apply zlookup_zinsert_eq).
    split; [exists r, (marked_root va), (i * 32 + j); split_and!; [done|done|]; cbn; by rewrite (inuse_set _ _ _ _ _ Hw), decide_True|].
    intros (r0 & x0 & j0 & H0 & Hat0 & Hu). destruct (Z.eq_dec r0 r) as [->|Hr0].
    + rewrite Hx in H0. injection H0 as <-. destruct Hva as [[-> _]|(_ & Hp & _)]; [|by destruct Hat0].
      destruct Hat0 as (_ & H1 & H2). assert (j0 = i * 32 + j) as -> by (unfold sizeof_pageref in *; lia). congruence.
    + destruct (ref_at_unique ps' B' _ r (marked_root va) _ r0 x0 j0 _ Hkp' Hrs' Hnew
        ltac:(by rewrite zlookup_zinsert_ne) Hat Hat0) as [E _]. by destruct Hr0.
Qed.
End request.

(** [allocpageref] always returns. *)
Lemma allocpageref_from_run n B m which k :
  0 <= n < 255 -> k_locked k = true -> kp_inv (k_pages k) B -> roots_ok (kheaproots k) B -> lost_at_most n (kheaproots k) ->
  0 <= which -> which + Z.of_nat m = NUM_PAGEREFPAGES ->
  (forall r0 x0, zlookup (kheaproots k) r0 = Some x0 -> r0 < which -> r_page x0 <> 0) ->
  exists p rs' B' ps' lg, allocpageref_from m which k = inr (p, rooted rs' ps' lg k) /\ ref_outcome n B k p rs' B' ps'.
Proof.
  intros Hn Hl Hkp Hrs Hlost. revert which. induction m as [|m IH]; intros which H0 Hm Hbefore; cbn [allocpageref_from].
  { exists 0, (kheaproots k), B, (k_pages k), (k_log k). split; [by destruct k|]. split; try done; [|by left|by left; eauto|by left].
    intros r x Hx Hp. specialize (Hlost r x Hx Hp). cbn. lia. }
  destruct (zlookup_in_range (kheaproots k) which) as [x Hx]; [rewrite (rk_len _ _ Hrs); lia|].
  rewrite (krun_get_root which x) by done. pose proof (rk_root _ _ Hrs _ _ Hx) as Hok.
  pose proof (count_bounds (pagerefs_inuse x)) as Hcb. rewrite <- (ro_count _ Hok) in Hcb.
  destruct (Z.leb_spec NPAGEREFS_PER_PAGE (numinuse x)) as [Hfull|Hroom]; cbv iota.
  { apply IH; [lia|lia|]. intros r0 x0 Hx0 Hlt. destruct (Z.eq_dec r0 which) as [->|]; [|apply (Hbefore r0); [done|lia]].
    rewrite Hx in Hx0. injection Hx0 as <-. intros Hp. specialize (Hlost _ _ Hx Hp).
    unfold NPAGEREFS_PER_PAGE, PAGE_SIZE, sizeof_pageref in *. lia. }
  destruct (first_free_ref_spec (pagerefs_inuse x) 0 (ro_words _ Hok)) as [(i & j & w & -> & Hw & Hj & Hb)|[_ Hall]].
  - cbn [Z.add]. rewrite (krun_deref _ _ w) by done. unfold put_root. rewrite krun_modify.
    set (k1 := set_roots _ k). fold (marked_root x i j w (r_page x)) in k1.
    assert (zlookup (kheaproots k1) which = Some (marked_root x i j w (r_page x))) as Hx1
      by (apply zlookup_zinsert_eq; eauto with arrays).
    pose proof (marked_outcome n B k which x i j w Hrs Hlost Hx Hw Hj Hb Hbefore) as Hout.
    destruct (Z.eqb_spec (r_page x) 0) as [Hp|Hp]; cbv iota.
    + destruct (allocpagerefpage_run which _ B k1 Hl Hkp Hx1 Hp) as (ps & lg & [[Hrun Hkp']|(va & Hrun & Hva & Hfr & Hkp')]);
        rewrite (kbind_inr _ _ _ _ _ Hrun).
      * rewrite (krun_get_root which (marked_root x i j w (r_page x))) by exact Hx1. cbn [r_page marked_root]. rewrite Hp. cbn [Z.eqb].
        exists 0, (kheaproots k1), B, ps, lg. split; [done|]. specialize (Hout (r_page x) B ps Hkp' ltac:(by left)).
        by rewrite Hp in Hout; subst k1; cbn [kheaproots set_roots]; rewrite Hp.
      * assert (zinsert which (mk_root va (pagerefs_inuse (marked_root x i j w (r_page x))) (numinuse (marked_root x i j w (r_page x))))
          (kheaproots k1) = zinsert which (marked_root x i j w va) (kheaproots k)) as E by apply zinsert_zinsert_eq.
        rewrite E. rewrite (krun_get_root which (marked_root x i j w va)) by (apply zlookup_zinsert_eq; eauto with arrays).
        cbn [r_page marked_root]. specialize (Hout va _ ps Hkp' ltac:(by right)).
        destruct (Z.eqb_spec va 0); [done|]. do 5 eexists. split; [reflexivity|exact Hout].
    + rewrite krun_ret, (krun_get_root which (marked_root x i j w (r_page x))) by exact Hx1. cbn [r_page marked_root].
      specialize (Hout (r_page x) B (k_pages k) Hkp ltac:(by left)). destruct (Z.eqb_spec (r_page x) 0); [done|].
      exists (r_page x + sizeof_pageref * (i * 32 + j)), (kheaproots k1), B, (k_pages k), (k_log k). split; [done|exact Hout].
  - exfalso. assert (numinuse x = 256); [|unfold NPAGEREFS_PER_PAGE, PAGE_SIZE, sizeof_pageref in *; lia].
    rewrite (ro_count _ Hok). apply count_all_ones; [apply Hok|done].
Qed.

Lemma allocpageref_run n B k :
  0 <= n < 255 -> k_locked k = true -> kp_inv (k_pages k) B -> roots_ok (kheaproots k) B -> lost_at_most n (kheaproots k) ->
  exists p rs' B' ps' lg, allocpageref k = inr (p, rooted rs' ps' lg k) /\ ref_outcome n B k p rs' B' ps'.
Proof.
  intros Hn Hl Hkp Hrs Hlost. apply allocpageref_from_run; try done.
  intros r0 x0 Hx0 Hlt. apply zlookup_Some_range in Hx0. lia.
Qed.

(** A descriptor of another page is not recognised as an entry of this one. *)
Lemma ref_elsewhere ps B rs r x j r' x' p :
  kp_inv ps B -> roots_ok rs B -> zlookup rs r = Some x -> zlookup rs r' = Some x' -> r <> r' -> r_page x' <> 0 ->
  ref_at x j p -> NPAGEREFS_PER_PAGE <= u32 ((p - r_page x') / sizeof_pageref).
Proof.
  intros Hkp Hrs Hx Hx' Hne Hp' (H1 & H2 & H3).
  pose proof (rk_owned _ _ Hrs _ _ Hx H1) as O. pose proof (rk_owned _ _ Hrs _ _ Hx' Hp') as O'.
  assert (r_page x <> r_page x') as Hpp by (intros E; by destruct Hne, (rk_inj _ _ Hrs _ _ _ _ Hx Hx' H1 E)).
  pose proof (kp_apart _ _ _ _ _ _ Hkp O O' Hpp). pose proof (kp_block _ _ _ _ Hkp O). pose proof (kp_block _ _ _ _ Hkp O').
  unfold u32, NPAGEREFS_PER_PAGE, sizeof_pageref, PAGE_SIZE, MIPS_KSEG0 in *. change (2^32) with 4294967296 in *. lia.
Qed.

(** [freepageref] of a descriptor in use clears exactly its entry. *)
Lemma freepageref_from_run ps B m which k r x j p :
  kp_inv ps B -> roots_ok (kheaproots k) B -> 0 <= which <= r -> which + Z.of_nat m = NUM_PAGEREFPAGES ->
  zlookup (kheaproots k) r = Some x -> ref_at x j p -> inuse (pagerefs_inuse x) j = true ->
  exists w, zlookup (pagerefs_inuse x) (j / 32) = Some w /\
    freepageref_from m which p k =
      inr (tt, set_roots (zinsert r (mk_root (r_page x) (zinsert (j / 32) (Z.ldiff w (Z.shiftl 1 (j mod 32))) (pagerefs_inuse x))
        (numinuse x - 1)) (kheaproots k)) k).
Proof.
  intros Hkp Hrs. revert which. induction m as [|m IH]; intros which Hwr Hm Hx Hat Hu.
  { pose proof (zlookup_Some_range _ _ _ Hx) as Hr. rewrite (rk_len _ _ Hrs) in Hr. lia. }
  cbn [freepageref_from]. pose proof (rk_root _ _ Hrs _ _ Hx) as Hok.
  destruct (zlookup_in_range (kheaproots k) which) as [y Hy].
  { apply zlookup_Some_range in Hx. lia. }
  rewrite (krun_get_root which y) by done. destruct (Z.eq_dec which r) as [->|Hne].
  - rewrite Hx in Hy. injection Hy as <-. destruct Hat as (H1 & H2 & ->).
    destruct (Z.eqb_spec (r_page x) 0); [done|].
    assert (u32 ((r_page x + sizeof_pageref * j - r_page x) / sizeof_pageref) = j) as ->.
    { rewrite Z.add_simpl_l, Z.mul_comm, Z.div_mul by done. apply u32_small. change NPAGEREFS_PER_PAGE with 256 in H2. unfold is_u32. lia. }
    destruct (Z.ltb_spec j NPAGEREFS_PER_PAGE); [|lia].
    destruct (zlookup_in_range (pagerefs_inuse x) (j / 32)) as [w Hw].
    { rewrite (ro_len _ Hok). unfold NPAGEREFS_PER_PAGE, PAGE_SIZE, sizeof_pageref in *. lia. }
    exists w. split; [done|]. cbv zeta. rewrite (krun_deref _ _ w) by done. unfold inuse in Hu. rewrite Hw in Hu.
    rewrite krun_KASSERT by (rewrite land_bit_0, Hu by lia; done). rewrite krun_KASSERT; [done|].
    apply Z.ltb_lt. rewrite (ro_count _ Hok). apply (count_pos _ j); [done|]. unfold inuse. by rewrite Hw.
  - destruct (Z.eqb_spec (r_page y) 0) as [Hp|Hp].
    { destruct Hat as (H1 & _). destruct (rk_unused _ _ Hrs _ _ _ _ Hy Hx Hp); [lia|done]. }
    cbv zeta. destruct (Z.ltb_spec (u32 ((p - r_page y) / sizeof_pageref)) NPAGEREFS_PER_PAGE) as [Hlt|_].
    { pose proof (ref_elsewhere _ _ _ r x j which y p Hkp Hrs Hx Hy ltac:(done) Hp Hat). lia. }
    apply IH; [lia|lia|done|done|done].
Qed.

Lemma freepageref_run ps B k p :
  kp_inv ps B -> roots_ok (kheaproots k) B -> ref_used (kheaproots k) p ->
  exists rs', freepageref p k = inr (tt, set_roots rs' k) /\ roots_ok rs' B /\
    (forall q, ref_used rs' q <-> ref_used (kheaproots k) q /\ q <> p) /\
    (forall n, lost_at_most n (kheaproots k) -> lost_at_most n rs') /\
    (forall r y, zlookup rs' r = Some y -> exists x, zlookup (kheaproots k) r = Some x /\ r_page y = r_page x).
Proof.
  intros Hkp Hrs (r & x & j & Hx & Hat & Hu). pose proof (zlookup_Some_range _ _ _ Hx) as Hr.
  destruct (freepageref_from_run ps B (Z.to_nat NUM_PAGEREFPAGES) 0 k r x j p Hkp Hrs) as (w & Hw & Hrun); try done; [lia|].
  eexists. split; [exact Hrun|]. set (y := mk_root _ _ _).
  assert (forall j0, inuse (pagerefs_inuse y) j0 = if decide (j0 = j) then false else inuse (pagerefs_inuse x) j0) as Hin.
  { intros j0. cbn. rewrite (inuse_clear _ _ _ _ _ Hw) by lia. by replace (j / 32 * 32 + j mod 32) with j by lia. }
  assert (zlookup (zinsert r y (kheaproots k)) r = Some y) as Hy by (by apply zlookup_zinsert_eq).
  split_and!.
  - apply (roots_ok_zinsert _ B _ _ x); try done; [|by left|].
    + destruct (rk_root _ _ Hrs _ _ Hx) as [H1 H2 H3].
      apply (root_ok_clear (r_page x)); [done|done|lia|]. by replace (j / 32 * 32 + j mod 32) with j by lia.
    + intros r0 x0 H0 Hlt E. destruct (rk_unused _ _ Hrs _ _ _ _ H0 Hx E Hlt). by destruct Hat.
  - intros q. split.
    + intros (r0 & x0 & j0 & H0 & Hat0 & Hu0). rewrite zlookup_zinsert in H0 by done. case_decide as E.
      * subst r0. injection H0 as <-. rewrite Hin in Hu0. case_decide; [done|].
        split; [by exists r, x, j0|]. intros ->. destruct (ref_at_unique ps B _ r x j r x j0 p Hkp Hrs Hx Hx Hat Hat0). congruence.
      * split; [by exists r0, x0, j0|]. intros ->. by destruct E, (ref_at_unique ps B _ r x j r0 x0 j0 p Hkp Hrs Hx H0 Hat Hat0).
    + intros [(r0 & x0 & j0 & H0 & Hat0 & Hu0) Hne]. destruct (Z.eq_dec r0 r) as [->|Hr0].
      * rewrite Hx in H0. injection H0 as <-. exists r, y, j0. split_and!; [done|done|]. rewrite Hin. case_decide; [|done].
        subst j0. destruct Hat as (_ & _ & ->), Hat0 as (_ & _ & ->). done.
      * exists r0, x0, j0. by rewrite zlookup_zinsert_ne.
  - intros n Hl r0 x0. rewrite zlookup_zinsert by done. case_decide; [|by apply Hl]. intros [= <-] E.
    by destruct Hat.
  - intros r0 x0. rewrite zlookup_zinsert by done. case_decide; [|eauto]. subst. intros [= <-]. eauto.
Qed.
End roots.
