(* ===== verification/KMallocSpec.v ===== *)
(** * The kernel heap: an allocator of disjoint blocks

    The invariant of the subpage allocator and what [kmalloc] and [kfree] do
    to the set of allocated blocks: a block handed out is large enough and
    disjoint from every other allocated block, the contents of allocated
    blocks are never touched, and freeing removes exactly one block; the
    loops end and no assertion fails. *)

From S2P Require Import Prelude State Monad Bitmap KMalloc KMallocRefs.
#[local] Open Scope km_scope.

(** ** Heap pages *)

(** A page of blocks: its descriptor, its address, its block type and the
    offsets of its free blocks in the order of the free list. *)
Record hpage := mk_hp { hp_ref : Z; hp_page : Z; hp_type : Z; hp_free : list Z }.

#[global] Instance hpage_eq_dec : EqDecision hpage.
Proof. solve_decision. Defined.

Definition hp_size (h : hpage) : Z := default 0 (zlookup sizes (hp_type h)).
Definition hp_blocks (h : hpage) : Z := PAGE_SIZE / hp_size h.
Definition with_free (fr : list Z) (h : hpage) : hpage := mk_hp (hp_ref h) (hp_page h) (hp_type h) fr.

Lemma sizes_facts t :
  0 <= t < NSIZES -> exists z, zlookup sizes t = Some z /\ 16 <= z <= 2048 /\ z mod 16 = 0 /\ PAGE_SIZE / z * z = PAGE_SIZE /\
    2 <= PAGE_SIZE / z <= 256.
Proof.
  unfold NSIZES. intros Ht. assert (t = 0 \/ t = 1 \/ t = 2 \/ t = 3 \/ t = 4 \/ t = 5 \/ t = 6 \/ t = 7) as Hc by lia.
  destruct_or! Hc; subst t; eexists; (split; [reflexivity|]); unfold PAGE_SIZE; split_and!; vm_compute; done.
Qed.

Lemma hp_size_facts h :
  0 <= hp_type h < NSIZES ->
  zlookup sizes (hp_type h) = Some (hp_size h) /\ 16 <= hp_size h <= 2048 /\ hp_size h mod 16 = 0 /\
  hp_blocks h * hp_size h = PAGE_SIZE /\ 2 <= hp_blocks h <= 256.
Proof. intros (z & Hz & ?)%sizes_facts. unfold hp_blocks, hp_size. by rewrite Hz. Qed.

(** A block of the page. *)
Definition block_offset (h : hpage) (o : Z) : Prop := 0 <= o < PAGE_SIZE /\ o mod hp_size h = 0.

(** Different multiples of the block size are a block apart. *)
Lemma multiples_apart sz o o' :
  0 < sz -> o mod sz = 0 -> o' mod sz = 0 -> o <> o' -> o + sz <= o' \/ o' + sz <= o.
Proof.
  intros Hs H1 H2 Hne. apply Z.mod_divide in H1 as [q ->]; [|lia]. apply Z.mod_divide in H2 as [q' ->]; [|lia].
  destruct (Z.lt_total q q') as [?|[->|?]]; [left|done|right]; nia.
Qed.

Definition first_off (l : list Z) : Z := match l with [] => INVALID_OFFSET | o :: _ => o end.
Fixpoint links (m : words) (page : Z) (l : list Z) : Prop :=
  match l with
  | [] => True
  | o :: l' => m (page + o) = match l' with [] => 0 | o' :: _ => page + o' end /\ links m page l'
  end.

Record page_ok (m : words) (h : hpage) : Prop := {
  pk_type : 0 <= hp_type h < NSIZES;
  pk_place : hp_page h mod PAGE_SIZE = 0 /\ MIPS_KSEG0 <= hp_page h /\ hp_page h + PAGE_SIZE < 2^32;
  pk_pab : m (hp_ref h + 8) = hp_page h + hp_type h;
  pk_counts : m (hp_ref h + 12) = first_off (hp_free h) * 65536 + zlen (hp_free h);
  pk_nodup : NoDup (hp_free h);
  pk_blocks : forall o, o ∈ hp_free h -> block_offset h o;
  pk_links : links m (hp_page h) (hp_free h)
}.

Lemma poke_eq a v m : poke a v m a = v.
Proof. unfold poke. by rewrite Z.eqb_refl. Qed.
Lemma poke_ne a v m x : x <> a -> poke a v m x = m x.
Proof. unfold poke. intros H. by apply Z.eqb_neq in H as ->. Qed.

Lemma links_ext m m' page l : (forall o, o ∈ l -> m' (page + o) = m (page + o)) -> links m page l -> links m' page l.
Proof.
  induction l as [|o l IH]; intros H; [done|]. cbn. intros [H1 H2]. split; [rewrite H by set_solver; done|].
  apply IH; [set_solver|done].
Qed.

(** The part of memory a page depends on, links of the lists aside. *)
Definition page_area (h : hpage) (x : Z) : Prop :=
  hp_ref h + 8 <= x < hp_ref h + 16 \/ hp_page h <= x < hp_page h + PAGE_SIZE.

Lemma page_ok_ext m m' h : (forall x, page_area h x -> m' x = m x) -> page_ok m h -> page_ok m' h.
Proof.
  intros H [H1 H2 H3 H4 H5 H6 H7]. unfold page_area in H. split; try done.
  - rewrite H by (left; lia). done.
  - rewrite H by (left; lia). done.
  - eapply links_ext; [|done]. intros o Ho. apply H. right. destruct (H6 o Ho). lia.
Qed.

Lemma free_bound m h : page_ok m h -> zlen (hp_free h) <= hp_blocks h.
Proof.
  intros [H1 _ _ _ H5 H6 _]. destruct (hp_size_facts h H1) as (_ & Hs & _ & Hb & Hn).
  assert (hp_free h ⊆+ ((fun i => i * hp_size h) <$> seqZ 0 (hp_blocks h))) as Hsub.
  { apply NoDup_submseteq; [done|]. intros o Ho. destruct (H6 o Ho) as [Ho1 Ho2]. apply list_elem_of_fmap.
    exists (o / hp_size h). rewrite elem_of_seqZ.
    pose proof (Z.div_mod o (hp_size h)). assert (0 <= o / hp_size h) by (apply Z.div_pos; lia).
    split; [lia|]. split; [done|]. rewrite Z.add_0_l. apply Z.div_lt_upper_bound; lia. }
  apply submseteq_length in Hsub. rewrite length_fmap, length_seqZ in Hsub. unfold zlen. lia.
Qed.

(** Reading the descriptor. *)
Lemma pab_split page t :
  page mod PAGE_SIZE = 0 -> 0 <= page -> page + PAGE_SIZE < 2^32 -> 0 <= t < NSIZES ->
  Z.land (page + t) PAGE_FRAME = page /\ Z.land (page + t) PAGE_OFFSET_MASK = t.
Proof.
  unfold NSIZES. intros H1 H2 H3 H4. rewrite land_offset, land_frame by (unfold is_u32, PAGE_SIZE in *; lia).
  unfold PAGE_SIZE in *. lia.
Qed.

Lemma mkpab page t :
  page mod PAGE_SIZE = 0 -> 0 <= page -> page + PAGE_SIZE < 2^32 -> 0 <= t < NSIZES -> MKPAB page t = page + t.
Proof.
  unfold NSIZES. intros H1 H2 H3 H4. unfold MKPAB. rewrite land_offset, land_frame by (unfold is_u32, PAGE_SIZE in *; lia).
  replace (PAGE_SIZE * (page / PAGE_SIZE)) with page by (unfold PAGE_SIZE in *; lia).
  rewrite (Z.mod_small t) by (unfold PAGE_SIZE; lia).
  assert (Z.land page t = 0) as Hz.
  { apply Z.bits_inj'. intros n Hn. rewrite Z.land_spec, Z.bits_0. destruct (Z_lt_le_dec n 12).
    - replace page with (page / PAGE_SIZE * 2^12) by (change (2^12) with PAGE_SIZE; unfold PAGE_SIZE in *; lia).
      by rewrite Z.mul_pow2_bits_low by lia.
    - destruct (Z.eq_dec t 0) as [->|]; [by rewrite Z.bits_0, andb_false_r|].
      rewrite (Z.bits_above_log2 t n), andb_false_r; [done|lia|].
      assert (Z.log2 t < 3) by (apply Z.log2_lt_pow2; lia). lia. }
  by rewrite Z.add_nocarry_lxor, Z.lxor_lor.
Qed.

Lemma first_off_range m h : page_ok m h -> 0 <= first_off (hp_free h) < 65536.
Proof.
  intros H. destruct (hp_free h) as [|o fr] eqn:E; cbn; [unfold INVALID_OFFSET; lia|].
  destruct (pk_blocks _ _ H o) as [Ho _]; [rewrite E; set_solver|]. unfold PAGE_SIZE in *. lia.
Qed.

Lemma peek_page m h :
  page_ok m h ->
  PR_PAGEADDR (peek_pageref m (hp_ref h)) = hp_page h /\ PR_BLOCKTYPE (peek_pageref m (hp_ref h)) = hp_type h /\
  freelist_offset (peek_pageref m (hp_ref h)) = first_off (hp_free h) /\ nfree (peek_pageref m (hp_ref h)) = zlen (hp_free h).
Proof.
  intros H. pose proof (free_bound m h H) as Hb. pose proof (first_off_range m h H) as Hf.
  destruct H as [H1 (P1 & P2 & P3) H3 H4 _ _ _].
  destruct (hp_size_facts h H1) as (_ & _ & _ & _ & Hn). assert (0 <= zlen (hp_free h)) by (unfold zlen; lia).
  unfold PR_PAGEADDR, PR_BLOCKTYPE. cbn. rewrite H3, H4.
  destruct (pab_split (hp_page h) (hp_type h) P1 ltac:(unfold MIPS_KSEG0 in *; lia) P3 H1) as [-> ->]. split_and!; [done|done|lia|lia].
Qed.

(** ** The lists of descriptors *)

(** The list that starts at [base] and goes on through the word at offset [d]. *)
Fixpoint chain (d : Z) (m : words) (base : Z) (l : list Z) : Prop :=
  match l with
  | [] => base = 0
  | x :: l' => base = x /\ x <> 0 /\ chain d m (m (x + d)) l'
  end.

Lemma chain_ext d m m' base l : (forall x, x ∈ l -> m' (x + d) = m (x + d)) -> chain d m base l -> chain d m' base l.
Proof.
  revert base. induction l as [|x l IH]; intros base H; [done|]. cbn. intros (-> & ? & Hc). split_and!; [done|done|].
  rewrite H by set_solver. apply IH; [set_solver|done].
Qed.

(** Taking an element out of the middle of a list. *)
Lemma chain_unlink d m base l1 c x l2 :
  NoDup (l1 ++ c :: x :: l2) -> chain d m base (l1 ++ c :: x :: l2) ->
  chain d (poke (c + d) (m (x + d)) m) base (l1 ++ c :: l2).
Proof.
  intros Hnd. revert base. induction l1 as [|y l1 IH]; intros base; cbn.
  - intros (-> & Hc & <- & Hx & H). split_and!; [done|done|]. rewrite poke_eq. eapply chain_ext; [|done].
    intros z Hz. apply poke_ne. apply NoDup_app in Hnd as (_ & _ & Hnd). apply NoDup_cons in Hnd as [Hn _].
    intros E. apply Hn. assert (z = c) as -> by lia. set_solver.
  - intros (-> & Hy & H). apply NoDup_cons in Hnd as [Hn Hnd]. split_and!; [done|done|].
    rewrite poke_ne by (intros E; apply Hn; assert (y = c) as -> by lia; set_solver). by apply IH.
Qed.

(** ** The invariant *)

(** What the allocator has handed out: the heap pages with their free blocks,
    the large blocks, and everything owned from the page allocator. *)
Record ghost := mk_gh { g_pages : list hpage; g_big : gmap Z Z; g_owned : gmap Z Z }.
Definition with_pages (l : list hpage) (g : ghost) : ghost := mk_gh l (g_big g) (g_owned g).

Lemma elem_mid {A} (l1 l2 : list A) x : x ∈ l1 ++ x :: l2.
Proof. set_solver. Qed.
Lemma elem_rest {A} (l1 l2 : list A) x y : y ∈ l1 ++ l2 -> y ∈ l1 ++ x :: l2.
Proof. set_solver. Qed.

Lemma fmap_unique {A} (f : A -> Z) (l : list A) x y : NoDup (f <$> l) -> x ∈ l -> y ∈ l -> f x = f y -> x = y.
Proof.
  intros Hnd [i Hi]%list_elem_of_lookup_1 [j Hj]%list_elem_of_lookup_1 E.
  assert (i = j) as ->; [|congruence]. apply (NoDup_lookup (f <$> l) i j (f x)); [done| |].
  - by rewrite list_lookup_fmap, Hi.
  - rewrite list_lookup_fmap, Hj. cbn. by rewrite E.
Qed.

Lemma fmap_filter_nodup {A} (f : A -> Z) (P : A -> Prop) {_ : forall x, Decision (P x)} (l : list A) :
  NoDup (f <$> l) -> NoDup (f <$> filter P l).
Proof.
  induction l as [|x l IH]; [done|]. rewrite fmap_cons, NoDup_cons, filter_cons. intros [Hn Hnd]. case_decide; [|by apply IH].
  rewrite fmap_cons, NoDup_cons. split; [|by apply IH]. intros (y & E & Hy)%list_elem_of_fmap. apply Hn. rewrite E.
  apply list_elem_of_fmap_2. by apply list_elem_of_filter in Hy as [_ Hy].
Qed.

Definition of_type (t : Z) (l : list hpage) : list hpage := filter (fun h => hp_type h = t) l.

Section inv.
Context {PS : Type} {KP : KPages PS} {KL : KPagesLaws PS}.
Implicit Types (k : kheap_st PS) (g : ghost).

Record heap_inv k g : Prop := {
  hi_kp : kp_inv (k_pages k) (g_owned g);
  hi_roots : roots_ok (kheaproots k) (g_owned g);
  hi_bases : zlen (sizebases k) = NSIZES;
  hi_all : chain 4 (k_words k) (allbase k) (hp_ref <$> g_pages g);
  hi_same : forall t b, zlookup (sizebases k) t = Some b -> chain 0 (k_words k) b (hp_ref <$> of_type t (g_pages g));
  hi_pages : forall h, h ∈ g_pages g -> page_ok (k_words k) h;
  hi_refs : NoDup (hp_ref <$> g_pages g);
  hi_used : forall h, h ∈ g_pages g -> ref_used (kheaproots k) (hp_ref h);
  hi_places : NoDup (hp_page <$> g_pages g);
  hi_owned : forall h, h ∈ g_pages g -> g_owned g !! hp_page h = Some 1;
  hi_apart : forall h r x, h ∈ g_pages g -> zlookup (kheaproots k) r = Some x -> r_page x <> hp_page h;
  hi_big : forall a n, g_big g !! a = Some n -> g_owned g !! a = Some n /\
    (forall h, h ∈ g_pages g -> hp_page h <> a) /\ (forall r x, zlookup (kheaproots k) r = Some x -> r_page x <> a)
}.

(** Between operations: the lock is free and no page is entirely free. *)
Record heap_ok k g : Prop := {
  ho_inv : heap_inv k g;
  ho_lock : k_locked k = false;
  ho_partial : forall h, h ∈ g_pages g -> zlen (hp_free h) < hp_blocks h
}.

(** The allocated blocks: address and usable size. *)
Definition live g (a n : Z) : Prop :=
  (exists h o, h ∈ g_pages g /\ block_offset h o /\ (o ∉ hp_free h) /\ a = hp_page h + o /\ n = hp_size h) \/
  (exists np, g_big g !! a = Some np /\ n = np * PAGE_SIZE).

(** Where a descriptor lies. *)
Lemma used_place k g p :
  heap_inv k g -> ref_used (kheaproots k) p ->
  exists r x j, zlookup (kheaproots k) r = Some x /\ r_page x <> 0 /\ 0 <= j < 256 /\ p = r_page x + 16 * j /\
    g_owned g !! r_page x = Some 1 /\ r_page x mod PAGE_SIZE = 0 /\ MIPS_KSEG0 <= r_page x /\ r_page x + PAGE_SIZE < 2^32.
Proof.
  intros Hi (r & x & j & Hx & (H1 & H2 & H3) & _).
  pose proof (rk_owned _ _ (hi_roots _ _ Hi) _ _ Hx H1) as Ho. destruct (kp_block _ _ _ _ (hi_kp _ _ Hi) Ho) as (K1 & K2 & _ & K3).
  exists r, x, j. rewrite Z.mul_1_l in K3. done.
Qed.

(** Distinct descriptors do not overlap, nor do a descriptor and a block that
    is owned and not a descriptor page. *)
Lemma used_disjoint k g p q :
  heap_inv k g -> ref_used (kheaproots k) p -> ref_used (kheaproots k) q -> p <> q -> p + 16 <= q \/ q + 16 <= p.
Proof.
  intros Hi Hp Hq Hne. destruct (used_place k g p Hi Hp) as (r & x & j & _ & _ & _ & E & _ & A & _).
  destruct (used_place k g q Hi Hq) as (r' & x' & j' & _ & _ & _ & E' & _ & A' & _). unfold PAGE_SIZE in *. lia.
Qed.

Lemma used_outside k g p a n :
  heap_inv k g -> ref_used (kheaproots k) p -> g_owned g !! a = Some n ->
  (forall r x, zlookup (kheaproots k) r = Some x -> r_page x <> a) -> p + 16 <= a \/ a + n * PAGE_SIZE <= p.
Proof.
  intros Hi Hp Ha Hne. destruct (used_place k g p Hi Hp) as (r & x & j & Hx & _ & Hj & E & O & _).
  destruct (kp_apart _ _ _ _ _ _ (hi_kp _ _ Hi) O Ha (Hne r x Hx)); unfold PAGE_SIZE in *; lia.
Qed.

Lemma ref_disjoint k g h h' :
  heap_inv k g -> h ∈ g_pages g -> h' ∈ g_pages g -> hp_ref h <> hp_ref h' ->
  hp_ref h + 16 <= hp_ref h' \/ hp_ref h' + 16 <= hp_ref h.
Proof. intros Hi Hh Hh'. apply (used_disjoint k g); [done|by apply Hi|by apply Hi]. Qed.

Lemma page_disjoint k g h h' :
  heap_inv k g -> h ∈ g_pages g -> h' ∈ g_pages g -> hp_page h <> hp_page h' ->
  hp_page h + PAGE_SIZE <= hp_page h' \/ hp_page h' + PAGE_SIZE <= hp_page h.
Proof.
  intros Hi Hh Hh' Hne.
  pose proof (kp_apart _ _ _ _ _ _ (hi_kp _ _ Hi) (hi_owned _ _ Hi h Hh) (hi_owned _ _ Hi h' Hh') Hne). lia.
Qed.

Lemma page_outside_ref k g h h' :
  heap_inv k g -> h ∈ g_pages g -> h' ∈ g_pages g -> hp_ref h + 16 <= hp_page h' \/ hp_page h' + PAGE_SIZE <= hp_ref h.
Proof.
  intros Hi Hh Hh'. destruct (used_outside k g (hp_ref h) (hp_page h') 1 Hi (hi_used _ _ Hi h Hh) (hi_owned _ _ Hi h' Hh')) as [H|H]; [|lia|lia].
  intros r x Hx. by apply (hi_apart _ _ Hi h' r x).
Qed.

Lemma refs_inj k g l1 h l2 h' : heap_inv k g -> g_pages g = l1 ++ h :: l2 -> h' ∈ l1 ++ l2 -> hp_ref h' <> hp_ref h /\ hp_page h' <> hp_page h.
Proof.
  intros Hi E Hh'. pose proof (hi_refs _ _ Hi) as H1. pose proof (hi_places _ _ Hi) as H2.
  rewrite E, fmap_app, fmap_cons in H1, H2.
  assert (forall (f : hpage -> Z), NoDup ((f <$> l1) ++ f h :: (f <$> l2)) -> f h' <> f h) as H; [|by split; apply H].
  intros f. rewrite (Permutation_app_comm (f <$> l1)), <- app_comm_cons, NoDup_cons. intros [Hn _] Ef. apply Hn.
  rewrite <- Ef, <- fmap_app. apply list_elem_of_fmap_2. set_solver.
Qed.

(** ** Changing one page *)

Lemma of_type_replace t l1 h h' l2 :
  hp_ref h' = hp_ref h -> hp_type h' = hp_type h ->
  hp_ref <$> of_type t (l1 ++ h' :: l2) = hp_ref <$> of_type t (l1 ++ h :: l2).
Proof.
  intros E1 E2. unfold of_type. rewrite !filter_app, !filter_cons, E2. destruct (decide _); rewrite !fmap_app; [|done].
  cbn. by rewrite E1.
Qed.

Lemma heap_inv_update k g l1 h l2 fr m' :
  heap_inv k g -> g_pages g = l1 ++ h :: l2 -> page_ok m' (with_free fr h) ->
  (forall x, ~ page_area h x -> m' x = k_words k x) ->
  heap_inv (set_words m' k) (with_pages (l1 ++ with_free fr h :: l2) g).
Proof.
  intros Hi E Hp Hm. assert (h ∈ g_pages g) as Hh by (rewrite E; set_solver).
  assert (forall y, y ∈ l1 ++ with_free fr h :: l2 -> y = with_free fr h \/ (y ∈ g_pages g /\ hp_ref y <> hp_ref h /\ hp_page y <> hp_page h)) as Hy.
  { intros y Hy. destruct (decide (y ∈ l1 ++ l2)) as [Hl|Hl]; [|left; set_solver].
    right. split; [rewrite E; set_solver|]. by apply (refs_inj k g l1 h l2). }
  assert (forall f : hpage -> Z, f (with_free fr h) = f h -> f <$> (l1 ++ with_free fr h :: l2) = f <$> g_pages g) as Hf
    by (intros f Ef; by rewrite E, !fmap_app, !fmap_cons, Ef).
  assert (forall y d, y ∈ g_pages g -> 0 <= d < 8 -> m' (hp_ref y + d) = k_words k (hp_ref y + d)) as Hlink.
  { intros y d Hyg Hd. apply Hm. intros [Ha|Ha].
    - destruct (Z.eq_dec (hp_ref y) (hp_ref h)); [lia|]. pose proof (ref_disjoint k g y h Hi Hyg Hh ltac:(done)). lia.
    - pose proof (page_outside_ref k g y h Hi Hyg Hh). lia. }
  pose proof Hi as [I1 I2 I3 I4 I5 I6 I7 I8 I9 I10 I11 I12]. split; cbn [k_pages kheaproots sizebases allbase k_words set_words g_owned g_pages g_big with_pages]; try done.
  - rewrite Hf by done. eapply chain_ext; [|done]. intros x (y & -> & Hyg)%list_elem_of_fmap. by apply Hlink.
  - intros t b Hb. rewrite (of_type_replace t l1 h), <- E by done. eapply chain_ext; [|by apply I5].
    intros x (y & -> & Hyg)%list_elem_of_fmap. apply list_elem_of_filter in Hyg as [_ Hyg]. by apply Hlink.
  - intros y [->|(Hyg & N1 & N2)]%Hy; [done|]. eapply page_ok_ext; [|by apply I6]. intros x Hx. apply Hm. intros Ha.
    pose proof (ref_disjoint k g y h Hi Hyg Hh N1). pose proof (page_disjoint k g y h Hi Hyg Hh N2).
    pose proof (page_outside_ref k g y h Hi Hyg Hh). pose proof (page_outside_ref k g h y Hi Hh Hyg).
    unfold page_area in *. lia.
  - by rewrite Hf.
  - intros y [->|(Hyg & _)]%Hy; [exact (I8 h Hh)|by apply I8].
  - by rewrite Hf.
  - intros y [->|(Hyg & _)]%Hy; [exact (I10 h Hh)|by apply I10].
  - intros y r x [->|(Hyg & _)]%Hy; [exact (I11 h r x Hh)|by apply I11].
  - intros a n Ha. destruct (I12 a n Ha) as (J1 & J2 & J3). split_and!; [done| |done].
    intros y [->|(Hyg & _)]%Hy; [exact (J2 h Hh)|by apply J2].
Qed.

(** The first block of the free list of a page is taken. *)
Lemma links_poke m page l a v :
  (forall o, o ∈ l -> page + o <> a) -> links m page l -> links (poke a v m) page l.
Proof. intros H. apply links_ext. intros o Ho. by apply poke_ne, H. Qed.

Lemma counts_ok off n m ref :
  0 <= off < 65536 -> 0 <= n < 65536 -> poke_counts ref off n m = poke (ref + 12) (off * 65536 + n) m.
Proof. intros H1 H2. unfold poke_counts. by rewrite !Z.mod_small. Qed.

Lemma doalloc_run k g l1 h l2 o fr :
  heap_inv k g -> k_locked k = true -> g_pages g = l1 ++ h :: l2 -> hp_free h = o :: fr ->
  exists k', doalloc (hp_ref h) k = inr (hp_page h + o, k') /\ heap_inv k' (with_pages (l1 ++ with_free fr h :: l2) g) /\
    k_locked k' = false /\ kheaproots k' = kheaproots k /\ (forall x, x <> hp_ref h + 12 -> k_words k' x = k_words k x).
Proof.
  intros Hi Hl E Ef. assert (h ∈ g_pages g) as Hh by (rewrite E; set_solver).
  pose proof (hi_pages _ _ Hi h Hh) as Hp. destruct (peek_page _ _ Hp) as (P1 & P2 & P3 & P4). pose proof (free_bound _ _ Hp) as Hb.
  destruct (hp_size_facts h (pk_type _ _ Hp)) as (_ & _ & _ & _ & Hn). rewrite Ef in P3, P4, Hb. cbn [first_off] in P3.
  pose proof (pk_nodup _ _ Hp) as Hnd. pose proof (pk_blocks _ _ Hp) as Hbl. pose proof (pk_links _ _ Hp) as Hlk.
  rewrite Ef in Hnd, Hbl, Hlk. apply NoDup_cons in Hnd as [Hno Hnd]. destruct Hlk as [Hlo Hlk].
  destruct (pk_place _ _ Hp) as (A1 & A2 & A3). destruct (Hbl o ltac:(set_solver)) as [Ho _].
  unfold zlen in P4, Hb. cbn [length] in P4, Hb.
  assert (0 <= first_off fr < 65536 /\ (fr <> [] -> first_off fr < PAGE_SIZE)) as [Hfo Hfo'].
  { destruct fr as [|o' fr']; [unfold first_off, INVALID_OFFSET; split; [lia|done]|].
    destruct (Hbl o' ltac:(set_solver)) as [Ho' _]. cbn. unfold PAGE_SIZE in *. split; [lia|done || lia]. }
  set (m' := poke_counts (hp_ref h) (first_off fr) (Z.of_nat (length fr)) (k_words k)).
  assert (doalloc (hp_ref h) k = inr (hp_page h + o, set_locked false (set_words m' k))) as Hrun.
  { unfold doalloc, get_pageref. rewrite krun_get. rewrite P1, P3, P4.
    rewrite krun_KASSERT by (apply Z.ltb_lt; lia). cbv zeta. unfold read. rewrite krun_get.
    rewrite (u32_small (hp_page h + o)) by (unfold is_u32, MIPS_KSEG0 in *; lia). rewrite Hlo.
    replace ((Z.of_nat (S (length fr)) - 1) mod 65536) with (Z.of_nat (length fr)) by (rewrite Z.mod_small; lia).
    subst m'. destruct fr as [|o' fr'] eqn:Efr.
    - cbn [Z.eqb negb]. krun. rewrite krun_KASSERT by done. unfold write_counts. krun. rewrite krun_unlock by done. done.
    - destruct (Hbl o' ltac:(set_solver)) as [Ho' _].
      replace (hp_page h + o' =? 0) with false by (symmetry; apply Z.eqb_neq; unfold MIPS_KSEG0 in *; lia). cbn [negb]. krun.
      rewrite Z.add_simpl_l, (u32_small o') by (unfold is_u32, PAGE_SIZE in *; lia).
      rewrite krun_KASSERT by (apply Z.ltb_lt; cbn; lia).
      krun. rewrite krun_KASSERT by (apply Z.ltb_lt; lia). unfold write_counts. krun. rewrite krun_unlock by done. done. }
  eexists. split; [exact Hrun|]. unfold m' in *. rewrite counts_ok in * by lia. split_and!; [|done|done|].
  - change (heap_inv (set_words (poke (hp_ref h + 12) (first_off fr * 65536 + Z.of_nat (length fr)) (k_words k)) (set_locked false k))
      (with_pages (l1 ++ with_free fr h :: l2) g)).
    apply (heap_inv_update (set_locked false k) g); [by destruct Hi; split|done| |].
    + split; cbn [with_free hp_ref hp_page hp_type hp_free k_words set_locked]; try done; [apply Hp| | | |].
      * rewrite poke_ne by lia. apply Hp.
      * by rewrite poke_eq.
      * intros o' Ho'. apply Hbl. set_solver.
      * apply links_poke; [|done]. intros o' Ho' Eq. destruct (Hbl o' ltac:(set_solver)) as [Ho2 _].
        pose proof (page_outside_ref k g h h Hi Hh Hh). lia.
    + intros x Hx. apply poke_ne. intros ->. apply Hx. left. lia.
  - intros x Hx. cbn. by apply poke_ne.
Qed.

(** ** The searches end *)

Lemma length_slots (rs : list kheap_root) :
  length (rs ≫= (fun x => (fun j => r_page x + 16 * j) <$> seqZ 0 256)) = (256 * length rs)%nat.
Proof.
  induction rs as [|x rs IH]; [done|]. rewrite bind_cons, length_app, IH, length_fmap, length_seqZ. cbn [length]. lia.
Qed.

Lemma pages_bounded k g : heap_inv k g -> (length (g_pages g) < list_fuel)%nat.
Proof.
  intros Hi. assert (hp_ref <$> g_pages g ⊆+ kheaproots k ≫= (fun x => (fun j => r_page x + 16 * j) <$> seqZ 0 256)) as Hsub.
  { apply NoDup_submseteq; [apply Hi|]. intros p (h & -> & Hh)%list_elem_of_fmap.
    destruct (used_place k g _ Hi (hi_used _ _ Hi h Hh)) as (r & x & j & Hx & _ & Hj & -> & _). apply list_elem_of_bind.
    exists x. split; [apply list_elem_of_fmap; exists j; split; [done|apply elem_of_seqZ; lia]|].
    unfold zlookup in Hx. destruct (r <? 0); [done|]. by eapply list_elem_of_lookup_2. }
  apply submseteq_length in Hsub. rewrite length_fmap, length_slots in Hsub.
  pose proof (rk_len _ _ (hi_roots _ _ Hi)) as Hlen. unfold zlen, NUM_PAGEREFPAGES in Hlen.
  assert (list_fuel = 4097)%nat as -> by reflexivity. lia.
Qed.

Lemma of_type_length t l : (length (of_type t l) <= length l)%nat.
Proof. apply length_filter. Qed.

Lemma find_partial_run fuel t k base l :
  (length l < fuel)%nat -> chain 0 (k_words k) base (hp_ref <$> l) -> (forall h, h ∈ l -> page_ok (k_words k) h /\ hp_type h = t) ->
  (find_partial fuel base t k = inr (0, k) /\ forall h, h ∈ l -> hp_free h = []) \/
  (exists h, h ∈ l /\ hp_free h <> [] /\ find_partial fuel base t k = inr (hp_ref h, k)).
Proof.
  revert base l. induction fuel as [|fuel IH]; intros base l Hf Hc Hp; [lia|]. cbn [find_partial].
  destruct l as [|h l]; cbn in Hc; [subst base; left; split; [done|by intros h Hh%not_elem_of_nil]|].
  destruct Hc as (-> & Hne & Hc). destruct (Z.eqb_spec (hp_ref h) 0); [done|].
  destruct (Hp h ltac:(set_solver)) as [Hok Ht]. destruct (peek_page _ _ Hok) as (_ & P2 & _ & P4).
  unfold get_pageref. rewrite krun_get. rewrite P2, P4, Ht, krun_KASSERT by apply Z.eqb_refl.
  destruct (hp_free h) as [|o fr] eqn:Efr.
  - cbn [zlen length]. change (next_samesize (peek_pageref (k_words k) (hp_ref h))) with (k_words k (hp_ref h)).
    rewrite Z.add_0_r in Hc. cbn [length] in Hf.
    destruct (IH (k_words k (hp_ref h)) l ltac:(lia) Hc ltac:(set_solver)) as [[Hrun Hall]|(h' & Hh' & Hfr & Hrun)].
    + left. split; [exact Hrun|]. intros h'. rewrite elem_of_cons. intros [->|]; [done|by apply Hall].
    + right. exists h'. split_and!; [set_solver|done|exact Hrun].
  - right. exists h. split_and!; [set_solver|by rewrite Efr|].
    destruct (Z.ltb_spec 0 (zlen (o :: fr))) as [|Hz]; [done|]. unfold zlen in Hz. cbn in Hz. lia.
Qed.

Lemma find_page_run fuel k base l a :
  (length l < fuel)%nat -> chain 4 (k_words k) base (hp_ref <$> l) -> (forall h, h ∈ l -> page_ok (k_words k) h) ->
  (find_page fuel base a k = inr (0, k) /\ forall h, h ∈ l -> ~ (hp_page h <= a < hp_page h + PAGE_SIZE)) \/
  (exists h, h ∈ l /\ hp_page h <= a < hp_page h + PAGE_SIZE /\ find_page fuel base a k = inr (hp_ref h, k) /\ hp_ref h <> 0).
Proof.
  revert base l. induction fuel as [|fuel IH]; intros base l Hf Hc Hp; [lia|]. cbn [find_page].
  destruct l as [|h l]; cbn in Hc; [subst base; left; split; [done|by intros h Hh%not_elem_of_nil]|].
  destruct Hc as (-> & Hne & Hc). destruct (Z.eqb_spec (hp_ref h) 0); [done|].
  pose proof (Hp h ltac:(set_solver)) as Hok. destruct (peek_page _ _ Hok) as (P1 & P2 & _ & _).
  unfold get_pageref. rewrite krun_get. rewrite P1, P2, krun_KASSERT.
  2:{ apply andb_true_iff. rewrite Z.leb_le, Z.ltb_lt. apply Hok. }
  destruct (pk_place _ _ Hok) as (_ & A2 & A3).
  rewrite (u32_small (hp_page h + PAGE_SIZE)) by (unfold is_u32, MIPS_KSEG0, PAGE_SIZE in *; lia).
  destruct (Z.leb_spec (hp_page h) a), (Z.ltb_spec a (hp_page h + PAGE_SIZE)); cbn [andb].
  { right. exists h. split_and!; [set_solver|lia|lia|done|done]. }
  all: cbn [length] in Hf;
    destruct (IH (k_words k (hp_ref h + 4)) l ltac:(lia) Hc ltac:(set_solver)) as [[Hrun Hall]|(h' & Hh' & Ha & Hrun & Hnz)];
    [left; split; [exact Hrun|]; intros h'; rewrite elem_of_cons; intros [->|]; [lia|by apply Hall]
    |right; exists h'; split_and!; [set_solver|lia|lia|exact Hrun|done]].
Qed.
End inv.
