(* ===== verification/KMallocAlloc.v ===== *)
(** * Allocation from the kernel heap

    [kmalloc] of [kmalloc.c]: the initialisation of a new page, and the
    theorem on the block that is handed out. *)

From S2P Require Import Prelude State Monad Bitmap KMalloc KMallocRefs KMallocSpec.
#[local] Open Scope km_scope.

Section alloc.
Context {PS : Type} {KP : KPages PS} {KL : KPagesLaws PS}.
Implicit Types (k : kheap_st PS) (g : ghost).

(** ** Changes of what is owned *)

Lemma heap_inv_owned k g lk ps lg B' :
  heap_inv k g -> kp_inv ps B' ->
  (forall r x, zlookup (kheaproots k) r = Some x -> r_page x <> 0 -> B' !! r_page x = Some 1) ->
  (forall h, h ∈ g_pages g -> B' !! hp_page h = Some 1) -> (forall a n, g_big g !! a = Some n -> B' !! a = Some n) ->
  heap_inv (mk_kheap (kheaproots k) (sizebases k) (allbase k) (k_words k) lk ps lg) (mk_gh (g_pages g) (g_big g) B').
Proof.
  intros [I1 I2 I3 I4 I5 I6 I7 I8 I9 I10 I11 I12] Hkp H1 H2 H3. split; cbn; try done.
  - destruct I2 as [R1 R2 R3 R4 R5]. by split.
  - intros a n Ha. destruct (I12 a n Ha) as (_ & J2 & J3). auto.
Qed.

(** A page or a large block has been obtained. *)
Lemma heap_inv_gain k g lk ps lg va n :
  heap_inv k g -> g_owned g !! va = None -> kp_inv ps (<[va := n]> (g_owned g)) ->
  heap_inv (mk_kheap (kheaproots k) (sizebases k) (allbase k) (k_words k) lk ps lg)
    (mk_gh (g_pages g) (g_big g) (<[va := n]> (g_owned g))).
Proof.
  intros Hi Hva Hkp. assert (forall a z, g_owned g !! a = Some z -> <[va := n]> (g_owned g) !! a = Some z) as Hmono
    by (intros a z Ha; rewrite lookup_insert_ne by congruence; done).
  apply heap_inv_owned; [done|done| | |].
  - intros r x Hx Hp. by apply Hmono, (rk_owned _ _ (hi_roots _ _ Hi) r).
  - intros h Hh. by apply Hmono, Hi.
  - intros a z Ha. by apply Hmono, (hi_big _ _ Hi).
Qed.

(** A page that is not in use has been given back. *)
Lemma heap_inv_lose k g lk ps lg va :
  heap_inv k g -> kp_inv ps (delete va (g_owned g)) ->
  (forall r x, zlookup (kheaproots k) r = Some x -> r_page x <> va) -> (forall h, h ∈ g_pages g -> hp_page h <> va) ->
  g_big g !! va = None ->
  heap_inv (mk_kheap (kheaproots k) (sizebases k) (allbase k) (k_words k) lk ps lg)
    (mk_gh (g_pages g) (g_big g) (delete va (g_owned g))).
Proof.
  intros Hi Hkp H1 H2 H3. apply heap_inv_owned; [done|done| | |].
  - intros r x Hx Hp. rewrite lookup_delete_ne by (symmetry; by eapply H1). by apply (rk_owned _ _ (hi_roots _ _ Hi) r).
  - intros h Hh. rewrite lookup_delete_ne by (symmetry; by apply H2). by apply Hi.
  - intros a z Ha. rewrite lookup_delete_ne by congruence. by apply (hi_big _ _ Hi).
Qed.

Lemma heap_inv_roots k g n p rs' B' ps' lg :
  heap_inv k g -> ref_outcome n (g_owned g) k p rs' B' ps' -> heap_inv (rooted rs' ps' lg k) (mk_gh (g_pages g) (g_big g) B').
Proof.
  intros Hi [O1 O2 O3 O4 O5 O6 O7]. pose proof Hi as [I1 I2 I3 I4 I5 I6 I7 I8 I9 I10 I11 I12].
  assert (forall a z, g_owned g !! a = Some z -> B' !! a = Some z) as Hmono.
  { intros a z Ha. destruct O4 as [->|(r & x & va & _ & _ & Hva & ->)]; [done|]. by rewrite lookup_insert_ne by congruence. }
  assert (forall a z r x, g_owned g !! a = Some z -> (forall r x, zlookup (kheaproots k) r = Some x -> r_page x <> a) ->
    zlookup rs' r = Some x -> r_page x <> a) as Hroot.
  { intros a z r x Ha Hold Hx. destruct (O5 r x Hx) as [(x0 & Hx0 & ->)|[_ Hn]]; [by eapply Hold|congruence]. }
  split; cbn; try done.
  - intros h Hh. by apply O6, I8.
  - intros h Hh. by apply Hmono, I10.
  - intros h r x Hh Hx. apply (Hroot _ 1 r x); [by apply I10| |done]. intros r0 x0 Hx0. by apply (I11 h r0 x0).
  - intros a z Ha. destruct (I12 a z Ha) as (J1 & J2 & J3). split_and!; [by apply Hmono|done|].
    intros r x Hx. by apply (Hroot a z r x).
Qed.

(** ** A new page *)

(** The offsets of all the blocks, last one first. *)
Fixpoint all_blocks (n : nat) (sz : Z) : list Z :=
  match n with O => [] | S n' => Z.of_nat n' * sz :: all_blocks n' sz end.

Lemma elem_of_all_blocks n sz o : o ∈ all_blocks n sz <-> exists i, 0 <= i < Z.of_nat n /\ o = i * sz.
Proof.
  induction n as [|n IH]; cbn [all_blocks].
  - split; [by intros ?%not_elem_of_nil|]. intros (i & ? & _). lia.
  - rewrite elem_of_cons, IH. split.
    + intros [->|(i & ? & ->)]; [exists (Z.of_nat n)|exists i]; split; lia || done.
    + intros (i & Hi & ->). destruct (Z.eq_dec i (Z.of_nat n)) as [->|]; [by left|right]. exists i. split; [lia|done].
Qed.

Lemma all_blocks_nodup n sz : 0 < sz -> NoDup (all_blocks n sz).
Proof.
  intros Hsz. induction n as [|n IH]; cbn; constructor; [|done]. rewrite elem_of_all_blocks. intros (i & Hi & E). nia.
Qed.

Lemma all_blocks_length n sz : zlen (all_blocks n sz) = Z.of_nat n.
Proof. unfold zlen. induction n as [|n IH]; [done|]. cbn [all_blocks length]. lia. Qed.

Lemma all_blocks_links m page n sz :
  m page = 0 -> (forall j, 1 <= j < Z.of_nat n -> m (page + j * sz) = page + (j - 1) * sz) -> links m page (all_blocks n sz).
Proof.
  intros H0 Hj. induction n as [|n IH]; [done|]. cbn [all_blocks links]. split; [|apply IH; intros; apply Hj; lia].
  destruct n as [|n']; cbn [all_blocks]; [by rewrite Z.mul_0_l, Z.add_0_r|]. rewrite Hj by lia. f_equal. f_equal. lia.
Qed.

Lemma thread_page_run n i fla sz k :
  0 < sz -> exists m', thread_page n i fla sz k = inr (tt, set_words m' k) /\
    (forall j, i <= j < i + Z.of_nat n -> m' (fla + j * sz) = fla + (j - 1) * sz) /\
    (forall x, (forall j, i <= j < i + Z.of_nat n -> x <> fla + j * sz) -> m' x = k_words k x).
Proof.
  intros Hsz. revert i k. induction n as [|n IH]; intros i k; cbn [thread_page].
  { exists (k_words k). split; [by destruct k|]. split; [lia|done]. }
  unfold write. rewrite krun_modify, krun_KASSERT by (apply negb_true_iff, Z.eqb_neq; nia).
  set (k1 := set_words _ k). destruct (IH (i + 1) k1) as (m' & Hrun & H1 & H2). exists m'. split; [exact Hrun|]. split.
  - intros j Hj. destruct (Z.eq_dec j i) as [->|]; [|apply H1; lia]. rewrite H2; [apply poke_eq|]. intros j' Hj' E. nia.
  - intros x Hx. rewrite H2; [|intros j Hj; apply Hx; lia]. apply poke_ne. apply Hx. lia.
Qed.

(** A page is added in front of the two lists. *)
Lemma heap_inv_add k g h b m' lk :
  heap_inv k g -> ref_used (kheaproots k) (hp_ref h) -> (hp_ref h ∉ hp_ref <$> g_pages g) ->
  g_owned g !! hp_page h = Some 1 -> (forall r x, zlookup (kheaproots k) r = Some x -> r_page x <> hp_page h) ->
  (hp_page h ∉ hp_page <$> g_pages g) -> g_big g !! hp_page h = None ->
  zlookup (sizebases k) (hp_type h) = Some b -> page_ok m' h -> m' (hp_ref h) = b -> m' (hp_ref h + 4) = allbase k ->
  (forall x, ~ (hp_ref h <= x < hp_ref h + 16) -> ~ (hp_page h <= x < hp_page h + PAGE_SIZE) -> m' x = k_words k x) ->
  heap_inv (mk_kheap (kheaproots k) (zinsert (hp_type h) (hp_ref h) (sizebases k)) (hp_ref h) m' lk (k_pages k) (k_log k))
    (mk_gh (h :: g_pages g) (g_big g) (g_owned g)).
Proof.
  intros Hi Hu Hnr Ho Hna Hnp Hnb Hb Hok Hm0 Hm4 Hm.
  assert (forall y x, y ∈ g_pages g -> (hp_ref y <= x < hp_ref y + 16 \/ hp_page y <= x < hp_page y + PAGE_SIZE) -> m' x = k_words k x) as Hold.
  { intros y x Hy Hx.
    assert (hp_ref y <> hp_ref h) as N1 by (intros E; apply Hnr; rewrite <- E; by apply list_elem_of_fmap_2).
    assert (hp_page y <> hp_page h) as N2 by (intros E; apply Hnp; rewrite <- E; by apply list_elem_of_fmap_2).
    pose proof (used_disjoint k g _ _ Hi (hi_used _ _ Hi y Hy) Hu N1).
    pose proof (used_outside k g _ _ _ Hi (hi_used _ _ Hi y Hy) Ho Hna).
    pose proof (used_outside k g _ _ _ Hi Hu (hi_owned _ _ Hi y Hy) (fun r x => hi_apart _ _ Hi y r x Hy)).
    pose proof (kp_apart _ _ _ _ _ _ (hi_kp _ _ Hi) (hi_owned _ _ Hi y Hy) Ho N2).
    apply Hm; lia. }
  assert (hp_ref h <> 0) as Hnz.
  { destruct (used_place k g _ Hi Hu) as (r & x & j & _ & _ & Hj & E & _ & _ & A & _). unfold MIPS_KSEG0 in *. lia. }
  destruct Hi as [I1 I2 I3 I4 I5 I6 I7 I8 I9 I10 I11 I12].
  pose proof (zlookup_Some_range _ _ _ Hb) as Hr.
  split; cbn [k_pages kheaproots sizebases allbase k_words g_owned g_pages g_big]; try done.
  - by rewrite zlen_zinsert.
  - rewrite fmap_cons. cbn. split_and!; [done|done|]. rewrite Hm4. eapply chain_ext; [|done].
    intros x (y & -> & Hy)%list_elem_of_fmap. apply (Hold y); [done|lia].
  - intros t b'. rewrite zlookup_zinsert by done. unfold of_type. rewrite filter_cons.
    assert (forall t b, zlookup (sizebases k) t = Some b -> chain 0 m' b (hp_ref <$> of_type t (g_pages g))) as Hsame.
    { intros t' b0 Hb0. eapply chain_ext; [|by apply I5]. intros x (y & -> & Hy)%list_elem_of_fmap.
      apply list_elem_of_filter in Hy as [_ Hy]. apply (Hold y); [done|lia]. }
    case_decide as E; [subst t; intros [= <-]|intros Hb'; by apply Hsame].
    rewrite fmap_cons. cbn. split_and!; [done|done|]. rewrite Z.add_0_r, Hm0. by apply Hsame.
  - intros y [->|Hy]%elem_of_cons; [done|]. eapply page_ok_ext; [|by apply I6]. intros x [Hx|Hx]; apply (Hold y); lia || done.
  - rewrite fmap_cons. by constructor.
  - intros y [->|Hy]%elem_of_cons; [done|by apply I8].
  - rewrite fmap_cons. by constructor.
  - intros y [->|Hy]%elem_of_cons; [done|by apply I10].
  - intros y r x [->|Hy]%elem_of_cons; [by apply Hna|by apply I11].
  - intros a n Ha. destruct (I12 a n Ha) as (J1 & J2 & J3). split_and!; [done| |done].
    intros y [->|Hy]%elem_of_cons; [congruence|by apply J2].
Qed.

Definition new_page (pr va t : Z) : hpage := mk_hp pr va t (all_blocks (Z.to_nat (hp_blocks (mk_hp pr va t []))) (hp_size (mk_hp pr va t []))).

(** The words [setup_page] writes. *)
Lemma setup_page_run k g pr va t b :
  heap_inv k g -> ref_used (kheaproots k) pr -> g_owned g !! va = Some 1 ->
  (forall r x, zlookup (kheaproots k) r = Some x -> r_page x <> va) -> 0 <= t < NSIZES -> zlookup (sizebases k) t = Some b ->
  exists m', setup_page pr va t k =
      inr (tt, mk_kheap (kheaproots k) (zinsert t pr (sizebases k)) pr m' (k_locked k) (k_pages k) (k_log k)) /\
    page_ok m' (new_page pr va t) /\ m' pr = b /\ m' (pr + 4) = allbase k /\
    (forall x, ~ (pr <= x < pr + 16) -> ~ (va <= x < va + PAGE_SIZE) -> m' x = k_words k x).
Proof.
  intros Hi Hu Ho Hna Ht Hb. set (h := mk_hp pr va t []).
  destruct (hp_size_facts h Ht) as (Hz & Hs & _ & Hbs & Hn). change (hp_type h) with t in Hz.
  pose proof (used_outside k g pr va 1 Hi Hu Ho Hna) as Hout. rewrite Z.mul_1_l in Hout.
  destruct (kp_block _ _ _ _ (hi_kp _ _ Hi) Ho) as (K1 & K2 & _ & K3). rewrite Z.mul_1_l in K3.
  set (m1 := poke va 0 (poke (pr + 8) (MKPAB va t) (k_words k))).
  destruct (thread_page_run (Z.to_nat (hp_blocks h - 1)) 1 va (hp_size h) (set_words m1 k) ltac:(lia)) as (m2 & Hrun & L1 & L2).
  cbn [k_words set_words] in L2. replace (1 + Z.of_nat (Z.to_nat (hp_blocks h - 1))) with (hp_blocks h) in * by lia.
  set (last := (hp_blocks h - 1) * hp_size h). assert (0 <= last < PAGE_SIZE) as Hlast by (unfold last; nia).
  set (m3 := poke (pr + 12) (last * 65536 + hp_blocks h) m2).
  assert (forall x, ~ (va <= x < va + PAGE_SIZE) -> m2 x = poke (pr + 8) (MKPAB va t) (k_words k) x) as Hm2.
  { intros x Hx. rewrite L2; [|intros j Hj ->; apply Hx; nia]. apply poke_ne. lia. }
  exists (poke (pr + 4) (allbase k) (poke pr b m3)). split_and!.
  - unfold setup_page, size_at. rewrite (krun_deref _ _ (hp_size h)) by done. cbv zeta. unfold write. krun.
    change (set_words _ (set_words _ k)) with (set_words m1 k). change (PAGE_SIZE / hp_size h) with (hp_blocks h).
    rewrite (kbind_inr _ _ _ _ _ Hrun). unfold write_counts. krun.
    fold last. cbn [k_words set_words]. rewrite counts_ok by (unfold PAGE_SIZE in *; lia). fold m3.
    unfold get_pageref. rewrite krun_get. cbn [k_words set_words freelist_offset nfree peek_pageref].
    assert (m3 (pr + 12) = last * 65536 + hp_blocks h) as -> by apply poke_eq.
    rewrite krun_KASSERT; [|apply Z.eqb_eq; replace ((last * 65536 + hp_blocks h) / 65536) with last by (unfold PAGE_SIZE in *; lia);
      by replace ((last * 65536 + hp_blocks h) mod 65536) with (hp_blocks h) by (unfold PAGE_SIZE in *; lia)].
    unfold read_link at 1. rewrite (kbind_inr _ _ _ b (set_words m3 k)) by (unfold kderef; cbn; by rewrite Hb).
    unfold write_link, read_link, write. krun. done.
  - split; cbn [new_page hp_ref hp_page hp_type hp_free]; fold h; try done.
    + unfold m3. rewrite !poke_ne by lia. rewrite Hm2 by lia. rewrite poke_eq. apply mkpab; unfold MIPS_KSEG0 in *; lia || done.
    + rewrite !poke_ne by lia. unfold m3. rewrite poke_eq, all_blocks_length.
      replace (Z.of_nat (Z.to_nat (hp_blocks h))) with (hp_blocks h) by lia. f_equal. f_equal.
      destruct (Z.to_nat (hp_blocks h)) as [|n'] eqn:En; [lia|]. cbn. unfold last. f_equal. lia.
    + apply all_blocks_nodup. lia.
    + intros o (i & Hir & ->)%elem_of_all_blocks. unfold block_offset. change (hp_size (new_page pr va t)) with (hp_size h).
      split; [nia|]. apply Z.mod_mul. lia.
    + apply all_blocks_links.
      * unfold m3. rewrite !poke_ne by (unfold PAGE_SIZE in *; lia). rewrite L2 by (intros j Hj; nia). apply poke_eq.
      * intros j Hj. assert (va <= va + j * hp_size h < va + PAGE_SIZE) as Hjr by nia.
        unfold m3. rewrite !poke_ne by (unfold PAGE_SIZE in *; lia). apply L1. lia.
  - rewrite poke_ne by lia. apply poke_eq.
  - apply poke_eq.
  - intros x Hx1 Hx2. unfold m3. rewrite !poke_ne by lia. rewrite Hm2 by done. apply poke_ne. lia.
Qed.

(** ** Allocated blocks *)

Lemma block_fits h o : 0 <= hp_type h < NSIZES -> block_offset h o -> 0 <= o /\ o + hp_size h <= PAGE_SIZE.
Proof.
  intros Ht [Ho1 Ho2]. destruct (hp_size_facts h Ht) as (_ & Hs & _ & Hb & _). split; [lia|]. rewrite <- Hb in *.
  pose proof (Z.div_mod o (hp_size h)). assert (o / hp_size h < hp_blocks h) by (apply Z.div_lt_upper_bound; lia). nia.
Qed.

Lemma page_unique k g h h' : heap_inv k g -> h ∈ g_pages g -> h' ∈ g_pages g -> hp_page h = hp_page h' -> h' = h.
Proof. intros Hi Hh Hh' E. symmetry. by apply (fmap_unique hp_page (g_pages g)); [apply Hi| | |]. Qed.

(** Every allocated block lies in an owned block that is no descriptor page. *)
Lemma live_place k g a z :
  heap_inv k g -> live g a z ->
  exists b n, g_owned g !! b = Some n /\ b <= a /\ a + z <= b + n * PAGE_SIZE /\ 0 < z /\
    (forall r x, zlookup (kheaproots k) r = Some x -> r_page x <> b) /\
    ((exists h o, h ∈ g_pages g /\ b = hp_page h /\ block_offset h o /\ (o ∉ hp_free h) /\ a = b + o /\ z = hp_size h) \/
     (g_big g !! b = Some n /\ a = b)).
Proof.
  intros Hi [(h & o & Hh & [Ho1 Ho2] & Hn & -> & ->)|(np & Hnp & ->)].
  - destruct (hp_size_facts h (pk_type _ _ (hi_pages _ _ Hi h Hh))) as (_ & Hs & _ & Hb & _).
    pose proof (block_fits h o (pk_type _ _ (hi_pages _ _ Hi h Hh)) (conj Ho1 Ho2)).
    exists (hp_page h), 1. split_and!; [by apply Hi|lia|lia|lia| |].
    + intros r x Hx. by apply (hi_apart _ _ Hi h r x).
    + left. by exists h, o.
  - destruct (hi_big _ _ Hi a np Hnp) as (J1 & _ & J3). exists a, np.
    destruct (kp_block _ _ _ _ (hi_kp _ _ Hi) J1) as (_ & _ & K & _). split_and!; [done|lia|lia|unfold PAGE_SIZE; lia|done|by right].
Qed.

Lemma live_not_ref k g a z p x :
  heap_inv k g -> live g a z -> ref_used (kheaproots k) p -> a <= x < a + z -> ~ (p <= x < p + 16).
Proof.
  intros Hi Hl Hp Hx. destruct (live_place k g a z Hi Hl) as (b & n & Hb & H1 & H2 & _ & Hne & _).
  pose proof (used_outside k g p b n Hi Hp Hb Hne). lia.
Qed.

(** A block with another address does not overlap. *)
Lemma live_block_apart k g a z h o :
  heap_inv k g -> live g a z -> h ∈ g_pages g -> block_offset h o -> a <> hp_page h + o ->
  a + z <= hp_page h + o \/ hp_page h + o + hp_size h <= a.
Proof.
  intros Hi Hl Hh [Ho1 Ho2] Hne. pose proof (pk_type _ _ (hi_pages _ _ Hi h Hh)) as Ht.
  destruct (hp_size_facts h Ht) as (_ & Hs & _ & Hb & _).
  pose proof (block_fits h o Ht (conj Ho1 Ho2)).
  destruct (live_place k g a z Hi Hl) as (b & n & Hown & H1 & H2 & _ & _ & Hkind).
  destruct (Z.eq_dec b (hp_page h)) as [->|Hbne].
  - destruct Hkind as [(h' & o' & Hh' & E & [Q1 Q2] & _ & -> & ->)|[Hbig ->]].
    + assert (h' = h) as -> by (by apply (page_unique k g)).
      pose proof (multiples_apart (hp_size h) o o' ltac:(lia) Ho2 Q2 ltac:(lia)). lia.
    + by destruct (hi_big _ _ Hi _ _ Hbig) as (_ & J & _), (J h Hh).
  - pose proof (kp_apart _ _ _ _ _ _ (hi_kp _ _ Hi) Hown (hi_owned _ _ Hi h Hh) Hbne). lia.
Qed.

Lemma live_fresh k g a z va n :
  heap_inv k g -> live g a z -> g_owned g !! va = None -> forall ps, kp_inv ps (<[va := n]> (g_owned g)) -> a + z <= va \/ va + n * PAGE_SIZE <= a.
Proof.
  intros Hi Hl Hva ps Hkp. destruct (live_place k g a z Hi Hl) as (b & m & Hb & H1 & H2 & _).
  assert (va <> b) as Hne by congruence.
  destruct (kp_apart _ _ va n b m Hkp) as [?|?]; [apply lookup_insert_eq|by rewrite lookup_insert_ne|done|lia|lia].
Qed.

Lemma live_take k g l1 h l2 o fr a z :
  heap_inv k g -> g_pages g = l1 ++ h :: l2 -> hp_free h = o :: fr ->
  live (with_pages (l1 ++ with_free fr h :: l2) g) a z <-> live g a z \/ (a = hp_page h + o /\ z = hp_size h).
Proof.
  intros Hi E Ef. assert (h ∈ g_pages g) as Hh by (rewrite E; set_solver).
  pose proof (hi_pages _ _ Hi h Hh) as Hp. pose proof (pk_nodup _ _ Hp) as Hnd. rewrite Ef in Hnd. apply NoDup_cons in Hnd as [Hno _].
  assert (block_offset h o) as Hbo by (apply Hp; rewrite Ef; set_solver).
  unfold live. cbn [g_pages g_big with_pages]. rewrite E. split.
  - intros [(y & o' & Hy & Hbo' & Hf & -> & ->)|Hbig]; [|by left; right].
    apply elem_of_app in Hy. rewrite elem_of_cons in Hy. destruct Hy as [Hy|[->|Hy]]; [left; left; exists y, o'; set_solver| |left; left; exists y, o'; set_solver].
    cbn [with_free hp_free hp_page] in *. destruct (Z.eq_dec o' o) as [->|Hne]; [by right|left; left].
    exists h, o'. split_and!; [set_solver|done|rewrite Ef; set_solver|done|done].
  - intros [[(y & o' & Hy & Hbo' & Hf & -> & ->)|Hbig]|[-> ->]]; [|by right|].
    + left. apply elem_of_app in Hy. rewrite elem_of_cons in Hy. destruct Hy as [Hy|[->|Hy]]; [exists y, o'; set_solver| |exists y, o'; set_solver].
      exists (with_free fr h), o'. rewrite Ef in Hf. split_and!; [set_solver|done|set_solver|done|done].
    + left. exists (with_free fr h), o. split_and!; [set_solver|done|done|done|done].
Qed.

Lemma live_new_page g pr va t B a z :
  0 <= t < NSIZES -> live (mk_gh (new_page pr va t :: g_pages g) (g_big g) B) a z <-> live g a z.
Proof.
  intros Ht. unfold live. cbn [g_pages g_big]. split; (intros [(y & o & Hy & Hbo & Hf & -> & ->)|Hbig]; [left|by right]);
    [|exists y, o; set_solver].
  apply elem_of_cons in Hy as [->|Hy]; [|by exists y, o]. exfalso. apply Hf. destruct Hbo as [H1 H2].
  set (h := mk_hp pr va t []) in *. change (hp_size (new_page pr va t)) with (hp_size h) in *.
  destruct (hp_size_facts h Ht) as (_ & Hs & _ & Hb & Hn). apply elem_of_all_blocks. exists (o / hp_size h).
  pose proof (Z.div_mod o (hp_size h)). assert (o / hp_size h < hp_blocks h) by (apply Z.div_lt_upper_bound; lia).
  assert (0 <= o / hp_size h) by (apply Z.div_pos; lia). split; [fold h; lia|]. fold h. lia.
Qed.

(** ** [kmalloc] *)

(** The answer to a request of [sz] bytes: [NULL], or a block that is large
    enough, aligned and disjoint from the allocated ones; the contents of
    those are untouched. *)
Record allocated k g (sz p : Z) k' g' : Prop := {
  al_ok : heap_ok k' g';
  al_words : forall a z x, live g a z -> a <= x < a + z -> k_words k' x = k_words k x;
  al_result : (p = 0 /\ forall a z, live g' a z <-> live g a z) \/
    (p <> 0 /\ p mod 16 = 0 /\ exists n, sz <= n /\ (forall a z, live g' a z <-> live g a z \/ (a = p /\ z = n)) /\
       forall a z, live g a z -> a + z <= p \/ p + n <= a)
}.

Lemma blocktype_run sz k :
  0 <= sz <= LARGEST_SUBPAGE_SIZE -> exists t z, blocktype sz k = inr (t, k) /\ 0 <= t < NSIZES /\ zlookup sizes t = Some z /\ sz <= z.
Proof.
  unfold LARGEST_SUBPAGE_SIZE, NSIZES. intros Hsz. unfold blocktype. cbn [blocktype_from sizes].
  repeat match goal with |- context [if sz <=? ?x then _ else _] => destruct (Z.leb_spec sz x) end;
    try (eexists _, _; split; [reflexivity|split; [cbn; lia|split; [reflexivity|lia]]]). lia.
Qed.

(** A free block is not allocated. *)
Lemma free_not_live k g h o z : heap_inv k g -> h ∈ g_pages g -> o ∈ hp_free h -> ~ live g (hp_page h + o) z.
Proof.
  intros Hi Hh Ho Ha. pose proof (hi_pages _ _ Hi h Hh) as Hp. destruct (pk_blocks _ _ Hp o Ho) as [B1 _].
  destruct (pk_place _ _ Hp) as (A1 & _).
  destruct Ha as [(y & o' & Hy & [Q1 Q2] & Hf & Eq & _)|(np & Hnp & _)].
  - destruct (Z.eq_dec (hp_page h) (hp_page y)) as [Ey|Ny].
    { pose proof (page_unique k g h y Hi Hh Hy Ey) as ->. assert (o' = o) as -> by lia. done. }
    pose proof (page_disjoint k g h y Hi Hh Hy Ny). unfold PAGE_SIZE in *. lia.
  - destruct (hi_big _ _ Hi _ _ Hnp) as (J1 & J2 & _).
    destruct (kp_block _ _ _ _ (hi_kp _ _ Hi) J1) as (M1 & _). apply (J2 h Hh). unfold PAGE_SIZE in *. lia.
Qed.

(** Taking the first block of a page that has one. *)
Lemma take_allocated k g l1 h l2 sz n :
  heap_inv k g -> k_locked k = true -> g_pages g = l1 ++ h :: l2 -> hp_free h <> [] -> sz <= hp_size h ->
  (forall y, y ∈ l1 ++ l2 -> zlen (hp_free y) < hp_blocks y) -> lost_at_most n (kheaproots k) ->
  exists p k' g', doalloc (hp_ref h) k = inr (p, k') /\ lost_at_most n (kheaproots k') /\ allocated k g sz p k' g'.
Proof.
  intros Hi Hl E Hne Hsz Hpart Hlost. destruct (hp_free h) as [|o fr] eqn:Ef; [done|].
  destruct (doalloc_run k g l1 h l2 o fr Hi Hl E Ef) as (k' & Hrun & Hi' & Hl' & Hr' & Hw').
  assert (h ∈ g_pages g) as Hh by (rewrite E; set_solver). pose proof (hi_pages _ _ Hi h Hh) as Hp.
  destruct (hp_size_facts h (pk_type _ _ Hp)) as (_ & Hs & Hs16 & Hb & _).
  destruct (pk_place _ _ Hp) as (A1 & A2 & _). assert (block_offset h o) as Hbo by (apply Hp; rewrite Ef; set_solver).
  pose proof (free_bound _ _ Hp) as Hfb. rewrite Ef in Hfb. unfold zlen in Hfb. cbn [length] in Hfb.
  do 3 eexists. split; [exact Hrun|]. split; [by rewrite Hr'|]. split.
  - split; [exact Hi'|done|]. cbn [g_pages with_pages]. intros y Hy.
    destruct (decide (y ∈ l1 ++ l2)) as [Hy'|Hy']; [by apply Hpart|].
    assert (y = with_free fr h) as -> by set_solver. cbn [hp_free with_free]. unfold zlen.
    change (hp_blocks (with_free fr h)) with (hp_blocks h). lia.
  - intros a z x Ha Hx. apply Hw'. intros ->. apply (live_not_ref k g a z (hp_ref h) (hp_ref h + 12) Hi Ha); [by apply Hi|done|lia].
  - right. destruct Hbo as [Ho1 Ho2]. split; [unfold MIPS_KSEG0 in *; lia|]. split.
    + pose proof (Z.div_mod o (hp_size h)). unfold PAGE_SIZE in *.
      assert (o mod 16 = 0) by (rewrite H, Ho2, Z.add_0_r, Z.mul_comm by lia; rewrite Z.mul_mod, Hs16, Z.mul_0_r by lia; done). lia.
    + exists (hp_size h). split; [done|]. split; [intros a z; by apply (live_take k)|].
      intros a z Ha. apply (live_block_apart k g); [done|done|done|done|]. intros ->.
      apply (free_not_live k g h o z Hi Hh); [rewrite Ef; apply elem_of_cons; by left|done].
Qed.

Lemma heap_inv_locked k g b : heap_inv k g -> heap_inv (set_locked b k) g.
Proof. by intros []; split. Qed.

(** A page of the right size is in the list of its size. *)
Lemma of_type_elem t l h : h ∈ of_type t l <-> h ∈ l /\ hp_type h = t.
Proof. unfold of_type. rewrite list_elem_of_filter. tauto. Qed.

(** The request is served from an existing page, or none has room. *)
Lemma partial_search k g t :
  heap_inv k g -> 0 <= t < NSIZES ->
  exists b, zlookup (sizebases k) t = Some b /\
    (find_partial list_fuel b t k = inr (0, k) \/
     exists h, h ∈ g_pages g /\ hp_type h = t /\ hp_free h <> [] /\ hp_ref h <> 0 /\ find_partial list_fuel b t k = inr (hp_ref h, k)).
Proof.
  intros Hi Ht. destruct (zlookup_in_range (sizebases k) t) as [b Hb]; [by rewrite (hi_bases _ _ Hi)|].
  exists b. split; [done|]. pose proof (pages_bounded k g Hi) as Hf. pose proof (of_type_length t (g_pages g)).
  destruct (find_partial_run list_fuel t k b (of_type t (g_pages g)) ltac:(lia) (hi_same _ _ Hi t b Hb)) as [[Hrun _]|(h & Hh & Hfr & Hrun)].
  - intros h [Hh E]%of_type_elem. split; [by apply Hi|done].
  - by left.
  - right. apply of_type_elem in Hh as [Hh E]. exists h. split_and!; try done.
    destruct (used_place k g _ Hi (hi_used _ _ Hi h Hh)) as (r & x & j & _ & _ & Hj & Er & _ & _ & A & _). unfold MIPS_KSEG0 in *. lia.
Qed.

(** Blocks and contents are the same. *)
Lemma refused_allocated k g sz k' g' :
  heap_ok k' g' -> g_pages g' = g_pages g -> g_big g' = g_big g -> k_words k' = k_words k -> allocated k g sz 0 k' g'.
Proof.
  intros Hok E1 E2 Ew. split; [done|by rewrite Ew|left]. split; [done|]. intros a z. unfold live. by rewrite E1, E2.
Qed.

(** A page obtained for blocks is still owned, and no descriptor page, after a
    descriptor has been obtained for it. *)
Lemma outcome_page k B va n pr rs' B' ps' :
  roots_ok (kheaproots k) B -> B !! va = None -> va <> 0 -> ref_outcome n (<[va := 1]> B) k pr rs' B' ps' ->
  B' !! va = Some 1 /\ (forall r x, zlookup rs' r = Some x -> r_page x <> va).
Proof.
  intros Hi Hnone Hva [O1 O2 O3 O4 O5 O6 O7]. split.
  - destruct O4 as [->|(r & x & va' & _ & _ & Hva' & ->)]; [apply lookup_insert_eq|].
    rewrite lookup_insert_ne by (intros ->; by rewrite lookup_insert_eq in Hva'). apply lookup_insert_eq.
  - intros r x Hx E. destruct (O5 r x Hx) as [(x0 & Hx0 & Ex)|[_ Hno]]; [|rewrite E in Hno; by rewrite lookup_insert_eq in Hno].
    assert (r_page x0 = va) as E0 by congruence. pose proof (rk_owned _ _ Hi r x0 Hx0 ltac:(congruence)). congruence.
Qed.

Lemma unowned_apart k g va :
  heap_inv k g -> g_owned g !! va = None -> (forall h, h ∈ g_pages g -> hp_page h <> va) /\ g_big g !! va = None.
Proof.
  intros Hi Hnone. split.
  - intros h Hh E. pose proof (hi_owned _ _ Hi h Hh). congruence.
  - destruct (g_big g !! va) as [y|] eqn:E; [|done]. destruct (hi_big _ _ Hi va y E). congruence.
Qed.

(** With a page and a descriptor, the request is served. *)
Lemma added_page_allocated k2 pages big B' pr va t b z sz n :
  heap_inv k2 (mk_gh pages big B') -> k_locked k2 = true -> ref_used (kheaproots k2) pr -> (pr ∉ hp_ref <$> pages) ->
  B' !! va = Some 1 -> (forall r x, zlookup (kheaproots k2) r = Some x -> r_page x <> va) ->
  (forall h, h ∈ pages -> hp_page h <> va) -> big !! va = None -> (forall h, h ∈ pages -> zlen (hp_free h) < hp_blocks h) ->
  0 <= t < NSIZES -> zlookup sizes t = Some z -> sz <= z -> zlookup (sizebases k2) t = Some b -> lost_at_most n (kheaproots k2) ->
  exists p k' g', (setup_page pr va t ;; doalloc pr)%km k2 = inr (p, k') /\ lost_at_most n (kheaproots k') /\
    allocated k2 (mk_gh pages big B') sz p k' g'.
Proof.
  intros Hi Hl Hused Hfresh HB Hroot Hpage Hbig Hpart Ht Hz Hsz Hb Hlost.
  destruct (setup_page_run k2 _ pr va t b Hi Hused HB Hroot Ht Hb) as (m' & Hrun & Hok & M1 & M2 & M3).
  rewrite (kbind_inr _ _ _ _ _ Hrun), Hl. clear Hrun. set (h := new_page pr va t) in *.
  assert (hp_size h = z) as Hhz by (unfold hp_size; cbn; by rewrite Hz).
  assert (heap_inv (mk_kheap (kheaproots k2) (zinsert t pr (sizebases k2)) pr m' true (k_pages k2) (k_log k2)) (mk_gh (h :: pages) big B')) as Hi3.
  { apply (heap_inv_add k2 (mk_gh pages big B') h b m' true); try done.
    intros (y & E & Hy)%list_elem_of_fmap. by apply (Hpage y Hy). }
  destruct (take_allocated _ _ [] h pages sz n Hi3 eq_refl eq_refl) as (p & k' & g' & Hrun & Hl' & [T1 T2 T3]); [|lia|done|done|].
  { cbn. destruct (hp_size_facts (mk_hp pr va t []) Ht) as (_ & _ & _ & _ & Hnb). by destruct (Z.to_nat (hp_blocks _)) eqn:E; [lia|]. }
  assert (forall a y, live (mk_gh (h :: pages) big B') a y <-> live (mk_gh pages big B') a y) as Hlive
    by (intros; by apply (live_new_page (mk_gh pages big B'))).
  exists p, k', g'. split; [exact Hrun|]. split; [exact Hl'|]. split; [exact T1| |by setoid_rewrite Hlive in T3].
  intros a y x Ha Hx. rewrite (T2 a y x) by (done || by apply Hlive). cbn [k_words]. apply M3.
  - by apply (live_not_ref k2 (mk_gh pages big B') a y).
  - destruct (live_place k2 _ a y Hi Ha) as (c & m & Hc & H1 & H2 & _ & _ & Hkind).
    assert (c <> va) as Hne by (destruct Hkind as [(h' & o & Hh' & -> & _)|[Hc' _]]; [by apply Hpage|intros ->; cbn in Hc'; congruence]).
    pose proof (kp_apart _ _ _ _ _ _ (hi_kp _ _ Hi) Hc HB Hne). lia.
Qed.

Lemma fresh_page_allocated k g t b z sz n :
  heap_inv k g -> k_locked k = false -> (forall h, h ∈ g_pages g -> zlen (hp_free h) < hp_blocks h) ->
  0 <= t < NSIZES -> zlookup sizes t = Some z -> sz <= z -> zlookup (sizebases k) t = Some b ->
  0 <= n < 255 -> lost_at_most n (kheaproots k) ->
  exists p k' g', (prpage <- alloc_pages 1 ;;
      if prpage =? 0 then kprint "kmalloc: Subpage allocator couldn't get a page" [] ;; kret 0
      else
        KASSERT (prpage mod PAGE_SIZE =? 0) "prpage % PAGE_SIZE == 0" ;;
        lock_heap ;;
        pr <- allocpageref ;;
        if pr =? 0 then
          unlock_heap ;;
          free_pages_at prpage ;;
          kprint "kmalloc: Subpage allocator couldn't get pageref" [] ;; kret 0
        else setup_page pr prpage t ;; doalloc pr)%km k = inr (p, k') /\
    lost_at_most (if p =? 0 then n + 1 else n) (kheaproots k') /\ allocated k g sz p k' g'.
Proof.
  intros Hi Hl Hpart Ht Hz Hsz Hb Hn Hlost.
  destruct (kp_alloc_ok _ _ 1 (hi_kp _ _ Hi) ltac:(lia)) as (va & ps & Hal & Hout). rewrite (krun_alloc 1 va ps) by done.
  destruct Hout as [[-> Hkp]|(Hva & Hnone & Hkp)].
  { cbn [Z.eqb]. exists 0. do 2 eexists. split; [unfold kprint; krun; reflexivity|]. split; [cbn [Z.eqb]; by apply (lost_weaken n); [lia|]|].
    apply (refused_allocated _ _ _ _ (mk_gh (g_pages g) (g_big g) (g_owned g))); try done. split; [|done|done].
    apply (heap_inv_owned k g (k_locked k) ps); [done|done|apply Hi|apply Hi|]. intros a y Ha. by apply Hi. }
  destruct (Z.eqb_spec va 0); [done|]. destruct (kp_block _ _ va 1 Hkp (lookup_insert_eq _ _ _)) as (K1 & _).
  rewrite krun_KASSERT, krun_lock by (done || by apply Z.eqb_eq).
  set (k1 := set_locked true (set_pages ps k)). set (g1 := mk_gh (g_pages g) (g_big g) (<[va := 1]> (g_owned g))).
  assert (heap_inv k1 g1) as Hi1 by (by apply (heap_inv_gain k g true ps (k_log k))).
  destruct (allocpageref_run n (g_owned g1) k1 Hn eq_refl (hi_kp _ _ Hi1) (hi_roots _ _ Hi1) Hlost)
    as (pr & rs' & B' & ps' & lg & Hrun & Hoc). rewrite (kbind_inr _ _ _ _ _ Hrun). clear Hrun.
  pose proof (heap_inv_roots k1 g1 n pr rs' B' ps' lg Hi1 Hoc) as Hi2. set (k2 := rooted rs' ps' lg k1) in *.
  destruct (outcome_page k1 (g_owned g) va n pr rs' B' ps' (hi_roots _ _ Hi) Hnone Hva Hoc) as [HB Hroot].
  destruct (unowned_apart k g va Hi Hnone) as [Hpage Hbig]. destruct Hoc as [O1 _ O3 _ _ _ O7].
  destruct (Z.eqb_spec pr 0) as [->|Hpr].
  - destruct (kp_free_ok _ _ va 1 O1 HB) as (ps3 & Hfree & Hkp3).
    exists 0. do 2 eexists. split.
    { rewrite krun_unlock by done. rewrite (krun_free va ps3) by done. unfold kprint. krun. reflexivity. }
    split; [done|]. apply (refused_allocated _ _ _ _ (mk_gh (g_pages g) (g_big g) (delete va B'))); try done. split; [|done|done].
    by apply (heap_inv_lose k2 (mk_gh (g_pages g) (g_big g) B') false ps3).
  - destruct O7 as [?|[Hused Hfresh]]; [done|].
    destruct (added_page_allocated k2 (g_pages g) (g_big g) B' pr va t b z sz n) as (p & k' & g' & Hrun & Hl' & [T1 T2 T3]); try done.
    { intros (y & E & Hy)%list_elem_of_fmap. apply Hfresh. rewrite E. by apply (hi_used _ _ Hi1). }
    exists p, k', g'. split; [exact Hrun|]. split; [|by split]. apply (lost_weaken n); [destruct (p =? 0); lia|done].
Qed.

Lemma subpage_kmalloc_allocates k g sz n :
  heap_ok k g -> 0 <= sz <= LARGEST_SUBPAGE_SIZE -> 0 <= n < 255 -> lost_at_most n (kheaproots k) ->
  exists p k' g', subpage_kmalloc sz k = inr (p, k') /\ lost_at_most (if p =? 0 then n + 1 else n) (kheaproots k') /\ allocated k g sz p k' g'.
Proof.
  intros [Hi Hl Hpart] Hsz Hn Hlost. unfold subpage_kmalloc.
  destruct (blocktype_run sz k Hsz) as (t & z & Hbt & Ht & Hz & Hle). rewrite (kbind_inr _ _ _ _ _ Hbt), krun_lock by done.
  set (k1 := set_locked true k). assert (heap_inv k1 g) as Hi1 by (by apply heap_inv_locked).
  destruct (partial_search k1 g t Hi1 Ht) as (b & Hb & Hs).
  rewrite (kbind_inr _ _ _ b k1) by (cbn; unfold kderef; cbn; change (sizebases k1) with (sizebases k) in *; by rewrite Hb).
  destruct Hs as [Hs|(h & Hh & Eh & Hfr & Hnz & Hs)]; rewrite (kbind_inr _ _ _ _ _ Hs).
  - cbn [Z.eqb negb]. rewrite krun_unlock by done. assert (set_locked false k1 = k) as -> by (by destruct k; cbn in *; subst).
    by apply (fresh_page_allocated k g t b z sz n).
  - apply Z.eqb_neq in Hnz as ->. cbn [negb]. destruct (list_elem_of_split _ _ Hh) as (l1 & l2 & E).
    destruct (take_allocated k1 g l1 h l2 sz n Hi1 eq_refl E Hfr) as (p & k' & g' & Hrun & Hl' & Hal).
    + unfold hp_size. rewrite Eh, Hz. done.
    + intros y Hy. apply Hpart. rewrite E. apply elem_of_app in Hy as [Hy|Hy]; apply elem_of_app; [by left|right; by apply elem_of_cons; right].
    + done.
    + exists p, k', g'. split; [exact Hrun|]. split; [|by destruct Hal; split]. apply (lost_weaken n); [destruct (p =? 0); lia|done].
Qed.

Lemma big_allocated k g np sz n :
  heap_ok k g -> 1 <= np < 2^19 -> sz <= np * PAGE_SIZE -> 0 <= n -> lost_at_most n (kheaproots k) ->
  exists p k' g', (address <- alloc_pages np ;;
      if address =? 0 then kret 0 else
      KASSERT (address mod PAGE_SIZE =? 0) "address % PAGE_SIZE == 0" ;; kret address)%km k = inr (p, k') /\
    lost_at_most (if p =? 0 then n + 1 else n) (kheaproots k') /\ allocated k g sz p k' g'.
Proof.
  intros [Hi Hl Hpart] Hnp Hsz Hn Hlost.
  assert (forall p, lost_at_most (if p =? 0 then n + 1 else n) (kheaproots k)) as Hlost'
    by (intros p; apply (lost_weaken n); [destruct (p =? 0); lia|done]).
  destruct (kp_alloc_ok _ _ np (hi_kp _ _ Hi) Hnp) as (va & ps & Hal & Hout). rewrite (krun_alloc np va ps) by done.
  destruct Hout as [[-> Hkp]|(Hva & Hnone & Hkp)].
  { exists 0. do 2 eexists. split; [reflexivity|]. split; [done|].
    apply (refused_allocated _ _ _ _ (mk_gh (g_pages g) (g_big g) (g_owned g))); try done. split; [|done|done].
    apply (heap_inv_owned k g (k_locked k) ps (k_log k)); [done|done|apply Hi|apply Hi|]. intros a y Ha. by apply Hi. }
  destruct (Z.eqb_spec va 0); [done|]. destruct (kp_block _ _ va np Hkp (lookup_insert_eq _ _ _)) as (K1 & _).
  rewrite krun_KASSERT by (by apply Z.eqb_eq). destruct (unowned_apart k g va Hi Hnone) as [Hpage Hbig].
  exists va, (set_pages ps k), (mk_gh (g_pages g) (<[va := np]> (g_big g)) (<[va := np]> (g_owned g))).
  split; [reflexivity|]. split; [done|]. split; [split; [|done|done]|done|right].
  - destruct (heap_inv_gain k g (k_locked k) ps (k_log k) va np Hi Hnone Hkp) as [I1 I2 I3 I4 I5 I6 I7 I8 I9 I10 I11 I12].
    split; try done. cbn [g_big g_owned g_pages]. intros a y [[<- <-]|[Hne Ha]]%lookup_insert_Some; [|by apply I12].
    split_and!; [apply lookup_insert_eq|done|]. intros r x Hx E. destruct (decide (r_page x = 0)); [congruence|].
    pose proof (rk_owned _ _ (hi_roots _ _ Hi) r x Hx ltac:(done)). congruence.
  - split; [done|]. split; [unfold PAGE_SIZE in *; lia|]. exists (np * PAGE_SIZE). split; [done|]. split.
    + intros a y. unfold live. cbn [g_pages g_big]. setoid_rewrite lookup_insert_Some. split.
      * intros [?|(m & [[<- <-]|[Hne Ha]] & ->)]; [by left; left|by right|left; right; eauto].
      * intros [[?|(m & Ha & ->)]|[-> ->]]; [by left| |right; eauto]. right. exists m. split; [|done]. right. split; [congruence|done].
    + intros a y Ha. by apply (live_fresh k g a y va np Hi Ha Hnone ps).
Qed.

Lemma kmalloc_allocates k g sz n :
  heap_ok k g -> 0 <= sz <= 2^31 - PAGE_SIZE -> 0 <= n < 255 -> lost_at_most n (kheaproots k) ->
  exists p k' g', kmalloc sz k = inr (p, k') /\ lost_at_most (if p =? 0 then n + 1 else n) (kheaproots k') /\ allocated k g sz p k' g'.
Proof.
  intros Hok Hsz Hn Hlost. unfold kmalloc. destruct (Z.leb_spec LARGEST_SUBPAGE_SIZE sz) as [Hbig|Hsmall].
  - unfold LARGEST_SUBPAGE_SIZE, PAGE_SIZE in *. cbv zeta. rewrite u32_small by (unfold is_u32; lia).
    apply big_allocated; [done|lia|unfold PAGE_SIZE; lia|lia|done].
  - apply subpage_kmalloc_allocates; [done|unfold LARGEST_SUBPAGE_SIZE in *; lia|done|done].
Qed.
End alloc.
