(* ===== verification/KMallocFree.v ===== *)
(** * Giving blocks back to the kernel heap

    [kfree] of [kmalloc.c]: a block returns to the free list of its page, and
    a page whose blocks are all free leaves the lists and goes back to the
    page allocator. *)

From S2P Require Import Prelude State Monad Bitmap KMalloc KMallocRefs KMallocSpec KMallocAlloc.
#[local] Open Scope km_scope.

Section free.
Context {PS : Type} {KP : KPages PS} {KL : KPagesLaws PS}.
Implicit Types (k : kheap_st PS) (g : ghost).

(** ** Removing a page from the lists *)

(** The link that points to the element after [l]. *)
Fixpoint last_link (next : Z -> link) (guy : link) (l : list Z) : link :=
  match l with [] => guy | c :: l' => last_link next (next c) l' end.

Lemma last_link_snoc next guy l c : last_link next guy (l ++ [c]) = next c.
Proof. revert guy. induction l as [|x l IH]; intros guy; [done|]. apply IH. Qed.

Lemma remove_from_run d next fuel guy k base l1 pr l2 :
  (forall c, read_link (next c) k = inr (k_words k (c + d), k)) ->
  read_link guy k = inr (base, k) -> chain d (k_words k) base (l1 ++ pr :: l2) -> (pr ∉ l1) -> (length l1 < fuel)%nat ->
  remove_from fuel next guy pr k = write_link (last_link next guy l1) (k_words k (pr + d)) k.
Proof.
  intros Hnext. revert fuel guy base. induction l1 as [|c l1 IH]; intros fuel guy base Hg Hc Hn Hf;
    (destruct fuel as [|fuel]; [cbn in Hf; lia|]); cbn [remove_from last_link]; rewrite (kbind_inr _ _ _ _ _ Hg); cbn in Hc.
  - destruct Hc as (-> & Hnz & _). apply Z.eqb_neq in Hnz as ->. rewrite Z.eqb_refl. by rewrite (kbind_inr _ _ _ _ _ (Hnext pr)).
  - destruct Hc as (-> & Hnz & Hc). apply not_elem_of_cons in Hn as [Hne Hn]. apply Z.eqb_neq in Hnz as ->.
    rewrite (proj2 (Z.eqb_neq c pr)) by done. apply (IH fuel (next c) (k_words k (c + d))); [done|done|done|cbn in Hf; lia].
Qed.

Lemma of_type_middle t l1 h l2 : hp_type h = t -> of_type t (l1 ++ h :: l2) = of_type t l1 ++ h :: of_type t l2.
Proof. intros E. unfold of_type. by rewrite filter_app, filter_cons, decide_True. Qed.

Lemma of_type_drop t l1 h l2 : hp_type h <> t -> of_type t (l1 ++ h :: l2) = of_type t (l1 ++ l2).
Proof. intros E. unfold of_type. by rewrite !filter_app, filter_cons, decide_False. Qed.

Lemma of_type_app t l1 l2 : of_type t (l1 ++ l2) = of_type t l1 ++ of_type t l2.
Proof. apply filter_app. Qed.

(** The words that may change are the links of the remaining descriptors. *)
Definition only_links (d : Z) (l : list hpage) (m m' : words) : Prop :=
  forall x, (forall y, y ∈ l -> x <> hp_ref y + d) -> m' x = m x.

(** Distinct descriptors are distinct at every offset below 16. *)
Lemma refs_apart k g y y' d d' :
  heap_inv k g -> y ∈ g_pages g -> y' ∈ g_pages g -> 0 <= d < 16 -> 0 <= d' < 16 -> hp_ref y + d = hp_ref y' + d' -> d = d'.
Proof.
  intros Hi Hy Hy' Hd Hd' E. destruct (Z.eq_dec (hp_ref y) (hp_ref y')); [lia|].
  pose proof (ref_disjoint k g y y' Hi Hy Hy' ltac:(done)). lia.
Qed.

Lemma remove_same k g l1 h l2 :
  heap_inv k g -> g_pages g = l1 ++ h :: l2 ->
  exists sb' m', remove_from list_fuel NextSamesize (SizeBase (hp_type h)) (hp_ref h) k =
      inr (tt, mk_kheap (kheaproots k) sb' (allbase k) m' (k_locked k) (k_pages k) (k_log k)) /\
    zlen sb' = zlen (sizebases k) /\ only_links 0 (l1 ++ l2) (k_words k) m' /\
    (forall t b, zlookup sb' t = Some b -> chain 0 m' b (hp_ref <$> of_type t (l1 ++ l2))).
Proof.
  intros Hi E. set (t := hp_type h). assert (h ∈ g_pages g) as Hh by (rewrite E; set_solver).
  destruct (zlookup_in_range (sizebases k) t) as [b Hb]; [rewrite (hi_bases _ _ Hi); apply (hi_pages _ _ Hi h Hh)|].
  pose proof (hi_same _ _ Hi t b Hb) as Hc. rewrite E, (of_type_middle t) in Hc by done.
  rewrite fmap_app, fmap_cons in Hc. pose proof (hi_refs _ _ Hi) as Hnd. rewrite E in Hnd.
  assert (NoDup (hp_ref <$> of_type t (l1 ++ h :: l2))) as Hndt.
  { by apply fmap_filter_nodup. }
  rewrite of_type_middle, fmap_app, fmap_cons in Hndt by done.
  assert (Hrun : remove_from list_fuel NextSamesize (SizeBase t) (hp_ref h) k =
    write_link (last_link NextSamesize (SizeBase t) (hp_ref <$> of_type t l1)) (k_words k (hp_ref h + 0)) k).
  { apply (remove_from_run 0 _ _ _ _ b _ _ (hp_ref <$> of_type t l2)); [|by cbn; unfold kderef; rewrite Hb|done| |].
    - intros c. cbn. by rewrite Z.add_0_r.
    - intros Hin. apply NoDup_app in Hndt as (_ & Hd & _). apply (Hd _ Hin). set_solver.
    - rewrite length_fmap. pose proof (pages_bounded k g Hi) as Hf. rewrite E, length_app in Hf.
      pose proof (of_type_length t l1). lia. }
  assert (forall t' b', t' <> t -> zlookup (sizebases k) t' = Some b' -> chain 0 (k_words k) b' (hp_ref <$> of_type t' (l1 ++ l2))) as Hother.
  { intros t' b' Ht' Hb'. pose proof (hi_same _ _ Hi t' b' Hb') as H. rewrite E, of_type_drop in H by (by intros ?). done. }
  pose proof (zlookup_Some_range _ _ _ Hb) as Hr.
  destruct (of_type t l1) as [|c l0 _] eqn:El using rev_ind.
  - exists (zinsert t (k_words k (hp_ref h + 0)) (sizebases k)), (k_words k).
    split; [exact Hrun|]. split; [by rewrite zlen_zinsert|]. split; [done|]. intros t' b'. rewrite zlookup_zinsert by done.
    case_decide as Et; [subst t'; intros [= <-]|by apply Hother]. cbn in Hc. rewrite of_type_app, El. by destruct Hc as (_ & _ & Hc).
  - rewrite fmap_app in Hrun, Hc, Hndt. cbn [fmap list_fmap] in Hrun. rewrite last_link_snoc in Hrun.
    rewrite <- (assoc_L (++)) in Hc, Hndt. cbn [app fmap list_fmap] in Hc, Hndt.
    pose proof (chain_unlink 0 _ _ _ _ _ _ Hndt Hc) as Hnew. rewrite Z.add_0_r in Hnew.
    assert (c ∈ l1) as Hcl by (apply (of_type_elem t); rewrite El; apply elem_mid).
    eexists (sizebases k), _. split; [exact Hrun|]. split; [done|]. split.
    + intros x Hx. apply poke_ne. intros ->. apply (Hx c); [apply elem_of_app; by left|lia].
    + intros t' b' Hb'. destruct (Z.eq_dec t' t) as [->|Ht'].
      * rewrite Hb in Hb'. injection Hb' as <-. rewrite of_type_app, El, fmap_app, fmap_app. cbn [fmap list_fmap].
        rewrite <- (assoc_L (++)). exact Hnew.
      * eapply chain_ext; [|by apply Hother]. intros x (y & -> & Hy)%list_elem_of_fmap. apply poke_ne. rewrite Z.add_0_r. intros Er.
        apply of_type_elem in Hy as [Hy Ey]. assert (c ∈ of_type t l1) as Hct by (rewrite El; apply elem_mid).
        apply of_type_elem in Hct as [_ Ec].
        assert (y = c) as ->; [|congruence].
        apply (fmap_unique hp_ref (g_pages g)); [apply Hi| | |done]; rewrite E; apply elem_rest; [done|apply elem_of_app; by left].
Qed.

Lemma remove_all k l1 h l2 :
  chain 4 (k_words k) (allbase k) (hp_ref <$> (l1 ++ h :: l2)) -> NoDup (hp_ref <$> (l1 ++ h :: l2)) ->
  (length (l1 ++ h :: l2) < list_fuel)%nat ->
  exists ab' m', remove_from list_fuel NextAll AllBase (hp_ref h) k =
      inr (tt, mk_kheap (kheaproots k) (sizebases k) ab' m' (k_locked k) (k_pages k) (k_log k)) /\
    only_links 4 (l1 ++ l2) (k_words k) m' /\ chain 4 m' ab' (hp_ref <$> (l1 ++ l2)).
Proof.
  intros Hc Hnd Hf. rewrite fmap_app, fmap_cons in Hc, Hnd.
  assert (Hrun : remove_from list_fuel NextAll AllBase (hp_ref h) k =
    write_link (last_link NextAll AllBase (hp_ref <$> l1)) (k_words k (hp_ref h + 4)) k).
  { apply (remove_from_run 4 _ _ _ _ (allbase k) _ _ (hp_ref <$> l2)); [done|done|done| |].
    - intros Hin. apply NoDup_app in Hnd as (_ & Hd & _). apply (Hd _ Hin). apply elem_of_cons. by left.
    - rewrite length_fmap. rewrite length_app in Hf. lia. }
  destruct l1 as [|c l0 _] using rev_ind.
  - exists (k_words k (hp_ref h + 4)), (k_words k). split; [exact Hrun|]. split; [done|]. by destruct Hc as (_ & _ & Hc).
  - rewrite fmap_app in Hrun, Hc, Hnd. cbn [fmap list_fmap] in Hrun. rewrite last_link_snoc in Hrun.
    rewrite <- (assoc_L (++)) in Hc, Hnd. cbn [app fmap list_fmap] in Hc, Hnd.
    pose proof (chain_unlink 4 _ _ _ _ _ _ Hnd Hc) as Hnew.
    exists (allbase k), (poke (hp_ref c + 4) (k_words k (hp_ref h + 4)) (k_words k)). split; [exact Hrun|]. split.
    + intros x Hx. apply poke_ne. apply Hx. rewrite <- (assoc_L (++)). apply elem_mid.
    + rewrite !fmap_app, <- (assoc_L (++)). exact Hnew.
Qed.

Lemma remove_lists_run k g l1 h l2 :
  heap_inv k g -> g_pages g = l1 ++ h :: l2 ->
  exists k', remove_lists (hp_ref h) (hp_type h) k = inr (tt, k') /\ heap_inv k' (with_pages (l1 ++ l2) g) /\
    kheaproots k' = kheaproots k /\ k_locked k' = k_locked k /\ k_pages k' = k_pages k /\ k_log k' = k_log k /\
    (forall x, (forall y, y ∈ l1 ++ l2 -> x <> hp_ref y /\ x <> hp_ref y + 4) -> k_words k' x = k_words k x).
Proof.
  intros Hi E. assert (h ∈ g_pages g) as Hh by (rewrite E; apply elem_mid). unfold remove_lists.
  destruct (pk_type _ _ (hi_pages _ _ Hi h Hh)) as [T1 T2].
  rewrite krun_KASSERT by (apply andb_true_iff; by rewrite Z.leb_le, Z.ltb_lt).
  assert (forall y, y ∈ l1 ++ l2 -> y ∈ g_pages g) as Hsub by (intros y Hy; rewrite E; by apply elem_rest).
  destruct (remove_same k g l1 h l2 Hi E) as (sb' & m1 & Hrun1 & S1 & S2 & S3). rewrite (kbind_inr _ _ _ _ _ Hrun1).
  set (k1 := mk_kheap _ _ _ _ _ _ _).
  assert (forall y d, y ∈ g_pages g -> 0 < d < 16 -> m1 (hp_ref y + d) = k_words k (hp_ref y + d)) as Hm1.
  { intros y d Hy Hd. apply S2. intros y' Hy' Er. pose proof (refs_apart k g y y' d 0 Hi Hy (Hsub y' Hy') ltac:(lia) ltac:(lia) Er). lia. }
  destruct (remove_all k1 l1 h l2) as (ab' & m2 & Hrun2 & A1 & A2).
  { rewrite <- E. eapply chain_ext; [|apply (hi_all _ _ Hi)]. intros x (y & -> & Hy)%list_elem_of_fmap. by apply Hm1. }
  { rewrite <- E. apply Hi. }
  { rewrite <- E. by apply (pages_bounded k). }
  exists (mk_kheap (kheaproots k) sb' ab' m2 (k_locked k) (k_pages k) (k_log k)). split; [exact Hrun2|].
  assert (forall x, (forall y, y ∈ l1 ++ l2 -> x <> hp_ref y /\ x <> hp_ref y + 4) -> m2 x = k_words k x) as Hm2.
  { intros x Hx. rewrite A1 by (intros y Hy; by apply Hx). apply S2. intros y Hy. rewrite Z.add_0_r. by apply Hx. }
  assert (forall y d, y ∈ g_pages g -> 0 <= d < 16 -> d <> 4 -> m2 (hp_ref y + d) = m1 (hp_ref y + d)) as Hm21.
  { intros y d Hy Hd Hd4. apply A1. intros y' Hy' Er. by pose proof (refs_apart k g y y' d 4 Hi Hy (Hsub y' Hy') Hd ltac:(lia) Er). }
  split; [|done]. pose proof Hi as [I1 I2 I3 I4 I5 I6 I7 I8 I9 I10 I11 I12].
  assert (forall f : hpage -> Z, NoDup (f <$> g_pages g) -> NoDup (f <$> (l1 ++ l2))) as Hnd.
  { intros f. rewrite E, !fmap_app, fmap_cons, (Permutation_app_comm (f <$> l1) (f h :: _)), <- app_comm_cons, NoDup_cons.
    intros [_ Hn]. by rewrite Permutation_app_comm. }
  split; cbn [k_pages kheaproots sizebases allbase k_words g_owned g_pages g_big with_pages]; try done.
  - by rewrite S1.
  - intros t b Hb. eapply chain_ext; [|by apply S3]. intros x (y & -> & [Hy _]%of_type_elem)%list_elem_of_fmap.
    apply Hm21; [by apply Hsub|lia|lia].
  - intros y Hy. eapply page_ok_ext; [|by apply I6, Hsub]. intros x Hx. apply Hm2. intros y' Hy'.
    pose proof (page_outside_ref k g y' y Hi (Hsub y' Hy') (Hsub y Hy)) as Hout. destruct Hx as [Hx|Hx]; [|lia].
    destruct (Z.eq_dec (hp_ref y) (hp_ref y')); [lia|].
    pose proof (ref_disjoint k g y y' Hi (Hsub y Hy) (Hsub y' Hy') ltac:(done)). lia.
  - by apply Hnd.
  - intros y Hy. by apply I8, Hsub.
  - by apply Hnd.
  - intros y Hy. by apply I10, Hsub.
  - intros y r x Hy. by apply I11, Hsub.
  - intros a n Ha. destruct (I12 a n Ha) as (J1 & J2 & J3). split_and!; [done| |done]. intros y Hy. by apply J2, Hsub.
Qed.

(** ** Giving a page back *)

Lemma release_page_run k g l1 h l2 :
  heap_inv k g -> k_locked k = true -> g_pages g = l1 ++ h :: l2 ->
  exists k', (remove_lists (hp_ref h) (hp_type h) ;; freepageref (hp_ref h) ;; unlock_heap ;; free_pages_at (hp_page h))%km k = inr (tt, k') /\
    heap_inv k' (mk_gh (l1 ++ l2) (g_big g) (delete (hp_page h) (g_owned g))) /\ k_locked k' = false /\
    (forall n, lost_at_most n (kheaproots k) -> lost_at_most n (kheaproots k')) /\
    (forall x, (forall y, y ∈ l1 ++ l2 -> x <> hp_ref y /\ x <> hp_ref y + 4) -> k_words k' x = k_words k x).
Proof.
  intros Hi Hl E. assert (h ∈ g_pages g) as Hh by (rewrite E; apply elem_mid).
  destruct (remove_lists_run k g l1 h l2 Hi E) as (k1 & Hrun1 & Hi1 & R1 & L1 & P1 & G1 & W1). rewrite (kbind_inr _ _ _ _ _ Hrun1).
  assert (ref_used (kheaproots k1) (hp_ref h)) as Hused by (rewrite R1; by apply Hi).
  destruct (freepageref_run (k_pages k1) (g_owned g) k1 (hp_ref h) (hi_kp _ _ Hi1) (hi_roots _ _ Hi1) Hused)
    as (rs' & Hrun2 & Hrs & Hu & Hlo & Hpg). rewrite (kbind_inr _ _ _ _ _ Hrun2).
  assert (heap_inv (set_roots rs' k1) (with_pages (l1 ++ l2) g)) as Hi2.
  { destruct Hi1 as [I1 I2 I3 I4 I5 I6 I7 I8 I9 I10 I11 I12]. split; try done.
    - intros y Hy. apply Hu. split; [by apply I8|]. by apply (refs_inj k g l1 h l2).
    - intros y r x Hy Hx. destruct (Hpg r x Hx) as (x0 & Hx0 & ->). by apply (I11 y r x0).
    - intros a n Ha. destruct (I12 a n Ha) as (J1 & J2 & J3). split_and!; [done|done|].
      intros r x Hx. destruct (Hpg r x Hx) as (x0 & Hx0 & ->). by apply (J3 r x0). }
  rewrite krun_unlock by (cbn; congruence).
  destruct (kp_free_ok _ _ (hp_page h) 1 (hi_kp _ _ Hi2) (hi_owned _ _ Hi h Hh)) as (ps & Hfree & Hkp).
  exists (set_pages ps (set_locked false (set_roots rs' k1))). split; [unfold free_pages_at; cbn [k_pages set_locked set_roots] in *; by rewrite Hfree|].
  split_and!; [|done| |exact W1].
  - apply (heap_inv_lose (set_roots rs' k1) (with_pages (l1 ++ l2) g) false ps (k_log k1) (hp_page h) Hi2 Hkp).
    + intros r x Hx. destruct (Hpg r x Hx) as (x0 & Hx0 & ->). rewrite R1 in Hx0. by apply (hi_apart _ _ Hi h r x0).
    + intros y Hy. by apply (refs_inj k g l1 h l2).
    + cbn. destruct (g_big g !! hp_page h) as [n|] eqn:Eb; [|done]. by destruct (hi_big _ _ Hi _ _ Eb) as (_ & J & _), (J h Hh).
  - intros n Hn. cbn. apply Hlo. by rewrite R1.
Qed.

(** ** A block returns to its page *)

Lemma fill_words_other n a m x : (x < a \/ a + 4 * Z.of_nat n <= x) -> fill_words n a m x = m x.
Proof.
  revert a m. induction n as [|n IH]; intros a m Hx; [done|]. cbn [fill_words]. rewrite IH by lia. apply poke_ne. lia.
Qed.

(** The words after the block at offset [o] is filled and linked. *)
Definition freed_words (h : hpage) (o : Z) (m : words) : words :=
  poke (hp_ref h + 12) (o * 65536 + (zlen (hp_free h) + 1))
    (poke (hp_page h + o) (match hp_free h with [] => 0 | o' :: _ => hp_page h + o' end)
      (fill_words (Z.to_nat (hp_size h / 4)) (hp_page h + o) m)).

Section block.
Context k g (l1 : list hpage) (h : hpage) (l2 : list hpage) (o : Z).
Hypotheses (Hi : heap_inv k g) (E : g_pages g = l1 ++ h :: l2) (Hbo : block_offset h o) (Hno : o ∉ hp_free h).

Lemma block_page : h ∈ g_pages g.
Proof. rewrite E. apply elem_mid. Qed.

Lemma freed_words_other x :
  x <> hp_ref h + 12 -> ~ (hp_page h + o <= x < hp_page h + o + hp_size h) -> freed_words h o (k_words k) x = k_words k x.
Proof.
  intros H1 H2. pose proof (pk_type _ _ (hi_pages _ _ Hi h block_page)) as Ht.
  destruct (hp_size_facts h Ht) as (_ & Hs & Hs16 & _). unfold freed_words.
  rewrite !poke_ne by lia. apply fill_words_other. lia.
Qed.

Lemma freed_page_ok : page_ok (freed_words h o (k_words k)) (with_free (o :: hp_free h) h).
Proof.
  pose proof (hi_pages _ _ Hi h block_page) as Hp. pose proof Hp as [Ht (A1 & A2 & A3) Hpab Hcnt Hnd Hbl Hlk].
  destruct (hp_size_facts h Ht) as (_ & Hs & Hs16 & Hb & Hn). pose proof (block_fits h o Ht Hbo) as Hfit.
  pose proof (page_outside_ref k g h h Hi block_page block_page) as Hout.
  assert (forall o', o' ∈ hp_free h -> freed_words h o (k_words k) (hp_page h + o') = k_words k (hp_page h + o')) as Hother.
  { intros o' Ho'. destruct (Hbl o' Ho') as [Q1 Q2]. apply freed_words_other; [lia|].
    assert (o' <> o) as Hne by (by intros ->). destruct Hbo as [B1 B2].
    pose proof (multiples_apart (hp_size h) o o' ltac:(lia) B2 Q2 ltac:(done)). lia. }
  split; cbn [with_free hp_ref hp_page hp_type hp_free]; try done.
  - rewrite freed_words_other by lia. done.
  - unfold freed_words. rewrite poke_eq. unfold zlen. cbn [length first_off]. lia.
  - by constructor.
  - intros o' [->|Ho']%elem_of_cons; [done|by apply Hbl].
  - cbn [links]. split; [|by apply (links_ext (k_words k))]. unfold freed_words. rewrite poke_ne by lia. by rewrite poke_eq.
Qed.

Lemma freed_inv : heap_inv (set_words (freed_words h o (k_words k)) k) (with_pages (l1 ++ with_free (o :: hp_free h) h :: l2) g).
Proof.
  apply heap_inv_update; [done|done|apply freed_page_ok|]. intros x Hx.
  pose proof (block_fits h o (pk_type _ _ (hi_pages _ _ Hi h block_page)) Hbo).
  apply freed_words_other; intros X; apply Hx; [left; lia|right; lia].
Qed.

(** The page is found again from the address. *)
Lemma find_page_block b :
  find_page list_fuel (allbase k) (hp_page h + o) (set_locked b k) = inr (hp_ref h, set_locked b k) /\ hp_ref h <> 0.
Proof.
  pose proof (block_fits h o (pk_type _ _ (hi_pages _ _ Hi h block_page)) Hbo) as [F1 F2].
  destruct (hp_size_facts h (pk_type _ _ (hi_pages _ _ Hi h block_page))) as (_ & Hs & _).
  destruct (find_page_run list_fuel (set_locked b k) (allbase k) (g_pages g) (hp_page h + o) (pages_bounded k g Hi) (hi_all _ _ Hi) (hi_pages _ _ Hi))
    as [[_ Hnone]|(h' & Hh' & Hr & Hrun & Hnz)].
  - destruct (Hnone h block_page). lia.
  - destruct (Z.eq_dec (hp_page h) (hp_page h')) as [Ep|Np].
    + by pose proof (page_unique k g h h' Hi block_page Hh' Ep) as ->.
    + pose proof (page_disjoint k g h h' Hi block_page Hh' Np). lia.
Qed.

(** [subpage_kfree] up to the decision on the page. *)
Lemma subpage_kfree_block :
  k_locked k = false ->
  subpage_kfree (hp_page h + o) k =
    ((if zlen (hp_free h) + 1 =? hp_blocks h then
        remove_lists (hp_ref h) (hp_type h) ;; freepageref (hp_ref h) ;; unlock_heap ;; free_pages_at (hp_page h)
      else unlock_heap) ;; kret 0)%km (set_words (freed_words h o (k_words k)) (set_locked true k)).
Proof.
  intros Hl. pose proof (hi_pages _ _ Hi h block_page) as Hp. destruct (peek_page _ _ Hp) as (P1 & P2 & P3 & P4).
  pose proof (free_bound _ _ freed_page_ok) as Hb. cbn [with_free hp_free] in Hb. change (hp_blocks (with_free _ h)) with (hp_blocks h) in Hb.
  destruct Hp as [Ht (A1 & A2 & A3) _ _ _ Hbl _]. destruct (hp_size_facts h Ht) as (Hz & Hs & _ & _ & Hn).
  pose proof (block_fits h o Ht Hbo) as [F1 F2]. destruct Hbo as [B1 B2]. destruct (find_page_block true) as [Hfind Hnz].
  unfold zlen in Hb. cbn [length] in Hb. assert (0 <= zlen (hp_free h)) as Hlen by (unfold zlen; lia).
  unfold subpage_kfree. rewrite krun_lock by done. unfold read_link at 1. rewrite krun_get. cbn [allbase set_locked].
  rewrite (kbind_inr _ _ _ _ _ Hfind). apply Z.eqb_neq in Hnz as ->. unfold get_pageref. rewrite krun_get. cbn [k_words set_locked].
  rewrite P1, P2, P3, P4. cbv zeta. rewrite Z.add_simpl_l, (u32_small o) by (unfold is_u32, PAGE_SIZE in *; lia).
  unfold size_at. rewrite (krun_deref _ _ (hp_size h)) by done.
  replace (PAGE_SIZE <=? o) with false by (symmetry; apply Z.leb_gt; lia). rewrite B2, Z.eqb_refl. cbn [negb orb].
  unfold fill_deadbeef. rewrite krun_modify. rewrite (Z.mod_small (zlen (hp_free h) + 1)) by (unfold zlen; lia).
  unfold freed_words. destruct (hp_free h) as [|o' fr] eqn:Ef.
  - cbn [first_off]. rewrite Z.eqb_refl. unfold write, write_counts. krun. cbn [k_words set_words set_locked].
    rewrite counts_ok by (unfold zlen, PAGE_SIZE in *; cbn; lia). rewrite krun_KASSERT by (apply Z.leb_le; unfold zlen; cbn [length]; fold (hp_blocks h); lia). done.
  - destruct (Hbl o' ltac:(apply elem_of_cons; by left)) as [Q1 Q2]. cbn [first_off].
    replace (o' =? INVALID_OFFSET) with false by (symmetry; apply Z.eqb_neq; unfold INVALID_OFFSET, PAGE_SIZE in *; lia).
    unfold write, write_counts. krun. rewrite krun_KASSERT.
    2:{ apply negb_true_iff, Z.eqb_neq. intros X. apply Hno. apply elem_of_cons. left. lia. }
    krun. cbn [k_words set_words set_locked]. rewrite counts_ok by (unfold zlen, PAGE_SIZE in *; cbn [length] in *; lia).
    rewrite krun_KASSERT by (apply Z.leb_le; unfold zlen; cbn [length] in *; fold (hp_blocks h); lia). done.
Qed.
End block.

(** ** [kfree] *)

(** The effect of giving back the block at [p]. *)
Record returned k g (p : Z) k' g' : Prop := {
  rt_ok : heap_ok k' g';
  rt_live : forall a z, live g' a z <-> live g a z /\ a <> p;
  rt_words : forall a z x, live g a z -> a <> p -> a <= x < a + z -> k_words k' x = k_words k x;
  rt_lost : forall n, lost_at_most n (kheaproots k) -> lost_at_most n (kheaproots k')
}.

Lemma live_release k g l1 h l2 o a z :
  heap_inv k g -> g_pages g = l1 ++ h :: l2 -> block_offset h o -> (o ∉ hp_free h) ->
  live (with_pages (l1 ++ with_free (o :: hp_free h) h :: l2) g) a z <-> live g a z /\ a <> hp_page h + o.
Proof.
  intros Hi E Hbo Hno. assert (h ∈ g_pages g) as Hh by (rewrite E; apply elem_mid).
  pose proof (freed_inv k g l1 h l2 o Hi E Hbo Hno) as Hi'.
  pose proof (live_take _ _ l1 (with_free (o :: hp_free h) h) l2 o (hp_free h) a z Hi' eq_refl eq_refl) as H.
  assert (with_pages (l1 ++ with_free (hp_free h) (with_free (o :: hp_free h) h) :: l2)
    (with_pages (l1 ++ with_free (o :: hp_free h) h :: l2) g) = g) as Eg by (destruct g; cbn in *; subst; by destruct h).
  rewrite Eg in H. rewrite H. split; [|tauto]. intros Hl. split; [by left|]. intros ->. 
  apply (free_not_live _ _ (with_free (o :: hp_free h) h) o z Hi'); [apply elem_mid|apply elem_of_cons; by left|done].
Qed.

(** Removing a page without allocated blocks. *)
Lemma live_drop g l1 h l2 B a z :
  g_pages g = l1 ++ h :: l2 -> (forall o, block_offset h o -> o ∈ hp_free h) ->
  live (mk_gh (l1 ++ l2) (g_big g) B) a z <-> live g a z.
Proof.
  intros E Hall. unfold live. cbn [g_pages g_big]. rewrite E.
  split; (intros [(y & o & Hy & Hbo & Hf & -> & ->)|Hbig]; [left|by right]).
  - exists y, o. split; [by apply elem_rest|done].
  - exists y, o. split; [|done]. apply elem_of_app in Hy. rewrite elem_of_cons in Hy. apply elem_of_app.
    destruct Hy as [Hy|[->|Hy]]; [by left| |by right]. destruct Hf. by apply Hall.
Qed.

(** All the blocks of a page are free when their number says so. *)
Lemma all_free m h : page_ok m h -> zlen (hp_free h) = hp_blocks h -> forall o, block_offset h o -> o ∈ hp_free h.
Proof.
  intros Hp Hz o Hbo. destruct (decide (o ∈ hp_free h)) as [|Hno]; [done|exfalso].
  destruct (hp_size_facts h (pk_type _ _ Hp)) as (_ & Hs & _ & Hb & Hn).
  assert (o :: hp_free h ⊆+ all_blocks (Z.to_nat (hp_blocks h)) (hp_size h)) as Hsub.
  { apply NoDup_submseteq; [constructor; [done|apply Hp]|]. intros o' Ho'.
    assert (block_offset h o') as [B1 B2] by (apply elem_of_cons in Ho' as [->|?]; [done|by apply Hp]).
    apply elem_of_all_blocks. exists (o' / hp_size h). pose proof (Z.div_mod o' (hp_size h)).
    assert (o' / hp_size h < hp_blocks h) by (apply Z.div_lt_upper_bound; lia).
    assert (0 <= o' / hp_size h) by (apply Z.div_pos; lia). lia. }
  apply submseteq_length in Hsub. pose proof (all_blocks_length (Z.to_nat (hp_blocks h)) (hp_size h)).
  unfold zlen in *. cbn [length] in Hsub. lia.
Qed.

Lemma kfree_block k g l1 h l2 o :
  heap_ok k g -> g_pages g = l1 ++ h :: l2 -> block_offset h o -> (o ∉ hp_free h) ->
  exists k' g', subpage_kfree (hp_page h + o) k = inr (0, k') /\ returned k g (hp_page h + o) k' g'.
Proof.
  intros [Hi Hl Hpart] E Hbo Hno. assert (h ∈ g_pages g) as Hh by (rewrite E; apply elem_mid).
  rewrite (subpage_kfree_block k g l1 h l2 o Hi E Hbo Hno Hl).
  pose proof (freed_inv k g l1 h l2 o Hi E Hbo Hno) as Hi1. pose proof (freed_page_ok k g l1 h l2 o Hi E Hbo Hno) as Hp1.
  set (h1 := with_free (o :: hp_free h) h) in *. set (m1 := freed_words h o (k_words k)) in *.
  assert (forall a z x, live g a z -> a <> hp_page h + o -> a <= x < a + z -> m1 x = k_words k x) as Hw.
  { intros a z x Ha Hne Hx. apply (freed_words_other k g l1 h l2 o Hi E).
    - intros ->. apply (live_not_ref k g a z (hp_ref h) _ Hi Ha (hi_used _ _ Hi h Hh) Hx). lia.
    - destruct (live_block_apart k g a z h o Hi Ha Hh Hbo Hne); lia. }
  assert (forall a z, live (with_pages (l1 ++ h1 :: l2) g) a z <-> live g a z /\ a <> hp_page h + o) as Hlive
    by (intros; by apply (live_release k g)).
  assert (forall y, y ∈ l1 ++ l2 -> zlen (hp_free y) < hp_blocks y) as Hpart'
    by (intros y Hy; apply Hpart; rewrite E; by apply elem_rest).
  destruct (Z.eqb_spec (zlen (hp_free h) + 1) (hp_blocks h)) as [Hfull|Hfull].
  - destruct (release_page_run (set_words m1 (set_locked true k)) (with_pages (l1 ++ h1 :: l2) g) l1 h1 l2)
      as (k' & Hrun & Hi' & Hl' & Hlost & Hw'); [by apply (heap_inv_locked (set_words m1 k))|done|done|].
    rewrite (kbind_inr _ _ _ _ _ Hrun). do 2 eexists. split; [reflexivity|]. split.
    + split; [exact Hi'|done|exact Hpart'].
    + intros a z. rewrite <- Hlive. apply (live_drop (with_pages (l1 ++ h1 :: l2) g) l1 h1 l2); [done|].
      apply (all_free m1); [done|]. unfold h1, zlen in *. cbn [with_free hp_free length]. change (hp_blocks (with_free _ h)) with (hp_blocks h). lia.
    + intros a z x Ha Hne Hx. rewrite <- (Hw a z x Ha Hne Hx). apply Hw'. intros y Hy.
      assert (y ∈ g_pages g) as Hyg by (rewrite E; by apply elem_rest).
      pose proof (live_not_ref k g a z (hp_ref y) x Hi Ha (hi_used _ _ Hi y Hyg) Hx). lia.
    + exact Hlost.
  - rewrite krun_unlock by done. eexists _, (with_pages (l1 ++ h1 :: l2) g). split; [reflexivity|]. split.
    + split; [by apply (heap_inv_locked (set_words m1 k))|done|]. intros y Hy. cbn [g_pages with_pages] in Hy.
      apply elem_of_app in Hy. rewrite elem_of_cons in Hy. destruct Hy as [Hy|[->|Hy]]; [apply Hpart', elem_of_app; by left| |apply Hpart', elem_of_app; by right].
      pose proof (free_bound _ _ Hp1) as Hb. unfold h1, zlen in *. cbn [with_free hp_free length] in *.
      change (hp_blocks (with_free _ h)) with (hp_blocks h) in *. lia.
    + exact Hlive.
    + exact Hw.
    + done.
Qed.

(** A large block goes straight back to the page allocator. *)
Lemma kfree_big k g p n :
  heap_ok k g -> g_big g !! p = Some n ->
  exists k' g', (r <- subpage_kfree p ;;
      if negb (r =? 0) then KASSERT (p mod PAGE_SIZE =? 0) "(vaddr_t)ptr%PAGE_SIZE==0" ;; free_pages_at p else kret tt)%km k = inr (tt, k') /\
    returned k g p k' g'.
Proof.
  intros [Hi Hl Hpart] Hbig. destruct (hi_big _ _ Hi p n Hbig) as (J1 & J2 & J3).
  destruct (kp_block _ _ _ _ (hi_kp _ _ Hi) J1) as (K1 & K2 & K3 & K4).
  unfold subpage_kfree. krun. rewrite krun_lock by done. unfold read_link at 1. krun. cbn [allbase set_locked].
  destruct (find_page_run list_fuel (set_locked true k) (allbase k) (g_pages g) p (pages_bounded k g Hi) (hi_all _ _ Hi) (hi_pages _ _ Hi))
    as [[Hf _]|(h & Hh & Hr & _)].
  2:{ pose proof (kp_apart _ _ _ _ _ _ (hi_kp _ _ Hi) (hi_owned _ _ Hi h Hh) J1 (J2 h Hh)). unfold PAGE_SIZE in *. lia. }
  rewrite (kbind_inr _ _ _ _ _ Hf). cbn [Z.eqb]. krun. rewrite krun_unlock by done. krun. cbn [Z.eqb negb].
  rewrite krun_KASSERT by (by apply Z.eqb_eq).
  destruct (kp_free_ok _ _ p n (hi_kp _ _ Hi) J1) as (ps & Hfree & Hkp).
  exists (set_pages ps (set_locked false (set_locked true k))), (mk_gh (g_pages g) (delete p (g_big g)) (delete p (g_owned g))).
  split; [unfold free_pages_at; cbn [k_pages set_locked]; by rewrite Hfree|]. split; [split; [|done|done]| |done|done].
  - assert (heap_inv k (mk_gh (g_pages g) (delete p (g_big g)) (g_owned g))) as Hi1.
    { destruct Hi as [I1 I2 I3 I4 I5 I6 I7 I8 I9 I10 I11 I12]. split; try done. cbn [g_big]. intros a y [_ Ha]%lookup_delete_Some. by apply I12. }
    apply (heap_inv_lose k (mk_gh (g_pages g) (delete p (g_big g)) (g_owned g)) false ps (k_log k) p Hi1 Hkp J3 J2). apply lookup_delete_eq.
  - intros a z. unfold live. cbn [g_pages g_big]. setoid_rewrite lookup_delete_Some. split.
    + intros [(h & o & Hh & Hbo & Hno & -> & ->)|(np & [Hne Hnp] & ->)]; [|split; [right; eauto|congruence]].
      split; [left; by exists h, o|]. intros Ep. pose proof (block_fits h o (pk_type _ _ (hi_pages _ _ Hi h Hh)) Hbo) as [F1 F2].
      destruct Hbo as [B1 _].
      pose proof (kp_apart _ _ _ _ _ _ (hi_kp _ _ Hi) (hi_owned _ _ Hi h Hh) J1 (J2 h Hh)). unfold PAGE_SIZE in *. lia.
    + intros [[?|(np & Hnp & ->)] Hne]; [by left|]. right. exists np. by split; [split|].
Qed.

Lemma kfree_returns k g p z :
  heap_ok k g -> live g p z ->
  exists k' g', kfree p k = inr (tt, k') /\ returned k g p k' g'.
Proof.
  intros Hok Hlive. pose proof (ho_inv _ _ Hok) as Hi.
  destruct (live_place k g p z Hi Hlive) as (b & n & Hb & Hle & _ & _ & Hroot & Hkind).
  assert (p <> 0) as Hp0 by (destruct (kp_block _ _ _ _ (hi_kp _ _ Hi) Hb) as (_ & K & _); unfold MIPS_KSEG0 in *; lia).
  unfold kfree. apply Z.eqb_neq in Hp0 as ->. destruct Hkind as [(h & o & Hh & -> & Hbo & Hno & -> & ->)|[Hbig ->]].
  - destruct (list_elem_of_split _ _ Hh) as (l1 & l2 & E). destruct (kfree_block k g l1 h l2 o Hok E Hbo Hno) as (k' & g' & Hrun & Hret).
    rewrite (kbind_inr _ _ _ _ _ Hrun). cbn [Z.eqb negb]. by exists k', g'.
  - by apply (kfree_big k g b n).
Qed.
End free.
