(* ===== verification/KMallocPages.v ===== *)
(** * The kernel heap on the coremap

    The coremap discharges the interface the heap relies on, so the theorems
    about [kmalloc] and [kfree] hold of the heap that takes its pages from
    [alloc_kpages] and [free_kpages]; the heap at boot is consistent; and a
    run that shows what happens to descriptors that are never given back. *)

From S2P Require Import Prelude State Monad Machine Testbed Bitmap Ram Coremap CoremapSpec KernelPages.
From S2P Require Import KMalloc KMallocRefs KMallocSpec KMallocAlloc KMallocFree.

(** ** The coremap as page allocator *)

Section coremap_pages.
Context {FS : Type}.
Implicit Types s : kstate FS.

Definition of_res {A} (r : res FS A) : stop_reason + (A * kstate FS) :=
  match r with Ok a s => inr (a, s) | Stop e => inl e end.

#[export] Instance coremap_kpages : KPages (kstate FS) := {
  kp_alloc n s := of_res (alloc_kpages n s);
  kp_free va s := match free_kpages va s with Ok _ s' => inr s' | Stop e => inl e end
}.

(** The [n] frames from [b] on are a kernel block. *)
Record kernel_frames (cm : list coremap_entry) (b n : Z) : Prop := {
  kf_range : 0 < b /\ 1 <= n /\ b + n <= zlen cm;
  kf_type : forall i, b <= i < b + n -> exists e, zlookup cm i = Some e /\ entry_type e = COREMAP_BUSY_KERNEL;
  kf_size : exists e, zlookup cm b = Some e /\ allocation_size e = n
}.

Definition block_va (b : Z) : Z := PADDR_TO_KVADDR (b * PAGE_SIZE).

Record coremap_inv s (B : gmap Z Z) : Prop := {
  ci_idle : idle s;
  ci_awake : t_in_interrupt (s_cpu s) = false;
  ci_frames : frames_wf (s_ram s) (s_cm s);
  ci_fifo : exists hp q, fifo hp (s_cm s) q;
  ci_blocks : forall va n, B !! va = Some n -> exists b, va = block_va b /\ kernel_frames (coremap (s_cm s)) b n;
  ci_apart : forall va n va' n', B !! va = Some n -> B !! va' = Some n' -> va <> va' ->
    va + n * PAGE_SIZE <= va' \/ va' + n' * PAGE_SIZE <= va
}.

Lemma block_va_small b : 0 <= b <= 2^17 -> block_va b = MIPS_KSEG0 + b * PAGE_SIZE.
Proof. intros Hb. unfold block_va, PADDR_TO_KVADDR. rewrite u32_small; unfold is_u32, MIPS_KSEG0, PAGE_SIZE in *; lia. Qed.

Lemma kernel_frames_bound s b n : frames_wf (s_ram s) (s_cm s) -> kernel_frames (coremap (s_cm s)) b n -> 0 < b /\ 1 <= n /\ b + n <= 2^17.
Proof.
  intros Hwf [Hr _ _]. pose proof (fw_total_range _ _ Hwf). rewrite (fw_len _ _ Hwf) in Hr. lia.
Qed.

Lemma kernel_frames_below s b n :
  frames_wf (s_ram s) (s_cm s) -> kernel_frames (coremap (s_cm s)) b n -> (b + n) * PAGE_SIZE <= firstpaddr (s_ram s).
Proof.
  intros Hwf [Hr Ht _]. destruct (Ht (b + n - 1)) as (e & He & Hty); [lia|].
  destruct (frames_wf_tracked _ _ _ _ Hwf He) as [_ Hlt]; [congruence|]. destruct (fw_ram _ _ Hwf). unfold PAGE_SIZE in *. lia.
Qed.

(** A change outside a block leaves it a block. *)
Lemma kernel_frames_ext cm cm' b n :
  zlen cm' = zlen cm -> (forall i, b <= i < b + n -> zlookup cm' i = zlookup cm i) -> kernel_frames cm b n -> kernel_frames cm' b n.
Proof.
  intros Hl Hext [H1 H2 H3]. split.
  - by rewrite Hl.
  - intros i Hi. rewrite Hext by done. by apply H2.
  - rewrite Hext by lia. done.
Qed.

(** Blocks by their first frame. *)
Lemma inv_block s B va n :
  coremap_inv s B -> B !! va = Some n ->
  exists b, va = MIPS_KSEG0 + b * PAGE_SIZE /\ va = block_va b /\ kernel_frames (coremap (s_cm s)) b n /\ 0 < b /\ 1 <= n /\ b + n <= 2^17.
Proof.
  intros Hi Hva. destruct (ci_blocks _ _ Hi va n Hva) as (b & E & Hk).
  pose proof (kernel_frames_bound s b n (ci_frames _ _ Hi) Hk). exists b. rewrite E. rewrite block_va_small at 1 by lia. done.
Qed.

Lemma coremap_alloc s B n :
  coremap_inv s B -> 1 <= n < 2^19 ->
  exists va s', kp_alloc n s = inr (va, s') /\
    ((va = 0 /\ coremap_inv s' B) \/ (va <> 0 /\ B !! va = None /\ coremap_inv s' (<[va := n]> B))).
Proof.
  intros Hi Hn. pose proof Hi as [I1 I2 I3 (hp & q & I4) I5 I6].
  destruct (alloc_kpages_run n s I1 I2 I3 Hn) as (addr & s' & Hrun & Ho). exists (if addr =? 0 then 0 else PADDR_TO_KVADDR addr), s'.
  split; [cbn; by rewrite Hrun|]. destruct (Z.eqb_spec addr 0) as [->|Hne].
  { left. split; [done|]. inversion Ho as [|b cm' _ Hk _ Hb|b cm' _ _ _ Hk Hb]; subst; [done|exfalso..];
      destruct (kb_range _ _ _ _ Hk); unfold PAGE_SIZE in *; lia. }
  right. destruct (kpages_outcome_block n hp q s addr s' Ho I3 I4 ltac:(lia) Hne) as (b & -> & Hk & Hwf & Hf & _ & Hs & Hh & _).
  pose proof (kb_range _ _ _ _ Hk) as Hr. pose proof (kb_len _ _ _ _ Hk) as Hl.
  assert (kernel_frames (coremap (s_cm s')) b n) as Hnew by (split; [lia|apply Hk|apply Hk]).
  pose proof (kernel_frames_bound s' b n Hwf Hnew) as Hb. fold (block_va b). pose proof (block_va_small b ltac:(lia)) as Eb.
  (* a block handed out before does not overlap the new one *)
  assert (forall b' n', kernel_frames (coremap (s_cm s)) b' n' -> b + n <= b' \/ b' + n' <= b) as Hdis.
  { intros b' n' [Q1 Q2 _]. destruct (decide (b + n <= b' \/ b' + n' <= b)) as [|Hov]; [done|exfalso].
    destruct (Q2 (Z.max b b')) as (e & He & Ht); [lia|]. destruct (kb_was _ _ _ _ Hk (Z.max b b') e ltac:(lia) He); congruence. }
  assert (forall va' n', B !! va' = Some n' -> block_va b + n * PAGE_SIZE <= va' \/ va' + n' * PAGE_SIZE <= block_va b) as Hap.
  { intros va' n' Hva'. destruct (inv_block s B va' n' Hi Hva') as (b' & -> & _ & Hk' & _). rewrite Eb.
    specialize (Hdis b' n' Hk'). unfold PAGE_SIZE in *. lia. }
  assert (B !! block_va b = None) as Hnone.
  { destruct (B !! block_va b) as [n'|] eqn:EB; [|done]. destruct (inv_block s B _ n' Hi EB) as (_ & _ & _ & _ & _ & Hn' & _).
    specialize (Hap _ _ EB). unfold PAGE_SIZE in *. lia. }
  split; [rewrite Eb; unfold MIPS_KSEG0, PAGE_SIZE; lia|]. split; [done|]. split.
  - unfold idle. by rewrite Hh.
  - by rewrite Hs.
  - done.
  - eauto.
  - intros va' n' [[<- <-]|[Hne' Hva']]%lookup_insert_Some; [by exists b|]. destruct (I5 va' n' Hva') as (b' & -> & Hk').
    exists b'. split; [done|]. eapply kernel_frames_ext; [exact Hl| |exact Hk']. intros i Hi'. apply (kb_frame _ _ _ _ Hk).
    specialize (Hdis b' n' Hk'). lia.
  - intros va1 n1 va2 n2 [[<- <-]|[N1 H1]]%lookup_insert_Some [[<- <-]|[N2 H2]]%lookup_insert_Some Hne';
      [done|by apply Hap|specialize (Hap _ _ H1); tauto|by apply I6].
Qed.

Lemma coremap_free s B va n :
  coremap_inv s B -> B !! va = Some n -> exists s', kp_free va s = inr s' /\ coremap_inv s' (delete va B).
Proof.
  intros Hi Hva. destruct (inv_block s B va n Hi Hva) as (b & E1 & E2 & Hk & Hb). pose proof Hi as [I1 I2 I3 (hp & q & I4) I5 I6].
  destruct Hk as [Q1 Q2 (e & He & Hsz)]. set (cm := coremap (s_cm s)) in *.
  assert (kernel_block b n (released b n cm) cm) as Hkb.
  { split.
    - by rewrite zlen_released.
    - rewrite zlen_released. lia.
    - done.
    - eauto.
    - intros i Hi'. by rewrite zlookup_released, decide_False by lia.
    - intros i e' Hi' He'. rewrite zlookup_released, decide_True in He' by lia. destruct (zlookup cm i); [|done].
      cbn in He'. injection He' as <-. left. by case_decide. }
  exists (upd_cm (released b n cm) s). split.
  { cbn. rewrite E2. unfold block_va.
    pose proof (free_kpages_run b n e s I1 I3 (proj1 Q1) (proj1 (proj2 Q1)) (proj2 (proj2 Q1)) He Hsz) as Hrun. by rewrite Hrun. }
  split; cbn [s_cm s_ram upd_cm set_cm coremap set_coremap s_cpu]; try done.
  - eapply released_wf; [done|exact Hkb|lia|]. by apply kernel_frames_below; [|split; eauto].
  - exists hp, q. eapply released_fifo; [exact Hkb|lia|done].
  - intros va' n' [Hne Hva']%lookup_delete_Some. destruct (inv_block s B va' n' Hi Hva') as (b' & E1' & E2' & Hk' & _).
    exists b'. split; [done|]. eapply kernel_frames_ext; [apply zlen_released| |exact Hk']. intros i Hi'.
    rewrite zlookup_released, decide_False; [done| |lia|lia]. specialize (I6 _ _ _ _ Hva Hva' Hne). unfold PAGE_SIZE in *. lia.
  - intros va1 n1 va2 n2 [_ H1]%lookup_delete_Some [_ H2]%lookup_delete_Some. by apply I6.
Qed.

#[export] Instance coremap_kpages_laws : KPagesLaws (kstate FS).
Proof.
  refine {| kp_inv := coremap_inv |}.
  - intros s B va n Hi Hva. destruct (inv_block s B va n Hi Hva) as (b & -> & _ & _ & Hb).
    unfold MIPS_KSEG0, PAGE_SIZE in *. lia.
  - intros s B va n va' n' Hi. apply (ci_apart _ _ Hi).
  - intros s B n. apply coremap_alloc.
  - intros s B va n. apply coremap_free.
Defined.
End coremap_pages.

(** ** The heap at boot *)

Definition empty_root : kheap_root := mk_root 0 (replicate 8 0) 0.

Section boot.
Context {PS : Type} {KP : KPages PS} {KL : KPagesLaws PS}.
Implicit Types (k : kheap_st PS) (held : gmap Z Z).

(** The static variables of [kmalloc.c]; [m] is the contents of memory. *)
Definition boot_heap (m : words) (ps : PS) : kheap_st PS :=
  mk_kheap (replicate 16 empty_root) (replicate 8 0) 0 m false ps [].

Lemma boot_root r x : zlookup (replicate 16 empty_root) r = Some x -> x = empty_root.
Proof. rewrite zlookup_replicate. case_decide; [|done]. by intros [= <-]. Qed.

Lemma boot_heap_ok m ps B : kp_inv ps B -> heap_ok (boot_heap m ps) (mk_gh [] ∅ B).
Proof.
  intros Hkp. split; [|done|by intros h ?%not_elem_of_nil]. split; cbn; try done.
  - split; try done.
    + intros r x ->%boot_root. split; [done|by repeat constructor|by vm_compute].
    + intros r x ->%boot_root. done.
    + by intros r x r' x' ->%boot_root.
    + by intros r x r' x' _ ->%boot_root.
  - intros t b. change [0; 0; 0; 0; 0; 0; 0; 0] with (replicate 8 0). rewrite zlookup_replicate. case_decide; [|done]. by intros [= <-].
  - by intros h ?%not_elem_of_nil.
  - apply NoDup_nil_2.
  - by intros h ?%not_elem_of_nil.
  - apply NoDup_nil_2.
  - by intros h ?%not_elem_of_nil.
  - by intros h r x ?%not_elem_of_nil.
Qed.

(** ** Clients of the heap *)

(** What happens from boot on: requests and releases in any order, the page
    allocator being free to refuse.  [held]: the blocks the clients hold, with
    the size they asked for; the last index counts the refused requests. *)
Inductive heap_run : kheap_st PS -> gmap Z Z -> Z -> Prop :=
  | run_boot m ps B : kp_inv ps B -> heap_run (boot_heap m ps) ∅ 0
  | run_kmalloc k held n sz p k' :
      heap_run k held n -> 0 <= sz <= 2^31 - PAGE_SIZE -> kmalloc sz k = inr (p, k') ->
      heap_run k' (if p =? 0 then held else <[p := sz]> held) (if p =? 0 then n + 1 else n)
  | run_kfree k held n p k' :
      heap_run k held n -> is_Some (held !! p) -> kfree p k = inr (tt, k') -> heap_run k' (delete p held) n.

(** The invariant of such runs. *)
Record client_inv k held (n : Z) : Prop := {
  cl_refused : 0 <= n;
  cl_heap : n < 255 -> exists g, heap_ok k g /\ lost_at_most n (kheaproots k) /\
    forall p sz, held !! p = Some sz -> exists z, sz <= z /\ live g p z
}.

(** Allocated blocks do not overlap. *)
Lemma live_apart k g a z a' z' : heap_inv k g -> live g a z -> live g a' z' -> a <> a' -> a + z <= a' \/ a' + z' <= a.
Proof.
  intros Hi H H' Hne. destruct (live_place k g a z Hi H) as (b & n & Hb & A1 & A2 & _ & _ & K).
  destruct K as [(h & o & Hh & -> & Hbo & _ & -> & ->)|[K ->]].
  { destruct (live_block_apart k g a' z' h o Hi H' Hh Hbo); [done|right; lia|left; lia]. }
  destruct (live_place k g a' z' Hi H') as (b' & n' & Hb' & A1' & A2' & _ & _ & K').
  destruct (Z.eq_dec b b') as [->|Hbb].
  - destruct K' as [(h & o & Hh & -> & _)|[_ ->]]; [|done]. by destruct (hi_big _ _ Hi _ _ K) as (_ & J & _), (J h Hh).
  - pose proof (kp_apart _ _ _ _ _ _ (hi_kp _ _ Hi) Hb Hb' Hbb). lia.
Qed.

Lemma heap_run_inv k held n : heap_run k held n -> client_inv k held n.
Proof.
  induction 1 as [m ps B Hkp|k held n sz p k' _ [IH1 IH2] Hsz Hrun|k held n p k' _ [IH1 IH2] [sz Hp] Hrun].
  - split; [done|]. intros _. exists (mk_gh [] ∅ B). split_and!; [by apply boot_heap_ok|by intros r x ->%boot_root|done].
  - split; [destruct (p =? 0); lia|]. intros Hn.
    destruct (IH2 ltac:(destruct (p =? 0); lia)) as (g & Hok & Hlost & Hheld).
    destruct (kmalloc_allocates k g sz n Hok Hsz ltac:(destruct (p =? 0); lia) Hlost) as (p0 & k0 & g' & Hrun' & Hl' & [A1 A2 A3]).
    rewrite Hrun in Hrun'. injection Hrun' as <- <-. exists g'. split_and!; [done|done|]. intros p1 sz1.
    destruct A3 as [[-> Hsame]|(Hp & _ & z & Hz & Hlive & _)].
    + cbn [Z.eqb]. intros H1. destruct (Hheld _ _ H1) as (z & Hz & Hl). exists z. split; [done|by apply Hsame].
    + apply Z.eqb_neq in Hp as ->. intros [[<- <-]|[Hne H1]]%lookup_insert_Some; [exists z; split; [done|]; apply Hlive; by right|].
      destruct (Hheld _ _ H1) as (z' & Hz' & Hl). exists z'. split; [done|]. apply Hlive. by left.
  - split; [done|]. intros Hn. destruct (IH2 Hn) as (g & Hok & Hlost & Hheld). destruct (Hheld _ _ Hp) as (z & _ & Hl).
    destruct (kfree_returns k g p z Hok Hl) as (k0 & g' & Hrun' & [R1 R2 R3 R4]). rewrite Hrun in Hrun'. injection Hrun' as <-.
    exists g'. split_and!; [done|by apply R4|]. intros p1 sz1 [Hne H1]%lookup_delete_Some.
    destruct (Hheld _ _ H1) as (z' & Hz' & Hl'). exists z'. split; [done|]. by apply R2.
Qed.

(** The words of a block the client may use. *)
Definition same_block (p sz : Z) (m m' : words) : Prop := forall x, p <= x < p + sz -> m' x = m x.

(** (C6) The kernel heap is safe for its clients.  After any sequence of
    requests and releases from boot, with a page allocator that may refuse
    any number of pages as long as fewer than 255 requests were refused: the
    blocks the clients hold are pairwise disjoint; the next request returns,
    with [NULL] or the address of a block that is not held and that overlaps
    none of the blocks held; the release of any held block returns; and
    neither changes a word of the (other) blocks held.  In particular every
    loop of the allocator ends and no assertion fails. *)
Theorem heap_client_safe k held n :
  heap_run k held n -> n < 255 ->
  (forall p sz p' sz', held !! p = Some sz -> held !! p' = Some sz' -> p <> p' -> p + sz <= p' \/ p' + sz' <= p) /\
  (forall sz, 0 <= sz <= 2^31 - PAGE_SIZE -> exists p k', kmalloc sz k = inr (p, k') /\
     (p = 0 \/ (held !! p = None /\ forall q z, held !! q = Some z -> q + z <= p \/ p + sz <= q)) /\
     (forall q z, held !! q = Some z -> same_block q z (k_words k) (k_words k'))) /\
  (forall p sz, held !! p = Some sz -> exists k', kfree p k = inr (tt, k') /\
     forall q z, held !! q = Some z -> q <> p -> same_block q z (k_words k) (k_words k')).
Proof.
  intros Hrun Hn. destruct (heap_run_inv k held n Hrun) as [Hn0 Hcl]. destruct (Hcl Hn) as (g & Hok & Hlost & Hheld).
  pose proof (ho_inv _ _ Hok) as Hi. split_and!.
  - intros p sz p' sz' Hp Hp' Hne. destruct (Hheld _ _ Hp) as (z & Hz & Hl), (Hheld _ _ Hp') as (z' & Hz' & Hl').
    destruct (live_apart k g p z p' z' Hi Hl Hl' Hne); lia.
  - intros sz Hsz. destruct (kmalloc_allocates k g sz n Hok Hsz ltac:(lia) Hlost) as (p & k' & g' & Hk & _ & [A1 A2 A3]).
    exists p, k'. split; [done|]. split.
    + destruct A3 as [[-> _]|(Hp & _ & z & Hz & Hlive & Hap)]; [by left|right]. split.
      * destruct (held !! p) as [sz0|] eqn:E; [|done]. destruct (Hheld _ _ E) as (z0 & Hz0 & Hl0).
        destruct (live_place k g p z0 Hi Hl0) as (_ & _ & _ & _ & _ & Hpos & _).
        destruct (live_place k' g' p z (ho_inv _ _ A1) ltac:(apply Hlive; by right)) as (_ & _ & _ & _ & _ & Hpos' & _).
        specialize (Hap _ _ Hl0). lia.
      * intros q z0 Hq. destruct (Hheld _ _ Hq) as (z1 & Hz1 & Hl1). specialize (Hap _ _ Hl1). lia.
    + intros q z Hq x Hx. destruct (Hheld _ _ Hq) as (z1 & Hz1 & Hl1). apply (A2 q z1); [done|lia].
  - intros p sz Hp. destruct (Hheld _ _ Hp) as (z & _ & Hl). destruct (kfree_returns k g p z Hok Hl) as (k' & g' & Hk & [R1 R2 R3 R4]).
    exists k'. split; [done|]. intros q z0 Hq Hne x Hx. destruct (Hheld _ _ Hq) as (z1 & Hz1 & Hl1). apply (R3 q z1); [done|done|lia].
Qed.

(** (C36) Requests and releases are inverse on the set of allocated blocks: a
    block obtained from a consistent heap and given back leaves exactly the
    blocks allocated before, with their contents, and a consistent heap. *)
Theorem kmalloc_kfree_roundtrip k g sz n p k1 :
  heap_ok k g -> 0 <= sz <= 2^31 - PAGE_SIZE -> 0 <= n < 255 -> lost_at_most n (kheaproots k) ->
  kmalloc sz k = inr (p, k1) -> p <> 0 ->
  exists k2 g2, kfree p k1 = inr (tt, k2) /\ heap_ok k2 g2 /\ (forall a z, live g2 a z <-> live g a z) /\
    (forall a z x, live g a z -> a <= x < a + z -> k_words k2 x = k_words k x) /\ lost_at_most n (kheaproots k2).
Proof.
  intros Hok Hsz Hn Hlost Hrun Hp. destruct (kmalloc_allocates k g sz n Hok Hsz Hn Hlost) as (p0 & k0 & g1 & Hrun' & Hl & [A1 A2 A3]).
  rewrite Hrun in Hrun'. injection Hrun' as <- <-. destruct A3 as [[? _]|(_ & _ & z & Hz & Hlive & Hap)]; [done|].
  apply Z.eqb_neq in Hp. rewrite Hp in Hl.
  destruct (kfree_returns k1 g1 p z A1 ltac:(apply Hlive; by right)) as (k2 & g2 & Hk & [R1 R2 R3 R4]).
  assert (forall a y, live g a y -> a <> p) as Hne.
  { intros a y Ha ->. destruct (live_place k g p y (ho_inv _ _ Hok) Ha) as (_ & _ & _ & _ & _ & Hpos & _).
    destruct (live_place k1 g1 p z (ho_inv _ _ A1) ltac:(apply Hlive; by right)) as (_ & _ & _ & _ & _ & Hpos' & _).
    specialize (Hap _ _ Ha). lia. }
  exists k2, g2. split_and!; [done|done| | |by apply R4].
  - intros a y. rewrite R2, Hlive. split; [intros [[?|[-> ->]] ?]; done|]. intros Ha. split; [by left|by eapply Hne].
  - intros a y x Ha Hx. rewrite (R3 a y x); [by apply (A2 a y)|apply Hlive; by left|by eapply Hne|done].
Qed.
End boot.

(** ** On a concrete machine *)

(** Two frames are available on the machine of [queue_demo]: a freed one and
    one never used. *)
Lemma queue_demo_pages : kp_inv (queue_demo 8) ∅.
Proof.
  split; try done; [apply queue_demo_frames|]. exists (Some 8), [4; 3; 5]. apply queue_demo_fifo.
Qed.

Definition demo_heap : kheap_st (kstate memfs) := boot_heap (fun _ => 0) (queue_demo 8).

Lemma demo_boot : heap_run demo_heap ∅ 0.
Proof. exact (run_boot (fun _ => 0) (queue_demo 8) ∅ queue_demo_pages). Qed.

Lemma demo_request p k : kmalloc 100 demo_heap = inr (p, k) -> (p =? 0) = false -> heap_run k (<[p := 100]> ∅) 0.
Proof.
  intros E Hp. assert (0 <= 100 <= 2^31 - PAGE_SIZE) as Hsz by (unfold PAGE_SIZE; lia).
  pose proof (run_kmalloc demo_heap ∅ 0 100 p k demo_boot Hsz E) as Hrun. by rewrite Hp in Hrun.
Qed.

Lemma heap_client_safe_witness :
  exists p k, kmalloc 100 demo_heap = inr (p, k) /\ p <> 0 /\
    (forall q sz q' sz', (<[p := 100]> ∅ : gmap Z Z) !! q = Some sz -> (<[p := 100]> ∅ : gmap Z Z) !! q' = Some sz' -> q <> q' ->
       q + sz <= q' \/ q' + sz' <= q) /\
    (forall sz, 0 <= sz <= 2^31 - PAGE_SIZE -> exists q k', kmalloc sz k = inr (q, k') /\
       (q = 0 \/ ((<[p := 100]> ∅ : gmap Z Z) !! q = None /\
          forall q' z, (<[p := 100]> ∅ : gmap Z Z) !! q' = Some z -> q' + z <= q \/ q + sz <= q')) /\
       (forall q' z, (<[p := 100]> ∅ : gmap Z Z) !! q' = Some z -> same_block q' z (k_words k) (k_words k'))) /\
    (forall q sz, (<[p := 100]> ∅ : gmap Z Z) !! q = Some sz -> exists k', kfree q k = inr (tt, k') /\
       forall q' z, (<[p := 100]> ∅ : gmap Z Z) !! q' = Some z -> q' <> q -> same_block q' z (k_words k) (k_words k')).
Proof.
  destruct (kmalloc 100 demo_heap) as [|[p k]] eqn:E; [vm_compute in E; discriminate E|].
  assert ((p =? 0) = false) as Hp by (vm_compute in E; injection E as <- _; reflexivity).
  exists p, k. split; [reflexivity|]. split; [by apply Z.eqb_neq|].
  exact (heap_client_safe k (<[p := 100]> ∅) 0 (demo_request p k E Hp) eq_refl).
Defined.

Lemma kmalloc_kfree_roundtrip_witness :
  exists p k1 k2 g2, kmalloc 100 demo_heap = inr (p, k1) /\ kfree p k1 = inr (tt, k2) /\ heap_ok k2 g2 /\
    (forall a z, live g2 a z <-> live (mk_gh [] ∅ ∅) a z) /\
    (forall a z x, live (mk_gh [] ∅ ∅) a z -> a <= x < a + z -> k_words k2 x = k_words demo_heap x) /\ lost_at_most 0 (kheaproots k2).
Proof.
  destruct (kmalloc 100 demo_heap) as [|[p k1]] eqn:E; [vm_compute in E; discriminate E|].
  assert (p <> 0) as Hp by (vm_compute in E; injection E as <- _; discriminate).
  destruct (kmalloc_kfree_roundtrip demo_heap (mk_gh [] ∅ ∅) 100 0 p k1) as (k2 & g2 & H).
  - apply boot_heap_ok, queue_demo_pages.
  - unfold PAGE_SIZE. lia.
  - lia.
  - intros r x ->%boot_root. done.
  - exact E.
  - exact Hp.
  - exists p, k1, k2, g2. split; [reflexivity|exact H].
Defined.

(** [n] requests of 16 bytes, whatever the answers. *)
Fixpoint requests (n : nat) : KM (kstate memfs) unit :=
  match n with O => kret tt | S n' => (_ <- kmalloc 16 ;; requests n')%km end.

(** While one frame is taken, only one is left and every request fails for
    want of a descriptor page; then the frame is given back, and a block is
    obtained and freed. *)
Definition starve_then_free (n : nat) : KM (kstate memfs) unit :=
  (va <- alloc_pages 1 ;;
   requests n ;;
   free_pages_at va ;;
   p <- kmalloc 16 ;;
   kfree p)%km.

(** A descriptor entry is marked in use before the page that should hold
    it is obtained, and stays marked when that fails.  After 256 such
    failures the first root is full and still has no page; the next
    descriptor comes from the second root, and freeing the block it describes
    fails the assertion [root->numinuse == 0] in [freepageref].  With 255
    failures the same run succeeds. *)
Theorem lost_descriptors_panic :
  starve_then_free 256 demo_heap = inl (KASSERT_failed "root->numinuse == 0") /\
  exists k, starve_then_free 255 demo_heap = inr (tt, k).
Proof.
  split; [vm_compute; reflexivity|].
  destruct (starve_then_free 255 demo_heap) as [|[[] k]] eqn:E; [vm_compute in E; discriminate E|by exists k].
Qed.
