(* ===== verification/StopState.v ===== *)
(** * State and stop, for any state

    The monad of the thread code: its functions run on the store of thread
    lists, on the thread system or on a file table, and stop for the reasons
    of [Monad.v]. *)

From S2P Require Import Prelude State Monad.

Declare Scope sm_scope.
Delimit Scope sm_scope with sm.

Section sm.
Context {S : Type}.

Definition SM (A : Type) : Type := S -> stop_reason + (A * S).
Definition sret {A} (a : A) : SM A := fun s => inr (a, s).
Definition sstop {A} (r : stop_reason) : SM A := fun _ => inl r.
Definition sbind {A B} (m : SM A) (f : A -> SM B) : SM B := fun s =>
  match m s with inr (a, s') => f a s' | inl r => inl r end.
Definition sget {A} (f : S -> A) : SM A := fun s => inr (f s, s).
Definition smodify (f : S -> S) : SM unit := fun s => inr (tt, f s).
Definition sassert (b : bool) (what : string) : SM unit := fun s =>
  if b then inr (tt, s) else inl (KASSERT_failed what).
Definition sderef {A} (o : option A) (what : string) : SM A := fun s =>
  match o with Some a => inr (a, s) | None => inl (bad_access what) end.

Lemma srun_ret {A B} (a : A) (f : A -> SM B) s : sbind (sret a) f s = f a s.
Proof. done. Qed.
Lemma srun_get {A B} (g : S -> A) (f : A -> SM B) s : sbind (sget g) f s = f (g s) s.
Proof. done. Qed.
Lemma srun_modify {B} g (f : unit -> SM B) s : sbind (smodify g) f s = f tt (g s).
Proof. done. Qed.
Lemma srun_bind {A B C} (m : SM A) (f : A -> SM B) (g : B -> SM C) s :
  sbind (sbind m f) g s = sbind m (fun a => sbind (f a) g) s.
Proof. unfold sbind. by destruct (m s) as [|[]]. Qed.
Lemma srun_assert {B} b what (f : unit -> SM B) s :
  b = true -> sbind (sassert b what) f s = f tt s.
Proof. unfold sbind, sassert. by intros ->. Qed.
Lemma srun_deref {A B} (o : option A) what a (f : A -> SM B) s :
  o = Some a -> sbind (sderef o what) f s = f a s.
Proof. unfold sbind, sderef. by intros ->. Qed.
Lemma srun_call {A B} (m : SM A) a s' (f : A -> SM B) s :
  m s = inr (a, s') -> sbind m f s = f a s'.
Proof. unfold sbind. by intros ->. Qed.
End sm.
Arguments SM : clear implicits.

Notation "x <- m ;; k" := (sbind m (fun x => k)) : sm_scope.
Notation "m ;; k" := (sbind m (fun _ => k)) : sm_scope.

Create Rewrite HintDb srun.
#[export] Hint Rewrite @srun_ret @srun_get @srun_modify @srun_bind : srun.
#[export] Hint Rewrite @srun_assert using done : srun.
