(* ===== verification/Threadlist.v ===== *)
(** * Thread lists ([kern/thread/threadlist.c], [kern/include/threadlist.h])

    Doubly linked lists of threads with a bookend node at each end.  The nodes
    of all lists are in one store, because a thread has one node and is on at
    most one list.  The store is refined to a map from lists to sequences of
    threads: every operation is the corresponding operation on sequences. *)

From S2P Require Import Prelude State Monad StopState.

#[local] Open Scope sm_scope.

Definition tid := positive.

Section threadlist.
Context {L : Type} `{Countable L}.
Implicit Types (l : L) (t : tid).

(** A node is the head or the tail of a list, or [t->t_listnode]. *)
Inductive node :=
  | tl_head (l : L)
  | tl_tail (l : L)
  | t_listnode (t : tid).

#[global] Instance node_eq_dec : EqDecision node.
Proof. solve_decision. Defined.
#[global] Instance node_countable : Countable node.
Proof.
  apply (inj_countable'
    (fun n => match n with tl_head l => inl (inl l) | tl_tail l => inl (inr l) | t_listnode t => inr t end)
    (fun x => match x with inl (inl l) => tl_head l | inl (inr l) => tl_tail l | inr t => t_listnode t end)).
  by intros [].
Defined.

Record threadlistnode := mk_tln {
  tln_prev : option node;
  tln_next : option node;
  tln_self : option tid
}.

(** The nodes in memory, and the counter of every list. *)
Record tlstore := mk_tls {
  nodes : gmap node threadlistnode;
  tl_count : gmap L Z
}.
Implicit Types s : tlstore.

Definition set_prev (p : option node) (n : threadlistnode) := mk_tln p (tln_next n) (tln_self n).
Definition set_next (p : option node) (n : threadlistnode) := mk_tln (tln_prev n) p (tln_self n).

Definition put_node (n : node) (v : threadlistnode) s : tlstore := mk_tls (<[n := v]> (nodes s)) (tl_count s).
Definition put_count l (c : Z) s : tlstore := mk_tls (nodes s) (<[l := c]> (tl_count s)).

(** Access through a pointer to a node. *)
Definition rd (p : option node) : SM tlstore threadlistnode :=
  n <- sderef p "NULL threadlistnode" ;;
  v <- sget (fun s => nodes s !! n) ;;
  sderef v "threadlistnode".
Definition wr (p : option node) (f : threadlistnode -> threadlistnode) : SM tlstore unit :=
  n <- sderef p "NULL threadlistnode" ;;
  v <- rd p ;;
  smodify (put_node n (f v)).
Definition rd_count l : SM tlstore Z :=
  c <- sget (fun s => tl_count s !! l) ;;
  sderef c "threadlist".

Definition threadlistnode_init t : SM tlstore unit :=
  smodify (put_node (t_listnode t) (mk_tln None None (Some t))).

Definition is_null {A} (p : option A) : bool := match p with None => true | Some _ => false end.

Definition threadlistnode_cleanup t : SM tlstore unit :=
  n <- rd (Some (t_listnode t)) ;;
  sassert (is_null (tln_next n)) "tln->tln_next == NULL" ;;
  sassert (is_null (tln_prev n)) "tln->tln_prev == NULL" ;;
  sassert (negb (is_null (tln_self n))) "tln->tln_self != NULL".

Definition threadlist_init l : SM tlstore unit :=
  smodify (put_node (tl_head l) (mk_tln None (Some (tl_tail l)) None)) ;;
  smodify (put_node (tl_tail l) (mk_tln (Some (tl_head l)) None None)) ;;
  smodify (put_count l 0).

Definition threadlist_isempty l : SM tlstore bool :=
  c <- rd_count l ;;
  sret (c =? 0).

Definition threadlist_cleanup l : SM tlstore unit :=
  e <- threadlist_isempty l ;;
  sassert e "threadlist_isempty(tl)" ;;
  c <- rd_count l ;;
  sassert (c =? 0) "tl->tl_count == 0".

(** ** Internal: insertion and removal without the counter *)

Definition threadlist_insertafternode (onlist : node) t : SM tlstore unit :=
  let addee := Some (t_listnode t) in
  wr addee (set_prev (Some onlist)) ;;
  o <- rd (Some onlist) ;;
  wr addee (set_next (tln_next o)) ;;
  a <- rd addee ;;
  wr (tln_prev a) (set_next addee) ;;
  a <- rd addee ;;
  wr (tln_next a) (set_prev addee).

Definition threadlist_insertbeforenode t (onlist : node) : SM tlstore unit :=
  let addee := Some (t_listnode t) in
  o <- rd (Some onlist) ;;
  wr addee (set_prev (tln_prev o)) ;;
  wr addee (set_next (Some onlist)) ;;
  a <- rd addee ;;
  wr (tln_prev a) (set_next addee) ;;
  a <- rd addee ;;
  wr (tln_next a) (set_prev addee).

Definition threadlist_removenode (tln : node) : SM tlstore unit :=
  n <- rd (Some tln) ;;
  wr (tln_prev n) (set_next (tln_next n)) ;;
  n <- rd (Some tln) ;;
  wr (tln_next n) (set_prev (tln_prev n)) ;;
  wr (Some tln) (set_prev None) ;;
  wr (Some tln) (set_next None).

(** ** Public *)

Definition count_up l : SM tlstore unit :=
  c <- rd_count l ;; smodify (put_count l (u32 (c + 1))).
Definition count_down l : SM tlstore unit :=
  c <- rd_count l ;; smodify (put_count l (u32 (c - 1))).

Definition threadlist_addhead l t : SM tlstore unit :=
  threadlist_insertafternode (tl_head l) t ;; count_up l.

Definition threadlist_addtail l t : SM tlstore unit :=
  threadlist_insertbeforenode t (tl_tail l) ;; count_up l.

Definition threadlist_remhead l : SM tlstore (option tid) :=
  h <- rd (Some (tl_head l)) ;;
  n <- rd (tln_next h) ;;
  if is_null (tln_next n) then sret None else
  x <- sderef (tln_next h) "tln" ;;
  threadlist_removenode x ;;
  count_down l ;;
  n <- rd (tln_next h) ;;
  sret (tln_self n).

Definition threadlist_remtail l : SM tlstore (option tid) :=
  h <- rd (Some (tl_tail l)) ;;
  n <- rd (tln_prev h) ;;
  if is_null (tln_prev n) then sret None else
  x <- sderef (tln_prev h) "tln" ;;
  threadlist_removenode x ;;
  count_down l ;;
  n <- rd (tln_prev h) ;;
  sret (tln_self n).

Definition threadlist_insertafter l (onlist addee : tid) : SM tlstore unit :=
  threadlist_insertafternode (t_listnode onlist) addee ;; count_up l.

Definition threadlist_insertbefore l (addee onlist : tid) : SM tlstore unit :=
  threadlist_insertbeforenode addee (t_listnode onlist) ;; count_up l.

Definition threadlist_remove l t : SM tlstore unit :=
  threadlist_removenode (t_listnode t) ;; count_down l.

(** [THREADLIST_FORALL]: the threads visited, from the front; a list of at
    most [fuel] threads is visited to its end. *)
Fixpoint forall_from (fuel : nat) (itervar : option tid) : SM tlstore (list tid) :=
  match fuel, itervar with
  | _, None => sret []
  | O, Some _ => sstop (loops_forever "THREADLIST_FORALL")
  | S fuel', Some t =>
      n <- rd (Some (t_listnode t)) ;;
      m <- rd (tln_next n) ;;
      ts <- forall_from fuel' (tln_self m) ;;
      sret (t :: ts)
  end.

Definition THREADLIST_FORALL (fuel : nat) l : SM tlstore (list tid) :=
  h <- rd (Some (tl_head l)) ;;
  n <- rd (tln_next h) ;;
  forall_from fuel (tln_self n).
(** ** Lists as sequences *)

Definition nxt s (n : node) : option node := nodes s !! n ≫= tln_next.
Definition prv s (n : node) : option node := nodes s !! n ≫= tln_prev.

Definition link s (a b : node) : Prop := nxt s a = Some b /\ prv s b = Some a.

(** The nodes of [sp] are linked, each to the one after it and back. *)
Fixpoint chain s (sp : list node) : Prop :=
  match sp with
  | a :: (b :: _) as r => link s a b /\ chain s r
  | _ => True
  end.

Definition spine l (ts : list tid) : list node := tl_head l :: (t_listnode <$> ts) ++ [tl_tail l].

(** [s] holds the lists of [Q], and nothing else is on a list. *)
Record lists_rep s (Q : gmap L (list tid)) : Prop := mk_lists_rep {
  lr_chain l ts : Q !! l = Some ts -> chain s (spine l ts);
  lr_head l ts : Q !! l = Some ts -> exists n, nodes s !! tl_head l = Some n /\ tln_prev n = None /\ tln_self n = None;
  lr_tail l ts : Q !! l = Some ts -> exists n, nodes s !! tl_tail l = Some n /\ tln_next n = None /\ tln_self n = None;
  lr_count l ts : Q !! l = Some ts -> tl_count s !! l = Some (u32 (zlen ts));
  lr_self t n : nodes s !! t_listnode t = Some n -> tln_self n = Some t;
  lr_off t n : nodes s !! t_listnode t = Some n -> (forall l ts, Q !! l = Some ts -> t ∉ ts) ->
    tln_prev n = None /\ tln_next n = None;
  lr_nodup l ts : Q !! l = Some ts -> NoDup ts;
  lr_apart l l' ts ts' t : Q !! l = Some ts -> Q !! l' = Some ts' -> t ∈ ts -> t ∈ ts' -> l = l'
}.

(** [t] has a node and is on no list. *)
Definition detached s (Q : gmap L (list tid)) t : Prop :=
  is_Some (nodes s !! t_listnode t) /\ forall l ts, Q !! l = Some ts -> t ∉ ts.

Lemma chain_app s p a r : chain s (p ++ a :: r) <-> chain s (p ++ [a]) /\ chain s (a :: r).
Proof.
  induction p as [|x p IH]; [cbn; tauto|]. destruct p as [|y p]; cbn in *; [tauto|]. rewrite IH. tauto.
Qed.

Lemma chain_frame_l s s' p a :
  (forall x, x ∈ p -> nxt s' x = nxt s x) -> (forall x, x ∈ p ++ [a] -> prv s' x = prv s x) ->
  chain s (p ++ [a]) -> chain s' (p ++ [a]).
Proof.
  induction p as [|x p IH]; [done|]. intros Hn Hp. destruct p as [|y p]; cbn in *.
  - unfold link. rewrite Hn, (Hp a) by set_solver. done.
  - unfold link. rewrite Hn, (Hp y) by set_solver. intros [? Hc]. split; [done|]. apply IH; set_solver.
Qed.

Lemma chain_frame_r s s' b q :
  (forall x, x ∈ b :: q -> nxt s' x = nxt s x) -> (forall x, x ∈ q -> prv s' x = prv s x) ->
  chain s (b :: q) -> chain s' (b :: q).
Proof.
  revert b. induction q as [|c q IH]; [done|]. intros b Hn Hp. cbn. unfold link.
  rewrite Hn, (Hp c) by set_solver. intros [? Hc]. split; [done|]. apply IH; set_solver.
Qed.

Lemma link_node s a b : link s a b -> exists na nb,
  nodes s !! a = Some na /\ tln_next na = Some b /\ nodes s !! b = Some nb /\ tln_prev nb = Some a.
Proof.
  unfold link, nxt, prv. intros [Ha Hb]. destruct (nodes s !! a) as [na|], (nodes s !! b) as [nb|]; try done.
  by exists na, nb.
Qed.

(** The store after [t] was put between [a] and [b], and after [n] was taken
    from between [a] and [b]. *)
Definition linked (a : node) t (b : node) s : tlstore :=
  mk_tls (alter (set_prev (Some (t_listnode t))) b (alter (set_next (Some (t_listnode t))) a
    (<[t_listnode t := mk_tln (Some a) (Some b) (Some t)]> (nodes s)))) (tl_count s).
Definition unlinked (a n b : node) s : tlstore :=
  mk_tls (alter (fun v => mk_tln None None (tln_self v)) n
    (alter (set_prev (Some a)) b (alter (set_next (Some b)) a (nodes s)))) (tl_count s).

Lemma srun_rd {B} n v (f : threadlistnode -> SM tlstore B) s :
  nodes s !! n = Some v -> sbind (rd (Some n)) f s = f v s.
Proof. intros Hn. unfold rd, sbind, sderef, sget. by rewrite Hn. Qed.

Lemma srun_wr {B} n v g (f : unit -> SM tlstore B) s :
  nodes s !! n = Some v -> sbind (wr (Some n) g) f s = f tt (put_node n (g v) s).
Proof. intros Hn. unfold wr. unfold rd, sbind, sderef, sget, smodify. by rewrite Hn. Qed.
(** Equality of two stores written in different orders. *)
Lemma tls_eq s s' : (forall x, nodes s !! x = nodes s' !! x) -> tl_count s = tl_count s' -> s = s'.
Proof. destruct s, s'. cbn. intros Hx ->. f_equal. by apply map_eq. Qed.

Ltac store_eq := apply tls_eq; [|done]; intros x; unfold linked, unlinked, put_node; cbn;
  repeat (rewrite lookup_insert || rewrite lookup_alter); repeat case_decide; subst; cbn;
  simplify_option_eq; unfold set_next, set_prev; cbn; congruence.

Lemma insertafternode_run a b t na nb nt s :
  nodes s !! a = Some na -> tln_next na = Some b -> nodes s !! b = Some nb ->
  nodes s !! t_listnode t = Some nt -> tln_self nt = Some t ->
  a <> t_listnode t -> b <> t_listnode t -> a <> b ->
  threadlist_insertafternode a t s = inr (tt, linked a t b s).
Proof.
  intros Ha Hab Hb Ht Hself Hat Hbt Hne. unfold threadlist_insertafternode.
  rewrite (srun_wr _ nt) by done. rewrite (srun_rd _ na) by (cbn; by rewrite lookup_insert_ne).
  erewrite srun_wr by (cbn; apply lookup_insert_eq). erewrite srun_rd by (cbn; apply lookup_insert_eq). cbn.
  rewrite (srun_wr _ na) by (cbn; by rewrite !lookup_insert_ne).
  erewrite srun_rd by (cbn; rewrite lookup_insert_ne by done; apply lookup_insert_eq). cbn. rewrite Hab.
  unfold wr, rd, sbind, sderef, sget, smodify. cbn. rewrite !lookup_insert_ne by done. rewrite Hb.
  do 2 f_equal. store_eq.
Qed.

Lemma insertbeforenode_run a b t na nb nt s :
  nodes s !! a = Some na -> tln_prev nb = Some a -> nodes s !! b = Some nb ->
  nodes s !! t_listnode t = Some nt -> tln_self nt = Some t ->
  a <> t_listnode t -> b <> t_listnode t -> a <> b ->
  threadlist_insertbeforenode t b s = inr (tt, linked a t b s).
Proof.
  intros Ha Hab Hb Ht Hself Hat Hbt Hne. unfold threadlist_insertbeforenode.
  rewrite (srun_rd _ nb), (srun_wr _ nt) by done.
  erewrite srun_wr by (cbn; apply lookup_insert_eq). erewrite srun_rd by (cbn; apply lookup_insert_eq). cbn. rewrite Hab.
  rewrite (srun_wr _ na) by (cbn; by rewrite !lookup_insert_ne).
  erewrite srun_rd by (cbn; rewrite lookup_insert_ne by done; apply lookup_insert_eq). cbn.
  unfold wr, rd, sbind, sderef, sget, smodify. cbn. rewrite !lookup_insert_ne by done. rewrite Hb.
  do 2 f_equal. store_eq.
Qed.

Lemma removenode_run a n b na nn nb s :
  nodes s !! a = Some na -> nodes s !! n = Some nn -> nodes s !! b = Some nb ->
  tln_prev nn = Some a -> tln_next nn = Some b -> a <> n -> b <> n -> a <> b ->
  threadlist_removenode n s = inr (tt, unlinked a n b s).
Proof.
  intros Ha Hn Hb Hpa Hnb Han Hbn Hab. unfold threadlist_removenode.
  rewrite (srun_rd _ nn), Hpa, Hnb, (srun_wr _ na) by done.
  rewrite (srun_rd _ nn) by (cbn; by rewrite lookup_insert_ne). rewrite Hnb, Hpa.
  rewrite (srun_wr _ nb) by (cbn; by rewrite lookup_insert_ne).
  rewrite (srun_wr _ nn) by (cbn; by rewrite !lookup_insert_ne).
  unfold wr, rd, sbind, sderef, sget, smodify. cbn. rewrite lookup_insert_eq.
  do 2 f_equal. store_eq.
Qed.

(** ** The links after an insertion and after a removal *)

Ltac case_lookups :=
  repeat (rewrite lookup_insert || rewrite lookup_alter); repeat case_decide; subst; cbn; try done;
  match goal with |- context [nodes ?s !! ?x] => by destruct (nodes s !! x) end.

Lemma nxt_linked a t b s x : a <> t_listnode t -> b <> t_listnode t ->
  nxt (linked a t b s) x = if decide (x = t_listnode t) then Some b
    else if decide (x = a) then nodes s !! a ≫= (fun _ => Some (t_listnode t)) else nxt s x.
Proof.
  intros. unfold nxt, linked. cbn. case_lookups.
Qed.

Lemma prv_linked a t b s x : a <> t_listnode t -> b <> t_listnode t ->
  prv (linked a t b s) x = if decide (x = t_listnode t) then Some a
    else if decide (x = b) then nodes s !! b ≫= (fun _ => Some (t_listnode t)) else prv s x.
Proof.
  intros. unfold prv, linked. cbn. case_lookups.
Qed.

Lemma nxt_unlinked a n b s x : a <> n -> b <> n ->
  nxt (unlinked a n b s) x = if decide (x = n) then None
    else if decide (x = a) then nodes s !! a ≫= (fun _ => Some b) else nxt s x.
Proof.
  intros. unfold nxt, unlinked. cbn. case_lookups.
Qed.

Lemma prv_unlinked a n b s x : a <> n -> b <> n ->
  prv (unlinked a n b s) x = if decide (x = n) then None
    else if decide (x = b) then nodes s !! b ≫= (fun _ => Some a) else prv s x.
Proof.
  intros. unfold prv, unlinked. cbn. case_lookups.
Qed.

Lemma chain_linked p a t b q s :
  NoDup (p ++ a :: b :: q) -> t_listnode t ∉ p ++ a :: b :: q ->
  chain s (p ++ a :: b :: q) -> chain (linked a t b s) (p ++ a :: t_listnode t :: b :: q).
Proof.
  intros Hnd Ht. rewrite chain_app. intros [Hl Hr].
  assert (a <> t_listnode t /\ b <> t_listnode t) as [Hat Hbt] by set_solver.
  apply NoDup_app in Hnd as (Hp & Hpq & [Hab [Hbq Hq]%NoDup_cons]%NoDup_cons).
  destruct Hr as [Hlink Hr]. destruct (link_node _ _ _ Hlink) as (na & nb & Ha & _ & Hb & _).
  rewrite chain_app. split; [|split; [|split]].
  - eapply chain_frame_l; [| |done]; intros x Hx; rewrite ?nxt_linked, ?prv_linked by done;
      rewrite !decide_False; [done|set_solver..].
  - unfold link. rewrite nxt_linked, prv_linked by done. rewrite decide_False, decide_True, decide_True by done.
    by rewrite Ha.
  - unfold link. rewrite nxt_linked, prv_linked by done. rewrite decide_True, decide_False, decide_True by done.
    by rewrite Hb.
  - eapply chain_frame_r; [| |done]; intros x Hx; rewrite ?nxt_linked, ?prv_linked by done;
      rewrite !decide_False; [done|set_solver..].
Qed.

Lemma chain_unlinked p a n b q s :
  NoDup (p ++ a :: n :: b :: q) -> chain s (p ++ a :: n :: b :: q) ->
  chain (unlinked a n b s) (p ++ a :: b :: q).
Proof.
  intros Hnd. rewrite chain_app. intros [Hl (Han & Hnb & Hr)].
  apply NoDup_app in Hnd as (Hp & Hpq & [Ha [Hn [Hb Hq]%NoDup_cons]%NoDup_cons]%NoDup_cons).
  assert (a <> n /\ b <> n) as [Hne1 Hne2] by set_solver.
  destruct (link_node _ _ _ Han) as (na & nn & Hna & _). destruct (link_node _ _ _ Hnb) as (_ & nb & _ & _ & Hnb' & _).
  rewrite chain_app. split; [|split].
  - eapply chain_frame_l; [| |done]; intros x Hx; rewrite ?nxt_unlinked, ?prv_unlinked by done;
      rewrite !decide_False; [done|set_solver..].
  - unfold link. rewrite nxt_unlinked, prv_unlinked by done.
    rewrite decide_False, decide_True, decide_False, decide_True by done. by rewrite Hna, Hnb'.
  - eapply chain_frame_r; [| |done]; intros x Hx; rewrite ?nxt_unlinked, ?prv_unlinked by done;
      rewrite !decide_False; [done|set_solver..].
Qed.
(** ** The store as a whole *)

Lemma chain_frame s s' sp : (forall x, x ∈ sp -> nodes s' !! x = nodes s !! x) -> chain s sp -> chain s' sp.
Proof.
  destruct sp as [|b q]; [done|]. intros Hf. apply chain_frame_r; intros x Hx; unfold nxt, prv;
    rewrite Hf; set_solver.
Qed.

Lemma elem_spine l ts x : x ∈ spine l ts <->
  x = tl_head l \/ x = tl_tail l \/ exists t, x = t_listnode t /\ t ∈ ts.
Proof. unfold spine. rewrite elem_of_cons, elem_of_app, list_elem_of_fmap, list_elem_of_singleton. naive_solver. Qed.

Lemma NoDup_spine l ts : NoDup ts -> NoDup (spine l ts).
Proof.
  intros Hnd. unfold spine. apply NoDup_cons. split.
  - rewrite elem_of_app, list_elem_of_fmap, list_elem_of_singleton. naive_solver.
  - apply NoDup_app. split; [|split].
    + apply NoDup_fmap; [|done]. intros ?? Heq. by injection Heq.
    + intros x [t [-> _]]%list_elem_of_fmap. by rewrite list_elem_of_singleton.
    + apply NoDup_singleton.
Qed.

Lemma spine_apart s Q l l' ts ts' x :
  lists_rep s Q -> Q !! l = Some ts -> Q !! l' = Some ts' -> x ∈ spine l ts -> x ∈ spine l' ts' -> l = l'.
Proof.
  intros Hr Hl Hl'. rewrite !elem_spine. intros [->|[->|(t & -> & Ht)]] [?|[?|(t' & ? & Ht')]]; simplify_eq; try done.
  by eapply lr_apart.
Qed.

(** The node before and the node after a place of the list. *)
Definition before l (ts : list tid) : node := default (tl_head l) (t_listnode <$> last ts).
Definition behind l (ts : list tid) : node := default (tl_tail l) (t_listnode <$> head ts).

Lemma spine_place l ts1 ts2 : exists p q,
  spine l (ts1 ++ ts2) = p ++ before l ts1 :: behind l ts2 :: q /\
  (forall t, spine l (ts1 ++ t :: ts2) = p ++ before l ts1 :: t_listnode t :: behind l ts2 :: q) /\
  tl_head l ∈ p ++ [before l ts1] /\ tl_tail l ∈ behind l ts2 :: q.
Proof.
  assert (exists q, (t_listnode <$> ts2) ++ [tl_tail l] = behind l ts2 :: q /\ tl_tail l ∈ behind l ts2 :: q)
    as (q & Hq & Htl).
  { unfold behind. destruct ts2 as [|t ts2]; cbn; eexists; (split; [reflexivity|]); set_solver. }
  assert (exists p, tl_head l :: (t_listnode <$> ts1) = p ++ [before l ts1] /\ tl_head l ∈ p ++ [before l ts1])
    as (p & Hp & Hhd).
  { unfold before. destruct ts1 as [|t ts1 _] using rev_ind; [exists []; set_solver|].
    rewrite last_snoc, fmap_app. cbn. exists (tl_head l :: (t_listnode <$> ts1)). set_solver. }
  exists p, q. split_and!; [..|done|done]; intros; unfold spine; rewrite fmap_app, <- (assoc_L (++)), ?fmap_cons.
  - rewrite Hq, app_comm_cons, Hp. by rewrite <- (assoc_L (++)).
  - cbn [app]. rewrite Hq, app_comm_cons, Hp. by rewrite <- (assoc_L (++)).
Qed.

Lemma linked_other a t b s x : x <> a -> x <> b -> x <> t_listnode t -> nodes (linked a t b s) !! x = nodes s !! x.
Proof. intros. cbn. by rewrite !lookup_alter_ne, lookup_insert_ne. Qed.

Lemma unlinked_other a n b s x : x <> a -> x <> b -> x <> n -> nodes (unlinked a n b s) !! x = nodes s !! x.
Proof. intros. cbn. by rewrite !lookup_alter_ne. Qed.

Ltac same_node :=
  match goal with |- context [nodes ?s !! ?x] =>
    let n := fresh "n" in
    destruct (nodes s !! x) as [n|] eqn:?; [|done]; cbn; intros [= <-]; exists n; split_and!; done
  end.

(** A node other than the one put in keeps its thread, and its link on the
    side away from the change. *)
Lemma linked_node a t b s x n : nodes (linked a t b s) !! x = Some n -> x <> t_listnode t ->
  exists n0, nodes s !! x = Some n0 /\ tln_self n = tln_self n0 /\
    (x <> a -> tln_next n = tln_next n0) /\ (x <> b -> tln_prev n = tln_prev n0).
Proof.
  cbn. intros Hx Hne. revert Hx. rewrite lookup_alter.
  repeat (case_decide || rewrite lookup_alter || rewrite lookup_insert); subst; try done;
    same_node.
Qed.

Lemma linked_head a t b s l : b <> tl_head l ->
  (exists n, nodes s !! tl_head l = Some n /\ tln_prev n = None /\ tln_self n = None) ->
  exists n, nodes (linked a t b s) !! tl_head l = Some n /\ tln_prev n = None /\ tln_self n = None.
Proof.
  intros Hb (n & Hn & ? & ?). cbn. rewrite lookup_alter_ne by done. destruct (decide (a = tl_head l)) as [->|].
  - rewrite lookup_alter_eq, lookup_insert_ne, Hn by done. cbn. eauto.
  - rewrite lookup_alter_ne, lookup_insert_ne, Hn by done. eauto.
Qed.

Lemma linked_tail a t b s l : a <> tl_tail l ->
  (exists n, nodes s !! tl_tail l = Some n /\ tln_next n = None /\ tln_self n = None) ->
  exists n, nodes (linked a t b s) !! tl_tail l = Some n /\ tln_next n = None /\ tln_self n = None.
Proof.
  intros Ha (n & Hn & ? & ?). cbn. destruct (decide (b = tl_tail l)) as [->|].
  - rewrite lookup_alter_eq, lookup_alter_ne, lookup_insert_ne, Hn by done. cbn. eauto.
  - rewrite !lookup_alter_ne, lookup_insert_ne, Hn by done. eauto.
Qed.

Lemma unlinked_node a n b s x m : nodes (unlinked a n b s) !! x = Some m -> x <> n ->
  exists n0, nodes s !! x = Some n0 /\ tln_self m = tln_self n0 /\
    (x <> a -> tln_next m = tln_next n0) /\ (x <> b -> tln_prev m = tln_prev n0).
Proof.
  cbn. intros Hx Hne. revert Hx. rewrite lookup_alter.
  repeat (case_decide || rewrite lookup_alter); subst; try done;
    same_node.
Qed.
Lemma unlinked_head a n b s l : n <> tl_head l -> b <> tl_head l ->
  (exists n, nodes s !! tl_head l = Some n /\ tln_prev n = None /\ tln_self n = None) ->
  exists m, nodes (unlinked a n b s) !! tl_head l = Some m /\ tln_prev m = None /\ tln_self m = None.
Proof.
  intros Hn Hb (m & Hm & ? & ?). cbn. rewrite lookup_alter_ne, lookup_alter_ne by done.
  destruct (decide (a = tl_head l)) as [->|].
  - rewrite lookup_alter_eq, Hm. cbn. eauto.
  - rewrite lookup_alter_ne, Hm by done. eauto.
Qed.

Lemma unlinked_tail a n b s l : n <> tl_tail l -> a <> tl_tail l ->
  (exists n, nodes s !! tl_tail l = Some n /\ tln_next n = None /\ tln_self n = None) ->
  exists m, nodes (unlinked a n b s) !! tl_tail l = Some m /\ tln_next m = None /\ tln_self m = None.
Proof.
  intros Hn Ha (m & Hm & ? & ?). cbn. rewrite lookup_alter_ne by done. destruct (decide (b = tl_tail l)) as [->|].
  - rewrite lookup_alter_eq, lookup_alter_ne, Hm by done. cbn. eauto.
  - rewrite !lookup_alter_ne, Hm by done. eauto.
Qed.

Lemma spine_node s Q l ts x :
  lists_rep s Q -> Q !! l = Some ts -> x ∈ spine l ts -> is_Some (nodes s !! x).
Proof.
  intros Hr Hl Hx. apply lr_chain with (l := l) (ts := ts) in Hr as Hc; [|done].
  destruct (list_elem_of_split _ _ Hx) as (p & q & Hsp). rewrite Hsp in Hc. destruct q as [|b q].
  - assert (x = tl_tail l) as ->; [|destruct (lr_tail _ _ Hr _ _ Hl) as (n & -> & _); eauto].
    unfold spine in Hsp. rewrite app_comm_cons in Hsp. by apply app_inj_tail in Hsp as [_ ->].
  - apply chain_app in Hc as [_ [Hlk _]]. apply link_node in Hlk as (n & _ & -> & _). eauto.
Qed.

(** The places of a list around an insertion point. *)
Lemma place_links s Q l ts1 ts2 : lists_rep s Q -> Q !! l = Some (ts1 ++ ts2) ->
  link s (before l ts1) (behind l ts2) /\ before l ts1 <> behind l ts2 /\
  before l ts1 ∈ spine l (ts1 ++ ts2) /\ behind l ts2 ∈ spine l (ts1 ++ ts2) /\
  before l ts1 <> tl_tail l /\ behind l ts2 <> tl_head l.
Proof.
  intros Hr Hl. destruct (spine_place l ts1 ts2) as (p & q & Hsp & _ & Hh & Ht).
  pose proof (lr_chain _ _ Hr _ _ Hl) as Hc. pose proof (NoDup_spine l _ (lr_nodup _ _ Hr _ _ Hl)) as Hnd.
  rewrite Hsp in *. apply chain_app in Hc as [_ [Hlk _]].
  change (before l ts1 :: behind l ts2 :: q) with ([before l ts1] ++ behind l ts2 :: q) in Hnd.
  rewrite (assoc_L (++)) in Hnd. apply NoDup_app in Hnd as (_ & Hd & _).
  split_and!; [done|..].
  - intros Heq. apply (Hd (before l ts1)); [set_solver|rewrite Heq; set_solver].
  - set_solver.
  - set_solver.
  - intros Heq. apply (Hd (tl_tail l)); [rewrite <- Heq; set_solver|done].
  - intros Heq. apply (Hd (tl_head l)); [done|rewrite <- Heq; set_solver].
Qed.

Lemma u32_succ x : u32 (u32 x + 1) = u32 (x + 1).
Proof. unfold u32. by rewrite Zplus_mod_idemp_l. Qed.
Lemma u32_pred x : u32 (u32 x - 1) = u32 (x - 1).
Proof. unfold u32. by rewrite Zminus_mod_idemp_l. Qed.

Definition head_ok s l : Prop := exists n, nodes s !! tl_head l = Some n /\ tln_prev n = None /\ tln_self n = None.
Definition tail_ok s l : Prop := exists n, nodes s !! tl_tail l = Some n /\ tln_next n = None /\ tln_self n = None.

(** A change that concerns the list [l] and one thread only. *)
Lemma rep_change s s' Q l ts ts' :
  lists_rep s Q -> Q !! l = Some ts ->
  chain s' (spine l ts') -> head_ok s' l -> tail_ok s' l -> NoDup ts' ->
  tl_count s' = <[l := u32 (zlen ts')]> (tl_count s) ->
  (forall x, x ∉ spine l ts -> x ∉ spine l ts' -> nodes s' !! x = nodes s !! x) ->
  (forall t n, nodes s' !! t_listnode t = Some n -> tln_self n = Some t) ->
  (forall t n, nodes s' !! t_listnode t = Some n -> t ∈ ts -> t ∉ ts' -> tln_prev n = None /\ tln_next n = None) ->
  (forall t l2 ts2, t ∈ ts' -> t ∉ ts -> Q !! l2 = Some ts2 -> t ∉ ts2) ->
  lists_rep s' (<[l := ts']> Q).
Proof.
  intros Hr Hl Hc Hh Ht Hnd Hcnt Hframe Hself Hout Hin.
  assert (forall l2 ts2 x, l2 <> l -> Q !! l2 = Some ts2 -> x ∈ spine l2 ts2 -> nodes s' !! x = nodes s !! x) as Hother.
  { intros l2 ts2 x Hne HQ Hx. apply Hframe.
    - intros Hx'. eapply Hne, spine_apart; eauto.
    - rewrite elem_spine in Hx |- *. intros Hx'. destruct Hx as [->|[->|(t & -> & Htl)]];
        destruct Hx' as [?|[?|(t' & ? & Ht')]]; simplify_eq.
      destruct (decide (t' ∈ ts)) as [Hts|Hts]; [eapply Hne, lr_apart; eauto|by eapply Hin]. }
  constructor.
  - intros l2 ts2. rewrite lookup_insert. case_decide; [by intros [= <-]; subst|]. intros HQ.
    eapply chain_frame; [|by eapply lr_chain]. intros x. by eapply Hother.
  - intros l2 ts2. rewrite lookup_insert. case_decide; [by intros [= <-]; subst|]. intros HQ.
    rewrite (Hother l2 ts2) by (done || apply elem_spine; auto). by eapply lr_head.
  - intros l2 ts2. rewrite lookup_insert. case_decide; [by intros [= <-]; subst|]. intros HQ.
    rewrite (Hother l2 ts2) by (done || apply elem_spine; auto). by eapply lr_tail.
  - intros l2 ts2. rewrite Hcnt, !lookup_insert. case_decide; [by intros [= <-]|]. by eapply lr_count.
  - exact Hself.
  - intros t n Hn Hoff.
    assert (t ∉ ts') as Hts' by (eapply Hoff, lookup_insert_eq).
    destruct (decide (t ∈ ts)) as [Hts|Hts]; [by eapply Hout|].
    rewrite Hframe in Hn by (rewrite elem_spine; naive_solver).
    eapply lr_off; [done..|]. intros l2 ts2 HQ. destruct (decide (l2 = l)) as [->|]; [by simplify_eq|].
    apply (Hoff l2). by rewrite lookup_insert_ne.
  - intros l2 ts2. rewrite lookup_insert. case_decide; [by intros [= <-]|]. by eapply lr_nodup.
  - intros l1 l2 ts1 ts2 t. rewrite !lookup_insert. repeat case_decide; subst; try done.
    + intros [= <-] HQ Ht1 Ht2. destruct (decide (t ∈ ts)); [by eapply lr_apart|by destruct (Hin t l2 ts2)].
    + intros HQ [= <-] Ht1 Ht2. destruct (decide (t ∈ ts)); [by eapply lr_apart|by destruct (Hin t l1 ts1)].
    + intros. by eapply lr_apart.
Qed.

Lemma rep_linked s Q l ts1 ts2 t :
  lists_rep s Q -> Q !! l = Some (ts1 ++ ts2) -> detached s Q t ->
  lists_rep (put_count l (u32 (zlen (ts1 ++ ts2) + 1)) (linked (before l ts1) t (behind l ts2) s))
    (<[l := ts1 ++ t :: ts2]> Q).
Proof.
  intros Hr Hl [Hnode Hoff].
  destruct (place_links _ _ _ _ _ Hr Hl) as (Hlk & Hne & Ha & Hb & Hat & Hbh).
  assert (t_listnode t ∉ spine l (ts1 ++ ts2)) as Hts.
  { rewrite elem_spine. intros [?|[?|(? & ? & ?)]]; simplify_eq. by eapply Hoff. }
  pose proof (lr_nodup _ _ Hr _ _ Hl) as Hnd.
  apply (rep_change s _ Q l (ts1 ++ ts2)); [done|done|..]; cbn -[linked spine].
  - destruct (spine_place l ts1 ts2) as (p & q & Hsp & Hspt & _). rewrite (Hspt t).
    pose proof (lr_chain _ _ Hr _ _ Hl) as Hc. pose proof (NoDup_spine l _ Hnd) as Hnd'. rewrite Hsp in *.
    eapply chain_frame; [|by apply (chain_linked p _ t _ q s)]. done.
  - by apply linked_head; [|eapply lr_head].
  - by apply linked_tail; [|eapply lr_tail].
  - rewrite <- Permutation_middle. apply NoDup_cons. split; [by eapply Hoff|done].
  - f_equal. unfold zlen. rewrite !length_app. cbn. f_equal. lia.
  - intros x Hx Hx'. apply linked_other; [set_solver..|]. intros ->. apply Hx', elem_spine. set_solver.
  - intros t' n Hn. destruct (decide (t' = t)) as [->|Hne'].
    + cbn in Hn. rewrite !lookup_alter_ne, lookup_insert_eq in Hn by (intros Heq; rewrite Heq in *; done). by simplify_eq.
    + apply linked_node in Hn as (m0 & Hm0 & -> & _); [by eapply lr_self|congruence].
  - set_solver.
  - intros t' l2 ts2' Ht' Hnt HQ. assert (t' = t) as -> by set_solver. by eapply Hoff.
Qed.

(** The nodes around a thread of a list. *)
Lemma around s Q l ts1 t ts2 : lists_rep s Q -> Q !! l = Some (ts1 ++ t :: ts2) ->
  link s (before l ts1) (t_listnode t) /\ link s (t_listnode t) (behind l ts2) /\
  before l ts1 <> t_listnode t /\ behind l ts2 <> t_listnode t /\ before l ts1 <> behind l ts2 /\
  before l ts1 <> tl_tail l /\ behind l ts2 <> tl_head l.
Proof.
  intros Hr Hl. destruct (spine_place l ts1 ts2) as (p & q & _ & Hsp & _). specialize (Hsp t).
  pose proof (lr_chain _ _ Hr _ _ Hl) as Hc. pose proof (NoDup_spine l _ (lr_nodup _ _ Hr _ _ Hl)) as Hnd.
  pose proof (place_links s Q l ts1 (t :: ts2) Hr Hl) as (_ & _ & _ & _ & ? & _).
  pose proof (place_links s Q l (ts1 ++ [t]) ts2 Hr) as (_ & _ & _ & _ & _ & ?); [by rewrite <- (assoc_L (++))|].
  rewrite Hsp in Hc, Hnd. apply chain_app in Hc as [_ (? & ? & _)].
  apply NoDup_app in Hnd as (_ & _ & [Ha [Ht _]%NoDup_cons]%NoDup_cons).
  apply not_elem_of_cons in Ha as [? [? _]%not_elem_of_cons]. apply not_elem_of_cons in Ht as [? _].
  by split_and!.
Qed.

Lemma rep_unlinked s Q l ts1 t ts2 :
  lists_rep s Q -> Q !! l = Some (ts1 ++ t :: ts2) ->
  lists_rep (put_count l (u32 (zlen (ts1 ++ t :: ts2) - 1)) (unlinked (before l ts1) (t_listnode t) (behind l ts2) s))
    (<[l := ts1 ++ ts2]> Q).
Proof.
  intros Hr Hl. destruct (around _ _ _ _ _ _ Hr Hl) as (Hlk1 & Hlk2 & Han & Hbn & Hab & Hat & Hbh).
  pose proof (lr_nodup _ _ Hr _ _ Hl) as Hnd. rewrite <- Permutation_middle in Hnd. apply NoDup_cons in Hnd as [Hout Hnd].
  destruct (spine_place l ts1 ts2) as (p & q & Hsp & Hspt & _). specialize (Hspt t).
  apply (rep_change s _ Q l (ts1 ++ t :: ts2)); [done|done|..]; cbn -[unlinked spine].
  - rewrite Hsp. eapply chain_frame; [|apply (chain_unlinked p _ (t_listnode t) _ q s)]; [done|..]; rewrite <- Hspt.
    + by eapply NoDup_spine, lr_nodup.
    + by eapply lr_chain.
  - by apply unlinked_head; [..|eapply lr_head].
  - by apply unlinked_tail; [..|eapply lr_tail].
  - done.
  - f_equal. unfold zlen. rewrite !length_app. cbn. f_equal. lia.
  - rewrite Hspt. intros x Hx _. rewrite elem_of_app, !elem_of_cons in Hx. apply unlinked_other; naive_solver.
  - intros t' n Hn. destruct (decide (t' = t)) as [->|Hne'].
    + cbn in Hn. rewrite lookup_alter_eq in Hn. rewrite !lookup_alter_ne in Hn by done.
      apply fmap_Some in Hn as (m0 & Hm0 & ->). cbn. by eapply lr_self.
    + apply unlinked_node in Hn as (m0 & Hm0 & -> & _); [by eapply lr_self|congruence].
  - intros t' n Hn Hin Hnin. assert (t' = t) as -> by set_solver. cbn in Hn.
    rewrite lookup_alter_eq in Hn. apply fmap_Some in Hn as (n0 & _ & ->). done.
  - set_solver.
Qed.

(** ** The operations *)

Lemma srun_count {B} l c (f : Z -> SM tlstore B) s :
  tl_count s !! l = Some c -> sbind (rd_count l) f s = f c s.
Proof. intros Hc. unfold rd_count, sbind, sget, sderef. by rewrite Hc. Qed.

Lemma count_up_run l n s : tl_count s !! l = Some (u32 n) -> count_up l s = inr (tt, put_count l (u32 (n + 1)) s).
Proof. intros Hc. unfold count_up. rewrite (srun_count _ _ _ _ Hc), u32_succ. done. Qed.

Lemma count_down_run l n s : tl_count s !! l = Some (u32 n) -> count_down l s = inr (tt, put_count l (u32 (n - 1)) s).
Proof. intros Hc. unfold count_down. rewrite (srun_count _ _ _ _ Hc), u32_pred. done. Qed.

(** Threads keep their nodes. *)
Definition same_nodes s s' : Prop := forall t, is_Some (nodes s !! t_listnode t) -> is_Some (nodes s' !! t_listnode t).

Lemma same_nodes_linked a t b c l s : same_nodes s (put_count l c (linked a t b s)).
Proof.
  intros t'. cbn. rewrite !lookup_alter_is_Some, lookup_insert_is_Some'. auto.
Qed.

Lemma same_nodes_unlinked a n b c l s : same_nodes s (put_count l c (unlinked a n b s)).
Proof. intros t'. cbn. by rewrite !lookup_alter_is_Some. Qed.

(** Inserting [t] at a place of [l], whichever neighbour the code starts from. *)
Definition inserts s Q l ts1 ts2 t (m : SM tlstore unit) : Prop :=
  exists s', m s = inr (tt, s') /\ lists_rep s' (<[l := ts1 ++ t :: ts2]> Q) /\ same_nodes s s'.

Lemma insert_at s Q l ts1 ts2 t :
  lists_rep s Q -> Q !! l = Some (ts1 ++ ts2) -> detached s Q t ->
  inserts s Q l ts1 ts2 t (sbind (threadlist_insertafternode (before l ts1) t) (fun _ => count_up l)) /\
  inserts s Q l ts1 ts2 t (sbind (threadlist_insertbeforenode t (behind l ts2)) (fun _ => count_up l)).
Proof.
  intros Hr Hl Hd. destruct (place_links _ _ _ _ _ Hr Hl) as (Hlk & Hne & Ha & Hb & _).
  destruct (link_node _ _ _ Hlk) as (na & nb & Hna & Hnx & Hnb & Hpv).
  pose proof Hd as [[nt Hnt] Hoff]. pose proof (lr_self _ _ Hr _ _ Hnt) as Hself.
  assert (t_listnode t ∉ spine l (ts1 ++ ts2)) as Hts.
  { rewrite elem_spine. intros [?|[?|(? & ? & ?)]]; simplify_eq. by eapply Hoff. }
  assert (before l ts1 <> t_listnode t /\ behind l ts2 <> t_listnode t) as [? ?]
    by (split; intros Heq; apply Hts; by rewrite <- Heq).
  split; eexists; (split; [|split; [by apply rep_linked|apply same_nodes_linked]]).
  - erewrite srun_call by (by eapply insertafternode_run). apply count_up_run, (lr_count _ _ Hr _ _ Hl).
  - erewrite srun_call by (by apply (insertbeforenode_run (before l ts1) _ _ na nb nt)). apply count_up_run, (lr_count _ _ Hr _ _ Hl).
Qed.

(** Removing a thread of [l]. *)
Lemma remove_at s Q l ts1 t ts2 : lists_rep s Q -> Q !! l = Some (ts1 ++ t :: ts2) ->
  exists s', sbind (threadlist_removenode (t_listnode t)) (fun _ => count_down l) s = inr (tt, s') /\
    lists_rep s' (<[l := ts1 ++ ts2]> Q) /\ same_nodes s s'.
Proof.
  intros Hr Hl. destruct (around _ _ _ _ _ _ Hr Hl) as (Hlk1 & Hlk2 & ? & ? & ? & _).
  destruct (link_node _ _ _ Hlk1) as (na & nt & Hna & _ & Hnt & Hpv).
  destruct (link_node _ _ _ Hlk2) as (nt' & nb & Hnt' & Hnx & Hnb & _). simplify_eq.
  eexists. split; [|split; [by apply rep_unlinked|apply same_nodes_unlinked]].
  erewrite srun_call by (by apply (removenode_run (before l ts1) _ (behind l ts2) na nt nb)). apply count_down_run, (lr_count _ _ Hr _ _ Hl).
Qed.

(** The node at a place of the list carries the thread there, or ends the list. *)
Lemma behind_node s Q l ts1 ts2 : lists_rep s Q -> Q !! l = Some (ts1 ++ ts2) ->
  exists n, nodes s !! behind l ts2 = Some n /\ tln_self n = head ts2 /\ tln_prev n = Some (before l ts1) /\
    is_null (tln_next n) = is_null (head ts2).
Proof.
  intros Hr Hl. destruct (place_links _ _ _ _ _ Hr Hl) as (Hlk & _).
  destruct (link_node _ _ _ Hlk) as (_ & n & _ & _ & Hn & Hp). exists n. split_and!; [done| |done|].
  all: unfold behind in Hn; destruct ts2 as [|t ts2]; cbn in Hn |- *.
  - destruct (lr_tail _ _ Hr _ _ Hl) as (n' & ? & _ & ?). by simplify_eq.
  - by eapply lr_self.
  - destruct (lr_tail _ _ Hr _ _ Hl) as (n' & ? & Hx & ?). simplify_eq. by rewrite Hx.
  - destruct (around _ _ _ _ _ _ Hr Hl) as (_ & Hlk2 & _). destruct (link_node _ _ _ Hlk2) as (n' & _ & ? & Hx & _).
    simplify_eq. by rewrite Hx.
Qed.

Lemma before_node s Q l ts1 ts2 : lists_rep s Q -> Q !! l = Some (ts1 ++ ts2) ->
  exists n, nodes s !! before l ts1 = Some n /\ tln_self n = last ts1 /\ tln_next n = Some (behind l ts2) /\
    is_null (tln_prev n) = is_null (last ts1).
Proof.
  intros Hr Hl. destruct (place_links _ _ _ _ _ Hr Hl) as (Hlk & _).
  destruct (link_node _ _ _ Hlk) as (n & _ & Hn & Hp & _). exists n. split_and!; [done| |done|].
  all: unfold before in Hn; destruct ts1 as [|t ts1 _] using rev_ind; rewrite ?last_snoc in *; cbn in Hn |- *.
  - destruct (lr_head _ _ Hr _ _ Hl) as (n' & ? & _ & ?). by simplify_eq.
  - by eapply lr_self.
  - destruct (lr_head _ _ Hr _ _ Hl) as (n' & ? & Hx & ?). simplify_eq. by rewrite Hx.
  - rewrite <- (assoc_L (++)) in Hl. destruct (around _ _ _ _ _ _ Hr Hl) as (Hlk2 & _).
    destruct (link_node _ _ _ Hlk2) as (_ & n' & _ & _ & ? & Hx). simplify_eq. by rewrite Hx.
Qed.

Lemma addhead_run s Q l ts t : lists_rep s Q -> Q !! l = Some ts -> detached s Q t ->
  exists s', threadlist_addhead l t s = inr (tt, s') /\ lists_rep s' (<[l := t :: ts]> Q) /\ same_nodes s s'.
Proof. intros Hr Hl Hd. exact (proj1 (insert_at s Q l [] ts t Hr Hl Hd)). Qed.

Lemma addtail_run s Q l ts t : lists_rep s Q -> Q !! l = Some ts -> detached s Q t ->
  exists s', threadlist_addtail l t s = inr (tt, s') /\ lists_rep s' (<[l := ts ++ [t]]> Q) /\ same_nodes s s'.
Proof.
  intros Hr Hl Hd. apply (proj2 (insert_at s Q l ts [] t Hr ltac:(by rewrite app_nil_r) Hd)).
Qed.

Lemma remhead_run s Q l ts : lists_rep s Q -> Q !! l = Some ts ->
  exists s', threadlist_remhead l s = inr (head ts, s') /\ lists_rep s' (<[l := tail ts]> Q) /\ same_nodes s s'.
Proof.
  intros Hr Hl. destruct (before_node s Q l [] ts Hr Hl) as (h & Hh & _ & Hnx & _).
  destruct (behind_node s Q l [] ts Hr Hl) as (n & Hn & _ & _ & Hnull).
  unfold threadlist_remhead. rewrite (srun_rd _ h), Hnx, (srun_rd _ n), Hnull by done.
  destruct ts as [|t ts]; cbn.
  - exists s. split; [done|]. rewrite insert_id by done. by split; [|intros ?].
  - destruct (remove_at s Q l [] t ts Hr Hl) as (s' & Hs' & Hr' & Hsame). exists s'. split; [|done].
    rewrite <- srun_bind, (srun_call _ _ _ _ _ Hs').
    destruct (Hsame t) as [n' Hn']; [cbn in Hn; eauto|]. rewrite (srun_rd _ n') by done.
    unfold sret. do 2 f_equal. by eapply lr_self.
Qed.

Lemma remtail_run s Q l ts : lists_rep s Q -> Q !! l = Some ts ->
  exists s', threadlist_remtail l s = inr (last ts, s') /\ lists_rep s' (<[l := removelast ts]> Q) /\ same_nodes s s'.
Proof.
  intros Hr Hl. assert (Q !! l = Some (ts ++ [])) as Hl' by (by rewrite app_nil_r).
  destruct (behind_node s Q l ts [] Hr Hl') as (h & Hh & _ & Hpv & _).
  destruct (before_node s Q l ts [] Hr Hl') as (n & Hn & _ & _ & Hnull).
  unfold threadlist_remtail. rewrite (srun_rd _ h), Hpv, (srun_rd _ n), Hnull by done.
  destruct ts as [|t ts _] using rev_ind; cbn.
  - exists s. split; [done|]. rewrite insert_id by done. by split; [|intros ?].
  - unfold before in *. rewrite last_snoc, removelast_last in *. cbn [fmap option_fmap option_map default is_null].
    destruct (remove_at s Q l ts t [] Hr Hl) as (s' & Hs' & Hr' & Hsame).
    rewrite app_nil_r in Hr'. exists s'. split; [|done].
    unfold sderef. unfold sbind at 1. rewrite <- srun_bind, (srun_call _ _ _ _ _ Hs').
    destruct (Hsame t) as [n' Hn']; [cbn in Hn; eauto|]. rewrite (srun_rd _ n') by done.
    unfold sret. do 2 f_equal. by eapply lr_self.
Qed.

Lemma isempty_run s Q l ts : lists_rep s Q -> Q !! l = Some ts -> zlen ts < 2^32 ->
  threadlist_isempty l s = inr (bool_decide (ts = []), s).
Proof.
  intros Hr Hl Hlen. unfold threadlist_isempty. rewrite (srun_count _ _ _ _ (lr_count _ _ Hr _ _ Hl)).
  unfold sret. do 2 f_equal. rewrite u32_small by (unfold is_u32, zlen in *; lia).
  unfold zlen. destruct ts; [done|]. rewrite bool_decide_eq_false_2 by done. apply Z.eqb_neq. cbn. lia.
Qed.

(** ** Lists as an abstract type *)

Inductive tl_op :=
  | AddHead l t | AddTail l t | RemHead l | RemTail l | IsEmpty l
  | InsertAfter l (onlist t : tid) | InsertBefore l (t onlist : tid) | Remove l t | ForAll l.

Inductive tl_res := RNone | RThread (o : option tid) | RBool (b : bool) | RThreads (ts : list tid).

(** What each operation is on sequences, and when it may be called. *)
Inductive spec_step (Q : gmap L (list tid)) : tl_op -> tl_res -> gmap L (list tid) -> Prop :=
  | spec_addhead l t ts : Q !! l = Some ts -> (forall l' ts', Q !! l' = Some ts' -> t ∉ ts') ->
      spec_step Q (AddHead l t) RNone (<[l := t :: ts]> Q)
  | spec_addtail l t ts : Q !! l = Some ts -> (forall l' ts', Q !! l' = Some ts' -> t ∉ ts') ->
      spec_step Q (AddTail l t) RNone (<[l := ts ++ [t]]> Q)
  | spec_remhead l ts : Q !! l = Some ts -> spec_step Q (RemHead l) (RThread (head ts)) (<[l := tail ts]> Q)
  | spec_remtail l ts : Q !! l = Some ts -> spec_step Q (RemTail l) (RThread (last ts)) (<[l := removelast ts]> Q)
  | spec_isempty l ts : Q !! l = Some ts -> zlen ts < 2^32 ->
      spec_step Q (IsEmpty l) (RBool (bool_decide (ts = []))) Q
  | spec_insertafter l o t ts1 ts2 : Q !! l = Some (ts1 ++ o :: ts2) -> (forall l' ts', Q !! l' = Some ts' -> t ∉ ts') ->
      spec_step Q (InsertAfter l o t) RNone (<[l := ts1 ++ o :: t :: ts2]> Q)
  | spec_insertbefore l o t ts1 ts2 : Q !! l = Some (ts1 ++ o :: ts2) -> (forall l' ts', Q !! l' = Some ts' -> t ∉ ts') ->
      spec_step Q (InsertBefore l t o) RNone (<[l := ts1 ++ t :: o :: ts2]> Q)
  | spec_remove l t ts1 ts2 : Q !! l = Some (ts1 ++ t :: ts2) ->
      spec_step Q (Remove l t) RNone (<[l := ts1 ++ ts2]> Q)
  | spec_forall l ts : Q !! l = Some ts -> spec_step Q (ForAll l) (RThreads ts) Q.

(** The code of each operation; a visit has as many steps as there are nodes
    in memory, which no list exceeds. *)
Definition run_op (op : tl_op) : SM tlstore tl_res :=
  match op with
  | AddHead l t => threadlist_addhead l t ;; sret RNone
  | AddTail l t => threadlist_addtail l t ;; sret RNone
  | RemHead l => o <- threadlist_remhead l ;; sret (RThread o)
  | RemTail l => o <- threadlist_remtail l ;; sret (RThread o)
  | IsEmpty l => b <- threadlist_isempty l ;; sret (RBool b)
  | InsertAfter l onlist t => threadlist_insertafter l onlist t ;; sret RNone
  | InsertBefore l t onlist => threadlist_insertbefore l t onlist ;; sret RNone
  | Remove l t => threadlist_remove l t ;; sret RNone
  | ForAll l =>
      n <- sget (fun s => size (nodes s)) ;;
      ts <- THREADLIST_FORALL n l ;; sret (RThreads ts)
  end.

Lemma length_nodes s Q l ts : lists_rep s Q -> Q !! l = Some ts -> (length ts <= size (nodes s))%nat.
Proof.
  intros Hr Hl. rewrite <- (length_fmap t_listnode ts), <- size_dom.
  rewrite <- (size_list_to_set (C := gset node) (t_listnode <$> ts)).
  - apply subseteq_size. intros x [t [-> Ht]]%elem_of_list_to_set%list_elem_of_fmap.
    apply elem_of_dom. eapply spine_node; [done..|]. apply elem_spine. eauto.
  - apply NoDup_fmap; [|by eapply lr_nodup]. intros ?? Heq. by injection Heq.
Qed.

(** The loop of [THREADLIST_FORALL] visits the rest of the list and ends. *)
Lemma forall_from_run s Q l ts2 : forall ts1 fuel, lists_rep s Q -> Q !! l = Some (ts1 ++ ts2) ->
  (length ts2 <= fuel)%nat -> forall_from fuel (head ts2) s = inr (ts2, s).
Proof.
  induction ts2 as [|t ts2 IH]; intros ts1 fuel Hr Hl Hf; destruct fuel as [|fuel]; cbn in *; try done; [lia|].
  destruct (around _ _ _ _ _ _ Hr Hl) as (_ & Hlk & _). destruct (link_node _ _ _ Hlk) as (n & _ & Hn & Hnx & _).
  assert (Q !! l = Some ((ts1 ++ [t]) ++ ts2)) as Hl' by (by rewrite <- (assoc_L (++))).
  destruct (behind_node _ _ _ _ _ Hr Hl') as (m & Hm & Hself & _).
  rewrite (srun_rd _ n), Hnx, (srun_rd _ m), Hself by done.
  rewrite (srun_call _ ts2 s) by (eapply IH; [done|done|lia]). done.
Qed.

Lemma forall_run s Q l ts fuel : lists_rep s Q -> Q !! l = Some ts -> (length ts <= fuel)%nat ->
  THREADLIST_FORALL fuel l s = inr (ts, s).
Proof.
  intros Hr Hl Hf. destruct (before_node s Q l [] ts Hr Hl) as (h & Hh & _ & Hnx & _).
  destruct (behind_node s Q l [] ts Hr Hl) as (n & Hn & Hself & _).
  unfold THREADLIST_FORALL. rewrite (srun_rd _ h), Hnx, (srun_rd _ n), Hself by done.
  by apply (forall_from_run s Q l ts []).
Qed.

(** The threads an operation puts on a list. *)
Definition op_thread (op : tl_op) : option tid :=
  match op with
  | AddHead _ t | AddTail _ t | InsertAfter _ _ t | InsertBefore _ t _ => Some t
  | _ => None
  end.

Definition known s (op : tl_op) : Prop := forall t, op_thread op = Some t -> is_Some (nodes s !! t_listnode t).

Lemma before_snoc l ts t : before l (ts ++ [t]) = t_listnode t.
Proof. unfold before. by rewrite last_snoc. Qed.

Lemma op_refines s Q op r Q' : lists_rep s Q -> known s op -> spec_step Q op r Q' ->
  exists s', run_op op s = inr (r, s') /\ lists_rep s' Q' /\ same_nodes s s'.
Proof.
  intros Hr Hk Hstep. destruct Hstep; cbn [run_op].
  - destruct (addhead_run s Q l ts t) as (s' & Hs & ?); [done|done|by split; [apply Hk|]|].
    exists s'. by rewrite (srun_call _ _ _ _ _ Hs).
  - destruct (addtail_run s Q l ts t) as (s' & Hs & ?); [done|done|by split; [apply Hk|]|].
    exists s'. by rewrite (srun_call _ _ _ _ _ Hs).
  - destruct (remhead_run s Q l ts) as (s' & Hs & ?); [done..|]. exists s'. by rewrite (srun_call _ _ _ _ _ Hs).
  - destruct (remtail_run s Q l ts) as (s' & Hs & ?); [done..|]. exists s'. by rewrite (srun_call _ _ _ _ _ Hs).
  - exists s. rewrite (srun_call _ _ _ _ _ (isempty_run s Q l ts Hr ltac:(done) ltac:(done))). by split_and!; [..|intros ?].
  - destruct (proj1 (insert_at s Q l (ts1 ++ [o]) ts2 t Hr ltac:(by rewrite <- (assoc_L (++))) ltac:(by split; [apply Hk|])))
      as (s' & Hs & Hr' & ?). rewrite before_snoc in Hs. rewrite <- (assoc_L (++)) in Hr'.
    exists s'. unfold threadlist_insertafter. by rewrite (srun_call _ _ _ _ _ Hs).
  - destruct (proj2 (insert_at s Q l ts1 (o :: ts2) t Hr ltac:(done) ltac:(by split; [apply Hk|])))
      as (s' & Hs & Hr' & ?). exists s'. unfold threadlist_insertbefore. by rewrite (srun_call _ _ _ _ _ Hs).
  - destruct (remove_at s Q l ts1 t ts2) as (s' & Hs & ?); [done..|]. exists s'.
    unfold threadlist_remove. by rewrite (srun_call _ _ _ _ _ Hs).
  - exists s. rewrite srun_get. erewrite srun_call by (eapply forall_run; [done|done|by eapply length_nodes]).
    by split_and!; [..|intros ?].
Qed.

(** Sequences of operations, with their results. *)
Fixpoint run_ops (ops : list tl_op) : SM tlstore (list tl_res) :=
  match ops with
  | [] => sret []
  | op :: ops' => r <- run_op op ;; rs <- run_ops ops' ;; sret (r :: rs)
  end.

Inductive spec_steps : gmap L (list tid) -> list tl_op -> list tl_res -> gmap L (list tid) -> Prop :=
  | spec_nil Q : spec_steps Q [] [] Q
  | spec_cons Q op r Q1 ops rs Q' : spec_step Q op r Q1 -> spec_steps Q1 ops rs Q' ->
      spec_steps Q (op :: ops) (r :: rs) Q'.

(** (C34) Thread lists implement sequences of threads.  From a store that holds
    the lists [Q], any sequence of calls that the abstract lists allow (no
    thread is put on a list while it is on one) returns the same results as
    on sequences, including the threads [THREADLIST_FORALL] visits and in
    which order, and the store it leaves holds the abstract lists reached. *)
Theorem threadlist_refines s Q ops rs Q' :
  lists_rep s Q -> (forall op, op ∈ ops -> known s op) -> spec_steps Q ops rs Q' ->
  exists s', run_ops ops s = inr (rs, s') /\ lists_rep s' Q'.
Proof.
  intros Hr Hk Hsteps. revert s Hr Hk. induction Hsteps as [Q|Q op r Q1 ops rs Q' Hstep Hsteps IH]; intros s Hr Hk.
  - by exists s.
  - destruct (op_refines s Q op r Q1) as (s1 & Hs1 & Hr1 & Hsame); [done|apply Hk; set_solver|done|].
    destruct (IH s1 Hr1) as (s' & Hs' & Hr').
    + intros op' Hop t Ht. apply Hsame. eapply Hk; [|done]. set_solver.
    + exists s'. cbn. by rewrite (srun_call _ _ _ _ _ Hs1), (srun_call _ _ _ _ _ Hs').
Qed.

(** ** Creation and clean-up *)

Lemma init_run s Q l : lists_rep s Q -> Q !! l = None ->
  exists s', threadlist_init l s = inr (tt, s') /\ lists_rep s' (<[l := []]> Q) /\ same_nodes s s'.
Proof.
  intros Hr Hl. eexists. split; [reflexivity|]. split; [|by intros t; cbn; rewrite !lookup_insert_ne by done].
  assert (forall x, x <> tl_head l -> x <> tl_tail l ->
    <[tl_tail l := mk_tln (Some (tl_head l)) None None]> (<[tl_head l := mk_tln None (Some (tl_tail l)) None]> (nodes s)) !! x
    = nodes s !! x) as Hx by (intros; by rewrite !lookup_insert_ne).
  constructor; cbn -[chain spine]; intros l' ts'; rewrite ?(lookup_insert Q), ?(lookup_insert (tl_count s));
    repeat case_decide; subst.
  - intros [= <-]. cbn. unfold link, nxt, prv. cbn. by rewrite lookup_insert_eq, lookup_insert_ne, lookup_insert_eq.
  - intros HQ. eapply chain_frame; [|by eapply lr_chain]. intros x [->|[->|(t & -> & _)]]%elem_spine; apply Hx; congruence.
  - rewrite lookup_insert_ne, lookup_insert_eq by done. eauto.
  - intros HQ. rewrite Hx by congruence. by eapply lr_head.
  - rewrite lookup_insert_eq. eauto.
  - intros HQ. rewrite Hx by congruence. by eapply lr_tail.
  - by intros [= <-].
  - by eapply lr_count.
  - rewrite Hx by done. by eapply lr_self.
  - rewrite Hx by done. intros Hn Hoff. eapply lr_off; [done..|]. intros l2 ts2 HQ. apply (Hoff l2).
    rewrite lookup_insert_ne; [done|congruence].
  - intros [= <-]. apply NoDup_nil_2.
  - by eapply lr_nodup.
  - done.
  - intros ??? [= <-] _ []%not_elem_of_nil.
  - intros ??? _ [= <-] _ []%not_elem_of_nil.
  - intros ???. by eapply lr_apart.
Qed.

(** A list that passes [threadlist_cleanup] can be forgotten. *)
Lemma cleanup_run s Q l : lists_rep s Q -> Q !! l = Some [] ->
  threadlist_cleanup l s = inr (tt, s) /\ lists_rep s (delete l Q).
Proof.
  intros Hr Hl. split.
  - unfold threadlist_cleanup. rewrite (srun_call _ _ _ _ _ (isempty_run s Q l [] Hr Hl ltac:(done))).
    rewrite bool_decide_eq_true_2, srun_assert by done. by rewrite (srun_count _ _ _ _ (lr_count _ _ Hr _ _ Hl)).
  - constructor; try (intros l' ts' [_ HQ]%lookup_delete_Some; by eapply Hr).
    + apply Hr.
    + intros t n Hn Hoff. apply (lr_off _ _ Hr _ _ Hn). intros l' ts' HQ. destruct (decide (l' = l)) as [->|].
      * rewrite Hl in HQ. injection HQ as <-. apply not_elem_of_nil.
      * apply (Hoff l'). by rewrite lookup_delete_ne.
    + intros l1 l2 ts1 ts2 t [_ H1]%lookup_delete_Some [_ H2]%lookup_delete_Some. by eapply lr_apart.
Qed.

Lemma node_init_run s Q t : lists_rep s Q -> (forall l ts, Q !! l = Some ts -> t ∉ ts) ->
  exists s', threadlistnode_init t s = inr (tt, s') /\ lists_rep s' Q /\ same_nodes s s' /\ detached s' Q t.
Proof.
  intros Hr Hoff. eexists. split; [reflexivity|].
  assert (forall x, x <> t_listnode t ->
    nodes (put_node (t_listnode t) (mk_tln None None (Some t)) s) !! x = nodes s !! x) as Hx
    by (intros; cbn; by rewrite lookup_insert_ne).
  split_and!.
  - constructor; intros *; rewrite ?Hx by done; try (by apply Hr).
    + intros HQ. eapply chain_frame; [|by eapply lr_chain]. intros x [->|[->|(t' & -> & Ht')]]%elem_spine; apply Hx; [done..|].
      intros [= ->]. by eapply Hoff.
    + cbn. rewrite lookup_insert. case_decide; simplify_eq; [by intros [= <-]|]. by apply Hr.
    + cbn. rewrite lookup_insert. case_decide; simplify_eq; [by intros [= <-]|]. by apply Hr.
  - intros t'. cbn. rewrite lookup_insert_is_Some'. auto.
  - split; [|done]. cbn. rewrite lookup_insert_eq. eauto.
Qed.

(** A thread that is on no list can be freed. *)
Lemma rep_delete_node s Q t : lists_rep s Q -> (forall l ts, Q !! l = Some ts -> t ∉ ts) ->
  lists_rep (mk_tls (delete (t_listnode t) (nodes s)) (tl_count s)) Q.
Proof.
  intros Hr Hoff.
  assert (forall x, x <> t_listnode t -> nodes (mk_tls (delete (t_listnode t) (nodes s)) (tl_count s)) !! x = nodes s !! x) as Hx
    by (intros; cbn; by rewrite lookup_delete_ne).
  constructor; intros *; rewrite ?Hx by done; try (by apply Hr).
  - intros HQ. eapply chain_frame; [|by eapply lr_chain]. intros x [->|[->|(t' & -> & Ht')]]%elem_spine; apply Hx; [done..|].
    intros [= ->]. by eapply Hoff.
  - cbn. intros [_ Hn]%lookup_delete_Some. by eapply lr_self.
  - cbn. intros [_ Hn]%lookup_delete_Some. by eapply lr_off.
Qed.

Lemma node_cleanup_run s Q t : lists_rep s Q -> detached s Q t -> threadlistnode_cleanup t s = inr (tt, s).
Proof.
  intros Hr [[n Hn] Hoff]. unfold threadlistnode_cleanup. rewrite (srun_rd _ n) by done.
  destruct (lr_off _ _ Hr _ _ Hn Hoff) as [-> ->]. rewrite (lr_self _ _ Hr _ _ Hn). done.
Qed.

End threadlist.

Arguments node : clear implicits.
Arguments threadlistnode : clear implicits.
Arguments tlstore L {_ _}.

(** ** Two lists and three threads *)

Lemma rep_empty {L} `{Countable L} : lists_rep (mk_tls (∅ : gmap (node L) (threadlistnode L)) (∅ : gmap L Z)) ∅.
Proof. constructor; cbn; intros *; rewrite lookup_empty; done. Qed.

(** The store after a run that returns. *)
Definition after {S A} (m : SM S A) (s : S) : S := match m s with inr (_, s') => s' | inl _ => s end.

Lemma after_eq {S A} (m : SM S A) a s s' : m s = inr (a, s') -> after m s = s'.
Proof. unfold after. by intros ->. Qed.

Lemma after_init {L} `{Countable L} (s : tlstore L) Q l :
  lists_rep s Q -> Q !! l = None -> lists_rep (after (threadlist_init l) s) (<[l := []]> Q).
Proof. intros Hr Hl. destruct (init_run s Q l Hr Hl) as (s' & Hs & Hr' & _). by rewrite (after_eq _ _ _ _ Hs). Qed.

Lemma after_node_init {L} `{Countable L} (s : tlstore L) Q t :
  lists_rep s Q -> (forall l ts, Q !! l = Some ts -> t ∉ ts) -> lists_rep (after (threadlistnode_init t) s) Q.
Proof. intros Hr Hl. destruct (node_init_run s Q t Hr Hl) as (s' & Hs & Hr' & _). by rewrite (after_eq _ _ _ _ Hs). Qed.

Definition off_all_dec (Q : gmap positive (list tid)) (t : tid) : bool := bool_decide (map_Forall (fun _ ts => t ∉ ts) Q).

Lemma off_all Q t : off_all_dec Q t = true -> forall l ts, Q !! l = Some ts -> t ∉ ts.
Proof. intros Hd. exact (proj1 (bool_decide_eq_true _) Hd). Qed.

Definition demo_lists : gmap positive (list tid) := <[2%positive := []]> (<[1%positive := []]> ∅).
Definition demo_store : tlstore positive :=
  after (threadlistnode_init 3%positive) (after (threadlistnode_init 2%positive) (after (threadlistnode_init 1%positive)
    (after (threadlist_init 2%positive) (after (threadlist_init 1%positive) (mk_tls ∅ ∅))))).

Lemma demo_rep : lists_rep demo_store demo_lists.
Proof.
  unfold demo_store, demo_lists. do 3 (apply after_node_init; [|apply off_all; vm_compute; reflexivity]).
  apply after_init; [|by vm_compute]. apply after_init; [apply rep_empty|done].
Qed.

Definition demo_ops : list (tl_op (L := positive)) :=
  [AddTail 1 1; AddTail 1 2; AddHead 1 3; ForAll 1; RemHead 1; AddTail 2 3; RemTail 1; InsertBefore 2 2 3; Remove 2 3; IsEmpty 1; ForAll 2]%positive.

Lemma threadlist_refines_witness : exists Q' s',
  run_ops demo_ops demo_store
  = inr ([RNone; RNone; RNone; RThreads [3; 1; 2]; RThread (Some 3); RNone; RThread (Some 2); RNone; RNone; RBool false; RThreads [2]]%positive, s')
  /\ lists_rep s' Q'.
Proof.
  eexists. apply (threadlist_refines demo_store demo_lists).
  - exact demo_rep.
  - apply Forall_forall. repeat constructor; intros t [= <-]; vm_compute; eauto.
  - eapply spec_cons; [eapply spec_addtail; [reflexivity|apply off_all; vm_compute; reflexivity]|].
    eapply spec_cons; [eapply spec_addtail; [reflexivity|apply off_all; vm_compute; reflexivity]|].
    eapply spec_cons; [eapply spec_addhead; [reflexivity|apply off_all; vm_compute; reflexivity]|].
    eapply spec_cons; [eapply spec_forall; reflexivity|].
    eapply spec_cons; [eapply (spec_remhead _ _ [3; 1; 2]%positive); reflexivity|].
    eapply spec_cons; [eapply spec_addtail; [reflexivity|apply off_all; vm_compute; reflexivity]|].
    eapply spec_cons; [eapply (spec_remtail _ _ [1; 2]%positive); reflexivity|].
    eapply spec_cons; [eapply (spec_insertbefore _ _ _ _ []); [reflexivity|apply off_all; vm_compute; reflexivity]|].
    eapply spec_cons; [eapply (spec_remove _ _ _ [2%positive]); reflexivity|].
    eapply spec_cons; [eapply (spec_isempty _ _ [1%positive]); [reflexivity|done]|].
    eapply spec_cons; [eapply spec_forall; reflexivity|]. apply spec_nil.
Defined.
