(* ===== verification/Synch.v ===== *)
(** * Synchronisation between threads ([kern/thread/synch.c], [kern/thread/thread.c])

    Semaphores, locks (built on a semaphore, [USE_SEMAPHORE_FOR_LOCK]) and
    condition variables as programs whose steps are interleaved: any number of
    threads run any sequences of calls, and the scheduler may pick any thread
    that is not asleep at every step.  A step is one access to shared data, one
    assertion, or the acquisition or release of a spinlock; the code between
    two spinlock operations works on data the spinlock protects, which
    [SynchTypes.v] proves.

    A spinlock is held by a CPU in the code; a thread that holds a spinlock
    keeps its CPU (interrupts are off, and [wchan_sleep] asserts that the only
    spinlock held is the one it releases), so here the holder is the thread,
    and [c_spinlocks] is counted per thread.  Run queues are modelled in
    [Sched.v]; here a thread made runnable may take its next step. *)

From stdpp Require Import functions.
From S2P Require Import Prelude State Monad.

(** ** Names of the shared objects *)

Notation tidx := nat (only parsing).

(** A semaphore of its own, or the [lk_sem] of a lock. *)
Inductive semid := sem_of (x : positive) | lk_sem (l : positive).
#[export] Instance semid_eq_dec : EqDecision semid.
Proof. solve_decision. Defined.

Inductive spin := sem_lock (s : semid) | lk_lock (l : positive) | cv_lock (c : positive).
#[export] Instance spin_eq_dec : EqDecision spin.
Proof. solve_decision. Defined.

Inductive chan := sem_wchan (s : semid) | cv_wchan (c : positive).
#[export] Instance chan_eq_dec : EqDecision chan.
Proof. solve_decision. Defined.

(** ** Steps *)

#[local] Set Warnings "-register-all".
Inductive instr :=
  | SpinAcquire (k : spin)
  | SpinRelease (k : spin)
  | AssertHeld (k : spin)
  | AssertOneSpinlock
  | AssertNotInInterrupt
  | WhileCountZero (s : semid) (body : list instr)
  | AssertCountPos (s : semid)
  | CountDown (s : semid)
  | CountUp (s : semid)
  | SwitchToSleep (c : chan) (k : spin)
  | WakeHead (c : chan)
  | WakeEach (c : chan)
  | TestOwner (l : positive)
  | PrintIfRes (msg : string)
  | AssertRes (b : bool)
  | AssertNoOwner (l : positive)
  | SetOwner (l : positive)
  | ClearOwner (l : positive).

(** ** The functions of the source *)

(** [thread_switch(S_SLEEP, wc, lk)] puts the thread on the channel and
    releases the spinlock; it returns when the thread was woken. *)
Definition wchan_sleep (wc : chan) (lk : spin) : list instr :=
  [AssertNotInInterrupt; AssertHeld lk; AssertOneSpinlock; SwitchToSleep wc lk; SpinAcquire lk].

Definition wchan_wakeone (wc : chan) (lk : spin) : list instr := [AssertHeld lk; WakeHead wc].
Definition wchan_wakeall (wc : chan) (lk : spin) : list instr := [AssertHeld lk; WakeEach wc].

Definition P (sem : semid) : list instr :=
  [AssertNotInInterrupt; SpinAcquire (sem_lock sem);
   WhileCountZero sem (wchan_sleep (sem_wchan sem) (sem_lock sem));
   AssertCountPos sem; CountDown sem; SpinRelease (sem_lock sem)].

Definition V (sem : semid) : list instr :=
  [SpinAcquire (sem_lock sem); CountUp sem; AssertCountPos sem] ++
  wchan_wakeone (sem_wchan sem) (sem_lock sem) ++
  [SpinRelease (sem_lock sem)].

Definition lock_do_i_hold (lock : positive) : list instr :=
  [SpinAcquire (lk_lock lock); TestOwner lock; SpinRelease (lk_lock lock)].

Definition lock_acquire (lock : positive) : list instr :=
  lock_do_i_hold lock ++ [PrintIfRes "AAACKK!"] ++
  lock_do_i_hold lock ++ [AssertRes false; AssertNotInInterrupt] ++
  P (lk_sem lock) ++
  [SpinAcquire (lk_lock lock); AssertNoOwner lock; SetOwner lock; SpinRelease (lk_lock lock)].

Definition lock_release (lock : positive) : list instr :=
  lock_do_i_hold lock ++ [AssertRes true; SpinAcquire (lk_lock lock); ClearOwner lock] ++
  V (lk_sem lock) ++
  [SpinRelease (lk_lock lock)].

Definition cv_wait (cv lock : positive) : list instr :=
  lock_do_i_hold lock ++ [AssertRes true; SpinAcquire (cv_lock cv)] ++
  lock_release lock ++
  wchan_sleep (cv_wchan cv) (cv_lock cv) ++
  [SpinRelease (cv_lock cv)] ++
  lock_acquire lock.

Definition cv_signal (cv lock : positive) : list instr :=
  lock_do_i_hold lock ++ [AssertRes true; SpinAcquire (cv_lock cv)] ++
  wchan_wakeone (cv_wchan cv) (cv_lock cv) ++ [SpinRelease (cv_lock cv)].

Definition cv_broadcast (cv lock : positive) : list instr :=
  lock_do_i_hold lock ++ [AssertRes true; SpinAcquire (cv_lock cv)] ++
  wchan_wakeall (cv_wchan cv) (cv_lock cv) ++ [SpinRelease (cv_lock cv)].

(** The calls a thread makes. *)
Inductive call :=
  | call_P (x : positive) | call_V (x : positive)
  | call_lock_acquire (l : positive) | call_lock_release (l : positive)
  | call_cv_wait (c l : positive) | call_cv_signal (c l : positive) | call_cv_broadcast (c l : positive).

#[export] Instance call_eq_dec : EqDecision call.
Proof. solve_decision. Defined.

Definition code_of (o : call) : list instr :=
  match o with
  | call_P x => P (sem_of x)
  | call_V x => V (sem_of x)
  | call_lock_acquire l => lock_acquire l
  | call_lock_release l => lock_release l
  | call_cv_wait c l => cv_wait c l
  | call_cv_signal c l => cv_signal c l
  | call_cv_broadcast c l => cv_broadcast c l
  end.

(** ** State *)

Record sthread := mk_sthread {
  st_asleep : bool;            (* t_state == S_SLEEP *)
  st_in_interrupt : bool;      (* t_in_interrupt *)
  st_spinlocks : Z;            (* c_spinlocks of its CPU *)
  st_res : bool;               (* the local variable of lock_do_i_hold *)
  st_call : option call;       (* the call it is in *)
  st_code : list instr;        (* what is left of it *)
  st_calls : list call;        (* the calls to come *)
  st_done : list call          (* the calls that returned, last first *)
}.

Record sync := mk_sync {
  splk_holder : spin -> option tidx;
  sem_count : semid -> Z;
  lk_owner : positive -> option tidx;
  wc_threads : chan -> list tidx;
  console : list string;
  threads : list sthread
}.

Definition set_holder x st := mk_sync x (sem_count st) (lk_owner st) (wc_threads st) (console st) (threads st).
Definition set_count x st := mk_sync (splk_holder st) x (lk_owner st) (wc_threads st) (console st) (threads st).
Definition set_owner x st := mk_sync (splk_holder st) (sem_count st) x (wc_threads st) (console st) (threads st).
Definition set_wchan x st := mk_sync (splk_holder st) (sem_count st) (lk_owner st) x (console st) (threads st).
Definition set_console x st := mk_sync (splk_holder st) (sem_count st) (lk_owner st) (wc_threads st) x (threads st).
Definition set_threads x st := mk_sync (splk_holder st) (sem_count st) (lk_owner st) (wc_threads st) (console st) x.

Definition with_code c th := mk_sthread (st_asleep th) (st_in_interrupt th) (st_spinlocks th) (st_res th) (st_call th) c (st_calls th) (st_done th).
Definition with_spins n th := mk_sthread (st_asleep th) (st_in_interrupt th) n (st_res th) (st_call th) (st_code th) (st_calls th) (st_done th).
Definition with_res b th := mk_sthread (st_asleep th) (st_in_interrupt th) (st_spinlocks th) b (st_call th) (st_code th) (st_calls th) (st_done th).
Definition with_asleep b th := mk_sthread b (st_in_interrupt th) (st_spinlocks th) (st_res th) (st_call th) (st_code th) (st_calls th) (st_done th).

(** ** One step of one thread *)

Inductive sres :=
  | Steps (st : sync)
  | Waits                      (* spinning *)
  | Fails (r : stop_reason).

(** [thread_make_runnable(target)] *)
Definition make_runnable (t : tidx) (ths : list sthread) : list sthread := alter (with_asleep false) t ths.

(** Thread [t], which is [th], executes [i] and has [rest] left. *)
Definition exec (t : tidx) (th : sthread) (i : instr) (rest : list instr) (st : sync) : sres :=
  let go (th' : sthread) (st' : sync) := Steps (set_threads (<[t := with_code rest th']> (threads st)) st') in
  let check (b : bool) (what : string) := if b then go th st else Fails (KASSERT_failed what) in
  match i with
  | SpinAcquire k =>
      match splk_holder st k with
      | None => go (with_spins (st_spinlocks th + 1) th) (set_holder (<[k := Some t]> (splk_holder st)) st)
      | Some u => if decide (u = t) then Fails (panic_called "Deadlock on spinlock") else Waits
      end
  | SpinRelease k =>
      if decide (splk_holder st k = Some t) then
        if 0 <? st_spinlocks th
        then go (with_spins (st_spinlocks th - 1) th) (set_holder (<[k := None]> (splk_holder st)) st)
        else Fails (KASSERT_failed "curcpu->c_spinlocks > 0")
      else Fails (KASSERT_failed "splk->splk_holder == curcpu->c_self")
  | AssertHeld k => check (bool_decide (splk_holder st k = Some t)) "spinlock_do_i_hold(lk)"
  | AssertOneSpinlock => check (st_spinlocks th =? 1) "curcpu->c_spinlocks == 1"
  | AssertNotInInterrupt => check (negb (st_in_interrupt th)) "curthread->t_in_interrupt == false"
  | WhileCountZero s body =>
      if sem_count st s =? 0
      then Steps (set_threads (<[t := with_code (body ++ WhileCountZero s body :: rest) th]> (threads st)) st)
      else go th st
  | AssertCountPos s => check (0 <? sem_count st s) "sem->sem_count > 0"
  | CountDown s => go th (set_count (<[s := u32 (sem_count st s - 1)]> (sem_count st)) st)
  | CountUp s => go th (set_count (<[s := u32 (sem_count st s + 1)]> (sem_count st)) st)
  | SwitchToSleep c k =>
      if decide (splk_holder st k = Some t) then
        if 0 <? st_spinlocks th
        then go (with_asleep true (with_spins (st_spinlocks th - 1) th))
               (set_holder (<[k := None]> (splk_holder st)) (set_wchan (<[c := wc_threads st c ++ [t]]> (wc_threads st)) st))
        else Fails (KASSERT_failed "curcpu->c_spinlocks > 0")
      else Fails (KASSERT_failed "splk->splk_holder == curcpu->c_self")
  | WakeHead c =>
      match wc_threads st c with
      | [] => go th st
      | u :: us =>
          Steps (set_wchan (<[c := us]> (wc_threads st))
            (set_threads (make_runnable u (<[t := with_code rest th]> (threads st))) st))
      end
  | WakeEach c =>
      Steps (set_wchan (<[c := []]> (wc_threads st))
        (set_threads (foldl (fun ths u => make_runnable u ths) (<[t := with_code rest th]> (threads st)) (wc_threads st c)) st))
  | TestOwner l => go (with_res (bool_decide (lk_owner st l = Some t)) th) st
  | PrintIfRes msg => go th (if st_res th then set_console (console st ++ [msg]) st else st)
  | AssertRes b => check (eqb (st_res th) b) "lock_do_i_hold(lock)"
  | AssertNoOwner l => check (bool_decide (lk_owner st l = None)) "lock->lk_owner == NULL"
  | SetOwner l => go th (set_owner (<[l := Some t]> (lk_owner st)) st)
  | ClearOwner l => go th (set_owner (<[l := None]> (lk_owner st)) st)
  end.

(** A thread that is not asleep makes its next call, executes a step of the
    call it is in, or returns from it. *)
Definition step_thread (t : tidx) (st : sync) : option sres :=
  match threads st !! t with
  | None => None
  | Some th =>
      if st_asleep th then None else
      match st_call th, st_code th, st_calls th with
      | Some _, i :: rest, _ => Some (exec t th i rest st)
      | Some o, [], _ =>
          Some (Steps (set_threads (<[t := mk_sthread false (st_in_interrupt th) (st_spinlocks th) (st_res th)
            None [] (st_calls th) (o :: st_done th)]> (threads st)) st))
      | None, _, o :: os =>
          Some (Steps (set_threads (<[t := mk_sthread false (st_in_interrupt th) (st_spinlocks th) (st_res th)
            (Some o) (code_of o) os (st_done th)]> (threads st)) st))
      | None, _, [] => None
      end
  end.

Inductive sstep (st st' : sync) : Prop :=
  | sstep_intro t : step_thread t st = Some (Steps st') -> sstep st st'.

(** ** Start *)

(** Threads that will make the calls [calls]; [sem_create(name, init x)] was
    called for every semaphore and [lock_create] for every lock. *)
Definition start_thread (calls : list call) : sthread := mk_sthread false false 0 false None [] calls [].

Definition start (init : positive -> Z) (calls : list (list call)) : sync :=
  mk_sync (fun _ => None) (fun s => match s with sem_of x => init x | lk_sem _ => 1 end)
    (fun _ => None) (fun _ => []) [] (start_thread <$> calls).

(** ** What callers promise *)

(** A thread does not acquire a lock it holds, releases only locks it holds,
    and holds the lock it passes with a condition variable. *)
Fixpoint calls_ok (held : gset positive) (calls : list call) : bool :=
  match calls with
  | [] => true
  | call_P _ :: r | call_V _ :: r => calls_ok held r
  | call_lock_acquire l :: r => bool_decide (l ∉ held) && calls_ok ({[l]} ∪ held) r
  | call_lock_release l :: r => bool_decide (l ∈ held) && calls_ok (held ∖ {[l]}) r
  | call_cv_wait _ l :: r | call_cv_signal _ l :: r | call_cv_broadcast _ l :: r =>
      bool_decide (l ∈ held) && calls_ok held r
  end.

(** How many times [V] is called on a semaphore. *)
Definition ups (x : positive) (calls : list call) : Z :=
  Z.of_nat (length (filter (fun o => o = call_V x) calls)).
