(* ===== verification/SynchTypes.v ===== *)
(** * The locking discipline of the synchronisation code

    What a thread owns at each point of its code: the spinlocks it holds, the
    locks whose semaphore it has decremented, the locks it is the owner of, and
    what it knows of a semaphore's count.  The code of every call is typed by
    these resources, a step of a typed thread never fails an assertion, and the
    resources of different threads stay disjoint: no data race, no deadlock on
    spinlocks, and mutual exclusion between the threads that hold a lock. *)

From stdpp Require Import functions.
From S2P Require Import Prelude State Monad Synch.

#[local] Open Scope Z_scope.

(** Spinlocks are acquired in increasing rank. *)
Definition rank (k : spin) : Z := match k with cv_lock _ => 0 | lk_lock _ => 1 | sem_lock _ => 2 end.

(** The spinlock that protects a wait channel. *)
Definition guard (c : chan) : spin := match c with sem_wchan s => sem_lock s | cv_wchan c => cv_lock c end.

Record ty := mk_ty {
  y_spins : list spin;
  y_tok : gset positive;                 (* locks whose lk_sem this thread took *)
  y_own : gset positive;                 (* locks whose lk_owner is this thread *)
  y_res : bool;                          (* the result of lock_do_i_hold *)
  y_fact : option (semid * bool)         (* a count known to be positive, or to be 0 *)
}.

Definition y_push k y := mk_ty (k :: y_spins y) (y_tok y) (y_own y) (y_res y) (y_fact y).
Definition y_pop y := mk_ty (tail (y_spins y)) (y_tok y) (y_own y) (y_res y) None.
Definition y_know f y := mk_ty (y_spins y) (y_tok y) (y_own y) (y_res y) f.
Definition y_tokens g y := mk_ty (y_spins y) g (y_own y) (y_res y) (y_fact y).
Definition y_owns g y := mk_ty (y_spins y) (y_tok y) g (y_res y) (y_fact y).
Definition y_result b y := mk_ty (y_spins y) (y_tok y) (y_own y) b (y_fact y).

Definition take_token (s : semid) y : ty :=
  match s with sem_of _ => y | lk_sem l => y_tokens ({[l]} ∪ y_tok y) y end.
Definition give_token (s : semid) y : ty :=
  match s with sem_of _ => y | lk_sem l => y_tokens (y_tok y ∖ {[l]}) y end.

(** What a step needs and what it leaves. *)
Definition tstep (i : instr) (y y' : ty) : Prop :=
  match i with
  | SpinAcquire k => (forall j, j ∈ y_spins y -> rank j < rank k) /\ y' = y_push k y
  | SpinRelease k => head (y_spins y) = Some k /\ y' = y_pop y
  | AssertHeld k => k ∈ y_spins y /\ y' = y
  | AssertOneSpinlock => length (y_spins y) = 1%nat /\ y' = y
  | AssertNotInInterrupt => y' = y
  | WhileCountZero s body =>
      body = wchan_sleep (sem_wchan s) (sem_lock s) /\ y_spins y = [sem_lock s] /\ y' = y_know (Some (s, true)) y
  | AssertCountPos s => y_fact y = Some (s, true) /\ y' = y
  | CountDown s =>
      y_fact y = Some (s, true) /\ (forall l, s = lk_sem l -> l ∉ y_tok y) /\ y' = y_know None (take_token s y)
  | CountUp s =>
      sem_lock s ∈ y_spins y /\ (forall l, s = lk_sem l -> l ∈ y_tok y /\ l ∉ y_own y) /\
      y' = y_know (Some (s, true)) (give_token s y)
  | SwitchToSleep c k =>
      y_spins y = [k] /\ k = guard c /\ (forall s, c = sem_wchan s -> y_fact y = Some (s, false)) /\ y' = y_pop y
  | WakeHead c | WakeEach c => guard c ∈ y_spins y /\ y' = y
  | TestOwner l => lk_lock l ∈ y_spins y /\ y' = y_result (bool_decide (l ∈ y_own y)) y
  | PrintIfRes _ => y_res y = false /\ y' = y
  | AssertRes b => y_res y = b /\ y' = y
  | AssertNoOwner l => lk_lock l ∈ y_spins y /\ l ∈ y_tok y /\ ~ l ∈ y_own y /\ y' = y
  | SetOwner l => lk_lock l ∈ y_spins y /\ l ∈ y_tok y /\ ~ l ∈ y_own y /\ y' = (y_owns ({[l]} ∪ y_own y) y)
  | ClearOwner l => lk_lock l ∈ y_spins y /\ l ∈ y_own y /\ y' = (y_owns (y_own y ∖ {[l]}) y)
  end.

Inductive typed : ty -> list instr -> ty -> Prop :=
  | typed_nil y : typed y [] y
  | typed_cons y i y1 code y' : tstep i y y1 -> typed y1 code y' -> typed y (i :: code) y'.

Lemma typed_app y a y1 b y' : typed y a y1 -> typed y1 b y' -> typed y (a ++ b) y'.
Proof. induction 1; [done|]. intros. econstructor; eauto. Qed.

Lemma typed_inv y i code y' : typed y (i :: code) y' -> exists y1, tstep i y y1 /\ typed y1 code y'.
Proof. inversion 1; subst. eauto. Qed.

(** A thread between two calls that holds the locks [h]. *)
Definition at_rest (h : gset positive) (b : bool) : ty := mk_ty [] h h b None.

Lemma typed_hold y l code y' :
  (forall j, j ∈ y_spins y -> rank j < 1) -> y_fact y = None ->
  typed (y_result (bool_decide (l ∈ y_own y)) y) code y' -> typed y (lock_do_i_hold l ++ code) y'.
Proof.
  intros Hr Hf Hc. destruct y as [sp tk ow r f]. cbn in *. subst f.
  eapply typed_cons; [by split|]. eapply typed_cons; [by split; [left|]|]. eapply typed_cons; [by split|]. done.
Qed.

Lemma typed_P y s code y' :
  y_spins y = [] -> y_fact y = None -> (forall l, s = lk_sem l -> l ∉ y_tok y) ->
  typed (take_token s y) code y' -> typed y (P s ++ code) y'.
Proof.
  intros Hs Hf Ht Hc. destruct y as [sp tk ow r f]. cbn in *. subst sp f.
  eapply typed_cons; [done|]. eapply typed_cons; [split; [|done]; by intros j []%not_elem_of_nil|].
  eapply typed_cons; [by split_and!|]. eapply typed_cons; [by split|]. eapply typed_cons; [by split_and!|].
  eapply typed_cons; [by destruct s|]. by destruct s.
Qed.

Lemma typed_V y s code y' :
  (forall j, j ∈ y_spins y -> rank j < 2) -> y_fact y = None ->
  (forall l, s = lk_sem l -> l ∈ y_tok y /\ l ∉ y_own y) ->
  typed (give_token s y) code y' -> typed y (V s ++ code) y'.
Proof.
  intros Hs Hf Ht Hc. destruct y as [sp tk ow r f]. cbn in *. subst f.
  eapply typed_cons; [by split|]. eapply typed_cons; [split_and!; [by left|done|done]|].
  eapply typed_cons; [by split|].
  eapply typed_cons; [split; [|done]; destruct s; by left|]. eapply typed_cons; [split; [|done]; destruct s; by left|].
  eapply typed_cons; [by destruct s|]. by destruct s.
Qed.

Lemma typed_acquire h b l code y' : l ∉ h ->
  typed (at_rest ({[l]} ∪ h) false) code y' -> typed (at_rest h b) (lock_acquire l ++ code) y'.
Proof.
  intros Hl Hc. unfold lock_acquire. rewrite <- !(assoc_L (++)).
  apply typed_hold; [by intros j []%not_elem_of_nil|done|]. cbn. rewrite bool_decide_eq_false_2 by done.
  eapply typed_cons; [by split|]. apply typed_hold; [by intros j []%not_elem_of_nil|done|].
  cbn. rewrite bool_decide_eq_false_2 by done.
  eapply typed_cons; [by split|]. eapply typed_cons; [done|].
  apply typed_P; [done|done|by intros ? [= <-]|]. cbn.
  eapply typed_cons; [split; [|done]; by intros j []%not_elem_of_nil|].
  eapply typed_cons; [split_and!; [by left|cbn; set_solver|done|done]|].
  eapply typed_cons; [split_and!; [by left|cbn; set_solver|done|done]|]. by eapply typed_cons.
Qed.

Lemma typed_release h b l sp code y' : l ∈ h -> (forall j, j ∈ sp -> rank j < 1) ->
  typed (mk_ty sp (h ∖ {[l]}) (h ∖ {[l]}) true None) code y' -> typed (mk_ty sp h h b None) (lock_release l ++ code) y'.
Proof.
  intros Hl Hsp Hc. unfold lock_release. rewrite <- !(assoc_L (++)).
  apply typed_hold; [done|done|]. cbn [y_own y_result y_tok y_spins y_fact]. rewrite bool_decide_eq_true_2 by done.
  eapply typed_cons; [by split|]. eapply typed_cons; [by split|].
  eapply typed_cons; [by split_and!; [left|..]|].
  apply typed_V; [|done|intros ? [= <-]; cbn; set_solver|].
  - cbn. intros j [->|Hj]%elem_of_cons; [done|]. specialize (Hsp j Hj). lia.
  - by eapply typed_cons.
Qed.

(** The locks held after a call that was made holding [h]. *)
Definition locks_after (h : gset positive) (o : call) : gset positive :=
  match o with
  | call_lock_acquire l => {[l]} ∪ h
  | call_lock_release l => h ∖ {[l]}
  | _ => h
  end.

Definition call_ok (h : gset positive) (o : call) : Prop :=
  match o with
  | call_P _ | call_V _ => True
  | call_lock_acquire l => l ∉ h
  | call_lock_release l | call_cv_wait _ l | call_cv_signal _ l | call_cv_broadcast _ l => l ∈ h
  end.

Lemma calls_ok_cons h o os : calls_ok h (o :: os) = true <-> call_ok h o /\ calls_ok (locks_after h o) os = true.
Proof. destruct o; cbn; rewrite ?andb_true_iff, ?bool_decide_eq_true; tauto. Qed.

Lemma regain (l : positive) (h : gset positive) : l ∈ h -> {[l]} ∪ (h ∖ {[l]}) = h.
Proof.
  intros Hl. apply leibniz_equiv. intros x. rewrite elem_of_union, elem_of_difference, elem_of_singleton.
  destruct (decide (x = l)) as [->|]; tauto.
Qed.

(** Every call made as [synch.h] asks keeps the discipline. *)
Lemma typed_call h b o : call_ok h o -> exists b', typed (at_rest h b) (code_of o) (at_rest (locks_after h o) b').
Proof.
  intros Ho. rewrite <- (app_nil_r (code_of o)). destruct o as [x|x|l|l|c l|c l|c l]; cbn [code_of locks_after call_ok] in *.
  - exists b. by apply typed_P; [..|apply typed_nil].
  - exists b. by apply typed_V; [intros j []%not_elem_of_nil|..|apply typed_nil].
  - exists false. apply typed_acquire; [done|apply typed_nil].
  - exists true. apply typed_release; [done|by intros j []%not_elem_of_nil|apply typed_nil].
  - exists false. unfold cv_wait. rewrite <- !(assoc_L (++)).
    apply typed_hold; [by intros j []%not_elem_of_nil|done|]. cbn. rewrite bool_decide_eq_true_2 by done.
    eapply typed_cons; [by split|]. eapply typed_cons; [split; [|done]; by intros j []%not_elem_of_nil|].
    apply typed_release; [done|intros j ->%list_elem_of_singleton; done|].
    eapply typed_cons; [done|]. eapply typed_cons; [by split; [left|]|]. eapply typed_cons; [by split|].
    eapply typed_cons; [by split_and!|]. eapply typed_cons; [split; [|done]; by intros j []%not_elem_of_nil|].
    eapply typed_cons; [by split|]. apply (typed_acquire (h ∖ {[l]})); [set_solver|].
    rewrite regain by done. apply typed_nil.
  - exists true. unfold cv_signal. rewrite <- !(assoc_L (++)).
    apply typed_hold; [by intros j []%not_elem_of_nil|done|]. cbn. rewrite bool_decide_eq_true_2 by done.
    eapply typed_cons; [by split|]. eapply typed_cons; [split; [|done]; by intros j []%not_elem_of_nil|].
    eapply typed_cons; [by split; [left|]|]. eapply typed_cons; [by split; [left|]|].
    eapply typed_cons; [by split|]. apply typed_nil.
  - exists true. unfold cv_broadcast. rewrite <- !(assoc_L (++)).
    apply typed_hold; [by intros j []%not_elem_of_nil|done|]. cbn. rewrite bool_decide_eq_true_2 by done.
    eapply typed_cons; [by split|]. eapply typed_cons; [split; [|done]; by intros j []%not_elem_of_nil|].
    eapply typed_cons; [by split; [left|]|]. eapply typed_cons; [by split; [left|]|].
    eapply typed_cons; [by split|]. apply typed_nil.
Qed.

(** ** The invariant *)

(** The locks held after the calls [done] (last first). *)
Definition locks_held (done : list call) : gset positive := foldr (fun o h => locks_after h o) ∅ done.

(** The calls that give a lock up, if only for a while. *)
Definition gives_up (o : call) (l : positive) : Prop := o = call_lock_release l \/ exists c, o = call_cv_wait c l.

(** [V] steps still to come. *)
Fixpoint ups_in (x : positive) (code : list instr) : Z :=
  match code with
  | [] => 0
  | CountUp s :: r => (if decide (s = sem_of x) then 1 else 0) + ups_in x r
  | _ :: r => ups_in x r
  end.

Fixpoint zsum {A} (f : A -> Z) (l : list A) : Z := match l with [] => 0 | a :: r => f a + zsum f r end.

Definition pending_ups (x : positive) (th : sthread) : Z := ups_in x (st_code th) + ups x (st_calls th).
Definition pending (x : positive) (ths : list sthread) : Z := zsum (pending_ups x) ths.

Record thread_ok (th : sthread) (y : ty) : Prop := mk_thread_ok {
  to_call : match st_call th with
            | None => st_code th = [] /\ y = at_rest (locks_held (st_done th)) (y_res y) /\
                calls_ok (locks_held (st_done th)) (st_calls th) = true
            | Some o => exists b', typed y (st_code th) (at_rest (locks_held (o :: st_done th)) b') /\
                calls_ok (locks_held (o :: st_done th)) (st_calls th) = true
            end;
  to_spins : st_spinlocks th = Z.of_nat (length (y_spins y));
  to_nodup : NoDup (y_spins y);
  to_res : st_res th = y_res y;
  to_intr : st_in_interrupt th = false;
  to_asleep : st_asleep th = true -> y_spins y = [];
  to_own : y_own y ⊆ y_tok y;
  to_fact s b : y_fact y = Some (s, b) -> sem_lock s ∈ y_spins y;
  to_kept l : l ∈ locks_held (st_done th) -> (forall o, st_call th = Some o -> ~ gives_up o l) -> l ∈ y_tok y;
  to_gives l : CountUp (lk_sem l) ∈ st_code th -> exists o, st_call th = Some o /\ gives_up o l
}.

(** Shared data against what the threads own. *)
Record data_ok (holder : spin -> option tidx) (count : semid -> Z) (owner : positive -> option tidx) (Y : tidx -> ty) : Prop := mk_data_ok {
  do_holder k t : holder k = Some t <-> k ∈ y_spins (Y t);
  do_owner l t : owner l = Some t <-> l ∈ y_own (Y t);
  do_token l t u : l ∈ y_tok (Y t) -> l ∈ y_tok (Y u) -> t = u;
  do_lock l : (count (lk_sem l) = 0 /\ exists t, l ∈ y_tok (Y t)) \/ (count (lk_sem l) = 1 /\ forall t, l ∉ y_tok (Y t));
  do_sem x : 0 <= count (sem_of x);
  do_fact t s b : y_fact (Y t) = Some (s, b) -> if b then 0 < count s else count s = 0
}.

Record sync_inv (st : sync) (Y : tidx -> ty) : Prop := mk_sync_inv {
  si_thread t th : threads st !! t = Some th -> thread_ok th (Y t);
  si_none t : threads st !! t = None -> Y t = at_rest ∅ false;
  si_data : data_ok (splk_holder st) (sem_count st) (lk_owner st) Y;
  si_room x : sem_count st (sem_of x) + pending x (threads st) < 2^32
}.

(** ** Sums over the threads *)

Lemma zsum_insert {A} (f : A -> Z) l i x y : l !! i = Some x -> zsum f (<[i := y]> l) = zsum f l - f x + f y.
Proof.
  revert i. induction l as [|a l IH]; intros [|i] Hi; simpl in *; simplify_eq; [lia|]. rewrite (IH i Hi). lia.
Qed.

Lemma zsum_alter {A} (f : A -> Z) g l i : (forall x, f (g x) = f x) -> zsum f (alter g i l) = zsum f l.
Proof.
  intros Hg. revert i. induction l as [|a l IH]; intros [|i]; simpl; rewrite ?Hg; [done..|]. f_equal. apply (IH i).
Qed.

Lemma zsum_elem {A} (f : A -> Z) l i x : (forall z, 0 <= f z) -> l !! i = Some x -> f x <= zsum f l.
Proof.
  intros Hf. revert i. induction l as [|a l IH]; intros [|i] Hi; cbn in *; simplify_eq.
  - assert (0 <= zsum f l); [|lia]. clear -Hf. induction l as [|b l IH]; cbn; [lia|]. specialize (Hf b). lia.
  - specialize (IH i Hi). specialize (Hf a). lia.
Qed.

Lemma ups_in_nonneg x code : 0 <= ups_in x code.
Proof. induction code as [|[] code IH]; cbn; try case_decide; lia. Qed.

Lemma pending_ups_nonneg x th : 0 <= pending_ups x th.
Proof. unfold pending_ups, ups. pose proof (ups_in_nonneg x (st_code th)). lia. Qed.

(** ** A step of the thread itself *)

(** The thread after the step, with the fields the step may change. *)
Definition stepped (th th' : sthread) (y' : ty) : Prop :=
  st_call th' = st_call th /\ st_calls th' = st_calls th /\ st_done th' = st_done th /\
  st_in_interrupt th' = st_in_interrupt th /\ st_spinlocks th' = Z.of_nat (length (y_spins y')) /\
  st_res th' = y_res y' /\ (st_asleep th' = true -> y_spins y' = []).

Lemma rank_fresh y k : (forall j, j ∈ y_spins y -> rank j < rank k) -> k ∉ y_spins y.
Proof. intros Hr Hk. specialize (Hr k Hk). lia. Qed.

Lemma tail_NoDup {A} (l : list A) : NoDup l -> NoDup (tail l).
Proof. destruct l; [done|]. by intros [_ ?]%NoDup_cons. Qed.

(** The resources stay well-formed. *)
Lemma tstep_wf i y y' : tstep i y y' ->
  NoDup (y_spins y) -> y_own y ⊆ y_tok y -> (forall s b, y_fact y = Some (s, b) -> sem_lock s ∈ y_spins y) ->
  NoDup (y_spins y') /\ y_own y' ⊆ y_tok y' /\ (forall s b, y_fact y' = Some (s, b) -> sem_lock s ∈ y_spins y').
Proof.
  intros Hi Hnd Ho Hf. destruct i; cbn in Hi; destruct_and?; subst y'; cbn; try done.
  - split_and!; [|done|].
    + apply NoDup_cons. split; [by apply rank_fresh|done].
    + intros s b Hs. apply elem_of_cons. right. by eapply Hf.
  - split_and!; [by apply tail_NoDup|done|done].
  - split_and!; [done|done|]. intros s' b [= <- <-]. rewrite H1. by left.
  - split_and!; [by destruct s| |done]. destruct s; cbn; set_solver.
  - split_and!; [by destruct s| |].
    + destruct s as [x|l]; [done|]. destruct (H1 l eq_refl) as [? ?]. cbn. set_solver.
    + intros s' b [= <- <-]. by destruct s.
  - split_and!; [by apply tail_NoDup|done|done].
  - split_and!; [done| |done]. set_solver.
  - split_and!; [done| |done]. set_solver.
Qed.

Lemma tstep_fun i y y1 y2 : tstep i y y1 -> tstep i y y2 -> y1 = y2.
Proof. destruct i; cbn; intros H1 H2; destruct_and?; congruence. Qed.

Lemma tstep_tok i y y' l : tstep i y y' -> l ∈ y_tok y -> i <> CountUp (lk_sem l) -> l ∈ y_tok y'.
Proof.
  intros Hi Hl Hne. destruct i; cbn in Hi; destruct_and?; subst y'; try done; destruct s as [x|l']; cbn; set_solver.
Qed.

Lemma thread_step th th' y i rest y' :
  thread_ok th y -> st_call th <> None -> st_code th = i :: rest -> st_code th' = rest ->
  tstep i y y' -> stepped th th' y' -> thread_ok th' y'.
Proof.
  intros [Hc Hsp Hnd Hres Hin Hasl Hown Hf Hk Hg] Hcall Hcode Hcode' Hstep (Hc1 & Hc2 & Hc3 & Hc4 & Hc5 & Hc6 & Hc7).
  destruct (tstep_wf _ _ _ Hstep Hnd Hown Hf) as (Hnd' & Hown' & Hf').
  constructor; rewrite ?Hc1, ?Hc2, ?Hc3, ?Hc4; try done.
  - destruct (st_call th) as [o|] eqn:Ho; [|done]. destruct Hc as (b' & Ht & Hok). exists b'. split; [|done].
    rewrite Hcode in Ht. apply typed_inv in Ht as (y1 & Hi & Hrest). rewrite Hcode'.
    by rewrite (tstep_fun _ _ _ _ Hstep Hi).
  - intros l Hl Hno. eapply tstep_tok; [done|by apply Hk|]. intros ->.
    destruct (Hg l) as (o & Ho & Hgive); [rewrite Hcode; by left|]. by eapply Hno.
  - intros l Hl. apply Hg. rewrite Hcode. rewrite Hcode' in Hl. by right.
Qed.

(** ** A step of the shared data *)

Section data.
Context (h : spin -> option tidx) (c : semid -> Z) (o : positive -> option tidx) (Y : tidx -> ty) (t : tidx).
Hypothesis Hd : data_ok h c o Y.
Hypothesis Hfacts : forall u s b, y_fact (Y u) = Some (s, b) -> sem_lock s ∈ y_spins (Y u).
Hypothesis Hown : forall u, y_own (Y u) ⊆ y_tok (Y u).

Ltac at_thread u := let E := fresh "Hdiff" in destruct (decide (u = t)) as [->|E];
  rewrite ?fn_lookup_insert, ?(fn_lookup_insert_ne Y) by done.

Lemma data_same y' :
  y_spins y' = y_spins (Y t) -> y_tok y' = y_tok (Y t) -> y_own y' = y_own (Y t) ->
  (forall s b, y_fact y' = Some (s, b) -> if b then 0 < c s else c s = 0) ->
  data_ok h c o (<[t := y']> Y).
Proof.
  intros Hs Ht Ho Hf.
  assert (forall u, y_spins (<[t := y']> Y u) = y_spins (Y u)) as Es by (intros u; by at_thread u).
  assert (forall u, y_tok (<[t := y']> Y u) = y_tok (Y u)) as Et by (intros u; by at_thread u).
  assert (forall u, y_own (<[t := y']> Y u) = y_own (Y u)) as Eo by (intros u; by at_thread u).
  constructor.
  - intros k u. rewrite Es. apply Hd.
  - intros l u. rewrite Eo. apply Hd.
  - intros l u v. rewrite !Et. apply Hd.
  - intros l. destruct (do_lock _ _ _ _ Hd l) as [[? [u Hu]]|[? Hn]]; [left; split; [done|]; exists u; by rewrite Et|].
    right. split; [done|]. intros u. by rewrite Et.
  - apply Hd.
  - intros u s b. at_thread u; [apply Hf|apply Hd].
Qed.

(** The holder is unique, so nobody else knows the count. *)
Lemma fact_holder u s b : y_fact (Y u) = Some (s, b) -> sem_lock s ∈ y_spins (Y t) -> u = t.
Proof.
  intros Hf%Hfacts Ht. apply (do_holder _ _ _ _ Hd) in Hf, Ht. congruence.
Qed.

Lemma data_acquire k : h k = None -> data_ok (<[k := Some t]> h) c o (<[t := y_push k (Y t)]> Y).
Proof.
  intros Hk. constructor.
  - intros j u. destruct (decide (j = k)) as [->|Hj].
    + rewrite fn_lookup_insert. at_thread u; [split; [by left|done]|]. rewrite <- (do_holder _ _ _ _ Hd), Hk.
      split; congruence.
    + rewrite fn_lookup_insert_ne by done. rewrite (do_holder _ _ _ _ Hd). at_thread u; [|done].
      cbn. rewrite elem_of_cons. naive_solver.
  - intros l u. at_thread u; apply Hd.
  - intros l u v. at_thread u; at_thread v; apply Hd.
  - intros l. destruct (do_lock _ _ _ _ Hd l) as [[? [u Hu]]|[? Hn]]; [left; split; [done|]; exists u; by at_thread u|].
    right. split; [done|]. intros u. at_thread u; apply Hn.
  - apply Hd.
  - intros u s b. at_thread u; apply Hd.
Qed.

Lemma data_release k : head (y_spins (Y t)) = Some k -> NoDup (y_spins (Y t)) ->
  data_ok (<[k := None]> h) c o (<[t := y_pop (Y t)]> Y).
Proof.
  intros Hk Hnd. destruct (y_spins (Y t)) as [|k' r] eqn:Hsp; [done|]. injection Hk as ->.
  apply NoDup_cons in Hnd as [Hkr Hr]. constructor.
  - intros j u. destruct (decide (j = k)) as [->|Hj].
    + rewrite fn_lookup_insert. split; [done|]. at_thread u; [cbn; by rewrite Hsp|].
      intros Hu. assert (k ∈ y_spins (Y t)) as Ht by (rewrite Hsp; by left).
      apply (do_holder _ _ _ _ Hd) in Hu, Ht. congruence.
    + rewrite fn_lookup_insert_ne by done. rewrite (do_holder _ _ _ _ Hd). at_thread u; [|done].
      cbn. rewrite Hsp. cbn. rewrite elem_of_cons. naive_solver.
  - intros l u. at_thread u; apply Hd.
  - intros l u v. at_thread u; at_thread v; apply Hd.
  - intros l. destruct (do_lock _ _ _ _ Hd l) as [[? [u Hu]]|[? Hn]]; [left; split; [done|]; exists u; by at_thread u|].
    right. split; [done|]. intros u. at_thread u; apply Hn.
  - apply Hd.
  - intros u s b. at_thread u; [done|apply Hd].
Qed.

(** The decrement of [P]: for the semaphore of a lock, the token changes hands. *)
Lemma data_down s : y_fact (Y t) = Some (s, true) -> (forall l, s = lk_sem l -> l ∉ y_tok (Y t)) -> c s < 2^32 ->
  data_ok h (<[s := u32 (c s - 1)]> c) o (<[t := y_know None (take_token s (Y t))]> Y).
Proof.
  intros Hf Htok Hlt. pose proof (Hfacts _ _ _ Hf) as Hlk. pose proof (do_fact _ _ _ _ Hd _ _ _ Hf) as Hpos. cbn in Hpos.
  assert (u32 (c s - 1) = c s - 1) as -> by (apply u32_small; unfold is_u32; lia).
  assert (forall l, s = lk_sem l -> forall u, l ∉ y_tok (Y u)) as Hfree.
  { intros l -> u Hu. destruct (do_lock _ _ _ _ Hd l) as [[? _]|[_ Hn]]; [lia|by eapply Hn]. }
  constructor.
  - intros k u. at_thread u; [|apply Hd]. destruct s; apply Hd.
  - intros l u. at_thread u; [|apply Hd]. destruct s; apply Hd.
  - intros l u v. destruct s as [x|l']; [at_thread u; at_thread v; apply Hd|].
    specialize (Hfree l' eq_refl). at_thread u; at_thread v; cbn; [done|..|apply Hd].
    + intros [->%elem_of_singleton|Hu]%elem_of_union Hv; [by destruct (Hfree v)|by eapply Hd].
    + intros Hu [->%elem_of_singleton|Hv]%elem_of_union; [by destruct (Hfree u)|by eapply Hd].
  - intros l. destruct (decide (s = lk_sem l)) as [->|Hne].
    + left. rewrite fn_lookup_insert. destruct (do_lock _ _ _ _ Hd l) as [[? _]|[-> Hn]]; [lia|]. split; [done|].
      exists t. rewrite fn_lookup_insert. cbn. set_solver.
    + rewrite fn_lookup_insert_ne by done.
      assert (forall u, l ∈ y_tok (<[t := y_know None (take_token s (Y t))]> Y u) <-> l ∈ y_tok (Y u)) as Heq.
      { intros u. at_thread u; [|done]. destruct s; cbn; set_solver. }
      destruct (do_lock _ _ _ _ Hd l) as [[? [u Hu]]|[? Hn]]; [left; split; [done|]; exists u; by apply Heq|].
      right. split; [done|]. intros u. rewrite Heq. apply Hn.
  - intros x. destruct (decide (s = sem_of x)) as [->|]; [rewrite fn_lookup_insert; lia|].
    rewrite fn_lookup_insert_ne by done. apply Hd.
  - intros u s' b. at_thread u; [done|]. intros Hu. rewrite fn_lookup_insert_ne; [by eapply Hd|].
    intros <-. by eapply Hdiff, fact_holder.
Qed.

(** The increment of [V]. *)
Lemma data_up s : sem_lock s ∈ y_spins (Y t) ->
  (forall l, s = lk_sem l -> l ∈ y_tok (Y t) /\ l ∉ y_own (Y t)) -> (forall x, s = sem_of x -> c s + 1 < 2^32) ->
  data_ok h (<[s := u32 (c s + 1)]> c) o (<[t := y_know (Some (s, true)) (give_token s (Y t))]> Y).
Proof.
  intros Hlk Htok Hlt.
  assert (0 <= c s /\ u32 (c s + 1) = c s + 1) as [Hpos ->].
  { destruct s as [x|l].
    - pose proof (do_sem _ _ _ _ Hd x). specialize (Hlt x eq_refl). split; [done|]. apply u32_small. unfold is_u32. lia.
    - destruct (do_lock _ _ _ _ Hd l) as [[-> _]|[-> _]]; done. }
  constructor.
  - intros k u. at_thread u; [|apply Hd]. destruct s; apply Hd.
  - intros l u. at_thread u; [|apply Hd]. destruct s; apply Hd.
  - intros l u v. destruct s as [x|l']; [at_thread u; at_thread v; apply Hd|].
    at_thread u; at_thread v; cbn; rewrite ?elem_of_difference; [done|intros [Hu _]|intros Hu [Hv _]|]; by eapply Hd.
  - intros l. destruct (decide (s = lk_sem l)) as [->|Hne].
    + right. rewrite fn_lookup_insert. destruct (Htok l eq_refl) as [Ht _].
      destruct (do_lock _ _ _ _ Hd l) as [[-> _]|[_ Hn]]; [|by destruct (Hn t)]. split; [done|].
      intros u. at_thread u; [cbn; set_solver|]. intros Hu. by eapply Hdiff, Hd.
    + rewrite fn_lookup_insert_ne by done.
      assert (forall u, l ∈ y_tok (<[t := y_know (Some (s, true)) (give_token s (Y t))]> Y u) <-> l ∈ y_tok (Y u)) as Heq.
      { intros u. at_thread u; [|done]. destruct s; cbn; set_solver. }
      destruct (do_lock _ _ _ _ Hd l) as [[? [u Hu]]|[? Hn]]; [left; split; [done|]; exists u; by apply Heq|].
      right. split; [done|]. intros u. rewrite Heq. apply Hn.
  - intros x. destruct (decide (s = sem_of x)) as [->|]; [rewrite fn_lookup_insert; lia|].
    rewrite fn_lookup_insert_ne by done. apply Hd.
  - intros u s' b. at_thread u; [cbn; intros [= <- <-]; rewrite fn_lookup_insert; lia|].
    intros Hu. rewrite fn_lookup_insert_ne; [by eapply Hd|]. intros <-. by eapply Hdiff, fact_holder.
Qed.

Lemma data_set_owner l : l ∈ y_tok (Y t) -> l ∉ y_own (Y t) ->
  o l = None /\ data_ok h c (<[l := Some t]> o) (<[t := y_owns ({[l]} ∪ y_own (Y t)) (Y t)]> Y).
Proof.
  intros Ht Hno. assert (forall u, l ∉ y_own (Y u)) as Hnone.
  { intros u Hu. assert (u = t) as -> by (eapply (do_token _ _ _ _ Hd); [by apply Hown|done]). done. }
  split.
  - destruct (o l) as [u|] eqn:Ho; [|done]. apply (do_owner _ _ _ _ Hd) in Ho. by destruct (Hnone u).
  - constructor.
    + intros k u. at_thread u; apply Hd.
    + intros l' u. destruct (decide (l' = l)) as [->|].
      * rewrite fn_lookup_insert. at_thread u; [cbn; set_solver|]. specialize (Hnone u). split; [congruence|done].
      * rewrite fn_lookup_insert_ne by done. rewrite (do_owner _ _ _ _ Hd). at_thread u; [cbn; set_solver|done].
    + intros l' u v. at_thread u; at_thread v; apply Hd.
    + intros l'. destruct (do_lock _ _ _ _ Hd l') as [[? [u Hu]]|[? Hn]]; [left; split; [done|]; exists u; by at_thread u|].
      right. split; [done|]. intros u. at_thread u; apply Hn.
    + apply Hd.
    + intros u s b. at_thread u; apply Hd.
Qed.

Lemma data_clear_owner l : l ∈ y_own (Y t) ->
  data_ok h c (<[l := None]> o) (<[t := y_owns (y_own (Y t) ∖ {[l]}) (Y t)]> Y).
Proof.
  intros Ht. constructor.
  - intros k u. at_thread u; apply Hd.
  - intros l' u. destruct (decide (l' = l)) as [->|].
    + rewrite fn_lookup_insert. split; [done|]. at_thread u; [cbn; set_solver|]. intros Hu.
      apply (do_owner _ _ _ _ Hd) in Hu, Ht. congruence.
    + rewrite fn_lookup_insert_ne by done. rewrite (do_owner _ _ _ _ Hd). at_thread u; [cbn; set_solver|done].
  - intros l' u v. at_thread u; at_thread v; apply Hd.
  - intros l'. destruct (do_lock _ _ _ _ Hd l') as [[? [u Hu]]|[? Hn]]; [left; split; [done|]; exists u; by at_thread u|].
    right. split; [done|]. intros u. at_thread u; apply Hn.
  - apply Hd.
  - intros u s b. at_thread u; apply Hd.
Qed.
End data.

(** ** One step of the system *)

Lemma inv_facts st Y u s b : sync_inv st Y -> y_fact (Y u) = Some (s, b) -> sem_lock s ∈ y_spins (Y u).
Proof.
  intros Hi Hf. destruct (threads st !! u) as [th|] eqn:Hu; [by eapply to_fact; [eapply si_thread|]|].
  rewrite (si_none _ _ Hi u Hu) in Hf. done.
Qed.

Lemma inv_own st Y u : sync_inv st Y -> y_own (Y u) ⊆ y_tok (Y u).
Proof.
  intros Hi. destruct (threads st !! u) as [th|] eqn:Hu; [by eapply to_own, si_thread|].
  by rewrite (si_none _ _ Hi u Hu).
Qed.

Lemma inv_count st Y s : sync_inv st Y -> 0 <= sem_count st s < 2^32.
Proof.
  intros Hi. pose proof (si_data _ _ Hi) as Hd. destruct s as [x|l].
  - pose proof (do_sem _ _ _ _ Hd x). pose proof (si_room _ _ Hi x) as Hr.
    assert (0 <= pending x (threads st)); [|lia]. unfold pending. clear.
    induction (threads st) as [|th ths IH]; cbn; [lia|]. pose proof (pending_ups_nonneg x th). lia.
  - destruct (do_lock _ _ _ _ Hd l) as [[-> _]|[-> _]]; lia.
Qed.

Lemma inv_intro st Y t th th' y' holder' count' owner' w' con' :
  sync_inv st Y -> threads st !! t = Some th -> thread_ok th' y' ->
  data_ok holder' count' owner' (<[t := y']> Y) ->
  (forall x, count' (sem_of x) + pending_ups x th' <= sem_count st (sem_of x) + pending_ups x th) ->
  sync_inv (mk_sync holder' count' owner' w' con' (<[t := th']> (threads st))) (<[t := y']> Y).
Proof.
  intros Hi Ht Hok Hd Hroom. assert (t < length (threads st))%nat by (by eapply lookup_lt_Some). constructor; cbn.
  - intros u thu. destruct (decide (u = t)) as [->|].
    + rewrite list_lookup_insert_eq by done. intros [= <-]. by rewrite fn_lookup_insert.
    + rewrite list_lookup_insert_ne, fn_lookup_insert_ne by done. by apply si_thread.
  - intros u. destruct (decide (u = t)) as [->|]; [by rewrite list_lookup_insert_eq by done|].
    rewrite list_lookup_insert_ne, fn_lookup_insert_ne by done. by apply si_none.
  - done.
  - intros x. unfold pending. rewrite (zsum_insert _ _ _ _ _ Ht). pose proof (si_room _ _ Hi x). unfold pending in *.
    specialize (Hroom x). lia.
Qed.

(** Waking a thread changes nothing the discipline speaks of. *)
Lemma inv_wake st Y u w : sync_inv st Y -> sync_inv (set_wchan w (set_threads (make_runnable u (threads st)) st)) Y.
Proof.
  intros [Ht Hn Hd Hr]. constructor; cbn; [| |done|].
  - intros v th. unfold make_runnable. destruct (decide (v = u)) as [->|].
    + rewrite list_lookup_alter_eq. intros (th0 & Hth & ->)%fmap_Some. destruct (Ht u th0 Hth). by constructor.
    + rewrite list_lookup_alter_ne by done. apply Ht.
  - intros v. unfold make_runnable. rewrite list_lookup_alter. case_decide; [subst; rewrite fmap_None|]; apply Hn.
  - intros x. unfold pending, make_runnable. rewrite zsum_alter by done. apply Hr.
Qed.

Lemma inv_wake_each st Y us w : sync_inv st Y ->
  sync_inv (set_wchan w (set_threads (foldl (fun ths u => make_runnable u ths) (threads st) us) st)) Y.
Proof.
  intros Hi. assert (sync_inv (set_threads (foldl (fun ths u => make_runnable u ths) (threads st) us) st) Y) as [? ? ? ?].
  { revert st Hi. induction us as [|u us IH]; intros st Hi; cbn; [by destruct st|].
    exact (IH _ (inv_wake st Y u (wc_threads st) Hi)). }
  by constructor.
Qed.

Section exec.
Context (st : sync) (Y : tidx -> ty) (t : tidx) (th : sthread) (o : call) (i : instr) (rest : list instr) (y' : ty).
Hypothesis Hinv : sync_inv st Y.
Hypothesis Ht : threads st !! t = Some th.
Hypothesis Hcall : st_call th = Some o.
Hypothesis Hawake : st_asleep th = false.
Hypothesis Hcode : st_code th = i :: rest.
Hypothesis Hstep : tstep i (Y t) y'.

Let Hok : thread_ok th (Y t) := si_thread _ _ Hinv _ _ Ht.
Let Hd := si_data _ _ Hinv.
Let Hfacts := fun u s b => inv_facts st Y u s b Hinv.
Let Hown := fun u => inv_own st Y u Hinv.

(** The rest of the thread, and the counters, after a step that is not the
    increment of a semaphore. *)
Lemma step_inv th' holder' count' owner' w' con' :
  stepped th th' y' -> st_code th' = rest ->
  data_ok holder' count' owner' (<[t := y']> Y) ->
  (forall x, count' (sem_of x) + ups_in x rest <= sem_count st (sem_of x) + ups_in x (i :: rest)) ->
  sync_inv (mk_sync holder' count' owner' w' con' (<[t := th']> (threads st))) (<[t := y']> Y).
Proof.
  intros Hs Hc Hdata Hroom. eapply inv_intro; [done|done| |done|].
  - by eapply thread_step; [apply Hok|by rewrite Hcall|..].
  - intros x. unfold pending_ups. destruct Hs as (_ & -> & _). rewrite Hc, Hcode. specialize (Hroom x). lia.
Qed.

(** A step that changes neither shared data nor what the thread owns. *)
Lemma quiet_inv th' w' con' :
  stepped th th' y' -> st_code th' = rest ->
  y_spins y' = y_spins (Y t) -> y_tok y' = y_tok (Y t) -> y_own y' = y_own (Y t) ->
  (forall s b, y_fact y' = Some (s, b) -> if b then 0 < sem_count st s else sem_count st s = 0) ->
  (forall x, ups_in x (i :: rest) = ups_in x rest) ->
  sync_inv (mk_sync (splk_holder st) (sem_count st) (lk_owner st) w' con' (<[t := th']> (threads st))) (<[t := y']> Y).
Proof. intros Hs Hc ? ? ? ? Hu. apply step_inv; [done|done|by apply data_same|]. intros x. rewrite Hu. lia. Qed.

Lemma stepped_same : y_spins y' = y_spins (Y t) -> y_res y' = y_res (Y t) -> stepped th (with_code rest th) y'.
Proof.
  intros Hs Hr. unfold stepped. cbn. rewrite Hs, Hr. split_and!; try done; [apply Hok|apply Hok|]. by rewrite Hawake.
Qed.

(** A check, or a test, that leaves everything as it is. *)
Lemma check_inv w' con' : y' = Y t -> (forall x, ups_in x (i :: rest) = ups_in x rest) ->
  sync_inv (mk_sync (splk_holder st) (sem_count st) (lk_owner st) w' con' (<[t := with_code rest th]> (threads st))) (<[t := y']> Y).
Proof.
  intros Hy Hu. apply quiet_inv; try done; [by apply stepped_same; rewrite Hy|by rewrite Hy..|].
  rewrite Hy. intros s b. by apply Hd.
Qed.

Lemma held_holder k : k ∈ y_spins (Y t) -> splk_holder st k = Some t.
Proof. apply Hd. Qed.

Lemma one_spin_pos k : k ∈ y_spins (Y t) -> (0 <? st_spinlocks th) = true.
Proof. intros Hk. rewrite (to_spins _ _ Hok). apply Z.ltb_lt. destruct (y_spins (Y t)); [by apply not_elem_of_nil in Hk|cbn; lia]. Qed.

Lemma spins_pop k r : y_spins (Y t) = k :: r -> st_spinlocks th - 1 = Z.of_nat (length r).
Proof. intros Hs. rewrite (to_spins _ _ Hok), Hs. cbn. lia. Qed.
End exec.

(** The thread spins on a lock another thread holds, or it makes a step that
    keeps the invariant. *)
Definition runs st Y t th i rest : Prop :=
  (exists k u, i = SpinAcquire k /\ splk_holder st k = Some u /\ u <> t /\ exec t th i rest st = Waits) \/
  (exists st' y', exec t th i rest st = Steps st' /\ sync_inv st' (<[t := y']> Y)).

Lemma exec_spin st Y t th o k rest y' (acquire : bool) :
  sync_inv st Y -> threads st !! t = Some th -> st_call th = Some o -> st_asleep th = false ->
  let i := if acquire then SpinAcquire k else SpinRelease k in
  st_code th = i :: rest -> tstep i (Y t) y' -> runs st Y t th i rest.
Proof.
  intros Hinv Ht Hcall Haw i Hcode Hs. pose proof (si_thread _ _ Hinv _ _ Ht) as Hok. pose proof (si_data _ _ Hinv) as Hd.
  destruct acquire; cbn in i, Hs; subst i; destruct Hs as [Hk Hy].
  - destruct (splk_holder st k) as [u|] eqn:Hh.
    + left. exists k, u. split_and!; [done|done| |].
      * intros ->. apply (do_holder _ _ _ _ Hd) in Hh. by eapply rank_fresh.
      * cbn. rewrite Hh, decide_False; [done|]. intros ->. apply (do_holder _ _ _ _ Hd) in Hh. by eapply rank_fresh.
    + right. eexists _, y'. cbn. rewrite Hh. split; [done|]. subst y'.
      eapply step_inv; [done..| | |by apply data_acquire|cbn; lia]; [|done].
      unfold stepped. cbn. rewrite (to_spins _ _ Hok). split_and!; try done; [lia|apply Hok|by rewrite Haw].
  - right. assert (k ∈ y_spins (Y t)) as Hin by (destruct (y_spins (Y t)); [done|]; injection Hk as ->; by left).
    eexists _, y'. cbn. rewrite decide_True by (by apply Hd). rewrite (one_spin_pos st Y t th Hinv Ht k Hin). split; [done|].
    subst y'. eapply step_inv; [done..| | |apply data_release; [done..|apply Hok]|cbn; lia]; [|done].
    destruct (y_spins (Y t)) as [|k' r] eqn:Hsp; [done|]. injection Hk as ->.
    unfold stepped. cbn. rewrite (spins_pop st Y t th Hinv Ht _ _ Hsp), Hsp.
    split_and!; try done; [apply Hok|by rewrite Haw].
Qed.

Lemma exec_sleep st Y t th o c k rest y' :
  sync_inv st Y -> threads st !! t = Some th -> st_call th = Some o -> st_asleep th = false ->
  st_code th = SwitchToSleep c k :: rest -> tstep (SwitchToSleep c k) (Y t) y' -> runs st Y t th (SwitchToSleep c k) rest.
Proof.
  intros Hinv Ht Hcall Haw Hcode Hs. pose proof (si_thread _ _ Hinv _ _ Ht) as Hok. pose proof (si_data _ _ Hinv) as Hd.
  pose proof Hs as (Hsp & _ & _ & Hy). right. assert (k ∈ y_spins (Y t)) as Hin by (rewrite Hsp; by left).
  eexists _, y'. cbn. rewrite decide_True by (by apply Hd). rewrite (one_spin_pos st Y t th Hinv Ht k Hin). split; [done|].
  subst y'. eapply step_inv; [done..| | |apply data_release; [done|by rewrite Hsp|apply Hok]|cbn; lia]; [|done].
  unfold stepped. cbn. rewrite (spins_pop st Y t th Hinv Ht _ _ Hsp), Hsp. split_and!; try done. apply Hok.
Qed.

Lemma exec_while st Y t th o s body rest y' :
  sync_inv st Y -> threads st !! t = Some th -> st_call th = Some o -> st_asleep th = false ->
  st_code th = WhileCountZero s body :: rest -> tstep (WhileCountZero s body) (Y t) y' ->
  runs st Y t th (WhileCountZero s body) rest.
Proof.
  intros Hinv Ht Hcall Haw Hcode Hs. pose proof (si_thread _ _ Hinv _ _ Ht) as Hok. pose proof (si_data _ _ Hinv) as Hd.
  pose proof Hs as (-> & Hsp & ->). right. cbn. destruct (Z.eqb_spec (sem_count st s) 0) as [Hz|Hnz].
  - set (y2 := y_know (Some (s, false)) (Y t)). assert (y_spins y2 = [sem_lock s]) as Hsp2 by done.
    eexists _, y2. split; [done|]. eapply inv_intro; [done|done| | |].
    + destruct Hok as [Hc ? ? ? ? ? ? ? ? Hg]. constructor; cbn; try done.
      * rewrite Hcall in *. destruct Hc as (b' & Hty & Hcs). exists b'. split; [|done]. rewrite Hcode in Hty.
        eapply typed_cons; [done|]. eapply typed_cons; [by split; [rewrite Hsp2; left|]|].
        eapply typed_cons; [by split; [rewrite Hsp2|]|]. eapply typed_cons; [by split_and!; [..|intros ? [= <-]|]|].
        eapply typed_cons; [split; [|done]; cbn; rewrite Hsp; by intros j []%not_elem_of_nil|].
        apply typed_inv in Hty as (y1 & Hw & Hr). eapply typed_cons; [|done]. cbn in Hw |- *. rewrite Hsp. cbn.
        destruct Hw as (_ & _ & ->). split_and!; [done..|]. unfold y_know. cbn. by rewrite Hsp.
      * intros s' b [= <- <-]. rewrite Hsp. by left.
      * intros l. rewrite !elem_of_cons. intros Hl. apply Hg. rewrite Hcode. apply elem_of_cons. naive_solver.
    + apply data_same; try done. by intros s' b [= <- <-].
    + intros x. unfold pending_ups. cbn. rewrite Hcode. cbn. lia.
  - eexists _, _. split; [done|]. eapply quiet_inv; try done; [by eapply stepped_same|].
    intros s' b [= <- <-]. pose proof (inv_count st Y s Hinv). lia.
Qed.

Lemma exec_count st Y t th o s rest y' (up : bool) :
  sync_inv st Y -> threads st !! t = Some th -> st_call th = Some o -> st_asleep th = false ->
  let i := if up then CountUp s else CountDown s in
  st_code th = i :: rest -> tstep i (Y t) y' -> runs st Y t th i rest.
Proof.
  intros Hinv Ht Hcall Haw i Hcode Hs. pose proof (si_data _ _ Hinv) as Hd. pose proof (inv_count st Y s Hinv) as Hc.
  right. destruct up; cbn in i, Hs; subst i; destruct Hs as (H1 & H2 & Hy); eexists _, y'; (split; [done|]).
  - eapply step_inv; [done..| |done| |].
    + subst y'. eapply stepped_same; try done; by destruct s.
    + subst y'. apply data_up; [done|by intros; eapply inv_facts|by intros; eapply inv_own|done|done|].
      intros x ->. pose proof (si_room _ _ Hinv x) as Hr. unfold pending in Hr.
      pose proof (zsum_elem (pending_ups x) _ _ _ (pending_ups_nonneg x) Ht) as He. unfold pending_ups at 1 in He.
      rewrite Hcode in He. cbn in He. rewrite decide_True in He by done. pose proof (ups_in_nonneg x rest).
      unfold ups in He. lia.
    + intros x. cbn. destruct (decide (s = sem_of x)) as [->|].
      * rewrite fn_lookup_insert. unfold u32. pose proof (Z.mod_le (sem_count st (sem_of x) + 1) (2^32)). lia.
      * rewrite fn_lookup_insert_ne by done. lia.
  - eapply step_inv; [done..| |done| |].
    + subst y'. eapply stepped_same; try done; by destruct s.
    + subst y'. apply data_down; [done|by intros; eapply inv_facts|by intros; eapply inv_own|done|done|lia].
    + intros x. cbn. destruct (decide (s = sem_of x)) as [->|].
      * rewrite fn_lookup_insert. pose proof (do_fact _ _ _ _ Hd _ _ _ H1) as Hp. cbn in Hp.
        rewrite u32_small by (unfold is_u32; lia). lia.
      * rewrite fn_lookup_insert_ne by done. lia.
Qed.

Lemma exec_runs st Y t th o i rest :
  sync_inv st Y -> threads st !! t = Some th -> st_call th = Some o -> st_asleep th = false ->
  st_code th = i :: rest -> runs st Y t th i rest.
Proof.
  intros Hinv Ht Hcall Haw Hcode. pose proof (si_thread _ _ Hinv _ _ Ht) as Hok. pose proof (si_data _ _ Hinv) as Hd.
  assert (exists y', tstep i (Y t) y') as [y' Hs].
  { pose proof (to_call _ _ Hok) as Hc. rewrite Hcall in Hc. destruct Hc as (b & Hty & _). rewrite Hcode in Hty.
    apply typed_inv in Hty as (y' & ? & _). eauto. }
  pose proof (held_holder st Y t Hinv) as Hheld.
  pose proof (fun u s b => inv_facts st Y u s b Hinv) as Hfacts. pose proof (fun u => inv_own st Y u Hinv) as Hown.
  assert (forall w con, y' = Y t -> (forall x, ups_in x (i :: rest) = ups_in x rest) ->
    sync_inv (mk_sync (splk_holder st) (sem_count st) (lk_owner st) w con (<[t := with_code rest th]> (threads st))) (<[t := y']> Y))
    as Hcheck by (intros; by eapply check_inv).
  destruct i as [k|k|k| | |s body|s|s|s|c k|c|c|l|msg|b|l|l|l].
  - by eapply (exec_spin _ _ _ _ _ _ _ _ true).
  - by eapply (exec_spin _ _ _ _ _ _ _ _ false).
  - destruct Hs as [Hk Hy]. right. eexists _, y'. cbn. rewrite bool_decide_eq_true_2 by (by apply Hheld).
    split; [done|by apply Hcheck].
  - destruct Hs as [Hk Hy]. right. eexists _, y'. cbn. rewrite (to_spins _ _ Hok), Hk. split; [done|by apply Hcheck].
  - right. eexists _, y'. cbn. rewrite (to_intr _ _ Hok). split; [done|by apply Hcheck].
  - by eapply exec_while.
  - destruct Hs as [Hf Hy]. right. eexists _, y'. cbn. pose proof (do_fact _ _ _ _ Hd _ _ _ Hf) as Hp. cbn in Hp.
    rewrite (proj2 (Z.ltb_lt _ _) Hp). split; [done|by apply Hcheck].
  - by eapply (exec_count _ _ _ _ _ _ _ _ false).
  - by eapply (exec_count _ _ _ _ _ _ _ _ true).
  - by eapply exec_sleep.
  - destruct Hs as [Hk Hy]. right. cbn. destruct (wc_threads st c) as [|u us]; eexists _, y'; (split; [done|]).
    + by apply Hcheck.
    + exact (inv_wake _ _ u _ (Hcheck (wc_threads st) (console st) Hy (fun _ => eq_refl))).
  - destruct Hs as [Hk Hy]. right. eexists _, y'. split; [done|].
    exact (inv_wake_each _ _ _ _ (Hcheck (wc_threads st) (console st) Hy (fun _ => eq_refl))).
  - destruct Hs as [Hk Hy]. right. eexists _, y'. split; [done|].
    assert (bool_decide (lk_owner st l = Some t) = bool_decide (l ∈ y_own (Y t))) as ->
      by (apply bool_decide_ext, Hd).
    subst y'. eapply quiet_inv; try done; [|by apply Hd]. unfold stepped. cbn.
    split_and!; try done; [apply Hok|by rewrite Haw].
  - destruct Hs as [Hr Hy]. right. eexists _, y'. cbn. rewrite (to_res _ _ Hok), Hr. split; [done|by apply Hcheck].
  - destruct Hs as [Hr Hy]. right. eexists _, y'. cbn. rewrite (to_res _ _ Hok), Hr, eqb_reflx.
    split; [done|by apply Hcheck].
  - destruct Hs as (Hk & Htok & Hno & Hy). right. eexists _, y'. cbn.
    rewrite bool_decide_eq_true_2; [split; [done|by apply Hcheck]|].
    exact (proj1 (data_set_owner _ _ _ _ t Hd Hfacts Hown l Htok Hno)).
  - destruct Hs as (Hk & Htok & Hno & Hy). right. eexists _, y'. split; [done|]. subst y'.
    eapply step_inv; [done..| |done| |done]; [by eapply stepped_same|].
    exact (proj2 (data_set_owner _ _ _ _ t Hd Hfacts Hown l Htok Hno)).
  - destruct Hs as (Hk & Hin & Hy). right. eexists _, y'. split; [done|]. subst y'.
    eapply step_inv; [done..| |done| |done]; [by eapply stepped_same|].
    by apply data_clear_owner.
Qed.

(** ** Calls and returns *)

Lemma code_gives o l : CountUp (lk_sem l) ∈ code_of o -> gives_up o l.
Proof.
  unfold gives_up. destruct o; cbn; intros Hin;
    repeat (apply elem_of_cons in Hin as [?|Hin]; [simplify_eq; by eauto|]); by apply not_elem_of_nil in Hin.
Qed.

Lemma ups_in_code x o : ups_in x (code_of o) = if decide (o = call_V x) then 1 else 0.
Proof.
  destruct o as [y|y|l|l|c l|c l|c l]; try (rewrite decide_False; done).
  cbn. repeat case_decide; congruence || lia.
Qed.

Lemma ups_call x o os : ups_in x (code_of o) + ups x os = ups x (o :: os).
Proof. unfold ups. rewrite filter_cons, ups_in_code. case_decide; rewrite ?length_cons; lia. Qed.

Lemma thread_call th y o os :
  thread_ok th y -> st_call th = None -> st_calls th = o :: os -> st_asleep th = false ->
  thread_ok (mk_sthread false (st_in_interrupt th) (st_spinlocks th) (st_res th) (Some o) (code_of o) os (st_done th)) y.
Proof.
  intros [Hc Hsp Hnd Hres Hin Hasl Hown Hf Hk Hg] Hcall Hcalls Haw. rewrite Hcall, Hcalls in Hc.
  destruct Hc as (_ & Hy & [Hok Hrest]%calls_ok_cons). constructor; cbn; try done.
  - destruct (typed_call _ (y_res y) o Hok) as (b' & Hty). exists b'. split; [|done]. by rewrite Hy.
  - intros l Hl _. by rewrite Hy.
  - intros l Hl%code_gives. eauto.
Qed.

Lemma thread_return th y o :
  thread_ok th y -> st_call th = Some o -> st_code th = [] -> st_asleep th = false ->
  thread_ok (mk_sthread false (st_in_interrupt th) (st_spinlocks th) (st_res th) None [] (st_calls th) (o :: st_done th)) y.
Proof.
  intros [Hc Hsp Hnd Hres Hin Hasl Hown Hf Hk Hg] Hcall Hcode Haw. rewrite Hcall, Hcode in Hc.
  destruct Hc as (b' & Hty & Hok). assert (y = at_rest (locks_held (o :: st_done th)) b') as Heq' by (by inversion Hty).
  constructor; try done.
  - cbn. by rewrite Heq'.
  - intros l Hl _. by rewrite Heq'.
  - intros l Hl. by apply not_elem_of_nil in Hl.
Qed.

(** What a step of any thread comes to. *)
Lemma step_ok st Y t r : sync_inv st Y -> step_thread t st = Some r ->
  (r = Waits /\ exists th k rest u, threads st !! t = Some th /\ st_code th = SpinAcquire k :: rest /\
     splk_holder st k = Some u /\ u <> t) \/
  (exists st' Y', r = Steps st' /\ sync_inv st' Y').
Proof.
  intros Hinv Hstep. unfold step_thread in Hstep. destruct (threads st !! t) as [th|] eqn:Ht; [|done].
  destruct (st_asleep th) eqn:Haw; [done|]. pose proof (si_thread _ _ Hinv _ _ Ht) as Hok.
  destruct (st_call th) as [o|] eqn:Hcall.
  - destruct (st_code th) as [|i rest] eqn:Hcode.
    + injection Hstep as <-. right. eexists _, (<[t := Y t]> Y). split; [done|].
      eapply inv_intro; [done|done|by apply thread_return| |].
      * by apply data_same; [apply Hinv|..|apply Hinv].
      * intros x. unfold pending_ups. cbn. rewrite Hcode. cbn. lia.
    + injection Hstep as <-. destruct (exec_runs st Y t th o i rest) as [(k & u & -> & ? & ? & ->)|(st' & y' & -> & ?)]; try done.
      * left. split; [done|]. by exists th, k, rest, u.
      * right. eauto.
  - destruct (st_calls th) as [|o os] eqn:Hcalls; [done|].
    assert (Some (Steps (set_threads (<[t := mk_sthread false (st_in_interrupt th) (st_spinlocks th) (st_res th)
      (Some o) (code_of o) os (st_done th)]> (threads st)) st)) = Some r) as [= <-] by (by destruct (st_code th)).
    right. eexists _, (<[t := Y t]> Y). split; [done|]. eapply inv_intro; [done|done|by apply thread_call| |].
    + by apply data_same; [apply Hinv|..|apply Hinv].
    + intros x. unfold pending_ups. cbn. rewrite Hcalls, <- ups_call.
      pose proof (ups_in_nonneg x (st_code th)). lia.
Qed.

(** ** From the start *)

(** What the client owes: well-formed sequences of calls, and no semaphore
    that could count past 32 bits. *)
Record client_ok (init : positive -> Z) (calls : list (list call)) : Prop := mk_client_ok {
  co_calls cs : cs ∈ calls -> calls_ok ∅ cs = true;
  co_init x : 0 <= init x;
  co_room x : init x + zsum (ups x) calls < 2^32
}.

Lemma pending_start x init calls : pending x (threads (start init calls)) = zsum (ups x) calls.
Proof. unfold pending. cbn. induction calls as [|cs calls IH]; cbn; [done|]. by rewrite <- IH. Qed.

Lemma start_inv init calls : client_ok init calls -> sync_inv (start init calls) (fun _ => at_rest ∅ false).
Proof.
  intros [Hc Hi Hr]. constructor; cbn.
  - intros t th. rewrite list_lookup_fmap. intros (cs & Hcs & ->)%fmap_Some. apply list_elem_of_lookup_2 in Hcs.
    constructor; cbn; try done; [by auto|apply NoDup_nil_2|by intros l ?%not_elem_of_nil].
  - done.
  - constructor; cbn; try done; try set_solver.
  - intros x. pose proof (pending_start x init calls) as Hp. cbn in Hp. rewrite Hp. apply Hr.
Qed.

Definition reachable (init : positive -> Z) (calls : list (list call)) : sync -> Prop := rtc sstep (start init calls).

Lemma reachable_inv init calls st : client_ok init calls -> reachable init calls st -> exists Y, sync_inv st Y.
Proof.
  intros Hc Hr. apply (rtc_ind_r (fun st => exists Y, sync_inv st Y) (start init calls)) in Hr; [done|by eexists; apply start_inv|].
  intros st1 st2 _ [t Ht] [Y HY]. destruct (step_ok _ _ _ _ HY Ht) as [[? _]|(st' & Y' & Heq & ?)]; [done|].
  simplify_eq. eauto.
Qed.

(** ** Spinlocks do not deadlock *)

(** The thread has something to do and is not asleep. *)
Definition unfinished (th : sthread) : Prop := st_call th <> None \/ st_calls th <> [].

Lemma ready_steps st Y t th : sync_inv st Y -> threads st !! t = Some th -> st_asleep th = false -> unfinished th ->
  (exists st', step_thread t st = Some (Steps st')) \/
  (exists k rest u, st_code th = SpinAcquire k :: rest /\ splk_holder st k = Some u /\ u <> t).
Proof.
  intros Hinv Ht Haw Hun. assert (exists r, step_thread t st = Some r) as [r Hr].
  { unfold step_thread. rewrite Ht, Haw. destruct Hun as [Hc|Hc], (st_call th), (st_code th), (st_calls th); eauto; done. }
  destruct (step_ok _ _ _ _ Hinv Hr) as [(-> & th' & k & rest & u & ? & ? & ?)|(st' & Y' & -> & _)]; [|by eauto].
  simplify_eq. right. eauto.
Qed.

(** A thread that holds a spinlock is awake, inside a call, and waits only for
    spinlocks of higher rank. *)
Lemma holder_awake st Y t k : sync_inv st Y -> splk_holder st k = Some t ->
  exists th, threads st !! t = Some th /\ st_asleep th = false /\ unfinished th /\
    forall k' rest, st_code th = SpinAcquire k' :: rest -> rank k < rank k'.
Proof.
  intros Hinv Hk. apply (do_holder _ _ _ _ (si_data _ _ Hinv)) in Hk.
  destruct (threads st !! t) as [th|] eqn:Ht; [|rewrite (si_none _ _ Hinv t Ht) in Hk; by apply not_elem_of_nil in Hk].
  pose proof (si_thread _ _ Hinv _ _ Ht) as Hok. exists th. split; [done|].
  pose proof (to_call _ _ Hok) as Hc. destruct (st_call th) as [o|] eqn:Hcall.
  - split_and!.
    + destruct (st_asleep th) eqn:Ha; [|done]. rewrite (to_asleep _ _ Hok Ha) in Hk. by apply not_elem_of_nil in Hk.
    + left. by rewrite Hcall.
    + intros k' rest Hcode. destruct Hc as (b' & Hty & _). rewrite Hcode in Hty.
      apply typed_inv in Hty as (y1 & [Hrank _] & _). by apply Hrank.
  - destruct Hc as (_ & Hy & _). rewrite Hy in Hk. by apply not_elem_of_nil in Hk.
Qed.

Lemma rank_range k : 0 <= rank k <= 2.
Proof. destruct k; cbn; lia. Qed.

Lemma spin_progress st Y t th : sync_inv st Y -> threads st !! t = Some th -> st_asleep th = false -> unfinished th ->
  exists st', sstep st st'.
Proof.
  intros Hinv.
  enough (forall n t th, threads st !! t = Some th -> st_asleep th = false -> unfinished th ->
    (forall k rest, st_code th = SpinAcquire k :: rest -> 2 - rank k < Z.of_nat n) -> exists st', sstep st st') as Hn.
  { intros Ht Haw Hun. apply (Hn 3%nat t th Ht Haw Hun). intros k rest _. pose proof (rank_range k). lia. }
  clear t th. intros n. induction n as [|n IH]; intros t th Ht Haw Hun Hk.
  - destruct (ready_steps _ _ _ _ Hinv Ht Haw Hun) as [[st' ?]|(k & rest & u & Hcode & _)]; [by exists st', t|].
    specialize (Hk k rest Hcode). pose proof (rank_range k). lia.
  - destruct (ready_steps _ _ _ _ Hinv Ht Haw Hun) as [[st' ?]|(k & rest & u & Hcode & Hu & _)]; [by exists st', t|].
    destruct (holder_awake _ _ _ _ Hinv Hu) as (thu & Htu & Hawu & Hunu & Hrank).
    apply (IH u thu Htu Hawu Hunu). intros k' rest' Hcode'. specialize (Hrank k' rest' Hcode').
    specialize (Hk k rest Hcode). lia.
Qed.

(** ** The theorems *)

(** The spinlock that protects what a step reads or writes. *)
Definition protected_by (i : instr) : option spin :=
  match i with
  | WhileCountZero s _ | AssertCountPos s | CountDown s | CountUp s => Some (sem_lock s)
  | SwitchToSleep c _ | WakeHead c | WakeEach c => Some (guard c)
  | TestOwner l | AssertNoOwner l | SetOwner l | ClearOwner l => Some (lk_lock l)
  | _ => None
  end.

Lemma protected_held i y y' k : tstep i y y' ->
  (forall s b, y_fact y = Some (s, b) -> sem_lock s ∈ y_spins y) -> protected_by i = Some k -> k ∈ y_spins y.
Proof.
  intros Hs Hf Hp. destruct i; cbn in Hs, Hp; simplify_eq; destruct_and?; subst; try done; try (by eapply Hf).
  - rewrite H1. by left.
  - rewrite H. by left.
Qed.

(** (C33) The locking discipline of the synchronisation code.  However the
    threads are interleaved, when they call semaphores, locks and condition
    variables as [synch.h] asks (and no semaphore counts past 32 bits), no
    assertion of [synch.c], [spinlock.c] or of the wait channels fails, no
    spinlock is acquired twice, and every access to a count, an owner or a
    wait channel is made by the thread that holds its spinlock, so no two
    threads race. *)
Theorem synch_discipline init calls st t :
  client_ok init calls -> reachable init calls st ->
  (forall r, step_thread t st <> Some (Fails r)) /\
  (forall th i rest k, threads st !! t = Some th -> st_call th <> None -> st_code th = i :: rest ->
     protected_by i = Some k -> splk_holder st k = Some t).
Proof.
  intros Hc Hr. destruct (reachable_inv _ _ _ Hc Hr) as [Y HY]. split.
  - intros r Hstep. by destruct (step_ok _ _ _ _ HY Hstep) as [[? _]|(? & ? & ? & _)].
  - intros th i rest k Ht Hcall Hcode Hp. pose proof (si_thread _ _ HY _ _ Ht) as Hok.
    pose proof (to_call _ _ Hok) as Hty. destruct (st_call th) as [o|]; [|done]. destruct Hty as (b' & Hty & _).
    rewrite Hcode in Hty. apply typed_inv in Hty as (y1 & Hs & _). apply (do_holder _ _ _ _ (si_data _ _ HY)).
    eapply protected_held; [done|apply Hok|done].
Qed.

(** The thread holds the lock: it returned from the call that acquired it and
    has not called one that gives it up. *)
Definition holds_lock (l : positive) (th : sthread) : Prop :=
  l ∈ locks_held (st_done th) /\ forall o, st_call th = Some o -> ~ gives_up o l.

(** (C8) Locks exclude.  In every reachable state at most one thread is
    between the return of [lock_acquire] (or of [cv_wait]) on a lock and its
    next call of [lock_release] or [cv_wait] on it. *)
Theorem lock_mutual_exclusion init calls st l t u th thu :
  client_ok init calls -> reachable init calls st ->
  threads st !! t = Some th -> threads st !! u = Some thu -> holds_lock l th -> holds_lock l thu -> t = u.
Proof.
  intros Hc Hr Ht Hu [Hl Hno] [Hl' Hno']. destruct (reachable_inv _ _ _ Hc Hr) as [Y HY].
  apply (do_token _ _ _ _ (si_data _ _ HY) l).
  - by apply (to_kept th (Y t) (si_thread _ _ HY _ _ Ht)).
  - by apply (to_kept thu (Y u) (si_thread _ _ HY _ _ Hu)).
Qed.
