(* ===== verification/SynchWake.v ===== *)
(** * No wake-up is lost

    A thread sleeping in [P] is woken by the [V] it waits for.  [V] increments
    the count and wakes one sleeper, which tries again and may find that
    another thread was faster; the invariant counts the threads that are on
    their way to the semaphore and the [V]s that still owe a wake-up. *)

From stdpp Require Import functions.
From S2P Require Import Prelude State Monad Synch SynchTypes.

#[local] Open Scope Z_scope.

(** The code decrements [s] before it sleeps again. *)
Fixpoint wants (s : semid) (code : list instr) : bool :=
  match code with
  | [] => false
  | CountDown s' :: r => bool_decide (s' = s) || wants s r
  | SwitchToSleep _ _ :: _ => false
  | _ :: r => wants s r
  end.

(** The code wakes a sleeper of [s] before it increments [s]: it did
    increment it already. *)
Fixpoint owes (s : semid) (code : list instr) : bool :=
  match code with
  | [] => false
  | CountUp s' :: r => if decide (s' = s) then false else owes s r
  | WakeHead c :: r => bool_decide (c = sem_wchan s) || owes s r
  | _ :: r => owes s r
  end.

(** An increment is followed by a wake-up, who sleeps in [P] will try again,
    and nobody sleeps who owes a wake-up. *)
Fixpoint good (code : list instr) : Prop :=
  match code with
  | [] => True
  | CountUp s :: r => owes s r = true /\ good r
  | SwitchToSleep c _ :: r =>
      (forall s, c = sem_wchan s -> wants s r = true) /\ (forall s', owes s' r = false) /\ good r
  | WhileCountZero s body :: r =>
      body = wchan_sleep (sem_wchan s) (sem_lock s) /\ wants s r = true /\
      (forall s', wants s' r = true -> s' = s) /\ (forall s', owes s' r = false) /\ good r
  | _ :: r => good r
  end.

Definition coming (s : semid) (th : sthread) : Z := if negb (st_asleep th) && wants s (st_code th) then 1 else 0.
Definition owing (s : semid) (th : sthread) : Z := if negb (st_asleep th) && owes s (st_code th) then 1 else 0.

Record wake_inv (st : sync) : Prop := mk_wake_inv {
  wi_good t th : threads st !! t = Some th -> good (st_code th);
  wi_sleep c t : t ∈ wc_threads st c -> exists th, threads st !! t = Some th /\ st_asleep th = true /\
    (forall s, c = sem_wchan s -> wants s (st_code th) = true);
  wi_asleep t th : threads st !! t = Some th -> st_asleep th = true -> exists c, t ∈ wc_threads st c;
  wi_apart c c' t : t ∈ wc_threads st c -> t ∈ wc_threads st c' -> c = c';
  wi_nodup c : NoDup (wc_threads st c);
  wi_count s : wc_threads st (sem_wchan s) <> [] ->
    sem_count st s <= zsum (coming s) (threads st) + zsum (owing s) (threads st)
}.

Lemma good_code o : good (code_of o).
Proof.
  destruct o; cbn; split_and?; try done; repeat (rewrite bool_decide_eq_true_2 by done; cbn); try done;
    intros s' Hs'; repeat case_bool_decide; done.
Qed.

Lemma coming_range s th : 0 <= coming s th <= 1.
Proof. unfold coming. case_match; lia. Qed.
Lemma owing_range s th : 0 <= owing s th <= 1.
Proof. unfold owing. case_match; lia. Qed.

Lemma zsum_nonneg {A} (f : A -> Z) l : (forall x, 0 <= f x) -> 0 <= zsum f l.
Proof. intros Hf. induction l as [|x l IH]; cbn; [lia|]. specialize (Hf x). lia. Qed.

Lemma zsum_alter_at {A} (f : A -> Z) g l i x : l !! i = Some x -> zsum f (alter g i l) = zsum f l - f x + f (g x).
Proof.
  revert i. induction l as [|a l IH]; intros [|i] Hi; simpl in *; simplify_eq; [lia|].
  change (list_alter g i l) with (alter g i l). rewrite (IH i Hi). lia.
Qed.

Lemma zsum_alter_le {A} (f : A -> Z) g l i : (forall x, f x <= f (g x)) -> zsum f l <= zsum f (alter g i l).
Proof.
  intros Hf. destruct (l !! i) as [x|] eqn:Hi.
  - rewrite (zsum_alter_at f g l i x Hi). specialize (Hf x). lia.
  - enough (alter g i l = l) as -> by lia. apply list_eq. intros j. rewrite list_lookup_alter.
    case_decide; [subst; by rewrite Hi|done].
Qed.

(** ** Steps *)

Lemma awake_off st t th c : wake_inv st -> threads st !! t = Some th -> st_asleep th = false -> t ∉ wc_threads st c.
Proof. intros Hw Ht Haw Hin. destruct (wi_sleep _ Hw _ _ Hin) as (th' & Ht' & ? & _). congruence. Qed.

(** The thread [t] moves on, awake; no channel changes. *)
Lemma wake_local st t th th' holder' count' owner' con' :
  wake_inv st -> threads st !! t = Some th -> st_asleep th = false -> st_asleep th' = false -> good (st_code th') ->
  (forall s, wc_threads st (sem_wchan s) <> [] ->
    count' s <= 0 \/ count' s + coming s th + owing s th <= sem_count st s + coming s th' + owing s th') ->
  wake_inv (mk_sync holder' count' owner' (wc_threads st) con' (<[t := th']> (threads st))).
Proof.
  intros Hw Ht Haw Haw' Hg Hc. assert (t < length (threads st))%nat by (by eapply lookup_lt_Some). constructor; cbn.
  - intros u thu. destruct (decide (u = t)) as [->|]; [rewrite list_lookup_insert_eq by done; by intros [= <-]|].
    rewrite list_lookup_insert_ne by done. by apply wi_good.
  - intros c u Hu. assert (u <> t) by (intros ->; by eapply awake_off).
    rewrite list_lookup_insert_ne by done. by apply wi_sleep.
  - intros u thu. destruct (decide (u = t)) as [->|]; [rewrite list_lookup_insert_eq by done; intros [= <-]; congruence|].
    rewrite list_lookup_insert_ne by done. by apply wi_asleep.
  - by apply wi_apart.
  - by apply wi_nodup.
  - intros s Hs. pose proof (wi_count _ Hw s Hs). rewrite !(zsum_insert _ _ _ _ _ Ht).
    pose proof (zsum_insert (coming s) _ _ _ th' Ht) as H1. pose proof (zsum_insert (owing s) _ _ _ th' Ht) as H2.
    pose proof (zsum_nonneg (coming s) (<[t := th']> (threads st)) (fun x => proj1 (coming_range s x))).
    pose proof (zsum_nonneg (owing s) (<[t := th']> (threads st)) (fun x => proj1 (owing_range s x))).
    destruct (Hc s Hs); lia.
Qed.

(** The thread [t] falls asleep on [c]. *)
Lemma wake_sleep st t th th' c holder' :
  wake_inv st -> threads st !! t = Some th -> st_asleep th = false -> st_asleep th' = true -> good (st_code th') ->
  (forall s, c = sem_wchan s -> wants s (st_code th') = true /\ sem_count st s = 0) ->
  (forall s, coming s th = 0 /\ owing s th = 0) ->
  wake_inv (mk_sync holder' (sem_count st) (lk_owner st) (<[c := wc_threads st c ++ [t]]> (wc_threads st)) (console st)
    (<[t := th']> (threads st))).
Proof.
  intros Hw Ht Haw Haw' Hg Hc Hz. assert (t < length (threads st))%nat by (by eapply lookup_lt_Some).
  pose proof (fun c => awake_off st t th c Hw Ht Haw) as Hoff. constructor; cbn.
  - intros u thu. destruct (decide (u = t)) as [->|]; [rewrite list_lookup_insert_eq by done; by intros [= <-]|].
    rewrite list_lookup_insert_ne by done. by apply wi_good.
  - intros c' u. destruct (decide (c' = c)) as [->|].
    + rewrite fn_lookup_insert. rewrite elem_of_app, list_elem_of_singleton. intros [Hu| ->].
      * assert (u <> t) by (intros ->; by eapply Hoff). rewrite list_lookup_insert_ne by done. by apply wi_sleep.
      * rewrite list_lookup_insert_eq by done. exists th'. split_and!; [done..|]. intros s Hs. by apply Hc.
    + rewrite fn_lookup_insert_ne by done. intros Hu. assert (u <> t) by (intros ->; by eapply Hoff).
      rewrite list_lookup_insert_ne by done. by apply wi_sleep.
  - intros u thu. destruct (decide (u = t)) as [->|].
    + intros _ _. exists c. rewrite fn_lookup_insert. set_solver.
    + rewrite list_lookup_insert_ne by done. intros Hu Hasl. destruct (wi_asleep _ Hw _ _ Hu Hasl) as [c' Hc'].
      exists c'. destruct (decide (c' = c)) as [->|]; [rewrite fn_lookup_insert; set_solver|by rewrite fn_lookup_insert_ne].
  - intros c1 c2 u. specialize (Hoff c1) as H1. specialize (Hoff c2) as H2.
    destruct (decide (c1 = c)) as [->|], (decide (c2 = c)) as [->|]; rewrite ?fn_lookup_insert, ?fn_lookup_insert_ne by done;
      rewrite ?elem_of_app, ?list_elem_of_singleton; try done.
    + intros [Hu| ->] Hu2; [by eapply wi_apart|done].
    + intros Hu1 [Hu| ->]; [by eapply wi_apart|done].
    + by apply wi_apart.
  - intros c'. destruct (decide (c' = c)) as [->|]; [|rewrite fn_lookup_insert_ne by done; by apply wi_nodup].
    rewrite fn_lookup_insert. apply NoDup_app. split_and!; [by apply wi_nodup| |apply NoDup_singleton].
    intros u Hu. rewrite list_elem_of_singleton. intros ->. by eapply Hoff.
  - intros s Hs. rewrite !(zsum_insert _ _ _ _ _ Ht). destruct (Hz s) as [Hz1 Hz2].
    pose proof (coming_range s th'). pose proof (owing_range s th'). pose proof (zsum_nonneg (coming s) (threads st) (fun x => proj1 (coming_range s x))).
    pose proof (zsum_nonneg (owing s) (threads st) (fun x => proj1 (owing_range s x))).
    destruct (decide (c = sem_wchan s)) as [->|]; [destruct (Hc s eq_refl); lia|].
    rewrite fn_lookup_insert_ne in Hs by congruence. pose proof (wi_count _ Hw s Hs). lia.
Qed.

(** The thread [t] wakes the first sleeper of [c]. *)
Lemma wake_head st t th th' c u us :
  wake_inv st -> threads st !! t = Some th -> st_asleep th = false -> st_asleep th' = false -> good (st_code th') ->
  wc_threads st c = u :: us ->
  (forall s, coming s th' = coming s th /\ owing s th <= owing s th' + (if decide (c = sem_wchan s) then 1 else 0)) ->
  wake_inv (set_wchan (<[c := us]> (wc_threads st)) (set_threads (make_runnable u (<[t := th']> (threads st))) st)).
Proof.
  intros Hw Ht Haw Haw' Hg Hc Hs. assert (t < length (threads st))%nat by (by eapply lookup_lt_Some).
  pose proof (fun c => awake_off st t th c Hw Ht Haw) as Hoff.
  assert (u ∈ wc_threads st c) as Hu by (rewrite Hc; by left).
  assert (u <> t) as Hut by (intros ->; by eapply Hoff).
  destruct (wi_sleep _ Hw c u Hu) as (thu & Hthu & Hasl & Hwant).
  pose proof (wi_nodup _ Hw c) as Hnd. rewrite Hc in Hnd. apply NoDup_cons in Hnd as [Hus Hnd].
  assert (forall c' v, v ∈ <[c := us]> (wc_threads st) c' -> v <> u /\ v <> t /\ v ∈ wc_threads st c') as Hin.
  { intros c' v. destruct (decide (c' = c)) as [->|Hne].
    - rewrite fn_lookup_insert. intros Hv. assert (v ∈ wc_threads st c) by (rewrite Hc; by right).
      split_and!; [by intros ->|intros ->; by eapply Hoff|done].
    - rewrite fn_lookup_insert_ne by done. intros Hv. split_and!; [intros ->; by eapply Hne, wi_apart|intros ->; by eapply Hoff|done]. }
  assert (forall v thv, make_runnable u (<[t := th']> (threads st)) !! v = Some thv ->
    (v = u /\ thv = with_asleep false thu) \/ (v = t /\ thv = th') \/ (v <> u /\ v <> t /\ threads st !! v = Some thv)) as Hlook.
  { intros v thv. unfold make_runnable. rewrite list_lookup_alter. case_decide; [subst v|].
    - rewrite list_lookup_insert_ne, Hthu by done. intros [= <-]. auto.
    - destruct (decide (v = t)) as [->|]; [rewrite list_lookup_insert_eq by done; intros [= <-]; auto|].
      rewrite list_lookup_insert_ne by done. auto. }
  constructor; cbn.
  - intros v thv [[-> ->]|[[-> ->]|(_ & _ & Hv)]]%Hlook; [exact (wi_good _ Hw u thu Hthu)|done|by eapply wi_good].
  - intros c' v (Hvu & Hvt & Hv)%Hin. unfold make_runnable.
    rewrite list_lookup_alter_ne, list_lookup_insert_ne by done. by apply wi_sleep.
  - intros v thv [[-> ->]|[[-> ->]|(Hvu & Hvt & Hv)]]%Hlook Hasl'; [done|congruence|].
    destruct (wi_asleep _ Hw _ _ Hv Hasl') as [c' Hc']. exists c'. destruct (decide (c' = c)) as [->|].
    + rewrite fn_lookup_insert. rewrite Hc in Hc'. by apply elem_of_cons in Hc' as [?|].
    + by rewrite fn_lookup_insert_ne.
  - intros c1 c2 v (_ & _ & H1)%Hin (_ & _ & H2)%Hin. by eapply wi_apart.
  - intros c'. destruct (decide (c' = c)) as [->|]; [by rewrite fn_lookup_insert|].
    rewrite fn_lookup_insert_ne by done. by apply wi_nodup.
  - intros s Hns. unfold make_runnable.
    assert (wc_threads st (sem_wchan s) <> []) as Hns'.
    { destruct (decide (c = sem_wchan s)) as [->|]; [by rewrite Hc|]. by rewrite fn_lookup_insert_ne in Hns by congruence. }
    pose proof (wi_count _ Hw s Hns') as Hcnt. destruct (Hs s) as [Hco How].
    assert (<[t := th']> (threads st) !! u = Some thu) as Hthu' by (by rewrite list_lookup_insert_ne).
    rewrite !(zsum_alter_at _ _ _ _ _ Hthu'), !(zsum_insert _ _ _ _ _ Ht).
    assert (coming s thu = 0) as -> by (unfold coming; by rewrite Hasl).
    assert (owing s thu = 0) as -> by (unfold owing; by rewrite Hasl).
    pose proof (owing_range s (with_asleep false thu)).
    pose proof (coming_range s (with_asleep false thu)). case_decide; [|lia].
    assert (coming s (with_asleep false thu) = 1); [|lia]. unfold coming. cbn. by rewrite Hwant.
Qed.

(** ** Waking every sleeper *)

Lemma fold_runnable_lookup us : forall ths v,
  foldl (fun ths u => make_runnable u ths) ths us !! v =
  (fun th => if decide (v ∈ us) then with_asleep false th else th) <$> ths !! v.
Proof.
  induction us as [|u us IH]; intros ths v; cbn [foldl].
  - destruct (ths !! v); cbn; [|done]. by rewrite decide_False by apply not_elem_of_nil.
  - rewrite IH. unfold make_runnable. destruct (decide (u = v)) as [->|Huv].
    + rewrite list_lookup_alter_eq. destruct (ths !! v); cbn; [|done].
      rewrite (decide_True (P := v ∈ v :: us)) by left. by case_decide.
    + rewrite list_lookup_alter_ne by done. destruct (ths !! v); cbn; [|done]. f_equal. by apply decide_ext; rewrite elem_of_cons; naive_solver.
Qed.

Lemma fold_runnable_sums s us : forall ths,
  zsum (coming s) ths <= zsum (coming s) (foldl (fun ths u => make_runnable u ths) ths us) /\
  zsum (owing s) ths <= zsum (owing s) (foldl (fun ths u => make_runnable u ths) ths us).
Proof.
  induction us as [|u us IH]; intros ths; cbn [foldl]; [lia|]. destruct (IH (make_runnable u ths)) as [H1 H2].
  split; (etrans; [|eassumption]); apply zsum_alter_le; intros th; unfold coming, owing; cbn;
    destruct (st_asleep th), (wants s (st_code th)), (owes s (st_code th)); cbn; lia.
Qed.

Lemma wake_each st t th th' c :
  wake_inv st -> threads st !! t = Some th -> st_asleep th = false -> st_asleep th' = false -> good (st_code th') ->
  (forall s, coming s th' = coming s th /\ owing s th = owing s th') ->
  wake_inv (set_wchan (<[c := []]> (wc_threads st))
    (set_threads (foldl (fun ths u => make_runnable u ths) (<[t := th']> (threads st)) (wc_threads st c)) st)).
Proof.
  intros Hw Ht Haw Haw' Hg Hs.
  pose proof (wake_local st t th th' (splk_holder st) (sem_count st) (lk_owner st) (console st) Hw Ht Haw Haw' Hg
    ltac:(intros s _; right; destruct (Hs s); lia)) as Hw1.
  assert (forall c' v, v ∈ <[c := []]> (wc_threads st) c' -> c' <> c /\ v ∈ wc_threads st c') as Hin.
  { intros c' v. destruct (decide (c' = c)) as [->|]; [rewrite fn_lookup_insert; by intros ?%not_elem_of_nil|].
    by rewrite fn_lookup_insert_ne. }
  constructor; cbn.
  - intros v thv. rewrite fold_runnable_lookup. intros (th0 & Hth & ->)%fmap_Some.
    pose proof (wi_good _ Hw1 v th0 Hth). by case_decide.
  - intros c' v [Hne Hv]%Hin. destruct (wi_sleep _ Hw1 c' v Hv) as (thv & Hthv & ? & ?). cbn in Hthv.
    exists thv. rewrite fold_runnable_lookup, Hthv. cbn. rewrite decide_False; [done|].
    intros Hv'. by eapply Hne, wi_apart.
  - intros v thv. rewrite fold_runnable_lookup. intros (th0 & Hth & ->)%fmap_Some. case_decide as Hvc; [done|].
    intros Hasl. destruct (wi_asleep _ Hw1 v th0 Hth Hasl) as [c' Hc']. cbn in Hc'. exists c'.
    rewrite fn_lookup_insert_ne; [done|]. by intros ->.
  - intros c1 c2 v [_ H1]%Hin [_ H2]%Hin. by eapply wi_apart.
  - intros c'. destruct (decide (c' = c)) as [->|]; [rewrite fn_lookup_insert; apply NoDup_nil_2|].
    rewrite fn_lookup_insert_ne by done. by apply wi_nodup.
  - intros s Hns. destruct (decide (c = sem_wchan s)) as [->|]; [by rewrite fn_lookup_insert in Hns|].
    rewrite fn_lookup_insert_ne in Hns by congruence. pose proof (wi_count _ Hw1 s Hns) as Hcnt. cbn in Hcnt.
    destruct (fold_runnable_sums s (wc_threads st c) (<[t := th']> (threads st))). lia.
Qed.

(** ** The invariant is kept *)

Lemma coming_code s th code : st_asleep th = false -> st_code th = code -> coming s th = if wants s code then 1 else 0.
Proof. intros Ha <-. unfold coming. by rewrite Ha. Qed.
Lemma owing_code s th code : st_asleep th = false -> st_code th = code -> owing s th = if owes s code then 1 else 0.
Proof. intros Ha <-. unfold owing. by rewrite Ha. Qed.

Lemma coming_at s th code : st_asleep th = false -> coming s (with_code code th) = if wants s code then 1 else 0.
Proof. intros Ha. by apply coming_code. Qed.
Lemma owing_at s th code : st_asleep th = false -> owing s (with_code code th) = if owes s code then 1 else 0.
Proof. intros Ha. by apply owing_code. Qed.

(** A step that is neither a test of a count, an update of a count, nor an
    operation on a channel. *)
Lemma wake_quiet st t th th' i rest holder' owner' con' :
  wake_inv st -> threads st !! t = Some th -> st_asleep th = false -> st_asleep th' = false ->
  st_code th = i :: rest -> st_code th' = rest ->
  (forall s, wants s (i :: rest) = wants s rest) -> (forall s, owes s (i :: rest) = owes s rest) -> good rest ->
  wake_inv (mk_sync holder' (sem_count st) owner' (wc_threads st) con' (<[t := th']> (threads st))).
Proof.
  intros Hw Ht Haw Haw' Hcode Hcode' Hwa How Hg. eapply wake_local; [done..|by rewrite Hcode'|]. intros s _. right.
  rewrite (coming_code s th (i :: rest)), (coming_code s th' rest), (owing_code s th (i :: rest)), (owing_code s th' rest) by done.
  rewrite Hwa, How. lia.
Qed.

Lemma exec_wake st Y t th o i rest st' :
  sync_inv st Y -> wake_inv st -> threads st !! t = Some th -> st_call th = Some o -> st_asleep th = false ->
  st_code th = i :: rest -> exec t th i rest st = Steps st' -> wake_inv st'.
Proof.
  intros Hinv Hw Ht Hcall Haw Hcode Hex. pose proof (wi_good _ Hw _ _ Ht) as Hg. rewrite Hcode in Hg.
  pose proof (si_data _ _ Hinv) as Hd.
  assert (exists y', tstep i (Y t) y') as [y' Hs].
  { pose proof (to_call _ _ (si_thread _ _ Hinv _ _ Ht)) as Hc. rewrite Hcall in Hc. destruct Hc as (b & Hty & _).
    rewrite Hcode in Hty. apply typed_inv in Hty as (y' & ? & _). eauto. }
  assert (forall s, owing s th = if owes s (i :: rest) then 1 else 0) as Eo by (intros; by apply owing_code).
  assert (forall s, coming s th = if wants s (i :: rest) then 1 else 0) as Ec by (intros; by apply coming_code).
  destruct i as [k|k|k| | |s body|s|s|s|c k|c|c|l|msg|b|l|l|l]; cbn in Hex, Hg.
  all: try (repeat case_match; simplify_eq; unfold set_threads, set_holder, set_owner, set_console; cbn; by eapply wake_quiet).
  - destruct Hg as (-> & Hwant & Honly & Hnone & Hgr). case_match eqn:Hz; simplify_eq.
    + apply Z.eqb_eq in Hz. eapply (wake_local st t th); [done..|cbn; split_and!; try done; by intros ? [= <-]|]. intros s' _. rewrite Ec, Eo. cbn.
      rewrite coming_at, owing_at by done. cbn.
      destruct (wants s' rest) eqn:Hs'; [|lia]. rewrite (Honly s' Hs'). left. lia.
    + by eapply wake_quiet.
  - injection Hex as <-. destruct Hs as (Hf & _). pose proof (do_fact _ _ _ _ Hd _ _ _ Hf) as Hp. cbn in Hp.
    pose proof (inv_count st Y s Hinv). eapply (wake_local st t th); [done..|]. intros s' _. right. rewrite Ec, Eo. cbn.
    rewrite coming_at, owing_at by done. cbn. destruct (decide (s' = s)) as [->|Hne].
    + rewrite fn_lookup_insert, u32_small, bool_decide_eq_true_2 by (done || unfold is_u32; lia). cbn.
      destruct (wants s rest); lia.
    + rewrite fn_lookup_insert_ne, bool_decide_eq_false_2 by congruence. cbn. lia.
  - injection Hex as <-. destruct Hg as [How Hgr]. eapply (wake_local st t th); [done..|]. intros s' _. right. rewrite Ec, Eo. cbn.
    rewrite coming_at, owing_at by done. cbn. destruct (decide (s' = s)) as [->|Hne].
    + rewrite fn_lookup_insert, decide_True, How by done. pose proof (inv_count st Y s Hinv). unfold u32.
      pose proof (Z.mod_le (sem_count st s + 1) (2^32)). lia.
    + rewrite fn_lookup_insert_ne, decide_False by congruence. lia.
  - destruct (decide (splk_holder st k = Some t)); [|done]. destruct (0 <? st_spinlocks th); [|done]. injection Hex as <-.
    destruct Hg as (Hwant & Hnone & Hgr).
    eapply (wake_sleep st t th); [done..| |].
    + intros s Hc. split; [by apply Hwant|]. destruct Hs as (_ & _ & Hf & _).
      exact (do_fact _ _ _ _ Hd _ _ _ (Hf s Hc)).
    + intros s. rewrite Ec, Eo. cbn. by rewrite Hnone.
  - case_match eqn:Hwc; injection Hex as <-.
    + eapply (wake_local st t th); [done..|]. intros s' Hne. right. rewrite Ec, Eo. cbn. rewrite coming_at, owing_at by done.
      rewrite bool_decide_eq_false_2 by congruence. cbn. lia.
    + eapply (wake_head st t th); [done..|]. intros s. rewrite Ec, Eo, coming_at, owing_at by done.
      cbn. split; [done|]. case_decide; [rewrite bool_decide_eq_true_2 by done|rewrite bool_decide_eq_false_2 by done];
        cbn; destruct (owes s rest); lia.
  - injection Hex as <-. eapply (wake_each st t th); [done..|]. intros s.
    rewrite Ec, Eo, coming_at, owing_at by done. done.
Qed.

Lemma step_wake st Y t st' : sync_inv st Y -> wake_inv st -> step_thread t st = Some (Steps st') -> wake_inv st'.
Proof.
  intros Hinv Hw Hstep. unfold step_thread in Hstep. destruct (threads st !! t) as [th|] eqn:Ht; [|done].
  destruct (st_asleep th) eqn:Haw; [done|]. pose proof (to_call _ _ (si_thread _ _ Hinv _ _ Ht)) as Hc.
  destruct (st_call th) as [o|] eqn:Hcall.
  - destruct (st_code th) as [|i rest] eqn:Hcode.
    + injection Hstep as <-. eapply (wake_local st t th); [done..|]. intros s _. right.
      rewrite (coming_code s th []), (owing_code s th []) by done. unfold coming, owing. cbn. lia.
    + injection Hstep as Hex. by eapply exec_wake.
  - destruct Hc as (Hcode & _). destruct (st_calls th) as [|o os]; [done|]. injection Hstep as <-.
    eapply (wake_local st t th); [done..|apply good_code|]. intros s _. right.
    rewrite (coming_code s th []), (owing_code s th []) by done. cbn.
    match goal with |- context [coming s ?x] => pose proof (coming_range s x); pose proof (owing_range s x) end. lia.
Qed.

Lemma start_wake init calls : wake_inv (start init calls).
Proof.
  constructor; cbn; try done.
  - intros t th. rewrite list_lookup_fmap. by intros (cs & _ & ->)%fmap_Some.
  - by intros c t ?%not_elem_of_nil.
  - intros t th. rewrite list_lookup_fmap. by intros (cs & _ & ->)%fmap_Some.
  - by intros c c' t ?%not_elem_of_nil.
  - intros c. apply NoDup_nil_2.
Qed.

Lemma reachable_wake init calls st : client_ok init calls -> reachable init calls st ->
  exists Y, sync_inv st Y /\ wake_inv st.
Proof.
  intros Hc Hr. apply (rtc_ind_r (fun st => exists Y, sync_inv st Y /\ wake_inv st) (start init calls)) in Hr; [done| |].
  - eexists. split; [by apply start_inv|apply start_wake].
  - intros st1 st2 _ [t Ht] (Y & HY & Hw). pose proof (step_wake _ _ _ _ HY Hw Ht) as Hw'.
    destruct (step_ok _ _ _ _ HY Ht) as [[? _]|(st' & Y' & Heq & ?)]; [done|]. simplify_eq. eauto.
Qed.

Lemma zsum_zero {A} (f : A -> Z) l : (forall i x, l !! i = Some x -> f x = 0) -> zsum f l = 0.
Proof.
  induction l as [|a l IH]; intros Hf; cbn; [done|]. rewrite (Hf 0%nat a), IH; [done| |done].
  intros i x Hi. by apply (Hf (S i)).
Qed.

(** Where nobody is on the way to a semaphore, nobody waits for a count that
    is not 0. *)
Lemma sleepers_zero st Y s : sync_inv st Y -> wake_inv st -> wc_threads st (sem_wchan s) <> [] ->
  (forall t th, threads st !! t = Some th -> st_asleep th = false -> st_code th = []) -> sem_count st s = 0.
Proof.
  intros Hinv Hw Hns Hall. pose proof (wi_count _ Hw s Hns) as Hc. pose proof (inv_count st Y s Hinv).
  rewrite !zsum_zero in Hc; [lia|..]; intros t th Ht; unfold owing, coming; destruct (st_asleep th) eqn:Ha; try done;
    by rewrite (Hall t th Ht Ha).
Qed.

(** (C9) No wake-up is lost.  A reachable state in which no thread can move is
    a state in which every thread that has calls left sleeps, and on a
    semaphore only if its count is 0: a thread never sleeps in [P] while the
    semaphore could be taken, whatever the interleaving of [P] and [V], and
    spinlocks alone never stop the system. *)
Theorem no_lost_wakeup init calls st :
  client_ok init calls -> reachable init calls st -> (forall st', ~ sstep st st') ->
  forall t th, threads st !! t = Some th -> unfinished th ->
    st_asleep th = true /\ exists c, t ∈ wc_threads st c /\ forall s, c = sem_wchan s -> sem_count st s = 0.
Proof.
  intros Hc Hr Hstuck t th Ht Hun. destruct (reachable_wake _ _ _ Hc Hr) as (Y & HY & Hw).
  assert (forall u thu, threads st !! u = Some thu -> unfinished thu -> st_asleep thu = true) as Hall.
  { intros u thu Hu Hunu. destruct (st_asleep thu) eqn:Ha; [done|].
    destruct (spin_progress _ _ _ _ HY Hu Ha Hunu) as [st' Hst']. by destruct (Hstuck st'). }
  split; [by eapply Hall|]. destruct (wi_asleep _ Hw _ _ Ht (Hall _ _ Ht Hun)) as [c Hin]. exists c. split; [done|].
  intros s ->. eapply sleepers_zero; [done|done|by destruct (wc_threads st (sem_wchan s)); [apply not_elem_of_nil in Hin|]|].
  intros u thu Hu Ha. pose proof (to_call _ _ (si_thread _ _ HY _ _ Hu)) as Hcall.
  destruct (st_call thu) eqn:Ho; [|by destruct Hcall]. rewrite (Hall u thu Hu) in Ha; [done|]. left. by rewrite Ho.
Qed.

(** ** A run of two threads *)

(** The threads of a schedule take a step each; one that cannot is passed over. *)
Fixpoint run_schedule (ts : list nat) (st : sync) : sync :=
  match ts with
  | [] => st
  | t :: r => match step_thread t st with Some (Steps st') => run_schedule r st' | _ => run_schedule r st end
  end.

Lemma run_schedule_steps ts : forall st, rtc sstep st (run_schedule ts st).
Proof.
  induction ts as [|t ts IH]; intros st; cbn; [done|]. destruct (step_thread t st) as [[]|] eqn:Hs; try apply IH.
  eapply rtc_l; [by exists t|apply IH].
Qed.

Definition stuck (st : sync) : bool :=
  forallb (fun t => match step_thread t st with Some (Steps _) => false | _ => true end) (seq 0 (length (threads st))).

Lemma stuck_spec st : stuck st = true -> forall st', ~ sstep st st'.
Proof.
  unfold stuck. rewrite forallb_forall. intros Hs st' [t Ht]. specialize (Hs t). rewrite Ht in Hs.
  enough (false = true) by done. apply Hs, in_seq. unfold step_thread in Ht.
  destruct (threads st !! t) as [th|] eqn:Hth; [|done]. apply lookup_lt_Some in Hth. lia.
Qed.

(** The first thread takes a lock and waits for a [V] that never comes; the
    second wants the lock. *)
Definition two_calls : list (list call) :=
  [[call_lock_acquire 1; call_P 1; call_lock_release 1]; [call_lock_acquire 1; call_lock_release 1]]%positive.

Lemma two_client : client_ok (fun _ => 0) two_calls.
Proof.
  constructor.
  - intros cs. unfold two_calls. rewrite !elem_of_cons, elem_of_nil. by intros [->|[->|[]]]; vm_compute.
  - done.
  - intros x. done.
Qed.

Definition two_end : sync := run_schedule (concat (replicate 60 [0; 1]%nat)) (start (fun _ => 0) two_calls).

Lemma two_reachable : reachable (fun _ => 0) two_calls two_end.
Proof. apply run_schedule_steps. Qed.

Definition thread_at (n : nat) (st : sync) : sthread := default (start_thread []) (threads st !! n).

Lemma no_lost_wakeup_witness :
  unfinished (thread_at 0 two_end) /\ st_asleep (thread_at 0 two_end) = true /\
  unfinished (thread_at 1 two_end) /\ st_asleep (thread_at 1 two_end) = true.
Proof.
  pose proof (no_lost_wakeup (fun _ => 0) two_calls two_end two_client two_reachable
    (stuck_spec two_end ltac:(vm_compute; reflexivity))) as H.
  assert (unfinished (thread_at 0 two_end)) as H0 by (left; vm_compute; discriminate).
  assert (unfinished (thread_at 1 two_end)) as H1 by (left; vm_compute; discriminate).
  split; [exact H0|]. split; [exact (proj1 (H 0%nat _ ltac:(vm_compute; reflexivity) H0))|].
  split; [exact H1|]. exact (proj1 (H 1%nat _ ltac:(vm_compute; reflexivity) H1)).
Defined.

Lemma synch_discipline_witness : step_thread 0 two_end <> Some (Fails (panic_called "Deadlock on spinlock")).
Proof. exact (proj1 (synch_discipline (fun _ => 0) two_calls two_end 0 two_client two_reachable) (panic_called "Deadlock on spinlock")). Defined.

Lemma lock_mutual_exclusion_witness : holds_lock 1%positive (thread_at 0 two_end) /\ 0%nat = 0%nat.
Proof.
  assert (holds_lock 1%positive (thread_at 0 two_end)) as H.
  { split; [vm_compute; reflexivity|]. intros o Ho. vm_compute in Ho. injection Ho as <-. intros [Hg|[c Hg]]; discriminate Hg. }
  split; [exact H|].
  exact (lock_mutual_exclusion (fun _ => 0) two_calls two_end 1%positive 0 0 _ _ two_client two_reachable
    ltac:(vm_compute; reflexivity) ltac:(vm_compute; reflexivity) H H).
Defined.
