(* ===== verification/Sched.v ===== *)
(** * The thread system ([kern/thread/thread.c], [kern/thread/spl.c], [kern/thread/spinlock.c])

    Several CPUs with a run queue and a list of zombies each, the threads with
    their interrupt level, wait channels, and the operations that move threads
    between them: [thread_switch] (yield, sleep, exit), [thread_make_runnable],
    the wake-ups, [thread_fork], the idle loop and the migration of threads.
    The lists are those of [Threadlist.v].  A function runs on a given CPU, up
    to the point where it returns or the CPU switches to another thread and
    that thread has left [thread_switch]; a CPU without a thread to run is in
    the idle loop. *)

From S2P Require Import Prelude State Monad StopState Threadlist.

#[local] Open Scope Z_scope.
#[local] Open Scope sm_scope.

(** ** Data *)

(** A thread list: the run queue or the zombies of a CPU, the sleepers of a
    wait channel, or the list a function keeps on its stack. *)
Inductive lid := c_runqueue (c : nat) | c_zombies (c : nat) | wc_threads (w : positive) | on_stack (c : nat).
#[export] Instance lid_eq_dec : EqDecision lid.
Proof. solve_decision. Defined.
#[export] Instance lid_countable : Countable lid.
Proof.
  apply (inj_countable'
    (fun l => match l with c_runqueue c => inl (inl c) | c_zombies c => inl (inr c) | wc_threads w => inr (inl w) | on_stack c => inr (inr c) end)
    (fun x => match x with inl (inl c) => c_runqueue c | inl (inr c) => c_zombies c | inr (inl w) => wc_threads w | inr (inr c) => on_stack c end)).
  by intros [].
Defined.

(** The spinlocks: of a run queue, of the inter-processor interrupts of a CPU,
    and the one that protects a wait channel. *)
Inductive slock := c_runqueue_lock (c : nat) | c_ipi_lock (c : nat) | wc_lock (w : positive).
#[export] Instance slock_eq_dec : EqDecision slock.
Proof. solve_decision. Defined.
#[export] Instance slock_countable : Countable slock.
Proof.
  apply (inj_countable'
    (fun k => match k with c_runqueue_lock c => inl (inl c) | c_ipi_lock c => inl (inr c) | wc_lock w => inr w end)
    (fun x => match x with inl (inl c) => c_runqueue_lock c | inl (inr c) => c_ipi_lock c | inr w => wc_lock w end)).
  by intros [].
Defined.

Inductive threadstate_t := S_RUN | S_READY | S_SLEEP | S_ZOMBIE.
#[export] Instance threadstate_eq_dec : EqDecision threadstate_t.
Proof. solve_decision. Defined.

(** Where a thread that is not running goes on: at [thread_startup], or inside
    [thread_switch], with its local variable [spl]. *)
Inductive context := at_startup | in_switch (spl : Z).

Definition IPL_NONE : Z := 0.
Definition IPL_HIGH : Z := 1.
Definition THREAD_STACK_MAGIC : Z := 0xbaadf00d.

Record kthread := mk_kthread {
  t_wchan_name : option string;
  t_state : threadstate_t;
  t_stack : option (list Z);           (* the guard words at its low end; NULL for the boot thread *)
  t_context : context;
  t_cpu : option nat;
  t_proc : option positive;
  t_in_interrupt : bool;
  t_curspl : Z;
  t_iplhigh_count : Z
}.

Record cpu := mk_cpu {
  c_curthread : tid;
  c_isidle : bool;
  c_spinlocks : Z;
  c_ipi_pending : Z
}.

Record tsys := mk_tsys {
  s_threads : gmap tid kthread;
  s_cpus : list cpu;
  s_lists : tlstore lid;
  s_holder : gmap slock nat            (* splk_holder, of the spinlocks that are held *)
}.

Definition set_threads x s := mk_tsys x (s_cpus s) (s_lists s) (s_holder s).
Definition set_cpus x s := mk_tsys (s_threads s) x (s_lists s) (s_holder s).
Definition set_lists x s := mk_tsys (s_threads s) (s_cpus s) x (s_holder s).
Definition set_holder x s := mk_tsys (s_threads s) (s_cpus s) (s_lists s) x.

Definition with_wchan_name x t := mk_kthread x (t_state t) (t_stack t) (t_context t) (t_cpu t) (t_proc t) (t_in_interrupt t) (t_curspl t) (t_iplhigh_count t).
Definition with_state x t := mk_kthread (t_wchan_name t) x (t_stack t) (t_context t) (t_cpu t) (t_proc t) (t_in_interrupt t) (t_curspl t) (t_iplhigh_count t).
Definition with_stack x t := mk_kthread (t_wchan_name t) (t_state t) x (t_context t) (t_cpu t) (t_proc t) (t_in_interrupt t) (t_curspl t) (t_iplhigh_count t).
Definition with_context x t := mk_kthread (t_wchan_name t) (t_state t) (t_stack t) x (t_cpu t) (t_proc t) (t_in_interrupt t) (t_curspl t) (t_iplhigh_count t).
Definition with_cpu x t := mk_kthread (t_wchan_name t) (t_state t) (t_stack t) (t_context t) x (t_proc t) (t_in_interrupt t) (t_curspl t) (t_iplhigh_count t).
Definition with_proc x t := mk_kthread (t_wchan_name t) (t_state t) (t_stack t) (t_context t) (t_cpu t) x (t_in_interrupt t) (t_curspl t) (t_iplhigh_count t).
Definition with_spl x n t := mk_kthread (t_wchan_name t) (t_state t) (t_stack t) (t_context t) (t_cpu t) (t_proc t) (t_in_interrupt t) x n.

Definition cpu_curthread x c := mk_cpu x (c_isidle c) (c_spinlocks c) (c_ipi_pending c).
Definition cpu_isidle x c := mk_cpu (c_curthread c) x (c_spinlocks c) (c_ipi_pending c).
Definition cpu_spinlocks x c := mk_cpu (c_curthread c) (c_isidle c) x (c_ipi_pending c).
Definition cpu_ipi x c := mk_cpu (c_curthread c) (c_isidle c) (c_spinlocks c) x.

(** ** Access *)

Definition rd_thread (t : tid) : SM tsys kthread :=
  o <- sget (fun s => s_threads s !! t) ;; sderef o "struct thread".
Definition wr_thread (t : tid) (f : kthread -> kthread) : SM tsys unit :=
  th <- rd_thread t ;; smodify (fun s => set_threads (<[t := f th]> (s_threads s)) s).
Definition rd_cpu (c : nat) : SM tsys cpu :=
  o <- sget (fun s => s_cpus s !! c) ;; sderef o "struct cpu".
Definition wr_cpu (c : nat) (f : cpu -> cpu) : SM tsys unit :=
  k <- rd_cpu c ;; smodify (fun s => set_cpus (<[c := f k]> (s_cpus s)) s).
Definition on_lists {A} (m : SM (tlstore lid) A) : SM tsys A := fun s =>
  match m (s_lists s) with inr (a, l) => inr (a, set_lists l s) | inl r => inl r end.
Definition curthread (c : nat) : SM tsys tid := k <- rd_cpu c ;; sret (c_curthread k).

(** ** Interrupt level and spinlocks *)

(** [splraise] and [spllower] of the current thread; the callers' arguments
    are the only valid ones. *)
Definition splraise (c : nat) : SM tsys unit :=
  t <- curthread c ;; wr_thread t (fun th => with_spl (t_curspl th) (t_iplhigh_count th + 1) th).
Definition spllower (c : nat) : SM tsys unit :=
  t <- curthread c ;; wr_thread t (fun th => with_spl (t_curspl th) (t_iplhigh_count th - 1) th).

Definition splx (c : nat) (spl : Z) : SM tsys Z :=
  t <- curthread c ;;
  th <- rd_thread t ;;
  if t_curspl th <? spl then
    splraise c ;;
    wr_thread t (fun th' => with_spl spl (t_iplhigh_count th') th') ;;
    sret (t_curspl th)
  else if spl <? t_curspl th then
    wr_thread t (fun th' => with_spl spl (t_iplhigh_count th') th') ;;
    spllower c ;;
    sret (t_curspl th)
  else sret spl.

Definition spl0 (c : nat) : SM tsys Z := splx c IPL_NONE.
Definition splhigh (c : nat) : SM tsys Z := splx c IPL_HIGH.

(** A spinlock another CPU holds would make this one spin. *)
Definition spinlock_acquire (c : nat) (k : slock) : SM tsys unit :=
  splraise c ;;
  h <- sget (fun s => s_holder s !! k) ;;
  match h with
  | Some c' => if decide (c' = c) then sstop (panic_called "Deadlock on spinlock") else sstop (loops_forever "spinlock_acquire")
  | None =>
      wr_cpu c (fun k' => cpu_spinlocks (c_spinlocks k' + 1) k') ;;
      smodify (fun s => set_holder (<[k := c]> (s_holder s)) s)
  end.

Definition spinlock_release (c : nat) (k : slock) : SM tsys unit :=
  h <- sget (fun s => s_holder s !! k) ;;
  sassert (bool_decide (h = Some c)) "splk->splk_holder == curcpu->c_self" ;;
  cp <- rd_cpu c ;;
  sassert (0 <? c_spinlocks cp) "curcpu->c_spinlocks > 0" ;;
  wr_cpu c (fun k' => cpu_spinlocks (c_spinlocks k' - 1) k') ;;
  smodify (fun s => set_holder (delete k (s_holder s)) s) ;;
  spllower c.

Definition spinlock_do_i_hold (c : nat) (k : slock) : SM tsys bool :=
  h <- sget (fun s => s_holder s !! k) ;; sret (bool_decide (h = Some c)).

(** ** Stacks and destruction *)

Definition guard_words : list Z := [THREAD_STACK_MAGIC; THREAD_STACK_MAGIC; THREAD_STACK_MAGIC; THREAD_STACK_MAGIC].

Definition thread_checkstack (t : tid) : SM tsys unit :=
  th <- rd_thread t ;;
  match t_stack th with
  | None => sret tt
  | Some ws => sassert (bool_decide (ws = guard_words)) "((uint32_t*)thread->t_stack)[i] == THREAD_STACK_MAGIC"
  end.

(** The node goes with the thread structure. *)
Definition free_thread (t : tid) : SM tsys unit :=
  smodify (fun s => set_lists (mk_tls (delete (t_listnode t) (nodes (s_lists s))) (tl_count (s_lists s)))
    (set_threads (delete t (s_threads s)) s)).

Definition thread_destroy (c : nat) (t : tid) : SM tsys unit :=
  cur <- curthread c ;;
  sassert (bool_decide (t <> cur)) "thread != curthread" ;;
  th <- rd_thread t ;;
  sassert (bool_decide (t_state th <> S_RUN)) "thread->t_state != S_RUN" ;;
  sassert (is_null (t_proc th)) "thread->t_proc == NULL" ;;
  on_lists (threadlistnode_cleanup t) ;;
  free_thread t.

(** The loop ends when the list of zombies is empty; it is run as often as
    there are threads. *)
Fixpoint exorcise_loop (fuel : nat) (c : nat) : SM tsys unit :=
  z <- on_lists (threadlist_remhead (c_zombies c)) ;;
  match z, fuel with
  | None, _ => sret tt
  | Some _, O => sstop (loops_forever "exorcise")
  | Some z, S fuel' =>
      cur <- curthread c ;;
      sassert (bool_decide (z <> cur)) "z != curthread" ;;
      th <- rd_thread z ;;
      sassert (bool_decide (t_state th = S_ZOMBIE)) "z->t_state == S_ZOMBIE" ;;
      thread_destroy c z ;;
      exorcise_loop fuel' c
  end.

Definition exorcise (c : nat) : SM tsys unit :=
  n <- sget (fun s => size (s_threads s)) ;; exorcise_loop n c.

(** ** Making a thread runnable *)

Definition IPI_UNIDLE : Z := 2.

Definition ipi_send (c target : nat) (code : Z) : SM tsys unit :=
  sassert ((0 <=? code) && (code <? 32)) "code >= 0 && code < 32" ;;
  spinlock_acquire c (c_ipi_lock target) ;;
  wr_cpu target (fun k => cpu_ipi (Z.lor (c_ipi_pending k) (Z.shiftl 1 code)) k) ;;
  spinlock_release c (c_ipi_lock target).

Definition thread_make_runnable (c : nat) (target : tid) (already_have_lock : bool) : SM tsys unit :=
  th <- rd_thread target ;;
  targetcpu <- sderef (t_cpu th) "target->t_cpu" ;;
  (if already_have_lock
   then h <- spinlock_do_i_hold c (c_runqueue_lock targetcpu) ;; sassert h "spinlock_do_i_hold(&targetcpu->c_runqueue_lock)"
   else spinlock_acquire c (c_runqueue_lock targetcpu)) ;;
  wr_thread target (with_state S_READY) ;;
  on_lists (threadlist_addtail (c_runqueue targetcpu) target) ;;
  k <- rd_cpu targetcpu ;;
  (if c_isidle k && negb (bool_decide (targetcpu = c)) then ipi_send c targetcpu IPI_UNIDLE else sret tt) ;;
  (if already_have_lock then sret tt else spinlock_release c (c_runqueue_lock targetcpu)).

(** ** Switching *)

(** The end of [thread_switch], and [thread_startup], in the thread that was
    switched to.  [as_activate] is part of [AddrSpace.v]. *)
Definition switch_in (c : nat) : SM tsys unit :=
  cur <- curthread c ;;
  th <- rd_thread cur ;;
  wr_thread cur (with_wchan_name None) ;;
  wr_thread cur (with_state S_RUN) ;;
  spinlock_release c (c_runqueue_lock c) ;;
  exorcise c ;;
  match t_context th with
  | at_startup => spl0 c ;; sret tt
  | in_switch spl => splx c spl ;; sret tt
  end.

(** One round of the loop that looks for the next thread: [false] when the run
    queue was empty and the CPU idles. *)
Definition switch_round (c : nat) : SM tsys bool :=
  next <- on_lists (threadlist_remhead (c_runqueue c)) ;;
  match next with
  | None => spinlock_release c (c_runqueue_lock c) ;; sret false
  | Some next =>
      wr_cpu c (cpu_isidle false) ;;
      wr_cpu c (cpu_curthread next) ;;
      switch_in c ;;
      sret true
  end.

(** What follows [cpu_idle] in the loop. *)
Definition idle_wakeup (c : nat) : SM tsys bool :=
  spinlock_acquire c (c_runqueue_lock c) ;; switch_round c.

(** Put the thread in the right place. *)
Definition switch_queue (c : nat) (cur : tid) (newstate : threadstate_t) (wc : option (positive * string)) (lk : option slock) : SM tsys unit :=
  match newstate with
  | S_RUN => sstop (panic_called "Illegal S_RUN in thread_switch")
  | S_READY => thread_make_runnable c cur true
  | S_SLEEP =>
      w <- sderef wc "wc" ;;
      k <- sderef lk "lk" ;;
      wr_thread cur (with_wchan_name (Some (snd w))) ;;
      on_lists (threadlist_addtail (wc_threads (fst w)) cur) ;;
      spinlock_release c k
  | S_ZOMBIE =>
      wr_thread cur (with_wchan_name (Some "ZOMBIE"%string)) ;;
      on_lists (threadlist_addtail (c_zombies c) cur)
  end.

Definition thread_switch (c : nat) (newstate : threadstate_t) (wc : option (positive * string)) (lk : option slock) : SM tsys unit :=
  spl <- splhigh c ;;
  cur <- curthread c ;;
  k <- rd_cpu c ;;
  if c_isidle k then splx c spl ;; sret tt else
  thread_checkstack cur ;;
  spinlock_acquire c (c_runqueue_lock c) ;;
  e <- on_lists (threadlist_isempty (c_runqueue c)) ;;
  if bool_decide (newstate = S_READY) && e then
    spinlock_release c (c_runqueue_lock c) ;;
    splx c spl ;;
    sret tt
  else
  switch_queue c cur newstate wc lk ;;
  wr_thread cur (with_state newstate) ;;
  wr_thread cur (with_context (in_switch spl)) ;;
  wr_cpu c (cpu_isidle true) ;;
  switch_round c ;;
  sret tt.

Definition thread_yield (c : nat) : SM tsys unit := thread_switch c S_READY None None.

(** The part of [proc_remthread] and [proc_addthread] that changes the thread;
    the number of threads of the process is kept in [Proc.v]. *)
Definition detach_thread (c : nat) (t : tid) : SM tsys unit :=
  spl <- splhigh c ;;
  wr_thread t (with_proc None) ;;
  splx c spl ;;
  sret tt.

Definition attach_thread (c : nat) (p : positive) (t : tid) : SM tsys Z :=
  spl <- splhigh c ;;
  wr_thread t (with_proc (Some p)) ;;
  splx c spl ;;
  sret 0.

Definition thread_exit (c : nat) : SM tsys unit :=
  cur <- curthread c ;;
  th <- rd_thread cur ;;
  (if is_null (t_proc th) then sret tt else detach_thread c cur) ;;
  th <- rd_thread cur ;;
  sassert (is_null (t_proc th)) "cur->t_proc == NULL" ;;
  thread_checkstack cur ;;
  splhigh c ;;
  thread_switch c S_ZOMBIE None None.

(** ** Wait channels *)

(** Up to the switch; the thread takes the lock again when it runs. *)
Definition wchan_sleep (c : nat) (wc : positive * string) (lk : slock) : SM tsys unit :=
  cur <- curthread c ;;
  th <- rd_thread cur ;;
  sassert (negb (t_in_interrupt th)) "!curthread->t_in_interrupt" ;;
  h <- spinlock_do_i_hold c lk ;;
  sassert h "spinlock_do_i_hold(lk)" ;;
  k <- rd_cpu c ;;
  sassert (c_spinlocks k =? 1) "curcpu->c_spinlocks == 1" ;;
  thread_switch c S_SLEEP (Some wc) (Some lk).

Definition wchan_wakeone (c : nat) (w : positive) (lk : slock) : SM tsys unit :=
  h <- spinlock_do_i_hold c lk ;;
  sassert h "spinlock_do_i_hold(lk)" ;;
  target <- on_lists (threadlist_remhead (wc_threads w)) ;;
  match target with
  | None => sret tt
  | Some t => thread_make_runnable c t false
  end.

(** The threads of a list, one by one; a list is no longer than the number of
    threads. *)
Fixpoint drain (fuel : nat) (l : lid) (f : tid -> SM tsys unit) : SM tsys unit :=
  t <- on_lists (threadlist_remhead l) ;;
  match t, fuel with
  | None, _ => sret tt
  | Some _, O => sstop (loops_forever "threadlist_remhead")
  | Some t, S fuel' => f t ;; drain fuel' l f
  end.

Definition wchan_wakeall (c : nat) (w : positive) (lk : slock) : SM tsys unit :=
  h <- spinlock_do_i_hold c lk ;;
  sassert h "spinlock_do_i_hold(lk)" ;;
  n <- sget (fun s => size (s_threads s)) ;;
  on_lists (threadlist_init (on_stack c)) ;;
  drain n (wc_threads w) (fun t => on_lists (threadlist_addtail (on_stack c) t)) ;;
  drain n (on_stack c) (fun t => thread_make_runnable c t false) ;;
  on_lists (threadlist_cleanup (on_stack c)).

(** ** Creation *)

(** [thread_create] and the rest of [thread_fork] with the new thread at [t];
    [mem] says which of the allocations succeed: the structure, the name, the
    stack. *)
Definition ENOMEM : Z := 3.

Definition new_thread : kthread :=
  mk_kthread (Some "NEW"%string) S_READY None at_startup None None false IPL_HIGH 1.

Definition thread_create (t : tid) (mem : nat -> bool) : SM tsys (option tid) :=
  if negb (mem 0%nat) then sret None else
  if negb (mem 1%nat) then sret None else
  smodify (fun s => set_threads (<[t := new_thread]> (s_threads s)) s) ;;
  on_lists (threadlistnode_init t) ;;
  sret (Some t).

Definition thread_fork (c : nat) (t : tid) (proc : option positive) (mem : nat -> bool) : SM tsys Z :=
  new <- thread_create t mem ;;
  match new with
  | None => sret ENOMEM
  | Some newthread =>
      if negb (mem 2%nat) then thread_destroy c newthread ;; sret ENOMEM else
      wr_thread newthread (with_stack (Some guard_words)) ;;
      cur <- curthread c ;;
      th <- rd_thread cur ;;
      wr_thread newthread (with_cpu (t_cpu th)) ;;
      nth <- rd_thread newthread ;;
      sassert (is_null (t_proc nth)) "t->t_proc == NULL" ;;
      p <- sderef (match proc with Some p => Some p | None => t_proc th end) "proc" ;;
      result <- attach_thread c p newthread ;;
      if negb (result =? 0) then thread_destroy c newthread ;; sret result else
      wr_thread newthread (fun n => with_spl (t_curspl n) (t_iplhigh_count n + 1) n) ;;
      thread_make_runnable c newthread false ;;
      sret 0
  end.

(** ** Migration *)

Definition DIVROUNDUP (a b : Z) : Z := (a + b - 1) / b.

(** The number of threads on this CPU's run queue, and on all of them. *)
Fixpoint count_queues (c : nat) (ids : list nat) (my_count total_count : Z) : SM tsys (Z * Z) :=
  match ids with
  | [] => sret (my_count, total_count)
  | i :: ids' =>
      spinlock_acquire c (c_runqueue_lock i) ;;
      n <- on_lists (rd_count (c_runqueue i)) ;;
      spinlock_release c (c_runqueue_lock i) ;;
      count_queues c ids' (if bool_decide (i = c) then n else my_count) (u32 (total_count + n))
  end.

(** The last [n] threads of the run queue move to the list of victims. *)
Fixpoint take_victims (n : nat) (c : nat) : SM tsys unit :=
  match n with
  | O => sret tt
  | S n' =>
      t <- on_lists (threadlist_remtail (c_runqueue c)) ;;
      t <- sderef t "t->t_listnode" ;;
      on_lists (threadlist_addhead (on_stack c) t) ;;
      take_victims n' c
  end.

(** Threads go to CPU [i] while it has less than its share; the result is how
    many are left to send. *)
Fixpoint send_to (to_send : nat) (c i : nat) (one_share : Z) : SM tsys nat :=
  match to_send with
  | O => sret O
  | S n =>
      count <- on_lists (rd_count (c_runqueue i)) ;;
      if negb (count <? one_share) then sret to_send else
      t <- on_lists (threadlist_remhead (on_stack c)) ;;
      cur <- curthread c ;;
      if bool_decide (t = Some cur) then
        on_lists (threadlist_addtail (on_stack c) cur) ;;
        send_to n c i one_share
      else
      t <- sderef t "t->t_cpu" ;;
      wr_thread t (with_cpu (Some i)) ;;
      on_lists (threadlist_addtail (c_runqueue i) t) ;;
      k <- rd_cpu i ;;
      (if c_isidle k then ipi_send c i IPI_UNIDLE else sret tt) ;;
      send_to n c i one_share
  end.

Fixpoint send_victims (ids : list nat) (c : nat) (to_send : nat) (one_share : Z) : SM tsys nat :=
  match ids with
  | [] => sret to_send
  | i :: ids' =>
      if bool_decide (to_send = O) then sret to_send else
      if bool_decide (i = c) then send_victims ids' c to_send one_share else
      spinlock_acquire c (c_runqueue_lock i) ;;
      n <- send_to to_send c i one_share ;;
      spinlock_release c (c_runqueue_lock i) ;;
      send_victims ids' c n one_share
  end.

Definition thread_consider_migration (c : nat) : SM tsys unit :=
  numcpus <- sget (fun s => length (s_cpus s)) ;;
  counts <- count_queues c (seq 0 numcpus) 0 0 ;;
  let one_share := DIVROUNDUP (snd counts) (Z.of_nat numcpus) in
  if fst counts <? one_share then sret tt else
  let to_send := fst counts - one_share in
  fuel <- sget (fun s => size (s_threads s)) ;;
  on_lists (threadlist_init (on_stack c)) ;;
  spinlock_acquire c (c_runqueue_lock c) ;;
  take_victims (Z.to_nat to_send) c ;;
  spinlock_release c (c_runqueue_lock c) ;;
  send_victims (seq 0 numcpus) c (Z.to_nat to_send) one_share ;;
  e <- on_lists (threadlist_isempty (on_stack c)) ;;
  (if e then sret tt else
   spinlock_acquire c (c_runqueue_lock c) ;;
   drain fuel (on_stack c) (fun t => on_lists (threadlist_addtail (c_runqueue c) t)) ;;
   spinlock_release c (c_runqueue_lock c)) ;;
  e <- on_lists (threadlist_isempty (on_stack c)) ;;
  sassert e "threadlist_isempty(&victims)" ;;
  on_lists (threadlist_cleanup (on_stack c)).
