(* ===== verification/SchedSpec.v ===== *)
(** * What the functions of the thread system do

    The thread system seen as four maps: the threads, the CPUs, the lists as
    sequences, the spinlocks held.  Each function is described by the maps it
    leaves, so the invariant of [SchedInv.v] is proved on maps. *)

From S2P Require Import Prelude State Monad StopState Threadlist Sched.

#[local] Open Scope Z_scope.

Notation tmap := (gmap tid kthread) (only parsing).
Notation qmap := (gmap lid (list tid)) (only parsing).
Notation hmap := (gmap slock nat) (only parsing).

Record sys (s : tsys) (T : tmap) (C : list cpu) (Q : qmap) (H : hmap) : Prop := mk_sys {
  sy_threads : s_threads s = T;
  sy_cpus : s_cpus s = C;
  sy_lists : lists_rep (s_lists s) Q;
  sy_holder : s_holder s = H;
  sy_nodes t : is_Some (T !! t) -> is_Some (nodes (s_lists s) !! t_listnode t)
}.

(** [m] returns [a] and leaves the maps [T], [C], [Q], [H]. *)
Definition goes {A} (m : SM tsys A) (s : tsys) (a : A) T C Q H : Prop :=
  exists s', m s = inr (a, s') /\ sys s' T C Q H.

(** [m] returns and leaves maps that satisfy [P]. *)
Definition reaches {A} (m : SM tsys A) (s : tsys) (P : tmap -> list cpu -> qmap -> hmap -> Prop) : Prop :=
  exists a T C Q H, goes m s a T C Q H /\ P T C Q H.

Definition off_lists (Q : qmap) (t : tid) : Prop := forall l ts, Q !! l = Some ts -> t ∉ ts.

Section rules.
Context {s : tsys} {T : tmap} {C : list cpu} {Q : qmap} {H : hmap}.
Hypothesis Hs : sys s T C Q H.

Lemma go_bind {A B} (m : SM tsys A) (f : A -> SM tsys B) a b T1 C1 Q1 H1 T2 C2 Q2 H2 :
  goes m s a T1 C1 Q1 H1 -> (forall s', sys s' T1 C1 Q1 H1 -> goes (f a) s' b T2 C2 Q2 H2) ->
  goes (sbind m f) s b T2 C2 Q2 H2.
Proof.
  intros (s1 & Hm & Hs1) Hf. destruct (Hf s1 Hs1) as (s2 & Hf2 & Hs2). exists s2. split; [|done].
  by rewrite (srun_call _ _ _ _ _ Hm).
Qed.

Lemma reach_bind {A B} (m : SM tsys A) (f : A -> SM tsys B) a T1 C1 Q1 H1 P :
  goes m s a T1 C1 Q1 H1 -> (forall s', sys s' T1 C1 Q1 H1 -> reaches (f a) s' P) -> reaches (sbind m f) s P.
Proof.
  intros (s1 & Hm & Hs1) Hf. destruct (Hf s1 Hs1) as (b & T2 & C2 & Q2 & H2 & (s2 & Hf2 & Hs2) & HP).
  exists b, T2, C2, Q2, H2. split; [|done]. exists s2. split; [|done]. by rewrite (srun_call _ _ _ _ _ Hm).
Qed.

(** A call of unknown result, then something that keeps what it left. *)
Lemma reach_then {A B} (m : SM tsys A) (f : A -> SM tsys B) P P' :
  reaches m s P -> (forall a s' T1 C1 Q1 H1, sys s' T1 C1 Q1 H1 -> P T1 C1 Q1 H1 -> reaches (f a) s' P') ->
  reaches (sbind m f) s P'.
Proof. intros (a & T1 & C1 & Q1 & H1 & Hm & HP) Hf. eapply reach_bind; [done|]. intros s' Hs'. by eapply Hf. Qed.

Lemma reach_ret {A} (a : A) (P : tmap -> list cpu -> qmap -> hmap -> Prop) : P T C Q H -> reaches (sret a) s P.
Proof. intros HP. exists a, T, C, Q, H. split; [by exists s|done]. Qed.

Lemma go_ret {A} (a : A) : goes (sret a) s a T C Q H.
Proof. by exists s. Qed.
Lemma go_get {A} (f : tsys -> A) : goes (sget f) s (f s) T C Q H.
Proof. by exists s. Qed.
Lemma go_assert b what : b = true -> goes (sassert b what) s tt T C Q H.
Proof. intros ->. by exists s. Qed.
Lemma go_deref {A} (o : option A) a what : o = Some a -> goes (sderef o what) s a T C Q H.
Proof. intros ->. by exists s. Qed.

Lemma go_rd_thread t th : T !! t = Some th -> goes (rd_thread t) s th T C Q H.
Proof. intros Ht. exists s. split; [|done]. unfold rd_thread. rewrite srun_get, (sy_threads _ _ _ _ _ Hs), Ht. done. Qed.

Lemma go_wr_thread t th f : T !! t = Some th -> goes (wr_thread t f) s tt (<[t := f th]> T) C Q H.
Proof.
  intros Ht. destruct (go_rd_thread t th Ht) as (s' & Hr & Hs'). eexists. unfold wr_thread.
  rewrite (srun_call _ _ _ _ _ Hr). split; [reflexivity|]. destruct Hs' as [<- <- ? <- Hn]. constructor; try done.
  intros u. cbn. rewrite lookup_insert_is_Some'. intros [<-|Hu]; apply Hn; [by eexists|done].
Qed.

Lemma go_rd_cpu c k : C !! c = Some k -> goes (rd_cpu c) s k T C Q H.
Proof. intros Hc. exists s. split; [|done]. unfold rd_cpu. rewrite srun_get, (sy_cpus _ _ _ _ _ Hs), Hc. done. Qed.

Lemma go_wr_cpu c k f : C !! c = Some k -> goes (wr_cpu c f) s tt T (<[c := f k]> C) Q H.
Proof.
  intros Hc. destruct (go_rd_cpu c k Hc) as (s' & Hr & Hs'). eexists. unfold wr_cpu.
  rewrite (srun_call _ _ _ _ _ Hr). split; [reflexivity|]. destruct Hs' as [<- <- ? <- Hn]. by constructor.
Qed.

Lemma go_curthread c k : C !! c = Some k -> goes (curthread c) s (c_curthread k) T C Q H.
Proof.
  intros Hc. unfold curthread. destruct (go_rd_cpu c k Hc) as (s' & Hr & Hs'). exists s'.
  by rewrite (srun_call _ _ _ _ _ Hr).
Qed.

Lemma go_set_holder f : goes (smodify (fun s => set_holder (f (s_holder s)) s)) s tt T C Q (f H).
Proof. eexists. split; [reflexivity|]. destruct Hs as [<- <- ? <- ?]. by constructor. Qed.

(** Operations on lists. *)
Lemma go_on_lists {A} (m : SM (tlstore lid) A) a Q' :
  (exists l', m (s_lists s) = inr (a, l') /\ lists_rep l' Q' /\ same_nodes (s_lists s) l') ->
  goes (on_lists m) s a T C Q' H.
Proof.
  intros (l' & Hm & Hr & Hn). exists (set_lists l' s). unfold on_lists. rewrite Hm. split; [done|].
  destruct Hs as [<- <- ? <- Hk]. constructor; try done. intros t Ht. by apply Hn, Hk.
Qed.

Lemma go_addtail l ts t : Q !! l = Some ts -> off_lists Q t -> is_Some (T !! t) ->
  goes (on_lists (threadlist_addtail l t)) s tt T C (<[l := ts ++ [t]]> Q) H.
Proof. intros. apply go_on_lists, addtail_run; [apply Hs|done|]. split; [by apply Hs|done]. Qed.

Lemma go_addhead l ts t : Q !! l = Some ts -> off_lists Q t -> is_Some (T !! t) ->
  goes (on_lists (threadlist_addhead l t)) s tt T C (<[l := t :: ts]> Q) H.
Proof. intros. apply go_on_lists, addhead_run; [apply Hs|done|]. split; [by apply Hs|done]. Qed.

Lemma go_remhead l ts : Q !! l = Some ts ->
  goes (on_lists (threadlist_remhead l)) s (head ts) T C (<[l := tail ts]> Q) H.
Proof. intros. apply go_on_lists, remhead_run; [apply Hs|done]. Qed.

Lemma go_remtail l ts : Q !! l = Some ts ->
  goes (on_lists (threadlist_remtail l)) s (last ts) T C (<[l := removelast ts]> Q) H.
Proof. intros. apply go_on_lists, remtail_run; [apply Hs|done]. Qed.

Lemma go_isempty l ts : Q !! l = Some ts -> zlen ts < 2^32 ->
  goes (on_lists (threadlist_isempty l)) s (bool_decide (ts = [])) T C Q H.
Proof.
  intros Hl Hlen. apply go_on_lists. exists (s_lists s). split; [|split; [apply Hs|by intros ?]].
  eapply isempty_run; [apply Hs|done..].
Qed.

Lemma go_rd_count l ts : Q !! l = Some ts -> goes (on_lists (rd_count l)) s (u32 (zlen ts)) T C Q H.
Proof.
  intros Hl. apply go_on_lists. exists (s_lists s). split; [|split; [apply Hs|by intros ?]].
  unfold rd_count. rewrite srun_get, (lr_count _ _ (sy_lists _ _ _ _ _ Hs) _ _ Hl). done.
Qed.

Lemma go_list_init l : Q !! l = None -> goes (on_lists (threadlist_init l)) s tt T C (<[l := []]> Q) H.
Proof. intros. apply go_on_lists, init_run; [apply Hs|done]. Qed.

Lemma go_list_cleanup l : Q !! l = Some [] -> goes (on_lists (threadlist_cleanup l)) s tt T C (delete l Q) H.
Proof.
  intros Hl. apply go_on_lists. destruct (cleanup_run _ _ _ (sy_lists _ _ _ _ _ Hs) Hl) as [Hr Hl']. exists (s_lists s).
  split; [done|]. split; [done|by intros ?].
Qed.
End rules.

Lemma reach_weaken {A} (m : SM tsys A) s (P P' : tmap -> list cpu -> qmap -> hmap -> Prop) :
  reaches m s P -> (forall T C Q H, P T C Q H -> P' T C Q H) -> reaches m s P'.
Proof. intros (a & T & C & Q & H & Hg & HP) Hi. exists a, T, C, Q, H. auto. Qed.

Lemma reach_call {A B} (m : SM tsys A) (f : A -> SM tsys B) s s' a P : m s = inr (a, s') -> reaches (f a) s' P -> reaches (sbind m f) s P.
Proof.
  intros Hm (b & T & C & Q & H & (s2 & Hr & Hs2) & HP). exists b, T, C, Q, H. split; [|done]. exists s2.
  by rewrite (srun_call _ _ _ _ _ Hm).
Qed.

Lemma go_eq {A} (m : SM tsys A) s a T C Q H T' C' Q' H' :
  goes m s a T C Q H -> T = T' -> C = C' -> Q = Q' -> H = H' -> goes m s a T' C' Q' H'.
Proof. by intros ? -> -> -> ->. Qed.

(** One step of a proof about a run: the call, then what follows it. *)
Ltac go_step := eapply go_bind; [|let s := fresh "s" in let E := fresh "Hs" in intros s E; cbv beta].

Ltac reach_step := eapply reach_bind; [|let s := fresh "s" in let E := fresh "Hs" in intros s E; cbv beta].

(** ** Interrupt level and spinlocks *)

Definition raise (th : kthread) : kthread := with_spl (t_curspl th) (t_iplhigh_count th + 1) th.
Definition lower (th : kthread) : kthread := with_spl (t_curspl th) (t_iplhigh_count th - 1) th.
Definition spin_up (k : cpu) : cpu := cpu_spinlocks (c_spinlocks k + 1) k.
Definition spin_down (k : cpu) : cpu := cpu_spinlocks (c_spinlocks k - 1) k.

(** The thread after [splx(spl)]. *)
Definition at_spl (spl : Z) (th : kthread) : kthread :=
  with_spl spl (t_iplhigh_count th + (if t_curspl th <? spl then 1 else if spl <? t_curspl th then -1 else 0)) th.

Lemma lower_raise th : lower (raise th) = th.
Proof. destruct th. unfold lower, raise, with_spl. cbn. f_equal. lia. Qed.
Lemma spin_down_up k : spin_down (spin_up k) = k.
Proof. destruct k. unfold spin_down, spin_up, cpu_spinlocks. cbn. f_equal. lia. Qed.

Section locks.
Context {s : tsys} {T : tmap} {C : list cpu} {Q : qmap} {H : hmap} {c : nat} {k : cpu} {th : kthread}.
Hypothesis Hs : sys s T C Q H.
Hypothesis Hc : C !! c = Some k.
Hypothesis Hth : T !! c_curthread k = Some th.

Lemma go_splraise : goes (splraise c) s tt (<[c_curthread k := raise th]> T) C Q H.
Proof. unfold splraise. go_step; [by eapply go_curthread|]. by apply (go_wr_thread Hs0 _ th). Qed.

Lemma go_spllower : goes (spllower c) s tt (<[c_curthread k := lower th]> T) C Q H.
Proof. unfold spllower. go_step; [by eapply go_curthread|]. by apply (go_wr_thread Hs0 _ th). Qed.
End locks.

Lemma go_splx {s T C Q H c k th} spl :
  sys s T C Q H -> C !! c = Some k -> T !! c_curthread k = Some th ->
  goes (splx c spl) s (t_curspl th) (<[c_curthread k := at_spl spl th]> T) C Q H.
Proof.
  intros Hs Hc Hth. unfold splx. go_step; [by eapply go_curthread|]. go_step; [by eapply go_rd_thread|].
  unfold at_spl. destruct (Z.ltb_spec (t_curspl th) spl) as [Hlt|Hge].
  - go_step; [by eapply go_splraise|]. go_step; [by eapply (go_wr_thread Hs2), lookup_insert_eq|].
    rewrite insert_insert_eq in Hs3. by eapply go_ret.
  - destruct (Z.ltb_spec spl (t_curspl th)) as [Hgt|Hle].
    + go_step; [by eapply (go_wr_thread Hs1)|]. go_step; [eapply (go_spllower Hs2 Hc), lookup_insert_eq|].
      rewrite insert_insert_eq in Hs3. by eapply go_ret.
    + assert (t_curspl th = spl) as <- by lia. rewrite insert_id; [by eapply go_ret|].
      rewrite Hth. destruct th. unfold with_spl. cbn. do 2 f_equal. lia.
Qed.

Lemma go_acquire {s T C Q H c k th} l :
  sys s T C Q H -> C !! c = Some k -> T !! c_curthread k = Some th -> H !! l = None ->
  goes (spinlock_acquire c l) s tt (<[c_curthread k := raise th]> T) (<[c := spin_up k]> C) Q (<[l := c]> H).
Proof.
  intros Hs Hc Hth Hl. unfold spinlock_acquire. go_step; [by eapply go_splraise|]. go_step; [by eapply go_get|].
  rewrite (sy_holder _ _ _ _ _ Hs0), Hl. go_step; [by eapply go_wr_cpu|]. exact (go_set_holder Hs2 (fun h => <[l := c]> h)).
Qed.

Lemma go_release {s T C Q H c k th} l :
  sys s T C Q H -> C !! c = Some k -> T !! c_curthread k = Some th -> H !! l = Some c -> 0 < c_spinlocks k ->
  goes (spinlock_release c l) s tt (<[c_curthread k := lower th]> T) (<[c := spin_down k]> C) Q (delete l H).
Proof.
  intros Hs Hc Hth Hl Hp. unfold spinlock_release. go_step; [by eapply go_get|].
  rewrite (sy_holder _ _ _ _ _ Hs), Hl. go_step; [eapply go_assert; [done|by rewrite bool_decide_eq_true_2]|].
  go_step; [by eapply go_rd_cpu|]. go_step; [eapply go_assert; [done|by apply Z.ltb_lt]|].
  go_step; [by eapply go_wr_cpu|]. go_step; [exact (go_set_holder Hs4 (fun h => delete l h))|].
  eapply (go_spllower (k := spin_down k)); [done| |done].
  apply list_lookup_insert_eq. by eapply lookup_lt_Some.
Qed.

(** Releasing a lock taken by [spinlock_acquire]. *)
Lemma go_unlock {s T C Q H c k th} l :
  sys s T C Q (<[l := c]> H) -> C !! c = Some (spin_up k) -> T !! c_curthread k = Some (raise th) -> H !! l = None ->
  0 <= c_spinlocks k ->
  goes (spinlock_release c l) s tt (<[c_curthread k := th]> T) (<[c := k]> C) Q H.
Proof.
  intros Hs Hc Hth Hl Hp. rewrite <- (lower_raise th) at 1. rewrite <- (spin_down_up k) at 2.
  rewrite <- (delete_insert_id H l c) by done.
  change (c_curthread k) with (c_curthread (spin_up k)) in *. apply go_release; try done; [apply lookup_insert_eq|cbn; lia].
Qed.

(** A list of CPUs in which only pending inter-processor interrupts differ. *)
Definition same_cpu (k k' : cpu) : Prop :=
  c_curthread k' = c_curthread k /\ c_isidle k' = c_isidle k /\ c_spinlocks k' = c_spinlocks k.
Definition same_cpus : list cpu -> list cpu -> Prop := Forall2 same_cpu.

#[export] Instance same_cpu_equiv : Equivalence same_cpu.
Proof. split; [by intros []|by intros [] [] (?&?&?)|]. intros ??? (?&?&?) (?&?&?). unfold same_cpu. split_and!; congruence. Qed.
#[export] Instance same_cpus_equiv : Equivalence same_cpus.
Proof. unfold same_cpus. split; apply _. Qed.

Lemma same_cpus_insert C c k k' : C !! c = Some k -> same_cpu k k' -> same_cpus C (<[c := k']> C).
Proof.
  intros Hc Hk. rewrite <- (list_insert_id C c k Hc) at 1. by apply Forall2_insert; [reflexivity|].
Qed.

Lemma same_cpus_lookup C C' c k : same_cpus C C' -> C !! c = Some k -> exists k', C' !! c = Some k' /\ same_cpu k k'.
Proof. intros HC Hc. by apply (Forall2_lookup_l _ _ _ _ _ HC). Qed.

(** The CPU after the interrupt [code] was sent to it. *)
Definition poke (code : Z) (k : cpu) : cpu := cpu_ipi (Z.lor (c_ipi_pending k) (Z.shiftl 1 code)) k.

Lemma go_ipi_send {s T C Q H c k th} target kt code :
  sys s T C Q H -> C !! c = Some k -> T !! c_curthread k = Some th -> C !! target = Some kt -> target <> c ->
  0 <= c_spinlocks k -> 0 <= code < 32 -> H !! c_ipi_lock target = None ->
  goes (ipi_send c target code) s tt T (<[target := poke code kt]> C) Q H.
Proof.
  intros Hs Hc Hth Ht Hne Hsp Hcode Hl. assert (c < length C)%nat by (by eapply lookup_lt_Some).
  unfold ipi_send.
  go_step; [eapply go_assert; [done|]; by apply andb_true_intro; split; [apply Z.leb_le|apply Z.ltb_lt]; lia|].
  go_step; [by eapply go_acquire|]. go_step; [eapply (go_wr_cpu Hs1 _ kt); by rewrite list_lookup_insert_ne|].
  eapply go_eq; [eapply (go_unlock (k := k)); [done| |apply lookup_insert_eq|done|done]|..].
  - rewrite list_lookup_insert_ne by done. by apply list_lookup_insert_eq.
  - by rewrite insert_insert_eq, insert_id.
  - rewrite (list_insert_insert_ne _ c target) by done. by rewrite list_insert_insert_eq, (list_insert_id C).
  - done.
  - done.
Qed.

(** The CPUs after [c] put a thread on the run queue of [tc]. *)
Definition unidled (c tc : nat) (kt : cpu) : cpu := if c_isidle kt && negb (bool_decide (tc = c)) then poke IPI_UNIDLE kt else kt.

Lemma same_cpu_unidled c tc kt : same_cpu kt (unidled c tc kt).
Proof. unfold unidled. by case_match. Qed.

Lemma go_unidle {s T C Q H c k th} tc kt :
  sys s T C Q H -> C !! c = Some k -> T !! c_curthread k = Some th -> C !! tc = Some kt ->
  0 <= c_spinlocks k -> H !! c_ipi_lock tc = None ->
  goes (if c_isidle kt && negb (bool_decide (tc = c)) then ipi_send c tc IPI_UNIDLE else sret tt) s tt
    T (<[tc := unidled c tc kt]> C) Q H.
Proof.
  intros Hs Hc Hth Ht Hsp Hl. unfold unidled. destruct (c_isidle kt && negb (bool_decide (tc = c))) eqn:Hi.
  - apply andb_true_iff in Hi as [_ Hne%negb_true_iff%bool_decide_eq_false]. by eapply go_ipi_send.
  - rewrite list_insert_id by done. by eapply go_ret.
Qed.

(** ** Making a thread runnable *)

Lemma go_make_runnable_locked {s T C Q H c k} target th ts :
  sys s T C Q H -> C !! c = Some k -> T !! target = Some th -> t_cpu th = Some c -> H !! c_runqueue_lock c = Some c ->
  Q !! c_runqueue c = Some ts -> off_lists Q target ->
  goes (thread_make_runnable c target true) s tt (<[target := with_state S_READY th]> T) C
    (<[c_runqueue c := ts ++ [target]]> Q) H.
Proof.
  intros Hs Hc Ht Hcpu Hl Hq Hoff. unfold thread_make_runnable. go_step; [by eapply go_rd_thread|].
  go_step; [by eapply go_deref|]. go_step.
  { go_step; [go_step; [by eapply go_get|]; by eapply go_ret|].
    eapply go_assert; [done|]. rewrite (sy_holder _ _ _ _ _ Hs1), Hl. by apply bool_decide_eq_true. }
  go_step; [by eapply go_wr_thread|]. go_step; [eapply go_addtail; [done..|]; rewrite lookup_insert_eq; by eexists|].
  go_step; [by eapply go_rd_cpu|]. rewrite (bool_decide_eq_true_2 (c = c)), andb_false_r by done.
  go_step; [by eapply go_ret|]. by eapply go_ret.
Qed.

Lemma go_make_runnable {s T C Q H c k thc} target th tc kt ts :
  sys s T C Q H -> C !! c = Some k -> T !! c_curthread k = Some thc -> T !! target = Some th -> t_cpu th = Some tc ->
  C !! tc = Some kt -> H !! c_runqueue_lock tc = None -> H !! c_ipi_lock tc = None -> 0 <= c_spinlocks k ->
  Q !! c_runqueue tc = Some ts -> off_lists Q target ->
  goes (thread_make_runnable c target false) s tt (<[target := with_state S_READY th]> T) (<[tc := unidled c tc kt]> C)
    (<[c_runqueue tc := ts ++ [target]]> Q) H.
Proof.
  intros Hs Hc Hthc Ht Hcpu Hkt Hl Hipi Hsp Hq Hoff. assert (c < length C)%nat by (by eapply lookup_lt_Some).
  set (T1 := <[c_curthread k := raise thc]> T).
  assert (exists th1 thc', T1 !! target = Some th1 /\ <[target := with_state S_READY th1]> T1 !! c_curthread k = Some (raise thc') /\
    <[c_curthread k := thc']> (<[target := with_state S_READY th1]> T1) = <[target := with_state S_READY th]> T)
    as (th1 & thc' & Hth1 & Hcur & Hback).
  { unfold T1. destruct (decide (target = c_curthread k)) as [->|Hne].
    - exists (raise th), (with_state S_READY th). simplify_eq. rewrite !lookup_insert_eq, !insert_insert_eq. done.
    - exists th, thc. rewrite lookup_insert_ne, (lookup_insert_ne _ target), lookup_insert_eq by done.
      split_and!; [done..|]. rewrite (insert_insert_ne _ _ target), insert_insert_eq by done. by rewrite (insert_id T). }
  unfold thread_make_runnable. go_step; [by eapply go_rd_thread|]. go_step; [by eapply go_deref|].
  go_step; [by eapply go_acquire|]. go_step; [by eapply (go_wr_thread Hs2 _ th1)|].
  go_step; [eapply go_addtail; [done..|]; rewrite lookup_insert_eq; by eexists|].
  assert (exists kt1 k1, <[c := spin_up k]> C !! tc = Some kt1 /\ same_cpu k k1 /\
    <[tc := unidled c tc kt1]> (<[c := spin_up k]> C) !! c = Some (spin_up k1) /\
    <[c := k1]> (<[tc := unidled c tc kt1]> (<[c := spin_up k]> C)) = <[tc := unidled c tc kt]> C)
    as (kt1 & k1 & Hkt1 & (Hk1 & _ & Hk2) & Hcpu1 & Hcback).
  { destruct (decide (tc = c)) as [->|Htc].
    - exists (spin_up k), (unidled c c k). simplify_eq. split; [by apply list_lookup_insert_eq|]. split; [apply same_cpu_unidled|].
      rewrite !list_insert_insert_eq, list_lookup_insert_eq by done. split; [|done].
      unfold unidled. by rewrite (bool_decide_eq_true_2 (c = c)), !andb_false_r.
    - exists kt, k. rewrite !list_lookup_insert_ne, list_lookup_insert_eq by done. split_and!; [done..|].
      rewrite (list_insert_insert_ne _ c tc), list_insert_insert_eq by done. by rewrite (list_insert_id C). }
  go_step; [by eapply go_rd_cpu|].
  go_step; [eapply (go_unidle (k := spin_up k)); try done; [by apply list_lookup_insert_eq|cbn; lia|by rewrite lookup_insert_ne]|].
  eapply go_eq; [eapply (go_unlock (k := k1) (th := thc'))|..]; rewrite ?Hk1, ?Hk2; done.
Qed.

(** ** Destroying threads *)

Lemma go_destroy {s T C Q H c k} t th :
  sys s T C Q H -> C !! c = Some k -> T !! t = Some th -> t <> c_curthread k -> t_state th <> S_RUN -> t_proc th = None ->
  off_lists Q t -> goes (thread_destroy c t) s tt (delete t T) C Q H.
Proof.
  intros Hs Hc Ht Hne Hst Hp Hoff. unfold thread_destroy. go_step; [by eapply go_curthread|].
  go_step; [eapply go_assert; [done|by apply bool_decide_eq_true]|]. go_step; [by eapply go_rd_thread|].
  go_step; [eapply go_assert; [done|by apply bool_decide_eq_true]|]. go_step; [eapply go_assert; [done|by rewrite Hp]|].
  go_step.
  { eapply (go_on_lists Hs4). exists (s_lists s4). split; [|split; [apply Hs4|by intros ?]].
    eapply node_cleanup_run; [apply Hs4|]. split; [|done]. by apply (sy_nodes _ _ _ _ _ Hs4). }
  eexists. split; [reflexivity|]. destruct Hs5 as [<- <- Hl <- Hn]. constructor; cbn; try done.
  - by apply rep_delete_node.
  - intros u [Hu Hut]%lookup_delete_is_Some. rewrite lookup_delete_ne by congruence. by apply Hn.
Qed.

(** The threads without those of [zs]. *)
Definition without (zs : list tid) (T : tmap) : tmap := foldl (fun T z => delete z T) T zs.

Lemma lookup_without zs : forall T t, without zs T !! t = if decide (t ∈ zs) then None else T !! t.
Proof.
  induction zs as [|z zs IH]; intros T t; cbn; [by rewrite decide_False by apply not_elem_of_nil|].
  unfold without in IH. rewrite IH. destruct (decide (t = z)) as [->|Hne].
  - rewrite (decide_True (P := z ∈ z :: zs)) by left. rewrite lookup_delete_eq. by case_decide.
  - rewrite lookup_delete_ne by done. by apply decide_ext; rewrite elem_of_cons; naive_solver.
Qed.

Lemma go_exorcise_loop {c k} zs : forall fuel s T C Q H,
  sys s T C Q H -> C !! c = Some k -> Q !! c_zombies c = Some zs -> c_curthread k ∉ zs -> NoDup zs ->
  (forall z, z ∈ zs -> exists th, T !! z = Some th /\ t_state th = S_ZOMBIE /\ t_proc th = None) ->
  (forall l ts z, z ∈ zs -> Q !! l = Some ts -> z ∈ ts -> l = c_zombies c) ->
  (length zs <= fuel)%nat ->
  goes (exorcise_loop fuel c) s tt (without zs T) C (<[c_zombies c := []]> Q) H.
Proof.
  induction zs as [|z zs IH]; intros fuel s T C Q H Hs Hc Hq Hcur Hnd Hz Hapart Hf.
  - destruct fuel; (go_step; [by eapply go_remhead|]); by eapply go_ret.
  - destruct fuel as [|fuel]; [cbn in Hf; lia|]. apply NoDup_cons in Hnd as [Hznd Hnd].
    apply not_elem_of_cons in Hcur as [Hzc Hcur].
    destruct (Hz z) as (th & Ht & Hst & Hp); [by left|].
    assert (off_lists (<[c_zombies c := zs]> Q) z) as Hoff.
    { intros l ts. rewrite lookup_insert. case_decide; [by intros [= <-]|]. intros Hl Hin.
      assert (l = c_zombies c) as -> by (eapply Hapart; [by left|done..]). done. }
    cbn [exorcise_loop]. go_step; [by eapply go_remhead|]. cbn [head tail].
    go_step; [by eapply go_curthread|]. go_step; [eapply go_assert; [done|by apply bool_decide_eq_true]|].
    go_step; [by eapply go_rd_thread|]. go_step; [eapply go_assert; [done|by apply bool_decide_eq_true]|].
    go_step; [eapply go_destroy; try done; congruence|].
    eapply go_eq; [eapply IH; try done| | | |]; cbn in Hf.
    + apply lookup_insert_eq.
    + intros z' Hz'. destruct (Hz z') as (th' & ? & ?); [by right|]. exists th'.
      rewrite lookup_delete_ne; [done|]. by intros ->.
    + intros l ts z' Hz'. rewrite lookup_insert. case_decide; [done|]. intros. eapply Hapart; [by right|done..].
    + lia.
    + done.
    + done.
    + by rewrite insert_insert_eq.
    + done.
Qed.

Lemma go_exorcise {s T C Q H c k} zs :
  sys s T C Q H -> C !! c = Some k -> Q !! c_zombies c = Some zs -> c_curthread k ∉ zs ->
  (forall z, z ∈ zs -> exists th, T !! z = Some th /\ t_state th = S_ZOMBIE /\ t_proc th = None) ->
  goes (exorcise c) s tt (without zs T) C (<[c_zombies c := []]> Q) H.
Proof.
  intros Hs Hc Hq Hcur Hz. unfold exorcise. go_step; [by eapply go_get|].
  assert (NoDup zs) as Hnd by (eapply lr_nodup; [apply Hs|done]).
  eapply go_exorcise_loop; try done.
  - intros l ts z Hzs Hl Hin. eapply lr_apart; [apply Hs|done|done|done|done].
  - rewrite (sy_threads _ _ _ _ _ Hs), <- size_dom. rewrite <- (size_list_to_set (C := gset tid) zs) by done.
    apply subseteq_size. intros z Hin%elem_of_list_to_set. destruct (Hz z Hin) as (th & Ht & _).
    by apply elem_of_dom_2 in Ht.
Qed.

(** ** Switching *)

Lemma without_insert zs t th T : t ∉ zs -> without zs (<[t := th]> T) = <[t := th]> (without zs T).
Proof.
  intros Ht. apply map_eq. intros u. rewrite lookup_without, !lookup_insert, lookup_without.
  destruct (decide (t = u)) as [<-|]; [by rewrite decide_False|done].
Qed.

(** The level a thread returns to when it is switched to. *)
Definition resume_spl (th : kthread) : Z := match t_context th with at_startup => IPL_NONE | in_switch spl => spl end.

(** The thread when it has left [thread_switch]. *)
Definition resumed (th : kthread) : kthread :=
  at_spl (resume_spl th) (lower (with_state S_RUN (with_wchan_name None th))).

(** The zombies of a CPU that can be destroyed while [cur] runs. *)
Definition zombies_ok (T : tmap) (cur : tid) (zs : list tid) : Prop :=
  ~ cur ∈ zs /\ forall z, z ∈ zs -> exists th, T !! z = Some th /\ t_state th = S_ZOMBIE /\ t_proc th = None.

Lemma go_switch_in {s T C Q H c k th} zs :
  sys s T C Q H -> C !! c = Some k -> T !! c_curthread k = Some th -> H !! c_runqueue_lock c = Some c ->
  0 < c_spinlocks k -> Q !! c_zombies c = Some zs -> zombies_ok T (c_curthread k) zs ->
  goes (switch_in c) s tt (<[c_curthread k := resumed th]> (without zs T)) (<[c := spin_down k]> C)
    (<[c_zombies c := []]> Q) (delete (c_runqueue_lock c) H).
Proof.
  intros Hs Hc Ht Hl Hsp Hq [Hcur Hz]. assert (c < length C)%nat by (by eapply lookup_lt_Some).
  assert (<[c := spin_down k]> C !! c = Some (spin_down k)) as Hc' by (by apply list_lookup_insert_eq).
  unfold switch_in. go_step; [by eapply go_curthread|]. go_step; [by eapply go_rd_thread|].
  go_step; [by eapply go_wr_thread|]. go_step; [eapply go_wr_thread; [done|apply lookup_insert_eq]|].
  go_step; [eapply go_release; [done|done|apply lookup_insert_eq|done|done]|]. rewrite !insert_insert_eq in Hs4.
  go_step; [eapply (go_exorcise zs); try done|].
  { intros z Hin. rewrite lookup_insert_ne; [by apply Hz|]. by intros <-. }
  rewrite without_insert in Hs5 by done.
  assert (forall spl, spl = resume_spl th ->
    goes (sbind (splx c spl) (fun _ => sret tt)) s5 tt (<[c_curthread k := resumed th]> (without zs T)) (<[c := spin_down k]> C)
    (<[c_zombies c := []]> Q) (delete (c_runqueue_lock c) H)) as Hfin.
  { intros spl ->. go_step; [eapply (go_splx _ Hs5 Hc'); apply lookup_insert_eq|]. rewrite insert_insert_eq in Hs6.
    by eapply go_ret. }
  unfold resume_spl in Hfin. destruct (t_context th); by apply Hfin.
Qed.

Lemma go_round_idle {s T C Q H c k th} :
  sys s T C Q H -> C !! c = Some k -> T !! c_curthread k = Some th -> H !! c_runqueue_lock c = Some c ->
  0 < c_spinlocks k -> Q !! c_runqueue c = Some [] ->
  goes (switch_round c) s false (<[c_curthread k := lower th]> T) (<[c := spin_down k]> C) Q (delete (c_runqueue_lock c) H).
Proof.
  intros Hs Hc Ht Hl Hsp Hq. unfold switch_round. go_step; [by eapply go_remhead|]. cbn [head tail] in *.
  rewrite insert_id in Hs0 by done. go_step; [by eapply go_release|]. by eapply go_ret.
Qed.

Lemma go_round_next {s T C Q H c k} next thn ts zs :
  sys s T C Q H -> C !! c = Some k -> T !! next = Some thn -> H !! c_runqueue_lock c = Some c ->
  0 < c_spinlocks k -> Q !! c_runqueue c = Some (next :: ts) -> Q !! c_zombies c = Some zs -> zombies_ok T next zs ->
  goes (switch_round c) s true (<[next := resumed thn]> (without zs T))
    (<[c := spin_down (cpu_curthread next (cpu_isidle false k))]> C)
    (<[c_zombies c := []]> (<[c_runqueue c := ts]> Q)) (delete (c_runqueue_lock c) H).
Proof.
  intros Hs Hc Ht Hl Hsp Hq Hz Hzs. assert (c < length C)%nat by (by eapply lookup_lt_Some).
  unfold switch_round. go_step; [by eapply go_remhead|]. cbn [head tail] in *.
  go_step; [by eapply go_wr_cpu|]. go_step; [eapply go_wr_cpu; [done|by apply list_lookup_insert_eq]|].
  rewrite list_insert_insert_eq in Hs2.
  go_step; [eapply (go_switch_in (k := cpu_curthread next (cpu_isidle false k)) zs Hs2); try done|].
  - by apply list_lookup_insert_eq.
  - by rewrite lookup_insert_ne.
  - rewrite list_insert_insert_eq in Hs3. by eapply go_ret.
Qed.

(** The level of a thread is [IPL_NONE] or [IPL_HIGH]. *)
Definition spl_ok (th : kthread) : Prop := t_curspl th = IPL_NONE \/ t_curspl th = IPL_HIGH.
Definition stack_ok (th : kthread) : Prop := forall ws, t_stack th = Some ws -> ws = guard_words.

Lemma at_spl_back th : spl_ok th -> at_spl (t_curspl th) (at_spl IPL_HIGH th) = th.
Proof.
  destruct th as [a b d e f g h x n]. unfold spl_ok, at_spl, with_spl, IPL_HIGH, IPL_NONE. cbn.
  intros [-> | ->]; cbn; f_equal; lia.
Qed.

Lemma go_checkstack {s T C Q H} t th :
  sys s T C Q H -> T !! t = Some th -> stack_ok th -> goes (thread_checkstack t) s tt T C Q H.
Proof.
  intros Hs Ht Hst. unfold thread_checkstack. go_step; [by eapply go_rd_thread|].
  destruct (t_stack th) as [ws|] eqn:Hw; [|by eapply go_ret]. eapply go_assert; [done|]. apply bool_decide_eq_true. by apply Hst.
Qed.

(** A switch on an idle CPU, and a yield with nothing else to run, change
    nothing. *)
Lemma go_switch_idle {s T C Q H c k th} newstate wc lk :
  sys s T C Q H -> C !! c = Some k -> T !! c_curthread k = Some th -> spl_ok th -> c_isidle k = true ->
  goes (thread_switch c newstate wc lk) s tt T C Q H.
Proof.
  intros Hs Hc Ht Hok Hi. unfold thread_switch. go_step; [by eapply go_splx|]. go_step; [by eapply go_curthread|].
  go_step; [by eapply go_rd_cpu|]. rewrite Hi. go_step; [eapply go_splx; [done|done|apply lookup_insert_eq]|].
  rewrite insert_insert_eq, at_spl_back, insert_id in Hs3 by done. by eapply go_ret.
Qed.

Lemma go_yield_alone {s T C Q H c k th} :
  sys s T C Q H -> C !! c = Some k -> T !! c_curthread k = Some th -> spl_ok th -> stack_ok th -> c_isidle k = false ->
  H !! c_runqueue_lock c = None -> 0 <= c_spinlocks k -> Q !! c_runqueue c = Some [] ->
  goes (thread_yield c) s tt T C Q H.
Proof.
  intros Hs Hc Ht Hok Hst Hi Hl Hsp Hq. assert (c < length C)%nat by (by eapply lookup_lt_Some).
  unfold thread_yield, thread_switch. go_step; [by eapply go_splx|]. go_step; [by eapply go_curthread|].
  go_step; [by eapply go_rd_cpu|]. rewrite Hi. go_step; [eapply go_checkstack; [done|apply lookup_insert_eq|done]|].
  go_step; [eapply go_acquire; [done|done|apply lookup_insert_eq|done]|]. go_step; [by eapply go_isempty|]. cbn.
  go_step; [eapply go_unlock; [done|by apply list_lookup_insert_eq|apply lookup_insert_eq|done|done]|].
  rewrite list_insert_insert_eq, (list_insert_id C), !insert_insert_eq in Hs6 by done.
  go_step; [eapply go_splx; [done|done|apply lookup_insert_eq]|].
  rewrite insert_insert_eq, at_spl_back, insert_id in Hs7 by done. by eapply go_ret.
Qed.

(** The thread that leaves, once it is queued. *)
Definition parked (newstate : threadstate_t) (spl : Z) (th : kthread) : kthread :=
  with_context (in_switch spl) (with_state newstate th).

Lemma reach_switch {s T C Q H c k th} newstate wc lk ts T1 C1 Q1 H1 th1 k1 P :
  sys s T C Q H -> C !! c = Some k -> T !! c_curthread k = Some th -> stack_ok th -> c_isidle k = false ->
  H !! c_runqueue_lock c = None -> Q !! c_runqueue c = Some ts -> zlen ts < 2^32 -> (newstate = S_READY -> ts <> []) ->
  (forall s', sys s' (<[c_curthread k := raise (at_spl IPL_HIGH th)]> T) (<[c := spin_up k]> C) Q (<[c_runqueue_lock c := c]> H) ->
     goes (switch_queue c (c_curthread k) newstate wc lk) s' tt T1 C1 Q1 H1) ->
  T1 !! c_curthread k = Some th1 -> C1 !! c = Some k1 ->
  (forall s', sys s' (<[c_curthread k := parked newstate (t_curspl th) th1]> T1) (<[c := cpu_isidle true k1]> C1) Q1 H1 ->
     reaches (switch_round c) s' P) ->
  reaches (thread_switch c newstate wc lk) s P.
Proof.
  intros Hs Hc Ht Hst Hi Hl Hq Hlen Hr Hqueue Hth1 Hk1 Hround.
  unfold thread_switch. reach_step; [by eapply go_splx|]. reach_step; [by eapply go_curthread|].
  reach_step; [by eapply go_rd_cpu|]. rewrite Hi. reach_step; [eapply go_checkstack; [done|apply lookup_insert_eq|done]|].
  reach_step; [eapply go_acquire; [done|done|apply lookup_insert_eq|done]|]. reach_step; [by eapply go_isempty|].
  rewrite insert_insert_eq in Hs5. replace (bool_decide (newstate = S_READY) && bool_decide (ts = [])) with false.
  - reach_step; [by apply Hqueue|]. reach_step; [by eapply go_wr_thread|]. reach_step; [eapply go_wr_thread; [done|apply lookup_insert_eq]|].
    rewrite insert_insert_eq in Hs8. reach_step; [by eapply go_wr_cpu|].
    eapply reach_then; [by apply Hround|]. intros. by eapply reach_ret.
  - symmetry. apply andb_false_iff. destruct (decide (newstate = S_READY)) as [->|].
    + right. by apply bool_decide_eq_false, Hr.
    + left. by apply bool_decide_eq_false.
Qed.
