(* ===== verification/SchedInv.v ===== *)
(** * The invariant of the thread system

    Every thread is in exactly one place, the one its [t_state] names: it runs
    on its CPU, is on the run queue of its CPU, on one wait channel, or among
    the zombies of its CPU; an idle CPU keeps as [c_curthread] a thread that
    is not running.  The interrupt level of a thread that was switched out
    accounts for the run queue lock that the next thread releases for it. *)

From S2P Require Import Prelude State Monad StopState Threadlist Sched SchedSpec.

#[local] Open Scope Z_scope.

(** [t] is the thread an idle CPU ran last. *)
Definition idle_cur (C : list cpu) (t : tid) : Prop :=
  exists c k, C !! c = Some k /\ c_isidle k = true /\ c_curthread k = t.

Record thread_wf (C : list cpu) (t : tid) (th : kthread) : Prop := mk_thread_wf {
  tw_cpu : exists c, t_cpu th = Some c /\ (c < length C)%nat;
  tw_spl : spl_ok th;
  tw_context spl : t_context th = in_switch spl -> spl = IPL_NONE \/ spl = IPL_HIGH;
  tw_stack : stack_ok th;
  tw_interrupt : t_in_interrupt th = false;
  tw_run : t_state th = S_RUN -> t_iplhigh_count th = t_curspl th;
  tw_out : t_state th <> S_RUN -> t_curspl th = IPL_HIGH;
  tw_idle : t_state th <> S_RUN -> idle_cur C t -> t_iplhigh_count th = 1;
  tw_parked : t_state th <> S_RUN -> ~ idle_cur C t -> t_iplhigh_count th = 2;
  tw_zombie : t_state th = S_ZOMBIE -> t_proc th = None
}.

(** [X]: threads a function has taken off a list to put them on another. *)
Record sched_inv (T : tmap) (C : list cpu) (Q : qmap) (X : list tid) : Prop := mk_sched_inv {
  sv_thread t th : T !! t = Some th -> thread_wf C t th;
  sv_cpu c k : C !! c = Some k -> c_spinlocks k = 0 /\
    exists th, T !! c_curthread k = Some th /\ t_cpu th = Some c /\ (t_state th = S_RUN <-> c_isidle k = false);
  sv_run t th : T !! t = Some th -> t_state th = S_RUN ->
    exists c k, t_cpu th = Some c /\ C !! c = Some k /\ c_curthread k = t;
  sv_queue c : (c < length C)%nat -> is_Some (Q !! c_runqueue c) /\ is_Some (Q !! c_zombies c);
  sv_ready c ts t : Q !! c_runqueue c = Some ts ->
    t ∈ ts <-> exists th, T !! t = Some th /\ t_state th = S_READY /\ t_cpu th = Some c /\ t ∉ X;
  sv_zombie c ts t : Q !! c_zombies c = Some ts ->
    t ∈ ts <-> exists th, T !! t = Some th /\ t_state th = S_ZOMBIE /\ t_cpu th = Some c;
  sv_sleep t th : T !! t = Some th -> t_state th = S_SLEEP -> t ∉ X -> exists w ts, Q !! wc_threads w = Some ts /\ t ∈ ts;
  sv_wchan w ts t : Q !! wc_threads w = Some ts -> t ∈ ts -> exists th, T !! t = Some th /\ t_state th = S_SLEEP /\ t ∉ X;
  sv_transit t : t ∈ X -> exists th, T !! t = Some th /\ (t_state th = S_READY \/ t_state th = S_SLEEP);
  sv_size : Z.of_nat (size T) < 2^32
}.

Section facts.
Context {T : tmap} {C : list cpu} {Q : qmap} {X : list tid}.
Hypothesis Hv : sched_inv T C Q X.

(** The current thread of a CPU belongs to it. *)
Lemma cur_cpu c k th : C !! c = Some k -> T !! c_curthread k = Some th -> t_cpu th = Some c.
Proof. intros Hc Ht. destruct (sv_cpu _ _ _ _ Hv c k Hc) as (_ & th' & ? & ? & _). by simplify_eq. Qed.

Lemma idle_cur_cpu c k t th : C !! c = Some k -> c_isidle k = true -> T !! t = Some th -> t_cpu th = Some c ->
  idle_cur C t -> t = c_curthread k.
Proof.
  intros Hc Hi Ht Hcpu (c' & k' & Hc' & _ & <-). pose proof (cur_cpu _ _ _ Hc' Ht). by simplify_eq.
Qed.

(** A running thread is on no list but those of [on_stack]. *)
Lemma running_off t th l ts : T !! t = Some th -> t_state th = S_RUN -> Q !! l = Some ts ->
  (forall c, l <> on_stack c) -> t ∉ ts.
Proof.
  intros Ht Hst Hl Hloc Hin. destruct l as [c|c|w|c]; [| | |by eapply Hloc].
  - apply (sv_ready _ _ _ _ Hv _ _ _ Hl) in Hin as (th' & ? & ? & _). simplify_eq. congruence.
  - apply (sv_zombie _ _ _ _ Hv _ _ _ Hl) in Hin as (th' & ? & ? & _). simplify_eq. congruence.
  - destruct (sv_wchan _ _ _ _ Hv _ _ _ Hl Hin) as (th' & ? & ? & _). simplify_eq. congruence.
Qed.

(** A list of threads is no longer than their number. *)
Lemma length_list s l ts : lists_rep (s_lists s) Q -> Q !! l = Some ts -> (forall t, t ∈ ts -> is_Some (T !! t)) -> (length ts <= size T)%nat.
Proof.
  intros Hs Hl Hin. assert (NoDup ts) as Hnd by (by eapply lr_nodup).
  rewrite <- size_dom. rewrite <- (size_list_to_set (C := gset tid) ts) by done. apply subseteq_size.
  intros t Ht%elem_of_list_to_set. by apply elem_of_dom, Hin.
Qed.

Lemma zlen_list s l ts : lists_rep (s_lists s) Q -> Q !! l = Some ts -> (forall t, t ∈ ts -> is_Some (T !! t)) -> zlen ts < 2^32.
Proof. intros Hs Hl Hin. pose proof (length_list s l ts Hs Hl Hin). pose proof (sv_size _ _ _ _ Hv). unfold zlen. lia. Qed.
End facts.

(** ** The next thread is picked *)

(** Threads that differ in the interrupt count only. *)
Definition like (th th' : kthread) : Prop := exists n, th' = with_spl (t_curspl th) n th.

Lemma like_refl th : like th th.
Proof. exists (t_iplhigh_count th). by destruct th. Qed.
Lemma like_raise th : like th (raise th).
Proof. by eexists. Qed.

Section pick.
Context (T : tmap) (C : list cpu) (Q : qmap) (c : nat) (k : cpu) (th thn : kthread) (next : tid) (ts zs : list tid).
Hypothesis Hv : sched_inv T C Q [].
Hypothesis Hc : C !! c = Some k.
Hypothesis Hi : c_isidle k = true.
Hypothesis Hth : T !! c_curthread k = Some th.
Hypothesis Hq : Q !! c_runqueue c = Some (next :: ts).
Hypothesis Hz : Q !! c_zombies c = Some zs.
Hypothesis Hnd : NoDup (next :: ts).
Hypothesis Hn : T !! next = Some thn.

Let thn' := if decide (next = c_curthread k) then raise th else thn.
Let T' := <[next := resumed thn']> (without zs (<[c_curthread k := raise th]> T)).
Let k' := mk_cpu next false 0 (c_ipi_pending k).
Let C' := <[c := k']> C.
Let Q' := <[c_zombies c := []]> (<[c_runqueue c := ts]> Q).

Lemma pick_next : t_state thn = S_READY /\ t_cpu thn = Some c /\ next ∉ zs.
Proof.
  destruct (proj1 (sv_ready _ _ _ _ Hv c (next :: ts) next Hq) ltac:(by left)) as (th0 & ? & Hst & Hcpu & _). simplify_eq.
  split_and!; [done..|]. intros Hin. apply (sv_zombie _ _ _ _ Hv _ _ _ Hz) in Hin as (th0 & ? & ? & _). simplify_eq. congruence.
Qed.

Lemma pick_like : like thn thn'.
Proof. unfold thn'. case_decide as E; [subst|apply like_refl]. rewrite Hth in Hn. simplify_eq. apply like_raise. Qed.

Lemma pick_lookup t th' : T' !! t = Some th' ->
  (t = next /\ th' = resumed thn') \/
  (t <> next /\ ~ t ∈ zs /\ exists th0, T !! t = Some th0 /\ th' = if decide (t = c_curthread k) then raise th0 else th0).
Proof.
  unfold T'. rewrite lookup_insert. case_decide as E; [intros [= <-]; by left|]. rewrite lookup_without.
  case_decide; [done|]. rewrite lookup_insert. intros Hl. right. split_and!; [done..|].
  case_decide as E2; [subst|]; simplify_eq; eexists; (split; [done|]);
    [by rewrite decide_True|by rewrite decide_False].
Qed.

Lemma pick_keep t th0 : T !! t = Some th0 -> t <> next -> t ∉ zs ->
  exists th', T' !! t = Some th' /\ like th0 th' /\ (t <> c_curthread k -> th' = th0).
Proof.
  intros Ht Hne Hzs. unfold T'. rewrite lookup_insert_ne, lookup_without, decide_False, lookup_insert by done.
  case_decide as E; [subst|].
  - simplify_eq. eexists. split; [done|]. split; [apply like_raise|done].
  - exists th0. split; [done|]. split; [apply like_refl|done].
Qed.

(** No other CPU ran the next thread or the zombies last. *)
Lemma pick_other c2 k2 : c2 <> c -> C !! c2 = Some k2 -> c_curthread k2 <> next /\ ~ c_curthread k2 ∈ zs /\ c_curthread k2 <> c_curthread k.
Proof.
  intros Hne Hc2. destruct (sv_cpu _ _ _ _ Hv c2 k2 Hc2) as (_ & th2 & Ht2 & Hcpu2 & _).
  destruct pick_next as (_ & Hcpun & _). split_and!.
  - intros E. rewrite E in Ht2. simplify_eq.
  - intros Hin. apply (sv_zombie _ _ _ _ Hv _ _ _ Hz) in Hin as (th3 & ? & _ & ?). simplify_eq.
  - intros E. rewrite E in Ht2. pose proof (cur_cpu Hv _ _ _ Hc Ht2). simplify_eq.
Qed.

Lemma pick_idle t : idle_cur C' t <-> idle_cur C t /\ t <> c_curthread k.
Proof.
  assert (c < length C)%nat by (by eapply lookup_lt_Some). unfold C'. split.
  - intros (c2 & k2 & Hc2 & Hi2 & <-). destruct (decide (c2 = c)) as [->|].
    + rewrite list_lookup_insert_eq in Hc2 by done. by simplify_eq.
    + rewrite list_lookup_insert_ne in Hc2 by done. split; [by exists c2, k2|by apply (pick_other c2 k2)].
  - intros [(c2 & k2 & Hc2 & Hi2 & <-) Hne]. exists c2, k2. split; [|done].
    rewrite list_lookup_insert_ne; [done|]. intros <-. simplify_eq.
Qed.

Lemma pick_resumed : thread_wf C' next (resumed thn').
Proof.
  destruct pick_next as (Hst & Hcpu & _). destruct (sv_thread _ _ _ _ Hv _ _ Hn) as [? ? Hctx Hstk Hint ? Hout Hidle Hpark ?].
  assert (t_curspl thn = IPL_HIGH) as Hhigh by (apply Hout; congruence).
  assert (t_iplhigh_count thn' = 2) as H2.
  { unfold thn'. case_decide as E.
    - subst next. rewrite Hth in Hn. simplify_eq. cbn. rewrite Hidle; [done|congruence|]. by exists c, k.
    - apply Hpark; [congruence|]. intros Hic. apply E. by eapply idle_cur_cpu. }
  destruct pick_like as [n Hlike].
  assert (resume_spl thn' = IPL_NONE \/ resume_spl thn' = IPL_HIGH) as Hspl.
  { rewrite Hlike. unfold resume_spl. cbn. destruct (t_context thn); [by left|by apply Hctx]. }
  assert (t_curspl thn' = IPL_HIGH) as Hhigh' by (by rewrite Hlike).
  constructor; try (unfold resumed; cbn; done).
  - exists c. unfold resumed. cbn. rewrite Hlike. cbn. split; [done|]. unfold C'. rewrite length_insert. by eapply lookup_lt_Some.
  - unfold resumed. cbn. rewrite Hlike. cbn. by apply Hctx.
  - unfold resumed, stack_ok. cbn. rewrite Hlike. done.
  - unfold resumed. cbn. by rewrite Hlike.
  - intros _. unfold resumed, at_spl. cbn. rewrite H2, Hhigh'. unfold IPL_HIGH, IPL_NONE in *.
    by destruct Hspl as [-> | ->].
Qed.
Lemma pick_wf t th0 : T !! t = Some th0 -> t <> next ->
  thread_wf C' t (if decide (t = c_curthread k) then raise th0 else th0).
Proof.
  intros Ht Hne. destruct (sv_thread _ _ _ _ Hv _ _ Ht) as [(c0 & Hc0 & Hlt) ? ? ? ? ? ? Hidle Hpark ?].
  assert (length C' = length C) as Hlen by apply length_insert. case_decide as E.
  - subst t. simplify_eq. assert (t_state th <> S_RUN) as Hst.
    { destruct (sv_cpu _ _ _ _ Hv c k Hc) as (_ & th1 & ? & _ & Hr). simplify_eq. intros Hrun%Hr. congruence. }
    constructor; cbn; try done.
    + exists c0. by rewrite Hlen.
    + intros _ [_ Hcur]%pick_idle. done.
    + intros _ _. rewrite Hidle; [done|done|]. by exists c, k.
  - constructor; try done.
    + exists c0. by rewrite Hlen.
    + intros Hst [Hic _]%pick_idle. by apply Hidle.
    + intros Hst Hic. apply Hpark; [done|]. intros Hic'. apply Hic, pick_idle. done.
Qed.

(** Threads that do not run are where they were, but for the zombies. *)
Lemma pick_state st oc t : st <> S_RUN ->
  (exists th', T' !! t = Some th' /\ t_state th' = st /\ t_cpu th' = oc) <->
  t <> next /\ ~ t ∈ zs /\ exists th0, T !! t = Some th0 /\ t_state th0 = st /\ t_cpu th0 = oc.
Proof.
  intros Hst. split.
  - intros (th' & Ht' & Hs & Hcpu). apply pick_lookup in Ht' as [[-> ->]|(Hne & Hzs & th0 & Ht & ->)]; [done|].
    split_and!; [done..|]. exists th0. by case_decide.
  - intros (Hne & Hzs & th0 & Ht & Hs & Hcpu). destruct (pick_keep t th0) as (th' & Ht' & [n ->] & _); [done..|].
    by eexists.
Qed.

Lemma not_zombie t th0 : T !! t = Some th0 -> t_state th0 <> S_ZOMBIE -> t ∉ zs.
Proof. intros Ht Hst Hin. apply (sv_zombie _ _ _ _ Hv _ _ _ Hz) in Hin as (th1 & ? & ? & _). by simplify_eq. Qed.

Lemma pick_size : Z.of_nat (size T') < 2^32.
Proof.
  pose proof (sv_size _ _ _ _ Hv). enough (size T' <= size T)%nat by lia. rewrite <- !size_dom. apply subseteq_size.
  intros t [th' Ht]%elem_of_dom. apply elem_of_dom.
  apply pick_lookup in Ht as [[-> _]|(_ & _ & th0 & ? & _)]; by eexists.
Qed.

Lemma pick_inv : sched_inv T' C' Q' [].
Proof.
  destruct pick_next as (Hst & Hcpu & Hnz). assert (c < length C)%nat by (by eapply lookup_lt_Some).
  assert (t_cpu (resumed thn') = Some c) as Hcpu' by (destruct pick_like as [n ->]; done).
  assert (forall t th0, like th0 (if decide (t = c_curthread k) then raise th0 else th0)) as Hlike
    by (intros; case_decide; [apply like_raise|apply like_refl]).
  constructor.
  - intros t th' [[-> ->]|(Hne & _ & th0 & Ht & ->)]%pick_lookup; [apply pick_resumed|by apply pick_wf].
  - intros c2 k2. unfold C'. destruct (decide (c2 = c)) as [->|Hne].
    + rewrite list_lookup_insert_eq by done. intros [= <-]. split; [done|]. exists (resumed thn').
      unfold T'. by rewrite lookup_insert_eq.
    + rewrite list_lookup_insert_ne by done. intros Hc2. destruct (sv_cpu _ _ _ _ Hv c2 k2 Hc2) as (? & th2 & Ht2 & ?).
      split; [done|]. destruct (pick_other c2 k2 Hne Hc2) as (? & ? & ?).
      destruct (pick_keep _ _ Ht2) as (th' & Ht' & _ & Heq); [done..|]. exists th'. rewrite (Heq ltac:(done)) in *. done.
  - intros t th' [[-> ->]|(Hne & _ & th0 & Ht & ->)]%pick_lookup Hrun.
    + exists c, k'. unfold C'. by rewrite list_lookup_insert_eq.
    + destruct (Hlike t th0) as [n Heq]. rewrite Heq in *. cbn in *.
      destruct (sv_run _ _ _ _ Hv _ _ Ht Hrun) as (c2 & k2 & ? & Hc2 & Hcur). exists c2, k2. split_and!; [done| |done].
      unfold C'. rewrite list_lookup_insert_ne; [done|]. intros <-. simplify_eq.
      destruct (sv_cpu _ _ _ _ Hv c k Hc) as (_ & th1 & ? & _ & Hr). simplify_eq. apply Hr in Hrun. congruence.
  - intros c2. unfold C', Q'. rewrite length_insert. intros Hc2. destruct (sv_queue _ _ _ _ Hv c2 Hc2).
    by rewrite !lookup_insert_is_Some'; auto.
  - intros c2 ts2 t Hq2. unfold Q' in Hq2. rewrite lookup_insert_ne in Hq2 by done.
    transitivity (exists th', T' !! t = Some th' /\ t_state th' = S_READY /\ t_cpu th' = Some c2);
      [|split; [intros (th' & ? & ? & ?); exists th'; split_and!; try done; apply not_elem_of_nil
               |intros (th' & ? & ? & ? & _); by exists th']].
    rewrite pick_state by done. apply NoDup_cons in Hnd as [Hnts _]. destruct (decide (c2 = c)) as [->|Hne].
    + rewrite lookup_insert_eq in Hq2. injection Hq2 as <-. pose proof (sv_ready _ _ _ _ Hv c (next :: ts) t Hq) as Hr.
      rewrite elem_of_cons in Hr. split.
      * intros Hin. destruct (proj1 Hr (or_intror Hin)) as (th0 & ? & ? & ? & _). split_and!; [by intros ->| |by eexists].
        eapply not_zombie; [done|congruence].
      * intros (Hnn & _ & th0 & ? & ? & ?). destruct (proj2 Hr); [exists th0; split_and!; try done; apply not_elem_of_nil|done|done].
    + rewrite lookup_insert_ne in Hq2 by congruence. rewrite (sv_ready _ _ _ _ Hv c2 ts2 t Hq2). split.
      * intros (th0 & ? & ? & ? & _). split_and!; [intros ->; simplify_eq| |by eexists].
        eapply not_zombie; [done|congruence].
      * intros (Hnn & _ & th0 & ? & ? & ?). exists th0. split_and!; try done. apply not_elem_of_nil.
  - intros c2 ts2 t Hq2. unfold Q' in Hq2. rewrite pick_state by done. destruct (decide (c2 = c)) as [->|Hne].
    + rewrite lookup_insert_eq in Hq2. injection Hq2 as <-. split; [by intros ?%not_elem_of_nil|].
      intros (_ & Hzs & Hex). destruct Hzs. by apply (sv_zombie _ _ _ _ Hv _ _ _ Hz).
    + rewrite !lookup_insert_ne in Hq2 by congruence. rewrite (sv_zombie _ _ _ _ Hv c2 ts2 t Hq2). split.
      * intros (th0 & ? & ? & ?). split_and!; [intros ->; simplify_eq; congruence| |by eexists].
        intros Hin. apply (sv_zombie _ _ _ _ Hv _ _ _ Hz) in Hin as (th1 & ? & _ & ?). simplify_eq.
      * by intros (_ & _ & Hex).
  - intros t th' Ht Hs _. destruct (proj1 (pick_state S_SLEEP (t_cpu th') t ltac:(done))) as (_ & _ & th0 & Ht0 & Hs0 & _);
      [by eexists|]. destruct (sv_sleep _ _ _ _ Hv _ _ Ht0 Hs0) as (w & ts0 & Hw & Hin); [apply not_elem_of_nil|].
    exists w, ts0. unfold Q'. by rewrite !lookup_insert_ne.
  - intros w ts0 t. unfold Q'. rewrite !lookup_insert_ne by done. intros Hw Hin.
    destruct (sv_wchan _ _ _ _ Hv _ _ _ Hw Hin) as (th0 & Ht0 & Hs0 & _).
    destruct (proj2 (pick_state S_SLEEP (t_cpu th0) t ltac:(done))) as (th' & ? & ? & _).
    { split_and!; [intros ->; simplify_eq; congruence| |by eexists]. eapply not_zombie; [done|congruence]. }
    exists th'. split_and!; [done..|apply not_elem_of_nil].
  - by intros t ?%not_elem_of_nil.
  - apply pick_size.
Qed.
End pick.

(** The lists a CPU keeps on its stack, and the wait channels there are. *)
Definition same_frame (Q Q' : qmap) : Prop :=
  (forall c, Q' !! on_stack c = Q !! on_stack c) /\ (forall w, is_Some (Q' !! wc_threads w) <-> is_Some (Q !! wc_threads w)).

(** The invariant, with no thread in transit and no spinlock held. *)
Definition settled (C : list cpu) (Q : qmap) (T' : tmap) (C' : list cpu) (Q' : qmap) (H' : hmap) : Prop :=
  sched_inv T' C' Q' [] /\ same_frame Q Q' /\ length C' = length C /\ H' = ∅.

(** The first thread of the run queue [ts] of [c] runs now. *)
Definition picks (c : nat) (ts : list tid) (C' : list cpu) (Q' : qmap) : Prop :=
  match ts with
  | [] => True
  | next :: ts' => Q' !! c_runqueue c = Some ts' /\ exists k', C' !! c = Some k' /\ c_curthread k' = next /\ c_isidle k' = false
  end.
Definition settled_picks (C : list cpu) (Q : qmap) (c : nat) (T' : tmap) (C' : list cpu) (Q' : qmap) (H' : hmap) : Prop :=
  settled C Q T' C' Q' H' /\ forall ts, Q !! c_runqueue c = Some ts -> picks c ts C' Q'.

(** A round of the idle loop, with the run queue lock just acquired. *)
Lemma round_inv s T C Q c k th :
  sys s (<[c_curthread k := raise th]> T) (<[c := spin_up k]> C) Q {[c_runqueue_lock c := c]} ->
  sched_inv T C Q [] -> C !! c = Some k -> c_isidle k = true -> T !! c_curthread k = Some th ->
  reaches (switch_round c) s (settled_picks C Q c).
Proof.
  intros Hs Hv Hc Hi Hth. assert (c < length C)%nat as Hlt by (by eapply lookup_lt_Some).
  assert (<[c := spin_up k]> C !! c = Some (spin_up k)) as Hc' by (by apply list_lookup_insert_eq).
  destruct (sv_cpu _ _ _ _ Hv c k Hc) as (Hsp & _).
  assert (delete (c_runqueue_lock c) ({[c_runqueue_lock c := c]} : gmap slock nat) = ∅) as Hdel by apply delete_singleton_eq.
  destruct (sv_queue _ _ _ _ Hv c Hlt) as [[ts Hq] [zs Hz]]. destruct ts as [|next ts].
  - exists false, T, C, Q, ∅. split; [|split; [by split_and!|by intros ? [= <-]%(eq_trans (eq_sym Hq))]]. eapply go_eq; [eapply (go_round_idle Hs Hc'); try done| | |done|done].
    + apply lookup_insert_eq.
    + apply lookup_singleton_eq.
    + cbn. lia.
    + cbn. by rewrite insert_insert_eq, lower_raise, insert_id.
    + by rewrite list_insert_insert_eq, spin_down_up, list_insert_id.
  - destruct (proj1 (sv_ready _ _ _ _ Hv c (next :: ts) next Hq) ltac:(by left)) as (thn & Hn & Hst & Hcpu & _).
    assert (NoDup (next :: ts)) as Hnd by (eapply lr_nodup; [apply Hs|done]).
    pose proof (pick_inv T C Q c k th thn next ts zs Hv Hc Hi Hth Hq Hz Hnd Hn) as Hinv.
    eexists true, _, _, _, ∅. split; [|split; [split; [exact Hinv|split_and!]|]].
    + eapply go_eq; [eapply (go_round_next next _ ts zs Hs Hc'); try done| |..]; try done.
      * rewrite lookup_insert. destruct (decide (c_curthread k = next)) as [->|]; [by rewrite decide_True|by rewrite decide_False by done].
      * apply lookup_singleton_eq.
      * cbn. lia.
      * split; [eapply (not_zombie T C Q c zs Hv Hz next thn Hn); congruence|]. intros z Hin.
        apply (sv_zombie _ _ _ _ Hv _ _ _ Hz) in Hin as (th0 & Ht0 & Hz0 & _).
        pose proof (tw_zombie _ _ _ (sv_thread _ _ _ _ Hv _ _ Ht0) Hz0).
        destruct (decide (z = c_curthread k)) as [->|]; [rewrite lookup_insert_eq|rewrite lookup_insert_ne by done].
        -- simplify_eq. by exists (raise th).
        -- by exists th0.
      * rewrite list_insert_insert_eq. unfold spin_down, spin_up, cpu_curthread, cpu_isidle, cpu_spinlocks. cbn.
        do 2 f_equal. lia.
    + split; intros; rewrite !lookup_insert_ne by done; done.
    + by rewrite length_insert.
    + done.
    + intros ts' Hq'. simplify_eq. split; [by rewrite lookup_insert_ne, lookup_insert_eq|].
      eexists. by rewrite list_lookup_insert_eq.
Qed.

(** An idle CPU that is woken up. *)
Lemma idle_inv s T C Q c k :
  sys s T C Q ∅ -> sched_inv T C Q [] -> C !! c = Some k -> c_isidle k = true ->
  reaches (idle_wakeup c) s (settled C Q).
Proof.
  intros Hs Hv Hc Hi. destruct (sv_cpu _ _ _ _ Hv c k Hc) as (_ & th & Hth & _).
  unfold idle_wakeup. reach_step; [eapply go_acquire; [done..|apply lookup_empty]|].
  eapply reach_weaken; [eapply round_inv; [by rewrite <- insert_empty|done..]|by intros ???? []].
Qed.

(** ** The current thread leaves its CPU *)

(** The list a thread in this state is on. *)
Definition place (c : nat) (st : threadstate_t) (l : lid) : Prop :=
  (st = S_READY /\ l = c_runqueue c) \/ (st = S_SLEEP /\ exists w, l = wc_threads w) \/ (st = S_ZOMBIE /\ l = c_zombies c).

(** A thread that was just switched out of an idle CPU. *)
Record out_wf (c : nat) (th : kthread) : Prop := mk_out_wf {
  ow_cpu : t_cpu th = Some c;
  ow_spl : t_curspl th = IPL_HIGH;
  ow_ipl : t_iplhigh_count th = 1;
  ow_context spl : t_context th = in_switch spl -> spl = IPL_NONE \/ spl = IPL_HIGH;
  ow_stack : stack_ok th;
  ow_interrupt : t_in_interrupt th = false;
  ow_zombie : t_state th = S_ZOMBIE -> t_proc th = None
}.

Section park.
Context (T : tmap) (C : list cpu) (Q : qmap) (c : nat) (k : cpu) (th thv : kthread) (l : lid) (ts : list tid).
Hypothesis Hv : sched_inv T C Q [].
Hypothesis Hc : C !! c = Some k.
Hypothesis Hi : c_isidle k = false.
Hypothesis Hth : T !! c_curthread k = Some th.
Hypothesis Hl : Q !! l = Some ts.
Hypothesis Hplace : place c (t_state thv) l.
Hypothesis Hout : out_wf c thv.

Let T' := <[c_curthread k := thv]> T.
Let C' := <[c := cpu_isidle true k]> C.
Let Q' := <[l := ts ++ [c_curthread k]]> Q.

Lemma park_run : t_state th = S_RUN.
Proof. destruct (sv_cpu _ _ _ _ Hv c k Hc) as (_ & th1 & ? & _ & Hr). simplify_eq. by apply Hr. Qed.

Lemma park_out : t_state thv <> S_RUN.
Proof. destruct Hplace as [[-> _]|[[-> _]|[-> _]]]; done. Qed.

Lemma park_idle t : idle_cur C' t <-> idle_cur C t \/ t = c_curthread k.
Proof.
  assert (c < length C)%nat by (by eapply lookup_lt_Some). unfold C'. split.
  - intros (c2 & k2 & Hc2 & Hi2 & <-). destruct (decide (c2 = c)) as [->|].
    + rewrite list_lookup_insert_eq in Hc2 by done. simplify_eq. by right.
    + rewrite list_lookup_insert_ne in Hc2 by done. left. by exists c2, k2.
  - intros [(c2 & k2 & Hc2 & Hi2 & <-)| ->].
    + exists c2, k2. rewrite list_lookup_insert_ne; [done|]. intros <-. congruence.
    + exists c, (cpu_isidle true k). by rewrite list_lookup_insert_eq.
Qed.

(** Membership in a list, the thread that leaves apart. *)
Lemma park_elem l2 ts2 t : t <> c_curthread k -> Q' !! l2 = Some ts2 -> exists ts3, Q !! l2 = Some ts3 /\ (t ∈ ts2 <-> t ∈ ts3).
Proof.
  intros Hne. unfold Q'. rewrite lookup_insert. case_decide; [subst; intros [= <-]|eauto].
  exists ts. split; [done|]. rewrite elem_of_app, list_elem_of_singleton. tauto.
Qed.

Lemma park_cur_in l2 ts2 : Q' !! l2 = Some ts2 -> (forall c, l2 <> on_stack c) -> c_curthread k ∈ ts2 <-> l2 = l.
Proof.
  intros Hl2 Hloc. unfold Q' in Hl2. rewrite lookup_insert in Hl2. case_decide as E.
  - subst. injection Hl2 as <-. split; [done|]. intros _. apply elem_of_app. right. by apply list_elem_of_singleton.
  - split; [|by intros ->]. intros Hin. destruct (running_off Hv _ _ _ _ Hth park_run Hl2 Hloc Hin).
Qed.

Lemma park_wf t th' : T' !! t = Some th' -> thread_wf C' t th'.
Proof.
  unfold T'. rewrite lookup_insert. assert (length C' = length C) as Hlen by apply length_insert. case_decide as E.
  - intros [= <-]. subst t. destruct Hout as [? Hspl ? ? ? ? ?]. pose proof park_out. constructor; try done.
    + exists c. rewrite Hlen. split; [done|by eapply lookup_lt_Some].
    + by right.
    + intros _ Hn. destruct Hn. apply park_idle. by right.
  - intros Ht. destruct (sv_thread _ _ _ _ Hv _ _ Ht) as [(c0 & ? & ?) ? ? ? ? ? ? Hidle Hpark ?]. constructor; try done.
    + exists c0. by rewrite Hlen.
    + intros Hst [Hic|?]%park_idle; [by apply Hidle|congruence].
    + intros Hst Hn. apply Hpark; [done|]. intros Hic. apply Hn, park_idle. by left.
Qed.

Lemma park_size : Z.of_nat (size T') < 2^32.
Proof. unfold T'. rewrite map_size_insert, Hth. apply Hv. Qed.

Lemma park_inv : sched_inv T' C' Q' [].
Proof.
  assert (c < length C)%nat as Hlt by (by eapply lookup_lt_Some). pose proof park_out as Hno.
  assert (forall t th0, t <> c_curthread k -> T' !! t = Some th0 <-> T !! t = Some th0) as Hkeep
    by (intros; unfold T'; by rewrite lookup_insert_ne).
  assert (T' !! c_curthread k = Some thv) as Hcur by apply lookup_insert_eq.
  constructor; [exact park_wf|..].
  - intros c2 k2. unfold C'. destruct (decide (c2 = c)) as [->|Hne].
    + rewrite list_lookup_insert_eq by done. intros [= <-]. cbn. destruct (sv_cpu _ _ _ _ Hv c k Hc) as (Hsp & _).
      split; [done|]. exists thv. split_and!; [done|apply Hout|]. split; done.
    + rewrite list_lookup_insert_ne by done. intros Hc2. destruct (sv_cpu _ _ _ _ Hv c2 k2 Hc2) as (? & th2 & Ht2 & Hcpu2 & ?).
      split; [done|]. exists th2. split; [|done]. apply Hkeep; [|done]. intros E. rewrite E in Ht2.
      pose proof (cur_cpu Hv _ _ _ Hc Ht2). congruence.
  - intros t th' Ht Hrun. destruct (decide (t = c_curthread k)) as [->|Hne]; [congruence|]. apply Hkeep in Ht; [|done].
    destruct (sv_run _ _ _ _ Hv _ _ Ht Hrun) as (c2 & k2 & ? & Hc2 & <-). exists c2, k2. split_and!; [done| |done].
    unfold C'. rewrite list_lookup_insert_ne; [done|]. intros <-. congruence.
  - intros c2. unfold C', Q'. rewrite length_insert. intros Hc2. destruct (sv_queue _ _ _ _ Hv c2 Hc2).
    rewrite !lookup_insert_is_Some'; auto.
  - intros c2 ts2 t Hq2. destruct (decide (t = c_curthread k)) as [->|Hne].
    + rewrite (park_cur_in _ _ Hq2) by done. split.
      * intros Heq. destruct Hplace as [[Hst Hp]|[[_ [w Hp]]|[_ Hp]]]; simplify_eq. exists thv.
        split_and!; [done|done|apply Hout|apply not_elem_of_nil].
      * intros (th0 & Ht0 & Hst & Hcpu & _). rewrite Hcur in Ht0. simplify_eq.
        rewrite (ow_cpu _ _ Hout) in Hcpu. simplify_eq. by destruct Hplace as [[_ ->]|[[? _]|[? _]]]; [|congruence..].
    + destruct (park_elem _ _ t Hne Hq2) as (ts3 & Hq3 & ->). rewrite (sv_ready _ _ _ _ Hv _ _ _ Hq3).
      split; intros (th0 & Ht0 & Hr); exists th0; (split; [by apply Hkeep|done]).
  - intros c2 ts2 t Hq2. destruct (decide (t = c_curthread k)) as [->|Hne].
    + rewrite (park_cur_in _ _ Hq2) by done. split.
      * intros Heq. destruct Hplace as [[_ Hp]|[[_ [w Hp]]|[Hst Hp]]]; simplify_eq. exists thv. split_and!; [done|done|apply Hout].
      * intros (th0 & Ht0 & Hst & Hcpu). rewrite Hcur in Ht0. simplify_eq.
        rewrite (ow_cpu _ _ Hout) in Hcpu. simplify_eq. by destruct Hplace as [[? _]|[[? _]|[_ ->]]]; [congruence..|].
    + destruct (park_elem _ _ t Hne Hq2) as (ts3 & Hq3 & ->). rewrite (sv_zombie _ _ _ _ Hv _ _ _ Hq3).
      split; intros (th0 & Ht0 & Hr); exists th0; (split; [by apply Hkeep|done]).
  - intros t th' Ht Hs _. destruct (decide (t = c_curthread k)) as [->|Hne].
    + simplify_eq. destruct Hplace as [[? _]|[[_ [w ->]]|[? _]]]; [congruence| |congruence].
      exists w, (ts ++ [c_curthread k]). unfold Q'. rewrite lookup_insert_eq. split; [done|]. apply elem_of_app. right.
      by apply list_elem_of_singleton.
    + apply Hkeep in Ht; [|done]. destruct (sv_sleep _ _ _ _ Hv _ _ Ht Hs) as (w & ts0 & Hw & Hin); [apply not_elem_of_nil|].
      unfold Q'. destruct (decide (wc_threads w = l)) as [E|].
      * exists w, (ts ++ [c_curthread k]). subst l. rewrite lookup_insert_eq. simplify_eq. split; [done|]. apply elem_of_app. by left.
      * exists w, ts0. by rewrite lookup_insert_ne.
  - intros w ts2 t Hw Hin. destruct (decide (t = c_curthread k)) as [->|Hne].
    + apply (park_cur_in _ _ Hw) in Hin; [|done]. subst l. exists thv. split; [done|]. split; [|apply not_elem_of_nil].
      by destruct Hplace as [[_ ?]|[[? _]|[_ ?]]].
    + destruct (park_elem _ _ t Hne Hw) as (ts3 & Hq3 & Heq). apply Heq in Hin.
      destruct (sv_wchan _ _ _ _ Hv _ _ _ Hq3 Hin) as (th0 & ? & ?). exists th0. by rewrite Hkeep.
  - by intros t ?%not_elem_of_nil.
  - apply park_size.
Qed.
End park.

(** ** Yield, sleep and exit *)

(** The current thread leaves: it is queued on [l] and a round follows. *)
Lemma leave_inv s T C Q c k th thv l ts :
  sched_inv T C Q [] -> C !! c = Some k -> c_isidle k = false -> T !! c_curthread k = Some th ->
  Q !! l = Some ts -> place c (t_state thv) l -> out_wf c thv ->
  sys s (<[c_curthread k := raise thv]> T) (<[c := cpu_isidle true (spin_up k)]> C) (<[l := ts ++ [c_curthread k]]> Q)
    {[c_runqueue_lock c := c]} ->
  reaches (switch_round c) s (fun T' C' Q' H' => settled C Q T' C' Q' H' /\
    forall rq, <[l := ts ++ [c_curthread k]]> Q !! c_runqueue c = Some rq -> picks c rq C' Q').
Proof.
  intros Hv Hc Hi Hth Hl Hplace Hout Hs. assert (c < length C)%nat by (by eapply lookup_lt_Some).
  pose proof (park_inv T C Q c k th thv l ts Hv Hc Hi Hth Hl Hplace Hout) as Hinv.
  destruct (round_inv s (<[c_curthread k := thv]> T) (<[c := cpu_isidle true k]> C) (<[l := ts ++ [c_curthread k]]> Q)
    c (cpu_isidle true k) thv) as (a & T' & C' & Q' & H' & Hgo & (Hv' & [Hf1 Hf2] & Hlen & HH) & Hp);
    [|exact Hinv|..].
  - rewrite insert_insert_eq, list_insert_insert_eq. exact Hs.
  - by apply list_lookup_insert_eq.
  - done.
  - apply lookup_insert_eq.
  - exists a, T', C', Q', H'. split; [done|]. rewrite length_insert in Hlen. split; [|done]. split_and!; [done| |done|done].
    assert (forall c0, l <> on_stack c0) as Hns by (destruct Hplace as [[_ ->]|[[_ [w ->]]|[_ ->]]]; done). split.
    + intros c0. rewrite Hf1. by rewrite lookup_insert_ne.
    + intros w. rewrite Hf2, lookup_insert_is_Some'. split; [|by right]. intros [->|?]; [by eexists|done].
Qed.

Lemma leave_settled s T C Q c k th thv l ts :
  sched_inv T C Q [] -> C !! c = Some k -> c_isidle k = false -> T !! c_curthread k = Some th ->
  Q !! l = Some ts -> place c (t_state thv) l -> out_wf c thv ->
  sys s (<[c_curthread k := raise thv]> T) (<[c := cpu_isidle true (spin_up k)]> C) (<[l := ts ++ [c_curthread k]]> Q)
    {[c_runqueue_lock c := c]} ->
  reaches (switch_round c) s (settled C Q).
Proof. intros. eapply reach_weaken; [by eapply leave_inv|by intros ???? []]. Qed.

Lemma queue_length s T C Q c ts : lists_rep (s_lists s) Q -> sched_inv T C Q [] -> Q !! c_runqueue c = Some ts -> zlen ts < 2^32.
Proof.
  intros Hs Hv Hq. eapply zlen_list; [done|done|done|]. intros t Hin.
  apply (sv_ready _ _ _ _ Hv _ _ _ Hq) in Hin as (th & ? & _). by eexists.
Qed.

(** The level of a thread that runs, after [splhigh]. *)
Lemma running_high C t th : thread_wf C t th -> t_state th = S_RUN ->
  t_curspl (at_spl IPL_HIGH th) = IPL_HIGH /\ t_iplhigh_count (at_spl IPL_HIGH th) = 1.
Proof.
  intros Hw Hr. pose proof (tw_run _ _ _ Hw Hr) as Hn. unfold at_spl. cbn. rewrite Hn. unfold IPL_HIGH.
  destruct (tw_spl _ _ _ Hw) as [-> | ->]; done.
Qed.

Lemma off_running T C Q c k th :
  sched_inv T C Q [] -> (forall c, Q !! on_stack c = None) ->
  C !! c = Some k -> T !! c_curthread k = Some th -> t_state th = S_RUN -> off_lists Q (c_curthread k).
Proof.
  intros Hv Hst Hc Hth Hr l ts Hl. eapply running_off; [done..|]. intros c0 ->. by rewrite Hst in Hl.
Qed.

Lemma yield_inv s T C Q c k :
  sys s T C Q ∅ -> sched_inv T C Q [] -> (forall c, Q !! on_stack c = None) -> C !! c = Some k ->
  reaches (thread_yield c) s (fun T' C' Q' H' => settled C Q T' C' Q' H' /\
    (c_isidle k = false -> forall ts, Q !! c_runqueue c = Some ts -> picks c (ts ++ [c_curthread k]) C' Q')).
Proof.
  intros Hs Hv Hst Hc. assert (c < length C)%nat as Hlt by (by eapply lookup_lt_Some).
  destruct (sv_cpu _ _ _ _ Hv c k Hc) as (Hsp & th & Hth & Hcpu & Hrun). pose proof (sv_thread _ _ _ _ Hv _ _ Hth) as Hw.
  assert (settled C Q T C Q ∅) as Hsame by (by split_and!).
  destruct (c_isidle k) eqn:Hi.
  { exists tt, T, C, Q, ∅. split; [|done]. by eapply go_switch_idle; [done..|apply Hw|]. }
  destruct (sv_queue _ _ _ _ Hv c Hlt) as [[ts Hq] _]. assert (t_state th = S_RUN) as Hr by (by apply Hrun).
  destruct (decide (ts = [])) as [->|Hne].
  { exists tt, T, C, Q, ∅. split; [|split; [done|]; intros _ ts' Hq'; simplify_eq; split; [done|by exists k]].
    by eapply go_yield_alone; [done..|apply Hw|apply Hw|done|apply lookup_empty|lia|]. }
  destruct (running_high _ _ _ Hw Hr) as [Hhigh Hone].
  eapply (reach_switch S_READY None None ts _ _ _ _ _ _ _ Hs Hc Hth (tw_stack _ _ _ Hw) Hi (lookup_empty _) Hq);
    [by apply (queue_length s T C Q c); [apply Hs|..]|done| | | |].
  - intros s' Hs'. cbn. eapply (go_make_runnable_locked _ _ ts Hs').
    + by apply list_lookup_insert_eq.
    + apply lookup_insert_eq.
    + done.
    + apply lookup_insert_eq.
    + done.
    + by apply (off_running T C Q c k th).
  - rewrite insert_insert_eq. apply lookup_insert_eq.
  - by apply list_lookup_insert_eq.
  - intros s' Hs'. rewrite !insert_insert_eq, list_insert_insert_eq in Hs'.
    eapply reach_weaken; [eapply (leave_inv s' T C Q c k th (parked S_READY (t_curspl th) (with_state S_READY (at_spl IPL_HIGH th))));
      [done..|by left| |done]|].
    + constructor; try done; [|apply Hw|apply Hw]. intros spl [= <-]. apply Hw.
    + intros T' C' Q' H' [Hset Hp]. split; [done|]. intros _ ts' Hq'. simplify_eq. apply Hp, lookup_insert_eq.
Qed.

Lemma out_exit th name spl : parked S_ZOMBIE spl (with_wchan_name name (raise th)) = raise (parked S_ZOMBIE spl (with_wchan_name name th)).
Proof. done. Qed.

(** [splhigh] in the running thread. *)
Lemma high_wf C t th : thread_wf C t th -> t_state th = S_RUN -> thread_wf C t (at_spl IPL_HIGH (with_proc None th)).
Proof.
  intros Hw Hr. pose proof (tw_run _ _ _ Hw Hr) as Hn. destruct Hw as [? Hspl ? ? ? ? ? ? ? ?].
  constructor; cbn; try done; [by right|]. intros _. rewrite Hn. unfold IPL_HIGH. by destruct Hspl as [-> | ->].
Qed.

(** A change of the current thread that keeps it running there. *)
Lemma running_inv T C Q c k th th' :
  sched_inv T C Q [] -> C !! c = Some k -> T !! c_curthread k = Some th -> t_state th = S_RUN ->
  t_state th' = S_RUN -> t_cpu th' = t_cpu th -> thread_wf C (c_curthread k) th' ->
  sched_inv (<[c_curthread k := th']> T) C Q [].
Proof.
  intros Hv Hc Hth Hr Hr' Hcpu Hw.
  assert (forall st oc t, st <> S_RUN -> (exists th0, <[c_curthread k := th']> T !! t = Some th0 /\ t_state th0 = st /\ oc th0) <->
    (exists th0, T !! t = Some th0 /\ t_state th0 = st /\ oc th0)) as Hsame.
  { intros st oc t Hst. destruct (decide (t = c_curthread k)) as [->|]; [|by rewrite lookup_insert_ne].
    rewrite lookup_insert_eq. split; intros (th0 & ? & ? & _); simplify_eq; congruence. }
  constructor.
  - intros t th0. rewrite lookup_insert. case_decide; [subst; by intros [= <-]|]. apply Hv.
  - intros c2 k2 Hc2. destruct (sv_cpu _ _ _ _ Hv c2 k2 Hc2) as (? & th2 & Ht2 & ? & ?). split; [done|].
    destruct (decide (c_curthread k2 = c_curthread k)) as [E|].
    + exists th'. rewrite E, lookup_insert_eq in *. simplify_eq. split_and!; [done|congruence|]. rewrite Hr'. rewrite Hr in *. done.
    + exists th2. by rewrite lookup_insert_ne.
  - intros t th0. rewrite lookup_insert. case_decide; [subst; intros [= <-] _|apply Hv].
    rewrite Hcpu. by apply (sv_run _ _ _ _ Hv).
  - apply Hv.
  - intros c2 ts t Hq. rewrite (sv_ready _ _ _ _ Hv _ _ _ Hq). symmetry. exact (Hsame S_READY (fun th0 => t_cpu th0 = Some c2 /\ t ∉ []) t ltac:(done)).
  - intros c2 ts t Hq. rewrite (sv_zombie _ _ _ _ Hv _ _ _ Hq). symmetry. exact (Hsame S_ZOMBIE (fun th0 => t_cpu th0 = Some c2) t ltac:(done)).
  - intros t th0. rewrite lookup_insert. case_decide; [subst; intros [= <-] ?; congruence|]. apply Hv.
  - intros w ts t Hw' Hin. apply (Hsame S_SLEEP (fun th0 => t ∉ []) t ltac:(done)). by apply (sv_wchan _ _ _ _ Hv w ts).
  - by intros t ?%not_elem_of_nil.
  - rewrite map_size_insert, Hth. apply Hv.
Qed.

(** [thread_exit] detaches the thread from its process. *)
Lemma go_detach s T C Q H c k th :
  sys s T C Q H -> C !! c = Some k -> T !! c_curthread k = Some th -> spl_ok th ->
  goes (if is_null (t_proc th) then sret tt else detach_thread c (c_curthread k)) s tt (<[c_curthread k := with_proc None th]> T) C Q H.
Proof.
  intros Hs Hc Hth Hok. destruct (t_proc th) eqn:Hp; cbn.
  - unfold detach_thread. go_step; [by eapply go_splx|]. go_step; [eapply go_wr_thread; [done|apply lookup_insert_eq]|].
    go_step; [eapply go_splx; [done|done|apply lookup_insert_eq]|]. rewrite !insert_insert_eq in Hs2.
    eapply go_eq; [by eapply go_ret| |done..]. f_equal.
    change (with_proc None (at_spl (t_curspl th) (at_spl IPL_HIGH th)) = with_proc None th). by rewrite at_spl_back.
  - eapply go_eq; [by eapply go_ret| |done..]. symmetry. apply insert_id. rewrite Hth. destruct th. cbn in Hp. by subst.
Qed.

Lemma exit_inv s T C Q c k :
  sys s T C Q ∅ -> sched_inv T C Q [] -> (forall c, Q !! on_stack c = None) -> C !! c = Some k -> c_isidle k = false ->
  reaches (thread_exit c) s (settled C Q).
Proof.
  intros Hs Hv Hst Hc Hi. assert (c < length C)%nat as Hlt by (by eapply lookup_lt_Some).
  destruct (sv_cpu _ _ _ _ Hv c k Hc) as (Hsp & th & Hth & Hcpu & Hrun). pose proof (sv_thread _ _ _ _ Hv _ _ Hth) as Hw.
  assert (t_state th = S_RUN) as Hr by (by apply Hrun).
  set (th1 := at_spl IPL_HIGH (with_proc None th)).
  assert (thread_wf C (c_curthread k) th1) as Hw1 by (by apply high_wf).
  assert (sched_inv (<[c_curthread k := th1]> T) C Q []) as Hv1 by (by eapply running_inv).
  destruct (sv_queue _ _ _ _ Hv c Hlt) as [[ts Hq] [zs Hz]].
  unfold thread_exit. reach_step; [by eapply go_curthread|]. reach_step; [by eapply go_rd_thread|].
  reach_step; [eapply go_detach; [done..|apply Hw]|]. reach_step; [eapply go_rd_thread; [done|apply lookup_insert_eq]|].
  reach_step; [by eapply go_assert|]. reach_step; [eapply go_checkstack; [done|apply lookup_insert_eq|apply Hw]|].
  reach_step; [eapply go_splx; [done|done|apply lookup_insert_eq]|]. rewrite insert_insert_eq in Hs6.
  pose proof (lookup_insert_eq T (c_curthread k) th1) as Hth1. destruct (running_high _ _ _ Hw1 Hr) as [Hhigh Hone].
  eapply (reach_switch S_ZOMBIE None None ts _ _ _ _ _ _ _ Hs6 Hc Hth1 (tw_stack _ _ _ Hw1) Hi (lookup_empty _) Hq);
    [by apply (queue_length s T C Q c); [apply Hs|..]|done| | | |].
  - intros s' Hs'. cbn. go_step; [eapply go_wr_thread; [done|apply lookup_insert_eq]|].
    eapply go_addtail; [done|done|by apply (off_running T C Q c k th)|rewrite lookup_insert_eq; by eexists].
  - apply lookup_insert_eq.
  - by apply list_lookup_insert_eq.
  - intros s' Hs'. rewrite !insert_insert_eq, list_insert_insert_eq in Hs'.
    eapply (leave_settled s' T C Q c k th (parked S_ZOMBIE (t_curspl th1) (with_wchan_name (Some "ZOMBIE"%string) (at_spl IPL_HIGH th1))));
      [done..|by right; right| |done].
    constructor; try done; [|apply Hw1|apply Hw1]. intros spl [= <-]. apply Hw1.
Qed.

(** [c] holds the lock [lk] and no other: [T] and [C] are the threads and CPUs
    without it. *)
Definition locked (s : tsys) (T : tmap) (C : list cpu) (Q : qmap) (c : nat) (k : cpu) (th : kthread) (lk : slock) : Prop :=
  sys s (<[c_curthread k := raise th]> T) (<[c := spin_up k]> C) Q {[lk := c]}.

(** The level of a thread that goes to sleep: [spinlock_release] of the lock it
    came with makes up for one of the two it holds. *)
Lemma sleep_level th name spl :
  parked S_SLEEP spl (lower (with_wchan_name name (raise (at_spl IPL_HIGH (raise th))))) =
  raise (parked S_SLEEP spl (with_wchan_name name (at_spl IPL_HIGH th))).
Proof. destruct th. unfold parked, lower, raise, at_spl, with_spl. cbn. unfold with_state, with_context, with_wchan_name. cbn. f_equal. lia. Qed.

Lemma sleep_inv s T C Q c k th w name ts :
  locked s T C Q c k th (wc_lock w) -> sched_inv T C Q [] -> (forall c, Q !! on_stack c = None) ->
  C !! c = Some k -> T !! c_curthread k = Some th -> c_isidle k = false -> Q !! wc_threads w = Some ts ->
  reaches (wchan_sleep c (w, name) (wc_lock w)) s (settled C Q).
Proof.
  intros Hs Hv Hst Hc Hth Hi Hw. assert (c < length C)%nat as Hlt by (by eapply lookup_lt_Some).
  destruct (sv_cpu _ _ _ _ Hv c k Hc) as (Hsp & th' & Hth' & Hcpu & Hrun). simplify_eq.
  pose proof (sv_thread _ _ _ _ Hv _ _ Hth) as Hwf. assert (t_state th = S_RUN) as Hr by (by apply Hrun).
  pose proof (list_lookup_insert_eq C c (spin_up k) Hlt) as Hc'. pose proof (lookup_insert_eq T (c_curthread k) (raise th)) as Hth'.
  destruct (sv_queue _ _ _ _ Hv c Hlt) as [[rq Hq] _]. destruct (running_high _ _ _ Hwf Hr) as [Hhigh Hone].
  assert (off_lists Q (c_curthread k)) as Hoff by (by eapply off_running).
  assert (({[wc_lock w := c]} : hmap) !! c_runqueue_lock c = None) as Hfree by (by apply lookup_singleton_ne).
  unfold wchan_sleep. reach_step; [by eapply go_curthread|]. reach_step; [by eapply go_rd_thread|].
  reach_step; [eapply go_assert; [done|]; cbn; by rewrite (tw_interrupt _ _ _ Hwf)|].
  reach_step; [unfold spinlock_do_i_hold; go_step; [by eapply go_get|by eapply go_ret]|].
  reach_step; [eapply go_assert; [done|]; rewrite (sy_holder _ _ _ _ _ Hs2), lookup_singleton_eq; by apply bool_decide_eq_true|].
  reach_step; [by eapply go_rd_cpu|]. reach_step; [eapply go_assert; [done|]; cbn; by rewrite Hsp|].
  eapply (reach_switch S_SLEEP _ _ rq _ _ _ _ _ _ _ Hs6 Hc' Hth' (tw_stack _ _ _ Hwf) Hi Hfree Hq);
    [by apply (queue_length s T C Q c); [apply Hs|..]|done| | | |].
  - intros s' Hs'. cbn. go_step; [by eapply go_deref|]. go_step; [by eapply go_deref|].
    go_step; [eapply go_wr_thread; [done|apply lookup_insert_eq]|]. rewrite !insert_insert_eq, list_insert_insert_eq in Hs9.
    go_step; [eapply go_addtail; [done|done|done|rewrite lookup_insert_eq; by eexists]|].
    eapply (go_release (k := spin_up (spin_up k))); [done|by apply list_lookup_insert_eq|apply lookup_insert_eq| |cbn; lia].
    by rewrite lookup_insert_ne, lookup_singleton_eq.
  - apply lookup_insert_eq.
  - apply list_lookup_insert_eq. by rewrite length_insert.
  - intros s' Hs'. rewrite !insert_insert_eq, !list_insert_insert_eq in Hs'.
    eapply (leave_settled s' T C Q c k th (parked S_SLEEP (t_curspl th) (with_wchan_name (Some name) (at_spl IPL_HIGH th))) (wc_threads w) ts);
      [done..|right; left; split; [done|by eexists]| |].
    + constructor; try done; [|apply Hwf|apply Hwf]. intros spl [= <-]. apply Hwf.
    + rewrite delete_insert_ne, delete_singleton_eq, spin_down_up in Hs' by done. rewrite insert_empty in Hs'.
      rewrite <- sleep_level. exact Hs'.
Qed.
