(* ===== verification/SchedWake.v ===== *)
(** * Waking threads up keeps the invariant of the thread system

    [wchan_wakeone] and [wchan_wakeall] take threads off a wait channel and put
    them on the run queues of their CPUs.  In between they are in transit: on
    no list, or on the list [wchan_wakeall] keeps on its stack. *)

From S2P Require Import Prelude State Monad StopState Threadlist Sched SchedSpec SchedInv.

#[local] Open Scope Z_scope.

(** ** What the invariant does not depend on *)

Lemma idle_cur_same C C' t : same_cpus C C' -> idle_cur C t <-> idle_cur C' t.
Proof.
  assert (forall C C', same_cpus C C' -> idle_cur C t -> idle_cur C' t) as Hdir.
  { intros D D' HD (c & k & Hc & Hi & <-). destruct (same_cpus_lookup _ _ _ _ HD Hc) as (k' & Hc' & Hk & Hi' & _).
    exists c, k'. by rewrite Hi', Hk. }
  intros HC. split; apply Hdir; [done|by symmetry].
Qed.

Lemma thread_wf_same C C' t th : same_cpus C C' -> thread_wf C t th -> thread_wf C' t th.
Proof.
  intros HC [(c & Hc & Hlt) ? ? ? ? ? ? Hi Hp ?]. pose proof (idle_cur_same C C' t HC) as He. constructor; try done.
  - exists c. split; [done|]. by rewrite <- (Forall2_length _ _ _ HC).
  - intros Hst Hc'. by apply Hi, He.
  - intros Hst Hn. apply Hp; [done|]. by rewrite He.
Qed.

(** Pending inter-processor interrupts, the lists on the stacks, and the order
    of the threads in transit. *)
Lemma sched_inv_same T C C' Q Q' X X' :
  sched_inv T C Q X -> same_cpus C C' -> (forall l, (forall c, l <> on_stack c) -> Q' !! l = Q !! l) ->
  (forall t, t ∈ X <-> t ∈ X') -> sched_inv T C' Q' X'.
Proof.
  intros Hv HC HQ HX. pose proof (Forall2_length _ _ _ HC) as Hlen. constructor.
  - intros t th Ht. eapply thread_wf_same; [done|]. by apply Hv.
  - intros c k' Hc. destruct (same_cpus_lookup C' C c k' ltac:(by symmetry) Hc) as (k & Hck & Hcur & Hi & Hsp).
    rewrite <- Hcur, <- Hi, <- Hsp. by apply Hv.
  - intros t th Ht Hr. destruct (sv_run _ _ _ _ Hv t th Ht Hr) as (c & k & Hcpu & Hc & <-).
    destruct (same_cpus_lookup _ _ _ _ HC Hc) as (k' & Hc' & Hcur & _). by exists c, k'.
  - intros c. rewrite <- Hlen, !HQ by done. apply Hv.
  - intros c ts t. rewrite HQ by done. intros Hq. rewrite (sv_ready _ _ _ _ Hv _ _ _ Hq). by setoid_rewrite HX.
  - intros c ts t. rewrite HQ by done. apply Hv.
  - intros t th Ht Hst Hx. destruct (sv_sleep _ _ _ _ Hv t th Ht Hst) as (w & ts & Hw & Hin); [by rewrite HX|].
    exists w, ts. by rewrite HQ.
  - intros w ts t. rewrite HQ by done. setoid_rewrite <- HX. apply Hv.
  - intros t. rewrite <- HX. apply Hv.
  - apply Hv.
Qed.

(** ** A thread leaves a wait channel and joins a run queue *)

Section wake.
Context {T : tmap} {C : list cpu} {Q : qmap} {X : list tid}.
Hypothesis Hv : sched_inv T C Q X.

Lemma take_inv s w t ts :
  lists_rep (s_lists s) Q -> Q !! wc_threads w = Some (t :: ts) ->
  sched_inv T C (<[wc_threads w := ts]> Q) (t :: X) /\ off_lists (<[wc_threads w := ts]> Q) t /\ t ∉ X.
Proof.
  intros Hr Hw. pose proof (lr_nodup _ _ Hr _ _ Hw) as [Hnt Hnd]%NoDup_cons.
  destruct (sv_wchan _ _ _ _ Hv _ _ t Hw ltac:(by left)) as (th & Ht & Hst & Hx).
  split_and!; [constructor; try apply Hv|..].
  - intros c. rewrite !lookup_insert_ne by done. apply Hv.
  - intros c ts' t'. rewrite lookup_insert_ne by done. intros Hq. rewrite (sv_ready _ _ _ _ Hv _ _ _ Hq).
    split; intros (th' & Ht' & Hst' & ? & Hx'); exists th'; split_and!; try done; [|by apply not_elem_of_cons in Hx' as [_ ?]].
    apply not_elem_of_cons. split; [|done]. intros ->. congruence.
  - intros c ts' t'. rewrite lookup_insert_ne by done. apply Hv.
  - intros t' th' Ht' Hst' [Hne Hx']%not_elem_of_cons. destruct (sv_sleep _ _ _ _ Hv t' th' Ht' Hst' Hx') as (w' & ts' & Hw' & Hin).
    destruct (decide (w' = w)) as [->|]; [|exists w', ts'; by rewrite lookup_insert_ne by congruence].
    exists w, ts. rewrite lookup_insert_eq. simplify_eq. split; [done|]. by apply elem_of_cons in Hin as [?|?].
  - intros w' ts' t' Hw' Hin.
    assert (exists ts0, Q !! wc_threads w' = Some ts0 /\ t' ∈ ts0 /\ t' <> t) as (ts0 & Hw0 & Hin0 & Hne).
    { rewrite lookup_insert in Hw'. case_decide as E; simplify_eq.
      - exists (t :: ts'). split; [done|]. split; [by right|]. by intros ->.
      - exists ts'. split_and!; [done..|]. intros ->. pose proof (lr_apart _ _ Hr _ _ _ _ t Hw Hw' ltac:(by left) Hin). congruence. }
    destruct (sv_wchan _ _ _ _ Hv _ _ _ Hw0 Hin0) as (th' & ? & ? & ?). exists th'. split_and!; [done..|]. by apply not_elem_of_cons.
  - intros t' [->|Hin]%elem_of_cons; [exists th; auto|by apply Hv].
  - intros l ts' Hl Hin. rewrite lookup_insert in Hl. case_decide; simplify_eq; [done|].
    pose proof (lr_apart _ _ Hr _ _ _ _ t Hw Hl ltac:(by left) Hin). congruence.
  - done.
Qed.
End wake.

Section enqueue.
Context {T : tmap} {C : list cpu} {Q : qmap} {X : list tid} (t : tid) (th : kthread) (c : nat) (ts : list tid).
Hypothesis Hv : sched_inv T C Q (t :: X).
Hypothesis Ht : T !! t = Some th.
Hypothesis Hcpu : t_cpu th = Some c.
Hypothesis Hq : Q !! c_runqueue c = Some ts.
Hypothesis Hx : t ∉ X.

Let T' := <[t := with_state S_READY th]> T.
Let Q' := <[c_runqueue c := ts ++ [t]]> Q.

Lemma enqueue_out : t_state th = S_READY \/ t_state th = S_SLEEP.
Proof. destruct (sv_transit _ _ _ _ Hv t ltac:(by left)) as (th' & ? & ?). by simplify_eq. Qed.

(** The other threads. *)
Lemma enqueue_keep t' : t' <> t -> T' !! t' = T !! t'.
Proof. intros. unfold T'. by rewrite lookup_insert_ne. Qed.

Lemma enqueue_wf : thread_wf C t (with_state S_READY th).
Proof.
  pose proof enqueue_out as Ho. assert (t_state th <> S_RUN) as Hn by (by destruct Ho as [-> | ->]).
  destruct (sv_thread _ _ _ _ Hv t th Ht). constructor; cbn; eauto; try done.
Qed.

Lemma enqueue_inv : sched_inv T' C Q' X.
Proof.
  pose proof enqueue_out as Ho. pose proof (lookup_insert_eq T t (with_state S_READY th)) as Ht'. fold T' in Ht'.
  assert (forall t', t' <> t -> (t' ∈ t :: X <-> t' ∈ X)) as HX by (intros; rewrite elem_of_cons; tauto).
  constructor.
  - intros t' th'. destruct (decide (t' = t)) as [->|]; [rewrite Ht'; intros [= <-]; apply enqueue_wf|].
    rewrite enqueue_keep by done. apply Hv.
  - intros c' k Hk. destruct (sv_cpu _ _ _ _ Hv c' k Hk) as (? & th' & Hth' & Hc' & Hrun). split; [done|].
    destruct (decide (c_curthread k = t)) as [E|]; [|exists th'; by rewrite enqueue_keep].
    exists (with_state S_READY th). rewrite E in *. simplify_eq. split_and!; [done..|]. rewrite <- Hrun.
    by destruct Ho as [-> | ->].
  - intros t' th'. destruct (decide (t' = t)) as [->|]; [rewrite Ht'; by intros [= <-]|]. rewrite enqueue_keep by done. apply Hv.
  - intros c' Hc'. destruct (sv_queue _ _ _ _ Hv c' Hc'). unfold Q'. rewrite !lookup_insert_is_Some'; auto.
  - intros c' ts' t' Hq'. unfold Q' in Hq'. destruct (decide (t' = t)) as [->|Hne].
    + rewrite lookup_insert in Hq'. case_decide as E; simplify_eq.
      * split; [|intros _; apply elem_of_app; right; by apply list_elem_of_singleton].
        intros _. by exists (with_state S_READY th).
      * split; [|intros (th' & E1 & _ & E2 & _); rewrite Ht' in E1; simplify_eq; cbn in E2; congruence].
        intros Hin. apply (sv_ready _ _ _ _ Hv _ _ _ Hq') in Hin as (_ & _ & _ & _ & []%not_elem_of_cons). done.
    + rewrite enqueue_keep by done. setoid_rewrite <- (HX t' Hne). rewrite lookup_insert in Hq'. case_decide as E; simplify_eq.
      * rewrite elem_of_app, list_elem_of_singleton, <- (sv_ready _ _ _ _ Hv _ _ _ Hq). tauto.
      * by apply Hv.
  - intros c' ts' t'. unfold Q'. rewrite lookup_insert_ne by done. intros Hz. rewrite (sv_zombie _ _ _ _ Hv _ _ _ Hz).
    destruct (decide (t' = t)) as [->|]; [|by rewrite enqueue_keep].
    rewrite Ht'. split; intros (th' & ? & Hst & _); simplify_eq. destruct Ho; congruence.
  - intros t' th'. destruct (decide (t' = t)) as [->|]; [rewrite Ht'; by intros [= <-]|]. rewrite enqueue_keep by done.
    intros Ht1 Hst Hn. destruct (sv_sleep _ _ _ _ Hv t' th' Ht1 Hst) as (w & ts' & Hw & Hin); [by rewrite HX|].
    exists w, ts'. unfold Q'. by rewrite lookup_insert_ne.
  - intros w ts' t'. unfold Q'. rewrite lookup_insert_ne by done. intros Hw Hin.
    destruct (sv_wchan _ _ _ _ Hv _ _ _ Hw Hin) as (th' & Hth' & Hst & [Hne Hn]%not_elem_of_cons). exists th'. by rewrite enqueue_keep.
  - intros t' Hin. rewrite enqueue_keep by (by intros ->). apply Hv. by right.
  - unfold T'. rewrite map_size_insert, Ht. apply Hv.
Qed.
End enqueue.

(** ** Waking up, with the lock of the wait channel held *)

(** [s] holds the maps, but for the lock [lk], which [c] holds. *)
Definition held (s : tsys) (T : tmap) (C : list cpu) (Q : qmap) (c : nat) (lk : slock) : Prop :=
  exists k th, C !! c = Some k /\ T !! c_curthread k = Some th /\ locked s T C Q c k th lk.

(** [m] returns [a] and leaves these maps, with the lock still held. *)
Definition keeps {A} (m : SM tsys A) (s : tsys) (a : A) T C Q c lk : Prop := exists s', m s = inr (a, s') /\ held s' T C Q c lk.

(** The two updates of the threads, and of the CPUs, commute. *)
Lemma raise_ready (T : tmap) t cur th thc :
  T !! t = Some th -> T !! cur = Some thc -> exists thc', <[t := with_state S_READY th]> T !! cur = Some thc' /\
  <[t := with_state S_READY (if decide (t = cur) then raise th else th)]> (<[cur := raise thc]> T) =
  <[cur := raise thc']> (<[t := with_state S_READY th]> T).
Proof.
  intros Ht Hc. case_decide as E.
  - subst cur. exists (with_state S_READY th). rewrite lookup_insert_eq, !insert_insert_eq. done.
  - exists thc. rewrite lookup_insert_ne by done. split; [done|]. by rewrite insert_insert_ne.
Qed.

Lemma spin_unidled (C : list cpu) c tc k kt :
  C !! c = Some k -> C !! tc = Some kt -> exists k', <[tc := unidled c tc kt]> C !! c = Some k' /\ c_curthread k' = c_curthread k /\
  <[tc := unidled c tc (if decide (tc = c) then spin_up kt else kt)]> (<[c := spin_up k]> C) =
  <[c := spin_up k']> (<[tc := unidled c tc kt]> C).
Proof.
  intros Hc Ht. assert (c < length C)%nat by (by eapply lookup_lt_Some). case_decide as E.
  - subst tc. exists kt. simplify_eq. assert (forall k, unidled c c k = k) as Hu.
    { intros k'. unfold unidled. by rewrite (bool_decide_eq_true_2 (c = c)), andb_false_r. }
    rewrite !Hu, list_lookup_insert_eq, !list_insert_insert_eq by done. done.
  - exists k. rewrite list_lookup_insert_ne by done. split_and!; [done..|]. by rewrite list_insert_insert_ne.
Qed.

Section held.
Context {s : tsys} {T : tmap} {C : list cpu} {Q : qmap} {c : nat} {lk : slock}.
Hypothesis Hh : held s T C Q c lk.

Lemma held_lists : lists_rep (s_lists s) Q.
Proof. destruct Hh as (k & th & _ & _ & Hs). apply Hs. Qed.

Lemma keep_bind {A B} (m : SM tsys A) (f : A -> SM tsys B) a b T1 C1 Q1 T2 C2 Q2 :
  keeps m s a T1 C1 Q1 c lk -> (forall s', held s' T1 C1 Q1 c lk -> keeps (f a) s' b T2 C2 Q2 c lk) -> keeps (sbind m f) s b T2 C2 Q2 c lk.
Proof.
  intros (s1 & Hm & Hs1) Hf. destruct (Hf s1 Hs1) as (s2 & Hf2 & Hs2). exists s2. split; [|done].
  by rewrite (srun_call _ _ _ _ _ Hm).
Qed.

Lemma keep_ret {A} (a : A) : keeps (sret a) s a T C Q c lk.
Proof. by exists s. Qed.

(** An operation on lists. *)
Lemma keep_op {A} (m : SM tsys A) a Q' :
  (forall T1 C1 H1, sys s T1 C1 Q H1 -> (forall t, is_Some (T !! t) -> is_Some (T1 !! t)) -> goes m s a T1 C1 Q' H1) ->
  keeps m s a T C Q' c lk.
Proof.
  intros Hm. destruct Hh as (k & th & Hc & Hth & Hs). destruct (Hm _ _ _ Hs) as (s' & Hr & Hs').
  { intros t Ht. rewrite lookup_insert_is_Some'. by right. }
  exists s'. split; [done|]. by exists k, th.
Qed.

Lemma keep_remhead l ts : Q !! l = Some ts -> keeps (on_lists (threadlist_remhead l)) s (head ts) T C (<[l := tail ts]> Q) c lk.
Proof. intros Hl. apply keep_op. intros T1 C1 H1 Hs _. exact (go_remhead Hs _ _ Hl). Qed.

Lemma keep_addtail l ts t : Q !! l = Some ts -> off_lists Q t -> is_Some (T !! t) ->
  keeps (on_lists (threadlist_addtail l t)) s tt T C (<[l := ts ++ [t]]> Q) c lk.
Proof. intros Hl Hoff Ht. apply keep_op. intros T1 C1 H1 Hs Hk. apply (go_addtail Hs); [done|done|by apply Hk]. Qed.

(** The assertion that the caller holds the lock. *)
Lemma keep_hold : keeps (spinlock_do_i_hold c lk) s true T C Q c lk.
Proof.
  destruct Hh as (k & th & _ & _ & Hs). exists s. split; [|done]. unfold spinlock_do_i_hold.
  rewrite srun_get, (sy_holder _ _ _ _ _ Hs), lookup_singleton_eq, bool_decide_eq_true_2; done.
Qed.

Lemma keep_runnable t th tc ts :
  lk <> c_runqueue_lock tc -> lk <> c_ipi_lock tc -> T !! t = Some th -> t_cpu th = Some tc -> (tc < length C)%nat ->
  (forall k, C !! c = Some k -> c_spinlocks k = 0) ->
  Q !! c_runqueue tc = Some ts -> off_lists Q t ->
  exists C', same_cpus C C' /\
    keeps (thread_make_runnable c t false) s tt (<[t := with_state S_READY th]> T) C' (<[c_runqueue tc := ts ++ [t]]> Q) c lk.
Proof.
  intros Hlk1 Hlk2 Ht Hcpu [kt Hkt]%lookup_lt_is_Some Hsp Hq Hoff. destruct Hh as (k & thc & Hc & Hthc & Hs).
  assert (c < length C)%nat as Hlt by (by eapply lookup_lt_Some). pose proof (Hsp k Hc) as Hk0.
  set (T1 := <[c_curthread k := raise thc]> T). set (C1 := <[c := spin_up k]> C).
  assert (T1 !! c_curthread (spin_up k) = Some (raise thc)) as Hcur by apply lookup_insert_eq.
  assert (C1 !! c = Some (spin_up k)) as Hc1 by (by apply list_lookup_insert_eq).
  exists (<[tc := unidled c tc kt]> C). split; [eapply same_cpus_insert; [done|apply same_cpu_unidled]|].
  set (th1 := if decide (t = c_curthread k) then raise th else th).
  set (kt1 := if decide (tc = c) then spin_up kt else kt).
  assert (T1 !! t = Some th1) as Ht1.
  { unfold T1, th1. rewrite lookup_insert. case_decide as E; [subst t|]; [rewrite decide_True by done; congruence|by rewrite decide_False]. }
  assert (C1 !! tc = Some kt1) as Hkt1.
  { unfold C1, kt1. case_decide as E; [subst tc; rewrite list_lookup_insert_eq by done; congruence|by rewrite list_lookup_insert_ne]. }
  assert (t_cpu th1 = Some tc) as Hcpu1 by (unfold th1; by case_decide).
  destruct (go_make_runnable t th1 tc kt1 ts Hs Hc1 Hcur Ht1 Hcpu1 Hkt1) as (s' & Hrun & Hs');
    [by apply lookup_singleton_ne..|cbn; lia|done|done|].
  exists s'. split; [done|]. destruct (raise_ready T t (c_curthread k) th thc Ht Hthc) as (thc' & Hthc' & HT).
  destruct (spin_unidled C c tc k kt Hc Hkt) as (k' & Hk' & Hcur' & HC).
  exists k', thc'. rewrite Hcur'. split_and!; [done..|]. unfold locked. rewrite Hcur', <- HT, <- HC. exact Hs'.
Qed.

Lemma release_held : (forall k, C !! c = Some k -> c_spinlocks k = 0) ->
  exists s', spinlock_release c lk s = inr (tt, s') /\ sys s' T C Q ∅.
Proof.
  intros Hsp. destruct Hh as (k & th & Hc & Hth & Hs). pose proof (Hsp k Hc). unfold locked in Hs. rewrite <- insert_empty in Hs.
  assert (c < length C)%nat by (by eapply lookup_lt_Some).
  edestruct (go_unlock (k := k) (th := th) lk Hs) as (s' & Hr & Hs');
    [by apply list_lookup_insert_eq|apply lookup_insert_eq|done|lia|].
  exists s'. split; [done|]. rewrite insert_insert_eq, (insert_id T), list_insert_insert_eq, (list_insert_id C) in Hs' by done. done.
Qed.
End held.

Lemma acquire_locked {s T C Q c k th} lk :
  sys s T C Q ∅ -> C !! c = Some k -> T !! c_curthread k = Some th ->
  exists s', spinlock_acquire c lk s = inr (tt, s') /\ locked s' T C Q c k th lk.
Proof.
  intros Hs Hc Hth. destruct (go_acquire lk Hs Hc Hth (lookup_empty _)) as (s' & Hr & Hs').
  exists s'. split; [done|]. unfold locked. by rewrite <- insert_empty.
Qed.

(** ** The operations *)

(** The lock is held and [X] is in transit; only run queues differ from [Q]. *)
Definition woken (C : list cpu) (Q : qmap) (X : list tid) (c : nat) (w : positive) (s : tsys) : Prop :=
  exists T' C' Q', held s T' C' Q' c (wc_lock w) /\ sched_inv T' C' Q' X /\ length C' = length C /\
    forall l, (forall c, l <> c_runqueue c) -> Q' !! l = Q !! l.

Lemma runnable_woken s T C Q X c w t :
  held s T C Q c (wc_lock w) -> sched_inv T C Q (t :: X) -> t ∉ X -> off_lists Q t ->
  exists s', thread_make_runnable c t false s = inr (tt, s') /\ woken C Q X c w s'.
Proof.
  intros Hh Hv Hx Hoff. destruct (sv_transit _ _ _ _ Hv t ltac:(by left)) as (th & Ht & _).
  destruct (sv_thread _ _ _ _ Hv t th Ht) as [(tc & Hcpu & Hlt) _ _ _ _ _ _ _ _ _].
  destruct (sv_queue _ _ _ _ Hv tc Hlt) as [[ts Hq] _].
  destruct (keep_runnable Hh t th tc ts) as (C' & HC & s' & Hr & Hh'); [done|done|done|done|done| |done|done|].
  { intros k Hk. by destruct (sv_cpu _ _ _ _ Hv c k Hk). }
  exists s'. split; [done|]. eexists _, C', _. split; [done|]. split_and!.
  - eapply sched_inv_same; [by eapply (enqueue_inv t th tc ts)|done|done|done].
  - symmetry. by eapply Forall2_length.
  - intros l Hl. by rewrite lookup_insert_ne.
Qed.

Lemma wakeone_woken s T C Q c w ts :
  held s T C Q c (wc_lock w) -> sched_inv T C Q [] -> Q !! wc_threads w = Some ts ->
  exists s', wchan_wakeone c w (wc_lock w) s = inr (tt, s') /\ woken C (<[wc_threads w := tail ts]> Q) [] c w s'.
Proof.
  intros Hh Hv Hw. unfold wchan_wakeone. destruct (keep_hold Hh) as (s1 & Hr1 & Hh1). rewrite (srun_call _ _ _ _ _ Hr1).
  rewrite srun_assert by done.
  destruct (keep_remhead Hh1 _ _ Hw) as (s2 & Hr2 & Hh2).
  rewrite (srun_call _ _ _ _ _ Hr2). destruct ts as [|t ts]; cbn [head tail] in *.
  - exists s2. split; [done|]. rewrite insert_id in * by done. by exists T, C, Q.
  - destruct (take_inv Hv s1 w t ts) as (Hv' & Hoff & Hx); [by eapply held_lists|done|].
    by eapply runnable_woken.
Qed.

Lemma head_off s Q l t ts : lists_rep (s_lists s) Q -> Q !! l = Some (t :: ts) -> off_lists (<[l := ts]> Q) t /\ t ∉ ts.
Proof.
  intros Hr Hl. pose proof (lr_nodup _ _ Hr _ _ Hl) as [Hnt _]%NoDup_cons. split; [|done].
  intros l' ts' Hl' Hin. rewrite lookup_insert in Hl'. case_decide; simplify_eq; [done|].
  pose proof (lr_apart _ _ Hr _ _ _ _ t Hl Hl' ltac:(by left) Hin). congruence.
Qed.

(** The first loop of [wchan_wakeall] moves the sleepers to its own list. *)
Lemma drain_sleepers T C c w ts : forall fuel s Q xs,
  held s T C Q c (wc_lock w) -> sched_inv T C Q xs -> Q !! wc_threads w = Some ts -> Q !! on_stack c = Some xs -> (length ts <= fuel)%nat ->
  exists s', drain fuel (wc_threads w) (fun t => on_lists (threadlist_addtail (on_stack c) t)) s = inr (tt, s') /\
    held s' T C (<[on_stack c := xs ++ ts]> (<[wc_threads w := []]> Q)) c (wc_lock w) /\
    sched_inv T C (<[on_stack c := xs ++ ts]> (<[wc_threads w := []]> Q)) (xs ++ ts).
Proof.
  induction ts as [|t ts IH]; intros fuel s Q xs Hh Hv Hw Hst Hf;
    destruct (keep_remhead Hh _ _ Hw) as (s1 & Hr1 & Hh1); cbn [head tail] in *.
  - exists s1. rewrite (insert_id Q) in * by done. rewrite app_nil_r, (insert_id Q) by done. split; [|done].
    destruct fuel; cbn [drain]; by rewrite (srun_call _ _ _ _ _ Hr1).
  - destruct fuel as [|fuel]; [cbn in Hf; lia|]. cbn [drain]. rewrite (srun_call _ _ _ _ _ Hr1).
    destruct (take_inv Hv s w t ts) as (Hv' & Hoff & Hx); [by eapply held_lists|done|].
    destruct (sv_transit _ _ _ _ Hv' t ltac:(by left)) as (th & Ht & _).
    destruct (keep_addtail Hh1 (on_stack c) xs t) as (s2 & Hr2 & Hh2); [by rewrite lookup_insert_ne|done|by eexists|].
    rewrite (srun_call _ _ _ _ _ Hr2).
    destruct (IH fuel s2 (<[on_stack c := xs ++ [t]]> (<[wc_threads w := ts]> Q)) (xs ++ [t])) as (s' & Hr & Hh' & Hv2);
      [done| |by rewrite lookup_insert_ne, lookup_insert_eq|by rewrite lookup_insert_eq|cbn in Hf; lia|].
    + eapply sched_inv_same; [exact Hv'|done| |].
      * intros l Hl. by rewrite lookup_insert_ne.
      * intros u. rewrite elem_of_cons, elem_of_app, list_elem_of_singleton. tauto.
    + exists s'. split; [done|]. rewrite (insert_insert_ne _ (wc_threads w)), insert_insert_eq in * by done.
      rewrite insert_insert_eq in *. by rewrite <- app_assoc in *.
Qed.

(** The second one makes them runnable. *)
Lemma drain_woken c w xs : forall fuel s T C Q,
  held s T C Q c (wc_lock w) -> sched_inv T C Q xs -> Q !! on_stack c = Some xs -> (length xs <= fuel)%nat ->
  exists s', drain fuel (on_stack c) (fun t => thread_make_runnable c t false) s = inr (tt, s') /\
    woken C (<[on_stack c := []]> Q) [] c w s'.
Proof.
  induction xs as [|t xs IH]; intros fuel s T C Q Hh Hv Hst Hf;
    destruct (keep_remhead Hh _ _ Hst) as (s1 & Hr1 & Hh1); cbn [head tail] in *.
  - exists s1. rewrite insert_id in * by done. split; [|by exists T, C, Q].
    destruct fuel; cbn [drain]; by rewrite (srun_call _ _ _ _ _ Hr1).
  - destruct fuel as [|fuel]; [cbn in Hf; lia|]. cbn [drain]. rewrite (srun_call _ _ _ _ _ Hr1).
    destruct (head_off s Q (on_stack c) t xs) as [Hoff Hx]; [by eapply held_lists|done|].
    destruct (runnable_woken s1 T C (<[on_stack c := xs]> Q) xs c w t) as (s2 & Hr2 & T2 & C2 & Q2 & Hh2 & Hv2 & Hlen & HQ);
      [done| |done|done|].
    + eapply sched_inv_same; [exact Hv|done| |done]. intros l Hl. by rewrite lookup_insert_ne.
    + rewrite (srun_call _ _ _ _ _ Hr2). destruct (IH fuel s2 T2 C2 Q2) as (s' & Hr & T' & C' & Q' & Hh' & Hv' & Hlen' & HQ');
        [done..|by rewrite HQ, lookup_insert_eq|cbn in Hf; lia|].
      exists s'. split; [done|]. exists T', C', Q'. split_and!; [done|done|by rewrite Hlen'|].
      intros l Hl. rewrite HQ', !lookup_insert by done. case_decide; [done|]. rewrite HQ by done. by rewrite lookup_insert_ne.
Qed.

Lemma wakeall_woken s T C Q c w ts :
  held s T C Q c (wc_lock w) -> sched_inv T C Q [] -> Q !! wc_threads w = Some ts -> Q !! on_stack c = None ->
  exists s', wchan_wakeall c w (wc_lock w) s = inr (tt, s') /\ woken C (<[wc_threads w := []]> Q) [] c w s'.
Proof.
  intros Hh Hv Hw Hst. unfold wchan_wakeall. destruct (keep_hold Hh) as (s1 & Hr1 & Hh1). rewrite (srun_call _ _ _ _ _ Hr1).
  rewrite srun_assert, srun_get by done.
  assert (length ts <= size (s_threads s1))%nat as Hfuel.
  { destruct Hh1 as (k & th & _ & Hth & Hs1). rewrite (sy_threads _ _ _ _ _ Hs1), map_size_insert, Hth.
    eapply (length_list s1 _ ts); [apply Hs1|done|]. intros t Hin. destruct (sv_wchan _ _ _ _ Hv _ _ _ Hw Hin) as (th' & ? & _). by eexists. }
  destruct (keep_op Hh1 (on_lists (threadlist_init (on_stack c))) tt (<[on_stack c := []]> Q)) as (s2 & Hr2 & Hh2).
  { intros T1 C1 H1 Hs _. by apply (go_list_init Hs). }
  rewrite (srun_call _ _ _ _ _ Hr2).
  destruct (drain_sleepers T C c w ts (size (s_threads s1)) s2 (<[on_stack c := []]> Q) []) as (s3 & Hr3 & Hh3 & Hv3);
    [done| |by rewrite lookup_insert_ne|apply lookup_insert_eq|done|].
  { eapply sched_inv_same; [exact Hv|done| |done]. intros l Hl. by rewrite lookup_insert_ne. }
  rewrite (srun_call _ _ _ _ _ Hr3). cbn [app] in *.
  destruct (drain_woken c w ts (size (s_threads s1)) s3 _ _ _ Hh3 Hv3) as (s4 & Hr4 & T4 & C4 & Q4 & Hh4 & Hv4 & Hlen & HQ);
    [apply lookup_insert_eq|done|]. rewrite (srun_call _ _ _ _ _ Hr4).
  destruct (keep_op Hh4 (on_lists (threadlist_cleanup (on_stack c))) tt (delete (on_stack c) Q4)) as (s5 & Hr5 & Hh5).
  { intros T1 C1 H1 Hs _. apply (go_list_cleanup Hs). rewrite HQ by done. apply lookup_insert_eq. }
  exists s5. split; [done|]. exists T4, C4, (delete (on_stack c) Q4). split_and!; [done| |done|].
  - eapply sched_inv_same; [exact Hv4|done| |done]. intros l Hl. by rewrite lookup_delete_ne.
  - intros l Hl. rewrite lookup_delete. case_decide as E; [subst; by rewrite lookup_insert_ne|].
    rewrite HQ, !lookup_insert by done. by repeat case_decide.
Qed.
