(* ===== verification/SchedMigrate.v ===== *)
(** * Migrating threads keeps the invariant of the thread system

    [thread_consider_migration] takes the last threads of the run queue of its
    CPU and gives them to CPUs with fewer threads, but never the thread that is
    current on an idle CPU; what it cannot give away goes back. *)

From S2P Require Import Prelude State Monad StopState Threadlist Sched SchedSpec SchedInv SchedWake.

#[local] Open Scope Z_scope.

(** ** Counting *)

Lemma queue_inv T C Q X c : sched_inv T C Q X -> (c < length C)%nat -> exists ts, Q !! c_runqueue c = Some ts.
Proof. intros Hv Hc. destruct (sv_queue _ _ _ _ Hv c Hc) as [[ts ?] _]. by exists ts. Qed.

(** A run queue lock, for an operation that keeps the maps. *)
Lemma go_count {c k th} T C Q : sched_inv T C Q [] -> C !! c = Some k -> T !! c_curthread k = Some th ->
  forall ids my tot s, sys s T C Q ∅ -> Forall (fun i => (i < length C)%nat) ids -> 0 <= tot ->
  exists my' tot', goes (count_queues c ids my tot) s (my', tot') T C Q ∅ /\ 0 <= tot' /\
    (my' = my \/ exists ts, Q !! c_runqueue c = Some ts /\ my' = u32 (zlen ts)) /\
    (c ∈ ids -> exists ts, Q !! c_runqueue c = Some ts /\ my' = u32 (zlen ts)).
Proof.
  intros Hv Hc Hth. induction ids as [|i ids IH]; intros my tot s Hs Hids Ht; cbn [count_queues].
  - exists my, tot. split_and!; [by eapply go_ret|done|by left|by intros ?%not_elem_of_nil].
  - apply Forall_cons in Hids as [Hi Hids]. destruct (queue_inv _ _ _ _ _ Hv Hi) as [ts Hq].
    destruct (acquire_locked (c_runqueue_lock i) Hs Hc Hth) as (s1 & Hr1 & Hl1).
    assert (held s1 T C Q c (c_runqueue_lock i)) as Hh1 by (by exists k, th).
    destruct (keep_op Hh1 (on_lists (rd_count (c_runqueue i))) (u32 (zlen ts)) Q) as (s2 & Hr2 & Hh2).
    { intros T1 C1 H1 Hs' _. by apply (go_rd_count Hs'). }
    destruct (release_held Hh2) as (s3 & Hr3 & Hs3); [intros k' Hk'; by destruct (sv_cpu _ _ _ _ Hv c k' Hk')|].
    destruct (IH (if bool_decide (i = c) then u32 (zlen ts) else my) (u32 (tot + u32 (zlen ts))) s3 Hs3 Hids)
      as (my' & tot' & (s' & Hr & Hs') & Ht' & Hmy & Hin); [apply Z.mod_pos_bound; lia|].
    exists my', tot'. split_and!; [|done|..].
    + exists s'. rewrite (srun_call _ _ _ _ _ Hr1), (srun_call _ _ _ _ _ Hr2), (srun_call _ _ _ _ _ Hr3). by split.
    + destruct Hmy as [->|?]; [|by right]. case_bool_decide as E; [subst i; right; by exists ts|by left].
    + intros [->|?]%elem_of_cons; [|by apply Hin]. rewrite (bool_decide_eq_true_2 (i = i)) in Hmy by done.
      destruct Hmy as [->|?]; [by exists ts|done].
Qed.

(** ** The victims *)

(** A ready thread of [c]. *)
Definition home (T : tmap) (c : nat) (t : tid) : Prop := exists th, T !! t = Some th /\ t_state th = S_READY /\ t_cpu th = Some c.

(** The threads on the stack list are in transit and belong to [c]; other
    lists than the run queues are as in [Q0]. *)
Record migrating (T : tmap) (C : list cpu) (Q0 Q : qmap) (c : nat) (xs : list tid) : Prop := mk_migrating {
  mg_inv : sched_inv T C Q xs;
  mg_stack : Q !! on_stack c = Some xs;
  mg_home : Forall (home T c) xs;
  mg_frame l : l <> on_stack c -> (forall c, l <> c_runqueue c) -> Q !! l = Q0 !! l
}.

Lemma off_queue s Q l ts1 t ts2 : lists_rep (s_lists s) Q -> Q !! l = Some (ts1 ++ t :: ts2) -> off_lists (<[l := ts1 ++ ts2]> Q) t.
Proof.
  intros Hr Hl l' ts' Hl' Hin. rewrite lookup_insert in Hl'. case_decide; simplify_eq.
  - pose proof (lr_nodup _ _ Hr _ _ Hl) as Hnd. apply NoDup_app in Hnd as (_ & H1 & Hnd). apply NoDup_cons in Hnd as [H2 _].
    apply elem_of_app in Hin as [Hin|Hin]; [|done]. apply (H1 t Hin). by left.
  - pose proof (lr_apart _ _ Hr _ _ _ _ t Hl Hl' ltac:(apply elem_of_app; right; by left) Hin). congruence.
Qed.

Lemma victim_inv s T C Q X c ts t :
  sched_inv T C Q X -> lists_rep (s_lists s) Q -> Q !! c_runqueue c = Some (ts ++ [t]) ->
  sched_inv T C (<[c_runqueue c := ts]> Q) (t :: X) /\ off_lists (<[c_runqueue c := ts]> Q) t /\ (t ∉ X) /\ home T c t.
Proof.
  intros Hv Hr Hq. pose proof (off_queue _ _ _ _ _ _ Hr Hq) as Hoff. rewrite app_nil_r in Hoff.
  destruct (proj1 (sv_ready _ _ _ _ Hv _ _ t Hq) ltac:(apply elem_of_app; right; by left)) as (th & Ht & Hst & Hcpu & Hx).
  pose proof (lr_nodup _ _ Hr _ _ Hq) as Hnd. apply NoDup_app in Hnd as (_ & Hnd & _).
  split_and!; [|done|done|by exists th]. constructor; try apply Hv.
  - intros c'. rewrite lookup_insert_is_Some', lookup_insert_ne by done. intros Hc'. destruct (sv_queue _ _ _ _ Hv c' Hc'). auto.
  - intros c' ts' t' Hq'. destruct (decide (t' = t)) as [->|Hne].
    + split; [intros Hin; by destruct (Hoff _ _ Hq' Hin)|]. intros (th' & _ & _ & _ & []%not_elem_of_cons). done.
    + assert (exists ts0, Q !! c_runqueue c' = Some ts0 /\ (t' ∈ ts' <-> t' ∈ ts0)) as (ts0 & Hq0 & ->).
      { rewrite lookup_insert in Hq'. case_decide as E; simplify_eq; [|by exists ts'].
        exists (ts' ++ [t]). split; [done|]. rewrite elem_of_app, list_elem_of_singleton. tauto. }
      rewrite (sv_ready _ _ _ _ Hv _ _ _ Hq0). by setoid_rewrite not_elem_of_cons; naive_solver.
  - intros c' ts' t'. rewrite lookup_insert_ne by done. apply Hv.
  - intros t' th' Ht' Hst' [Hne Hx']%not_elem_of_cons. destruct (sv_sleep _ _ _ _ Hv t' th' Ht' Hst' Hx') as (w & ts' & ? & ?).
    exists w, ts'. by rewrite lookup_insert_ne.
  - intros w ts' t'. rewrite lookup_insert_ne by done. intros Hw Hin. destruct (sv_wchan _ _ _ _ Hv _ _ _ Hw Hin) as (th' & ? & ? & ?).
    exists th'. split_and!; [done..|]. apply not_elem_of_cons. split; [|done]. intros ->. simplify_eq. congruence.
  - intros t' [->|?]%elem_of_cons; [exists th; auto|by apply Hv].
Qed.

Lemma take_victims_run T C Q0 c n : forall s Q xs ts,
  held s T C Q c (c_runqueue_lock c) -> migrating T C Q0 Q c xs -> Q !! c_runqueue c = Some ts -> (n <= length ts)%nat ->
  exists s' Q' xs', take_victims n c s = inr (tt, s') /\ held s' T C Q' c (c_runqueue_lock c) /\ migrating T C Q0 Q' c xs' /\
    length xs' = (n + length xs)%nat.
Proof.
  induction n as [|n IH]; intros s Q xs ts Hh [Hv Hst Hhome Hf] Hq Hn; cbn [take_victims]; [by exists s, Q, xs|].
  destruct (exists_last (l := ts)) as (ts' & t & ->); [by destruct ts; cbn in Hn; [lia|]|]. rewrite length_app in Hn. cbn in Hn.
  destruct (keep_op Hh (on_lists (threadlist_remtail (c_runqueue c))) (Some t) (<[c_runqueue c := ts']> Q)) as (s1 & Hr1 & Hh1).
  { intros T1 C1 H1 Hs _. destruct (go_remtail Hs _ _ Hq) as (s1 & Hr & Hs1). rewrite last_snoc in Hr. rewrite removelast_last in Hs1. by exists s1. }
  destruct (victim_inv s T C Q xs c ts' t Hv (held_lists Hh) Hq) as (Hv' & Hoff & Hx & Ht).
  destruct (keep_op Hh1 (on_lists (threadlist_addhead (on_stack c) t)) tt (<[on_stack c := t :: xs]> (<[c_runqueue c := ts']> Q))) as (s2 & Hr2 & Hh2).
  { intros T1 C1 H1 Hs Hk. apply (go_addhead Hs); [by rewrite lookup_insert_ne|done|]. apply Hk. destruct Ht as (th & ? & _). by eexists. }
  destruct (IH s2 (<[on_stack c := t :: xs]> (<[c_runqueue c := ts']> Q)) (t :: xs) ts') as (s' & Q' & xs' & Hr & Hh' & Hm & Hlen);
    [done| |by rewrite lookup_insert_ne, lookup_insert_eq|lia|].
  - constructor; [|apply lookup_insert_eq|by apply Forall_cons|].
    + eapply sched_inv_same; [exact Hv'|done| |done]. intros l Hl. by rewrite lookup_insert_ne.
    + intros l H1 H2. rewrite !lookup_insert_ne by done. by apply Hf.
  - exists s', Q', xs'. rewrite (srun_call _ _ _ _ _ Hr1), srun_deref with (a := t), (srun_call _ _ _ _ _ Hr2) by done.
    split_and!; [done..|]. rewrite Hlen. cbn. lia.
Qed.

(** ** Giving threads away *)

(** A thread in transit that is not current on its CPU can change CPU. *)
Lemma recpu_inv T C Q X t th c i :
  sched_inv T C Q X -> T !! t = Some th -> t_state th = S_READY -> t_cpu th = Some c -> t ∈ X -> (i < length C)%nat ->
  (forall k, C !! c = Some k -> c_curthread k <> t) ->
  sched_inv (<[t := with_cpu (Some i) th]> T) C Q X.
Proof.
  intros Hv Ht Hst Hcpu Hx Hi Hcur.
  assert (forall c' k, C !! c' = Some k -> c_curthread k <> t) as Hncur.
  { intros c' k Hk E. destruct (sv_cpu _ _ _ _ Hv c' k Hk) as (_ & th' & Ht' & Hc' & _). rewrite E in Ht'. simplify_eq. by eapply Hcur. }
  assert (forall t', t' <> t -> <[t := with_cpu (Some i) th]> T !! t' = T !! t') as Hk by (intros; by rewrite lookup_insert_ne).
  pose proof (lookup_insert_eq T t (with_cpu (Some i) th)) as Ht'. constructor; try apply Hv.
  - intros t' th'. destruct (decide (t' = t)) as [->|]; [rewrite Ht'; intros [= <-]|rewrite Hk by done; apply Hv].
    destruct (sv_thread _ _ _ _ Hv t th Ht). constructor; cbn; try done. by exists i.
  - intros c' k Hk'. destruct (sv_cpu _ _ _ _ Hv c' k Hk') as (? & th' & ? & ?). split; [done|]. exists th'.
    by rewrite Hk by (by eapply Hncur).
  - intros t' th'. destruct (decide (t' = t)) as [->|]; [rewrite Ht'; intros [= <-]; cbn; congruence|rewrite Hk by done; apply Hv].
  - intros c' ts t' Hq. rewrite (sv_ready _ _ _ _ Hv _ _ _ Hq). destruct (decide (t' = t)) as [->|]; [|by rewrite Hk].
    split; intros (th' & _ & _ & _ & []); done.
  - intros c' ts t' Hq. rewrite (sv_zombie _ _ _ _ Hv _ _ _ Hq). destruct (decide (t' = t)) as [->|]; [|by rewrite Hk].
    rewrite Ht'. split; intros (th' & ? & E & _); simplify_eq; cbn in E; congruence.
  - intros t' th'. destruct (decide (t' = t)) as [->|]; [rewrite Ht'; intros [= <-]; cbn; congruence|rewrite Hk by done; apply Hv].
  - intros w ts t' Hw Hin. destruct (sv_wchan _ _ _ _ Hv _ _ _ Hw Hin) as (th' & ? & ? & ?). exists th'.
    rewrite Hk; [done|]. by intros ->.
  - intros t' Hin. destruct (decide (t' = t)) as [->|]; [rewrite Ht'; eexists; split; [done|by left]|rewrite Hk by done; by apply Hv].
  - rewrite map_size_insert, Ht. apply Hv.
Qed.

(** The thread [t] of the stack list goes to the run queue of [i]. *)
Lemma send_one T C Q0 Q c i t xs th ts :
  migrating T C Q0 Q c (t :: xs) -> T !! t = Some th -> (i < length C)%nat -> i <> c -> (forall k, C !! c = Some k -> c_curthread k <> t) ->
  Q !! c_runqueue i = Some ts -> t ∉ xs ->
  migrating (<[t := with_cpu (Some i) th]> T) C Q0 (<[c_runqueue i := ts ++ [t]]> (<[on_stack c := xs]> Q)) c xs.
Proof.
  intros [Hv Hst [Hh Hhome]%Forall_cons Hf] Ht Hi Hne Hcur Hq Hx. destruct Hh as (th' & Ht2 & Hrd & Hcpu).
  rewrite Ht in Ht2. injection Ht2 as <-.
  assert (sched_inv T C (<[on_stack c := xs]> Q) (t :: xs)) as Hv1.
  { eapply sched_inv_same; [exact Hv|done| |done]. intros l Hl. by rewrite lookup_insert_ne. }
  assert (sched_inv (<[t := with_cpu (Some i) th]> T) C (<[on_stack c := xs]> Q) (t :: xs)) as Hv2.
  { eapply recpu_inv; [done..|by left|done|done]. }
  constructor.
  - pose proof (enqueue_inv t (with_cpu (Some i) th) i ts Hv2 (lookup_insert_eq _ _ _) eq_refl) as He.
    rewrite insert_insert_eq in He. replace (with_state S_READY (with_cpu (Some i) th)) with (with_cpu (Some i) th) in He
      by (destruct th; cbn in *; by subst). apply He; [by rewrite lookup_insert_ne|done].
  - by rewrite lookup_insert_ne, lookup_insert_eq.
  - rewrite Forall_forall in Hhome. apply Forall_forall. intros t' Hin. destruct (Hhome t' Hin) as (th' & ? & ?). exists th'.
    rewrite lookup_insert_ne; [done|]. by intros <-.
  - intros l H1 H2. rewrite !lookup_insert_ne by done. by apply Hf.
Qed.

(** The current thread goes to the end of the stack list. *)
Lemma keep_cur T C Q0 Q c t xs :
  migrating T C Q0 Q c (t :: xs) -> migrating T C Q0 (<[on_stack c := xs ++ [t]]> Q) c (xs ++ [t]).
Proof.
  intros [Hv Hst [Hh Hhome]%Forall_cons Hf]. constructor.
  - eapply sched_inv_same; [exact Hv|done| |].
    + intros l Hl. by rewrite lookup_insert_ne.
    + intros u. rewrite elem_of_cons, elem_of_app, list_elem_of_singleton. tauto.
  - apply lookup_insert_eq.
  - apply Forall_app. split; [done|by apply Forall_singleton].
  - intros l H1 H2. rewrite lookup_insert_ne by done. by apply Hf.
Qed.

(** The CPU that runs the migration, with its current thread. *)
Definition runs_on (C : list cpu) (c : nat) (cur : tid) : Prop := exists k, C !! c = Some k /\ c_curthread k = cur.

Lemma runs_on_same C C' c cur : same_cpus C C' -> runs_on C c cur -> runs_on C' c cur.
Proof.
  intros HC (k & Hk & <-). destruct (same_cpus_lookup _ _ _ _ HC Hk) as (k' & Hk' & ? & _). by exists k'.
Qed.

Lemma migrating_same T C C' Q0 Q c xs : same_cpus C C' -> migrating T C Q0 Q c xs -> migrating T C' Q0 Q c xs.
Proof. intros HC [Hv ? ? ?]. constructor; try done. by eapply sched_inv_same. Qed.

Lemma keep_cur_thread s T C Q c lk cur : held s T C Q c lk -> runs_on C c cur -> keeps (curthread c) s cur T C Q c lk.
Proof.
  intros Hh (k & Hk & <-). destruct Hh as (k' & th & Hk' & Hth & Hs).
  rewrite Hk in Hk'. injection Hk' as <-.
  destruct (go_curthread Hs c (spin_up k)) as (s' & Hr & Hs'); [apply list_lookup_insert_eq; by eapply lookup_lt_Some|].
  exists s'. split; [done|]. by exists k, th.
Qed.

(** A write to a thread that is not current, a read of a CPU. *)
Lemma keep_wr s T C Q c lk cur t th f :
  held s T C Q c lk -> runs_on C c cur -> t <> cur -> T !! t = Some th -> keeps (wr_thread t f) s tt (<[t := f th]> T) C Q c lk.
Proof.
  intros Hh (k & Hk & <-) Hne Ht. destruct Hh as (k' & thc & Hk' & Hth & Hs).
  rewrite Hk in Hk'. injection Hk' as <-.
  destruct (go_wr_thread Hs t th f) as (s' & Hr & Hs'); [by rewrite lookup_insert_ne|].
  exists s'. split; [done|]. exists k, thc. rewrite lookup_insert_ne by done. split_and!; [done..|].
  unfold locked. by rewrite insert_insert_ne.
Qed.

Lemma keep_unidle s T C Q c i kt :
  held s T C Q c (c_runqueue_lock i) -> C !! i = Some kt -> i <> c -> (forall k, C !! c = Some k -> c_spinlocks k = 0) ->
  exists s' C', (sbind (rd_cpu i) (fun k => if c_isidle k then ipi_send c i IPI_UNIDLE else sret tt)) s = inr (tt, s') /\
    same_cpus C C' /\ held s' T C' Q c (c_runqueue_lock i).
Proof.
  intros (k & th & Hk & Hth & Hs) Hi Hne Hsp. pose proof (Hsp k Hk) as H0. assert (c < length C)%nat by (by eapply lookup_lt_Some).
  destruct (go_rd_cpu Hs i kt) as (s1 & Hr1 & Hs1); [by rewrite list_lookup_insert_ne|]. rewrite (srun_call _ _ _ _ _ Hr1).
  destruct (c_isidle kt) eqn:E; [|exists s1, C; split_and!; [done|done|by exists k, th]].
  destruct (go_ipi_send (c := c) (k := spin_up k) (th := raise th) i kt IPI_UNIDLE Hs1) as (s2 & Hr2 & Hs2); try done.
  - by apply list_lookup_insert_eq.
  - apply lookup_insert_eq.
  - by rewrite list_lookup_insert_ne.
  - cbn. lia.
  - exists s2, (<[i := poke IPI_UNIDLE kt]> C). split; [done|]. split; [by eapply same_cpus_insert|].
    exists k, th. rewrite list_lookup_insert_ne by done. split_and!; [done..|]. unfold locked. by rewrite list_insert_insert_ne.
Qed.

Section send.
Context (Q0 : qmap) (c : nat) (cur : tid) (C0 : list cpu) (N : nat).

(** [n] threads of the stack list are still to be sent. *)
Definition sending (s : tsys) (n : nat) (lk : slock) : Prop :=
  exists T C Q xs, held s T C Q c lk /\ migrating T C Q0 Q c xs /\ same_cpus C0 C /\ runs_on C c cur /\ (n <= length xs)%nat /\ size T = N.

Lemma send_to_run i share : (i < length C0)%nat -> i <> c -> forall n s, sending s n (c_runqueue_lock i) ->
  exists s' n', send_to n c i share s = inr (n', s') /\ sending s' n' (c_runqueue_lock i).
Proof.
  intros Hi Hne. induction n as [|n IH]; intros s (T & C & Q & xs & Hh & Hm & HC & Hcur & Hn & HN); cbn [send_to].
  { exists s, 0%nat. split; [done|]. exists T, C, Q, xs. by split_and!. }
  assert (i < length C)%nat as HiC by (by rewrite <- (Forall2_length _ _ _ HC)).
  destruct (queue_inv _ _ _ _ _ (mg_inv _ _ _ _ _ _ Hm) HiC) as [ts Hq].
  destruct (keep_op Hh (on_lists (rd_count (c_runqueue i))) (u32 (zlen ts)) Q) as (s1 & Hr1 & Hh1).
  { intros T1 C1 H1 Hs' _. by apply (go_rd_count Hs'). }
  rewrite (srun_call _ _ _ _ _ Hr1). destruct (u32 (zlen ts) <? share); cbn [negb].
  2: { exists s1, (S n). split; [done|]. exists T, C, Q, xs. by split_and!. }
  destruct xs as [|t xs]; [cbn in Hn; lia|].
  destruct (keep_remhead Hh1 _ _ (mg_stack _ _ _ _ _ _ Hm)) as (s2 & Hr2 & Hh2). rewrite (srun_call _ _ _ _ _ Hr2). cbn [head tail] in *.
  destruct (keep_cur_thread _ _ _ _ _ _ _ Hh2 Hcur) as (s3 & Hr3 & Hh3). rewrite (srun_call _ _ _ _ _ Hr3).
  destruct (head_off s1 Q (on_stack c) t xs) as [Hoff Hx]; [exact (held_lists Hh1)|apply Hm|].
  pose proof (mg_home _ _ _ _ _ _ Hm) as [(th & Ht & _) _]%Forall_cons.
  case_bool_decide as E.
  - injection E as ->. destruct (keep_addtail Hh3 (on_stack c) xs cur) as (s4 & Hr4 & Hh4); [apply lookup_insert_eq|done|by eexists|].
    rewrite (srun_call _ _ _ _ _ Hr4). rewrite insert_insert_eq in Hh4. apply IH. eexists T, C, _, (xs ++ [cur]).
    split_and!; [done|by apply keep_cur|done|done| |done]. rewrite length_app. cbn in *. lia.
  - rewrite srun_deref with (a := t) by done.
    destruct (keep_wr _ _ _ _ _ _ _ t th (with_cpu (Some i)) Hh3 Hcur) as (s4 & Hr4 & Hh4); [congruence|done|].
    rewrite (srun_call _ _ _ _ _ Hr4).
    destruct (keep_addtail Hh4 (c_runqueue i) ts t) as (s5 & Hr5 & Hh5);
      [by rewrite lookup_insert_ne|done|rewrite lookup_insert_eq; by eexists|]. rewrite (srun_call _ _ _ _ _ Hr5).
    assert (migrating (<[t := with_cpu (Some i) th]> T) C Q0 (<[c_runqueue i := ts ++ [t]]> (<[on_stack c := xs]> Q)) c xs) as Hm'.
    { eapply send_one; try done. intros k Hk Hkt. destruct Hcur as (k' & ? & ?). congruence. }
    destruct (lookup_lt_is_Some_2 _ _ HiC) as [kt Hkt].
    destruct (keep_unidle _ _ _ _ _ i kt Hh5 Hkt Hne) as (s6 & C6 & Hr6 & HC6 & Hh6).
    { intros k Hk. by destruct (sv_cpu _ _ _ _ (mg_inv _ _ _ _ _ _ Hm') c k Hk). }
    rewrite <- (srun_bind (rd_cpu i) (fun k => if c_isidle k then ipi_send c i IPI_UNIDLE else sret tt) (fun _ => send_to n c i share)).
    rewrite (srun_call _ _ _ _ _ Hr6). apply IH. eexists _, C6, _, xs.
    split_and!; [done|by eapply migrating_same|by etrans|by eapply runs_on_same|cbn in Hn; lia|by rewrite map_size_insert, Ht].
Qed.

(** With no lock held between the CPUs. *)
Definition free_sending (s : tsys) (n : nat) : Prop :=
  exists T C Q xs, sys s T C Q ∅ /\ migrating T C Q0 Q c xs /\ same_cpus C0 C /\ runs_on C c cur /\ (n <= length xs)%nat /\ size T = N.

Lemma lock_sending s n lk : free_sending s n -> exists s', spinlock_acquire c lk s = inr (tt, s') /\ sending s' n lk.
Proof.
  intros (T & C & Q & xs & Hs & Hm & HC & Hcur & Hn & HN). destruct Hcur as (k & Hk & Hkc).
  destruct (sv_cpu _ _ _ _ (mg_inv _ _ _ _ _ _ Hm) c k Hk) as (_ & th & Hth & _).
  destruct (acquire_locked lk Hs Hk Hth) as (s' & Hr & Hl). exists s'. split; [done|].
  exists T, C, Q, xs. split_and!; [by exists k, th|done|done|by exists k|done|done].
Qed.

Lemma unlock_sending s n lk : sending s n lk -> exists s', spinlock_release c lk s = inr (tt, s') /\ free_sending s' n.
Proof.
  intros (T & C & Q & xs & Hh & Hm & Hrest). destruct (release_held Hh) as (s' & Hr & Hs').
  - intros k Hk. by destruct (sv_cpu _ _ _ _ (mg_inv _ _ _ _ _ _ Hm) c k Hk).
  - exists s'. split; [done|]. by exists T, C, Q, xs.
Qed.

Lemma send_victims_run share : forall ids n s, Forall (fun i => (i < length C0)%nat) ids -> free_sending s n ->
  exists s' n', send_victims ids c n share s = inr (n', s') /\ free_sending s' n'.
Proof.
  induction ids as [|i ids IH]; intros n s Hids Hs; cbn [send_victims]; [by exists s, n|].
  apply Forall_cons in Hids as [Hi Hids]. case_bool_decide; [by exists s, n|]. case_bool_decide as Hne; [by apply IH|].
  destruct (lock_sending s n (c_runqueue_lock i) Hs) as (s1 & Hr1 & Hs1).
  destruct (send_to_run i share Hi Hne n s1 Hs1) as (s2 & n2 & Hr2 & Hs2).
  destruct (unlock_sending s2 n2 _ Hs2) as (s3 & Hr3 & Hs3).
  rewrite (srun_call _ _ _ _ _ Hr1), (srun_call _ _ _ _ _ Hr2), (srun_call _ _ _ _ _ Hr3). by apply IH.
Qed.
End send.

(** ** What is left goes back *)

Lemma put_back T C Q0 Q c t xs ts :
  migrating T C Q0 Q c (t :: xs) -> Q !! c_runqueue c = Some ts -> t ∉ xs ->
  migrating T C Q0 (<[c_runqueue c := ts ++ [t]]> (<[on_stack c := xs]> Q)) c xs.
Proof.
  intros [Hv Hst [Hh Hhome]%Forall_cons Hf] Hq Hx. destruct Hh as (th & Ht & Hrd & Hcpu). constructor.
  - assert (sched_inv T C (<[on_stack c := xs]> Q) (t :: xs)) as Hv1.
    { eapply sched_inv_same; [exact Hv|done| |done]. intros l Hl. by rewrite lookup_insert_ne. }
    pose proof (enqueue_inv t th c ts Hv1 Ht Hcpu) as He. rewrite (insert_id T) in He; [apply He; [by rewrite lookup_insert_ne|done]|].
    rewrite Ht. destruct th. cbn in *. by subst.
  - by rewrite lookup_insert_ne, lookup_insert_eq.
  - done.
  - intros l H1 H2. rewrite !lookup_insert_ne by done. by apply Hf.
Qed.

Lemma drain_back T C Q0 c lk xs : forall fuel s Q,
  held s T C Q c lk -> migrating T C Q0 Q c xs -> (c < length C)%nat -> (length xs <= fuel)%nat ->
  exists s' Q', drain fuel (on_stack c) (fun t => on_lists (threadlist_addtail (c_runqueue c) t)) s = inr (tt, s') /\
    held s' T C Q' c lk /\ migrating T C Q0 Q' c [].
Proof.
  induction xs as [|t xs IH]; intros fuel s Q Hh Hm Hc Hf;
    destruct (keep_remhead Hh _ _ (mg_stack _ _ _ _ _ _ Hm)) as (s1 & Hr1 & Hh1); cbn [head tail] in *.
  - exists s1, Q. rewrite insert_id in Hh1 by apply Hm. split; [|done]. destruct fuel; cbn [drain]; by rewrite (srun_call _ _ _ _ _ Hr1).
  - destruct fuel as [|fuel]; [cbn in Hf; lia|]. cbn [drain]. rewrite (srun_call _ _ _ _ _ Hr1).
    destruct (head_off s Q (on_stack c) t xs) as [Hoff Hx]; [exact (held_lists Hh)|apply Hm|].
    destruct (queue_inv _ _ _ _ _ (mg_inv _ _ _ _ _ _ Hm) Hc) as [ts Hq].
    pose proof (mg_home _ _ _ _ _ _ Hm) as [(th & Ht & _) _]%Forall_cons.
    destruct (keep_addtail Hh1 (c_runqueue c) ts t) as (s2 & Hr2 & Hh2); [by rewrite lookup_insert_ne|done|by eexists|].
    rewrite (srun_call _ _ _ _ _ Hr2). eapply IH; [done|by apply put_back|done|cbn in Hf; lia].
Qed.

(** ** The whole *)

Lemma home_length s T C Q0 Q c xs : lists_rep (s_lists s) Q -> migrating T C Q0 Q c xs -> (length xs <= size T)%nat.
Proof.
  intros Hr Hm. eapply length_list; [done|apply Hm|]. intros t Hin.
  pose proof (proj1 (Forall_forall _ _) (mg_home _ _ _ _ _ _ Hm) t Hin) as (th & ? & _). by eexists.
Qed.

Lemma go_migrating_isempty s T C Q0 Q H c xs :
  sys s T C Q H -> migrating T C Q0 Q c xs -> goes (on_lists (threadlist_isempty (on_stack c))) s (bool_decide (xs = [])) T C Q H.
Proof.
  intros Hs Hm. apply (go_isempty Hs); [apply Hm|]. pose proof (home_length s _ _ _ _ _ _ (sy_lists _ _ _ _ _ Hs) Hm).
  pose proof (sv_size _ _ _ _ (mg_inv _ _ _ _ _ _ Hm)). unfold zlen. lia.
Qed.

(** The end: the leftovers go back and the list is given up. *)
Lemma finish_migration s Q0 c cur C0 N n :
  free_sending Q0 c cur C0 N s n -> Q0 !! on_stack c = None ->
  reaches (sbind (on_lists (threadlist_isempty (on_stack c))) (fun e =>
    sbind (if e then sret tt else
      sbind (spinlock_acquire c (c_runqueue_lock c)) (fun _ =>
      sbind (drain N (on_stack c) (fun t => on_lists (threadlist_addtail (c_runqueue c) t))) (fun _ =>
      spinlock_release c (c_runqueue_lock c)))) (fun _ =>
    sbind (on_lists (threadlist_isempty (on_stack c))) (fun e =>
    sbind (sassert e "threadlist_isempty(&victims)") (fun _ =>
    on_lists (threadlist_cleanup (on_stack c))))))) s (settled C0 Q0).
Proof.
  intros (T & C & Q & xs & Hs & Hm & HC & (k & Hk & Hkc) & Hn & HN) H0.
  destruct (sv_cpu _ _ _ _ (mg_inv _ _ _ _ _ _ Hm) c k Hk) as (_ & th & Hth & _).
  reach_step; [by eapply go_migrating_isempty|]. rename s0 into s1, Hs0 into Hs1.
  assert (exists s2 Q2, (if bool_decide (xs = []) then sret tt else
      sbind (spinlock_acquire c (c_runqueue_lock c)) (fun _ =>
      sbind (drain N (on_stack c) (fun t => on_lists (threadlist_addtail (c_runqueue c) t))) (fun _ =>
      spinlock_release c (c_runqueue_lock c)))) s1 = inr (tt, s2) /\ sys s2 T C Q2 ∅ /\ migrating T C Q0 Q2 c []) as (s2 & Q2 & Hr & Hs2 & Hm2).
  { case_bool_decide as E; [subst xs; by exists s1, Q|].
    destruct (acquire_locked (c_runqueue_lock c) Hs1 Hk Hth) as (s2 & Hr2 & Hl2).
    assert (held s2 T C Q c (c_runqueue_lock c)) as Hh2 by (by exists k, th).
    destruct (drain_back T C Q0 c (c_runqueue_lock c) xs N s2 Q Hh2 Hm) as (s3 & Q3 & Hr3 & Hh3 & Hm3); [by eapply lookup_lt_Some| |].
    { rewrite <- HN. eapply (home_length s1); [apply Hs1|done]. }
    destruct (release_held Hh3) as (s4 & Hr4 & Hs4); [intros k' Hk'; by destruct (sv_cpu _ _ _ _ (mg_inv _ _ _ _ _ _ Hm) c k' Hk')|].
    exists s4, Q3. rewrite (srun_call _ _ _ _ _ Hr2), (srun_call _ _ _ _ _ Hr3). done. }
  eapply reach_bind; [by exists s2|]. clear s2 Hr Hs2. intros s2 Hs2.
  reach_step; [by eapply go_migrating_isempty|]. reach_step; [by eapply go_assert|].
  exists tt, T, C, (delete (on_stack c) Q2), ∅. split; [eapply go_list_cleanup; [done|apply Hm2]|].
  destruct Hm2 as [Hv2 Hst2 _ Hf2]. split_and!; [|split|symmetry; by eapply Forall2_length|done].
  - eapply sched_inv_same; [exact Hv2|done| |done]. intros l Hl. by rewrite lookup_delete_ne.
  - intros c'. destruct (decide (c' = c)) as [->|]; [by rewrite lookup_delete_eq|]. rewrite lookup_delete_ne by congruence.
    apply Hf2; congruence.
  - intros w. rewrite lookup_delete_ne by done. by rewrite Hf2.
Qed.

Lemma migration_inv s T C Q c k :
  sys s T C Q ∅ -> sched_inv T C Q [] -> (forall c, Q !! on_stack c = None) -> C !! c = Some k ->
  reaches (thread_consider_migration c) s (settled C Q).
Proof.
  intros Hs Hv Hst Hc. assert (c < length C)%nat as Hlt by (by eapply lookup_lt_Some).
  destruct (sv_cpu _ _ _ _ Hv c k Hc) as (Hsp & th & Hth & _).
  assert (Forall (fun i => (i < length C)%nat) (seq 0 (length C))) as Hids.
  { apply Forall_forall. intros i Hi%elem_of_seq. lia. }
  unfold thread_consider_migration. reach_step; [by eapply go_get|]. rewrite (sy_cpus _ _ _ _ _ Hs).
  destruct (go_count T C Q Hv Hc Hth (seq 0 (length C)) 0 0 s0 Hs0 Hids ltac:(done)) as (my & tot & Hgo & Htot & _ & Hmy).
  destruct Hmy as (ts & Hq & ->); [apply elem_of_seq; lia|]. reach_step; [exact Hgo|]. cbn [fst snd].
  set (share := DIVROUNDUP tot (Z.of_nat (length C))).
  assert (0 <= share) as Hshare by (apply Z.div_pos; lia).
  assert (settled C Q T C Q ∅) as Hsame by (by split_and!).
  destruct (u32 (zlen ts) <? share); [by eapply reach_ret|].
  reach_step; [by eapply go_get|]. reach_step; [by eapply go_list_init|]. rename s3 into s4, Hs3 into Hs4.
  set (Q1 := <[on_stack c := [] : list tid]> Q) in *.
  assert (migrating T C Q Q1 c []) as Hm.
  { constructor; [|apply lookup_insert_eq|done|].
    - eapply sched_inv_same; [exact Hv|done| |done]. intros l Hl. unfold Q1. by rewrite lookup_insert_ne.
    - intros l H1 H2. unfold Q1. by rewrite lookup_insert_ne. }
  destruct (acquire_locked (c_runqueue_lock c) Hs4 Hc Hth) as (s5 & Hr5 & Hl5). eapply reach_call; [exact Hr5|].
  destruct (take_victims_run T C Q c (Z.to_nat (u32 (zlen ts) - share)) s5 Q1 [] ts) as (s6 & Q6 & xs & Hr6 & Hh6 & Hm6 & Hlen);
    [by exists k, th|done|unfold Q1; by rewrite lookup_insert_ne| |].
  { assert (u32 (zlen ts) <= zlen ts) by (apply Z.mod_le; unfold zlen; lia). unfold zlen in *. lia. }
  eapply reach_call; [exact Hr6|].
  destruct (release_held Hh6) as (s7 & Hr7 & Hs7); [intros k' Hk'; by destruct (sv_cpu _ _ _ _ Hv c k' Hk')|].
  eapply reach_call; [exact Hr7|].
  destruct (send_victims_run Q c (c_curthread k) C (size T) share (seq 0 (length C)) (Z.to_nat (u32 (zlen ts) - share)) s7 Hids)
    as (s8 & n8 & Hr8 & Hs8).
  { exists T, C, Q6, xs. split_and!; [done|done|done|by exists k|rewrite Hlen; lia|done]. }
  eapply reach_call; [exact Hr8|]. rewrite (sy_threads _ _ _ _ _ Hs1). by eapply finish_migration.
Qed.
