(* ===== verification/SchedFork.v ===== *)
(** * Creating threads keeps the invariant of the thread system *)

From S2P Require Import Prelude State Monad StopState Threadlist Sched SchedSpec SchedInv SchedWake.

#[local] Open Scope Z_scope.

(** ** A new thread, not on a list yet *)

Lemma add_inv T C Q t nt :
  sched_inv T C Q [] -> T !! t = None -> thread_wf C t nt -> t_state nt = S_READY -> Z.of_nat (S (size T)) < 2^32 ->
  sched_inv (<[t := nt]> T) C Q [t].
Proof.
  intros Hv Ht Hw Hst Hsz.
  assert (forall u th, T !! u = Some th -> u <> t) as Hne by congruence.
  assert (forall u, u <> t -> <[t := nt]> T !! u = T !! u) as Hk by (intros; by rewrite lookup_insert_ne).
  assert (forall u, u ∉ [t] <-> u <> t) as Hx by (intros; by rewrite list_elem_of_singleton).
  constructor.
  - intros u th. rewrite lookup_insert. case_decide; [subst; by intros [= <-]|apply Hv].
  - intros c k Hc. destruct (sv_cpu _ _ _ _ Hv c k Hc) as (? & th & Hth & ?). split; [done|]. exists th.
    by rewrite Hk by (by eapply Hne).
  - intros u th. rewrite lookup_insert. case_decide; [subst; intros [= <-]; congruence|apply Hv].
  - apply Hv.
  - intros c ts u Hq. rewrite (sv_ready _ _ _ _ Hv _ _ _ Hq). split.
    + intros (th & Hu & ? & ? & _). exists th. rewrite Hx, Hk by (by eapply Hne). split_and!; [done..|by eapply Hne].
    + intros (th & Hu & ? & ? & Hn%Hx). exists th. rewrite Hk in Hu by done. split_and!; try done. apply not_elem_of_nil.
  - intros c ts u Hq. rewrite (sv_zombie _ _ _ _ Hv _ _ _ Hq). split.
    + intros (th & Hu & ? & ?). exists th. by rewrite Hk by (by eapply Hne).
    + intros (th & Hu & ? & ?). exists th. rewrite lookup_insert in Hu. case_decide; simplify_eq; [congruence|done].
  - intros u th Hu Hs Hn%Hx. rewrite Hk in Hu by done. eapply Hv; [done..|apply not_elem_of_nil].
  - intros w ts u Hw' Hin. destruct (sv_wchan _ _ _ _ Hv _ _ _ Hw' Hin) as (th & Hu & ? & _). exists th.
    rewrite Hx, Hk by (by eapply Hne). split_and!; [done..|by eapply Hne].
  - intros u ->%list_elem_of_singleton. exists nt. rewrite lookup_insert_eq. auto.
  - by rewrite map_size_insert_None.
Qed.

(** A thread that does not exist is on no list. *)
Lemma unknown_off T C Q t : sched_inv T C Q [] -> (forall c, Q !! on_stack c = None) -> T !! t = None -> off_lists Q t.
Proof.
  intros Hv Hst Ht l ts Hl Hin. destruct l as [c|c|w|c]; [| | |by rewrite Hst in Hl].
  - apply (sv_ready _ _ _ _ Hv _ _ _ Hl) in Hin as (th & ? & _). congruence.
  - apply (sv_zombie _ _ _ _ Hv _ _ _ Hl) in Hin as (th & ? & _). congruence.
  - destruct (sv_wchan _ _ _ _ Hv _ _ _ Hl Hin) as (th & ? & _). congruence.
Qed.

Lemma go_create {s T C Q H} t mem :
  sys s T C Q H -> off_lists Q t -> mem 0%nat = true -> mem 1%nat = true ->
  goes (thread_create t mem) s (Some t) (<[t := new_thread]> T) C Q H.
Proof.
  intros Hs Hoff H0 H1. unfold thread_create. rewrite H0, H1. cbn [negb].
  destruct (node_init_run (s_lists s) Q t (sy_lists _ _ _ _ _ Hs) Hoff) as (l' & Hr & Hrep & Hsame & Hdet & _).
  eexists. rewrite srun_modify. unfold sbind, on_lists. cbn [s_lists set_threads]. rewrite Hr. split; [reflexivity|].
  destruct Hs as [<- <- ? <- Hn]. constructor; cbn; try done.
  intros u. rewrite lookup_insert_is_Some'. intros [<-|Hu]; [done|]. by apply Hsame, Hn.
Qed.

(** ** [thread_fork] *)

(** The thread [thread_fork] leaves on the run queue of CPU [c]. *)
Definition forked (c : nat) (p : positive) : kthread :=
  mk_kthread (Some "NEW"%string) S_READY (Some guard_words) at_startup (Some c) (Some p) false IPL_HIGH 2.

Lemma forked_wf T C Q c p t : sched_inv T C Q [] -> (c < length C)%nat -> T !! t = None -> thread_wf C t (forked c p).
Proof.
  intros Hv Hlt Ht. constructor; cbn; try done.
  - by exists c.
  - by right.
  - by intros ws [= <-].
  - intros _ (c' & k & Hk & _ & <-). destruct (sv_cpu _ _ _ _ Hv c' k Hk) as (_ & th & ? & _). congruence.
Qed.

Lemma go_attach {s T C Q H c k th} p t nt :
  sys s T C Q H -> C !! c = Some k -> T !! c_curthread k = Some th -> spl_ok th -> T !! t = Some nt -> t <> c_curthread k ->
  goes (attach_thread c p t) s 0 (<[t := with_proc (Some p) nt]> T) C Q H.
Proof.
  intros Hs Hc Hth Hok Ht Hne. unfold attach_thread. go_step; [by eapply go_splx|].
  go_step; [eapply go_wr_thread; [done|by rewrite lookup_insert_ne]|].
  go_step; [eapply go_splx; [done|done|by rewrite lookup_insert_ne, lookup_insert_eq]|].
  rewrite (insert_insert_ne _ _ t), insert_insert_eq, at_spl_back, (insert_id T) in Hs2 by done. by eapply go_ret.
Qed.

Lemma fork_settled s T C Q c k th t p :
  sys s (<[t := forked c p]> T) C Q ∅ -> sched_inv T C Q [] -> (forall c, Q !! on_stack c = None) ->
  C !! c = Some k -> T !! c_curthread k = Some th -> T !! t = None -> Z.of_nat (S (size T)) < 2^32 ->
  reaches (thread_make_runnable c t false) s (settled C Q).
Proof.
  intros Hs Hv Hst Hc Hth Ht Hsz. assert (c < length C)%nat as Hlt by (by eapply lookup_lt_Some).
  pose proof (add_inv T C Q t (forked c p) Hv Ht (forked_wf T C Q c p t Hv Hlt Ht) eq_refl Hsz) as Hv'.
  destruct (sv_queue _ _ _ _ Hv c Hlt) as [[ts Hq] _]. destruct (sv_cpu _ _ _ _ Hv c k Hc) as (Hsp & _).
  eexists tt, _, _, _, ∅. split.
  - eapply (go_make_runnable t (forked c p) c k ts Hs Hc (thc := th)); try done.
    + rewrite lookup_insert_ne; [done|]. intros ->. congruence.
    + apply lookup_insert_eq.
    + lia.
    + by eapply unknown_off.
  - split_and!.
    + eapply sched_inv_same.
      * eapply (enqueue_inv t (forked c p) c ts Hv'); [apply lookup_insert_eq|done|done|apply not_elem_of_nil].
      * eapply same_cpus_insert; [done|apply same_cpu_unidled].
      * done.
      * done.
    + split; intros; by rewrite lookup_insert_ne.
    + by rewrite length_insert.
    + done.
Qed.

(** Whatever memory there is, the invariant holds afterwards. *)
Lemma fork_inv s T C Q c k t proc mem :
  sys s T C Q ∅ -> sched_inv T C Q [] -> (forall c, Q !! on_stack c = None) -> C !! c = Some k ->
  T !! t = None -> Z.of_nat (S (size T)) < 2^32 ->
  (forall th, T !! c_curthread k = Some th -> is_Some proc \/ is_Some (t_proc th)) ->
  reaches (thread_fork c t proc mem) s (settled C Q).
Proof.
  intros Hs Hv Hst Hc Ht Hsz Hproc. assert (settled C Q T C Q ∅) as Hsame by (by split_and!).
  destruct (sv_cpu _ _ _ _ Hv c k Hc) as (Hsp & th & Hth & Hcpu & _). pose proof (sv_thread _ _ _ _ Hv _ _ Hth) as Hw.
  assert (t <> c_curthread k) as Hne by congruence. pose proof (unknown_off T C Q t Hv Hst Ht) as Hoff.
  assert (forall m, reaches (sret m) s (settled C Q)) as Hnone by (intros m; by eapply reach_ret).
  unfold thread_fork. destruct (mem 0%nat) eqn:H0; [destruct (mem 1%nat) eqn:H1|].
  2,3: eapply reach_bind; [unfold thread_create; rewrite ?H0, ?H1; by eapply go_ret|intros; by eapply reach_ret].
  reach_step; [by eapply go_create|].
  destruct (mem 2%nat) eqn:H2; cbn [negb].
  - assert (exists p, match proc with Some p => Some p | None => t_proc th end = Some p) as [p Hp].
    { destruct proc; [by eexists|]. by destruct (Hproc th Hth) as [[? ?]|[? ?]]; [|eexists]. }
    reach_step; [eapply go_wr_thread; [done|apply lookup_insert_eq]|]. reach_step; [by eapply go_curthread|].
    rewrite insert_insert_eq in *. reach_step; [eapply go_rd_thread; [done|by rewrite lookup_insert_ne]|].
    reach_step; [eapply go_wr_thread; [done|apply lookup_insert_eq]|]. rewrite insert_insert_eq in *.
    reach_step; [eapply go_rd_thread; [done|apply lookup_insert_eq]|]. reach_step; [by eapply go_assert|].
    reach_step; [by eapply go_deref|].
    reach_step; [eapply (go_attach p t); [done|done|by rewrite lookup_insert_ne|apply Hw|apply lookup_insert_eq|done]|]. cbn [negb Z.eqb].
    rewrite insert_insert_eq in *. reach_step; [eapply go_wr_thread; [done|apply lookup_insert_eq]|]. rewrite insert_insert_eq in *.
    eapply reach_then; [eapply (fork_settled _ T C Q c k th t p)|]; try done.
    + by rewrite Hcpu in Hs9.
    + intros. by eapply reach_ret.
  - reach_step; [eapply (go_destroy t new_thread); try done; apply lookup_insert_eq|].
    rewrite delete_insert_id in * by done. by eapply reach_ret.
Qed.
