(* ===== verification/SchedOps.v ===== *)
(** * The operations of the thread system, in any order on any CPU

    A run of the thread system is a sequence of operations, each on one CPU:
    yield, sleep, wake-ups, exit, fork, the idle loop and migration.  Each runs to its
    end before the next one starts, so interleavings inside an operation are
    not considered here (those of the locks and wait channels are in
    [Synch.v]).  Every operation whose arguments are valid returns, and every
    thread is in exactly one place. *)

From S2P Require Import Prelude State Monad StopState Threadlist Sched SchedSpec SchedInv SchedWake SchedMigrate SchedFork.

#[local] Open Scope Z_scope.
#[local] Open Scope sm_scope.

(** ** Operations *)

(** The way [P] of a semaphore and [V] use the wait channels: with its lock
    held. *)
Definition sleep_on (c : nat) (w : positive) (name : string) : SM tsys unit :=
  spinlock_acquire c (wc_lock w) ;; wchan_sleep c (w, name) (wc_lock w).

Definition wake_one (c : nat) (w : positive) : SM tsys unit :=
  spinlock_acquire c (wc_lock w) ;; wchan_wakeone c w (wc_lock w) ;; spinlock_release c (wc_lock w).

Definition wake_all (c : nat) (w : positive) : SM tsys unit :=
  spinlock_acquire c (wc_lock w) ;; wchan_wakeall c w (wc_lock w) ;; spinlock_release c (wc_lock w).

Inductive sched_op :=
  | op_yield | op_sleep (w : positive) (name : string) | op_wakeone (w : positive) | op_wakeall (w : positive)
  | op_exit | op_fork (t : tid) (proc : option positive) (mem : nat -> bool) | op_idle | op_migrate.

Definition run_sched_op (c : nat) (op : sched_op) : SM tsys unit :=
  match op with
  | op_yield => thread_yield c
  | op_sleep w name => sleep_on c w name
  | op_wakeone w => wake_one c w
  | op_wakeall w => wake_all c w
  | op_exit => thread_exit c
  | op_fork t proc mem => thread_fork c t proc mem ;; sret tt
  | op_idle => idle_wakeup c ;; sret tt
  | op_migrate => thread_consider_migration c
  end.

(** [W]: the wait channels there are.  An idle CPU can run interrupt handlers,
    which yield, migrate and wake threads up. *)
Definition op_ok (W : gset positive) (s : tsys) (c : nat) (op : sched_op) : Prop :=
  exists k th, s_cpus s !! c = Some k /\ s_threads s !! c_curthread k = Some th /\
  match op with
  | op_yield | op_migrate => True
  | op_sleep w _ => c_isidle k = false /\ w ∈ W
  | op_wakeone w | op_wakeall w => w ∈ W
  | op_exit => c_isidle k = false
  | op_fork t proc _ => s_threads s !! t = None /\ Z.of_nat (S (size (s_threads s))) < 2^32 /\ (is_Some proc \/ is_Some (t_proc th))
  | op_idle => c_isidle k = true
  end.

Inductive sched_steps (W : gset positive) : tsys -> list (nat * sched_op) -> tsys -> Prop :=
  | steps_nil s : sched_steps W s [] s
  | steps_cons s c op s1 ops s' :
      op_ok W s c op -> run_sched_op c op s = inr (tt, s1) -> sched_steps W s1 ops s' -> sched_steps W s ((c, op) :: ops) s'.

(** ** The state between operations *)

Definition sched_at (W : gset positive) (s : tsys) (Q : qmap) : Prop :=
  sys s (s_threads s) (s_cpus s) Q ∅ /\ sched_inv (s_threads s) (s_cpus s) Q [] /\ (forall c, Q !! on_stack c = None) /\
  (forall w, is_Some (Q !! wc_threads w) <-> w ∈ W).

Definition sched_ok (W : gset positive) (s : tsys) : Prop := exists Q, sched_at W s Q.

(** The lists there are, and the threads [THREADLIST_FORALL] finds on one. *)
Definition live_list (W : gset positive) (s : tsys) (l : lid) : Prop :=
  match l with c_runqueue c | c_zombies c => (c < length (s_cpus s))%nat | wc_threads w => w ∈ W | on_stack _ => False end.

Definition on_list (s : tsys) (l : lid) : list tid :=
  match THREADLIST_FORALL (size (s_threads s)) l (s_lists s) with inr (ts, _) => ts | inl _ => [] end.

(** [t] is on [l] and on no other list. *)
Definition only_on (W : gset positive) (s : tsys) (t : tid) (l : lid) : Prop :=
  live_list W s l /\ forall l', live_list W s l' -> t ∈ on_list s l' <-> l' = l.

(** The thread is in the one place its state names. *)
Definition in_place (W : gset positive) (s : tsys) (t : tid) (th : kthread) : Prop :=
  match t_state th with
  | S_RUN => (exists c k, t_cpu th = Some c /\ s_cpus s !! c = Some k /\ c_curthread k = t /\ c_isidle k = false /\
                forall c' k', s_cpus s !! c' = Some k' -> c_curthread k' = t -> c' = c) /\
             forall l, live_list W s l -> t ∉ on_list s l
  | S_READY => exists c, t_cpu th = Some c /\ only_on W s t (c_runqueue c)
  | S_SLEEP => exists w, only_on W s t (wc_threads w)
  | S_ZOMBIE => exists c, t_cpu th = Some c /\ only_on W s t (c_zombies c)
  end.

(** ** Every operation returns and keeps the invariant *)

Lemma sys_self s T C Q H : sys s T C Q H -> sys s (s_threads s) (s_cpus s) Q H /\ s_threads s = T /\ s_cpus s = C.
Proof. intros Hs. destruct Hs as [<- <- ? ? ?]. by split_and!. Qed.

Lemma settled_ok {A} W s Q (m : SM tsys A) :
  sched_at W s Q -> reaches m s (settled (s_cpus s) Q) -> exists a s', m s = inr (a, s') /\ sched_ok W s'.
Proof.
  intros (_ & _ & Hst & HW) (a & T' & C' & Q' & H' & (s' & Hr & Hs') & Hv & [Hf1 Hf2] & _ & ->).
  exists a, s'. split; [done|]. exists Q'. destruct (sys_self _ _ _ _ _ Hs') as (Hs & HT & HC). rewrite <- HT, <- HC in Hv.
  split_and!; [done|done|intros c; by rewrite Hf1|intros w; by rewrite Hf2].
Qed.

Lemma release_woken s C Q c w :
  woken C Q [] c w s -> exists s' T' C' Q', spinlock_release c (wc_lock w) s = inr (tt, s') /\ sys s' T' C' Q' ∅ /\
    sched_inv T' C' Q' [] /\ forall l, (forall c, l <> c_runqueue c) -> Q' !! l = Q !! l.
Proof.
  intros (T' & C' & Q' & Hh & Hv & Hlen & HQ). destruct (release_held Hh) as (s' & Hr & Hs').
  - intros k Hk. by destruct (sv_cpu _ _ _ _ Hv c k Hk).
  - by exists s', T', C', Q'.
Qed.

(** A wake-up between acquiring and releasing the lock. *)
Lemma wake_ok W s Q c k th w ts (m : SM tsys unit) :
  sched_at W s Q -> s_cpus s !! c = Some k -> s_threads s !! c_curthread k = Some th ->
  (forall s1, held s1 (s_threads s) (s_cpus s) Q c (wc_lock w) -> exists s2, m s1 = inr (tt, s2) /\ woken (s_cpus s) (<[wc_threads w := ts]> Q) [] c w s2) ->
  is_Some (Q !! wc_threads w) ->
  exists s', (spinlock_acquire c (wc_lock w) ;; m ;; spinlock_release c (wc_lock w)) s = inr (tt, s') /\ sched_ok W s'.
Proof.
  intros Hat Hc Hth Hm Hw. pose proof Hat as (Hs & Hv & Hst & HW).
  destruct (acquire_locked (wc_lock w) Hs Hc Hth) as (s1 & Hr1 & Hl1).
  destruct (Hm s1) as (s2 & Hr2 & Hw2); [by exists k, th|].
  destruct (release_woken _ _ _ _ _ Hw2) as (s' & T' & C' & Q' & Hr & Hs' & Hv' & HQ).
  exists s'. rewrite (srun_call _ _ _ _ _ Hr1), (srun_call _ _ _ _ _ Hr2). split; [done|].
  exists Q'. destruct (sys_self _ _ _ _ _ Hs') as (Hs2 & HT & HC). rewrite <- HT, <- HC in Hv'. split_and!; [done|done|..].
  - intros c'. by rewrite HQ, lookup_insert_ne.
  - intros w'. rewrite HQ, lookup_insert_is_Some', HW by done. split; [|by right]. intros [[= ->]|?]; [by apply HW|done].
Qed.

Lemma op_returns W s Q c op :
  sched_at W s Q -> op_ok W s c op -> exists s', run_sched_op c op s = inr (tt, s') /\ sched_ok W s'.
Proof.
  intros Hat (k & th & Hc & Hth & Hop). pose proof Hat as (Hs & Hv & Hst & HW).
  destruct op as [|w name|w|w| |t proc mem| |]; cbn.
  - destruct (settled_ok W s Q (thread_yield c) Hat) as ([] & s' & Hr & Hok); [eapply reach_weaken; [by eapply yield_inv|by intros ???? []]|eauto].
  - destruct Hop as (Hi & [ts Hw]%HW). destruct (acquire_locked (wc_lock w) Hs Hc Hth) as (s1 & Hr1 & Hl1).
    destruct (sleep_inv _ _ _ _ _ _ _ _ name ts Hl1 Hv Hst Hc Hth Hi Hw) as ([] & T' & C' & Q' & H' & (s' & Hr & Hs') & Hset).
    destruct (settled_ok W s Q (sleep_on c w name) Hat) as ([] & s2 & Hr2 & Hok); [|eauto].
    exists tt, T', C', Q', H'. split; [|done]. exists s'. unfold sleep_on. by rewrite (srun_call _ _ _ _ _ Hr1).
  - apply HW in Hop as [ts Hw]. eapply wake_ok; [done..| |by eexists]. intros s1 Hh. by eapply wakeone_woken.
  - apply HW in Hop as [ts Hw]. eapply wake_ok; [done..| |by eexists]. intros s1 Hh. by eapply wakeall_woken.
  - destruct (settled_ok W s Q (thread_exit c) Hat) as ([] & s' & Hr & Hok); [by eapply exit_inv|eauto].
  - destruct Hop as (Ht & Hsz & Hp).
    destruct (settled_ok W s Q (thread_fork c t proc mem) Hat) as (r & s' & Hr & Hok).
    + eapply fork_inv; [done..|]. intros th' ?. by simplify_eq.
    + exists s'. by rewrite (srun_call _ _ _ _ _ Hr).
  - destruct (settled_ok W s Q (idle_wakeup c) Hat) as (b & s' & Hr & Hok); [by eapply idle_inv|].
    exists s'. by rewrite (srun_call _ _ _ _ _ Hr).
  - destruct (settled_ok W s Q (thread_consider_migration c) Hat) as ([] & s' & Hr & Hok); [by eapply migration_inv|eauto].
Qed.

Lemma steps_ok W s ops s' : sched_steps W s ops s' -> sched_ok W s -> sched_ok W s'.
Proof.
  induction 1 as [|s c op s1 ops s' Hop Hr _ IH]; [done|]. intros [Q HQ].
  destruct (op_returns W s Q c op HQ Hop) as (s2 & Hr2 & Hok). rewrite Hr in Hr2. simplify_eq. by apply IH.
Qed.

(** ** Places *)

Lemma on_list_eq W s Q l ts : sched_at W s Q -> live_list W s l -> Q !! l = Some ts -> on_list s l = ts.
Proof.
  intros (Hs & Hv & Hst & _) Hl Hq. unfold on_list. rewrite (forall_run _ Q l ts); [done|apply Hs|done|].
  eapply (length_list s l ts); [apply Hs|done|]. intros t Hin. destruct l as [c|c|w|c]; [| | |done].
  - apply (sv_ready _ _ _ _ Hv _ _ _ Hq) in Hin as (th & ? & _). by eexists.
  - apply (sv_zombie _ _ _ _ Hv _ _ _ Hq) in Hin as (th & ? & _). by eexists.
  - destruct (sv_wchan _ _ _ _ Hv _ _ _ Hq Hin) as (th & ? & _). by eexists.
Qed.

Lemma live_known W s Q l : sched_at W s Q -> live_list W s l -> exists ts, Q !! l = Some ts /\ on_list s l = ts.
Proof.
  intros Hat Hl. assert (is_Some (Q !! l)) as [ts Hq]; [|exists ts; split; [done|by eapply on_list_eq]].
  destruct Hat as (_ & Hv & _ & HW). destruct l; cbn in Hl; [by apply Hv|by apply Hv|by apply HW|done].
Qed.

Lemma only_on_intro W s Q t l ts :
  sched_at W s Q -> live_list W s l -> Q !! l = Some ts -> t ∈ ts -> only_on W s t l.
Proof.
  intros Hat Hl Hq Hin. split; [done|]. intros l' Hl'. destruct (live_known W s Q l' Hat Hl') as (ts' & Hq' & ->). split.
  - intros Hin'. destruct Hat as (Hs & _). symmetry. eapply (lr_apart _ _ (sy_lists _ _ _ _ _ Hs)); [exact Hq|exact Hq'|done|done].
  - intros ->. by simplify_eq.
Qed.

Lemma ok_in_place W s t th : sched_ok W s -> s_threads s !! t = Some th -> in_place W s t th.
Proof.
  intros [Q Hat] Ht. pose proof Hat as (Hs & Hv & Hst & HW). unfold in_place.
  destruct (tw_cpu _ _ _ (sv_thread _ _ _ _ Hv t th Ht)) as (c & Hcpu & Hlt).
  destruct (sv_queue _ _ _ _ Hv c Hlt) as [[rq Hrq] [zs Hzs]]. destruct (t_state th) eqn:Hst'.
  - split.
    + destruct (sv_run _ _ _ _ Hv t th Ht Hst') as (c' & k & Hcpu' & Hc & Hcur). exists c', k. split_and!; [done..| |].
      * destruct (sv_cpu _ _ _ _ Hv c' k Hc) as (_ & th' & ? & _ & Hr). simplify_eq. by apply Hr.
      * intros c2 k2 Hc2 Hcur2. rewrite <- Hcur2 in Ht. pose proof (cur_cpu Hv c2 k2 th Hc2 Ht). congruence.
    + intros l Hl. destruct (live_known W s Q l Hat Hl) as (ts & Hq & ->). eapply (running_off Hv); [done..|]. by intros c' ->.
  - exists c. split; [done|]. eapply only_on_intro; [done|done|exact Hrq|]. apply (sv_ready _ _ _ _ Hv _ _ _ Hrq). exists th.
    split_and!; try done. apply not_elem_of_nil.
  - destruct (sv_sleep _ _ _ _ Hv t th Ht Hst') as (w & ts & Hw & Hin); [apply not_elem_of_nil|]. exists w.
    eapply only_on_intro; [done| |done|done]. cbn. apply HW. by eexists.
  - exists c. split; [done|]. eapply only_on_intro; [done|done|exact Hzs|]. apply (sv_zombie _ _ _ _ Hv _ _ _ Hzs). by exists th.
Qed.

(** (C7) The thread system never loses or duplicates a thread, and none of its
    assertions fails: whatever sequence of valid operations ran on whatever
    CPUs, every thread is in exactly the one place its [t_state] names (it runs
    on its CPU, or it is on the run queue of its CPU, on one wait channel or
    among the zombies of its CPU), and every valid operation returns. *)
Theorem threads_in_place W s0 ops s :
  sched_ok W s0 -> sched_steps W s0 ops s ->
  (forall t th, s_threads s !! t = Some th -> in_place W s t th) /\
  (forall c op, op_ok W s c op -> exists s', run_sched_op c op s = inr (tt, s')).
Proof.
  intros H0 Hsteps. assert (sched_ok W s) as Hok by (by eapply steps_ok). split.
  - intros t th Ht. by apply ok_in_place.
  - intros c op Hop. destruct Hok as [Q HQ]. destruct (op_returns W s Q c op HQ Hop) as (s' & Hr & _). by exists s'.
Qed.

(** ** Fairness *)

Lemma yield_turn W s Q c k next ts :
  sched_at W s Q -> s_cpus s !! c = Some k -> c_isidle k = false -> Q !! c_runqueue c = Some (next :: ts) ->
  exists s' Q' k', thread_yield c s = inr (tt, s') /\ sched_at W s' Q' /\ Q' !! c_runqueue c = Some (ts ++ [c_curthread k]) /\
    s_cpus s' !! c = Some k' /\ c_curthread k' = next /\ c_isidle k' = false.
Proof.
  intros (Hs & Hv & Hst & HW) Hc Hi Hq.
  destruct (yield_inv s _ _ Q c k Hs Hv Hst Hc) as ([] & T' & C' & Q' & H' & (s' & Hr & Hs') & (Hv' & [Hf1 Hf2] & _ & ->) & Hp).
  destruct (Hp Hi _ Hq) as (Hq' & k' & Hk' & Hcur & Hi'). destruct (sys_self _ _ _ _ _ Hs') as (Hs2 & HT & HC).
  exists s', Q', k'. rewrite HC. split_and!; try done. unfold sched_at. rewrite <- HT, <- HC in Hv'.
  split_and!; [done|done|intros c'; by rewrite Hf1|intros w; by rewrite Hf2].
Qed.

Fixpoint yields (n : nat) (c : nat) : SM tsys unit :=
  match n with O => sret tt | S n' => thread_yield c ;; yields n' c end.

Lemma yields_turns W c t ts1 : forall s Q k ts2,
  sched_at W s Q -> s_cpus s !! c = Some k -> c_isidle k = false -> Q !! c_runqueue c = Some (ts1 ++ t :: ts2) ->
  exists s' Q' k', yields (S (length ts1)) c s = inr (tt, s') /\ sched_at W s' Q' /\
    Q' !! c_runqueue c = Some (ts2 ++ c_curthread k :: ts1) /\ s_cpus s' !! c = Some k' /\ c_curthread k' = t /\ c_isidle k' = false.
Proof.
  induction ts1 as [|a ts1 IH]; intros s Q k ts2 Hat Hc Hi Hq; cbn [length yields];
    destruct (yield_turn _ _ _ _ _ _ _ Hat Hc Hi Hq) as (s1 & Q1 & k1 & Hr & Hat1 & Hq1 & Hc1 & Hcur1 & Hi1).
  - exists s1, Q1, k1. rewrite (srun_call _ _ _ _ _ Hr). by split_and!.
  - change (ts1 ++ t :: ts2) with (ts1 ++ [t] ++ ts2) in Hq1. rewrite <- !app_assoc in Hq1.
    destruct (IH s1 Q1 k1 (ts2 ++ [c_curthread k])) as (s' & Q' & k' & Hr' & Hat' & Hq' & ?); [done..|].
    exists s', Q', k'. rewrite (srun_call _ _ _ _ _ Hr). split_and!; [done..| |by destruct_and!|by destruct_and!|by destruct_and!].
    rewrite Hq', Hcur1. by rewrite <- app_assoc.
Qed.

(** (C35) Every ready thread gets its turn: on a CPU whose run queue is
    [ts1 ++ t :: ts2], after one yield for each thread before [t] and one more
    [t] runs there, and the threads that ran before it, the first one included,
    wait behind the others in the order they ran. *)
Theorem yield_fair W s c k ts1 t ts2 :
  sched_ok W s -> s_cpus s !! c = Some k -> c_isidle k = false -> on_list s (c_runqueue c) = ts1 ++ t :: ts2 ->
  exists s' k', yields (S (length ts1)) c s = inr (tt, s') /\ s_cpus s' !! c = Some k' /\ c_curthread k' = t /\
    c_isidle k' = false /\ on_list s' (c_runqueue c) = ts2 ++ c_curthread k :: ts1.
Proof.
  intros [Q Hat] Hc Hi Hq. assert (live_list W s (c_runqueue c)) as Hl by (cbn; by eapply lookup_lt_Some).
  destruct (live_known W s Q _ Hat Hl) as (ts & HQ & Hon). rewrite Hon in Hq. subst ts.
  destruct (yields_turns W c t ts1 s Q k ts2 Hat Hc Hi HQ) as (s' & Q' & k' & Hr & Hat' & Hq' & Hc' & Hcur & Hi').
  exists s', k'. split_and!; [done..|]. eapply on_list_eq; [done| |done]. cbn. by eapply lookup_lt_Some.
Qed.

(** ** Two CPUs that run a thread each, and one wait channel *)

Definition started (c : nat) : kthread :=
  mk_kthread None S_RUN (Some guard_words) at_startup (Some c) (Some 1%positive) false IPL_NONE 0.
Definition demo_lids : list lid := [c_runqueue 0; c_zombies 0; c_runqueue 1; c_zombies 1; wc_threads 1].

Fixpoint init_lists (ls : list lid) (s : tlstore lid) : tlstore lid :=
  match ls with [] => s | l :: ls' => after (threadlist_init l) (init_lists ls' s) end.
Definition empty_lists (ls : list lid) : qmap := foldr (fun l Q => <[l := []]> Q) ∅ ls.

Definition demo_sys : tsys :=
  mk_tsys (<[1%positive := started 0]> (<[2%positive := started 1]> ∅)) [mk_cpu 1%positive false 0 0; mk_cpu 2%positive false 0 0]
    (after (threadlistnode_init 1%positive) (after (threadlistnode_init 2%positive) (init_lists demo_lids (mk_tls ∅ ∅)))) ∅.

Lemma empty_lists_lookup ls l : empty_lists ls !! l = if decide (l ∈ ls) then Some [] else None.
Proof.
  induction ls as [|a ls IH]; [by rewrite decide_False by apply not_elem_of_nil|].
  change (empty_lists (a :: ls)) with (<[a := [] : list tid]> (empty_lists ls)).
  rewrite lookup_insert, IH. destruct (decide (a = l)) as [->|Hne]; [by rewrite decide_True by left|].
  apply decide_ext. rewrite elem_of_cons. naive_solver.
Qed.

Lemma init_lists_rep ls : NoDup ls -> lists_rep (init_lists ls (mk_tls ∅ ∅)) (empty_lists ls).
Proof.
  induction 1 as [|l ls Hl Hnd IH]; [apply rep_empty|]. apply (after_init _ (empty_lists ls)); [done|].
  by rewrite empty_lists_lookup, decide_False.
Qed.

Lemma empty_lists_off ls t : off_lists (empty_lists ls) t.
Proof. intros l ts. rewrite empty_lists_lookup. case_decide; intros [= <-]. apply not_elem_of_nil. Qed.

Lemma demo_lookup t th : s_threads demo_sys !! t = Some th -> (t = 1%positive /\ th = started 0) \/ (t = 2%positive /\ th = started 1).
Proof.
  unfold demo_sys. cbn [s_threads]. rewrite !lookup_insert, lookup_empty. repeat case_decide; intros [= <-]; subst; auto.
Qed.

Lemma demo_cpu c k : s_cpus demo_sys !! c = Some k -> (c = 0%nat /\ k = mk_cpu 1%positive false 0 0) \/ (c = 1%nat /\ k = mk_cpu 2%positive false 0 0).
Proof. destruct c as [|[|c]]; cbn; intros [= <-]; auto. Qed.

Lemma demo_inv : sched_inv (s_threads demo_sys) (s_cpus demo_sys) (empty_lists demo_lids) [].
Proof.
  assert (forall t, ~ idle_cur (s_cpus demo_sys) t) as Hni by (intros t (c & k & [[-> ->]|[-> ->]]%demo_cpu & ? & _); done).
  constructor.
  - intros t th [[-> ->]|[-> ->]]%demo_lookup; (constructor; cbn; try done; [eexists; split; [done|lia]|by left|by intros ws [= <-]]).
  - intros c k [[-> ->]|[-> ->]]%demo_cpu; (split; [done|]; eexists; split; [reflexivity|done]).
  - intros t th [[-> ->]|[-> ->]]%demo_lookup _; [exists 0%nat|exists 1%nat]; eexists; done.
  - intros [|[|c]] Hc; cbn in Hc; [split; by eexists..|lia].
  - intros c ts t. rewrite empty_lists_lookup. case_decide; intros [= <-]. split; [by intros ?%not_elem_of_nil|].
    by intros (th & [[-> ->]|[-> ->]]%demo_lookup & ? & _).
  - intros c ts t. rewrite empty_lists_lookup. case_decide; intros [= <-]. split; [by intros ?%not_elem_of_nil|].
    by intros (th & [[-> ->]|[-> ->]]%demo_lookup & ? & _).
  - by intros t th [[-> ->]|[-> ->]]%demo_lookup.
  - intros w ts t. rewrite empty_lists_lookup. case_decide; intros [= <-]. by intros ?%not_elem_of_nil.
  - by intros t ?%not_elem_of_nil.
  - by vm_compute.
Qed.

Lemma demo_ok : sched_ok {[1%positive]} demo_sys.
Proof.
  exists (empty_lists demo_lids). split_and!; [|apply demo_inv|intros c; rewrite empty_lists_lookup, decide_False; [done|]|].
  - constructor; try done.
    + cbn [s_lists demo_sys]. do 2 (apply after_node_init; [|apply empty_lists_off]). apply init_lists_rep.
      by apply (bool_decide_unpack _); vm_compute.
    + intros t [th [[-> _]|[-> _]]%demo_lookup]; vm_compute; by eexists.
  - unfold demo_lids. by rewrite !elem_of_cons, elem_of_nil; naive_solver.
  - intros w. rewrite empty_lists_lookup, elem_of_singleton. case_decide as E.
    + split; [|by eexists]. unfold demo_lids in E. rewrite !elem_of_cons, elem_of_nil in E. naive_solver.
    + split; [by intros []|]. intros ->. destruct E. unfold demo_lids. rewrite !elem_of_cons. tauto.
Qed.

Definition demo_sched : list (nat * sched_op) :=
  [(0%nat, op_fork 3%positive None (fun _ => true)); (0%nat, op_migrate); (0%nat, op_sleep 1%positive "sem"); (1%nat, op_sleep 1%positive "sem");
   (0%nat, op_wakeone 1%positive); (0%nat, op_yield); (0%nat, op_wakeall 1%positive); (0%nat, op_exit); (1%nat, op_idle)].

Fixpoint run_all (ops : list (nat * sched_op)) (s : tsys) : tsys :=
  match ops with [] => s | (c, op) :: ops' => run_all ops' (after (run_sched_op c op) s) end.

Definition is_inr {A B} (x : A + B) : bool := match x with inr _ => true | inl _ => false end.

Lemma steps_run W s c op ops :
  op_ok W s c op -> is_inr (run_sched_op c op s) = true ->
  sched_steps W (after (run_sched_op c op) s) ops (run_all ops (after (run_sched_op c op) s)) ->
  sched_steps W s ((c, op) :: ops) (run_all ((c, op) :: ops) s).
Proof.
  cbn [run_all]. unfold after. intros Hop Hr Hs. destruct (run_sched_op c op s) as [|[[] s1]] eqn:E; [done|]. by eapply steps_cons.
Qed.

Lemma steps_done W s : sched_steps W s [] (run_all [] s).
Proof. apply steps_nil. Qed.

Definition demo_end : tsys := run_all demo_sched demo_sys.

Ltac run_demo :=
  eapply steps_run; [eexists _, _; split; [vm_compute; reflexivity|split; [vm_compute; reflexivity|]]|vm_compute; reflexivity|].

(** At the end threads 3 and 2 run; thread 1 has exited and is destroyed. *)
Lemma threads_in_place_witness :
  in_place {[1%positive]} demo_end 3%positive (default new_thread (s_threads demo_end !! 3%positive)) /\
  s_threads demo_end !! 1%positive = None.
Proof.
  split; [|vm_compute; reflexivity].
  refine (proj1 (threads_in_place {[1%positive]} demo_sys demo_sched demo_end demo_ok _) 3%positive _ _); [|vm_compute; reflexivity].
  unfold demo_end, demo_sched. run_demo; [split; [reflexivity|split; [vm_compute; reflexivity|by right; eexists]]|].
  run_demo; [done|]. do 2 (run_demo; [split; [reflexivity|by apply elem_of_singleton]|]).
  run_demo; [by apply elem_of_singleton|]. run_demo; [done|]. run_demo; [by apply elem_of_singleton|].
  do 2 (run_demo; [reflexivity|]). apply steps_done.
Defined.

(** Two threads are forked on CPU 0; the second one runs after two yields. *)
Definition demo_forks : list (nat * sched_op) :=
  [(0%nat, op_fork 3%positive None (fun _ => true)); (0%nat, op_fork 4%positive None (fun _ => true))].
Definition demo_two : tsys := run_all demo_forks demo_sys.

Lemma demo_two_ok : sched_ok {[1%positive]} demo_two.
Proof.
  apply (steps_ok _ demo_sys demo_forks); [|exact demo_ok]. unfold demo_two, demo_forks.
  do 2 (run_demo; [split; [reflexivity|split; [vm_compute; reflexivity|by right; eexists]]|]). apply steps_done.
Qed.

Lemma yield_fair_witness : exists s' k',
  yields 2 0 demo_two = inr (tt, s') /\ s_cpus s' !! 0%nat = Some k' /\ c_curthread k' = 4%positive /\ on_list s' (c_runqueue 0) = [1; 3]%positive.
Proof.
  destruct (yield_fair {[1%positive]} demo_two 0 (mk_cpu 1%positive false 0 0) [3%positive] 4%positive [] demo_two_ok)
    as (s' & k' & Hr & Hc & Hcur & _ & Hon); [vm_compute; reflexivity..|].
  exists s', k'. split_and!; [exact Hr|exact Hc|exact Hcur|exact Hon].
Defined.
