(* ===== verification/Array.v ===== *)
(** * Resizable arrays ([kern/lib/array.c], [kern/include/array.h])

    The cells of the block at [v], each with a pointer or not yet written; [num]
    and [max] are 32 bits, and so is the size of the block that is asked for.
    Whether the allocation of a block succeeds is an argument. *)

From S2P Require Import Prelude State Monad StopState.

#[local] Open Scope Z_scope.
#[local] Open Scope sm_scope.

Record array (A : Type) := mk_array {
  a_v : list (option A);
  a_num : Z;
  a_max : Z
}.
Arguments mk_array {A}.
Arguments a_v {A}.
Arguments a_num {A}.
Arguments a_max {A}.

(** [sizeof( *a->v)]. *)
Definition PTR_SIZE : Z := 4.

(** The loop that doubles [newmax]; [None] when the fuel is used up. *)
Fixpoint grow (fuel : nat) (num newmax : Z) : option Z :=
  match fuel with
  | O => None
  | S fuel' => if newmax <? num then grow fuel' num (if newmax =? 0 then 4 else u32 (newmax * 2)) else Some newmax
  end.

Section array.
Context {A : Type}.

Notation AM := (SM (array A)).

Definition array_init : AM unit := smodify (fun _ => mk_array [] 0 0).

(** The block is freed with the array, which must be empty. *)
Definition array_cleanup : AM unit :=
  num <- sget a_num ;;
  sassert (num =? 0) "a->num == 0" ;;
  smodify (fun a => mk_array [] (a_num a) (a_max a)).

Definition array_num : AM Z := sget a_num.

(** Element [index] of the block. *)
Definition cell (index : Z) : AM A := fun a => sderef (zlookup (a_v a) index ≫= id) "a->v[index]" a.
Definition set_cell (index : Z) (x : A) : AM unit := fun a =>
  if (0 <=? index) && (index <? zlen (a_v a)) then inr (tt, mk_array (zinsert index (Some x) (a_v a)) (a_num a) (a_max a))
  else inl (bad_access "a->v[index]").

Definition array_get (index : Z) : AM A :=
  num <- sget a_num ;;
  sassert (index <? num) "index < a->num" ;;
  cell index.

Definition array_set (index : Z) (x : A) : AM unit :=
  num <- sget a_num ;;
  sassert (index <? num) "index < a->num" ;;
  set_cell index x.

(** [memcpy] of the elements to a block of [cells] cells. *)
Definition moved_to (cells : Z) (a : array A) : option (list (option A)) :=
  if a_num a <=? cells then Some (take (Z.to_nat (a_num a)) (a_v a) ++ replicate (Z.to_nat (cells - a_num a)) None) else None.

Definition array_preallocate (memory : bool) (num : Z) : AM Z :=
  max <- sget a_max ;;
  if max <? num then
    match grow 64 num max with
    | None => sstop (loops_forever "array_preallocate")
    | Some newmax =>
        if memory then
          a <- sget id ;;
          v' <- sderef (moved_to (u32 (newmax * PTR_SIZE) / PTR_SIZE) a) "newptr" ;;
          smodify (fun a => mk_array v' (a_num a) newmax) ;;
          sret 0
        else sret ENOMEM
    end
  else sret 0.

Definition array_setsize (memory : bool) (num : Z) : AM Z :=
  result <- array_preallocate memory num ;;
  if negb (result =? 0) then sret result else
  smodify (fun a => mk_array (a_v a) num (a_max a)) ;;
  sret 0.

(** The result and the index of the new element. *)
Definition array_add (memory : bool) (x : A) : AM (Z * Z) :=
  index <- sget a_num ;;
  ret <- array_setsize memory (u32 (index + 1)) ;;
  if negb (ret =? 0) then sret (ret, index) else
  set_cell index x ;;
  sret (0, index).

Definition array_remove (index : Z) : AM unit :=
  a <- sget id ;;
  sassert (a_num a <=? a_max a) "a->num <= a->max" ;;
  sassert (index <? a_num a) "index < a->num" ;;
  let num_to_move := u32 (a_num a - (index + 1)) in
  smodify (fun a =>
    mk_array (take (Z.to_nat index) (a_v a) ++ take (Z.to_nat num_to_move) (drop (Z.to_nat (index + 1)) (a_v a))
              ++ drop (Z.to_nat (index + num_to_move)) (a_v a)) (u32 (a_num a - 1)) (a_max a)).

(** ** The list of the elements *)

(** [a] holds the elements [l]; the block is as large as it should be. *)
Record holds (a : array A) (l : list A) : Prop := mk_holds {
  ho_num : a_num a = zlen l;
  ho_cells : take (length l) (a_v a) = Some <$> l;
  ho_max : zlen (a_v a) = a_max a;
  ho_small : a_max a <= 2^29
}.
End array.

(** ** The loop *)

(** The sizes the loop goes through: 0 or a power of two from 4 on. *)
Definition loop_size (m : Z) : Prop := m = 0 \/ exists k, 2 <= k <= 31 /\ m = 2 ^ k.

Lemma loop_size_next m : loop_size m -> loop_size (if m =? 0 then 4 else u32 (m * 2)).
Proof.
  intros [->|(k & Hk & ->)]; [right; exists 2; by split|]. rewrite (proj2 (Z.eqb_neq (2 ^ k) 0)) by (pose proof (Z.pow_pos_nonneg 2 k); lia).
  rewrite Z.mul_comm, <- Z.pow_succ_r by lia. destruct (decide (k = 31)) as [->|Hne]; [left; done|right]. exists (Z.succ k). split; [lia|].
  apply u32_small. split; [apply Z.pow_nonneg; lia|apply Z.pow_lt_mono_r; lia].
Qed.

Lemma loop_size_le m : loop_size m -> 0 <= m <= 2 ^ 31.
Proof. intros [->|(k & Hk & ->)]; [lia|]. split; [apply Z.pow_nonneg; lia|apply Z.pow_le_mono_r; lia]. Qed.

Lemma grow_S fuel num m : grow (S fuel) num m = if m <? num then grow fuel num (if m =? 0 then 4 else u32 (m * 2)) else Some m.
Proof. done. Qed.

(** Past half of the address space it never ends. *)
Lemma grow_forever num : 2 ^ 31 < num -> forall fuel m, loop_size m -> grow fuel num m = None.
Proof.
  intros Hn fuel. induction fuel as [|fuel IH]; intros m Hm; [done|]. cbn. pose proof (loop_size_le m Hm).
  rewrite (proj2 (Z.ltb_lt m num)) by lia. by apply IH, loop_size_next.
Qed.

Lemma grow_ends num : num <= 2 ^ 31 -> forall fuel m, 0 < m -> num <= m * 2 ^ Z.of_nat fuel ->
  exists m', grow (S fuel) num m = Some m' /\ num <= m' /\ m <= m' /\ (m' = m \/ m' < 2 * num).
Proof.
  intros Hn fuel. induction fuel as [|fuel IH]; intros m Hm Hle.
  - exists m. cbn. rewrite (proj2 (Z.ltb_ge m num)) by lia. split_and!; [done|lia..|by left].
  - rewrite (grow_S (S fuel)).
    destruct (Z.ltb_spec m num) as [Hlt|Hge]; [|exists m; split_and!; [done|lia..|by left]].
    assert (u32 (m * 2) = m * 2) as Eu by (clear Hle IH; apply u32_small; unfold is_u32; lia).
    destruct (Z.eqb_spec m 0) as [|_]; [clear Hle IH; lia|]. rewrite Eu. clear Eu.
    destruct (IH (m * 2)) as (m' & -> & H1 & H2 & H3); [clear Hle IH; lia|rewrite Nat2Z.inj_succ, Z.pow_succ_r in Hle by lia; rewrite <- Z.mul_assoc; exact Hle|].
    exists m'. clear Hle IH. split_and!; [done|done|lia|]. right. lia.
Qed.

Lemma grow_enough num m : 0 <= num <= 2 ^ 31 -> 0 <= m ->
  exists m', grow 64 num m = Some m' /\ num <= m' /\ m <= m' /\ (m' = m \/ m' < 2 * num \/ m' = 4).
Proof.
  intros Hn Hm. destruct (decide (m = 0)) as [->|Hne].
  - rewrite (grow_S 63 num 0). change (0 =? 0) with true. cbn iota. destruct (Z.ltb_spec 0 num); [|exists 0; split_and!; [done|lia..|by left]].
    destruct (grow_ends num ltac:(lia) 62 4) as (m' & -> & H1 & H2 & H3); [lia|lia|]. exists m'. split_and!; [done|done|lia|]. destruct H3 as [->|H3]; auto.
  - destruct (grow_ends num ltac:(lia) 63 m) as (m' & -> & H1 & H2 & H3); [lia|lia|]. exists m'. split_and!; try done. destruct H3; auto.
Qed.

(** (C26) The loop in [array_preallocate] ends exactly for sizes of at most half of
    the address space.  From every capacity an array can have, the loop that
    doubles the capacity finds one that is large enough for any size up to
    [2^31], at most twice the size asked for; for a larger size the doubling
    wraps around to 0 and the loop never ends, whatever the number of rounds. *)
Theorem array_preallocate_ends num m :
  is_u32 num -> loop_size m ->
  (num <= 2 ^ 31 -> exists m', grow 64 num m = Some m' /\ num <= m' /\ (m' = m \/ m' < 2 * num \/ m' = 4)) /\
  (2 ^ 31 < num -> forall fuel, grow fuel num m = None).
Proof.
  intros Hn Hm. pose proof (loop_size_le m Hm). split; [|intros Hbig fuel; by apply grow_forever].
  intros Hs. destruct (grow_enough num m) as (m' & H1 & H2 & _ & H3); [unfold is_u32 in Hn; lia|lia|]. by exists m'.
Qed.

Lemma array_preallocate_ends_witness : grow 1000 (2 ^ 31 + 1) 0 = None /\ exists m', grow 64 5 4 = Some m'.
Proof.
  split.
  - apply (array_preallocate_ends (2 ^ 31 + 1) 0); [done|by left|lia].
  - destruct (proj1 (array_preallocate_ends 5 4 ltac:(done) ltac:(right; by exists 2))) as (m' & E & _); [lia|]. by exists m'.
Defined.

(** ** The operations on lists *)

Section refine.
Context {A : Type}.
Implicit Types (a : array A) (l : list A).

(** The largest size for which the block is not cut at 32 bits. *)
Definition ARRAY_LIMIT : Z := 2 ^ 28.

Lemma holds_room a l : holds a l -> zlen l <= a_max a.
Proof.
  intros [Hn Hc Hm Hs]. rewrite <- Hm. unfold zlen. apply (f_equal length) in Hc. rewrite length_take, length_fmap in Hc. lia.
Qed.

Lemma holds_lookup a l i x : holds a l -> l !! i = Some x -> zlookup (a_v a) (Z.of_nat i) = Some (Some x).
Proof.
  intros [_ Hc _ _] Hi. unfold zlookup. rewrite (proj2 (Z.ltb_ge _ 0)), Nat2Z.id by lia. pose proof (lookup_lt_Some _ _ _ Hi) as Hlt.
  rewrite <- (lookup_take_lt _ (length l)), Hc, list_lookup_fmap, Hi by done. done.
Qed.

Lemma array_get_run a l i x : holds a l -> l !! i = Some x -> array_get (Z.of_nat i) a = inr (x, a).
Proof.
  intros Hh Hi. pose proof (lookup_lt_Some _ _ _ Hi) as Hlt. unfold array_get. rewrite srun_get, srun_assert.
  - unfold cell, sderef. by rewrite (holds_lookup a l i x Hh Hi).
  - rewrite (ho_num _ _ Hh). unfold zlen. apply Z.ltb_lt. lia.
Qed.

Lemma array_preallocate_run a l memory num : holds a l -> 0 <= num <= ARRAY_LIMIT ->
  exists r a', array_preallocate memory num a = inr (r, a') /\ holds a' l /\
    (r = 0 /\ num <= a_max a' \/ r = ENOMEM /\ memory = false /\ a' = a /\ a_max a < num).
Proof.
  intros Hh Hn. pose proof (holds_room a l Hh) as Hroom. destruct Hh as [Hnum Hc Hm Hs]. unfold array_preallocate, ARRAY_LIMIT in *. rewrite srun_get.
  destruct (Z.ltb_spec (a_max a) num) as [Hlt|Hge].
  2: { exists 0, a. split; [done|]. split; [done|]. left. by split. }
  destruct (grow_enough num (a_max a)) as (m' & -> & H1 & H2 & H3); [lia|unfold zlen in *; lia|].
  destruct memory; [|exists ENOMEM, a; split; [done|]; split; [done|]; right; by split_and!].
  assert (m' <= 2 ^ 29) as Hm' by lia. rewrite srun_get. cbn [id]. unfold PTR_SIZE. rewrite (u32_small (m' * 4)) by (unfold is_u32, zlen in *; lia).
  rewrite Z.div_mul by lia. unfold moved_to. rewrite (proj2 (Z.leb_le _ _)) by (rewrite Hnum; lia).
  erewrite srun_deref by done. rewrite srun_modify. eexists 0, _. split; [done|]. split; [|left; split; [done|exact H1]].
  unfold zlen in *. constructor; cbn; [done| |unfold zlen; rewrite length_app, length_take, length_replicate; lia|done].
  rewrite Hnum, Nat2Z.id, Hc. rewrite take_app_length'; [done|by rewrite length_fmap].
Qed.

Lemma set_cell_end a l x : a_num a = zlen l + 1 -> take (length l) (a_v a) = Some <$> l -> zlen (a_v a) = a_max a -> a_max a <= 2 ^ 29 -> zlen l < a_max a ->
  exists a', set_cell (zlen l) x a = inr (tt, a') /\ holds a' (l ++ [x]).
Proof.
  intros Hn Hc Hm Hs Hlt. unfold set_cell. rewrite (proj2 (Z.leb_le 0 (zlen l))), (proj2 (Z.ltb_lt _ _)) by (unfold zlen in *; lia). cbn [andb].
  eexists. split; [done|]. unfold zinsert. rewrite (proj2 (Z.ltb_ge _ 0)) by (unfold zlen; lia). unfold zlen in *. rewrite Nat2Z.id.
  constructor; cbn; [rewrite Hn; unfold zlen; rewrite length_app; cbn; lia| |unfold zlen; by rewrite length_insert|done].
  rewrite fmap_app, length_app. cbn [length fmap list_fmap]. rewrite Nat.add_1_r.
  rewrite (take_S_r _ _ (Some x)) by (apply list_lookup_insert_eq; lia). rewrite take_insert_ge by lia. by rewrite Hc.
Qed.

Lemma array_add_run a l memory x : holds a l -> zlen l < ARRAY_LIMIT ->
  exists r i a', array_add memory x a = inr ((r, i), a') /\
    (r = 0 /\ i = zlen l /\ holds a' (l ++ [x]) \/ r = ENOMEM /\ memory = false /\ holds a' l).
Proof.
  intros Hh Hl. unfold array_add, array_setsize. rewrite srun_get. pose proof (ho_num _ _ Hh) as Hnum. rewrite Hnum.
  rewrite u32_small by (unfold is_u32, ARRAY_LIMIT, zlen in *; lia).
  destruct (array_preallocate_run a l memory (zlen l + 1) Hh) as (r & a1 & Hrun & Hh1 & Hr); [unfold zlen in *; lia|].
  rewrite srun_bind, (srun_call _ _ _ _ _ Hrun). destruct Hr as [[-> Hroom]|(-> & -> & -> & _)]; cbn [negb Z.eqb].
  - rewrite srun_bind, srun_modify, srun_ret. cbn [negb Z.eqb]. destruct Hh1 as [Hn1 Hc1 Hm1 Hs1].
    destruct (set_cell_end (mk_array (a_v a1) (zlen l + 1) (a_max a1)) l x) as (a' & Hset & Hh'); [done|done|done|done|cbn; lia|].
    rewrite (srun_call _ _ _ _ _ Hset). exists 0, (zlen l), a'. split; [done|]. left. by split_and!.
  - exists ENOMEM, (zlen l), a. split; [done|]. right. by split_and!.
Qed.

Lemma array_remove_run a l i : holds a l -> (i < length l)%nat ->
  exists a', array_remove (Z.of_nat i) a = inr (tt, a') /\ holds a' (delete i l).
Proof.
  intros Hh Hi. pose proof (holds_room a l Hh) as Hroom. destruct Hh as [Hn Hc Hm Hs]. unfold array_remove. rewrite srun_get. cbn [id].
  rewrite srun_assert by (apply Z.leb_le; lia). rewrite srun_assert by (apply Z.ltb_lt; unfold zlen in *; lia).
  assert (u32 (a_num a - (Z.of_nat i + 1)) = zlen l - (Z.of_nat i + 1)) as -> by (rewrite Hn; apply u32_small; unfold is_u32, zlen in *; lia).
  eexists. split; [done|]. unfold zlen in *. set (k := Z.to_nat (Z.of_nat (length l) - (Z.of_nat i + 1))).
  assert (length (delete i l) = (i + k)%nat) as Hlen by (rewrite length_delete by (by apply lookup_lt_is_Some); lia).
  rewrite Nat2Z.id. constructor; cbn.
  - rewrite u32_small by (unfold is_u32; lia). rewrite Hn. unfold zlen. rewrite Hlen. lia.
  - rewrite Hlen, app_assoc, take_app_length'.
    + rewrite delete_take_drop, fmap_app, fmap_take, fmap_drop. rewrite <- Hc. f_equal.
      * rewrite take_take. f_equal. lia.
      * rewrite skipn_firstn_comm. f_equal; [lia|f_equal; lia].
    + rewrite length_app, !length_take, length_drop. lia.
  - unfold zlen. rewrite !length_app, !length_take, !length_drop. lia.
  - done.
Qed.

Lemma array_set_run a l i x : holds a l -> (i < length l)%nat ->
  exists a', array_set (Z.of_nat i) x a = inr (tt, a') /\ holds a' (<[i := x]> l).
Proof.
  intros Hh Hi. pose proof (holds_room a l Hh) as Hroom. destruct Hh as [Hn Hc Hm Hs]. unfold array_set, set_cell. unfold zlen in *.
  rewrite srun_get, srun_assert by (apply Z.ltb_lt; lia). unfold zlen. rewrite (proj2 (Z.leb_le 0 _)), (proj2 (Z.ltb_lt _ _)) by lia. cbn [andb].
  eexists. split; [done|]. unfold zinsert. rewrite (proj2 (Z.ltb_ge _ 0)), Nat2Z.id by lia.
  constructor; cbn; [by rewrite Hn; unfold zlen; rewrite length_insert| |by unfold zlen; rewrite length_insert|done].
  rewrite length_insert, take_insert_lt by lia. by rewrite Hc, list_fmap_insert.
Qed.

(** (C25) Arrays implement lists.  On an array that holds the list [l]: the number
    of elements is its length; [array_get] returns the element at the index and
    changes nothing; [array_set] replaces it; [array_add] appends, with the index
    of the new element, or returns [ENOMEM] and leaves the list as it was, only
    if no memory is left; [array_remove] takes one element out and keeps the
    order of the others.  No call fails an assertion or leaves the block, for
    arrays of up to [2^28] elements. *)
Theorem array_refines a l : holds a l ->
  array_num a = inr (zlen l, a) /\
  (forall i x, l !! i = Some x -> array_get (Z.of_nat i) a = inr (x, a)) /\
  (forall i x, (i < length l)%nat -> exists a', array_set (Z.of_nat i) x a = inr (tt, a') /\ holds a' (<[i := x]> l)) /\
  (forall memory x, zlen l < ARRAY_LIMIT -> exists r i a', array_add memory x a = inr ((r, i), a') /\
     (r = 0 /\ i = zlen l /\ holds a' (l ++ [x]) \/ r = ENOMEM /\ memory = false /\ holds a' l)) /\
  (forall i, (i < length l)%nat -> exists a', array_remove (Z.of_nat i) a = inr (tt, a') /\ holds a' (delete i l)).
Proof.
  intros Hh. split_and!.
  - unfold array_num, sget. by rewrite (ho_num _ _ Hh).
  - intros i x. by apply array_get_run.
  - intros i x. by apply array_set_run.
  - intros memory x. by apply array_add_run.
  - intros i. by apply array_remove_run.
Qed.
End refine.

(** Two elements in a block of four cells. *)
Lemma array_refines_witness :
  exists a', array_remove 0 (mk_array [Some 7; Some 8; None; None] 2 4) = inr (tt, a') /\ holds a' [8].
Proof.
  assert (holds (mk_array [Some 7; Some 8; None; None] 2 4) [7; 8]) as Hh by (by constructor).
  destruct (array_refines _ _ Hh) as (_ & _ & _ & _ & Hr). apply (Hr 0%nat). cbn. lia.
Defined.
