(* ===== verification/Uio.v ===== *)
(** * Moving data ([kern/lib/uio.c], [kern/vm/copyinout.c])

    Memory is bytes at 32-bit virtual addresses: below [USERSPACETOP] those of
    the current process, above it the kernel's.  [accessible] is the part of
    the virtual memory system: whether a read or a write of a user address is
    served, or ends in the recovery function [copyfail].  A copy that faults has
    copied the bytes before the bad one.  The theorems: [copycheck] accepts
    exactly the ranges inside user space; no copy on behalf of a process
    touches kernel memory; [uiomove] transfers as much as the request and the
    residue allow, in order, and always ends. *)

From S2P Require Import Prelude State Monad StopState.

#[local] Open Scope Z_scope.
#[local] Open Scope sm_scope.

Definition USERSPACETOP : Z := MIPS_KSEG0.
Definition ENAMETOOLONG : Z := 7.

(** ** Memory *)

Notation memory := (gmap Z Z) (only parsing).

Definition byte_at (m : memory) (a : Z) : Z := default 0 (m !! a).
Definition load (m : memory) (addrs : list Z) : list Z := byte_at m <$> addrs.
Fixpoint store (addrs bytes : list Z) (m : memory) : memory :=
  match addrs, bytes with
  | a :: addrs', b :: bytes' => store addrs' bytes' (<[a := b]> m)
  | _, _ => m
  end.

(** The addresses of [n] bytes from [a] on. *)
Definition span (a n : Z) : list Z := (fun i => a + Z.of_nat i) <$> seq 0 (Z.to_nat n).

(** [memmove] and [memcpy] *)
Definition memmove (dest src n : Z) : SM memory unit :=
  smodify (fun m => store (span dest n) (load m (span src n)) m).

Section uio.
Context (accessible : bool -> Z -> bool).    (* write?, address *)
Context (curas : option positive).           (* what proc_getas() returns *)

(** ** User memory *)

(** The result and [*stoplen]. *)
Definition copycheck (userptr len : Z) : Z * Z :=
  let bot := userptr in
  let top := u32 (bot + len - 1) in
  if top <? bot then (EFAULT, len) else
  if USERSPACETOP <=? bot then (EFAULT, len) else
  if USERSPACETOP <=? top then (0, USERSPACETOP - bot) else
  (0, len).

(** How many of the next [n] user bytes can be accessed before one faults. *)
Fixpoint reach (write : bool) (a : Z) (n : nat) : Z :=
  match n with
  | O => 0
  | S n' => if accessible write a then 1 + reach write (a + 1) n' else 0
  end.

Definition copyin (usersrc dest len : Z) : SM memory Z :=
  let '(result, stoplen) := copycheck usersrc len in
  if negb (result =? 0) then sret result else
  if negb (stoplen =? len) then sret EFAULT else
  let k := reach false usersrc (Z.to_nat len) in
  memmove dest usersrc k ;;
  if k =? len then sret 0 else sret EFAULT.

Definition copyout (src userdest len : Z) : SM memory Z :=
  let '(result, stoplen) := copycheck userdest len in
  if negb (result =? 0) then sret result else
  if negb (stoplen =? len) then sret EFAULT else
  let k := reach true userdest (Z.to_nat len) in
  memmove userdest src k ;;
  if k =? len then sret 0 else sret EFAULT.

(** [copystr] from index [i] on; [ok a b] says whether the user address among
    [a] (read) and [b] (written) can be accessed.  The second result is
    [*gotlen]. *)
Fixpoint copystr_from (fuel : nat) (ok : Z -> Z -> bool) (dest src maxlen stoplen i : Z) : SM memory (Z * option Z) :=
  match fuel with
  | O => sret (if stoplen <? maxlen then EFAULT else ENAMETOOLONG, None)
  | S fuel' =>
      if negb (ok (src + i) (dest + i)) then sret (EFAULT, None) else
      c <- sget (fun m => byte_at m (src + i)) ;;
      smodify (fun m => <[dest + i := c]> m) ;;
      if c =? 0 then sret (0, Some (i + 1)) else copystr_from fuel' ok dest src maxlen stoplen (i + 1)
  end.

Definition copystr (ok : Z -> Z -> bool) (dest src maxlen stoplen : Z) : SM memory (Z * option Z) :=
  copystr_from (Z.to_nat (Z.min maxlen stoplen)) ok dest src maxlen stoplen 0.

Definition copyinstr (usersrc dest len : Z) : SM memory (Z * option Z) :=
  let '(result, stoplen) := copycheck usersrc len in
  if negb (result =? 0) then sret (result, None) else
  copystr (fun s _ => accessible false s) dest usersrc len stoplen.

Definition copyoutstr (src userdest len : Z) : SM memory (Z * option Z) :=
  let '(result, stoplen) := copycheck userdest len in
  if negb (result =? 0) then sret (result, None) else
  copystr (fun _ d => accessible true d) userdest src len stoplen.

(** ** Requests *)

Inductive uio_rw_t := UIO_READ | UIO_WRITE.
Inductive uio_seg := UIO_USERISPACE | UIO_USERSPACE | UIO_SYSSPACE.

Record iovec := mk_iovec { iov_base : Z; iov_len : Z }.

(** [uio_iovcnt] is the number of elements of [uio_iov]. *)
Record uio := mk_uio {
  uio_iov : list iovec;
  uio_offset : Z;
  uio_resid : Z;
  uio_segflg : uio_seg;
  uio_rw : uio_rw_t;
  uio_space : option positive
}.

Definition set_iov x u := mk_uio x (uio_offset u) (uio_resid u) (uio_segflg u) (uio_rw u) (uio_space u).
Definition set_offset x u := mk_uio (uio_iov u) x (uio_resid u) (uio_segflg u) (uio_rw u) (uio_space u).
Definition set_resid x u := mk_uio (uio_iov u) (uio_offset u) x (uio_segflg u) (uio_rw u) (uio_space u).

(** One transfer of [size] bytes between [ptr] and the current buffer. *)
Definition uio_transfer (seg : uio_seg) (rw : uio_rw_t) (ptr base size : Z) : SM memory Z :=
  match seg with
  | UIO_SYSSPACE =>
      match rw with UIO_READ => memmove base ptr size | UIO_WRITE => memmove ptr base size end ;;
      sret 0
  | UIO_USERSPACE | UIO_USERISPACE =>
      match rw with UIO_READ => copyout ptr base size | UIO_WRITE => copyin base ptr size end
  end.

(** A buffer is left behind, or something is moved and either the request or
    the buffer is exhausted: two rounds per buffer are enough. *)
Fixpoint uiomove_loop (fuel : nat) (ptr n : Z) (u : uio) : SM memory (Z * uio) :=
  if negb ((0 <? n) && (0 <? uio_resid u)) then sret (0, u) else
  match fuel, uio_iov u with
  | O, _ => sstop (loops_forever "uiomove")
  | _, [] => sstop (bad_access "uio->uio_iov")
  | S fuel', iov :: iovs =>
      let size := if n <? iov_len iov then n else iov_len iov in
      if size =? 0 then
        if bool_decide (iovs = []) then sstop (panic_called "uiomove: ran out of buffers")
        else uiomove_loop fuel' ptr n (set_iov iovs u)
      else
        result <- uio_transfer (uio_segflg u) (uio_rw u) ptr (iov_base iov) size ;;
        if negb (result =? 0) then sret (result, u) else
        uiomove_loop fuel' (ptr + size) (n - size)
          (mk_uio (mk_iovec (iov_base iov + size) (iov_len iov - size) :: iovs)
             (uio_offset u + size) (u32 (uio_resid u - size)) (uio_segflg u) (uio_rw u) (uio_space u))
  end.

Definition uiomove (ptr n : Z) (u : uio) : SM memory (Z * uio) :=
  match uio_segflg u with
  | UIO_SYSSPACE => sassert (bool_decide (uio_space u = None)) "uio->uio_space == NULL"
  | _ => sassert (bool_decide (uio_space u = curas)) "uio->uio_space == proc_getas()"
  end ;;
  uiomove_loop (2 * length (uio_iov u) + 1) ptr n u.

(** [zeros]: the address of the static buffer of 16 zeros. *)
Fixpoint uiomovezeros_loop (fuel : nat) (zeros n : Z) (u : uio) : SM memory (Z * uio) :=
  if negb (0 <? n) then sret (0, u) else
  match fuel with
  | O => sstop (loops_forever "uiomovezeros")
  | S fuel' =>
      let amt := if n <? 16 then n else 16 in
      ru <- uiomove zeros amt u ;;
      if negb (fst ru =? 0) then sret ru else uiomovezeros_loop fuel' zeros (n - amt) (snd ru)
  end.

Definition uiomovezeros (zeros n : Z) (u : uio) : SM memory (Z * uio) :=
  sassert (match uio_rw u with UIO_READ => true | UIO_WRITE => false end) "uio->uio_rw == UIO_READ" ;;
  uiomovezeros_loop (Z.to_nat n) zeros n u.

Definition uio_kinit (kbuf len pos : Z) (rw : uio_rw_t) : uio :=
  mk_uio [mk_iovec kbuf len] pos len UIO_SYSSPACE rw None.
End uio.

(** ** Memory *)

Lemma length_span a n : length (span a n) = Z.to_nat n.
Proof. unfold span. by rewrite length_fmap, length_seq. Qed.

Lemma elem_span a n x : x ∈ span a n <-> a <= x < a + n.
Proof.
  unfold span. rewrite list_elem_of_fmap. split.
  - intros (i & -> & Hi%elem_of_seq). lia.
  - intros Hx. exists (Z.to_nat (x - a)). split; [lia|]. apply elem_of_seq. lia.
Qed.

Lemma NoDup_span a n : NoDup (span a n).
Proof. unfold span. apply NoDup_fmap_2; [intros i j; lia|apply NoDup_seq]. Qed.

Lemma span_app a x y : 0 <= x -> 0 <= y -> span a (x + y) = span a x ++ span (a + x) y.
Proof.
  intros Hx Hy. unfold span. rewrite Z2Nat.inj_add, seq_app, fmap_app by done. f_equal.
  rewrite Nat.add_0_l, <- (Nat.add_0_r (Z.to_nat x)) at 1. rewrite <- fmap_add_seq, <- list_fmap_compose.
  apply list_fmap_ext. intros i j _. cbn. lia.
Qed.

Lemma span_nil a n : n <= 0 -> span a n = [].
Proof. intros. unfold span. by replace (Z.to_nat n) with 0%nat by lia. Qed.

Lemma span_one a : span a 1 = [a].
Proof. change (span a 1) with [a + 0]. by rewrite Z.add_0_r. Qed.

Lemma elem_of_take_1 {A} (x : A) n l : x ∈ take n l -> x ∈ l.
Proof. intros (i & Hi & _)%elem_of_take. by eapply list_elem_of_lookup_2. Qed.
Lemma elem_of_drop_1 {A} (x : A) n l : x ∈ drop n l -> x ∈ l.
Proof. intros Hx. rewrite <- (take_drop n l). apply elem_of_app. by right. Qed.

Lemma length_load m addrs : length (load m addrs) = length addrs.
Proof. apply length_fmap. Qed.

Lemma load_app m l1 l2 : load m (l1 ++ l2) = load m l1 ++ load m l2.
Proof. apply fmap_app. Qed.

Lemma store_ne addrs : forall bytes m a, a ∉ addrs -> byte_at (store addrs bytes m) a = byte_at m a.
Proof.
  induction addrs as [|x addrs IH]; intros [|b bytes] m a Ha; cbn; try done.
  apply not_elem_of_cons in Ha as [Hne Ha]. rewrite IH by done. unfold byte_at. by rewrite lookup_insert_ne.
Qed.

Lemma load_store_ne addrs bytes m l : (forall a, a ∈ l -> a ∉ addrs) -> load (store addrs bytes m) l = load m l.
Proof. intros Hd. apply list_fmap_ext. intros i a Hi. apply store_ne, Hd. by eapply list_elem_of_lookup_2. Qed.

Lemma load_store addrs : forall bytes m, NoDup addrs -> length addrs = length bytes -> load (store addrs bytes m) addrs = bytes.
Proof.
  induction addrs as [|a addrs IH]; intros [|b bytes] m Hnd Hlen; cbn in *; try done.
  apply NoDup_cons in Hnd as [Ha Hnd].
  change (byte_at (store addrs bytes (<[a := b]> m)) a :: load (store addrs bytes (<[a := b]> m)) addrs = b :: bytes).
  rewrite IH by (done || lia). f_equal. rewrite store_ne by done. unfold byte_at. by rewrite lookup_insert_eq.
Qed.

Lemma store_app l1 : forall b1 l2 b2 m, length l1 = length b1 -> store (l1 ++ l2) (b1 ++ b2) m = store l2 b2 (store l1 b1 m).
Proof. induction l1 as [|a l1 IH]; intros [|b b1] l2 b2 m Hlen; cbn in *; try done. apply IH. lia. Qed.

(** ** User ranges *)

(** [copycheck] is exact.  For an address and a length of 32 bits it
    accepts a range with its full length if and only if the range is not empty
    and ends below [USERSPACETOP]; it accepts a range that starts below
    [USERSPACETOP] and crosses it, cut there; everything else, a range that
    wraps around the address space included, is [EFAULT]. *)
Lemma copycheck_exact userptr len stoplen :
  is_u32 userptr -> is_u32 len ->
  copycheck userptr len = (0, stoplen) <->
    (0 < len /\ userptr + len <= USERSPACETOP /\ stoplen = len) \/
    (userptr < USERSPACETOP /\ USERSPACETOP < userptr + len <= 2^32 /\ stoplen = USERSPACETOP - userptr) \/
    (userptr = 0 /\ len = 0 /\ stoplen = USERSPACETOP).
Proof.
  unfold is_u32, copycheck, EFAULT, u32, USERSPACETOP, MIPS_KSEG0. intros Hp Hl.
  set (top := (userptr + len - 1) mod 2^32).
  assert ((userptr + len <= 0 /\ top = 2^32 - 1) \/ (0 < userptr + len <= 2^32 /\ top = userptr + len - 1) \/
    (2^32 < userptr + len /\ top = userptr + len - 1 - 2^32)) as Htop by (subst top; lia).
  clearbody top. destruct (Z.ltb_spec top userptr), (Z.leb_spec 2147483648 userptr), (Z.leb_spec 2147483648 top);
    (split; [intros Heq|]); try discriminate Heq; try (injection Heq as Heq); try lia; intros; f_equal; lia.
Qed.

(** ** What [uiomove] transfers *)

Definition iov_total (iovs : list iovec) : Z := foldr (fun v t => iov_len v + t) 0 iovs.

(** The buffers are long enough for the residue, and a request that could run
    past the residue finds them exhausted there. *)
Record uio_ok (n : Z) (u : uio) : Prop := mk_uio_ok {
  uk_lens : Forall (fun v => 0 <= iov_len v) (uio_iov u);
  uk_resid : 0 <= uio_resid u <= iov_total (uio_iov u);
  uk_small : uio_resid u < 2^32;
  uk_exact : n <= uio_resid u \/ uio_resid u = iov_total (uio_iov u)
}.

(** The addresses the request still covers, in order. *)
Definition iov_addrs (iovs : list iovec) : list Z := iovs ≫= (fun v => span (iov_base v) (iov_len v)).
Definition uio_addrs (u : uio) : list Z := take (Z.to_nat (uio_resid u)) (iov_addrs (uio_iov u)).

Lemma iov_total_nonneg iovs : Forall (fun v => 0 <= iov_len v) iovs -> 0 <= iov_total iovs.
Proof. unfold iov_total. induction 1 as [|v iovs Hv Hf IH]; cbn in *; lia. Qed.

Lemma length_iov_addrs iovs : Forall (fun v => 0 <= iov_len v) iovs -> Z.of_nat (length (iov_addrs iovs)) = iov_total iovs.
Proof.
  unfold iov_total, iov_addrs. induction 1 as [|v iovs Hv Hf IH]; [done|]. cbn in *. rewrite length_app, length_span. lia.
Qed.

Lemma length_uio_addrs n u : uio_ok n u -> Z.of_nat (length (uio_addrs u)) = uio_resid u.
Proof. intros [Hl Hr _ _]. unfold uio_addrs. rewrite length_take. pose proof (length_iov_addrs _ Hl). lia. Qed.

(** [u'] is [u] after [k] bytes. *)
Record advanced (u : uio) (k : Z) (u' : uio) : Prop := mk_advanced {
  ad_offset : uio_offset u' = uio_offset u + k;
  ad_resid : uio_resid u' = uio_resid u - k;
  ad_iov : iov_addrs (uio_iov u') = drop (Z.to_nat k) (iov_addrs (uio_iov u));
  ad_seg : uio_segflg u' = uio_segflg u;
  ad_rw : uio_rw u' = uio_rw u;
  ad_space : uio_space u' = uio_space u;
  ad_lens : Forall (fun v => 0 <= iov_len v) (uio_iov u');
  ad_total : uio_resid u' <= iov_total (uio_iov u')
}.

Lemma ad_addrs u k u' : advanced u k u' -> 0 <= k -> uio_addrs u' = drop (Z.to_nat k) (uio_addrs u).
Proof.
  intros Ha Hk. unfold uio_addrs. rewrite (ad_iov _ _ _ Ha), (ad_resid _ _ _ Ha), skipn_firstn_comm. f_equal. lia.
Qed.

Lemma advanced_refl n u : uio_ok n u -> advanced u 0 u.
Proof. intros [? ? ? ?]. constructor; try done; lia. Qed.

Lemma advanced_trans u k u1 k' u' : 0 <= k -> 0 <= k' -> advanced u k u1 -> advanced u1 k' u' -> advanced u (k + k') u'.
Proof.
  intros Hk Hk' [Ho Hr Ha Hs Hw Hp Hl Ht] [Ho' Hr' Ha' Hs' Hw' Hp' Hl' Ht']. constructor; try done; try congruence; try lia.
  rewrite Ha', Ha, drop_drop. f_equal. lia.
Qed.

(** One buffer is left behind. *)
Lemma drop_iov n u v iovs : uio_ok n u -> uio_iov u = v :: iovs -> iov_len v = 0 ->
  uio_ok n (set_iov iovs u) /\ advanced u 0 (set_iov iovs u).
Proof.
  intros [Hl Hr Hs He] Hi H0. rewrite Hi in *. apply Forall_cons in Hl as [_ Hl]. cbn in Hr, He. rewrite H0 in *. split.
  - constructor; cbn; try done; lia.
  - constructor; cbn; try done; try lia. unfold uio_addrs. cbn. rewrite Hi. cbn. by rewrite H0, (span_nil _ 0).
Qed.

(** [size] bytes of the first buffer are used. *)
Definition use_iov (size : Z) (v : iovec) (iovs : list iovec) (u : uio) : uio :=
  mk_uio (mk_iovec (iov_base v + size) (iov_len v - size) :: iovs)
    (uio_offset u + size) (u32 (uio_resid u - size)) (uio_segflg u) (uio_rw u) (uio_space u).

Lemma use_iov_ok n u v iovs size : uio_ok n u -> uio_iov u = v :: iovs -> 0 < size <= n -> size <= iov_len v -> size <= uio_resid u ->
  uio_ok (n - size) (use_iov size v iovs u) /\ advanced u size (use_iov size v iovs u) /\
  take (Z.to_nat size) (uio_addrs u) = span (iov_base v) size.
Proof.
  intros [Hl Hr Hs He] Hi Hn Hv Hres. rewrite Hi in *. apply Forall_cons in Hl as [Hlv Hl]. cbn in Hr, He.
  assert (u32 (uio_resid u - size) = uio_resid u - size) as Hu by (apply u32_small; unfold is_u32; lia).
  assert (iov_addrs (uio_iov u) = span (iov_base v) size ++ iov_addrs (mk_iovec (iov_base v + size) (iov_len v - size) :: iovs)) as Ha.
  { rewrite Hi. unfold iov_addrs. cbn. rewrite app_assoc, <- span_app by lia. do 2 f_equal. lia. }
  split; [|split].
  - constructor; cbn; rewrite ?Hu; try lia. apply Forall_cons. cbn. split; [lia|done].
  - constructor; cbn; rewrite ?Hu; try done; try lia.
    + rewrite Ha, drop_app_length' by (by rewrite length_span). done.
    + apply Forall_cons. cbn. split; [lia|done].
  - unfold uio_addrs. rewrite Ha, take_take, take_app_le, take_ge; [done|rewrite length_span; lia..].
Qed.

(** Memory after [k] bytes moved between [ptr] and [addrs]. *)
Definition moved (rw : uio_rw_t) (ptr : Z) (addrs : list Z) (k : Z) (m : memory) : memory :=
  let l := take (Z.to_nat k) addrs in
  match rw with UIO_READ => store l (load m (span ptr k)) m | UIO_WRITE => store (span ptr k) (load m l) m end.

Lemma moved_nil rw ptr addrs k m : k <= 0 -> moved rw ptr addrs k m = m.
Proof. intros Hk. unfold moved. rewrite span_nil by done. replace (Z.to_nat k) with 0%nat by lia. by destruct rw. Qed.

Lemma moved_split rw ptr addrs k1 k2 m :
  0 <= k1 -> 0 <= k2 -> k1 + k2 <= Z.of_nat (length addrs) ->
  (forall a, a ∈ span ptr (k1 + k2) -> a ∉ take (Z.to_nat (k1 + k2)) addrs) ->
  moved rw ptr addrs (k1 + k2) m = moved rw (ptr + k1) (drop (Z.to_nat k1) addrs) k2 (moved rw ptr addrs k1 m).
Proof.
  intros H1 H2 Hlen Hd. unfold moved. rewrite span_app in * by done.
  rewrite Z2Nat.inj_add, <- take_take_drop in * by done.
  assert (length (take (Z.to_nat k1) addrs) = Z.to_nat k1) as Hl1 by (rewrite length_take; lia).
  assert (forall a, a ∈ span (ptr + k1) k2 -> a ∉ take (Z.to_nat k1) addrs) as Hd1.
  { intros a Ha Hin. apply (Hd a); apply elem_of_app; [by right|by left]. }
  assert (forall a, a ∈ take (Z.to_nat k2) (drop (Z.to_nat k1) addrs) -> a ∉ span ptr k1) as Hd2.
  { intros a Ha Hin. apply (Hd a); apply elem_of_app; [by left|by right]. }
  destruct rw; rewrite load_app.
  - rewrite store_app by (rewrite length_load, length_span; lia). f_equal. symmetry. by apply load_store_ne.
  - rewrite store_app by (rewrite length_load, length_span; lia). f_equal. symmetry. by apply load_store_ne.
Qed.

(** Only addresses of [where_] changed. *)
Definition changes_only (where_ : Z -> Prop) (m m' : memory) : Prop := forall a, byte_at m' a <> byte_at m a -> where_ a.

Lemma changes_only_trans P m m1 m' : changes_only P m m1 -> changes_only P m1 m' -> changes_only P m m'.
Proof. intros H1 H2 a Ha. destruct (decide (byte_at m1 a = byte_at m a)) as [E|E]; [apply H2; by rewrite E|by apply H1]. Qed.

Lemma changes_store addrs bytes m : changes_only (.∈ addrs) m (store addrs bytes m).
Proof. intros a Ha. destruct (decide (a ∈ addrs)); [done|]. by destruct Ha; apply store_ne. Qed.

Lemma changes_weaken (P P' : Z -> Prop) m m' : (forall a, P a -> P' a) -> changes_only P m m' -> changes_only P' m m'.
Proof. intros H1 H2 a Ha. by apply H1, H2. Qed.

(** Where a request for the next [k] bytes may write; [inside] bounds the
    addresses of the buffers. *)
Definition target (inside : Z -> Prop) (rw : uio_rw_t) (ptr : Z) (addrs : list Z) (k : Z) (a : Z) : Prop :=
  match rw with
  | UIO_READ => a ∈ take (Z.to_nat k) addrs /\ inside a
  | UIO_WRITE => ptr <= a < ptr + k
  end.

Definition apart (ptr : Z) (addrs : list Z) (k : Z) : Prop :=
  forall a, a ∈ span ptr k -> a ∉ take (Z.to_nat k) addrs.

Lemma apart_split ptr addrs k1 k2 : 0 <= k1 -> 0 <= k2 -> apart ptr addrs (k1 + k2) -> apart (ptr + k1) (drop (Z.to_nat k1) addrs) k2.
Proof.
  intros H1 H2 Hd a Hin Hin'. apply (Hd a).
  - rewrite span_app by lia. apply elem_of_app. by right.
  - rewrite Z2Nat.inj_add, <- take_take_drop by lia. apply elem_of_app. by right.
Qed.

Lemma target_split inside rw ptr addrs k1 k2 a : 0 <= k1 -> 0 <= k2 ->
  target inside rw ptr addrs k1 a \/ target inside rw (ptr + k1) (drop (Z.to_nat k1) addrs) k2 a -> target inside rw ptr addrs (k1 + k2) a.
Proof.
  intros H1 H2. destruct rw; cbn; [|lia]. rewrite Z2Nat.inj_add, <- take_take_drop, elem_of_app by lia. tauto.
Qed.

(** The rounds left. *)
Definition rounds (iovs : list iovec) : nat :=
  match iovs with [] => 0 | v :: vs => 2 * length vs + (if (iov_len v =? 0)%Z then 1 else 2) end.

Lemma rounds_bound iovs : (rounds iovs <= 2 * length iovs + 1)%nat.
Proof. destruct iovs as [|v iovs]; cbn; [lia|]. destruct (iov_len v =? 0); lia. Qed.

(** Why [want] bytes of a request were moved, or less.  [fails] says whether a
    transfer can fail. *)
Record outcome (fails : Prop) (inside : Z -> Prop) (ptr want : Z) (u : uio) (m : memory) (r : Z) (u' : uio) (m' : memory) : Prop := mk_outcome {
  oc_result : r = 0 \/ (r = EFAULT /\ fails);
  oc_writes : changes_only (target inside (uio_rw u) ptr (uio_addrs u) want) m m';
  oc_some : exists k, 0 <= k <= want /\ advanced u k u';
  oc_all : r = 0 -> advanced u want u' /\ Forall inside (take (Z.to_nat want) (uio_addrs u)) /\
    (apart ptr (uio_addrs u) want -> m' = moved (uio_rw u) ptr (uio_addrs u) want m)
}.

Lemma outcome_nothing fails inside ptr n u m : uio_ok n u -> outcome fails inside ptr 0 u m 0 u m.
Proof.
  intros Hok. pose proof (advanced_refl _ _ Hok). constructor; [by left|by intros a []|by exists 0|].
  intros _. rewrite moved_nil by done. split_and!; [done|constructor|done].
Qed.

(** A transfer of [size] bytes, then the rest. *)
Lemma outcome_step fails inside ptr size k u m m1 u1 r u' m' :
  0 <= size -> 0 <= k -> size + k <= Z.of_nat (length (uio_addrs u)) -> advanced u size u1 ->
  changes_only (target inside (uio_rw u) ptr (uio_addrs u) size) m m1 ->
  Forall inside (take (Z.to_nat size) (uio_addrs u)) -> m1 = moved (uio_rw u) ptr (uio_addrs u) size m ->
  outcome fails inside (ptr + size) k u1 m1 r u' m' -> outcome fails inside ptr (size + k) u m r u' m'.
Proof.
  intros Hs Hk Hlen Hadv Hch Hin Hm [Hr Hw (j & Hj & Hadv') Hall]. rewrite (ad_rw _ _ _ Hadv), (ad_addrs _ _ _ Hadv ltac:(lia)) in *.
  constructor; [done| | |].
  - apply (changes_only_trans _ m m1 m'); (eapply changes_weaken; [|done]); intros a Ha; apply target_split; auto.
  - exists (size + j). split; [lia|]. apply (advanced_trans u size u1); [lia|lia|done|done].
  - intros H0. destruct (Hall H0) as (Hadv2 & Hin2 & Hm2). split_and!.
    + apply (advanced_trans u size u1); [lia|lia|done|done].
    + rewrite Z2Nat.inj_add, <- take_take_drop by lia. by apply Forall_app.
    + intros Hd. rewrite moved_split by done. rewrite <- Hm. apply Hm2. by apply apart_split.
Qed.

(** ** The loop of [uiomove] *)

(** [good] is kept along the request and says that transfers behave. *)
Section loop.
Context (accessible : bool -> Z -> bool) (good : uio -> Prop) (fails : Prop) (inside : Z -> Prop).
Context (good_drop : forall u v iovs, good u -> uio_iov u = v :: iovs -> good (set_iov iovs u)).
Context (transfer_good : forall ptr u v iovs size m,
  good u -> uio_iov u = v :: iovs -> 0 < size <= iov_len v -> take (Z.to_nat size) (uio_addrs u) = span (iov_base v) size ->
  exists r m', uio_transfer accessible (uio_segflg u) (uio_rw u) ptr (iov_base v) size m = inr (r, m') /\
    (r = 0 \/ (r = EFAULT /\ fails)) /\
    changes_only (target inside (uio_rw u) ptr (uio_addrs u) size) m m' /\
    (r = 0 -> Forall inside (span (iov_base v) size) /\ m' = moved (uio_rw u) ptr (uio_addrs u) size m /\ good (use_iov size v iovs u))).

(** The size of one transfer. *)
Lemma transfer_size n u v iovs size :
  uio_ok n u -> uio_iov u = v :: iovs -> 0 < n -> 0 < uio_resid u -> size = (if n <? iov_len v then n else iov_len v) ->
  0 <= size <= n /\ size <= iov_len v /\ size <= uio_resid u /\ (size = 0 -> iov_len v = 0 /\ iovs <> []) /\ (size = n \/ size = iov_len v).
Proof.
  intros [Hlens Hr _ He] Hi Hn Hr0 ->. rewrite Hi in *. apply Forall_cons in Hlens as [Hlv Hlens].
  pose proof (iov_total_nonneg _ Hlens). cbn in Hr, He. fold (iov_total iovs) in Hr, He.
  destruct (Z.ltb_spec n (iov_len v)); split_and!; try lia; intros; (split; [lia|]); intros ->; cbn in *; lia.
Qed.

Definition runs_out (fuel : nat) (ptr n : Z) (u : uio) (m : memory) : Prop :=
  exists r u' m', uiomove_loop accessible fuel ptr n u m = inr ((r, u'), m') /\
    outcome fails inside ptr (Z.min n (uio_resid u)) u m r u' m'.

(** One round that transfers. *)
Lemma uiomove_transfer fuel ptr n u v iovs size m :
  uio_ok n u -> good u -> uio_iov u = v :: iovs -> 0 < size <= n -> size <= iov_len v -> size <= uio_resid u ->
  (forall m1, good (use_iov size v iovs u) -> runs_out fuel (ptr + size) (n - size) (use_iov size v iovs u) m1) ->
  exists r u' m',
    (result <- uio_transfer accessible (uio_segflg u) (uio_rw u) ptr (iov_base v) size ;;
     if negb (result =? 0) then sret (result, u) else
     uiomove_loop accessible fuel (ptr + size) (n - size) (use_iov size v iovs u)) m = inr ((r, u'), m') /\
    outcome fails inside ptr (Z.min n (uio_resid u)) u m r u' m'.
Proof.
  intros Hok Hg Hi Hs Hs2 Hs3 Hrest. destruct (use_iov_ok n u v iovs size Hok Hi) as (Hok' & Hadv & Htake); [lia..|].
  pose proof (length_uio_addrs n u Hok) as Hlen. pose proof (ad_resid _ _ _ Hadv) as Hres.
  assert (Z.min n (uio_resid u) = size + Z.min (n - size) (uio_resid (use_iov size v iovs u))) as -> by lia.
  set (k := Z.min (n - size) (uio_resid (use_iov size v iovs u))) in *.
  destruct (transfer_good ptr u v iovs size m Hg Hi ltac:(lia) Htake) as (r & m1 & Hrun & Hr & Hch & Hok1).
  rewrite (srun_call _ _ _ _ _ Hrun). destruct (Z.eqb_spec r 0) as [->|Hr0]; cbn [negb].
  - destruct (Hok1 eq_refl) as (Hin & Hm & Hg'). destruct (Hrest m1 Hg') as (r & u' & m' & Hrun' & Hout).
    exists r, u', m'. split; [done|]. eapply outcome_step; [lia|lia|lia|done|done|by rewrite Htake|done|done].
  - exists r, u, m1. split; [done|]. constructor; [by destruct Hr; [|right]| | |done].
    + eapply changes_weaken; [|done]. intros a Ha. apply target_split; [lia|lia|by left].
    + exists 0. split; [lia|]. by eapply advanced_refl.
Qed.

Lemma uiomove_loop_run fuel : forall ptr n u m,
  uio_ok n u -> good u -> 0 <= n -> (0 < n -> (rounds (uio_iov u) <= fuel)%nat) -> runs_out fuel ptr n u m.
Proof.
  induction fuel as [|fuel IH]; intros ptr n u m Hok Hg Hn Hf; pose proof (uk_resid _ _ Hok) as Hr; unfold runs_out;
    cbn [uiomove_loop];
    (destruct ((0 <? n) && (0 <? uio_resid u)) eqn:E; cbn [negb];
      [|exists 0, u, m; split; [done|]; replace (Z.min n (uio_resid u)) with 0 by lia; by eapply outcome_nothing]);
    apply andb_true_iff in E as [Hn0%Z.ltb_lt Hr0%Z.ltb_lt];
    (destruct (uio_iov u) as [|v iovs] eqn:Hi; [cbn in Hr; lia|]); cbn in Hf; [destruct (iov_len v =? 0); lia|].
  destruct (transfer_size n u v iovs _ Hok Hi Hn0 Hr0 eq_refl) as (Hs1 & Hs2 & Hs3 & Hs4 & Hs5).
  generalize dependent (if n <? iov_len v then n else iov_len v). intros size Hs1 Hs2 Hs3 Hs4 Hs5.
  destruct (Z.eqb_spec size 0) as [->|Hs0].
  - destruct (Hs4 eq_refl) as [H0 Hne]. destruct (drop_iov n u v iovs Hok Hi H0) as [Hok' Hadv].
    rewrite bool_decide_eq_false_2 by done.
    destruct (IH ptr n (set_iov iovs u) m) as (r & u' & m' & Hrun & Hout); [done|by eapply good_drop|done| |].
    + cbn. rewrite H0 in Hf. destruct iovs as [|w ws]; [done|]. cbn in *. destruct (iov_len w =? 0); lia.
    + exists r, u', m'. split; [done|]. rewrite <- (Z.add_0_l (Z.min n (uio_resid u))). pose proof (length_uio_addrs n u Hok).
      eapply (outcome_step _ _ _ 0 _ u m m); [lia|lia|lia|done|by intros a []|constructor|by rewrite moved_nil|by rewrite Z.add_0_r].
  - destruct (use_iov_ok n u v iovs size Hok Hi) as (Hok' & _ & _); [lia..|].
    apply uiomove_transfer; [done|done|done|lia|lia|lia|]. intros m1 Hg'. apply IH; [done|done|lia|].
    intros Hn'. cbn. destruct (Z.eqb_spec (iov_len v) 0); [lia|]. rewrite (proj2 (Z.eqb_eq (iov_len v - size) 0)) by lia. lia.
Qed.
End loop.

(** A request of the kernel. *)
Record kernel_uio (n : Z) (u : uio) : Prop := mk_kernel_uio {
  ku_ok : uio_ok n u;
  ku_seg : uio_segflg u = UIO_SYSSPACE;
  ku_space : uio_space u = None
}.

Lemma kernel_advanced n u k u' : kernel_uio n u -> 0 <= k <= n -> k <= uio_resid u -> n <= uio_resid u -> advanced u k u' -> kernel_uio (n - k) u'.
Proof.
  intros [[Hl Hr Hs He] Hseg Hsp] Hk Hkr Hn [Ho Hr' Ha Hs' Hw' Hp' Hl' Ht']. constructor; try congruence.
  constructor; try done; lia.
Qed.

Lemma kernel_part n k u : kernel_uio n u -> 0 <= k <= n -> n <= uio_resid u -> kernel_uio k u.
Proof. intros [[? ? ? ?] ? ?] Hk Hn. constructor; [|done..]. constructor; try done. lia. Qed.

Section kernel.
Context (accessible : bool -> Z -> bool).

Lemma uiomove_run curas ptr n u m :
  kernel_uio n u -> 0 <= n -> apart ptr (uio_addrs u) (Z.min n (uio_resid u)) ->
  exists u', uiomove accessible curas ptr n u m = inr ((0, u'), moved (uio_rw u) ptr (uio_addrs u) (Z.min n (uio_resid u)) m) /\
    advanced u (Z.min n (uio_resid u)) u'.
Proof.
  intros [Hok Hseg Hsp] Hn Hd. unfold uiomove. rewrite Hseg, srun_assert by (by apply bool_decide_eq_true).
  destruct (uiomove_loop_run accessible (fun u => uio_segflg u = UIO_SYSSPACE) False (fun _ => True)) with
    (fuel := (2 * length (uio_iov u) + 1)%nat) (ptr := ptr) (n := n) (u := u) (m := m) as (r & u' & m' & Hrun & [[->|[_ []]] _ _ Hall]);
    [done| |done|done|done|intros _; apply rounds_bound|].
  - intros p w v iovs size m0 Hw Hi Hs Htake. exists 0, (moved (uio_rw w) p (uio_addrs w) size m0). unfold moved. rewrite Hw, Htake.
    split_and!; [by destruct (uio_rw w)|by left| |]; [|by rewrite Forall_forall].
    destruct (uio_rw w); (eapply changes_weaken; [|apply changes_store]); intros a; cbn; rewrite ?Htake, elem_span; auto.
  - destruct (Hall eq_refl) as (Hadv & _ & Hm). exists u'. by rewrite <- Hm.
Qed.

(** Zeros are moved in pieces of 16. *)
Lemma zeros_moved zeros addrs k m : 0 <= k <= 16 -> load m (span zeros 16) = replicate 16 0 -> k <= Z.of_nat (length addrs) ->
  moved UIO_READ zeros addrs k m = store (take (Z.to_nat k) addrs) (replicate (Z.to_nat k) 0) m.
Proof.
  intros Hk Hz Hlen. unfold moved. f_equal. replace 16 with (k + (16 - k)) in Hz by lia. rewrite span_app, load_app in Hz by lia.
  change 16%nat with (Z.to_nat 16) in Hz. replace (Z.to_nat 16) with (Z.to_nat k + Z.to_nat (16 - k))%nat in Hz by lia.
  rewrite replicate_add in Hz. apply app_inj_1 in Hz as [Hz _]; [done|]. rewrite length_load, length_span, length_replicate. done.
Qed.

Lemma uiomovezeros_run curas zeros fuel : forall n u m,
  kernel_uio n u -> uio_rw u = UIO_READ -> 0 <= n <= uio_resid u -> (Z.to_nat n <= fuel)%nat ->
  load m (span zeros 16) = replicate 16 0 -> (forall a, a ∈ span zeros 16 -> a ∉ uio_addrs u) ->
  exists u', uiomovezeros_loop accessible curas fuel zeros n u m
    = inr ((0, u'), store (take (Z.to_nat n) (uio_addrs u)) (replicate (Z.to_nat n) 0) m) /\ advanced u n u'.
Proof.
  induction fuel as [|fuel IH]; intros n u m Hku Hrw Hn Hf Hz Hd; pose proof (length_uio_addrs n u (ku_ok _ _ Hku)) as Hlen;
    (destruct (decide (n = 0)) as [->|Hn0]; [exists u; split; [done|by eapply advanced_refl, Hku]|]); [lia|].
  cbn [uiomovezeros_loop]. rewrite (proj2 (Z.ltb_lt 0 n)) by lia. cbn [negb].
  assert (exists amt, (if n <? 16 then n else 16) = amt /\ 0 < amt <= 16 /\ amt <= n) as (amt & -> & Ha1 & Ha2)
    by (destruct (Z.ltb_spec n 16); eexists; split; [done|lia|done|lia]).
  destruct (uiomove_run curas zeros amt u m) as (u1 & Hr & Hadv).
  { destruct Hku as [[? ? ? ?] ? ?]. constructor; try done. constructor; try done. lia. }
  { lia. }
  { intros a Hin Hin'. apply (Hd a); [rewrite elem_span in *; lia|by eapply elem_of_take_1]. }
  rewrite (srun_call _ _ _ _ _ Hr). cbn [fst snd negb Z.eqb]. rewrite Z.min_l in * by lia. rewrite Hrw in *.
  rewrite zeros_moved by (done || lia).
  destruct (IH (n - amt) u1 (store (take (Z.to_nat amt) (uio_addrs u)) (replicate (Z.to_nat amt) 0) m)) as (u' & Hr' & Hadv').
  - by apply (kernel_advanced n u); try lia.
  - by rewrite (ad_rw _ _ _ Hadv).
  - rewrite (ad_resid _ _ _ Hadv). lia.
  - lia.
  - rewrite load_store_ne; [done|]. intros a Ha Hin. apply (Hd a Ha). by eapply elem_of_take_1.
  - intros a Ha Hin. apply (Hd a Ha). rewrite (ad_addrs _ _ _ Hadv ltac:(lia)) in Hin. by eapply elem_of_drop_1.
  - exists u'. rewrite Hr', (ad_addrs _ _ _ Hadv ltac:(lia)). split.
    + do 2 f_equal. replace (Z.to_nat n) with (Z.to_nat amt + Z.to_nat (n - amt))%nat by lia.
      rewrite <- take_take_drop, replicate_add, store_app; [done|]. rewrite length_take, length_replicate. lia.
    + replace n with (amt + (n - amt)) by lia. apply (advanced_trans u amt u1); [lia|lia|done|done].
Qed.
End kernel.

(** ** Requests of a process *)

Section user.
Context (accessible : bool -> Z -> bool).

Lemma reach_bound w n : forall a, 0 <= reach accessible w a n <= Z.of_nat n.
Proof. induction n as [|n IH]; intros a; cbn [reach]; [lia|]. destruct (accessible w a); [specialize (IH (a + 1)); lia|lia]. Qed.

(** What [copyin] and [copyout] have in common. *)
Definition user_copy (w : bool) (user dest src len : Z) : SM memory Z :=
  let '(result, stoplen) := copycheck user len in
  if negb (result =? 0) then sret result else
  if negb (stoplen =? len) then sret EFAULT else
  let k := reach accessible w user (Z.to_nat len) in
  memmove dest src k ;;
  if k =? len then sret 0 else sret EFAULT.

(** A copy writes a part of the destination from its start; if it succeeds all
    of it, and the user range is inside user space. *)
Lemma user_copy_confined w user dest src len m : is_u32 user -> is_u32 len ->
  exists r m', user_copy w user dest src len m = inr (r, m') /\ (r = 0 \/ r = EFAULT) /\
    changes_only (fun a => dest <= a < dest + len /\ user <= user + (a - dest) < USERSPACETOP) m m' /\
    (r = 0 -> 0 < len /\ user + len <= USERSPACETOP /\ m' = store (span dest len) (load m (span src len)) m).
Proof.
  intros Hd Hl. unfold user_copy. destruct (copycheck user len) as [r sl] eqn:E.
  assert (r = 0 \/ r = EFAULT) as Hr by (unfold copycheck in E; repeat case_match; simplify_eq; auto).
  destruct (Z.eqb_spec r 0) as [->|Hn]; cbn [negb]; [|exists r, m; by split_and!; [| |intros a []|]].
  destruct (Z.eqb_spec sl len) as [->|Hn]; cbn [negb]; [|exists EFAULT, m; by split_and!; [|right|intros a []|]].
  apply copycheck_exact in E; [|done..]. unfold is_u32, USERSPACETOP, MIPS_KSEG0 in *.
  assert (0 < len /\ user + len <= 2147483648) as [Hl0 Htop] by lia.
  pose proof (reach_bound w (Z.to_nat len) user) as Hk. set (k := reach accessible w user (Z.to_nat len)) in *.
  exists (if k =? len then 0 else EFAULT), (store (span dest k) (load m (span src k)) m). split_and!.
  - cbn. by destruct (k =? len).
  - destruct (k =? len); auto.
  - eapply changes_weaken; [|apply changes_store]. intros a. cbn. rewrite elem_span. lia.
  - destruct (Z.eqb_spec k len) as [->|]; [done|discriminate].
Qed.

(** A request of a process. *)
Record user_uio (curas : option positive) (n : Z) (u : uio) : Prop := mk_user_uio {
  uu_ok : uio_ok n u;
  uu_seg : uio_segflg u <> UIO_SYSSPACE;
  uu_space : uio_space u = curas;
  uu_iovs : Forall (fun v => is_u32 (iov_base v) /\ is_u32 (iov_len v)) (uio_iov u)
}.

Lemma user_transfer seg rw ptr addrs base size m :
  seg <> UIO_SYSSPACE -> is_u32 base -> is_u32 size -> take (Z.to_nat size) addrs = span base size ->
  exists r m', uio_transfer accessible seg rw ptr base size m = inr (r, m') /\ (r = 0 \/ r = EFAULT) /\
    changes_only (target (fun a => a < USERSPACETOP) rw ptr addrs size) m m' /\
    (r = 0 -> base + size <= USERSPACETOP /\ m' = moved rw ptr addrs size m).
Proof.
  intros Hseg Hb Hs Htake.
  destruct (user_copy_confined (match rw with UIO_READ => true | UIO_WRITE => false end) base
    (match rw with UIO_READ => base | UIO_WRITE => ptr end) (match rw with UIO_READ => ptr | UIO_WRITE => base end) size m Hb Hs)
    as (r & m' & Hrun & Hr & Hch & H0).
  exists r, m'. split_and!; [by destruct seg, rw|done| |].
  - eapply changes_weaken; [|done]. intros a. destruct rw; cbn; [|lia]. rewrite Htake, elem_span. lia.
  - intros Hr0. destruct (H0 Hr0) as (_ & Htop & ->). split; [done|]. unfold moved. rewrite Htake. by destruct rw.
Qed.
Lemma uiomove_user_run curas ptr n u m :
  user_uio curas n u -> 0 <= n -> exists r u' m',
    uiomove accessible curas ptr n u m = inr ((r, u'), m') /\
    outcome True (fun a => a < USERSPACETOP) ptr (Z.min n (uio_resid u)) u m r u' m'.
Proof.
  intros [Hok Hseg Hsp Hi] Hn. unfold uiomove.
  replace (match uio_segflg u with UIO_SYSSPACE => sassert (bool_decide (uio_space u = None)) "uio->uio_space == NULL"
    | _ => sassert (bool_decide (uio_space u = curas)) "uio->uio_space == proc_getas()" end)
    with (sassert (S := memory) (bool_decide (uio_space u = curas)) "uio->uio_space == proc_getas()") by (by destruct (uio_segflg u)).
  rewrite srun_assert by (by apply bool_decide_eq_true).
  apply (uiomove_loop_run accessible (fun u => uio_segflg u <> UIO_SYSSPACE /\
    Forall (fun v => is_u32 (iov_base v) /\ is_u32 (iov_len v)) (uio_iov u)) True); [| |done|done|done|intros _; apply rounds_bound].
  - intros w v iovs [Hs Hv] E. rewrite E in Hv. apply Forall_cons in Hv as [_ Hv]. done.
  - intros p w v iovs size m0 [Hs Hv] E Hsz Htake. rewrite E in Hv. apply Forall_cons in Hv as [[Hb Hl] Hv].
    destruct (user_transfer (uio_segflg w) (uio_rw w) p (uio_addrs w) (iov_base v) size m0 Hs Hb) as (r & m' & Hrun & Hr & Hch & H0);
      [unfold is_u32 in *; lia|done|].
    exists r, m'. split_and!; [done|by destruct Hr; [left|right]|done|]. intros Hr0. destruct (H0 Hr0) as [Htop Hm].
    unfold is_u32, USERSPACETOP, MIPS_KSEG0 in *. split_and!; [|done|done|].
    + apply Forall_forall. intros a. rewrite elem_span. lia.
    + cbn. apply Forall_cons. cbn. unfold is_u32. split; [lia|done].
Qed.
End user.

(** ** Strings *)

(** A string of [j] bytes before its end is copied with it, if all of it is
    accessible. *)
Lemma copystr_from_found ok dest src maxlen stoplen fuel : forall i j m,
  0 <= j < Z.of_nat fuel -> byte_at m (src + i + j) = 0 ->
  (forall x, 0 <= x < j -> byte_at m (src + i + x) <> 0) ->
  (forall x, 0 <= x <= j -> ok (src + i + x) (dest + i + x) = true) ->
  (forall a, a ∈ span (dest + i) (j + 1) -> a ∉ span (src + i) (j + 1)) ->
  copystr_from fuel ok dest src maxlen stoplen i m
    = inr ((0, Some (i + j + 1)), store (span (dest + i) (j + 1)) (load m (span (src + i) (j + 1))) m).
Proof.
  induction fuel as [|fuel IH]; intros i j m Hj Hz Hnz Hok Hd; [lia|]. cbn [copystr_from].
  pose proof (Hok 0 ltac:(lia)) as Hok0. rewrite !Z.add_0_r in Hok0. rewrite Hok0. cbn [negb].
  destruct (decide (j = 0)) as [->|Hj0].
  - rewrite Z.add_0_r in *. cbn. rewrite Hz. cbn. rewrite Z.add_0_l, !span_one. cbn. by rewrite Hz.
  - pose proof (Hnz 0 ltac:(lia)) as Hc. rewrite Z.add_0_r in Hc. cbn. rewrite (proj2 (Z.eqb_neq _ 0)) by done.
    assert (forall x, 0 <= x <= j -> byte_at (<[dest + i := byte_at m (src + i)]> m) (src + i + x) = byte_at m (src + i + x)) as Hsame.
    { intros x Hx. apply (store_ne [dest + i] [_]). rewrite list_elem_of_singleton. intros E.
      apply (Hd (src + i + x)); apply elem_span; lia. }
    rewrite (IH (i + 1) (j - 1)).
    + rewrite <- !Z.add_assoc. replace (1 + (j - 1 + 1)) with (j + 1) by lia. do 2 f_equal.
      replace (j + 1) with (1 + j) by lia. rewrite (span_app _ 1 j), (span_app (src + i) 1 j), load_app, store_app by (done || lia).
      rewrite !Z.add_assoc, Z.sub_add. rewrite (span_one (dest + i)), (span_one (src + i)). cbn. f_equal. apply list_fmap_ext. intros k a Ha%list_elem_of_lookup_2.
      apply elem_span in Ha. replace a with (src + i + (a - src - i)) by lia. apply Hsame. lia.
    + lia.
    + rewrite <- Hz. replace (src + (i + 1) + (j - 1)) with (src + i + j) by lia. apply Hsame. lia.
    + intros x Hx. replace (src + (i + 1) + x) with (src + i + (1 + x)) by lia. rewrite Hsame by lia. apply Hnz. lia.
    + intros x Hx. replace (src + (i + 1) + x) with (src + i + (1 + x)) by lia.
      replace (dest + (i + 1) + x) with (dest + i + (1 + x)) by lia. apply Hok. lia.
    + intros a Ha Hin. apply (Hd a); rewrite elem_span in *; lia.
Qed.

(** Whatever the memory holds, the copy ends and writes only the destination. *)
Lemma copystr_from_total ok dest src maxlen stoplen fuel : forall i m,
  exists r got m', copystr_from fuel ok dest src maxlen stoplen i m = inr ((r, got), m') /\
    changes_only (fun a => dest + i <= a < dest + i + Z.of_nat fuel /\ ok (src + (a - dest)) a = true) m m' /\
    (r = 0 /\ is_Some got \/ (r = EFAULT \/ r = ENAMETOOLONG) /\ got = None).
Proof.
  induction fuel as [|fuel IH]; intros i m; cbn [copystr_from].
  - eexists _, None, m. split_and!; [done|by intros a []|]. right. split; [|done]. destruct (stoplen <? maxlen); auto.
  - destruct (ok (src + i) (dest + i)) eqn:E; cbn [negb]; [|eexists _, None, m; split_and!; [done|by intros a []|auto]].
    cbn. set (m1 := <[dest + i := byte_at m (src + i)]> m).
    assert (changes_only (fun a => dest + i <= a < dest + i + Z.of_nat (S fuel) /\ ok (src + (a - dest)) a = true) m m1) as H1.
    { eapply changes_weaken; [|apply (changes_store [dest + i] [byte_at m (src + i)])]. intros a. cbn.
      rewrite list_elem_of_singleton. intros ->. rewrite Z.add_simpl_l. split; [lia|done]. }
    destruct (byte_at m (src + i) =? 0).
    + exists 0, (Some (i + 1)), m1. split_and!; [done|done|]. left. by split.
    + destruct (IH (i + 1) m1) as (r & got & m' & Hr & Hch & Hres). exists r, got, m'. split_and!; [done| |done].
      eapply changes_only_trans; [done|]. eapply changes_weaken; [|done]. cbn. intros a [? ?]. split; [lia|done].
Qed.

(** ** The theorems *)

(** [uiomove] on a request of the kernel.  Whatever the number and the
    lengths of the buffers, if they are at least as long as the residue and
    disjoint from each other and from [ptr], the call ends, returns 0, moves
    [k = min n uio_resid] bytes between [ptr] and the next [k] addresses of the
    request, in order, changes no other byte, and leaves the request advanced
    by [k]: offset, residue and remaining addresses. *)
Theorem uiomove_kernel accessible curas ptr n u m k :
  kernel_uio n u -> 0 <= n -> k = Z.min n (uio_resid u) -> NoDup (uio_addrs u) -> apart ptr (uio_addrs u) k ->
  exists u' m', uiomove accessible curas ptr n u m = inr ((0, u'), m') /\ advanced u k u' /\
    match uio_rw u with
    | UIO_READ => load m' (take (Z.to_nat k) (uio_addrs u)) = load m (span ptr k)
    | UIO_WRITE => load m' (span ptr k) = load m (take (Z.to_nat k) (uio_addrs u))
    end /\ changes_only (target (fun _ => True) (uio_rw u) ptr (uio_addrs u) k) m m'.
Proof.
  intros Hku Hn -> Hnd Hd. destruct (uiomove_run accessible curas ptr n u m Hku Hn Hd) as (u' & Hrun & Hadv).
  pose proof (length_uio_addrs _ _ (ku_ok _ _ Hku)). pose proof (uk_resid _ _ (ku_ok _ _ Hku)).
  eexists u', _. split_and!; [done|done| |]; unfold moved; destruct (uio_rw u).
  - apply load_store; [eapply sublist_NoDup; [done|apply sublist_take]|]. rewrite length_load, length_span, length_take. lia.
  - apply load_store; [apply NoDup_span|]. rewrite length_load, length_span, length_take. lia.
  - eapply changes_weaken; [|apply changes_store]. by intros a.
  - eapply changes_weaken; [|apply changes_store]. intros a. cbn. by rewrite elem_span.
Qed.

(** (C29) [uiomove] on a request of a process never touches the kernel.  For any
    addresses and lengths a process passes, in whatever state its address space
    is, the call ends with 0 or [EFAULT]; on a read only user addresses of the
    request below [USERSPACETOP] are written, on a write only the first
    [min n uio_resid] bytes at [ptr]; and if it returns 0 all the bytes lie in
    user space and were moved, in order. *)
Theorem uiomove_user_confined accessible curas ptr n u m :
  user_uio curas n u -> 0 <= n -> USERSPACETOP <= ptr ->
  exists r u' m', uiomove accessible curas ptr n u m = inr ((r, u'), m') /\ (r = 0 \/ r = EFAULT) /\
    changes_only (fun a => match uio_rw u with
      | UIO_READ => a ∈ uio_addrs u /\ a < USERSPACETOP
      | UIO_WRITE => ptr <= a < ptr + Z.min n (uio_resid u) end) m m' /\
    (r = 0 -> let k := Z.min n (uio_resid u) in
      advanced u k u' /\ Forall (fun a => a < USERSPACETOP) (take (Z.to_nat k) (uio_addrs u)) /\
      m' = moved (uio_rw u) ptr (uio_addrs u) k m).
Proof.
  intros Huu Hn Hptr. destruct (uiomove_user_run accessible curas ptr n u m Huu Hn) as (r & u' & m' & Hrun & [Hr Hch _ Hall]).
  exists r, u', m'. split_and!; [done|tauto| |].
  - eapply changes_weaken; [|done]. intros a. destruct (uio_rw u); cbn; [|done]. intros [Ha ?]. split; [by eapply elem_of_take_1|done].
  - intros H0. destruct (Hall H0) as (Hadv & Hin & Hm). split_and!; [done|done|]. apply Hm. intros a Ha Hin'.
    rewrite elem_span in Ha. rewrite Forall_forall in Hin. specialize (Hin a Hin'). lia.
Qed.

(** ** Witnesses *)

(** Two buffers of the kernel, the first one empty. *)
Definition two_buffers (seg : uio_seg) (base : Z) (sp : option positive) (rw : uio_rw_t) : uio :=
  mk_uio [mk_iovec base 0; mk_iovec (base + 16) 3] 0 3 seg rw sp.

Lemma uiomove_kernel_witness :
  exists u' m', uiomove (fun _ _ => true) None (USERSPACETOP + 4096) 2 (two_buffers UIO_SYSSPACE USERSPACETOP None UIO_READ)
      {[ USERSPACETOP + 4096 := 7; USERSPACETOP + 4097 := 8 ]} = inr ((0, u'), m') /\ uio_resid u' = 1 /\
    load m' [USERSPACETOP + 16; USERSPACETOP + 17] = [7; 8].
Proof.
  set (u := two_buffers UIO_SYSSPACE USERSPACETOP None UIO_READ).
  destruct (uiomove_kernel (fun _ _ => true) None (USERSPACETOP + 4096) 2 u
    {[ USERSPACETOP + 4096 := 7; USERSPACETOP + 4097 := 8 ]} 2) as (u' & m' & Hrun & Hadv & Hd & Hch).
  - constructor; [|done..]. constructor; cbn; [|lia|lia|left; lia]. repeat constructor; cbn; lia.
  - lia.
  - done.
  - apply (bool_decide_unpack _). by vm_compute.
  - intros a Ha%elem_span Hin%elem_of_take_1. assert (uio_addrs u = span (USERSPACETOP + 16) 3) as E by done.
    rewrite E, elem_span in Hin. lia.
  - exists u', m'. split; [exact Hrun|]. split; [rewrite (ad_resid _ _ _ Hadv); done|].
    change (take (Z.to_nat 2) (uio_addrs u)) with [USERSPACETOP + 16; USERSPACETOP + 17] in Hd. cbn [uio_rw u two_buffers] in Hd.
    rewrite Hd. reflexivity.
Defined.

(** A process passes a buffer that crosses into the kernel. *)
Lemma uiomove_user_confined_witness :
  exists u' m', uiomove (fun _ _ => true) (Some 1%positive) (USERSPACETOP + 4096) 3
      (two_buffers UIO_USERSPACE (USERSPACETOP - 18) (Some 1%positive) UIO_READ) {[ USERSPACETOP := 5 ]} = inr ((EFAULT, u'), m') /\
    byte_at m' USERSPACETOP = 5.
Proof.
  set (u := two_buffers UIO_USERSPACE (USERSPACETOP - 18) (Some 1%positive) UIO_READ).
  destruct (uiomove_user_confined (fun _ _ => true) (Some 1%positive) (USERSPACETOP + 4096) 3 u {[ USERSPACETOP := 5 ]})
    as (r & u' & m' & Hrun & Hr & Hch & Hall).
  - constructor; [|done..|]; [constructor; cbn; [|lia|lia|left; lia]|]; repeat constructor; cbn; try lia; done.
  - lia.
  - unfold USERSPACETOP, MIPS_KSEG0. lia.
  - exists u', m'. split.
    { destruct Hr as [-> | ->]; [|exact Hrun]. destruct (Hall eq_refl) as (_ & Hin & _). rewrite Forall_forall in Hin.
      assert (USERSPACETOP ∈ span (USERSPACETOP - 2) 3) as Hin' by (apply elem_span; lia).
      specialize (Hin _ Hin'). by apply Z.lt_irrefl in Hin. }
    destruct (decide (byte_at m' USERSPACETOP = byte_at {[ USERSPACETOP := 5 ]} USERSPACETOP)) as [->|Hne]; [done|].
    destruct (Hch _ Hne) as [_ Hlt]. by apply Z.lt_irrefl in Hlt.
Defined.
