(* ===== verification/Device.v ===== *)
(** * Block devices ([kern/include/device.h])

    A device is its [devop_io] on the memory and the device's own state.
    [BlockDevice] is what a disk promises to a file system for requests of the
    kernel for one block: the block is transferred, nothing else changes but
    the buffer of the device.  [Lhd.v] implements it. *)

From S2P Require Import Prelude State Monad StopState Uio.

#[local] Open Scope Z_scope.

Definition SECTSIZE : Z := 512.

Class Device (D : Type) := {
  devop_io : uio -> SM (memory * D) (Z * uio)     (* DEVOP_IO *)
}.

(** A request of the kernel for the block [b]. *)
Record block_request (rw : uio_rw_t) (b : Z) (u : uio) : Prop := mk_block_request {
  br_kernel : kernel_uio SECTSIZE u;
  br_rw : uio_rw u = rw;
  br_offset : uio_offset u = SECTSIZE * b;
  br_resid : uio_resid u = SECTSIZE;
  br_distinct : NoDup (uio_addrs u)
}.

Class BlockDevice (D : Type) {DV : Device D} := {
  dv_ready : D -> Prop;                 (* idle, and without faults *)
  dv_blocks : D -> Z;
  dv_buffer : D -> Z;                   (* address of the buffer of the device *)
  dv_sector : D -> Z -> list Z;
  dv_sector_length : forall d b, dv_ready d -> length (dv_sector d b) = Z.to_nat SECTSIZE;
  dv_read : forall d b u m,
    dv_ready d -> 0 <= b < dv_blocks d -> block_request UIO_READ b u ->
    (forall a, a ∈ span (dv_buffer d) SECTSIZE -> a ∉ uio_addrs u) ->
    exists u' m' d', devop_io u (m, d) = inr ((0, u'), (m', d')) /\ advanced u SECTSIZE u' /\
      load m' (uio_addrs u) = dv_sector d b /\
      changes_only (fun a => a ∈ uio_addrs u \/ a ∈ span (dv_buffer d) SECTSIZE) m m' /\
      dv_ready d' /\ dv_blocks d' = dv_blocks d /\ dv_buffer d' = dv_buffer d /\
      (forall c, dv_sector d' c = dv_sector d c);
  dv_write : forall d b u m,
    dv_ready d -> 0 <= b < dv_blocks d -> block_request UIO_WRITE b u ->
    (forall a, a ∈ span (dv_buffer d) SECTSIZE -> a ∉ uio_addrs u) ->
    exists u' m' d', devop_io u (m, d) = inr ((0, u'), (m', d')) /\ advanced u SECTSIZE u' /\
      changes_only (.∈ span (dv_buffer d) SECTSIZE) m m' /\
      dv_ready d' /\ dv_blocks d' = dv_blocks d /\ dv_buffer d' = dv_buffer d /\
      (forall c, dv_sector d' c = if decide (c = b) then load m (uio_addrs u) else dv_sector d c)
}.
