(* ===== verification/Lhd.v ===== *)
(** * The disk driver ([kern/dev/lamebus/lhd.c])

    The card carries out the command written to its status register, then
    raises an interrupt: [card_run] is the hardware, a parameter, with its
    documented behaviour as laws.  [lhd_io] moves the sectors of a request
    through the buffer on the card, one command each.  The theorems: [lhd_io]
    reads and writes exactly the sectors asked for, stops at the first sector
    the card has an error for, refuses requests that are not aligned or past
    the end, and leaves its semaphores as they were; the driver is a
    [BlockDevice]. *)

From S2P Require Import Prelude State Monad StopState Uio Device.

#[local] Open Scope Z_scope.
#[local] Open Scope sm_scope.

Definition LHD_IDLE : Z := 0.
Definition LHD_WORKING : Z := 1.
Definition LHD_OK : Z := 4.
Definition LHD_INVSECT : Z := 12.
Definition LHD_MEDIA : Z := 20.
Definition LHD_ISWRITE : Z := 2.
Definition LHD_STATEMASK : Z := 0x1d.
Definition LHD_SECTSIZE : Z := 512.
Definition EAGAIN : Z := 4.
Definition EIO : Z := 32.

(** ** The card *)

(** The command in the status register, the sector register, the buffer and the
    state of the card give the final status, the buffer and the card. *)
Class LhdCard (hw : Type) := {
  card_run : Z -> Z -> list Z -> hw -> Z * list Z * hw
}.

(** A disk.  The command for a sector that is [card_good] is carried out; for
    any other sector the card reports an error and works on, and a failed
    write leaves anything in that sector. *)
Class LhdCardLaws (hw : Type) {C : LhdCard hw} := {
  card_working : hw -> Prop;
  card_good : hw -> Z -> bool;
  card_sector : hw -> Z -> list Z;
  card_sector_length : forall h s, card_working h -> length (card_sector h s) = Z.to_nat LHD_SECTSIZE;
  card_read : forall h s buf, card_working h -> card_good h s = true ->
    exists st h', card_run LHD_WORKING s buf h = (st, card_sector h s, h') /\ Z.land st LHD_STATEMASK = LHD_OK /\
      card_working h' /\ (forall t, card_good h' t = card_good h t) /\ (forall t, card_sector h' t = card_sector h t);
  card_write : forall h s buf, card_working h -> card_good h s = true -> length buf = Z.to_nat LHD_SECTSIZE ->
    exists st h', card_run (Z.lor LHD_WORKING LHD_ISWRITE) s buf h = (st, buf, h') /\ Z.land st LHD_STATEMASK = LHD_OK /\
      card_working h' /\ (forall t, card_good h' t = card_good h t) /\
      (forall t, card_sector h' t = if decide (t = s) then buf else card_sector h t);
  card_read_fault : forall h s buf, card_working h -> card_good h s = false ->
    exists st buf' h', card_run LHD_WORKING s buf h = (st, buf', h') /\
      (Z.land st LHD_STATEMASK = LHD_INVSECT \/ Z.land st LHD_STATEMASK = LHD_MEDIA) /\
      card_working h' /\ (forall t, card_sector h' t = card_sector h t);
  card_write_fault : forall h s buf, card_working h -> card_good h s = false -> length buf = Z.to_nat LHD_SECTSIZE ->
    exists st buf' h', card_run (Z.lor LHD_WORKING LHD_ISWRITE) s buf h = (st, buf', h') /\
      (Z.land st LHD_STATEMASK = LHD_INVSECT \/ Z.land st LHD_STATEMASK = LHD_MEDIA) /\
      card_working h' /\ (forall t, t <> s -> card_sector h' t = card_sector h t)
}.

Section driver.
Context {hw : Type} {C : LhdCard hw}.
Context (accessible : bool -> Z -> bool) (curas : option positive).

(** The driver's structure, the registers and the card.  The semaphores are
    their counts. *)
Record lhd_softc := mk_lhd {
  lh_buf : Z;
  lh_result : Z;
  lh_clear : Z;
  lh_done : Z;
  lh_blocks : Z;          (* lh_dev.d_blocks *)
  lh_stat : Z;            (* LHD_REG_STAT *)
  lh_sect : Z;            (* LHD_REG_SECT *)
  lh_card : hw
}.

Definition set_result x l := mk_lhd (lh_buf l) x (lh_clear l) (lh_done l) (lh_blocks l) (lh_stat l) (lh_sect l) (lh_card l).
Definition set_clear x l := mk_lhd (lh_buf l) (lh_result l) x (lh_done l) (lh_blocks l) (lh_stat l) (lh_sect l) (lh_card l).
Definition set_done x l := mk_lhd (lh_buf l) (lh_result l) (lh_clear l) x (lh_blocks l) (lh_stat l) (lh_sect l) (lh_card l).
Definition set_stat x l := mk_lhd (lh_buf l) (lh_result l) (lh_clear l) (lh_done l) (lh_blocks l) x (lh_sect l) (lh_card l).
Definition set_sect x l := mk_lhd (lh_buf l) (lh_result l) (lh_clear l) (lh_done l) (lh_blocks l) (lh_stat l) x (lh_card l).
Definition set_card x l := mk_lhd (lh_buf l) (lh_result l) (lh_clear l) (lh_done l) (lh_blocks l) (lh_stat l) (lh_sect l) x.

Notation LM := (SM (memory * lhd_softc)).

Definition lget {A} (f : lhd_softc -> A) : LM A := sget (fun w => f (snd w)).
Definition lmodify (f : lhd_softc -> lhd_softc) : LM unit := smodify (fun w => (fst w, f (snd w))).
Definition on_mem {A} (p : SM memory A) : LM A := fun w =>
  match p (fst w) with inr (a, m') => inr (a, (m', snd w)) | inl r => inl r end.

Definition lhd_code_to_errno (code : Z) : Z :=
  let c := Z.land code LHD_STATEMASK in
  if c =? LHD_OK then 0 else if c =? LHD_INVSECT then EINVAL else if c =? LHD_MEDIA then EIO else EAGAIN.

Definition lhd_iodone (err : Z) : LM unit :=
  lmodify (set_result err) ;;
  lmodify (fun l => set_done (lh_done l + 1) l).

Definition lhd_irq : LM unit :=
  val <- lget lh_stat ;;
  let c := Z.land val LHD_STATEMASK in
  if (c =? LHD_IDLE) || (c =? LHD_WORKING) then sret tt else
  if (c =? LHD_OK) || (c =? LHD_INVSECT) || (c =? LHD_MEDIA) then
    lmodify (set_stat 0) ;;
    lhd_iodone (lhd_code_to_errno val)
  else sret tt.

(** The hardware: the command is carried out and the interrupt delivered. *)
Definition card_interrupt : LM unit :=
  (fun w => let '(st, buf', h') := card_run (lh_stat (snd w)) (lh_sect (snd w))
              (load (fst w) (span (lh_buf (snd w)) LHD_SECTSIZE)) (lh_card (snd w)) in
            inr (tt, (store (span (lh_buf (snd w)) LHD_SECTSIZE) buf' (fst w), set_card h' (set_stat st (snd w))))) ;;
  lhd_irq.

(** [P] and [V] of the driver's two semaphores. *)
Definition P_clear : LM unit :=
  n <- lget lh_clear ;;
  if n =? 0 then sstop (would_sleep "lhd-clear") else lmodify (set_clear (n - 1)).
Definition V_clear : LM unit := lmodify (fun l => set_clear (lh_clear l + 1) l).
Definition P_done : LM unit :=
  n <- lget lh_done ;;
  if n =? 0 then sstop (would_sleep "lhd-done") else lmodify (set_done (n - 1)).

(** The body of the loop over the sectors. *)
Definition lhd_io_sector (statval s : Z) (u : uio) : LM (Z * uio) :=
  P_clear ;;
  ru <- match uio_rw u with
        | UIO_WRITE => buf <- lget lh_buf ;; on_mem (uiomove accessible curas buf LHD_SECTSIZE u)
        | UIO_READ => sret (0, u)
        end ;;
  if negb (fst ru =? 0) then V_clear ;; sret ru else
  lmodify (set_sect s) ;;
  lmodify (set_stat statval) ;;
  card_interrupt ;;
  P_done ;;
  result <- lget lh_result ;;
  ru' <- match (result =? 0), uio_rw u with
         | true, UIO_READ => buf <- lget lh_buf ;; on_mem (uiomove accessible curas buf LHD_SECTSIZE (snd ru))
         | _, _ => sret (result, snd ru)
         end ;;
  V_clear ;;
  sret ru'.

Fixpoint lhd_io_loop (len : nat) (statval s : Z) (u : uio) : LM (Z * uio) :=
  match len with
  | O => sret (0, u)
  | S len' =>
      ru <- lhd_io_sector statval s u ;;
      if negb (fst ru =? 0) then sret ru else lhd_io_loop len' statval (u32 (s + 1)) (snd ru)
  end.

Definition lhd_io (u : uio) : LM (Z * uio) :=
  let sector := u32 (Z.quot (uio_offset u) LHD_SECTSIZE) in
  let sectoff := u32 (Z.rem (uio_offset u) LHD_SECTSIZE) in
  let len := uio_resid u / LHD_SECTSIZE in
  let lenoff := uio_resid u mod LHD_SECTSIZE in
  if negb (sectoff =? 0) || negb (lenoff =? 0) then sret (EINVAL, u) else
  blocks <- lget lh_blocks ;;
  if blocks <? u32 (sector + len) then sret (EINVAL, u) else
  let statval := match uio_rw u with UIO_WRITE => Z.lor LHD_WORKING LHD_ISWRITE | UIO_READ => LHD_WORKING end in
  lhd_io_loop (Z.to_nat len) statval sector u.
End driver.
Arguments lhd_softc : clear implicits.
Arguments mk_lhd {hw}.

(** ** One sector *)

Lemma aligned_offset off s : off = LHD_SECTSIZE * s -> is_u32 s ->
  u32 (Z.quot off LHD_SECTSIZE) = s /\ u32 (Z.rem off LHD_SECTSIZE) = 0.
Proof.
  unfold LHD_SECTSIZE, is_u32. intros -> Hs. rewrite Z.quot_div_nonneg, Z.rem_mod_nonneg by lia.
  rewrite Z.mul_comm, Z.div_mul, Z.mod_mul by lia. split; [by apply u32_small|done].
Qed.

Section proofs.
Context {hw : Type} {C : LhdCard hw} {CL : LhdCardLaws hw}.
Context (accessible : bool -> Z -> bool) (curas : option positive).

(** Between two requests. *)
Record lhd_idle (l : lhd_softc hw) : Prop := mk_lhd_idle {
  li_clear : lh_clear l = 1;
  li_done : lh_done l = 0;
  li_working : card_working (lh_card l);
  li_blocks : 0 <= lh_blocks l < 2^32
}.

(** Between two requests, with no bad sector. *)
Record lhd_ready (l : lhd_softc hw) : Prop := mk_lhd_ready {
  lr_idle : lhd_idle l;
  lr_good : forall s, 0 <= s < lh_blocks l -> card_good (lh_card l) s = true
}.

(** The structure is set up once. *)
Definition lhd_same (l l' : lhd_softc hw) : Prop := lh_blocks l' = lh_blocks l /\ lh_buf l' = lh_buf l.

Definition lhd_sector (l : lhd_softc hw) (s : Z) : list Z := card_sector (lh_card l) s.

Lemma run_on_mem {A B} (p : SM memory A) a m m' (l : lhd_softc hw) (f : A -> SM (memory * lhd_softc hw) B) :
  p m = inr (a, m') -> sbind (on_mem p) f (m, l) = f a (m', l).
Proof. intros E. unfold sbind, on_mem. cbn. by rewrite E. Qed.

(** The status of a finished command. *)
Definition finished (st : Z) : Prop :=
  Z.land st LHD_STATEMASK = LHD_OK \/ Z.land st LHD_STATEMASK = LHD_INVSECT \/ Z.land st LHD_STATEMASK = LHD_MEDIA.

Lemma card_interrupt_run m (l : lhd_softc hw) st buf' h' :
  card_run (lh_stat l) (lh_sect l) (load m (span (lh_buf l) LHD_SECTSIZE)) (lh_card l) = (st, buf', h') -> finished st ->
  card_interrupt (m, l) = inr (tt, (store (span (lh_buf l) LHD_SECTSIZE) buf' m,
    set_done (lh_done l + 1) (set_result (lhd_code_to_errno st) (set_stat 0 (set_card h' (set_stat st l)))))).
Proof.
  intros Hrun Hst. unfold card_interrupt, sbind. cbn [fst snd]. rewrite Hrun. unfold lhd_irq, lhd_iodone, lget, lmodify, sget, smodify, sbind.
  cbn [fst snd lh_stat set_stat set_card]. by destruct Hst as [E|[E|E]]; rewrite E.
Qed.

Lemma code_ok st : Z.land st LHD_STATEMASK = LHD_OK -> finished st /\ lhd_code_to_errno st = 0.
Proof. intros E. unfold finished, lhd_code_to_errno. rewrite E. auto. Qed.

Lemma P_clear_run m (l : lhd_softc hw) : lh_clear l = 1 -> P_clear (m, l) = inr (tt, (m, set_clear 0 l)).
Proof. intros E. unfold P_clear, lget, sget, sbind. cbn. by rewrite E. Qed.

Lemma P_done_run m (l : lhd_softc hw) : lh_done l = 1 -> P_done (m, l) = inr (tt, (m, set_done 0 l)).
Proof. intros E. unfold P_done, lget, sget, sbind. cbn. by rewrite E. Qed.

(** The command of a round, from the registers to the result. *)
Lemma command_run {B} m (l : lhd_softc hw) statval s st buf' h' (f : Z -> SM (memory * lhd_softc hw) B) :
  lh_clear l = 1 -> lh_done l = 0 ->
  card_run statval s (load m (span (lh_buf l) LHD_SECTSIZE)) (lh_card l) = (st, buf', h') -> finished st ->
  (lmodify (set_sect s) ;; lmodify (set_stat statval) ;; card_interrupt ;; P_done ;; result <- lget lh_result ;; f result) (m, set_clear 0 l)
  = f (lhd_code_to_errno st) (store (span (lh_buf l) LHD_SECTSIZE) buf' m, mk_lhd (lh_buf l) (lhd_code_to_errno st) 0 0 (lh_blocks l) 0 s h').
Proof.
  intros Hc Hd Hrun Hst. unfold lmodify. autorewrite with srun. cbn [fst snd].
  erewrite srun_call; [|apply card_interrupt_run; [exact Hrun|exact Hst]].
  erewrite srun_call; [|apply P_done_run; cbn; by rewrite Hd]. unfold lget. autorewrite with srun. done.
Qed.

(** What one round does to the structure. *)
Definition after_command (r : Z) (h' : hw) (s : Z) (l : lhd_softc hw) : lhd_softc hw :=
  mk_lhd (lh_buf l) r 1 0 (lh_blocks l) 0 s h'.

Lemma read_sector_run m l s u :
  lhd_idle l -> card_good (lh_card l) s = true -> kernel_uio LHD_SECTSIZE u -> uio_rw u = UIO_READ -> LHD_SECTSIZE <= uio_resid u ->
  (forall a, a ∈ span (lh_buf l) LHD_SECTSIZE -> a ∉ uio_addrs u) ->
  exists u' h', lhd_io_sector accessible curas LHD_WORKING s u (m, l)
      = inr ((0, u'), (moved UIO_READ (lh_buf l) (uio_addrs u) LHD_SECTSIZE (store (span (lh_buf l) LHD_SECTSIZE) (lhd_sector l s) m), after_command 0 h' s l)) /\
    advanced u LHD_SECTSIZE u' /\ card_working h' /\ (forall t, card_good h' t = card_good (lh_card l) t) /\
    (forall t, card_sector h' t = lhd_sector l t).
Proof.
  intros [Hc Hd Hw Hb] Hs Hku Hrw Hres Hap.
  destruct (card_read (lh_card l) s (load m (span (lh_buf l) LHD_SECTSIZE)) Hw Hs) as (st & h' & Hrun & Hst & Hw' & Hn' & Hsec').
  destruct (uiomove_run accessible curas (lh_buf l) LHD_SECTSIZE u (store (span (lh_buf l) LHD_SECTSIZE) (lhd_sector l s) m)) as (u' & Hmove & Hadv);
    [done|by unfold LHD_SECTSIZE|intros a Ha Hin; apply (Hap a); [rewrite elem_span in *; lia|by eapply elem_of_take_1]|].
  rewrite Z.min_l in Hmove, Hadv by done. rewrite Hrw in Hmove. exists u', h'. split; [|done].
  unfold lhd_io_sector, V_clear. rewrite Hrw, (srun_call _ _ _ _ _ (P_clear_run m l Hc)), srun_ret. cbn [fst snd negb Z.eqb].
  destruct (code_ok st Hst) as [Hfin Hcode]. rewrite (command_run m l _ s st _ h'), Hcode by done. cbn [Z.eqb]. unfold lget. autorewrite with srun. cbn [snd fst lh_buf].
  rewrite (run_on_mem _ _ _ _ _ _ Hmove). done.
Qed.

Lemma write_sector_run m l s u :
  lhd_idle l -> card_good (lh_card l) s = true -> kernel_uio LHD_SECTSIZE u -> uio_rw u = UIO_WRITE -> LHD_SECTSIZE <= uio_resid u ->
  (forall a, a ∈ span (lh_buf l) LHD_SECTSIZE -> a ∉ uio_addrs u) ->
  let data := load m (take (Z.to_nat LHD_SECTSIZE) (uio_addrs u)) in
  exists u' h', lhd_io_sector accessible curas (Z.lor LHD_WORKING LHD_ISWRITE) s u (m, l)
      = inr ((0, u'), (store (span (lh_buf l) LHD_SECTSIZE) data (store (span (lh_buf l) LHD_SECTSIZE) data m), after_command 0 h' s l)) /\
    advanced u LHD_SECTSIZE u' /\ card_working h' /\ (forall t, card_good h' t = card_good (lh_card l) t) /\
    (forall t, card_sector h' t = if decide (t = s) then data else lhd_sector l t).
Proof.
  intros [Hc Hd Hw Hb] Hs Hku Hrw Hres Hap data.
  assert (length data = Z.to_nat LHD_SECTSIZE) as Hlen.
  { unfold data. rewrite length_load, length_take. pose proof (length_uio_addrs _ _ (ku_ok _ _ Hku)). lia. }
  destruct (uiomove_run accessible curas (lh_buf l) LHD_SECTSIZE u m) as (u' & Hmove & Hadv);
    [done|by unfold LHD_SECTSIZE|intros a Ha Hin; apply (Hap a); [rewrite elem_span in *; lia|by eapply elem_of_take_1]|].
  rewrite Z.min_l in Hmove, Hadv by done. rewrite Hrw in Hmove. unfold moved in Hmove. fold data in Hmove.
  assert (load (store (span (lh_buf l) LHD_SECTSIZE) data m) (span (lh_buf l) LHD_SECTSIZE) = data) as Hbuf
    by (apply load_store; [apply NoDup_span|by rewrite length_span]).
  destruct (card_write (lh_card l) s data Hw Hs Hlen) as (st & h' & Hrun & Hst & Hw' & Hn' & Hsec').
  exists u', h'. split; [|done].
  unfold lhd_io_sector, V_clear. rewrite Hrw, (srun_call _ _ _ _ _ (P_clear_run m l Hc)). unfold lget at 1. autorewrite with srun. cbn [fst snd lh_buf set_clear].
  rewrite (run_on_mem _ _ _ _ _ _ Hmove). cbn [fst snd negb Z.eqb].
  destruct (code_ok st Hst) as [Hfin Hcode]. rewrite (command_run _ l _ s st data h'), Hcode by (rewrite ?Hbuf; done). done.
Qed.

(** The errors of the card. *)
Definition card_error (r : Z) : Prop := r = EINVAL \/ r = EIO.

Lemma code_fault st : Z.land st LHD_STATEMASK = LHD_INVSECT \/ Z.land st LHD_STATEMASK = LHD_MEDIA ->
  finished st /\ card_error (lhd_code_to_errno st) /\ (lhd_code_to_errno st =? 0) = false.
Proof. unfold finished, card_error, lhd_code_to_errno. intros [E|E]; rewrite E; cbn; auto. Qed.

(** The command for a bad sector: the error of the card, and the driver ready for
    the next round. *)
Lemma read_fault_run m l s u :
  lhd_idle l -> card_good (lh_card l) s = false -> uio_rw u = UIO_READ ->
  exists r m' h', lhd_io_sector accessible curas LHD_WORKING s u (m, l) = inr ((r, u), (m', after_command r h' s l)) /\ card_error r /\
    changes_only (.∈ span (lh_buf l) LHD_SECTSIZE) m m' /\ card_working h' /\ (forall t, card_sector h' t = lhd_sector l t).
Proof.
  intros [Hc Hd Hw Hb] Hs Hrw.
  destruct (card_read_fault (lh_card l) s (load m (span (lh_buf l) LHD_SECTSIZE)) Hw Hs) as (st & buf' & h' & Hrun & Hst & Hw' & Hsec').
  destruct (code_fault st Hst) as (Hfin & Herr & Hne). eexists (lhd_code_to_errno st), _, h'. split; [|split; [exact Herr|split; [|done]]].
  - unfold lhd_io_sector, V_clear. rewrite Hrw, (srun_call _ _ _ _ _ (P_clear_run m l Hc)), srun_ret. cbn [fst snd negb Z.eqb].
    rewrite (command_run m l _ s st buf' h'), Hne by done. autorewrite with srun. reflexivity.
  - apply changes_store.
Qed.

Lemma write_fault_run m l s u :
  lhd_idle l -> card_good (lh_card l) s = false -> kernel_uio LHD_SECTSIZE u -> uio_rw u = UIO_WRITE -> LHD_SECTSIZE <= uio_resid u ->
  (forall a, a ∈ span (lh_buf l) LHD_SECTSIZE -> a ∉ uio_addrs u) ->
  exists r u' m' h', lhd_io_sector accessible curas (Z.lor LHD_WORKING LHD_ISWRITE) s u (m, l) = inr ((r, u'), (m', after_command r h' s l)) /\ card_error r /\
    advanced u LHD_SECTSIZE u' /\ changes_only (.∈ span (lh_buf l) LHD_SECTSIZE) m m' /\ card_working h' /\ (forall t, t <> s -> card_sector h' t = lhd_sector l t).
Proof.
  intros [Hc Hd Hw Hb] Hs Hku Hrw Hres Hap.
  destruct (uiomove_run accessible curas (lh_buf l) LHD_SECTSIZE u m) as (u' & Hmove & Hadv);
    [done|by unfold LHD_SECTSIZE|intros a Ha Hin; apply (Hap a); [rewrite elem_span in *; lia|by eapply elem_of_take_1]|].
  rewrite Z.min_l in Hmove, Hadv by done. rewrite Hrw in Hmove. unfold moved in Hmove. set (m1 := store _ _ m) in Hmove.
  destruct (card_write_fault (lh_card l) s (load m1 (span (lh_buf l) LHD_SECTSIZE)) Hw Hs) as (st & buf' & h' & Hrun & Hst & Hw' & Hsec');
    [by rewrite length_load, length_span|].
  destruct (code_fault st Hst) as (Hfin & Herr & Hne). eexists (lhd_code_to_errno st), u', _, h'. split; [|split; [exact Herr|split; [exact Hadv|split; [|done]]]].
  - unfold lhd_io_sector, V_clear. rewrite Hrw, (srun_call _ _ _ _ _ (P_clear_run m l Hc)). unfold lget at 1. autorewrite with srun. cbn [fst snd lh_buf set_clear].
    rewrite (run_on_mem _ _ _ _ _ _ Hmove). cbn [fst snd negb Z.eqb].
    rewrite (command_run m1 l _ s st buf' h'), Hne by done. autorewrite with srun. reflexivity.
  - eapply changes_only_trans; apply changes_store.
Qed.

(** ** The loop *)

(** [len] consecutive sectors. *)
Fixpoint sectors (f : Z -> list Z) (s : Z) (len : nat) : list Z :=
  match len with O => [] | S len' => f s ++ sectors f (s + 1) len' end.

Lemma sectors_ext f g s len : (forall t, f t = g t) -> sectors f s len = sectors g s len.
Proof. intros E. revert s. induction len as [|len IH]; intros s; cbn; [done|]. by rewrite E, IH. Qed.

(** A request of the kernel for [len] sectors, apart from the buffer. *)
Record disk_request (l : lhd_softc hw) (rw : uio_rw_t) (len : nat) (u : uio) : Prop := mk_disk_request {
  dr_kernel : kernel_uio (LHD_SECTSIZE * Z.of_nat len) u;
  dr_rw : uio_rw u = rw;
  dr_resid : uio_resid u = LHD_SECTSIZE * Z.of_nat len;
  dr_distinct : NoDup (uio_addrs u);
  dr_apart : forall a, a ∈ span (lh_buf l) LHD_SECTSIZE -> a ∉ uio_addrs u
}.

Lemma disk_request_next l l' rw len u u' :
  disk_request l rw (S len) u -> advanced u LHD_SECTSIZE u' -> lhd_same l l' -> disk_request l' rw len u'.
Proof.
  intros [Hk Hw Hr Hd Ha] Hadv [_ Hb]. unfold LHD_SECTSIZE in *.
  pose proof (ad_addrs _ _ _ Hadv ltac:(lia)) as E. constructor; unfold LHD_SECTSIZE.
  - replace (512 * Z.of_nat len) with (512 * Z.of_nat (S len) - 512) by lia. apply (kernel_advanced _ u); (done || lia).
  - by rewrite (ad_rw _ _ _ Hadv).
  - rewrite (ad_resid _ _ _ Hadv). lia.
  - rewrite E. eapply sublist_NoDup; [done|apply sublist_drop].
  - rewrite E, Hb. intros a Hin Hin'. apply (Ha a Hin). by eapply elem_of_drop_1.
Qed.

Lemma after_command_idle l r h' s : lhd_idle l -> card_working h' ->
  lhd_idle (after_command r h' s l) /\ lhd_same l (after_command r h' s l).
Proof. intros [Hc Hd Hw Hb] Hw'. by split; [constructor|]. Qed.

Lemma request_part l rw len u : disk_request l rw (S len) u -> kernel_uio LHD_SECTSIZE u /\ LHD_SECTSIZE <= uio_resid u.
Proof.
  intros [Hk _ Hr _ _]. unfold LHD_SECTSIZE in *. split; [|lia]. apply (kernel_part (512 * Z.of_nat (S len))); (done || lia).
Qed.

(** The part of the data that goes to sector [t]. *)
Definition chunk (data : list Z) (i : Z) : list Z := take (Z.to_nat LHD_SECTSIZE) (drop (Z.to_nat (LHD_SECTSIZE * i)) data).

Lemma sectors_bytes k : Z.to_nat (LHD_SECTSIZE * Z.of_nat (S k)) = (Z.to_nat LHD_SECTSIZE + Z.to_nat (LHD_SECTSIZE * Z.of_nat k))%nat.
Proof. unfold LHD_SECTSIZE. lia. Qed.

(** What a request for [len] sectors from [s] on has done when it returned [r]:
    [k] sectors were transferred, all of them or those before the first bad one.
    (A write takes the data of the bad sector from the request as well.) *)
Record transfer (rw : uio_rw_t) (len k : nat) (s r : Z) (u u' : uio) (m m' : memory) (l l' : lhd_softc hw) : Prop := mk_transfer {
  tr_idle : lhd_idle l';
  tr_same : lhd_same l l';
  tr_moved : forall t, s <= t < s + Z.of_nat k -> card_good (lh_card l) t = true;
  tr_stop : (k = len /\ r = 0 /\ advanced u (LHD_SECTSIZE * Z.of_nat len) u' /\ (forall t, card_good (lh_card l') t = card_good (lh_card l) t)) \/
            ((k < len)%nat /\ card_good (lh_card l) (s + Z.of_nat k) = false /\ card_error r /\
             advanced u (LHD_SECTSIZE * Z.of_nat (match rw with UIO_READ => k | UIO_WRITE => S k end)) u');
  tr_data : match rw with
    | UIO_READ => load m' (take (Z.to_nat (LHD_SECTSIZE * Z.of_nat k)) (uio_addrs u)) = sectors (lhd_sector l) s k /\
        (forall t, lhd_sector l' t = lhd_sector l t) /\
        changes_only (fun a => a ∈ take (Z.to_nat (LHD_SECTSIZE * Z.of_nat k)) (uio_addrs u) \/ a ∈ span (lh_buf l) LHD_SECTSIZE) m m'
    | UIO_WRITE => changes_only (.∈ span (lh_buf l) LHD_SECTSIZE) m m' /\
        (forall t, k = len \/ t <> s + Z.of_nat k ->
          lhd_sector l' t = if decide (s <= t < s + Z.of_nat k) then chunk (load m (uio_addrs u)) (t - s) else lhd_sector l t)
    end
}.

(** One sector more in front. *)
Lemma transfer_stop rw len k s r u u1 u' l l1 l' :
  advanced u LHD_SECTSIZE u1 -> card_good (lh_card l) s = true -> (forall t, card_good (lh_card l1) t = card_good (lh_card l) t) ->
  (k = len /\ r = 0 /\ advanced u1 (LHD_SECTSIZE * Z.of_nat len) u' /\ (forall t, card_good (lh_card l') t = card_good (lh_card l1) t)) \/
    ((k < len)%nat /\ card_good (lh_card l1) (s + 1 + Z.of_nat k) = false /\ card_error r /\
     advanced u1 (LHD_SECTSIZE * Z.of_nat (match rw with UIO_READ => k | UIO_WRITE => S k end)) u') ->
  (S k = S len /\ r = 0 /\ advanced u (LHD_SECTSIZE * Z.of_nat (S len)) u' /\ (forall t, card_good (lh_card l') t = card_good (lh_card l) t)) \/
    ((S k < S len)%nat /\ card_good (lh_card l) (s + Z.of_nat (S k)) = false /\ card_error r /\
     advanced u (LHD_SECTSIZE * Z.of_nat (match rw with UIO_READ => S k | UIO_WRITE => S (S k) end)) u').
Proof.
  intros Hadv Hs Hg Hor.
  assert (forall n, advanced u1 (LHD_SECTSIZE * Z.of_nat n) u' -> advanced u (LHD_SECTSIZE * Z.of_nat (S n)) u') as Hplus.
  { intros n Hn. replace (LHD_SECTSIZE * Z.of_nat (S n)) with (LHD_SECTSIZE + LHD_SECTSIZE * Z.of_nat n) by lia.
    apply (advanced_trans u _ u1); unfold LHD_SECTSIZE; (done || lia). }
  destruct Hor as [(-> & -> & H1 & H2)|(H1 & H2 & H3 & H4)]; [left|right].
  - split_and!; [done|done|by apply Hplus|]. intros t. by rewrite H2, Hg.
  - split_and!; [lia| |done|destruct rw; by apply Hplus]. rewrite <- Hg. by replace (s + Z.of_nat (S k)) with (s + 1 + Z.of_nat k) by lia.
Qed.

Lemma transfer_moved k s (l l1 : lhd_softc hw) : card_good (lh_card l) s = true -> (forall t, card_good (lh_card l1) t = card_good (lh_card l) t) ->
  (forall t, s + 1 <= t < s + 1 + Z.of_nat k -> card_good (lh_card l1) t = true) -> forall t, s <= t < s + Z.of_nat (S k) -> card_good (lh_card l) t = true.
Proof. intros Hs Hg Hk t Ht. destruct (decide (t = s)) as [->|]; [done|]. rewrite <- Hg. apply Hk. lia. Qed.

Lemma read_loop_run len : forall m l s u,
  lhd_idle l -> 0 <= s -> s + Z.of_nat len <= lh_blocks l -> disk_request l UIO_READ len u ->
  exists k r u' m' l', lhd_io_loop accessible curas len LHD_WORKING s u (m, l) = inr ((r, u'), (m', l')) /\ transfer UIO_READ len k s r u u' m m' l l'.
Proof.
  induction len as [|len IH]; intros m l s u Hrd Hs Hb Hreq; cbn [lhd_io_loop].
  { exists 0%nat, 0, u, m, l. split; [done|]. constructor; [done|done|lia|left; split_and!; [done|done|eapply advanced_refl, Hreq|done]|]. split_and!; [done|done|by intros a []]. }
  destruct (request_part _ _ _ _ Hreq) as [Hk Hres]. pose proof (dr_apart _ _ _ _ Hreq) as Hap.
  destruct (card_good (lh_card l) s) eqn:Hgood.
  2:{ destruct (read_fault_run m l s u Hrd Hgood (dr_rw _ _ _ _ Hreq)) as (r & m1 & h1 & Hrun & Herr & Hch & Hw1 & Hsec1).
      destruct (after_command_idle l r h1 s Hrd Hw1) as [Hrd1 Hsame1]. exists 0%nat, r, u, m1, (after_command r h1 s l).
      rewrite (srun_call _ _ _ _ _ Hrun). cbn [fst snd]. split; [by destruct Herr as [->| ->]|].
      constructor; [done|done|lia|right; split_and!; [lia|by rewrite Z.add_0_r|done|eapply advanced_refl, Hreq]|]. split_and!; [done|done|].
      eapply changes_weaken; [|exact Hch]. by right. }
  destruct (read_sector_run m l s u) as (u1 & h1 & Hrun & Hadv & Hw1 & Hn1 & Hsec1); [done|done|done|apply Hreq|done|done|].
  destruct (after_command_idle l 0 h1 s Hrd Hw1) as [Hrd1 Hsame1].
  rewrite (srun_call _ _ _ _ _ Hrun). cbn [fst snd negb Z.eqb].
  set (m1 := moved _ _ _ _ _) in *. set (l1 := after_command 0 h1 s l) in *.
  pose proof (disk_request_next _ l1 _ _ _ _ Hreq Hadv Hsame1) as Hreq1.
  rewrite u32_small by (destruct Hrd; unfold is_u32; lia).
  destruct (IH m1 l1 (s + 1) u1) as (k & r & u' & m' & l' & Hrun' & [Hrd' [Hb' Hf'] Hmv Hstop (Hload & Hsec' & Hch)]); [done|lia|cbn; lia|done|].
  pose proof (length_uio_addrs _ _ (ku_ok _ _ Hk)) as Hlen. pose proof (card_sector_length (lh_card l) s (li_working _ Hrd)) as Hsl.
  exists (S k), r, u', m', l'. split; [done|].
  constructor; [done|split; [by rewrite Hb'|by rewrite Hf']|by apply (transfer_moved k s l l1)|by apply (transfer_stop UIO_READ len k s r u u1 u' l l1 l')|].
  rewrite (ad_addrs _ _ _ Hadv ltac:(unfold LHD_SECTSIZE; lia)) in *. rewrite sectors_bytes, <- take_take_drop. split_and!.
  - cbn [sectors]. rewrite load_app, Hload. f_equal; [|by apply sectors_ext].
    transitivity (load m1 (take (Z.to_nat LHD_SECTSIZE) (uio_addrs u))).
    + apply list_fmap_ext. intros i a Ha%list_elem_of_lookup_2.
      destruct (decide (byte_at m' a = byte_at m1 a)) as [|Hne]; [done|]. destruct (Hch a Hne) as [Hin%elem_of_take_1|Hin].
      * pose proof (dr_distinct _ _ _ _ Hreq) as Hnd. rewrite <- (take_drop (Z.to_nat LHD_SECTSIZE) (uio_addrs u)) in Hnd.
        apply NoDup_app in Hnd as (_ & Hnd & _). by destruct (Hnd a Ha).
      * destruct (Hap a Hin). by eapply elem_of_take_1.
    + unfold m1, moved. rewrite load_store.
      * apply load_store; [apply NoDup_span|by rewrite length_span].
      * eapply sublist_NoDup; [apply Hreq|apply sublist_take].
      * rewrite length_load, length_span, length_take. lia.
  - intros t. rewrite Hsec'. apply Hsec1.
  - eapply changes_only_trans; [|eapply changes_weaken; [|exact Hch]].
    + unfold m1, moved. eapply changes_only_trans; (eapply changes_weaken; [|apply changes_store]); cbn.
      * by right.
      * intros a Ha. left. apply elem_of_app. by left.
    + cbn. intros a [Ha|Ha]; [left; apply elem_of_app; by right|by right].
Qed.

Lemma write_loop_run len : forall m l s u,
  lhd_idle l -> 0 <= s -> s + Z.of_nat len <= lh_blocks l -> disk_request l UIO_WRITE len u ->
  exists k r u' m' l', lhd_io_loop accessible curas len (Z.lor LHD_WORKING LHD_ISWRITE) s u (m, l) = inr ((r, u'), (m', l')) /\ transfer UIO_WRITE len k s r u u' m m' l l'.
Proof.
  induction len as [|len IH]; intros m l s u Hrd Hs Hb Hreq; cbn [lhd_io_loop].
  { exists 0%nat, 0, u, m, l. split; [done|]. constructor; [done|done|lia|left; split_and!; [done|done|eapply advanced_refl, Hreq|done]|].
    split; [by intros a []|]. intros t _. by rewrite decide_False by lia. }
  destruct (request_part _ _ _ _ Hreq) as [Hk Hres]. pose proof (dr_apart _ _ _ _ Hreq) as Hap.
  destruct (card_good (lh_card l) s) eqn:Hgood.
  2:{ destruct (write_fault_run m l s u Hrd Hgood Hk (dr_rw _ _ _ _ Hreq) Hres Hap) as (r & u1 & m1 & h1 & Hrun & Herr & Hadv & Hch & Hw1 & Hsec1).
      destruct (after_command_idle l r h1 s Hrd Hw1) as [Hrd1 Hsame1]. exists 0%nat, r, u1, m1, (after_command r h1 s l).
      rewrite (srun_call _ _ _ _ _ Hrun). cbn [fst snd]. split; [by destruct Herr as [->| ->]|].
      constructor; [done|done|lia|right; split_and!; [lia|by rewrite Z.add_0_r|done|done]|]. split; [done|].
      intros t [Ht|Ht]; [done|]. rewrite decide_False by lia. apply Hsec1. lia. }
  destruct (write_sector_run m l s u) as (u1 & h1 & Hrun & Hadv & Hw1 & Hn1 & Hsec1); [done|done|done|apply Hreq|done|done|].
  destruct (after_command_idle l 0 h1 s Hrd Hw1) as [Hrd1 Hsame1].
  rewrite (srun_call _ _ _ _ _ Hrun). cbn [fst snd negb Z.eqb].
  set (data := load m (take (Z.to_nat LHD_SECTSIZE) (uio_addrs u))) in *. set (m1 := store _ _ (store _ _ m)) in *. set (l1 := after_command 0 h1 s l) in *.
  assert (changes_only (.∈ span (lh_buf l) LHD_SECTSIZE) m m1) as Hch1 by (unfold m1; eapply changes_only_trans; apply changes_store).
  pose proof (disk_request_next _ l1 _ _ _ _ Hreq Hadv Hsame1) as Hreq1.
  rewrite u32_small by (destruct Hrd; unfold is_u32; lia).
  destruct (IH m1 l1 (s + 1) u1) as (k & r & u' & m' & l' & Hrun' & [Hrd' [Hb' Hf'] Hmv Hstop (Hch & Hsec')]); [done|lia|cbn; lia|done|].
  exists (S k), r, u', m', l'. split; [done|].
  constructor; [done|split; [by rewrite Hb'|by rewrite Hf']|by apply (transfer_moved k s l l1)|by apply (transfer_stop UIO_WRITE len k s r u u1 u' l l1 l')|].
  split; [by eapply changes_only_trans|]. intros t Ht.
  rewrite Hsec', (ad_addrs _ _ _ Hadv ltac:(unfold LHD_SECTSIZE; lia)) by lia.
  assert (load m1 (drop (Z.to_nat LHD_SECTSIZE) (uio_addrs u)) = drop (Z.to_nat LHD_SECTSIZE) (load m (uio_addrs u))) as ->.
  { unfold load. rewrite <- fmap_drop. apply list_fmap_ext. intros i a Ha%list_elem_of_lookup_2%elem_of_drop_1.
    destruct (decide (byte_at m1 a = byte_at m a)) as [|Hne]; [done|]. by destruct (Hap a (Hch1 a Hne)). }
  repeat case_decide; try lia.
  - unfold chunk. rewrite drop_drop. do 2 f_equal. unfold LHD_SECTSIZE. lia.
  - unfold l1, lhd_sector at 1. cbn. rewrite Hsec1. replace t with s by lia. rewrite decide_True by done.
    unfold chunk, data, load. rewrite fmap_take, Z.sub_diag. done.
  - unfold l1, lhd_sector at 1. cbn. rewrite Hsec1, decide_False by lia. done.
Qed.

(** ** Requests *)

Lemma lhd_io_start (l : lhd_softc hw) rw len s u m :
  lhd_idle l -> 0 <= s -> s + Z.of_nat len <= lh_blocks l -> disk_request l rw len u -> uio_offset u = LHD_SECTSIZE * s ->
  lhd_io accessible curas u (m, l) = lhd_io_loop accessible curas len
    (match rw with UIO_WRITE => Z.lor LHD_WORKING LHD_ISWRITE | UIO_READ => LHD_WORKING end) s u (m, l).
Proof.
  intros Hrd Hs Hb Hreq Hoff. pose proof (li_blocks _ Hrd).
  destruct (aligned_offset _ s Hoff) as [E1 E2]; [unfold is_u32; lia|].
  unfold lhd_io, lget. rewrite E1, E2, (dr_resid _ _ _ _ Hreq), (dr_rw _ _ _ _ Hreq).
  rewrite (Z.mul_comm LHD_SECTSIZE), Z.div_mul, Z.mod_mul by (unfold LHD_SECTSIZE; lia). cbn [Z.eqb negb orb].
  rewrite srun_get. cbn [snd]. rewrite u32_small by (unfold is_u32; lia). rewrite (proj2 (Z.ltb_ge _ _)) by lia. by rewrite Nat2Z.id.
Qed.

(** The driver as a device. *)
#[local] Instance lhd_device : Device (lhd_softc hw) := {| devop_io := lhd_io accessible curas |}.

Lemma block_disk_request (l : lhd_softc hw) rw b u : block_request rw b u ->
  (forall a, a ∈ span (lh_buf l) SECTSIZE -> a ∉ uio_addrs u) -> disk_request l rw 1 u.
Proof. intros [Hk Hw Ho Hr Hd] Ha. by constructor. Qed.

(** A request the whole of which is on the disk. *)
Lemma lhd_io_run (l : lhd_softc hw) rw len s u m :
  lhd_idle l -> 0 <= s -> s + Z.of_nat len <= lh_blocks l -> disk_request l rw len u -> uio_offset u = LHD_SECTSIZE * s ->
  exists k r u' m' l', lhd_io accessible curas u (m, l) = inr ((r, u'), (m', l')) /\ transfer rw len k s r u u' m m' l l'.
Proof. intros Hrd Hs Hb Hreq Hoff. rewrite (lhd_io_start l rw len s) by done. destruct rw; [by apply read_loop_run|by apply write_loop_run]. Qed.

(** Without a bad sector, all of it is transferred. *)
Lemma transfer_ready rw len k s r u u' m m' l l' : lhd_ready l -> 0 <= s -> s + Z.of_nat len <= lh_blocks l ->
  transfer rw len k s r u u' m m' l l' -> k = len /\ r = 0 /\ advanced u (LHD_SECTSIZE * Z.of_nat len) u' /\ lhd_ready l'.
Proof.
  intros [Hi Hg] Hs Hb [T1 [T2 _] _ [(-> & -> & Hadv & Hg')|(Hk & Hbad & _)] _].
  - split_and!; try done. split; [done|]. intros t. by rewrite T2, Hg'; apply Hg.
  - by rewrite Hg in Hbad by lia.
Qed.

Lemma lhd_block_run (l : lhd_softc hw) rw b u m :
  lhd_ready l -> 0 <= b < lh_blocks l -> block_request rw b u -> (forall a, a ∈ span (lh_buf l) SECTSIZE -> a ∉ uio_addrs u) ->
  exists u' m' l', devop_io u (m, l) = inr ((0, u'), (m', l')) /\ transfer rw 1 1 b 0 u u' m m' l l' /\ advanced u SECTSIZE u' /\ lhd_ready l' /\
    take (Z.to_nat (LHD_SECTSIZE * Z.of_nat 1)) (uio_addrs u) = uio_addrs u.
Proof.
  intros Hrd Hb Hreq Ha. pose proof (block_disk_request l _ _ _ Hreq Ha) as Hdr.
  destruct (lhd_io_run l rw 1 b u m) as (k & r & u' & m' & l' & Hrun & Ht); [apply Hrd|lia|lia|done|apply Hreq|].
  destruct (transfer_ready rw 1 k b r u u' m m' l l' Hrd ltac:(lia) ltac:(lia) Ht) as (-> & -> & Hadv & Hrd'). exists u', m', l'. split_and!; try done.
  apply take_ge. pose proof (length_uio_addrs _ _ (ku_ok _ _ (br_kernel _ _ _ Hreq))) as Hlen. rewrite (br_resid _ _ _ Hreq) in Hlen.
  unfold SECTSIZE, LHD_SECTSIZE in *. lia.
Qed.

Lemma lhd_block_read (l : lhd_softc hw) b u m :
  lhd_ready l -> 0 <= b < lh_blocks l -> block_request UIO_READ b u -> (forall a, a ∈ span (lh_buf l) SECTSIZE -> a ∉ uio_addrs u) ->
  exists u' m' l', devop_io u (m, l) = inr ((0, u'), (m', l')) /\ advanced u SECTSIZE u' /\ load m' (uio_addrs u) = lhd_sector l b /\
    changes_only (fun a => a ∈ uio_addrs u \/ a ∈ span (lh_buf l) SECTSIZE) m m' /\
    lhd_ready l' /\ lh_blocks l' = lh_blocks l /\ lh_buf l' = lh_buf l /\ (forall c, lhd_sector l' c = lhd_sector l c).
Proof.
  intros Hrd Hb Hreq Ha. destruct (lhd_block_run l UIO_READ b u m Hrd Hb Hreq Ha) as (u' & m' & l' & Hrun & [_ [T1 T2] _ _ (Hload & Hsec & Hch)] & Hadv & Hrd' & E).
  rewrite E in *. exists u', m', l'. split_and!; try done. rewrite Hload. cbn. apply app_nil_r.
Qed.

Lemma lhd_block_write (l : lhd_softc hw) b u m :
  lhd_ready l -> 0 <= b < lh_blocks l -> block_request UIO_WRITE b u -> (forall a, a ∈ span (lh_buf l) SECTSIZE -> a ∉ uio_addrs u) ->
  exists u' m' l', devop_io u (m, l) = inr ((0, u'), (m', l')) /\ advanced u SECTSIZE u' /\
    changes_only (.∈ span (lh_buf l) SECTSIZE) m m' /\
    lhd_ready l' /\ lh_blocks l' = lh_blocks l /\ lh_buf l' = lh_buf l /\
    (forall c, lhd_sector l' c = if decide (c = b) then load m (uio_addrs u) else lhd_sector l c).
Proof.
  intros Hrd Hb Hreq Ha. destruct (lhd_block_run l UIO_WRITE b u m Hrd Hb Hreq Ha) as (u' & m' & l' & Hrun & [_ [T1 T2] _ _ (Hch & Hsec)] & Hadv & Hrd' & E).
  exists u', m', l'. split_and!; try done. intros c. rewrite Hsec by (by left). repeat case_decide; try lia; [|done]. subst c. rewrite Z.sub_diag.
  unfold chunk. cbn [drop]. apply take_ge. rewrite length_load, <- E, length_take. unfold LHD_SECTSIZE. lia.
Qed.

#[local] Instance lhd_block_device : BlockDevice (lhd_softc hw) := {|
  dv_ready := lhd_ready;
  dv_blocks := lh_blocks;
  dv_buffer := lh_buf;
  dv_sector := lhd_sector;
  dv_sector_length := fun l b Hrd => card_sector_length (lh_card l) b (li_working l (lr_idle l Hrd));
  dv_read := lhd_block_read;
  dv_write := lhd_block_write
|}.

(** The sector size divides 2^32, so the test on the truncated remainder is exact. *)
Lemma lhd_io_unaligned u m (l : lhd_softc hw) : uio_offset u mod LHD_SECTSIZE <> 0 \/ uio_resid u mod LHD_SECTSIZE <> 0 ->
  lhd_io accessible curas u (m, l) = inr ((EINVAL, u), (m, l)).
Proof.
  intros Hal. unfold lhd_io. destruct (u32 (Z.rem (uio_offset u) LHD_SECTSIZE) =? 0) eqn:E; [|done].
  destruct Hal as [Hal|Hal]; [|by rewrite (proj2 (Z.eqb_neq _ 0) Hal)]. destruct Hal. apply Z.eqb_eq in E. unfold u32, LHD_SECTSIZE in *.
  pose proof (Z.quot_rem' (uio_offset u) 512). pose proof (Z.rem_bound_abs (uio_offset u) 512 ltac:(lia)). lia.
Qed.

End proofs.

(** ** A card *)

(** A disk in memory whose next [pc_faults] commands fail. *)
Record plain_card := mk_plain_card { pc_nsect : Z; pc_sectors : gmap Z (list Z); pc_faults : nat }.

Definition pc_sector (h : plain_card) (s : Z) : list Z := default (replicate (Z.to_nat LHD_SECTSIZE) 0) (pc_sectors h !! s).

#[export] Instance plain_lhd_card : LhdCard plain_card := {|
  card_run command s buf h :=
    let w := Z.land command LHD_ISWRITE in
    match pc_faults h with
    | S n => (Z.lor LHD_MEDIA w, buf, mk_plain_card (pc_nsect h) (pc_sectors h) n)
    | O => if (s <? 0) || (pc_nsect h <=? s) then (Z.lor LHD_INVSECT w, buf, h)
           else if w =? 0 then (LHD_OK, pc_sector h s, h)
           else (Z.lor LHD_OK w, buf, mk_plain_card (pc_nsect h) (<[s := buf]> (pc_sectors h)) 0)
    end
|}.

Definition pc_working (h : plain_card) : Prop := map_Forall (fun _ b => length b = Z.to_nat LHD_SECTSIZE) (pc_sectors h).

(** The next command for the sector succeeds. *)
Definition pc_good (h : plain_card) (s : Z) : bool :=
  match pc_faults h with S _ => false | O => negb ((s <? 0) || (pc_nsect h <=? s)) end.

Lemma pc_sector_length h s : pc_working h -> length (pc_sector h s) = Z.to_nat LHD_SECTSIZE.
Proof.
  intros Hl. unfold pc_sector. destruct (pc_sectors h !! s) as [b|] eqn:E; cbn; [by apply (Hl s)|apply length_replicate].
Qed.

#[export] Instance plain_card_laws : LhdCardLaws plain_card.
Proof.
  refine {| card_working := pc_working; card_good := pc_good; card_sector := pc_sector; card_sector_length := pc_sector_length |}; unfold pc_good; cbn.
  - intros h s buf Hl. destruct (pc_faults h) eqn:Hf; [|done]. destruct (_ || _) eqn:Hr; [done|]. intros _. exists LHD_OK, h. by rewrite Hf.
  - intros h s buf Hl. destruct (pc_faults h) eqn:Hf; [|done]. destruct (_ || _) eqn:Hr; [done|]. intros _ Hb.
    eexists (Z.lor LHD_OK LHD_ISWRITE), (mk_plain_card (pc_nsect h) (<[s := buf]> (pc_sectors h)) 0). split_and!; try done.
    + by apply map_Forall_insert_2.
    + intros t. unfold pc_sector. cbn. case_decide as E; [subst; by rewrite lookup_insert_eq|by rewrite lookup_insert_ne].
  - intros h s buf Hl. destruct (pc_faults h) eqn:Hf; [destruct (_ || _) eqn:Hr; [|done]|]; intros _; eexists _, _, _; split_and!; eauto; done.
  - intros h s buf Hl. destruct (pc_faults h) eqn:Hf; [destruct (_ || _) eqn:Hr; [|done]|]; intros _ _; eexists _, _, _; split_and!; eauto; done.
Defined.

(** A disk without faults. *)
Lemma plain_ready (l : lhd_softc plain_card) : lh_clear l = 1 -> lh_done l = 0 -> pc_working (lh_card l) -> 0 <= lh_blocks l < 2^32 ->
  pc_faults (lh_card l) = 0%nat -> lh_blocks l <= pc_nsect (lh_card l) -> lhd_ready l.
Proof.
  intros H1 H2 H3 H4 H5 H6. split; [by split|]. intros s Hs. cbn. unfold pc_good. rewrite H5, (proj2 (Z.ltb_ge s 0)), (proj2 (Z.leb_gt _ s)) by lia. done.
Qed.

(** A request for two sectors in two buffers, on a disk of [n] sectors: with 8
    both are read; with 4 the second is the error of the card, and the first is
    in the buffer. *)
Definition two_sectors : uio := mk_uio [mk_iovec 0x80400000 700; mk_iovec 0x80500000 324] (512 * 3) 1024 UIO_SYSSPACE UIO_READ None.
Definition small_disk (n : Z) : lhd_softc plain_card := mk_lhd 0xbfe08000 0 1 0 8 0 0 (mk_plain_card n {[ 3 := replicate 512 7 ]} 0).

Lemma two_sectors_request n : disk_request (small_disk n) UIO_READ 2 two_sectors.
Proof.
  assert (uio_addrs two_sectors = span 0x80400000 700 ++ span 0x80500000 324) as E by reflexivity. constructor; rewrite ?E; [|reflexivity|reflexivity| |].
  - constructor; [|done..]. constructor; cbn; [|lia|lia|by left]. repeat constructor; cbn; lia.
  - apply NoDup_app. split_and!; [apply NoDup_span| |apply NoDup_span]. intros a. rewrite !elem_span. lia.
  - intros a. rewrite elem_of_app, !elem_span. cbn. unfold LHD_SECTSIZE. lia.
Qed.

Lemma small_disk_idle n : lhd_idle (small_disk n).
Proof. constructor; try done. by apply map_Forall_singleton. Qed.

