(* ===== verification/Sfs.v ===== *)
(** * The file system SFS: blocks and files
      ([kern/fs/sfs/sfs_balloc.c], [sfs_bmap.c], [sfs_io.c])

    The state is the memory, the device, the map of free blocks and the inodes
    in memory.  The static buffers of the functions are areas of memory at
    addresses given by [Layout].  The words of the indirect block are the
    big-endian words of its bytes.  The device is any [Device]. *)

From S2P Require Import Prelude State Monad StopState Bitmap Uio Device.

#[local] Open Scope Z_scope.
#[local] Open Scope sm_scope.

Definition SFS_BLOCKSIZE : Z := 512.
Definition SFS_NDIRECT : Z := 15.
Definition SFS_NINDIRECT : Z := 1.
Definition SFS_DBPERIDB : Z := 128.
Definition EIO : Z := 32.
Definition EFBIG : Z := 38.

(** ** Data *)

Record sfs_dinode := mk_dinode {
  sfi_size : Z;
  sfi_type : Z;
  sfi_linkcount : Z;
  sfi_direct : list Z;
  sfi_indirect : Z;
  sfi_waste : list Z               (* unused; kept as it was read *)
}.

Record sfs_vnode := mk_sfs_vnode {
  sv_i : sfs_dinode;
  sv_ino : Z;
  sv_dirty : bool
}.

(** The static arrays: of [sfs_partialio], [sfs_bmap], [sfs_itrunc],
    [sfs_metaio], [sfs_clearblock] and [uiomovezeros]. *)
Inductive area := iobuf | bmap_idbuf | itrunc_idbuf | metaiobuf | clear_zeros | uio_zeros.
#[export] Instance area_eq_dec : EqDecision area.
Proof. solve_decision. Defined.

Class Layout := { addr : area -> Z }.

Section sfs.
Context {D : Type} {DV : Device D} {LY : Layout}.
Context (accessible : bool -> Z -> bool) (curas : option positive).

Record sfs_fs := mk_sfs {
  sfs_mem : memory;
  sfs_device : D;
  sfs_freemap : bitmap;
  sfs_freemapdirty : bool;
  sb_nblocks : Z;
  sfs_vnodes : gmap positive sfs_vnode;
  vfs_biglock_depth : Z            (* the lock is held iff it is not 0 *)
}.

Definition set_mem x s := mk_sfs x (sfs_device s) (sfs_freemap s) (sfs_freemapdirty s) (sb_nblocks s) (sfs_vnodes s) (vfs_biglock_depth s).
Definition set_freemap x s := mk_sfs (sfs_mem s) (sfs_device s) x (sfs_freemapdirty s) (sb_nblocks s) (sfs_vnodes s) (vfs_biglock_depth s).
Definition set_freemapdirty x s := mk_sfs (sfs_mem s) (sfs_device s) (sfs_freemap s) x (sb_nblocks s) (sfs_vnodes s) (vfs_biglock_depth s).
Definition set_vnodes x s := mk_sfs (sfs_mem s) (sfs_device s) (sfs_freemap s) (sfs_freemapdirty s) (sb_nblocks s) x (vfs_biglock_depth s).
Definition set_depth x s := mk_sfs (sfs_mem s) (sfs_device s) (sfs_freemap s) (sfs_freemapdirty s) (sb_nblocks s) (sfs_vnodes s) x.
Definition set_io m d s := mk_sfs m d (sfs_freemap s) (sfs_freemapdirty s) (sb_nblocks s) (sfs_vnodes s) (vfs_biglock_depth s).

Notation FM := (SM sfs_fs).

(** Memory, the device and pure functions that can stop. *)
Definition on_memory {A} (p : SM memory A) : FM A := fun s =>
  match p (sfs_mem s) with inr (a, m') => inr (a, set_mem m' s) | inl r => inl r end.
Definition on_device {A} (p : SM (memory * D) A) : FM A := fun s =>
  match p (sfs_mem s, sfs_device s) with inr (a, (m', d')) => inr (a, set_io m' d' s) | inl r => inl r end.
Definition of_sum {A} (r : stop_reason + A) : FM A := fun s =>
  match r with inr a => inr (a, s) | inl e => inl e end.

Definition bzero (a n : Z) : SM memory unit := smodify (store (span a n) (replicate (Z.to_nat n) 0)).

(** Word [i] of an array of words at [a]. *)
Definition bytes_word (l : list Z) : Z := foldl (fun w b => w * 256 + b) 0 l.
Definition word_bytes (w : Z) : list Z := [w / 2^24 mod 256; w / 2^16 mod 256; w / 2^8 mod 256; w mod 256].
Definition word_at (a i : Z) (m : memory) : Z := bytes_word (load m (span (a + 4 * i) 4)).
Definition set_word (a i w : Z) (m : memory) : memory := store (span (a + 4 * i) 4) (word_bytes w) m.

(** The inode of [sv]. *)
Definition get_sv (sv : positive) : FM sfs_vnode := fun s => sderef (sfs_vnodes s !! sv) "sv" s.
Definition put_inode (sv : positive) (f : sfs_dinode -> sfs_dinode) : FM unit :=
  v <- get_sv sv ;;
  smodify (fun s => set_vnodes (<[sv := mk_sfs_vnode (f (sv_i v)) (sv_ino v) true]> (sfs_vnodes s)) s).

Definition set_size x i := mk_dinode x (sfi_type i) (sfi_linkcount i) (sfi_direct i) (sfi_indirect i) (sfi_waste i).
Definition set_direct k x i := mk_dinode (sfi_size i) (sfi_type i) (sfi_linkcount i) (zinsert k x (sfi_direct i)) (sfi_indirect i) (sfi_waste i).
Definition set_indirect x i := mk_dinode (sfi_size i) (sfi_type i) (sfi_linkcount i) (sfi_direct i) x (sfi_waste i).

(** ** The big lock *)

Definition vfs_biglock_acquire : FM unit := smodify (fun s => set_depth (vfs_biglock_depth s + 1) s).
Definition vfs_biglock_release : FM unit :=
  n <- sget vfs_biglock_depth ;;
  sassert (0 <? n) "lock_do_i_hold(vfs_biglock)" ;;
  smodify (set_depth (n - 1)).
Definition vfs_biglock_do_i_hold (s : sfs_fs) : bool := 0 <? vfs_biglock_depth s.

(** ** Blocks ([sfs_io.c]) *)

(** [left]: the retries left. *)
Fixpoint sfs_rwblock_try (left : nat) (u : uio) : FM (Z * uio) :=
  ru <- on_device (devop_io u) ;;
  if fst ru =? EINVAL then sstop (panic_called "sfs: DEVOP_IO returned EINVAL") else
  if fst ru =? EIO then
    match left with
    | S left' => sfs_rwblock_try left' (snd ru)
    | O => sret ru
    end
  else sret ru.

Definition sfs_rwblock (u : uio) : FM (Z * uio) :=
  held <- sget vfs_biglock_do_i_hold ;;
  sassert held "vfs_biglock_do_i_hold()" ;;
  sfs_rwblock_try 10 u.

Definition sfs_readblock (block data len : Z) : FM Z :=
  sassert (len =? SFS_BLOCKSIZE) "len == SFS_BLOCKSIZE" ;;
  ru <- sfs_rwblock (uio_kinit data SFS_BLOCKSIZE (block * SFS_BLOCKSIZE) UIO_READ) ;;
  sret (fst ru).

Definition sfs_writeblock (block data len : Z) : FM Z :=
  sassert (len =? SFS_BLOCKSIZE) "len == SFS_BLOCKSIZE" ;;
  ru <- sfs_rwblock (uio_kinit data SFS_BLOCKSIZE (block * SFS_BLOCKSIZE) UIO_WRITE) ;;
  sret (fst ru).

(** ** Allocation ([sfs_balloc.c]) *)

Definition sfs_clearblock (block : Z) : FM Z := sfs_writeblock block (addr clear_zeros) SFS_BLOCKSIZE.

(** The result and [*diskblock]. *)
Definition sfs_balloc : FM (Z * Z) :=
  map <- sget sfs_freemap ;;
  r <- of_sum (bitmap_alloc map) ;;
  let '(result, diskblock, map') := r in
  if negb (result =? 0) then sret (result, 0) else
  smodify (set_freemap map') ;;
  smodify (set_freemapdirty true) ;;
  nblocks <- sget sb_nblocks ;;
  if nblocks <=? diskblock then sstop (panic_called "sfs: balloc: invalid block") else
  result <- sfs_clearblock diskblock ;;
  (if negb (result =? 0) then
     map <- sget sfs_freemap ;;
     map' <- of_sum (bitmap_unmark map diskblock) ;;
     smodify (set_freemap map')
   else sret tt) ;;
  sret (result, diskblock).

Definition sfs_bfree (diskblock : Z) : FM unit :=
  map <- sget sfs_freemap ;;
  map' <- of_sum (bitmap_unmark map diskblock) ;;
  smodify (set_freemap map') ;;
  smodify (set_freemapdirty true).

Definition sfs_bused (diskblock : Z) : FM bool :=
  nblocks <- sget sb_nblocks ;;
  if nblocks <=? diskblock then sstop (panic_called "sfs: sfs_bused called on out of range block") else
  map <- sget sfs_freemap ;;
  of_sum (bitmap_isset map diskblock).

(** ** From file blocks to disk blocks ([sfs_bmap.c]) *)

(** The end of both branches: hand back the block. *)
Definition hand_back (block : Z) : FM (Z * Z) :=
  if block =? 0 then sret (0, block) else
  used <- sfs_bused block ;;
  if used : bool then sret (0, block) else sstop (panic_called "sfs: Data block marked free").

Definition bmap_direct (sv : positive) (fileblock : Z) (doalloc : bool) : FM (Z * Z) :=
  v <- get_sv sv ;;
  block <- sderef (zlookup (sfi_direct (sv_i v)) fileblock) "sfi_direct" ;;
  if (block =? 0) && doalloc then
    rb <- sfs_balloc ;;
    let '(result, block) := rb in
    if negb (result =? 0) then sret (result, 0) else
    put_inode sv (set_direct fileblock block) ;;
    hand_back block
  else hand_back block.

(** The indirect block is in [idbuf]. *)
Definition bmap_entry (idblock idoff : Z) (doalloc : bool) : FM (Z * Z) :=
  block <- sget (fun s => word_at (addr bmap_idbuf) idoff (sfs_mem s)) ;;
  if (block =? 0) && doalloc then
    rb <- sfs_balloc ;;
    let '(result, block) := rb in
    if negb (result =? 0) then sret (result, 0) else
    on_memory (smodify (set_word (addr bmap_idbuf) idoff block)) ;;
    result <- sfs_writeblock idblock (addr bmap_idbuf) SFS_BLOCKSIZE ;;
    if negb (result =? 0) then sret (result, 0) else
    hand_back block
  else hand_back block.

Definition sfs_bmap (sv : positive) (fileblock : Z) (doalloc : bool) : FM (Z * Z) :=
  held <- sget vfs_biglock_do_i_hold ;;
  sassert held "vfs_biglock_do_i_hold()" ;;
  if fileblock <? SFS_NDIRECT then bmap_direct sv fileblock doalloc else
  let fileblock := fileblock - SFS_NDIRECT in
  let idnum := fileblock / SFS_DBPERIDB in
  let idoff := fileblock mod SFS_DBPERIDB in
  if SFS_NINDIRECT <=? idnum then sret (EFBIG, 0) else
  v <- get_sv sv ;;
  let idblock := sfi_indirect (sv_i v) in
  if (idblock =? 0) && negb doalloc then sret (0, 0) else
  if idblock =? 0 then
    rb <- sfs_balloc ;;
    let '(result, idblock) := rb in
    if negb (result =? 0) then sret (result, 0) else
    put_inode sv (set_indirect idblock) ;;
    on_memory (bzero (addr bmap_idbuf) SFS_BLOCKSIZE) ;;
    bmap_entry idblock idoff doalloc
  else
    result <- sfs_readblock idblock (addr bmap_idbuf) SFS_BLOCKSIZE ;;
    if negb (result =? 0) then sret (result, 0) else
    bmap_entry idblock idoff doalloc.

(** The loop over the direct blocks of [sfs_itrunc]: [n] are left. *)
Fixpoint itrunc_direct (n : nat) (sv : positive) (i blocklen : Z) : FM unit :=
  match n with
  | O => sret tt
  | S n' =>
      v <- get_sv sv ;;
      block <- sderef (zlookup (sfi_direct (sv_i v)) i) "sfi_direct" ;;
      (if (blocklen <=? i) && negb (block =? 0) then
         sfs_bfree block ;;
         put_inode sv (set_direct i 0)
       else sret tt) ;;
      itrunc_direct n' sv (i + 1) blocklen
  end.

(** The loop over the entries of the indirect block; returns [hasnonzero] and
    [iddirty]. *)
Fixpoint itrunc_indirect (n : nat) (j blocklen : Z) (hasnonzero iddirty : bool) : FM (bool * bool) :=
  match n with
  | O => sret (hasnonzero, iddirty)
  | S n' =>
      w <- sget (fun s => word_at (addr itrunc_idbuf) j (sfs_mem s)) ;;
      iddirty' <- (if (blocklen <? SFS_NDIRECT + j) && negb (w =? 0) then
                     sfs_bfree w ;;
                     on_memory (smodify (set_word (addr itrunc_idbuf) j 0)) ;;
                     sret true
                   else sret iddirty) ;;
      w' <- sget (fun s => word_at (addr itrunc_idbuf) j (sfs_mem s)) ;;
      itrunc_indirect n' (j + 1) blocklen (hasnonzero || negb (w' =? 0)) iddirty'
  end.

Definition sfs_itrunc (sv : positive) (len : Z) : FM Z :=
  let blocklen := u32 (Z.quot (len + SFS_BLOCKSIZE - 1) SFS_BLOCKSIZE) in
  vfs_biglock_acquire ;;
  itrunc_direct (Z.to_nat SFS_NDIRECT) sv 0 blocklen ;;
  v <- get_sv sv ;;
  let idblock := sfi_indirect (sv_i v) in
  let highblock := SFS_NDIRECT + SFS_DBPERIDB - 1 in
  result <- (if (blocklen <? highblock) && negb (idblock =? 0) then
     result <- sfs_readblock idblock (addr itrunc_idbuf) SFS_BLOCKSIZE ;;
     if negb (result =? 0) then sret result else
     flags <- itrunc_indirect (Z.to_nat SFS_DBPERIDB) 0 blocklen false false ;;
     if negb (fst flags) then
       sfs_bfree idblock ;;
       put_inode sv (set_indirect 0) ;;
       sret 0
     else if (snd flags : bool) then sfs_writeblock idblock (addr itrunc_idbuf) SFS_BLOCKSIZE
     else sret 0
   else sret 0) ;;
  if negb (result =? 0) then vfs_biglock_release ;; sret result else
  put_inode sv (set_size (u32 len)) ;;
  vfs_biglock_release ;;
  sret 0.

(** ** Files ([sfs_io.c]) *)

Definition is_write (rw : uio_rw_t) : bool := match rw with UIO_WRITE => true | UIO_READ => false end.

Definition sfs_partialio (sv : positive) (u : uio) (skipstart len : Z) : FM (Z * uio) :=
  let doalloc := is_write (uio_rw u) in
  sassert (u32 (skipstart + len) <=? SFS_BLOCKSIZE) "skipstart + len <= SFS_BLOCKSIZE" ;;
  held <- sget vfs_biglock_do_i_hold ;;
  sassert held "vfs_biglock_do_i_hold()" ;;
  let fileblock := u32 (Z.quot (uio_offset u) SFS_BLOCKSIZE) in
  rb <- sfs_bmap sv fileblock doalloc ;;
  let '(result, diskblock) := rb in
  if negb (result =? 0) then sret (result, u) else
  result <- (if diskblock =? 0 then
               sassert (negb (is_write (uio_rw u))) "uio->uio_rw == UIO_READ" ;;
               on_memory (bzero (addr iobuf) SFS_BLOCKSIZE) ;;
               sret 0
             else sfs_readblock diskblock (addr iobuf) SFS_BLOCKSIZE) ;;
  if negb (result =? 0) then sret (result, u) else
  ru <- on_memory (uiomove accessible curas (addr iobuf + skipstart) len u) ;;
  if negb (fst ru =? 0) then sret ru else
  if is_write (uio_rw u) then
    result <- sfs_writeblock diskblock (addr iobuf) SFS_BLOCKSIZE ;;
    sret (result, snd ru)
  else sret ru.

Definition sfs_blockio (sv : positive) (u : uio) : FM (Z * uio) :=
  let doalloc := is_write (uio_rw u) in
  let fileblock := u32 (Z.quot (uio_offset u) SFS_BLOCKSIZE) in
  rb <- sfs_bmap sv fileblock doalloc ;;
  let '(result, diskblock) := rb in
  if negb (result =? 0) then sret (result, u) else
  if diskblock =? 0 then
    sassert (negb (is_write (uio_rw u))) "uio->uio_rw == UIO_READ" ;;
    on_memory (uiomovezeros accessible curas (addr uio_zeros) SFS_BLOCKSIZE u)
  else
  let saveoff := uio_offset u in
  let diskoff := u32 (diskblock * SFS_BLOCKSIZE) in
  sassert (SFS_BLOCKSIZE <=? uio_resid u) "uio->uio_resid >= SFS_BLOCKSIZE" ;;
  let saveres := uio_resid u in
  let diskres := SFS_BLOCKSIZE in
  ru <- sfs_rwblock (set_resid diskres (set_offset diskoff u)) ;;
  let u' := snd ru in
  sret (fst ru, set_resid (u32 ((uio_resid u' - diskres) + saveres)) (set_offset ((uio_offset u' - diskoff) + saveoff) u')).

(** The loop over the whole blocks. *)
Fixpoint sfs_io_blocks (nblocks : nat) (sv : positive) (u : uio) : FM (Z * uio) :=
  match nblocks with
  | O => sret (0, u)
  | S n' =>
      ru <- sfs_blockio sv u ;;
      if negb (fst ru =? 0) then sret ru else sfs_io_blocks n' sv (snd ru)
  end.

(** The last partial block. *)
Definition sfs_io_last (sv : positive) (u : uio) : FM (Z * uio) :=
  sassert (uio_resid u <? SFS_BLOCKSIZE) "uio->uio_resid < SFS_BLOCKSIZE" ;;
  if 0 <? uio_resid u then sfs_partialio sv u 0 (uio_resid u) else sret (0, u).

(** From the leading partial block to the label [out]. *)
Definition sfs_io_transfer (sv : positive) (u : uio) : FM (Z * uio) :=
  let blkoff := u32 (Z.rem (uio_offset u) SFS_BLOCKSIZE) in
  ru <- (if blkoff =? 0 then sret (0, u) else
         let skip := blkoff in
         let len := u32 (SFS_BLOCKSIZE - blkoff) in
         let len := if uio_resid u <? len then uio_resid u else len in
         sfs_partialio sv u skip len) ;;
  let u := snd ru in
  if negb (fst ru =? 0) then sret ru else
  if uio_resid u =? 0 then sret (0, u) else
  sassert (Z.rem (uio_offset u) SFS_BLOCKSIZE =? 0) "uio->uio_offset % SFS_BLOCKSIZE == 0" ;;
  let nblocks := uio_resid u / SFS_BLOCKSIZE in
  ru <- sfs_io_blocks (Z.to_nat nblocks) sv u ;;
  if negb (fst ru =? 0) then sret ru else
  sfs_io_last sv (snd ru).

(** The transfer, then the label [out]. *)
Definition sfs_io_out (sv : positive) (u : uio) (origresid extraresid : Z) : FM (Z * uio) :=
  ru <- sfs_io_transfer sv u ;;
  let u' := snd ru in
  v <- get_sv sv ;;
  (if negb (uio_resid u' =? origresid) && is_write (uio_rw u') && (sfi_size (sv_i v) <? uio_offset u')
   then put_inode sv (set_size (u32 (uio_offset u')))
   else sret tt) ;;
  sret (fst ru, set_resid (u32 (uio_resid u' + extraresid)) u').

Definition sfs_io (sv : positive) (u : uio) : FM (Z * uio) :=
  let origresid := uio_resid u in
  match uio_rw u with
  | UIO_READ =>
      v <- get_sv sv ;;
      let size := sfi_size (sv_i v) in
      let endpos := uio_offset u + uio_resid u in
      if size <=? uio_offset u then sret (0, u) else
      if size <? endpos then
        let extraresid := u32 (endpos - size) in
        sassert (extraresid <? uio_resid u) "uio->uio_resid > extraresid" ;;
        sfs_io_out sv (set_resid (u32 (uio_resid u - extraresid)) u) origresid extraresid
      else sfs_io_out sv u origresid 0
  | UIO_WRITE => sfs_io_out sv u origresid 0
  end.

Definition sfs_metaio (sv : positive) (actualpos data len : Z) (rw : uio_rw_t) : FM Z :=
  held <- sget vfs_biglock_do_i_hold ;;
  sassert held "vfs_biglock_do_i_hold()" ;;
  let vnblock := u32 (Z.quot actualpos SFS_BLOCKSIZE) in
  let blockoffset := u32 (Z.rem actualpos SFS_BLOCKSIZE) in
  let doalloc := is_write rw in
  rb <- sfs_bmap sv vnblock doalloc ;;
  let '(result, diskblock) := rb in
  if negb (result =? 0) then sret result else
  if diskblock =? 0 then
    sassert (negb (is_write rw)) "rw == UIO_READ" ;;
    on_memory (bzero data len) ;;
    sret 0
  else
  result <- sfs_readblock diskblock (addr metaiobuf) SFS_BLOCKSIZE ;;
  if negb (result =? 0) then sret result else
  match rw with
  | UIO_READ => on_memory (memmove data (addr metaiobuf + blockoffset) len) ;; sret 0
  | UIO_WRITE =>
      on_memory (memmove (addr metaiobuf + blockoffset) data len) ;;
      result <- sfs_writeblock diskblock (addr metaiobuf) SFS_BLOCKSIZE ;;
      if negb (result =? 0) then sret result else
      let endpos := actualpos + len in
      v <- get_sv sv ;;
      (if sfi_size (sv_i v) <? endpos then put_inode sv (set_size (u32 endpos)) else sret tt) ;;
      sret 0
  end.
End sfs.
Arguments sfs_fs : clear implicits.
Arguments mk_sfs {D}.
