(* ===== verification/SfsSpec.v ===== *)
(** * What a volume of SFS holds

    The blocks of a file, its bytes, and the invariant: every block in use is
    marked in the map of free blocks and has exactly one use.  A block that was
    free can be given a use, and a block of data can be written, without
    changing any other byte of any file. *)

From S2P Require Import Prelude State Monad StopState Bitmap Uio Device Sfs.

#[local] Open Scope Z_scope.

(** ** Files *)

Definition SFS_MAXBLOCKS : Z := SFS_NDIRECT + SFS_DBPERIDB.

Definition zero_block : list Z := replicate (Z.to_nat SFS_BLOCKSIZE) 0.

(** Entry [j] of an indirect block. *)
Definition entry (l : list Z) (j : Z) : Z := bytes_word (take 4 (drop (Z.to_nat (4 * j)) l)).

Section view.
Context {K : Type} `{HK : Countable K}. (* what names an inode *)
Context (sec : Z -> list Z).      (* the sectors *)

(** The disk block of block [i] of a file; 0 for a hole. *)
Definition slot (n : sfs_dinode) (i : Z) : Z :=
  if i <? SFS_NDIRECT then default 0 (zlookup (sfi_direct n) i)
  else if sfi_indirect n =? 0 then 0
  else entry (sec (sfi_indirect n)) (i - SFS_NDIRECT).

Definition block_bytes (b : Z) : list Z := if b =? 0 then zero_block else sec b.

(** Byte [p] of a file. *)
Definition file_byte (n : sfs_dinode) (p : Z) : Z :=
  nth (Z.to_nat (p mod SFS_BLOCKSIZE)) (block_bytes (slot n (p / SFS_BLOCKSIZE))) 0.

(** What a block can be used for; [KOther]: anything but the files. *)
Inductive key := KSlot (x : K) (i : Z) | KInd (x : K) | KOther (b : Z).

Context (reserved : Z -> Prop).

Definition uses (ino : gmap K sfs_dinode) (k : key) (b : Z) : Prop :=
  match k with
  | KSlot x i => exists n, ino !! x = Some n /\ 0 <= i < SFS_MAXBLOCKS /\ slot n i = b /\ b <> 0
  | KInd x => exists n, ino !! x = Some n /\ sfi_indirect n = b /\ b <> 0
  | KOther c => c = b /\ reserved b
  end.

Record blocks_ok (ino : gmap K sfs_dinode) (marked : Z -> Prop) : Prop := mk_blocks_ok {
  bo_direct : forall x n, ino !! x = Some n -> zlen (sfi_direct n) = SFS_NDIRECT;
  bo_marked : forall k b, uses ino k b -> marked b;
  bo_unique : forall k k' b, uses ino k b -> uses ino k' b -> k = k'
}.
End view.
Arguments key : clear implicits.

Lemma entry_zeros j : entry zero_block j = 0.
Proof.
  unfold entry, zero_block. rewrite drop_replicate, take_replicate. unfold bytes_word.
  generalize (4 `min` (Z.to_nat SFS_BLOCKSIZE - Z.to_nat (4 * j)))%nat. intros n. induction n as [|n IH]; [done|]. cbn. apply IH.
Qed.

(** The bytes of the files are the same. *)
Definition same_files {K} `{HK : Countable K} (sec : Z -> list Z) (ino : gmap K sfs_dinode) (sec' : Z -> list Z) (ino' : gmap K sfs_dinode) : Prop :=
  forall x, match ino !! x, ino' !! x with
            | Some n, Some n' => sfi_size n' = sfi_size n /\ forall p, 0 <= p < SFS_BLOCKSIZE * SFS_MAXBLOCKS -> file_byte sec' n' p = file_byte sec n p
            | None, None => True
            | _, _ => False
            end.

Lemma same_files_refl {K} `{HK : Countable K} sec (ino : gmap K sfs_dinode) : same_files sec ino sec ino.
Proof. intros x. by destruct (ino !! x). Qed.

Lemma same_files_trans {K} `{HK : Countable K} s1 (i1 : gmap K sfs_dinode) s2 i2 s3 i3 : same_files s1 i1 s2 i2 -> same_files s2 i2 s3 i3 -> same_files s1 i1 s3 i3.
Proof.
  intros H1 H2 x. specialize (H1 x). specialize (H2 x). destruct (i1 !! x), (i2 !! x), (i3 !! x); try done.
  destruct H1 as [E1 H1], H2 as [E2 H2]. split; [congruence|]. intros p Hp. by rewrite H2, H1.
Qed.

(** The bytes of a file depend on its blocks only. *)
Lemma file_byte_blocks sec sec' n n' p : 0 <= p < SFS_BLOCKSIZE * SFS_MAXBLOCKS ->
  (forall i, 0 <= i < SFS_MAXBLOCKS -> block_bytes sec' (slot sec' n' i) = block_bytes sec (slot sec n i)) ->
  file_byte sec' n' p = file_byte sec n p.
Proof. intros Hp H. unfold file_byte. rewrite H; [done|]. unfold SFS_BLOCKSIZE, SFS_MAXBLOCKS, SFS_NDIRECT, SFS_DBPERIDB in *. lia. Qed.

(** ** A new use for a free block *)

Section fresh.
Context {K : Type} `{HK : Countable K}.
Context (reserved : Z -> Prop) (sec sec' : Z -> list Z) (ino : gmap K sfs_dinode) (marked : Z -> Prop).
Context (ok : blocks_ok sec reserved ino marked).

Lemma used_once k k' b : uses sec reserved ino k b -> uses sec reserved ino k' b -> k = k'.
Proof. apply (bo_unique _ _ _ _ ok). Qed.

Lemma fresh_ok ino' k0 b :
  ~ marked b -> (forall x n, ino' !! x = Some n -> zlen (sfi_direct n) = SFS_NDIRECT) ->
  (forall k c, uses sec' reserved ino' k c -> uses sec reserved ino k c \/ (k = k0 /\ c = b)) ->
  blocks_ok sec' reserved ino' (fun c => marked c \/ c = b).
Proof.
  intros Hb Hd Hu. constructor; [done| |].
  - intros k c [Hk|[_ ->]]%Hu; [left; by eapply bo_marked|by right].
  - intros k k' c Hk%Hu Hk'%Hu.
    assert (forall k1, uses sec reserved ino k1 b -> False) as Hn by (intros k1 H1; by apply Hb, (bo_marked _ _ _ _ ok k1)).
    destruct Hk as [Hk|[-> ->]], Hk' as [Hk'|[-> Hc]]; [by eapply used_once|subst c; by destruct (Hn k)|by destruct (Hn k')|done].
Qed.

(** The block of a hole. *)
Lemma fresh_slot x n i n' b :
  ino !! x = Some n -> 0 <= i < SFS_MAXBLOCKS -> slot sec n i = 0 ->
  ~ marked b -> b <> 0 -> sec' b = zero_block ->
  zlen (sfi_direct n') = SFS_NDIRECT -> sfi_indirect n' = sfi_indirect n -> sfi_size n' = sfi_size n ->
  (forall j, 0 <= j < SFS_MAXBLOCKS -> slot sec' n' j = if decide (j = i) then b else slot sec n j) ->
  (forall c, c <> b -> (forall x', ~ uses sec reserved ino (KInd x') c) -> sec' c = sec c) ->
  (forall y m, y <> x -> ino !! y = Some m -> forall j, 0 <= j < SFS_MAXBLOCKS -> slot sec' m j = slot sec m j) ->
  blocks_ok sec' reserved (<[x := n']> ino) (fun c => marked c \/ c = b) /\ same_files sec ino sec' (<[x := n']> ino).
Proof.
  intros Hx Hi H0 Hb Hb0 Hz Hd Hind Hsz Hs Hsec Hother.
  assert (forall y j m, ino !! y = Some m -> 0 <= j < SFS_MAXBLOCKS -> block_bytes sec' (slot sec m j) = block_bytes sec (slot sec m j)) as Hold.
  { intros y j m Hy Hj. unfold block_bytes. destruct (Z.eqb_spec (slot sec m j) 0) as [|Hn]; [done|].
    assert (uses sec reserved ino (KSlot y j) (slot sec m j)) as Hu by (by exists m).
    apply Hsec; [intros E; rewrite E in Hu; by apply Hb, (bo_marked _ _ _ _ ok _ _ Hu)|]. intros z Hz'. by discriminate (used_once _ _ _ Hu Hz'). }
  split.
  - apply (fresh_ok _ (KSlot x i)); [done| |].
    + intros y m. destruct (decide (y = x)) as [->|Hne]; [rewrite lookup_insert_eq; by intros [= <-]|]. rewrite lookup_insert_ne by done. apply (bo_direct _ _ _ _ ok).
    + intros [y j|y|c'] c; cbn; [| |tauto].
      * destruct (decide (y = x)) as [->|Hne].
        -- rewrite lookup_insert_eq. intros (m & [= <-] & Hj & E & Hc). rewrite (Hs j Hj) in E.
           case_decide as Ej; [right; by subst|]. left. exists n. split_and!; done || lia.
        -- rewrite lookup_insert_ne by done. intros (m & Hm & Hj & E & Hc). left. exists m. rewrite (Hother y m) in E by done. done.
      * destruct (decide (y = x)) as [->|Hne]; [rewrite lookup_insert_eq|rewrite lookup_insert_ne by done]; [|tauto].
        intros (m & [= <-] & E & Hc). left. exists n. by rewrite <- Hind.
  - intros y. destruct (decide (y = x)) as [->|Hne].
    + rewrite Hx, lookup_insert_eq. split; [done|]. intros p Hp. apply file_byte_blocks; [done|]. intros j Hj. rewrite (Hs j Hj).
      case_decide as Ej; [|by eapply Hold]. subst j. rewrite H0. unfold block_bytes. by rewrite (proj2 (Z.eqb_neq b 0)), Hz.
    + rewrite lookup_insert_ne by done. destruct (ino !! y) as [m|] eqn:Hy; [|done]. split; [done|]. intros p Hp.
      apply file_byte_blocks; [done|]. intros j Hj. rewrite (Hother y m) by done. by eapply Hold.
Qed.

Lemma ind_unmarked n x b : ino !! x = Some n -> sfi_indirect n <> 0 -> ~ marked b -> sfi_indirect n <> b.
Proof. intros Hx Hn Hb E. apply Hb. rewrite <- E. apply (bo_marked _ _ _ _ ok (KInd x)). by exists n. Qed.

(** The slots of a file whose indirect block is not touched. *)
Lemma slot_frame n j : (sfi_indirect n <> 0 -> sec' (sfi_indirect n) = sec (sfi_indirect n)) -> slot sec' n j = slot sec n j.
Proof. intros H. unfold slot. destruct (j <? SFS_NDIRECT); [done|]. destruct (Z.eqb_spec (sfi_indirect n) 0); [done|]. by rewrite H. Qed.

Lemma fresh_direct x n i b :
  ino !! x = Some n -> 0 <= i < SFS_NDIRECT -> slot sec n i = 0 -> ~ marked b -> b <> 0 ->
  sec' b = zero_block -> (forall c, c <> b -> sec' c = sec c) ->
  blocks_ok sec' reserved (<[x := set_direct i b n]> ino) (fun c => marked c \/ c = b) /\
  same_files sec ino sec' (<[x := set_direct i b n]> ino) /\ slot sec' (set_direct i b n) i = b.
Proof.
  intros Hx Hi H0 Hb Hb0 Hz Hsec. pose proof (bo_direct _ _ _ _ ok x n Hx) as Hd.
  assert (forall y m j, ino !! y = Some m -> slot sec' m j = slot sec m j) as Hfr.
  { intros y m j Hy. apply slot_frame. intros Hm. by apply Hsec, (ind_unmarked m y). }
  assert (forall j, 0 <= j < SFS_MAXBLOCKS -> slot sec' (set_direct i b n) j = if decide (j = i) then b else slot sec n j) as Hs.
  { intros j Hj. rewrite <- (Hfr x n j Hx). unfold slot. cbn. destruct (Z.ltb_spec j SFS_NDIRECT).
    - rewrite zlookup_zinsert by lia. by repeat case_decide.
    - rewrite decide_False by lia. done. }
  apply and_assoc. split.
  - apply (fresh_slot x n i); try done; cbn.
    + unfold SFS_MAXBLOCKS, SFS_DBPERIDB. lia.
    + by rewrite zlen_zinsert.
    + intros c Hc _. by apply Hsec.
    + intros y m _ Hy j _. by eapply Hfr.
  - rewrite Hs, decide_True; [done|done|]. unfold SFS_MAXBLOCKS, SFS_DBPERIDB. lia.
Qed.

Lemma fresh_entry x n j b :
  ino !! x = Some n -> 0 <= j < SFS_DBPERIDB -> sfi_indirect n <> 0 -> slot sec n (SFS_NDIRECT + j) = 0 -> ~ marked b -> b <> 0 ->
  sec' b = zero_block -> (forall k, 0 <= k < SFS_DBPERIDB -> entry (sec' (sfi_indirect n)) k = if decide (k = j) then b else entry (sec (sfi_indirect n)) k) ->
  (forall c, c <> b -> c <> sfi_indirect n -> sec' c = sec c) ->
  blocks_ok sec' reserved ino (fun c => marked c \/ c = b) /\
  same_files sec ino sec' ino /\ slot sec' n (SFS_NDIRECT + j) = b.
Proof.
  intros Hx Hj Hi H0 Hb Hb0 Hz Hent Hsec. pose proof (bo_direct _ _ _ _ ok x n Hx) as Hd.
  assert (forall k, 0 <= k < SFS_MAXBLOCKS -> slot sec' n k = if decide (k = SFS_NDIRECT + j) then b else slot sec n k) as Hs.
  { intros k Hk. unfold slot. destruct (Z.ltb_spec k SFS_NDIRECT); [rewrite decide_False by lia; done|].
    destruct (Z.eqb_spec (sfi_indirect n) 0); [done|]. rewrite Hent by (unfold SFS_MAXBLOCKS in Hk; lia). repeat case_decide; (done || lia). }
  apply and_assoc. split.
  - rewrite <- (insert_id ino x n) at 1 3 by done. apply (fresh_slot x n (SFS_NDIRECT + j)); try done.
    + unfold SFS_MAXBLOCKS, SFS_NDIRECT. lia.
    + intros c Hc Hk. apply Hsec; [done|]. intros ->. apply (Hk x). by exists n.
    + intros y m Hy Hm k _. apply slot_frame. intros Hm0. apply Hsec; [by eapply ind_unmarked|]. intros E.
      assert (KInd y = KInd x) as [= ->]; [|done]. apply (used_once _ _ (sfi_indirect m)); [by exists m|exists n; by rewrite E].
  - rewrite Hs, decide_True; [done|done|]. unfold SFS_MAXBLOCKS, SFS_NDIRECT. lia.
Qed.

(** A new, empty indirect block. *)
Lemma fresh_indirect x n b :
  ino !! x = Some n -> sfi_indirect n = 0 -> ~ marked b -> b <> 0 -> sec' b = zero_block -> (forall c, c <> b -> sec' c = sec c) ->
  blocks_ok sec' reserved (<[x := set_indirect b n]> ino) (fun c => marked c \/ c = b) /\
  same_files sec ino sec' (<[x := set_indirect b n]> ino).
Proof.
  intros Hx Hi Hb Hb0 Hz Hsec.
  assert (forall y m j, ino !! y = Some m -> slot sec' m j = slot sec m j) as Hfr.
  { intros y m j Hy. apply slot_frame. intros Hm. by apply Hsec, (ind_unmarked m y). }
  assert (forall j, slot sec' (set_indirect b n) j = slot sec n j) as Hs.
  { intros j. unfold slot. cbn. destruct (Z.ltb_spec j SFS_NDIRECT); [done|]. by rewrite (proj2 (Z.eqb_neq b 0)), Hi, Hz, entry_zeros. }
  split.
  - apply (fresh_ok _ (KInd x)); [done| |].
    + intros y m. destruct (decide (y = x)) as [->|Hne]; [rewrite lookup_insert_eq; intros [= <-]; exact (bo_direct _ _ _ _ ok x n Hx)|rewrite lookup_insert_ne by done; apply (bo_direct _ _ _ _ ok)].
    + intros [y j|y|c'] c; cbn; [| |tauto]; (destruct (decide (y = x)) as [->|Hne]; [rewrite lookup_insert_eq|rewrite lookup_insert_ne by done]).
      * intros (m & [= <-] & Hj & E & Hc). rewrite Hs in E. left. by exists n.
      * intros (m & Hm & Hj & E & Hc). rewrite (Hfr y m j Hm) in E. left. by exists m.
      * intros (m & [= <-] & E & Hc). right. by rewrite <- E.
      * tauto.
  - assert (forall y m j, ino !! y = Some m -> 0 <= j < SFS_MAXBLOCKS -> block_bytes sec' (slot sec m j) = block_bytes sec (slot sec m j)) as Hold.
    { intros y m j Hy Hj. unfold block_bytes. destruct (Z.eqb_spec (slot sec m j) 0) as [|Hn]; [done|]. apply Hsec. intros E.
      apply Hb. rewrite <- E. apply (bo_marked _ _ _ _ ok (KSlot y j)). by exists m. }
    intros y. destruct (decide (y = x)) as [->|Hne]; [rewrite Hx, lookup_insert_eq|rewrite lookup_insert_ne by done; destruct (ino !! y) as [m|] eqn:Hy; [|done]];
      (split; [done|]; intros p Hp; apply file_byte_blocks; [done|]; intros j Hj).
    + rewrite Hs. by eapply Hold.
    + rewrite (Hfr y m j) by done. by eapply Hold.
Qed.

(** Data are written to a block of a file. *)
Lemma data_write x n i b l :
  ino !! x = Some n -> 0 <= i < SFS_MAXBLOCKS -> slot sec n i = b -> b <> 0 -> sec' b = l -> (forall c, c <> b -> sec' c = sec c) ->
  blocks_ok sec' reserved ino marked /\
  (forall y m j, ino !! y = Some m -> 0 <= j < SFS_MAXBLOCKS -> slot sec' m j = slot sec m j /\
     block_bytes sec' (slot sec m j) = if decide (y = x /\ j = i) then l else block_bytes sec (slot sec m j)).
Proof.
  intros Hx Hi Hb Hb0 Hl Hsec. assert (uses sec reserved ino (KSlot x i) b) as Hu by (by exists n).
  assert (forall y m j, ino !! y = Some m -> slot sec' m j = slot sec m j) as Hfr.
  { intros y m j Hy. apply slot_frame. intros Hm. apply Hsec. intros E. assert (KInd y = KSlot x i) as [=].
    apply (used_once _ _ b); [by exists m|done]. }
  assert (forall k c, uses sec' reserved ino k c -> uses sec reserved ino k c) as Huses.
  { intros [y j|y|c'] c; cbn; [|done..]. intros (m & Hm & Hj & E & Hc). rewrite (Hfr y m j Hm) in E. by exists m. }
  split.
  - constructor; [apply ok| |]; intros k; [intros c Hk%Huses; by eapply bo_marked|intros k' c Hk%Huses Hk'%Huses; by eapply used_once].
  - intros y m j Hy Hj. split; [by eapply Hfr|]. unfold block_bytes. case_decide as E.
    + destruct E as [-> ->]. assert (m = n) as -> by congruence. by rewrite Hb, (proj2 (Z.eqb_neq b 0)).
    + destruct (Z.eqb_spec (slot sec m j) 0) as [|Hn]; [done|]. apply Hsec. intros E'. apply E.
      assert (KSlot y j = KSlot x i) as [= -> ->]; [|done]. apply (used_once _ _ b); [by exists m|done].
Qed.
End fresh.
