(* ===== verification/SfsBlock.v ===== *)
(** * SFS: block input and output, allocation

    The invariant of a mounted volume, and what reading, writing and allocating
    a block do to it. *)

From S2P Require Import Prelude State Monad StopState Bitmap Uio Device Sfs SfsSpec.

#[local] Open Scope Z_scope.
#[local] Open Scope sm_scope.

Section block.
Context {D : Type} {DV : Device D} {BD : BlockDevice D} {LY : Layout}.
Context (reserved : Z -> Prop).

Notation SS := (sfs_fs D).

Definition sec (s : SS) : Z -> list Z := dv_sector (sfs_device s).
Definition inodes (s : SS) : gmap positive sfs_dinode := sv_i <$> sfs_vnodes s.
Definition marked (s : SS) (b : Z) : Prop := 0 <= b < sb_nblocks s /\ bit (sfs_freemap s) b = true.

(** The static areas are apart from each other and from the device's buffer. *)
Record layout_ok (buf : Z) : Prop := mk_layout_ok {
  ly_areas : forall a b : area, a <> b -> addr a + SFS_BLOCKSIZE <= addr b \/ addr b + SFS_BLOCKSIZE <= addr a;
  ly_buffer : forall a, addr a + SFS_BLOCKSIZE <= buf \/ buf + SFS_BLOCKSIZE <= addr a
}.

Record sfs_ok (s : SS) : Prop := mk_sfs_ok {
  so_ready : dv_ready (sfs_device s);
  so_disk : 0 < sb_nblocks s <= dv_blocks (sfs_device s);
  so_small : sb_nblocks s <= 2^23;
  so_map : bitmap_wf (sfs_freemap s);
  so_mapsize : sb_nblocks s <= nbits (sfs_freemap s);
  so_beyond : forall b, sb_nblocks s <= b < nbits (sfs_freemap s) -> bit (sfs_freemap s) b = true;
  so_zero : bit (sfs_freemap s) 0 = true;
  so_blocks : blocks_ok (sec s) reserved (inodes s) (marked s);
  so_lock : 0 < vfs_biglock_depth s;
  so_layout : layout_ok (dv_buffer (sfs_device s));
  so_zeros : load (sfs_mem s) (span (addr clear_zeros) SFS_BLOCKSIZE) = zero_block;
  so_zeros16 : load (sfs_mem s) (span (addr uio_zeros) 16) = replicate 16 0
}.

(** The areas that the functions write, and all of them. *)
Definition scratch (buf a : Z) : Prop :=
  a ∈ span buf SFS_BLOCKSIZE \/ (exists ar, ar <> clear_zeros /\ ar <> uio_zeros /\ a ∈ span (addr ar) SFS_BLOCKSIZE).
Definition static (buf a : Z) : Prop := a ∈ span buf SFS_BLOCKSIZE \/ (exists ar, a ∈ span (addr ar) SFS_BLOCKSIZE).

Lemma scratch_static buf a : scratch buf a -> static buf a.
Proof. intros [H|(ar & _ & _ & H)]; [by left|right; by exists ar]. Qed.

(** Only memory outside the zeros changes. *)
Definition keeps_zeros (m m' : memory) : Prop :=
  changes_only (fun a => (a ∉ span (addr clear_zeros) SFS_BLOCKSIZE) /\ (a ∉ span (addr uio_zeros) SFS_BLOCKSIZE)) m m'.

Lemma scratch_keeps buf m m' : layout_ok buf -> changes_only (scratch buf) m m' -> keeps_zeros m m'.
Proof. clear reserved.
  intros [Ha Hb]. apply changes_weaken. intros a [H|(ar & H1 & H2 & H)]; rewrite !elem_span in *.
  - pose proof (Hb clear_zeros). pose proof (Hb uio_zeros). lia.
  - pose proof (Ha ar clear_zeros H1). pose proof (Ha ar uio_zeros H2). lia.
Qed.

Lemma load_kept P m m' l : changes_only P m m' -> (forall a, a ∈ l -> ~ P a) -> load m' l = load m l.
Proof. clear reserved.
  intros Hch Hl. apply list_fmap_ext. intros i a Ha%list_elem_of_lookup_2.
  destruct (decide (byte_at m' a = byte_at m a)) as [|Hne]; [done|]. by destruct (Hl a Ha (Hch a Hne)).
Qed.

(** ** What does not change *)

Record frame (s s' : SS) : Prop := mk_frame {
  fr_nblocks : sb_nblocks s' = sb_nblocks s;
  fr_depth : vfs_biglock_depth s' = vfs_biglock_depth s;
  fr_buffer : dv_buffer (sfs_device s') = dv_buffer (sfs_device s)
}.

Lemma frame_refl s : frame s s.
Proof. done. Qed.
Lemma frame_trans s1 s2 s3 : frame s1 s2 -> frame s2 s3 -> frame s1 s3.
Proof. intros [? ? ?] [? ? ?]. constructor; congruence. Qed.

Definition same_device (d d' : D) : Prop :=
  dv_ready d' /\ dv_blocks d' = dv_blocks d /\ dv_buffer d' = dv_buffer d.

Lemma blocks_ok_ext {K} `{HK : Countable K} f g (ino : gmap K sfs_dinode) (mk mk' : Z -> Prop) : (forall c, g c = f c) -> (forall b, mk b -> mk' b) ->
  blocks_ok f reserved ino mk -> blocks_ok g reserved ino mk'.
Proof.
  intros E Hm [Hd Hk Hu]. assert (forall k b, uses g reserved ino k b -> uses f reserved ino k b) as Hus.
  { intros [x i|x|c] b; cbn; [|done..]. intros (n & Hn & Hi & Hs & Hb). exists n. split_and!; try done; try lia.
    rewrite <- Hs. symmetry. apply slot_frame. done. }
  constructor; [done| |]; intros k; [intros b Hb%Hus; by apply Hm, (Hk k)|intros k' b Hb%Hus Hb'%Hus; by eapply Hu].
Qed.

Lemma same_files_ext {K} `{HK : Countable K} f g (ino : gmap K sfs_dinode) : (forall c, g c = f c) -> same_files f ino g ino.
Proof.
  intros E x. destruct (ino !! x) as [n|]; [|done]. split; [done|]. intros p Hp. apply file_byte_blocks; [done|]. intros i Hi.
  unfold block_bytes. rewrite (slot_frame f g n i) by done. by destruct (_ =? 0).
Qed.

(** Memory and the device changed, the blocks of the files are in order. *)
Lemma ok_io s m' d' :
  sfs_ok s -> keeps_zeros (sfs_mem s) m' -> same_device (sfs_device s) d' ->
  blocks_ok (dv_sector d') reserved (inodes s) (marked s) -> sfs_ok (set_io m' d' s) /\ frame s (set_io m' d' s).
Proof.
  intros Hok Hm (Hr & Hb & Hf) Hbl. split; [|done].
  pose proof (so_zeros _ Hok) as Hz. pose proof (so_zeros16 _ Hok) as Hz16. destruct Hok. constructor; cbn -[replicate]; rewrite ?Hb, ?Hf; try done.
  - rewrite <- Hz. apply (load_kept _ _ _ _ Hm). intros a. cbn. tauto.
  - rewrite <- Hz16. apply (load_kept _ _ _ _ Hm). intros a. cbn. rewrite !elem_span. unfold SFS_BLOCKSIZE. lia.
Qed.

Lemma ok_mem s m' : sfs_ok s -> keeps_zeros (sfs_mem s) m' -> sfs_ok (set_mem m' s) /\ frame s (set_mem m' s).
Proof. intros Hok Hm. apply (ok_io s m' (sfs_device s)); [done|done|by split_and!; [apply Hok|..]|apply Hok]. Qed.

(** ** Reading and writing blocks *)

Lemma kinit_request rw b data : block_request rw b (uio_kinit data SFS_BLOCKSIZE (b * SFS_BLOCKSIZE) rw) /\
  uio_addrs (uio_kinit data SFS_BLOCKSIZE (b * SFS_BLOCKSIZE) rw) = span data SFS_BLOCKSIZE.
Proof. clear reserved.
  assert (uio_addrs (uio_kinit data SFS_BLOCKSIZE (b * SFS_BLOCKSIZE) rw) = span data SFS_BLOCKSIZE) as E.
  { unfold uio_addrs, iov_addrs, uio_kinit. cbn -[span]. rewrite app_nil_r. apply take_ge. by rewrite length_span. }
  split; [|done]. constructor; try done.
  - constructor; [|done..]. constructor; cbn; [|unfold SFS_BLOCKSIZE; lia..|by left]. by repeat constructor.
  - cbn. unfold SECTSIZE, SFS_BLOCKSIZE. lia.
  - rewrite E. apply NoDup_span.
Qed.

Lemma run_on_device {A} (p : SM (memory * D) A) a m' d' s :
  p (sfs_mem s, sfs_device s) = inr (a, (m', d')) -> on_device p s = inr (a, set_io m' d' s).
Proof. intros E. unfold on_device. by rewrite E. Qed.

Lemma run_on_memory {A} (p : SM memory A) a m' (s : SS) :
  p (sfs_mem s) = inr (a, m') -> on_memory p s = inr (a, set_mem m' s).
Proof. intros E. unfold on_memory. by rewrite E. Qed.

Lemma run_of_sum {A B} (a : A) (f : A -> SM SS B) s : sbind (of_sum (inr a)) f s = f a s.
Proof. done. Qed.

(** One attempt is enough when the device answers. *)
Lemma sfs_rwblock_run u m' d' u' s :
  0 < vfs_biglock_depth s -> devop_io u (sfs_mem s, sfs_device s) = inr ((0, u'), (m', d')) ->
  sfs_rwblock u s = inr ((0, u'), set_io m' d' s).
Proof.
  intros Hl Hio. unfold sfs_rwblock. rewrite srun_get, srun_assert by (by apply Z.ltb_lt). cbn [sfs_rwblock_try].
  by rewrite (srun_call _ _ _ _ _ (run_on_device _ _ _ _ _ Hio)).
Qed.

Lemma sfs_rwblock_read s b u :
  sfs_ok s -> 0 <= b < sb_nblocks s -> block_request UIO_READ b u ->
  (forall a, a ∈ span (dv_buffer (sfs_device s)) SFS_BLOCKSIZE -> a ∉ uio_addrs u) ->
  exists u' m' d', sfs_rwblock u s = inr ((0, u'), set_io m' d' s) /\ advanced u SFS_BLOCKSIZE u' /\
    load m' (uio_addrs u) = sec s b /\
    changes_only (fun a => a ∈ uio_addrs u \/ a ∈ span (dv_buffer (sfs_device s)) SFS_BLOCKSIZE) (sfs_mem s) m' /\
    same_device (sfs_device s) d' /\ (forall c, dv_sector d' c = sec s c).
Proof.
  intros Hok Hb Hreq Hap. pose proof (so_disk _ Hok).
  destruct (dv_read (sfs_device s) b u (sfs_mem s)) as (u' & m' & d' & Hio & Hadv & Hld & Hch & Hr & Hbl & Hbf & Hsec); [apply Hok|lia|done|done|].
  exists u', m', d'. split; [by apply sfs_rwblock_run, Hio; apply Hok|]. by split_and!.
Qed.

(** What the device needs, whatever the state of the blocks. *)
Record io_ready (s : SS) : Prop := mk_io_ready {
  ir_ready : dv_ready (sfs_device s);
  ir_disk : sb_nblocks s <= dv_blocks (sfs_device s);
  ir_lock : 0 < vfs_biglock_depth s;
  ir_layout : layout_ok (dv_buffer (sfs_device s))
}.

Lemma ok_io_ready s : sfs_ok s -> io_ready s.
Proof. intros Hok. constructor; apply Hok. Qed.

Lemma sfs_rwblock_write s b u :
  io_ready s -> 0 <= b < sb_nblocks s -> block_request UIO_WRITE b u ->
  (forall a, a ∈ span (dv_buffer (sfs_device s)) SFS_BLOCKSIZE -> a ∉ uio_addrs u) ->
  exists u' m' d', sfs_rwblock u s = inr ((0, u'), set_io m' d' s) /\ advanced u SFS_BLOCKSIZE u' /\
    changes_only (.∈ span (dv_buffer (sfs_device s)) SFS_BLOCKSIZE) (sfs_mem s) m' /\
    same_device (sfs_device s) d' /\
    (forall c, dv_sector d' c = if decide (c = b) then load (sfs_mem s) (uio_addrs u) else sec s c).
Proof.
  clear reserved. intros [Hrd Hdk Hlk Hly] Hb Hreq Hap.
  destruct (dv_write (sfs_device s) b u (sfs_mem s)) as (u' & m' & d' & Hio & Hadv & Hch & Hr & Hbl & Hbf & Hsec); [done|lia|done|done|].
  exists u', m', d'. split; [by apply sfs_rwblock_run|]. by split_and!.
Qed.

Lemma area_apart_buffer s ar a : sfs_ok s -> a ∈ span (dv_buffer (sfs_device s)) SFS_BLOCKSIZE -> a ∉ span (addr ar) SFS_BLOCKSIZE.
Proof. intros Hok. pose proof (ly_buffer _ (so_layout _ Hok) ar). rewrite !elem_span. lia. Qed.

(** Into memory and from memory apart from the device's buffer. *)
Lemma sfs_readblock_into s b data :
  sfs_ok s -> 0 <= b < sb_nblocks s -> (forall a, a ∈ span (dv_buffer (sfs_device s)) SFS_BLOCKSIZE -> a ∉ span data SFS_BLOCKSIZE) ->
  exists m' d', sfs_readblock b data SFS_BLOCKSIZE s = inr (0, set_io m' d' s) /\
    load m' (span data SFS_BLOCKSIZE) = sec s b /\
    changes_only (fun a => a ∈ span data SFS_BLOCKSIZE \/ a ∈ span (dv_buffer (sfs_device s)) SFS_BLOCKSIZE) (sfs_mem s) m' /\
    same_device (sfs_device s) d' /\ (forall c, dv_sector d' c = sec s c).
Proof.
  intros Hok Hb Hap. destruct (kinit_request UIO_READ b data) as [Hreq Ha].
  destruct (sfs_rwblock_read s b _ Hok Hb Hreq) as (u' & m' & d' & Hrun & _ & Hld & Hch & Hd & Hs); [by rewrite Ha|].
  rewrite Ha in *. exists m', d'. split_and!; try done.
  unfold sfs_readblock. rewrite srun_assert by done. by rewrite (srun_call _ _ _ _ _ Hrun).
Qed.

Lemma sfs_writeblock_from s b data :
  io_ready s -> 0 <= b < sb_nblocks s -> (forall a, a ∈ span (dv_buffer (sfs_device s)) SFS_BLOCKSIZE -> a ∉ span data SFS_BLOCKSIZE) ->
  exists m' d', sfs_writeblock b data SFS_BLOCKSIZE s = inr (0, set_io m' d' s) /\
    changes_only (.∈ span (dv_buffer (sfs_device s)) SFS_BLOCKSIZE) (sfs_mem s) m' /\
    same_device (sfs_device s) d' /\
    (forall c, dv_sector d' c = if decide (c = b) then load (sfs_mem s) (span data SFS_BLOCKSIZE) else sec s c).
Proof.
  clear reserved. intros Hrd Hb Hap. destruct (kinit_request UIO_WRITE b data) as [Hreq Ha].
  destruct (sfs_rwblock_write s b _ Hrd Hb Hreq) as (u' & m' & d' & Hrun & _ & Hch & Hd & Hs); [by rewrite Ha|].
  rewrite Ha in *. exists m', d'. split_and!; try done.
  unfold sfs_writeblock. rewrite srun_assert by done. by rewrite (srun_call _ _ _ _ _ Hrun).
Qed.

(** Into one of the areas, from one of the areas. *)
Lemma sfs_readblock_run s b ar :
  sfs_ok s -> 0 <= b < sb_nblocks s -> ar <> clear_zeros -> ar <> uio_zeros ->
  exists m' d', sfs_readblock b (addr ar) SFS_BLOCKSIZE s = inr (0, set_io m' d' s) /\
    load m' (span (addr ar) SFS_BLOCKSIZE) = sec s b /\
    changes_only (scratch (dv_buffer (sfs_device s))) (sfs_mem s) m' /\
    same_device (sfs_device s) d' /\ (forall c, dv_sector d' c = sec s c).
Proof.
  intros Hok Hb H1 H2. destruct (sfs_readblock_into s b (addr ar) Hok Hb) as (m' & d' & Hrun & Hld & Hch & Hd & Hs); [intros a; by apply area_apart_buffer|].
  exists m', d'. split_and!; try done. eapply changes_weaken; [|done]. intros a [Hin|Hin]; [right; by exists ar|by left].
Qed.

Lemma sfs_writeblock_io s b ar :
  io_ready s -> 0 <= b < sb_nblocks s ->
  exists m' d', sfs_writeblock b (addr ar) SFS_BLOCKSIZE s = inr (0, set_io m' d' s) /\
    changes_only (.∈ span (dv_buffer (sfs_device s)) SFS_BLOCKSIZE) (sfs_mem s) m' /\
    same_device (sfs_device s) d' /\
    (forall c, dv_sector d' c = if decide (c = b) then load (sfs_mem s) (span (addr ar) SFS_BLOCKSIZE) else sec s c).
Proof.
  clear reserved. intros Hrd Hb. apply sfs_writeblock_from; [done|done|]. intros a. pose proof (ly_buffer _ (ir_layout _ Hrd) ar). rewrite !elem_span. lia.
Qed.

Lemma sfs_writeblock_run s b ar :
  sfs_ok s -> 0 <= b < sb_nblocks s ->
  exists m' d', sfs_writeblock b (addr ar) SFS_BLOCKSIZE s = inr (0, set_io m' d' s) /\
    changes_only (.∈ span (dv_buffer (sfs_device s)) SFS_BLOCKSIZE) (sfs_mem s) m' /\
    same_device (sfs_device s) d' /\
    (forall c, dv_sector d' c = if decide (c = b) then load (sfs_mem s) (span (addr ar) SFS_BLOCKSIZE) else sec s c).
Proof. intros Hok. by apply sfs_writeblock_io, ok_io_ready. Qed.

(** ** Allocation *)

Lemma ok_set_bit s map' b :
  sfs_ok s -> 0 <= b < nbits (sfs_freemap s) -> bit_set_at (sfs_freemap s) map' b ->
  let s1 := set_freemapdirty true (set_freemap map' s) in
  sfs_ok s1 /\ frame s s1 /\ (forall c, marked s1 c <-> marked s c \/ (c = b /\ b < sb_nblocks s)).
Proof.
  intros Hok Hb (Hn & Hwf & Hbits) s1.
  assert (forall c, marked s1 c <-> marked s c \/ (c = b /\ b < sb_nblocks s)) as Hm.
  { intros c. unfold marked. cbn. split.
    - intros [Hc E]. rewrite Hbits in E by lia. destruct (decide (c = b)); [right; lia|]. rewrite bool_decide_eq_false_2 in E by done. by left.
    - intros [[Hc E]|[-> Hc]]; (split; [lia|]); rewrite Hbits by lia; [rewrite E; apply orb_true_r|by rewrite bool_decide_eq_true_2]. }
  split_and!; [|done|done]. pose proof (so_small _ Hok). pose proof (so_disk _ Hok). destruct Hok. constructor; cbn -[replicate]; try done.
  - by rewrite Hn.
  - rewrite Hn. intros c Hc. rewrite Hbits by lia. rewrite so_beyond0 by done. apply orb_true_r.
  - rewrite Hbits, so_zero0 by lia. apply orb_true_r.
  - eapply blocks_ok_ext; [done| |done]. intros c Hc. apply Hm. by left.
Qed.

(** A block is taken and cleared, or all are in use and nothing happens. *)
Lemma sfs_balloc_run s : sfs_ok s ->
  ((forall c, 0 <= c < sb_nblocks s -> marked s c) /\ sfs_balloc s = inr ((ENOSPC, 0), s)) \/
  (exists b map' m' d', let s1 := set_io m' d' (set_freemapdirty true (set_freemap map' s)) in
    sfs_balloc s = inr ((0, b), s1) /\ 0 < b < sb_nblocks s /\ ~ marked s b /\
    bit_set_at (sfs_freemap s) map' b /\ (forall c, marked s1 c <-> marked s c \/ c = b) /\
    keeps_zeros (sfs_mem s) m' /\ changes_only (scratch (dv_buffer (sfs_device s))) (sfs_mem s) m' /\
    (load m' (span (addr bmap_idbuf) SFS_BLOCKSIZE) = load (sfs_mem s) (span (addr bmap_idbuf) SFS_BLOCKSIZE)) /\
    same_device (sfs_device s) d' /\ (forall c, dv_sector d' c = if decide (c = b) then zero_block else sec s c)).
Proof.
  intros Hok. unfold sfs_balloc. rewrite srun_get.
  destruct (bitmap_alloc_ok _ (so_map _ Hok)) as [b map' Hb Hfree _ Hset|Hfull].
  - right. destruct (ok_set_bit s map' b Hok Hb Hset) as (Hok1 & Hfr1 & Hm1). set (s1 := set_freemapdirty true (set_freemap map' s)) in *.
    assert (0 < b < sb_nblocks s) as Hb'.
    { split; [destruct (decide (b = 0)) as [->|]; [by rewrite (so_zero _ Hok) in Hfree|lia]|].
      destruct (Z_lt_le_dec b (sb_nblocks s)); [done|]. by rewrite (so_beyond _ Hok) in Hfree by lia. }
    destruct (sfs_writeblock_run s1 b clear_zeros Hok1) as (m' & d' & Hrun & Hch & Hd & Hs); [cbn; lia|].
    exists b, map', m', d'. assert (changes_only (scratch (dv_buffer (sfs_device s))) (sfs_mem s) m') as Hsc by (eapply changes_weaken; [|exact Hch]; by left).
    assert (layout_ok (dv_buffer (sfs_device s))) as Hly by apply Hok. split_and!; try done; try lia.
    + rewrite run_of_sum. cbn [negb Z.eqb]. rewrite !srun_modify, srun_get. cbn [sb_nblocks set_freemapdirty set_freemap].
      rewrite (proj2 (Z.leb_gt _ _)) by lia. unfold sfs_clearblock. by rewrite (srun_call _ _ _ _ _ Hrun).
    + intros [_ E]. by rewrite E in Hfree.
    + intros c. change (marked s1 c <-> marked s c \/ c = b). rewrite (Hm1 c). intuition lia.
    + by eapply scratch_keeps.
    + apply (load_kept _ _ _ _ Hch). intros a Ha Ha'. by eapply (area_apart_buffer s bmap_idbuf).
    + intros c. rewrite Hs, <- (so_zeros _ Hok). done.
  - left. split; [|done]. intros c Hc. split; [done|]. apply Hfull. pose proof (so_mapsize _ Hok). lia.
Qed.

Lemma sfs_bused_run s b : sfs_ok s -> marked s b -> sfs_bused b s = inr (true, s).
Proof.
  intros Hok [Hb Hbit]. unfold sfs_bused. rewrite srun_get, (proj2 (Z.leb_gt _ _)), srun_get by lia.
  unfold of_sum. rewrite bitmap_isset_ok; [by rewrite Hbit|apply Hok|]. pose proof (so_mapsize _ Hok). lia.
Qed.

Lemma hand_back_run s b : sfs_ok s -> (b <> 0 -> marked s b) -> hand_back b s = inr ((0, b), s).
Proof.
  intros Hok Hb. unfold hand_back. destruct (Z.eqb_spec b 0); [done|]. by rewrite (srun_call _ _ _ _ _ (sfs_bused_run s b Hok (Hb n))).
Qed.
End block.
