(* ===== verification/SfsBmap.v ===== *)
(** * SFS: from blocks of a file to blocks of the disk

    [sfs_bmap] finds or allocates the block of a file.  Whatever it does, the
    volume stays well-formed and no byte of any file changes: a hole reads as
    zeros before and after it gets a block. *)

From S2P Require Import Prelude State Monad StopState Bitmap Uio Device Sfs SfsSpec SfsBlock.

#[local] Open Scope Z_scope.
#[local] Open Scope sm_scope.

(** ** Words *)

Lemma bytes_word_roundtrip w : is_u32 w -> bytes_word (word_bytes w) = w.
Proof. unfold is_u32, bytes_word, word_bytes. cbn [foldl]. intros Hw. lia. Qed.

Lemma span_split a n i k : 0 <= i -> 0 <= k -> i + k <= n -> take (Z.to_nat k) (drop (Z.to_nat i) (span a n)) = span (a + i) k.
Proof.
  intros Hi Hk Hn. replace n with (i + (n - i)) by lia. rewrite span_app, drop_app_length' by (rewrite ?length_span; lia).
  replace (n - i) with (k + (n - i - k)) by lia. rewrite span_app by lia. apply take_app_length'. by rewrite length_span.
Qed.

Lemma word_at_entry a j m l : 0 <= j < SFS_DBPERIDB -> load m (span a SFS_BLOCKSIZE) = l -> word_at a j m = entry l j.
Proof.
  unfold SFS_DBPERIDB. intros Hj <-. unfold word_at, entry, load. rewrite <- fmap_drop, <- fmap_take. change 4%nat with (Z.to_nat 4).
  by rewrite span_split by (unfold SFS_BLOCKSIZE; lia).
Qed.

Lemma set_word_entry a j w m k : 0 <= j < SFS_DBPERIDB -> 0 <= k < SFS_DBPERIDB -> is_u32 w ->
  entry (load (set_word a j w m) (span a SFS_BLOCKSIZE)) k = if decide (k = j) then w else entry (load m (span a SFS_BLOCKSIZE)) k.
Proof.
  intros Hj Hk Hw. rewrite <- !(word_at_entry a k _ _ Hk eq_refl). unfold word_at, set_word. case_decide as E.
  - subst k. rewrite load_store; [by apply bytes_word_roundtrip|apply NoDup_span|by rewrite length_span].
  - f_equal. apply load_store_ne. intros x. rewrite !elem_span. lia.
Qed.

Lemma changes_set_word a j w m : 0 <= j < SFS_DBPERIDB -> changes_only (.∈ span a SFS_BLOCKSIZE) m (set_word a j w m).
Proof.
  unfold SFS_DBPERIDB, SFS_BLOCKSIZE. intros Hj. eapply changes_weaken; [|apply changes_store]. intros x. cbn. rewrite !elem_span. lia.
Qed.

Section bmap.
Context {D : Type} {DV : Device D} {BD : BlockDevice D} {LY : Layout}.
Context (reserved : Z -> Prop).

Notation SS := (sfs_fs D).
Notation ok := (sfs_ok reserved).
Notation buffer s := (dv_buffer (sfs_device s)).

(** ** Inodes *)

Definition put (x : positive) (f : sfs_dinode -> sfs_dinode) (v : sfs_vnode) (s : SS) : SS :=
  set_vnodes (<[x := mk_sfs_vnode (f (sv_i v)) (sv_ino v) true]> (sfs_vnodes s)) s.

Lemma put_inode_run x f v (s : SS) : sfs_vnodes s !! x = Some v -> put_inode x f s = inr (tt, put x f v s).
Proof. intros E. unfold put_inode, get_sv, sderef, sbind. by rewrite E. Qed.

Lemma inodes_put x f v (s : SS) : inodes (put x f v s) = <[x := f (sv_i v)]> (inodes s).
Proof. unfold inodes, put. cbn. by rewrite fmap_insert. Qed.

Lemma inodes_lookup (s : SS) x v : sfs_vnodes s !! x = Some v -> inodes s !! x = Some (sv_i v).
Proof. intros E. unfold inodes. by rewrite lookup_fmap, E. Qed.

Lemma get_sv_run {B} x v (s : SS) (f : sfs_vnode -> SM SS B) : sfs_vnodes s !! x = Some v -> sbind (get_sv x) f s = f v s.
Proof. intros E. unfold sbind, get_sv, sderef. by rewrite E. Qed.

Lemma ok_put x f v (s : SS) : ok s -> blocks_ok (sec s) reserved (<[x := f (sv_i v)]> (inodes s)) (marked s) ->
  ok (put x f v s) /\ frame s (put x f v s).
Proof.
  intros Hok Hb. split; [|done]. destruct Hok. constructor; try done.
  change (sec (put x f v s)) with (sec s). change (marked (put x f v s)) with (marked s). by rewrite inodes_put.
Qed.

(** ** What every operation keeps *)

Record evolves (s s' : SS) : Prop := mk_evolves {
  ev_ok : ok s';
  ev_frame : frame s s';
  ev_mem : changes_only (scratch (buffer s)) (sfs_mem s) (sfs_mem s');
  ev_files : same_files (sec s) (inodes s) (sec s') (inodes s');
  ev_reserved : forall b, reserved b -> sec s' b = sec s b
}.

Lemma evolves_refl s : ok s -> evolves s s.
Proof. intros Hok. constructor; [done|done|by intros a []|apply same_files_refl|done]. Qed.

Lemma evolves_trans s1 s2 s3 : evolves s1 s2 -> evolves s2 s3 -> evolves s1 s3.
Proof.
  intros [Ho1 Hf1 Hm1 Hs1 Hr1] [Ho2 Hf2 Hm2 Hs2 Hr2]. constructor; [done|by eapply frame_trans| |by eapply same_files_trans|intros b Hb; by rewrite Hr2, Hr1].
  rewrite (fr_buffer _ _ Hf1) in Hm2. by eapply changes_only_trans.
Qed.

(** Reading a block into an area. *)
Lemma read_evolves s m' d' : ok s -> changes_only (scratch (buffer s)) (sfs_mem s) m' -> same_device (sfs_device s) d' ->
  (forall c, dv_sector d' c = sec s c) -> evolves s (set_io m' d' s).
Proof.
  intros Hok Hm Hd Hs. destruct (ok_io reserved s m' d' Hok) as [Hok' Hfr]; [eapply scratch_keeps; [apply Hok|exact Hm]|done| |].
  - eapply blocks_ok_ext; [exact Hs|done|apply Hok].
  - constructor; [done|done|done|by apply same_files_ext|intros b _; apply Hs].
Qed.

Lemma mem_evolves s m' : ok s -> changes_only (scratch (buffer s)) (sfs_mem s) m' -> evolves s (set_mem m' s).
Proof. intros Hok Hm. apply (read_evolves s m' (sfs_device s)); [done|done|by split_and!; [apply Hok|..]|done]. Qed.

(** A block was allocated, not used yet. *)
Record allocated (s : SS) (b : Z) (s1 : SS) : Prop := mk_allocated {
  al_range : 0 < b < sb_nblocks s;
  al_free : ~ marked s b;
  al_ok : ok s1;
  al_frame : frame s s1;
  al_vnodes : sfs_vnodes s1 = sfs_vnodes s;
  al_marked : forall c, marked s1 c <-> marked s c \/ c = b;
  al_mem : changes_only (scratch (buffer s)) (sfs_mem s) (sfs_mem s1);
  al_idbuf : load (sfs_mem s1) (span (addr bmap_idbuf) SFS_BLOCKSIZE) = load (sfs_mem s) (span (addr bmap_idbuf) SFS_BLOCKSIZE);
  al_zero : sec s1 b = zero_block;
  al_sec : forall c, c <> b -> sec s1 c = sec s c
}.

(** Clearing a free block changes no file. *)
Lemma clear_free {K} `{HK : Countable K} f g (ino : gmap K sfs_dinode) mk b : blocks_ok f reserved ino mk -> ~ mk b -> (forall c, c <> b -> g c = f c) -> blocks_ok g reserved ino mk.
Proof.
  intros Hok Hb Hs. assert (forall k c, uses g reserved ino k c -> uses f reserved ino k c) as Hus.
  { intros [y j|y|c'] c; cbn; [|done..]. intros (n & Hn & Hj & E & Hc). exists n. split_and!; try done; try lia. rewrite <- E. symmetry.
    apply slot_frame. intros Hi. apply Hs. by eapply ind_unmarked. }
  constructor; [apply Hok| |]; intros k; [intros c Hk%Hus; by eapply bo_marked|intros k' c Hk%Hus Hk'%Hus; by eapply bo_unique].
Qed.

Lemma balloc_cases s : ok s ->
  ((forall c, 0 <= c < sb_nblocks s -> marked s c) /\ sfs_balloc s = inr ((ENOSPC, 0), s)) \/
  (exists b s1, sfs_balloc s = inr ((0, b), s1) /\ allocated s b s1).
Proof.
  intros Hok. destruct (sfs_balloc_run reserved s Hok) as [H|(b & map' & m' & d' & Hrun & Hb & Hfree & Hset & Hm & Hz & Hch & Hid & Hd & Hs)]; [by left|].
  right. exists b, (set_io m' d' (set_freemapdirty true (set_freemap map' s))). split; [done|].
  destruct (ok_set_bit reserved s map' b Hok) as (Hok1 & Hfr1 & Hm1); [pose proof (so_mapsize _ _ Hok); lia|done|].
  destruct (ok_io reserved _ m' d' Hok1 Hz Hd) as [Hok2 Hfr2].
  - eapply (blocks_ok_ext _ _ _ _ (marked s)); [done|intros c Hc; apply Hm1; by left|].
    eapply clear_free; [apply Hok|exact Hfree|]. intros c Hc. rewrite Hs. by rewrite decide_False.
  - constructor; try done.
    + by eapply frame_trans.
    + unfold sec. cbn. rewrite Hs. by rewrite decide_True.
    + intros c Hc. unfold sec at 1. cbn. rewrite Hs. by rewrite decide_False.
Qed.

(** The blocks reserved for others are in use, but not by the files. *)
Lemma reserved_marked s b : ok s -> reserved b -> marked s b.
Proof. intros Hok Hb. by apply (bo_marked _ _ _ _ (so_blocks _ _ Hok) (KOther b)). Qed.

Lemma reserved_apart s k b : ok s -> uses (sec s) reserved (inodes s) k b -> reserved b -> k = KOther b.
Proof. intros Hok Hk Hb. by apply (bo_unique _ _ _ _ (so_blocks _ _ Hok) _ _ b). Qed.

Lemma allocated_reserved s b s1 c : ok s -> allocated s b s1 -> reserved c -> sec s1 c = sec s c.
Proof. intros Hok Hal Hc. apply (al_sec _ _ _ Hal). intros ->. by apply (al_free _ _ _ Hal), reserved_marked. Qed.

(** The inode gets the new block. *)
Lemma evolves_put s b s1 x f v :
  ok s -> allocated s b s1 -> sfs_vnodes s !! x = Some v ->
  blocks_ok (sec s1) reserved (<[x := f (sv_i v)]> (inodes s)) (fun c => marked s c \/ c = b) ->
  same_files (sec s) (inodes s) (sec s1) (<[x := f (sv_i v)]> (inodes s)) -> evolves s (put x f v s1).
Proof.
  intros Hok0 Hal. pose proof (allocated_reserved s b s1) as Hres. destruct Hal as [Hr Hf Hok Hfr Hv Hm Hch Hid Hz Hs]. intros Hx Hb Hsame. assert (inodes s1 = inodes s) as E by (unfold inodes; by rewrite Hv).
  destruct (ok_put x f v s1 Hok) as [Hok' Hfr'].
  - rewrite E. eapply blocks_ok_ext; [done| |exact Hb]. intros c. apply Hm.
  - constructor; [done|by eapply frame_trans|done| |]; [rewrite inodes_put, E; done|]. intros c Hc. apply Hres; [done|by constructor|done].
Qed.

(** ** The result of [sfs_bmap] *)

(** [slot_is s x i b]: block [i] of file [x] is [b]. *)
Definition slot_is (s : SS) (x : positive) (i b : Z) : Prop :=
  exists v, sfs_vnodes s !! x = Some v /\ slot (sec s) (sv_i v) i = b.

(** Nothing on the disk changed. *)
Definition untouched (s s' : SS) : Prop :=
  sfs_vnodes s' = sfs_vnodes s /\ sfs_freemap s' = sfs_freemap s /\ forall c, sec s' c = sec s c.

Record bmap_result (s : SS) (x : positive) (i : Z) (doalloc : bool) (r b : Z) (s' : SS) : Prop := mk_bmap_result {
  bm_evolves : evolves s s';
  bm_read : doalloc = false \/ ~ slot_is s x i 0 -> untouched s s';
  bm_result : (r = 0 /\ i < SFS_MAXBLOCKS /\ slot_is s' x i b /\ (doalloc = true -> b <> 0)) \/
              (r = ENOSPC /\ i < SFS_MAXBLOCKS /\ doalloc = true /\ forall c, 0 <= c < sb_nblocks s' -> marked s' c) \/
              (r = EFBIG /\ SFS_MAXBLOCKS <= i);
  bm_hole : r = ENOSPC -> slot_is s x i 0
}.

Lemma slot_marked s x v i : ok s -> sfs_vnodes s !! x = Some v -> 0 <= i < SFS_MAXBLOCKS -> slot (sec s) (sv_i v) i <> 0 ->
  marked s (slot (sec s) (sv_i v) i).
Proof.
  intros Hok Hx Hi Hn. apply (bo_marked _ _ _ _ (so_blocks _ _ Hok) (KSlot x i)). exists (sv_i v). split_and!; try done; try lia. by apply inodes_lookup.
Qed.

Lemma indirect_marked s x v : ok s -> sfs_vnodes s !! x = Some v -> sfi_indirect (sv_i v) <> 0 -> marked s (sfi_indirect (sv_i v)).
Proof. intros Hok Hx Hn. apply (bo_marked _ _ _ _ (so_blocks _ _ Hok) (KInd x)). exists (sv_i v). by rewrite (inodes_lookup s x v). Qed.

(** The block is there already. *)
Lemma bmap_present s x v i doalloc : ok s -> sfs_vnodes s !! x = Some v -> 0 <= i < SFS_MAXBLOCKS ->
  (slot (sec s) (sv_i v) i =? 0) && doalloc = false ->
  hand_back (slot (sec s) (sv_i v) i) s = inr ((0, slot (sec s) (sv_i v) i), s) /\
  bmap_result s x i doalloc 0 (slot (sec s) (sv_i v) i) s.
Proof.
  intros Hok Hx Hi Hc. split; [apply (hand_back_run reserved); [done|by eapply slot_marked]|].
  constructor; [by apply evolves_refl|done| |done]. left. split_and!; [done|lia|by exists v|]. intros ->. rewrite andb_true_r in Hc. by apply Z.eqb_neq.
Qed.

Lemma bmap_direct_run s x v i doalloc : ok s -> sfs_vnodes s !! x = Some v -> 0 <= i < SFS_NDIRECT ->
  exists r b s', bmap_direct x i doalloc s = inr ((r, b), s') /\ bmap_result s x i doalloc r b s'.
Proof.
  intros Hok Hx Hi. assert (0 <= i < SFS_MAXBLOCKS) as Hi' by (unfold SFS_MAXBLOCKS, SFS_DBPERIDB; lia).
  pose proof (bo_direct _ _ _ _ (so_blocks _ _ Hok) x _ (inodes_lookup s x v Hx)) as Hd.
  destruct (zlookup_in_range (sfi_direct (sv_i v)) i) as [b Hb]; [lia|].
  assert (slot (sec s) (sv_i v) i = b) as Hslot by (unfold slot; rewrite (proj2 (Z.ltb_lt i _)), Hb by lia; done).
  unfold bmap_direct. rewrite (get_sv_run x v) by done. rewrite (srun_deref _ _ b) by done.
  destruct ((b =? 0) && doalloc) eqn:E.
  - apply andb_true_iff in E as [Hb0%Z.eqb_eq ->].
    destruct (balloc_cases s Hok) as [[Hfull Hrun]|(nb & s1 & Hrun & Hal)]; rewrite (srun_call _ _ _ _ _ Hrun); cbn [negb Z.eqb].
    + exists ENOSPC, 0, s. split; [done|]. constructor; [by apply evolves_refl|done| |intros _; exists v; split; [done|congruence]]. right. left. split_and!; (done || lia).
    + destruct (fresh_direct reserved (sec s) (sec s1) (inodes s) (marked s) (so_blocks _ _ Hok) x (sv_i v) i nb) as (Hbl & Hsame & Hs);
        [by apply inodes_lookup|done|congruence|apply Hal|destruct Hal; lia|apply Hal|apply Hal|].
      assert (sfs_vnodes s1 !! x = Some v) as Hx1 by (rewrite (al_vnodes _ _ _ Hal); done).
      rewrite (srun_call _ _ _ _ _ (put_inode_run x _ v s1 Hx1)).
      pose proof (evolves_put s nb s1 x (set_direct i nb) v Hok Hal Hx Hbl Hsame) as Hev.
      assert (sfs_vnodes (put x (set_direct i nb) v s1) !! x = Some (mk_sfs_vnode (set_direct i nb (sv_i v)) (sv_ino v) true)) as Hx2
        by (cbn; by rewrite lookup_insert_eq).
      destruct (bmap_present _ x _ i true (ev_ok _ _ Hev) Hx2 Hi') as [Hh Hres].
      { change (sec (put x (set_direct i nb) v s1)) with (sec s1). cbn [sv_i]. rewrite Hs. rewrite (proj2 (Z.eqb_neq nb 0)); [done|]. destruct Hal. lia. }
      change (sec (put x (set_direct i nb) v s1)) with (sec s1) in Hh, Hres. cbn [sv_i] in Hh, Hres. rewrite Hs in Hh, Hres.
      exists 0, nb, (put x (set_direct i nb) v s1). split; [done|].
      constructor; [done|intros [[=]|[]]; exists v; split; [done|congruence]|apply Hres|done].
  - subst b. destruct (bmap_present s x v i doalloc Hok Hx Hi' E) as [Hh Hres]. by eexists 0, _, s.
Qed.

(** ** The indirect block *)

Lemma area_apart s a b x : ok s -> a <> b -> x ∈ span (addr a) SFS_BLOCKSIZE -> x ∉ span (addr b) SFS_BLOCKSIZE.
Proof. intros Hok Hne. pose proof (ly_areas _ (so_layout _ _ Hok) a b Hne). rewrite !elem_span. lia. Qed.

(** The new entry is written back. *)
Lemma entry_written s x v j nb s1 :
  ok s -> sfs_vnodes s !! x = Some v -> 0 <= j < SFS_DBPERIDB -> sfi_indirect (sv_i v) <> 0 ->
  load (sfs_mem s) (span (addr bmap_idbuf) SFS_BLOCKSIZE) = sec s (sfi_indirect (sv_i v)) ->
  slot (sec s) (sv_i v) (SFS_NDIRECT + j) = 0 -> allocated s nb s1 ->
  exists s2, sfs_writeblock (sfi_indirect (sv_i v)) (addr bmap_idbuf) SFS_BLOCKSIZE (set_mem (set_word (addr bmap_idbuf) j nb (sfs_mem s1)) s1) = inr (0, s2) /\
    evolves s s2 /\ sfs_vnodes s2 = sfs_vnodes s /\ slot (sec s2) (sv_i v) (SFS_NDIRECT + j) = nb /\ nb <> 0.
Proof.
  intros Hok Hx Hj Hi Hbuf H0 Hal. pose proof (so_small _ _ Hok) as Hsm. set (ind := sfi_indirect (sv_i v)) in *.
  destruct (indirect_marked s x v Hok Hx Hi) as [Hir _]. fold ind in Hir.
  pose proof (changes_set_word (addr bmap_idbuf) j nb (sfs_mem s1) Hj) as Hcw.
  assert (evolves s1 (set_mem (set_word (addr bmap_idbuf) j nb (sfs_mem s1)) s1)) as Hev1.
  { apply mem_evolves; [apply Hal|]. eapply changes_weaken; [|exact Hcw]. intros a Ha. right. by exists bmap_idbuf. }
  set (s1' := set_mem (set_word (addr bmap_idbuf) j nb (sfs_mem s1)) s1) in *.
  destruct (sfs_writeblock_run reserved s1' ind bmap_idbuf (ev_ok _ _ Hev1)) as (m2 & d2 & Hrun & Hch2 & Hd2 & Hs2);
    [cbn; rewrite (fr_nblocks _ _ (al_frame _ _ _ Hal)); lia|].
  assert (ind <> nb) as Hne by (eapply ind_unmarked; [apply Hok|by apply inodes_lookup|done|apply Hal]).
  assert (forall k, 0 <= k < SFS_DBPERIDB -> entry (dv_sector d2 ind) k = if decide (k = j) then nb else entry (sec s ind) k) as Hent.
  { intros k Hk. rewrite Hs2, decide_True by done. cbn [sfs_mem s1' set_mem]. rewrite set_word_entry; [|done|done|destruct Hal; unfold is_u32; lia].
    by rewrite (al_idbuf _ _ _ Hal), Hbuf. }
  destruct (fresh_entry reserved (sec s) (dv_sector d2) (inodes s) (marked s) (so_blocks _ _ Hok) x (sv_i v) j nb) as (Hbl & Hsame & Hsl);
    [by apply inodes_lookup|done|done|done|apply Hal|destruct Hal; lia| |exact Hent| |].
  { rewrite Hs2, decide_False by done. apply (al_zero _ _ _ Hal). }
  { intros c Hc Hc'. rewrite Hs2, decide_False by done. by apply (al_sec _ _ _ Hal). }
  assert (inodes s1' = inodes s) as Ein by (unfold inodes, s1'; cbn; by rewrite (al_vnodes _ _ _ Hal)).
  assert (changes_only (scratch (buffer s1')) (sfs_mem s1') m2) as Hch2' by (eapply changes_weaken; [|exact Hch2]; by left).
  destruct (ok_io reserved s1' m2 d2 (ev_ok _ _ Hev1)) as [Hok2 Hfr2]; [eapply scratch_keeps; [apply (ev_ok _ _ Hev1)|exact Hch2']|done| |].
  { rewrite Ein. eapply blocks_ok_ext; [done| |exact Hbl]. intros c. apply (al_marked _ _ _ Hal). }
  exists (set_io m2 d2 s1'). split_and!; [done| |apply Hal|done|destruct Hal; lia].
  constructor; [done| | | |].
  - eapply frame_trans; [apply Hal|]. eapply frame_trans; [apply Hev1|done].
  - eapply changes_only_trans; [apply Hal|]. pose proof (fr_buffer _ _ (al_frame _ _ _ Hal)) as Eb. rewrite <- Eb.
    eapply changes_only_trans; [apply (ev_mem _ _ Hev1)|done].
  - change (inodes (set_io m2 d2 s1')) with (inodes s1'). by rewrite Ein.
  - intros b Hb. unfold sec at 1. cbn [sfs_device set_io]. rewrite Hs2, decide_False; [by apply (allocated_reserved s nb s1)|]. intros ->.
    assert (KInd x = KOther ind) as [=]. apply (reserved_apart s); [done|exists (sv_i v); by rewrite (inodes_lookup s x v)|done].
Qed.

Lemma bmap_entry_run s x v j doalloc :
  ok s -> sfs_vnodes s !! x = Some v -> 0 <= j < SFS_DBPERIDB -> sfi_indirect (sv_i v) <> 0 ->
  load (sfs_mem s) (span (addr bmap_idbuf) SFS_BLOCKSIZE) = sec s (sfi_indirect (sv_i v)) ->
  exists r b s', bmap_entry (sfi_indirect (sv_i v)) j doalloc s = inr ((r, b), s') /\ bmap_result s x (SFS_NDIRECT + j) doalloc r b s'.
Proof.
  intros Hok Hx Hj Hi Hbuf. assert (0 <= SFS_NDIRECT + j < SFS_MAXBLOCKS) as Hi' by (unfold SFS_MAXBLOCKS, SFS_NDIRECT in *; lia).
  assert (word_at (addr bmap_idbuf) j (sfs_mem s) = slot (sec s) (sv_i v) (SFS_NDIRECT + j)) as Hw.
  { rewrite (word_at_entry _ j _ _ Hj Hbuf). unfold slot. rewrite (proj2 (Z.ltb_ge _ _)), (proj2 (Z.eqb_neq _ 0)) by (done || lia).
    by rewrite Z.add_simpl_l. }
  unfold bmap_entry. rewrite srun_get, Hw. destruct ((slot (sec s) (sv_i v) (SFS_NDIRECT + j) =? 0) && doalloc) eqn:E.
  - apply andb_true_iff in E as [H0%Z.eqb_eq ->].
    destruct (balloc_cases s Hok) as [[Hfull Hrun]|(nb & s1 & Hrun & Hal)]; rewrite (srun_call _ _ _ _ _ Hrun); cbn [negb Z.eqb].
    + exists ENOSPC, 0, s. split; [done|]. constructor; [by apply evolves_refl|done| |intros _; exists v; split; [done|congruence]]. right. left. split_and!; (done || lia).
    + destruct (entry_written s x v j nb s1 Hok Hx Hj Hi Hbuf H0 Hal) as (s2 & Hrun2 & Hev & Hv2 & Hsl & Hn0).
      rewrite (srun_call _ _ _ _ _ (run_on_memory (smodify (set_word (addr bmap_idbuf) j nb)) tt _ s1 eq_refl)).
      rewrite (srun_call _ _ _ _ _ Hrun2). cbn [negb Z.eqb].
      assert (sfs_vnodes s2 !! x = Some v) as Hx2 by (by rewrite Hv2).
      destruct (bmap_present s2 x v (SFS_NDIRECT + j) true (ev_ok _ _ Hev) Hx2 Hi') as [Hh Hres].
      { rewrite Hsl, (proj2 (Z.eqb_neq nb 0)); done. }
      rewrite Hsl in Hh, Hres. exists 0, nb, s2. split; [done|]. constructor; [done|intros [[=]|[]]; by exists v|apply Hres|done].
  - destruct (bmap_present s x v _ doalloc Hok Hx Hi' E) as [Hh Hres]. by eexists 0, _, s.
Qed.

Lemma bmap_result_after s s1 x i doalloc r b s' :
  evolves s s1 -> (doalloc = false \/ ~ slot_is s x i 0 -> untouched s s1) -> (slot_is s1 x i 0 -> slot_is s x i 0) ->
  bmap_result s1 x i doalloc r b s' -> bmap_result s x i doalloc r b s'.
Proof.
  intros Hev Hu Hh [Hev' Hr Hres Hhole]. constructor; [by eapply evolves_trans| |done|by auto].
  intros Hd. assert (doalloc = false \/ ~ slot_is s1 x i 0) as Hd1 by tauto. destruct (Hu Hd) as (E1 & E2 & E3), (Hr Hd1) as (E1' & E2' & E3'). split_and!; [congruence|congruence|]. intros c. by rewrite E3', E3.
Qed.

(** A file gets its indirect block. *)
Lemma new_indirect s x v nb s1 :
  ok s -> sfs_vnodes s !! x = Some v -> sfi_indirect (sv_i v) = 0 -> allocated s nb s1 ->
  let s2 := put x (set_indirect nb) v s1 in
  let s3 := set_mem (store (span (addr bmap_idbuf) SFS_BLOCKSIZE) zero_block (sfs_mem s2)) s2 in
  evolves s s3 /\ sfs_vnodes s3 !! x = Some (mk_sfs_vnode (set_indirect nb (sv_i v)) (sv_ino v) true) /\
  load (sfs_mem s3) (span (addr bmap_idbuf) SFS_BLOCKSIZE) = sec s3 nb.
Proof.
  intros Hok Hx Hi Hal s2 s3.
  destruct (fresh_indirect reserved (sec s) (sec s1) (inodes s) (marked s) (so_blocks _ _ Hok) x (sv_i v) nb) as [Hbl Hsame];
    [by apply inodes_lookup|done|apply Hal|destruct Hal; lia|apply Hal|apply Hal|].
  pose proof (evolves_put s nb s1 x (set_indirect nb) v Hok Hal Hx Hbl Hsame) as Hev. fold s2 in Hev. split_and!.
  - eapply evolves_trans; [exact Hev|]. apply mem_evolves; [apply Hev|]. eapply changes_weaken; [|apply changes_store].
    intros a Ha. right. by exists bmap_idbuf.
  - cbn. by rewrite lookup_insert_eq.
  - change (sec s3) with (sec s1). rewrite (al_zero _ _ _ Hal). cbn [sfs_mem s3 set_mem].
    apply load_store; [apply NoDup_span|]. by rewrite length_span.
Qed.

(** [sfs_bmap] finds the block of a file or allocates one, and never
    changes a byte of any file.  On a well-formed volume and any block number
    it returns: the block recorded for [fileblock], or 0 for a hole when
    [doalloc] is false, in which case neither the disk nor an inode changes; a
    new block, cleared and recorded in the inode or the indirect block, for a
    hole when [doalloc] is true; [ENOSPC], only if every block of the volume is
    in use; [EFBIG], exactly for blocks past the indirect one.  In every case the
    volume is well-formed again (each block in use is marked and has one use),
    every file has the same bytes and size, and only the static buffers changed
    in memory. *)
Lemma sfs_bmap_run s x v fileblock doalloc :
  ok s -> sfs_vnodes s !! x = Some v -> is_u32 fileblock ->
  exists r b s', sfs_bmap x fileblock doalloc s = inr ((r, b), s') /\ bmap_result s x fileblock doalloc r b s'.
Proof.
  unfold is_u32. intros Hok Hx Hf. unfold sfs_bmap. rewrite srun_get, srun_assert by (apply Z.ltb_lt, Hok).
  destruct (Z.ltb_spec fileblock SFS_NDIRECT) as [Hd|Hd]; [apply (bmap_direct_run s x v); (done || lia)|].
  set (j := fileblock - SFS_NDIRECT). destruct (Z.leb_spec SFS_NINDIRECT (j / SFS_DBPERIDB)) as [Hbig|Hsmall].
  { exists EFBIG, 0, s. split; [done|]. constructor; [by apply evolves_refl|done| |done]. right. right.
    unfold SFS_NINDIRECT, SFS_MAXBLOCKS, SFS_NDIRECT, SFS_DBPERIDB in *. split; [done|lia]. }
  assert (0 <= j < SFS_DBPERIDB) as Hj by (unfold SFS_NINDIRECT, SFS_NDIRECT, SFS_DBPERIDB in *; lia).
  assert (fileblock = SFS_NDIRECT + j) as Ef by (unfold j; lia).
  assert (fileblock < SFS_MAXBLOCKS) as Hmax by (unfold SFS_MAXBLOCKS, SFS_NDIRECT, SFS_DBPERIDB in *; lia).
  rewrite (Z.mod_small j) by done. rewrite (get_sv_run x v) by done. clearbody j. subst fileblock.
  assert (sfi_indirect (sv_i v) = 0 -> slot_is s x (SFS_NDIRECT + j) 0) as Hhole.
  { intros H0. exists v. split; [done|]. unfold slot. rewrite (proj2 (Z.ltb_ge _ _)) by lia. by rewrite H0. }
  destruct (Z.eqb_spec (sfi_indirect (sv_i v)) 0) as [H0|H0]; [specialize (Hhole H0); destruct doalloc; cbn [andb negb]|cbn [andb]].
  - destruct (balloc_cases s Hok) as [[Hfull Hrun]|(nb & s1 & Hrun & Hal)]; rewrite (srun_call _ _ _ _ _ Hrun); cbn [negb Z.eqb].
    + exists ENOSPC, 0, s. split; [done|]. constructor; [by apply evolves_refl|done| |by intros _]. right. left. by split_and!.
    + assert (sfs_vnodes s1 !! x = Some v) as Hx1 by (rewrite (al_vnodes _ _ _ Hal); done).
      destruct (new_indirect s x v nb s1 Hok Hx H0 Hal) as (Hev & Hx3 & Hbuf).
      rewrite (srun_call _ _ _ _ _ (put_inode_run x _ v s1 Hx1)).
      rewrite (srun_call _ _ _ _ _ (run_on_memory (bzero (addr bmap_idbuf) SFS_BLOCKSIZE) tt _ (put x (set_indirect nb) v s1) eq_refl)).
      destruct (bmap_entry_run _ x _ j true (ev_ok _ _ Hev) Hx3 Hj) as (r & b & s' & Hrun' & Hres); [cbn; destruct Hal; lia|exact Hbuf|].
      exists r, b, s'. split; [done|]. eapply bmap_result_after; [exact Hev|by intros [[=]|[]]|by intros _|exact Hres].
  - exists 0, 0, s. split; [done|]. constructor; [by apply evolves_refl|done| |done]. left. by split_and!.
  - pose proof (indirect_marked s x v Hok Hx H0) as [Hr _].
    destruct (sfs_readblock_run reserved s _ bmap_idbuf Hok Hr) as (m' & d' & Hrun & Hld & Hch & Hd' & Hs); [done..|].
    rewrite (srun_call _ _ _ _ _ Hrun). cbn [negb Z.eqb]. pose proof (read_evolves s m' d' Hok Hch Hd' Hs) as Hev.
    destruct (bmap_entry_run (set_io m' d' s) x v j doalloc (ev_ok _ _ Hev) Hx Hj H0) as (r & b & s' & Hrun' & Hres).
    { cbn [sfs_mem set_io]. rewrite Hld. unfold sec. cbn. by rewrite Hs. }
    exists r, b, s'. split; [done|]. eapply bmap_result_after; [exact Hev|by intros _| |exact Hres].
    intros (v' & Hv' & Hs'). exists v'. split; [done|]. by rewrite (slot_frame (sec s)) in Hs' by (intros _; apply Hs).
Qed.
End bmap.
