(* ===== verification/SfsRead.v ===== *)
(** * SFS: reading files

    A read of a part of a block, of a whole block and of any range moves the
    bytes of the file to the buffers of the request, and leaves the disk and the
    inodes alone. *)

From S2P Require Import Prelude State Monad StopState Bitmap Uio Device Sfs SfsSpec SfsBlock SfsBmap.

#[local] Open Scope Z_scope.
#[local] Open Scope sm_scope.

(** ** Bytes of files *)

(** Bytes [off], ..., [off + k - 1]. *)
Definition file_bytes (sec : Z -> list Z) (n : sfs_dinode) (off k : Z) : list Z :=
  file_byte sec n <$> span off k.

Lemma file_bytes_app sec n off k1 k2 : 0 <= k1 -> 0 <= k2 ->
  file_bytes sec n off (k1 + k2) = file_bytes sec n off k1 ++ file_bytes sec n (off + k1) k2.
Proof. intros H1 H2. unfold file_bytes. by rewrite span_app, fmap_app. Qed.

Lemma nth_range {A} (d : A) (l : list A) i k : (i + k <= length l)%nat -> take k (drop i l) = (fun j => nth (i + j) l d) <$> seq 0 k.
Proof.
  intros Hl. apply list_eq. intros j. rewrite list_lookup_fmap. destruct (decide (j < k)%nat) as [Hj|Hj].
  - rewrite lookup_take_lt, lookup_drop by done. rewrite lookup_seq_lt by done. cbn. symmetry. rewrite nth_lookup.
    destruct (lookup_lt_is_Some_2 l (i + j)) as [y Hy]; [lia|]. by rewrite Hy.
  - rewrite lookup_take_ge, lookup_seq_ge by lia. done.
Qed.

(** A range inside one block. *)
Lemma file_bytes_block sec n i skip len :
  0 <= skip -> 0 <= len -> skip + len <= SFS_BLOCKSIZE -> length (block_bytes sec (slot sec n i)) = Z.to_nat SFS_BLOCKSIZE ->
  file_bytes sec n (SFS_BLOCKSIZE * i + skip) len = take (Z.to_nat len) (drop (Z.to_nat skip) (block_bytes sec (slot sec n i))).
Proof.
  intros Hs Hl Hb Hlen. rewrite (nth_range 0) by lia. unfold file_bytes, span. rewrite <- list_fmap_compose. apply list_fmap_ext.
  intros j y Hy. apply lookup_seq in Hy as [-> Hj]. cbn. unfold file_byte, SFS_BLOCKSIZE in *.
  replace ((512 * i + skip + Z.of_nat j) / 512) with i by lia. f_equal. lia.
Qed.

Section read.
Context {D : Type} {DV : Device D} {BD : BlockDevice D} {LY : Layout}.
Context (reserved : Z -> Prop) (accessible : bool -> Z -> bool) (curas : option positive).

Notation SS := (sfs_fs D).
Notation ok := (sfs_ok reserved).
Notation buffer s := (dv_buffer (sfs_device s)).

(** A request of the kernel, apart from the static areas. *)
Record file_request (s : SS) (u : uio) : Prop := mk_file_request {
  fq_kernel : kernel_uio (uio_resid u) u;
  fq_distinct : NoDup (uio_addrs u);
  fq_apart : forall a, a ∈ uio_addrs u -> ~ static (buffer s) a;
  fq_offset : 0 <= uio_offset u;
  fq_small : uio_offset u + uio_resid u < 2^41
}.

Lemma request_length s u : file_request s u -> Z.of_nat (length (uio_addrs u)) = uio_resid u.
Proof. clear reserved accessible curas. intros Hq. eapply length_uio_addrs, Hq. Qed.

Lemma file_request_next s s' u k u' : file_request s u -> buffer s' = buffer s -> 0 <= k <= uio_resid u -> advanced u k u' -> file_request s' u'.
Proof. clear reserved accessible curas.
  intros [Hk Hd Ha Ho Hsm] Hb Hr Hadv. pose proof (ad_addrs _ _ _ Hadv ltac:(lia)) as E. constructor.
  - rewrite (ad_resid _ _ _ Hadv). apply (kernel_advanced _ u); (done || lia).
  - rewrite E. eapply sublist_NoDup; [done|apply sublist_drop].
  - rewrite E, Hb. intros a Hin. apply Ha. by eapply elem_of_drop_1.
  - rewrite (ad_offset _ _ _ Hadv). lia.
  - rewrite (ad_offset _ _ _ Hadv), (ad_resid _ _ _ Hadv). lia.
Qed.

(** [k] bytes were read. *)
Record read_done (s : SS) (n : sfs_dinode) (u : uio) (k : Z) (s' : SS) (u' : uio) : Prop := mk_read_done {
  rd_ok : ok s';
  rd_frame : frame s s';
  rd_untouched : untouched s s';
  rd_advanced : advanced u k u';
  rd_mem : changes_only (fun a => scratch (buffer s) a \/ a ∈ take (Z.to_nat k) (uio_addrs u)) (sfs_mem s) (sfs_mem s');
  rd_bytes : load (sfs_mem s') (take (Z.to_nat k) (uio_addrs u)) = file_bytes (sec s) n (uio_offset u) k
}.

Lemma file_bytes_ext f g n off k : (forall c, g c = f c) -> file_bytes g n off k = file_bytes f n off k.
Proof. clear reserved accessible curas.
  intros E. apply list_fmap_ext. intros i p _. unfold file_byte, block_bytes. rewrite (slot_frame f g n _ (fun _ => E _)). destruct (_ =? 0); [done|]. by rewrite E.
Qed.

Lemma read_done_none s n u : ok s -> file_request s u -> read_done s n u 0 s u.
Proof. intros Hok Hq. constructor; try done; [eapply advanced_refl, Hq|by intros a []]. Qed.

Lemma read_done_trans s n u k1 s1 u1 k2 s2 u2 :
  file_request s u -> 0 <= k1 -> 0 <= k2 -> k1 + k2 <= uio_resid u ->
  read_done s n u k1 s1 u1 -> read_done s1 n u1 k2 s2 u2 -> read_done s n u (k1 + k2) s2 u2.
Proof. clear accessible curas.
  intros Hq Hk1 Hk2 Hk [Ho1 Hf1 Hu1 Ha1 Hm1 Hb1] [Ho2 Hf2 Hu2 Ha2 Hm2 Hb2]. pose proof (ad_addrs _ _ _ Ha1 Hk1) as E.
  rewrite (fr_buffer _ _ Hf1), E in *. rewrite (ad_offset _ _ _ Ha1) in Hb2. constructor; [done|by eapply frame_trans| | | |].
  - destruct Hu1 as (E1 & E2 & E3), Hu2 as (E1' & E2' & E3'). split_and!; [congruence|congruence|]. intros c. by rewrite E3', E3.
  - by apply (advanced_trans u k1 u1).
  - rewrite Z2Nat.inj_add, <- take_take_drop by done. eapply changes_only_trans; (eapply changes_weaken; [|done]);
      intros a [Ha|Ha]; rewrite ?elem_of_app; auto.
  - rewrite file_bytes_app by done. rewrite Z2Nat.inj_add, <- take_take_drop, load_app, Hb2 by done. f_equal.
    + rewrite <- Hb1. apply (load_kept _ _ _ _ Hm2). intros a Ha [Hs|Hs].
      * apply (fq_apart _ _ Hq a); [by eapply elem_of_take_1|by apply scratch_static].
      * pose proof (fq_distinct _ _ Hq) as Hnd. rewrite <- (take_drop (Z.to_nat k1) (uio_addrs u)) in Hnd.
        apply NoDup_app in Hnd as (_ & Hnd & _). destruct (Hnd a Ha). by eapply elem_of_take_1.
    + apply file_bytes_ext. intros c. apply Hu1.
Qed.

(** ** One block *)

Lemma block_number off skip : 0 <= off < 2^41 -> skip = off mod SFS_BLOCKSIZE ->
  u32 (Z.quot off SFS_BLOCKSIZE) = off / SFS_BLOCKSIZE /\ is_u32 (off / SFS_BLOCKSIZE) /\ SFS_BLOCKSIZE * (off / SFS_BLOCKSIZE) + skip = off.
Proof. clear reserved accessible curas.
  unfold SFS_BLOCKSIZE, is_u32. intros Ho ->. rewrite Z.quot_div_nonneg by lia.
  assert (0 <= off / 512 < 2^32) by lia. rewrite u32_small by (unfold is_u32; lia). lia.
Qed.

Lemma block_length s n i : ok s -> length (block_bytes (sec s) (slot (sec s) n i)) = Z.to_nat SFS_BLOCKSIZE.
Proof. clear accessible curas.
  intros Hok. unfold block_bytes. destruct (_ =? 0); [apply length_replicate|]. apply dv_sector_length, Hok.
Qed.

Lemma untouched_refl (s : SS) : untouched s s.
Proof. done. Qed.
Lemma untouched_trans (s1 s2 s3 : SS) : untouched s1 s2 -> untouched s2 s3 -> untouched s1 s3.
Proof. intros (E1 & E2 & E3) (E1' & E2' & E3'). split_and!; [congruence|congruence|]. intros c. by rewrite E3', E3. Qed.

(** The block of a file is found, without allocating. *)
Lemma bmap_found s x v i doalloc :
  ok s -> sfs_vnodes s !! x = Some v -> 0 <= i < SFS_MAXBLOCKS -> doalloc = false \/ slot (sec s) (sv_i v) i <> 0 ->
  exists s1, sfs_bmap x i doalloc s = inr ((0, slot (sec s) (sv_i v) i), s1) /\ evolves reserved s s1 /\ untouched s s1.
Proof. clear accessible curas.
  intros Hok Hx Hi Hd. destruct (sfs_bmap_run reserved s x v i doalloc Hok Hx) as (r & b & s1 & Hrun & [Hev Hun Hres Hhole]).
  { unfold is_u32, SFS_MAXBLOCKS, SFS_NDIRECT, SFS_DBPERIDB in *. lia. }
  assert (doalloc = false \/ ~ slot_is s x i 0) as Hd' by (destruct Hd as [|Hd]; [by left|right]; intros (v' & Hv' & E); congruence).
  specialize (Hun Hd'). destruct Hres as [(-> & _ & (v' & Hv' & Hb) & _)|[(Hr & _ & Ht & _)|(_ & Hbig)]]; [|destruct Hd' as [|[]]; [congruence|by apply Hhole]|lia].
  exists s1. split_and!; [|done|done]. rewrite Hrun. destruct Hun as (E & _ & Es). rewrite E in Hv'. assert (v' = v) as -> by congruence.
  subst b. by rewrite (slot_frame (sec s) (sec s1)).
Qed.

Lemma bmap_lookup s x v i :
  ok s -> sfs_vnodes s !! x = Some v -> 0 <= i < SFS_MAXBLOCKS ->
  exists s1, sfs_bmap x i false s = inr ((0, slot (sec s) (sv_i v) i), s1) /\ evolves reserved s s1 /\ untouched s s1.
Proof. intros Hok Hx Hi. apply bmap_found; [done..|by left]. Qed.

(** The buffer of [sfs_partialio] is filled. *)
Definition filled (s : SS) (bytes : list Z) (s' : SS) : Prop :=
  evolves reserved s s' /\ untouched s s' /\ load (sfs_mem s') (span (addr iobuf) SFS_BLOCKSIZE) = bytes.

Lemma fill_iobuf s x v i : ok s -> sfs_vnodes s !! x = Some v -> 0 <= i < SFS_MAXBLOCKS ->
  let b := slot (sec s) (sv_i v) i in
  exists s', (if b =? 0 then sassert true "uio->uio_rw == UIO_READ" ;; on_memory (bzero (addr iobuf) SFS_BLOCKSIZE) ;; sret 0
              else sfs_readblock b (addr iobuf) SFS_BLOCKSIZE) s = inr (0, s') /\ filled s (block_bytes (sec s) b) s'.
Proof. clear accessible curas.
  intros Hok Hx Hi b. unfold block_bytes, filled. destruct (Z.eqb_spec b 0) as [Hb|Hb].
  - exists (set_mem (store (span (addr iobuf) SFS_BLOCKSIZE) zero_block (sfs_mem s)) s). split_and!; [done| |done|].
    + apply mem_evolves; [done|]. eapply changes_weaken; [|apply changes_store]. intros a Ha. right. by exists iobuf.
    + cbn. apply load_store; [apply NoDup_span|]. by rewrite length_span.
  - destruct (slot_marked reserved s x v i Hok Hx Hi Hb) as [Hr _].
    destruct (sfs_readblock_run reserved s b iobuf Hok Hr) as (m' & d' & Hrun & Hld & Hch & Hd & Hs); [done..|].
    exists (set_io m' d' s). split_and!; [done|by apply read_evolves|done|done].
Qed.

Lemma load_part m a skip len n : 0 <= skip -> 0 <= len -> skip + len <= n ->
  load m (span (a + skip) len) = take (Z.to_nat len) (drop (Z.to_nat skip) (load m (span a n))).
Proof. clear reserved accessible curas. intros Hs Hl Hn. unfold load. rewrite <- fmap_drop, <- fmap_take. by rewrite span_split. Qed.

Lemma request_apart s u ar skip len : file_request s u -> 0 <= skip -> skip + len <= SFS_BLOCKSIZE -> apart (addr ar + skip) (uio_addrs u) len.
Proof. clear reserved accessible curas.
  intros Hq Hs Hl a Ha Hin%elem_of_take_1. apply (fq_apart _ _ Hq a Hin). right. exists ar. rewrite elem_span in *. lia.
Qed.

Lemma request_keeps_zeros (s : SS) u k m m' : file_request s u ->
  changes_only (.∈ take k (uio_addrs u)) m m' -> keeps_zeros m m'.
Proof. clear reserved accessible curas.
  intros Hq. apply changes_weaken. intros a Ha%elem_of_take_1. pose proof (fq_apart _ _ Hq a Ha) as Hn.
  split; intros Hin; apply Hn; right; [by exists clear_zeros|by exists uio_zeros].
Qed.

Lemma run_uiomove (s : SS) u ptr len : kernel_uio len u -> 0 <= len <= uio_resid u -> apart ptr (uio_addrs u) len ->
  exists u', on_memory (uiomove accessible curas ptr len u) s = inr ((0, u'), set_mem (moved (uio_rw u) ptr (uio_addrs u) len (sfs_mem s)) s) /\ advanced u len u'.
Proof. clear reserved.
  intros Hk Hl Hap. destruct (uiomove_run accessible curas ptr len u (sfs_mem s) Hk) as (u' & Hrun & Hadv); rewrite ?Z.min_l in * by lia; [lia|done|].
  exists u'. split; [|done]. by apply run_on_memory.
Qed.

(** Bytes that were put into the buffers of the request. *)
Lemma read_into s n u k s1 m' u' :
  ok s -> file_request s u -> 0 <= k <= uio_resid u -> evolves reserved s s1 -> untouched s s1 -> advanced u k u' ->
  changes_only (.∈ take (Z.to_nat k) (uio_addrs u)) (sfs_mem s1) m' ->
  load m' (take (Z.to_nat k) (uio_addrs u)) = file_bytes (sec s) n (uio_offset u) k ->
  read_done s n u k (set_mem m' s1) u'.
Proof. clear accessible curas.
  intros Hok Hq Hk Hev Hun Hadv Hch Hld.
  destruct (ok_mem reserved s1 m' (ev_ok _ _ _ Hev)) as [Hok' Hfr']; [by eapply request_keeps_zeros|].
  constructor; try done.
  - eapply frame_trans; [apply Hev|done].
  - eapply changes_only_trans; [eapply changes_weaken; [|apply (ev_mem _ _ _ Hev)]|eapply changes_weaken; [|exact Hch]]; auto.
Qed.

Lemma partialio_read s x v u skip len :
  ok s -> sfs_vnodes s !! x = Some v -> file_request s u -> uio_rw u = UIO_READ -> skip = uio_offset u mod SFS_BLOCKSIZE ->
  0 <= len <= uio_resid u -> skip + len <= SFS_BLOCKSIZE -> uio_offset u / SFS_BLOCKSIZE < SFS_MAXBLOCKS ->
  exists s' u', sfs_partialio accessible curas x u skip len s = inr ((0, u'), s') /\ read_done s (sv_i v) u len s' u'.
Proof.
  intros Hok Hx Hq Hrw Hskip Hlen Hfit Hmax. pose proof (fq_offset _ _ Hq) as Ho. pose proof (fq_small _ _ Hq) as Hsm.
  assert (0 <= skip < SFS_BLOCKSIZE) as Hs0 by (unfold SFS_BLOCKSIZE in *; lia).
  destruct (block_number (uio_offset u) skip) as (Eb & Hu32 & Eoff); [lia|done|]. set (i := uio_offset u / SFS_BLOCKSIZE) in *.
  assert (0 <= i < SFS_MAXBLOCKS) as Hi by (unfold is_u32 in Hu32; lia).
  destruct (bmap_lookup s x v i Hok Hx Hi) as (s1 & Hb & Hev1 & Hun1).
  assert (sfs_vnodes s1 !! x = Some v) as Hx1 by (destruct Hun1 as (-> & _); done).
  assert (forall c, sec s1 c = sec s c) as Hsec1 by apply Hun1.
  assert (slot (sec s1) (sv_i v) i = slot (sec s) (sv_i v) i) as Hsl by (by apply slot_frame).
  destruct (fill_iobuf s1 x v i (ev_ok _ _ _ Hev1) Hx1 Hi) as (s2 & Hfill & Hev2 & Hun2 & Hbuf).
  pose proof (evolves_trans _ _ _ _ Hev1 Hev2) as Hev. pose proof (untouched_trans _ _ _ Hun1 Hun2) as Hun.
  destruct (run_uiomove s2 u (addr iobuf + skip) len) as (u' & Hmove & Hadv); [eapply kernel_part; [apply Hq|lia..]|done|eapply request_apart; [done|lia|lia]|].
  rewrite Hrw in Hmove. unfold moved in Hmove.
  eexists _, u'. split.
  - unfold sfs_partialio. rewrite Hrw, Eb. rewrite srun_assert.
    2: { rewrite u32_small by (unfold is_u32, SFS_BLOCKSIZE in *; lia). by apply Z.leb_le. }
    rewrite srun_get, srun_assert by (apply Z.ltb_lt, Hok). cbn [is_write]. rewrite (srun_call _ _ _ _ _ Hb). cbn [negb Z.eqb].
    rewrite Hsl in Hfill. rewrite (srun_call _ _ _ _ _ Hfill). cbn [negb Z.eqb]. rewrite (srun_call _ _ _ _ _ Hmove). reflexivity.
  - eapply read_into; [done|done|done|done|done|done|apply changes_store|].
    rewrite load_store; [|eapply sublist_NoDup; [apply Hq|apply sublist_take]|].
    + rewrite (load_part _ _ skip len SFS_BLOCKSIZE), Hbuf by lia. rewrite <- Eoff.
      rewrite file_bytes_block by (done || lia || by apply block_length). rewrite Hsl. unfold block_bytes. by rewrite Hsec1.
    + rewrite length_load, length_span, length_take. pose proof (request_length _ _ Hq). lia.
Qed.

(** ** Whole blocks *)

(** The request a whole block gives to the device. *)
Definition device_request (b : Z) (u : uio) : uio := set_resid SFS_BLOCKSIZE (set_offset (u32 (b * SFS_BLOCKSIZE)) u).

Lemma device_request_addrs b u : SFS_BLOCKSIZE <= uio_resid u -> uio_addrs (device_request b u) = take (Z.to_nat SFS_BLOCKSIZE) (uio_addrs u).
Proof. clear reserved accessible curas. intros Hr. unfold uio_addrs, device_request. cbn [uio_resid set_resid uio_iov set_offset]. rewrite take_take. f_equal. lia. Qed.

Lemma device_request_ok s u b : file_request s u -> SFS_BLOCKSIZE <= uio_resid u -> 0 <= b < 2^23 -> block_request (uio_rw u) b (device_request b u).
Proof. clear reserved accessible curas.
  intros Hq Hr Hb. destruct (fq_kernel _ _ Hq) as [[Hl Ht Hs He] Hseg Hsp]. constructor; try done.
  - constructor; [|done..]. constructor; cbn -[iov_total]; [done|..]; unfold SFS_BLOCKSIZE, SECTSIZE in *; lia.
  - cbn. rewrite u32_small by (unfold is_u32, SFS_BLOCKSIZE; lia). unfold SECTSIZE, SFS_BLOCKSIZE. lia.
  - rewrite device_request_addrs by done. eapply sublist_NoDup; [apply Hq|apply sublist_take].
Qed.

(** The offset and the residue are put back. *)
Definition restored (b : Z) (u u1 : uio) : uio :=
  set_resid (u32 ((uio_resid u1 - SFS_BLOCKSIZE) + uio_resid u)) (set_offset ((uio_offset u1 - u32 (b * SFS_BLOCKSIZE)) + uio_offset u) u1).

Lemma restored_advanced s u b u1 : file_request s u -> SFS_BLOCKSIZE <= uio_resid u ->
  advanced (device_request b u) SFS_BLOCKSIZE u1 -> advanced u SFS_BLOCKSIZE (restored b u u1).
Proof. clear reserved accessible curas.
  intros Hq Hr [Ho Hre Ha Hs Hw Hp Hl Ht]. cbn -[u32 iov_addrs] in Ho, Hre, Ha, Hs, Hw, Hp. destruct (fq_kernel _ _ Hq) as [[Hl0 Ht0 Hs0 He0] _ _].
  unfold SFS_BLOCKSIZE in *.
  assert (u32 (uio_resid u1 - 512 + uio_resid u) = uio_resid u - 512) as Er by (rewrite u32_small; unfold is_u32; lia).
  constructor; cbn -[u32 iov_total]; unfold SFS_BLOCKSIZE; rewrite ?Er; try done; [lia|]. rewrite <- (length_iov_addrs (uio_iov u1)) by done. rewrite Ha, length_drop.
  pose proof (length_iov_addrs _ Hl0). lia.
Qed.

Lemma blockio_read s x v u :
  ok s -> sfs_vnodes s !! x = Some v -> file_request s u -> uio_rw u = UIO_READ -> uio_offset u mod SFS_BLOCKSIZE = 0 ->
  SFS_BLOCKSIZE <= uio_resid u -> uio_offset u / SFS_BLOCKSIZE < SFS_MAXBLOCKS ->
  exists s' u', sfs_blockio accessible curas x u s = inr ((0, u'), s') /\ read_done s (sv_i v) u SFS_BLOCKSIZE s' u'.
Proof.
  intros Hok Hx Hq Hrw Hal Hr Hmax. pose proof (fq_offset _ _ Hq) as Ho. pose proof (fq_small _ _ Hq) as Hsm.
  assert (0 < SFS_BLOCKSIZE) as Hpos by done.
  destruct (block_number (uio_offset u) 0) as (Eb & Hu32 & Eoff); [lia|done|]. set (i := uio_offset u / SFS_BLOCKSIZE) in *.
  assert (0 <= i < SFS_MAXBLOCKS) as Hi by (unfold is_u32 in Hu32; lia).
  destruct (bmap_lookup s x v i Hok Hx Hi) as (s1 & Hb & Hev1 & Hun1). pose proof (ev_ok _ _ _ Hev1) as Hok1.
  assert (forall c, sec s1 c = sec s c) as Hsec1 by apply Hun1. pose proof (fr_buffer _ _ (ev_frame _ _ _ Hev1)) as Ebuf.
  assert (file_bytes (sec s) (sv_i v) (uio_offset u) SFS_BLOCKSIZE = block_bytes (sec s) (slot (sec s) (sv_i v) i)) as Hbytes.
  { pose proof (block_length s (sv_i v) i Hok) as Hbl. rewrite <- Eoff, file_bytes_block by (done || lia). apply take_ge. rewrite Hbl. done. }
  unfold sfs_blockio. rewrite Hrw, Eb. cbn [is_write]. rewrite (srun_call _ _ _ _ _ Hb). cbn [negb Z.eqb].
  set (b := slot (sec s) (sv_i v) i) in *. unfold block_bytes in Hbytes. destruct (Z.eqb_spec b 0) as [Hb0|Hb0].
  - destruct (uiomovezeros_run accessible curas (addr uio_zeros) (Z.to_nat SFS_BLOCKSIZE) SFS_BLOCKSIZE u (sfs_mem s1)) as (u' & Hz & Hadv);
      [eapply kernel_part; [apply Hq|lia..]|done|lia|done|apply Hok1| |].
    { intros a Ha Hin. apply (fq_apart _ _ Hq a Hin). right. exists uio_zeros. rewrite elem_span in *. unfold SFS_BLOCKSIZE. lia. }
    eexists _, u'. split.
    + rewrite srun_assert by done. unfold uiomovezeros. rewrite Hrw. erewrite run_on_memory; [reflexivity|]. rewrite srun_assert by done. exact Hz.
    + eapply read_into; [done|done|lia|done|done|done|apply changes_store|].
      rewrite Hbytes, load_store; [done|eapply sublist_NoDup; [apply Hq|apply sublist_take]|].
      rewrite length_replicate, length_take. pose proof (request_length _ _ Hq). lia.
  - destruct (slot_marked reserved s x v i Hok Hx Hi Hb0) as [Hbr _]. fold b in Hbr. pose proof (so_small _ _ Hok) as Hns.
    pose proof (device_request_ok s u b Hq Hr ltac:(lia)) as Hreq. rewrite Hrw in Hreq.
    destruct (sfs_rwblock_read reserved s1 b (device_request b u) Hok1) as (u1 & m' & d' & Hrun & Hadv & Hld & Hch & Hd & Hs);
      [rewrite (fr_nblocks _ _ (ev_frame _ _ _ Hev1)); lia|done| |].
    { rewrite device_request_addrs by done. rewrite Ebuf. intros a Ha Hin%elem_of_take_1. apply (fq_apart _ _ Hq a Hin). by left. }
    rewrite device_request_addrs in Hld, Hch by done.
    exists (set_io m' d' s1), (restored b u u1). split.
    + rewrite srun_assert by (by apply Z.leb_le). change (set_resid SFS_BLOCKSIZE (set_offset (u32 (b * SFS_BLOCKSIZE)) u)) with (device_request b u).
      by rewrite (srun_call _ _ _ _ _ Hrun).
    + destruct (ok_io reserved s1 m' d' Hok1) as [Hok' Hfr']; [|done|eapply blocks_ok_ext; [exact Hs|done|apply Hok1]|].
      { eapply changes_weaken; [|exact Hch]. intros a [Ha|Ha].
        - apply elem_of_take_1 in Ha. pose proof (fq_apart _ _ Hq a Ha) as Hn. split; intros Hin; apply Hn; right; [by exists clear_zeros|by exists uio_zeros].
        - split; by apply (area_apart_buffer reserved s1). }
      constructor.
      * done.
      * eapply frame_trans; [apply Hev1|done].
      * destruct Hun1 as (E1 & E2 & E3). split_and!; [done|done|]. intros c. rewrite <- E3. apply Hs.
      * by eapply restored_advanced.
      * eapply changes_only_trans; [eapply changes_weaken; [|apply (ev_mem _ _ _ Hev1)]; by left|]. eapply changes_weaken; [|exact Hch].
        rewrite Ebuf. intros a [Ha|Ha]; [by right|left; by left].
      * cbn [sfs_mem set_io]. rewrite Hld, Hbytes. apply Hsec1.
Qed.
End read.
