(* ===== verification/SfsIo.v ===== *)
(** * SFS: transfers of any range

    [sfs_io] cuts a range into a leading part of a block, whole blocks and a
    last part.  What it transfers follows from what the three do, for reads and
    writes alike: the first section is about the cutting alone.  Then reads: the
    bytes of the file up to its end. *)

From S2P Require Import Prelude State Monad StopState Bitmap Uio Device Sfs SfsSpec SfsBlock SfsBmap SfsRead.

#[local] Open Scope Z_scope.
#[local] Open Scope sm_scope.

Section transfer.
Context {D : Type} {DV : Device D} {LY : Layout} (accessible : bool -> Z -> bool) (curas : option positive).
Context (x : positive).

Notation SS := (sfs_fs D).

(** [pre]: what a transfer needs; [post s u k s' u']: [k] bytes were moved;
    [why r s' u']: what is known of a result. *)
Context (pre : SS -> uio -> Prop) (post : SS -> uio -> Z -> SS -> uio -> Prop) (why : Z -> SS -> uio -> Prop).
Context (pre_range : forall s u, pre s u -> 0 <= uio_offset u < 2^63 /\ 0 <= uio_resid u < 2^32).
Context (post_advanced : forall s u k s' u', post s u k s' u' -> advanced u k u').
Context (post_none : forall s u, pre s u -> post s u 0 s u).
Context (post_trans : forall s u k1 s1 u1 k2 s2 u2, pre s u -> 0 <= k1 -> 0 <= k2 -> k1 + k2 <= uio_resid u ->
  post s u k1 s1 u1 -> post s1 u1 k2 s2 u2 -> post s u (k1 + k2) s2 u2).
Context (pre_next : forall s u k s' u', pre s u -> 0 <= k <= uio_resid u -> post s u k s' u' -> pre s' u').
Context (why_0 : forall s u, pre s u -> why 0 s u).

(** At most [want] bytes were moved; all of them if the result is 0. *)
Definition moves (p : SM SS (Z * uio)) (s : SS) (u : uio) (want : Z) : Prop :=
  exists r k s' u', p s = inr ((r, u'), s') /\ post s u k s' u' /\ 0 <= k <= want /\ (r = 0 -> k = want) /\ why r s' u'.

Context (partial_moves : forall s u skip len, pre s u -> skip = uio_offset u mod SFS_BLOCKSIZE -> 0 <= len <= uio_resid u ->
  (skip <> 0 \/ 0 < len) -> skip + len <= SFS_BLOCKSIZE -> moves (sfs_partialio accessible curas x u skip len) s u len).
Context (block_moves : forall s u, pre s u -> uio_offset u mod SFS_BLOCKSIZE = 0 -> SFS_BLOCKSIZE <= uio_resid u ->
  moves (sfs_blockio accessible curas x u) s u SFS_BLOCKSIZE).

(** One transfer, then another if it succeeded. *)
Lemma moves_bind p s u want f rest total :
  pre s u -> 0 <= want -> 0 <= rest -> want + rest = total -> total <= uio_resid u -> moves p s u want ->
  (forall s1 u1, pre s1 u1 -> advanced u want u1 -> moves (f u1) s1 u1 rest) ->
  moves (ru <- p ;; if negb (fst ru =? 0) then sret ru else f (snd ru)) s u total.
Proof.
  intros Hpre Hw Hr <- Hle (r & k & s1 & u1 & Hrun & Hpost & Hk & Hk0 & Hwhy) Hf. unfold moves. rewrite (srun_call _ _ _ _ _ Hrun). cbn [fst snd].
  destruct (Z.eqb_spec r 0) as [->|Hr0]; cbn [negb].
  - rewrite (Hk0 eq_refl) in *. destruct (Hf s1 u1) as (r & k2 & s2 & u2 & Hrun2 & Hpost2 & Hk2 & Hk20 & Hwhy2);
      [eapply pre_next; [exact Hpre| |exact Hpost]; lia|by eapply post_advanced|].
    exists r, (want + k2), s2, u2. split_and!; [done| |lia|lia| |done].
    + eapply post_trans; [exact Hpre|lia|lia|lia|exact Hpost|exact Hpost2].
    + intros ->. rewrite Hk20; done.
  - exists r, k, s1, u1. split_and!; (done || lia).
Qed.

Lemma blocks_move n : forall s u, pre s u -> uio_offset u mod SFS_BLOCKSIZE = 0 -> SFS_BLOCKSIZE * Z.of_nat n <= uio_resid u ->
  moves (sfs_io_blocks accessible curas n x u) s u (SFS_BLOCKSIZE * Z.of_nat n).
Proof.
  induction n as [|n IH]; intros s u Hpre Hal Hn; cbn [sfs_io_blocks].
  - exists 0, 0, s, u. split_and!; [done|by apply post_none|lia|lia|done|by eapply why_0].
  - assert (0 < SFS_BLOCKSIZE) by done. apply (moves_bind _ _ _ SFS_BLOCKSIZE _ (SFS_BLOCKSIZE * Z.of_nat n));
      [done|lia|lia|lia|lia|apply block_moves; (done || lia)|].
    intros s1 u1 Hpre1 Hadv. apply IH; [done| |].
    + rewrite (ad_offset _ _ _ Hadv). unfold SFS_BLOCKSIZE in *. lia.
    + rewrite (ad_resid _ _ _ Hadv). lia.
Qed.

Lemma last_moves s u : pre s u -> uio_offset u mod SFS_BLOCKSIZE = 0 -> uio_resid u < SFS_BLOCKSIZE ->
  moves (sfs_io_last accessible curas x u) s u (uio_resid u).
Proof.
  intros Hpre Hal Hr. destruct (pre_range s u Hpre) as [_ Hr0]. unfold sfs_io_last, moves. rewrite srun_assert by (by apply Z.ltb_lt).
  destruct (Z.ltb_spec 0 (uio_resid u)).
  - apply partial_moves; (done || lia).
  - exists 0, 0, s, u. split_and!; [done|by apply post_none|lia|lia|lia|by eapply why_0].
Qed.

(** The part after the leading one. *)
Definition io_tail (u : uio) : SM SS (Z * uio) :=
  if uio_resid u =? 0 then sret (0, u) else
    sassert (Z.rem (uio_offset u) SFS_BLOCKSIZE =? 0) "uio->uio_offset % SFS_BLOCKSIZE == 0" ;;
    ru <- sfs_io_blocks accessible curas (Z.to_nat (uio_resid u / SFS_BLOCKSIZE)) x u ;;
    if negb (fst ru =? 0) then sret ru else sfs_io_last accessible curas x (snd ru).

Lemma tail_moves s u : pre s u -> (uio_resid u = 0 \/ uio_offset u mod SFS_BLOCKSIZE = 0) -> moves (io_tail u) s u (uio_resid u).
Proof.
  intros Hpre Hal. destruct (pre_range s u Hpre) as [Ho Hr]. unfold io_tail. destruct (Z.eqb_spec (uio_resid u) 0) as [E|E].
  - rewrite E. exists 0, 0, s, u. split_and!; [done|by apply post_none|lia|lia|lia|by eapply why_0].
  - destruct Hal as [|Hal]; [done|]. unfold moves. rewrite srun_assert by (rewrite Z.rem_mod_nonneg by (done || lia); by apply Z.eqb_eq).
    set (n := Z.to_nat (uio_resid u / SFS_BLOCKSIZE)).
    assert (uio_resid u = SFS_BLOCKSIZE * Z.of_nat n + uio_resid u mod SFS_BLOCKSIZE) as Esplit by (unfold n, SFS_BLOCKSIZE; lia).
    assert (0 <= uio_resid u mod SFS_BLOCKSIZE < SFS_BLOCKSIZE) as Hm by (unfold SFS_BLOCKSIZE; lia).
    apply (moves_bind _ _ _ (SFS_BLOCKSIZE * Z.of_nat n) _ (uio_resid u mod SFS_BLOCKSIZE));
      [done|unfold SFS_BLOCKSIZE; lia|lia|lia|lia|apply blocks_move; [done|done|lia]|].
    intros s1 u1 Hpre1 Hadv. pose proof (ad_resid _ _ _ Hadv) as Hr1. replace (uio_resid u mod SFS_BLOCKSIZE) with (uio_resid u1) by lia.
    apply last_moves; [done| |lia]. rewrite (ad_offset _ _ _ Hadv). unfold SFS_BLOCKSIZE in *. lia.
Qed.

Lemma transfer_moves s u : pre s u -> moves (sfs_io_transfer accessible curas x u) s u (uio_resid u).
Proof.
  intros Hpre. destruct (pre_range s u Hpre) as [Ho Hr]. unfold sfs_io_transfer.
  assert (u32 (Z.rem (uio_offset u) SFS_BLOCKSIZE) = uio_offset u mod SFS_BLOCKSIZE) as ->.
  { rewrite Z.rem_mod_nonneg by (done || lia). apply u32_small. unfold is_u32, SFS_BLOCKSIZE. lia. }
  set (off := uio_offset u mod SFS_BLOCKSIZE). assert (0 <= off < SFS_BLOCKSIZE) as Hoff by (unfold off, SFS_BLOCKSIZE; lia).
  assert (u32 (SFS_BLOCKSIZE - off) = SFS_BLOCKSIZE - off) as -> by (apply u32_small; unfold is_u32, SFS_BLOCKSIZE in *; lia).
  assert (exists len, (if uio_resid u <? SFS_BLOCKSIZE - off then uio_resid u else SFS_BLOCKSIZE - off) = len /\
    0 <= len <= uio_resid u /\ len <= SFS_BLOCKSIZE - off /\ (len = uio_resid u \/ len = SFS_BLOCKSIZE - off)) as (len & -> & Hlen & Hfit & Hend)
    by (destruct (Z.ltb_spec (uio_resid u) (SFS_BLOCKSIZE - off)); (eexists; split; [done|]); lia).
  assert (forall s1 u1, pre s1 u1 -> advanced u (if off =? 0 then 0 else len) u1 ->
    moves (io_tail u1) s1 u1 (uio_resid u - (if off =? 0 then 0 else len))) as Htail.
  { intros s1 u1 Hpre1 Hadv. rewrite <- (ad_resid _ _ _ Hadv). apply tail_moves; [done|].
    rewrite (ad_resid _ _ _ Hadv), (ad_offset _ _ _ Hadv). unfold off, SFS_BLOCKSIZE in *. destruct (Z.eqb_spec (uio_offset u mod 512) 0); lia. }
  destruct (Z.eqb_spec off 0) as [E|E].
  - unfold moves. rewrite srun_ret. cbn [fst snd negb Z.eqb]. rewrite Z.sub_0_r in Htail. apply Htail; [done|].
    by eapply post_advanced, post_none.
  - apply (moves_bind _ _ _ len io_tail (uio_resid u - len)); [done|lia|lia|lia|lia| |exact Htail]. apply partial_moves; (done || lia).
Qed.
End transfer.

(** ** Reads *)

Section reads.
Context {D : Type} {DV : Device D} {BD : BlockDevice D} {LY : Layout}.
Context (reserved : Z -> Prop) (accessible : bool -> Z -> bool) (curas : option positive).

Notation SS := (sfs_fs D).
Notation ok := (sfs_ok reserved).

Definition SFS_MAXSIZE : Z := SFS_BLOCKSIZE * SFS_MAXBLOCKS.

Record read_pre (x : positive) (v : sfs_vnode) (s : SS) (u : uio) : Prop := mk_read_pre {
  rp_ok : ok s;
  rp_vnode : sfs_vnodes s !! x = Some v;
  rp_request : file_request s u;
  rp_rw : uio_rw u = UIO_READ;
  rp_end : uio_offset u + uio_resid u <= SFS_MAXSIZE
}.

Lemma transfer_reads x v s u : read_pre x v s u ->
  exists s' u', sfs_io_transfer accessible curas x u s = inr ((0, u'), s') /\ read_done reserved s (sv_i v) u (uio_resid u) s' u'.
Proof.
  intros Hpre. destruct (transfer_moves accessible curas x (read_pre x v) (fun s u k s' u' => read_done reserved s (sv_i v) u k s' u') (fun r _ _ => r = 0))
    with (s := s) (u := u) as (r & k & s' & u' & Hrun & Hdone & Hk & Hk0 & ->); [..|exact Hpre|exists s', u'; by rewrite <- Hk0]; clear s u Hpre.
  - intros s u [Hok Hx Hq Hrw He]. pose proof (fq_offset _ _ Hq). pose proof (fq_small _ _ Hq).
    destruct (ku_ok _ _ (fq_kernel _ _ Hq)) as [_ Hr Hs _]. lia.
  - intros s u k s' u' Hd. apply Hd.
  - intros s u Hp. apply read_done_none; apply Hp.
  - intros s u k1 s1 u1 k2 s2 u2 Hp. apply read_done_trans. apply Hp.
  - intros s u k s' u' [Hok Hx Hq Hrw He] Hk Hd. constructor.
    + apply Hd.
    + destruct (rd_untouched _ _ _ _ _ _ _ Hd) as (-> & _). done.
    + eapply file_request_next; [done|apply (fr_buffer _ _ (rd_frame _ _ _ _ _ _ _ Hd))|done|apply Hd].
    + by rewrite (ad_rw _ _ _ (rd_advanced _ _ _ _ _ _ _ Hd)).
    + rewrite (ad_offset _ _ _ (rd_advanced _ _ _ _ _ _ _ Hd)), (ad_resid _ _ _ (rd_advanced _ _ _ _ _ _ _ Hd)). lia.
  - done.
  - intros s u skip len [Hok Hx Hq Hrw He] Hs Hl Hsl Hf.
    destruct (partialio_read reserved accessible curas s x v u skip len) as (s' & u' & Hrun & Hd); [done..| |].
    { unfold SFS_MAXSIZE, SFS_BLOCKSIZE in *. lia. }
    exists 0, len, s', u'. split_and!; (done || lia).
  - intros s u [Hok Hx Hq Hrw He] Hal Hr.
    destruct (blockio_read reserved accessible curas s x v u) as (s' & u' & Hrun & Hd); [done..| |].
    { unfold SFS_MAXSIZE, SFS_BLOCKSIZE in *. lia. }
    exists 0, SFS_BLOCKSIZE, s', u'. split_and!; done.
Qed.

(** A request for the first [k] bytes of a request. *)
Lemma request_prefix s u k : file_request s u -> 0 <= k <= uio_resid u ->
  file_request s (set_resid k u) /\ uio_addrs (set_resid k u) = take (Z.to_nat k) (uio_addrs u).
Proof. clear reserved accessible curas.
  intros [[[Hl Ht Hs He] Hseg Hsp] Hd Ha Ho Hsm] Hk.
  assert (uio_addrs (set_resid k u) = take (Z.to_nat k) (uio_addrs u)) as E by (unfold uio_addrs; cbn [uio_resid set_resid uio_iov]; rewrite take_take; f_equal; lia).
  split; [|done]. constructor.
  - constructor; [|done..]. constructor; cbn -[iov_total]; (done || lia).
  - rewrite E. eapply sublist_NoDup; [done|apply sublist_take].
  - rewrite E. intros a Ha'%elem_of_take_1. by apply Ha.
  - done.
  - cbn. lia.
Qed.

(** How much a read returns. *)
Definition readable (n : sfs_dinode) (u : uio) : Z := Z.max 0 (Z.min (uio_resid u) (sfi_size n - uio_offset u)).

Lemma sfs_io_out_reads x v s u k :
  ok s -> sfs_vnodes s !! x = Some v -> file_request s u -> uio_rw u = UIO_READ -> 0 <= k <= uio_resid u -> uio_offset u + k <= SFS_MAXSIZE ->
  exists s' u', sfs_io_out accessible curas x (set_resid k u) (uio_resid u) (uio_resid u - k) s = inr ((0, u'), s') /\ read_done reserved s (sv_i v) u k s' u'.
Proof.
  intros Hok Hx Hq Hrw Hk He. destruct (request_prefix s u k Hq Hk) as [Hq' Ea]. destruct (ku_ok _ _ (fq_kernel _ _ Hq)) as [Hl Ht Hsm _].
  destruct (transfer_reads x v s (set_resid k u)) as (s' & u1 & Hrun & [Ho Hf Hu Hadv Hm Hb]); [by constructor|]. cbn [uio_resid set_resid] in *.
  rewrite Ea, take_take, Nat.min_id in Hm, Hb. exists s', (set_resid (uio_resid u - k) u1). split.
  - unfold sfs_io_out. rewrite (srun_call _ _ _ _ _ Hrun). cbn [fst snd].
    rewrite (get_sv_run x v) by (destruct Hu as (-> & _); done). rewrite (ad_rw _ _ _ Hadv). cbn [uio_rw set_resid]. rewrite Hrw. cbn [is_write].
    rewrite andb_false_r. cbn [andb]. rewrite srun_ret. rewrite (ad_resid _ _ _ Hadv). cbn [uio_resid set_resid]. by rewrite Z.sub_diag, Z.add_0_l, u32_small by (unfold is_u32; lia).
  - constructor; try done. destruct Hadv as [A1 A2 A3 A4 A5 A6 A7 A8]. cbn in A1, A2, A3, A4, A5, A6. constructor; try done.
    cbn [uio_resid set_resid uio_iov]. rewrite <- (length_iov_addrs (uio_iov u1)), A3, length_drop by done. pose proof (length_iov_addrs _ Hl). unfold iov_addrs in *. lia.
Qed.

Lemma sfs_io_reads x v s u :
  ok s -> sfs_vnodes s !! x = Some v -> 0 <= sfi_size (sv_i v) <= SFS_MAXSIZE -> file_request s u -> uio_rw u = UIO_READ ->
  exists s' u', sfs_io accessible curas x u s = inr ((0, u'), s') /\ read_done reserved s (sv_i v) u (readable (sv_i v) u) s' u'.
Proof.
  intros Hok Hx Hsz Hq Hrw. destruct (ku_ok _ _ (fq_kernel _ _ Hq)) as [_ Hr Hsm _]. pose proof (fq_offset _ _ Hq) as Ho.
  unfold sfs_io. rewrite Hrw, (get_sv_run x v) by done. unfold readable.
  destruct (Z.leb_spec (sfi_size (sv_i v)) (uio_offset u)); [|destruct (Z.ltb_spec (sfi_size (sv_i v)) (uio_offset u + uio_resid u))].
  - exists s, u. split; [done|]. replace (Z.max _ _) with 0 by lia. by apply read_done_none.
  - rewrite (u32_small (_ - sfi_size _)) by (unfold is_u32; lia). rewrite srun_assert by (apply Z.ltb_lt; lia).
    replace (Z.max _ _) with (sfi_size (sv_i v) - uio_offset u) by lia. rewrite u32_small by (unfold is_u32; lia).
    replace (uio_resid u - (uio_offset u + uio_resid u - sfi_size (sv_i v))) with (sfi_size (sv_i v) - uio_offset u) by lia.
    replace (uio_offset u + uio_resid u - sfi_size (sv_i v)) with (uio_resid u - (sfi_size (sv_i v) - uio_offset u)) by lia.
    apply sfs_io_out_reads; (done || lia).
  - replace (Z.max _ _) with (uio_resid u) by lia.
    destruct (sfs_io_out_reads x v s u (uio_resid u)) as (s' & u' & Hrun & Hd); [done..|lia|lia|].
    exists s', u'. split; [|done]. rewrite Z.sub_diag in Hrun. rewrite <- Hrun. by destruct u.
Qed.
End reads.
