(* ===== verification/SfsWrite.v ===== *)
(** * SFS: writing files

    A write puts its bytes at their place in the file, block by block, and
    changes no other byte of this or any other file, whether it ends or runs out
    of space. *)

From S2P Require Import Prelude State Monad StopState Bitmap Uio Device Sfs SfsSpec SfsBlock SfsBmap SfsRead SfsIo.

#[local] Open Scope Z_scope.
#[local] Open Scope sm_scope.

(** ** Overwritten bytes *)

Definition overwritten (f : Z -> Z) (off : Z) (data : list Z) (p : Z) : Z :=
  if decide (off <= p < off + zlen data) then nth (Z.to_nat (p - off)) data 0 else f p.

Lemma overwritten_nil f off p : overwritten f off [] p = f p.
Proof. unfold overwritten. rewrite decide_False; [done|]. unfold zlen. cbn. lia. Qed.

Lemma overwritten_app f off d1 d2 p :
  overwritten (overwritten f off d1) (off + zlen d1) d2 p = overwritten f off (d1 ++ d2) p.
Proof.
  unfold overwritten, zlen. rewrite length_app. repeat case_decide; try lia; try done.
  - rewrite app_nth2 by lia. f_equal. lia.
  - rewrite app_nth1 by lia. done.
Qed.

(** A range of a file that was overwritten, and one that was not. *)
Lemma file_bytes_overwritten sec n f off data :
  (forall p, off <= p < off + zlen data -> file_byte sec n p = overwritten f off data p) -> file_bytes sec n off (zlen data) = data.
Proof.
  intros H. unfold file_bytes, span. rewrite <- list_fmap_compose. apply list_eq. intros i. rewrite list_lookup_fmap. unfold zlen in *.
  destruct (decide (i < length data)%nat) as [Hi|Hi].
  - rewrite lookup_seq_lt by lia. cbn. rewrite H by lia. unfold overwritten, zlen. rewrite decide_True by lia.
    replace (Z.to_nat (off + Z.of_nat i - off)) with i by lia. rewrite nth_lookup.
    by destruct (lookup_lt_is_Some_2 data i) as [y ->].
  - rewrite lookup_seq_ge by lia. symmetry. apply lookup_ge_None_2. lia.
Qed.

Lemma file_bytes_kept sec n sec' n' off k :
  (forall p, off <= p < off + k -> file_byte sec' n' p = file_byte sec n p) -> file_bytes sec' n' off k = file_bytes sec n off k.
Proof. intros H. apply list_fmap_ext. intros i p Hp%list_elem_of_lookup_2%elem_span. by apply H. Qed.

(** The bytes at [off] of file [x] were overwritten; [size] gives its new size. *)
Definition write_files (x : positive) (off : Z) (data : list Z) (size : Z -> Z)
    (sec : Z -> list Z) (ino : gmap positive sfs_dinode) (sec' : Z -> list Z) (ino' : gmap positive sfs_dinode) : Prop :=
  forall y, match ino !! y, ino' !! y with
            | Some n, Some n' => sfi_size n' = (if decide (y = x) then size (sfi_size n) else sfi_size n) /\
                forall p, 0 <= p < SFS_MAXSIZE ->
                  file_byte sec' n' p = if decide (y = x) then overwritten (file_byte sec n) off data p else file_byte sec n p
            | None, None => True
            | _, _ => False
            end.

Lemma same_write_files x off sec ino sec' ino' : same_files sec ino sec' ino' -> write_files x off [] id sec ino sec' ino'.
Proof.
  intros H y. specialize (H y). destruct (ino !! y), (ino' !! y); try done. destruct H as [Hs Hb]. split; [by case_decide|].
  intros p Hp. rewrite Hb by done. case_decide; [by rewrite overwritten_nil|done].
Qed.

Lemma write_files_trans x off d1 d2 f g s1 i1 s2 i2 s3 i3 :
  write_files x off d1 f s1 i1 s2 i2 -> write_files x (off + zlen d1) d2 g s2 i2 s3 i3 ->
  write_files x off (d1 ++ d2) (g ∘ f) s1 i1 s3 i3.
Proof.
  intros H1 H2 y. specialize (H1 y). specialize (H2 y). destruct (i1 !! y), (i2 !! y), (i3 !! y); try done.
  destruct H1 as [E1 H1], H2 as [E2 H2]. split; [rewrite E2, E1; by case_decide|]. intros p Hp. rewrite H2 by done. case_decide.
  - rewrite <- overwritten_app. unfold overwritten at 1 2. case_decide; [done|]. by rewrite H1 by done.
  - by rewrite H1.
Qed.

(** ** Memory *)

Lemma nth_load m a n o : 0 <= o < n -> nth (Z.to_nat o) (load m (span a n)) 0 = byte_at m (a + o).
Proof.
  intros Ho. rewrite nth_lookup. unfold load, span. rewrite !list_lookup_fmap, lookup_seq_lt by lia. cbn. f_equal. lia.
Qed.

Lemma byte_at_store a data m p : byte_at (store (span a (zlen data)) data m) p = overwritten (byte_at m) a data p.
Proof.
  assert (load (store (span a (zlen data)) data m) (span a (zlen data)) = data) as H
    by (apply load_store; [apply NoDup_span|rewrite length_span; unfold zlen; lia]).
  unfold overwritten. case_decide as E.
  - transitivity (nth (Z.to_nat (p - a)) (load (store (span a (zlen data)) data m) (span a (zlen data))) 0); [|by rewrite H].
    rewrite nth_load by lia. f_equal. lia.
  - apply store_ne. rewrite elem_span. lia.
Qed.

Lemma nth_load_store m a skip data n o : 0 <= o < n ->
  nth (Z.to_nat o) (load (store (span (a + skip) (zlen data)) data m) (span a n)) 0 =
  overwritten (fun q => nth (Z.to_nat q) (load m (span a n)) 0) skip data o.
Proof.
  intros Ho. rewrite nth_load, byte_at_store by done. unfold overwritten. rewrite nth_load by done. repeat case_decide; try lia.
  do 2 f_equal. lia.
Qed.

Section write.
Context {D : Type} {DV : Device D} {BD : BlockDevice D} {LY : Layout}.
Context (reserved : Z -> Prop) (accessible : bool -> Z -> bool) (curas : option positive).

Notation SS := (sfs_fs D).
Notation ok := (sfs_ok reserved).
Notation buffer s := (dv_buffer (sfs_device s)).

(** ** One block *)

(** [data] replaces a part of the block. *)
Lemma block_written s x v i b skip data (sec' : Z -> list Z) :
  ok s -> sfs_vnodes s !! x = Some v -> 0 <= i < SFS_MAXBLOCKS -> slot (sec s) (sv_i v) i = b -> b <> 0 ->
  0 <= skip -> skip + zlen data <= SFS_BLOCKSIZE ->
  (forall c, c <> b -> sec' c = sec s c) ->
  (forall o, 0 <= o < SFS_BLOCKSIZE -> nth (Z.to_nat o) (sec' b) 0 = overwritten (fun q => nth (Z.to_nat q) (sec s b) 0) skip data o) ->
  blocks_ok sec' reserved (inodes s) (marked s) /\
  write_files x (SFS_BLOCKSIZE * i + skip) data id (sec s) (inodes s) sec' (inodes s).
Proof. clear accessible curas.
  intros Hok Hx Hi Hb Hb0 Hs Hfit Hsec Hl. pose proof (inodes_lookup s x v Hx) as Hn.
  destruct (data_write reserved (sec s) sec' (inodes s) (marked s) (so_blocks _ _ Hok) x (sv_i v) i b (sec' b)) as [Hbl Hw]; [done..|].
  split; [done|]. intros y. destruct (inodes s !! y) as [m|] eqn:Hy; [|done]. split; [by case_decide|]. intros p Hp.
  assert (0 <= p / SFS_BLOCKSIZE < SFS_MAXBLOCKS) as Hj by (unfold SFS_MAXSIZE, SFS_BLOCKSIZE in *; lia).
  destruct (Hw y m (p / SFS_BLOCKSIZE) Hy Hj) as [E1 E2]. unfold file_byte at 1. rewrite E1, E2.
  assert (0 <= p mod SFS_BLOCKSIZE < SFS_BLOCKSIZE) as Hpm by (unfold SFS_BLOCKSIZE; lia).
  case_decide as E; [destruct E as [-> Ei]; rewrite decide_True by done|].
  - assert (m = sv_i v) as -> by congruence. rewrite Hl by done. unfold overwritten, file_byte. rewrite Ei, Hb. unfold block_bytes.
    rewrite (proj2 (Z.eqb_neq b 0)) by done.
    assert (p - (SFS_BLOCKSIZE * i + skip) = p mod SFS_BLOCKSIZE - skip) as -> by (unfold SFS_BLOCKSIZE in *; lia).
    repeat case_decide; try done; unfold SFS_BLOCKSIZE in *; lia.
  - case_decide as Ey; [|done]. subst y. unfold overwritten. rewrite decide_False; [done|]. intros Hin. apply E. split; [done|].
    unfold SFS_BLOCKSIZE in *. lia.
Qed.

(** [k] bytes were written. *)
Record write_done (x : positive) (s : SS) (u : uio) (k : Z) (s' : SS) (u' : uio) : Prop := mk_write_done {
  wd_ok : ok s';
  wd_frame : frame s s';
  wd_advanced : advanced u k u';
  wd_mem : changes_only (scratch (buffer s)) (sfs_mem s) (sfs_mem s');
  wd_files : write_files x (uio_offset u) (load (sfs_mem s) (take (Z.to_nat k) (uio_addrs u))) id (sec s) (inodes s) (sec s') (inodes s');
  wd_fits : 0 < k -> uio_offset u + k <= SFS_MAXSIZE;
  wd_reserved : forall b, reserved b -> sec s' b = sec s b
}.

(** Why a write can stop early. *)
Definition write_result (r : Z) (s' : SS) (u' : uio) : Prop :=
  r = 0 \/ (r = ENOSPC /\ forall c, 0 <= c < sb_nblocks s' -> marked s' c) \/ (r = EFBIG /\ SFS_MAXSIZE <= uio_offset u').

Record write_pre (x : positive) (s : SS) (u : uio) : Prop := mk_write_pre {
  wp_ok : ok s;
  wp_vnode : is_Some (sfs_vnodes s !! x);
  wp_request : file_request s u;
  wp_rw : uio_rw u = UIO_WRITE
}.

Lemma request_data (s s' : SS) u k : file_request s u -> changes_only (scratch (buffer s)) (sfs_mem s) (sfs_mem s') ->
  load (sfs_mem s') (take k (uio_addrs u)) = load (sfs_mem s) (take k (uio_addrs u)).
Proof.
  intros Hq Hch. apply (load_kept _ _ _ _ Hch). intros a Ha%elem_of_take_1 Hs. apply (fq_apart _ _ Hq a Ha). by apply scratch_static.
Qed.

Lemma request_zlen (s : SS) m u k : file_request s u -> 0 <= k <= uio_resid u -> zlen (load m (take (Z.to_nat k) (uio_addrs u))) = k.
Proof. clear reserved accessible curas. intros Hq Hk. unfold zlen. rewrite length_load, length_take. pose proof (request_length _ _ Hq). lia. Qed.

Lemma write_done_none x s u s' : file_request s u -> evolves reserved s s' -> write_done x s u 0 s' u.
Proof.
  intros Hq [Ho Hf Hm Hs Hr]. constructor; try done; [eapply advanced_refl, Hq|by apply same_write_files].
Qed.

Lemma write_done_trans x s u k1 s1 u1 k2 s2 u2 :
  file_request s u -> 0 <= k1 -> 0 <= k2 -> k1 + k2 <= uio_resid u ->
  write_done x s u k1 s1 u1 -> write_done x s1 u1 k2 s2 u2 -> write_done x s u (k1 + k2) s2 u2.
Proof.
  intros Hq Hk1 Hk2 Hk [Ho1 Hf1 Ha1 Hm1 Hw1 Hb1 Hr1] [Ho2 Hf2 Ha2 Hm2 Hw2 Hb2 Hr2]. pose proof (ad_addrs _ _ _ Ha1 Hk1) as E.
  rewrite (fr_buffer _ _ Hf1), E in *. rewrite (ad_offset _ _ _ Ha1) in Hw2, Hb2.
  constructor; [done|by eapply frame_trans|by apply (advanced_trans u k1 u1)|by eapply changes_only_trans| |lia|intros b Hb; by rewrite Hr2, Hr1].
  rewrite Z2Nat.inj_add, <- take_take_drop, load_app by done.
  change (@id Z) with (@id Z ∘ @id Z). eapply write_files_trans; [exact Hw1|].
  replace (zlen (load (sfs_mem s) (take (Z.to_nat k1) (uio_addrs u)))) with k1 by (by rewrite (request_zlen s) by (done || lia)).
  replace (load (sfs_mem s) (take (Z.to_nat k2) (drop (Z.to_nat k1) (uio_addrs u))))
    with (load (sfs_mem s1) (take (Z.to_nat k2) (drop (Z.to_nat k1) (uio_addrs u)))); [done|].
  apply (load_kept _ _ _ _ Hm1). intros a Ha%elem_of_take_1%elem_of_drop_1 Hs. apply (fq_apart _ _ Hq a Ha). by apply scratch_static.
Qed.

Lemma write_files_vnode x off data f (s s' : SS) : write_files x off data f (sec s) (inodes s) (sec s') (inodes s') ->
  is_Some (sfs_vnodes s !! x) -> is_Some (sfs_vnodes s' !! x).
Proof.
  intros H [v Hv]. specialize (H x). unfold inodes in H. rewrite !lookup_fmap, Hv in H. cbn in H. by destruct (sfs_vnodes s' !! x).
Qed.

(** The block of a write: found or allocated, or the write ends here. *)
Lemma bmap_for_write x s u : write_pre x s u ->
  exists r b s1, sfs_bmap x (u32 (Z.quot (uio_offset u) SFS_BLOCKSIZE)) true s = inr ((r, b), s1) /\ evolves reserved s s1 /\
    write_result r s1 u /\ (r = ENOSPC -> slot_is s x (uio_offset u / SFS_BLOCKSIZE) 0) /\
    (r = 0 -> exists v, sfs_vnodes s1 !! x = Some v /\ slot (sec s1) (sv_i v) (uio_offset u / SFS_BLOCKSIZE) = b /\ b <> 0 /\
       0 <= uio_offset u / SFS_BLOCKSIZE < SFS_MAXBLOCKS /\ 0 <= b < sb_nblocks s1 /\ sb_nblocks s1 <= 2^23).
Proof. clear accessible curas.
  intros [Hok [v Hv] Hq Hrw]. pose proof (fq_offset _ _ Hq). pose proof (fq_small _ _ Hq).
  destruct (ku_ok _ _ (fq_kernel _ _ Hq)) as [_ Hr _ _].
  destruct (block_number (uio_offset u) (uio_offset u mod SFS_BLOCKSIZE)) as (Eb & Hu32 & _); [lia|done|]. rewrite Eb.
  destruct (sfs_bmap_run reserved s x v _ true Hok Hv Hu32) as (r & b & s1 & Hrun & [Hev _ Hres Hhole]).
  exists r, b, s1. split_and!; [done|done| |exact Hhole|].
  - destruct Hres as [(-> & _)|[(-> & _ & _ & Hf)|(-> & Hbig)]]; [by left|right; by left|right; right]. split; [done|].
    unfold SFS_MAXSIZE, SFS_BLOCKSIZE in *. lia.
  - intros ->. destruct Hres as [(_ & Hi & (v1 & Hv1 & Hs1) & Hb)|[([=] & _)|([=] & _)]]. exists v1. pose proof (ev_ok _ _ _ Hev) as Hok1.
    assert (0 <= uio_offset u / SFS_BLOCKSIZE < SFS_MAXBLOCKS) as Hi' by (unfold is_u32 in Hu32; lia). specialize (Hb eq_refl).
    destruct (slot_marked reserved s1 x v1 _ Hok1 Hv1 Hi') as [Hbr _]; [by rewrite Hs1|]. rewrite Hs1 in Hbr.
    split_and!; try done; try lia. apply Hok1.
Qed.

(** What is left after the block was found: the sector is replaced. *)
Lemma sector_replaced x s u k s2 b m' d' u' v :
  write_pre x s u -> evolves reserved s s2 -> sfs_vnodes s2 !! x = Some v ->
  slot (sec s2) (sv_i v) (uio_offset u / SFS_BLOCKSIZE) = b -> b <> 0 -> 0 <= uio_offset u / SFS_BLOCKSIZE < SFS_MAXBLOCKS ->
  0 <= k <= uio_resid u -> uio_offset u mod SFS_BLOCKSIZE + k <= SFS_BLOCKSIZE -> advanced u k u' ->
  changes_only (scratch (buffer s2)) (sfs_mem s2) m' -> same_device (sfs_device s2) d' ->
  (forall c, c <> b -> dv_sector d' c = sec s2 c) ->
  (forall o, 0 <= o < SFS_BLOCKSIZE -> nth (Z.to_nat o) (dv_sector d' b) 0 =
     overwritten (fun q => nth (Z.to_nat q) (sec s2 b) 0) (uio_offset u mod SFS_BLOCKSIZE) (load (sfs_mem s) (take (Z.to_nat k) (uio_addrs u))) o) ->
  write_done x s u k (set_io m' d' s2) u'.
Proof. clear accessible curas.
  intros [Hok _ Hq Hrw] Hev Hv Hsl Hb0 Hi Hk Hfit Hadv Hm Hd Hsec Hb. pose proof (fr_buffer _ _ (ev_frame _ _ _ Hev)) as Ebuf.
  pose proof (ev_ok _ _ _ Hev) as Hok2. set (data := load (sfs_mem s) (take (Z.to_nat k) (uio_addrs u))) in *.
  assert (zlen data = k) as Ek by (by eapply request_zlen).
  assert (SFS_BLOCKSIZE * (uio_offset u / SFS_BLOCKSIZE) + uio_offset u mod SFS_BLOCKSIZE = uio_offset u) as Eoff by (unfold SFS_BLOCKSIZE; lia).
  assert (0 <= uio_offset u mod SFS_BLOCKSIZE) as Hmod by (unfold SFS_BLOCKSIZE; lia).
  destruct (block_written s2 x v _ b (uio_offset u mod SFS_BLOCKSIZE) data (dv_sector d') Hok2 Hv Hi Hsl Hb0) as [Hbl Hw]; [lia|lia|done|done|].
  destruct (ok_io reserved s2 m' d' Hok2) as [Hok' Hfr']; [eapply scratch_keeps; [apply Hok2|exact Hm]|done|done|].
  constructor.
  - done.
  - eapply frame_trans; [apply Hev|done].
  - done.
  - rewrite Ebuf in Hm. eapply changes_only_trans; [apply Hev|exact Hm].
  - rewrite Eoff in Hw. pose proof (same_write_files x (uio_offset u) _ _ _ _ (ev_files _ _ _ Hev)) as Hw0.
    change (@id Z) with (@id Z ∘ @id Z). fold data. rewrite <- (app_nil_l data). eapply write_files_trans; [exact Hw0|]. by rewrite Z.add_0_r.
  - intros _. unfold SFS_MAXSIZE, SFS_BLOCKSIZE in *. lia.
  - intros c Hc. rewrite <- (ev_reserved _ _ _ Hev c Hc). apply Hsec. intros ->.
    assert (KSlot x (uio_offset u / SFS_BLOCKSIZE) = KOther b) as [=]. apply (reserved_apart reserved s2); [done| |done].
    exists (sv_i v). split_and!; [by apply inodes_lookup|lia|lia|done|done].
Qed.

(** A block is read into an area, a part of it replaced and the area written
    back: [u'] is what becomes of the request. *)
Lemma read_modify_write x s u k u' s1 b v ar :
  write_pre x s u -> evolves reserved s s1 -> sfs_vnodes s1 !! x = Some v ->
  slot (sec s1) (sv_i v) (uio_offset u / SFS_BLOCKSIZE) = b -> b <> 0 -> 0 <= uio_offset u / SFS_BLOCKSIZE < SFS_MAXBLOCKS -> 0 <= b < sb_nblocks s1 ->
  0 <= k <= uio_resid u -> uio_offset u mod SFS_BLOCKSIZE + k <= SFS_BLOCKSIZE -> advanced u k u' -> ar <> clear_zeros -> ar <> uio_zeros ->
  let data := load (sfs_mem s) (take (Z.to_nat k) (uio_addrs u)) in
  exists s2, sfs_readblock b (addr ar) SFS_BLOCKSIZE s1 = inr (0, s2) /\ load (sfs_mem s2) (take (Z.to_nat k) (uio_addrs u)) = data /\
  exists s3, sfs_writeblock b (addr ar) SFS_BLOCKSIZE (set_mem (store (span (addr ar + uio_offset u mod SFS_BLOCKSIZE) k) data (sfs_mem s2)) s2) = inr (0, s3) /\
    write_done x s u k s3 u'.
Proof. clear accessible curas.
  intros Hpre Hev1 Hv Hsl Hb0 Hi Hbr Hlen Hfit Hadv Har1 Har2 data. pose proof Hpre as [Hok Hv0 Hq Hrw]. pose proof (ev_ok _ _ _ Hev1) as Hok1.
  assert (0 <= uio_offset u mod SFS_BLOCKSIZE) as Hs0 by (unfold SFS_BLOCKSIZE in *; lia).
  destruct (sfs_readblock_run reserved s1 b ar Hok1 Hbr) as (m2 & d2 & Hread & Hld & Hch2 & Hd2 & Hs2); [done..|].
  pose proof (read_evolves reserved s1 m2 d2 Hok1 Hch2 Hd2 Hs2) as Hev2. pose proof (evolves_trans _ _ _ _ Hev1 Hev2) as Hev.
  exists (set_io m2 d2 s1). split; [exact Hread|]. split; [exact (request_data s _ u _ Hq (ev_mem _ _ _ Hev))|]. set (s2 := set_io m2 d2 s1) in *.
  assert (zlen data = k) as El by (by eapply request_zlen).
  set (m3 := store _ data (sfs_mem s2)).
  assert (changes_only (scratch (buffer s2)) (sfs_mem s2) m3) as Hch3.
  { eapply changes_weaken; [|apply changes_store]. intros a Ha. right. exists ar. split_and!; [done|done|]. cbn in Ha. rewrite elem_span in *. lia. }
  pose proof (mem_evolves reserved s2 m3 (ev_ok _ _ _ Hev2) Hch3) as Hev3.
  destruct (sfs_writeblock_run reserved (set_mem m3 s2) b ar (ev_ok _ _ _ Hev3)) as (m4 & d4 & Hwr & Hch4 & Hd4 & Hs4); [exact Hbr|].
  exists (set_io m4 d4 (set_mem m3 s2)). split; [exact Hwr|].
  assert (forall c, sec (set_mem m3 s2) c = sec s1 c) as Hsec by (intros c; apply Hs2).
  apply (sector_replaced x s u k (set_mem m3 s2) b m4 d4 u' v); try done.
  - by eapply evolves_trans.
  - by rewrite (slot_frame (sec s1) (sec (set_mem m3 s2)) (sv_i v) _ (fun _ => Hsec _)).
  - eapply changes_weaken; [|exact Hch4]. by left.
  - intros c Hc. rewrite Hs4, decide_False by done. done.
  - intros o Ho. rewrite Hs4, decide_True by done. cbn [sfs_mem set_mem].
    transitivity (overwritten (fun q => nth (Z.to_nat q) (sec s1 b) 0) (uio_offset u mod SFS_BLOCKSIZE) data o).
    + rewrite <- Hld. unfold m3. rewrite <- El at 1. by apply nth_load_store.
    + by rewrite Hsec.
Qed.

Lemma partialio_write x s u skip len :
  write_pre x s u -> skip = uio_offset u mod SFS_BLOCKSIZE -> 0 <= len <= uio_resid u -> skip + len <= SFS_BLOCKSIZE ->
  moves (write_done x) write_result (sfs_partialio accessible curas x u skip len) s u len.
Proof.
  intros Hpre Hskip Hlen Hfit. pose proof Hpre as [Hok Hv0 Hq Hrw].
  assert (0 <= skip < SFS_BLOCKSIZE) as Hs0 by (unfold SFS_BLOCKSIZE in *; lia).
  destruct (bmap_for_write x s u Hpre) as (r & b & s1 & Hb & Hev1 & Hwhy & _ & Hfound). unfold moves, sfs_partialio. rewrite Hrw.
  rewrite srun_assert by (rewrite u32_small by (unfold is_u32, SFS_BLOCKSIZE in *; lia); by apply Z.leb_le).
  rewrite srun_get, srun_assert by (apply Z.ltb_lt, Hok). cbn [is_write]. rewrite (srun_call _ _ _ _ _ Hb).
  destruct (Z.eqb_spec r 0) as [->|Hr]; cbn [negb].
  2: { exists r, 0, s1, u. split_and!; [done|by apply write_done_none|lia|lia|done|done]. }
  destruct (Hfound eq_refl) as (v & Hv & Hsl & Hb0 & Hi & Hbr & Hns). rewrite (proj2 (Z.eqb_neq b 0)) by done.
  assert (forall s2 : SS, exists u', on_memory (uiomove accessible curas (addr iobuf + skip) len u) s2 =
    inr ((0, u'), set_mem (moved UIO_WRITE (addr iobuf + skip) (uio_addrs u) len (sfs_mem s2)) s2) /\ advanced u len u') as Hmove.
  { intros s2. rewrite <- Hrw. apply run_uiomove; [eapply kernel_part; [apply Hq|lia..]|done|eapply request_apart; [done|lia|lia]]. }
  destruct (sfs_readblock_run reserved s1 b iobuf (ev_ok _ _ _ Hev1) Hbr) as (m2 & d2 & Hread & _); [done..|].
  destruct (Hmove (set_io m2 d2 s1)) as (u' & Hmv & Hadv).
  destruct (read_modify_write x s u len u' s1 b v iobuf) as (s2 & Hread' & Hdata & s3 & Hwr & Hd); [done..|lia|done|done|done|].
  assert (s2 = set_io m2 d2 s1) as -> by congruence. rewrite (srun_call _ _ _ _ _ Hread'). cbn [negb Z.eqb].
  rewrite (srun_call _ _ _ _ _ Hmv). cbn [fst snd negb Z.eqb]. unfold moved. rewrite Hdata, Hskip.
  rewrite (srun_call _ _ _ _ _ Hwr). exists 0, len, s3, u'. split_and!; [done|done|lia|lia|done|by left].
Qed.

Lemma blockio_write x s u :
  write_pre x s u -> uio_offset u mod SFS_BLOCKSIZE = 0 -> SFS_BLOCKSIZE <= uio_resid u ->
  moves (write_done x) write_result (sfs_blockio accessible curas x u) s u SFS_BLOCKSIZE.
Proof.
  intros Hpre Hal Hr. pose proof Hpre as [Hok Hv0 Hq Hrw]. assert (0 < SFS_BLOCKSIZE) as Hpos by done.
  destruct (bmap_for_write x s u Hpre) as (r & b & s1 & Hb & Hev1 & Hwhy & _ & Hfound). unfold moves, sfs_blockio. rewrite Hrw. cbn [is_write].
  rewrite (srun_call _ _ _ _ _ Hb). destruct (Z.eqb_spec r 0) as [->|Hr0]; cbn [negb].
  2: { exists r, 0, s1, u. split_and!; [done|by apply write_done_none|lia|lia|done|done]. }
  destruct (Hfound eq_refl) as (v & Hv & Hsl & Hb0 & Hi & Hbr & Hns). pose proof (ev_ok _ _ _ Hev1) as Hok1.
  rewrite (proj2 (Z.eqb_neq b 0)), srun_assert by (done || by apply Z.leb_le).
  pose proof (device_request_ok s u b Hq Hr ltac:(lia)) as Hreq. rewrite Hrw in Hreq.
  destruct (sfs_rwblock_write s1 b (device_request b u) (ok_io_ready _ _ Hok1) Hbr Hreq) as (u1 & m' & d' & Hrun & Hadv & Hch & Hd & Hs).
  { rewrite device_request_addrs by done. rewrite (fr_buffer _ _ (ev_frame _ _ _ Hev1)). intros a Ha Hin%elem_of_take_1.
    apply (fq_apart _ _ Hq a Hin). by left. }
  rewrite device_request_addrs in Hs by done. rewrite (request_data s s1 u _ Hq (ev_mem _ _ _ Hev1)) in Hs.
  change (set_resid SFS_BLOCKSIZE (set_offset (u32 (b * SFS_BLOCKSIZE)) u)) with (device_request b u).
  rewrite (srun_call _ _ _ _ _ Hrun). exists 0, SFS_BLOCKSIZE, (set_io m' d' s1), (restored b u u1). split_and!; [done| |lia|lia|done|by left].
  apply (sector_replaced x s u SFS_BLOCKSIZE s1 b m' d' _ v); try done; try lia.
  - by eapply restored_advanced.
  - eapply changes_weaken; [|exact Hch]. by left.
  - intros c Hc. rewrite Hs, decide_False by done. done.
  - intros o Ho. rewrite Hs, decide_True, Hal by done. unfold overwritten. rewrite decide_True, Z.sub_0_r; [done|].
    rewrite (request_zlen s) by (done || lia). lia.
Qed.

(** ** Any range *)

Lemma transfer_writes x s u : write_pre x s u -> moves (write_done x) write_result (sfs_io_transfer accessible curas x u) s u (uio_resid u).
Proof.
  intros Hpre. apply (transfer_moves accessible curas x (write_pre x)); [..|exact Hpre]; clear s u Hpre.
  - intros s u [Hok Hx Hq Hrw]. pose proof (fq_offset _ _ Hq). pose proof (fq_small _ _ Hq).
    destruct (ku_ok _ _ (fq_kernel _ _ Hq)) as [_ Hr Hs _]. lia.
  - intros s u k s' u' Hd. apply Hd.
  - intros s u Hp. apply write_done_none; [apply Hp|apply evolves_refl, Hp].
  - intros s u k1 s1 u1 k2 s2 u2 Hp. apply write_done_trans. apply Hp.
  - intros s u k s' u' [Hok Hx Hq Hrw] Hk Hd. constructor.
    + apply Hd.
    + eapply write_files_vnode; [apply Hd|done].
    + eapply file_request_next; [done|apply (fr_buffer _ _ (wd_frame _ _ _ _ _ _ Hd))|done|apply Hd].
    + by rewrite (ad_rw _ _ _ (wd_advanced _ _ _ _ _ _ Hd)).
  - intros s u _. by left.
  - intros s u skip len Hp Hs Hl _ Hf. by apply partialio_write.
  - intros s u Hp Hal Hr. by apply blockio_write.
Qed.

(** The size of an inode, or its link count, is not about its blocks. *)
Definition same_blocks (n n' : sfs_dinode) : Prop := sfi_direct n' = sfi_direct n /\ sfi_indirect n' = sfi_indirect n.

Lemma slot_same_blocks f n n' i : same_blocks n n' -> slot f n' i = slot f n i.
Proof. clear reserved accessible curas. intros [E1 E2]. unfold slot. by rewrite E1, E2. Qed.

Lemma slot_set_size f n z i : slot f (set_size z n) i = slot f n i.
Proof. done. Qed.

Lemma ok_put_same s x v f : ok s -> sfs_vnodes s !! x = Some v -> same_blocks (sv_i v) (f (sv_i v)) -> ok (put x f v s) /\ frame s (put x f v s).
Proof.
  intros Hok Hv Hsb. apply ok_put; [done|]. pose proof (inodes_lookup s x v Hv) as Hn. destruct (so_blocks _ _ Hok) as [Hd Hm Hu].
  assert (forall k b, uses (sec s) reserved (<[x := f (sv_i v)]> (inodes s)) k b -> uses (sec s) reserved (inodes s) k b) as Hus.
  { intros [y i|y|c] b; cbn; [| |done]; (destruct (decide (y = x)) as [->|Hne]; [rewrite lookup_insert_eq|by rewrite lookup_insert_ne]).
    - intros (n & [= <-] & Hi & Hs & Hb). rewrite (slot_same_blocks _ _ _ i Hsb) in Hs. by exists (sv_i v).
    - intros (n & [= <-] & Hs & Hb). rewrite (proj2 Hsb) in Hs. by exists (sv_i v). }
  constructor.
  - intros y n. destruct (decide (y = x)) as [->|Hne]; [rewrite lookup_insert_eq; intros [= <-]; rewrite (proj1 Hsb); by apply (Hd x (sv_i v))|rewrite lookup_insert_ne by done; apply Hd].
  - intros k b Hk%Hus. by eapply Hm.
  - intros k k' b Hk%Hus Hk'%Hus. by eapply Hu.
Qed.

Lemma ok_set_size s x v z : ok s -> sfs_vnodes s !! x = Some v -> ok (put x (set_size z) v s) /\ frame s (put x (set_size z) v s).
Proof. intros Hok Hv. by apply ok_put_same. Qed.

(** The size after [k] bytes written at [off]. *)
Definition grown (off k size : Z) : Z := if decide (0 < k) then Z.max size (off + k) else size.

Record written (x : positive) (s : SS) (u : uio) (k : Z) (s' : SS) (u' : uio) : Prop := mk_written {
  wr_ok : ok s';
  wr_frame : frame s s';
  wr_advanced : advanced u k u';
  wr_mem : changes_only (scratch (buffer s)) (sfs_mem s) (sfs_mem s');
  wr_files : write_files x (uio_offset u) (load (sfs_mem s) (take (Z.to_nat k) (uio_addrs u))) (grown (uio_offset u) k) (sec s) (inodes s) (sec s') (inodes s');
  wr_fits : 0 < k -> uio_offset u + k <= SFS_MAXSIZE;
  wr_reserved : forall b, reserved b -> sec s' b = sec s b
}.

(** The size is put into the inode at the end. *)
Lemma size_written x s u k s1 u1 v1 z :
  write_done x s u k s1 u1 -> sfs_vnodes s1 !! x = Some v1 -> z = grown (uio_offset u) k (sfi_size (sv_i v1)) ->
  written x s u k (put x (set_size z) v1 s1) u1.
Proof.
  intros [Ho Hf Ha Hm Hw Hb Hr] Hv ->. destruct (ok_set_size s1 x v1 (grown (uio_offset u) k (sfi_size (sv_i v1))) Ho Hv) as [Ho' Hf'].
  constructor; try done; [by eapply frame_trans|]. intros y. specialize (Hw y). rewrite inodes_put. change (sec (put _ _ _ s1)) with (sec s1).
  destruct (decide (y = x)) as [->|Hne].
  - rewrite (inodes_lookup s1 x v1 Hv) in Hw. rewrite lookup_insert_eq. destruct (inodes s !! x) as [n|]; [|done].
    destruct Hw as [E Hw]. split; [cbn; by rewrite E|]. intros p Hp. rewrite <- (Hw p Hp). done.
  - rewrite lookup_insert_ne by done. done.
Qed.

(** Or it was large enough. *)
Lemma size_kept x s u k s1 u1 v1 :
  write_done x s u k s1 u1 -> sfs_vnodes s1 !! x = Some v1 -> (0 < k -> uio_offset u + k <= sfi_size (sv_i v1)) -> written x s u k s1 u1.
Proof. clear accessible curas.
  intros [Ho Hf Ha Hm Hw Hb Hr] Hv Hle. constructor; try done.
  intros y. specialize (Hw y). destruct (inodes s !! y) as [n|] eqn:Hy, (inodes s1 !! y) as [n1|] eqn:Hy1; try done.
  destruct Hw as [Es Hw]. split; [|done]. rewrite Es. case_decide; [|done]. subst y. rewrite (inodes_lookup s1 x v1 Hv) in Hy1. injection Hy1 as <-.
  unfold grown, id in *. case_decide; [|done]. specialize (Hle ltac:(done)). lia.
Qed.

Lemma sfs_io_writes x s u : write_pre x s u ->
  exists r k s' u', sfs_io accessible curas x u s = inr ((r, u'), s') /\ written x s u k s' u' /\ 0 <= k <= uio_resid u /\
    (r = 0 -> k = uio_resid u) /\ write_result r s' u'.
Proof.
  intros Hpre. pose proof Hpre as [Hok Hv Hq Hrw]. destruct (ku_ok _ _ (fq_kernel _ _ Hq)) as [_ Hr Hsm _]. pose proof (fq_offset _ _ Hq) as Hoff.
  destruct (transfer_writes x s u Hpre) as (r & k & s1 & u1 & Hrun & Hd & Hk & Hk0 & Hwhy).
  destruct (write_files_vnode _ _ _ _ _ _ (wd_files _ _ _ _ _ _ Hd) Hv) as [v1 Hv1]. pose proof (wd_advanced _ _ _ _ _ _ Hd) as Hadv.
  assert (u32 (uio_resid u1 + 0) = uio_resid u1) as Er by (rewrite Z.add_0_r, (ad_resid _ _ _ Hadv); apply u32_small; unfold is_u32; lia).
  assert (set_resid (uio_resid u1) u1 = u1) as Eu by (by destruct u1).
  unfold sfs_io, sfs_io_out. rewrite Hrw, (srun_call _ _ _ _ _ Hrun). cbn [fst snd].
  rewrite (get_sv_run x v1) by done. rewrite (ad_rw _ _ _ Hadv), Hrw. cbn [is_write]. rewrite andb_true_r, Er, Eu.
  destruct (negb (uio_resid u1 =? uio_resid u) && (sfi_size (sv_i v1) <? uio_offset u1)) eqn:E.
  - rewrite (srun_call _ _ _ _ _ (put_inode_run x _ v1 s1 Hv1)). exists r, k, (put x (set_size (u32 (uio_offset u1))) v1 s1), u1.
    split_and!; [done| |lia|lia|done|exact Hwhy]. apply size_written; [done..|]. rewrite (ad_offset _ _ _ Hadv), (ad_resid _ _ _ Hadv) in *.
    apply andb_true_iff in E as [E1%negb_true_iff%Z.eqb_neq E2%Z.ltb_lt]. pose proof (wd_fits _ _ _ _ _ _ Hd ltac:(lia)) as Hfit.
    rewrite u32_small by (unfold is_u32, SFS_MAXSIZE, SFS_BLOCKSIZE, SFS_MAXBLOCKS, SFS_NDIRECT, SFS_DBPERIDB in *; lia).
    unfold grown. rewrite decide_True by lia. lia.
  - rewrite srun_ret. exists r, k, s1, u1. split_and!; [done| |lia|lia|done|done]. eapply size_kept; [exact Hd|exact Hv1|]. intros Hk1.
    rewrite (ad_offset _ _ _ Hadv), (ad_resid _ _ _ Hadv) in E.
    apply andb_false_iff in E as [E%negb_false_iff%Z.eqb_eq|E%Z.ltb_ge]; lia.
Qed.
End write.
