(* ===== verification/SfsTrunc.v ===== *)
(** * SFS: truncating files

    [sfs_itrunc] gives back the blocks past the new end of a file and clears
    their entries.  Of the blocks in the indirect block it keeps one too many:
    the comparison is [blocklen < baseblock + j] where the one for direct blocks
    is [i >= blocklen]. *)

From S2P Require Import Prelude State Monad StopState Bitmap Uio Device Sfs SfsSpec SfsBlock SfsBmap SfsRead SfsIo SfsWrite.

#[local] Open Scope Z_scope.
#[local] Open Scope sm_scope.

(** The blocks that stay. *)
Definition stays (blocklen i : Z) : bool := if i <? SFS_NDIRECT then i <? blocklen else i <=? blocklen.

Lemma release_ok {K} `{HK : Countable K} f g (ino ino' : gmap K sfs_dinode) reserved (mk mk' : Z -> Prop) :
  blocks_ok f reserved ino mk -> (forall x n, ino' !! x = Some n -> zlen (sfi_direct n) = SFS_NDIRECT) ->
  (forall k c, uses g reserved ino' k c -> uses f reserved ino k c) -> (forall k c, uses g reserved ino' k c -> mk c -> mk' c) ->
  blocks_ok g reserved ino' mk'.
Proof.
  intros Hok Hd Hu Hm. constructor; [done| |].
  - intros k c Hk. apply (Hm k c Hk). by eapply bo_marked, Hu.
  - intros k k' c Hk%Hu Hk'%Hu. by eapply bo_unique.
Qed.

Section trunc.
Context {D : Type} {DV : Device D} {BD : BlockDevice D} {LY : Layout}.
Context (reserved : Z -> Prop).

Notation SS := (sfs_fs D).
Notation ok := (sfs_ok reserved).
Notation buffer s := (dv_buffer (sfs_device s)).

(** ** Freeing a block *)

Definition freed (map' : bitmap) (s : SS) : SS := set_freemapdirty true (set_freemap map' s).

Lemma sfs_bfree_run (s : SS) b : bitmap_wf (sfs_freemap s) -> 0 <= b < nbits (sfs_freemap s) -> bit (sfs_freemap s) b = true ->
  exists map', sfs_bfree b s = inr (tt, freed map' s) /\ bit_cleared_at (sfs_freemap s) map' b.
Proof.
  intros Hwf Hb Hbit. destruct (bitmap_unmark_ok _ b Hwf Hb Hbit) as (map' & Hun & Hcl). exists map'. split; [|done].
  unfold sfs_bfree. rewrite srun_get, Hun, run_of_sum. done.
Qed.

(** Blocks were taken out of the map: of those in [gone] no use is left. *)
Lemma ok_freed s s' (gone : Z -> Prop) :
  ok s -> frame s s' -> same_device (sfs_device s) (sfs_device s') -> keeps_zeros (sfs_mem s) (sfs_mem s') ->
  bitmap_wf (sfs_freemap s') -> nbits (sfs_freemap s') = nbits (sfs_freemap s) ->
  (forall c, 0 <= c -> bit (sfs_freemap s') c = true <-> bit (sfs_freemap s) c = true /\ ~ gone c) ->
  (forall c, gone c -> 0 < c < sb_nblocks s) ->
  (forall x n, inodes s' !! x = Some n -> zlen (sfi_direct n) = SFS_NDIRECT) ->
  (forall k c, uses (sec s') reserved (inodes s') k c -> uses (sec s) reserved (inodes s) k c /\ ~ gone c) -> ok s'.
Proof.
  intros Hok [Hn Hdp Hbf] (Hr & Hb & _) Hm Hwf Hnb Hbits Hgone Hd Hu. pose proof (so_zeros _ _ Hok) as Hz. pose proof (so_zeros16 _ _ Hok) as Hz16.
  assert (blocks_ok (sec s') reserved (inodes s') (marked s')) as Hbl.
  { apply (release_ok (sec s) _ (inodes s) _ _ (marked s)); [apply Hok|done|intros k c Hk; by apply Hu in Hk as []|].
    intros k c [_ Hk]%Hu [Hc Hbit]. split; [by rewrite Hn|]. apply Hbits; [lia|done]. }
  constructor; rewrite ?Hn, ?Hb, ?Hdp, ?Hbf, ?Hnb; try done; try apply Hok.
  - intros b Hb'. pose proof (so_disk _ _ Hok). apply Hbits; [lia|]. split; [by apply (so_beyond _ _ Hok)|]. intros Hg%Hgone. lia.
  - apply Hbits; [lia|]. split; [apply (so_zero _ _ Hok)|]. intros Hg%Hgone. lia.
  - rewrite <- Hz. apply (load_kept _ _ _ _ Hm). intros a. cbn. tauto.
  - rewrite <- Hz16. apply (load_kept _ _ _ _ Hm). intros a. cbn. rewrite !elem_span. unfold SFS_BLOCKSIZE. lia.
Qed.

(** ** The direct blocks *)

Lemma cut_direct s x v i b :
  ok s -> sfs_vnodes s !! x = Some v -> zlookup (sfi_direct (sv_i v)) i = Some b -> b <> 0 ->
  exists map', (sfs_bfree b ;; put_inode x (set_direct i 0)) s = inr (tt, put x (set_direct i 0) v (freed map' s)) /\
    ok (put x (set_direct i 0) v (freed map' s)) /\ (forall c, marked (put x (set_direct i 0) v (freed map' s)) c <-> marked s c /\ c <> b).
Proof.
  intros Hok Hv Hi Hb. pose proof (inodes_lookup s x v Hv) as Hn. pose proof (zlookup_Some_range _ _ _ Hi) as Hr.
  pose proof (bo_direct _ _ _ _ (so_blocks _ _ Hok) x _ Hn) as Hlen. rewrite Hlen in Hr.
  assert (0 <= i < SFS_MAXBLOCKS) as Hi' by (unfold SFS_MAXBLOCKS, SFS_DBPERIDB; lia).
  assert (slot (sec s) (sv_i v) i = b) as Hs by (unfold slot; rewrite (proj2 (Z.ltb_lt i _)), Hi by lia; done).
  destruct (slot_marked reserved s x v i Hok Hv Hi') as [Hbr Hbit]; [by rewrite Hs|]. rewrite Hs in Hbr, Hbit.
  pose proof (so_mapsize _ _ Hok). destruct (sfs_bfree_run s b (so_map _ _ Hok) ltac:(lia) Hbit) as (map' & Hrun & Hnb & Hwf & Hbits).
  assert (forall c, 0 <= c -> bit map' c = true <-> bit (sfs_freemap s) c = true /\ c <> b) as Hbits'.
  { intros c Hc. rewrite Hbits by done. destruct (decide (c = b)) as [->|Hne]; [rewrite bool_decide_eq_true_2 by done|rewrite bool_decide_eq_false_2 by done]; cbn; intuition congruence. }
  exists map'. split_and!.
  - rewrite (srun_call _ _ _ _ _ Hrun). by apply put_inode_run.
  - apply (ok_freed s _ (fun c => c = b)); [done|done|by split_and!; [apply Hok|..]|by intros a Ha; destruct Ha|done|done|done|intros c ->; lia| |].
    + intros y n. rewrite inodes_put. destruct (decide (y = x)) as [->|Hne].
      * rewrite lookup_insert_eq. intros [= <-]. cbn. by rewrite zlen_zinsert.
      * rewrite lookup_insert_ne by done. apply (bo_direct _ _ _ _ (so_blocks _ _ Hok)).
    + change (sec (put _ _ _ _)) with (sec s). rewrite inodes_put. change (inodes (freed map' s)) with (inodes s). intros k c Hk.
      assert (uses (sec s) reserved (inodes s) k c /\ k <> KSlot x i) as [Hu Hne].
      { destruct k as [y j|y|c']; cbn in *; [| |by split].
        - destruct (decide (y = x)) as [->|Hne]; [|rewrite lookup_insert_ne in Hk by done; split; [done|congruence]].
          rewrite lookup_insert_eq in Hk. destruct Hk as (n & [= <-] & Hj & Hsl & Hc). destruct (decide (j = i)) as [->|Hji].
          + unfold slot in Hsl. cbn in Hsl. rewrite (proj2 (Z.ltb_lt i _)), zlookup_zinsert_eq in Hsl by lia. by subst c.
          + split; [|congruence]. exists (sv_i v). split_and!; try done; try lia. rewrite <- Hsl. unfold slot. cbn. by rewrite zlookup_zinsert_ne by done.
        - split; [|done]. destruct (decide (y = x)) as [->|Hne]; [rewrite lookup_insert_eq in Hk|by rewrite lookup_insert_ne in Hk].
          destruct Hk as (n & [= <-] & Hc). by exists (sv_i v). }
      split; [done|]. intros ->. apply Hne. eapply (bo_unique _ _ _ _ (so_blocks _ _ Hok)); [exact Hu|]. by exists (sv_i v).
  - intros c. unfold marked. cbn. split; [intros [Hc Hb']; apply Hbits' in Hb'; [tauto|lia]|intros [[Hc Hb'] Hne]; split; [done|apply Hbits'; [lia|done]]].
Qed.

(** The direct blocks from [i] on, [n] of them. *)
Record cut_from (x : positive) (bl i n : Z) (s s' : SS) : Prop := mk_cut_from {
  cf_ok : ok s';
  cf_frame : frame s s';
  cf_mem : sfs_mem s' = sfs_mem s;
  cf_device : sfs_device s' = sfs_device s;
  cf_others : forall y, y <> x -> sfs_vnodes s' !! y = sfs_vnodes s !! y;
  cf_inode : forall v, sfs_vnodes s !! x = Some v -> exists v', sfs_vnodes s' !! x = Some v' /\
    sfi_size (sv_i v') = sfi_size (sv_i v) /\ sfi_indirect (sv_i v') = sfi_indirect (sv_i v) /\
    forall k, 0 <= k < SFS_NDIRECT -> zlookup (sfi_direct (sv_i v')) k = if decide (i <= k < i + n /\ bl <= k) then Some 0 else zlookup (sfi_direct (sv_i v)) k;
  cf_marked : forall v c, sfs_vnodes s !! x = Some v -> marked s' c <-> marked s c /\
    ~ (exists k, i <= k < i + n /\ bl <= k /\ zlookup (sfi_direct (sv_i v)) k = Some c /\ c <> 0)
}.

Lemma itrunc_direct_run x bl n : forall i s v,
  ok s -> sfs_vnodes s !! x = Some v -> 0 <= i -> i + Z.of_nat n <= SFS_NDIRECT ->
  exists s', itrunc_direct n x i bl s = inr (tt, s') /\ cut_from x bl i (Z.of_nat n) s s'.
Proof.
  induction n as [|n IH]; intros i s v Hok Hv Hi Hn; cbn [itrunc_direct].
  { exists s. split; [done|]. constructor; try done.
    - intros w Hw. exists w. split_and!; try done. intros k Hk. rewrite decide_False by lia. done.
    - intros w c Hw. split; [intros Hm; split; [done|]; intros (k & Hk & _); lia|tauto]. }
  pose proof (bo_direct _ _ _ _ (so_blocks _ _ Hok) x _ (inodes_lookup s x v Hv)) as Hlen.
  destruct (zlookup_in_range (sfi_direct (sv_i v)) i) as [b Hb]; [lia|].
  rewrite (get_sv_run x v) by done. rewrite (srun_deref _ _ b) by done.
  destruct ((bl <=? i) && negb (b =? 0)) eqn:E.
  - apply andb_true_iff in E as [E1%Z.leb_le E2%negb_true_iff%Z.eqb_neq].
    destruct (cut_direct s x v i b Hok Hv Hb E2) as (map' & Hrun & Hok1 & Hm1). rewrite (srun_call _ _ _ _ _ Hrun).
    set (s1 := put x (set_direct i 0) v (freed map' s)) in *. set (v1 := mk_sfs_vnode (set_direct i 0 (sv_i v)) (sv_ino v) true).
    assert (sfs_vnodes s1 !! x = Some v1) as Hv1 by (cbn; by rewrite lookup_insert_eq).
    destruct (IH (i + 1) s1 v1 Hok1 Hv1 ltac:(lia) ltac:(lia)) as (s' & Hrun' & [Ho' Hf' Hmem' Hdev' Hoth' Hin' Hmk']).
    exists s'. split; [done|]. constructor; [done|by apply (frame_trans s s1)|done|done| | |].
    + intros y Hy. rewrite Hoth' by done. cbn. by rewrite lookup_insert_ne.
    + intros w Hw. assert (w = v) as -> by congruence. destruct (Hin' v1 Hv1) as (v' & Hv' & Hsz & Hind & Hd). exists v'. split_and!; try done.
      intros k Hk. rewrite Hd by done. cbn [v1 sv_i set_direct sfi_direct]. rewrite zlookup_zinsert by lia. repeat case_decide; (done || lia || by subst).
    + intros w c Hw. assert (w = v) as -> by congruence. rewrite (Hmk' v1 c Hv1), Hm1. cbn [v1 sv_i set_direct sfi_direct]. split.
      * intros [[Hm Hne] Hno]. split; [done|]. intros (k & Hk & Hbk & Hl & Hc). destruct (decide (k = i)) as [->|Hki]; [congruence|].
        apply Hno. exists k. rewrite zlookup_zinsert_ne by done. split_and!; (done || lia).
      * intros [Hm Hno]. split_and!; [done| |].
        -- intros ->. apply Hno. exists i. split_and!; (done || lia).
        -- intros (k & Hk & Hbk & Hl & Hc). apply Hno. exists k. rewrite zlookup_zinsert_ne in Hl by lia. split_and!; (done || lia).
  - rewrite srun_ret. destruct (IH (i + 1) s v Hok Hv ltac:(lia) ltac:(lia)) as (s' & Hrun' & [Ho' Hf' Hmem' Hdev' Hoth' Hin' Hmk']).
    assert (bl <= i -> b = 0) as Hb0 by (intros Hbl; apply andb_false_iff in E as [E%Z.leb_gt|E%negb_false_iff%Z.eqb_eq]; [lia|done]).
    exists s'. split; [done|]. constructor; try done.
    + intros w Hw. assert (w = v) as -> by congruence. destruct (Hin' v Hv) as (v' & Hv' & Hsz & Hind & Hd). exists v'. split_and!; try done.
      intros k Hk. rewrite Hd by done. repeat case_decide; try done; try lia. replace k with i by lia. rewrite Hb. f_equal. apply Hb0. lia.
    + intros w c Hw. assert (w = v) as -> by congruence. rewrite (Hmk' v c Hv). split; intros [Hm Hno]; (split; [done|]); intros (k & Hk & Hbk & Hl & Hc); apply Hno.
      * destruct (decide (k = i)) as [->|Hki]; [rewrite Hb in Hl; injection Hl as <-; by destruct Hc; apply Hb0|]. exists k. split_and!; (done || lia).
      * exists k. split_and!; (done || lia).
Qed.

(** ** The entries of the indirect block *)

Lemma word_at_set a j w m k : 0 <= j < SFS_DBPERIDB -> 0 <= k < SFS_DBPERIDB -> is_u32 w ->
  word_at a k (set_word a j w m) = if decide (k = j) then w else word_at a k m.
Proof. clear reserved. intros Hj Hk Hw. rewrite !(word_at_entry a k _ _ Hk eq_refl). by apply set_word_entry. Qed.

Notation W s k := (word_at (addr itrunc_idbuf) k (sfs_mem s)).

(** Entry [k] is dropped. *)
Definition drops (bl j : Z) (s : SS) (k : Z) : Prop := j <= k < SFS_DBPERIDB /\ bl < SFS_NDIRECT + k /\ W s k <> 0.

Record entries_cut (bl j : Z) (s s' : SS) : Prop := mk_entries_cut {
  ec_device : sfs_device s' = sfs_device s;
  ec_frame : frame s s';
  ec_vnodes : sfs_vnodes s' = sfs_vnodes s;
  ec_mem : changes_only (.∈ span (addr itrunc_idbuf) SFS_BLOCKSIZE) (sfs_mem s) (sfs_mem s');
  ec_words : forall k, 0 <= k < SFS_DBPERIDB -> W s' k = if decide (j <= k /\ bl < SFS_NDIRECT + k) then 0 else W s k;
  ec_wf : bitmap_wf (sfs_freemap s');
  ec_nbits : nbits (sfs_freemap s') = nbits (sfs_freemap s);
  ec_bits : forall c, 0 <= c -> bit (sfs_freemap s') c = true <-> bit (sfs_freemap s) c = true /\ ~ (exists k, drops bl j s k /\ W s k = c)
}.

(** The entries to drop are blocks in use, each once. *)
Definition droppable (bl j : Z) (s : SS) : Prop :=
  bitmap_wf (sfs_freemap s) /\
  (forall k, drops bl j s k -> 0 <= W s k < nbits (sfs_freemap s) /\ bit (sfs_freemap s) (W s k) = true) /\
  (forall k k', drops bl j s k -> drops bl j s k' -> W s k = W s k' -> k = k').

(** One entry is dropped. *)
Lemma drop_entry bl j s : 0 <= j < SFS_DBPERIDB -> droppable bl j s -> drops bl j s j ->
  exists s1, (sfs_bfree (W s j) ;; on_memory (smodify (set_word (addr itrunc_idbuf) j 0)) ;; sret true) s = inr (true, s1) /\
    droppable bl (j + 1) s1 /\ W s1 j = 0 /\ (forall k, drops bl (j + 1) s1 k <-> drops bl j s k /\ k <> j) /\
    (forall s', entries_cut bl (j + 1) s1 s' -> entries_cut bl j s s').
Proof.
  intros Hj (Hwf & Hin & Hdis) Hdrop. destruct (Hin j Hdrop) as [Hr Hbit].
  destruct (sfs_bfree_run s (W s j) Hwf Hr Hbit) as (map' & Hrun & Hnb & Hwf' & Hbits).
  set (s1 := set_mem (set_word (addr itrunc_idbuf) j 0 (sfs_mem s)) (freed map' s)). exists s1.
  assert (forall k, 0 <= k < SFS_DBPERIDB -> W s1 k = if decide (k = j) then 0 else W s k) as HW by (intros k Hk; by apply word_at_set).
  assert (forall k, drops bl (j + 1) s1 k <-> drops bl j s k /\ k <> j) as Hdr.
  { intros k. unfold drops. split.
    - intros (Hk & Hb & Hw). rewrite HW, decide_False in Hw by lia. split_and!; (done || lia).
    - intros ((Hk & Hb & Hw) & Hne). rewrite HW, decide_False by lia. split_and!; (done || lia). }
  assert (forall k, drops bl (j + 1) s1 k -> W s1 k = W s k) as HWk by (intros k (Hk & _ & _); rewrite HW, decide_False by lia; done).
  split_and!.
  - rewrite (srun_call _ _ _ _ _ Hrun). done.
  - split_and!; [done| |].
    + intros k Hk. rewrite (HWk k Hk). apply Hdr in Hk as [Hk Hne]. destruct (Hin k Hk) as [Hkr Hkb]. change (sfs_freemap s1) with map'. rewrite Hnb.
      split; [done|]. rewrite Hbits by lia. rewrite bool_decide_eq_false_2; [done|]. intros E. apply Hne. by apply Hdis.
    + intros k k' Hk Hk'. rewrite (HWk k Hk), (HWk k' Hk'). apply Hdr in Hk as [Hk _], Hk' as [Hk' _]. by apply Hdis.
  - rewrite HW, decide_True by done. done.
  - done.
  - intros s' [Hd Hf Hv Hm Hw Hwf1 Hn1 Hb1]. constructor; [done|by apply (frame_trans s s1)|done| | |done|by rewrite Hn1| ].
    + eapply changes_only_trans; [|exact Hm]. by apply changes_set_word.
    + intros k Hk. rewrite Hw, HW by done. destruct Hdrop as (_ & Hb & _). repeat case_decide; (done || lia).
    + intros c Hc. rewrite Hb1 by done. change (sfs_freemap s1) with map'. rewrite Hbits by done. split.
      * intros [Hb Hno]. apply andb_true_iff in Hb as [Hne%negb_true_iff%bool_decide_eq_false Hb]. split; [done|]. intros (k & Hk & E).
        destruct (decide (k = j)) as [->|Hkj]; [done|]. apply Hno. exists k. assert (drops bl (j + 1) s1 k) as Hk1 by (by apply Hdr). by rewrite (HWk k Hk1).
      * intros [Hb Hno]. split.
        -- rewrite Hb, andb_true_r. apply negb_true_iff, bool_decide_eq_false. intros ->. apply Hno. by exists j.
        -- intros (k & Hk & E). apply Hno. exists k. rewrite <- (HWk k Hk). split; [by apply Hdr|done].
Qed.

(** An entry stays. *)
Lemma keep_entry bl j s : 0 <= j < SFS_DBPERIDB -> droppable bl j s -> ~ drops bl j s j ->
  droppable bl (j + 1) s /\ (forall k, drops bl (j + 1) s k <-> drops bl j s k) /\
  (forall s', entries_cut bl (j + 1) s s' -> entries_cut bl j s s').
Proof.
  intros Hj (Hwf & Hin & Hdis) Hno.
  assert (forall k, drops bl (j + 1) s k <-> drops bl j s k) as Hdr.
  { intros k. split; [intros (Hk & H); split; [lia|done]|intros (Hk & Hb)]. split; [|done]. destruct (decide (k = j)) as [->|]; [by destruct Hno|lia]. }
  split_and!; [split_and!; [done|intros k Hk%Hdr; by apply Hin|intros k k' Hk%Hdr Hk'%Hdr; by apply Hdis]|done|].
  intros s' [Hd Hf Hv Hm Hw Hwf1 Hn1 Hb1]. constructor; try done.
  - intros k Hk. rewrite Hw by done. repeat case_decide; try done; try lia. assert (k = j) as -> by lia.
    destruct (decide (W s j = 0)) as [->|Hne]; [done|]. destruct Hno. split_and!; (done || lia).
  - intros c Hc. rewrite Hb1 by done. split; intros [Hb Hn]; (split; [done|]); intros (k & Hk & E); apply Hn; exists k; (split; [by apply Hdr|done]).
Qed.

Lemma itrunc_indirect_run bl n : forall j s hz dt,
  0 <= j -> j + Z.of_nat n = SFS_DBPERIDB -> droppable bl j s ->
  exists hz' dt' s', itrunc_indirect n j bl hz dt s = inr ((hz', dt'), s') /\ entries_cut bl j s s' /\
    (hz' = false <-> hz = false /\ forall k, j <= k < SFS_DBPERIDB -> W s' k = 0) /\
    (dt' = false -> dt = false /\ forall k, ~ drops bl j s k).
Proof.
  induction n as [|n IH]; intros j s hz dt Hj Hn Hdp; cbn [itrunc_indirect].
  { exists hz, dt, s. split_and!; [done| |split; [intros ->; split; [done|lia]|by intros [-> _]]|intros ->; split; [done|intros k (Hk & _); lia]]. destruct Hdp as (Hwf & _). constructor; try done.
    - by intros a [].
    - intros k Hk. rewrite decide_False by lia. done.
    - intros c Hc. split; [intros Hb; split; [done|]; intros (k & (Hk & _) & _); lia|tauto]. }
  assert (0 <= j < SFS_DBPERIDB) as Hj' by lia. rewrite srun_get.
  assert (forall s1 dt1 : _, droppable bl (j + 1) s1 -> (forall s', entries_cut bl (j + 1) s1 s' -> entries_cut bl j s s') ->
    (dt1 = false -> dt = false /\ forall k, drops bl j s k -> drops bl (j + 1) s1 k) ->
    exists hz' dt' s', (w' <- sget (fun s0 => W s0 j) ;; itrunc_indirect n (j + 1) bl (hz || negb (w' =? 0)) dt1) s1 = inr ((hz', dt'), s') /\
      entries_cut bl j s s' /\ (hz' = false <-> hz = false /\ forall k, j <= k < SFS_DBPERIDB -> W s' k = 0) /\
      (dt' = false -> dt = false /\ forall k, ~ drops bl j s k)) as Hgo.
  { intros s1 dt1 Hdp1 Hcut Hdt. rewrite srun_get.
    destruct (IH (j + 1) s1 (hz || negb (W s1 j =? 0)) dt1 ltac:(lia) ltac:(lia) Hdp1) as (hz' & dt' & s' & Hrun & Hec & Hhz & Hd').
    exists hz', dt', s'. split_and!; [done|by apply Hcut| |].
    - assert (W s' j = W s1 j) as Ej by (rewrite (ec_words _ _ _ _ Hec) by lia; by rewrite decide_False by lia).
      rewrite Hhz, orb_false_iff, negb_false_iff, Z.eqb_eq, <- Ej. split.
      + intros [[Hz H0] Hk]. split; [done|]. intros k Hk'. destruct (decide (k = j)) as [->|]; [done|apply Hk; lia].
      + intros [Hz Hk]. split_and!; [done|apply Hk; lia|intros k Hk'; apply Hk; lia].
    - intros Hz. destruct (Hd' Hz) as [H1 Hno]. destruct (Hdt H1) as [H2 Hdr]. split; [done|]. intros k Hk%Hdr. by apply (Hno k). }
  destruct ((bl <? SFS_NDIRECT + j) && negb (W s j =? 0)) eqn:E.
  - apply andb_true_iff in E as [E1%Z.ltb_lt E2%negb_true_iff%Z.eqb_neq].
    destruct (drop_entry bl j s Hj' Hdp) as (s1 & Hrun & Hdp1 & _ & _ & Hcut); [split_and!; (done || lia)|].
    rewrite (srun_call _ _ _ _ _ Hrun). by apply Hgo.
  - assert (~ drops bl j s j) as Hno.
    { intros (_ & H1 & H2). apply andb_false_iff in E as [E%Z.ltb_ge|E%negb_false_iff%Z.eqb_eq]; (done || lia). }
    destruct (keep_entry bl j s Hj' Hdp Hno) as (Hdp1 & Hdr & Hcut). rewrite srun_ret. apply Hgo; [done|done|].
    intros ->. split; [done|]. intros k Hk. by apply Hdr.
Qed.

(** ** The indirect block *)

Lemma slot_indirect (f : Z -> list Z) n j : 0 <= j -> sfi_indirect n <> 0 -> slot f n (SFS_NDIRECT + j) = entry (f (sfi_indirect n)) j.
Proof.
  clear reserved. intros Hj Hi. unfold slot. rewrite (proj2 (Z.ltb_ge _ _)), (proj2 (Z.eqb_neq _ 0)) by (done || lia). by rewrite Z.add_simpl_l.
Qed.

(** The blocks an inode has lost: those of the dropped entries, and the indirect
    block if it is gone. *)
Definition lost (bl : Z) (f : Z -> list Z) (n n' : sfs_dinode) (c : Z) : Prop :=
  (exists j, 0 <= j < SFS_DBPERIDB /\ bl < SFS_NDIRECT + j /\ slot f n (SFS_NDIRECT + j) = c /\ c <> 0) \/
  (sfi_indirect n = c /\ c <> 0 /\ sfi_indirect n' = 0).

Record indirect_cut (x : positive) (bl : Z) (s : SS) (v : sfs_vnode) (s' : SS) (v' : sfs_vnode) : Prop := mk_indirect_cut {
  ic_frame : frame s s';
  ic_mem : changes_only (scratch (buffer s)) (sfs_mem s) (sfs_mem s');
  ic_vnode : sfs_vnodes s' = <[x := v']> (sfs_vnodes s);
  ic_inode : sfi_size (sv_i v') = sfi_size (sv_i v) /\ sfi_direct (sv_i v') = sfi_direct (sv_i v) /\
             (sfi_indirect (sv_i v') = sfi_indirect (sv_i v) \/ sfi_indirect (sv_i v') = 0);
  ic_slots : forall j, 0 <= j < SFS_DBPERIDB ->
    slot (sec s') (sv_i v') (SFS_NDIRECT + j) = if decide (bl < SFS_NDIRECT + j) then 0 else slot (sec s) (sv_i v) (SFS_NDIRECT + j);
  ic_empty : bl < SFS_MAXBLOCKS - 1 -> (forall j, 0 <= j < SFS_DBPERIDB -> slot (sec s') (sv_i v') (SFS_NDIRECT + j) = 0) -> sfi_indirect (sv_i v') = 0;
  ic_data : forall c, c <> sfi_indirect (sv_i v) \/ sfi_indirect (sv_i v) = 0 -> sec s' c = sec s c;
  ic_device : same_device (sfs_device s) (sfs_device s');
  ic_wf : bitmap_wf (sfs_freemap s');
  ic_nbits : nbits (sfs_freemap s') = nbits (sfs_freemap s);
  ic_bits : forall c, 0 <= c -> bit (sfs_freemap s') c = true <-> bit (sfs_freemap s) c = true /\ ~ lost bl (sec s) (sv_i v) (sv_i v') c
}.

Lemma slots_frame s x v y n j (f : Z -> list Z) : ok s -> sfs_vnodes s !! x = Some v -> inodes s !! y = Some n -> y <> x ->
  (forall c, c <> sfi_indirect (sv_i v) -> f c = sec s c) -> slot f n j = slot (sec s) n j.
Proof.
  intros Hok Hv Hn Hne Hf. apply slot_frame. intros Hi. apply Hf. intros E. assert (KInd y = KInd x) as [= ->]; [|done].
  apply (bo_unique _ _ _ _ (so_blocks _ _ Hok) _ _ (sfi_indirect n)); [by exists n|]. exists (sv_i v). by rewrite (inodes_lookup s x v).
Qed.

Lemma indirect_cut_ok x bl s v s' v' : ok s -> sfs_vnodes s !! x = Some v -> indirect_cut x bl s v s' v' -> ok s'.
Proof.
  intros Hok Hv [Hfr Hm Hvn (Hsz & Hdi & Hin) Hsl _ Hda' Hdev Hwf Hnb Hbits]. pose proof (fun c Hc => Hda' c (or_introl Hc)) as Hda. pose proof (inodes_lookup s x v Hv) as Hn.
  assert (inodes s' = <[x := sv_i v']> (inodes s)) as Ein by (unfold inodes; by rewrite Hvn, fmap_insert).
  assert (forall c, lost bl (sec s) (sv_i v) (sv_i v') c -> exists k, uses (sec s) reserved (inodes s) k c /\ ~ uses (sec s') reserved (inodes s') k c) as Hlost.
  { intros c [(j & Hj & Hb & Hs & Hc)|(Hi & Hc & H0)].
    - exists (KSlot x (SFS_NDIRECT + j)). assert (0 <= SFS_NDIRECT + j < SFS_MAXBLOCKS) as Hr by (unfold SFS_MAXBLOCKS, SFS_NDIRECT; lia).
      split; [by exists (sv_i v)|].
      rewrite Ein. cbn. rewrite lookup_insert_eq. intros (n & [= <-] & _ & E & _). rewrite Hsl, decide_True in E by done. congruence.
    - exists (KInd x). split; [by exists (sv_i v)|]. rewrite Ein. cbn. rewrite lookup_insert_eq. intros (n & [= <-] & E & _). congruence. }
  assert (forall k c, uses (sec s') reserved (inodes s') k c -> uses (sec s) reserved (inodes s) k c) as Hu.
  { rewrite Ein. intros [y j|y|c'] c; cbn; [| |done]; (destruct (decide (y = x)) as [->|Hne]; [rewrite lookup_insert_eq|rewrite lookup_insert_ne by done]).
    - intros (n & [= <-] & Hj & E & Hc). exists (sv_i v). split_and!; try done; try lia. destruct (Z_lt_le_dec j SFS_NDIRECT) as [Hd|Hd].
      + unfold slot in E |- *. rewrite (proj2 (Z.ltb_lt _ _)) in E |- * by done. by rewrite <- Hdi.
      + replace j with (SFS_NDIRECT + (j - SFS_NDIRECT)) in E |- * by lia. rewrite Hsl in E by (unfold SFS_MAXBLOCKS in Hj; lia). case_decide; congruence.
    - intros (n & Hy & Hj & E & Hc). exists n. by rewrite (slots_frame s x v y n j (sec s')) in E.
    - intros (n & [= <-] & E & Hc). exists (sv_i v). destruct Hin as [Hi|Hi]; [by rewrite <- Hi|congruence].
    - done. }
  apply (ok_freed s s' (lost bl (sec s) (sv_i v) (sv_i v'))); try done.
  - eapply scratch_keeps; [apply Hok|exact Hm].
  - intros c Hc. destruct (Hlost c Hc) as (k & Hk & _). destruct (bo_marked _ _ _ _ (so_blocks _ _ Hok) _ _ Hk) as [Hr _].
    destruct Hc as [(j & _ & _ & _ & Hc0)|(_ & Hc0 & _)]; lia.
  - intros y n. rewrite Ein. destruct (decide (y = x)) as [->|Hne]; [rewrite lookup_insert_eq; intros [= <-]; rewrite Hdi|rewrite lookup_insert_ne by done];
      [apply (bo_direct _ _ _ _ (so_blocks _ _ Hok) x _ Hn)|apply (bo_direct _ _ _ _ (so_blocks _ _ Hok))].
  - intros k c Hk. split; [by apply Hu|]. intros Hl. destruct (Hlost c Hl) as (k' & Hk' & Hno).
    rewrite (bo_unique _ _ _ _ (so_blocks _ _ Hok) k' k c Hk' (Hu k c Hk)) in Hno. done.
Qed.

(** The part of [sfs_itrunc] about the indirect block. *)
Definition itrunc_rest (x : positive) (bl idblock : Z) : SM SS Z :=
  result <- sfs_readblock idblock (addr itrunc_idbuf) SFS_BLOCKSIZE ;;
  if negb (result =? 0) then sret result else
  flags <- itrunc_indirect (Z.to_nat SFS_DBPERIDB) 0 bl false false ;;
  if negb (fst flags) then
    sfs_bfree idblock ;;
    put_inode x (set_indirect 0) ;;
    sret 0
  else if (snd flags : bool) then sfs_writeblock idblock (addr itrunc_idbuf) SFS_BLOCKSIZE
  else sret 0.

(** The indirect block was read and its entries cut in memory. *)
Record loaded_cut (bl : Z) (s : SS) (v : sfs_vnode) (s2 : SS) : Prop := mk_loaded_cut {
  lc_frame : frame s s2;
  lc_mem : changes_only (scratch (buffer s)) (sfs_mem s) (sfs_mem s2);
  lc_vnodes : sfs_vnodes s2 = sfs_vnodes s;
  lc_sec : forall c, sec s2 c = sec s c;
  lc_device : same_device (sfs_device s) (sfs_device s2);
  lc_words : forall j, 0 <= j < SFS_DBPERIDB -> W s2 j = if decide (bl < SFS_NDIRECT + j) then 0 else slot (sec s) (sv_i v) (SFS_NDIRECT + j);
  lc_wf : bitmap_wf (sfs_freemap s2);
  lc_nbits : nbits (sfs_freemap s2) = nbits (sfs_freemap s);
  lc_bits : forall c, 0 <= c -> bit (sfs_freemap s2) c = true <-> bit (sfs_freemap s) c = true /\ ~ lost bl (sec s) (sv_i v) (sv_i v) c
}.

Lemma entries_droppable bl s x v s1 : ok s -> sfs_vnodes s !! x = Some v -> sfs_freemap s1 = sfs_freemap s ->
  (forall k, 0 <= k < SFS_DBPERIDB -> W s1 k = slot (sec s) (sv_i v) (SFS_NDIRECT + k)) -> droppable bl 0 s1.
Proof.
  intros Hok Hv Hmap HW. pose proof (so_mapsize _ _ Hok) as Hms. pose proof (inodes_lookup s x v Hv) as Hn.
  assert (forall k, drops bl 0 s1 k -> uses (sec s) reserved (inodes s) (KSlot x (SFS_NDIRECT + k)) (W s1 k)) as Hu.
  { intros k (Hk & Hb & Hw). rewrite (HW k Hk) in Hw |- *. exists (sv_i v). split_and!; try done; unfold SFS_MAXBLOCKS, SFS_NDIRECT; lia. }
  split_and!; rewrite ?Hmap; [apply Hok| |].
  - intros k Hk%Hu. destruct (bo_marked _ _ _ _ (so_blocks _ _ Hok) _ _ Hk) as [Hr Hbit]. split; [lia|done].
  - intros k k' Hk%Hu Hk'%Hu E. rewrite E in Hk. pose proof (bo_unique _ _ _ _ (so_blocks _ _ Hok) _ _ _ Hk Hk') as [= Hkk]. lia.
Qed.

Lemma load_and_cut bl s x v : ok s -> sfs_vnodes s !! x = Some v -> sfi_indirect (sv_i v) <> 0 ->
  exists s1 hz dt s2, sfs_readblock (sfi_indirect (sv_i v)) (addr itrunc_idbuf) SFS_BLOCKSIZE s = inr (0, s1) /\
    itrunc_indirect (Z.to_nat SFS_DBPERIDB) 0 bl false false s1 = inr ((hz, dt), s2) /\ loaded_cut bl s v s2 /\
    (hz = false <-> forall j, 0 <= j < SFS_DBPERIDB -> W s2 j = 0) /\
    (dt = false -> forall j, 0 <= j < SFS_DBPERIDB -> bl < SFS_NDIRECT + j -> slot (sec s) (sv_i v) (SFS_NDIRECT + j) = 0).
Proof.
  intros Hok Hv Hi. destruct (indirect_marked reserved s x v Hok Hv Hi) as [Hr _].
  destruct (sfs_readblock_run reserved s _ itrunc_idbuf Hok Hr) as (m1 & d1 & Hrd & Hld & Hch & Hd & Hs); [done..|].
  set (s1 := set_io m1 d1 s) in *.
  assert (forall k, 0 <= k < SFS_DBPERIDB -> W s1 k = slot (sec s) (sv_i v) (SFS_NDIRECT + k)) as HW.
  { intros k Hk. rewrite (slot_indirect (sec s)) by (done || lia). rewrite (word_at_entry _ k _ _ Hk eq_refl). cbn [sfs_mem s1 set_io]. by rewrite Hld. }
  pose proof (entries_droppable bl s x v s1 Hok Hv eq_refl HW) as Hdp.
  destruct (itrunc_indirect_run bl (Z.to_nat SFS_DBPERIDB) 0 s1 false false) as (hz & dt & s2 & Hrun & [E1 E2 E3 E4 E5 E6 E7 E8] & Hhz & Hdt); [lia|done|done|].
  exists s1, hz, dt, s2. split_and!; [done|done| | |].
  - constructor; try done.
    + apply (frame_trans s s1); [|done]. destruct Hd as (_ & _ & Hbf). by constructor.
    + eapply changes_only_trans; [exact Hch|]. eapply changes_weaken; [|exact E4]. intros a Ha. right. by exists itrunc_idbuf.
    + intros c. unfold sec at 1. rewrite E1. apply Hs.
    + by rewrite E1.
    + intros j Hj. rewrite E5, (HW j Hj) by done. repeat case_decide; (done || lia).
    + intros c Hc. rewrite E8 by done. split; intros [Hb Hno]; (split; [done|]).
      * intros [(j & Hj & Hbj & Hsl & Hc0)|(_ & Hc0 & Hi0)]; [|done]. apply Hno. exists j. rewrite <- (HW j Hj) in Hsl. split; [|done].
        unfold drops. rewrite Hsl. split_and!; (done || lia).
      * intros (k & (Hk & Hbk & Hw) & E). apply Hno. left. exists k. rewrite <- (HW k) by lia. split_and!; (done || lia || congruence).
  - rewrite Hhz. split; [intros [_ H]; exact H|intros H; split; [done|exact H]].
  - intros Hz j Hj Hb. destruct (Hdt Hz) as [_ Hno]. destruct (decide (slot (sec s) (sv_i v) (SFS_NDIRECT + j) = 0)) as [|Hne]; [done|].
    destruct (Hno j). unfold drops. rewrite (HW j Hj). split_and!; (done || lia).
Qed.

Lemma itrunc_rest_run bl s x v : ok s -> sfs_vnodes s !! x = Some v -> sfi_indirect (sv_i v) <> 0 ->
  exists s' v', itrunc_rest x bl (sfi_indirect (sv_i v)) s = inr (0, s') /\ indirect_cut x bl s v s' v'.
Proof.
  intros Hok Hv Hi. pose proof (indirect_marked reserved s x v Hok Hv Hi) as [Hir Hibit]. pose proof (so_mapsize _ _ Hok) as Hms.
  set (ind := sfi_indirect (sv_i v)) in *.
  destruct (load_and_cut bl s x v Hok Hv Hi) as (s1 & hz & dt & s2 & Hrd & Hrun & [L1 L2 L3 L4 L5 L6 L7 L8 L9] & Hz & Hdt).
  unfold itrunc_rest. rewrite (srun_call _ _ _ _ _ Hrd). cbn [negb Z.eqb]. rewrite (srun_call _ _ _ _ _ Hrun). cbn [fst snd].
  assert (~ lost bl (sec s) (sv_i v) (sv_i v) ind) as Hindl.
  { intros [(j & Hj & Hb & Hsl & Hc)|(_ & Hc & H0)]; [|done]. assert (KSlot x (SFS_NDIRECT + j) = KInd x) as [=].
    apply (bo_unique _ _ _ _ (so_blocks _ _ Hok) _ _ ind); [|exists (sv_i v); by rewrite (inodes_lookup s x v)].
    exists (sv_i v). split_and!; try done; [by apply inodes_lookup|unfold SFS_MAXBLOCKS, SFS_NDIRECT; lia..]. }
  assert (sfs_vnodes s2 !! x = Some v) as Hv2 by (by rewrite L3).
  destruct hz; cbn [negb]; [destruct dt|].
  - destruct (sfs_writeblock_io s2 ind itrunc_idbuf) as (m3 & d3 & Hwr & Hch3 & Hd3 & Hs3).
    { destruct (ok_io_ready _ _ Hok). destruct L1 as [F1 F2 F3], L5 as (D1 & D2 & D3). constructor; rewrite ?F1, ?F2, ?F3, ?D2; done. }
    { rewrite (fr_nblocks _ _ L1). done. }
    exists (set_io m3 d3 s2), v. split; [done|]. destruct Hd3 as (D1 & D2 & D3).
    assert (forall c, c <> ind \/ ind = 0 -> sec (set_io m3 d3 s2) c = sec s c) as Hda by (intros c [Hc|?]; [|done]; unfold sec at 1; cbn; rewrite Hs3, decide_False by done; apply L4).
    assert (forall j, 0 <= j < SFS_DBPERIDB -> slot (sec (set_io m3 d3 s2)) (sv_i v) (SFS_NDIRECT + j) = W s2 j) as Hslot.
    { intros j Hj. rewrite (slot_indirect (sec _)) by (done || lia). fold ind. unfold sec at 1. cbn. rewrite Hs3, decide_True by done.
      by rewrite <- (word_at_entry (addr itrunc_idbuf) j _ _ Hj eq_refl). }
    constructor; try done.
    + eapply frame_trans; [exact L1|]. by constructor.
    + eapply changes_only_trans; [exact L2|]. eapply changes_weaken; [|exact Hch3]. intros a Ha. left. by rewrite <- (fr_buffer _ _ L1).
    + cbn. rewrite L3. by rewrite insert_id.
    + split_and!; [done|done|by left].
    + intros j Hj. rewrite Hslot by done. by apply L6.
    + intros _ H0. assert (true = false) as [=]. apply Hz. intros j Hj. rewrite <- Hslot by done. by apply H0.
    + destruct L5 as (B1 & B2 & B3). split_and!; [done|by rewrite <- B2|by rewrite <- B3].
  - exists s2, v. split; [done|]. constructor; try done.
    + by rewrite L3, insert_id.
    + split_and!; [done|done|by left].
    + intros j Hj. rewrite (slot_frame (sec s) (sec s2)) by (by intros _). case_decide as E; [|done]. by apply Hdt.
    + intros _ H0. assert (true = false) as [=]. apply Hz. intros j Hj. rewrite (L6 j Hj). case_decide; [done|].
      rewrite <- (slot_frame (sec s) (sec s2)) by (by intros _). by apply H0.
  - assert (bit (sfs_freemap s2) ind = true) as Hib2 by (apply L9; [lia|done]).
    destruct (sfs_bfree_run s2 ind L7 ltac:(lia) Hib2) as (map' & Hfr & Hnb & Hwf & Hbits).
    assert (sfs_vnodes (freed map' s2) !! x = Some v) as Hv3 by done.
    rewrite (srun_call _ _ _ _ _ Hfr), (srun_call _ _ _ _ _ (put_inode_run x (set_indirect 0) v (freed map' s2) Hv3)).
    eexists _, (mk_sfs_vnode (set_indirect 0 (sv_i v)) (sv_ino v) true). split; [done|]. constructor; try done.
    + by apply (frame_trans s s2).
    + cbn. by rewrite L3.
    + split_and!; [done|done|by right].
    + intros j Hj. unfold slot at 1. rewrite (proj2 (Z.ltb_ge _ _)) by lia. cbn [set_indirect sfi_indirect sv_i Z.eqb]. case_decide as E; [done|].
      pose proof (L6 j Hj) as Hw. rewrite (proj1 Hz eq_refl j Hj), decide_False in Hw by done. done.
    + intros c _. apply L4.
    + change (sfs_freemap (put _ _ _ _)) with map'. by rewrite Hnb.
    + intros c Hc. change (sfs_freemap (put _ _ _ _)) with map'. rewrite Hbits by done. rewrite andb_true_iff, negb_true_iff, bool_decide_eq_false, L9 by done.
      unfold lost. cbn [set_indirect sfi_indirect sv_i]. fold ind. split.
      * intros (Hne & Hb & Hno). split; [done|]. intros [H|(-> & _)]; [by apply Hno; left|done].
      * intros (Hb & Hno). split_and!; [intros ->; apply Hno; by right|done|]. intros [H|(_ & _ & H)]; [by apply Hno; left|done].
Qed.

(** ** The whole *)

Definition blocklen (len : Z) : Z := u32 (Z.quot (len + SFS_BLOCKSIZE - 1) SFS_BLOCKSIZE).

(** File [x] was truncated to [len] bytes, its inode being [n] before and [n']
    after. *)
Record truncated (x : positive) (len : Z) (s : SS) (n : sfs_dinode) (s' : SS) (n' : sfs_dinode) : Prop := mk_truncated {
  tr_ok : ok s';
  tr_frame : frame s s';
  tr_mem : changes_only (scratch (buffer s)) (sfs_mem s) (sfs_mem s');
  tr_inode : inodes s' !! x = Some n' /\ sfi_size n' = u32 len;
  tr_slots : forall i, 0 <= i < SFS_MAXBLOCKS -> slot (sec s') n' i = if stays (blocklen len) i then slot (sec s) n i else 0;
  tr_bytes : forall p, 0 <= p < SFS_MAXSIZE ->
    file_byte (sec s') n' p = if stays (blocklen len) (p / SFS_BLOCKSIZE) then file_byte (sec s) n p else 0;
  tr_others : forall y, y <> x -> inodes s' !! y = inodes s !! y /\
    forall m p, inodes s !! y = Some m -> 0 <= p < SFS_MAXSIZE -> file_byte (sec s') m p = file_byte (sec s) m p;
  tr_marked : forall c, marked s' c <-> marked s c /\
    ~ (exists i, 0 <= i < SFS_MAXBLOCKS /\ stays (blocklen len) i = false /\ slot (sec s) n i = c /\ c <> 0) /\
    ~ (sfi_indirect n = c /\ c <> 0 /\ sfi_indirect n' = 0);
  tr_reserved : forall b, reserved b -> sec s' b = sec s b;
  tr_indirect : blocklen len < SFS_MAXBLOCKS - 1 -> (forall i, SFS_NDIRECT <= i < SFS_MAXBLOCKS -> slot (sec s') n' i = 0) -> sfi_indirect n' = 0
}.

Lemma ok_set_depth d s : ok s -> 0 < d -> ok (set_depth d s).
Proof. intros Hok Hd. destruct Hok. constructor; done. Qed.

Lemma nth_zero_block i : nth i zero_block 0 = 0.
Proof.
  clear reserved. rewrite nth_lookup. destruct (zero_block !! i) as [z|] eqn:E; [|done]. by apply lookup_replicate_1 in E as [-> _].
Qed.

(** Nothing to do for the indirect block. *)
Lemma indirect_cut_none x bl s v : ok s -> sfs_vnodes s !! x = Some v -> (SFS_MAXBLOCKS - 1 <= bl \/ sfi_indirect (sv_i v) = 0) ->
  indirect_cut x bl s v s v.
Proof.
  intros Hok Hv Hno. assert (forall j, 0 <= j < SFS_DBPERIDB -> bl < SFS_NDIRECT + j -> slot (sec s) (sv_i v) (SFS_NDIRECT + j) = 0) as H0.
  { intros j Hj Hb. destruct Hno as [Hbig|Hi]; [unfold SFS_MAXBLOCKS in Hbig; lia|]. unfold slot. rewrite (proj2 (Z.ltb_ge _ _)) by lia. by rewrite Hi. }
  constructor; try done.
  - by intros a [].
  - by rewrite insert_id.
  - split_and!; [done|done|by left].
  - intros j Hj. case_decide; [by apply H0|done].
  - intros Hb _. destruct Hno; [lia|done].
  - split_and!; [apply Hok|done|done].
  - apply Hok.
  - intros c Hc. split; [|tauto]. intros Hb. split; [done|]. intros [(j & Hj & Hbl & Hs & Hc0)|(Hs & Hc0 & Hi)]; [rewrite H0 in Hs by done|]; congruence.
Qed.

(** Both loops together, for the files. *)
Lemma cut_both x bl s v s1 v1 s2 v2 :
  ok s -> sfs_vnodes s !! x = Some v -> cut_from x bl 0 SFS_NDIRECT s s1 -> sfs_vnodes s1 !! x = Some v1 -> indirect_cut x bl s1 v1 s2 v2 ->
  ok s2 /\ frame s s2 /\ changes_only (scratch (buffer s)) (sfs_mem s) (sfs_mem s2) /\ sfs_vnodes s2 !! x = Some v2 /\
  (forall i, 0 <= i < SFS_MAXBLOCKS -> slot (sec s2) (sv_i v2) i = if stays bl i then slot (sec s) (sv_i v) i else 0) /\
  (forall c, c <> sfi_indirect (sv_i v) \/ sfi_indirect (sv_i v) = 0 -> sec s2 c = sec s c) /\
  (forall y, y <> x -> sfs_vnodes s2 !! y = sfs_vnodes s !! y) /\
  (forall c, marked s2 c <-> marked s c /\ ~ (exists i, 0 <= i < SFS_MAXBLOCKS /\ stays bl i = false /\ slot (sec s) (sv_i v) i = c /\ c <> 0) /\
    ~ (sfi_indirect (sv_i v) = c /\ c <> 0 /\ sfi_indirect (sv_i v2) = 0)) /\
  (bl < SFS_MAXBLOCKS - 1 -> (forall i, SFS_NDIRECT <= i < SFS_MAXBLOCKS -> slot (sec s2) (sv_i v2) i = 0) -> sfi_indirect (sv_i v2) = 0).
Proof.
  intros Hok Hv [Ho1 Hf1 Hm1 Hd1 Hoth1 Hin1 Hmk1] Hv1 Hcut. pose proof (indirect_cut_ok x bl s1 v1 s2 v2 Ho1 Hv1 Hcut) as Ho2.
  destruct Hcut as [Hf2 Hm2 Hvn2 (Hsz2 & Hdi2 & Hi2) Hsl2 Hem2 Hda2 Hdv2 Hwf2 Hnb2 Hbits2].
  destruct (Hin1 v Hv) as (w & Hw & Hsz & Hind & Hdir). assert (w = v1) as -> by congruence. clear Hw.
  assert (forall c, sec s1 c = sec s c) as Hsec1 by (intros c; unfold sec; by rewrite Hd1).
  assert (forall j, 0 <= j -> slot (sec s1) (sv_i v1) (SFS_NDIRECT + j) = slot (sec s) (sv_i v) (SFS_NDIRECT + j)) as Hhigh.
  { intros j Hj. unfold slot. rewrite (proj2 (Z.ltb_ge _ _)), Hind by lia. destruct (_ =? 0); [done|]. by rewrite Hsec1. }
  assert (forall i, 0 <= i < SFS_NDIRECT -> slot (sec s) (sv_i v) i = default 0 (zlookup (sfi_direct (sv_i v)) i)) as Hlow
    by (intros i Hi; unfold slot; by rewrite (proj2 (Z.ltb_lt i _)) by lia).
  split_and!.
  - done.
  - by eapply frame_trans.
  - by rewrite <- Hm1, <- (fr_buffer _ _ Hf1).
  - by rewrite Hvn2, lookup_insert_eq.
  - intros i Hi. unfold stays. destruct (Z.ltb_spec i SFS_NDIRECT) as [Hd|Hd].
    + rewrite Hlow by lia. unfold slot. rewrite (proj2 (Z.ltb_lt i _)), Hdi2, Hdir by lia. destruct (Z.ltb_spec i bl); case_decide; (done || lia).
    + replace i with (SFS_NDIRECT + (i - SFS_NDIRECT)) by lia. rewrite Hsl2 by (unfold SFS_MAXBLOCKS in Hi; lia). rewrite Hhigh by lia.
      destruct (Z.leb_spec (SFS_NDIRECT + (i - SFS_NDIRECT)) bl); case_decide; (done || lia).
  - intros c Hc. rewrite <- Hsec1. apply Hda2. by rewrite Hind.
  - intros y Hy. by rewrite Hvn2, lookup_insert_ne, Hoth1.
  - assert (forall c, marked s2 c <-> marked s1 c /\ ~ lost bl (sec s1) (sv_i v1) (sv_i v2) c) as Hmk2.
    { intros c. unfold marked. rewrite (fr_nblocks _ _ Hf2). split; [intros [Hr Hb]; apply Hbits2 in Hb; [tauto|lia]|].
      intros [[Hr Hb] Hno]. split; [done|]. apply Hbits2; [lia|done]. }
    intros c. rewrite Hmk2, (Hmk1 v c Hv). unfold lost. rewrite Hind. split.
    + intros [[Hm Hno1] Hno2]. split_and!; [done| |by intros H; apply Hno2; right]. intros (i & Hi & Hs & E & Hc). unfold stays in Hs.
      destruct (Z.ltb_spec i SFS_NDIRECT) as [Hd|Hd].
      * apply Hno1. exists i. rewrite Hlow in E by lia. destruct (zlookup (sfi_direct (sv_i v)) i) as [z|]; cbn in E; [|done]. subst z.
        apply Z.ltb_ge in Hs. split_and!; (done || lia).
      * apply Hno2. left. exists (i - SFS_NDIRECT). rewrite Hhigh by lia. apply Z.leb_gt in Hs. unfold SFS_MAXBLOCKS in Hi.
        replace (SFS_NDIRECT + (i - SFS_NDIRECT)) with i by lia. split_and!; (done || lia).
    + intros (Hm & Hno1 & Hno2). split; [split; [done|]|].
      * intros (k & Hk & Hb & Hl & Hc). apply Hno1. exists k. rewrite Hlow, Hl by lia. unfold stays, SFS_MAXBLOCKS, SFS_DBPERIDB.
        rewrite (proj2 (Z.ltb_lt k _)) by lia. split_and!; (done || lia).
      * intros [(j & Hj & Hb & E & Hc)|H]; [|done]. apply Hno1. exists (SFS_NDIRECT + j). rewrite Hhigh in E by lia. assert (0 <= SFS_NDIRECT) by done. unfold stays, SFS_MAXBLOCKS.
        rewrite (proj2 (Z.ltb_ge _ _)) by lia. split_and!; (done || lia).
  - intros Hb H0. apply Hem2; [done|]. intros j Hj. apply H0. unfold SFS_MAXBLOCKS. lia.
Qed.

(** Bytes from blocks. *)
Lemma cut_bytes x bl s v (f : Z -> list Z) n' :
  ok s -> sfs_vnodes s !! x = Some v -> (forall c, c <> sfi_indirect (sv_i v) -> f c = sec s c) ->
  (forall i, 0 <= i < SFS_MAXBLOCKS -> slot f n' i = if stays bl i then slot (sec s) (sv_i v) i else 0) ->
  forall p, 0 <= p < SFS_MAXSIZE -> file_byte f n' p = if stays bl (p / SFS_BLOCKSIZE) then file_byte (sec s) (sv_i v) p else 0.
Proof.
  intros Hok Hv Hf Hs p Hp. assert (0 <= p / SFS_BLOCKSIZE < SFS_MAXBLOCKS) as Hi by (unfold SFS_MAXSIZE, SFS_BLOCKSIZE in *; lia).
  unfold file_byte. rewrite Hs by done. destruct (stays bl (p / SFS_BLOCKSIZE)); [|unfold block_bytes; cbn [Z.eqb]; apply nth_zero_block].
  f_equal. unfold block_bytes. destruct (Z.eqb_spec (slot (sec s) (sv_i v) (p / SFS_BLOCKSIZE)) 0) as [|Hn]; [done|]. apply Hf. intros E.
  assert (KSlot x (p / SFS_BLOCKSIZE) = KInd x) as [=]. pose proof (inodes_lookup s x v Hv) as Hno.
  apply (bo_unique _ _ _ _ (so_blocks _ _ Hok) _ _ (sfi_indirect (sv_i v))); exists (sv_i v); [by rewrite E in Hn|]. by rewrite <- E.
Qed.

Lemma other_bytes x s v y m (f : Z -> list Z) : ok s -> sfs_vnodes s !! x = Some v -> (forall c, c <> sfi_indirect (sv_i v) -> f c = sec s c) ->
  y <> x -> inodes s !! y = Some m -> forall p, 0 <= p < SFS_MAXSIZE -> file_byte f m p = file_byte (sec s) m p.
Proof.
  intros Hok Hv Hf Hy Hm p Hp. apply file_byte_blocks; [done|]. intros i Hi. rewrite (slots_frame s x v y m i f) by done.
  unfold block_bytes. destruct (Z.eqb_spec (slot (sec s) m i) 0) as [|Hn]; [done|]. apply Hf. intros E. assert (KSlot y i = KInd x) as [=].
  apply (bo_unique _ _ _ _ (so_blocks _ _ Hok) _ _ (slot (sec s) m i)); [by exists m|]. exists (sv_i v). rewrite (inodes_lookup s x v) by done. by rewrite <- E.
Qed.

Lemma truncated_intro x len s v s2 v2 :
  ok s -> sfs_vnodes s !! x = Some v -> ok s2 -> frame s s2 -> changes_only (scratch (buffer s)) (sfs_mem s) (sfs_mem s2) ->
  sfs_vnodes s2 !! x = Some v2 ->
  (forall i, 0 <= i < SFS_MAXBLOCKS -> slot (sec s2) (sv_i v2) i = if stays (blocklen len) i then slot (sec s) (sv_i v) i else 0) ->
  (forall c, c <> sfi_indirect (sv_i v) \/ sfi_indirect (sv_i v) = 0 -> sec s2 c = sec s c) ->
  (forall y, y <> x -> sfs_vnodes s2 !! y = sfs_vnodes s !! y) ->
  (forall c, marked s2 c <-> marked s c /\ ~ (exists i, 0 <= i < SFS_MAXBLOCKS /\ stays (blocklen len) i = false /\ slot (sec s) (sv_i v) i = c /\ c <> 0) /\
    ~ (sfi_indirect (sv_i v) = c /\ c <> 0 /\ sfi_indirect (sv_i v2) = 0)) ->
  (blocklen len < SFS_MAXBLOCKS - 1 -> (forall i, SFS_NDIRECT <= i < SFS_MAXBLOCKS -> slot (sec s2) (sv_i v2) i = 0) -> sfi_indirect (sv_i v2) = 0) ->
  truncated x len s (sv_i v) (put x (set_size (u32 len)) v2 s2) (set_size (u32 len) (sv_i v2)).
Proof.
  intros Hok Hv Ho2 Hf Hm Hv2 Hsl Hse' Hoth Hmk Hem. pose proof (fun c Hc => Hse' c (or_introl Hc)) as Hse. destruct (ok_set_size reserved s2 x v2 (u32 len) Ho2 Hv2) as [Ho3 Hf3].
  constructor; try done.
  - by eapply frame_trans.
  - by rewrite inodes_put, lookup_insert_eq.
  - by eapply cut_bytes.
  - intros y Hy. rewrite inodes_put, lookup_insert_ne by done. split; [unfold inodes; by rewrite !lookup_fmap, Hoth|].
    intros m p Hm' Hp. by eapply other_bytes.
  - intros b Hb. apply Hse'. destruct (decide (sfi_indirect (sv_i v) = 0)) as [|Hi]; [by right|left]. intros ->.
    assert (KInd x = KOther (sfi_indirect (sv_i v))) as [=]. apply (reserved_apart reserved s); [done|exists (sv_i v); by rewrite (inodes_lookup s x v)|done].
Qed.

Lemma sfs_itrunc_run s x v len :
  ok s -> sfs_vnodes s !! x = Some v -> 0 <= len < 2^40 ->
  exists s' n', sfs_itrunc x len s = inr (0, s') /\ truncated x len s (sv_i v) s' n' /\
    (forall p, 0 <= p < len -> p < SFS_MAXSIZE -> file_byte (sec s') n' p = file_byte (sec s) (sv_i v) p).
Proof.
  intros Hok Hv Hlen. pose proof (so_lock _ _ Hok) as Hlock. set (bl := blocklen len).
  assert (bl = (len + 511) / 512) as Ebl.
  { unfold bl, blocklen, SFS_BLOCKSIZE. rewrite Z.quot_div_nonneg by lia. rewrite u32_small by (unfold is_u32; lia). f_equal. lia. }
  set (s0 := set_depth (vfs_biglock_depth s + 1) s). pose proof (ok_set_depth (vfs_biglock_depth s + 1) s Hok ltac:(lia)) as Hok0. fold s0 in Hok0.
  assert (sfs_vnodes s0 !! x = Some v) as Hv0 by done.
  destruct (itrunc_direct_run x bl (Z.to_nat SFS_NDIRECT) 0 s0 v Hok0 Hv0) as (s1 & Hrun1 & Hcf); [lia|done|]. change (Z.of_nat (Z.to_nat SFS_NDIRECT)) with SFS_NDIRECT in Hcf.
  destruct (cf_inode _ _ _ _ _ _ Hcf v Hv0) as (v1 & Hv1 & _ & _ & _). pose proof (cf_ok _ _ _ _ _ _ Hcf) as Ho1.
  assert (exists s2 v2, (if (bl <? SFS_NDIRECT + SFS_DBPERIDB - 1) && negb (sfi_indirect (sv_i v1) =? 0) then itrunc_rest x bl (sfi_indirect (sv_i v1)) else sret 0) s1
    = inr (0, s2) /\ indirect_cut x bl s1 v1 s2 v2) as (s2 & v2 & Hrun2 & Hic).
  { destruct ((bl <? SFS_NDIRECT + SFS_DBPERIDB - 1) && negb (sfi_indirect (sv_i v1) =? 0)) eqn:E.
    - apply andb_true_iff in E as [_ E%negb_true_iff%Z.eqb_neq]. by apply itrunc_rest_run.
    - exists s1, v1. split; [done|]. apply indirect_cut_none; [done|done|]. unfold SFS_MAXBLOCKS.
      apply andb_false_iff in E as [E%Z.ltb_ge|E%negb_false_iff%Z.eqb_eq]; auto. }
  destruct (cut_both x bl s0 v s1 v1 s2 v2 Hok0 Hv0 Hcf Hv1 Hic) as (Ho2 & Hf2 & Hm2 & Hv2 & Hsl & Hse & Hoth & Hmk & Hem).
  assert (vfs_biglock_depth s2 = vfs_biglock_depth s + 1) as Hdep by apply (fr_depth _ _ Hf2).
  set (s3 := set_depth (vfs_biglock_depth s) s2). assert (ok s3) as Ho3 by (by apply ok_set_depth).
  exists (put x (set_size (u32 len)) v2 s3), (set_size (u32 len) (sv_i v2)).
  assert (truncated x len s (sv_i v) (put x (set_size (u32 len)) v2 s3) (set_size (u32 len) (sv_i v2))) as Htr.
  { apply truncated_intro; try done. destruct Hf2 as [F1 F2 F3]. by constructor. }
  split_and!; [|done|].
  - unfold sfs_itrunc. fold (blocklen len) bl. unfold vfs_biglock_acquire. rewrite srun_modify. fold s0. rewrite (srun_call _ _ _ _ _ Hrun1).
    rewrite (get_sv_run x v1) by done. rewrite (srun_call _ _ _ _ _ Hrun2). cbn [negb Z.eqb].
    rewrite (srun_call _ _ _ _ _ (put_inode_run x _ v2 s2 Hv2)). unfold vfs_biglock_release. rewrite srun_bind, srun_get. cbn [vfs_biglock_depth put set_vnodes].
    rewrite Hdep, srun_bind, srun_assert, srun_modify by (apply Z.ltb_lt; lia). by rewrite Z.add_simpl_r.
  - intros p Hp Hpm. rewrite (tr_bytes _ _ _ _ _ _ Htr) by lia. fold bl.
    assert (stays bl (p / SFS_BLOCKSIZE) = true) as ->; [|done]. unfold stays, SFS_BLOCKSIZE.
    assert (p / 512 < bl) by lia. destruct (p / 512 <? SFS_NDIRECT); [apply Z.ltb_lt|apply Z.leb_le]; lia.
Qed.

(** (C14) [sfs_itrunc] cuts a file where it says, up to one block.  On a
    well-formed volume and for any length, the call returns 0; the size of the
    file is the new one; a direct block stays if its number is below the length
    in blocks, and a block of the indirect block if its number is at most that:
    bytes in the blocks that stay are what they were, so all bytes below the new
    length, and those of the others are 0; the blocks that went, and the indirect
    block if it is empty, are free, and no other block is; other files have the
    same bytes; the volume is well-formed again. *)
Theorem sfs_itrunc_cuts s x v len :
  ok s -> sfs_vnodes s !! x = Some v -> 0 <= len < 2^40 ->
  exists s' n', sfs_itrunc x len s = inr (0, s') /\ truncated x len s (sv_i v) s' n' /\
    (forall p, 0 <= p < len -> p < SFS_MAXSIZE -> file_byte (sec s') n' p = file_byte (sec s) (sv_i v) p).
Proof. apply sfs_itrunc_run. Qed.
End trunc.
