(* ===== verification/SfsFile.v ===== *)
(** * SFS: files as arrays of bytes

    What [sfs_io] and [sfs_bmap] promise about files, for a volume on any
    [BlockDevice]; then a volume on a disk behind [lhd_io], on which the theorems
    are applied. *)

From S2P Require Import Prelude State Monad StopState Bitmap Uio Device Lhd Sfs SfsSpec SfsBlock SfsBmap SfsRead SfsIo SfsWrite SfsTrunc.

#[local] Open Scope Z_scope.

Section file.
Context {D : Type} {DV : Device D} {BD : BlockDevice D} {LY : Layout}.
Context (reserved : Z -> Prop) (accessible : bool -> Z -> bool) (curas : option positive).

Notation SS := (sfs_fs D).
Notation ok := (sfs_ok reserved).

(** (C11) [sfs_io] writes bytes where they belong and nowhere else.  For any
    request of the kernel, at any offset and of any length, on a well-formed
    volume, the call ends having written the first [k] bytes: byte [p] of the
    file is the byte of the request if [off <= p < off + k] and the old one
    otherwise, a byte of a hole being 0; the size grows to [off + k] if that is
    more; every other file has the same bytes and size; the volume is well-formed
    again.  With result 0 all of the request was written; a write that stops
    early returns [ENOSPC] with every block of the volume in use, or [EFBIG] at
    the largest size of a file. *)
Theorem sfs_io_write s x u :
  ok s -> is_Some (sfs_vnodes s !! x) -> file_request s u -> uio_rw u = UIO_WRITE ->
  exists r k s' u', sfs_io accessible curas x u s = inr ((r, u'), s') /\ written reserved x s u k s' u' /\
    0 <= k <= uio_resid u /\ (r = 0 -> k = uio_resid u) /\ write_result r s' u'.
Proof. intros Hok Hv Hq Hrw. by apply sfs_io_writes. Qed.

(** (C12) [sfs_io] reads the bytes of the file up to its end.  For any request of
    the kernel, the call returns 0 and has put into the buffers, in order, the
    bytes of the file from the offset on, as many as fit and as there are before
    the end of the file (none past it); bytes of holes are 0.  The disk, the
    inodes and the map of free blocks are what they were, and no memory but
    those buffers and the static areas changed. *)
Theorem sfs_io_read s x v u :
  ok s -> sfs_vnodes s !! x = Some v -> 0 <= sfi_size (sv_i v) <= SFS_MAXSIZE -> file_request s u -> uio_rw u = UIO_READ ->
  exists s' u', sfs_io accessible curas x u s = inr ((0, u'), s') /\ read_done reserved s (sv_i v) u (readable (sv_i v) u) s' u'.
Proof. intros Hok Hv Hsz Hq Hrw. by apply sfs_io_reads. Qed.

Lemma written_bytes x s u k s' n n' : 0 <= uio_offset u -> uio_offset u + k <= SFS_MAXSIZE ->
  0 <= k <= Z.of_nat (length (uio_addrs u)) ->
  write_files x (uio_offset u) (load (sfs_mem s) (take (Z.to_nat k) (uio_addrs u))) (grown (uio_offset u) k) (sec s) (inodes s) (sec s') (inodes s') ->
  inodes s !! x = Some n -> inodes s' !! x = Some n' ->
  file_bytes (sec s') n' (uio_offset u) k = load (sfs_mem s) (take (Z.to_nat k) (uio_addrs u)).
Proof.
  clear reserved. intros Ho Hend Hlen Hw Hn Hn'. specialize (Hw x). rewrite Hn, Hn' in Hw. destruct Hw as [_ Hw].
  set (data := load _ _) in *. assert (zlen data = k) as Ek by (unfold data, zlen; rewrite length_load, length_take; lia).
  rewrite <- Ek at 1. apply (file_bytes_overwritten _ _ (file_byte (sec s) n)). intros p Hp. rewrite Hw, decide_True by (done || lia). done.
Qed.

(** (C10) What is written is read back.  After a write that returned 0, a read of
    the same range with any buffers (apart from the static areas) returns 0,
    uses up the request and leaves in its buffers the bytes that were written. *)
Theorem sfs_write_read s x v u s1 u1 w :
  ok s -> sfs_vnodes s !! x = Some v -> 0 <= sfi_size (sv_i v) <= SFS_MAXSIZE ->
  file_request s u -> uio_rw u = UIO_WRITE -> sfs_io accessible curas x u s = inr ((0, u1), s1) ->
  file_request s1 w -> uio_rw w = UIO_READ -> uio_offset w = uio_offset u -> uio_resid w = uio_resid u ->
  exists s2 w', sfs_io accessible curas x w s1 = inr ((0, w'), s2) /\ uio_resid w' = 0 /\
    load (sfs_mem s2) (uio_addrs w) = load (sfs_mem s) (uio_addrs u).
Proof.
  intros Hok Hv Hsz Hq Hrw Hrun Hqw Hrww Ho Hr.
  destruct (sfs_io_writes reserved accessible curas x s u) as (r & k & s' & u' & Hrun' & [Hok1 Hfr _ Hm Hw Hfit] & Hk & Hk0 & _); [by constructor|].
  rewrite Hrun in Hrun'. injection Hrun' as <- <- <-. rewrite (Hk0 eq_refl) in *.
  pose proof (request_length _ _ Hq) as Hlu. pose proof (request_length _ _ Hqw) as Hlw. pose proof (fq_offset _ _ Hq) as Hou.
  destruct (write_files_vnode _ _ _ _ _ _ Hw) as [v1 Hv1]; [by exists v|].
  pose proof (inodes_lookup s x v Hv) as Hn. pose proof (inodes_lookup s1 x v1 Hv1) as Hn1.
  pose proof (Hw x) as Hwx. rewrite Hn, Hn1, decide_True in Hwx by done. destruct Hwx as [Hsize _].
  assert (0 <= sfi_size (sv_i v1) <= SFS_MAXSIZE) as Hsz1 by (rewrite Hsize; unfold grown; case_decide; lia).
  destruct (sfs_io_reads reserved accessible curas x v1 s1 w) as (s2 & w' & Hrd & [_ _ _ Hadv _ Hb]); [done..|].
  assert (readable (sv_i v1) w = uio_resid w) as Ek by (unfold readable; rewrite Hsize; unfold grown; case_decide; lia).
  rewrite Ek in *. exists s2, w'. split_and!; [done|rewrite (ad_resid _ _ _ Hadv); lia|].
  rewrite take_ge in Hb by lia. rewrite Hb, Ho, Hr. destruct (decide (uio_resid u = 0)) as [E0|E0].
  - rewrite E0. replace (uio_addrs u) with (@nil Z); [done|]. symmetry. apply nil_length_inv. lia.
  - rewrite <- (take_ge (uio_addrs u) (Z.to_nat (uio_resid u))) by lia. eapply written_bytes; [lia|apply Hfit; lia|lia|exact Hw|done|done].
Qed.

(** (C13) [sfs_bmap] records the blocks it allocates and never changes a byte of
    any file.  On a well-formed volume and any block number: with [doalloc] the
    call returns 0 and a block, [ENOSPC] (every block is in use) or [EFBIG] (past
    the indirect block, and only there); the volume is well-formed again, every
    block still has one use, every file has the same bytes and size, a hole
    reading as zeros before and after it gets a block; and a lookup without
    [doalloc] that follows returns the same block and changes nothing on disk. *)
Theorem sfs_bmap_lookup s x fileblock :
  ok s -> is_Some (sfs_vnodes s !! x) -> is_u32 fileblock ->
  exists r b s1, sfs_bmap x fileblock true s = inr ((r, b), s1) /\ ok s1 /\
    same_files (sec s) (inodes s) (sec s1) (inodes s1) /\
    (r = EFBIG <-> SFS_MAXBLOCKS <= fileblock) /\
    (r = 0 \/ r = EFBIG \/ (r = ENOSPC /\ forall c, 0 <= c < sb_nblocks s1 -> marked s1 c)) /\
    (r = 0 -> b <> 0 /\ marked s1 b /\ exists s2, sfs_bmap x fileblock false s1 = inr ((0, b), s2) /\ untouched s1 s2).
Proof. clear accessible curas.
  intros Hok [v Hv] Hf. destruct (sfs_bmap_run reserved s x v fileblock true Hok Hv Hf) as (r & b & s1 & Hrun & [Hev _ Hres _]).
  exists r, b, s1. split_and!; [done|apply Hev|apply Hev| | |].
  - destruct Hres as [(-> & Hi & _)|[(-> & Hi & _)|(-> & Hi)]]; (split; [intros [=]; lia || done|intros; lia || done]).
  - destruct Hres as [(-> & _)|[(-> & _ & _ & Hfull)|(-> & _)]]; auto.
  - intros ->. destruct Hres as [(_ & Hi & (v1 & Hv1 & Hs1) & Hb)|[([=] & _)|([=] & _)]]. specialize (Hb eq_refl). unfold is_u32 in Hf.
    pose proof (ev_ok _ _ _ Hev) as Hok1. split_and!; [done| |].
    + rewrite <- Hs1. apply (slot_marked reserved s1 x); [done|done|lia|by rewrite Hs1].
    + destruct (bmap_lookup reserved s1 x v1 fileblock Hok1 Hv1 ltac:(lia)) as (s2 & Hrun2 & _ & Hun). exists s2. by rewrite Hrun2, Hs1.
Qed.
End file.

(** ** A volume *)

(** Blocks 0 to 2 are reserved, a file without blocks. *)
#[local] Instance ex_layout : Layout := {|
  addr a := 0x80100000 + 512 * match a with iobuf => 0 | bmap_idbuf => 1 | itrunc_idbuf => 2 | metaiobuf => 3 | clear_zeros => 4 | uio_zeros => 5 end
|}.
#[local] Instance ex_device : Device (lhd_softc plain_card) := lhd_device (fun _ _ => false) None.
#[local] Instance ex_block_device : BlockDevice (lhd_softc plain_card) := lhd_block_device (fun _ _ => false) None.

Definition ex_disk : lhd_softc plain_card := mk_lhd 0xbfe08000 0 1 0 64 0 0 (mk_plain_card 64 ∅ 0).
Definition ex_inode : sfs_dinode := mk_dinode 0 1 1 (replicate 15 0) 0 (replicate 110 0).
Definition ex_volume : sfs_fs (lhd_softc plain_card) :=
  mk_sfs {[ 0x80300000 := 65; 0x80300001 := 66 ]} ex_disk (mk_bitmap 64 (7 :: replicate 7 0)) false 64
    {[ 1%positive := mk_sfs_vnode ex_inode 1 false ]} 1.
Definition ex_reserved (b : Z) : Prop := 0 <= b < 3.

Lemma ex_volume_ok : sfs_ok ex_reserved ex_volume.
Proof.
  constructor.
  - by apply plain_ready.
  - done.
  - done.
  - constructor; [done|done| |].
    + intros i w Hw. unfold zlookup in Hw. destruct (i <? 0); [done|].
      assert (Forall (fun w => 0 <= w < 256) (7 :: replicate 7 0)) as Hf by (repeat constructor; lia). by eapply Forall_lookup_1 in Hf.
    + intros i Hi. change (64 <= i < 64) in Hi. lia.
  - done.
  - intros b Hb. change (64 <= b < 64) in Hb. lia.
  - done.
  - assert (forall k b, uses (sec ex_volume) ex_reserved (inodes ex_volume) k b -> k = KOther b /\ ex_reserved b) as Hu.
    { intros [x i|x|c] b; cbn.
      - intros (n & Hn & Hi & Hs & Hb). unfold inodes in Hn. cbn in Hn. rewrite map_fmap_singleton in Hn.
        apply lookup_singleton_Some in Hn as [_ <-]. unfold slot in Hs. cbn [sfi_direct ex_inode sfi_indirect Z.eqb sv_i] in Hs.
        destruct (i <? SFS_NDIRECT); [|done]. rewrite zlookup_replicate in Hs. by destruct (decide (0 <= i < Z.of_nat 15)).
      - intros (n & Hn & Hs & Hb). unfold inodes in Hn. cbn in Hn. rewrite map_fmap_singleton in Hn.
        apply lookup_singleton_Some in Hn as [_ <-]. done.
      - by intros [-> ?]. }
    constructor.
    + intros x n Hn. unfold inodes in Hn. cbn in Hn. rewrite map_fmap_singleton in Hn. by apply lookup_singleton_Some in Hn as [_ <-].
    + intros k b [_ Hb]%Hu. unfold ex_reserved in Hb. split; [cbn; lia|].
      assert (b = 0 \/ b = 1 \/ b = 2) as [->|[->| ->]] by lia; done.
    + intros k k' b [-> _]%Hu [-> _]%Hu. done.
  - done.
  - constructor; [intros [] [] Hne; cbn; unfold SFS_BLOCKSIZE; (done || lia)|intros []; cbn; unfold SFS_BLOCKSIZE; lia].
  - reflexivity.
  - reflexivity.
Qed.

Lemma ex_request s rw off n : dv_buffer (sfs_device s) = 0xbfe08000 -> 0 <= off < 2^40 -> 0 <= n <= 4096 ->
  file_request s (uio_kinit 0x80300000 n off rw).
Proof.
  intros Hbuf Ho Hn. assert (uio_addrs (uio_kinit 0x80300000 n off rw) = span 0x80300000 n) as E.
  { unfold uio_addrs, iov_addrs, uio_kinit. cbn -[span]. rewrite app_nil_r. apply take_ge. by rewrite length_span. }
  constructor.
  - constructor; [|done..]. constructor; cbn; [|lia..|by left]. repeat constructor; cbn; lia.
  - rewrite E. apply NoDup_span.
  - rewrite E, Hbuf. intros a Ha [Hs|[[] Hs]]; rewrite !elem_span in *; cbn in Hs; unfold SFS_BLOCKSIZE in Hs; lia.
  - cbn. lia.
  - cbn. lia.
Qed.

(** Two bytes across the end of the first block of the empty file. *)
Definition ex_write : uio := uio_kinit 0x80300000 2 511 UIO_WRITE.
Definition ex_read : uio := uio_kinit 0x80300000 2 511 UIO_READ.

Lemma sfs_io_write_witness :
  exists r k s' u', sfs_io (fun _ _ => false) None 1%positive ex_write ex_volume = inr ((r, u'), s') /\
    written ex_reserved 1%positive ex_volume ex_write k s' u' /\ 0 <= k <= 2.
Proof.
  destruct (sfs_io_write ex_reserved (fun _ _ => false) None ex_volume 1%positive ex_write) as (r & k & s' & u' & Hrun & Hw & Hk & _ & _).
  - exact ex_volume_ok.
  - by eexists.
  - apply ex_request; [done|lia|lia].
  - done.
  - exists r, k, s', u'. split; [exact Hrun|]. split; [exact Hw|exact Hk].
Defined.

Lemma sfs_io_read_witness :
  exists s' u', sfs_io (fun _ _ => false) None 1%positive ex_read ex_volume = inr ((0, u'), s') /\ uio_resid u' = 2.
Proof.
  destruct (sfs_io_read ex_reserved (fun _ _ => false) None ex_volume 1%positive (mk_sfs_vnode ex_inode 1 false) ex_read) as (s' & u' & Hrun & Hd).
  - exact ex_volume_ok.
  - done.
  - done.
  - apply ex_request; [done|lia|lia].
  - done.
  - exists s', u'. split; [exact Hrun|]. rewrite (ad_resid _ _ _ (rd_advanced _ _ _ _ _ _ _ Hd)). reflexivity.
Defined.

(** The volume after the write. *)
Definition ex_written : sfs_fs (lhd_softc plain_card) :=
  match sfs_io (fun _ _ => false) None 1%positive ex_write ex_volume with inr (_, s) => s | inl _ => ex_volume end.

Lemma ex_write_runs : exists u1, sfs_io (fun _ _ => false) None 1%positive ex_write ex_volume = inr ((0, u1), ex_written).
Proof.
  assert (match sfs_io (fun _ _ => false) None 1%positive ex_write ex_volume with inr ((r, _), _) => r | inl _ => 1 end = 0) as E0 by (by vm_compute).
  unfold ex_written. revert E0. destruct (sfs_io (fun _ _ => false) None 1%positive ex_write ex_volume) as [e|[[r u1] s1]]; [intros [=]|].
  intros ->. by exists u1.
Qed.

Lemma ex_written_buffer : dv_buffer (sfs_device ex_written) = 0xbfe08000.
Proof. by vm_compute. Qed.

Lemma sfs_write_read_witness :
  exists s2 w', sfs_io (fun _ _ => false) None 1%positive ex_read ex_written = inr ((0, w'), s2) /\ uio_resid w' = 0 /\
    load (sfs_mem s2) [0x80300000; 0x80300001] = [65; 66].
Proof.
  destruct ex_write_runs as [u1 E]. apply (sfs_write_read ex_reserved (fun _ _ => false) None ex_volume 1%positive
    (mk_sfs_vnode ex_inode 1 false) ex_write ex_written u1 ex_read ex_volume_ok eq_refl).
  - cbn. unfold SFS_MAXSIZE, SFS_BLOCKSIZE, SFS_MAXBLOCKS, SFS_NDIRECT, SFS_DBPERIDB. lia.
  - apply ex_request; [reflexivity|lia|lia].
  - reflexivity.
  - exact E.
  - apply ex_request; [exact ex_written_buffer|lia|lia].
  - reflexivity.
  - reflexivity.
  - reflexivity.
Defined.

Lemma sfs_bmap_lookup_witness :
  exists r b s1, sfs_bmap 1%positive 20 true ex_volume = inr ((r, b), s1) /\ same_files (sec ex_volume) (inodes ex_volume) (sec s1) (inodes s1).
Proof.
  destruct (sfs_bmap_lookup ex_reserved ex_volume 1%positive 20) as (r & b & s1 & Hrun & _ & Hf & _).
  - exact ex_volume_ok.
  - by eexists.
  - by unfold is_u32.
  - exists r, b, s1. split; [exact Hrun|exact Hf].
Defined.

Lemma sfs_itrunc_cuts_witness :
  exists s' n', sfs_itrunc 1%positive 7680 ex_volume = inr (0, s') /\ truncated ex_reserved 1%positive 7680 ex_volume ex_inode s' n'.
Proof.
  destruct (sfs_itrunc_cuts ex_reserved ex_volume 1%positive (mk_sfs_vnode ex_inode 1 false) 7680) as (s' & n' & Hrun & Htr & _).
  - exact ex_volume_ok.
  - reflexivity.
  - lia.
  - exists s', n'. split; [exact Hrun|exact Htr].
Defined.
