(* ===== verification/SfsDir.v ===== *)
(** * The directories of SFS ([kern/fs/sfs/sfs_dir.c])

    A directory is a file of entries of 64 bytes, an inode number and a name.
    The entry a function works on is on the kernel stack, at the address [tsd]
    or [sd]; a name that comes from a caller is the list of its characters,
    without the final 0. *)

From S2P Require Import Prelude State Monad StopState Bitmap Uio Device Sfs.

#[local] Open Scope Z_scope.
#[local] Open Scope sm_scope.

Definition SFS_NAMELEN : Z := 60.
Definition SFS_NOINO : Z := 0.
Definition SFS_TYPE_INVAL : Z := 0.
Definition SFS_TYPE_FILE : Z := 1.
Definition SFS_TYPE_DIR : Z := 2.
Definition ENOENT : Z := 19.
Definition EEXIST : Z := 22.

(** [sizeof(struct sfs_direntry)], and where [sfd_name] is in it. *)
Definition DIRENTRY_SIZE : Z := 64.
Definition SFD_NAME : Z := 4.

(** [!strcmp(a, name)] for the string at address [a]. *)
Fixpoint str_equal (m : memory) (a : Z) (name : list Z) : bool :=
  match name with
  | [] => byte_at m a =? 0
  | c :: name' => (byte_at m a =? c) && str_equal m (a + 1) name'
  end.

(** What [sfs_dir_findname] has found so far: [found], and what was stored
    through [ino], [slot] and [emptyslot]. *)
Record dirhit := mk_dirhit {
  h_found : bool;
  h_ino : option Z;
  h_slot : option Z;
  h_empty : option Z
}.
Definition no_hit : dirhit := mk_dirhit false None None None.

Section dir.
Context {D : Type} {DV : Device D} {LY : Layout}.
Context (tsd sd : Z).

Notation FM := (SM (sfs_fs D)).

Definition sfs_readdir (sv : positive) (slot data : Z) : FM Z :=
  let actualpos := u32 (slot * DIRENTRY_SIZE) in
  sfs_metaio sv actualpos data DIRENTRY_SIZE UIO_READ.

Definition sfs_writedir (sv : positive) (slot data : Z) : FM Z :=
  sassert (0 <=? slot) "slot>=0" ;;
  let actualpos := u32 (slot * DIRENTRY_SIZE) in
  sfs_metaio sv actualpos data DIRENTRY_SIZE UIO_WRITE.

Definition sfs_dir_nentries (sv : positive) : FM Z :=
  v <- get_sv sv ;;
  sassert (sfi_type (sv_i v) =? SFS_TYPE_DIR) "sv->sv_i.sfi_type == SFS_TYPE_DIR" ;;
  let size := sfi_size (sv_i v) in
  if negb (size mod DIRENTRY_SIZE =? 0) then sstop (panic_called "sfs: directory: Invalid size")
  else sret (size / DIRENTRY_SIZE).

(** The loop: [n] slots are left, the next one is [i]. *)
Fixpoint findname_from (n : nat) (sv : positive) (name : list Z) (i : Z) (h : dirhit) : FM (Z * dirhit) :=
  match n with
  | O => sret (if h_found h then 0 else ENOENT, h)
  | S n' =>
      result <- sfs_readdir sv i tsd ;;
      if negb (result =? 0) then sret (result, h) else
      sfd_ino <- sget (fun s => word_at tsd 0 (sfs_mem s)) ;;
      if sfd_ino =? SFS_NOINO then
        findname_from n' sv name (i + 1) (mk_dirhit (h_found h) (h_ino h) (h_slot h) (Some i))
      else
        on_memory (smodify (store [tsd + SFD_NAME + (SFS_NAMELEN - 1)] [0])) ;;
        eq <- sget (fun s => str_equal (sfs_mem s) (tsd + SFD_NAME) name) ;;
        if (eq : bool) then
          sassert (negb (h_found h)) "found==0" ;;
          findname_from n' sv name (i + 1) (mk_dirhit true (Some sfd_ino) (Some i) (h_empty h))
        else findname_from n' sv name (i + 1) h
  end.

Definition sfs_dir_findname (sv : positive) (name : list Z) : FM (Z * dirhit) :=
  nentries <- sfs_dir_nentries sv ;;
  findname_from (Z.to_nat nentries) sv name 0 no_hit.

(** Hands back the slot with the result. *)
Definition sfs_dir_link (sv : positive) (name : list Z) (ino : Z) : FM (Z * option Z) :=
  rh <- sfs_dir_findname sv name ;;
  let '(result, h) := rh in
  if negb (result =? 0) && negb (result =? ENOENT) then sret (result, None) else
  if result =? 0 then sret (EEXIST, None) else
  if SFS_NAMELEN <? zlen name + 1 then sret (ENAMETOOLONG, None) else
  emptyslot <- match h_empty h with Some i => sret i | None => sfs_dir_nentries sv end ;;
  on_memory (bzero sd DIRENTRY_SIZE) ;;
  on_memory (smodify (set_word sd 0 ino)) ;;
  on_memory (smodify (store (span (sd + SFD_NAME) (zlen name + 1)) (name ++ [0]))) ;;
  result <- sfs_writedir sv emptyslot sd ;;
  sret (result, Some emptyslot).

Definition sfs_dir_unlink (sv : positive) (slot : Z) : FM Z :=
  on_memory (bzero sd DIRENTRY_SIZE) ;;
  on_memory (smodify (set_word sd 0 SFS_NOINO)) ;;
  sfs_writedir sv slot sd.
End dir.
