(* ===== verification/SfsMeta.v ===== *)
(** * SFS: metadata input and output

    What [sfs_metaio] does, in the terms of reads and writes of files: a request
    of the kernel for one buffer, inside one block. *)

From S2P Require Import Prelude State Monad StopState Bitmap Uio Device Sfs SfsSpec SfsBlock SfsBmap SfsRead SfsIo SfsWrite.

#[local] Open Scope Z_scope.
#[local] Open Scope sm_scope.

Lemma kinit_addrs rw data len pos : 0 <= len -> uio_addrs (uio_kinit data len pos rw) = span data len.
Proof. intros Hl. unfold uio_addrs, iov_addrs. cbn. rewrite app_nil_r. apply take_ge. rewrite length_span. lia. Qed.

Section meta.
Context {D : Type} {DV : Device D} {BD : BlockDevice D} {LY : Layout}.
Context (reserved : Z -> Prop).

Notation SS := (sfs_fs D).
Notation ok := (sfs_ok reserved).
Notation buffer s := (dv_buffer (sfs_device s)).

(** A buffer of the kernel, apart from the static areas. *)
Record meta_buffer (s : SS) (data len : Z) : Prop := mk_meta_buffer {
  mb_len : 0 <= len <= SFS_BLOCKSIZE;
  mb_apart : forall a, a ∈ span data len -> ~ static (buffer s) a
}.

Lemma meta_request s data len pos rw : meta_buffer s data len -> 0 <= pos < 2^40 -> file_request s (uio_kinit data len pos rw).
Proof. clear reserved.
  intros [Hl Ha] Hp. unfold SFS_BLOCKSIZE in Hl. constructor.
  - constructor; [|done..]. constructor; cbn; [repeat constructor; cbn; lia|lia..].
  - rewrite kinit_addrs by lia. apply NoDup_span.
  - by rewrite kinit_addrs by lia.
  - cbn. lia.
  - cbn. lia.
Qed.

(** What becomes of the request; only its existence matters. *)
Lemma meta_advanced s data len pos rw : meta_buffer s data len -> 0 <= pos < 2^40 ->
  exists u', advanced (uio_kinit data len pos rw) len u'.
Proof. clear reserved.
  intros Hm Hp. pose proof (meta_request s data len pos rw Hm Hp) as Hq. destruct Hm as [Hl _].
  destruct (run_uiomove (fun _ _ => false) None s (uio_kinit data len pos rw) (addr iobuf + 0) len) as (u' & _ & Ha);
    [eapply kernel_part; [apply Hq|cbn; lia..]|cbn; lia|eapply request_apart; [done|lia|lia]|by exists u'].
Qed.

Lemma meta_fits data len pos rw (s : SS) : meta_buffer s data len -> zlen (load (sfs_mem s) (take (Z.to_nat len) (uio_addrs (uio_kinit data len pos rw)))) = len.
Proof. clear reserved. intros [Hl _]. unfold zlen. rewrite kinit_addrs, length_load, length_take, length_span by lia. lia. Qed.

(** The block, its number in the file, and the place in it. *)
Lemma meta_place pos : 0 <= pos < 2^40 ->
  u32 (Z.quot pos SFS_BLOCKSIZE) = pos / SFS_BLOCKSIZE /\ u32 (Z.rem pos SFS_BLOCKSIZE) = pos mod SFS_BLOCKSIZE /\
  is_u32 (pos / SFS_BLOCKSIZE) /\ SFS_BLOCKSIZE * (pos / SFS_BLOCKSIZE) + pos mod SFS_BLOCKSIZE = pos /\ 0 <= pos mod SFS_BLOCKSIZE.
Proof.
  clear reserved. intros Hp. destruct (block_number pos (pos mod SFS_BLOCKSIZE)) as (E1 & H1 & E2); [lia|done|].
  split_and!; [done| |done|done|unfold SFS_BLOCKSIZE; lia]. rewrite Z.rem_mod_nonneg by (unfold SFS_BLOCKSIZE; lia).
  apply u32_small. unfold is_u32, SFS_BLOCKSIZE. lia.
Qed.

Lemma metaio_read s x v data len pos :
  ok s -> sfs_vnodes s !! x = Some v -> meta_buffer s data len -> 0 <= pos -> pos mod SFS_BLOCKSIZE + len <= SFS_BLOCKSIZE ->
  pos / SFS_BLOCKSIZE < SFS_MAXBLOCKS ->
  exists s' u', sfs_metaio x pos data len UIO_READ s = inr (0, s') /\ read_done reserved s (sv_i v) (uio_kinit data len pos UIO_READ) len s' u'.
Proof.
  intros Hok Hx Hm Hp Hfit Hmax. assert (0 <= pos < 2^40) as Hp' by (unfold SFS_BLOCKSIZE, SFS_MAXBLOCKS, SFS_NDIRECT, SFS_DBPERIDB in *; lia).
  destruct (meta_place pos Hp') as (E1 & E2 & Hi32 & Eoff & Hmod). pose proof (meta_request s data len pos UIO_READ Hm Hp') as Hq.
  destruct (meta_advanced s data len pos UIO_READ Hm Hp') as [u' Hadv]. destruct Hm as [Hl Hap].
  assert (0 <= pos / SFS_BLOCKSIZE < SFS_MAXBLOCKS) as Hi by (unfold is_u32 in Hi32; lia).
  destruct (bmap_lookup reserved s x v _ Hok Hx Hi) as (s1 & Hb & Hev1 & Hun1). pose proof (ev_ok _ _ _ Hev1) as Hok1.
  assert (file_bytes (sec s) (sv_i v) pos len =
          take (Z.to_nat len) (drop (Z.to_nat (pos mod SFS_BLOCKSIZE)) (block_bytes (sec s) (slot (sec s) (sv_i v) (pos / SFS_BLOCKSIZE))))) as Hfb.
  { rewrite <- Eoff at 1. apply file_bytes_block; [done|lia|lia|by eapply block_length]. }
  unfold sfs_metaio. rewrite srun_get, srun_assert by (apply Z.ltb_lt, Hok). rewrite E1, E2. cbn [is_write]. rewrite (srun_call _ _ _ _ _ Hb). cbn [negb Z.eqb].
  assert (forall s2 bytes, evolves reserved s s2 -> untouched s s2 -> zlen bytes = len -> bytes = file_bytes (sec s) (sv_i v) pos len ->
    read_done reserved s (sv_i v) (uio_kinit data len pos UIO_READ) len (set_mem (store (span data len) bytes (sfs_mem s2)) s2) u') as Hdone.
  { intros s2 bytes Hev Hun Hbl Hbe. unfold zlen in Hbl.
    assert (take (Z.to_nat len) (uio_addrs (uio_kinit data len pos UIO_READ)) = span data len) as Et
      by (rewrite kinit_addrs by lia; apply take_ge; rewrite length_span; lia).
    eapply read_into; [done|done|cbn; lia|exact Hev|exact Hun|exact Hadv|rewrite Et; apply changes_store|].
    rewrite Et, load_store; [exact Hbe|apply NoDup_span|rewrite length_span; lia]. }
  set (b := slot (sec s) (sv_i v) (pos / SFS_BLOCKSIZE)) in *. unfold block_bytes in Hfb. destruct (Z.eqb_spec b 0) as [Hb0|Hb0].
  - eexists _, u'. split; [rewrite srun_assert by done; unfold bzero; reflexivity|]. apply Hdone; [done|done|unfold zlen; rewrite length_replicate; lia|].
    rewrite Hfb. unfold zero_block. rewrite drop_replicate, take_replicate, Nat.min_l; [reflexivity|].
    rewrite <- Z2Nat.inj_sub by lia. apply Z2Nat.inj_le; lia.
  - destruct (slot_marked reserved s x v _ Hok Hx Hi Hb0) as [Hbr _]. fold b in Hbr.
    destruct (sfs_readblock_run reserved s1 b metaiobuf Hok1) as (m2 & d2 & Hread & Hld & Hch2 & Hd2 & Hs2);
      [by rewrite (fr_nblocks _ _ (ev_frame _ _ _ Hev1))|done|done|].
    pose proof (read_evolves reserved s1 m2 d2 Hok1 Hch2 Hd2 Hs2) as Hev2. rewrite (srun_call _ _ _ _ _ Hread). cbn [negb Z.eqb].
    eexists _, u'. split; [reflexivity|]. apply Hdone.
    + by eapply evolves_trans.
    + eapply untouched_trans; [exact Hun1|]. done.
    + unfold zlen. rewrite length_load, length_span. lia.
    + cbn [sfs_mem set_io]. rewrite (load_part _ _ _ _ SFS_BLOCKSIZE), Hld, Hfb by lia. do 2 f_equal. apply Hun1.
Qed.

Lemma metaio_write s x data len pos :
  ok s -> is_Some (sfs_vnodes s !! x) -> meta_buffer s data len -> 0 <= pos < 2^40 -> 0 < len -> pos mod SFS_BLOCKSIZE + len <= SFS_BLOCKSIZE ->
  exists r k s' u', sfs_metaio x pos data len UIO_WRITE s = inr (r, s') /\ written reserved x s (uio_kinit data len pos UIO_WRITE) k s' u' /\
    (r = 0 /\ k = len \/ r <> 0 /\ k = 0) /\ write_result r s' u' /\ (r = ENOSPC -> slot_is s x (pos / SFS_BLOCKSIZE) 0).
Proof.
  intros Hok Hx Hm Hp Hl0 Hfit. destruct (meta_place pos Hp) as (E1 & E2 & _ & Eoff & Hmod). pose proof (meta_request s data len pos UIO_WRITE Hm Hp) as Hq.
  destruct (meta_advanced s data len pos UIO_WRITE Hm Hp) as [u' Hadv]. destruct Hm as [Hl _]. set (u := uio_kinit data len pos UIO_WRITE) in *.
  assert (write_pre reserved x s u) as Hpre by (by constructor).
  destruct (bmap_for_write reserved x s u Hpre) as (r & b & s1 & Hb & Hev1 & Hwhy & Hhole & Hfound). change (uio_offset u) with pos in *.
  unfold sfs_metaio. rewrite srun_get, srun_assert by (apply Z.ltb_lt, Hok). cbn [is_write]. rewrite E2, (srun_call _ _ _ _ _ Hb).
  destruct (Z.eqb_spec r 0) as [->|Hr]; cbn [negb].
  2: { exists r, 0, s1, u. split_and!; [done| |by right|done|exact Hhole]. destruct (write_done_none reserved x s u s1 Hq Hev1). by constructor. }
  destruct (Hfound eq_refl) as (v & Hv & Hsl & Hb0 & Hi & Hbr & Hns). rewrite (proj2 (Z.eqb_neq b 0)) by done.
  assert (take (Z.to_nat len) (uio_addrs u) = span data len) as Et by (unfold u; rewrite kinit_addrs by lia; apply take_ge; rewrite length_span; lia).
  destruct (read_modify_write reserved x s u len u' s1 b v metaiobuf Hpre Hev1 Hv Hsl Hb0 Hi Hbr) as (s2 & Hread & Hdata & s3 & Hwr & Hd);
    [change (uio_resid u) with len; lia|exact Hfit|exact Hadv|discriminate|discriminate|]. change (uio_offset u) with pos in Hwr.
  rewrite Et in Hdata, Hwr. rewrite (srun_call _ _ _ _ _ Hread). cbn [negb Z.eqb].
  assert (on_memory (memmove (addr metaiobuf + pos mod SFS_BLOCKSIZE) data len) s2 =
    inr (tt, set_mem (store (span (addr metaiobuf + pos mod SFS_BLOCKSIZE) len) (load (sfs_mem s) (span data len)) (sfs_mem s2)) s2)) as Hmv
    by (unfold on_memory, memmove, smodify; by rewrite Hdata).
  rewrite (srun_call _ _ _ _ _ Hmv), (srun_call _ _ _ _ _ Hwr). cbn [negb Z.eqb].
  destruct (write_files_vnode _ _ _ _ _ _ (wd_files _ _ _ _ _ _ _ Hd) Hx) as [v3 Hv3]. rewrite (get_sv_run x v3) by done.
  pose proof (wd_fits _ _ _ _ _ _ _ Hd Hl0) as Hmax. change (uio_offset u) with pos in Hmax.
  assert (u32 (pos + len) = pos + len) as Eu by (apply u32_small; unfold is_u32, SFS_MAXSIZE, SFS_BLOCKSIZE, SFS_MAXBLOCKS, SFS_NDIRECT, SFS_DBPERIDB in *; lia).
  destruct (Z.ltb_spec (sfi_size (sv_i v3)) (pos + len)) as [Hg|Hg].
  - rewrite (srun_call _ _ _ _ _ (put_inode_run x _ v3 s3 Hv3)), Eu. exists 0, len, (put x (set_size (pos + len)) v3 s3), u'.
    split_and!; [done| |by left|by left|done]. apply size_written; [done..|]. unfold grown. rewrite decide_True by done. cbn. lia.
  - exists 0, len, s3, u'. split_and!; [done| |by left|by left|done]. by apply (size_kept _ _ _ _ _ _ _ v3).
Qed.

(** Only block [b] of the disk changed, and no block was allocated. *)
Definition only_block (b : Z) (s s' : SS) : Prop :=
  sfs_freemap s' = sfs_freemap s /\ forall c, c <> b -> sec s' c = sec s c.

(** A write into a block the file has changes that block only. *)
Lemma metaio_overwrites s x v data len pos r s' :
  ok s -> sfs_vnodes s !! x = Some v -> 0 <= pos < 2^40 -> 0 < len -> pos mod SFS_BLOCKSIZE + len <= SFS_BLOCKSIZE -> pos / SFS_BLOCKSIZE < SFS_MAXBLOCKS ->
  slot (sec s) (sv_i v) (pos / SFS_BLOCKSIZE) <> 0 -> sfs_metaio x pos data len UIO_WRITE s = inr (r, s') ->
  only_block (slot (sec s) (sv_i v) (pos / SFS_BLOCKSIZE)) s s'.
Proof.
  intros Hok Hx Hp Hl Hfit Hmax Hs0. destruct (meta_place pos Hp) as (E1 & E2 & Hi32 & _ & Hmod).
  assert (0 <= pos / SFS_BLOCKSIZE < SFS_MAXBLOCKS) as Hi by (unfold is_u32 in Hi32; lia).
  destruct (bmap_found reserved s x v _ true Hok Hx Hi (or_intror Hs0)) as (s1 & Hb & Hev1 & Ev1 & Em1 & Es1). pose proof (ev_ok _ _ _ Hev1) as Hok1.
  destruct (slot_marked reserved s x v _ Hok Hx Hi Hs0) as [Hbr _]. set (b := slot (sec s) (sv_i v) (pos / SFS_BLOCKSIZE)) in *.
  rewrite <- (fr_nblocks _ _ (ev_frame _ _ _ Hev1)) in Hbr.
  destruct (sfs_readblock_run reserved s1 b metaiobuf Hok1 Hbr) as (m2 & d2 & Hread & _ & Hch2 & Hd2 & Hs2); [done..|].
  pose proof (ev_ok _ _ _ (read_evolves reserved s1 m2 d2 Hok1 Hch2 Hd2 Hs2)) as Hok2. set (s2 := set_io m2 d2 s1) in *.
  set (m3 := store (span (addr metaiobuf + pos mod SFS_BLOCKSIZE) len) (load (sfs_mem s2) (span data len)) (sfs_mem s2)).
  assert (changes_only (scratch (buffer s2)) (sfs_mem s2) m3) as Hch3.
  { eapply changes_weaken; [|apply changes_store]. intros a Ha. right. exists metaiobuf. split_and!; [done|done|]. cbn in Ha. rewrite elem_span in *. lia. }
  destruct (sfs_writeblock_run reserved (set_mem m3 s2) b metaiobuf (ev_ok _ _ _ (mem_evolves reserved s2 m3 Hok2 Hch3)) Hbr) as (m4 & d4 & Hwr & _ & _ & Hs4).
  unfold sfs_metaio. rewrite srun_get, srun_assert by (apply Z.ltb_lt, Hok). cbn [is_write]. rewrite E1, E2, (srun_call _ _ _ _ _ Hb). cbn [negb Z.eqb].
  rewrite (proj2 (Z.eqb_neq b 0)) by done. rewrite (srun_call _ _ _ _ _ Hread). cbn [negb Z.eqb].
  assert (on_memory (memmove (addr metaiobuf + pos mod SFS_BLOCKSIZE) data len) s2 = inr (tt, set_mem m3 s2)) as Hmv by done.
  rewrite (srun_call _ _ _ _ _ Hmv), (srun_call _ _ _ _ _ Hwr). cbn [negb Z.eqb]. set (s4 := set_io m4 d4 (set_mem m3 s2)).
  assert (only_block b s s4) as Hob by (split; [exact Em1|]; intros c Hc; etrans; [apply Hs4|]; rewrite decide_False by done; etrans; [apply Hs2|apply Es1]).
  assert (sfs_vnodes s4 !! x = Some v) as Hv4 by (change (sfs_vnodes s1 !! x = Some v); by rewrite Ev1).
  rewrite (get_sv_run x v) by done. destruct (_ <? _); [rewrite (srun_call _ _ _ _ _ (put_inode_run x _ v s4 Hv4))|]; by intros [= <- <-].
Qed.
End meta.
