(* ===== verification/SfsKeeps.v ===== *)
(** * SFS: what the operations on a file never change

    The operations on the blocks and the bytes of file [x] leave the inode of
    every other file alone, and of [x] itself they keep the type, the link count,
    the number and the unused words; an inode they change is dirty.  That follows from the shape of the programs: the only step
    that changes an inode is [put_inode]. *)

From S2P Require Import Prelude State Monad StopState Bitmap Uio Device Sfs.

#[local] Open Scope Z_scope.

Create HintDb keeps.

Definition identity (v : sfs_vnode) : Z * Z * Z * list Z := (sfi_type (sv_i v), sfi_linkcount (sv_i v), sv_ino v, sfi_waste (sv_i v)).

(** [v'] is what an operation can make of [v]. *)
Record same_identity (v v' : sfs_vnode) : Prop := mk_same_identity {
  sd_identity : identity v' = identity v;
  sd_size : is_u32 (sfi_size (sv_i v)) -> is_u32 (sfi_size (sv_i v'));
  sd_dirty : v' = v \/ sv_dirty v' = true
}.

Lemma same_identity_refl v : same_identity v v.
Proof. constructor; [done|done|by left]. Qed.

Lemma same_identity_trans v1 v2 v3 : same_identity v1 v2 -> same_identity v2 v3 -> same_identity v1 v3.
Proof. intros [E1 S1 D1] [E2 S2 D2]. constructor; [congruence|auto|]. destruct D2 as [->|D2]; [done|by right]. Qed.

Section keeps.
Context {D : Type} {DV : Device D} {LY : Layout}.
Context (x : positive).

Notation SS := (sfs_fs D).

Record kept (s s' : SS) : Prop := mk_kept {
  kp_file : option_relation same_identity (fun _ => False) (fun _ => False) (sfs_vnodes s !! x) (sfs_vnodes s' !! x);
  kp_others : forall y, y <> x -> sfs_vnodes s' !! y = sfs_vnodes s !! y
}.

Lemma kept_vnodes s s' : sfs_vnodes s' = sfs_vnodes s -> kept s s'.
Proof. intros E. constructor; rewrite E; [|done]. destruct (_ !! x); [apply same_identity_refl|done]. Qed.

#[export] Instance kept_preorder : PreOrder kept.
Proof.
  split; [intros s; by apply kept_vnodes|]. intros s1 s2 s3 [E1 H1] [E2 H2]. constructor; [|intros y Hy; by rewrite H2, H1].
  destruct (sfs_vnodes s1 !! x), (sfs_vnodes s2 !! x), (sfs_vnodes s3 !! x); try done. by eapply same_identity_trans.
Qed.

(** Seen from the inode before. *)
Lemma kept_file s s' v : kept s s' -> sfs_vnodes s !! x = Some v -> exists v', sfs_vnodes s' !! x = Some v' /\ same_identity v v'.
Proof. intros [H _] Hv. rewrite Hv in H. destruct (sfs_vnodes s' !! x) as [v'|]; [|done]. by exists v'. Qed.

Definition keeps {A} (p : SM SS A) : Prop := forall s a s', p s = inr (a, s') -> kept s s'.

Lemma keeps_bind {A B} (p : SM SS A) (f : A -> SM SS B) : keeps p -> (forall a, keeps (f a)) -> keeps (sbind p f).
Proof. intros Hp Hf s b s'. unfold sbind. destruct (p s) as [|[a s1]] eqn:E; [done|]. intros E'. etrans; [by eapply Hp|by eapply Hf]. Qed.

Lemma keeps_ret {A} (a : A) : keeps (sret a).
Proof. intros s b s' [= <- <-]. by apply kept_vnodes. Qed.
Lemma keeps_stop {A} r : keeps (@sstop SS A r).
Proof. by intros s b s'. Qed.
Lemma keeps_get {A} (f : SS -> A) : keeps (sget f).
Proof. intros s b s' [= <- <-]. by apply kept_vnodes. Qed.
Lemma keeps_assert b w : keeps (@sassert SS b w).
Proof. intros s a s'. unfold sassert. destruct b; [|done]. intros [= <- <-]; by apply kept_vnodes. Qed.
Lemma keeps_deref {A} (o : option A) w : keeps (@sderef SS A o w).
Proof. intros s a s'. unfold sderef. destruct o; [|done]. intros [= <- <-]; by apply kept_vnodes. Qed.
Lemma keeps_get_sv y : keeps (@get_sv D y).
Proof. intros s a s'. unfold get_sv, sderef. destruct (_ !! y); [|done]. intros [= <- <-]; by apply kept_vnodes. Qed.
Lemma keeps_of_sum {A} (r : stop_reason + A) : keeps (@of_sum D A r).
Proof. intros s a s'. unfold of_sum. destruct r; [done|]. intros [= <- <-]; by apply kept_vnodes. Qed.
Lemma keeps_memory {A} (p : SM memory A) : keeps (@on_memory D A p).
Proof. intros s a s'. unfold on_memory. destruct (p _) as [|[]]; [done|]. intros [= <- <-]; by apply kept_vnodes. Qed.
Lemma keeps_device {A} (p : SM (memory * D) A) : keeps (on_device p).
Proof. intros s a s'. unfold on_device. destruct (p _) as [|[? []]]; [done|]. intros [= <- <-]; by apply kept_vnodes. Qed.
Lemma keeps_modify (f : SS -> SS) : (forall s, sfs_vnodes (f s) = sfs_vnodes s) -> keeps (smodify f).
Proof. intros Hf s a s' [= <- <-]. by apply kept_vnodes. Qed.
Lemma keeps_put f : (forall n, sfi_type (f n) = sfi_type n /\ sfi_linkcount (f n) = sfi_linkcount n /\ sfi_waste (f n) = sfi_waste n /\
    (is_u32 (sfi_size n) -> is_u32 (sfi_size (f n)))) -> keeps (@put_inode D x f).
Proof.
  intros Hf s a s'. unfold put_inode, get_sv, sbind, sderef. destruct (sfs_vnodes s !! x) as [v|] eqn:Hv; [|done]. intros [= <- <-].
  destruct (Hf (sv_i v)) as (E1 & E2 & E3 & E4). constructor; cbn; [|intros y Hy; by rewrite lookup_insert_ne].
  rewrite lookup_insert_eq, Hv. constructor; [unfold identity; cbn; by rewrite E1, E2, E3|done|by right].
Qed.
End keeps.

#[export] Hint Resolve keeps_ret keeps_stop keeps_get keeps_assert keeps_deref keeps_get_sv keeps_of_sum keeps_memory keeps_device : keeps.
#[export] Hint Extern 3 (keeps _ (smodify _)) => apply keeps_modify; done : keeps.
#[export] Hint Extern 3 (keeps _ (put_inode _ _)) => apply keeps_put; intros ?; split_and!; first [done|intros _; apply u32_range] : keeps.

(** Through the structure of a program, down to calls that are hints. *)
Ltac keeps_tac :=
  repeat match goal with
  | |- keeps _ (sbind _ _) => apply keeps_bind; [|intros ?]
  | |- keeps _ (if ?b then _ else _) => destruct b
  | |- keeps _ (match ?o with _ => _ end) => destruct o
  | |- keeps _ _ => solve [eauto with keeps]
  end.

Section ops.
Context {D : Type} {DV : Device D} {LY : Layout}.
Context (accessible : bool -> Z -> bool) (curas : option positive) (x : positive).

Lemma rwblock_keeps u : keeps (D := D) x (sfs_rwblock u).
Proof. unfold sfs_rwblock. keeps_tac. generalize 10%nat. intros n. revert u. induction n; intros u; cbn; keeps_tac; auto. Qed.
#[local] Hint Resolve rwblock_keeps : keeps.
Lemma readblock_keeps b data len : keeps (D := D) x (sfs_readblock b data len).
Proof. unfold sfs_readblock. keeps_tac. Qed.
Lemma writeblock_keeps b data len : keeps (D := D) x (sfs_writeblock b data len).
Proof. unfold sfs_writeblock. keeps_tac. Qed.
#[local] Hint Resolve readblock_keeps writeblock_keeps : keeps.
Lemma balloc_keeps : keeps (D := D) x sfs_balloc.
Proof. unfold sfs_balloc, sfs_clearblock. keeps_tac. Qed.
Lemma bfree_keeps b : keeps (D := D) x (sfs_bfree b).
Proof. unfold sfs_bfree. keeps_tac. Qed.
Lemma bused_keeps b : keeps (D := D) x (sfs_bused b).
Proof. unfold sfs_bused. keeps_tac. Qed.
#[local] Hint Resolve balloc_keeps bfree_keeps bused_keeps : keeps.
Lemma bmap_keeps i doalloc : keeps (D := D) x (sfs_bmap x i doalloc).
Proof. unfold sfs_bmap, bmap_direct, bmap_entry, hand_back. keeps_tac. Qed.
#[local] Hint Resolve bmap_keeps : keeps.
Lemma metaio_keeps pos data len rw : keeps (D := D) x (sfs_metaio x pos data len rw).
Proof. unfold sfs_metaio. keeps_tac. Qed.
Lemma partialio_keeps u skip len : keeps (D := D) x (sfs_partialio accessible curas x u skip len).
Proof. unfold sfs_partialio. keeps_tac. Qed.
Lemma blockio_keeps u : keeps (D := D) x (sfs_blockio accessible curas x u).
Proof. unfold sfs_blockio. keeps_tac. Qed.
#[local] Hint Resolve partialio_keeps blockio_keeps : keeps.
Lemma io_keeps u : keeps (D := D) x (sfs_io accessible curas x u).
Proof.
  assert (forall n w, keeps (D := D) x (sfs_io_blocks accessible curas n x w)) as Hb by (induction n; intros w; cbn; keeps_tac; auto).
  assert (forall w a b, keeps (D := D) x (sfs_io_out accessible curas x w a b)) as Ho
    by (intros w a b; unfold sfs_io_out, sfs_io_transfer, sfs_io_last; keeps_tac; auto).
  unfold sfs_io. keeps_tac; auto.
Qed.
Lemma itrunc_keeps len : keeps (D := D) x (sfs_itrunc x len).
Proof.
  assert (forall n i b, keeps (D := D) x (itrunc_direct n x i b)) as H1 by (induction n; intros i b; cbn; keeps_tac; auto).
  assert (forall n j b h d, keeps (D := D) x (itrunc_indirect n j b h d)) as H2 by (induction n; intros j b h d; cbn; keeps_tac; auto).
  unfold sfs_itrunc, vfs_biglock_acquire, vfs_biglock_release. keeps_tac; auto.
Qed.
End ops.

#[export] Hint Resolve readblock_keeps writeblock_keeps balloc_keeps bfree_keeps bused_keeps bmap_keeps metaio_keeps io_keeps itrunc_keeps : keeps.
