(* ===== verification/SfsDirSpec.v ===== *)
(** * SFS: directories as finite maps

    The entries of a directory, in the order of their slots, are a list; the
    entries in use are a map from names to inode numbers.  [sfs_dir_findname] is
    the lookup of that map, [sfs_dir_link] inserts into it and [sfs_dir_unlink]
    deletes from it. *)

From S2P Require Import Prelude State Monad StopState Bitmap Uio Device Sfs SfsSpec SfsBlock SfsBmap SfsRead SfsIo SfsWrite SfsMeta SfsKeeps SfsDir.

#[local] Open Scope Z_scope.
#[local] Open Scope sm_scope.

(** ** Strings and entries *)

(** Up to the first 0. *)
Fixpoint cstr (l : list Z) : list Z :=
  match l with
  | [] => []
  | c :: l' => if c =? 0 then [] else c :: cstr l'
  end.

(** The string of a caller. *)
Definition is_name (name : list Z) : Prop := Forall (fun c => c <> 0) name.

Lemma cstr_app name l : is_name name -> cstr (name ++ 0 :: l) = name.
Proof. induction 1 as [|c name Hc _ IH]; [done|]. cbn. rewrite (proj2 (Z.eqb_neq c 0) Hc). by f_equal. Qed.

Lemma span_cons a k : 0 <= k -> span a (k + 1) = a :: span (a + 1) k.
Proof. intros Hk. rewrite (Z.add_comm k 1), span_app, span_one by lia. done. Qed.

Lemma load_cons m a l : load m (a :: l) = byte_at m a :: load m l.
Proof. done. Qed.

(** The string in [k] bytes that a 0 follows. *)
Lemma str_equal_cstr m name : is_name name -> forall k a, byte_at m (a + Z.of_nat k) = 0 ->
  str_equal m a name = bool_decide (cstr (load m (span a (Z.of_nat k))) = name).
Proof.
  induction 1 as [|c name Hc _ IH]; intros [|k] a H0; cbn [str_equal].
  - rewrite Z.add_0_r in H0. rewrite H0. by rewrite bool_decide_true.
  - rewrite Nat2Z.inj_succ, <- Z.add_1_r, span_cons by lia. rewrite load_cons. cbn [cstr]. destruct (byte_at m a =? 0); [by rewrite bool_decide_true|by rewrite bool_decide_false].
  - rewrite Z.add_0_r in H0. rewrite H0, (proj2 (Z.eqb_neq 0 c)) by congruence. symmetry. by apply bool_decide_eq_false.
  - rewrite Nat2Z.inj_succ, <- Z.add_1_r, span_cons by lia. rewrite load_cons. cbn [cstr]. rewrite (IH k) by (rewrite <- H0; f_equal; lia).
    destruct (Z.eqb_spec (byte_at m a) c) as [->|Hne]; cbn.
    + rewrite (proj2 (Z.eqb_neq c 0) Hc). by apply bool_decide_ext; split; [intros ->|intros [= ->]].
    + symmetry. apply bool_decide_eq_false. destruct (byte_at m a =? 0); [done|]. by intros [= ? ?].
Qed.

Abbreviation dirent := (prod Z (list Z)) (only parsing).

(** The entry in 64 bytes; the last byte of the name is not looked at. *)
Definition decode_dirent (l : list Z) : dirent :=
  (bytes_word (take 4 l), cstr (take 59 (drop 4 l))).

Definition encode_dirent (e : dirent) : list Z :=
  word_bytes (fst e) ++ snd e ++ replicate (Z.to_nat (SFS_NAMELEN - zlen (snd e))) 0.

Lemma length_encode e : zlen (snd e) < SFS_NAMELEN -> zlen (encode_dirent e) = DIRENTRY_SIZE.
Proof. intros He. unfold encode_dirent, zlen, SFS_NAMELEN, DIRENTRY_SIZE in *. rewrite !length_app, length_replicate. cbn [length word_bytes]. lia. Qed.

Lemma decode_encode ino name : is_u32 ino -> is_name name -> zlen name < SFS_NAMELEN -> decode_dirent (encode_dirent (ino, name)) = (ino, name).
Proof.
  intros Hi Hn Hl. unfold decode_dirent, encode_dirent, zlen, SFS_NAMELEN in *. cbn [fst snd].
  rewrite take_app_length', drop_app_length' by done. f_equal; [by apply bytes_word_roundtrip|].
  rewrite take_app_ge, take_replicate by lia.
  replace (_ `min` _)%nat with (S (Z.to_nat (59 - Z.of_nat (length name)) - 1) - (if decide (length name = 59%nat) then 1 else 0))%nat by (case_decide; lia).
  case_decide as E.
  - rewrite E. cbn. rewrite app_nil_r. clear -Hn. induction Hn as [|c name Hc _ IH]; [done|]. cbn. rewrite (proj2 (Z.eqb_neq c 0) Hc). by f_equal.
  - rewrite Nat.sub_0_r. cbn [replicate]. by apply cstr_app.
Qed.

(** ** Lists of entries *)

Definition live (e : dirent) : Prop := fst e <> SFS_NOINO.

#[export] Instance live_dec e : Decision (live e).
Proof. unfold live. apply _. Defined.

Definition names_distinct (L : list dirent) : Prop :=
  forall i j e e', L !! i = Some e -> L !! j = Some e' -> live e -> live e' -> snd e = snd e' -> i = j.

(** What the directory maps names to. *)
Definition dir_map (L : list dirent) : gmap (list Z) Z := list_to_map (prod_swap <$> filter live L).

Lemma names_distinct_tail e L : names_distinct (e :: L) ->
  names_distinct L /\ (live e -> forall j e', L !! j = Some e' -> live e' -> snd e' <> snd e).
Proof.
  intros H. split.
  - intros i j e1 e2 H1 H2 L1 L2 E. by injection (H (S i) (S j) e1 e2 H1 H2 L1 L2 E).
  - intros Le j e' Hj Le' E. by discriminate (H (S j) 0%nat e' e Hj eq_refl Le' Le E).
Qed.

Lemma dir_map_lookup L name ino : names_distinct L ->
  dir_map L !! name = Some ino <-> ino <> SFS_NOINO /\ exists j, L !! j = Some (ino, name).
Proof.
  intros H. unfold dir_map. rewrite <- elem_of_list_to_map.
  - rewrite list_elem_of_fmap. split.
    + intros ([i n] & [= -> ->] & [Hl [j Hj]%list_elem_of_lookup_1]%list_elem_of_filter). split; [done|by exists j].
    + intros [Hi [j Hj]]. exists (ino, name). split; [done|]. apply list_elem_of_filter. split; [done|by eapply list_elem_of_lookup_2].
  - rewrite <- list_fmap_compose. induction L as [|e L IH]; [constructor|]. destruct (names_distinct_tail e L H) as [HL He].
    rewrite filter_cons. case_decide as Hl; [|by apply IH]. cbn. constructor; [|by apply IH].
    intros ([i n] & E & [Hl' [j Hj]%list_elem_of_lookup_1]%list_elem_of_filter)%list_elem_of_fmap. cbn in E. by apply (He Hl j (i, n)).
Qed.

Lemma dir_map_ext L M : names_distinct L -> (forall name ino, M !! name = Some ino <-> ino <> SFS_NOINO /\ exists j, L !! j = Some (ino, name)) ->
  dir_map L = M.
Proof. intros H HM. apply map_eq. intros name. apply option_eq. intros ino. by rewrite dir_map_lookup, HM. Qed.

Lemma dir_map_none L name : names_distinct L -> dir_map L !! name = None -> forall j ino, L !! j = Some (ino, name) -> ino = SFS_NOINO.
Proof.
  intros H Hn j ino Hj. destruct (decide (ino = SFS_NOINO)) as [|Hi]; [done|].
  assert (dir_map L !! name = Some ino) by (apply dir_map_lookup; [done|]; split; [done|by exists j]). congruence.
Qed.

(** [L'] is [L] with slot [e] set. *)
Definition slot_set (L : list dirent) (e : nat) (d : dirent) (L' : list dirent) : Prop :=
  forall j, L' !! j = if decide (j = e) then Some d else L !! j.

Lemma dir_map_put L L' e ino name :
  names_distinct L -> slot_set L e (ino, name) L' -> (forall d, L !! e = Some d -> ~ live d) -> ino <> SFS_NOINO -> dir_map L !! name = None ->
  names_distinct L' /\ dir_map L' = <[name := ino]> (dir_map L).
Proof.
  intros H Hs He Hi Hn. pose proof (dir_map_none L name H Hn) as Hnone.
  assert (names_distinct L') as H'.
  { intros i j [a1 n1] [a2 n2]. rewrite !Hs. unfold live. cbn. case_decide as E1; case_decide as E2; [by subst| | |by apply H].
    - intros [= <- <-] H2 L1 L2 <-. destruct L2. by eapply Hnone.
    - intros H1 [= <- <-] L1 L2 ->. destruct L1. by eapply Hnone. }
  split; [done|]. apply dir_map_ext; [done|]. intros n i. destruct (decide (n = name)) as [->|Hne].
  - rewrite lookup_insert_eq. split; [intros [= <-]; split; [done|]; exists e; by rewrite Hs, decide_True|].
    intros [Hi' [j Hj]]. rewrite Hs in Hj. case_decide; [congruence|]. by destruct Hi'; eapply Hnone.
  - rewrite lookup_insert_ne, dir_map_lookup by done. split; intros [Hi' [j Hj]]; (split; [done|]); exists j; rewrite Hs in *; case_decide as Ej; try done; try congruence.
    subst j. by destruct (He _ Hj).
Qed.

Lemma dir_map_del L L' e ino name :
  names_distinct L -> L !! e = Some (ino, name) -> ino <> SFS_NOINO -> slot_set L e (SFS_NOINO, []) L' ->
  names_distinct L' /\ dir_map L' = delete name (dir_map L).
Proof.
  intros H He Hi Hs.
  assert (names_distinct L') as H'.
  { intros i j [a1 n1] [a2 n2]. rewrite !Hs. unfold live. cbn. case_decide; case_decide; [by subst| | |by apply H]; [by intros [= <- <-]|by intros _ [= <- <-]]. }
  split; [done|]. apply dir_map_ext; [done|]. intros n i. rewrite lookup_delete_Some, dir_map_lookup by done. split.
  - intros (Hne & Hi' & j & Hj). split; [done|]. exists j. rewrite Hs. case_decide; [congruence|done].
  - intros [Hi' [j Hj]]. rewrite Hs in Hj. case_decide as Ej; [by injection Hj as <- <-|]. split_and!; [|done|by exists j].
    intros ->. apply Ej. by apply (H j e (i, n) (ino, n)).
Qed.

(** ** The search *)

(** What the loop finds in the entries [L], the first of which is slot [i]. *)
Fixpoint scan (name : list Z) (L : list dirent) (i : Z) (h : dirhit) : dirhit :=
  match L with
  | [] => h
  | (ino, n) :: L' =>
      scan name L' (i + 1)
        (if ino =? SFS_NOINO then mk_dirhit (h_found h) (h_ino h) (h_slot h) (Some i)
         else if bool_decide (n = name) then mk_dirhit true (Some ino) (Some i) (h_empty h) else h)
  end.

(** No other entry in use has the name, if one was found. *)
Definition found_once (name : list Z) (L : list dirent) (h : dirhit) : Prop :=
  h_found h = true -> forall j e, L !! j = Some e -> live e -> snd e <> name.

Definition hit_of (h : dirhit) : bool * option Z * option Z := (h_found h, h_ino h, h_slot h).

Lemma scan_absent name L : (forall j ino, L !! j = Some (ino, name) -> ino = SFS_NOINO) -> forall i h, hit_of (scan name L i h) = hit_of h.
Proof.
  induction L as [|[ino n] L IH]; intros Ha i h; [done|]. cbn. rewrite IH by (intros j; apply (Ha (S j))).
  destruct (Z.eqb_spec ino SFS_NOINO); [done|]. case_bool_decide as E; [|done]. subst n. by destruct (Ha 0%nat ino).
Qed.

Lemma scan_present name L : names_distinct L -> forall i h j ino, L !! j = Some (ino, name) -> ino <> SFS_NOINO ->
  hit_of (scan name L i h) = (true, Some ino, Some (i + Z.of_nat j)).
Proof.
  induction L as [|[a n] L IH]; intros Hd i h j ino Hj Hi; [done|]. destruct (names_distinct_tail _ _ Hd) as [HL Hf]. cbn. destruct j as [|j].
  - injection Hj as -> ->. rewrite (proj2 (Z.eqb_neq ino SFS_NOINO)), bool_decide_true by done. rewrite scan_absent; [cbn; by rewrite Z.add_0_r|].
    intros j b Hj. destruct (decide (b = SFS_NOINO)); [done|]. by destruct (Hf Hi j (b, name)).
  - rewrite (IH HL _ _ j ino Hj Hi). do 2 f_equal. lia.
Qed.

(** The empty slot: the last one, if there is any. *)
Lemma scan_empty name L : forall i h,
  match h_empty (scan name L i h) with
  | Some e => h_empty h = Some e \/ exists j n, e = i + Z.of_nat j /\ L !! j = Some (SFS_NOINO, n)
  | None => h_empty h = None
  end.
Proof.
  induction L as [|[a n] L IH]; intros i h; cbn; [destruct (h_empty h); auto|].
  specialize (IH (i + 1) (if a =? SFS_NOINO then mk_dirhit (h_found h) (h_ino h) (h_slot h) (Some i)
    else if bool_decide (n = name) then mk_dirhit true (Some a) (Some i) (h_empty h) else h)).
  destruct (h_empty _) as [e|].
  - destruct IH as [IH|(j & n' & -> & Hj)]; [|right; exists (S j), n'; split; [lia|done]].
    destruct (Z.eqb_spec a SFS_NOINO) as [->|]; [|left; by case_bool_decide].
    cbn in IH. injection IH as <-. right. exists 0%nat, n. split; [lia|done].
  - destruct (a =? SFS_NOINO); [done|]. by case_bool_decide.
Qed.

Lemma found_once_step name ino n L i h : names_distinct ((ino, n) :: L) -> found_once name ((ino, n) :: L) h ->
  found_once name L (if ino =? SFS_NOINO then mk_dirhit (h_found h) (h_ino h) (h_slot h) (Some i)
    else if bool_decide (n = name) then mk_dirhit true (Some ino) (Some i) (h_empty h) else h).
Proof.
  intros Hd Ho. destruct (names_distinct_tail _ _ Hd) as [_ Hf]. destruct (Z.eqb_spec ino SFS_NOINO) as [_|Hi]; [intros Hh j e; by apply (Ho Hh (S j) e)|].
  case_bool_decide as E; [|intros Hh j e; by apply (Ho Hh (S j) e)]. subst n. intros _ j e Hj Hl. by apply (Hf Hi j e).
Qed.

Section search.
Context {D : Type} {DV : Device D} {BD : BlockDevice D} {LY : Layout}.
Context (reserved : Z -> Prop) (tsd : Z).

Notation SS := (sfs_fs D).
Notation ok := (sfs_ok reserved).
Notation buffer s := (dv_buffer (sfs_device s)).

(** The entries of a directory. *)
Definition dirents (sec : Z -> list Z) (n : sfs_dinode) : list dirent :=
  (fun j => decode_dirent (file_bytes sec n (DIRENTRY_SIZE * Z.of_nat j) DIRENTRY_SIZE)) <$> seq 0 (Z.to_nat (sfi_size n / DIRENTRY_SIZE)).

(** [x] is a directory with the entries [L]. *)
Definition has_entries (s : SS) (x : positive) (L : list dirent) : Prop :=
  exists v, sfs_vnodes s !! x = Some v /\ sfi_type (sv_i v) = SFS_TYPE_DIR /\
    sfi_size (sv_i v) = DIRENTRY_SIZE * zlen L /\ L = dirents (sec s) (sv_i v).

Record is_dir (s : SS) (x : positive) (L : list dirent) : Prop := mk_is_dir {
  id_entries : has_entries s x L;
  id_size : DIRENTRY_SIZE * zlen L <= SFS_MAXSIZE;
  id_distinct : names_distinct L
}.

(** The disk is what it was; in memory, the areas and the entry changed. *)
Record looked (s s' : SS) : Prop := mk_looked {
  lk_ok : ok s';
  lk_frame : frame s s';
  lk_untouched : untouched s s';
  lk_mem : changes_only (fun a => scratch (buffer s) a \/ a ∈ span tsd DIRENTRY_SIZE) (sfs_mem s) (sfs_mem s')
}.

Lemma looked_refl s : ok s -> looked s s.
Proof. intros Hok. constructor; [done|apply frame_refl|apply untouched_refl|intros a Ha; by destruct Ha]. Qed.

Lemma looked_trans s1 s2 s3 : looked s1 s2 -> looked s2 s3 -> looked s1 s3.
Proof.
  intros [Ho1 Hf1 Hu1 Hm1] [Ho2 Hf2 Hu2 Hm2]. constructor; [done|by eapply frame_trans|by eapply untouched_trans|].
  rewrite (fr_buffer _ _ Hf1) in Hm2. by eapply changes_only_trans.
Qed.

Lemma dirents_ext f g n : (forall c, g c = f c) -> dirents g n = dirents f n.
Proof. clear reserved tsd. intros H. apply list_fmap_ext. intros i j _. apply (f_equal decode_dirent), file_bytes_ext, H. Qed.

Lemma is_dir_looked s s' x L : is_dir s x L -> looked s s' -> is_dir s' x L.
Proof.
  intros [(v & Hv & Ht & Hs & HL) Hsz Hd] [_ _ (Ev & _ & Es) _]. constructor; [|done|done]. exists v. rewrite Ev.
  split_and!; [exact Hv|exact Ht|exact Hs|]. by rewrite (dirents_ext (sec s)).
Qed.

Lemma meta_buffer_frame (s s' : SS) data len : meta_buffer s data len -> frame s s' -> meta_buffer s' data len.
Proof. clear reserved tsd. intros [Hl Ha] Hf. constructor; [done|]. by rewrite (fr_buffer _ _ Hf). Qed.

Lemma sfs_readdir_run s x v i :
  ok s -> sfs_vnodes s !! x = Some v -> meta_buffer s tsd DIRENTRY_SIZE -> 0 <= i -> DIRENTRY_SIZE * (i + 1) <= SFS_MAXSIZE ->
  exists s', sfs_readdir x i tsd s = inr (0, s') /\ looked s s' /\
    load (sfs_mem s') (span tsd DIRENTRY_SIZE) = file_bytes (sec s) (sv_i v) (DIRENTRY_SIZE * i) DIRENTRY_SIZE.
Proof.
  intros Hok Hv Hm Hi Hmax. unfold sfs_readdir.
  assert (u32 (i * DIRENTRY_SIZE) = DIRENTRY_SIZE * i) as ->.
  { rewrite Z.mul_comm. apply u32_small. unfold is_u32, DIRENTRY_SIZE, SFS_MAXSIZE, SFS_BLOCKSIZE, SFS_MAXBLOCKS, SFS_NDIRECT, SFS_DBPERIDB in *. lia. }
  destruct (metaio_read reserved s x v tsd DIRENTRY_SIZE (DIRENTRY_SIZE * i) Hok Hv Hm) as (s' & u' & Hrun & [Ho Hf Hu _ Hmem Hb]);
    [unfold DIRENTRY_SIZE, SFS_MAXSIZE, SFS_BLOCKSIZE in *; lia..|].
  rewrite kinit_addrs, take_ge in Hmem, Hb by (rewrite ?length_span; done). exists s'. split; [exact Hrun|]. split; [by constructor|exact Hb].
Qed.

(** The entry on the stack is written. *)
Lemma scribbled s m' : ok s -> meta_buffer s tsd DIRENTRY_SIZE -> changes_only (.∈ span tsd DIRENTRY_SIZE) (sfs_mem s) m' -> looked s (set_mem m' s).
Proof.
  intros Hok Hm Hch. destruct (ok_mem reserved s m' Hok) as [Hok' Hfr].
  { eapply changes_weaken; [|exact Hch]. intros a Ha. pose proof (mb_apart _ _ _ Hm _ Ha) as Hn.
    split; intros H; apply Hn; right; [by exists clear_zeros|by exists uio_zeros]. }
  constructor; [done|done|done|]. eapply changes_weaken; [|exact Hch]. by right.
Qed.

(** The name in the entry is made to end. *)
Lemma terminate_name s : ok s -> meta_buffer s tsd DIRENTRY_SIZE ->
  let s' := set_mem (store [tsd + SFD_NAME + (SFS_NAMELEN - 1)] [0] (sfs_mem s)) s in
  looked s s' /\ forall name, is_name name ->
    str_equal (sfs_mem s') (tsd + SFD_NAME) name = bool_decide (snd (decode_dirent (load (sfs_mem s) (span tsd DIRENTRY_SIZE))) = name).
Proof.
  intros Hok Hm s'. unfold SFD_NAME, SFS_NAMELEN in *.
  assert (changes_only (.∈ [tsd + 4 + (60 - 1)]) (sfs_mem s) (sfs_mem s')) as Hch by apply changes_store.
  assert (tsd + 4 + (60 - 1) ∈ span tsd DIRENTRY_SIZE) as Hin by (apply elem_span; unfold DIRENTRY_SIZE; lia).
  split; [apply scribbled; [done|done|]; eapply changes_weaken; [|exact Hch]; by intros a ->%list_elem_of_singleton|].
  intros name Hn. rewrite (str_equal_cstr _ _ Hn 59); [|unfold byte_at; cbn; by rewrite lookup_insert_eq].
  assert (load (sfs_mem s') (span (tsd + 4) 59) = take 59 (drop 4 (load (sfs_mem s) (span tsd DIRENTRY_SIZE)))) as E.
  { etrans; [|exact (load_part (sfs_mem s) tsd 4 59 64 ltac:(lia) ltac:(lia) ltac:(lia))].
    apply (load_kept _ _ _ _ Hch). intros a Ha%elem_span ->%list_elem_of_singleton. lia. }
  change (Z.of_nat 59) with 59. by rewrite E.
Qed.

Lemma dirents_lookup f n j e : dirents f n !! j = Some e ->
  e = decode_dirent (file_bytes f n (DIRENTRY_SIZE * Z.of_nat j) DIRENTRY_SIZE) /\ Z.of_nat j < sfi_size n / DIRENTRY_SIZE.
Proof. clear reserved tsd.
  unfold dirents. intros (k & -> & [-> Hk]%lookup_seq)%list_lookup_fmap_Some. split; [done|lia].
Qed.

Lemma names_distinct_drop k L : names_distinct L -> names_distinct (drop k L).
Proof. clear reserved tsd. intros H i j e e'. rewrite !lookup_drop. intros H1 H2 L1 L2 E. specialize (H _ _ _ _ H1 H2 L1 L2 E). lia. Qed.

Lemma findname_from_run x name L : is_name name -> forall n i h s,
  ok s -> is_dir s x L -> meta_buffer s tsd DIRENTRY_SIZE -> 0 <= i -> i + Z.of_nat n = zlen L -> found_once name (drop (Z.to_nat i) L) h ->
  let h' := scan name (drop (Z.to_nat i) L) i h in
  exists s', findname_from tsd n x name i h s = inr ((if h_found h' then 0 else ENOENT, h'), s') /\ looked s s'.
Proof.
  intros Hname. induction n as [|n IH]; intros i h s Hok Hdir Hm Hi En Honce.
  - rewrite drop_ge by (unfold zlen in En; lia). exists s. split; [done|by apply looked_refl].
  - pose proof Hdir as [(v & Hv & Ht & Hsz & HL) Hmax Hdist].
    destruct (sfs_readdir_run s x v i Hok Hv Hm Hi) as (s1 & Hrd & Hlk & Hbytes); [unfold DIRENTRY_SIZE in Hmax |- *; lia|].
    destruct (lookup_lt_is_Some_2 L (Z.to_nat i)) as [[ino nm] He]; [unfold zlen in En; lia|].
    rewrite (drop_S _ _ _ He) in Honce |- *.
    assert ((ino, nm) = decode_dirent (load (sfs_mem s1) (span tsd DIRENTRY_SIZE))) as Ee.
    { rewrite HL in He. apply dirents_lookup in He as [-> _]. rewrite Hbytes. by rewrite Z2Nat.id. }
    assert (names_distinct ((ino, nm) :: drop (S (Z.to_nat i)) L)) as Hd1.
    { pose proof (names_distinct_drop (Z.to_nat i) L Hdist) as Hd1. by rewrite (drop_S _ _ _ He) in Hd1. }
    cbn [findname_from]. rewrite (srun_call _ _ _ _ _ Hrd). cbn [negb Z.eqb]. rewrite srun_get.
    assert (word_at tsd 0 (sfs_mem s1) = ino) as ->.
    { injection Ee as -> _. unfold word_at. rewrite (load_part _ tsd (4 * 0) 4 DIRENTRY_SIZE) by (unfold DIRENTRY_SIZE; lia). done. }
    pose proof (found_once_step name ino nm _ i h Hd1 Honce) as Honce'. replace (S (Z.to_nat i)) with (Z.to_nat (i + 1)) in * by lia.
    pose proof (meta_buffer_frame _ _ _ _ Hm (lk_frame _ _ Hlk)) as Hm1. pose proof (lk_ok _ _ Hlk) as Hok1. cbn [scan].
    destruct (Z.eqb_spec ino SFS_NOINO) as [Hz|Hnz].
    + destruct (IH (i + 1) _ s1 Hok1 (is_dir_looked _ _ _ _ Hdir Hlk) Hm1 ltac:(lia) ltac:(lia) Honce') as (s' & Hrun & Hlk').
      exists s'. split; [exact Hrun|by eapply looked_trans].
    + destruct (terminate_name s1 Hok1 Hm1) as [Hlk2 Heq]. specialize (Heq name Hname). rewrite <- Ee in Heq. cbn [snd] in Heq.
      set (s2 := set_mem _ s1) in *. pose proof (looked_trans _ _ _ Hlk Hlk2) as Hlk12.
      assert (on_memory (smodify (store [tsd + SFD_NAME + (SFS_NAMELEN - 1)] [0])) s1 = inr (tt, s2)) as Hst by done.
      rewrite (srun_call _ _ _ _ _ Hst), srun_get, Heq.
      destruct (IH (i + 1) _ s2 (lk_ok _ _ Hlk12) (is_dir_looked _ _ _ _ Hdir Hlk12) (meta_buffer_frame _ _ _ _ Hm (lk_frame _ _ Hlk12)) ltac:(lia) ltac:(lia) Honce')
        as (s' & Hrun & Hlk').
      exists s'. split; [|by eapply looked_trans]. case_bool_decide as E; [|exact Hrun]. rewrite srun_assert; [exact Hrun|].
      destruct (h_found h) eqn:Hh; [|done]. by destruct (Honce Hh 0%nat (ino, nm)).
Qed.

Lemma sfs_dir_nentries_run s x L : is_dir s x L -> sfs_dir_nentries x s = inr (zlen L, s).
Proof. clear reserved tsd.
  intros [(v & Hv & Ht & Hsz & _) _ _]. unfold sfs_dir_nentries. rewrite (get_sv_run x v) by done. rewrite srun_assert by (by apply Z.eqb_eq).
  rewrite Hsz, Z.mul_comm, Z.mod_mul, Z.div_mul by done. done.
Qed.

Lemma sfs_dir_findname_run s x L name : ok s -> is_dir s x L -> meta_buffer s tsd DIRENTRY_SIZE -> is_name name ->
  let h := scan name L 0 no_hit in
  exists s', sfs_dir_findname tsd x name s = inr ((if h_found h then 0 else ENOENT, h), s') /\ looked s s'.
Proof.
  intros Hok Hdir Hm Hn. unfold sfs_dir_findname. rewrite (srun_call _ _ _ _ _ (sfs_dir_nentries_run s x L Hdir)).
  apply (findname_from_run x name L Hn (Z.to_nat (zlen L)) 0 no_hit s); try done; [unfold zlen; lia].
Qed.
End search.

(** ** Writing an entry *)

(** The entries after 64 bytes were overwritten at slot [e]. *)
Lemma entries_written f n f' n' L e data :
  sfi_size n = DIRENTRY_SIZE * zlen L -> L = dirents f n -> zlen data = DIRENTRY_SIZE -> 0 <= e <= zlen L ->
  sfi_size n' = Z.max (sfi_size n) (DIRENTRY_SIZE * e + DIRENTRY_SIZE) -> sfi_size n' <= SFS_MAXSIZE ->
  (forall p, 0 <= p < SFS_MAXSIZE -> file_byte f' n' p = overwritten (file_byte f n) (DIRENTRY_SIZE * e) data p) ->
  slot_set L (Z.to_nat e) (decode_dirent data) (dirents f' n') /\ sfi_size n' = DIRENTRY_SIZE * zlen (dirents f' n').
Proof.
  intros Hn HL Hd He Hn' Hmax Hb.
  assert (0 < DIRENTRY_SIZE) as Hpos by done. assert (sfi_size n / DIRENTRY_SIZE = zlen L) as Edn by (rewrite Hn, Z.mul_comm; by apply Z.div_mul).
  assert (sfi_size n' / DIRENTRY_SIZE = Z.max (zlen L) (e + 1)) as Edn'.
  { rewrite Hn', Hn. unfold DIRENTRY_SIZE. lia. }
  assert (zlen (dirents f' n') = Z.max (zlen L) (e + 1)) as Elen.
  { unfold zlen at 1, dirents. rewrite length_fmap, length_seq, Edn'. lia. }
  split; [|rewrite Elen, Hn', Hn; unfold DIRENTRY_SIZE; lia].
  intros j. destruct (decide (Z.of_nat j < Z.max (zlen L) (e + 1))) as [Hj|Hj].
  - unfold dirents. rewrite list_lookup_fmap, lookup_seq_lt by lia. cbn [fmap option_fmap option_map]. rewrite Nat.add_0_l. case_decide as E.
    + apply (f_equal Some), (f_equal decode_dirent). rewrite <- Hd at 2. subst j. rewrite Z2Nat.id by lia. apply (file_bytes_overwritten _ _ (file_byte f n)).
      intros p Hp. apply Hb. rewrite Hd in Hp. unfold DIRENTRY_SIZE in *. lia.
    + rewrite HL. unfold dirents. rewrite list_lookup_fmap, Edn, lookup_seq_lt by lia. cbn [fmap option_fmap option_map].
      apply (f_equal Some), (f_equal decode_dirent), file_bytes_kept. intros p Hp. rewrite Hb by (unfold DIRENTRY_SIZE in *; lia). unfold overwritten. rewrite decide_False; [done|].
      rewrite Hd. unfold DIRENTRY_SIZE in *. lia.
  - rewrite decide_False by lia. rewrite !lookup_ge_None_2; [done|unfold zlen in *; lia..].
Qed.

Lemma dirents_kept f n f' n' : sfi_size n' = sfi_size n -> 0 <= sfi_size n <= SFS_MAXSIZE ->
  (forall p, 0 <= p < SFS_MAXSIZE -> file_byte f' n' p = file_byte f n p) -> dirents f' n' = dirents f n.
Proof.
  intros Hs Hmax Hb. unfold dirents. rewrite Hs. apply list_fmap_ext. intros i j [-> Hi]%lookup_seq.
  apply (f_equal decode_dirent), file_bytes_kept. intros p Hp. apply Hb. unfold DIRENTRY_SIZE in *. lia.
Qed.

Section update.
Context {D : Type} {DV : Device D} {BD : BlockDevice D} {LY : Layout}.
Context (reserved : Z -> Prop).

Notation SS := (sfs_fs D).
Notation ok := (sfs_ok reserved).
Notation buffer s := (dv_buffer (sfs_device s)).

(** The files but [x] are what they were. *)
Definition others_kept (x : positive) (s s' : SS) : Prop :=
  forall y v, y <> x -> sfs_vnodes s !! y = Some v -> sfs_vnodes s' !! y = Some v /\
    forall p, 0 <= p < SFS_MAXSIZE -> file_byte (sec s') (sv_i v) p = file_byte (sec s) (sv_i v) p.

Lemma others_kept_trans x s1 s2 s3 : others_kept x s1 s2 -> others_kept x s2 s3 -> others_kept x s1 s3.
Proof.
  clear reserved. intros H1 H2 y v Hy Hv. destruct (H1 y v Hy Hv) as [Hv2 Hb1]. destruct (H2 y v Hy Hv2) as [Hv3 Hb2].
  split; [done|]. intros p Hp. by rewrite Hb2, Hb1.
Qed.

Lemma untouched_others x (s s' : SS) : untouched s s' -> others_kept x s s'.
Proof.
  clear reserved. intros (Ev & _ & Es) y v _ Hv. rewrite Ev. split; [done|]. intros p Hp. apply file_byte_blocks; [exact Hp|]. intros i _.
  rewrite (slot_frame (sec s)) by (intros _; apply Es). unfold block_bytes. by rewrite Es.
Qed.

Lemma write_others x off data f s s' (p : SM SS Z) r :
  p s = inr (r, s') -> keeps x p -> write_files x off data f (sec s) (inodes s) (sec s') (inodes s') -> others_kept x s s'.
Proof.
  clear reserved. intros Hrun Hk Hw y v Hy Hv. destruct (Hk _ _ _ Hrun) as [_ Ho]. specialize (Ho y Hy). rewrite Hv in Ho. split; [done|]. intros q Hq.
  specialize (Hw y). rewrite (inodes_lookup s y v Hv), (inodes_lookup s' y v Ho) in Hw. destruct Hw as [_ Hw]. rewrite Hw by done. by rewrite decide_False.
Qed.

(** An entry was written to slot [e], or the volume or the directory is full. *)
Record entry_put (s : SS) (x : positive) (L : list dirent) (e : Z) (d : dirent) (r : Z) (s' : SS) : Prop := mk_entry_put {
  ep_ok : ok s';
  ep_frame : frame s s';
  ep_mem : changes_only (scratch (buffer s)) (sfs_mem s) (sfs_mem s');
  ep_others : others_kept x s s';
  ep_reserved : forall b, reserved b -> sec s' b = sec s b;
  ep_result : (r = 0 /\ exists L', slot_set L (Z.to_nat e) d L' /\ has_entries s' x L' /\ DIRENTRY_SIZE * zlen L' <= SFS_MAXSIZE) \/
              (has_entries s' x L /\ ((r = ENOSPC /\ (forall c, 0 <= c < sb_nblocks s' -> marked s' c) /\ slot_is s x (DIRENTRY_SIZE * e / SFS_BLOCKSIZE) 0) \/ (r = EFBIG /\ SFS_MAXSIZE <= DIRENTRY_SIZE * e)))
}.

Lemma sfs_writedir_run s x L e sd :
  ok s -> has_entries s x L -> DIRENTRY_SIZE * zlen L <= SFS_MAXSIZE -> meta_buffer s sd DIRENTRY_SIZE -> 0 <= e <= zlen L ->
  exists r s', sfs_writedir x e sd s = inr (r, s') /\ entry_put s x L e (decode_dirent (load (sfs_mem s) (span sd DIRENTRY_SIZE))) r s'.
Proof.
  intros Hok (v & Hv & Ht & Hsz & HL) Hmax Hm He. unfold sfs_writedir. rewrite srun_assert by (apply Z.leb_le; lia).
  assert (u32 (e * DIRENTRY_SIZE) = DIRENTRY_SIZE * e) as ->.
  { rewrite Z.mul_comm. apply u32_small. unfold is_u32, DIRENTRY_SIZE, SFS_MAXSIZE, SFS_BLOCKSIZE, SFS_MAXBLOCKS, SFS_NDIRECT, SFS_DBPERIDB in *. lia. }
  destruct (metaio_write reserved s x sd DIRENTRY_SIZE (DIRENTRY_SIZE * e) Hok) as (r & k & s' & u' & Hrun & [Ho Hf Ha Hmem Hw Hfit Hres] & Hk & Hwhy & Hhole);
    [by exists v|exact Hm|unfold DIRENTRY_SIZE, SFS_MAXSIZE, SFS_BLOCKSIZE, SFS_MAXBLOCKS, SFS_NDIRECT, SFS_DBPERIDB in *; lia|done|unfold DIRENTRY_SIZE, SFS_BLOCKSIZE in *; lia|].
  change (uio_offset (uio_kinit _ _ _ _)) with (DIRENTRY_SIZE * e) in Hw, Hfit. rewrite kinit_addrs in Hw by done.
  pose proof (metaio_keeps (D := D) x (DIRENTRY_SIZE * e) sd DIRENTRY_SIZE UIO_WRITE) as Hkeep.
  exists r, s'. split; [exact Hrun|]. constructor; [done|done|done|by eapply write_others|done|].
  destruct (kept_file _ _ _ _ (Hkeep _ _ _ Hrun) Hv) as (v' & Hv' & [Hid _ _]).
  injection Hid as Et _ _ _. specialize (Hw x). rewrite (inodes_lookup _ _ _ Hv), (inodes_lookup _ _ _ Hv') in Hw.
  destruct Hw as [Es Hb]. rewrite decide_True in Es by done.
  assert (forall q, 0 <= q < SFS_MAXSIZE -> file_byte (sec s') (sv_i v') q =
    overwritten (file_byte (sec s) (sv_i v)) (DIRENTRY_SIZE * e) (load (sfs_mem s) (take (Z.to_nat k) (span sd DIRENTRY_SIZE))) q) as Hb'
    by (intros q Hq; rewrite Hb by done; by rewrite decide_True).
  clear Hb. destruct Hk as [[-> ->]|[Hr ->]].
  - left. split; [done|]. rewrite take_ge in Hb' by (by rewrite length_span). specialize (Hfit ltac:(done)).
    unfold grown in Es. rewrite decide_True in Es by done.
    destruct (entries_written (sec s) (sv_i v) (sec s') (sv_i v') L e (load (sfs_mem s) (span sd DIRENTRY_SIZE))) as [Hset Hlen];
      [exact Hsz|exact HL|unfold zlen; by rewrite length_load, length_span|exact He|exact Es|rewrite Es, Hsz; unfold DIRENTRY_SIZE in *; lia|exact Hb'|].
    eexists. split; [exact Hset|]. split; [exists v'; split_and!; [done|by rewrite Et|done|done]|]. rewrite <- Hlen, Es, Hsz. unfold DIRENTRY_SIZE in *. lia.
  - right. split.
    + assert (dirents (sec s') (sv_i v') = dirents (sec s) (sv_i v)) as Ed.
      { apply dirents_kept; [done|rewrite Hsz; unfold DIRENTRY_SIZE, zlen in *; lia|]. intros q Hq. rewrite Hb' by done. apply overwritten_nil. }
      exists v'. split_and!; [done|by rewrite Et|by rewrite Es|by rewrite Ed].
    + destruct Hwhy as [->|[[-> Hfull]|[-> Hbig]]]; [done|left; by auto|right]. split; [done|]. rewrite (ad_offset _ _ _ Ha) in Hbig. cbn in Hbig. lia.
Qed.
End update.
