(* ===== verification/SfsDirMap.v ===== *)
(** * SFS: the operations on directories

    The theorems on [sfs_dir_findname], [sfs_dir_link] and [sfs_dir_unlink], for
    a volume on any [BlockDevice]; then a volume with a directory, on which they
    are applied. *)

From S2P Require Import Prelude State Monad StopState Bitmap Uio Device Lhd Sfs SfsSpec SfsBlock SfsBmap SfsRead SfsIo SfsWrite SfsFile SfsMeta SfsKeeps SfsDir SfsDirSpec.

#[local] Open Scope Z_scope.
#[local] Open Scope sm_scope.

Section dir.
Context {D : Type} {DV : Device D} {BD : BlockDevice D} {LY : Layout}.
Context (reserved : Z -> Prop) (tsd sd : Z).

Notation SS := (sfs_fs D).
Notation ok := (sfs_ok reserved).
Notation buffer s := (dv_buffer (sfs_device s)).

(** What an operation on directory [x] does besides. *)
Record dir_step (x : positive) (s s' : SS) : Prop := mk_dir_step {
  dt_ok : ok s';
  dt_frame : frame s s';
  dt_mem : changes_only (fun a => scratch (buffer s) a \/ a ∈ span tsd DIRENTRY_SIZE \/ a ∈ span sd DIRENTRY_SIZE) (sfs_mem s) (sfs_mem s');
  dt_others : others_kept x s s';
  dt_reserved : forall b, reserved b -> sec s' b = sec s b
}.

Lemma dir_step_trans x s1 s2 s3 : dir_step x s1 s2 -> dir_step x s2 s3 -> dir_step x s1 s3.
Proof.
  intros [Ho1 Hf1 Hm1 Hk1 Hr1] [Ho2 Hf2 Hm2 Hk2 Hr2]. constructor; [done|by eapply frame_trans| |by eapply others_kept_trans|intros b Hb; by rewrite Hr2, Hr1].
  rewrite (fr_buffer _ _ Hf1) in Hm2. by eapply changes_only_trans.
Qed.

Lemma looked_step a x s s' : a = tsd \/ a = sd -> looked reserved a s s' -> dir_step x s s'.
Proof.
  intros Ha [Ho Hf Hu Hm]. constructor; [done|done| |by apply untouched_others|intros b _; apply Hu]. eapply changes_weaken; [|exact Hm].
  intros b [Hb|Hb]; [by left|right]. destruct Ha as [->| ->]; auto.
Qed.

Lemma put_step s x L e d r s' : entry_put reserved s x L e d r s' -> dir_step x s s'.
Proof. intros [Ho Hf Hm Hk Hr _]. constructor; [done|done| |done|done]. eapply changes_weaken; [|exact Hm]. by left. Qed.

(** An entry in a hole is a free one. *)
Lemma hole_entry s x L e d : ok s -> has_entries s x L -> L !! e = Some d -> slot_is s x (DIRENTRY_SIZE * Z.of_nat e / SFS_BLOCKSIZE) 0 -> fst d = SFS_NOINO.
Proof. clear tsd sd.
  intros Hok (v & Hv & _ & _ & ->) [-> _]%dirents_lookup (v' & Hv' & Hs). assert (v' = v) as -> by congruence.
  set (p := DIRENTRY_SIZE * Z.of_nat e) in *. assert (p = SFS_BLOCKSIZE * (p / SFS_BLOCKSIZE) + p mod SFS_BLOCKSIZE) as Ep by (unfold SFS_BLOCKSIZE; lia).
  rewrite Ep, file_bytes_block, Hs by (unfold p, SFS_BLOCKSIZE, DIRENTRY_SIZE in *; lia || by eapply block_length).
  unfold block_bytes, zero_block. cbn [Z.eqb]. rewrite drop_replicate, take_replicate. unfold decode_dirent. cbn [fst]. rewrite take_replicate.
  generalize (4 `min` (Z.to_nat DIRENTRY_SIZE `min` (Z.to_nat SFS_BLOCKSIZE - Z.to_nat (p mod SFS_BLOCKSIZE))))%nat. clear. unfold bytes_word.
  intros n. induction n as [|n IH]; [done|]. exact IH.
Qed.

(** The new entry on the stack. *)
Definition entry_memory (ino : Z) (name : list Z) (m : memory) : memory :=
  store (span (sd + SFD_NAME) (zlen name + 1)) (name ++ [0]) (set_word sd 0 ino (store (span sd DIRENTRY_SIZE) (replicate (Z.to_nat DIRENTRY_SIZE) 0) m)).

Lemma load_zeroed m a n i k : 0 <= i -> 0 <= k -> i + k <= n ->
  load (store (span a n) (replicate (Z.to_nat n) 0) m) (span (a + i) k) = replicate (Z.to_nat k) 0.
Proof. clear reserved tsd sd.
  intros Hi Hk Hn. rewrite (load_part _ a i k n), load_store by (lia || apply NoDup_span || by rewrite length_span, length_replicate).
  rewrite drop_replicate, take_replicate, Nat.min_l by lia. done.
Qed.

Lemma entry_memory_bytes ino name m : zlen name < SFS_NAMELEN ->
  load (entry_memory ino name m) (span sd DIRENTRY_SIZE) = encode_dirent (ino, name) /\
  changes_only (.∈ span sd DIRENTRY_SIZE) m (entry_memory ino name m).
Proof. clear reserved tsd.
  intros Hn. unfold entry_memory, set_word. unfold SFS_NAMELEN, SFD_NAME, DIRENTRY_SIZE in *. rewrite Z.add_0_r. assert (0 <= zlen name) as H0 by (unfold zlen; lia).
  set (m0 := store (span sd 64) _ m). set (m1 := store (span sd 4) _ m0). split.
  - replace (span sd 64) with (span sd 4 ++ span (sd + 4) (zlen name + 1) ++ span (sd + (4 + (zlen name + 1))) (59 - zlen name)).
    2: { rewrite Z.add_assoc, <- span_app, <- span_app by lia. f_equal. lia. }
    transitivity (word_bytes ino ++ (name ++ [0]) ++ replicate (Z.to_nat (59 - zlen name)) 0).
    2: { unfold encode_dirent. cbn [fst snd]. replace (Z.to_nat (SFS_NAMELEN - zlen name)) with (S (Z.to_nat (59 - zlen name))) by (unfold SFS_NAMELEN; lia).
         by rewrite <- app_assoc. }
    rewrite !load_app. f_equal; [|f_equal].
    + rewrite load_store_ne by (intros b; rewrite !elem_span; lia). apply load_store; [apply NoDup_span|by rewrite length_span].
    + apply load_store; [apply NoDup_span|]. rewrite length_span, length_app. unfold zlen. cbn. lia.
    + rewrite load_store_ne by (intros b; rewrite !elem_span; lia). unfold m1. rewrite load_store_ne by (intros b; rewrite !elem_span; lia).
      unfold m0. apply load_zeroed; lia.
  - eapply (changes_only_trans _ _ m1); [eapply (changes_only_trans _ _ m0)|]; (eapply changes_weaken; [|apply changes_store]); intros b; rewrite !elem_span; lia.
Qed.

(** The free entry on the stack. *)
Definition cleared_entry (m : memory) : memory :=
  set_word sd 0 SFS_NOINO (store (span sd DIRENTRY_SIZE) (replicate (Z.to_nat DIRENTRY_SIZE) 0) m).

Lemma cleared_entry_bytes m : changes_only (.∈ span sd DIRENTRY_SIZE) m (cleared_entry m) /\
  decode_dirent (load (cleared_entry m) (span sd DIRENTRY_SIZE)) = (SFS_NOINO, []).
Proof. clear reserved tsd.
  unfold cleared_entry, set_word. rewrite Z.add_0_r. set (m0 := store _ _ m). split.
  - eapply (changes_only_trans _ _ m0); (eapply changes_weaken; [|apply changes_store]); intros b; rewrite !elem_span; unfold DIRENTRY_SIZE; lia.
  - change DIRENTRY_SIZE with (4 + 60). rewrite span_app, load_app, load_store, load_store_ne by
      (done || apply NoDup_span || (intros b; rewrite !elem_span; lia)).
    unfold m0. rewrite (load_zeroed m sd DIRENTRY_SIZE 4 60) by (unfold DIRENTRY_SIZE; lia). done.
Qed.

(** ** Lookup *)

Lemma dir_find s x L name :
  ok s -> is_dir s x L -> meta_buffer s tsd DIRENTRY_SIZE -> is_name name ->
  exists r h s', sfs_dir_findname tsd x name s = inr ((r, h), s') /\ looked reserved tsd s s' /\ is_dir s' x L /\
    match dir_map L !! name with
    | Some ino => r = 0 /\ h_ino h = Some ino /\ exists j, h_slot h = Some (Z.of_nat j) /\ L !! j = Some (ino, name)
    | None => r = ENOENT /\ h_ino h = None
    end.
Proof. clear sd.
  intros Hok Hdir Hm Hn. destruct (sfs_dir_findname_run reserved tsd s x L name Hok Hdir Hm Hn) as (s' & Hrun & Hlk). pose proof (id_distinct _ _ _ Hdir) as Hd.
  eexists _, _, s'. split; [exact Hrun|]. split; [exact Hlk|]. split; [by eapply is_dir_looked|]. set (h := scan name L 0 no_hit) in *.
  destruct (dir_map L !! name) as [ino|] eqn:E.
  - apply dir_map_lookup in E as [Hi [j Hj]]; [|done]. pose proof (scan_present name L Hd 0 no_hit j ino Hj Hi) as Hh. injection Hh as Hf Hino Hslot.
    fold h in Hf, Hino, Hslot. rewrite Hf. split_and!; [done|done|by exists j].
  - pose proof (scan_absent name L (dir_map_none L name Hd E) 0 no_hit) as Hh. injection Hh as Hf Hino _. fold h in Hf, Hino. by rewrite Hf.
Qed.

(** [sfs_dir_findname] is the lookup of the directory seen as a map.  On a
    well-formed volume the call returns 0 with the inode number if the map has
    the name, and then the slot it hands back holds that entry; it returns
    [ENOENT] otherwise.  The assertion that a name is found only once holds, and
    the disk, the inodes and the map of free blocks are what they were. *)
Theorem sfs_dir_findname_lookup s x L name :
  ok s -> is_dir s x L -> meta_buffer s tsd DIRENTRY_SIZE -> is_name name ->
  exists r h s', sfs_dir_findname tsd x name s = inr ((r, h), s') /\ ok s' /\ untouched s s' /\ is_dir s' x L /\
    match dir_map L !! name with
    | Some ino => r = 0 /\ h_ino h = Some ino /\ exists j, h_slot h = Some (Z.of_nat j) /\ L !! j = Some (ino, name)
    | None => r = ENOENT /\ h_ino h = None
    end.
Proof. clear sd.
  intros H1 H2 H3 H4. destruct (dir_find s x L name H1 H2 H3 H4) as (r & h & s' & Hrun & Hlk & Hd & Hm). exists r, h, s'. split; [exact Hrun|].
  split; [apply Hlk|]. split; [apply Hlk|]. by split.
Qed.

(** ** Link *)

Lemma free_slot name L : let h := scan name L 0 no_hit in
  let e := match h_empty h with Some i => i | None => zlen L end in
  0 <= e <= zlen L /\ forall d, L !! Z.to_nat e = Some d -> ~ live d.
Proof. clear reserved tsd sd.
  intros h e. pose proof (scan_empty name L 0 no_hit) as He. fold h in He. unfold e, zlen in *. clear e. destruct (h_empty h) as [i|].
  - destruct He as [[=]|(j & n & -> & Hj)]. pose proof (lookup_lt_Some _ _ _ Hj). split; [lia|]. rewrite Z.add_0_l, Nat2Z.id, Hj. intros d [= <-] Hl. by apply Hl.
  - split; [lia|]. intros d Hd%lookup_lt_Some. lia.
Qed.

(** The entry is set up and written. *)
Lemma put_entry s x L e ino name :
  ok s -> is_dir s x L -> meta_buffer s sd DIRENTRY_SIZE -> 0 <= e <= zlen L -> zlen name < SFS_NAMELEN -> is_name name -> is_u32 ino ->
  exists r s', sfs_writedir x e sd (set_mem (entry_memory ino name (sfs_mem s)) s) = inr (r, s') /\ dir_step x s s' /\
    entry_put reserved (set_mem (entry_memory ino name (sfs_mem s)) s) x L e (ino, name) r s'.
Proof.
  intros Hok Hdir Hm He Hlen Hn Hi. destruct (entry_memory_bytes ino name (sfs_mem s) Hlen) as [Hld Hch].
  pose proof (scribbled reserved sd s _ Hok Hm Hch) as Hlk. set (s1 := set_mem _ s) in *.
  pose proof (is_dir_looked _ _ _ _ _ _ Hdir Hlk) as [Hent Hmax _].
  destruct (sfs_writedir_run reserved s1 x L e sd (lk_ok _ _ _ _ Hlk) Hent Hmax (meta_buffer_frame _ _ _ _ Hm (lk_frame _ _ _ _ Hlk)) He) as (r & s' & Hrun & Hput).
  change (sfs_mem s1) with (entry_memory ino name (sfs_mem s)) in Hput. rewrite Hld, decode_encode in Hput by done.
  exists r, s'. split; [done|]. split; [|done]. eapply dir_step_trans; [apply (looked_step sd); [by right|exact Hlk]|by eapply put_step].
Qed.

(** The entries in use stay in their slots. *)
Definition stay_put (L L' : list dirent) : Prop := forall j d, L !! j = Some d -> live d -> L' !! j = Some d.

(** What [sfs_dir_link] returns, and the entries after it. *)
Definition link_result (s s' : SS) (x : positive) (L : list dirent) (name : list Z) (ino r : Z) : Prop :=
  match dir_map L !! name with
  | Some _ => r = EEXIST /\ is_dir s' x L
  | None =>
      if decide (SFS_NAMELEN <= zlen name) then r = ENAMETOOLONG /\ is_dir s' x L
      else (r = 0 /\ exists L', is_dir s' x L' /\ dir_map L' = <[name := ino]> (dir_map L) /\ stay_put L L') \/
           (is_dir s' x L /\ ((r = ENOSPC /\ forall c, 0 <= c < sb_nblocks s' -> marked s' c) \/ (r = EFBIG /\ DIRENTRY_SIZE * zlen L = SFS_MAXSIZE)))
  end.

Lemma dir_link s x L name ino :
  ok s -> is_dir s x L -> meta_buffer s tsd DIRENTRY_SIZE -> meta_buffer s sd DIRENTRY_SIZE -> is_name name -> is_u32 ino -> ino <> SFS_NOINO ->
  exists r o s', sfs_dir_link tsd sd x name ino s = inr ((r, o), s') /\ dir_step x s s' /\ link_result s s' x L name ino r.
Proof.
  intros Hok Hdir Hm1 Hm2 Hn Hi Hi0. destruct (sfs_dir_findname_run reserved tsd s x L name Hok Hdir Hm1 Hn) as (s1 & Hrun & Hlk). pose proof (id_distinct _ _ _ Hdir) as Hd.
  pose proof (is_dir_looked _ _ _ _ _ _ Hdir Hlk) as Hdir1. pose proof (looked_step tsd x s s1 (or_introl eq_refl) Hlk) as Hst1.
  unfold sfs_dir_link, link_result. rewrite (srun_call _ _ _ _ _ Hrun). pose proof (free_slot name L) as Hfree. cbv zeta in Hfree. set (h := scan name L 0 no_hit) in *.
  destruct (dir_map L !! name) as [old|] eqn:E.
  { apply dir_map_lookup in E as [Ho [j Hj]]; [|done]. pose proof (scan_present name L Hd 0 no_hit j old Hj Ho) as Hh. injection Hh as Hf _ _. fold h in Hf.
    rewrite Hf. cbn. by exists EEXIST, None, s1. }
  pose proof (scan_absent name L (dir_map_none L name Hd E) 0 no_hit) as Hh. injection Hh as Hf _ _. fold h in Hf. rewrite Hf. change (ENOENT =? 0) with false. change (ENOENT =? ENOENT) with true. cbn [negb andb].
  destruct (Z.ltb_spec SFS_NAMELEN (zlen name + 1)) as [Hlong|Hshort].
  { exists ENAMETOOLONG, None, s1. rewrite decide_True by lia. done. }
  destruct Hfree as [He Hdead]. set (e := match h_empty h with Some i => i | None => zlen L end) in *.
  assert (match h_empty h with Some i => sret i | None => sfs_dir_nentries x end s1 = inr (e, s1)) as Hempty
    by (unfold e; destruct (h_empty h); [done|by apply sfs_dir_nentries_run]).
  rewrite (srun_call _ _ _ _ _ Hempty).
  rewrite (srun_call _ _ _ _ _ (run_on_memory (bzero sd DIRENTRY_SIZE) tt _ s1 eq_refl)).
  rewrite (srun_call _ _ _ _ _ (run_on_memory (smodify (set_word sd 0 ino)) tt _ _ eq_refl)).
  rewrite (srun_call _ _ _ _ _ (run_on_memory (smodify (store (span (sd + SFD_NAME) (zlen name + 1)) (name ++ [0]))) tt _ _ eq_refl)).
  destruct (put_entry s1 x L e ino name (lk_ok _ _ _ _ Hlk) Hdir1 (meta_buffer_frame _ _ _ _ Hm2 (lk_frame _ _ _ _ Hlk)) He) as (r & s' & Hw & Hst & [_ _ _ _ _ Hres]);
    [lia|done|done|].
  rewrite (srun_call _ _ _ _ _ Hw). exists r, (Some e), s'. split; [done|]. split; [by eapply dir_step_trans|]. rewrite decide_False by lia.
  destruct Hres as [(-> & L' & Hset & Hent & Hmax)|[Hent Hwhy]].
  - left. split; [done|]. exists L'. destruct (dir_map_put L L' _ ino name Hd Hset Hdead Hi0 E) as [Hd' Hmap]. split; [by constructor|]. split; [done|]. intros j d0 Hj Hlive. rewrite (Hset j), decide_False; [done|].
    intros ->. by destruct (Hdead d0 Hj).
  - right. split; [constructor; [done|apply Hdir|done]|]. destruct Hwhy as [(-> & Hfull & _)|[-> Hbig]]; [by left|right]. split; [done|].
    pose proof (id_size _ _ _ Hdir). unfold DIRENTRY_SIZE in *. lia.
Qed.

(** (C15) [sfs_dir_link] inserts into the directory seen as a map.  The call
    returns [EEXIST] exactly if the map has the name, [ENAMETOOLONG] exactly for
    a new name of 60 characters or more, and then the directory is what it was;
    otherwise it returns 0 and the map has the name with the inode number, every
    other name with the number it had and in the slot it had; or it returns [ENOSPC] with every block in
    use, or [EFBIG] for a directory of the largest size, and the map is what it
    was.  In every case the names stay distinct, the volume is well-formed, and
    no other file has a different byte. *)
Theorem sfs_dir_link_inserts s x L name ino :
  ok s -> is_dir s x L -> meta_buffer s tsd DIRENTRY_SIZE -> meta_buffer s sd DIRENTRY_SIZE -> is_name name -> is_u32 ino -> ino <> SFS_NOINO ->
  exists r o s', sfs_dir_link tsd sd x name ino s = inr ((r, o), s') /\ dir_step x s s' /\ link_result s s' x L name ino r.
Proof. apply dir_link. Qed.

(** ** Unlink *)

Lemma dir_unlink s x L j ino name :
  ok s -> is_dir s x L -> meta_buffer s sd DIRENTRY_SIZE -> L !! j = Some (ino, name) -> ino <> SFS_NOINO ->
  exists s' L', sfs_dir_unlink sd x (Z.of_nat j) s = inr (0, s') /\ dir_step x s s' /\ is_dir s' x L' /\
    L' !! j = Some (SFS_NOINO, []) /\ dir_map L' = delete name (dir_map L).
Proof.
  intros Hok Hdir Hm Hj Hi. pose proof (lookup_lt_Some _ _ _ Hj) as Hlt. unfold sfs_dir_unlink.
  rewrite (srun_call _ _ _ _ _ (run_on_memory (bzero sd DIRENTRY_SIZE) tt _ s eq_refl)).
  rewrite (srun_call _ _ _ _ _ (run_on_memory (smodify (set_word sd 0 SFS_NOINO)) tt _ _ eq_refl)).
  assert (changes_only (.∈ span sd DIRENTRY_SIZE) (sfs_mem s) (cleared_entry (sfs_mem s)) /\
    decode_dirent (load (cleared_entry (sfs_mem s)) (span sd DIRENTRY_SIZE)) = (SFS_NOINO, [])) as [Hch Hdec] by apply cleared_entry_bytes.
  pose proof (scribbled reserved sd s _ Hok Hm Hch) as Hlk. pose proof (is_dir_looked _ _ _ _ _ _ Hdir Hlk) as [Hent Hmax Hd].
  change (set_mem _ (set_mem _ s)) with (set_mem (cleared_entry (sfs_mem s)) s). set (s1 := set_mem _ s) in *.
  destruct (sfs_writedir_run reserved s1 x L (Z.of_nat j) sd (lk_ok _ _ _ _ Hlk) Hent Hmax (meta_buffer_frame _ _ _ _ Hm (lk_frame _ _ _ _ Hlk)))
    as (r & s' & Hrun & Hput); [unfold zlen; lia|].
  change (sfs_mem s1) with (cleared_entry (sfs_mem s)) in Hput. rewrite Hdec in Hput.
  assert (dir_step x s s') as Hst by (eapply dir_step_trans; [apply (looked_step sd); [by right|exact Hlk]|by eapply put_step]).
  destruct (ep_result _ _ _ _ _ _ _ _ Hput) as [(-> & L' & Hset & Hent' & Hmax')|[_ [(_ & _ & Hhole)|[_ Hbig]]]].
  - rewrite Nat2Z.id in Hset. destruct (dir_map_del L L' j ino name Hd Hj Hi Hset) as [Hd' Hmap]. exists s', L'.
    split_and!; [exact Hrun|done|by constructor|by rewrite Hset, decide_True|done].
  - destruct Hi. by apply (hole_entry s1 x L j (ino, name) (lk_ok _ _ _ _ Hlk) Hent Hj).
  - exfalso. unfold zlen, DIRENTRY_SIZE in *. lia.
Qed.

(** It changes one block of the directory, and allocates none. *)
Lemma unlink_only s x v L j ino name r s' :
  ok s -> is_dir s x L -> meta_buffer s sd DIRENTRY_SIZE -> L !! j = Some (ino, name) -> ino <> SFS_NOINO -> sfs_vnodes s !! x = Some v ->
  sfs_dir_unlink sd x (Z.of_nat j) s = inr (r, s') ->
  exists i, 0 <= i < SFS_MAXBLOCKS /\ slot (sec s) (sv_i v) i <> 0 /\ only_block (slot (sec s) (sv_i v) i) s s'.
Proof.
  intros Hok Hdir Hm Hj Hi Hv. pose proof (lookup_lt_Some _ _ _ Hj) as Hlt. unfold sfs_dir_unlink.
  rewrite (srun_call _ _ _ _ _ (run_on_memory (bzero sd DIRENTRY_SIZE) tt _ s eq_refl)).
  rewrite (srun_call _ _ _ _ _ (run_on_memory (smodify (set_word sd 0 SFS_NOINO)) tt _ _ eq_refl)).
  change (set_mem _ (set_mem _ s)) with (set_mem (cleared_entry (sfs_mem s)) s).
  pose proof (scribbled reserved sd s _ Hok Hm (proj1 (cleared_entry_bytes _))) as Hlk. pose proof (is_dir_looked _ _ _ _ _ _ Hdir Hlk) as [Hent Hmax _].
  set (s1 := set_mem _ s) in *. set (i := DIRENTRY_SIZE * Z.of_nat j / SFS_BLOCKSIZE).
  assert (slot (sec s) (sv_i v) i <> 0) as Hs0.
  { intros E. destruct Hi. apply (hole_entry s1 x L j (ino, name) (lk_ok _ _ _ _ Hlk) Hent Hj). by exists v. }
  assert (0 <= DIRENTRY_SIZE * Z.of_nat j < SFS_MAXSIZE) as Hp by (unfold zlen, DIRENTRY_SIZE in *; lia).
  unfold sfs_writedir. rewrite srun_assert by (apply Z.leb_le; lia).
  rewrite Z.mul_comm, u32_small by (unfold is_u32, SFS_MAXSIZE, SFS_BLOCKSIZE, SFS_MAXBLOCKS, SFS_NDIRECT, SFS_DBPERIDB in *; lia). intros Hrun.
  exists i. unfold SFS_MAXSIZE in Hp. split; [unfold i, SFS_BLOCKSIZE in *; lia|]. split; [done|].
  eapply (metaio_overwrites reserved s1 x v sd DIRENTRY_SIZE _ r s' (lk_ok _ _ _ _ Hlk) Hv); [|done| | |exact Hs0|exact Hrun];
    unfold DIRENTRY_SIZE, SFS_BLOCKSIZE, SFS_MAXBLOCKS, SFS_NDIRECT, SFS_DBPERIDB in *; lia.
Qed.

(** [sfs_dir_unlink] deletes from the directory seen as a map.  For a slot
    in use the call always returns 0, and the map is the old one without the name
    of that slot; the slot is free, the names stay distinct, the volume is
    well-formed, and no other file has a different byte. *)
Theorem sfs_dir_unlink_deletes s x L j ino name :
  ok s -> is_dir s x L -> meta_buffer s sd DIRENTRY_SIZE -> L !! j = Some (ino, name) -> ino <> SFS_NOINO ->
  exists s' L', sfs_dir_unlink sd x (Z.of_nat j) s = inr (0, s') /\ dir_step x s s' /\ is_dir s' x L' /\
    L' !! j = Some (SFS_NOINO, []) /\ dir_map L' = delete name (dir_map L).
Proof. apply dir_unlink. Qed.
End dir.

(** ** A directory *)

#[local] Existing Instance ex_layout.
#[local] Existing Instance ex_device.
#[local] Existing Instance ex_block_device.

(** Block 3 holds the only entry: inode 4 under the name of one letter. *)
Definition ex_root : sfs_dinode := mk_dinode 64 SFS_TYPE_DIR 1 (3 :: replicate 14 0) 0 (replicate 110 0).
Definition ex_entry : dirent := (4, [97]).
Definition ex_dir_block : list Z := encode_dirent ex_entry ++ replicate 448 0.
Definition ex_dir_volume : sfs_fs (lhd_softc plain_card) :=
  mk_sfs ∅ (mk_lhd 0xbfe08000 0 1 0 64 0 0 (mk_plain_card 64 {[ 3 := ex_dir_block ]} 0)) (mk_bitmap 64 (63 :: replicate 7 0)) false 64
    {[ 1%positive := mk_sfs_vnode ex_root 1 false ]} 1.
Definition ex_other (b : Z) : Prop := b = 0 \/ b = 1 \/ b = 2 \/ b = 4 \/ b = 5.

Lemma ex_dir_uses k b : uses (sec ex_dir_volume) ex_other (inodes ex_dir_volume) k b -> (k = KOther b /\ ex_other b) \/ (k = KSlot 1%positive 0 /\ b = 3).
Proof.
  assert (forall x n, inodes ex_dir_volume !! x = Some n -> x = 1%positive /\ n = ex_root) as Hin.
  { intros x n Hn. unfold inodes in Hn. cbn in Hn. rewrite map_fmap_singleton in Hn. by apply lookup_singleton_Some in Hn as [<- <-]. }
  destruct k as [x i|x|c]; cbn [uses].
  - intros (n & [-> ->]%Hin & Hi & Hs & Hb). right. unfold slot in Hs. cbn [sfi_direct sfi_indirect ex_root Z.eqb] in Hs.
    destruct (Z.ltb_spec i SFS_NDIRECT); [|done]. destruct (decide (i = 0)) as [->|Hne]; [by cbn in Hs; subst|]. exfalso. apply Hb. rewrite <- Hs.
    unfold zlookup. rewrite (proj2 (Z.ltb_ge i 0)) by lia. replace (Z.to_nat i) with (S (Z.to_nat i - 1)) by lia. cbn [lookup list_lookup].
    by destruct (replicate 14 0 !! (Z.to_nat i - 1)%nat) as [w|] eqn:E; [apply lookup_replicate in E as [-> _]|].
  - intros (n & [-> ->]%Hin & Hs & Hb). cbn in Hs. congruence.
  - intros [-> ?]. by left.
Qed.

Lemma ex_dir_volume_ok : sfs_ok ex_other ex_dir_volume.
Proof.
  constructor.
  - apply plain_ready; try done. by apply map_Forall_singleton.
  - done.
  - done.
  - constructor; [done|done| |].
    + intros i w Hw. unfold zlookup in Hw. destruct (i <? 0); [done|].
      assert (Forall (fun w => 0 <= w < 256) (63 :: replicate 7 0)) as Hf by (repeat constructor; lia). by eapply Forall_lookup_1 in Hf.
    + intros i Hi. change (64 <= i < 64) in Hi. lia.
  - done.
  - intros b Hb. change (64 <= b < 64) in Hb. lia.
  - done.
  - constructor.
    + intros x n Hn. unfold inodes in Hn. cbn in Hn. rewrite map_fmap_singleton in Hn. by apply lookup_singleton_Some in Hn as [_ <-].
    + intros k b [[_ Hb]|[_ ->]]%ex_dir_uses; [|done]. unfold ex_other in Hb. destruct Hb as [->|[->|[->|[->| ->]]]]; done.
    + intros k k' b [[-> Hb]|[-> ->]]%ex_dir_uses [[-> Hb']|[-> Eb]]%ex_dir_uses; try done; unfold ex_other in *; lia.
  - done.
  - exact (so_layout _ _ ex_volume_ok).
  - reflexivity.
  - reflexivity.
Qed.

Lemma ex_is_dir : is_dir ex_dir_volume 1%positive [ex_entry].
Proof.
  constructor; [|done|].
  - exists (mk_sfs_vnode ex_root 1 false). split_and!; [done|done|done|]. by vm_compute.
  - intros [|i] [|j] e e'; cbn; try done.
Qed.

Lemma ex_stack_buffer a : a = 0x80400000 \/ a = 0x80400040 -> meta_buffer ex_dir_volume a DIRENTRY_SIZE.
Proof.
  intros Ha. constructor; [done|]. intros b Hb [Hs|[[] Hs]]; rewrite !elem_span in *; cbn in Hs; unfold SFS_BLOCKSIZE, DIRENTRY_SIZE in *; lia.
Qed.

Lemma ex_name c : c <> 0 -> is_name [c].
Proof. by repeat constructor. Qed.

Lemma sfs_dir_findname_lookup_witness :
  exists h s', sfs_dir_findname 0x80400000 1%positive [97] ex_dir_volume = inr ((0, h), s') /\ h_ino h = Some 4.
Proof.
  destruct (sfs_dir_findname_lookup ex_other 0x80400000 ex_dir_volume 1%positive [ex_entry] [97] ex_dir_volume_ok ex_is_dir) as (r & h & s' & Hrun & _ & _ & _ & Hr);
    [apply ex_stack_buffer; by left|by apply ex_name|].
  assert (dir_map [ex_entry] !! [97] = Some 4) as E by (vm_compute; reflexivity). rewrite E in Hr. destruct Hr as (-> & Hi & _).
  exists h, s'. split; [exact Hrun|exact Hi].
Defined.

Lemma sfs_dir_link_inserts_witness :
  exists r o s', sfs_dir_link 0x80400000 0x80400040 1%positive [98] 5 ex_dir_volume = inr ((r, o), s') /\ sfs_ok ex_other s'.
Proof.
  destruct (sfs_dir_link_inserts ex_other 0x80400000 0x80400040 ex_dir_volume 1%positive [ex_entry] [98] 5 ex_dir_volume_ok ex_is_dir) as (r & o & s' & Hrun & Hst & _);
    [apply ex_stack_buffer; by left|apply ex_stack_buffer; by right|by apply ex_name|done|done|].
  exists r, o, s'. split; [exact Hrun|apply Hst].
Defined.

Lemma sfs_dir_unlink_deletes_witness :
  exists s' L', sfs_dir_unlink 0x80400040 1%positive 0 ex_dir_volume = inr (0, s') /\ is_dir s' 1%positive L' /\ dir_map L' = ∅.
Proof.
  destruct (sfs_dir_unlink_deletes ex_other 0x80400000 0x80400040 ex_dir_volume 1%positive [ex_entry] 0 4 [97] ex_dir_volume_ok ex_is_dir) as (s' & L' & Hrun & _ & Hd & _ & Hm);
    [apply ex_stack_buffer; by right|done|done|].
  exists s', L'. split; [exact Hrun|]. split; [exact Hd|]. rewrite Hm. vm_compute. reflexivity.
Defined.
