(* ===== verification/SfsFault.v ===== *)
(** * SFS on a disk with faults

    [sfs_rwblock] repeats a request that failed with [EIO].  [lhd_io] takes the
    data of a write from the request before it starts the command, so the
    request is used up when the command fails: the repetition transfers nothing
    and succeeds. *)

From S2P Require Import Prelude State Monad StopState Bitmap Uio Device Lhd Sfs SfsSpec SfsBlock SfsFile.

#[local] Open Scope Z_scope.
#[local] Open Scope sm_scope.

Section fault.
Context {hw : Type} {C : LhdCard hw} {LY : Layout}.
Context (accessible : bool -> Z -> bool) (curas : option positive).

#[local] Instance disk_device : Device (lhd_softc hw) := lhd_device accessible curas.

(** A card that reports an error of the medium for a write. *)
Definition write_fault (l : lhd_softc hw) (b : Z) (data : list Z) (h' : hw) : Prop :=
  exists st buf', card_run (Z.lor LHD_WORKING LHD_ISWRITE) b data (lh_card l) = (st, buf', h') /\ Z.land st LHD_STATEMASK = LHD_MEDIA.

(** The driver reports the error, with the request used up. *)
Lemma lhd_write_fault (l : lhd_softc hw) b u m h' :
  lh_clear l = 1 -> lh_done l = 0 -> 0 <= b < lh_blocks l -> lh_blocks l < 2^32 -> block_request UIO_WRITE b u ->
  (forall a, a ∈ span (lh_buf l) SECTSIZE -> a ∉ uio_addrs u) -> write_fault l b (load m (uio_addrs u)) h' ->
  exists u' m', lhd_io accessible curas u (m, l) = inr ((Lhd.EIO, u'), (m', mk_lhd (lh_buf l) Lhd.EIO 1 0 (lh_blocks l) 0 b h')) /\ advanced u SECTSIZE u'.
Proof.
  intros Hc Hd Hb Hsm [Hk Hrw Hoff Hres Hnd] Hap (st & buf' & Hrun & Hst).
  destruct (uiomove_run accessible curas (lh_buf l) SECTSIZE u m Hk) as (u' & Hmove & Hadv);
    [done|intros a Ha Hin; apply (Hap a); [rewrite elem_span in *; lia|by eapply elem_of_take_1]|].
  rewrite Z.min_l in Hmove, Hadv by lia. rewrite Hrw in Hmove. unfold moved in Hmove.
  pose proof (length_uio_addrs _ _ (ku_ok _ _ Hk)) as Hlen. rewrite take_ge in Hmove by lia.
  set (data := load m (uio_addrs u)) in *. set (m1 := store (span (lh_buf l) SECTSIZE) data m) in *.
  assert (load m1 (span (lh_buf l) LHD_SECTSIZE) = data) as Hbuf.
  { apply load_store; [apply NoDup_span|]. unfold data. rewrite length_span, length_load. unfold SECTSIZE, LHD_SECTSIZE in *. lia. }
  destruct (aligned_offset _ b Hoff) as [E1 E2]; [unfold is_u32; lia|].
  assert (lhd_code_to_errno st = Lhd.EIO) as Hcode by (unfold lhd_code_to_errno; by rewrite Hst).
  eexists u', _. split; [|exact Hadv].
  unfold lhd_io, lget. rewrite E1, E2, Hres, Hrw. change (SECTSIZE / LHD_SECTSIZE) with 1. change (SECTSIZE mod LHD_SECTSIZE) with 0. cbn [Z.eqb negb orb].
  rewrite srun_get. cbn [snd]. rewrite u32_small by (unfold is_u32; lia). rewrite (proj2 (Z.ltb_ge _ _)) by lia.
  change (Z.to_nat 1) with 1%nat. cbn [lhd_io_loop]. unfold lhd_io_sector. rewrite srun_bind, Hrw, (srun_call _ _ _ _ _ (P_clear_run m l Hc)).
  rewrite srun_bind. unfold lget at 1. autorewrite with srun. cbn [fst snd lh_buf set_clear].
  rewrite (run_on_mem _ _ _ _ _ _ Hmove). cbn [fst snd negb Z.eqb].
  rewrite (srun_call _ (Lhd.EIO, u') (store (span (lh_buf l) LHD_SECTSIZE) buf' m1, mk_lhd (lh_buf l) Lhd.EIO 1 0 (lh_blocks l) 0 b h')); [reflexivity|].
  rewrite (command_run _ l _ b st buf' h'); [|done|done|by rewrite Hbuf|by right; right]. by rewrite Hcode.
Qed.

(** (C27) A failed write is reported as a success.  When the card answers a
    command to write block [b] with an error of the medium, whatever the data,
    [sfs_writeblock] returns 0 after this one command: the error is lost, and the
    block keeps whatever the card left in it. *)
Theorem sfs_write_error_lost (s : sfs_fs (lhd_softc hw)) b ar h' :
  0 < vfs_biglock_depth s -> lh_clear (sfs_device s) = 1 -> lh_done (sfs_device s) = 0 ->
  0 <= b < lh_blocks (sfs_device s) -> lh_blocks (sfs_device s) < 2^32 ->
  (forall a, a ∈ span (lh_buf (sfs_device s)) SECTSIZE -> a ∉ span (addr ar) SFS_BLOCKSIZE) ->
  write_fault (sfs_device s) b (load (sfs_mem s) (span (addr ar) SFS_BLOCKSIZE)) h' ->
  exists s', sfs_writeblock b (addr ar) SFS_BLOCKSIZE s = inr (0, s') /\ lh_card (sfs_device s') = h'.
Proof.
  intros Hlock Hc Hd Hb Hsm Hap Hf. destruct (kinit_request UIO_WRITE b (addr ar)) as [Hreq Ha].
  set (u := uio_kinit (addr ar) SFS_BLOCKSIZE (b * SFS_BLOCKSIZE) UIO_WRITE) in *. rewrite <- Ha in Hap, Hf.
  destruct (lhd_write_fault (sfs_device s) b u (sfs_mem s) h' Hc Hd Hb Hsm Hreq Hap Hf) as (u' & m' & Hio & Hadv).
  set (l' := mk_lhd _ _ _ _ _ _ _ _) in Hio. exists (set_io m' l' s). split; [|done].
  assert (uio_resid u' = 0 /\ uio_offset u' = LHD_SECTSIZE * (b + 1)) as [Hr0 Ho0].
  { rewrite (ad_resid _ _ _ Hadv), (ad_offset _ _ _ Hadv). cbn. unfold SFS_BLOCKSIZE, SECTSIZE, LHD_SECTSIZE. lia. }
  assert (lhd_io accessible curas u' (m', l') = inr ((0, u'), (m', l'))) as Hagain.
  { destruct (aligned_offset _ (b + 1) Ho0) as [E1 E2]; [unfold is_u32; lia|]. unfold lhd_io, lget. rewrite E1, E2, Hr0. cbn [Z.eqb negb orb].
    change (0 / LHD_SECTSIZE) with 0. change (0 mod LHD_SECTSIZE) with 0. cbn [Z.eqb negb orb]. rewrite srun_get. cbn [snd lh_blocks l'].
    rewrite u32_small by (unfold is_u32; lia). by rewrite (proj2 (Z.ltb_ge _ _)) by lia. }
  assert (forall w, devop_io w = lhd_io accessible curas w) as Edev by done.
  unfold sfs_writeblock. rewrite srun_assert by done. fold u. unfold sfs_rwblock. rewrite srun_bind, srun_get, srun_bind, srun_assert by (by apply Z.ltb_lt).
  cbn [sfs_rwblock_try]. rewrite srun_bind, Edev. rewrite (srun_call _ _ _ _ _ (run_on_device (lhd_io accessible curas u) _ _ _ s Hio)). cbn [fst snd].
  change (Lhd.EIO =? EINVAL) with false. change (Lhd.EIO =? EIO) with true. cbn [sfs_rwblock_try].
  rewrite srun_bind, Edev. by rewrite (srun_call _ _ _ _ _ (run_on_device (lhd_io accessible curas u') _ m' l' (set_io m' l' s) Hagain)).
Qed.
End fault.

(** The next command fails; the buffer of [sfs_partialio] starts with a 9. *)
#[local] Existing Instance ex_layout.
Definition faulty_volume : sfs_fs (lhd_softc plain_card) :=
  mk_sfs {[ 0x80100000 := 9 ]} (mk_lhd 0xbfe08000 0 1 0 64 0 0 (mk_plain_card 64 ∅ 1)) (mk_bitmap 64 (7 :: replicate 7 0)) false 64 ∅ 1.

Lemma sfs_write_error_lost_witness :
  exists s', sfs_writeblock (DV := disk_device (fun _ _ => false) None) 5 (addr iobuf) SFS_BLOCKSIZE faulty_volume = inr (0, s') /\
    lh_card (sfs_device s') = mk_plain_card 64 ∅ 0 /\ byte_at (sfs_mem faulty_volume) (addr iobuf) = 9.
Proof.
  destruct (sfs_write_error_lost (fun _ _ => false) None faulty_volume 5 iobuf (mk_plain_card 64 ∅ 0)) as (s' & Hrun & Hcard).
  - reflexivity.
  - reflexivity.
  - reflexivity.
  - cbn. lia.
  - cbn. lia.
  - intros a. rewrite !elem_span. cbn. unfold SECTSIZE, SFS_BLOCKSIZE. lia.
  - eexists _, _. split; reflexivity.
  - exists s'. split; [exact Hrun|]. split; [exact Hcard|reflexivity].
Defined.
