(* ===== verification/SfsInode.v ===== *)
(** * The inodes of SFS and their vnodes ([kern/fs/sfs/sfs_inode.c],
      [kern/vfs/vnode.c], [sfs_lookonce] of [kern/fs/sfs/sfs_dir.c])

    A mounted volume: what [Sfs.v] is about, the table of the vnodes in memory
    and their reference counts.  An inode in memory is a record; the bytes at
    its address, which the device transfers, are written when it goes to the
    disk and read when it comes from there.  Whether an allocation succeeds is
    the next answer of a list. *)

From S2P Require Import Prelude State Monad StopState Bitmap Array Uio Device Sfs SfsDir.

#[local] Open Scope Z_scope.
#[local] Open Scope sm_scope.

Definition EBUSY : Z := 27.
Definition SFS_ROOTDIR_INO : Z := 1.
Definition SFS_NWASTE : Z := 110.

(** ** Inodes as bytes *)

Definition half_bytes (w : Z) : list Z := [w / 2^8 mod 256; w mod 256].

(** The words of an array. *)
Definition words_bytes (ws : list Z) : list Z := ws ≫= word_bytes.
Definition word_of (l : list Z) (i : nat) : Z := bytes_word (take 4 (drop (4 * i) l)).

Definition encode_dinode (n : sfs_dinode) : list Z :=
  word_bytes (sfi_size n) ++ half_bytes (sfi_type n) ++ half_bytes (sfi_linkcount n) ++
  words_bytes (sfi_direct n) ++ word_bytes (sfi_indirect n) ++ words_bytes (sfi_waste n).

Definition decode_dinode (l : list Z) : sfs_dinode :=
  mk_dinode (word_of l 0) (bytes_word (take 2 (drop 4 l))) (bytes_word (take 2 (drop 6 l)))
    (word_of l <$> seq 2 15) (word_of l 17) (word_of l <$> seq 18 110).

Definition set_type x i := mk_dinode (sfi_size i) x (sfi_linkcount i) (sfi_direct i) (sfi_indirect i) (sfi_waste i).
Definition set_linkcount x i := mk_dinode (sfi_size i) (sfi_type i) x (sfi_direct i) (sfi_indirect i) (sfi_waste i).

Section inode.
Context {D : Type} {DV : Device D} {LY : Layout}.
Context (inode_addr : positive -> Z).        (* &sv->sv_i *)
Context (tsd : Z).

Record volume := mk_volume {
  v_fs : sfs_fs D;
  v_table : array positive;                  (* sfs_vnodes *)
  v_ref : gmap positive Z;                   (* vn_refcount *)
  v_memory : list bool                       (* the allocations to come; then all succeed *)
}.

Definition set_fs x v := mk_volume x (v_table v) (v_ref v) (v_memory v).
Definition set_table x v := mk_volume (v_fs v) x (v_ref v) (v_memory v).
Definition set_ref x v := mk_volume (v_fs v) (v_table v) x (v_memory v).
Definition set_memory x v := mk_volume (v_fs v) (v_table v) (v_ref v) x.

Notation VM := (SM volume).

Definition on_fs {A} (p : SM (sfs_fs D) A) : VM A := fun v =>
  match p (v_fs v) with inr (a, s') => inr (a, set_fs s' v) | inl r => inl r end.
Definition on_table {A} (p : SM (array positive) A) : VM A := fun v =>
  match p (v_table v) with inr (a, t') => inr (a, set_table t' v) | inl r => inl r end.
Definition kmalloc_ok : VM bool := fun v =>
  match v_memory v with [] => inr (true, v) | b :: l => inr (b, set_memory l v) end.

Definition get_ref (x : positive) : VM Z := fun v => sderef (v_ref v !! x) "vn" v.
Definition put_ref (x : positive) (n : Z) : VM unit := smodify (fun v => set_ref (<[x := n]> (v_ref v)) v).

(** A structure is there from [vnode_init] to its [kfree]. *)
Definition new_vnode (x : positive) (sv : sfs_vnode) : VM unit :=
  on_fs (smodify (fun s => set_vnodes (<[x := sv]> (sfs_vnodes s)) s)).
Definition free_vnode (x : positive) : VM unit :=
  on_fs (smodify (fun s => set_vnodes (delete x (sfs_vnodes s)) s)) ;;
  smodify (fun v => set_ref (delete x (v_ref v)) v).

(** ** Reference counts ([vnode.c]) *)

Definition vnode_init (x : positive) : VM Z :=
  put_ref x 1 ;;
  sret 0.

Definition vnode_cleanup (x : positive) : VM unit :=
  n <- get_ref x ;;
  sassert (n =? 1) "vn->vn_refcount == 1" ;;
  put_ref x 0.

Definition vnode_incref (x : positive) : VM unit :=
  n <- get_ref x ;;
  put_ref x (n + 1).

(** ** Inodes ([sfs_inode.c]) *)

Definition sfs_sync_inode (sv : positive) : VM Z :=
  v <- on_fs (get_sv sv) ;;
  if sv_dirty v then
    on_fs (on_memory (smodify (store (span (inode_addr sv) SFS_BLOCKSIZE) (encode_dinode (sv_i v))))) ;;
    result <- on_fs (sfs_writeblock (sv_ino v) (inode_addr sv) SFS_BLOCKSIZE) ;;
    if negb (result =? 0) then sret result else
    new_vnode sv (mk_sfs_vnode (sv_i v) (sv_ino v) false) ;;
    sret 0
  else sret 0.

(** The search for a vnode in the table: [n] entries are left. *)
Fixpoint find_index (n : nat) (i : Z) (sv : positive) : VM (option Z) :=
  match n with
  | O => sret None
  | S n' =>
      v2 <- on_table (array_get i) ;;
      if bool_decide (v2 = sv) then sret (Some i) else find_index n' (i + 1) sv
  end.

Definition sfs_reclaim (sv : positive) : VM Z :=
  on_fs vfs_biglock_acquire ;;
  refcount <- get_ref sv ;;
  if negb (refcount =? 1) then
    sassert (1 <? refcount) "v->vn_refcount>1" ;;
    put_ref sv (refcount - 1) ;;
    on_fs vfs_biglock_release ;;
    sret EBUSY
  else
  v <- on_fs (get_sv sv) ;;
  result <- (if sfi_linkcount (sv_i v) =? 0 then on_fs (sfs_itrunc sv 0) else sret 0) ;;
  if negb (result =? 0) then on_fs vfs_biglock_release ;; sret result else
  result <- sfs_sync_inode sv ;;
  if negb (result =? 0) then on_fs vfs_biglock_release ;; sret result else
  v <- on_fs (get_sv sv) ;;
  (if sfi_linkcount (sv_i v) =? 0 then on_fs (sfs_bfree (sv_ino v)) else sret tt) ;;
  num <- on_table array_num ;;
  ix <- find_index (Z.to_nat num) 0 sv ;;
  match ix with
  | None => sstop (panic_called "sfs: reclaim vnode not in vnode pool")
  | Some ix =>
      on_table (array_remove ix) ;;
      vnode_cleanup sv ;;
      on_fs vfs_biglock_release ;;
      free_vnode sv ;;
      sret 0
  end.

(** [VOP_DECREF]; the error of [VOP_RECLAIM] is only printed. *)
Definition vnode_decref (x : positive) : VM unit :=
  n <- get_ref x ;;
  sassert (0 <? n) "vn->vn_refcount > 0" ;;
  if 1 <? n then put_ref x (n - 1) else
  sfs_reclaim x ;;
  sret tt.

(** The search for an inode in the table, with a new reference to it. *)
Fixpoint find_loaded (n : nat) (i ino forcetype : Z) : VM (option positive) :=
  match n with
  | O => sret None
  | S n' =>
      sv <- on_table (array_get i) ;;
      v <- on_fs (get_sv sv) ;;
      used <- on_fs (sfs_bused (sv_ino v)) ;;
      if negb used then sstop (panic_called "sfs: Found inode in unallocated block") else
      if sv_ino v =? ino then
        sassert (forcetype =? SFS_TYPE_INVAL) "forcetype==SFS_TYPE_INVAL" ;;
        vnode_incref sv ;;
        sret (Some sv)
      else find_loaded n' (i + 1) ino forcetype
  end.

(** The type of a new object, and whether that makes the inode dirty. *)
Definition forced (forcetype : Z) (n : sfs_dinode) : VM (sfs_dinode * bool) :=
  if forcetype =? SFS_TYPE_INVAL then sret (n, false) else
  sassert (sfi_type n =? SFS_TYPE_INVAL) "sv->sv_i.sfi_type == SFS_TYPE_INVAL" ;;
  sret (set_type forcetype n, true).

(** The inode is read and its vnode entered into the table. *)
Definition load_inode (ino forcetype : Z) : VM (Z * option positive) :=
  ok <- kmalloc_ok ;;
  if negb ok then sret (ENOMEM, None) else
  used <- on_fs (sfs_bused ino) ;;
  if negb used then sstop (panic_called "sfs: Tried to load inode from unallocated block") else
  sv <- sget (fun v => fresh (dom (sfs_vnodes (v_fs v)))) ;;
  result <- on_fs (sfs_readblock ino (inode_addr sv) SFS_BLOCKSIZE) ;;
  if negb (result =? 0) then sret (result, None) else
  n <- sget (fun v => decode_dinode (load (sfs_mem (v_fs v)) (span (inode_addr sv) SFS_BLOCKSIZE))) ;;
  nd <- forced forcetype n ;;
  if negb ((sfi_type (fst nd) =? SFS_TYPE_FILE) || (sfi_type (fst nd) =? SFS_TYPE_DIR)) then sstop (panic_called "sfs: loadvnode: Invalid inode type") else
  result <- vnode_init sv ;;
  if negb (result =? 0) then sret (result, None) else
  new_vnode sv (mk_sfs_vnode (fst nd) ino (snd nd)) ;;
  memory <- kmalloc_ok ;;
  ri <- on_table (array_add memory sv) ;;
  if negb (fst ri =? 0) then
    vnode_cleanup sv ;;
    free_vnode sv ;;
    sret (fst ri, None)
  else sret (0, Some sv).

Definition sfs_loadvnode (ino forcetype : Z) : VM (Z * option positive) :=
  num <- on_table array_num ;;
  found <- find_loaded (Z.to_nat num) 0 ino forcetype ;;
  match found with
  | Some sv => sret (0, Some sv)
  | None => load_inode ino forcetype
  end.

Definition sfs_makeobj (type : Z) : VM (Z * option positive) :=
  rb <- on_fs sfs_balloc ;;
  let '(result, ino) := rb in
  if negb (result =? 0) then sret (result, None) else
  rv <- sfs_loadvnode ino type ;;
  (if negb (fst rv =? 0) then on_fs (sfs_bfree ino) else sret tt) ;;
  sret rv.

(** A pointer a function handed back. *)
Definition handed (o : option positive) : VM positive := sderef o "ret".

Definition sfs_getroot : VM (Z * option positive) :=
  on_fs vfs_biglock_acquire ;;
  rv <- sfs_loadvnode SFS_ROOTDIR_INO SFS_TYPE_INVAL ;;
  if negb (fst rv =? 0) then on_fs vfs_biglock_release ;; sret (fst rv, None) else
  sv <- handed (snd rv) ;;
  v <- on_fs (get_sv sv) ;;
  if negb (sfi_type (sv_i v) =? SFS_TYPE_DIR) then on_fs vfs_biglock_release ;; sret (EINVAL, None) else
  on_fs vfs_biglock_release ;;
  sret (0, Some sv).

(** The result, the vnode and the slot ([sfs_dir.c]). *)
Definition sfs_lookonce (sv : positive) (name : list Z) : VM (Z * option positive * option Z) :=
  rh <- on_fs (sfs_dir_findname tsd sv name) ;;
  let '(result, h) := rh in
  if negb (result =? 0) then sret (result, None, None) else
  ino <- sderef (h_ino h) "ino" ;;
  rv <- sfs_loadvnode ino SFS_TYPE_INVAL ;;
  if negb (fst rv =? 0) then sret (fst rv, None, h_slot h) else
  y <- handed (snd rv) ;;
  v <- on_fs (get_sv y) ;;
  if sfi_linkcount (sv_i v) =? 0 then sstop (panic_called "sfs: name in dir has linkcount 0") else
  sret (0, Some y, h_slot h).
End inode.
