(* ===== verification/SfsVolume.v ===== *)
(** * SFS: the inodes of a volume, in memory and on the disk

    An inode is in memory, in the vnode that has its number, or only on the
    disk.  [files] joins the two, so that a claim about the files of a volume
    does not depend on which of them are loaded.  [volume_ok] is the invariant
    of a mounted volume; the operations on the blocks of a loaded file keep it,
    because for them the blocks of the others are reserved. *)

From S2P Require Import Prelude State Monad StopState Bitmap Array Uio Device Sfs SfsSpec SfsBlock SfsBmap SfsRead SfsIo SfsTrunc SfsKeeps SfsDir SfsInode.

#[local] Open Scope Z_scope.

(** ** Inodes as bytes *)

Definition is_u16 (w : Z) : Prop := 0 <= w < 2^16.

Record inode_wf (n : sfs_dinode) : Prop := mk_inode_wf {
  wf_size : is_u32 (sfi_size n);
  wf_type : is_u16 (sfi_type n);
  wf_linkcount : is_u16 (sfi_linkcount n);
  wf_direct : zlen (sfi_direct n) = SFS_NDIRECT /\ Forall is_u32 (sfi_direct n);
  wf_indirect : is_u32 (sfi_indirect n);
  wf_waste : zlen (sfi_waste n) = SFS_NWASTE /\ Forall is_u32 (sfi_waste n)
}.

Lemma word_of_words ws i w : ws !! i = Some w -> is_u32 w -> word_of (words_bytes ws) i = w.
Proof.
  intros Hi Hw. unfold word_of, words_bytes. revert ws Hi. induction i as [|i IH]; intros [|a ws] Hi; [done| |done|].
  - injection Hi as ->. by apply bytes_word_roundtrip.
  - replace (4 * S i)%nat with (4 + 4 * i)%nat by lia. by apply IH.
Qed.

Lemma words_part ws k ds : (forall j, (j < length ds)%nat -> ws !! (k + j)%nat = ds !! j) -> Forall is_u32 ds ->
  word_of (words_bytes ws) <$> seq k (length ds) = ds.
Proof.
  intros Hl Hd. apply list_eq. intros j. rewrite list_lookup_fmap. destruct (decide (j < length ds)%nat) as [Hj|Hj].
  - rewrite lookup_seq_lt by done. cbn. destruct (lookup_lt_is_Some_2 ds j Hj) as [w Hw]. rewrite Hw. f_equal.
    apply word_of_words; [by rewrite Hl|by eapply Forall_lookup_1 in Hd].
  - rewrite lookup_seq_ge by lia. symmetry. apply lookup_ge_None. lia.
Qed.

Definition dinode_words (n : sfs_dinode) : list Z :=
  sfi_size n :: sfi_type n * 2^16 + sfi_linkcount n :: sfi_direct n ++ sfi_indirect n :: sfi_waste n.

Lemma half_words a b : is_u16 a -> is_u16 b -> half_bytes a ++ half_bytes b = word_bytes (a * 2^16 + b).
Proof. unfold is_u16, half_bytes, word_bytes. intros Ha Hb. cbn [app].
  change (2^8) with 256. change (2^16) with 65536 in *. change (2^24) with 16777216.
  apply (f_equal2 cons); [lia|]. apply (f_equal2 cons); [lia|]. apply (f_equal2 cons); [lia|]. apply (f_equal2 cons); [lia|done].
Qed.

Lemma half_roundtrip a : is_u16 a -> bytes_word (half_bytes a) = a.
Proof. unfold is_u16, half_bytes, bytes_word. intros Ha. cbn [foldl]. lia. Qed.

Lemma encode_words n : inode_wf n -> encode_dinode n = words_bytes (dinode_words n).
Proof.
  intros Hn. unfold encode_dinode, dinode_words. rewrite (app_assoc (half_bytes _)), half_words by apply Hn.
  unfold words_bytes. cbn [mbind list_bind]. by rewrite bind_app.
Qed.

Lemma length_words ws : length (words_bytes ws) = (4 * length ws)%nat.
Proof. induction ws as [|w ws IH]; [done|]. unfold words_bytes in *. cbn. lia. Qed.

Lemma length_encode_dinode n : inode_wf n -> length (encode_dinode n) = Z.to_nat SFS_BLOCKSIZE.
Proof.
  intros Hn. rewrite encode_words, length_words by done. unfold dinode_words. cbn. rewrite length_app. cbn.
  destruct (wf_direct _ Hn) as [Hd _], (wf_waste _ Hn) as [Hw _]. unfold zlen, SFS_NDIRECT, SFS_NWASTE, SFS_BLOCKSIZE in *. lia.
Qed.

Lemma dinode_roundtrip n : inode_wf n -> decode_dinode (encode_dinode n) = n.
Proof.
  intros Hn. pose proof (encode_words n Hn) as Ew. destruct Hn as [Hs Ht Hl [Hd Hdu] Hi [Hw Hwu]]. destruct n as [size type links direct indirect waste].
  cbn [sfi_size sfi_type sfi_linkcount sfi_direct sfi_indirect sfi_waste] in *. unfold zlen, SFS_NDIRECT, SFS_NWASTE in *.
  assert (length direct = 15%nat) as Ld by lia. assert (length waste = 110%nat) as Lw by lia. unfold decode_dinode. f_equal.
  - rewrite Ew. by apply word_of_words.
  - unfold encode_dinode. cbn -[half_bytes Z.div Z.modulo]. by apply half_roundtrip.
  - unfold encode_dinode. cbn -[Z.div Z.modulo]. by apply (half_roundtrip links).
  - rewrite Ew. rewrite <- Ld. apply words_part; [|done]. intros j Hj. change ((direct ++ indirect :: waste) !! j = direct !! j). by rewrite lookup_app_l.
  - rewrite Ew. apply word_of_words; [|done]. change ((direct ++ indirect :: waste) !! 15%nat = Some indirect). by rewrite <- Ld, lookup_app_r, Nat.sub_diag.
  - rewrite Ew. rewrite <- Lw. apply words_part; [|done]. intros j Hj. change ((direct ++ indirect :: waste) !! (16 + j)%nat = waste !! j).
    rewrite lookup_app_r by lia. by replace (16 + j - length direct)%nat with (S j) by lia.
Qed.

(** ** The inodes of a volume *)

Section volume.
Context {D : Type} {DV : Device D} {BD : BlockDevice D} {LY : Layout}.
Context (meta : Z -> Prop).                  (* the super block and the map of free blocks *)

Notation SS := (sfs_fs D).
Implicit Types (s : SS) (I : gset Z).

Definition in_core s (k : Z) : option sfs_vnode :=
  snd <$> head (filter (fun p => sv_ino p.2 = k) (map_to_list (sfs_vnodes s))).

Definition inode_of s (k : Z) : sfs_dinode :=
  match in_core s k with Some v => sv_i v | None => decode_dinode (sec s k) end.

(** The files with the inode numbers [I]. *)
Definition files I s : gmap Z sfs_dinode := set_to_map (fun k => (k, inode_of s k)) I.

(** The blocks that are not of a file. *)
Definition system I (b : Z) : Prop := meta b \/ b ∈ I.

Record vnodes_ok I s : Prop := mk_vnodes_ok {
  vn_inos : forall x v, sfs_vnodes s !! x = Some v -> sv_ino v ∈ I;
  vn_once : forall x y v w, sfs_vnodes s !! x = Some v -> sfs_vnodes s !! y = Some w -> sv_ino v = sv_ino w -> x = y
}.

Lemma in_core_Some s k v : in_core s k = Some v -> exists x, sfs_vnodes s !! x = Some v /\ sv_ino v = k.
Proof.
  unfold in_core. intros H. apply fmap_Some in H as ([x w] & Hh & ->). apply head_Some_elem_of, list_elem_of_filter in Hh as [E Hin].
  apply elem_of_map_to_list in Hin. by exists x.
Qed.

Lemma in_core_None s k : in_core s k = None <-> forall x v, sfs_vnodes s !! x = Some v -> sv_ino v <> k.
Proof.
  unfold in_core. rewrite fmap_None, head_None. split.
  - intros E x v Hv Hk. assert ((x, v) ∈ filter (fun p => sv_ino p.2 = k) (map_to_list (sfs_vnodes s))) as Hin
      by (apply list_elem_of_filter; split; [done|by apply elem_of_map_to_list]). rewrite E in Hin. by apply elem_of_nil in Hin.
  - intros H. destruct (filter _ _) as [|[x v] l] eqn:E; [done|]. assert ((x, v) ∈ filter (fun p => sv_ino p.2 = k) (map_to_list (sfs_vnodes s))) as Hin
      by (rewrite E; by left). apply list_elem_of_filter in Hin as [Hk Hin]. apply elem_of_map_to_list in Hin. by destruct (H x v Hin).
Qed.

Lemma in_core_loaded I s x v : vnodes_ok I s -> sfs_vnodes s !! x = Some v -> in_core s (sv_ino v) = Some v.
Proof.
  intros Hvn Hx. destruct (in_core s (sv_ino v)) as [w|] eqn:E.
  - apply in_core_Some in E as (y & Hy & Ei). assert (y = x) as -> by by eapply (vn_once _ _ Hvn). congruence.
  - rewrite in_core_None in E. by destruct (E x v Hx).
Qed.

Lemma inode_loaded I s x v : vnodes_ok I s -> sfs_vnodes s !! x = Some v -> inode_of s (sv_ino v) = sv_i v.
Proof. intros Hvn Hx. unfold inode_of. by rewrite (in_core_loaded I s x v). Qed.

Lemma lookup_files I s k n : files I s !! k = Some n <-> k ∈ I /\ n = inode_of s k.
Proof.
  unfold files. rewrite lookup_set_to_map; [|intros y y' _ _ E; exact E]. split.
  - intros (y & Hy & [= -> <-]). done.
  - intros [Hk ->]. by exists k.
Qed.

Lemma files_loaded I s x v : vnodes_ok I s -> sfs_vnodes s !! x = Some v -> files I s !! sv_ino v = Some (sv_i v).
Proof. intros Hvn Hx. apply lookup_files. split; [by eapply vn_inos|]. symmetry. by eapply inode_loaded. Qed.

(** ** Seen from the loaded files *)

Definition elsewhere s (key : key Z) : Prop :=
  match key with KSlot k _ | KInd k => in_core s k = None | KOther _ => True end.

(** The blocks that the operations on the loaded files must leave alone. *)
Definition others I s (b : Z) : Prop := exists key, uses (sec s) (system I) (files I s) key b /\ elsewhere s key.

Definition ino s (x : positive) : Z := default 0 (sv_ino <$> sfs_vnodes s !! x).

Definition key_of s (k : key positive) : key Z :=
  match k with KSlot x i => KSlot (ino s x) i | KInd x => KInd (ino s x) | KOther b => KOther b end.

Definition of_file {K} (k : key K) : Prop := match k with KOther _ => False | _ => True end.

Lemma inodes_vnode s x n : inodes s !! x = Some n -> exists v, sfs_vnodes s !! x = Some v /\ n = sv_i v.
Proof. unfold inodes. rewrite lookup_fmap. intros H. apply fmap_Some in H as (v & Hv & ->). by exists v. Qed.

Lemma ino_vnode s x v : sfs_vnodes s !! x = Some v -> ino s x = sv_ino v.
Proof. unfold ino. by intros ->. Qed.

(** A use by a loaded file is one by its number, and the other way round. *)
Lemma uses_up I s f R k b : vnodes_ok I s -> of_file k -> uses f R (inodes s) k b ->
  uses f (system I) (files I s) (key_of s k) b /\ ~ elsewhere s (key_of s k).
Proof.
  intros Hvn Hk. destruct k as [x i|x|c]; [| |done]; cbn.
  - intros (n & Hn & Hi & Hs & Hb). apply inodes_vnode in Hn as (v & Hv & ->). rewrite (ino_vnode s x v Hv). split.
    + exists (sv_i v). split; [by eapply files_loaded|done].
    + by rewrite (in_core_loaded I s x v).
  - intros (n & Hn & Hs & Hb). apply inodes_vnode in Hn as (v & Hv & ->). rewrite (ino_vnode s x v Hv). split.
    + exists (sv_i v). split; [by eapply files_loaded|done].
    + by rewrite (in_core_loaded I s x v).
Qed.

Lemma uses_down I s f R key b : vnodes_ok I s -> ~ elsewhere s key -> uses f (system I) (files I s) key b ->
  exists k, key = key_of s k /\ of_file k /\ uses f R (inodes s) k b.
Proof.
  intros Hvn Hk. destruct key as [k i|k|c]; cbn in Hk |- *; [| |done].
  - intros (n & Hn & Hi & Hs & Hb). apply lookup_files in Hn as [_ ->]. unfold inode_of in Hs.
    destruct (in_core s k) as [v|] eqn:E; [|done]. apply in_core_Some in E as (x & Hv & <-). exists (KSlot x i). cbn. rewrite (ino_vnode s x v Hv).
    split_and!; [done|done|]. exists (sv_i v). by rewrite (inodes_lookup s x v).
  - intros (n & Hn & Hs & Hb). apply lookup_files in Hn as [_ ->]. unfold inode_of in Hs.
    destruct (in_core s k) as [v|] eqn:E; [|done]. apply in_core_Some in E as (x & Hv & <-). exists (KInd x). cbn. rewrite (ino_vnode s x v Hv).
    split_and!; [done|done|]. exists (sv_i v). by rewrite (inodes_lookup s x v).
Qed.

Lemma key_of_inj I s f R k k' b b' : vnodes_ok I s -> uses f R (inodes s) k b -> uses f R (inodes s) k' b' -> key_of s k = key_of s k' -> k = k'.
Proof.
  intros Hvn Hk Hk' E. assert (forall x y n m, inodes s !! x = Some n -> inodes s !! y = Some m -> ino s x = ino s y -> x = y) as Hinj.
  { intros x y n m Hx Hy. apply inodes_vnode in Hx as (v & Hv & _), Hy as (w & Hw & _). rewrite (ino_vnode s x v Hv), (ino_vnode s y w Hw). by eapply vn_once. }
  destruct k as [x i|x|c], k' as [y j|y|c']; cbn in E; try done; injection E; cbn in Hk, Hk'.
  - destruct Hk as (n & Hn & _), Hk' as (m & Hm & _). intros -> E'. by rewrite (Hinj x y n m Hn Hm E').
  - destruct Hk as (n & Hn & _), Hk' as (m & Hm & _). intros E'. by rewrite (Hinj x y n m Hn Hm E').
  - by intros ->.
Qed.

Lemma key_case {K} (k : key K) : of_file k \/ exists c, k = KOther c.
Proof. destruct k as [x i|x|c]; [by left|by left|right; by exists c]. Qed.

Lemma others_blocks I s (mk : Z -> Prop) : vnodes_ok I s -> blocks_ok (sec s) (system I) (files I s) mk -> blocks_ok (sec s) (others I s) (inodes s) mk.
Proof.
  intros Hvn Hok. constructor.
  - intros x n Hn. apply inodes_vnode in Hn as (v & Hv & ->). by eapply (bo_direct _ _ _ _ Hok), files_loaded.
  - intros k b Hk. destruct (key_case k) as [Hf|[c ->]].
    + destruct (uses_up I s _ _ k b Hvn Hf Hk) as [Hu _]. by eapply bo_marked.
    + destruct Hk as [-> (key & Hu & _)]. by eapply bo_marked.
  - intros k k' b Hk Hk'. destruct (key_case k) as [Hf|[c ->]], (key_case k') as [Hf'|[c' ->]].
    + eapply (key_of_inj I s); [done|exact Hk|exact Hk'|]. destruct (uses_up I s _ _ k b Hvn Hf Hk), (uses_up I s _ _ k' b Hvn Hf' Hk'). by eapply (bo_unique _ _ _ _ Hok).
    + destruct (uses_up I s _ _ k b Hvn Hf Hk) as [Hu Hn]. destruct Hk' as [-> (key & Hu' & He)]. by rewrite (bo_unique _ _ _ _ Hok _ _ _ Hu Hu') in Hn.
    + destruct (uses_up I s _ _ k' b Hvn Hf' Hk') as [Hu Hn]. destruct Hk as [-> (key & Hu' & He)]. by rewrite (bo_unique _ _ _ _ Hok _ _ _ Hu Hu') in Hn.
    + destruct Hk as [-> _], Hk' as [-> _]. done.
Qed.

(** ** An operation on the loaded files *)

(** It keeps the vnodes with their numbers, and the blocks of the others. *)
Record beside I s s' : Prop := mk_beside {
  bs_numbers : forall x, sv_ino <$> sfs_vnodes s' !! x = sv_ino <$> sfs_vnodes s !! x;
  bs_others : forall b, others I s b -> sec s' b = sec s b
}.

Lemma beside_vnode I s s' x v : beside I s s' -> sfs_vnodes s !! x = Some v -> exists v', sfs_vnodes s' !! x = Some v' /\ sv_ino v' = sv_ino v.
Proof.
  intros Hb Hv. pose proof (bs_numbers _ _ _ Hb x) as E. rewrite Hv in E. cbn in E. apply fmap_Some in E as (v' & Hv' & E). by exists v'.
Qed.

Lemma beside_back I s s' x v' : beside I s s' -> sfs_vnodes s' !! x = Some v' -> exists v, sfs_vnodes s !! x = Some v /\ sv_ino v' = sv_ino v.
Proof.
  intros Hb Hv. pose proof (bs_numbers _ _ _ Hb x) as E. rewrite Hv in E. cbn in E. symmetry in E. apply fmap_Some in E as (v & Hv0 & E). by exists v.
Qed.

Lemma beside_vnodes I s s' : beside I s s' -> vnodes_ok I s -> vnodes_ok I s'.
Proof.
  intros Hb [Hi Ho]. constructor.
  - intros x v' Hv'. destruct (beside_back _ _ _ _ _ Hb Hv') as (v & Hv & ->). by eapply Hi.
  - intros x y v' w' Hv' Hw' E. destruct (beside_back _ _ _ _ _ Hb Hv') as (v & Hv & E1), (beside_back _ _ _ _ _ Hb Hw') as (w & Hw & E2).
    apply (Ho x y v w Hv Hw). congruence.
Qed.

Lemma beside_core I s s' k : beside I s s' -> in_core s' k = None <-> in_core s k = None.
Proof.
  intros Hb. rewrite !in_core_None. split; intros H x v Hv.
  - destruct (beside_vnode _ _ _ _ _ Hb Hv) as (v' & Hv' & <-). by eapply H.
  - destruct (beside_back _ _ _ _ _ Hb Hv) as (v0 & Hv0 & ->). by eapply H.
Qed.

Lemma beside_elsewhere I s s' key : beside I s s' -> elsewhere s' key <-> elsewhere s key.
Proof. intros Hb. destruct key; cbn; [by eapply beside_core|by eapply beside_core|done]. Qed.

Lemma inode_others I s k : k ∈ I -> others I s k.
Proof. intros Hk. exists (KOther k). split; [split; [done|by right]|done]. Qed.

(** A file that is not loaded. *)
Lemma beside_file I s s' k : beside I s s' -> k ∈ I -> in_core s k = None ->
  inode_of s' k = inode_of s k /\
  (forall i, 0 <= i < SFS_MAXBLOCKS -> slot (sec s') (inode_of s k) i = slot (sec s) (inode_of s k) i /\
     block_bytes (sec s') (slot (sec s) (inode_of s k) i) = block_bytes (sec s) (slot (sec s) (inode_of s k) i)).
Proof.
  intros Hb Hk Hc. assert (files I s !! k = Some (inode_of s k)) as Hf by by apply lookup_files. split.
  - unfold inode_of. rewrite Hc, (proj2 (beside_core I s s' k Hb) Hc). by rewrite (bs_others _ _ _ Hb k (inode_others I s k Hk)).
  - intros i Hi. split.
    + apply slot_frame. intros Hn. apply (bs_others _ _ _ Hb). exists (KInd k). split; [by exists (inode_of s k)|done].
    + unfold block_bytes. destruct (Z.eqb_spec (slot (sec s) (inode_of s k) i) 0); [done|]. apply (bs_others _ _ _ Hb). exists (KSlot k i).
      split; [by exists (inode_of s k)|done].
Qed.

Lemma beside_uses I s s' key b : beside I s s' -> elsewhere s key ->
  uses (sec s') (system I) (files I s') key b -> uses (sec s) (system I) (files I s) key b.
Proof.
  intros Hb He. destruct key as [k i|k|c]; cbn in He |- *; [| |done].
  - intros (n & [Hk ->]%lookup_files & Hi & Hs & Hz). destruct (beside_file I s s' k Hb Hk He) as [E Hsl]. rewrite E in Hs.
    exists (inode_of s k). rewrite lookup_files. rewrite (proj1 (Hsl i Hi)) in Hs. split_and!; (done || lia).
  - intros (n & [Hk ->]%lookup_files & Hs & Hz). destruct (beside_file I s s' k Hb Hk He) as [E Hsl]. rewrite E in Hs.
    exists (inode_of s k). by rewrite lookup_files.
Qed.

Lemma elsewhere_dec s key : elsewhere s key \/ ~ elsewhere s key.
Proof. destruct key; cbn; [destruct (in_core s x); auto..|by left]. Qed.

Lemma files_blocks I s s' (mk : Z -> Prop) : vnodes_ok I s -> blocks_ok (sec s) (system I) (files I s) mk -> beside I s s' ->
  blocks_ok (sec s') (others I s) (inodes s') (marked s') -> blocks_ok (sec s') (system I) (files I s') (marked s').
Proof.
  intros Hvn Hold Hb Hok. pose proof (beside_vnodes _ _ _ Hb Hvn) as Hvn'.
  assert (forall key b, uses (sec s') (system I) (files I s') key b ->
    (exists k, key = key_of s' k /\ of_file k /\ uses (sec s') (others I s) (inodes s') k b) \/
    (elsewhere s key /\ uses (sec s) (system I) (files I s) key b /\ uses (sec s') (others I s) (inodes s') (KOther b) b)) as Hcase.
  { intros key b Hu. destruct (elsewhere_dec s key) as [He|He].
    - right. pose proof (beside_uses I s s' key b Hb He Hu) as Hu0. split_and!; [done|done|]. split; [done|]. by exists key.
    - left. eapply uses_down; [done| |exact Hu]. by rewrite (beside_elsewhere I s s' key Hb). }
  constructor.
  - intros k n [Hk ->]%lookup_files. unfold inode_of. destruct (in_core s' k) as [v|] eqn:E.
    + apply in_core_Some in E as (x & Hv & _). by eapply (bo_direct _ _ _ _ Hok), inodes_lookup.
    + rewrite (beside_core I s s' k Hb) in E. rewrite (bs_others _ _ _ Hb k (inode_others I s k Hk)).
      apply (bo_direct _ _ _ _ Hold k). apply lookup_files. split; [done|]. unfold inode_of. by rewrite E.
  - intros key b [(k & _ & _ & Hu)|(_ & _ & Hu)]%Hcase; by eapply (bo_marked _ _ _ _ Hok).
  - intros key key' b [(k & -> & Hf & Hu)|(He & Hu & Ho)]%Hcase [(k' & -> & Hf' & Hu')|(He' & Hu' & Ho')]%Hcase.
    + by rewrite (bo_unique _ _ _ _ Hok _ _ _ Hu Hu').
    + pose proof (bo_unique _ _ _ _ Hok _ _ _ Hu Ho'). by subst k.
    + pose proof (bo_unique _ _ _ _ Hok _ _ _ Hu' Ho). by subst k'.
    + by eapply (bo_unique _ _ _ _ Hold).
Qed.

(** What an operation does to the loaded files is all it does. *)
Lemma files_others I s s' k n : beside I s s' -> in_core s k = None -> files I s !! k = Some n ->
  files I s' !! k = Some n /\ forall p, 0 <= p < SFS_MAXSIZE -> file_byte (sec s') n p = file_byte (sec s) n p.
Proof.
  intros Hb Hc [Hk ->]%lookup_files. destruct (beside_file I s s' k Hb Hk Hc) as [E Hsl]. split; [by apply lookup_files|].
  intros p Hp. apply file_byte_blocks; [done|]. intros i Hi. destruct (Hsl i Hi) as [-> ->]. done.
Qed.

Lemma files_same I s s' : vnodes_ok I s -> beside I s s' ->
  same_files (sec s) (inodes s) (sec s') (inodes s') -> same_files (sec s) (files I s) (sec s') (files I s').
Proof.
  intros Hvn Hb Hsame k. destruct (files I s !! k) as [n|] eqn:E.
  - pose proof E as E'. apply lookup_files in E' as [Hk ->]. destruct (in_core s k) as [v|] eqn:Ec.
    + apply in_core_Some in Ec as (x & Hv & <-). destruct (beside_vnode _ _ _ _ _ Hb Hv) as (v' & Hv' & E').
      pose proof (files_loaded I s' x v' (beside_vnodes _ _ _ Hb Hvn) Hv') as F. rewrite E' in F. rewrite F, (inode_loaded I s x v) by done.
      specialize (Hsame x). by rewrite (inodes_lookup s x v Hv), (inodes_lookup s' x v' Hv') in Hsame.
    + destruct (files_others I s s' k _ Hb Ec E) as [-> Hp]. split; [done|]. exact Hp.
  - destruct (files I s' !! k) as [n'|] eqn:E'; [|done]. apply lookup_files in E' as [Hk _].
    assert (files I s !! k = Some (inode_of s k)) as E' by by apply lookup_files. congruence.
Qed.
End volume.

(** A block of the system is written. *)
Lemma system_write {K} `{HK : Countable K} (f g : Z -> list Z) R (m : gmap K sfs_dinode) mk b :
  blocks_ok f R m mk -> R b -> (forall c, c <> b -> g c = f c) -> blocks_ok g R m mk /\ same_files f m g m.
Proof.
  intros Hok Hb Hg. assert (forall y n, m !! y = Some n -> sfi_indirect n <> 0 -> g (sfi_indirect n) = f (sfi_indirect n)) as Hi.
  { intros y n Hn H0. apply Hg. intros E. assert (KInd y = KOther b) as [=]. apply (bo_unique _ _ _ _ Hok _ _ b); [exists n; by rewrite <- E|done]. }
  assert (forall y n j, m !! y = Some n -> slot g n j = slot f n j) as Hs by (intros y n j Hn; apply slot_frame; by eapply Hi).
  assert (forall k c, uses g R m k c -> uses f R m k c) as Hu.
  { intros [y j|y|c'] c; cbn; [|done..]. intros (n & Hn & Hj & E & Hc). rewrite (Hs y n j Hn) in E. by exists n. }
  split.
  - constructor; [apply Hok| |]; intros k; [intros c Hk%Hu; by eapply bo_marked|intros k' c Hk%Hu Hk'%Hu; by eapply bo_unique].
  - intros y. destruct (m !! y) as [n|] eqn:Hn; [|done]. split; [done|]. intros p Hp. apply file_byte_blocks; [done|]. intros j Hj.
    rewrite (Hs y n j Hn). unfold block_bytes. destruct (Z.eqb_spec (slot f n j) 0); [done|]. apply Hg. intros E.
    assert (KSlot y j = KOther b) as [=]. apply (bo_unique _ _ _ _ Hok _ _ b); [exists n; rewrite <- E; split_and!; (done || lia)|done].
Qed.

(** ** The invariant of a volume *)

Section invariant.
Context {D : Type} {DV : Device D} {BD : BlockDevice D} {LY : Layout}.
Context (inode_addr : positive -> Z) (meta : Z -> Prop).

Notation volume := (volume (D := D)).
Notation SS := (sfs_fs D).
Notation buffer s := (dv_buffer (sfs_device s)).
Implicit Types (s : SS) (I : gset Z) (v : volume).

(** The parts of an inode besides its blocks. *)
Record inode_fields (n : sfs_dinode) : Prop := mk_inode_fields {
  if_size : is_u32 (sfi_size n);
  if_type : sfi_type n = SFS_TYPE_FILE \/ sfi_type n = SFS_TYPE_DIR;
  if_linkcount : is_u16 (sfi_linkcount n);
  if_waste : zlen (sfi_waste n) = SFS_NWASTE /\ Forall is_u32 (sfi_waste n)
}.

(** [I]: the numbers of the inodes of the volume. *)
Record volume_ok I v : Prop := mk_volume_ok {
  vo_fs : sfs_ok (fun _ => False) (set_depth 1 (v_fs v));
  vo_depth : 0 <= vfs_biglock_depth (v_fs v);
  vo_blocks : blocks_ok (sec (v_fs v)) (system meta I) (files I (v_fs v)) (marked (v_fs v));
  vo_vnodes : vnodes_ok I (v_fs v);
  vo_inodes : forall k, k ∈ I -> inode_fields (inode_of (v_fs v) k);
  vo_clean : forall x w, sfs_vnodes (v_fs v) !! x = Some w -> sv_dirty w = false -> decode_dinode (sec (v_fs v) (sv_ino w)) = sv_i w;
  vo_table : exists l, holds (v_table v) l /\ NoDup l /\ forall x, x ∈ l <-> is_Some (sfs_vnodes (v_fs v) !! x);
  vo_refs : forall x, is_Some (sfs_vnodes (v_fs v) !! x) -> exists n, v_ref v !! x = Some n /\ 0 < n;
  vo_buffers : forall x a, a ∈ span (inode_addr x) SFS_BLOCKSIZE -> ~ static (buffer (v_fs v)) a;
  vo_meta : forall k, k ∈ I -> ~ meta k /\ k <> 0
}.

Lemma ok_blocks R s : sfs_ok (fun _ => False) (set_depth 1 s) -> 0 < vfs_biglock_depth s -> blocks_ok (sec s) R (inodes s) (marked s) -> sfs_ok R s.
Proof. clear inode_addr meta. intros [] Hd Hb. constructor; done. Qed.

Lemma ok_less R s d : sfs_ok R s -> 0 < d -> sfs_ok (fun _ => False) (set_depth d s).
Proof. clear inode_addr meta.
  intros Hok Hd. assert (blocks_ok (sec s) (fun _ => False) (inodes s) (marked s)) as Hb; [|destruct Hok; constructor; done].
  destruct (so_blocks _ _ Hok) as [H1 H2 H3]. assert (forall k b, uses (sec s) (fun _ => False) (inodes s) k b -> uses (sec s) R (inodes s) k b) as Hu
    by (intros [x i|x|c] b; cbn; tauto).
  constructor; [done| |]; intros k; [intros b Hk%Hu; by eapply H2|intros k' b Hk%Hu Hk'%Hu; by eapply H3].
Qed.

Lemma volume_fs_ok I v : volume_ok I v -> 0 < vfs_biglock_depth (v_fs v) -> sfs_ok (others meta I (v_fs v)) (v_fs v).
Proof. intros Hv Hd. apply ok_blocks; [apply Hv|done|]. apply others_blocks; apply Hv. Qed.

Lemma volume_in_use I v k : volume_ok I v -> k ∈ I -> marked (v_fs v) k.
Proof. intros Hv Hk. apply (bo_marked _ _ _ _ (vo_blocks _ _ Hv) (KOther k)). split; [done|by right]. Qed.

Lemma small_marked s b : sfs_ok (fun _ => False) (set_depth 1 s) -> marked s b -> 0 <= b <= 2^23.
Proof. clear inode_addr meta. intros Hok [Hb _]. pose proof (so_small _ _ Hok). cbn in *. lia. Qed.

(** The blocks of an inode have small numbers. *)
Lemma volume_inode_wf I v k : volume_ok I v -> k ∈ I -> inode_wf (inode_of (v_fs v) k).
Proof.
  intros Hv Hk. destruct (vo_inodes _ _ Hv k Hk) as [Hs Ht Hl Hw]. pose proof (vo_blocks _ _ Hv) as Hb. set (n := inode_of (v_fs v) k) in *.
  assert (files I (v_fs v) !! k = Some n) as Hn by by apply lookup_files.
  assert (forall key b, uses (sec (v_fs v)) (system meta I) (files I (v_fs v)) key b -> is_u32 b) as Hsmall.
  { intros key b Hu. pose proof (small_marked _ b (vo_fs _ _ Hv) (bo_marked _ _ _ _ Hb key b Hu)). unfold is_u32. lia. }
  assert (is_u32 0) as H0 by (unfold is_u32; lia). pose proof (bo_direct _ _ _ _ Hb k n Hn) as Hd. constructor; [done| |done| | |done].
  - unfold is_u16. destruct Ht as [->| ->]; unfold SFS_TYPE_FILE, SFS_TYPE_DIR; lia.
  - split; [done|]. apply Forall_lookup. intros i b Hi. destruct (decide (b = 0)) as [->|Hne]; [done|]. apply (Hsmall (KSlot k (Z.of_nat i))). exists n.
    pose proof (lookup_lt_Some _ _ _ Hi) as Hlt. unfold zlen in Hd. split_and!; [done|lia|unfold SFS_MAXBLOCKS, SFS_DBPERIDB; lia| |done].
    unfold slot. rewrite (proj2 (Z.ltb_lt _ _)) by lia. unfold zlookup. by rewrite (proj2 (Z.ltb_ge _ 0)), Nat2Z.id, Hi by lia.
  - destruct (decide (sfi_indirect n = 0)) as [->|Hne]; [done|]. apply (Hsmall (KInd k)). by exists n.
Qed.

(** ** Steps of the file system *)

Lemma kept_numbers x s s' y : kept x s s' -> sv_ino <$> sfs_vnodes s' !! y = sv_ino <$> sfs_vnodes s !! y.
Proof. clear inode_addr meta.
  intros [Hx Hy]. destruct (decide (y = x)) as [->|Hne]; [|by rewrite Hy]. destruct (sfs_vnodes s !! x), (sfs_vnodes s' !! x); try done.
  cbn in *. destruct Hx as [E _ _]. unfold identity in E. injection E as _ _ E _. by rewrite E.
Qed.

Lemma kept_fields x s s' y w' : kept x s s' -> sfs_vnodes s' !! y = Some w' -> exists w, sfs_vnodes s !! y = Some w /\ same_identity w w'.
Proof. clear inode_addr meta.
  intros [Hx Hy] Hw. destruct (decide (y = x)) as [->|Hne]; [|rewrite Hy in Hw by done; exists w'; split; [done|apply same_identity_refl]].
  rewrite Hw in Hx. destruct (sfs_vnodes s !! x) as [w|]; [|done]. by exists w.
Qed.

Lemma fields_kept w w' : same_identity w w' -> inode_fields (sv_i w) -> inode_fields (sv_i w').
Proof. clear inode_addr meta.
  intros [E Hs _] [H1 H2 H3 H4]. unfold identity in E. injection E as E1 E2 E3 E4.
  constructor; [auto|by rewrite E1|by rewrite E2|by rewrite E4].
Qed.

(** Inodes that changed are dirty and in order. *)
Definition inodes_follow s s' : Prop := forall y w', sfs_vnodes s' !! y = Some w' ->
  exists w, sfs_vnodes s !! y = Some w /\ (inode_fields (sv_i w) -> inode_fields (sv_i w')) /\ (w' = w \/ sv_dirty w' = true).

Lemma volume_follow I v s' : volume_ok I v -> sfs_ok (others meta I (v_fs v)) s' -> frame (v_fs v) s' -> beside meta I (v_fs v) s' -> inodes_follow (v_fs v) s' ->
  volume_ok I (set_fs s' v).
Proof.
  intros Hv Hok Hfr Hb Hk. pose proof (bs_others _ _ _ _ Hb) as Hoth.
  pose proof (vo_vnodes _ _ Hv) as Hvn. pose proof (beside_vnodes _ _ _ _ Hb Hvn) as Hvn'. constructor; cbn.
  - by eapply ok_less.
  - rewrite (fr_depth _ _ Hfr). apply Hv.
  - eapply (files_blocks meta I (v_fs v) s'); [done|apply Hv|exact Hb|apply Hok].
  - done.
  - intros k HkI. destruct (in_core s' k) as [w'|] eqn:E.
    + apply in_core_Some in E as (y & Hw' & <-). destruct (Hk y w' Hw') as (w & Hw & Hid & _).
      rewrite (inode_loaded I s' y w') by done. apply Hid. rewrite <- (inode_loaded I (v_fs v) y w) by done.
      apply (vo_inodes _ _ Hv). by eapply (vn_inos I (v_fs v)).
    + rewrite (beside_core meta I (v_fs v) s' k Hb) in E. rewrite (proj1 (beside_file meta I (v_fs v) s' k Hb HkI E)). by apply Hv.
  - intros y w' Hw' Hd. destruct (Hk y w' Hw') as (w & Hw & _ & [->|Hdirty]); [|congruence].
    rewrite Hoth by (by eapply inode_others, (vn_inos I (v_fs v))). by eapply vo_clean.
  - destruct (vo_table _ _ Hv) as (l & H1 & H2 & H3). exists l. split_and!; [done|done|]. intros y. rewrite H3.
    rewrite <- !(fmap_is_Some sv_ino), (bs_numbers _ _ _ _ Hb). done.
  - intros y Hy. apply (vo_refs _ _ Hv). rewrite <- (fmap_is_Some sv_ino), (bs_numbers _ _ _ _ Hb) in Hy. by rewrite fmap_is_Some in Hy.
  - rewrite (fr_buffer _ _ Hfr). apply Hv.
  - apply Hv.
Qed.

(** The operations on the blocks and the bytes of file [x]. *)
Lemma volume_step I v x s' : volume_ok I v -> sfs_ok (others meta I (v_fs v)) s' -> frame (v_fs v) s' ->
  (forall b, others meta I (v_fs v) b -> sec s' b = sec (v_fs v) b) -> kept x (v_fs v) s' ->
  volume_ok I (set_fs s' v) /\ beside meta I (v_fs v) s'.
Proof.
  intros Hv Hok Hfr Hoth Hk. assert (beside meta I (v_fs v) s') as Hb by (constructor; [intros y; by eapply kept_numbers|done]).
  split; [|done]. apply volume_follow; [done|done|done|done|]. intros y w' Hw'. destruct (kept_fields _ _ _ _ _ Hk Hw') as (w & Hw & Hid).
  exists w. split_and!; [done|by apply fields_kept|apply Hid].
Qed.

Lemma volume_depth I v d : volume_ok I v -> 0 <= d -> volume_ok I (set_fs (set_depth d (v_fs v)) v).
Proof. intros [? ? ? [] ? ? ? ? ? ?] Hd. constructor; try assumption. by constructor. Qed.

(** The table of vnodes has room. *)
Lemma bounded_length (l : list Z) N : NoDup l -> (forall k, k ∈ l -> 0 <= k < N) -> zlen l <= Z.max 0 N.
Proof. clear inode_addr meta.
  intros Hnd Hl. assert (l ⊆+ seqZ 0 N) as Hs by (apply NoDup_submseteq; [done|intros k Hk; apply elem_of_seqZ; specialize (Hl k Hk); lia]).
  apply submseteq_length in Hs. rewrite length_seqZ in Hs. unfold zlen. lia.
Qed.

Lemma table_room I v l : volume_ok I v -> NoDup l -> (forall x, x ∈ l <-> is_Some (sfs_vnodes (v_fs v) !! x)) -> zlen l < ARRAY_LIMIT.
Proof.
  intros Hv Hnd Hl. set (inos := ino (v_fs v) <$> l). assert (zlen inos <= Z.max 0 (2^23 + 1)) as Hb.
  { apply bounded_length.
    - apply NoDup_fmap_2_strong; [|done]. intros x y [w Hw]%Hl [u Hu]%Hl E. rewrite (ino_vnode _ x w Hw), (ino_vnode _ y u Hu) in E.
      eapply (vn_once _ _ (vo_vnodes _ _ Hv)); [exact Hw|exact Hu|exact E].
    - intros k (x & -> & [w Hw]%Hl)%list_elem_of_fmap. rewrite (ino_vnode _ x w Hw).
      pose proof (volume_in_use I v (sv_ino w) Hv (vn_inos _ _ (vo_vnodes _ _ Hv) x w Hw)) as Hm. pose proof (small_marked _ _ (vo_fs _ _ Hv) Hm). lia. }
  unfold inos, zlen in *. rewrite length_fmap in Hb. unfold ARRAY_LIMIT. lia.
Qed.
End invariant.
