(* ===== verification/SfsInodeRun.v ===== *)
(** * SFS: loading, writing back and releasing inodes

    The operations of [SfsInode] on a well-formed volume. *)

From S2P Require Import Prelude State Monad StopState Bitmap Array Uio Device Sfs SfsSpec SfsBlock SfsBmap SfsRead SfsIo SfsTrunc SfsKeeps SfsDir SfsInode SfsVolume.

#[local] Open Scope Z_scope.

Section run.
Context {D : Type} {DV : Device D} {BD : BlockDevice D} {LY : Layout}.
Context (inode_addr : positive -> Z) (meta : Z -> Prop).

Notation volume := (volume (D := D)).
Notation SS := (sfs_fs D).
Notation buffer s := (dv_buffer (sfs_device s)).
Notation volume_ok := (volume_ok inode_addr meta).
Notation others := (others meta).
Notation beside := (beside meta).
Notation system := (system meta).
Implicit Types (s : SS) (I : gset Z) (v : volume).

(** ** Volumes as states *)

Lemma run_fs {A} (p : SM SS A) a s' v : p (v_fs v) = inr (a, s') -> on_fs p v = inr (a, set_fs s' v).
Proof. intros E. unfold on_fs. by rewrite E. Qed.

Lemma run_table {A} (p : SM (array positive) A) a t' v : p (v_table v) = inr (a, t') -> on_table p v = inr (a, set_table t' v).
Proof. intros E. unfold on_table. by rewrite E. Qed.

Lemma set_fs_id v : set_fs (v_fs v) v = v.
Proof. by destruct v. Qed.

Lemma files_eq I s s' : (forall k, k ∈ I -> inode_of s' k = inode_of s k) -> files I s' = files I s.
Proof.
  intros H. apply map_eq. intros k. apply option_eq. intros n. rewrite !lookup_files. split; intros [Hk ->]; split; try done; [|symmetry]; by apply H.
Qed.

(** The vnodes and the contents of the disk change, what is in use does not. *)
Lemma fs_ok_same I s s' : sfs_ok (fun _ => False) (set_depth 1 s) -> sb_nblocks s' = sb_nblocks s -> sfs_freemap s' = sfs_freemap s ->
  same_device (sfs_device s) (sfs_device s') -> keeps_zeros (sfs_mem s) (sfs_mem s') -> vnodes_ok I s' ->
  blocks_ok (sec s') (system I) (files I s') (marked s') -> sfs_ok (fun _ => False) (set_depth 1 s').
Proof.
  intros Hok Hn Hm (Hr & Hbl & Hbu) Hz Hvn Hb.
  assert (sfs_ok (others I s') (set_depth 1 s')) as Hok'; [|by eapply (ok_less (others I s') (set_depth 1 s'))].
  pose proof (so_zeros _ _ Hok) as Hz1. pose proof (so_zeros16 _ _ Hok) as Hz2. destruct Hok. cbn -[replicate] in *.
  constructor; cbn -[replicate]; rewrite ?Hn, ?Hm, ?Hbl, ?Hbu; try done.
  - exact (others_blocks meta I s' (marked s') Hvn Hb).
  - rewrite <- Hz1. apply (load_kept _ _ _ _ Hz). intros a. cbn. tauto.
  - rewrite <- Hz2. apply (load_kept _ _ _ _ Hz). intros a. cbn. rewrite !elem_span. unfold SFS_BLOCKSIZE. lia.
Qed.

Definition clean_ok s : Prop :=
  forall x w, sfs_vnodes s !! x = Some w -> sv_dirty w = false -> decode_dinode (sec s (sv_ino w)) = sv_i w.
Definition table_ok v : Prop := exists l, holds (v_table v) l /\ NoDup l /\ forall x, x ∈ l <-> is_Some (sfs_vnodes (v_fs v) !! x).
Definition refs_ok v : Prop := forall x, is_Some (sfs_vnodes (v_fs v) !! x) -> exists n, v_ref v !! x = Some n /\ 0 < n.

Lemma volume_same I v v' : let s := v_fs v in let s' := v_fs v' in
  volume_ok I v -> frame s s' -> sfs_freemap s' = sfs_freemap s -> same_device (sfs_device s) (sfs_device s') -> keeps_zeros (sfs_mem s) (sfs_mem s') ->
  blocks_ok (sec s') (system I) (files I s) (marked s) -> vnodes_ok I s' -> (forall k, k ∈ I -> inode_of s' k = inode_of s k) ->
  clean_ok s' -> table_ok v' -> refs_ok v' -> volume_ok I v'.
Proof.
  intros s s' Hv [F1 F2 F3] Hm Hd Hz Hb Hvn Hin Hc Ht Hr. assert (blocks_ok (sec s') (system I) (files I s') (marked s')) as Hb'.
  { rewrite (files_eq I s s' Hin). eapply blocks_ok_ext; [done| |exact Hb]. intros b. unfold marked. by rewrite F1, Hm. }
  constructor; [|fold s'; rewrite F2; apply Hv|done|done| |done|done|done| |apply Hv].
  - eapply (fs_ok_same I s); [apply Hv|done..].
  - intros k Hk. fold s'. rewrite Hin by done. by apply Hv.
  - fold s'. rewrite F3. apply Hv.
Qed.

(** The buffer of an inode is apart from the static areas. *)
Lemma buffer_store I v x bytes : volume_ok I v -> keeps_zeros (sfs_mem (v_fs v)) (store (span (inode_addr x) SFS_BLOCKSIZE) bytes (sfs_mem (v_fs v))).
Proof.
  intros Hv. eapply changes_weaken; [|apply changes_store]. intros a Ha. pose proof (vo_buffers _ _ _ _ Hv x a Ha) as Hst.
  split; intros Hin; apply Hst; right; [by exists clear_zeros|by exists uio_zeros].
Qed.

Lemma buffer_apart I v x a : volume_ok I v -> a ∈ span (buffer (v_fs v)) SFS_BLOCKSIZE -> a ∉ span (inode_addr x) SFS_BLOCKSIZE.
Proof. intros Hv Ha Hin. by destruct (vo_buffers _ _ _ _ Hv x a Hin); left. Qed.

Lemma volume_io_ready I v : volume_ok I v -> 0 < vfs_biglock_depth (v_fs v) -> io_ready (v_fs v).
Proof. intros Hv Hd. eapply ok_io_ready, volume_fs_ok; [exact Hv|done]. Qed.

Lemma volume_range I v k : volume_ok I v -> k ∈ I -> 0 <= k < sb_nblocks (v_fs v).
Proof. intros Hv Hk. apply (volume_in_use inode_addr meta I v k Hv Hk). Qed.

(** ** Writing back *)

(** The inode of [x], [w] in memory, is on the disk. *)
Record synced I (x : positive) (w : sfs_vnode) v v' : Prop := mk_synced {
  sn_ok : volume_ok I v';
  sn_rest : v_table v' = v_table v /\ v_ref v' = v_ref v /\ v_memory v' = v_memory v;
  sn_vnodes : sfs_vnodes (v_fs v') = <[x := mk_sfs_vnode (sv_i w) (sv_ino w) false]> (sfs_vnodes (v_fs v));
  sn_frame : frame (v_fs v) (v_fs v') /\ sfs_freemap (v_fs v') = sfs_freemap (v_fs v);
  sn_files : files I (v_fs v') = files I (v_fs v) /\ same_files (sec (v_fs v)) (files I (v_fs v)) (sec (v_fs v')) (files I (v_fs v'));
  sn_sectors : forall c, c <> sv_ino w -> sec (v_fs v') c = sec (v_fs v) c;
  sn_mapdirty : sfs_freemapdirty (v_fs v') = sfs_freemapdirty (v_fs v)
}.

Lemma clean_inodes I s s' x w : vnodes_ok I s -> sfs_vnodes s !! x = Some w ->
  sfs_vnodes s' = <[x := mk_sfs_vnode (sv_i w) (sv_ino w) false]> (sfs_vnodes s) -> (forall c, c <> sv_ino w -> sec s' c = sec s c) ->
  vnodes_ok I s' /\ (forall k, in_core s' k = None <-> in_core s k = None) /\ forall k, k ∈ I -> inode_of s' k = inode_of s k.
Proof.
  intros Hvn Hw E Hsec.
  assert (forall y u', sfs_vnodes s' !! y = Some u' -> exists u, sfs_vnodes s !! y = Some u /\ sv_ino u' = sv_ino u /\ sv_i u' = sv_i u) as Hback.
  { intros y u'. rewrite E. destruct (decide (y = x)) as [->|Hne]; [rewrite lookup_insert_eq; intros [= <-]; by exists w|].
    rewrite lookup_insert_ne by done. intros Hu. by exists u'. }
  assert (forall y u, sfs_vnodes s !! y = Some u -> exists u', sfs_vnodes s' !! y = Some u' /\ sv_ino u' = sv_ino u /\ sv_i u' = sv_i u) as Hforth.
  { intros y u Hu. rewrite E. destruct (decide (y = x)) as [->|Hne]; [rewrite lookup_insert_eq; eexists; split; [done|]; by simplify_eq|].
    rewrite lookup_insert_ne by done. by exists u. }
  assert (vnodes_ok I s') as Hvn'.
  { destruct Hvn as [Hi Ho]. constructor.
    - intros y u' Hu'. destruct (Hback y u' Hu') as (u & Hu & -> & _). by eapply Hi.
    - intros y z u' t' Hu' Ht' Hut. destruct (Hback y u' Hu') as (u & Hu & E1 & _), (Hback z t' Ht') as (t & Ht & E2 & _).
      apply (Ho y z u t Hu Ht). congruence. }
  assert (forall k, in_core s' k = None <-> in_core s k = None) as Hc.
  { intros k. rewrite !in_core_None. split; intros H y u Hu.
    - destruct (Hforth y u Hu) as (u' & Hu' & <- & _). by eapply H.
    - destruct (Hback y u Hu) as (u0 & Hu0 & -> & _). by eapply H. }
  split_and!; [done|done|]. intros k Hk. destruct (in_core s k) as [u|] eqn:Eu.
  - apply in_core_Some in Eu as (y & Hu & <-). destruct (Hforth y u Hu) as (u' & Hu' & E1 & E2).
    rewrite (inode_loaded I s y u) by done. rewrite <- E1, <- E2. by eapply inode_loaded.
  - pose proof (proj2 (Hc k) Eu) as Eu'. unfold inode_of. rewrite Eu, Eu'. rewrite Hsec; [done|]. intros ->. rewrite in_core_None in Eu. by destruct (Eu x w Hw).
Qed.

Lemma encode_run I v x n : volume_ok I v -> inode_wf n ->
  exists m1, on_fs (on_memory (smodify (store (span (inode_addr x) SFS_BLOCKSIZE) (encode_dinode n)))) v = inr (tt, set_fs (set_mem m1 (v_fs v)) v) /\
    load m1 (span (inode_addr x) SFS_BLOCKSIZE) = encode_dinode n /\ keeps_zeros (sfs_mem (v_fs v)) m1.
Proof.
  intros Hv Hn. eexists. split; [reflexivity|]. split; [|by eapply buffer_store].
  apply load_store; [apply NoDup_span|]. by rewrite length_span, length_encode_dinode.
Qed.

Lemma sync_run I v x w : volume_ok I v -> 0 < vfs_biglock_depth (v_fs v) -> sfs_vnodes (v_fs v) !! x = Some w ->
  exists v', sfs_sync_inode inode_addr x v = inr (0, v') /\ synced I x w v v'.
Proof.
  intros Hv Hd Hw. unfold sfs_sync_inode. rewrite (srun_call _ w v) by (unfold on_fs, get_sv, sderef; rewrite Hw; by rewrite set_fs_id).
  set (s := v_fs v) in *. destruct w as [n k dirty]. cbn [sv_i sv_ino sv_dirty].
  assert (k ∈ I) as Hk by exact (vn_inos _ _ (vo_vnodes _ _ _ _ Hv) x _ Hw).
  destruct dirty.
  2: { exists v. split; [done|]. constructor; cbn; [done|done| |done|split; [done|apply same_files_refl]|done|done]. symmetry. by apply insert_id. }
  assert (inode_of s k = n) as Hn by exact (inode_loaded I s x _ (vo_vnodes _ _ _ _ Hv) Hw).
  assert (inode_wf n) as Hwf by (rewrite <- Hn; by eapply volume_inode_wf).
  destruct (encode_run I v x n Hv Hwf) as (m1 & Henc & Hld & Hz). fold s in Henc, Hz. rewrite (srun_call _ _ _ _ _ Henc).
  destruct (sfs_writeblock_from (set_mem m1 s) k (inode_addr x)) as (m' & d' & Hrun & Hch & Hdev & Hsec).
  { destruct (volume_io_ready I v Hv Hd). by constructor. }
  { by apply (volume_range I v k Hv). }
  { intros a. apply (buffer_apart I v x a Hv). }
  rewrite (srun_call _ _ _ _ _ (run_fs _ 0 _ (set_fs (set_mem m1 s) v) Hrun)). cbn [negb Z.eqb].
  cbn [sfs_mem set_mem] in Hsec. rewrite Hld in Hsec. cbn [sfs_device set_mem sfs_mem] in Hch, Hdev.
  set (s' := set_vnodes (<[x := mk_sfs_vnode n k false]> (sfs_vnodes s)) (set_io m' d' (set_mem m1 s))).
  exists (set_fs s' v). split; [done|]. pose proof (vo_vnodes _ _ _ _ Hv) as Hvn.
  assert (forall c, c <> k -> sec s' c = sec s c) as Hsec' by (intros c Hc; unfold sec, s'; cbn; rewrite Hsec; by rewrite decide_False).
  destruct (clean_inodes I s s' x (mk_sfs_vnode n k true) Hvn Hw eq_refl Hsec') as (Hvn' & Hcore & Hin).
  pose proof (files_eq I s s' Hin) as Hf.
  destruct (system_write (sec s) (sec s') (system I) (files I s) (marked s) k (vo_blocks _ _ _ _ Hv) ltac:(by right) Hsec') as [Hb Hsame].
  assert (forall y, is_Some (sfs_vnodes s' !! y) <-> is_Some (sfs_vnodes s !! y)) as Hdom.
  { intros y. cbn [s' sfs_vnodes set_vnodes]. rewrite lookup_insert_is_Some'. split; [intros [<-|]; [by eexists|done]|by right]. }
  assert (frame s s') as Hfr by (constructor; [done|done|apply Hdev]).
  constructor; [|done|done|done|split; [exact Hf|change (same_files (sec s) (files I s) (sec s') (files I s')); by rewrite Hf]|exact Hsec'|done].
  apply (volume_same I v); [done|done|done|done| |exact Hb|done|done| | |].
  - change (keeps_zeros (sfs_mem s) m'). eapply changes_only_trans; [exact Hz|].
    eapply scratch_keeps; [apply (so_layout _ _ (vo_fs _ _ _ _ Hv))|]. eapply changes_weaken; [|exact Hch]. by left.
  - intros y u Hu Hdu. change (sfs_vnodes s' !! y = Some u) in Hu. change (decode_dinode (sec s' (sv_ino u)) = sv_i u). unfold s' in Hu. cbn [sfs_vnodes set_vnodes] in Hu.
    destruct (decide (y = x)) as [->|Hne]; [rewrite lookup_insert_eq in Hu; injection Hu as <-|rewrite lookup_insert_ne in Hu by done].
    + change (decode_dinode (dv_sector d' k) = n). rewrite Hsec, decide_True by done. by apply dinode_roundtrip.
    + rewrite Hsec'; [by eapply (vo_clean _ _ _ _ Hv)|]. intros Ek. apply Hne. eapply (vn_once _ _ Hvn); [exact Hu|exact Hw|done].
  - destruct (vo_table _ _ _ _ Hv) as (l & H1 & H2 & H3). exists l. split_and!; [done|done|]. intros y. etrans; [apply H3|]. symmetry. exact (Hdom y).
  - intros y Hy. apply (vo_refs _ _ _ _ Hv). by apply Hdom.
Qed.
(** ** Loading *)

Lemma set_table_id v : set_table (v_table v) v = v.
Proof. by destruct v. Qed.

Lemma get_table {B} l i x v (f : positive -> SM volume B) : holds (v_table v) l -> l !! i = Some x ->
  sbind (on_table (array_get (Z.of_nat i))) f v = f x v.
Proof. intros Hl Hi. rewrite (srun_call _ _ _ _ _ (run_table _ _ _ v (array_get_run _ l i x Hl Hi))). by rewrite set_table_id. Qed.

Lemma get_vnode {B} v x w (f : sfs_vnode -> SM volume B) : sfs_vnodes (v_fs v) !! x = Some w -> sbind (on_fs (get_sv x)) f v = f w v.
Proof. intros Hw. unfold sbind, on_fs, get_sv, sderef. rewrite Hw. by rewrite set_fs_id. Qed.

Lemma bused_run {B} R v b (f : bool -> SM volume B) : sfs_ok R (v_fs v) -> marked (v_fs v) b -> sbind (on_fs (sfs_bused b)) f v = f true v.
Proof. intros Hok Hb. rewrite (srun_call _ _ _ _ _ (run_fs _ _ _ v (sfs_bused_run R _ b Hok Hb))). by rewrite set_fs_id. Qed.

(** The search in the table. *)
Lemma find_loaded_run I v l k ft : volume_ok I v -> 0 < vfs_biglock_depth (v_fs v) -> holds (v_table v) l ->
  (forall x, x ∈ l <-> is_Some (sfs_vnodes (v_fs v) !! x)) -> in_core (v_fs v) k = None \/ ft = SFS_TYPE_INVAL ->
  forall n i, (i + n = length l)%nat ->
  (exists x w r, sfs_vnodes (v_fs v) !! x = Some w /\ sv_ino w = k /\ v_ref v !! x = Some r /\
     find_loaded n (Z.of_nat i) k ft v = inr (Some x, set_ref (<[x := r + 1]> (v_ref v)) v)) \/
  ((forall j x w, (i <= j)%nat -> l !! j = Some x -> sfs_vnodes (v_fs v) !! x = Some w -> sv_ino w <> k) /\
     find_loaded n (Z.of_nat i) k ft v = inr (None, v)).
Proof.
  intros Hv Hd Hl Hdom Hft n. induction n as [|n IH]; intros i Hi.
  - right. split; [|done]. intros j x w Hj Hx. apply lookup_lt_Some in Hx. lia.
  - cbn [find_loaded]. destruct (lookup_lt_is_Some_2 l i) as [x Hx]; [lia|]. rewrite (get_table l i x) by done.
    destruct (proj1 (Hdom x)) as [w Hw]; [by eapply list_elem_of_lookup_2|]. rewrite (get_vnode v x w) by done.
    pose proof (vn_inos _ _ (vo_vnodes _ _ _ _ Hv) x w Hw) as HwI.
    rewrite (bused_run (others I (v_fs v))); [|by apply (volume_fs_ok inode_addr)|by eapply volume_in_use]. cbn [negb].
    destruct (Z.eqb_spec (sv_ino w) k) as [Ek|Hne].
    + left. destruct (vo_refs _ _ _ _ Hv x) as (r & Hr & _); [by exists w|]. exists x, w, r. split_and!; [done|done|done|].
      destruct Hft as [Hnone| ->]; [rewrite in_core_None in Hnone; by destruct (Hnone x w Hw)|]. cbn [Z.eqb SFS_TYPE_INVAL]. rewrite srun_assert by done.
      unfold vnode_incref, get_ref, put_ref. unfold sbind, sderef. rewrite Hr. done.
    + replace (Z.of_nat i + 1) with (Z.of_nat (S i)) by lia. destruct (IH (S i)) as [H|[H Hrun]]; [lia|by left|]. right. split; [|done].
      intros j y u Hj Hy Hu. destruct (decide (j = i)) as [->|Hji]; [|by apply (H j y u); [lia|..]]. by simplify_eq.
Qed.

(** The inode as it is loaded: of the type asked for, if any. *)
Definition new_inode (ft : Z) (n : sfs_dinode) : sfs_dinode * bool :=
  if ft =? SFS_TYPE_INVAL then (n, false) else (set_type ft n, true).

(** Memory and the device changed; the disk did not. *)
Record only_read s s' : Prop := mk_only_read {
  or_frame : frame s s';
  or_freemap : sfs_freemap s' = sfs_freemap s;
  or_device : same_device (sfs_device s) (sfs_device s');
  or_zeros : keeps_zeros (sfs_mem s) (sfs_mem s');
  or_sectors : forall c, sec s' c = sec s c
}.

Lemma only_read_refl I v : volume_ok I v -> only_read (v_fs v) (v_fs v).
Proof. intros Hv. constructor; [done|done| |by intros a|done]. split_and!; [|done|done]. exact (so_ready _ _ (vo_fs _ _ _ _ Hv)). Qed.

Record load_outcome (k : Z) (nd : sfs_dinode * bool) (l : list positive) v (r : Z) (o : option positive) v' : Prop := mk_load_outcome {
  lo_read : only_read (v_fs v) (v_fs v');
  lo_result :
    (r = 0 /\ exists x, o = Some x /\ sfs_vnodes (v_fs v) !! x = None /\
       sfs_vnodes (v_fs v') = <[x := mk_sfs_vnode (fst nd) k (snd nd)]> (sfs_vnodes (v_fs v)) /\
       holds (v_table v') (l ++ [x]) /\ v_ref v' = <[x := 1]> (v_ref v)) \/
    (r = ENOMEM /\ o = None /\ false ∈ v_memory v /\ sfs_vnodes (v_fs v') = sfs_vnodes (v_fs v) /\ holds (v_table v') l /\
       forall y, is_Some (sfs_vnodes (v_fs v) !! y) -> v_ref v' !! y = v_ref v !! y)
}.

Lemma kmalloc_run v : exists b mem, kmalloc_ok v = inr (b, set_memory mem v) /\ (b = false -> false ∈ v_memory v) /\ (forall c, c ∈ mem -> c ∈ v_memory v).
Proof.
  unfold kmalloc_ok. destruct (v_memory v) as [|b mem] eqn:E.
  - exists true, []. split_and!; [|done|done]. rewrite <- E. by destruct v.
  - exists b, mem. split_and!; [done|intros ->; by left|by right].
Qed.

Lemma get_ref_run {B} x n v (f : Z -> SM volume B) : v_ref v !! x = Some n -> sbind (get_ref x) f v = f n v.
Proof. intros Hx. unfold sbind, get_ref, sderef. by rewrite Hx. Qed.

Lemma vnode_cleanup_run x v : v_ref v !! x = Some 1 -> vnode_cleanup x v = inr (tt, set_ref (<[x := 0]> (v_ref v)) v).
Proof. intros Hx. unfold vnode_cleanup. by rewrite (get_ref_run x 1), srun_assert. Qed.

Lemma free_run x v : free_vnode x v = inr (tt, set_ref (delete x (v_ref v)) (set_fs (set_vnodes (delete x (sfs_vnodes (v_fs v))) (v_fs v)) v)).
Proof. done. Qed.

Lemma load_inode_run I v l k ft : volume_ok I v -> 0 < vfs_biglock_depth (v_fs v) -> marked (v_fs v) k ->
  holds (v_table v) l -> zlen l < ARRAY_LIMIT ->
  let n := decode_dinode (sec (v_fs v) k) in
  ft = SFS_TYPE_INVAL \/ sfi_type n = SFS_TYPE_INVAL ->
  sfi_type (fst (new_inode ft n)) = SFS_TYPE_FILE \/ sfi_type (fst (new_inode ft n)) = SFS_TYPE_DIR ->
  exists r o v', load_inode inode_addr k ft v = inr ((r, o), v') /\ load_outcome k (new_inode ft n) l v r o v'.
Proof.
  intros Hv Hd Hk Hl Hroom n Hft Htype. pose proof (volume_fs_ok _ _ I v Hv Hd) as Hok. unfold load_inode.
  destruct (kmalloc_run v) as (b & mem & Hm & Hb & Hmem). rewrite (srun_call _ _ _ _ _ Hm). destruct b; cbn [negb].
  2: { eexists _, _, _. split; [done|]. constructor; [exact (only_read_refl I v Hv)|]. right. split_and!; try done. by apply Hb. }
  set (v1 := set_memory mem v). rewrite (bused_run (others I (v_fs v))) by done. cbn [negb]. rewrite srun_get.
  set (x := fresh _). assert (sfs_vnodes (v_fs v) !! x = None) as Hx by (apply not_elem_of_dom, is_fresh).
  destruct (sfs_readblock_into (others I (v_fs v)) (v_fs v) k (inode_addr x) Hok (proj1 Hk)) as (m' & d' & Hrun & Hld & Hch & Hdev & Hsec);
    [intros a; by eapply buffer_apart|].
  set (s1 := set_io m' d' (v_fs v)) in *. rewrite (srun_call _ _ _ _ _ (run_fs _ _ _ v1 Hrun)). cbn [negb Z.eqb]. rewrite srun_get.
  change (sfs_mem (v_fs (set_fs s1 v1))) with m'. rewrite Hld. fold n.
  assert (only_read (v_fs v) s1) as Hread.
  { constructor; [constructor; [done|done|apply Hdev]|done|done| |exact Hsec]. eapply changes_weaken; [|exact Hch]. intros a [Ha|Ha].
    - pose proof (vo_buffers _ _ _ _ Hv x a Ha) as Hst. split; intros Hin; apply Hst; right; [by exists clear_zeros|by exists uio_zeros].
    - split; by apply (area_apart_buffer (others I (v_fs v)) (v_fs v)). }
  assert (forall B (f : sfs_dinode * bool -> SM volume B) u, sbind (forced ft n) f u = f (new_inode ft n) u) as Hforced.
  { intros B f u. unfold forced, new_inode. destruct (Z.eqb_spec ft SFS_TYPE_INVAL) as [|Hne]; [done|]. destruct Hft as [|Ht]; [done|].
    rewrite srun_bind, srun_assert by (by apply Z.eqb_eq). done. }
  rewrite Hforced. set (nd := new_inode ft n) in *.
  assert ((sfi_type (fst nd) =? SFS_TYPE_FILE) || (sfi_type (fst nd) =? SFS_TYPE_DIR) = true) as -> by (destruct Htype as [->| ->]; done). cbn [negb].
  unfold vnode_init, put_ref, new_vnode. rewrite srun_bind, srun_modify, srun_ret. cbn [negb Z.eqb].
  set (s2 := set_vnodes (<[x := mk_sfs_vnode (fst nd) k (snd nd)]> (sfs_vnodes (v_fs v))) s1).
  set (v2 := set_ref (<[x := 1]> (v_ref v)) (set_fs s2 v1)). rewrite (srun_call _ tt v2) by done.
  destruct (kmalloc_run v2) as (b & mem2 & Hm2 & Hb2 & Hmem2). rewrite (srun_call _ _ _ _ _ Hm2).
  destruct (array_add_run (v_table v) l b x Hl Hroom) as (r & i & a' & Hadd & Hr).
  rewrite (srun_call _ _ _ _ _ (run_table _ _ _ (set_memory mem2 v2) Hadd)). cbn [fst].
  destruct Hr as [(-> & -> & Hl')|(-> & -> & Hl')]; cbn [negb Z.eqb ENOMEM].
  - eexists _, _, _. split; [done|]. constructor.
    + destruct Hread as [[] ? ? ? ?]. constructor; [by constructor|done|done|done|done].
    + left. split; [done|]. exists x. by split_and!.
  - assert (false ∈ v_memory v) as Hfalse by (apply Hmem, (Hb2 eq_refl)).
    assert (v_ref (set_table a' (set_memory mem2 v2)) !! x = Some 1) as Href by apply lookup_insert_eq.
    rewrite (srun_call _ _ _ _ _ (vnode_cleanup_run x _ Href)), (srun_call _ _ _ _ _ (free_run x _)). eexists _, _, _. split; [reflexivity|]. constructor.
    + destruct Hread as [[] ? ? ? ?]. constructor; [by constructor|done|done|done|done].
    + right. split_and!; [done|done|done| |done|].
      * cbn. by apply delete_insert_id.
      * intros y [w Hy]. cbn. assert (y <> x) by (intros ->; congruence). by rewrite !lookup_delete_ne, !lookup_insert_ne by done.
Qed.
(** A vnode more. *)
Lemma in_core_iff I s k w : vnodes_ok I s -> in_core s k = Some w <-> exists x, sfs_vnodes s !! x = Some w /\ sv_ino w = k.
Proof. intros Hvn. split; [apply in_core_Some|]. intros (x & Hx & <-). by eapply in_core_loaded. Qed.

Lemma vnodes_more I s s' x w : vnodes_ok I s -> sfs_vnodes s' = <[x := w]> (sfs_vnodes s) -> sv_ino w ∈ I -> in_core s (sv_ino w) = None -> vnodes_ok I s'.
Proof.
  intros [Hi Ho] E HI Hn. rewrite in_core_None in Hn. constructor.
  - intros y u. rewrite E. destruct (decide (y = x)) as [->|Hne]; [rewrite lookup_insert_eq; by intros [= <-]|rewrite lookup_insert_ne by done; apply Hi].
  - intros y z u t. rewrite E. destruct (decide (y = x)) as [->|Hy], (decide (z = x)) as [->|Hz]; rewrite ?lookup_insert_eq, ?lookup_insert_ne by done.
    + done.
    + intros [= <-] Ht Eq. by destruct (Hn z t Ht).
    + intros Hu [= <-] Eq. by destruct (Hn y u Hu).
    + by apply Ho.
Qed.

Lemma vnodes_less I s s' x : vnodes_ok I s -> sfs_vnodes s' = delete x (sfs_vnodes s) -> vnodes_ok I s'.
Proof.
  intros [Hi Ho] E. constructor.
  - intros y u. rewrite E, lookup_delete_Some. intros [_ Hu]. by eapply Hi.
  - intros y z u t. rewrite E, !lookup_delete_Some. intros [_ Hu] [_ Ht]. by apply (Ho y z u t).
Qed.

Lemma core_more I s s' x w : vnodes_ok I s' -> vnodes_ok I s -> sfs_vnodes s' = <[x := w]> (sfs_vnodes s) -> sfs_vnodes s !! x = None ->
  in_core s' (sv_ino w) = Some w /\ in_core s (sv_ino w) = None /\ forall k, k <> sv_ino w -> in_core s' k = in_core s k.
Proof.
  intros Hvn' Hvn E Hx. assert (sfs_vnodes s' !! x = Some w) as Hw by (rewrite E; apply lookup_insert_eq).
  assert (forall y u, y <> x -> sfs_vnodes s' !! y = Some u <-> sfs_vnodes s !! y = Some u) as Hne by (intros y u Hy; by rewrite E, lookup_insert_ne).
  split_and!; [by eapply in_core_loaded|..].
  - apply in_core_None. intros y u Hu Eq. assert (y <> x) as Hyx by congruence. apply Hyx. apply Hne in Hu; [|done]. by eapply (vn_once _ _ Hvn').
  - intros k Hk. apply option_eq. intros u. rewrite (in_core_iff I s'), (in_core_iff I s) by done. split; intros (y & Hy & <-).
    + exists y. split; [|done]. apply Hne; [intros ->; congruence|done].
    + exists y. split; [|done]. apply Hne; [intros ->; congruence|done].
Qed.

(** The references to a vnode. *)
Definition refs v (x : positive) : Z := match sfs_vnodes (v_fs v) !! x with Some _ => default 0 (v_ref v !! x) | None => 0 end.

(** Inode [k] is in memory, as vnode [x], with one more reference. *)
Record loaded I (k : Z) v (x : positive) v' : Prop := mk_loaded {
  ld_ok : volume_ok I v';
  ld_read : only_read (v_fs v) (v_fs v');
  ld_files : files I (v_fs v') = files I (v_fs v);
  ld_vnode : exists w, sfs_vnodes (v_fs v') = <[x := w]> (sfs_vnodes (v_fs v)) /\ sv_ino w = k /\ sv_i w = inode_of (v_fs v) k /\
    (sfs_vnodes (v_fs v) !! x = None \/ sfs_vnodes (v_fs v) !! x = Some w);
  ld_refs : forall y, refs v' y = refs v y + if decide (y = x) then 1 else 0
}.

(** Nothing changed but memory. *)
Record not_loaded I v v' : Prop := mk_not_loaded {
  nl_ok : volume_ok I v';
  nl_read : only_read (v_fs v) (v_fs v');
  nl_vnodes : sfs_vnodes (v_fs v') = sfs_vnodes (v_fs v);
  nl_refs : forall y, refs v' y = refs v y
}.

Lemma only_read_blocks I s s' : only_read s s' -> blocks_ok (sec s) (system I) (files I s) (marked s) -> blocks_ok (sec s') (system I) (files I s) (marked s).
Proof. intros Hr Hb. eapply blocks_ok_ext; [exact (or_sectors _ _ Hr)|done|exact Hb]. Qed.

Lemma inode_of_core s s' k : in_core s' k = in_core s k -> sec s' k = sec s k -> inode_of s' k = inode_of s k.
Proof. unfold inode_of. by intros -> ->. Qed.

Lemma not_loaded_intro I v v' l : volume_ok I v -> only_read (v_fs v) (v_fs v') -> sfs_vnodes (v_fs v') = sfs_vnodes (v_fs v) ->
  holds (v_table v') l -> NoDup l -> (forall x, x ∈ l <-> is_Some (sfs_vnodes (v_fs v) !! x)) ->
  (forall y, is_Some (sfs_vnodes (v_fs v) !! y) -> v_ref v' !! y = v_ref v !! y) -> not_loaded I v v'.
Proof.
  intros Hv Hr E Hl Hnd Hdom Href. pose proof (vo_vnodes _ _ _ _ Hv) as [Hi Ho].
  assert (forall k, in_core (v_fs v') k = in_core (v_fs v) k) as Hc by (intros k; unfold in_core; by rewrite E).
  constructor; [|done|done|].
  - pose proof Hr as [R1 R2 R3 R4 R5]. apply (volume_same I v); [done|done|done|done|done|by eapply only_read_blocks, Hv| | | | |].
    + constructor; rewrite E; assumption.
    + intros k _. by apply inode_of_core.
    + intros x w. rewrite E, R5. by eapply (vo_clean _ _ _ _ Hv).
    + exists l. rewrite E. by split_and!.
    + intros x. rewrite E. intros Hx. rewrite Href by done. by apply (vo_refs _ _ _ _ Hv).
  - intros y. unfold refs. rewrite E. destruct (_ !! y) as [w|] eqn:Hy; [|done]. by rewrite Href by by exists w.
Qed.

Lemma loadvnode_run I v k : volume_ok I v -> 0 < vfs_biglock_depth (v_fs v) -> k ∈ I ->
  exists r o v', sfs_loadvnode inode_addr k SFS_TYPE_INVAL v = inr ((r, o), v') /\
    ((r = 0 /\ exists x, o = Some x /\ loaded I k v x v') \/ (r = ENOMEM /\ o = None /\ false ∈ v_memory v /\ not_loaded I v v')).
Proof.
  intros Hv Hd Hk. destruct (vo_table _ _ _ _ Hv) as (l & Hl & Hnd & Hdom). pose proof (vo_vnodes _ _ _ _ Hv) as Hvn. unfold sfs_loadvnode.
  rewrite (srun_call _ (zlen l) v) by (unfold on_table, array_num, sget; rewrite (ho_num _ _ Hl); by rewrite set_table_id).
  unfold zlen. rewrite Nat2Z.id.
  destruct (find_loaded_run I v l k SFS_TYPE_INVAL Hv Hd Hl Hdom ltac:(by right) (length l) 0 eq_refl) as [(x & w & r & Hw & <- & Hr & Hrun)|[Hno Hrun]];
    change (Z.of_nat 0) with 0 in Hrun; rewrite (srun_call _ _ _ _ _ Hrun).
  { eexists _, _, _. split; [done|]. left. split; [done|]. exists x. split; [done|].
    pose proof (only_read_refl I v Hv) as Hread.
    constructor; [|done|done|exists w; split_and!; [symmetry; by apply insert_id|done|symmetry; by apply (inode_loaded I _ x)|by right]|].
    - destruct Hv. constructor; try assumption. intros y Hy. cbn. destruct (decide (y = x)) as [->|Hne]; [|rewrite lookup_insert_ne by done; by apply vo_refs].
      rewrite lookup_insert_eq. destruct (vo_refs x Hy) as (r' & Hr' & Hpos). exists (r + 1). split; [done|]. assert (r' = r) by congruence. lia.
    - intros y. unfold refs. cbn. case_decide as E; [subst y; rewrite lookup_insert_eq, Hw, Hr; done|]. rewrite lookup_insert_ne by done. lia. }
  assert (in_core (v_fs v) k = None) as Hnone.
  { apply in_core_None. intros x w Hw. assert (x ∈ l) as [j Hj]%list_elem_of_lookup by (apply Hdom; by exists w). apply (Hno j x w); [lia|done|done]. }
  assert (inode_of (v_fs v) k = decode_dinode (sec (v_fs v) k)) as En by (unfold inode_of; by rewrite Hnone).
  destruct (load_inode_run I v l k SFS_TYPE_INVAL Hv Hd) as (r & o & v' & Hload & [Hread Hres]);
    [by eapply volume_in_use|done|by eapply table_room|by left|rewrite <- En; exact (if_type _ (vo_inodes _ _ _ _ Hv k Hk))|].
  exists r, o, v'. split; [exact Hload|]. destruct Hres as [(-> & x & -> & Hx & Evn & Hl' & Eref)|(-> & -> & Hm & Evn & Hl' & Href)].
  2: { right. split_and!; [done|done|done|by eapply not_loaded_intro]. }
  left. split; [done|]. exists x. split; [done|]. cbn [new_inode SFS_TYPE_INVAL Z.eqb fst snd] in Evn. rewrite <- En in Evn.
  set (w := mk_sfs_vnode (inode_of (v_fs v) k) k false) in *. pose proof (vnodes_more I (v_fs v) (v_fs v') x w Hvn Evn Hk Hnone) as Hvn'.
  destruct (core_more I (v_fs v) (v_fs v') x w Hvn' Hvn Evn Hx) as (Hc1 & _ & Hc2). cbn [w sv_ino] in Hc1, Hc2.
  assert (forall j, inode_of (v_fs v') j = inode_of (v_fs v) j) as Hin.
  { intros j. destruct (decide (j = k)) as [->|Hne]; [unfold inode_of at 1; by rewrite Hc1|]. apply inode_of_core; [by apply Hc2|apply (or_sectors _ _ Hread)]. }
  constructor; [|done|by apply files_eq|exists w; split_and!; [done|done|done|by left]|].
  - pose proof Hread as [R1 R2 R3 R4 R5]. apply (volume_same I v); [done|done|done|done|done|by eapply only_read_blocks, Hv|done|done| | |].
    + intros y u. rewrite Evn, R5. destruct (decide (y = x)) as [->|Hne]; [rewrite lookup_insert_eq; intros [= <-] _; exact (eq_sym En)|].
      rewrite lookup_insert_ne by done. apply (vo_clean _ _ _ _ Hv).
    + exists (l ++ [x]). split_and!; [done| |].
      * apply NoDup_app. split_and!; [done| |apply NoDup_singleton]. intros y Hy ->%list_elem_of_singleton. apply Hdom in Hy as [u Hu]. congruence.
      * intros y. rewrite Evn, elem_of_app, Hdom, list_elem_of_singleton, lookup_insert_is_Some'. naive_solver.
    + intros y. rewrite Evn, Eref. destruct (decide (y = x)) as [->|Hne]; [rewrite !lookup_insert_eq; intros _; exists 1; split; [done|lia]|].
      rewrite !lookup_insert_ne by done. apply (vo_refs _ _ _ _ Hv).
  - intros y. unfold refs. rewrite Evn, Eref. case_decide as E; [subst y; rewrite !lookup_insert_eq, Hx; done|]. rewrite !lookup_insert_ne by done. lia.
Qed.
End run.
