(* ===== verification/SfsReclaim.v ===== *)
(** * SFS: the end of a vnode, and new inodes

    [sfs_reclaim] writes an inode back and forgets its vnode, and frees the
    inode and its blocks when no name is left; [sfs_makeobj] makes a new one. *)

From S2P Require Import Prelude State Monad StopState Bitmap Array Uio Device Sfs SfsSpec SfsBlock SfsBmap SfsRead SfsIo SfsTrunc SfsKeeps SfsDir SfsInode SfsVolume SfsInodeRun.

#[local] Open Scope Z_scope.
#[local] Open Scope sm_scope.

Section reclaim.
Context {D : Type} {DV : Device D} {BD : BlockDevice D} {LY : Layout}.
Context (inode_addr : positive -> Z) (meta : Z -> Prop).

Notation volume := (volume (D := D)).
Notation SS := (sfs_fs D).
Notation buffer s := (dv_buffer (sfs_device s)).
Notation volume_ok := (volume_ok inode_addr meta).
Notation others := (others meta).
Notation beside := (beside meta).
Notation system := (system meta).
Implicit Types (s : SS) (I : gset Z) (v : volume).

(** ** Out of the table *)

Lemma find_index_run l x v : holds (v_table v) l -> forall n i j, (i + n = length l)%nat -> (i <= j)%nat -> l !! j = Some x -> NoDup l ->
  find_index n (Z.of_nat i) x v = inr (Some (Z.of_nat j), v).
Proof.
  intros Hl n. induction n as [|n IH]; intros i j Hi Hij Hj Hnd; [apply lookup_lt_Some in Hj; lia|]. cbn [find_index].
  destruct (lookup_lt_is_Some_2 l i) as [y Hy]; [lia|]. rewrite (get_table l i y) by done. case_bool_decide as E.
  - subst y. by rewrite (NoDup_lookup l i j x Hnd Hy Hj).
  - replace (Z.of_nat i + 1) with (Z.of_nat (S i)) by lia. apply IH; [lia| |done|done]. destruct (decide (j = i)) as [->|]; [congruence|lia].
Qed.

(** What the end of [sfs_reclaim] leaves. *)
Record dropped (x : positive) (l : list positive) v v' : Prop := mk_dropped {
  dp_fs : v_fs v' = set_vnodes (delete x (sfs_vnodes (v_fs v))) (set_depth (vfs_biglock_depth (v_fs v) - 1) (v_fs v));
  dp_table : exists l', holds (v_table v') l' /\ NoDup l' /\ forall y, y ∈ l' <-> y ∈ l /\ y <> x;
  dp_refs : forall y, y <> x -> v_ref v' !! y = v_ref v !! y;
  dp_memory : v_memory v' = v_memory v
}.

Lemma biglock_release_run v : 0 < vfs_biglock_depth (v_fs v) ->
  on_fs vfs_biglock_release v = inr (tt, set_fs (set_depth (vfs_biglock_depth (v_fs v) - 1) (v_fs v)) v).
Proof. intros Hd. apply run_fs. unfold vfs_biglock_release. rewrite srun_get, srun_assert; [done|]. by apply Z.ltb_lt. Qed.

Lemma drop_run l x v : holds (v_table v) l -> NoDup l -> x ∈ l -> v_ref v !! x = Some 1 -> 0 < vfs_biglock_depth (v_fs v) ->
  exists v', (num <- on_table array_num ;;
    ix <- find_index (Z.to_nat num) 0 x ;;
    match ix with
    | None => sstop (panic_called "sfs: reclaim vnode not in vnode pool")
    | Some ix =>
        on_table (array_remove ix) ;;
        vnode_cleanup x ;;
        on_fs vfs_biglock_release ;;
        free_vnode x ;;
        sret 0
    end) v = inr (0, v') /\ dropped x l v v'.
Proof.
  intros Hl Hnd [j Hj]%list_elem_of_lookup Hr Hd. rewrite (srun_call _ (zlen l) v) by (unfold on_table, array_num, sget; rewrite (ho_num _ _ Hl); by rewrite set_table_id).
  unfold zlen. rewrite Nat2Z.id. pose proof (find_index_run l x v Hl (length l) 0 j eq_refl ltac:(lia) Hj Hnd) as Hix. change (Z.of_nat 0) with 0 in Hix.
  rewrite (srun_call _ _ _ _ _ Hix). destruct (array_remove_run (v_table v) l j Hl) as (a' & Hrm & Ha); [by eapply lookup_lt_Some|].
  rewrite (srun_call _ _ _ _ _ (run_table _ _ _ v Hrm)), (srun_call _ _ _ _ _ (vnode_cleanup_run x (set_table a' v) Hr)).
  rewrite (srun_call _ _ _ _ _ (biglock_release_run (set_ref _ (set_table a' v)) Hd)). rewrite (srun_call _ _ _ _ _ (free_run x _)). eexists. split; [reflexivity|].
  pose proof (delete_Permutation l j x Hj) as Hp. set (l' := delete j l) in *. clearbody l'. clear Hrm.
  assert (NoDup (x :: l')) as [Hx Hnd']%NoDup_cons by by rewrite <- Hp.
  constructor; cbn; [done| | |done].
  - exists l'. split_and!; [done|done|]. intros y. rewrite Hp, elem_of_cons. split; [|naive_solver]. intros Hy. split; [by right|]. by intros ->.
  - intros y Hy. by rewrite lookup_delete_ne, lookup_insert_ne.
Qed.

Lemma blocks_less f (R R' : Z -> Prop) (m m' : gmap Z sfs_dinode) (mk mk' : Z -> Prop) : blocks_ok f R m mk -> (forall b, R' b -> R b) ->
  (forall k n, m' !! k = Some n -> m !! k = Some n) -> (forall key c, uses f R' m' key c -> mk c -> mk' c) -> blocks_ok f R' m' mk'.
Proof.
  clear inode_addr meta. intros Hok HR Hm Hk. assert (forall key c, uses f R' m' key c -> uses f R m key c) as Hu.
  { intros [x i|x|b] c; cbn; [| |naive_solver].
    - intros (n & Hn%Hm & Hi & Hs & Hc). exists n. split_and!; (done || lia).
    - intros (n & Hn%Hm & Hs & Hc). by exists n. }
  constructor.
  - intros k n Hn%Hm. by eapply bo_direct.
  - intros key c H. by eapply Hk, bo_marked, Hu.
  - intros key key' c H%Hu H'%Hu. by eapply bo_unique.
Qed.

Lemma dropped_refs I x l v v' : volume_ok I v -> dropped x l v v' -> refs_ok v'.
Proof.
  intros Hv Hdp y Hy. rewrite (dp_fs _ _ _ _ Hdp) in Hy. cbn in Hy. apply lookup_delete_is_Some in Hy as [Hne Hy].
  rewrite (dp_refs _ _ _ _ Hdp) by done. by apply (vo_refs _ _ _ _ Hv).
Qed.

Lemma dropped_table x l v v' : (forall y, y ∈ l <-> is_Some (sfs_vnodes (v_fs v) !! y)) -> dropped x l v v' -> table_ok v'.
Proof.
  intros Hdom Hdp. destruct (dp_table _ _ _ _ Hdp) as (l' & H1 & H2 & H3). exists l'. split_and!; [done|done|]. intros y.
  rewrite H3, (dp_fs _ _ _ _ Hdp), Hdom. cbn. rewrite lookup_delete_is_Some. naive_solver.
Qed.

(** The vnode is forgotten, the file stays. *)
Lemma dropped_kept I v x w l v' : volume_ok I v -> 0 < vfs_biglock_depth (v_fs v) -> sfs_vnodes (v_fs v) !! x = Some w -> sv_dirty w = false ->
  (forall y, y ∈ l <-> is_Some (sfs_vnodes (v_fs v) !! y)) -> dropped x l v v' -> volume_ok I v' /\ files I (v_fs v') = files I (v_fs v).
Proof.
  intros Hv Hd Hw Hdirty Hdom Hdp. pose proof (dp_fs _ _ _ _ Hdp) as E. set (d := vfs_biglock_depth (v_fs v) - 1) in *.
  set (v0 := set_fs (set_depth d (v_fs v)) v). assert (volume_ok I v0) as Hv0 by (apply volume_depth; [done|lia]).
  pose proof (vo_vnodes _ _ _ _ Hv) as Hvn. assert (sfs_vnodes (v_fs v') = delete x (sfs_vnodes (v_fs v))) as Ev by by rewrite E.
  pose proof (vnodes_less I (v_fs v) (v_fs v') x Hvn Ev) as Hvn'.
  assert (sfs_vnodes (v_fs v) = <[x := w]> (sfs_vnodes (v_fs v'))) as Em by (rewrite Ev; symmetry; by apply insert_delete_id).
  destruct (core_more I (v_fs v') (v_fs v) x w Hvn Hvn' Em) as (Hc1 & Hc2 & Hc3); [rewrite Ev; apply lookup_delete_eq|].
  assert (forall c, sec (v_fs v') c = sec (v_fs v) c) as Hs by (intros c; by rewrite E).
  assert (forall k, inode_of (v_fs v') k = inode_of (v_fs v) k) as Hin.
  { intros k. destruct (decide (k = sv_ino w)) as [->|Hne]; [|apply inode_of_core; [symmetry; by apply Hc3|apply Hs]].
    unfold inode_of. rewrite Hc2, Hs, Hc1. by apply (vo_clean _ _ _ _ Hv x). }
  split; [|by apply files_eq]. apply (volume_same inode_addr meta I v0); [done|by rewrite E|by rewrite E| |by rewrite E|by rewrite E; apply Hv|done|by intros k _| | |].
  - rewrite E. split_and!; [|done|done]. exact (so_ready _ _ (vo_fs _ _ _ _ Hv)).
  - intros y u. rewrite Ev, Hs. intros [_ Hu]%lookup_delete_Some. by apply (vo_clean _ _ _ _ Hv y).
  - by eapply dropped_table.
  - exact (dropped_refs I x l v v' Hv Hdp).
Qed.

(** The vnode is forgotten and the inode freed. *)
Lemma dropped_freed I v x w map' l v' : let k := sv_ino w in let s := v_fs v in
  volume_ok I v -> 0 < vfs_biglock_depth s -> sfs_vnodes s !! x = Some w -> bit_cleared_at (sfs_freemap s) map' k ->
  (forall y, y ∈ l <-> is_Some (sfs_vnodes s !! y)) -> dropped x l (set_fs (freed map' s) v) v' ->
  volume_ok (I ∖ {[k]}) v' /\ files (I ∖ {[k]}) (v_fs v') = delete k (files I s) /\ forall c, marked (v_fs v') c <-> marked s c /\ c <> k.
Proof.
  intros k s Hv Hd Hw (Hnb & Hwf & Hbits) Hdom Hdp. pose proof (dp_fs _ _ _ _ Hdp) as E. pose proof (vo_vnodes _ _ _ _ Hv) as Hvn.
  assert (sfs_vnodes (v_fs v') = delete x (sfs_vnodes s)) as Ev by by rewrite E. pose proof (vnodes_less I s (v_fs v') x Hvn Ev) as [Hi Ho].
  assert (vnodes_ok (I ∖ {[k]}) (v_fs v')) as Hvn'.
  { constructor; [|done]. intros y u. rewrite Ev. intros [Hne Hu]%lookup_delete_Some. apply elem_of_difference. split; [by eapply (vn_inos _ _ Hvn)|].
    intros Ek%elem_of_singleton. apply Hne. symmetry. by eapply (vn_once _ _ Hvn). }
  assert (vnodes_ok I (v_fs v')) as Hvn2 by by constructor.
  assert (sfs_vnodes s = <[x := w]> (sfs_vnodes (v_fs v'))) as Em by (rewrite Ev; symmetry; by apply insert_delete_id).
  destruct (core_more I (v_fs v') s x w Hvn Hvn2 Em) as (_ & _ & Hc); [rewrite Ev; apply lookup_delete_eq|].
  assert (forall c, sec (v_fs v') c = sec s c) as Hs by (intros c; by rewrite E).
  assert (forall j, j ∈ I ∖ {[k]} -> j ∈ I /\ inode_of (v_fs v') j = inode_of s j) as Hin.
  { intros j [Hj Hne%not_elem_of_singleton]%elem_of_difference. split; [done|]. apply inode_of_core; [symmetry; by apply Hc|apply Hs]. }
  assert (files (I ∖ {[k]}) (v_fs v') = delete k (files I s)) as Hf.
  { apply map_eq. intros j. apply option_eq. intros n. rewrite lookup_delete_Some, !lookup_files. split.
    - intros [Hj ->]. destruct (Hin j Hj) as [HjI ->]. apply elem_of_difference in Hj as [_ Hne%not_elem_of_singleton]. by split_and!.
    - intros (Hne & HjI & ->). assert (j ∈ I ∖ {[k]}) as Hj by (apply elem_of_difference; split; [done|by apply not_elem_of_singleton]).
      split; [done|]. symmetry. by apply Hin. }
  pose proof (vn_inos _ _ Hvn x w Hw) as HkI. pose proof (volume_in_use _ _ I v k Hv HkI) as [Hkr Hkb].
  assert (forall c, marked (v_fs v') c <-> marked s c /\ c <> k) as Hmk.
  { intros c. unfold marked. rewrite E. cbn. split.
    - intros [Hc' Hb]. rewrite Hbits in Hb by lia. apply andb_true_iff in Hb as [Hne%negb_true_iff%bool_decide_eq_false Hb].
      split; [split; [done|exact Hb]|exact Hne].
    - intros [[Hc' Hb] Hne]. split; [done|]. rewrite Hbits, Hb, andb_true_r by lia. by apply negb_true_iff, bool_decide_eq_false. }
  assert (blocks_ok (sec (v_fs v')) (system (I ∖ {[k]})) (files (I ∖ {[k]}) (v_fs v')) (marked (v_fs v'))) as Hb.
  { rewrite Hf. eapply blocks_ok_ext; [exact Hs|exact (fun b Hb => Hb)|]. eapply blocks_less; [apply Hv| | |].
    - intros b [Hb|Hb]; [by left|right]. by apply elem_of_difference in Hb as [Hb _].
    - intros j n. by rewrite lookup_delete_Some; intros [_ Hn].
    - intros key c Hu Hc'. apply Hmk. split; [done|]. intros ->.
      assert (uses (sec s) (system I) (files I s) (KOther k) k) as Hk by (split; [done|by right]).
      assert (key = KOther k) as ->; [|by destruct Hu as [_ [Hm|[_ Hne%not_elem_of_singleton]%elem_of_difference]]; [by destruct (vo_meta _ _ _ _ Hv k HkI)|]].
      eapply (bo_unique _ _ _ _ (vo_blocks _ _ _ _ Hv)); [|exact Hk]. destruct key as [y i|y|c]; cbn in Hu |- *.
      + destruct Hu as (n & [_ Hn]%lookup_delete_Some & Hi' & Hsl & H0). exists n. split_and!; (done || lia).
      + destruct Hu as (n & [_ Hn]%lookup_delete_Some & Hsl & H0). by exists n.
      + destruct Hu as [-> [Hm|[Hm _]%elem_of_difference]]; (split; [done|]); [by left|by right]. }
  assert (forall y n, (sv_i <$> delete x (sfs_vnodes s)) !! y = Some n -> inodes s !! y = Some n) as Hsub
    by (intros y n; rewrite fmap_delete; by intros [_ Hn]%lookup_delete_Some).
  split_and!; [|done|done]. constructor; [| |done|done| | | | | |].
  - apply (ok_freed (fun _ => False) (set_depth 1 s) (set_depth 1 (v_fs v')) (fun c => c = k)); rewrite ?E; cbn.
    + apply Hv.
    + done.
    + split_and!; [|done|done]. exact (so_ready _ _ (vo_fs _ _ _ _ Hv)).
    + by intros a.
    + done.
    + done.
    + intros c Hc'. rewrite Hbits by done. rewrite andb_true_iff, negb_true_iff, bool_decide_eq_false. tauto.
    + intros c ->. destruct (vo_meta _ _ _ _ Hv k HkI). change (0 < k < sb_nblocks (v_fs v)). lia.
    + intros y n Hn. apply (bo_direct _ _ _ _ (so_blocks _ _ (vo_fs _ _ _ _ Hv)) y). exact (Hsub y n Hn).
    + intros key c Hu. assert (uses (sec s) (fun _ => False) (inodes s) key c) as Hu'.
      { destruct key as [y i|y|c']; cbn in Hu |- *; [| |tauto].
        - destruct Hu as (n & Hn%Hsub & Hi' & Hsl & H0). exists n. split_and!; (done || lia).
        - destruct Hu as (n & Hn%Hsub & Hsl & H0). by exists n. }
      split; [exact Hu'|]. intros ->. destruct (key_case key) as [Hfile|[c' ->]]; [|by destruct Hu'].
      destruct (uses_up meta I s _ _ key k Hvn Hfile Hu') as [Hup _].
      assert (uses (sec s) (system I) (files I s) (KOther k) k) as Hk by (split; [done|by right]).
      pose proof (bo_unique _ _ _ _ (vo_blocks _ _ _ _ Hv) _ _ _ Hup Hk) as Ek. by destruct key.
  - rewrite E. cbn. lia.
  - intros j Hj. destruct (Hin j Hj) as [HjI ->]. by apply (vo_inodes _ _ _ _ Hv).
  - intros y u. rewrite Ev, Hs. intros [_ Hu]%lookup_delete_Some. by apply (vo_clean _ _ _ _ Hv y).
  - by eapply (dropped_table _ _ (set_fs (freed map' s) v)).
  - intros y Hy. rewrite Ev in Hy. apply lookup_delete_is_Some in Hy as [Hne Hy]. rewrite (dp_refs _ _ _ _ Hdp) by done. by apply (vo_refs _ _ _ _ Hv).
  - rewrite E. apply Hv.
  - intros j [Hj _]%elem_of_difference. by apply (vo_meta _ _ _ _ Hv).
Qed.

(** ** [sfs_reclaim] *)

(** The other files after an operation on the blocks of [x]. *)
Lemma files_beside I s s' x w : vnodes_ok I s -> beside I s s' -> sfs_vnodes s !! x = Some w ->
  (forall y, y <> x -> inodes s' !! y = inodes s !! y /\
     forall m p, inodes s !! y = Some m -> 0 <= p < SFS_MAXSIZE -> file_byte (sec s') m p = file_byte (sec s) m p) ->
  delete (sv_ino w) (files I s') = delete (sv_ino w) (files I s) /\
  same_files (sec s) (delete (sv_ino w) (files I s)) (sec s') (delete (sv_ino w) (files I s)).
Proof.
  intros Hvn Hb Hw Ho. pose proof (beside_vnodes _ _ _ _ Hb Hvn) as Hvn'.
  assert (forall k, k ∈ I -> k <> sv_ino w -> inode_of s' k = inode_of s k /\
    forall p, 0 <= p < SFS_MAXSIZE -> file_byte (sec s') (inode_of s k) p = file_byte (sec s) (inode_of s k) p) as Hk.
  { intros k Hk Hne. destruct (in_core s k) as [u|] eqn:E.
    - apply in_core_Some in E as (y & Hu & <-). assert (y <> x) as Hy by congruence. destruct (Ho y Hy) as [Ei Hp].
      destruct (beside_vnode _ _ _ _ _ _ Hb Hu) as (u' & Hu' & Eu). rewrite (inodes_lookup s y u Hu), (inodes_lookup s' y u' Hu') in Ei. injection Ei as Ei.
      rewrite (inode_loaded I s y u) by done. pose proof (inode_loaded I s' y u' Hvn' Hu') as En. rewrite Eu in En. rewrite En, Ei. split; [done|].
      intros p. apply Hp. by apply inodes_lookup.
    - assert (files I s !! k = Some (inode_of s k)) as Hf by by apply lookup_files.
      destruct (files_others meta I s s' k _ Hb E Hf) as [[_ En]%lookup_files Hp]. by split. }
  split.
  - apply map_eq. intros k. apply option_eq. intros n. rewrite !lookup_delete_Some, !lookup_files.
    split; intros (Hne & HkI & ->); (split; [done|]); (split; [done|]); [|symmetry]; by apply Hk.
  - intros k. destruct (delete (sv_ino w) (files I s) !! k) as [n|] eqn:E; [|done].
    apply lookup_delete_Some in E as [Hne [HkI ->]%lookup_files]. split; [done|]. apply (Hk k HkI). congruence.
Qed.

Lemma same_files_part {K} `{HK : Countable K} f g (m m' : gmap K sfs_dinode) : m' ⊆ m -> same_files f m g m -> same_files f m' g m'.
Proof.
  clear inode_addr meta. intros Hs H k. destruct (m' !! k) as [n|] eqn:E; [|done]. pose proof (lookup_weaken _ _ _ _ E Hs) as E'.
  specialize (H k). by rewrite E' in H.
Qed.

Record reclaimed I (x : positive) v v' : Prop := mk_reclaimed {
  rc_ok : volume_ok I v';
  rc_vnodes : sfs_vnodes (v_fs v') = delete x (sfs_vnodes (v_fs v));
  rc_frame : frame (v_fs v) (v_fs v') /\ sfs_freemap (v_fs v') = sfs_freemap (v_fs v);
  rc_files : files I (v_fs v') = files I (v_fs v) /\ same_files (sec (v_fs v)) (files I (v_fs v)) (sec (v_fs v')) (files I (v_fs v));
  rc_refs : forall y, y <> x -> v_ref v' !! y = v_ref v !! y;
  rc_memory : v_memory v' = v_memory v
}.

(** Inode [k], that was [n], is free, and so are the blocks it had. *)
Record erased I (x : positive) (k : Z) (n : sfs_dinode) v v' : Prop := mk_erased {
  er_ok : volume_ok (I ∖ {[k]}) v';
  er_vnodes : sfs_vnodes (v_fs v') = delete x (sfs_vnodes (v_fs v));
  er_frame : frame (v_fs v) (v_fs v');
  er_files : files (I ∖ {[k]}) (v_fs v') = delete k (files I (v_fs v)) /\
    same_files (sec (v_fs v)) (delete k (files I (v_fs v))) (sec (v_fs v')) (delete k (files I (v_fs v)));
  er_marked : forall c, marked (v_fs v') c <-> marked (v_fs v) c /\ c <> k /\
    ~ (exists i, 0 <= i < SFS_MAXBLOCKS /\ slot (sec (v_fs v)) n i = c /\ c <> 0) /\ ~ (sfi_indirect n = c /\ c <> 0);
  er_refs : forall y, y <> x -> v_ref v' !! y = v_ref v !! y;
  er_memory : v_memory v' = v_memory v
}.

Lemma biglock_acquire_run {B} v (f : unit -> SM volume B) : sbind (on_fs vfs_biglock_acquire) f v = f tt (set_fs (set_depth (vfs_biglock_depth (v_fs v) + 1) (v_fs v)) v).
Proof. done. Qed.

(** While others hold the vnode. *)
Lemma reclaim_busy x n v : 0 <= vfs_biglock_depth (v_fs v) -> v_ref v !! x = Some n -> 1 < n ->
  sfs_reclaim inode_addr x v = inr (EBUSY, set_ref (<[x := n - 1]> (v_ref v)) v).
Proof.
  intros Hd Hn Hgt. unfold sfs_reclaim. rewrite biglock_acquire_run, (get_ref_run x n) by done.
  destruct (Z.eqb_spec n 1) as [|_]; [lia|]. cbn [negb]. rewrite srun_assert by (by apply Z.ltb_lt). unfold put_ref. rewrite srun_modify.
  erewrite srun_call by (apply biglock_release_run; cbn; lia). destruct v as [[] ? ? ?].
  unfold set_fs, set_depth, set_ref. cbn. by rewrite Z.add_simpl_r.
Qed.

Lemma sfs_reclaim_kept I v x w : volume_ok I v -> sfs_vnodes (v_fs v) !! x = Some w -> v_ref v !! x = Some 1 -> sfi_linkcount (sv_i w) <> 0 ->
  exists v', sfs_reclaim inode_addr x v = inr (0, v') /\ reclaimed I x v v'.
Proof.
  intros Hv Hw Hr Hlc. pose proof (vo_depth _ _ _ _ Hv) as Hd. unfold sfs_reclaim. rewrite biglock_acquire_run, (get_ref_run x 1) by done. rewrite (Z.eqb_refl 1). cbn [negb].
  set (v1 := set_fs _ v). assert (volume_ok I v1) as Hv1 by (apply volume_depth; [done|lia]). rewrite (get_vnode v1 x w) by done.
  rewrite (proj2 (Z.eqb_neq _ 0) Hlc). rewrite srun_ret. cbn [negb Z.eqb].
  destruct (sync_run inode_addr meta I v1 x w Hv1) as (v2 & Hsync & Hsn); [cbn; lia|done|]. rewrite (srun_call _ _ _ _ _ Hsync). cbn [negb Z.eqb].
  destruct Hsn as [S1 (S2 & S3 & S4) S5 [S6 S7] [S8 S9] S10]. set (w2 := mk_sfs_vnode (sv_i w) (sv_ino w) false) in *.
  assert (sfs_vnodes (v_fs v2) !! x = Some w2) as Hw2 by (rewrite S5; apply lookup_insert_eq). rewrite (get_vnode v2 x w2) by done. cbn [w2 sv_i].
  rewrite (proj2 (Z.eqb_neq _ 0) Hlc). rewrite srun_ret.
  destruct (vo_table _ _ _ _ S1) as (l & Hl & Hnd & Hdom). pose proof (fr_depth _ _ S6) as Ed. cbn in Ed.
  destruct (drop_run l x v2 Hl Hnd) as (v' & Hdrop & Hdp); [apply Hdom; by exists w2|by rewrite S3|lia|].
  exists v'. split; [exact Hdrop|]. destruct (dropped_kept I v2 x w2 l v' S1 ltac:(lia) Hw2 eq_refl Hdom Hdp) as [Hv' Hf].
  pose proof (dp_fs _ _ _ _ Hdp) as E. constructor; [done| | | | |].
  - rewrite E. cbn. rewrite S5. by rewrite delete_insert_eq.
  - rewrite E. split; [|done]. destruct S6 as [F1 F2 F3]. constructor; cbn; [done|rewrite F2; cbn; lia|done].
  - rewrite Hf, S8. split; [done|]. rewrite E. rewrite S8 in S9. exact S9.
  - intros y Hy. rewrite (dp_refs _ _ _ _ Hdp), S3 by done. done.
  - by rewrite (dp_memory _ _ _ _ Hdp), S4.
Qed.

(** Truncation to nothing keeps no block. *)
Lemma truncated_nothing R x s n s' n' : truncated R x 0 s n s' n' ->
  forall c, marked s' c <-> marked s c /\ ~ (exists i, 0 <= i < SFS_MAXBLOCKS /\ slot (sec s) n i = c /\ c <> 0) /\ ~ (sfi_indirect n = c /\ c <> 0).
Proof.
  clear inode_addr meta. intros Ht c. assert (forall i, 0 <= i < SFS_MAXBLOCKS -> stays (blocklen 0) i = false) as Hst.
  { intros i Hi. unfold stays. change (blocklen 0) with 0. destruct (Z.ltb_spec i SFS_NDIRECT); [apply Z.ltb_ge; lia|apply Z.leb_gt; unfold SFS_NDIRECT in *; lia]. }
  assert (sfi_indirect n' = 0) as Hi'.
  { apply (tr_indirect _ _ _ _ _ _ _ Ht); [done|]. intros i Hi. rewrite (tr_slots _ _ _ _ _ _ _ Ht) by (unfold SFS_NDIRECT in *; lia).
    by rewrite Hst by (unfold SFS_NDIRECT in *; lia). }
  rewrite (tr_marked _ _ _ _ _ _ _ Ht). split; intros (Hm & H1 & H2); (split; [exact Hm|]); split.
  - intros (i & Hi & Hs & Hc). apply H1. exists i. split; [exact Hi|]. split; [by apply Hst|]. by split.
  - intros [E Hc]. by apply H2.
  - intros (i & Hi & _ & Hs & Hc). apply H1. exists i. by split.
  - intros (E & Hc & _). by apply H2.
Qed.

Lemma marked_same s s' c : frame s s' -> sfs_freemap s' = sfs_freemap s -> marked s' c <-> marked s c.
Proof. clear inode_addr meta. intros [F _ _] E. unfold marked. by rewrite F, E. Qed.

Lemma sfs_reclaim_erased I v x w : volume_ok I v -> sfs_vnodes (v_fs v) !! x = Some w -> v_ref v !! x = Some 1 -> sfi_linkcount (sv_i w) = 0 ->
  exists v', sfs_reclaim inode_addr x v = inr (0, v') /\ erased I x (sv_ino w) (sv_i w) v v'.
Proof.
  intros Hv Hw Hr Hlc. pose proof (vo_depth _ _ _ _ Hv) as Hd. unfold sfs_reclaim. rewrite biglock_acquire_run, (get_ref_run x 1) by done. rewrite (Z.eqb_refl 1). cbn [negb].
  set (v1 := set_fs _ v). assert (volume_ok I v1) as Hv1 by (apply volume_depth; [done|lia]). rewrite (get_vnode v1 x w) by done.
  rewrite (proj2 (Z.eqb_eq _ 0) Hlc). assert (0 < vfs_biglock_depth (v_fs v1)) as Hd1 by (cbn; lia).
  pose proof (volume_fs_ok _ _ I v1 Hv1 Hd1) as Hok1. assert (sfs_vnodes (v_fs v1) !! x = Some w) as Hw1 by done.
  destruct (sfs_itrunc_run _ (v_fs v1) x w 0 Hok1 Hw1) as (s2 & n2 & Htr & Ht & _); [done|].
  pose proof (itrunc_keeps x 0 _ _ _ Htr) as Hk. destruct (kept_file _ _ _ _ Hk Hw1) as (w2 & Hw2 & Hid).
  destruct (volume_step inode_addr meta I v1 x s2 Hv1 (tr_ok _ _ _ _ _ _ _ Ht) (tr_frame _ _ _ _ _ _ _ Ht) (tr_reserved _ _ _ _ _ _ _ Ht) Hk) as [Hv2 Hbs].
  pose proof (truncated_nothing _ _ _ _ _ _ Ht) as Hmk2. pose proof (tr_frame _ _ _ _ _ _ _ Ht) as Hf2.
  destruct (files_beside I (v_fs v1) s2 x w (vo_vnodes _ _ _ _ Hv1) Hbs Hw1 (tr_others _ _ _ _ _ _ _ Ht)) as [Hfd Hsd].
  rewrite (srun_call _ _ _ _ _ (run_fs _ _ _ v1 Htr)). cbn [negb Z.eqb]. clear Ht Htr. set (v2 := set_fs s2 v1) in *.
  assert (vfs_biglock_depth (v_fs v2) = vfs_biglock_depth (v_fs v) + 1) as Ed2 by exact (fr_depth _ _ Hf2).
  destruct (sync_run inode_addr meta I v2 x w2 Hv2) as (v3 & Hsync & [S1 (S2 & S3 & S4) S5 [S6 S7] [S8 S9] _ _]); [lia|done|].
  rewrite (srun_call _ _ _ _ _ Hsync). cbn [negb Z.eqb]. set (w3 := mk_sfs_vnode (sv_i w2) (sv_ino w2) false) in *.
  assert (sv_ino w2 = sv_ino w /\ sfi_linkcount (sv_i w2) = 0) as [Ek El].
  { destruct Hid as [E _ _]. unfold identity in E. injection E as _ E1 E2 _. by rewrite E1, E2. }
  assert (sfs_vnodes (v_fs v3) !! x = Some w3) as Hw3 by (rewrite S5; apply lookup_insert_eq). rewrite (get_vnode v3 x w3) by done. cbn [w3 sv_i].
  rewrite (proj2 (Z.eqb_eq _ 0) El). pose proof (fr_depth _ _ S6) as Ed3. change (sv_ino w3) with (sv_ino w2).
  destruct (vo_table _ _ _ _ S1) as (l & Hl & Hnd & Hdom).
  assert (marked (v_fs v3) (sv_ino w2)) as [Hkr Hkb] by (eapply volume_in_use; [exact S1|]; exact (vn_inos _ _ (vo_vnodes _ _ _ _ S1) x w3 Hw3)).
  pose proof (so_mapsize _ _ (vo_fs _ _ _ _ S1)) as Hms. cbn in Hms.
  destruct (sfs_bfree_run (v_fs v3) (sv_ino w2) (so_map _ _ (vo_fs _ _ _ _ S1))) as (map' & Hfree & Hcl); [lia|done|].
  rewrite (srun_call _ _ _ _ _ (run_fs _ _ _ v3 Hfree)).
  destruct (drop_run l x (set_fs (freed map' (v_fs v3)) v3) Hl Hnd) as (v' & Hdrop & Hdp); [apply Hdom; by exists w3|cbn; by rewrite S3|cbn; lia|].
  exists v'. split; [exact Hdrop|]. pose proof (dp_fs _ _ _ _ Hdp) as E.
  destruct (dropped_freed I v3 x w3 map' l v' S1 ltac:(lia) Hw3 Hcl Hdom Hdp) as (Hv' & Hf & Hmk). cbn [w3 sv_ino] in Hv', Hf, Hmk. rewrite Ek in *.
  rewrite S8 in S9. pose proof (same_files_part _ _ _ _ (delete_subseteq (files I (v_fs v2)) (sv_ino w)) S9) as Hs3.
  change (files I (v_fs v2)) with (files I s2) in *. rewrite Hfd in Hs3. rewrite S8, Hfd in Hf.
  constructor; [exact Hv'| | | | | |].
  - rewrite E. cbn. rewrite S5. rewrite delete_insert_eq. apply map_eq. intros y. destruct (decide (y = x)) as [->|Hne]; [by rewrite !lookup_delete_eq|].
    rewrite !lookup_delete_ne by done. exact (kp_others _ _ _ Hk y Hne).
  - rewrite E. destruct S6 as [F1 F2 F3], Hf2 as [G1 G2 G3]. constructor; cbn; [by rewrite F1|lia|by rewrite F3].
  - split; [exact Hf|]. rewrite E. eapply same_files_trans; [exact Hsd|exact Hs3].
  - intros c. rewrite Hmk, (marked_same (v_fs v2) (v_fs v3) c S6 S7). change (marked (v_fs v2) c) with (marked s2 c). rewrite (Hmk2 c). change (marked (v_fs v1) c) with (marked (v_fs v) c). tauto.
  - intros y Hy. rewrite (dp_refs _ _ _ _ Hdp) by done. cbn. by rewrite S3.
  - rewrite (dp_memory _ _ _ _ Hdp). cbn. by rewrite S4.
Qed.

(** ** New inodes *)

Definition empty_inode (type : Z) : sfs_dinode := mk_dinode 0 type 0 (replicate 15 0) 0 (replicate 110 0).

Lemma decode_zero : decode_dinode zero_block = empty_inode 0.
Proof. clear. vm_compute. reflexivity. Qed.

Lemma slot_empty (f : Z -> list Z) type i : 0 <= i -> slot f (empty_inode type) i = 0.
Proof.
  clear. intros Hi. unfold slot, empty_inode. cbn [sfi_direct sfi_indirect Z.eqb]. destruct (i <? SFS_NDIRECT); [|done].
  rewrite zlookup_replicate. by destruct (decide _).
Qed.

Lemma fields_empty type : type = SFS_TYPE_FILE \/ type = SFS_TYPE_DIR -> inode_fields (empty_inode type).
Proof.
  clear. intros Ht. constructor; cbn -[replicate]; [unfold is_u32; lia|done|unfold is_u16; lia|]. split; [done|]. apply Forall_replicate. unfold is_u32. lia.
Qed.

Lemma blocks_more f I (m : gmap Z sfs_dinode) (mk : Z -> Prop) k type : blocks_ok f (system I) m mk -> ~ mk k ->
  blocks_ok f (system ({[k]} ∪ I)) (<[k := empty_inode type]> m) (fun c => mk c \/ c = k).
Proof.
  clear inode_addr. intros Hok Hk.
  assert (forall key c, uses f (system ({[k]} ∪ I)) (<[k := empty_inode type]> m) key c -> uses f (system I) m key c \/ (key = KOther k /\ c = k)) as Hu.
  { intros [j i|j|b] c; cbn.
    - intros (n & Hn & Hi & Hs & Hc). destruct (decide (j = k)) as [->|Hne]; [rewrite lookup_insert_eq in Hn|rewrite lookup_insert_ne in Hn by done].
      + injection Hn as <-. rewrite slot_empty in Hs by lia. congruence.
      + left. exists n. split_and!; (done || lia).
    - intros (n & Hn & Hs & Hc). destruct (decide (j = k)) as [->|Hne]; [rewrite lookup_insert_eq in Hn|rewrite lookup_insert_ne in Hn by done].
      + injection Hn as <-. cbn in Hs. congruence.
      + left. by exists n.
    - intros [-> [Hm|[->%elem_of_singleton|Hm]%elem_of_union]]; [left; split; [done|by left]|by right|left; split; [done|by right]]. }
  constructor.
  - intros j n. destruct (decide (j = k)) as [->|Hne]; [rewrite lookup_insert_eq; by intros [= <-]|rewrite lookup_insert_ne by done; apply (bo_direct _ _ _ _ Hok)].
  - intros key c [H|[_ ->]]%Hu; [left; by eapply bo_marked|by right].
  - assert (forall key, ~ uses f (system I) m key k) as Hno by (intros key H; by apply Hk, (bo_marked _ _ _ _ Hok key)).
    intros key key' c [H|[-> ->]]%Hu [H'|[-> E]]%Hu; [by eapply bo_unique|subst c; by destruct (Hno key)|by destruct (Hno key')|done].
Qed.

(** A block without a use goes back. *)
Lemma unused_freed I v b map' : let s := v_fs v in
  volume_ok I v -> bit_cleared_at (sfs_freemap s) map' b -> 0 < b < sb_nblocks s -> (forall key, ~ uses (sec s) (system I) (files I s) key b) ->
  volume_ok I (set_fs (freed map' s) v) /\ forall c, marked (freed map' s) c <-> marked s c /\ c <> b.
Proof.
  intros s Hv (Hnb & Hwf & Hbits) Hb Hno.
  assert (forall c, marked (freed map' s) c <-> marked s c /\ c <> b) as Hmk.
  { intros c. unfold marked. cbn. split.
    - intros [Hc Hbc]. rewrite Hbits in Hbc by lia. apply andb_true_iff in Hbc as [Hne%negb_true_iff%bool_decide_eq_false Hbc]. split; [split; [exact Hc|exact Hbc]|exact Hne].
    - intros [[Hc Hbc] Hne]. split; [done|]. rewrite Hbits, Hbc, andb_true_r by lia. by apply negb_true_iff, bool_decide_eq_false. }
  split; [|done]. pose proof (vo_vnodes _ _ _ _ Hv) as Hvn. destruct Hv as [V1 V2 V3 [V4 V5] V6 V7 V8 V9 V10 V11]. constructor; try assumption; [| |by constructor].
  - apply (ok_freed (fun _ => False) (set_depth 1 s) (set_depth 1 (freed map' s)) (fun c => c = b)); cbn.
    + exact V1.
    + done.
    + split_and!; [|done|done]. exact (so_ready _ _ V1).
    + by intros a.
    + done.
    + done.
    + intros c Hc. rewrite Hbits by done. rewrite andb_true_iff, negb_true_iff, bool_decide_eq_false. tauto.
    + intros c ->. exact Hb.
    + intros y n Hn. exact (bo_direct _ _ _ _ (so_blocks _ _ V1) y n Hn).
    + intros key c Hu. split; [exact Hu|]. intros ->. destruct (key_case key) as [Hfile|[c' ->]]; [|by destruct Hu].
      destruct (uses_up meta I s _ _ key b Hvn Hfile Hu) as [Hup _]. by destruct (Hno _ Hup).
  - apply (blocks_less (sec s) (system I) (system I) (files I s) (files I s) (marked s)); [exact V3|done|done|].
    intros key c Hu Hc. apply Hmk. split; [done|]. intros ->. by destruct (Hno key).
Qed.

Record made I (type k : Z) (x : positive) v v' : Prop := mk_made {
  md_ok : volume_ok ({[k]} ∪ I) v';
  md_fresh : (k ∉ I) /\ ~ marked (v_fs v) k;
  md_vnode : sfs_vnodes (v_fs v) !! x = None /\ sfs_vnodes (v_fs v') = <[x := mk_sfs_vnode (empty_inode type) k true]> (sfs_vnodes (v_fs v));
  md_files : files ({[k]} ∪ I) (v_fs v') = <[k := empty_inode type]> (files I (v_fs v)) /\
    same_files (sec (v_fs v)) (files I (v_fs v)) (sec (v_fs v')) (files I (v_fs v));
  md_frame : frame (v_fs v) (v_fs v');
  md_marked : forall c, marked (v_fs v') c <-> marked (v_fs v) c \/ c = k;
  md_refs : forall y, refs v' y = refs v y + if decide (y = x) then 1 else 0
}.

(** Nothing but memory and a free block changed. *)
Record not_made I v v' : Prop := mk_not_made {
  nm_ok : volume_ok I v';
  nm_vnodes : sfs_vnodes (v_fs v') = sfs_vnodes (v_fs v);
  nm_files : files I (v_fs v') = files I (v_fs v) /\ same_files (sec (v_fs v)) (files I (v_fs v)) (sec (v_fs v')) (files I (v_fs v));
  nm_frame : frame (v_fs v) (v_fs v');
  nm_marked : forall c, marked (v_fs v') c <-> marked (v_fs v) c;
  nm_refs : forall y, refs v' y = refs v y
}.

(** The block of a new inode, not yet one. *)
Record block_taken I (k : Z) v v1 : Prop := mk_block_taken {
  bt_ok : volume_ok I v1;
  bt_fresh : (k ∉ I) /\ ~ marked (v_fs v) k /\ 0 < k < sb_nblocks (v_fs v);
  bt_rest : v_table v1 = v_table v /\ v_ref v1 = v_ref v /\ v_memory v1 = v_memory v /\ sfs_vnodes (v_fs v1) = sfs_vnodes (v_fs v);
  bt_files : files I (v_fs v1) = files I (v_fs v) /\ same_files (sec (v_fs v)) (files I (v_fs v)) (sec (v_fs v1)) (files I (v_fs v));
  bt_blocks : blocks_ok (sec (v_fs v1)) (system I) (files I (v_fs v)) (marked (v_fs v));
  bt_frame : frame (v_fs v) (v_fs v1);
  bt_marked : forall c, marked (v_fs v1) c <-> marked (v_fs v) c \/ c = k;
  bt_zero : sec (v_fs v1) k = zero_block
}.

Lemma balloc_run I v : volume_ok I v -> 0 < vfs_biglock_depth (v_fs v) ->
  ((forall c, 0 <= c < sb_nblocks (v_fs v) -> marked (v_fs v) c) /\ on_fs sfs_balloc v = inr ((ENOSPC, 0), v)) \/
  (exists k v1, on_fs sfs_balloc v = inr ((0, k), v1) /\ block_taken I k v v1).
Proof.
  intros Hv Hd. pose proof (volume_fs_ok _ _ I v Hv Hd) as Hok. pose proof (vo_vnodes _ _ _ _ Hv) as Hvn.
  destruct (balloc_cases _ _ Hok) as [[Hfull Hrun]|(k & s1 & Hrun & Hal)]; [left; split; [done|]; rewrite (run_fs _ _ _ v Hrun); by rewrite set_fs_id|].
  right. exists k, (set_fs s1 v). split; [by apply run_fs|].
  destruct (volume_step inode_addr meta I v 1%positive s1 Hv (al_ok _ _ _ _ Hal) (al_frame _ _ _ _ Hal)) as [Hv1 Hbs];
    [intros c; by apply (allocated_reserved _ _ k)|by apply kept_vnodes, Hal|].
  pose proof (al_free _ _ _ _ Hal) as Hfree. assert (k ∉ I) as HkI by (intros HkI; by apply Hfree, (volume_in_use inode_addr meta I v)).
  assert (files I s1 = files I (v_fs v)) as Hf.
  { apply files_eq. intros j Hj. apply inode_of_core; [unfold in_core; by rewrite (al_vnodes _ _ _ _ Hal)|]. apply (al_sec _ _ _ _ Hal). by intros ->. }
  assert (same_files (sec (v_fs v)) (inodes (v_fs v)) (sec s1) (inodes s1)) as Hsame.
  { assert (inodes s1 = inodes (v_fs v)) as -> by (unfold inodes; by rewrite (al_vnodes _ _ _ _ Hal)). intros x.
    destruct (inodes (v_fs v) !! x) as [n|] eqn:Hn; [|done]. split; [done|]. intros p Hp.
    assert (forall j, slot (sec s1) n j = slot (sec (v_fs v)) n j) as Hsl.
    { intros j. apply slot_frame. intros Hi. apply (al_sec _ _ _ _ Hal). by eapply (ind_unmarked _ _ _ _ (so_blocks _ _ Hok)). }
    apply file_byte_blocks; [done|]. intros j Hj. rewrite Hsl. unfold block_bytes. destruct (Z.eqb_spec (slot (sec (v_fs v)) n j) 0); [done|].
    apply (al_sec _ _ _ _ Hal). intros E. apply Hfree. rewrite <- E. apply (bo_marked _ _ _ _ (so_blocks _ _ Hok) (KSlot x j)). by exists n. }
  constructor; [done|split_and!; [done|done|apply Hal..]|by split_and!; [..|apply Hal]| | |apply Hal|apply Hal|apply Hal].
  - split; [exact Hf|]. change (v_fs (set_fs s1 v)) with s1. rewrite <- Hf at 2. by apply (files_same meta I).
  - eapply clear_free; [apply Hv|exact Hfree|apply Hal].
Qed.

Lemma made_intro I type k x v v1 v2 l : block_taken I k v v1 -> only_read (v_fs v1) (v_fs v2) ->
  sfs_vnodes (v_fs v1) !! x = None -> sfs_vnodes (v_fs v2) = <[x := mk_sfs_vnode (empty_inode type) k true]> (sfs_vnodes (v_fs v1)) ->
  type = SFS_TYPE_FILE \/ type = SFS_TYPE_DIR ->
  holds (v_table v2) (l ++ [x]) -> NoDup l -> (forall y, y ∈ l <-> is_Some (sfs_vnodes (v_fs v1) !! y)) -> v_ref v2 = <[x := 1]> (v_ref v1) ->
  made I type k x v v2.
Proof.
  intros [B1 (B2 & B3 & B4) (B5 & B6 & B7 & B8) [B9 B10] B11 B12 B13 B14] Hread Hx Evn Htype Hl' Hnd Hdom Eref. pose proof Hread as [R1 R2 R3 R4 R5].
  set (w := mk_sfs_vnode (empty_inode type) k true) in *. set (I' := {[k]} ∪ I). pose proof (vo_vnodes _ _ _ _ B1) as [Hi Ho].
  assert (vnodes_ok I' (v_fs v1)) as Hvn1 by (constructor; [intros y u Hu; apply elem_of_union_r; by eapply Hi|done]).
  assert (in_core (v_fs v1) k = None) as Hnone by (apply in_core_None; intros y u Hu E; apply B2; rewrite <- E; by eapply Hi).
  pose proof (vnodes_more I' (v_fs v1) (v_fs v2) x w Hvn1 Evn ltac:(apply elem_of_union_l, elem_of_singleton_2; done) Hnone) as Hvn2.
  destruct (core_more I' (v_fs v1) (v_fs v2) x w Hvn2 Hvn1 Evn Hx) as (Hc1 & _ & Hc2). cbn [w sv_ino] in Hc1, Hc2.
  assert (forall j, j <> k -> inode_of (v_fs v2) j = inode_of (v_fs v1) j) as Hin by (intros j Hj; apply inode_of_core; [by apply Hc2|apply R5]).
  assert (inode_of (v_fs v2) k = empty_inode type) as Hink by (unfold inode_of; by rewrite Hc1).
  assert (files I' (v_fs v2) = <[k := empty_inode type]> (files I (v_fs v))) as Hf.
  { rewrite <- B9. apply map_eq. intros j. apply option_eq. intros n. rewrite lookup_files. unfold I'. rewrite elem_of_union, elem_of_singleton.
    destruct (decide (j = k)) as [->|Hne]; [rewrite lookup_insert_eq, Hink|rewrite lookup_insert_ne, lookup_files, Hin by done]; naive_solver. }
  assert (blocks_ok (sec (v_fs v2)) (system I') (files I' (v_fs v2)) (marked (v_fs v2))) as Hb.
  { rewrite Hf. eapply blocks_ok_ext; [exact R5| |apply (blocks_more _ I); [exact B11|exact B3]]. intros c Hc.
    apply (marked_same (v_fs v1) (v_fs v2) c R1 R2), B13. exact Hc. }
  constructor.
  - constructor; [|rewrite (fr_depth _ _ R1); apply B1|exact Hb|exact Hvn2| | | | | |].
    + by apply (fs_ok_same meta I' (v_fs v1)); [apply B1|apply R1|..].
    + intros j Hj. destruct (decide (j = k)) as [->|Hne].
      * rewrite Hink. by apply fields_empty.
      * rewrite Hin by done. apply (vo_inodes _ _ _ _ B1). unfold I' in Hj. apply elem_of_union in Hj as [Hj%elem_of_singleton|Hj]; done.
    + intros y u. rewrite Evn, R5. destruct (decide (y = x)) as [->|Hne]; [rewrite lookup_insert_eq; by intros [= <-]|].
      rewrite lookup_insert_ne by done. apply (vo_clean _ _ _ _ B1).
    + exists (l ++ [x]). split_and!; [done| |].
      * apply NoDup_app. split_and!; [done| |apply NoDup_singleton]. intros y Hy ->%list_elem_of_singleton. apply Hdom in Hy as [u Hu]. congruence.
      * intros y. rewrite Evn, elem_of_app, Hdom, list_elem_of_singleton, lookup_insert_is_Some'. naive_solver.
    + intros y. rewrite Evn, Eref. destruct (decide (y = x)) as [->|Hne]; [rewrite !lookup_insert_eq; intros _; exists 1; split; [done|lia]|].
      rewrite !lookup_insert_ne by done. apply (vo_refs _ _ _ _ B1).
    + rewrite (fr_buffer _ _ R1). apply B1.
    + intros j. unfold I'. rewrite elem_of_union, elem_of_singleton. intros [->|Hj]; [|by apply (vo_meta _ _ _ _ B1)]. split; [|lia].
      intros Hm. apply B3, (bo_marked _ _ _ _ B11 (KOther k)). split; [done|by left].
  - by split.
  - split; [by rewrite <- B8|by rewrite <- B8].
  - split; [exact Hf|]. eapply same_files_trans; [exact B10|]. by apply same_files_ext.
  - by eapply frame_trans.
  - intros c. by rewrite (marked_same (v_fs v1) (v_fs v2) c R1 R2).
  - intros y. unfold refs. rewrite Evn, Eref, B6, B8. case_decide as E; [subst y; rewrite !lookup_insert_eq, <- B8, Hx; done|]. rewrite !lookup_insert_ne by done. lia.
Qed.

Lemma sfs_makeobj_run I v type : volume_ok I v -> 0 < vfs_biglock_depth (v_fs v) -> type = SFS_TYPE_FILE \/ type = SFS_TYPE_DIR ->
  exists r o v', sfs_makeobj inode_addr type v = inr ((r, o), v') /\
    ((r = 0 /\ exists k x, o = Some x /\ made I type k x v v') \/
     (o = None /\ not_made I v v' /\ ((r = ENOSPC /\ forall c, 0 <= c < sb_nblocks (v_fs v) -> marked (v_fs v) c) \/ (r = ENOMEM /\ false ∈ v_memory v)))).
Proof.
  intros Hv Hd Htype. unfold sfs_makeobj.
  destruct (balloc_run I v Hv Hd) as [[Hfull Hrun]|(k & v1 & Hrun & [B1 (B2 & B3 & B4) (B5 & B6 & B7 & B8) [B9 B10] B11 B12 B13 B14])];
    rewrite (srun_call _ _ _ _ _ Hrun); cbn [negb Z.eqb ENOSPC].
  { eexists _, _, _. split; [reflexivity|]. right. split_and!; [done| |by left]. constructor; try done. split; [done|apply same_files_refl]. }
  pose proof (fr_depth _ _ B12) as Ed. assert (0 < vfs_biglock_depth (v_fs v1)) as Hd1 by lia. pose proof (vo_vnodes _ _ _ _ B1) as Hvn1.
  destruct (vo_table _ _ _ _ B1) as (l & Hl & Hnd & Hdom).
  assert (in_core (v_fs v1) k = None) as Hnone.
  { apply in_core_None. intros x w Hw E. apply B2. rewrite <- E. by eapply (vn_inos _ _ Hvn1). }
  unfold sfs_loadvnode. rewrite srun_bind. rewrite (srun_call _ (zlen l) v1) by (unfold on_table, array_num, sget; rewrite (ho_num _ _ Hl); by rewrite set_table_id).
  unfold zlen at 1. rewrite Nat2Z.id, srun_bind.
  destruct (find_loaded_run inode_addr meta I v1 l k type B1 Hd1 Hl Hdom (or_introl Hnone) (length l) 0 eq_refl) as [(x & w & r & Hw & E & _)|[_ Hfind]];
    [rewrite in_core_None in Hnone; by destruct (Hnone x w Hw)|].
  change (Z.of_nat 0) with 0 in Hfind. rewrite (srun_call _ _ _ _ _ Hfind).
  assert (new_inode type (decode_dinode (sec (v_fs v1) k)) = (empty_inode type, true)) as Enew.
  { rewrite B14, decode_zero. unfold new_inode. by destruct Htype as [->| ->]. }
  destruct (load_inode_run inode_addr meta I v1 l k type B1 Hd1) as (r & o & v2 & Hload & [Hread Hres]).
  { apply B13. by right. }
  { done. }
  { by eapply table_room. }
  { right. rewrite B14, decode_zero. done. }
  { rewrite Enew. exact Htype. }
  rewrite (srun_call _ _ _ _ _ Hload). rewrite Enew in Hres. cbn [fst snd] in Hres. pose proof Hread as [R1 R2 R3 R4 R5].
  destruct Hres as [(-> & x & -> & Hx & Evn & Hl' & Eref)|(-> & -> & Hm & Evn & Hl' & Href)]; cbn [fst negb Z.eqb ENOMEM].
  - exists 0, (Some x), v2. split; [done|]. left. split; [done|]. exists k, x. split; [done|].
    by apply (made_intro I type k x v v1 v2 l).
  - pose proof (not_loaded_intro _ _ I v1 v2 l B1 Hread Evn Hl' Hnd Hdom Href) as [N1 _ _ N4].
    assert (forall key, ~ uses (sec (v_fs v2)) (system I) (files I (v_fs v2)) key k) as Hno.
    { intros key Hu. apply B3. assert (files I (v_fs v2) = files I (v_fs v)) as Ef.
      { rewrite <- B9. apply files_eq. intros j _. apply inode_of_core; [unfold in_core; by rewrite Evn|apply R5]. }
      rewrite Ef in Hu. eapply (bo_marked _ _ _ _ (blocks_ok_ext _ _ _ _ (marked (v_fs v)) (marked (v_fs v)) R5 (fun c Hc => Hc) B11)). exact Hu. }
    assert (marked (v_fs v2) k) as [Hkr Hkb] by (apply (marked_same _ _ _ R1 R2), B13; by right).
    pose proof (so_mapsize _ _ (vo_fs _ _ _ _ N1)) as Hms. cbn in Hms.
    destruct (sfs_bfree_run (v_fs v2) k (so_map _ _ (vo_fs _ _ _ _ N1))) as (map' & Hfree & Hcl); [lia|done|].
    rewrite (srun_call _ _ _ _ _ (run_fs _ _ _ v2 Hfree)).
    destruct (unused_freed I v2 k map' N1 Hcl) as [Hv' Hmk]; [rewrite (fr_nblocks _ _ R1), (fr_nblocks _ _ B12); exact B4|exact Hno|].
    eexists _, _, _. split; [reflexivity|]. right. split; [done|]. split; [|right; split; [done|by rewrite <- B7]].
    assert (refs_ok v2) as Href2 by exact (vo_refs _ _ _ _ N1). constructor; [exact Hv'| | | | |].
    + cbn. by rewrite Evn.
    + assert (files I (freed map' (v_fs v2)) = files I (v_fs v)) as Ef.
      { rewrite <- B9. apply files_eq. intros j _. apply inode_of_core; [unfold in_core; cbn; by rewrite Evn|apply R5]. }
      split; [exact Ef|]. eapply same_files_trans; [exact B10|]. by apply same_files_ext.
    + eapply frame_trans; [exact B12|]. destruct R1. by constructor.
    + intros c. etrans; [apply Hmk|]. rewrite (marked_same (v_fs v1) (v_fs v2) c R1 R2), B13. split; [tauto|].
      intros Hc. split; [by left|]. by intros ->.
    + intros y. transitivity (refs v2 y); [done|]. rewrite N4. unfold refs. by rewrite B8, B6.
Qed.
End reclaim.
