(* ===== verification/SfsVnops.v ===== *)
(** * The operations on the vnodes of SFS ([kern/fs/sfs/sfs_vnops.c])

    Each function acquires the big lock and calls the functions of the other
    files.  Names are lists of characters without the terminating 0.  An output
    parameter is part of the result, [None] while it is not set.  Directories
    cannot be made, so the only one is the root. *)

From S2P Require Import Prelude State Monad StopState Bitmap Array Uio Device Sfs SfsDir SfsInode.

#[local] Open Scope Z_scope.
#[local] Open Scope sm_scope.

Definition ENOTDIR : Z := 17.
Definition EISDIR : Z := 18.
Definition S_IFREG : Z := 4096.
Definition S_IFDIR : Z := 8192.
Definition O_RDONLY : Z := 0.
Definition O_ACCMODE : Z := 3.
Definition O_APPEND : Z := 32.

(** The fields of [struct stat] that are set; the others are 0. *)
Record stat := mk_stat {
  st_size : Z;
  st_mode : Z;
  st_nlink : Z;
  st_blocks : Z
}.

Section vnops.
Context {D : Type} {DV : Device D} {LY : Layout}.
Context (accessible : bool -> Z -> bool) (curas : option positive).
Context (inode_addr : positive -> Z) (tsd sd : Z).

Notation VM := (SM (volume (D := D))).

(** [sfi_linkcount] is a 16-bit counter. *)
Definition more_links (n : sfs_dinode) : sfs_dinode := set_linkcount ((sfi_linkcount n + 1) mod 2^16) n.
Definition fewer_links (n : sfs_dinode) : sfs_dinode := set_linkcount ((sfi_linkcount n - 1) mod 2^16) n.

(** An inode changes, the dirty flag does not. *)
Definition alter_inode (sv : positive) (f : sfs_dinode -> sfs_dinode) : VM unit :=
  v <- on_fs (get_sv sv) ;;
  new_vnode sv (mk_sfs_vnode (f (sv_i v)) (sv_ino v) (sv_dirty v)).

(** ** Opening *)

Definition sfs_eachopen (sv : positive) (openflags : Z) : VM Z := sret 0.

Definition sfs_eachopendir (sv : positive) (openflags : Z) : VM Z :=
  if negb (Z.land openflags O_ACCMODE =? O_RDONLY) then sret EISDIR else
  if negb (Z.land openflags O_APPEND =? 0) then sret EISDIR else
  sret 0.

(** ** Data and attributes *)

Definition sfs_read (sv : positive) (u : uio) : VM (Z * uio) :=
  sassert (match uio_rw u with UIO_READ => true | UIO_WRITE => false end) "uio->uio_rw==UIO_READ" ;;
  on_fs vfs_biglock_acquire ;;
  ru <- on_fs (sfs_io accessible curas sv u) ;;
  on_fs vfs_biglock_release ;;
  sret ru.

Definition sfs_write (sv : positive) (u : uio) : VM (Z * uio) :=
  sassert (match uio_rw u with UIO_READ => false | UIO_WRITE => true end) "uio->uio_rw==UIO_WRITE" ;;
  on_fs vfs_biglock_acquire ;;
  ru <- on_fs (sfs_io accessible curas sv u) ;;
  on_fs vfs_biglock_release ;;
  sret ru.

Definition sfs_ioctl (sv : positive) (op data : Z) : VM Z := sret EINVAL.

Definition sfs_gettype (sv : positive) : VM (Z * Z) :=
  on_fs vfs_biglock_acquire ;;
  v <- on_fs (get_sv sv) ;;
  if sfi_type (sv_i v) =? SFS_TYPE_FILE then on_fs vfs_biglock_release ;; sret (0, S_IFREG) else
  if sfi_type (sv_i v) =? SFS_TYPE_DIR then on_fs vfs_biglock_release ;; sret (0, S_IFDIR) else
  sstop (panic_called "sfs: gettype: Invalid inode type").

Definition sfs_stat (sv : positive) : VM (Z * stat) :=
  rt <- sfs_gettype sv ;;
  let '(result, mode) := rt in
  if negb (result =? 0) then sret (result, mk_stat 0 mode 0 0) else
  v <- on_fs (get_sv sv) ;;
  sret (0, mk_stat (sfi_size (sv_i v)) mode (sfi_linkcount (sv_i v)) 0).

Definition sfs_isseekable (sv : positive) : VM bool := sret true.

Definition sfs_fsync (sv : positive) : VM Z :=
  on_fs vfs_biglock_acquire ;;
  result <- sfs_sync_inode inode_addr sv ;;
  on_fs vfs_biglock_release ;;
  sret result.

Definition sfs_mmap (sv : positive) : VM Z := sret ENOSYS.

Definition sfs_truncate (sv : positive) (len : Z) : VM Z := on_fs (sfs_itrunc sv len).

Definition sfs_namefile (sv : positive) : VM Z :=
  v <- on_fs (get_sv sv) ;;
  sassert (sv_ino v =? SFS_ROOTDIR_INO) "sv->sv_ino == SFS_ROOTDIR_INO" ;;
  sret 0.

(** ** Names *)

Definition sfs_creat (sv : positive) (name : list Z) (excl : bool) : VM (Z * option positive) :=
  on_fs vfs_biglock_acquire ;;
  rh <- on_fs (sfs_dir_findname tsd sv name) ;;
  let '(result, h) := rh in
  if negb (result =? 0) && negb (result =? ENOENT) then on_fs vfs_biglock_release ;; sret (result, None) else
  if (result =? 0) && excl then on_fs vfs_biglock_release ;; sret (EEXIST, None) else
  if result =? 0 then
    ino <- sderef (h_ino h) "ino" ;;
    rv <- sfs_loadvnode inode_addr ino SFS_TYPE_INVAL ;;
    if negb (fst rv =? 0) then on_fs vfs_biglock_release ;; sret (fst rv, None) else
    newguy <- handed (snd rv) ;;
    on_fs vfs_biglock_release ;;
    sret (0, Some newguy)
  else
  rv <- sfs_makeobj inode_addr SFS_TYPE_FILE ;;
  if negb (fst rv =? 0) then on_fs vfs_biglock_release ;; sret (fst rv, None) else
  newguy <- handed (snd rv) ;;
  v <- on_fs (get_sv newguy) ;;
  rl <- on_fs (sfs_dir_link tsd sd sv name (sv_ino v)) ;;
  let '(result, _) := rl in
  if negb (result =? 0) then
    vnode_decref inode_addr newguy ;;
    on_fs vfs_biglock_release ;;
    sret (result, None)
  else
  on_fs (put_inode newguy more_links) ;;
  on_fs vfs_biglock_release ;;
  sret (0, Some newguy).

Definition sfs_link (dir : positive) (name : list Z) (file : positive) : VM Z :=
  on_fs vfs_biglock_acquire ;;
  f <- on_fs (get_sv file) ;;
  if sfi_type (sv_i f) =? SFS_TYPE_DIR then on_fs vfs_biglock_release ;; sret EINVAL else
  rl <- on_fs (sfs_dir_link tsd sd dir name (sv_ino f)) ;;
  let '(result, _) := rl in
  if negb (result =? 0) then on_fs vfs_biglock_release ;; sret result else
  on_fs (put_inode file more_links) ;;
  on_fs vfs_biglock_release ;;
  sret 0.

Definition sfs_remove (dir : positive) (name : list Z) : VM Z :=
  on_fs vfs_biglock_acquire ;;
  rvs <- sfs_lookonce inode_addr tsd dir name ;;
  let '(result, v, slot) := rvs in
  if negb (result =? 0) then on_fs vfs_biglock_release ;; sret result else
  victim <- handed v ;;
  slot <- sderef slot "slot" ;;
  result <- on_fs (sfs_dir_unlink sd dir slot) ;;
  (if result =? 0 then
     w <- on_fs (get_sv victim) ;;
     sassert (0 <? sfi_linkcount (sv_i w)) "victim->sv_i.sfi_linkcount > 0" ;;
     on_fs (put_inode victim fewer_links)
   else sret tt) ;;
  vnode_decref inode_addr victim ;;
  on_fs vfs_biglock_release ;;
  sret result.

(** The end of [sfs_rename] when it failed. *)
Definition rename_puke (g1 : positive) (result : Z) : VM Z :=
  vnode_decref inode_addr g1 ;;
  on_fs vfs_biglock_release ;;
  sret result.

Definition sfs_rename (d1 : positive) (n1 : list Z) (d2 : positive) (n2 : list Z) : VM Z :=
  on_fs vfs_biglock_acquire ;;
  sassert (bool_decide (d1 = d2)) "d1==d2" ;;
  v <- on_fs (get_sv d1) ;;
  sassert (sv_ino v =? SFS_ROOTDIR_INO) "sv->sv_ino == SFS_ROOTDIR_INO" ;;
  rvs <- sfs_lookonce inode_addr tsd d1 n1 ;;
  let '(result, g, slot1) := rvs in
  if negb (result =? 0) then on_fs vfs_biglock_release ;; sret result else
  g1 <- handed g ;;
  slot1 <- sderef slot1 "slot1" ;;
  w <- on_fs (get_sv g1) ;;
  sassert (sfi_type (sv_i w) =? SFS_TYPE_FILE) "g1->sv_i.sfi_type == SFS_TYPE_FILE" ;;
  rl <- on_fs (sfs_dir_link tsd sd d1 n2 (sv_ino w)) ;;
  let '(result, slot2) := rl in
  if negb (result =? 0) then rename_puke g1 result else
  on_fs (put_inode g1 more_links) ;;
  result <- on_fs (sfs_dir_unlink sd d1 slot1) ;;
  if negb (result =? 0) then
    slot2 <- sderef slot2 "slot2" ;;
    result2 <- on_fs (sfs_dir_unlink sd d1 slot2) ;;
    if negb (result2 =? 0) then sstop (panic_called "sfs: rename: Cannot recover") else
    alter_inode g1 fewer_links ;;
    rename_puke g1 result
  else
  w <- on_fs (get_sv g1) ;;
  sassert (0 <? sfi_linkcount (sv_i w)) "g1->sv_i.sfi_linkcount>0" ;;
  on_fs (put_inode g1 fewer_links) ;;
  vnode_decref inode_addr g1 ;;
  on_fs vfs_biglock_release ;;
  sret 0.

(** The result, the directory and the name. *)
Definition sfs_lookparent (sv : positive) (path : list Z) (buflen : Z) : VM (Z * option (positive * list Z)) :=
  on_fs vfs_biglock_acquire ;;
  v <- on_fs (get_sv sv) ;;
  if negb (sfi_type (sv_i v) =? SFS_TYPE_DIR) then on_fs vfs_biglock_release ;; sret (ENOTDIR, None) else
  if buflen <? zlen path + 1 then on_fs vfs_biglock_release ;; sret (ENAMETOOLONG, None) else
  vnode_incref sv ;;
  on_fs vfs_biglock_release ;;
  sret (0, Some (sv, path)).

Definition sfs_lookup (sv : positive) (path : list Z) : VM (Z * option positive) :=
  on_fs vfs_biglock_acquire ;;
  v <- on_fs (get_sv sv) ;;
  if negb (sfi_type (sv_i v) =? SFS_TYPE_DIR) then on_fs vfs_biglock_release ;; sret (ENOTDIR, None) else
  rvs <- sfs_lookonce inode_addr tsd sv path ;;
  let '(result, final, _) := rvs in
  if negb (result =? 0) then on_fs vfs_biglock_release ;; sret (result, None) else
  f <- handed final ;;
  on_fs vfs_biglock_release ;;
  sret (0, Some f).
End vnops.
