(* ===== verification/SfsNames.v ===== *)
(** * SFS: the names of a volume

    The root directory is a map from names to inode numbers.  [root_ok] says
    that the names are those of files and that the link count of a file is the
    number of its names.  Creating, linking, removing and renaming files are
    updates of that map. *)

From S2P Require Import Prelude State Monad StopState Bitmap Array Uio Device Sfs SfsSpec SfsBlock SfsBmap SfsRead SfsIo SfsWrite SfsTrunc SfsMeta SfsKeeps SfsDir SfsDirSpec SfsDirMap SfsInode SfsVolume SfsInodeRun SfsReclaim SfsVnops.

#[local] Open Scope Z_scope.
#[local] Open Scope sm_scope.

(** ** Counting names *)

Definition links (N : gmap (list Z) Z) (k : Z) : Z := Z.of_nat (size (filter (fun p => p.2 = k) N)).

Lemma links_insert N name k j : N !! name = None -> links (<[name := k]> N) j = links N j + if decide (j = k) then 1 else 0.
Proof.
  intros Hn. unfold links. case_decide as E.
  - subst j. rewrite map_filter_insert_True by done. rewrite map_size_insert_None; [lia|]. apply map_lookup_filter_None. by left.
  - rewrite map_filter_insert_not'; [lia|cbn; congruence|intros y; by rewrite Hn].
Qed.

Lemma links_delete N name k j : N !! name = Some k -> links (delete name N) j = links N j - if decide (j = k) then 1 else 0.
Proof.
  intros Hn. rewrite <- (insert_delete_id N name k) at 2 by done. rewrite links_insert by apply lookup_delete_eq. lia.
Qed.

Lemma links_pos N name k : N !! name = Some k -> 0 < links N k.
Proof. intros Hn. pose proof (links_delete N name k k Hn) as E. rewrite decide_True in E by done. unfold links in *. lia. Qed.

Lemma links_size N k : links N k <= Z.of_nat (size N).
Proof. unfold links. apply Nat2Z.inj_le, map_subseteq_size, map_filter_subseteq. Qed.

Lemma dir_map_size L : Z.of_nat (size (dir_map L)) <= zlen L.
Proof.
  unfold dir_map, zlen. apply Nat2Z.inj_le. etrans; [|apply (length_filter live)]. rewrite <- (length_fmap prod_swap (filter live L)).
  induction (prod_swap <$> filter live L) as [|[n k] l IH]; [done|]. cbn -[size insert]. rewrite map_size_insert. destruct (_ !! n); cbn; lia.
Qed.

(** ** Directories and volumes *)

Section dirkeeps.
Context {D : Type} {DV : Device D} {LY : Layout}.
Context (tsd sd : Z) (x : positive).

Lemma nentries_keeps : keeps (D := D) x (sfs_dir_nentries x).
Proof. unfold sfs_dir_nentries. keeps_tac. Qed.
Lemma readdir_keeps i data : keeps (D := D) x (sfs_readdir x i data).
Proof. unfold sfs_readdir. keeps_tac. Qed.
Lemma writedir_keeps i data : keeps (D := D) x (sfs_writedir x i data).
Proof. unfold sfs_writedir. keeps_tac. Qed.
#[local] Hint Resolve nentries_keeps readdir_keeps writedir_keeps : keeps.
Lemma findname_keeps name : keeps (D := D) x (sfs_dir_findname tsd x name).
Proof.
  unfold sfs_dir_findname. apply keeps_bind; [auto with keeps|]. intros n. generalize (Z.to_nat n), 0, no_hit. clear n.
  intros n. induction n as [|n IH]; intros i h; cbn [findname_from]; keeps_tac; auto.
Qed.
#[local] Hint Resolve findname_keeps : keeps.
Lemma link_keeps name k : keeps (D := D) x (sfs_dir_link tsd sd x name k).
Proof. unfold sfs_dir_link. keeps_tac. Qed.
Lemma unlink_keeps i : keeps (D := D) x (sfs_dir_unlink sd x i).
Proof. unfold sfs_dir_unlink. keeps_tac. Qed.
End dirkeeps.

Section names.
Context {D : Type} {DV : Device D} {BD : BlockDevice D} {LY : Layout}.
Context (inode_addr : positive -> Z) (tsd sd : Z) (meta : Z -> Prop).

Notation volume := (volume (D := D)).
Notation SS := (sfs_fs D).
Notation volume_ok := (volume_ok inode_addr meta).
Notation others := (others meta).
Notation beside := (beside meta).
Notation system := (system meta).
Implicit Types (s : SS) (I : gset Z) (v : volume) (d : positive).

(** The files [J] are what they were. *)
Definition quiet (J : Z -> Prop) s s' : Prop := forall k, J k ->
  inode_of s' k = inode_of s k /\ forall p, 0 <= p < SFS_MAXSIZE -> file_byte (sec s') (inode_of s k) p = file_byte (sec s) (inode_of s k) p.

Lemma quiet_refl J s : quiet J s s.
Proof. done. Qed.
Lemma quiet_trans J s1 s2 s3 : quiet J s1 s2 -> quiet J s2 s3 -> quiet J s1 s3.
Proof.
  intros H1 H2 k Hk. destruct (H1 k Hk) as [E1 B1], (H2 k Hk) as [E2 B2]. rewrite E1 in E2, B2. split; [done|]. intros p Hp. by rewrite B2, B1.
Qed.
Lemma quiet_less (J J' : Z -> Prop) s s' : (forall k, J' k -> J k) -> quiet J s s' -> quiet J' s s'.
Proof. intros HJ H k Hk. by apply H, HJ. Qed.

Lemma quiet_files I s s' : files I s' = files I s -> same_files (sec s) (files I s) (sec s') (files I s) -> quiet (.∈ I) s s'.
Proof.
  intros Ef Hs k Hk. assert (files I s !! k = Some (inode_of s k)) as Hf by by apply lookup_files. specialize (Hs k). rewrite Hf in Hs.
  split; [|apply Hs]. rewrite <- Ef in Hf. by apply lookup_files in Hf as [_ ->].
Qed.

Lemma quiet_part I k s s' : delete k (files I s') = delete k (files I s) -> same_files (sec s) (delete k (files I s)) (sec s') (delete k (files I s)) ->
  quiet (fun j => j ∈ I /\ j <> k) s s'.
Proof.
  intros Ef Hs j [Hj Hne]. assert (delete k (files I s) !! j = Some (inode_of s j)) as Hf by (rewrite lookup_delete_ne by done; by apply lookup_files).
  specialize (Hs j). rewrite Hf in Hs. split; [|apply Hs]. rewrite <- Ef, lookup_delete_ne in Hf by done. by apply lookup_files in Hf as [_ ->].
Qed.

(** [c] is a data block or the indirect block of file [k]. *)
Definition file_block s (k c : Z) : Prop :=
  (exists i, 0 <= i < SFS_MAXBLOCKS /\ slot (sec s) (inode_of s k) i = c /\ c <> 0) \/ (sfi_indirect (inode_of s k) = c /\ c <> 0).

(** Neither the free map nor the blocks of file [k] changed. *)
Record same_blocks (k : Z) s s' : Prop := mk_same_blocks {
  sb_freemap : sfs_freemap s' = sfs_freemap s;
  sb_blocks : forall c, file_block s' k c <-> file_block s k c
}.

Lemma same_blocks_intro k s s' : sfs_freemap s' = sfs_freemap s -> sfi_direct (inode_of s' k) = sfi_direct (inode_of s k) ->
  sfi_indirect (inode_of s' k) = sfi_indirect (inode_of s k) ->
  (sfi_indirect (inode_of s k) <> 0 -> sec s' (sfi_indirect (inode_of s k)) = sec s (sfi_indirect (inode_of s k))) -> same_blocks k s s'.
Proof.
  intros Em Ed Ei Hs. split; [done|]. assert (forall i, slot (sec s') (inode_of s' k) i = slot (sec s) (inode_of s k) i) as E.
  { intros i. rewrite <- (slot_frame (sec s) (sec s')) by done. unfold slot. by rewrite Ed, Ei. }
  intros c. unfold file_block. setoid_rewrite E. by rewrite Ei.
Qed.

Lemma same_blocks_trans k s1 s2 s3 : same_blocks k s1 s2 -> same_blocks k s2 s3 -> same_blocks k s1 s3.
Proof. intros [E1 H1] [E2 H2]. split; [congruence|]. intros c. by rewrite H2, H1. Qed.

(** What only reads the disk keeps the directory. *)
Lemma is_dir_same s s' d L : is_dir s d L -> sfs_vnodes s' !! d = sfs_vnodes s !! d -> (forall c, sec s' c = sec s c) -> is_dir s' d L.
Proof.
  clear inode_addr tsd sd meta. intros [(w & Hw & Ht & Hs & ->) Hm Hd] E Hsec. constructor; [|done|done]. exists w. rewrite E. split_and!; [done|done|done|].
  symmetry. by apply dirents_ext.
Qed.

(** ** The names of a volume *)

(** [e]: how far the link counts are off, in the middle of an operation. *)
Record root_off (e : Z -> Z) I v d (L : list dirent) : Prop := mk_root_off {
  ro_volume : volume_ok I v;
  ro_dir : is_dir (v_fs v) d L;
  ro_root : ino (v_fs v) d = SFS_ROOTDIR_INO;
  ro_names : forall name k, dir_map L !! name = Some k -> k ∈ I /\ sfi_type (inode_of (v_fs v) k) = SFS_TYPE_FILE;
  ro_links : forall k, k ∈ I -> k <> ino (v_fs v) d -> sfi_linkcount (inode_of (v_fs v) k) = links (dir_map L) k + e k;
  ro_tsd : meta_buffer (v_fs v) tsd DIRENTRY_SIZE;
  ro_sd : meta_buffer (v_fs v) sd DIRENTRY_SIZE
}.

Definition root_ok := root_off (fun _ => 0).

Lemma root_ext e e' I v d L : (forall k, e k = e' k) -> root_off e I v d L -> root_off e' I v d L.
Proof. intros E []. constructor; try done. intros k. rewrite <- E. auto. Qed.

Lemma root_vnode e I v d L : root_off e I v d L -> exists w, sfs_vnodes (v_fs v) !! d = Some w /\ sfi_type (sv_i w) = SFS_TYPE_DIR /\
  sv_ino w = ino (v_fs v) d /\ sv_ino w ∈ I /\ inode_of (v_fs v) (sv_ino w) = sv_i w.
Proof.
  intros Hr. destruct (id_entries _ _ _ (ro_dir _ _ _ _ _ Hr)) as (w & Hw & Ht & _). exists w. split_and!; [done|done|symmetry; by apply ino_vnode| |].
  - by eapply (vn_inos _ _ (vo_vnodes _ _ _ _ (ro_volume _ _ _ _ _ Hr))).
  - exact (inode_loaded I _ d w (vo_vnodes _ _ _ _ (ro_volume _ _ _ _ _ Hr)) Hw).
Qed.

(** A name is never that of the directory. *)
Lemma name_not_root e I v d L name k : root_off e I v d L -> dir_map L !! name = Some k -> k <> ino (v_fs v) d.
Proof.
  intros Hr Hn E. destruct (root_vnode e I v d L Hr) as (w & _ & Ht & Ei & _ & En). destruct (ro_names _ _ _ _ _ Hr name k Hn) as [_ Hf].
  rewrite E, <- Ei, En, Ht in Hf. done.
Qed.

Lemma name_number e I v d L name k : root_off e I v d L -> dir_map L !! name = Some k -> k <> SFS_NOINO.
Proof. intros Hr Hn. apply (vo_meta _ _ _ _ (ro_volume _ _ _ _ _ Hr)). by apply (ro_names _ _ _ _ _ Hr name). Qed.

(** The link counts do not wrap around. *)
Lemma root_links_small e I v d L k : root_off e I v d L -> links (dir_map L) k < 2^15.
Proof.
  intros Hr. pose proof (links_size (dir_map L) k). pose proof (dir_map_size L). pose proof (id_size _ _ _ (ro_dir _ _ _ _ _ Hr)).
  unfold DIRENTRY_SIZE, SFS_MAXSIZE, SFS_BLOCKSIZE, SFS_MAXBLOCKS, SFS_NDIRECT, SFS_DBPERIDB in *. lia.
Qed.

(** The steps of an operation that touch neither the names nor the files. *)
Record calm e I d L v v' : Prop := mk_calm {
  ca_root : root_off e I v' d L;
  ca_quiet : quiet (.∈ I) (v_fs v) (v_fs v');
  ca_frame : frame (v_fs v) (v_fs v');
  ca_freemap : sfs_freemap (v_fs v') = sfs_freemap (v_fs v);
  ca_sectors : forall c, sec (v_fs v') c = sec (v_fs v) c;
  ca_vnodes : forall y u, sfs_vnodes (v_fs v) !! y = Some u -> sfs_vnodes (v_fs v') !! y = Some u
}.

Lemma calm_intro e I d L v v' : root_off e I v d L -> volume_ok I v' -> quiet (.∈ I) (v_fs v) (v_fs v') -> frame (v_fs v) (v_fs v') ->
  sfs_freemap (v_fs v') = sfs_freemap (v_fs v) -> (forall c, sec (v_fs v') c = sec (v_fs v) c) ->
  (forall y u, sfs_vnodes (v_fs v) !! y = Some u -> sfs_vnodes (v_fs v') !! y = Some u) -> calm e I d L v v'.
Proof.
  intros Hr Hv' Hq Hf Hm Hs Hvn. destruct (root_vnode e I v d L Hr) as (w & Hw & _ & Ei & _). constructor; try done.
  assert (ino (v_fs v') d = ino (v_fs v) d) as Ed by (rewrite <- Ei; apply ino_vnode; by apply Hvn).
  destruct Hr as [R1 R2 R0 R3 R4 R5 R6]. constructor; [done| |by rewrite Ed| | |by eapply meta_buffer_frame|by eapply meta_buffer_frame].
  - eapply is_dir_same; [exact R2|rewrite Hw; by apply Hvn|done].
  - intros name k Hn. destruct (R3 name k Hn) as [Hk Ht]. split; [done|]. by rewrite (proj1 (Hq k Hk)).
  - intros k Hk Hne. rewrite (proj1 (Hq k Hk)). apply R4; [done|]. by rewrite <- Ed.
Qed.

(** ** Steps *)

Lemma file_byte_ext f g n p : 0 <= p < SFS_MAXSIZE -> (forall c, g c = f c) -> file_byte g n p = file_byte f n p.
Proof.
  clear inode_addr tsd sd meta. intros Hp E. apply file_byte_blocks; [done|]. intros i Hi. unfold block_bytes. rewrite (slot_frame f g n i) by done. by destruct (_ =? 0).
Qed.

Lemma quiet_same s s' : (forall k, in_core s' k = in_core s k) -> (forall c, sec s' c = sec s c) -> quiet (fun _ => True) s s'.
Proof. intros Ec Es k _. split; [by apply inode_of_core|]. intros p Hp. by apply file_byte_ext. Qed.

Lemma refs_same v v' y : sfs_vnodes (v_fs v') = sfs_vnodes (v_fs v) -> v_ref v' = v_ref v -> refs v' y = refs v y.
Proof. clear inode_addr tsd sd meta. unfold refs. by intros -> ->. Qed.

(** Looking up a name. *)
Lemma find_run e I v d L name : root_off e I v d L -> 0 < vfs_biglock_depth (v_fs v) -> is_name name ->
  exists r h s', on_fs (sfs_dir_findname tsd d name) v = inr ((r, h), set_fs s' v) /\ calm e I d L v (set_fs s' v) /\ sfs_vnodes s' = sfs_vnodes (v_fs v) /\
    match dir_map L !! name with
    | Some k => r = 0 /\ h_ino h = Some k /\ exists j, h_slot h = Some (Z.of_nat j) /\ L !! j = Some (k, name)
    | None => r = ENOENT /\ h_ino h = None
    end.
Proof.
  intros Hr Hd Hn. pose proof (ro_volume _ _ _ _ _ Hr) as Hv. pose proof (volume_fs_ok _ _ I v Hv Hd) as Hok.
  destruct (dir_find _ tsd (v_fs v) d L name Hok (ro_dir _ _ _ _ _ Hr) (ro_tsd _ _ _ _ _ Hr) Hn) as (r & h & s' & Hrun & Hlk & Hdir & Hres).
  exists r, h, s'. split; [by apply run_fs|]. destruct Hlk as [K1 K2 (K3 & K4 & K5) _].
  destruct (volume_step inode_addr meta I v d s' Hv K1 K2) as [Hv' _]; [by intros b _|by eapply findname_keeps|].
  split; [|done]. apply calm_intro; [done|done| |done|done|done|cbn; by rewrite K3].
  apply (quiet_less (fun _ => True)); [done|]. apply quiet_same; [|done]. intros k. unfold in_core. cbn. by rewrite K3.
Qed.

Lemma calm_refl e I d L v : root_off e I v d L -> calm e I d L v v.
Proof. intros Hr. by constructor. Qed.

Lemma calm_trans e I d L v1 v2 v3 : calm e I d L v1 v2 -> calm e I d L v2 v3 -> calm e I d L v1 v3.
Proof.
  intros [A1 A2 A3 A4 A5 A6] [B1 B2 B3 B4 B5 B6]. constructor; [done|by eapply quiet_trans|by eapply frame_trans|congruence|congruence|auto].
Qed.

Lemma calm_blocks e I d L v v' k : k ∈ I -> calm e I d L v v' -> same_blocks k (v_fs v) (v_fs v').
Proof. intros Hk [_ Hq _ Hm Hs _]. destruct (Hq k Hk) as [E _]. apply same_blocks_intro; [done|by rewrite E|by rewrite E|done]. Qed.

Lemma loaded_calm e I d L k v x v' : root_off e I v d L -> loaded inode_addr meta I k v x v' -> calm e I d L v v'.
Proof.
  intros Hr [L1 L2 L3 (w & L4 & L5 & L6 & L7) L8]. apply calm_intro; [done|done| |apply L2|apply L2|apply L2|].
  - apply quiet_files; [done|]. apply same_files_ext. apply L2.
  - intros y u Hu. rewrite L4. destruct (decide (y = x)) as [->|Hne]; [rewrite lookup_insert_eq; destruct L7; congruence|by rewrite lookup_insert_ne].
Qed.

Lemma not_loaded_calm e I d L v v' : root_off e I v d L -> not_loaded inode_addr meta I v v' -> calm e I d L v v'.
Proof.
  intros Hr [L1 L2 L3 L4]. apply calm_intro; [done|done| |apply L2|apply L2|apply L2|by rewrite L3].
  apply (quiet_less (fun _ => True)); [done|]. apply quiet_same; [|apply L2]. intros k. unfold in_core. by rewrite L3.
Qed.

Lemma lookonce_run I v d L name : root_ok I v d L -> 0 < vfs_biglock_depth (v_fs v) -> is_name name ->
  exists r o sl v', sfs_lookonce inode_addr tsd d name v = inr ((r, o, sl), v') /\ calm (fun _ => 0) I d L v v' /\
    match dir_map L !! name with
    | None => r = ENOENT /\ forall y, refs v' y = refs v y
    | Some k =>
        (r = 0 /\ exists x w j, o = Some x /\ sl = Some (Z.of_nat j) /\ L !! j = Some (k, name) /\
           sfs_vnodes (v_fs v') !! x = Some w /\ sv_ino w = k /\ forall y, refs v' y = refs v y + if decide (y = x) then 1 else 0) \/
        (r = ENOMEM /\ false ∈ v_memory v /\ forall y, refs v' y = refs v y)
    end.
Proof.
  intros Hr Hd Hn. destruct (find_run _ I v d L name Hr Hd Hn) as (r & h & s1 & Hrun & Hc1 & Evn & Hres).
  unfold sfs_lookonce. rewrite (srun_call _ _ _ _ _ Hrun). set (v1 := set_fs s1 v) in *. pose proof (ca_root _ _ _ _ _ _ Hc1) as Hr1.
  assert (forall y, refs v1 y = refs v y) as Href1 by (intros y; by apply refs_same).
  destruct (dir_map L !! name) as [k|] eqn:E.
  2: { destruct Hres as [-> _]. change (ENOENT =? 0) with false. cbn [negb]. by eexists _, _, _, v1. }
  destruct Hres as (-> & Hino & j & Hsl & Hj). cbn [negb Z.eqb]. rewrite (srun_deref _ _ k) by done.
  destruct (ro_names _ _ _ _ _ Hr1 name k E) as [Hk Ht].
  assert (0 < vfs_biglock_depth (v_fs v1)) as Hd1 by (rewrite (fr_depth _ _ (ca_frame _ _ _ _ _ _ Hc1)); done).
  destruct (loadvnode_run inode_addr meta I v1 k (ro_volume _ _ _ _ _ Hr1) Hd1 Hk) as (r & o & v2 & Hload & Hor). rewrite (srun_call _ _ _ _ _ Hload). cbn [fst snd].
  destruct Hor as [(-> & x & -> & Hld)|(-> & -> & Hm & Hnl)]; cbn [negb Z.eqb ENOMEM].
  - pose proof (loaded_calm _ I d L k v1 x v2 Hr1 Hld) as Hc2. destruct Hld as [_ _ _ (w & L4 & L5 & L6 & _) L8].
    assert (sfs_vnodes (v_fs v2) !! x = Some w) as Hw by (rewrite L4; apply lookup_insert_eq).
    unfold handed. rewrite (srun_deref _ _ x) by done. rewrite (get_vnode v2 x w) by done.
    assert (sfi_linkcount (sv_i w) <> 0) as Hlc.
    { rewrite L6, (ro_links _ _ _ _ _ Hr1 k Hk (name_not_root _ _ _ _ _ name k Hr1 E)). pose proof (links_pos (dir_map L) name k E). lia. }
    rewrite (proj2 (Z.eqb_neq _ 0) Hlc). eexists _, _, _, v2. split; [reflexivity|]. split; [by eapply calm_trans|]. left. split; [done|].
    exists x, w, j. split_and!; try done. intros y. by rewrite L8, Href1.
  - eexists _, _, _, v2. split; [reflexivity|]. split; [eapply calm_trans; [exact Hc1|by apply not_loaded_calm]|]. right.
    split_and!; [done|done|]. intros y. by rewrite (nl_refs _ _ _ _ _ Hnl), Href1.
Qed.

(** ** Updates of the directory *)

Definition at_key (k δ : Z) (j : Z) : Z := if decide (j = k) then δ else 0.

Record updated (e : Z -> Z) I d L v v' : Prop := mk_updated {
  ud_root : root_off e I v' d L;
  ud_quiet : quiet (fun j => j ∈ I /\ j <> ino (v_fs v) d) (v_fs v) (v_fs v');
  ud_ino : ino (v_fs v') d = ino (v_fs v) d;
  ud_frame : frame (v_fs v) (v_fs v');
  ud_vnodes : forall y, y <> d -> sfs_vnodes (v_fs v') !! y = sfs_vnodes (v_fs v) !! y;
  ud_memory : v_memory v' = v_memory v;
  ud_refs : forall y, refs v' y = refs v y
}.

Lemma updated_intro e e' I v d L L' s' : root_off e I v d L -> dir_step (others I (v_fs v)) tsd sd d (v_fs v) s' -> kept d (v_fs v) s' -> is_dir s' d L' ->
  (forall name k, dir_map L' !! name = Some k -> k ∈ I /\ k <> ino (v_fs v) d /\ sfi_type (inode_of (v_fs v) k) = SFS_TYPE_FILE) ->
  (forall k, links (dir_map L') k + e' k = links (dir_map L) k + e k) -> updated e' I d L' v (set_fs s' v).
Proof.
  intros Hr [S1 S2 S3 S4 S5] Hk Hdir Hnames Hlinks. destruct (root_vnode e I v d L Hr) as (w & Hw & Ht & Ei & HwI & En).
  pose proof (ro_volume _ _ _ _ _ Hr) as Hv. destruct (volume_step inode_addr meta I v d s' Hv S1 S2 S5 Hk) as [Hv' Hbs].
  destruct (files_beside meta I (v_fs v) s' d w (vo_vnodes _ _ _ _ Hv) Hbs Hw) as [Hf Hs].
  { intros y Hy. split; [unfold inodes; by rewrite !lookup_fmap, (kp_others _ _ _ Hk y Hy)|]. intros m p Hm Hp.
    apply inodes_vnode in Hm as (u & Hu & ->). by apply (S4 y u Hy Hu). }
  rewrite Ei in *. pose proof (quiet_part I _ _ _ Hf Hs) as Hq.
  assert (ino s' d = ino (v_fs v) d) as Ed by (unfold ino; by rewrite (kept_numbers d (v_fs v) s' d Hk)).
  constructor; [|done|done|done|apply Hk|done|].
  - constructor; [done|done|cbn; rewrite Ed; apply Hr| | |eapply meta_buffer_frame; [apply Hr|done]|eapply meta_buffer_frame; [apply Hr|done]]; cbn.
    + intros name k Hn. destruct (Hnames name k Hn) as (HkI & Hne & Hty). split; [done|]. by rewrite (proj1 (Hq k (conj HkI Hne))).
    + rewrite Ed. intros k HkI Hne. rewrite (proj1 (Hq k (conj HkI Hne))), (ro_links _ _ _ _ _ Hr k HkI Hne). symmetry. apply Hlinks.
  - intros y. unfold refs. cbn. pose proof (kept_numbers d (v_fs v) s' y Hk) as E. by destruct (sfs_vnodes s' !! y), (sfs_vnodes (v_fs v) !! y).
Qed.

(** Why a name cannot be entered. *)
Definition link_error v d L (name : list Z) (r : Z) : Prop :=
  match dir_map L !! name with
  | Some _ => r = EEXIST
  | None => if decide (SFS_NAMELEN <= zlen name) then r = ENAMETOOLONG
            else (r = ENOSPC /\ forall c, 0 <= c < sb_nblocks (v_fs v) -> marked (v_fs v) c) \/ (r = EFBIG /\ DIRENTRY_SIZE * zlen L = SFS_MAXSIZE)
  end.

Lemma link_run e I v d L name k : root_off e I v d L -> 0 < vfs_biglock_depth (v_fs v) -> is_name name ->
  k ∈ I -> k <> ino (v_fs v) d -> sfi_type (inode_of (v_fs v) k) = SFS_TYPE_FILE ->
  exists r o v', on_fs (sfs_dir_link tsd sd d name k) v = inr ((r, o), v') /\
    ((r = 0 /\ dir_map L !! name = None /\ exists L', dir_map L' = <[name := k]> (dir_map L) /\ stay_put L L' /\
        updated (fun j => e j - at_key k 1 j) I d L' v v') \/
     (r <> 0 /\ link_error v' d L name r /\ updated e I d L v v')).
Proof.
  intros Hr Hd Hn HkI Hne Hty. pose proof (ro_volume _ _ _ _ _ Hr) as Hv. pose proof (volume_fs_ok _ _ I v Hv Hd) as Hok.
  assert (is_u32 k) as Hu by (pose proof (small_marked _ k (vo_fs _ _ _ _ Hv) (volume_in_use _ _ I v k Hv HkI)); unfold is_u32; lia).
  destruct (dir_link _ tsd sd (v_fs v) d L name k Hok (ro_dir _ _ _ _ _ Hr) (ro_tsd _ _ _ _ _ Hr) (ro_sd _ _ _ _ _ Hr) Hn Hu) as (r & o & s' & Hrun & Hst & Hres);
    [apply (vo_meta _ _ _ _ Hv k HkI)|].
  exists r, o, (set_fs s' v). split; [by apply run_fs|]. pose proof (link_keeps tsd sd d name k _ _ _ Hrun) as Hk.
  assert (forall nm j, dir_map L !! nm = Some j -> j ∈ I /\ j <> ino (v_fs v) d /\ sfi_type (inode_of (v_fs v) j) = SFS_TYPE_FILE) as Hold.
  { intros nm j Hj. destruct (ro_names _ _ _ _ _ Hr nm j Hj) as [H1 H2]. split_and!; [done|by eapply name_not_root|done]. }
  assert (is_dir s' d L -> updated e I d L v (set_fs s' v)) as Hsame by (intros Hdir; by apply (updated_intro e e I v d L L s')).
  unfold link_result in Hres. unfold link_error. destruct (dir_map L !! name) as [old|] eqn:E; [right; destruct Hres as [-> Hdir]; split_and!; [done|done|by apply Hsame]|].
  case_decide; [right; destruct Hres as [-> Hdir]; split_and!; [done|done|by apply Hsame]|].
  destruct Hres as [(-> & L' & Hdir & Hmap & Hput)|[Hdir Hwhy]].
  2: { right. split_and!; [destruct Hwhy as [[-> _]|[-> _]]; done|exact Hwhy|by apply Hsame]. }
  left. split_and!; [done|done|]. exists L'. split_and!; [done|done|]. apply (updated_intro e _ I v d L L' s'); [done|done|done|done| |].
  - intros nm j. rewrite Hmap. destruct (decide (nm = name)) as [->|Hnm]; [rewrite lookup_insert_eq; by intros [= <-]|]. rewrite lookup_insert_ne by done. apply Hold.
  - intros j. rewrite Hmap, links_insert by done. unfold at_key. lia.
Qed.

Lemma unlink_run e I v d L j k name : root_off e I v d L -> 0 < vfs_biglock_depth (v_fs v) -> L !! j = Some (k, name) -> live (k, name) ->
  exists v' L', on_fs (sfs_dir_unlink sd d (Z.of_nat j)) v = inr (0, v') /\ dir_map L !! name = Some k /\ dir_map L' = delete name (dir_map L) /\
    updated (fun i => e i + at_key k 1 i) I d L' v v' /\ forall x w, x <> d -> sfs_vnodes (v_fs v) !! x = Some w -> same_blocks (sv_ino w) (v_fs v) (v_fs v').
Proof.
  intros Hr Hd Hj Hk0. pose proof (ro_volume _ _ _ _ _ Hr) as Hv. pose proof (volume_fs_ok _ _ I v Hv Hd) as Hok. pose proof (ro_dir _ _ _ _ _ Hr) as Hdir.
  destruct (dir_unlink _ tsd sd (v_fs v) d L j k name Hok Hdir (ro_sd _ _ _ _ _ Hr) Hj Hk0) as (s' & L' & Hrun & Hst & Hdir' & _ & Hmap).
  assert (dir_map L !! name = Some k) as Hn by (apply dir_map_lookup; [apply Hdir|]; split; [exact Hk0|by exists j]).
  exists (set_fs s' v), L'. split; [by apply run_fs|]. split; [done|]. split; [done|].
  assert (updated (fun i => e i + at_key k 1 i) I d L' v (set_fs s' v)) as Hup.
  { apply (updated_intro e _ I v d L L' s'); [done|done|by eapply unlink_keeps|done| |].
    - intros nm i. rewrite Hmap. intros [_ Hi]%lookup_delete_Some. destruct (ro_names _ _ _ _ _ Hr nm i Hi) as [H1 H2]. split_and!; [done|by eapply name_not_root|done].
    - intros i. rewrite Hmap, (links_delete _ _ k) by done. unfold at_key. lia. }
  split; [done|]. intros x w Hx Hw. destruct (id_entries _ _ _ Hdir) as (wd & Hwd & _).
  destruct (unlink_only _ sd (v_fs v) d wd L j k name 0 s' Hok Hdir (ro_sd _ _ _ _ _ Hr) Hj Hk0 Hwd Hrun) as (i & Hi & Hs0 & Hm & Hsec).
  pose proof (vo_vnodes _ _ _ _ Hv) as Hvn. pose proof (inode_loaded I (v_fs v) x w Hvn Hw) as Hin.
  assert (inode_of s' (sv_ino w) = sv_i w) as Hin'.
  { apply (inode_loaded I s' x w); [apply (vo_vnodes _ _ _ _ (ro_volume _ _ _ _ _ (ud_root _ _ _ _ _ _ Hup)))|].
    pose proof (ud_vnodes _ _ _ _ _ _ Hup x Hx) as E. exact (eq_trans E Hw). }
  apply same_blocks_intro; cbn; [exact Hm|by rewrite Hin', Hin|by rewrite Hin', Hin|]. rewrite Hin. intros Hi0. apply Hsec. intros E.
  assert (KInd x = KSlot d i) as [=]. apply (bo_unique _ _ _ _ (so_blocks _ _ Hok) _ _ (sfi_indirect (sv_i w))).
  - exists (sv_i w). split; [by apply inodes_lookup|done].
  - exists (sv_i wd). split_and!; [by apply inodes_lookup|lia|lia|done|done].
Qed.

(** ** Link counts *)

(** The link count of file [k], vnode [y], changed by [δ]. *)
Record counted (e : Z -> Z) I d L (y : positive) (k c : Z) v v' : Prop := mk_counted {
  cn_root : root_off e I v' d L;
  cn_quiet : quiet (fun j => j ∈ I /\ j <> k) (v_fs v) (v_fs v');
  cn_inode : inode_of (v_fs v') k = set_linkcount c (inode_of (v_fs v) k);
  cn_sectors : forall b, sec (v_fs v') b = sec (v_fs v) b;
  cn_ino : ino (v_fs v') d = ino (v_fs v) d;
  cn_frame : frame (v_fs v) (v_fs v') /\ sfs_freemap (v_fs v') = sfs_freemap (v_fs v);
  cn_vnode : exists w, sfs_vnodes (v_fs v') !! y = Some w /\ sv_ino w = k /\ sfi_linkcount (sv_i w) = c;
  cn_vnodes : forall x, x <> y -> sfs_vnodes (v_fs v') !! x = sfs_vnodes (v_fs v) !! x;
  cn_memory : v_memory v' = v_memory v;
  cn_refs : forall x, refs v' x = refs v x
}.

Lemma count_run e I v d L y w f c : root_off e I v d L -> 0 < vfs_biglock_depth (v_fs v) -> sfs_vnodes (v_fs v) !! y = Some w -> y <> d ->
  f (sv_i w) = set_linkcount c (sv_i w) -> is_u16 c ->
  exists v', on_fs (put_inode y f) v = inr (tt, v') /\
    counted (fun j => e j + at_key (sv_ino w) (c - sfi_linkcount (sv_i w)) j) I d L y (sv_ino w) c v v'.
Proof.
  intros Hr Hd Hw Hyd Hf Hc. set (k := sv_ino w). set (s := v_fs v) in *. exists (set_fs (put y f w s) v). split; [by apply run_fs, put_inode_run|].
  pose proof (ro_volume _ _ _ _ _ Hr) as Hv. pose proof (vo_vnodes _ _ _ _ Hv) as Hvn. pose proof (volume_fs_ok _ _ I v Hv Hd) as Hok.
  destruct (ok_put_same _ s y w f Hok Hw) as [Hok' Hfr]; [by rewrite Hf|]. set (s' := put y f w s) in *.
  assert (sfs_vnodes s' !! y = Some (mk_sfs_vnode (set_linkcount c (sv_i w)) k true)) as Hw' by (rewrite <- Hf; apply lookup_insert_eq).
  assert (forall x, x <> y -> sfs_vnodes s' !! x = sfs_vnodes s !! x) as Hne by (intros x Hx; by apply lookup_insert_ne).
  assert (beside I s s') as Hbs.
  { constructor; [|done]. intros x. destruct (decide (x = y)) as [->|Hx]; [by rewrite Hw', Hw|by rewrite Hne]. }
  assert (volume_ok I (set_fs s' v)) as Hv'.
  { apply volume_follow; [done|done|done|done|]. intros x u Hu. destruct (decide (x = y)) as [->|Hx]; [|rewrite Hne in Hu by done; exists u; split_and!; auto].
    rewrite Hw' in Hu. injection Hu as <-. exists w. split_and!; [done| |by right]. intros [H1 H2 H3 H4]. by constructor. }
  pose proof (beside_vnodes _ _ _ _ Hbs Hvn) as Hvn'. pose proof (inode_loaded I s y w Hvn Hw) as Hin. fold k in Hin.
  assert (inode_of s' k = set_linkcount c (inode_of s k)) as Hin' by (rewrite Hin; exact (inode_loaded I s' y _ Hvn' Hw')).
  assert (forall j, j <> k -> inode_of s' j = inode_of s j) as Hother.
  { intros j Hj. apply inode_of_core; [|done]. apply option_eq. intros u. rewrite (in_core_iff I s'), (in_core_iff I s) by done.
    split; intros (x & Hx & <-); exists x; (split; [|done]); (destruct (decide (x = y)) as [->|Hxy]; [|by rewrite Hne in * by done]).
    - rewrite Hw' in Hx. by injection Hx as <-.
    - assert (u = w) as -> by congruence. done. }
  destruct (root_vnode e I v d L Hr) as (wd & Hwd & Ht & Ei & HwI & En). fold s in Hwd, Ei, En.
  assert (ino s' d = ino s d) as Ed by (unfold ino; by rewrite Hne).
  assert (k <> ino s d) as Hkd by (rewrite <- Ei; intros Ek; apply Hyd; by eapply (vn_once _ _ Hvn)).
  assert (quiet (fun j => j ∈ I /\ j <> k) s s') as Hq by (intros j [_ Hj]; split; [by apply Hother|done]).
  constructor; [|exact Hq|exact Hin'|done|exact Ed|split; done|by eexists|exact Hne|done|].
  - destruct Hr as [R1 R2 R0 R3 R4 R5 R6]. constructor; [done| |cbn; fold s'; by rewrite Ed| | |by eapply meta_buffer_frame|by eapply meta_buffer_frame]; cbn.
    + eapply is_dir_same; [exact R2|by apply Hne|done].
    + intros name j Hn. destruct (R3 name j Hn) as [Hj Hty]. split; [done|]. destruct (decide (j = k)) as [->|Hjk]; [by rewrite Hin'|by rewrite Hother].
    + intros j Hj Hjd. fold s' in Hjd |- *. rewrite Ed in Hjd. pose proof (R4 j Hj Hjd) as Hlc. fold s in Hlc. unfold at_key. case_decide as E.
      * subst j. rewrite Hin'. cbn. rewrite Hin in Hlc. lia.
      * rewrite Hother by done. lia.
  - intros x. change (match sfs_vnodes s' !! x with Some _ => default 0 (v_ref v !! x) | None => 0 end = match sfs_vnodes s !! x with Some _ => default 0 (v_ref v !! x) | None => 0 end).
    destruct (decide (x = y)) as [->|Hx]; [by rewrite Hw', Hw|by rewrite Hne].
Qed.

(** ** Letting go of a vnode *)

Lemma root_carry e I I' v v' d L : root_off e I v d L -> volume_ok I' v' -> (forall k, k ∈ I' -> (k ∉ I) -> sfi_linkcount (inode_of (v_fs v') k) = links (dir_map L) k + e k) ->
  quiet (fun k => k ∈ I /\ k ∈ I') (v_fs v) (v_fs v') -> sfs_vnodes (v_fs v') !! d = sfs_vnodes (v_fs v) !! d -> ino (v_fs v) d ∈ I' ->
  (forall name k, dir_map L !! name = Some k -> k ∈ I') -> frame (v_fs v) (v_fs v') -> root_off e I' v' d L.
Proof.
  intros Hr Hv' Hnew Hq Hd HdI Hnames Hfr. destruct (root_vnode e I v d L Hr) as (w & Hw & Ht & Ei & HwI & En).
  assert (ino (v_fs v') d = ino (v_fs v) d) as Ed by (unfold ino; by rewrite Hd).
  destruct Hr as [R1 [(w0 & Hw0 & T1 & T2 & T3) R2 R2'] R0 R3 R4 R5 R6]. assert (w0 = w) as -> by congruence.
  constructor; [done| |by rewrite Ed| | |by eapply meta_buffer_frame|by eapply meta_buffer_frame].
  - constructor; [|done|done]. exists w. rewrite Hd. split_and!; [done|done|done|]. rewrite T3 at 1. symmetry. apply dirents_kept; [done| |].
    + rewrite T2. unfold zlen, DIRENTRY_SIZE in *. lia.
    + intros p Hp. rewrite <- Ei in HdI. destruct (Hq _ (conj HwI HdI)) as [_ Hb]. rewrite En in Hb. by apply Hb.
  - intros name k Hn. pose proof (Hnames name k Hn) as Hk. split; [done|]. destruct (R3 name k Hn) as [HkI Hty]. by rewrite (proj1 (Hq k (conj HkI Hk))).
  - intros k Hk Hne. destruct (decide (k ∈ I)) as [HkI|HkI]; [|by apply Hnew]. rewrite (proj1 (Hq k (conj HkI Hk))). apply R4; [done|]. by rewrite <- Ed.
Qed.

Lemma root_keep e I I' v v' d L : root_off e I v d L -> volume_ok I' v' -> (forall k, k ∈ I' -> k ∈ I) -> quiet (.∈ I') (v_fs v) (v_fs v') ->
  sfs_vnodes (v_fs v') !! d = sfs_vnodes (v_fs v) !! d -> ino (v_fs v) d ∈ I' -> (forall name k, dir_map L !! name = Some k -> k ∈ I') ->
  frame (v_fs v) (v_fs v') -> root_off e I' v' d L.
Proof.
  intros Hr Hv' Hsub Hq Hd HdI Hnames Hfr. apply (root_carry e I I' v); try done; [intros k Hk []; by apply Hsub|].
  by apply (quiet_less (.∈ I')); [intros k [_ Hk]|].
Qed.

(** The inodes after a vnode of file [k] was given up: [k] is gone iff nobody
    refers to it any more. *)
Definition left_over I (k : Z) (L : list dirent) (n : Z) I' : Prop :=
  if decide (n = 1 /\ links (dir_map L) k = 0) then I' = I ∖ {[k]} else I' = I.

(** The blocks of file [k] are free again if it is gone from [I'], and the block
    of its inode is; no other block changed its state. *)
Definition freed (k : Z) v I' v' : Prop :=
  forall c, marked (v_fs v') c <-> marked (v_fs v) c /\ ~ ((k ∉ I') /\ (c = k \/ file_block (v_fs v) k c)).

Lemma freed_none k v I' v' : k ∈ I' -> frame (v_fs v) (v_fs v') -> sfs_freemap (v_fs v') = sfs_freemap (v_fs v) -> freed k v I' v'.
Proof. clear inode_addr tsd sd meta. intros Hk Hf E c. unfold marked. rewrite E, (fr_nblocks _ _ Hf). tauto. Qed.

Record let_go I d L (x : positive) (k : Z) v I' v' : Prop := mk_let_go {
  lg_root : root_ok I' v' d L;
  lg_quiet : quiet (.∈ I') (v_fs v) (v_fs v');
  lg_left : left_over I k L (refs v x) I';
  lg_frame : frame (v_fs v) (v_fs v');
  lg_vnodes : forall y, y <> x -> sfs_vnodes (v_fs v') !! y = sfs_vnodes (v_fs v) !! y;
  lg_memory : v_memory v' = v_memory v;
  lg_marked : freed k v I' v';
  lg_freemap : I' = I -> sfs_freemap (v_fs v') = sfs_freemap (v_fs v);
  lg_refs : forall y, refs v' y = refs v y - if decide (y = x) then 1 else 0
}.

Lemma refs_gone v v' x : (forall y, y <> x -> v_ref v' !! y = v_ref v !! y) -> sfs_vnodes (v_fs v') = delete x (sfs_vnodes (v_fs v)) -> refs v x = 1 ->
  forall y, refs v' y = refs v y - if decide (y = x) then 1 else 0.
Proof.
  clear inode_addr tsd sd meta. intros Hr Hv H1 y. case_decide as E.
  - subst y. rewrite H1. unfold refs. by rewrite Hv, lookup_delete_eq.
  - unfold refs. rewrite Hv, lookup_delete_ne, Hr by done. lia.
Qed.

Lemma decref_run I v d L x w : root_ok I v d L -> sfs_vnodes (v_fs v) !! x = Some w -> x <> d ->
  exists v' I', vnode_decref inode_addr x v = inr (tt, v') /\ let_go I d L x (sv_ino w) v I' v'.
Proof.
  intros Hr Hw Hxd. pose proof (ro_volume _ _ _ _ _ Hr) as Hv. destruct (vo_refs _ _ _ _ Hv x) as (n & Hn & Hpos); [by exists w|].
  assert (refs v x = n) as Hrefs by (unfold refs; by rewrite Hw, Hn). set (k := sv_ino w).
  pose proof (vo_vnodes _ _ _ _ Hv) as Hvn. pose proof (vn_inos _ _ Hvn x w Hw) as HkI. fold k in HkI.
  destruct (root_vnode _ I v d L Hr) as (wd & Hwd & Ht & Ei & HdI & En).
  assert (k <> ino (v_fs v) d) as Hkd by (rewrite <- Ei; intros E; apply Hxd; by eapply (vn_once _ _ Hvn)).
  assert (sfi_linkcount (sv_i w) = links (dir_map L) k) as Hlc.
  { rewrite <- (inode_loaded I (v_fs v) x w) by done. fold k. rewrite (ro_links _ _ _ _ _ Hr k HkI Hkd). lia. }
  pose proof (inode_loaded I (v_fs v) x w Hvn Hw) as Hin. fold k in Hin.
  unfold vnode_decref. rewrite (get_ref_run x n) by done. rewrite srun_assert by (by apply Z.ltb_lt).
  destruct (Z.ltb_spec 1 n) as [Hgt|Hle].
  - eexists _, I. split; [reflexivity|]. assert (volume_ok I (set_ref (<[x := n - 1]> (v_ref v)) v)) as Hv'.
    { destruct Hv. constructor; try assumption. intros y Hy. cbn. destruct (decide (y = x)) as [->|Hne]; [|rewrite lookup_insert_ne by done; by apply vo_refs].
      exists (n - 1). rewrite lookup_insert_eq. split; [done|lia]. }
    constructor; [|apply quiet_refl| |done|done|done|by apply freed_none|done|].
    + eapply (root_keep _ I I v); [exact Hr|exact Hv'|done|apply quiet_refl|done|by rewrite <- Ei| |done]. intros nm j Hj. by apply (ro_names _ _ _ _ _ Hr nm).
    + unfold left_over. rewrite decide_False; [done|]. lia.
    + intros y. unfold refs. cbn. case_decide as E; [subst y; rewrite lookup_insert_eq, Hw, Hn; cbn; lia|]. rewrite lookup_insert_ne by done. lia.
  - assert (n = 1) as -> by lia. destruct (decide (links (dir_map L) k = 0)) as [E0|Hne0].
    + destruct (sfs_reclaim_erased inode_addr meta I v x w Hv Hw Hn) as (v' & Hrun & [E1 E2 E3 [E4 E5] E6 E7 E8]); [by rewrite Hlc|]. fold k in E1, E4, E5.
      exists v', (I ∖ {[k]}). split; [by rewrite (srun_call _ _ _ _ _ Hrun)|].
      assert (quiet (.∈ I ∖ {[k]}) (v_fs v) (v_fs v')) as Hq.
      { intros j Hj. pose proof Hj as [HjI Hne%not_elem_of_singleton]%elem_of_difference.
        assert (delete k (files I (v_fs v)) !! j = Some (inode_of (v_fs v) j)) as Hf by (rewrite lookup_delete_ne by done; by apply lookup_files).
        specialize (E5 j). rewrite Hf in E5. split; [|apply E5]. rewrite <- E4 in Hf. by apply lookup_files in Hf as [_ ->]. }
      constructor; [|exact Hq| |done|intros y Hy; by rewrite E2, lookup_delete_ne|done|intros c; rewrite E6; unfold file_block; rewrite Hin; assert (k ∉ I ∖ {[k]}) as Hgone by set_solver; tauto|intros EI; rewrite <- EI in HkI; apply elem_of_difference in HkI as [_ []]; by apply elem_of_singleton|by apply refs_gone].
      * apply (root_keep _ I (I ∖ {[k]}) v); [done|done|by intros j [Hj _]%elem_of_difference|done|by rewrite E2, lookup_delete_ne| | |done].
        -- apply elem_of_difference. split; [by rewrite <- Ei|]. by apply not_elem_of_singleton.
        -- intros nm j Hj. apply elem_of_difference. split; [by apply (ro_names _ _ _ _ _ Hr nm)|]. apply not_elem_of_singleton. intros ->.
           pose proof (links_pos (dir_map L) nm k Hj). lia.
      * unfold left_over. rewrite decide_True; [done|]. by rewrite Hrefs.
    + destruct (sfs_reclaim_kept inode_addr meta I v x w Hv Hw Hn) as (v' & Hrun & [E1 E2 [E3 Em] [E4 E5] E6 E7]); [by rewrite Hlc|].
      exists v', I. split; [by rewrite (srun_call _ _ _ _ _ Hrun)|]. pose proof (quiet_files I _ _ E4 E5) as Hq.
      constructor; [|exact Hq| |done|intros y Hy; by rewrite E2, lookup_delete_ne|done|by apply freed_none|done|by apply refs_gone].
      * apply (root_keep _ I I v); [done|done|done|done|by rewrite E2, lookup_delete_ne|by rewrite <- Ei| |done]. intros nm j Hj. by apply (ro_names _ _ _ _ _ Hr nm).
      * unfold left_over. rewrite decide_False; [done|]. tauto.
Qed.
End names.
