(* ===== verification/SfsNamespace.v ===== *)
(** * SFS: creating, linking, removing and renaming files

    The operations of [SfsVnops] on names are updates of the map from names to
    inode numbers; a file is erased exactly when it has no name and no vnode
    any more. *)

From S2P Require Import Prelude State Monad StopState Bitmap Array Uio Device Sfs SfsSpec SfsBlock SfsBmap SfsRead SfsIo SfsWrite SfsTrunc SfsMeta SfsKeeps SfsDir SfsDirSpec SfsDirMap SfsInode SfsVolume SfsInodeRun SfsReclaim SfsVnops SfsNames.

#[local] Open Scope Z_scope.
#[local] Open Scope sm_scope.

Section namespace.
Context {D : Type} {DV : Device D} {BD : BlockDevice D} {LY : Layout}.
Context (inode_addr : positive -> Z) (tsd sd : Z) (meta : Z -> Prop).

Notation volume := (volume (D := D)).
Notation SS := (sfs_fs D).
Notation volume_ok := (volume_ok inode_addr meta).
Notation root_off := (root_off inode_addr tsd sd meta).
Notation root_ok := (root_ok inode_addr tsd sd meta).
Notation calm := (calm inode_addr tsd sd meta (fun _ => 0)).
Notation updated := (updated inode_addr tsd sd meta).
Implicit Types (s : SS) (I : gset Z) (v : volume) (d : positive).

(** The files [J] have the same type, size and bytes. *)
Definition data_kept (J : Z -> Prop) s s' : Prop := forall k, J k ->
  sfi_type (inode_of s' k) = sfi_type (inode_of s k) /\ sfi_size (inode_of s' k) = sfi_size (inode_of s k) /\
  forall p, 0 <= p < SFS_MAXSIZE -> file_byte (sec s') (inode_of s' k) p = file_byte (sec s) (inode_of s k) p.

Lemma quiet_data J s s' : quiet J s s' -> data_kept J s s'.
Proof. clear inode_addr tsd sd meta. intros H k Hk. destruct (H k Hk) as [E Hb]. rewrite E. by split_and!. Qed.

Lemma data_trans J s1 s2 s3 : data_kept J s1 s2 -> data_kept J s2 s3 -> data_kept J s1 s3.
Proof.
  clear inode_addr tsd sd meta. intros H1 H2 k Hk. destruct (H1 k Hk) as (A1 & A2 & A3), (H2 k Hk) as (B1 & B2 & B3). split_and!; [congruence|congruence|].
  intros p Hp. by rewrite B3, A3.
Qed.

Lemma data_less (J J' : Z -> Prop) s s' : (forall k, J' k -> J k) -> data_kept J s s' -> data_kept J' s s'.
Proof. clear inode_addr tsd sd meta. intros HJ H k Hk. by apply H, HJ. Qed.

Lemma counted_data e I d L y k c v v' : counted inode_addr tsd sd meta e I d L y k c v v' -> data_kept (.∈ I) (v_fs v) (v_fs v').
Proof.
  intros Hc j Hj. destruct (decide (j = k)) as [->|Hne].
  - rewrite (cn_inode _ _ _ _ _ _ _ _ _ _ _ _ _ Hc). split_and!; [done|done|]. intros p Hp. transitivity (file_byte (sec (v_fs v)) (set_linkcount c (inode_of (v_fs v) k)) p).
    + apply file_byte_ext; [done|]. apply (cn_sectors _ _ _ _ _ _ _ _ _ _ _ _ _ Hc).
    + apply file_byte_blocks; [done|]. intros i _. by rewrite (slot_same_blocks (sec (v_fs v)) (inode_of (v_fs v) k) (set_linkcount c (inode_of (v_fs v) k)) i).
  - exact (quiet_data _ _ _ (cn_quiet _ _ _ _ _ _ _ _ _ _ _ _ _ Hc) j (conj Hj Hne)).
Qed.

(** ** The lock *)

Lemma root_depth e I v d L a : root_off e I v d L -> 0 <= a -> root_off e I (set_fs (set_depth a (v_fs v)) v) d L.
Proof.
  intros [R1 [R2 R2' R2''] R0 R3 R4 [R5 R5'] [R6 R6']] Ha. constructor; [by apply volume_depth|by constructor|done|done|done|by constructor|by constructor].
Qed.

(** [v] with the lock held once more. *)
Definition locked v : volume := set_fs (set_depth (vfs_biglock_depth (v_fs v) + 1) (v_fs v)) v.
Definition unlocked v : volume := set_fs (set_depth (vfs_biglock_depth (v_fs v) - 1) (v_fs v)) v.

Lemma locked_root e I v d L : root_off e I v d L -> root_off e I (locked v) d L /\ 0 < vfs_biglock_depth (v_fs (locked v)).
Proof. intros Hr. pose proof (vo_depth _ _ _ _ (ro_volume _ _ _ _ _ _ _ _ _ Hr)). split; [apply root_depth; [done|lia]|cbn; lia]. Qed.

Lemma unlock_run {B} v (f : unit -> SM volume B) : 0 < vfs_biglock_depth (v_fs v) -> sbind (on_fs vfs_biglock_release) f v = f tt (unlocked v).
Proof. intros Hd. by rewrite (srun_call _ _ _ _ _ (biglock_release_run v Hd)). Qed.

Lemma unlocked_root e I v d L : root_off e I v d L -> 0 < vfs_biglock_depth (v_fs v) -> root_off e I (unlocked v) d L.
Proof. intros Hr Hd. apply root_depth; [done|lia]. Qed.

Lemma unlocked_frame v v' : 0 <= vfs_biglock_depth (v_fs v) -> frame (v_fs (locked v)) (v_fs v') -> frame (v_fs v) (v_fs (unlocked v')) /\ 0 < vfs_biglock_depth (v_fs v').
Proof. clear inode_addr tsd sd meta. intros Hd [F1 F2 F3]. cbn in *. split; [constructor; cbn; (done || lia)|lia]. Qed.

(** ** Removing *)

(** The vnode a name was looked up to was there before iff somebody had it. *)
Lemma core_before I d L v v' x w : root_ok I v d L -> calm I d L v v' -> sfs_vnodes (v_fs v') !! x = Some w ->
  in_core (v_fs v) (sv_ino w) = None <-> refs v x = 0.
Proof.
  intros Hr Hc Hw. pose proof (ro_volume _ _ _ _ _ _ _ _ _ Hr) as Hv. pose proof (ro_volume _ _ _ _ _ _ _ _ _ (ca_root _ _ _ _ _ _ _ _ _ _ Hc)) as Hv'. split.
  - intros Hn. unfold refs. destruct (sfs_vnodes (v_fs v) !! x) as [u|] eqn:E; [|done]. rewrite in_core_None in Hn.
    pose proof (ca_vnodes _ _ _ _ _ _ _ _ _ _ Hc x u E) as E'. destruct (Hn x u E). congruence.
  - intros H0. apply in_core_None. intros y u Hu Ek. pose proof (ca_vnodes _ _ _ _ _ _ _ _ _ _ Hc y u Hu) as Hu'.
    assert (y = x) as -> by (by eapply (vn_once _ _ (vo_vnodes _ _ _ _ Hv'))). unfold refs in H0. rewrite Hu in H0.
    destruct (vo_refs _ _ _ _ Hv x) as (n & Hn & Hpos); [by exists u|]. rewrite Hn in H0. cbn in H0. lia.
Qed.

Lemma calm_ino I d L v v' : root_ok I v d L -> calm I d L v v' -> ino (v_fs v') d = ino (v_fs v) d.
Proof.
  intros Hr Hc. destruct (root_vnode _ _ _ _ _ _ _ _ _ Hr) as (w & Hw & _ & Ei & _). rewrite <- Ei. apply ino_vnode. by apply (ca_vnodes _ _ _ _ _ _ _ _ _ _ Hc).
Qed.

(** The link count of a vnode that is not the directory. *)
Lemma file_links e I v d L x w : root_off e I v d L -> sfs_vnodes (v_fs v) !! x = Some w -> x <> d ->
  sfi_linkcount (sv_i w) = links (dir_map L) (sv_ino w) + e (sv_ino w) /\ sv_ino w <> ino (v_fs v) d.
Proof.
  intros Hr Hw Hx. pose proof (vo_vnodes _ _ _ _ (ro_volume _ _ _ _ _ _ _ _ _ Hr)) as Hvn. destruct (root_vnode _ _ _ _ _ _ _ _ _ Hr) as (wd & Hwd & _ & Ei & _).
  assert (sv_ino w <> ino (v_fs v) d) as Hne by (rewrite <- Ei; intros E; apply Hx; by eapply (vn_once _ _ Hvn)). split; [|done].
  rewrite <- (inode_loaded I (v_fs v) x w) by done. apply (ro_links _ _ _ _ _ _ _ _ _ Hr); [by eapply (vn_inos _ _ Hvn)|done].
Qed.

(** ** Names and link counts *)

(** The entries of the directory are [P] now, the file [k] of vnode [x] has one
    name more or less, and its link count follows. *)
Record relinked I d (P : list dirent -> Prop) (x : positive) (k : Z) v v' : Prop := mk_relinked {
  en_root : exists L', root_ok I v' d L' /\ P L';
  en_data : data_kept (fun j => j ∈ I /\ j <> ino (v_fs v) d) (v_fs v) (v_fs v');
  en_ino : ino (v_fs v') d = ino (v_fs v) d;
  en_frame : frame (v_fs v) (v_fs v');
  en_vnode : exists w, sfs_vnodes (v_fs v') !! x = Some w /\ sv_ino w = k;
  en_others : forall y, y <> d -> y <> x -> sfs_vnodes (v_fs v') !! y = sfs_vnodes (v_fs v) !! y;
  en_memory : v_memory v' = v_memory v;
  en_refs : forall y, refs v' y = refs v y
}.

Lemma enter_run I v d L name x w : root_ok I v d L -> 0 < vfs_biglock_depth (v_fs v) -> is_name name ->
  sfs_vnodes (v_fs v) !! x = Some w -> x <> d -> sfi_type (sv_i w) = SFS_TYPE_FILE ->
  exists r o v1, on_fs (sfs_dir_link tsd sd d name (sv_ino w)) v = inr ((r, o), v1) /\
    ((r = 0 /\ dir_map L !! name = None /\ exists v2, on_fs (put_inode x more_links) v1 = inr (tt, v2) /\ relinked I d (fun L' => dir_map L' = <[name := sv_ino w]> (dir_map L) /\ stay_put L L') x (sv_ino w) v v2) \/
     (r <> 0 /\ link_error v1 d L name r /\ updated (fun _ => 0) I d L v v1)).
Proof.
  intros Hr Hd Hn Hw Hxd Ht. pose proof (vo_vnodes _ _ _ _ (ro_volume _ _ _ _ _ _ _ _ _ Hr)) as Hvn. set (k := sv_ino w).
  destruct (file_links _ I v d L x w Hr Hw Hxd) as [Hlc Hkd]. fold k in Hlc, Hkd. assert (k ∈ I) as HkI by by eapply (vn_inos _ _ Hvn).
  assert (sfi_type (inode_of (v_fs v) k) = SFS_TYPE_FILE) as Hty by (by rewrite (inode_loaded I (v_fs v) x w)).
  destruct (link_run _ _ _ _ _ I v d L name k Hr Hd Hn HkI Hkd Hty) as (r & o & v1 & Hrun & Hor). exists r, o, v1. split; [done|].
  destruct Hor as [(-> & Hnone & L' & Hmap & Hput & [U1 U2 U3 U4 U5 U6 U7])|Herr]; [left|by right]. split_and!; [done|done|].
  assert (sfs_vnodes (v_fs v1) !! x = Some w) as Hw1 by (by rewrite U5). pose proof (root_links_small _ _ _ _ _ _ _ _ _ k Hr) as Hsmall.
  assert (0 <= links (dir_map L) k) as Hnn by (unfold links; lia).
  destruct (count_run _ _ _ _ _ I v1 d L' x w more_links (sfi_linkcount (sv_i w) + 1) U1) as (v2 & Hcnt & Hcd);
    [rewrite (fr_depth _ _ U4); done|done|done|unfold more_links; f_equal; apply Z.mod_small; lia|unfold is_u16; lia|].
  exists v2. split; [done|]. pose proof (counted_data _ _ _ _ _ _ _ _ _ Hcd) as Hdata. destruct Hcd as [N1 N2 N3 N4 N5 [N6 N7] (w2 & Hw2 & Ek2 & _) N9 N10 N11].
  constructor.
  - exists L'. split; [|done]. eapply root_ext; [|exact N1]. intros j. unfold at_key. fold k. case_decide; lia.
  - eapply data_trans; [exact (quiet_data _ _ _ U2)|]. apply (data_less (.∈ I)); [by intros j [Hj _]|exact Hdata].
  - congruence.
  - by eapply frame_trans.
  - by exists w2.
  - intros y Hy Hyx. rewrite N9 by done. by apply U5.
  - congruence.
  - intros y. by rewrite N11.
Qed.

Lemma leave_run I v d L name x w j : root_ok I v d L -> 0 < vfs_biglock_depth (v_fs v) -> sfs_vnodes (v_fs v) !! x = Some w -> x <> d ->
  L !! j = Some (sv_ino w, name) -> dir_map L !! name = Some (sv_ino w) ->
  exists v1 v2, on_fs (sfs_dir_unlink sd d (Z.of_nat j)) v = inr (0, v1) /\ sfs_vnodes (v_fs v1) !! x = Some w /\ 0 < sfi_linkcount (sv_i w) /\
    on_fs (put_inode x fewer_links) v1 = inr (tt, v2) /\ relinked I d (fun L' => dir_map L' = delete name (dir_map L)) x (sv_ino w) v v2 /\
    same_blocks (sv_ino w) (v_fs v) (v_fs v2).
Proof.
  intros Hr Hd Hw Hxd Hj E. set (k := sv_ino w) in *. assert (live (k, name)) as Hlive by exact (name_number _ _ _ _ _ _ _ _ _ name k Hr E).
  destruct (unlink_run _ _ _ _ _ I v d L j k name Hr Hd Hj Hlive) as (v1 & L' & Hun & _ & Hmap & [U1 U2 U3 U4 U5 U6 U7] & Hsb). specialize (Hsb x w Hxd Hw). fold k in Hsb.
  assert (sfs_vnodes (v_fs v1) !! x = Some w) as Hw1 by (by rewrite U5).
  destruct (file_links _ I v d L x w Hr Hw Hxd) as [Hlc _]. fold k in Hlc.
  pose proof (links_pos (dir_map L) name k E) as Hpos. pose proof (root_links_small _ _ _ _ _ _ _ _ _ k Hr) as Hsmall.
  destruct (count_run _ _ _ _ _ I v1 d L' x w fewer_links (sfi_linkcount (sv_i w) - 1) U1) as (v2 & Hcnt & Hcd);
    [rewrite (fr_depth _ _ U4); done|done|done|unfold fewer_links; f_equal; apply Z.mod_small; lia|unfold is_u16; lia|].
  exists v1, v2. split_and!; [done|done|lia|done| |].
  2: { eapply same_blocks_trans; [exact Hsb|]. fold k in Hcd. destruct Hcd as [_ _ Hi Hs _ [_ Hm] _ _ _ _].
       apply same_blocks_intro; [done|by rewrite Hi|by rewrite Hi|by intros _]. }
  pose proof (counted_data _ _ _ _ _ _ _ _ _ Hcd) as Hdata.
  destruct Hcd as [N1 N2 N3 N4 N5 [N6 N7] (w2 & Hw2 & Ek2 & _) N9 N10 N11].
  constructor.
  - exists L'. split; [|done]. eapply root_ext; [|exact N1]. intros i. unfold at_key. fold k. case_decide; lia.
  - eapply data_trans; [exact (quiet_data _ _ _ U2)|]. apply (data_less (.∈ I)); [by intros i [Hi _]|exact Hdata].
  - congruence.
  - by eapply frame_trans.
  - by exists w2.
  - intros y Hy Hyx. rewrite N9 by done. by apply U5.
  - congruence.
  - intros y. by rewrite N11.
Qed.

(** A looked up file is not the directory. *)
Lemma name_vnode e I v d L name x w : root_off e I v d L -> sfs_vnodes (v_fs v) !! x = Some w -> dir_map L !! name = Some (sv_ino w) ->
  x <> d /\ sfi_type (sv_i w) = SFS_TYPE_FILE.
Proof.
  intros Hr Hw E. split.
  - intros ->. destruct (root_vnode _ _ _ _ _ _ _ _ _ Hr) as (wd & Hwd & _ & Ei & _). assert (wd = w) as -> by congruence.
    apply (name_not_root _ _ _ _ _ _ _ _ _ name _ Hr E). by rewrite <- Ei.
  - rewrite <- (inode_loaded I (v_fs v) x w) by (done || apply Hr). by apply (ro_names _ _ _ _ _ _ _ _ _ Hr name).
Qed.

(** The inodes after the name of file [k] went away. *)
Definition after_unlink I v (N : gmap (list Z) Z) (k : Z) : gset Z :=
  if decide (in_core (v_fs v) k = None /\ links N k = 1) then I ∖ {[k]} else I.

Record removed I d L (name : list Z) (k : Z) v v' : Prop := mk_removed {
  rm_root : exists L', root_ok (after_unlink I v (dir_map L) k) v' d L' /\ dir_map L' = delete name (dir_map L);
  rm_data : data_kept (fun j => j ∈ after_unlink I v (dir_map L) k /\ j <> ino (v_fs v) d) (v_fs v) (v_fs v');
  rm_marked : freed k v (after_unlink I v (dir_map L) k) v';
  rm_refs : forall y, refs v' y = refs v y
}.

(** No name changed, and no other file than the directory. *)
Record unchanged I d L v v' : Prop := mk_unchanged {
  un_root : root_ok I v' d L;
  un_data : data_kept (fun j => j ∈ I /\ j <> ino (v_fs v) d) (v_fs v) (v_fs v');
  un_refs : forall y, refs v' y = refs v y
}.

Lemma unchanged_intro I d L v v' : calm I d L (locked v) v' -> 0 < vfs_biglock_depth (v_fs v') -> (forall y, refs v' y = refs (locked v) y) -> unchanged I d L v (unlocked v').
Proof.
  intros [C1 C2 _ _ _ _] Hd Hr. constructor; [by apply unlocked_root| |exact Hr].
  apply (data_less (.∈ I)); [by intros j [Hj _]|exact (quiet_data _ _ _ C2)].
Qed.

Lemma remove_run I v d L name : root_ok I v d L -> is_name name ->
  exists r v', sfs_remove inode_addr tsd sd d name v = inr (r, v') /\ frame (v_fs v) (v_fs v') /\
    match dir_map L !! name with
    | None => r = ENOENT /\ unchanged I d L v v'
    | Some k => (r = 0 /\ removed I d L name k v v') \/ (r = ENOMEM /\ false ∈ v_memory v /\ unchanged I d L v v')
    end.
Proof.
  intros Hr Hn. destruct (locked_root _ I v d L Hr) as [Hr1 Hd1]. pose proof (vo_depth _ _ _ _ (ro_volume _ _ _ _ _ _ _ _ _ Hr)) as Hd.
  unfold sfs_remove. rewrite biglock_acquire_run. fold (locked v). set (v1 := locked v) in *.
  destruct (lookonce_run inode_addr tsd sd meta I v1 d L name Hr1 Hd1 Hn) as (r & o & sl & v2 & Hlook & Hc & Hres). rewrite (srun_call _ _ _ _ _ Hlook).
  destruct (unlocked_frame v v2 Hd (ca_frame _ _ _ _ _ _ _ _ _ _ Hc)) as [Hfr2 Hd2].
  destruct (dir_map L !! name) as [k|] eqn:E.
  2: { destruct Hres as [-> Href]. change (ENOENT =? 0) with false. cbn [negb]. rewrite unlock_run by done. eexists _, _. split; [reflexivity|].
       split; [done|]. split; [done|]. by apply unchanged_intro. }
  destruct Hres as [(-> & x & w & j & -> & -> & Hj & Hw & <- & Href)|(-> & Hm & Href)]; cbn [negb Z.eqb ENOMEM].
  2: { rewrite unlock_run by done. eexists _, _. split; [reflexivity|]. split; [done|]. right. split_and!; [done|done|by apply unchanged_intro]. }
  unfold handed. rewrite (srun_deref _ _ x), (srun_deref _ _ (Z.of_nat j)) by done. pose proof (ca_root _ _ _ _ _ _ _ _ _ _ Hc) as Hr2.
  destruct (name_vnode _ I v2 d L name x w Hr2 Hw E) as [Hxd _].
  destruct (leave_run I v2 d L name x w j Hr2 Hd2 Hw Hxd Hj E) as (v3 & v4 & Hun & Hw3 & Hlc & Hcnt & [(L' & N1 & Hmap) N2 N3 N4 (w4 & Hw4 & Ek4) N6 N7 N8] & Hsb).
  rewrite (srun_call _ _ _ _ _ Hun). cbn [Z.eqb]. rewrite srun_bind, (get_vnode v3 x w) by done.
  rewrite srun_bind, srun_assert by (by apply Z.ltb_lt). rewrite (srun_call _ _ _ _ _ Hcnt).
  destruct (decref_run _ _ _ _ I v4 d L' x w4 N1 Hw4 Hxd) as (v5 & I' & Hdec & [G1 G2 G3 G4 G5 G6 Gm _ G7]). rewrite (srun_call _ _ _ _ _ Hdec).
  assert (frame (v_fs v1) (v_fs v5)) as Hfr5 by (eapply frame_trans; [exact (ca_frame _ _ _ _ _ _ _ _ _ _ Hc)|]; by eapply frame_trans).
  destruct (unlocked_frame v v5 Hd Hfr5) as [Hfr Hd5]. rewrite unlock_run by done. exists 0, (unlocked v5). split; [reflexivity|]. split; [done|]. left. split; [done|].
  assert (I' = after_unlink I v (dir_map L) (sv_ino w)) as EI.
  { unfold left_over, after_unlink in *. rewrite Ek4, Hmap, (links_delete _ _ (sv_ino w)), (decide_True (P := sv_ino w = sv_ino w)) in G3 by done.
    assert (refs v4 x = refs v1 x + 1) as Ex by (rewrite N8, Href; by rewrite decide_True).
    pose proof (core_before I d L v1 v2 x w Hr1 Hc Hw) as Hcore. change (in_core (v_fs v1)) with (in_core (v_fs v)) in Hcore.
    rewrite Ex in G3. case_decide as D1; case_decide as D2; [done| |by destruct D1; split; [|]; [rewrite (proj1 Hcore); [done|tauto]|lia]|done].
    destruct D2. split; [apply Hcore; lia|lia]. }
  assert (forall i, i ∈ I' -> i ∈ I) as Hsub by (rewrite EI; unfold after_unlink; case_decide; [set_solver|done]).
  constructor.
  - exists L'. rewrite <- EI. split; [by apply unlocked_root|done].
  - rewrite <- EI. eapply data_trans; [apply (data_less (.∈ I)); [intros i [Hi _]; by apply Hsub|exact (quiet_data _ _ _ (ca_quiet _ _ _ _ _ _ _ _ _ _ Hc))]|].
    eapply data_trans; [apply (data_less (fun i => i ∈ I /\ i <> ino (v_fs v2) d)); [|exact N2]|].
    { intros i [Hi Hid]. split; [by apply Hsub|]. by rewrite (calm_ino I d L v1 v2 Hr1 Hc). }
    apply (data_less (.∈ I')); [by intros i [Hi _]|exact (quiet_data _ _ _ G2)].
  - rewrite <- EI. assert (sv_ino w ∈ I) as HkI by exact (vn_inos _ _ (vo_vnodes _ _ _ _ (ro_volume _ _ _ _ _ _ _ _ _ Hr2)) x w Hw).
    assert (same_blocks (sv_ino w) (v_fs v1) (v_fs v2)) as Hsb1 by (by eapply calm_blocks).
    destruct (same_blocks_trans _ _ _ _ Hsb1 Hsb) as [Em Eb].
    change (sfs_freemap (v_fs v4) = sfs_freemap (v_fs v)) in Em. change (forall c, file_block (v_fs v4) (sv_ino w) c <-> file_block (v_fs v) (sv_ino w) c) in Eb.
    intros c. change (marked (v_fs (unlocked v5)) c) with (marked (v_fs v5) c). rewrite (Gm c), Ek4. unfold marked.
    rewrite Em, (fr_nblocks _ _ N4), (fr_nblocks _ _ (ca_frame _ _ _ _ _ _ _ _ _ _ Hc)). by rewrite (Eb c).
  - intros y. change (refs v5 y = refs v1 y). rewrite G7, N8, Href. case_decide; lia.
Qed.

(** ** Linking *)

Record linked I d L (name : list Z) (k : Z) v v' : Prop := mk_linked {
  li_root : exists L', root_ok I v' d L' /\ dir_map L' = <[name := k]> (dir_map L);
  li_data : data_kept (fun j => j ∈ I /\ j <> ino (v_fs v) d) (v_fs v) (v_fs v');
  li_refs : forall y, refs v' y = refs v y
}.

Lemma unlocked_updated I d L v v' : updated (fun _ => 0) I d L (locked v) v' -> 0 < vfs_biglock_depth (v_fs v') -> unchanged I d L v (unlocked v').
Proof. intros [U1 U2 _ _ _ _ U7] Hd. constructor; [by apply unlocked_root|exact (quiet_data _ _ _ U2)|exact U7]. Qed.

Lemma sfs_link_run I v d L name x w : root_ok I v d L -> is_name name -> sfs_vnodes (v_fs v) !! x = Some w ->
  exists r v', sfs_link tsd sd d name x v = inr (r, v') /\ frame (v_fs v) (v_fs v') /\ (exists w', sfs_vnodes (v_fs v') !! x = Some w' /\ sv_ino w' = sv_ino w) /\
    if decide (sfi_type (sv_i w) = SFS_TYPE_DIR) then r = EINVAL /\ unchanged I d L v v' else
    (r = 0 /\ dir_map L !! name = None /\ linked I d L name (sv_ino w) v v') \/ (r <> 0 /\ link_error v' d L name r /\ unchanged I d L v v').
Proof.
  intros Hr Hn Hw. destruct (locked_root _ I v d L Hr) as [Hr1 Hd1]. pose proof (ro_volume _ _ _ _ _ _ _ _ _ Hr) as Hv. pose proof (vo_depth _ _ _ _ Hv) as Hd.
  unfold sfs_link. rewrite biglock_acquire_run. fold (locked v). set (v1 := locked v) in *. assert (sfs_vnodes (v_fs v1) !! x = Some w) as Hw1 by done.
  rewrite (get_vnode v1 x w) by done. case_decide as Ht.
  { rewrite (proj2 (Z.eqb_eq _ _) Ht), unlock_run by done. eexists _, _. split; [reflexivity|].
    split; [exact (proj1 (unlocked_frame v v1 Hd (frame_refl _)))|]. split; [by exists w|]. split; [done|]. apply unchanged_intro; [by apply calm_refl|done|done]. }
  rewrite (proj2 (Z.eqb_neq _ _) Ht). assert (x <> d) as Hxd.
  { intros ->. destruct (root_vnode _ _ _ _ _ _ _ _ _ Hr) as (wd & Hwd & Htd & _). apply Ht. congruence. }
  assert (sfi_type (sv_i w) = SFS_TYPE_FILE) as Hty.
  { pose proof (vo_vnodes _ _ _ _ Hv) as Hvn. destruct (if_type _ (vo_inodes _ _ _ _ Hv (sv_ino w) (vn_inos _ _ Hvn x w Hw))) as [E|E];
      rewrite (inode_loaded I (v_fs v) x w) in E by done; done. }
  destruct (enter_run I v1 d L name x w Hr1 Hd1 Hn Hw1 Hxd Hty) as (r & o & v2 & Hrun & Hor). rewrite (srun_call _ _ _ _ _ Hrun).
  destruct Hor as [(-> & Hnone & v3 & Hput & [(L' & N1 & Nm & _) N2 _ N4 N5 _ _ N8])|(Hne & Herr & Hup)].
  - cbn [Z.eqb negb]. rewrite (srun_call _ _ _ _ _ Hput). destruct (unlocked_frame v v3 Hd N4) as [Hfr Hd3]. rewrite unlock_run by done.
    eexists _, _. split; [reflexivity|]. split; [done|]. split; [exact N5|]. left. split_and!; [done|done|]. constructor; [|exact N2|exact N8].
    exists L'. split; [by apply unlocked_root|done].
  - rewrite (proj2 (Z.eqb_neq _ _) Hne). cbn [negb]. destruct (unlocked_frame v v2 Hd (ud_frame _ _ _ _ _ _ _ _ _ _ Hup)) as [Hfr Hd2]. rewrite unlock_run by done.
    eexists _, _. split; [reflexivity|]. split; [done|]. split; [exists w; split; [|done]; by rewrite <- Hw1, <- (ud_vnodes _ _ _ _ _ _ _ _ _ _ Hup x Hxd)|].
    right. split_and!; [done|exact Herr|by apply unlocked_updated].
Qed.
(** ** Renaming *)

(** The map with the name [n1] changed to [n2]. *)
Definition moved (N : gmap (list Z) Z) (n1 n2 : list Z) (k : Z) : gmap (list Z) Z := delete n1 (<[n2 := k]> N).

Record renamed I d L (n1 n2 : list Z) (k : Z) v v' : Prop := mk_renamed {
  rn_root : exists L', root_ok I v' d L' /\ dir_map L' = moved (dir_map L) n1 n2 k;
  rn_data : data_kept (fun j => j ∈ I /\ j <> ino (v_fs v) d) (v_fs v) (v_fs v');
  rn_refs : forall y, refs v' y = refs v y
}.

(** A file with a name stays. *)
Lemma named_stays I d L x k name v I' v' : let_go inode_addr tsd sd meta I d L x k v I' v' -> dir_map L !! name = Some k -> I' = I.
Proof.
  intros Hg E. pose proof (links_pos _ _ _ E). pose proof (lg_left _ _ _ _ _ _ _ _ _ _ _ _ Hg) as Hl. unfold left_over in Hl.
  rewrite decide_False in Hl; [done|lia].
Qed.

(** The data between a lookup and a later state. *)
Lemma data_after I d L v v2 v3 : root_ok I v d L -> calm I d L v v2 -> data_kept (fun j => j ∈ I /\ j <> ino (v_fs v2) d) (v_fs v2) (v_fs v3) ->
  data_kept (fun j => j ∈ I /\ j <> ino (v_fs v) d) (v_fs v) (v_fs v3).
Proof.
  intros Hr Hc H. eapply data_trans; [apply (data_less (.∈ I)); [by intros i [Hi _]|exact (quiet_data _ _ _ (ca_quiet _ _ _ _ _ _ _ _ _ _ Hc))]|].
  by rewrite (calm_ino I d L v v2 Hr Hc) in H.
Qed.

Lemma let_go_data I d L x k v I' v' (d0 : Z) : let_go inode_addr tsd sd meta I d L x k v I' v' -> I' = I -> data_kept (fun j => j ∈ I /\ j <> d0) (v_fs v) (v_fs v').
Proof. intros Hg ->. apply (data_less (.∈ I)); [by intros j [Hj _]|]. exact (quiet_data _ _ _ (lg_quiet _ _ _ _ _ _ _ _ _ _ _ _ Hg)). Qed.

Lemma link_error_same v v' d L name r : frame (v_fs v) (v_fs v') -> sfs_freemap (v_fs v') = sfs_freemap (v_fs v) -> link_error v d L name r ->
  link_error v' d L name r.
Proof.
  clear inode_addr tsd sd meta. intros Hfr Hm. unfold link_error, marked. by rewrite Hm, (fr_nblocks _ _ Hfr).
Qed.

Lemma rename_run I v d L n1 n2 : root_ok I v d L -> is_name n1 -> is_name n2 ->
  exists r v', sfs_rename inode_addr tsd sd d n1 d n2 v = inr (r, v') /\ frame (v_fs v) (v_fs v') /\
    match dir_map L !! n1 with
    | None => r = ENOENT /\ unchanged I d L v v'
    | Some k => (r = 0 /\ dir_map L !! n2 = None /\ renamed I d L n1 n2 k v v') \/ (r = ENOMEM /\ false ∈ v_memory v /\ unchanged I d L v v') \/
        (r <> 0 /\ link_error v' d L n2 r /\ unchanged I d L v v')
    end.
Proof.
  intros Hr Hn1 Hn2. pose proof (ro_root _ _ _ _ _ _ _ _ _ Hr) as Hroot. destruct (locked_root _ I v d L Hr) as [Hr1 Hd1]. pose proof (vo_depth _ _ _ _ (ro_volume _ _ _ _ _ _ _ _ _ Hr)) as Hd.
  unfold sfs_rename. rewrite biglock_acquire_run. fold (locked v). set (v1 := locked v) in *. rewrite srun_assert by (by apply bool_decide_eq_true).
  destruct (root_vnode _ _ _ _ _ _ _ _ _ Hr1) as (wd & Hwd & _ & Ei & _). rewrite (get_vnode v1 d wd) by done.
  rewrite srun_assert by (apply Z.eqb_eq; rewrite Ei; exact Hroot).
  destruct (lookonce_run inode_addr tsd sd meta I v1 d L n1 Hr1 Hd1 Hn1) as (r & o & sl & v2 & Hlook & Hc & Hres). rewrite (srun_call _ _ _ _ _ Hlook).
  destruct (unlocked_frame v v2 Hd (ca_frame _ _ _ _ _ _ _ _ _ _ Hc)) as [Hfr2 Hd2]. destruct (dir_map L !! n1) as [k|] eqn:E.
  2: { destruct Hres as [-> Href]. change (ENOENT =? 0) with false. cbn [negb]. rewrite unlock_run by done. eexists _, _. split; [reflexivity|].
       split; [done|]. split; [done|]. by apply unchanged_intro. }
  destruct Hres as [(-> & x & w & j & -> & -> & Hj & Hw & <- & Href)|(-> & Hm & Href)]; cbn [negb Z.eqb ENOMEM].
  2: { rewrite unlock_run by done. eexists _, _. split; [reflexivity|]. split; [done|]. right. left. split_and!; [done|done|by apply unchanged_intro]. }
  unfold handed. rewrite (srun_deref _ _ x), (srun_deref _ _ (Z.of_nat j)), (get_vnode v2 x w) by done. pose proof (ca_root _ _ _ _ _ _ _ _ _ _ Hc) as Hr2.
  destruct (name_vnode _ I v2 d L n1 x w Hr2 Hw E) as [Hxd Hty]. rewrite srun_assert by (by apply Z.eqb_eq).
  destruct (enter_run I v2 d L n2 x w Hr2 Hd2 Hn2 Hw Hxd Hty) as (r & o & v3 & Hrun & Hor). rewrite (srun_call _ _ _ _ _ Hrun). 
  destruct Hor as [(-> & Hnone & v4 & Hput & [(L4 & N1 & Nm & Ns) N2 N3 N4 (w4 & Hw4 & Ek4) N6 N7 N8])|(Hne & Herr & [U1 U2 U3 U4 U5 U6 U7])].
  - cbn [Z.eqb negb]. rewrite (srun_call _ _ _ _ _ Hput). rewrite <- Ek4 in *. assert (n2 <> n1) as Hnn by congruence.
    assert (L4 !! j = Some (sv_ino w4, n1)) as Hj4 by (apply Ns; [done|]; exact (name_number _ _ _ _ _ _ _ _ _ n1 _ Hr E)).
    assert (dir_map L4 !! n1 = Some (sv_ino w4)) as E4 by (by rewrite Nm, lookup_insert_ne).
    destruct (leave_run I v4 d L4 n1 x w4 j N1) as (v5 & v6 & Hun & Hw5 & Hlc & Hcnt & [(L6 & M1 & Mm) M2 M3 M4 (w6 & Hw6 & Ek6) M6 M7 M8] & _);
      [rewrite (fr_depth _ _ N4); done|done|done|done|done|].
    rewrite (srun_call _ _ _ _ _ Hun). cbn [Z.eqb negb]. rewrite (get_vnode v5 x w4) by done. rewrite srun_assert by (by apply Z.ltb_lt). rewrite (srun_call _ _ _ _ _ Hcnt).
    destruct (decref_run _ _ _ _ I v6 d L6 x w6 M1 Hw6 Hxd) as (v7 & I' & Hdec & Hg). rewrite (srun_call _ _ _ _ _ Hdec).
    rewrite Ek6 in Hg. assert (I' = I) as EI by (apply (named_stays _ _ _ _ _ n2 _ _ _ Hg); rewrite Mm, Nm, lookup_delete_ne by done; apply lookup_insert_eq).
    pose proof (let_go_data _ _ _ _ _ _ _ _ (ino (v_fs v2) d) Hg EI) as Hdata. destruct Hg as [G1 G2 G3 G4 G5 G6 _ _ G7]. rewrite EI in G1.
    assert (frame (v_fs v1) (v_fs v7)) as Hfr7 by (eapply frame_trans; [exact (ca_frame _ _ _ _ _ _ _ _ _ _ Hc)|]; eapply frame_trans; [exact N4|]; by eapply frame_trans).
    destruct (unlocked_frame v v7 Hd Hfr7) as [Hfr Hd7]. rewrite unlock_run by done. eexists _, _. split; [reflexivity|]. split; [done|]. left. split_and!; [done|done|].
    constructor.
    + exists L6. split; [by apply unlocked_root|]. unfold moved. by rewrite Mm, Nm.
    + apply (data_after I d L v1 v2 v7 Hr1 Hc). eapply data_trans; [exact N2|]. rewrite N3 in M2. by eapply data_trans.
    + intros y. change (refs v7 y = refs v1 y). rewrite G7, M8, N8, Href. case_decide; lia.
  - rewrite (proj2 (Z.eqb_neq _ _) Hne). cbn [negb]. unfold rename_puke. assert (sfs_vnodes (v_fs v3) !! x = Some w) as Hw3 by (by rewrite U5).
    destruct (decref_run _ _ _ _ I v3 d L x w U1 Hw3 Hxd) as (v4 & I' & Hdec & Hg). rewrite (srun_call _ _ _ _ _ Hdec).
    assert (I' = I) as EI by exact (named_stays _ _ _ _ _ n1 _ _ _ Hg E). pose proof (let_go_data _ _ _ _ _ _ _ _ (ino (v_fs v2) d) Hg EI) as Hdata.
    destruct Hg as [G1 G2 G3 G4 G5 G6 _ Gm G7]. rewrite EI in G1.
    assert (frame (v_fs v1) (v_fs v4)) as Hfr4 by (eapply frame_trans; [exact (ca_frame _ _ _ _ _ _ _ _ _ _ Hc)|]; by eapply frame_trans).
    destruct (unlocked_frame v v4 Hd Hfr4) as [Hfr Hd4]. rewrite unlock_run by done. eexists _, _. split; [reflexivity|]. split; [done|]. right. right.
    split_and!; [done| |].
    + exact (link_error_same v3 v4 d L n2 r G4 (Gm EI) Herr).
    + constructor; [by apply unlocked_root| |].
      * apply (data_after I d L v1 v2 v4 Hr1 Hc). eapply data_trans; [exact (quiet_data _ _ _ U2)|exact Hdata].
      * intros y. change (refs v4 y = refs v1 y). rewrite G7, U7, Href. case_decide; lia.
Qed.
(** ** Creating *)

(** The file [k] is new, empty and open as [x]. *)
Record created I d L (name : list Z) (k : Z) (x : positive) v v' : Prop := mk_created {
  ct_fresh : (k ∉ I) /\ ~ marked (v_fs v) k;
  ct_root : exists L', root_ok ({[k]} ∪ I) v' d L' /\ dir_map L' = <[name := k]> (dir_map L);
  ct_file : sfi_type (inode_of (v_fs v') k) = SFS_TYPE_FILE /\ sfi_size (inode_of (v_fs v') k) = 0;
  ct_vnode : refs v x = 0 /\ exists w, sfs_vnodes (v_fs v') !! x = Some w /\ sv_ino w = k;
  ct_data : data_kept (fun j => j ∈ I /\ j <> ino (v_fs v) d) (v_fs v) (v_fs v');
  ct_refs : forall y, refs v' y = refs v y + if decide (y = x) then 1 else 0
}.

(** The file [k] was there, and is open as [x]. *)
Record opened I d L (k : Z) (x : positive) v v' : Prop := mk_opened {
  op_root : root_ok I v' d L;
  op_vnode : exists w, sfs_vnodes (v_fs v') !! x = Some w /\ sv_ino w = k;
  op_data : data_kept (.∈ I) (v_fs v) (v_fs v');
  op_refs : forall y, refs v' y = refs v y + if decide (y = x) then 1 else 0
}.

Definition creat_error (L : list dirent) (name : list Z) v v' (r : Z) : Prop :=
  (r = ENOSPC /\ exists k, forall c, 0 <= c < sb_nblocks (v_fs v') -> c <> k -> marked (v_fs v') c) \/ (r = ENOMEM /\ false ∈ v_memory v) \/
  (if decide (SFS_NAMELEN <= zlen name) then r = ENAMETOOLONG else r = EFBIG /\ DIRENTRY_SIZE * zlen L = SFS_MAXSIZE).

Lemma made_root I d L k x v v' : root_ok I v d L -> made inode_addr meta I SFS_TYPE_FILE k x v v' ->
  root_ok ({[k]} ∪ I) v' d L /\ quiet (.∈ I) (v_fs v) (v_fs v') /\ inode_of (v_fs v') k = empty_inode SFS_TYPE_FILE /\ links (dir_map L) k = 0 /\ x <> d.
Proof.
  intros Hr [M1 [M2 M2'] [M3 M3'] [M4 M5] M6 M7 M8]. destruct (root_vnode _ _ _ _ _ _ _ _ _ Hr) as (wd & Hwd & _ & Ei & HdI & _).
  assert (x <> d) as Hxd by congruence.
  assert (inode_of (v_fs v') k = empty_inode SFS_TYPE_FILE) as Hk.
  { assert (files ({[k]} ∪ I) (v_fs v') !! k = Some (empty_inode SFS_TYPE_FILE)) as E by (rewrite M4; apply lookup_insert_eq). by apply lookup_files in E as [_ ->]. }
  assert (links (dir_map L) k = 0) as Hl.
  { destruct (decide (links (dir_map L) k = 0)) as [|Hne]; [done|]. unfold links in Hne.
    destruct (map_choose (filter (fun p => p.2 = k) (dir_map L))) as (nm & j & E); [intros E; rewrite E in Hne; done|].
    apply map_lookup_filter_Some in E as [E <-]. destruct M2. by apply (ro_names _ _ _ _ _ _ _ _ _ Hr nm). }
  assert (quiet (.∈ I) (v_fs v) (v_fs v')) as Hq.
  { intros j Hj. assert (j <> k) as Hne by (intros ->; done). assert (files I (v_fs v) !! j = Some (inode_of (v_fs v) j)) as Hf by (by apply lookup_files).
    specialize (M5 j). rewrite Hf in M5. split; [|apply M5]. rewrite <- (lookup_insert_ne _ k j (empty_inode SFS_TYPE_FILE)), <- M4 in Hf by done.
    by apply lookup_files in Hf as [_ ->]. }
  split_and!; [|done|done|done|done]. apply (root_carry _ _ _ _ _ I _ v); try done.
  - intros j [->%elem_of_singleton|Hj]%elem_of_union Hn; [by rewrite Hk, Hl|done].
  - apply (quiet_less (.∈ I)); [by intros j [Hj _]|done].
  - by rewrite M3', lookup_insert_ne.
  - apply elem_of_union. right. by rewrite <- Ei.
  - intros nm j Hj. apply elem_of_union. right. by apply (ro_names _ _ _ _ _ _ _ _ _ Hr nm).
Qed.

Lemma not_made_root I d L v v' : root_ok I v d L -> not_made inode_addr meta I v v' -> root_ok I v' d L /\ quiet (.∈ I) (v_fs v) (v_fs v').
Proof.
  intros Hr [M1 M2 [M3 M4] M5 M6 M7]. pose proof (quiet_files I _ _ M3 M4) as Hq. destruct (root_vnode _ _ _ _ _ _ _ _ _ Hr) as (wd & _ & _ & Ei & HdI & _).
  split; [|done]. apply (root_keep _ _ _ _ _ I I v); try done; [by rewrite M2|by rewrite <- Ei|]. intros nm j Hj. by apply (ro_names _ _ _ _ _ _ _ _ _ Hr nm).
Qed.

(** A new file that cannot be given a name goes away again. *)
Lemma unmake_run I d L k x v v1 v2 : root_ok I v d L -> made inode_addr meta I SFS_TYPE_FILE k x v v1 -> updated (fun _ => 0) ({[k]} ∪ I) d L v1 v2 ->
  exists v3, vnode_decref inode_addr x v2 = inr (tt, v3) /\ root_ok I v3 d L /\ data_kept (fun j => j ∈ I /\ j <> ino (v_fs v) d) (v_fs v) (v_fs v3) /\
    frame (v_fs v) (v_fs v3) /\ (forall y, refs v3 y = refs v y) /\ forall c, marked (v_fs v2) c -> c <> k -> marked (v_fs v3) c.
Proof.
  intros Hr Hm [U1 U2 U3 U4 U5 U6 U7]. destruct (made_root I d L k x v v1 Hr Hm) as (Hr1 & Hq & Hk & Hl & Hxd). destruct Hm as [M1 [M2 M2'] [M3 M3'] _ M6 _ M8].
  assert (ino (v_fs v1) d = ino (v_fs v) d) as Ed by (unfold ino; by rewrite M3', lookup_insert_ne).
  destruct (root_vnode _ _ _ _ _ _ _ _ _ Hr) as (wd & _ & _ & Ei & HdI & _). assert (k <> ino (v_fs v) d) as Hkd by (intros ->; by rewrite Ei in HdI).
  assert (sfs_vnodes (v_fs v2) !! x = Some (mk_sfs_vnode (empty_inode SFS_TYPE_FILE) k true)) as Hw by (rewrite U5, M3' by done; apply lookup_insert_eq).
  assert (refs v2 x = 1) as Hx by (rewrite U7, M8, decide_True by done; unfold refs; by rewrite M3).
  destruct (decref_run _ _ _ _ ({[k]} ∪ I) v2 d L x _ U1 Hw Hxd) as (v3 & I' & Hdec & [G1 G2 G3 G4 G5 G6 G7 _ G8]). cbn [sv_ino] in *. exists v3. split; [done|].
  unfold left_over in G3. rewrite decide_True in G3 by done.
  assert (I' = I) as ->.
  { rewrite G3. apply set_eq. intros j. rewrite elem_of_difference, elem_of_union, !elem_of_singleton. split; [tauto|]. intros Hj. split; [by right|]. intros ->. done. }
  assert (inode_of (v_fs v2) k = empty_inode SFS_TYPE_FILE) as Hk2.
  { rewrite <- Hk. refine (proj1 (U2 k _)). split; [apply elem_of_union; left; by apply elem_of_singleton|by rewrite Ed]. }
  split_and!; [done| |eapply frame_trans; [exact M6|]; by eapply frame_trans| |].
  - apply quiet_data. eapply quiet_trans; [apply (quiet_less (.∈ I)); [by intros j [Hj _]|exact Hq]|].
    eapply quiet_trans; [eapply quiet_less; [|exact U2]|apply (quiet_less (.∈ I)); [by intros j [Hj _]|exact G2]].
    intros j [Hj Hne]. split; [apply elem_of_union; by right|by rewrite Ed].
  - intros y. rewrite G8, U7, M8. case_decide; lia.
  - intros c Hc Hne. apply (G7 c). split; [done|]. unfold file_block. rewrite Hk2. intros [_ [->|[(i & Hi & <- & Hs)|[<- []]]]]; [done| |done].
    apply Hs. apply slot_empty. lia.
Qed.

Lemma make_run I v d L name : root_ok I v d L -> 0 < vfs_biglock_depth (v_fs v) ->
  exists r o v1, sfs_makeobj inode_addr SFS_TYPE_FILE v = inr ((r, o), v1) /\ frame (v_fs v) (v_fs v1) /\
    ((r <> 0 /\ creat_error L name v v1 r /\ unchanged I d L v v1) \/ (r = 0 /\ exists k x, o = Some x /\ made inode_addr meta I SFS_TYPE_FILE k x v v1)).
Proof.
  intros Hr Hd. destruct (sfs_makeobj_run inode_addr meta I v SFS_TYPE_FILE (ro_volume _ _ _ _ _ _ _ _ _ Hr) Hd (or_introl eq_refl)) as (r & o & v1 & Hrun & Hor).
  exists r, o, v1. split; [done|]. destruct Hor as [(-> & k & x & -> & Hm)|(-> & Hm & Hwhy)].
  - split; [apply Hm|]. right. split; [done|]. by exists k, x.
  - split; [apply Hm|]. left. destruct (not_made_root I d L v v1 Hr Hm) as [Hr1 Hq]. destruct Hm as [M1 M2 M3 M4 M5 M6].
    split_and!; [destruct Hwhy as [[-> _]|[-> _]]; done| |].
    + destruct Hwhy as [[-> Hfull]|[-> Hmem]]; [left|right; by left]. split; [done|]. exists 0. intros c Hc _. apply M5, Hfull. by rewrite <- (fr_nblocks _ _ M4).
    + constructor; [done| |done]. apply (data_less (.∈ I)); [by intros j [Hj _]|by apply quiet_data].
Qed.

(** A new file gets its name, or goes away again. *)
Lemma name_new_run I d L name k x v v3 : root_ok I v d L -> made inode_addr meta I SFS_TYPE_FILE k x v v3 -> 0 < vfs_biglock_depth (v_fs v3) -> is_name name ->
  dir_map L !! name = None ->
  exists r o v4 v5, on_fs (sfs_dir_link tsd sd d name k) v3 = inr ((r, o), v4) /\ frame (v_fs v) (v_fs v5) /\
    ((r = 0 /\ on_fs (put_inode x more_links) v4 = inr (tt, v5) /\ created I d L name k x v v5) \/
     (r <> 0 /\ vnode_decref inode_addr x v4 = inr (tt, v5) /\ creat_error L name v v5 r /\ unchanged I d L v v5)).
Proof.
  intros Hr Hm Hd Hn E. destruct (made_root I d L k x v v3 Hr Hm) as (Hr3 & Hq & Hk & Hl & Hxd). pose proof Hm as [M1 [M2 M2'] [M3 M3'] _ Hfr3 _ M8].
  assert (sfs_vnodes (v_fs v3) !! x = Some (mk_sfs_vnode (empty_inode SFS_TYPE_FILE) k true)) as Hw by (rewrite M3'; apply lookup_insert_eq).
  assert (ino (v_fs v3) d = ino (v_fs v) d) as Ed by (unfold ino; by rewrite M3', lookup_insert_ne).
  destruct (enter_run ({[k]} ∪ I) v3 d L name x _ Hr3 Hd Hn Hw Hxd eq_refl) as (r & o & v4 & Hlink & Hor). cbn [sv_ino] in *. exists r, o, v4.
  destruct Hor as [(-> & _ & v5 & Hput & [(L' & N1 & Nm & _) N2 N3 N4 N5 N6 N7 N8])|(Hne & Herr & Hup)].
  - exists v5. split; [done|]. split; [by eapply frame_trans|]. left. split_and!; [done|done|].
    destruct (root_vnode _ _ _ _ _ _ _ _ _ Hr) as (wd & _ & _ & Ei & HdI & _). assert (k <> ino (v_fs v3) d) as Hkd by (rewrite Ed; intros ->; by rewrite Ei in HdI).
    destruct (N2 k) as (T1 & T2 & _); [split; [apply elem_of_union; left; by apply elem_of_singleton|done]|]. rewrite Hk in T1, T2.
    constructor; [done|by exists L'|done|split; [unfold refs; by rewrite M3|done]| |].
    + eapply data_trans; [apply (data_less (.∈ I)); [by intros j [Hj _]|apply quiet_data, Hq]|].
      eapply data_less; [|exact N2]. intros j [Hj Hjd]. split; [apply elem_of_union; by right|by rewrite Ed].
    + intros y. by rewrite N8, M8.
  - destruct (unmake_run I d L k x v v3 v4 Hr Hm Hup) as (v5 & Hdec & Hr5 & Hdata & Hfr5 & Href5 & Hmk5). exists v5. split; [done|]. split; [done|]. right.
    split_and!; [done|done| |by constructor].
    unfold link_error in Herr. rewrite E in Herr. unfold creat_error. case_decide as Hlen; [by right; right|]. destruct Herr as [[-> Hfull]|[-> Hbig]]; [left|by right; right].
    split; [done|]. exists k. intros c Hcr Hck. apply (Hmk5 c); [|done]. apply Hfull. by rewrite (fr_nblocks _ _ (ud_frame _ _ _ _ _ _ _ _ _ _ Hup)), (fr_nblocks _ _ Hfr3), <- (fr_nblocks _ _ Hfr5).
Qed.

(** What happens after the name was looked for is what happens to the volume. *)
Lemma unchanged_after I d L v v2 v3 : root_ok I (locked v) d L -> calm I d L (locked v) v2 -> (forall y, refs v2 y = refs v y) -> 0 < vfs_biglock_depth (v_fs v3) ->
  unchanged I d L v2 v3 -> unchanged I d L v (unlocked v3).
Proof.
  intros Hr Hc Href Hd [U1 U2 U3]. constructor; [by apply unlocked_root|exact (data_after I d L _ v2 v3 Hr Hc U2)|]. intros y. rewrite <- Href. exact (U3 y).
Qed.

Lemma created_after I d L name k x v v2 v3 : root_ok I (locked v) d L -> calm I d L (locked v) v2 -> (forall y, refs v2 y = refs v y) -> 0 < vfs_biglock_depth (v_fs v3) ->
  created I d L name k x v2 v3 -> created I d L name k x v (unlocked v3).
Proof.
  intros Hr Hc Href Hd [[C1 C1'] (L' & C2 & C2') C3 [C4 C4'] C5 C6]. constructor; [| |done|split; [by rewrite <- Href|done]|exact (data_after I d L _ v2 v3 Hr Hc C5)|].
  - split; [done|]. intros Hmk. apply C1'. unfold marked in *. by rewrite (ca_freemap _ _ _ _ _ _ _ _ _ _ Hc), (fr_nblocks _ _ (ca_frame _ _ _ _ _ _ _ _ _ _ Hc)).
  - exists L'. split; [by apply unlocked_root|done].
  - intros y. rewrite <- Href. exact (C6 y).
Qed.

Lemma creat_run I v d L name excl : root_ok I v d L -> is_name name ->
  exists r o v', sfs_creat inode_addr tsd sd d name excl v = inr ((r, o), v') /\ frame (v_fs v) (v_fs v') /\
    match dir_map L !! name with
    | Some k => if excl then r = EEXIST /\ o = None /\ unchanged I d L v v' else
        (r = 0 /\ exists x, o = Some x /\ opened I d L k x v v') \/ (r = ENOMEM /\ o = None /\ false ∈ v_memory v /\ unchanged I d L v v')
    | None => (r = 0 /\ exists k x, o = Some x /\ created I d L name k x v v') \/ (o = None /\ creat_error L name v v' r /\ unchanged I d L v v')
    end.
Proof.
  intros Hr Hn. destruct (locked_root _ I v d L Hr) as [Hr1 Hd1]. pose proof (vo_depth _ _ _ _ (ro_volume _ _ _ _ _ _ _ _ _ Hr)) as Hd.
  unfold sfs_creat. rewrite biglock_acquire_run. fold (locked v). set (v1 := locked v) in *.
  destruct (find_run _ _ _ _ _ I v1 d L name Hr1 Hd1 Hn) as (r & h & s2 & Hfind & Hc & Evn & Hres). rewrite (srun_call _ _ _ _ _ Hfind). set (v2 := set_fs s2 v1) in *.
  destruct (unlocked_frame v v2 Hd (ca_frame _ _ _ _ _ _ _ _ _ _ Hc)) as [Hfr2 Hd2]. pose proof (ca_root _ _ _ _ _ _ _ _ _ _ Hc) as Hr2.
  assert (forall y, refs v2 y = refs v y) as Href2 by (intros y; by apply (refs_same v1)).
  destruct (dir_map L !! name) as [k|] eqn:E.
  - destruct Hres as (-> & Hino & _). cbn [negb Z.eqb andb]. destruct excl.
    { rewrite unlock_run by done. eexists _, _, _. split; [reflexivity|]. split; [done|]. split_and!; [done|done|by apply unchanged_intro]. }
    rewrite (srun_deref _ _ k) by done. destruct (ro_names _ _ _ _ _ _ _ _ _ Hr2 name k E) as [HkI _].
    destruct (loadvnode_run inode_addr meta I v2 k (ro_volume _ _ _ _ _ _ _ _ _ Hr2) Hd2 HkI) as (r & o & v3 & Hload & Hor). rewrite (srun_call _ _ _ _ _ Hload). cbn [fst snd].
    destruct Hor as [(-> & x & -> & Hld)|(-> & -> & Hm & Hnl)]; cbn [negb Z.eqb ENOMEM].
    + pose proof (calm_trans _ _ _ _ _ _ _ _ _ _ _ Hc (loaded_calm _ _ _ _ _ I d L k v2 x v3 Hr2 Hld)) as Hc3.
      destruct (unlocked_frame v v3 Hd (ca_frame _ _ _ _ _ _ _ _ _ _ Hc3)) as [Hfr3 Hd3]. unfold handed. rewrite (srun_deref _ _ x), unlock_run by done.
      eexists _, _, _. split; [reflexivity|]. split; [done|]. left. split; [done|]. exists x. split; [done|]. destruct Hld as [_ _ _ (w & L4 & L5 & _) L8].
      constructor; [apply unlocked_root; [apply Hc3|done]| |exact (quiet_data _ _ _ (ca_quiet _ _ _ _ _ _ _ _ _ _ Hc3))|intros y; rewrite <- Href2; apply L8].
      exists w. split; [change (sfs_vnodes (v_fs v3) !! x = Some w); rewrite L4; apply lookup_insert_eq|done].
    + pose proof (calm_trans _ _ _ _ _ _ _ _ _ _ _ Hc (not_loaded_calm _ _ _ _ _ I d L v2 v3 Hr2 Hnl)) as Hc3.
      destruct (unlocked_frame v v3 Hd (ca_frame _ _ _ _ _ _ _ _ _ _ Hc3)) as [Hfr3 Hd3]. rewrite unlock_run by done.
      eexists _, _, _. split; [reflexivity|]. split; [done|]. right. split_and!; [done|done|done|]. apply unchanged_intro; [done|done|].
      intros y. rewrite (nl_refs _ _ _ _ _ Hnl). apply Href2.
  - destruct Hres as [-> _]. change (ENOENT =? 0) with false. change (ENOENT =? ENOENT) with true. cbn [negb andb].
    destruct (make_run I v2 d L name Hr2 Hd2) as (r & o & v3 & Hmake & Hfr23 & Hor). rewrite (srun_call _ _ _ _ _ Hmake). cbn [fst snd].
    pose proof (frame_trans _ _ _ (ca_frame _ _ _ _ _ _ _ _ _ _ Hc) Hfr23) as Hfr13. destruct (unlocked_frame v v3 Hd Hfr13) as [Hfr3 Hd3].
    destruct Hor as [(Hne & Hwhy & Hun)|(-> & k & x & -> & Hm)].
    { rewrite (proj2 (Z.eqb_neq _ _) Hne). cbn [negb]. rewrite unlock_run by done. eexists _, _, _. split; [reflexivity|]. split; [done|]. right.
      split_and!; [done|exact Hwhy|by apply (unchanged_after I d L v v2 v3)]. }
    assert (sfs_vnodes (v_fs v3) !! x = Some (mk_sfs_vnode (empty_inode SFS_TYPE_FILE) k true)) as Hw by (rewrite (proj2 (md_vnode _ _ _ _ _ _ _ _ Hm)); apply lookup_insert_eq).
    cbn [negb Z.eqb]. unfold handed. rewrite (srun_deref _ _ x) by done. rewrite (get_vnode v3 x _ _ Hw). cbn [sv_ino].
    destruct (name_new_run I d L name k x v2 v3 Hr2 Hm Hd3 Hn E) as (r & o & v4 & v5 & Hlink & Hfr25 & Hor). rewrite (srun_call _ _ _ _ _ Hlink).
    destruct (unlocked_frame v v5 Hd (frame_trans _ _ _ (ca_frame _ _ _ _ _ _ _ _ _ _ Hc) Hfr25)) as [Hfr Hd5].
    destruct Hor as [(-> & Hput & Hcr)|(Hne & Hdec & Hwhy & Hun)].
    + cbn [Z.eqb negb]. rewrite (srun_call _ _ _ _ _ Hput), unlock_run by done.
      eexists _, _, _. split; [reflexivity|]. split; [done|]. left. split; [done|]. exists k, x. split; [done|]. by apply (created_after I d L name k x v v2 v5).
    + rewrite (proj2 (Z.eqb_neq _ _) Hne). cbn [negb]. rewrite (srun_call _ _ _ _ _ Hdec), unlock_run by done.
      eexists _, _, _. split; [reflexivity|]. split; [done|]. right. split_and!; [done|exact Hwhy|by apply (unchanged_after I d L v v2 v5)].
Qed.
End namespace.
