(* ===== verification/SfsHistory.v ===== *)
(** * SFS: what a user of the names sees

    The theorems about the operations on names, and the whole of them: whatever
    files are looked up, created, linked, removed and renamed, in any order,
    the volume answers as a map from names to files does, and no operation ever
    ends in a panic. *)

From S2P Require Import Prelude State Monad StopState Bitmap Array Uio Device Lhd Sfs SfsSpec SfsBlock SfsBmap SfsRead SfsIo SfsWrite SfsTrunc SfsFile SfsMeta SfsKeeps SfsDir SfsDirSpec SfsDirMap SfsInode SfsVolume SfsInodeRun SfsReclaim SfsVnops SfsNames SfsNamespace.

#[local] Open Scope Z_scope.
#[local] Open Scope sm_scope.

(** ** Requests *)

Inductive request :=
  | RLookup (name : list Z)
  | RCreat (name : list Z) (excl : bool)
  | RLink (oldname newname : list Z)
  | RRemove (name : list Z)
  | RRename (oldname newname : list Z).

Definition request_ok (q : request) : Prop :=
  match q with
  | RLookup n | RCreat n _ | RRemove n => is_name n
  | RLink n n' | RRename n n' => is_name n /\ is_name n'
  end.

(** Why a map does not take a new name. *)
Definition refused (N : gmap (list Z) Z) (name : list Z) (r : Z) : Prop :=
  match N !! name with
  | Some _ => r = EEXIST
  | None => if decide (SFS_NAMELEN <= zlen name) then r = ENAMETOOLONG else r = ENOSPC \/ r = EFBIG
  end.

(** The answers of a map [N] that runs out of memory and space at any time. *)
Definition answers (N : gmap (list Z) Z) (q : request) (r : Z) (N' : gmap (list Z) Z) : Prop :=
  match q with
  | RLookup n => N' = N /\ match N !! n with Some _ => r = 0 \/ r = ENOMEM | None => r = ENOENT end
  | RCreat n excl =>
      match N !! n with
      | Some _ => N' = N /\ if excl then r = EEXIST else r = 0 \/ r = ENOMEM
      | None => (r = 0 /\ exists k, (forall m, N !! m <> Some k) /\ N' = <[n := k]> N) \/ (N' = N /\ (r = ENOMEM \/ r = ENOSPC \/ refused N n r))
      end
  | RLink n n' =>
      match N !! n with
      | Some k => (r = 0 /\ N !! n' = None /\ N' = <[n' := k]> N) \/ (N' = N /\ (r = ENOMEM \/ refused N n' r))
      | None => N' = N /\ r = ENOENT
      end
  | RRemove n =>
      match N !! n with
      | Some _ => (r = 0 /\ N' = delete n N) \/ (N' = N /\ r = ENOMEM)
      | None => N' = N /\ r = ENOENT
      end
  | RRename n n' =>
      match N !! n with
      | Some k => (r = 0 /\ N !! n' = None /\ N' = delete n (<[n' := k]> N)) \/ (N' = N /\ (r = ENOMEM \/ refused N n' r))
      | None => N' = N /\ r = ENOENT
      end
  end.

Inductive history : gmap (list Z) Z -> list request -> list Z -> gmap (list Z) Z -> Prop :=
  | history_nil N : history N [] [] N
  | history_cons N q r N' qs rs N'' : answers N q r N' -> history N' qs rs N'' -> history N (q :: qs) (r :: rs) N''.

Section history.
Context {D : Type} {DV : Device D} {BD : BlockDevice D} {LY : Layout}.
Context (inode_addr : positive -> Z) (tsd sd : Z) (meta : Z -> Prop).

Notation volume := (volume (D := D)).
Notation VM := (SM volume).
Notation volume_ok := (volume_ok inode_addr meta).
Notation root_ok := (root_ok inode_addr tsd sd meta).
Notation unchanged := (unchanged inode_addr tsd sd meta).
Notation opened := (opened inode_addr tsd sd meta).
Implicit Types (I : gset Z) (v : volume) (d : positive).

(** What is opened is closed again. *)
Definition close (o : option positive) : VM unit :=
  match o with Some x => vnode_decref inode_addr x | None => sret tt end.

Definition serve d (q : request) : VM Z :=
  match q with
  | RLookup n => ro <- sfs_lookup inode_addr tsd d n ;; close (snd ro) ;; sret (fst ro)
  | RCreat n excl => ro <- sfs_creat inode_addr tsd sd d n excl ;; close (snd ro) ;; sret (fst ro)
  | RLink n n' =>
      ro <- sfs_lookup inode_addr tsd d n ;;
      match snd ro with
      | None => sret (fst ro)
      | Some x => r <- sfs_link tsd sd d n' x ;; close (Some x) ;; sret r
      end
  | RRemove n => sfs_remove inode_addr tsd sd d n
  | RRename n n' => sfs_rename inode_addr tsd sd d n d n'
  end.

Fixpoint serve_all d (qs : list request) : VM (list Z) :=
  match qs with
  | [] => sret []
  | q :: qs' => r <- serve d q ;; rs <- serve_all d qs' ;; sret (r :: rs)
  end.

(** ** Looking up *)

Lemma lookup_run I v d L name : root_ok I v d L -> is_name name ->
  exists r o v', sfs_lookup inode_addr tsd d name v = inr ((r, o), v') /\ frame (v_fs v) (v_fs v') /\
    match dir_map L !! name with
    | None => r = ENOENT /\ o = None /\ unchanged I d L v v'
    | Some k => (r = 0 /\ exists x, o = Some x /\ opened I d L k x v v') \/ (r = ENOMEM /\ o = None /\ false ∈ v_memory v /\ unchanged I d L v v')
    end.
Proof.
  intros Hr Hn. destruct (locked_root _ _ _ _ _ I v d L Hr) as [Hr1 Hd1]. pose proof (vo_depth _ _ _ _ (ro_volume _ _ _ _ _ _ _ _ _ Hr)) as Hd.
  unfold sfs_lookup. rewrite biglock_acquire_run. fold (locked v). set (v1 := locked v) in *.
  destruct (root_vnode _ _ _ _ _ _ _ _ _ Hr1) as (wd & Hwd & Ht & _). rewrite (get_vnode v1 d wd) by done. rewrite (proj2 (Z.eqb_eq _ _) Ht). cbn [negb].
  destruct (lookonce_run inode_addr tsd sd meta I v1 d L name Hr1 Hd1 Hn) as (r & o & sl & v2 & Hlook & Hc & Hres). rewrite (srun_call _ _ _ _ _ Hlook).
  destruct (unlocked_frame v v2 Hd (ca_frame _ _ _ _ _ _ _ _ _ _ Hc)) as [Hfr2 Hd2]. destruct (dir_map L !! name) as [k|] eqn:E.
  - destruct Hres as [(-> & x & w & j & -> & -> & Hj & Hw & <- & Href)|(-> & Hm & Href)]; cbn [negb Z.eqb ENOMEM].
    + unfold handed. rewrite (srun_deref _ _ x), unlock_run by done. eexists _, _, _. split; [reflexivity|]. split; [done|]. left. split; [done|]. exists x. split; [done|].
      constructor; [apply unlocked_root; [apply Hc|done]|by exists w|exact (quiet_data _ _ _ (ca_quiet _ _ _ _ _ _ _ _ _ _ Hc))|exact Href].
    + rewrite unlock_run by done. eexists _, _, _. split; [reflexivity|]. split; [done|]. right. split_and!; [done|done|done|by apply unchanged_intro].
  - destruct Hres as [-> Href]. change (ENOENT =? 0) with false. cbn [negb]. rewrite unlock_run by done. eexists _, _, _. split; [reflexivity|].
    split; [done|]. split_and!; [done|done|by apply unchanged_intro].
Qed.

(** Closing a file that has a name. *)
Lemma close_run I v d L name x w : root_ok I v d L -> sfs_vnodes (v_fs v) !! x = Some w -> dir_map L !! name = Some (sv_ino w) ->
  exists v', close (Some x) v = inr (tt, v') /\ root_ok I v' d L /\ forall y, refs v' y = refs v y - if decide (y = x) then 1 else 0.
Proof.
  intros Hr Hw E. destruct (name_vnode _ _ _ _ _ I v d L name x w Hr Hw E) as [Hxd _].
  destruct (decref_run _ _ _ _ I v d L x w Hr Hw Hxd) as (v' & I' & Hdec & Hg). exists v'. split; [done|].
  assert (I' = I) as -> by exact (named_stays _ _ _ _ _ _ _ _ _ name _ _ _ Hg E). split; [apply Hg|apply Hg].
Qed.

(** A request changes no reference count. *)
Definition served I d L q v : Prop :=
  exists r v' I' L', serve d q v = inr (r, v') /\ root_ok I' v' d L' /\ answers (dir_map L) q r (dir_map L') /\ forall y, refs v' y = refs v y.

Lemma refused_link v d L name r : link_error v d L name r -> refused (dir_map L) name r.
Proof.
  clear inode_addr tsd sd meta. unfold link_error, refused. destruct (dir_map L !! name); [done|]. case_decide; [done|]. intros [[-> _]|[-> _]]; [by left|by right].
Qed.

Lemma unchanged_served I d L q v v' r : serve d q v = inr (r, v') -> unchanged I d L v v' -> answers (dir_map L) q r (dir_map L) -> served I d L q v.
Proof. intros Hs [U1 _ U3] Ha. by exists r, v', I, L. Qed.

Lemma serve_lookup I v d L n : root_ok I v d L -> is_name n -> served I d L (RLookup n) v.
Proof.
  intros Hr Hn. destruct (lookup_run I v d L n Hr Hn) as (r & o & v1 & Hrun & _ & Hres). destruct (dir_map L !! n) as [k|] eqn:E.
  - destruct Hres as [(-> & x & -> & [O1 (w & Hw & <-) _ O4])|(-> & -> & _ & Hun)].
    + destruct (close_run I v1 d L n x w O1 Hw E) as (v2 & Hcl & Hr2 & Href). exists 0, v2, I, L.
      split; [cbn [serve]; rewrite (srun_call _ _ _ _ _ Hrun); cbn [snd fst]; by rewrite (srun_call _ _ _ _ _ Hcl)|]. split; [done|].
      split; [cbn; rewrite E; by split; [|left]|]. intros y. rewrite Href, O4. case_decide; lia.
    + apply (unchanged_served I d L _ v v1 ENOMEM); [|done|cbn; rewrite E; by split; [|right]]. cbn [serve]. by rewrite (srun_call _ _ _ _ _ Hrun).
  - destruct Hres as (-> & -> & Hun). apply (unchanged_served I d L _ v v1 ENOENT); [|done|cbn; by rewrite E]. cbn [serve]. by rewrite (srun_call _ _ _ _ _ Hrun).
Qed.

Lemma refused_creat L n v v' r : creat_error L n v v' r -> dir_map L !! n = None -> r = ENOMEM \/ r = ENOSPC \/ refused (dir_map L) n r.
Proof.
  clear inode_addr tsd sd meta. unfold creat_error, refused. intros Hc ->. destruct Hc as [[-> _]|[[-> _]|Hc]]; [by right; left|by left|].
  right; right. case_decide; [done|]. destruct Hc as [-> _]. by right.
Qed.

Lemma serve_creat I v d L n excl : root_ok I v d L -> is_name n -> served I d L (RCreat n excl) v.
Proof.
  intros Hr Hn. destruct (creat_run inode_addr tsd sd meta I v d L n excl Hr Hn) as (r & o & v1 & Hrun & _ & Hres).
  assert (serve d (RCreat n excl) v = (close o ;; sret r) v1) as Hs by (cbn [serve]; by rewrite (srun_call _ _ _ _ _ Hrun)).
  destruct (dir_map L !! n) as [k|] eqn:E.
  - destruct excl.
    { destruct Hres as (-> & -> & Hun). apply (unchanged_served I d L _ v v1 EEXIST); [done|done|cbn; by rewrite E]. }
    destruct Hres as [(-> & x & -> & [O1 (w & Hw & <-) _ O4])|(-> & -> & _ & Hun)].
    + destruct (close_run I v1 d L n x w O1 Hw E) as (v2 & Hcl & Hr2 & Href). exists 0, v2, I, L.
      split; [rewrite Hs; by rewrite (srun_call _ _ _ _ _ Hcl)|]. split; [done|].
      split; [cbn; rewrite E; by split; [|left]|]. intros y. rewrite Href, O4. case_decide; lia.
    + apply (unchanged_served I d L _ v v1 ENOMEM); [done|done|cbn; rewrite E; by split; [|right]].
  - destruct Hres as [(-> & k & x & -> & [[C1 _] (L' & C2 & Cm) _ [_ (w & Hw & Ek)] _ C6])|(-> & Hwhy & Hun)].
    + destruct (close_run _ v1 d L' n x w C2 Hw) as (v2 & Hcl & Hr2 & Href); [rewrite Cm, Ek; apply lookup_insert_eq|]. exists 0, v2, ({[k]} ∪ I), L'.
      split; [rewrite Hs; by rewrite (srun_call _ _ _ _ _ Hcl)|]. split; [done|]. split.
      * cbn. rewrite E. left. split; [done|]. exists k. split; [|done]. intros m Hm. apply C1. by apply (ro_names _ _ _ _ _ _ _ _ _ Hr m).
      * intros y. rewrite Href, C6. case_decide; lia.
    + apply (unchanged_served I d L _ v v1 r); [done|done|]. cbn. rewrite E. right. split; [done|]. by eapply refused_creat.
Qed.

Lemma serve_link I v d L n n' : root_ok I v d L -> is_name n -> is_name n' -> served I d L (RLink n n') v.
Proof.
  intros Hr Hn Hn'. destruct (lookup_run I v d L n Hr Hn) as (r & o & v1 & Hrun & _ & Hres). destruct (dir_map L !! n) as [k|] eqn:E.
  2: { destruct Hres as (-> & -> & Hun). apply (unchanged_served I d L _ v v1 ENOENT); [|done|cbn; by rewrite E]. cbn [serve]. by rewrite (srun_call _ _ _ _ _ Hrun). }
  destruct Hres as [(-> & x & -> & [O1 (w & Hw & <-) _ O4])|(-> & -> & _ & Hun)].
  2: { apply (unchanged_served I d L _ v v1 ENOMEM); [|done|cbn; rewrite E; right; by split; [|left]]. cbn [serve]. by rewrite (srun_call _ _ _ _ _ Hrun). }
  destruct (name_vnode _ _ _ _ _ I v1 d L n x w O1 Hw E) as [_ Hty].
  destruct (sfs_link_run inode_addr tsd sd meta I v1 d L n' x w O1 Hn' Hw) as (r & v2 & Hlink & _ & (w2 & Hw2 & Ek2) & Hres).
  assert (serve d (RLink n n') v = (close (Some x) ;; sret r) v2) as Hs.
  { cbn [serve]. rewrite (srun_call _ _ _ _ _ Hrun). cbn [snd]. by rewrite (srun_call _ _ _ _ _ Hlink). }
  rewrite decide_False in Hres by (by rewrite Hty).
  assert (exists L2, root_ok I v2 d L2 /\ dir_map L2 !! n = Some (sv_ino w2) /\ (forall y, refs v2 y = refs v1 y) /\
    answers (dir_map L) (RLink n n') r (dir_map L2)) as (L2 & Hr2 & E2 & Href2 & Ha).
  { rewrite Ek2. destruct Hres as [(-> & Hnone & [(L2 & Hr2 & Hm) _ Href])|(_ & Herr & [Hr2 _ Href])]; [exists L2|exists L]; split_and!; try done.
    - rewrite Hm, lookup_insert_ne; [done|]. congruence.
    - cbn. rewrite E. by left.
    - cbn. rewrite E. right. split; [done|]. right. by eapply refused_link. }
  destruct (close_run I v2 d L2 n x w2 Hr2 Hw2 E2) as (v3 & Hcl & Hr3 & Href3). exists r, v3, I, L2.
  split; [rewrite Hs; by rewrite (srun_call _ _ _ _ _ Hcl)|]. split_and!; [done|done|]. intros y. rewrite Href3, Href2, O4. case_decide; lia.
Qed.

Lemma serve_remove I v d L n : root_ok I v d L -> is_name n -> served I d L (RRemove n) v.
Proof.
  intros Hr Hn. destruct (remove_run inode_addr tsd sd meta I v d L n Hr Hn) as (r & v1 & Hrun & _ & Hres). destruct (dir_map L !! n) as [k|] eqn:E.
  - destruct Hres as [(-> & [(L' & Hr' & Hm) _ Href])|(-> & _ & Hun)].
    + exists 0, v1, (after_unlink I v (dir_map L) k), L'. split_and!; [done|done| |done]. cbn. rewrite E. by left.
    + apply (unchanged_served I d L _ v v1 ENOMEM); [done|done|]. cbn. rewrite E. by right.
  - destruct Hres as [-> Hun]. apply (unchanged_served I d L _ v v1 ENOENT); [done|done|]. cbn. by rewrite E.
Qed.

Lemma serve_rename I v d L n n' : root_ok I v d L -> is_name n -> is_name n' -> served I d L (RRename n n') v.
Proof.
  intros Hr Hn Hn'. destruct (rename_run inode_addr tsd sd meta I v d L n n' Hr Hn Hn') as (r & v1 & Hrun & _ & Hres). destruct (dir_map L !! n) as [k|] eqn:E.
  - destruct Hres as [(-> & Hnone & [(L' & Hr' & Hm) _ Href])|[(-> & _ & Hun)|(_ & Herr & Hun)]].
    + exists 0, v1, I, L'. split_and!; [done|done| |done]. cbn. rewrite E. by left.
    + apply (unchanged_served I d L _ v v1 ENOMEM); [done|done|]. cbn. rewrite E. right. by split; [|left].
    + apply (unchanged_served I d L _ v v1 r); [done|done|]. cbn. rewrite E. right. split; [done|]. right. by eapply refused_link.
  - destruct Hres as [-> Hun]. apply (unchanged_served I d L _ v v1 ENOENT); [done|done|]. cbn. by rewrite E.
Qed.

Lemma serve_run I v d L q : root_ok I v d L -> request_ok q -> served I d L q v.
Proof.
  intros Hr. destruct q; cbn [request_ok]; [by apply serve_lookup|by apply serve_creat|intros []; by apply serve_link|by apply serve_remove|intros []; by apply serve_rename].
Qed.

Lemma serve_all_run d qs : Forall request_ok qs -> forall I v L, root_ok I v d L ->
  exists rs v' I' L', serve_all d qs v = inr (rs, v') /\ root_ok I' v' d L' /\ history (dir_map L) qs rs (dir_map L') /\ forall y, refs v' y = refs v y.
Proof.
  induction 1 as [|q qs Hq _ IH]; intros I v L Hr; [exists [], v, I, L; split_and!; [done|done|constructor|done]|].
  destruct (serve_run I v d L q Hr Hq) as (r & v1 & I1 & L1 & Hrun & Hr1 & Ha & Href1). destruct (IH I1 v1 L1 Hr1) as (rs & v2 & I2 & L2 & Hrun2 & Hr2 & Hh & Href2).
  exists (r :: rs), v2, I2, L2. cbn [serve_all]. split_and!; [by rewrite (srun_call _ _ _ _ _ Hrun), (srun_call _ _ _ _ _ Hrun2)|done|by econstructor|].
  intros y. by rewrite Href2.
Qed.

(** An inode that left memory comes back from the disk as it was. *)
Lemma reclaim_load_run I v x w : volume_ok I v -> 0 < vfs_biglock_depth (v_fs v) -> sfs_vnodes (v_fs v) !! x = Some w -> v_ref v !! x = Some 1 -> sfi_linkcount (sv_i w) <> 0 ->
  exists v1 r o v2, sfs_reclaim inode_addr x v = inr (0, v1) /\ sfs_vnodes (v_fs v1) !! x = None /\
    sfs_loadvnode inode_addr (sv_ino w) SFS_TYPE_INVAL v1 = inr ((r, o), v2) /\
    ((r = 0 /\ exists y w', o = Some y /\ sfs_vnodes (v_fs v2) !! y = Some w' /\ sv_ino w' = sv_ino w /\ sv_i w' = sv_i w /\ refs v2 y = 1 /\
        forall p, 0 <= p < SFS_MAXSIZE -> file_byte (sec (v_fs v2)) (sv_i w') p = file_byte (sec (v_fs v)) (sv_i w) p) \/
     (r = ENOMEM /\ false ∈ v_memory v)).
Proof.
  intros Hv Hd Hw Hr Hl. destruct (sfs_reclaim_kept inode_addr meta I v x w Hv Hw Hr Hl) as (v1 & Hrun & [R1 R2 [R3 _] [R4 R5] R6 R7]).
  pose proof (vo_vnodes _ _ _ _ Hv) as Hvn. pose proof (vn_inos _ _ Hvn x w Hw) as HkI. pose proof (inode_loaded I _ x w Hvn Hw) as Hin.
  destruct (quiet_files I _ _ R4 R5 (sv_ino w) HkI) as [E1 B1]. rewrite Hin in E1, B1.
  destruct (loadvnode_run inode_addr meta I v1 (sv_ino w) R1) as (r & o & v2 & Hload & Hor); [rewrite (fr_depth _ _ R3); done|done|].
  exists v1, r, o, v2. split; [done|]. split; [rewrite R2; apply lookup_delete_eq|]. split; [done|].
  destruct Hor as [(-> & y & -> & [L1 L2 L3 (w' & L4 & L5 & L6 & L7) L8])|(-> & _ & Hm & _)]; [left|right; by rewrite <- R7].
  assert (sfs_vnodes (v_fs v2) !! y = Some w') as Hw' by (rewrite L4; apply lookup_insert_eq).
  assert (sfs_vnodes (v_fs v1) !! y = None) as Hy.
  { destruct L7 as [|Hy]; [done|]. rewrite R2 in Hy. apply lookup_delete_Some in Hy as [Hne Hy]. exfalso. apply Hne. by eapply (vn_once _ _ Hvn). }
  split; [done|]. exists y, w'. split_and!; [done|done|done|congruence|rewrite L8, decide_True by done; unfold refs; by rewrite Hy|].
  intros p Hp. rewrite L6, E1, <- B1 by done. apply file_byte_ext; [done|]. apply L2.
Qed.

(** (C16) Any sequence of lookups, creations, links, removals and renamings in a
    well-formed volume runs to its end without a panic or a failed assertion.
    The answers are those of a map from names to files, which the directory
    then holds; the volume is well formed again, every link count is the number
    of names of its file, and no reference to a vnode is left over or lost. *)
Theorem sfs_names_refine I v d L qs : root_ok I v d L -> Forall request_ok qs ->
  exists rs v' I' L', serve_all d qs v = inr (rs, v') /\ root_ok I' v' d L' /\ history (dir_map L) qs rs (dir_map L') /\ forall y, refs v' y = refs v y.
Proof. intros Hr Hq. by apply (serve_all_run d qs Hq I). Qed.

(** (C17) [sfs_creat] on a name that is there fails with [EEXIST] or opens the
    file; on a new name it makes an empty file of a number and a block nobody
    used, enters the name and gives the file the link count 1, or leaves all
    files and names as they were and says why: no free block but one, no memory,
    the name too long, the directory full. *)
Theorem sfs_creat_creates I v d L name excl : root_ok I v d L -> is_name name ->
  exists r o v', sfs_creat inode_addr tsd sd d name excl v = inr ((r, o), v') /\ frame (v_fs v) (v_fs v') /\
    match dir_map L !! name with
    | Some k => if excl then r = EEXIST /\ o = None /\ unchanged I d L v v' else
        (r = 0 /\ exists x, o = Some x /\ opened I d L k x v v') \/ (r = ENOMEM /\ o = None /\ false ∈ v_memory v /\ unchanged I d L v v')
    | None => (r = 0 /\ exists k x, o = Some x /\ created inode_addr tsd sd meta I d L name k x v v') \/ (o = None /\ creat_error L name v v' r /\ unchanged I d L v v')
    end.
Proof. apply creat_run. Qed.

(** (C20) [sfs_link] gives a file one more name and counts it, or, when the file
    is a directory or the name cannot be entered, changes nothing. *)
Theorem sfs_link_links I v d L name x w : root_ok I v d L -> is_name name -> sfs_vnodes (v_fs v) !! x = Some w ->
  exists r v', sfs_link tsd sd d name x v = inr (r, v') /\ frame (v_fs v) (v_fs v') /\ (exists w', sfs_vnodes (v_fs v') !! x = Some w' /\ sv_ino w' = sv_ino w) /\
    if decide (sfi_type (sv_i w) = SFS_TYPE_DIR) then r = EINVAL /\ unchanged I d L v v' else
    (r = 0 /\ dir_map L !! name = None /\ linked inode_addr tsd sd meta I d L name (sv_ino w) v v') \/ (r <> 0 /\ link_error v' d L name r /\ unchanged I d L v v').
Proof. apply sfs_link_run. Qed.

(** (C18) [sfs_remove] takes the name away and keeps the file as long as it has
    another name or is open. It is erased exactly when it has neither: then the
    block of its inode and every block it used are free again, and otherwise no
    block changes its state. The other blocks stay as they were in use, and the
    other files keep their bytes. *)
Theorem sfs_remove_removes I v d L name : root_ok I v d L -> is_name name ->
  exists r v', sfs_remove inode_addr tsd sd d name v = inr (r, v') /\ frame (v_fs v) (v_fs v') /\
    match dir_map L !! name with
    | None => r = ENOENT /\ unchanged I d L v v'
    | Some k => (r = 0 /\ removed inode_addr tsd sd meta I d L name k v v') \/ (r = ENOMEM /\ false ∈ v_memory v /\ unchanged I d L v v')
    end.
Proof. apply remove_run. Qed.

(** (C19) [sfs_rename] moves a name: the file is found under the new name and no
    longer under the old one, with the same bytes and the same link count; it
    fails with [EEXIST] when the new name is taken, and when it fails nothing
    has changed. *)
Theorem sfs_rename_renames I v d L n1 n2 : root_ok I v d L -> is_name n1 -> is_name n2 ->
  exists r v', sfs_rename inode_addr tsd sd d n1 d n2 v = inr (r, v') /\ frame (v_fs v) (v_fs v') /\
    match dir_map L !! n1 with
    | None => r = ENOENT /\ unchanged I d L v v'
    | Some k => (r = 0 /\ dir_map L !! n2 = None /\ renamed inode_addr tsd sd meta I d L n1 n2 k v v') \/ (r = ENOMEM /\ false ∈ v_memory v /\ unchanged I d L v v') \/
        (r <> 0 /\ link_error v' d L n2 r /\ unchanged I d L v v')
    end.
Proof. apply rename_run. Qed.

(** (C21) Giving up the last reference to a file without a name erases it: its
    vnode, its inode and exactly the blocks it used are free afterwards, and
    every other file is what it was. *)
Theorem sfs_reclaim_erases I v x w : volume_ok I v -> sfs_vnodes (v_fs v) !! x = Some w -> v_ref v !! x = Some 1 -> sfi_linkcount (sv_i w) = 0 ->
  exists v', sfs_reclaim inode_addr x v = inr (0, v') /\ erased inode_addr meta I x (sv_ino w) (sv_i w) v v'.
Proof. apply sfs_reclaim_erased. Qed.

(** (C22) A file with a name whose last reference is given up and that is loaded
    again is the same: inode number, size, link count, blocks and bytes, with
    one reference. *)
Theorem sfs_reclaim_load I v x w : volume_ok I v -> 0 < vfs_biglock_depth (v_fs v) -> sfs_vnodes (v_fs v) !! x = Some w -> v_ref v !! x = Some 1 -> sfi_linkcount (sv_i w) <> 0 ->
  exists v1 r o v2, sfs_reclaim inode_addr x v = inr (0, v1) /\ sfs_vnodes (v_fs v1) !! x = None /\
    sfs_loadvnode inode_addr (sv_ino w) SFS_TYPE_INVAL v1 = inr ((r, o), v2) /\
    ((r = 0 /\ exists y w', o = Some y /\ sfs_vnodes (v_fs v2) !! y = Some w' /\ sv_ino w' = sv_ino w /\ sv_i w' = sv_i w /\ refs v2 y = 1 /\
        forall p, 0 <= p < SFS_MAXSIZE -> file_byte (sec (v_fs v2)) (sv_i w') p = file_byte (sec (v_fs v)) (sv_i w) p) \/
     (r = ENOMEM /\ false ∈ v_memory v)).
Proof. apply reclaim_load_run. Qed.
End history.

(** ** A volume *)

#[local] Existing Instance ex_layout.
#[local] Existing Instance ex_device.
#[local] Existing Instance ex_block_device.

(** The root directory, inode 1, with the name "a" of inode 4, a file of two
    bytes in block 5 with link count [c]; both are open.  Block 0 is the
    superblock and block 2 the map of the free blocks. *)
Definition ex_file (c : Z) : sfs_dinode := mk_dinode 2 SFS_TYPE_FILE c (5 :: replicate 14 0) 0 (replicate 110 0).
Definition ex_names_disk (c : Z) : lhd_softc plain_card :=
  mk_lhd 0xbfe08000 0 1 0 64 0 0 (mk_plain_card 64 (<[ 1 := encode_dinode ex_root ]> (<[ 4 := encode_dinode (ex_file c) ]> {[ 3 := ex_dir_block ]})) 0).
Definition ex_map : bitmap := mk_bitmap 4096 ((63 :: replicate 7 0) ++ replicate 504 255).
Definition ex_names_fs (c : Z) : sfs_fs (lhd_softc plain_card) :=
  mk_sfs ∅ (ex_names_disk c) ex_map true 64
    (<[ 1%positive := mk_sfs_vnode ex_root 1 true ]> {[ 2%positive := mk_sfs_vnode (ex_file c) 4 true ]}) 1.
Definition ex_names (c : Z) : volume :=
  mk_volume (ex_names_fs c) (mk_array [Some 1%positive; Some 2%positive] 2 2) (<[ 1%positive := 1 ]> {[ 2%positive := 1 ]}) [].
Definition ex_inodes : gset Z := {[ 1; 4 ]}.
Definition ex_meta (b : Z) : Prop := b = 0 \/ b = 2.
Definition ex_inode_addr (x : positive) : Z := 0x80500000 + 512 * (Zpos x mod 1024).

Lemma first_slot (f : Z -> list Z) n b i : sfi_direct n = b :: replicate 14 0 -> sfi_indirect n = 0 -> 0 <= i -> slot f n i <> 0 -> i = 0 /\ slot f n i = b.
Proof.
  intros Hd Hn Hi. unfold slot. rewrite Hd, Hn. cbn [Z.eqb]. destruct (Z.ltb_spec i SFS_NDIRECT); [|done]. destruct (decide (i = 0)) as [->|Hne]; [done|].
  intros []. unfold zlookup. rewrite (proj2 (Z.ltb_ge i 0)) by lia. replace (Z.to_nat i) with (S (Z.to_nat i - 1)) by lia. cbn [lookup list_lookup].
  by destruct (replicate 14 0 !! (Z.to_nat i - 1)%nat) as [z|] eqn:E; [apply lookup_replicate in E as [-> _]|].
Qed.

(** Two inodes, however they are called, with one block each. *)
Lemma ex_blocks {K} `{Countable K} f (R : Z -> Prop) (M : gmap K sfs_dinode) (a b : K) c (mk : Z -> Prop) : a <> b ->
  (forall x n, M !! x = Some n -> (x = a /\ n = ex_root) \/ (x = b /\ n = ex_file c)) ->
  (forall z, R z -> mk z /\ z <> 3 /\ z <> 5) -> mk 3 -> mk 5 -> blocks_ok f R M mk.
Proof.
  intros Hab HM HR H3 H5.
  assert (forall k z, uses f R M k z -> (k = KOther z /\ R z) \/ (k = KSlot a 0 /\ z = 3) \/ (k = KSlot b 0 /\ z = 5)) as Hu.
  { intros [x i|x|y] z; cbn [uses].
    - intros (n & Hn & Hi & <- & Hz). right. destruct (HM x n Hn) as [[-> ->]|[-> ->]].
      + left. destruct (first_slot f ex_root 3 i) as [-> ->]; [done|done|lia|done|done].
      + right. destruct (first_slot f (ex_file c) 5 i) as [-> ->]; [done|done|lia|done|done].
    - intros (n & Hn & <- & Hz). by destruct (HM x n Hn) as [[-> ->]|[-> ->]].
    - intros [-> ?]. by left. }
  constructor.
  - intros x n Hn. by destruct (HM x n Hn) as [[-> ->]|[-> ->]].
  - intros k z [[_ Hz]|[[_ ->]|[_ ->]]]%Hu; [by apply HR|done|done].
  - intros k k' z [[-> Hz]|[[-> ->]|[-> ->]]]%Hu Hk'; apply Hu in Hk' as [[-> Hz']|[[-> Hz']|[-> Hz']]]; try done;
      exfalso; subst; (apply HR in Hz as (_ & ? & ?) || apply HR in Hz' as (_ & ? & ?)); done.
Qed.

Lemma ex_vnode c x w : sfs_vnodes (ex_names_fs c) !! x = Some w ->
  (x = 1%positive /\ w = mk_sfs_vnode ex_root 1 true) \/ (x = 2%positive /\ w = mk_sfs_vnode (ex_file c) 4 true).
Proof.
  cbn. intros [[<- <-]|[_ [<- <-]%lookup_singleton_Some]]%lookup_insert_Some; [by left|by right].
Qed.

Lemma ex_vnodes_ok c : vnodes_ok ex_inodes (ex_names_fs c).
Proof.
  constructor.
  - intros x w [[-> ->]|[-> ->]]%ex_vnode; cbn; unfold ex_inodes; set_solver.
  - intros x y w w' [[-> ->]|[-> ->]]%ex_vnode [[-> ->]|[-> ->]]%ex_vnode; done.
Qed.

Lemma ex_inode_of c k : k ∈ ex_inodes -> (k = 1 /\ inode_of (ex_names_fs c) k = ex_root) \/ (k = 4 /\ inode_of (ex_names_fs c) k = ex_file c).
Proof.
  intros [->%elem_of_singleton| ->%elem_of_singleton]%elem_of_union; [left|right]; (split; [done|]).
  - exact (inode_loaded ex_inodes (ex_names_fs c) 1%positive (mk_sfs_vnode ex_root 1 true) (ex_vnodes_ok c) eq_refl).
  - exact (inode_loaded ex_inodes (ex_names_fs c) 2%positive (mk_sfs_vnode (ex_file c) 4 true) (ex_vnodes_ok c) eq_refl).
Qed.

Lemma ex_marked c z : 0 <= z < 6 -> marked (ex_names_fs c) z.
Proof. intros Hz. assert (z = 0 \/ z = 1 \/ z = 2 \/ z = 3 \/ z = 4 \/ z = 5) as Hc by lia. by destruct Hc as [->|[->|[->|[->|[->| ->]]]]]. Qed.

Lemma ex_map_beyond b : 64 <= b < 4096 -> bit ex_map b = true.
Proof.
  intros Hb. unfold bit, ex_map. cbn [bm_v]. unfold zlookup. rewrite (proj2 (Z.ltb_ge (b / 8) 0)) by lia.
  rewrite (lookup_app_r (63 :: replicate 7 0)) by (cbn; lia). rewrite lookup_replicate_2 by (cbn; lia).
  by rewrite (Z.ones_spec_low 8) by lia.
Qed.

Lemma ex_map_wf : bitmap_wf ex_map.
Proof.
  constructor; [done|done| |].
  - intros i w Hw. unfold zlookup in Hw. destruct (i <? 0); [done|].
    assert (Forall (fun w => 0 <= w < 256) (bm_v ex_map)) as Hf by (apply Forall_app; split; [apply Forall_cons; split; [lia|]|]; apply Forall_replicate; lia).
    by eapply Forall_lookup_1 in Hf.
  - intros i Hi. change (4096 <= i < 4096) in Hi. lia.
Qed.

Lemma ex_root_wf : inode_wf ex_root.
Proof. constructor; try done; (split; [done|]); [constructor; [done|]|]; by apply Forall_replicate. Qed.
Lemma ex_file_wf c : is_u16 c -> inode_wf (ex_file c).
Proof. intros Hc. constructor; try done; (split; [done|]); [constructor; [done|]|]; by apply Forall_replicate. Qed.

Lemma ex_names_disk_ready c : is_u16 c -> dv_ready (ex_names_disk c).
Proof.
  intros Hc. apply plain_ready; try done. unfold pc_working. cbn [ex_names_disk lh_card pc_sectors].
  apply map_Forall_insert_2; [by apply length_encode_dinode, ex_root_wf|].
  apply map_Forall_insert_2; [by apply length_encode_dinode, ex_file_wf|]. by apply map_Forall_singleton.
Qed.

Lemma ex_names_fs_ok c : is_u16 c -> sfs_ok (fun _ => False) (ex_names_fs c).
Proof.
  intros Hc. destruct ex_dir_volume_ok as [_ S2 S3 _ _ _ _ _ S9 S10 S11 S12].
  constructor; [by apply ex_names_disk_ready|exact S2|exact S3|exact ex_map_wf|done|exact ex_map_beyond|done| |exact S9|exact S10|exact S11|exact S12].
  apply (ex_blocks _ _ _ 1%positive 2%positive c); [done| |done|by apply ex_marked|by apply ex_marked].
  intros x n (w & Hw & ->)%inodes_vnode. apply ex_vnode in Hw as [[-> ->]|[-> ->]]; [by left|by right].
Qed.

Lemma ex_names_ok c : is_u16 c -> volume_ok ex_inode_addr ex_meta ex_inodes (ex_names c).
Proof.
  intros Hc. constructor.
  - exact (ex_names_fs_ok c Hc).
  - done.
  - apply (ex_blocks _ _ _ 1 4 c); [done| | |apply (ex_marked c); lia|apply (ex_marked c); lia].
    + intros k n [Hk ->]%lookup_files. destruct (ex_inode_of c k Hk) as [[-> E]|[-> E]]; [left|right]; (split; [done|exact E]).
    + intros z [[->| ->]|Hz]; [split; [apply (ex_marked c); lia|done]|split; [apply (ex_marked c); lia|done]|].
      apply elem_of_union in Hz as [->%elem_of_singleton| ->%elem_of_singleton]; (split; [apply (ex_marked c); lia|done]).
  - apply ex_vnodes_ok.
  - intros k Hk. cbn [v_fs ex_names]. destruct (ex_inode_of c k Hk) as [[-> ->]|[-> ->]]; (constructor; [done|(by left) || (by right)|done|]); (split; [done|]); by apply Forall_replicate.
  - intros x w [[-> ->]|[-> ->]]%(ex_vnode c) [=].
  - exists [1%positive; 2%positive]. split; [by constructor|]. split; [by repeat constructor; set_solver|].
    intros x. split; [intros [->|[->|[]%elem_of_nil]%elem_of_cons]%elem_of_cons; by eexists|]. intros [w [[-> _]|[-> _]]%(ex_vnode c)]; set_solver.
  - intros x [w [[-> _]|[-> _]]%(ex_vnode c)]; by exists 1.
  - intros x a Ha [Hs|[[] Hs]]; rewrite !elem_span in *; cbn in Hs; unfold ex_inode_addr, SFS_BLOCKSIZE in *; pose proof (Z.mod_pos_bound (Zpos x) 1024 ltac:(lia)); lia.
  - intros k Hk. unfold ex_meta. destruct (ex_inode_of c k Hk) as [[-> _]|[-> _]]; (split; [lia|done]).
Qed.

Lemma ex_root_ok : root_ok ex_inode_addr 0x80400000 0x80400040 ex_meta ex_inodes (ex_names 1) 1%positive [ex_entry].
Proof.
  assert (dir_map [ex_entry] = {[ [97] := 4 ]}) as Hm by (by vm_compute). constructor.
  - by apply ex_names_ok.
  - constructor; [|done|exact (id_distinct _ _ _ ex_is_dir)]. exists (mk_sfs_vnode ex_root 1 true). split_and!; [done|done|done|]. by vm_compute.
  - done.
  - intros name k. rewrite Hm. intros [_ <-]%lookup_singleton_Some. split; [unfold ex_inodes; set_solver|].
    destruct (ex_inode_of 1 4) as [[[=] _]|[_ E]]; [unfold ex_inodes; set_solver|]. cbn [v_fs ex_names]. by rewrite E.
  - intros k Hk Hne. rewrite Hm. cbn [v_fs ex_names] in *. destruct (ex_inode_of 1 k Hk) as [[-> E]|[-> E]]; [by destruct Hne|]. rewrite E. by vm_compute.
  - apply (meta_buffer_frame ex_dir_volume); [apply ex_stack_buffer; by left|done].
  - apply (meta_buffer_frame ex_dir_volume); [apply ex_stack_buffer; by right|done].
Qed.

(** ** The theorems at the volume *)

#[local] Notation ex_serve_all := (serve_all ex_inode_addr 0x80400000 0x80400040 1%positive).
#[local] Notation ex_root_at := (root_ok ex_inode_addr 0x80400000 0x80400040 ex_meta).

(** Create "b", link it as "c", rename "a" to "b" (refused) and to "d", remove
    "b" and "c", look up "b". *)
Definition ex_requests : list request :=
  [RCreat [98] true; RLink [98] [99]; RRename [97] [98]; RRename [97] [100]; RRemove [98]; RRemove [99]; RLookup [98]].

Definition answered {A S} (r : stop_reason + (list A * S)) : list A := match r with inr (rs, _) => rs | inl _ => [] end.

Lemma ex_answers : answered (ex_serve_all ex_requests (ex_names 1)) = [0; 0; EEXIST; 0; 0; 0; ENOENT].
Proof. vm_compute. reflexivity. Qed.

Lemma ex_requests_ok : Forall request_ok ex_requests.
Proof. repeat constructor; done. Qed.

Lemma sfs_names_refine_witness :
  exists v' I' L', ex_serve_all ex_requests (ex_names 1) = inr ([0; 0; EEXIST; 0; 0; 0; ENOENT], v') /\ ex_root_at I' v' 1%positive L' /\
    history {[ [97] := 4 ]} ex_requests [0; 0; EEXIST; 0; 0; 0; ENOENT] (dir_map L').
Proof.
  destruct (sfs_names_refine ex_inode_addr 0x80400000 0x80400040 ex_meta ex_inodes (ex_names 1) 1%positive [ex_entry] ex_requests ex_root_ok ex_requests_ok)
    as (rs & v' & I' & L' & Hrun & Hr & Hh & _).
  assert (rs = [0; 0; EEXIST; 0; 0; 0; ENOENT]) as -> by (rewrite <- ex_answers, Hrun; reflexivity).
  exists v', I', L'. split; [exact Hrun|]. split; [exact Hr|exact Hh].
Defined.

Lemma sfs_creat_creates_witness :
  exists r o v', sfs_creat ex_inode_addr 0x80400000 0x80400040 1%positive [98] true (ex_names 1) = inr ((r, o), v') /\ frame (v_fs (ex_names 1)) (v_fs v').
Proof.
  destruct (sfs_creat_creates ex_inode_addr 0x80400000 0x80400040 ex_meta ex_inodes (ex_names 1) 1%positive [ex_entry] [98] true ex_root_ok) as (r & o & v' & Hrun & Hfr & _);
    [by apply ex_name|].
  exists r, o, v'. split; [exact Hrun|exact Hfr].
Defined.

Lemma sfs_link_links_witness :
  exists r v', sfs_link 0x80400000 0x80400040 1%positive [98] 2%positive (ex_names 1) = inr (r, v') /\ frame (v_fs (ex_names 1)) (v_fs v').
Proof.
  destruct (sfs_link_links ex_inode_addr 0x80400000 0x80400040 ex_meta ex_inodes (ex_names 1) 1%positive [ex_entry] [98] 2%positive
    (mk_sfs_vnode (ex_file 1) 4 true) ex_root_ok) as (r & v' & Hrun & Hfr & _); [by apply ex_name|reflexivity|].
  exists r, v'. split; [exact Hrun|exact Hfr].
Defined.

(** The file is closed: it stays, with its name, and is not loaded. *)
Lemma ex_closed : exists v, vnode_decref ex_inode_addr 2%positive (ex_names 1) = inr (tt, v) /\ ex_root_at ex_inodes v 1%positive [ex_entry] /\
  in_core (v_fs v) 4 = None /\ file_block (v_fs v) 4 5 /\ v_memory v = [].
Proof.
  destruct (decref_run ex_inode_addr 0x80400000 0x80400040 ex_meta ex_inodes (ex_names 1) 1%positive [ex_entry] 2%positive (mk_sfs_vnode (ex_file 1) 4 true) ex_root_ok)
    as (v & I' & Hrun & Hg); [done|done|]. cbn [sv_ino] in Hg.
  assert (dir_map [ex_entry] !! [97] = Some 4) as E by (vm_compute; reflexivity).
  pose proof (named_stays _ _ _ _ _ _ _ _ 4 [97] _ _ _ Hg E) as ->. exists v. destruct Hg as [G1 G2 _ _ G5 G6 _ _ G9].
  assert (4 ∈ ex_inodes) as H4 by (unfold ex_inodes; set_solver). pose proof (G2 4 H4) as [E4 _].
  split; [exact Hrun|]. split; [exact G1|]. split_and!; [|left; exists 0|exact G6].
  - apply in_core_None. intros y u Hu Ek. destruct (decide (y = 2%positive)) as [->|Hy].
    + destruct (vo_refs _ _ _ _ (ro_volume _ _ _ _ _ _ _ _ _ G1) 2%positive) as (n & Hn & Hpos); [by exists u|].
      specialize (G9 2%positive). unfold refs at 1 in G9. rewrite Hu, Hn in G9. change (n = 0) in G9. lia.
    + rewrite G5 in Hu by exact Hy. change (v_fs (ex_names 1)) with (ex_names_fs 1) in Hu.
      destruct (ex_vnode 1 y u Hu) as [[_ Eu]|[Eu _]]; [rewrite Eu in Ek; discriminate Ek|exact (Hy Eu)].
  - rewrite E4. destruct (ex_inode_of 1 4 H4) as [[[=] _]|[_ E']]. change (v_fs (ex_names 1)) with (ex_names_fs 1). rewrite E'.
    clear. split; [unfold SFS_MAXBLOCKS, SFS_NDIRECT, SFS_DBPERIDB; lia|]. split; [reflexivity|discriminate].
Qed.

Lemma sfs_remove_removes_witness :
  exists v v', vnode_decref ex_inode_addr 2%positive (ex_names 1) = inr (tt, v) /\
    sfs_remove ex_inode_addr 0x80400000 0x80400040 1%positive [97] v = inr (0, v') /\ ~ marked (v_fs v') 4 /\ ~ marked (v_fs v') 5.
Proof.
  destruct ex_closed as (v & Hdec & Hroot & Hc & Hb & Hmem). exists v.
  destruct (sfs_remove_removes ex_inode_addr 0x80400000 0x80400040 ex_meta ex_inodes v 1%positive [ex_entry] [97] Hroot) as (r & v' & Hrun & _ & Hres);
    [by apply ex_name|].
  assert (dir_map [ex_entry] !! [97] = Some 4) as E by (vm_compute; reflexivity). rewrite E in Hres.
  destruct Hres as [[-> [_ _ Hf _]]|(_ & Hm & _)]; [|exfalso; rewrite Hmem in Hm; exact (not_elem_of_nil _ Hm)].
  exists v'. split; [exact Hdec|]. split; [exact Hrun|].
  assert (4 ∉ after_unlink ex_inodes v (dir_map [ex_entry]) 4) as Hgone.
  { unfold after_unlink. rewrite decide_True; [clear; set_solver|]. split; [exact Hc|]. vm_compute. reflexivity. }
  split; intros [_ Hn]%Hf; apply Hn; (split; [exact Hgone|]); [by left|by right].
Defined.

Lemma sfs_rename_renames_witness :
  exists r v', sfs_rename ex_inode_addr 0x80400000 0x80400040 1%positive [97] 1%positive [98] (ex_names 1) = inr (r, v') /\ frame (v_fs (ex_names 1)) (v_fs v').
Proof.
  destruct (sfs_rename_renames ex_inode_addr 0x80400000 0x80400040 ex_meta ex_inodes (ex_names 1) 1%positive [ex_entry] [97] [98] ex_root_ok) as (r & v' & Hrun & Hfr & _);
    [by apply ex_name|by apply ex_name|].
  exists r, v'. split; [exact Hrun|exact Hfr].
Defined.

Lemma sfs_reclaim_erases_witness :
  exists v', sfs_reclaim ex_inode_addr 2%positive (ex_names 0) = inr (0, v') /\ volume_ok ex_inode_addr ex_meta (ex_inodes ∖ {[ 4 ]}) v'.
Proof.
  destruct (sfs_reclaim_erases ex_inode_addr ex_meta ex_inodes (ex_names 0) 2%positive (mk_sfs_vnode (ex_file 0) 4 true)) as (v' & Hrun & He);
    [by apply ex_names_ok|reflexivity|reflexivity|reflexivity|].
  exists v'. split; [exact Hrun|apply He].
Defined.

Lemma sfs_reclaim_load_witness :
  exists v1 r o v2, sfs_reclaim ex_inode_addr 2%positive (ex_names 1) = inr (0, v1) /\ sfs_loadvnode ex_inode_addr 4 SFS_TYPE_INVAL v1 = inr ((r, o), v2).
Proof.
  destruct (sfs_reclaim_load ex_inode_addr ex_meta ex_inodes (ex_names 1) 2%positive (mk_sfs_vnode (ex_file 1) 4 true)) as (v1 & r & o & v2 & Hrun & _ & Hload & _);
    [by apply ex_names_ok|reflexivity|reflexivity|reflexivity|done|].
  exists v1, r, o, v2. split; [exact Hrun|exact Hload].
Defined.
