(* ===== verification/SfsMount.v ===== *)
(** * Mounting and unmounting SFS ([kern/fs/sfs/sfs_fsops.c])

    The free map in memory is the list of its bytes, the superblock a record;
    the bytes at their addresses, which the device transfers, are written when
    they go to the disk and read when they come from there, as those of the
    inodes in [SfsInode].  [sb_nblocks] is the field of the volume. *)

From S2P Require Import Prelude State Monad StopState Bitmap Array Uio Device Sfs SfsInode SfsVnops.

#[local] Open Scope Z_scope.
#[local] Open Scope sm_scope.

Definition ENXIO : Z := 26.
Definition SFS_MAGIC : Z := 0xabadf001.
Definition SFS_VOLNAME_SIZE : Z := 32.
Definition SFS_SUPER_BLOCK : Z := 0.
Definition SFS_FREEMAP_START : Z := 2.
Definition SFS_BITSPERBLOCK : Z := SFS_BLOCKSIZE * 8.

Definition SFS_ROUNDUP (a b : Z) : Z := u32 (u32 (a + b - 1) / b * b).
Definition SFS_FREEMAPBITS (nblocks : Z) : Z := SFS_ROUNDUP nblocks SFS_BITSPERBLOCK.
Definition SFS_FREEMAPBLOCKS (nblocks : Z) : Z := SFS_FREEMAPBITS nblocks / SFS_BITSPERBLOCK.

(** ** Superblocks as bytes *)

Record sfs_superblock := mk_super {
  sb_magic : Z;
  sb_volname : list Z;
  sb_reserved : list Z
}.

Definition encode_super (nblocks : Z) (sb : sfs_superblock) : list Z :=
  word_bytes (sb_magic sb) ++ word_bytes nblocks ++ sb_volname sb ++ words_bytes (sb_reserved sb).

Definition decode_nblocks (l : list Z) : Z := word_of l 1.
Definition decode_super (l : list Z) : sfs_superblock :=
  mk_super (word_of l 0) (take 32 (drop 8 l)) (word_of l <$> seq 10 118).

(** [sb_volname\[sizeof(sb_volname)-1\] = 0]. *)
Definition end_volname (sb : sfs_superblock) : sfs_superblock :=
  mk_super (sb_magic sb) (zinsert (SFS_VOLNAME_SIZE - 1) 0 (sb_volname sb)) (sb_reserved sb).

Section mount.
Context {D : Type} {DV : Device D} {LY : Layout}.
Context (inode_addr : positive -> Z).
Context (freemap_addr sb_addr : Z).                    (* bitmap_getdata(sfs->sfs_freemap), &sfs->sfs_sb *)

Notation volume := (volume (D := D)).

(** A [struct sfs_fs]: the volume, and what only this file uses. *)
Record mount := mk_mount {
  m_volume : volume;
  m_super : sfs_superblock;
  m_superdirty : bool;                                 (* sfs_superdirty *)
  m_device : bool                                      (* sfs_device is not NULL *)
}.

Definition set_volume x m := mk_mount x (m_super m) (m_superdirty m) (m_device m).
Definition set_super x m := mk_mount (m_volume m) x (m_superdirty m) (m_device m).
Definition set_superdirty x m := mk_mount (m_volume m) (m_super m) x (m_device m).
Definition set_attached x m := mk_mount (m_volume m) (m_super m) (m_superdirty m) x.

Notation MM := (SM mount).

Definition on_volume {A} (p : SM volume A) : MM A := fun m =>
  match p (m_volume m) with inr (a, v') => inr (a, set_volume v' m) | inl r => inl r end.
Definition on_sfs {A} (p : SM (sfs_fs D) A) : MM A := on_volume (on_fs p).

(** ** The free map *)

(** Block [j] of the bytes of a bitmap. *)
Definition map_block (j : Z) (b : bitmap) : list Z := take 512 (drop (Z.to_nat (j * SFS_BLOCKSIZE)) (bm_v b)).
Definition put_map_block (j : Z) (l : list Z) (b : bitmap) : bitmap :=
  mk_bitmap (nbits b) (take (Z.to_nat (j * SFS_BLOCKSIZE)) (bm_v b) ++ l ++ drop (Z.to_nat ((j + 1) * SFS_BLOCKSIZE)) (bm_v b)).

Definition freemap_read (j : Z) : MM Z :=
  result <- on_sfs (sfs_readblock (SFS_FREEMAP_START + j) (freemap_addr + j * SFS_BLOCKSIZE) SFS_BLOCKSIZE) ;;
  on_sfs (smodify (fun s => set_freemap (put_map_block j (load (sfs_mem s) (span (freemap_addr + j * SFS_BLOCKSIZE) SFS_BLOCKSIZE)) (sfs_freemap s)) s)) ;;
  sret result.

Definition freemap_write (j : Z) : MM Z :=
  on_sfs (smodify (fun s => set_mem (store (span (freemap_addr + j * SFS_BLOCKSIZE) SFS_BLOCKSIZE) (map_block j (sfs_freemap s)) (sfs_mem s)) s)) ;;
  on_sfs (sfs_writeblock (SFS_FREEMAP_START + j) (freemap_addr + j * SFS_BLOCKSIZE) SFS_BLOCKSIZE).

(** [n] blocks are left, the next is [j]. *)
Fixpoint freemapio_from (n : nat) (j : Z) (rw : uio_rw_t) : MM Z :=
  match n with
  | O => sret 0
  | S n' =>
      result <- match rw with UIO_READ => freemap_read j | UIO_WRITE => freemap_write j end ;;
      if negb (result =? 0) then sret result else freemapio_from n' (j + 1) rw
  end.

Definition sfs_freemapio (rw : uio_rw_t) : MM Z :=
  nblocks <- on_sfs (sget sb_nblocks) ;;
  freemapio_from (Z.to_nat (SFS_FREEMAPBLOCKS nblocks)) 0 rw.

(** ** Writing back *)

Fixpoint sync_vnodes_from (n : nat) (i : Z) : MM unit :=
  match n with
  | O => sret tt
  | S n' =>
      v <- on_volume (on_table (array_get i)) ;;
      on_volume (sfs_fsync inode_addr v) ;;
      sync_vnodes_from n' (i + 1)
  end.

Definition sfs_sync_vnodes : MM Z :=
  num <- on_volume (on_table array_num) ;;
  sync_vnodes_from (Z.to_nat num) 0 ;;
  sret 0.

Definition sfs_sync_freemap : MM Z :=
  dirty <- on_sfs (sget sfs_freemapdirty) ;;
  if dirty then
    result <- sfs_freemapio UIO_WRITE ;;
    if negb (result =? 0) then sret result else
    on_sfs (smodify (set_freemapdirty false)) ;;
    sret 0
  else sret 0.

Definition sfs_sync_superblock : MM Z :=
  dirty <- sget m_superdirty ;;
  if dirty then
    nblocks <- on_sfs (sget sb_nblocks) ;;
    sb <- sget m_super ;;
    on_sfs (smodify (fun s => set_mem (store (span sb_addr SFS_BLOCKSIZE) (encode_super nblocks sb) (sfs_mem s)) s)) ;;
    result <- on_sfs (sfs_writeblock SFS_SUPER_BLOCK sb_addr SFS_BLOCKSIZE) ;;
    if negb (result =? 0) then sret result else
    smodify (set_superdirty false) ;;
    sret 0
  else sret 0.

Definition sfs_sync : MM Z :=
  on_sfs vfs_biglock_acquire ;;
  result <- sfs_sync_vnodes ;;
  if negb (result =? 0) then on_sfs vfs_biglock_release ;; sret result else
  result <- sfs_sync_freemap ;;
  if negb (result =? 0) then on_sfs vfs_biglock_release ;; sret result else
  result <- sfs_sync_superblock ;;
  if negb (result =? 0) then on_sfs vfs_biglock_release ;; sret result else
  on_sfs vfs_biglock_release ;;
  sret 0.

Definition sfs_getvolname : MM (list Z) :=
  on_sfs vfs_biglock_acquire ;;
  name <- sget (fun m => sb_volname (m_super m)) ;;
  on_sfs vfs_biglock_release ;;
  sret name.

(** ** Unmounting *)

Definition no_map : bitmap := mk_bitmap 0 [].

(** The structure is freed: nothing of it is left. *)
Definition sfs_fs_destroy : MM unit :=
  on_sfs (smodify (set_freemap no_map)) ;;
  on_volume (on_table array_cleanup) ;;
  attached <- sget m_device ;;
  sassert (negb attached) "sfs->sfs_device == NULL".

Definition sfs_unmount : MM Z :=
  on_sfs vfs_biglock_acquire ;;
  num <- on_volume (on_table array_num) ;;
  if 0 <? num then on_sfs vfs_biglock_release ;; sret EBUSY else
  superdirty <- sget m_superdirty ;;
  sassert (negb superdirty) "sfs->sfs_superdirty == false" ;;
  freemapdirty <- on_sfs (sget sfs_freemapdirty) ;;
  sassert (negb freemapdirty) "sfs->sfs_freemapdirty == false" ;;
  smodify (set_attached false) ;;
  sfs_fs_destroy ;;
  on_sfs vfs_biglock_release ;;
  sret 0.

(** ** Mounting *)

(** A new structure on the machine of the old one: memory, disk, lock and the
    answers of the allocator are kept. *)
Definition blank_fs (s : sfs_fs D) : sfs_fs D := mk_sfs (sfs_mem s) (sfs_device s) no_map false 0 ∅ (vfs_biglock_depth s).
Definition blank_mount (m : mount) : mount :=
  mk_mount (mk_volume (blank_fs (v_fs (m_volume m))) (mk_array [] 0 0) ∅ (v_memory (m_volume m))) (mk_super 0 [] []) false false.

(** Whether there was memory for it. *)
Definition sfs_fs_create : MM bool :=
  ok <- on_volume kmalloc_ok ;;
  if negb ok then sret false else
  smodify blank_mount ;;
  ok <- on_volume kmalloc_ok ;;
  if negb ok then sret false else
  on_volume (on_table array_init) ;;
  sret true.

(** The way out of [sfs_domount] once there is a structure. *)
Definition domount_fail (result : Z) : MM Z :=
  smodify (set_attached false) ;;
  sfs_fs_destroy ;;
  on_sfs vfs_biglock_release ;;
  sret result.

(** [bitmap_create]. *)
Definition create_map (nb : Z) : MM (option bitmap) :=
  ok <- on_volume kmalloc_ok ;;
  if negb ok then sret None else
  ok <- on_volume kmalloc_ok ;;
  if negb ok then sret None else
  b <- on_sfs (of_sum (bitmap_setup nb)) ;;
  sret (Some b).

Definition set_nblocks x (s : sfs_fs D) := mk_sfs (sfs_mem s) (sfs_device s) (sfs_freemap s) (sfs_freemapdirty s) x (sfs_vnodes s) (vfs_biglock_depth s).

(** The superblock is read into the structure. *)
Definition read_super : MM Z :=
  result <- on_sfs (sfs_readblock SFS_SUPER_BLOCK sb_addr SFS_BLOCKSIZE) ;;
  bytes <- on_sfs (sget (fun s => load (sfs_mem s) (span sb_addr SFS_BLOCKSIZE))) ;;
  smodify (set_super (decode_super bytes)) ;;
  on_sfs (smodify (set_nblocks (decode_nblocks bytes))) ;;
  sret result.

Definition sfs_domount (blocksize : Z) : MM Z :=
  on_sfs vfs_biglock_acquire ;;
  if negb (blocksize =? SFS_BLOCKSIZE) then on_sfs vfs_biglock_release ;; sret ENXIO else
  ok <- sfs_fs_create ;;
  if negb ok then on_sfs vfs_biglock_release ;; sret ENOMEM else
  smodify (set_attached true) ;;
  result <- read_super ;;
  if negb (result =? 0) then domount_fail result else
  sb <- sget m_super ;;
  if negb (sb_magic sb =? SFS_MAGIC) then domount_fail EINVAL else
  smodify (set_super (end_volname sb)) ;;
  nblocks <- on_sfs (sget sb_nblocks) ;;
  ob <- create_map (SFS_FREEMAPBITS nblocks) ;;
  match ob with
  | None => domount_fail ENOMEM
  | Some b =>
      on_sfs (smodify (set_freemap b)) ;;
      result <- sfs_freemapio UIO_READ ;;
      if negb (result =? 0) then domount_fail result else
      on_sfs vfs_biglock_release ;;
      sret 0
  end.
End mount.
