(* ===== verification/SfsMountRun.v ===== *)
(** * SFS: writing back, unmounting and mounting a volume

    [mount_ok]: the volume is well formed, the superblock and the free map in
    memory are those on the disk unless they are marked dirty, and their blocks
    are no file's. *)

From S2P Require Import Prelude State Monad StopState Bitmap Array Uio Device Sfs SfsSpec SfsBlock SfsBmap SfsRead SfsIo SfsTrunc SfsKeeps SfsDir SfsInode SfsVolume SfsInodeRun SfsReclaim SfsVnops SfsNames SfsNamespace SfsMount.

#[local] Open Scope Z_scope.
#[local] Open Scope sm_scope.

(** ** Sizes and bytes *)

Lemma freemap_sizes n : 0 < n <= 2^23 ->
  SFS_FREEMAPBITS n = 4096 * ((n + 4095) / 4096) /\ SFS_FREEMAPBLOCKS n = (n + 4095) / 4096 /\ 0 < SFS_FREEMAPBLOCKS n <= 2^11.
Proof.
  intros Hn. unfold SFS_FREEMAPBLOCKS, SFS_FREEMAPBITS, SFS_ROUNDUP, SFS_BITSPERBLOCK, SFS_BLOCKSIZE. change (512 * 8) with 4096.
  rewrite (u32_small (n + 4096 - 1)) by (unfold is_u32; lia). replace (n + 4096 - 1) with (n + 4095) by lia.
  rewrite (u32_small (_ * 4096)) by (unfold is_u32; lia). split_and!; lia.
Qed.

Record super_wf (sb : sfs_superblock) : Prop := mk_super_wf {
  sw_magic : sb_magic sb = SFS_MAGIC;
  sw_volname : length (sb_volname sb) = 32%nat /\ zlookup (sb_volname sb) 31 = Some 0;
  sw_reserved : length (sb_reserved sb) = 118%nat /\ Forall is_u32 (sb_reserved sb)
}.

Lemma length_super n sb : super_wf sb -> length (encode_super n sb) = Z.to_nat SFS_BLOCKSIZE.
Proof.
  intros [_ [Hv _] [Hr _]]. unfold encode_super. rewrite !length_app, length_words, Hv, Hr. done.
Qed.

Lemma super_roundtrip n sb : super_wf sb -> is_u32 n -> decode_nblocks (encode_super n sb) = n /\ decode_super (encode_super n sb) = sb.
Proof.
  intros [Hm [Hv _] [Hr Hu]] Hn. split; [by apply bytes_word_roundtrip|]. destruct sb as [magic volname reserved]. cbn [sb_magic sb_volname sb_reserved] in *.
  unfold decode_super. f_equal.
  - rewrite Hm. by apply bytes_word_roundtrip.
  - change (take 32 (volname ++ words_bytes reserved) = volname). rewrite <- Hv. by rewrite take_app_length.
  - rewrite <- (words_part reserved 0 reserved) at 2 by done. rewrite Hr. change (seq 10 118) with (Nat.add 10 <$> seq 0 118). rewrite <- list_fmap_compose.
    apply list_fmap_ext. intros i j Hj. cbn [compose]. unfold word_of. f_equal. f_equal.
    replace (4 * (10 + j))%nat with (8 + (32 + 4 * j))%nat by lia. rewrite <- !drop_drop.
    change (drop (4 * j) (drop 32 (volname ++ words_bytes reserved)) = drop (4 * j) (words_bytes reserved)). rewrite <- Hv. by rewrite drop_app_length.
Qed.

Lemma end_volname_id sb : super_wf sb -> end_volname sb = sb.
Proof. intros [_ [_ Hv] _]. destruct sb as [magic volname reserved]. unfold end_volname. cbn in *. f_equal. by apply zinsert_id. Qed.

(** The first [j] blocks of the bytes of [b], the others of [b0]. *)
Definition partly (j : Z) (b b0 : bitmap) : bitmap :=
  mk_bitmap (nbits b) (take (Z.to_nat (j * SFS_BLOCKSIZE)) (bm_v b) ++ drop (Z.to_nat (j * SFS_BLOCKSIZE)) (bm_v b0)).

Lemma put_next_block j b b0 : 0 <= j -> (j + 1) * SFS_BLOCKSIZE <= zlen (bm_v b) ->
  put_map_block j (map_block j b) (partly j b b0) = partly (j + 1) b b0.
Proof.
  intros Hj Hl. destruct b as [n l], b0 as [n0 l0]. unfold put_map_block, map_block, partly, zlen, SFS_BLOCKSIZE in *. cbn [bm_v nbits] in *. f_equal.
  replace (Z.to_nat ((j + 1) * 512)) with (Z.to_nat (j * 512) + 512)%nat by lia. set (k := Z.to_nat (j * 512)).
  assert (length (take k l) = k) as Hk by (rewrite length_take; lia). rewrite take_app_le, take_take, Nat.min_id by lia.
  rewrite <- (take_take_drop l k 512), <- app_assoc. f_equal. f_equal. rewrite <- !drop_drop. f_equal. rewrite drop_app_ge by lia. by rewrite Hk, Nat.sub_diag.
Qed.

Lemma partly_all n b b0 : nbits b = nbits b0 -> zlen (bm_v b) = n * SFS_BLOCKSIZE -> zlen (bm_v b0) = n * SFS_BLOCKSIZE -> partly n b b0 = b.
Proof.
  intros Hn Hl Hl0. destruct b as [m l], b0 as [m0 l0]. unfold partly, zlen in *. cbn [bm_v nbits] in *. f_equal.
  rewrite take_ge, drop_ge by lia. apply app_nil_r.
Qed.

Lemma partly_none b b0 : nbits b = nbits b0 -> partly 0 b b0 = b0.
Proof. intros Hn. destruct b as [m l], b0 as [m0 l0]. cbn in *. by subst. Qed.

Lemma length_map_block j b : 0 <= j -> (j + 1) * SFS_BLOCKSIZE <= zlen (bm_v b) -> length (map_block j b) = Z.to_nat SFS_BLOCKSIZE.
Proof. intros Hj Hl. unfold map_block, zlen, SFS_BLOCKSIZE in *. rewrite length_take, length_drop. lia. Qed.

Section mount.
Context {D : Type} {DV : Device D} {BD : BlockDevice D} {LY : Layout}.
Context (inode_addr : positive -> Z) (freemap_addr sb_addr : Z) (meta : Z -> Prop).

Notation volume := (volume (D := D)).
Notation mount := (mount (D := D)).
Notation SS := (sfs_fs D).
Notation buffer s := (dv_buffer (sfs_device s)).
Notation volume_ok := (volume_ok inode_addr meta).
Notation system := (system meta).
Implicit Types (s : SS) (I : gset Z) (v : volume) (m : mount).

(** ** States *)

(** The volume of a mount changed to [s]. *)
Definition with_fs s m : mount := set_volume (set_fs s (m_volume m)) m.
Notation fs m := (v_fs (m_volume m)).

Lemma run_sfs {A} (p : SM SS A) a s' m : p (fs m) = inr (a, s') -> on_sfs p m = inr (a, with_fs s' m).
Proof. clear inode_addr freemap_addr sb_addr meta. intros E. unfold on_sfs, on_volume, on_fs. by rewrite E. Qed.

Lemma run_volume {A} (p : SM volume A) a v' m : p (m_volume m) = inr (a, v') -> on_volume p m = inr (a, set_volume v' m).
Proof. clear inode_addr freemap_addr sb_addr meta. intros E. unfold on_volume. by rewrite E. Qed.

Lemma with_fs_id m : with_fs (fs m) m = m.
Proof. by destruct m as [[] ? ? ?]. Qed.

Lemma get_sfs {A B} (f : SS -> A) (g : A -> SM mount B) m : sbind (on_sfs (sget f)) g m = g (f (fs m)) m.
Proof. clear inode_addr freemap_addr sb_addr meta. rewrite (srun_call _ (f (fs m)) m); [done|]. by rewrite (run_sfs (sget f) (f (fs m)) (fs m) m), with_fs_id. Qed.

Lemma modify_sfs {B} (f : SS -> SS) (g : unit -> SM mount B) m : sbind (on_sfs (smodify f)) g m = g tt (with_fs (f (fs m)) m).
Proof. done. Qed.

(** ** Blocks that are no file's *)

(** Block [b], of the superblock or the free map, holds [bytes]. *)
Record meta_written I (b : Z) (bytes : list Z) s s' : Prop := mk_meta_written {
  mw_sectors : forall c, sec s' c = if decide (c = b) then bytes else sec s c;
  mw_frame : frame s s' /\ sfs_freemap s' = sfs_freemap s /\ sfs_freemapdirty s' = sfs_freemapdirty s /\ sfs_vnodes s' = sfs_vnodes s;
  mw_files : files I s' = files I s /\ same_files (sec s) (files I s) (sec s') (files I s)
}.

Lemma meta_write_run I v b a bytes : volume_ok I v -> 0 < vfs_biglock_depth (v_fs v) -> meta b -> length bytes = Z.to_nat SFS_BLOCKSIZE ->
  (forall z, z ∈ span a SFS_BLOCKSIZE -> ~ static (buffer (v_fs v)) z) ->
  exists s', sfs_writeblock b a SFS_BLOCKSIZE (set_mem (store (span a SFS_BLOCKSIZE) bytes (sfs_mem (v_fs v))) (v_fs v)) = inr (0, s') /\
    volume_ok I (set_fs s' v) /\ meta_written I b bytes (v_fs v) s'.
Proof.
  intros Hv Hd Hb Hl Hst. set (s := v_fs v) in *. remember (store (span a SFS_BLOCKSIZE) bytes (sfs_mem s)) as m1 eqn:Em1. set (s1 := set_mem m1 s).
  assert (marked s b) as [Hr _] by (apply (bo_marked _ _ _ _ (vo_blocks _ _ _ _ Hv) (KOther b)); split; [done|by left]).
  assert (io_ready s1) as Hio by (destruct (volume_io_ready _ _ I v Hv Hd) as [H1 H2 H3 H4]; by constructor).
  destruct (sfs_writeblock_from s1 b a Hio Hr) as (m' & d' & Hrun & Hch & Hdev & Hsec); [change (sfs_device s1) with (sfs_device s); intros z Hz Hin; apply (Hst z Hin); by left|].
  exists (set_io m' d' s1). split; [done|]. change (sfs_mem s1) with m1 in Hsec, Hch. change (sfs_device s1) with (sfs_device s) in Hsec, Hch, Hdev. rewrite Em1, load_store in Hsec; [|apply NoDup_span|by rewrite length_span].
  set (s' := set_io m' d' s1). assert (forall c, sec s' c = if decide (c = b) then bytes else sec s c) as Hs by exact Hsec.
  assert (forall k, k ∈ I -> k <> b) as Hne by (intros k Hk ->; by destruct (vo_meta _ _ _ _ Hv b Hk)).
  assert (forall k, k ∈ I -> inode_of s' k = inode_of s k) as Hin by (intros k Hk; apply inode_of_core; [done|]; rewrite Hs, decide_False; [done|by apply Hne]).
  destruct (system_write (sec s) (sec s') (system I) (files I s) (marked s) b (vo_blocks _ _ _ _ Hv)) as [Hbl Hsf]; [by left|intros c Hc; by rewrite Hs, decide_False|].
  assert (files I s' = files I s) as Hf by (by apply files_eq).
  assert (frame s s') as Hfr by (constructor; [done|done|apply Hdev]). split; [|constructor; [exact Hs|done|done]].
  apply (volume_same _ _ I v); try done.
  - apply (changes_only_trans _ _ m1).
    + rewrite Em1. eapply changes_weaken; [|apply changes_store]. intros z Hz. split; intros Hin'; apply (Hst z Hz); right; [by exists clear_zeros|by exists uio_zeros].
    + eapply changes_weaken; [|exact Hch]. intros z Hz. pose proof (ir_layout _ Hio) as Hly. change (sfs_device s1) with (sfs_device s) in Hly.
      pose proof (ly_buffer _ Hly clear_zeros) as B1. pose proof (ly_buffer _ Hly uio_zeros) as B2. rewrite elem_span in Hz. rewrite !elem_span. clear - Hz B1 B2. lia.
  - destruct (vo_vnodes _ _ _ _ Hv) as [V1 V2]. constructor; [exact V1|exact V2].
  - intros x w Hw Hc. rewrite Hs, decide_False; [by apply (vo_clean _ _ _ _ Hv x w)|]. apply Hne. by eapply (vn_inos _ _ (vo_vnodes _ _ _ _ Hv)).
  - exact (vo_table _ _ _ _ Hv).
  - exact (vo_refs _ _ _ _ Hv).
Qed.

Lemma volume_dirty I v b : volume_ok I v -> volume_ok I (set_fs (set_freemapdirty b (v_fs v)) v).
Proof.
  intros [V1 V2 V3 [V4 V4'] V5 V6 V7 V8 V9 V10]. constructor; [|exact V2|exact V3|by constructor|exact V5|exact V6|exact V7|exact V8|exact V9|exact V10].
  destruct V1. by constructor.
Qed.

(** ** Mounted volumes *)

Definition map_blocks s : Z := SFS_FREEMAPBLOCKS (sb_nblocks s).
Definition map_addr (j : Z) : Z := freemap_addr + j * SFS_BLOCKSIZE.

(** The free map and the superblock on the disk. *)
Definition map_on_disk s : Prop := forall j, 0 <= j < map_blocks s -> sec s (SFS_FREEMAP_START + j) = map_block j (sfs_freemap s).
Definition super_on_disk m : Prop := sec (fs m) SFS_SUPER_BLOCK = encode_super (sb_nblocks (fs m)) (m_super m).

Record mount_ok I m : Prop := mk_mount_ok {
  mo_volume : volume_ok I (m_volume m);
  mo_bits : nbits (sfs_freemap (fs m)) = SFS_FREEMAPBITS (sb_nblocks (fs m));
  mo_meta : meta SFS_SUPER_BLOCK /\ forall j, 0 <= j < map_blocks (fs m) -> meta (SFS_FREEMAP_START + j);
  mo_super : super_wf (m_super m);
  mo_sb_addr : forall a, a ∈ span sb_addr SFS_BLOCKSIZE -> ~ static (buffer (fs m)) a;
  mo_map_addr : forall j a, 0 <= j < map_blocks (fs m) -> a ∈ span (map_addr j) SFS_BLOCKSIZE -> ~ static (buffer (fs m)) a;
  mo_map_disk : sfs_freemapdirty (fs m) = false -> map_on_disk (fs m);
  mo_super_disk : m_superdirty m = false -> super_on_disk m;
  mo_device : m_device m = true
}.

Lemma mount_nblocks I m : mount_ok I m -> 0 < sb_nblocks (fs m) <= 2^23.
Proof. intros Hm. pose proof (vo_fs _ _ _ _ (mo_volume _ _ Hm)) as Hok. pose proof (so_disk _ _ Hok). pose proof (so_small _ _ Hok). cbn in *. lia. Qed.

Lemma mount_map_length I m : mount_ok I m -> zlen (bm_v (sfs_freemap (fs m))) = map_blocks (fs m) * SFS_BLOCKSIZE.
Proof.
  intros Hm. destruct (freemap_sizes _ (mount_nblocks I m Hm)) as (Hb & Hn & _). pose proof (bwf_len _ (so_map _ _ (vo_fs _ _ _ _ (mo_volume _ _ Hm)))) as Hl.
  cbn in Hl. rewrite Hl, (mo_bits _ _ Hm), Hb. unfold map_blocks. rewrite Hn. unfold SFS_BLOCKSIZE. lia.
Qed.

(** What writing back keeps. *)
Record kept_mount I m m' : Prop := mk_kept_mount {
  km_volume : volume_ok I (m_volume m');
  km_frame : frame (fs m) (fs m') /\ sfs_freemap (fs m') = sfs_freemap (fs m);
  km_rest : m_super m' = m_super m /\ m_device m' = m_device m /\ v_memory (m_volume m') = v_memory (m_volume m) /\ v_ref (m_volume m') = v_ref (m_volume m) /\ v_table (m_volume m') = v_table (m_volume m);
  km_vnodes : forall x, sv_ino <$> sfs_vnodes (fs m') !! x = sv_ino <$> sfs_vnodes (fs m) !! x;
  km_files : files I (fs m') = files I (fs m) /\ same_files (sec (fs m)) (files I (fs m)) (sec (fs m')) (files I (fs m))
}.

Lemma kept_mount_refl I m : volume_ok I (m_volume m) -> kept_mount I m m.
Proof. intros Hv. constructor; try done. split; [done|apply same_files_refl]. Qed.

Lemma kept_mount_trans I m1 m2 m3 : kept_mount I m1 m2 -> kept_mount I m2 m3 -> kept_mount I m1 m3.
Proof.
  intros [A1 [A2 A2'] (A3 & A4 & A5 & A6 & A7) A8 [A9 A10]] [B1 [B2 B2'] (B3 & B4 & B5 & B6 & B7) B8 [B9 B10]].
  constructor; [done|split; [by eapply frame_trans|congruence]|split_and!; congruence|intros x; by rewrite B8|].
  split; [congruence|]. rewrite A9 in B10. by eapply same_files_trans.
Qed.

Lemma meta_written_kept I b bytes s' m : volume_ok I (set_fs s' (m_volume m)) -> meta_written I b bytes (fs m) s' -> kept_mount I m (with_fs s' m).
Proof. intros Hv [W1 (W2 & W3 & W4 & W5) W6]. constructor; [done|done|done|intros x; cbn; by rewrite W5|done]. Qed.

(** ** The free map *)

Lemma freemap_write_run I m j : mount_ok I m -> 0 < vfs_biglock_depth (fs m) -> 0 <= j < map_blocks (fs m) ->
  exists s', freemap_write freemap_addr j m = inr (0, with_fs s' m) /\ kept_mount I m (with_fs s' m) /\
    meta_written I (SFS_FREEMAP_START + j) (map_block j (sfs_freemap (fs m))) (fs m) s'.
Proof.
  intros Hm Hd Hj. pose proof (mount_map_length I m Hm) as Hl.
  destruct (meta_write_run I (m_volume m) (SFS_FREEMAP_START + j) (map_addr j) (map_block j (sfs_freemap (fs m))) (mo_volume _ _ Hm) Hd) as (s' & Hrun & Hv & Hw).
  - by apply (mo_meta _ _ Hm).
  - apply length_map_block; [lia|]. rewrite Hl. unfold SFS_BLOCKSIZE. lia.
  - intros z Hz. by apply (mo_map_addr _ _ Hm j).
  - exists s'. split; [|split; [by eapply meta_written_kept|done]]. unfold freemap_write. rewrite modify_sfs. by rewrite (run_sfs _ 0 s').
Qed.
Lemma mount_ok_kept I m m' : mount_ok I m -> kept_mount I m m' -> (sfs_freemapdirty (fs m') = false -> map_on_disk (fs m')) ->
  (m_superdirty m' = false -> super_on_disk m') -> mount_ok I m'.
Proof.
  intros [M1 M2 M3 M4 M5 M6 _ _ M9] [K1 [[K2 K2' K2''] K3] (K4 & K5 & _) K6 K7] Hd Hs.
  constructor; [done|by rewrite K3, K2| |by rewrite K4| | |done|done|by rewrite K5]; unfold map_blocks; rewrite ?K2, ?K2''; [exact M3|exact M5|exact M6].
Qed.

(** The disk is what it was but for the free map. *)
Record map_written I m m' : Prop := mk_map_written {
  pw_kept : kept_mount I m m';
  pw_dirty : sfs_freemapdirty (fs m') = sfs_freemapdirty (fs m) /\ m_superdirty m' = m_superdirty m;
  pw_vnodes : sfs_vnodes (fs m') = sfs_vnodes (fs m);
  pw_sectors : forall c, ~ (SFS_FREEMAP_START <= c < SFS_FREEMAP_START + map_blocks (fs m)) -> sec (fs m') c = sec (fs m) c
}.

Lemma freemap_writes I m0 : mount_ok I m0 -> sfs_freemapdirty (fs m0) = true -> 0 < vfs_biglock_depth (fs m0) -> forall n j m,
  j + Z.of_nat n = map_blocks (fs m0) -> 0 <= j -> map_written I m0 m -> (forall i, 0 <= i < j -> sec (fs m) (SFS_FREEMAP_START + i) = map_block i (sfs_freemap (fs m0))) ->
  exists m', freemapio_from freemap_addr n j UIO_WRITE m = inr (0, m') /\ map_written I m0 m' /\ map_on_disk (fs m').
Proof.
  intros H0 Hdirty Hdepth n. induction n as [|n IH]; intros j m Hjn Hj Hw Hdone; pose proof Hw as [W1 [W2 W2'] W3 W4]; destruct (km_frame _ _ _ W1) as [[F1 F2 F3] Fm].
  - exists m. split; [done|]. split; [done|]. intros i Hi. unfold map_blocks in *. rewrite F1 in Hi. rewrite Fm. apply Hdone. lia.
  - assert (mount_ok I m) as Hm.
    { apply (mount_ok_kept I m0 m H0 W1); [rewrite W2, Hdirty; done|]. rewrite W2'. intros Hs. unfold super_on_disk. rewrite F1, (proj1 (km_rest _ _ _ W1)), W4;
        [by apply (mo_super_disk _ _ H0)|unfold SFS_SUPER_BLOCK, SFS_FREEMAP_START; lia]. }
    assert (map_blocks (fs m) = map_blocks (fs m0)) as En by (unfold map_blocks; by rewrite F1).
    destruct (freemap_write_run I m j Hm) as (s' & Hrun & Hk & [N1 (N2 & N3 & N4 & N5) N6]); [by rewrite F2|lia|].
    cbn [freemapio_from]. rewrite (srun_call _ _ _ _ _ Hrun). cbn [Z.eqb negb]. apply IH; [lia|lia| |].
    + constructor; [by eapply kept_mount_trans|cbn; by rewrite N4|cbn; by rewrite N5|]. intros c Hc. cbn. rewrite N1, decide_False by lia. by apply W4.
    + intros i Hi. cbn. rewrite N1. case_decide as E; [|apply Hdone; lia]. assert (i = j) as -> by lia. by rewrite Fm.
Qed.

Lemma sync_freemap_run I m : mount_ok I m -> 0 < vfs_biglock_depth (fs m) ->
  exists m', sfs_sync_freemap freemap_addr m = inr (0, m') /\ kept_mount I m m' /\ mount_ok I m' /\ sfs_freemapdirty (fs m') = false /\ m_superdirty m' = m_superdirty m /\
    sfs_vnodes (fs m') = sfs_vnodes (fs m).
Proof.
  intros Hm Hd. unfold sfs_sync_freemap. rewrite get_sfs. destruct (sfs_freemapdirty (fs m)) eqn:E.
  2: { exists m. split_and!; [done|apply kept_mount_refl, Hm|done|done|done|done]. }
  destruct (freemap_writes I m Hm E Hd (Z.to_nat (map_blocks (fs m))) 0 m) as (m1 & Hrun & [W1 [W2 W2'] W3 W4] & Hdisk).
  - destruct (freemap_sizes _ (mount_nblocks I m Hm)) as (_ & _ & ?). unfold map_blocks. lia.
  - done.
  - constructor; [apply kept_mount_refl, Hm|done|done|done].
  - intros i Hi. lia.
  - assert (sfs_freemapio freemap_addr UIO_WRITE m = inr (0, m1)) as Hio by (unfold sfs_freemapio; rewrite get_sfs; exact Hrun).
    rewrite (srun_call _ _ _ _ _ Hio). cbn [Z.eqb negb]. rewrite modify_sfs. eexists. split; [reflexivity|].
    assert (kept_mount I m (with_fs (set_freemapdirty false (fs m1)) m1)) as Hk by (destruct W1 as [K1 K2 K3 K4 K5]; constructor; [by apply volume_dirty|destruct K2 as [[] ?]; by split|done..]).
    split_and!; [done| |done|done|done]. apply (mount_ok_kept I m); [done|done|done|]. intros Hs. change (m_superdirty m1 = false) in Hs. rewrite W2' in Hs.
    unfold super_on_disk. change (sec (fs m1) SFS_SUPER_BLOCK = encode_super (sb_nblocks (fs m1)) (m_super m1)). rewrite (fr_nblocks _ _ (proj1 (km_frame _ _ _ W1))), (proj1 (km_rest _ _ _ W1)), W4; [by apply (mo_super_disk _ _ Hm)|].
    unfold SFS_SUPER_BLOCK, SFS_FREEMAP_START. lia.
Qed.

(** ** The superblock *)

Lemma sync_superblock_run I m : mount_ok I m -> 0 < vfs_biglock_depth (fs m) -> sfs_freemapdirty (fs m) = false ->
  exists m', sfs_sync_superblock sb_addr m = inr (0, m') /\ kept_mount I m m' /\ mount_ok I m' /\ sfs_freemapdirty (fs m') = false /\ m_superdirty m' = false /\
    sfs_vnodes (fs m') = sfs_vnodes (fs m).
Proof.
  intros Hm Hd Hdirty. unfold sfs_sync_superblock. rewrite srun_get. destruct (m_superdirty m) eqn:E.
  2: { exists m. split_and!; [done|apply kept_mount_refl, Hm|done|done|done|done]. }
  rewrite get_sfs, srun_get, modify_sfs.
  destruct (meta_write_run I (m_volume m) SFS_SUPER_BLOCK sb_addr (encode_super (sb_nblocks (fs m)) (m_super m)) (mo_volume _ _ Hm) Hd) as (s' & Hrun & Hv & Hw);
    [apply Hm|apply length_super, Hm|exact (mo_sb_addr _ _ Hm)|].
  assert (on_sfs (sfs_writeblock SFS_SUPER_BLOCK sb_addr SFS_BLOCKSIZE)
    (with_fs (set_mem (store (span sb_addr SFS_BLOCKSIZE) (encode_super (sb_nblocks (fs m)) (m_super m)) (sfs_mem (fs m))) (fs m)) m) = inr (0, with_fs s' m)) as Hio
    by (rewrite (run_sfs _ 0 s'); done).
  rewrite (srun_call _ _ _ _ _ Hio). cbn [Z.eqb negb]. rewrite srun_modify. eexists. split; [reflexivity|].
  pose proof (meta_written_kept I _ _ s' m Hv Hw) as [K1 K2 K3 K4 K5]. destruct Hw as [N1 (N2 & N3 & N4 & N5) N6].
  assert (kept_mount I m (set_superdirty false (with_fs s' m))) as Hk by (by constructor).
  split_and!; [done| |cbn; by rewrite N4|done|done]. apply (mount_ok_kept I m); [done|done| |]; intros _.
  - intros j Hj. unfold map_blocks in Hj. cbn in Hj |- *. rewrite (fr_nblocks _ _ N2) in Hj. rewrite N1, N3, decide_False; [|unfold SFS_FREEMAP_START, SFS_SUPER_BLOCK; lia].
    by apply (mo_map_disk _ _ Hm Hdirty).
  - unfold super_on_disk. cbn. by rewrite N1, decide_True, (fr_nblocks _ _ N2).
Qed.

(** ** The vnodes *)

Lemma fsync_run I v x w : volume_ok I v -> sfs_vnodes (v_fs v) !! x = Some w ->
  exists v', sfs_fsync inode_addr x v = inr (0, v') /\ synced inode_addr meta I x w v v'.
Proof.
  intros Hv Hw. pose proof (vo_depth _ _ _ _ Hv) as Hd. unfold sfs_fsync. rewrite biglock_acquire_run. fold (locked v).
  assert (volume_ok I (locked v)) as Hv1 by (apply volume_depth; [done|lia]).
  destruct (sync_run inode_addr meta I (locked v) x w Hv1) as (v2 & Hrun & [S1 S2 S3 [S4 S5] S6 S7 S8]); [cbn; lia|done|].
  destruct (unlocked_frame v v2 Hd S4) as [Hfr Hd2]. rewrite (srun_call _ _ _ _ _ Hrun), unlock_run by done. exists (unlocked v2). split; [done|].
  constructor; [apply volume_depth; [done|lia]|exact S2|exact S3|split; [done|exact S5]|exact S6|exact S7|exact S8].
Qed.

(** Some vnodes are clean now, the free map and the superblock are as before. *)
Record vnodes_written I m m' : Prop := mk_vnodes_written {
  vw_kept : kept_mount I m m';
  vw_ok : mount_ok I m';
  vw_flags : sfs_freemapdirty (fs m') = sfs_freemapdirty (fs m) /\ m_superdirty m' = m_superdirty m;
  vw_clean : forall x w, sfs_vnodes (fs m') !! x = Some w -> sv_dirty w = false \/ sfs_vnodes (fs m) !! x = Some w
}.

Lemma fsync_mount I m x w : mount_ok I m -> sfs_vnodes (fs m) !! x = Some w ->
  exists m', on_volume (sfs_fsync inode_addr x) m = inr (0, m') /\ vnodes_written I m m' /\ sfs_vnodes (fs m') = <[x := mk_sfs_vnode (sv_i w) (sv_ino w) false]> (sfs_vnodes (fs m)).
Proof.
  intros Hm Hw. pose proof (mo_volume _ _ Hm) as Hv. destruct (fsync_run I (m_volume m) x w Hv Hw) as (v' & Hrun & [S1 (S2 & S3 & S4) S5 [S6 S7] [S8 S9] S10 S11]).
  exists (set_volume v' m). split; [by rewrite (run_volume _ 0 v')|]. split; [|done].
  assert (kept_mount I m (set_volume v' m)) as Hk.
  { constructor; [done|done|done| |split; [done|by rewrite S8 in S9]]. intros y. cbn. rewrite S5. destruct (decide (y = x)) as [->|Hy]; [by rewrite lookup_insert_eq, Hw|by rewrite lookup_insert_ne]. }
  assert (forall c, meta c -> sec (v_fs v') c = sec (fs m) c) as Hmeta.
  { intros c Hc. apply S10. intros ->. by destruct (vo_meta _ _ _ _ Hv (sv_ino w) (vn_inos _ _ (vo_vnodes _ _ _ _ Hv) x w Hw)). }
  constructor; [done| |done|].
  - apply (mount_ok_kept I m); [done|done| |]; cbn.
    + rewrite S11. intros Hd j Hj. unfold map_blocks in Hj. cbn in Hj |- *. rewrite (fr_nblocks _ _ S6) in Hj. rewrite S7, Hmeta by (by apply (mo_meta _ _ Hm)).
      by apply (mo_map_disk _ _ Hm).
    + intros Hd. unfold super_on_disk. cbn. rewrite (fr_nblocks _ _ S6), Hmeta by apply (mo_meta _ _ Hm). by apply (mo_super_disk _ _ Hm).
  - intros y u. cbn. rewrite S5. destruct (decide (y = x)) as [->|Hy]; [rewrite lookup_insert_eq; intros [= <-]; by left|rewrite lookup_insert_ne by done; by right].
Qed.

Lemma sync_vnodes_run I l : forall n i m, mount_ok I m -> holds (v_table (m_volume m)) l -> NoDup l ->
  (forall x, x ∈ l <-> is_Some (sfs_vnodes (fs m) !! x)) -> (i + n = length l)%nat ->
  (forall x w, x ∈ take i l -> sfs_vnodes (fs m) !! x = Some w -> sv_dirty w = false) ->
  exists m', sync_vnodes_from inode_addr n (Z.of_nat i) m = inr (tt, m') /\ vnodes_written I m m' /\ forall x w, sfs_vnodes (fs m') !! x = Some w -> sv_dirty w = false.
Proof.
  intros n. induction n as [|n IH]; intros i m Hm Hl Hnd Hdom Hin Hclean.
  - exists m. split; [done|]. split; [constructor; [apply kept_mount_refl, Hm|done|done|by right]|]. intros x w Hw. apply (Hclean x w); [|done].
    rewrite take_ge by lia. apply Hdom. by exists w.
  - destruct (lookup_lt_is_Some_2 l i) as [x Hx]; [lia|]. destruct (proj1 (Hdom x)) as [w Hw]; [by eapply list_elem_of_lookup_2|].
    cbn [sync_vnodes_from]. assert (on_volume (on_table (array_get (Z.of_nat i))) m = inr (x, m)) as Hget.
    { rewrite (run_volume _ x (m_volume m)); [by destruct m|]. rewrite (run_table _ x (v_table (m_volume m))); [by rewrite set_table_id|by eapply array_get_run]. }
    rewrite (srun_call _ _ _ _ _ Hget). destruct (fsync_mount I m x w Hm Hw) as (m1 & Hrun & Hw1 & Evn). rewrite (srun_call _ _ _ _ _ Hrun).
    replace (Z.of_nat i + 1) with (Z.of_nat (S i)) by lia. destruct (IH (S i) m1) as (m2 & Hrun2 & Hw2 & Hall).
    + apply Hw1.
    + destruct (km_rest _ _ _ (vw_kept _ _ _ Hw1)) as (_ & _ & _ & _ & ->). done.
    + done.
    + intros y. rewrite Hdom, Evn, lookup_insert_is_Some'. split; [by right|intros [<-|]; [by exists w|done]].
    + lia.
    + intros y u. rewrite (take_S_r _ _ _ Hx), elem_of_app, list_elem_of_singleton, Evn. destruct (decide (y = x)) as [->|Hy].
      * rewrite lookup_insert_eq. by intros _ [= <-].
      * rewrite lookup_insert_ne by done. intros [Hin'|]; [|done]. by apply Hclean.
    + exists m2. split; [done|]. split; [|done]. destruct Hw1 as [A1 A2 [A3 A4] A5], Hw2 as [B1 B2 [B3 B4] B5].
      constructor; [by eapply kept_mount_trans|done|split; congruence|]. intros y u Hu. left. by eapply Hall.
Qed.

Lemma mount_depth I m d : mount_ok I m -> 0 <= d -> mount_ok I (with_fs (set_depth d (fs m)) m).
Proof. intros [M1 M2 M3 M4 M5 M6 M7 M8 M9] Hd. constructor; [by apply volume_depth|done..]. Qed.

(** Everything in memory is on the disk. *)
Record all_written I m m' : Prop := mk_all_written {
  aw_ok : mount_ok I m';
  aw_kept : kept_mount I m m';
  aw_flags : sfs_freemapdirty (fs m') = false /\ m_superdirty m' = false;
  aw_inodes : forall k, k ∈ I -> decode_dinode (sec (fs m') k) = inode_of (fs m) k;
  aw_map : map_on_disk (fs m');
  aw_super : super_on_disk m';
  aw_vnodes : forall x w, sfs_vnodes (fs m') !! x = Some w -> sv_dirty w = false
}.

Lemma sfs_sync_run I m : mount_ok I m -> exists m', sfs_sync inode_addr freemap_addr sb_addr m = inr (0, m') /\ all_written I m m'.
Proof.
  intros Hm. pose proof (vo_depth _ _ _ _ (mo_volume _ _ Hm)) as Hd. unfold sfs_sync.
  set (m1 := with_fs (set_depth (vfs_biglock_depth (fs m) + 1) (fs m)) m). assert (mount_ok I m1) as Hm1 by (apply mount_depth; [done|lia]).
  assert (on_sfs vfs_biglock_acquire m = inr (tt, m1)) as Hacq by done. rewrite (srun_call _ _ _ _ _ Hacq).
  destruct (vo_table _ _ _ _ (mo_volume _ _ Hm1)) as (l & Hl & Hnd & Hdom).
  destruct (sync_vnodes_run I l (length l) 0 m1 Hm1 Hl Hnd Hdom eq_refl) as (m2 & Hrun2 & [V1 V2 [V3 V4] V5] & Hclean); [intros x w Hx; by apply elem_of_nil in Hx|].
  assert (sfs_sync_vnodes inode_addr m1 = inr (0, m2)) as Hsync.
  { unfold sfs_sync_vnodes. assert (on_volume (on_table array_num) m1 = inr (zlen l, m1)) as Hnum.
    { rewrite (run_volume _ (zlen l) (m_volume m1)); [done|]. unfold on_table, array_num, sget. by rewrite (ho_num _ _ Hl), set_table_id. }
    rewrite (srun_call _ _ _ _ _ Hnum). unfold zlen. rewrite Nat2Z.id. by rewrite (srun_call _ _ _ _ _ Hrun2). }
  rewrite (srun_call _ _ _ _ _ Hsync). cbn [Z.eqb negb].
  assert (0 < vfs_biglock_depth (fs m2)) as Hd2 by (rewrite (fr_depth _ _ (proj1 (km_frame _ _ _ V1))); cbn; lia).
  destruct (sync_freemap_run I m2 V2 Hd2) as (m3 & Hrun3 & K3 & Hm3 & F3 & S3 & Vn3). rewrite (srun_call _ _ _ _ _ Hrun3). cbn [Z.eqb negb].
  assert (0 < vfs_biglock_depth (fs m3)) as Hd3 by (rewrite (fr_depth _ _ (proj1 (km_frame _ _ _ K3))); done).
  destruct (sync_superblock_run I m3 Hm3 Hd3 F3) as (m4 & Hrun4 & K4 & Hm4 & F4 & S4 & Vn4). rewrite (srun_call _ _ _ _ _ Hrun4). cbn [Z.eqb negb].
  pose proof (kept_mount_trans _ _ _ _ V1 (kept_mount_trans _ _ _ _ K3 K4)) as K. assert (vfs_biglock_depth (fs m4) = vfs_biglock_depth (fs m) + 1) as Ed by exact (fr_depth _ _ (proj1 (km_frame _ _ _ K))).
  set (m5 := with_fs (set_depth (vfs_biglock_depth (fs m4) - 1) (fs m4)) m4).
  assert (on_sfs vfs_biglock_release m4 = inr (tt, m5)) as Hrel.
  { unfold on_sfs. rewrite (run_volume _ tt (unlocked (m_volume m4))); [done|]. apply biglock_release_run. lia. }
  rewrite (srun_call _ _ _ _ _ Hrel). exists m5. split; [done|]. assert (mount_ok I m5) as Hm5 by (apply mount_depth; [done|lia]).
  assert (kept_mount I m m5) as K5.
  { destruct K as [K1 [[Fr1 Fr2 Fr3] Fr4] Kr Kv Kf]. constructor; [apply Hm5|split; [constructor; [done|cbn; lia|done]|done]|done|done|done]. }
  assert (forall x w, sfs_vnodes (fs m5) !! x = Some w -> sv_dirty w = false) as Hclean5.
  { intros x w Hw. apply (Hclean x). change (sfs_vnodes (fs m4) !! x = Some w) in Hw. by rewrite Vn4, Vn3 in Hw. }
  constructor; [done|done|done| |by apply (mo_map_disk _ _ Hm5)|by apply (mo_super_disk _ _ Hm5)|done].
  intros k Hk. assert (inode_of (fs m5) k = inode_of (fs m) k) as <-.
  { assert (files I (fs m5) !! k = Some (inode_of (fs m) k)) as E by (rewrite (proj1 (km_files _ _ _ K5)); by apply lookup_files). by apply lookup_files in E as [_ ->]. }
  unfold inode_of. destruct (in_core (fs m5) k) as [w|] eqn:E; [|done]. apply in_core_Some in E as (x & Hw & <-).
  by apply (vo_clean _ _ _ _ (mo_volume _ _ Hm5) x w Hw), (Hclean5 x).
Qed.
End mount.
