(* ===== verification/SfsRemount.v ===== *)
(** * SFS: unmounting a volume and mounting it again

    A volume that was written back and has no open file is the same after it
    was unmounted and mounted: the files, the free map and the superblock. *)

From S2P Require Import Prelude State Monad StopState Bitmap Array Uio Device Lhd Sfs SfsSpec SfsBlock SfsBmap SfsRead SfsIo SfsTrunc SfsFile SfsKeeps SfsDir SfsDirMap SfsInode SfsVolume SfsInodeRun SfsReclaim SfsVnops SfsNames SfsNamespace SfsHistory SfsMount SfsMountRun.

#[local] Open Scope Z_scope.
#[local] Open Scope sm_scope.

Section remount.
Context {D : Type} {DV : Device D} {BD : BlockDevice D} {LY : Layout}.
Context (inode_addr : positive -> Z) (freemap_addr sb_addr : Z) (meta : Z -> Prop).

Notation volume := (volume (D := D)).
Notation mount := (mount (D := D)).
Notation SS := (sfs_fs D).
Notation buffer s := (dv_buffer (sfs_device s)).
Notation volume_ok := (volume_ok inode_addr meta).
Notation mount_ok := (mount_ok inode_addr freemap_addr sb_addr meta).
Notation fs m := (v_fs (m_volume m)).
Implicit Types (s : SS) (I : gset Z) (v : volume) (m : mount).

(** ** Unmounting *)

Lemma no_vnodes I v : volume_ok I v -> sfs_vnodes (v_fs v) = ∅ -> holds (v_table v) [].
Proof.
  intros Hv He. destruct (vo_table _ _ _ _ Hv) as (l & Hl & _ & Hdom). destruct l as [|x l]; [done|].
  destruct (proj1 (Hdom x)) as [w Hw]; [by left|]. by rewrite He in Hw.
Qed.

(** What is left of the volume. *)
Record unmounted m m' : Prop := mk_unmounted {
  um_machine : sfs_mem (fs m') = sfs_mem (fs m) /\ sfs_device (fs m') = sfs_device (fs m) /\ vfs_biglock_depth (fs m') = vfs_biglock_depth (fs m);
  um_memory : v_memory (m_volume m') = v_memory (m_volume m);
  um_device : m_device m' = false
}.

(** Steps on the volume that end where they began. *)
Lemma num_run {B} l m (f : Z -> SM mount B) : holds (v_table (m_volume m)) l -> sbind (on_volume (on_table array_num)) f m = f (zlen l) m.
Proof.
  intros Hl. rewrite (srun_call _ (zlen l) m); [done|]. rewrite (run_volume _ (zlen l) (m_volume m)); [by destruct m|].
  unfold on_table, array_num, sget. by rewrite (ho_num _ _ Hl), set_table_id.
Qed.

Lemma mount_lock {B} m (f : unit -> SM mount B) : sbind (on_sfs vfs_biglock_acquire) f m = f tt (with_fs (set_depth (vfs_biglock_depth (fs m) + 1) (fs m)) m).
Proof. done. Qed.

Lemma mount_unlock {B} m (f : unit -> SM mount B) : 0 < vfs_biglock_depth (fs m) ->
  sbind (on_sfs vfs_biglock_release) f m = f tt (with_fs (set_depth (vfs_biglock_depth (fs m) - 1) (fs m)) m).
Proof.
  intros Hd. rewrite (srun_call _ tt (with_fs (set_depth (vfs_biglock_depth (fs m) - 1) (fs m)) m)); [done|].
  unfold on_sfs. by rewrite (run_volume _ tt (unlocked (m_volume m))); [|apply biglock_release_run].
Qed.

Lemma destroy_run {B} m (f : unit -> SM mount B) : holds (v_table (m_volume m)) [] -> m_device m = false ->
  sbind sfs_fs_destroy f m = f tt (set_volume (set_table (mk_array [] (a_num (v_table (m_volume m))) (a_max (v_table (m_volume m)))) (set_fs (set_freemap no_map (fs m)) (m_volume m))) m).
Proof.
  intros Hl Hdev. rewrite (srun_call _ tt (set_volume (set_table (mk_array [] (a_num (v_table (m_volume m))) (a_max (v_table (m_volume m)))) (set_fs (set_freemap no_map (fs m)) (m_volume m))) m)); [done|].
  unfold sfs_fs_destroy. rewrite modify_sfs. set (m1 := with_fs _ m).
  assert (on_volume (on_table array_cleanup) m1 = inr (tt, set_volume (set_table (mk_array [] (a_num (v_table (m_volume m))) (a_max (v_table (m_volume m)))) (m_volume m1)) m1)) as Hc.
  { apply run_volume, run_table. unfold array_cleanup. rewrite srun_get. change (a_num (v_table (m_volume m1))) with (a_num (v_table (m_volume m))).
    rewrite srun_assert by (by rewrite (ho_num _ _ Hl)). reflexivity. }
  rewrite (srun_call _ _ _ _ _ Hc), srun_get. change (m_device (set_volume _ m1)) with (m_device m). by rewrite Hdev.
Qed.

Lemma sfs_unmount_run I m : mount_ok I m -> sfs_freemapdirty (fs m) = false -> m_superdirty m = false -> sfs_vnodes (fs m) = ∅ ->
  exists m', sfs_unmount m = inr (0, m') /\ unmounted m m'.
Proof.
  intros Hm Hf Hs He. pose proof (vo_depth _ _ _ _ (mo_volume _ _ _ _ _ _ Hm)) as Hd. pose proof (no_vnodes I _ (mo_volume _ _ _ _ _ _ Hm) He) as Hl.
  unfold sfs_unmount. rewrite mount_lock. set (m1 := with_fs _ m). rewrite (num_run []) by done. assert ((0 <? zlen (@nil positive)) = false) as -> by done.
  rewrite srun_get. change (m_superdirty m1) with (m_superdirty m). rewrite Hs, srun_assert by done. rewrite get_sfs. change (sfs_freemapdirty (fs m1)) with (sfs_freemapdirty (fs m)).
  rewrite Hf, srun_assert by done. rewrite srun_modify, destroy_run by done. rewrite mount_unlock by (cbn; lia). eexists. split; [reflexivity|].
  constructor; [|done|done]. split_and!; [done|done|cbn; lia].
Qed.

(** A volume with open files stays mounted. *)
Lemma sfs_unmount_busy I m : mount_ok I m -> sfs_vnodes (fs m) <> ∅ -> sfs_unmount m = inr (EBUSY, m).
Proof.
  intros Hm Hne. pose proof (vo_depth _ _ _ _ (mo_volume _ _ _ _ _ _ Hm)) as Hd. destruct (vo_table _ _ _ _ (mo_volume _ _ _ _ _ _ Hm)) as (l & Hl & _ & Hdom).
  unfold sfs_unmount. rewrite mount_lock, (num_run l) by done.
  assert (0 < zlen l) as Hpos.
  { destruct l; [|unfold zlen; cbn; lia]. destruct Hne. apply map_empty. intros x. apply eq_None_not_Some. intros Hx. by apply Hdom, elem_of_nil in Hx. }
  rewrite (proj2 (Z.ltb_lt _ _) Hpos), mount_unlock by (cbn; lia). destruct m as [[[] ? ? ?] ? ? ?]. unfold sret, with_fs, set_volume, set_fs, set_depth. cbn. by rewrite Z.add_simpl_r.
Qed.

(** ** Reading before the volume is there *)

Lemma dev_readblock s b data : dv_ready (sfs_device s) -> 0 <= b < dv_blocks (sfs_device s) -> 0 < vfs_biglock_depth s ->
  layout_ok (buffer s) -> (forall a, a ∈ span data SFS_BLOCKSIZE -> ~ static (buffer s) a) ->
  exists (m' : memory) d', sfs_readblock b data SFS_BLOCKSIZE s = inr (0, set_io m' d' s) /\ load m' (span data SFS_BLOCKSIZE) = sec s b /\
    keeps_zeros (sfs_mem s) m' /\ same_device (sfs_device s) d' /\ forall c, dv_sector d' c = sec s c.
Proof.
  intros Hr Hb Hd Hly Hst. destruct (kinit_request UIO_READ b data) as [Hreq Ha].
  destruct (dv_read (sfs_device s) b _ (sfs_mem s) Hr Hb Hreq) as (u' & m' & d' & Hio & _ & Hld & Hch & Hr' & Hbl & Hbf & Hsec).
  { rewrite Ha. intros a Hin Hin'. apply (Hst a Hin'). by left. }
  exists m', d'. rewrite Ha in *. split_and!; [|done| |done|done].
  - unfold sfs_readblock. rewrite srun_assert by done. by rewrite (srun_call _ _ _ _ _ (sfs_rwblock_run _ _ _ _ _ Hd Hio)).
  - eapply changes_weaken; [|exact Hch]. intros a [Hin|Hin].
    + split; intros Hin'; apply (Hst a Hin); right; [by exists clear_zeros|by exists uio_zeros].
    + pose proof (ly_buffer _ Hly clear_zeros) as B1. pose proof (ly_buffer _ Hly uio_zeros) as B2. unfold SECTSIZE, SFS_BLOCKSIZE in *. rewrite !elem_span in *. lia.
Qed.

(** The machine of [s0], a new structure in the making. *)
Record same_machine s0 s : Prop := mk_same_machine {
  sm_device : same_device (sfs_device s0) (sfs_device s);
  sm_sectors : forall c, sec s c = sec s0 c;
  sm_zeros : keeps_zeros (sfs_mem s0) (sfs_mem s)
}.

Lemma same_machine_read s0 s (m' : memory) d' : same_machine s0 s -> keeps_zeros (sfs_mem s) m' -> same_device (sfs_device s) d' -> (forall c, dv_sector d' c = sec s c) ->
  same_machine s0 (set_io m' d' s).
Proof.
  intros [(A1 & A2 & A3) A4 A5] Hk (B1 & B2 & B3) Hs. constructor; [|intros c; rewrite <- A4; apply Hs|by eapply changes_only_trans].
  split_and!; [done|cbn; congruence|cbn; congruence].
Qed.

Section reading.
Context (I : gset Z) (m : mount) (Hm : mount_ok I m) (Hclean : sfs_freemapdirty (fs m) = false).

Notation n := (map_blocks (fs m)).

(** [j] blocks of the map of [m] are read into [b0]. *)
Record reading (j : Z) (b0 : bitmap) (d : Z) s : Prop := mk_reading {
  rd_machine : same_machine (fs m) s;
  rd_map : sfs_freemap s = partly j (sfs_freemap (fs m)) b0;
  rd_rest : sfs_freemapdirty s = false /\ sb_nblocks s = sb_nblocks (fs m) /\ sfs_vnodes s = ∅ /\ vfs_biglock_depth s = d
}.

Lemma map_block_range j : 0 <= j < n -> 0 <= SFS_FREEMAP_START + j < dv_blocks (sfs_device (fs m)).
Proof.
  intros Hj. pose proof (mo_volume _ _ _ _ _ _ Hm) as Hv. pose proof (so_disk _ _ (vo_fs _ _ _ _ Hv)) as Hd. cbn in Hd.
  assert (marked (fs m) (SFS_FREEMAP_START + j)) as [Hr _]; [|lia].
  apply (bo_marked _ _ _ _ (vo_blocks _ _ _ _ Hv) (KOther (SFS_FREEMAP_START + j))). split; [done|]. left. by apply (mo_meta _ _ _ _ _ _ Hm).
Qed.

Lemma map_read j b0 d x s : 0 <= j < n -> 0 < d -> reading j b0 d s -> exists s', freemap_read freemap_addr j (with_fs s x) = inr (0, with_fs s' x) /\ reading (j + 1) b0 d s'.
Proof.
  intros Hj Hd [Hmach Hmap (R1 & R2 & R3 & R4)]. pose proof Hmach as [(A1 & A2 & A3) A4 A5].
  destruct (dev_readblock s (SFS_FREEMAP_START + j) (map_addr freemap_addr j)) as (m' & d' & Hrun & Hld & Hz & Hdev & Hsec);
    [done|rewrite A2; by apply map_block_range|lia|rewrite A3; apply (so_layout _ _ (vo_fs _ _ _ _ (mo_volume _ _ _ _ _ _ Hm)))|rewrite A3; intros a; by apply (mo_map_addr _ _ _ _ _ _ Hm)|].
  unfold freemap_read.
  assert (on_sfs (sfs_readblock (SFS_FREEMAP_START + j) (freemap_addr + j * SFS_BLOCKSIZE) SFS_BLOCKSIZE) (with_fs s x) = inr (0, with_fs (set_io m' d' s) x)) as Hio
    by (rewrite (run_sfs _ 0 (set_io m' d' s)); done).
  rewrite (srun_call _ _ _ _ _ Hio), modify_sfs. eexists. split; [reflexivity|]. pose proof (same_machine_read _ _ _ _ Hmach Hz Hdev Hsec) as Hmach'.
  constructor; [destruct Hmach'; by constructor| |done].
  change (put_map_block j (load m' (span (map_addr freemap_addr j) SFS_BLOCKSIZE)) (sfs_freemap s) = partly (j + 1) (sfs_freemap (fs m)) b0).
  rewrite Hld, A4, Hmap, (mo_map_disk _ _ _ _ _ _ Hm Hclean) by done. apply put_next_block; [lia|].
  rewrite (mount_map_length _ _ _ _ I m Hm). unfold SFS_BLOCKSIZE. lia.
Qed.

Lemma map_reads b0 d x : 0 < d -> forall k j s, j + Z.of_nat k = n -> 0 <= j -> reading j b0 d s ->
  exists s', freemapio_from freemap_addr k j UIO_READ (with_fs s x) = inr (0, with_fs s' x) /\ reading n b0 d s'.
Proof.
  intros Hd k. induction k as [|k IH]; intros j s Hk Hj Hr; [exists s; split; [done|]; by replace n with j by lia|].
  destruct (map_read j b0 d x s) as (s1 & Hrun & Hr1); [lia|done|done|]. cbn [freemapio_from]. rewrite (srun_call _ _ _ _ _ Hrun). cbn [Z.eqb negb].
  apply IH; [lia|lia|done].
Qed.
End reading.

(** ** Mounting *)

(** A structure in the making on the machine of [m]. *)
Record making m (d : Z) x : Prop := mk_making {
  mk_machine : same_machine (fs m) (fs x);
  mk_depth : vfs_biglock_depth (fs x) = d;
  mk_memory : forall c, c ∈ v_memory (m_volume x) -> c ∈ v_memory (m_volume m)
}.

Record blank m (d : Z) x : Prop := mk_blank {
  bl_making : making m d x;
  bl_fs : sfs_freemapdirty (fs x) = false /\ sfs_vnodes (fs x) = ∅;
  bl_table : holds (v_table (m_volume x)) [];
  bl_dirty : m_superdirty x = false
}.

Lemma making_ask m d x : making m d x -> exists b l, on_volume kmalloc_ok x = inr (b, set_volume (set_memory l (m_volume x)) x) /\
  (b = false -> false ∈ v_memory (m_volume m)) /\ making m d (set_volume (set_memory l (m_volume x)) x).
Proof.
  intros [M1 M2 M3]. destruct (kmalloc_run (m_volume x)) as (b & l & Hrun & Hb & Hl). exists b, l.
  split; [by apply run_volume|]. split; [auto|]. constructor; [done|done|]. intros c Hc. by apply M3, Hl.
Qed.

Lemma blank_ask m d x : blank m d x -> exists b x', on_volume kmalloc_ok x = inr (b, x') /\
  (b = false -> false ∈ v_memory (m_volume m)) /\ blank m d x' /\ fs x' = fs x /\ m_super x' = m_super x /\ m_device x' = m_device x.
Proof.
  intros [B1 B2 B3 B4]. destruct (making_ask m d x B1) as (b & l & Hrun & Hb & Hm). exists b, (set_volume (set_memory l (m_volume x)) x). split_and!; [done|done| |done|done|done].
  constructor; [done|done|destruct B3; by constructor|done].
Qed.

Lemma create_run m d x : making m d x -> exists ok x', sfs_fs_create x = inr (ok, x') /\
  ((ok = true /\ blank m d x') \/ (ok = false /\ making m d x' /\ false ∈ v_memory (m_volume m))).
Proof.
  intros Hm. unfold sfs_fs_create. destruct (making_ask m d x Hm) as (b & l & Hrun & Hb & Hm1). rewrite (srun_call _ _ _ _ _ Hrun).
  destruct b; [|by eexists _, _; split; [reflexivity|]; right; auto]. cbn [negb]. rewrite srun_modify.
  set (x1 := blank_mount _). assert (making m d x1) as Hm2 by (destruct Hm1 as [[] ? ?]; constructor; [by constructor|done|done]).
  destruct (making_ask m d x1 Hm2) as (b2 & l2 & Hrun2 & Hb2 & Hm3). rewrite (srun_call _ _ _ _ _ Hrun2).
  destruct b2; [|by eexists _, _; split; [reflexivity|]; right; auto]. cbn [negb]. eexists _, _. split; [reflexivity|]. left. split; [done|].
  constructor; [destruct Hm3 as [[] ? ?]; constructor; [by constructor|done|done]|done|by constructor|done].
Qed.

Lemma fail_run m d x r : blank m d x -> 0 < d -> exists x', domount_fail r x = inr (r, x').
Proof.
  intros [[_ B1 _] _ B3 _] Hd. unfold domount_fail. rewrite srun_modify, destroy_run by done. rewrite mount_unlock by (cbn; by rewrite B1). by eexists.
Qed.

Lemma read_super_run I m d x : mount_ok I m -> super_on_disk m -> blank m d x -> 0 < d ->
  exists x', read_super sb_addr x = inr (0, x') /\ blank m d x' /\ m_super x' = m_super m /\ sb_nblocks (fs x') = sb_nblocks (fs m) /\ m_device x' = m_device x.
Proof.
  intros Hm Hsup [[Hmach B1 Bm] [B2 B2'] B3 B4] Hd. pose proof Hmach as [(A1 & A2 & A3) A4 A5]. pose proof (mo_volume _ _ _ _ _ _ Hm) as Hv.
  pose proof (so_disk _ _ (vo_fs _ _ _ _ Hv)) as Hdk. cbn in Hdk. pose proof (mount_nblocks _ _ _ _ I m Hm) as Hn.
  destruct (dev_readblock (fs x) SFS_SUPER_BLOCK sb_addr) as (m' & d' & Hrun & Hld & Hz & Hdev & Hsec);
    [done|rewrite A2; unfold SFS_SUPER_BLOCK; lia|lia|rewrite A3; apply (so_layout _ _ (vo_fs _ _ _ _ Hv))|rewrite A3; apply (mo_sb_addr _ _ _ _ _ _ Hm)|].
  unfold read_super. assert (on_sfs (sfs_readblock SFS_SUPER_BLOCK sb_addr SFS_BLOCKSIZE) x = inr (0, with_fs (set_io m' d' (fs x)) x)) as Hio by (by apply run_sfs).
  rewrite (srun_call _ _ _ _ _ Hio), get_sfs. change (sfs_mem (fs (with_fs (set_io m' d' (fs x)) x))) with m'. rewrite Hld, A4, Hsup.
  destruct (super_roundtrip (sb_nblocks (fs m)) (m_super m) (mo_super _ _ _ _ _ _ Hm)) as [E1 E2]; [unfold is_u32; lia|]. rewrite E1, E2.
  rewrite srun_modify, modify_sfs. eexists. split; [reflexivity|]. pose proof (same_machine_read _ _ _ _ Hmach Hz Hdev Hsec) as [S1 S2 S3].
  split; [|done]. constructor; [constructor; [by constructor|done|done]|done|done|done].
Qed.

(** The map of the free blocks, all 0. *)
Lemma create_map_run I m d x : mount_ok I m -> blank m d x -> exists ob x', create_map (SFS_FREEMAPBITS (sb_nblocks (fs m))) x = inr (ob, x') /\
  blank m d x' /\ m_super x' = m_super x /\ sb_nblocks (fs x') = sb_nblocks (fs x) /\ m_device x' = m_device x /\
  ((exists b, ob = Some b /\ nbits b = nbits (sfs_freemap (fs m)) /\ zlen (bm_v b) = map_blocks (fs m) * SFS_BLOCKSIZE) \/ (ob = None /\ false ∈ v_memory (m_volume m))).
Proof.
  intros Hm Hb. destruct (freemap_sizes _ (mount_nblocks _ _ _ _ I m Hm)) as (Hbits & Hblocks & Hr). unfold create_map.
  destruct (blank_ask m d x Hb) as (b1 & x1 & Hrun1 & Hf1 & Hb1 & E1 & E1' & E1''). rewrite (srun_call _ _ _ _ _ Hrun1).
  destruct b1; cbn [negb]; [|eexists _, _; split; [reflexivity|]; split_and!; [done|done|by rewrite E1|done|right; auto]].
  destruct (blank_ask m d x1 Hb1) as (b2 & x2 & Hrun2 & Hf2 & Hb2 & E2 & E2' & E2''). rewrite (srun_call _ _ _ _ _ Hrun2).
  destruct b2; cbn [negb]; [|eexists _, _; split; [reflexivity|]; split_and!; [done|congruence|congruence|congruence|right; auto]].
  destruct (bitmap_setup_ok (SFS_FREEMAPBITS (sb_nblocks (fs m)))) as (b & Hset & Hnb & Hwf & _); [rewrite Hbits; lia|].
  assert (on_sfs (of_sum (bitmap_setup (SFS_FREEMAPBITS (sb_nblocks (fs m))))) x2 = inr (b, x2)) as Hrun3.
  { rewrite (run_sfs _ b (fs x2)); [by rewrite with_fs_id|]. by rewrite Hset. }
  rewrite (srun_call _ _ _ _ _ Hrun3). eexists _, _. split; [reflexivity|]. split_and!; [done|congruence|congruence|congruence|]. left. exists b.
  split_and!; [done|by rewrite Hnb, (mo_bits _ _ _ _ _ _ Hm)|]. rewrite (bwf_len _ Hwf), Hnb, Hbits. unfold map_blocks. rewrite Hblocks. unfold SFS_BLOCKSIZE. lia.
Qed.

(** The volume of [m] again, with nothing open. *)
Record remounted I m m' : Prop := mk_remounted {
  re_ok : mount_ok I m';
  re_files : files I (fs m') = files I (fs m) /\ same_files (sec (fs m)) (files I (fs m)) (sec (fs m')) (files I (fs m));
  re_map : sfs_freemap (fs m') = sfs_freemap (fs m);
  re_super : m_super m' = m_super m /\ sb_nblocks (fs m') = sb_nblocks (fs m);
  re_frame : frame (fs m) (fs m');
  re_vnodes : sfs_vnodes (fs m') = ∅
}.

Lemma remounted_intro I m d b0 x s : mount_ok I m -> sfs_freemapdirty (fs m) = false -> super_on_disk m -> sfs_vnodes (fs m) = ∅ ->
  nbits b0 = nbits (sfs_freemap (fs m)) -> zlen (bm_v b0) = map_blocks (fs m) * SFS_BLOCKSIZE ->
  d = vfs_biglock_depth (fs m) + 1 -> reading m (map_blocks (fs m)) b0 d s -> holds (v_table (m_volume x)) [] -> m_superdirty x = false -> m_super x = m_super m -> m_device x = true ->
  remounted I m (with_fs (set_depth (d - 1) s) x).
Proof.
  intros Hm Hclean Hsup Hvn Hnb Hlen Hd [Hmach Hmap (R1 & R2 & R3 & R4)] Ht Hsd Hsb Hdev. pose proof Hmach as [A A4 A5]. pose proof (mo_volume _ _ _ _ _ _ Hm) as Hv.
  assert (sfs_freemap s = sfs_freemap (fs m)) as Emap.
  { rewrite Hmap. apply (partly_all (map_blocks (fs m))); [done|apply (mount_map_length _ _ _ _ I m Hm)|done]. }
  set (m' := with_fs (set_depth (d - 1) s) x). assert (frame (fs m) (fs m')) as Hfr by (constructor; [exact R2|cbn; lia|apply A]).
  assert (forall k, k ∈ I -> inode_of (fs m') k = inode_of (fs m) k) as Hin.
  { intros k _. apply inode_of_core; [|exact (A4 k)]. unfold in_core. cbn. by rewrite R3, Hvn. }
  assert (volume_ok I (m_volume m')) as Hv'.
  { apply (volume_same _ _ I (m_volume m)); [done|done|exact Emap|exact A|exact A5| | |exact Hin| | |].
    - eapply blocks_ok_ext; [exact A4|done|apply Hv].
    - constructor; intros y; cbn; rewrite R3; intros; by simplify_map_eq.
    - intros y w. cbn. rewrite R3. by intros ?%lookup_empty_Some.
    - exists []. split; [done|]. split; [constructor|]. intros y. cbn. rewrite R3, lookup_empty. split; [by intros ?%elem_of_nil|by intros [? [=]]].
    - intros y. cbn. rewrite R3, lookup_empty. by intros [? [=]]. }
  constructor; [|split; [by apply files_eq|apply same_files_ext; exact A4]|exact Emap|split; [exact Hsb|exact R2]|done|exact R3].
  destruct Hm as [M1 M2 M3 M4 M5 M6 M7 M8 M9]. constructor; [done| | | | | | | |done].
  - change (nbits (sfs_freemap s) = SFS_FREEMAPBITS (sb_nblocks s)). by rewrite Emap, R2.
  - unfold map_blocks. rewrite (fr_nblocks _ _ Hfr). exact M3.
  - change (super_wf (m_super x)). by rewrite Hsb.
  - rewrite (fr_buffer _ _ Hfr). exact M5.
  - unfold map_blocks. rewrite (fr_nblocks _ _ Hfr), (fr_buffer _ _ Hfr). exact M6.
  - intros _ j Hj. unfold map_blocks in Hj. rewrite (fr_nblocks _ _ Hfr) in Hj. change (sec s (SFS_FREEMAP_START + j) = map_block j (sfs_freemap s)).
    rewrite A4, Emap. by apply M7.
  - intros _. unfold super_on_disk. rewrite (fr_nblocks _ _ Hfr). change (sec s SFS_SUPER_BLOCK = encode_super (sb_nblocks (fs m)) (m_super x)). by rewrite A4, Hsb.
Qed.

Lemma sfs_domount_run I m m1 : mount_ok I m -> sfs_freemapdirty (fs m) = false -> super_on_disk m -> sfs_vnodes (fs m) = ∅ -> unmounted m m1 ->
  exists r m2, sfs_domount freemap_addr sb_addr SFS_BLOCKSIZE m1 = inr (r, m2) /\ ((r = 0 /\ remounted I m m2) \/ (r = ENOMEM /\ false ∈ v_memory (m_volume m))).
Proof.
  intros Hm Hclean Hsup Hvn [(U1 & U2 & U3) U4 U5]. pose proof (mo_volume _ _ _ _ _ _ Hm) as Hv. pose proof (vo_depth _ _ _ _ Hv) as Hdep.
  unfold sfs_domount. rewrite mount_lock. set (x0 := with_fs _ m1). set (d := vfs_biglock_depth (fs m) + 1). assert (0 < d) as Hd by lia.
  change (negb (SFS_BLOCKSIZE =? SFS_BLOCKSIZE)) with false. cbn iota.
  assert (making m d x0) as H0.
  { constructor; [|cbn; lia|cbn; by rewrite U4]. constructor.
    - change (sfs_device (fs x0)) with (sfs_device (fs m1)). rewrite U2. split_and!; [apply (so_ready _ _ (vo_fs _ _ _ _ Hv))|done|done].
    - intros c. change (dv_sector (sfs_device (fs m1)) c = sec (fs m) c). by rewrite U2.
    - change (keeps_zeros (sfs_mem (fs m)) (sfs_mem (fs m1))). rewrite U1. by intros a []. }
  destruct (create_run m d x0 H0) as (ok & x1 & Hrun1 & Hor). rewrite (srun_call _ _ _ _ _ Hrun1).
  destruct Hor as [[-> Hb1]|(-> & [_ Hdx _] & Hf)]; cbn [negb]; [|rewrite mount_unlock by lia; eexists _, _; split; [reflexivity|]; right; done].
  rewrite srun_modify. assert (blank m d (set_attached true x1)) as Hb1' by (destruct Hb1 as [[] ? ? ?]; constructor; [by constructor|done|done|done]).
  destruct (read_super_run I m d _ Hm Hsup Hb1' Hd) as (x2 & Hrun2 & Hb2 & Es & En & Ed). rewrite (srun_call _ _ _ _ _ Hrun2). cbn [Z.eqb negb]. rewrite srun_get, Es.
  rewrite (sw_magic _ (mo_super _ _ _ _ _ _ Hm)), Z.eqb_refl. cbn [negb]. rewrite srun_modify, (end_volname_id _ (mo_super _ _ _ _ _ _ Hm)), get_sfs.
  change (sb_nblocks (fs (set_super (m_super m) x2))) with (sb_nblocks (fs x2)). rewrite En.
  assert (blank m d (set_super (m_super m) x2)) as Hb2' by (destruct Hb2 as [[] ? ? ?]; constructor; [by constructor|done|done|done]).
  destruct (create_map_run I m d _ Hm Hb2') as (ob & x3 & Hrun3 & Hb3 & Es3 & En3 & Ed3 & Hor). rewrite (srun_call _ _ _ _ _ Hrun3).
  destruct Hor as [(b & -> & Hnb & Hlen)|[-> Hf]].
  2: { destruct (fail_run m d x3 ENOMEM Hb3 Hd) as (x4 & Hrun4). rewrite Hrun4. eexists _, _. split; [reflexivity|]. by right. }
  rewrite modify_sfs. destruct Hb3 as [[Hmach Hdx _] [F1 F2] Ht Hsd].
  assert (reading m 0 b d (set_freemap b (fs x3))) as Hr0.
  { constructor; [destruct Hmach; by constructor|symmetry; by apply partly_none|split_and!; [done|exact (eq_trans En3 En)|done|done]]. }
  destruct (freemap_sizes _ (mount_nblocks _ _ _ _ I m Hm)) as (_ & _ & Hpos).
  destruct (map_reads I m Hm Hclean b d x3 Hd (Z.to_nat (map_blocks (fs m))) 0 (set_freemap b (fs x3))) as (s4 & Hrun4 & Hr4); [unfold map_blocks; lia|done|exact Hr0|].
  assert (sfs_freemapio freemap_addr UIO_READ (with_fs (set_freemap b (fs x3)) x3) = inr (0, with_fs s4 x3)) as Hio.
  { unfold sfs_freemapio. rewrite get_sfs. change (sb_nblocks (fs (with_fs (set_freemap b (fs x3)) x3))) with (sb_nblocks (fs x3)).
    rewrite En3. change (sb_nblocks (fs (set_super (m_super m) x2))) with (sb_nblocks (fs x2)). rewrite En. exact Hrun4. }
  rewrite (srun_call _ _ _ _ _ Hio). cbn [Z.eqb negb]. pose proof (rd_rest _ _ _ _ _ Hr4) as (_ & _ & _ & R4).
  assert (0 < vfs_biglock_depth (fs (with_fs s4 x3))) as Hd4 by (cbn; lia). rewrite mount_unlock by done. eexists _, _. split; [reflexivity|]. left. split; [done|].
  change (vfs_biglock_depth (fs (with_fs s4 x3))) with (vfs_biglock_depth s4). rewrite R4.
  apply (remounted_intro I m d b x3 s4); try done. rewrite Ed3. change (m_device (set_super (m_super m) x2)) with (m_device x2). by rewrite Ed.
Qed.

Lemma remount_run I m : mount_ok I m -> sfs_vnodes (fs m) = ∅ ->
  exists m1 m2 r m3, sfs_sync inode_addr freemap_addr sb_addr m = inr (0, m1) /\ sfs_unmount m1 = inr (0, m2) /\
    sfs_domount freemap_addr sb_addr SFS_BLOCKSIZE m2 = inr (r, m3) /\ ((r = 0 /\ remounted I m m3) \/ (r = ENOMEM /\ false ∈ v_memory (m_volume m))).
Proof.
  intros Hm Hvn. destruct (sfs_sync_run _ _ _ _ I m Hm) as (m1 & Hsync & [A1 A2 [A3 A4] A5 A6 A7 _]). pose proof A2 as [K1 [K2 K3] (K4 & K5 & K6 & _) K7 [K8 K9]].
  assert (sfs_vnodes (fs m1) = ∅) as Hvn1.
  { apply map_empty. intros x. specialize (K7 x). rewrite Hvn in K7. by destruct (sfs_vnodes (fs m1) !! x). }
  destruct (sfs_unmount_run I m1 A1 A3 A4 Hvn1) as (m2 & Hun & Hu). destruct (sfs_domount_run I m1 m2 A1 A3 A7 Hvn1 Hu) as (r & m3 & Hmount & Hor).
  exists m1, m2, r, m3. split_and!; [done|done|done|]. destruct Hor as [[-> [R1 [R2 R3] R4 [R5 R6] R7 R8]]|[-> Hf]]; [left|right; by rewrite <- K6]. split; [done|].
  constructor; [done| |congruence|split; [congruence|by rewrite R6, (fr_nblocks _ _ K2)]|by eapply frame_trans|done].
  split; [congruence|]. rewrite K8 in R2, R3. by eapply same_files_trans.
Qed.

(** (C24) [sfs_sync] writes everything back: it returns 0, the inodes of all
    files, the free map and the superblock on the disk are those in memory,
    neither the free map nor the superblock nor the inode of any open file is
    marked dirty any more, and no file has changed. *)
Theorem sfs_sync_writes I m : mount_ok I m ->
  exists m', sfs_sync inode_addr freemap_addr sb_addr m = inr (0, m') /\ all_written inode_addr freemap_addr sb_addr meta I m m'.
Proof. apply sfs_sync_run. Qed.

(** (C23) A volume without open files that is written back, unmounted and mounted
    again has the same files with the same bytes, the same free blocks and the
    same superblock; mounting can only fail for lack of memory. *)
Theorem sfs_remount I m : mount_ok I m -> sfs_vnodes (fs m) = ∅ ->
  exists m1 m2 r m3, sfs_sync inode_addr freemap_addr sb_addr m = inr (0, m1) /\ sfs_unmount m1 = inr (0, m2) /\
    sfs_domount freemap_addr sb_addr SFS_BLOCKSIZE m2 = inr (r, m3) /\ ((r = 0 /\ remounted I m m3) \/ (r = ENOMEM /\ false ∈ v_memory (m_volume m))).
Proof. apply remount_run. Qed.
End remount.

(** ** A mounted volume *)

#[local] Existing Instance ex_layout.
#[local] Existing Instance ex_device.
#[local] Existing Instance ex_block_device.

(** The volume of [SfsHistory], as it is and with nothing open; the free map
    and the superblock are still to be written. *)
Definition ex_super : sfs_superblock := mk_super SFS_MAGIC (replicate 32 0) (replicate 118 0).
Definition ex_mount (v : volume (D := lhd_softc plain_card)) : mount (D := lhd_softc plain_card) := mk_mount v ex_super true true.
Definition ex_closed : volume (D := lhd_softc plain_card) := mk_volume (set_vnodes ∅ (ex_names_fs 1)) (mk_array [] 0 0) ∅ [].

Lemma ex_closed_none x w : ~ sfs_vnodes (v_fs ex_closed) !! x = Some w.
Proof. exact (lookup_empty_Some (M := gmap positive) x w). Qed.

Lemma ex_closed_ok : volume_ok ex_inode_addr ex_meta ex_inodes ex_closed.
Proof.
  assert (is_u16 1) as H1 by done. pose proof (ex_names_ok 1 H1) as Hv.
  apply (volume_same _ _ ex_inodes (ex_names 1)); [done|done|done|by split_and!; [apply (ex_names_disk_ready 1 H1)|..]|by intros a []|exact (vo_blocks _ _ _ _ Hv)| | | | |].
  - constructor; [intros x w Hw|intros x y w w' Hw]; by destruct (ex_closed_none _ _ Hw).
  - intros k Hk. change (decode_dinode (sec (ex_names_fs 1) k) = inode_of (ex_names_fs 1) k).
    destruct (ex_inode_of 1 k Hk) as [[-> ->]|[-> ->]]; [exact (dinode_roundtrip ex_root ex_root_wf)|exact (dinode_roundtrip (ex_file 1) (ex_file_wf 1 H1))].
  - intros x w Hw. by destruct (ex_closed_none _ _ Hw).
  - exists []. split; [by constructor|]. split; [constructor|]. intros x. split; [by intros ?%elem_of_nil|]. intros [w Hw]. by destruct (ex_closed_none _ _ Hw).
  - intros x [w Hw]. by destruct (ex_closed_none _ _ Hw).
Qed.

Lemma ex_mount_ok v : volume_ok ex_inode_addr ex_meta ex_inodes v -> sb_nblocks (v_fs v) = 64 -> sfs_freemap (v_fs v) = ex_map -> dv_buffer (sfs_device (v_fs v)) = 0xbfe08000 ->
  sfs_freemapdirty (v_fs v) = true -> mount_ok ex_inode_addr 0x80700000 0x80700200 ex_meta ex_inodes (ex_mount v).
Proof.
  intros Hv Hn Hmap Hbuf Hd. assert (map_blocks (v_fs v) = 1) as Hb by (unfold map_blocks; by rewrite Hn). constructor; cbn [m_volume ex_mount m_super m_superdirty m_device].
  - done.
  - by rewrite Hmap, Hn.
  - split; [by left|]. rewrite Hb. intros j Hj. right. unfold SFS_FREEMAP_START. lia.
  - constructor; [done|done|split; [done|by apply Forall_replicate]].
  - rewrite Hbuf. intros a Ha [Hs|[[] Hs]]; rewrite !elem_span in *; cbn in Hs; unfold SFS_BLOCKSIZE in *; lia.
  - rewrite Hb, Hbuf. unfold map_addr. intros j a Hj Ha [Hs|[[] Hs]]; rewrite !elem_span in *; cbn in Hs; unfold SFS_BLOCKSIZE in *; lia.
  - by rewrite Hd.
  - done.
  - done.
Qed.

Lemma sfs_sync_writes_witness :
  exists m', sfs_sync ex_inode_addr 0x80700000 0x80700200 (ex_mount (ex_names 1)) = inr (0, m') /\
    map_on_disk (v_fs (m_volume m')) /\ decode_dinode (sec (v_fs (m_volume m')) 4) = ex_file 1 /\
    forall x w, sfs_vnodes (v_fs (m_volume m')) !! x = Some w -> sv_dirty w = false.
Proof.
  destruct (sfs_sync_writes ex_inode_addr 0x80700000 0x80700200 ex_meta ex_inodes (ex_mount (ex_names 1))) as (m' & Hrun & Hw);
    [apply ex_mount_ok; [by apply ex_names_ok|reflexivity|reflexivity|reflexivity|reflexivity]|].
  exists m'. split; [exact Hrun|]. split; [exact (aw_map _ _ _ _ _ _ _ Hw)|].
  assert (4 ∈ ex_inodes) as H4 by (unfold ex_inodes; set_solver). destruct (ex_inode_of 1 4 H4) as [[[=] _]|[_ E]].
  split; [exact (eq_trans (aw_inodes _ _ _ _ _ _ _ Hw 4 H4) E)|exact (aw_vnodes _ _ _ _ _ _ _ Hw)].
Defined.

Lemma sfs_remount_witness :
  exists m1 m2 m3, sfs_sync ex_inode_addr 0x80700000 0x80700200 (ex_mount ex_closed) = inr (0, m1) /\ sfs_unmount m1 = inr (0, m2) /\
    sfs_domount 0x80700000 0x80700200 SFS_BLOCKSIZE m2 = inr (0, m3) /\ sfs_freemap (v_fs (m_volume m3)) = ex_map.
Proof.
  destruct (sfs_remount ex_inode_addr 0x80700000 0x80700200 ex_meta ex_inodes (ex_mount ex_closed)) as (m1 & m2 & r & m3 & Hsync & Hun & Hmount & Hor);
    [apply ex_mount_ok; [exact ex_closed_ok|reflexivity|reflexivity|reflexivity|reflexivity]|reflexivity|].
  destruct Hor as [[-> Hre]|[_ Hf]]; [|exfalso; change (false ∈ @nil bool) in Hf; exact (not_elem_of_nil _ Hf)].
  exists m1, m2, m3. split; [exact Hsync|]. split; [exact Hun|]. split; [exact Hmount|]. exact (re_map _ _ _ _ _ _ _ Hre).
Defined.
