(* ===== verification/Scenario.v ===== *)
(** * A concrete machine under memory pressure

    One process with a code page and a data page in the only two user frames,
    no free frame, an empty swap file.  The witnesses of the page fault
    theorems and the concrete runs that show where the code misbehaves are
    evaluated on it. *)

From S2P Require Import Prelude State Monad Machine Testbed Bitmap VmStats Ram VmTlb Swapfile Heap Coremap CoremapSpec LooseQueue KernelPages Pt Segment AddrSpace PageMap Release Semaphore Proc UserPage Replacement PageVm LoadElf.

Definition sc_code : ps_t := mk_ps PAGE_EXE 0x800 0x1000 0x400000 1 0x800 (Some 2%positive) (Some 3%positive).
Definition sc_data : ps_t := mk_ps PAGE_RW 0x1400 0x2000 0x10000000 2 0x1800 (Some 2%positive) (Some 5%positive).
Definition sc_stack : ps_t :=
  mk_ps PAGE_STACK 0 0 STACK_BASE PAGEVM_STACKPAGES (PAGEVM_STACKPAGES * PAGE_SIZE) None (Some 7%positive).

Definition sc_code_pt : pt_t := mk_pt 1 0x400000 (Some [0x4000]).
Definition sc_data_pt : pt_t := mk_pt 2 0x10000000 (Some [0x5000; 0]).
Definition sc_stack_pt : pt_t := mk_pt PAGEVM_STACKPAGES STACK_BASE (Some (replicate 18 0)).

Definition sc_proc : proc := mk_proc "init" 1 (Some 1%positive) (Some 3%positive) 0 2 (Some 9%positive).

Definition sc_heap : heap_st :=
  mk_heap {[ 1%positive := mk_as (Some 2%positive) (Some 4%positive) (Some 6%positive) ]}
    {[ 2%positive := sc_code; 4%positive := sc_data; 6%positive := sc_stack ]}
    {[ 3%positive := sc_code_pt; 5%positive := sc_data_pt; 7%positive := sc_stack_pt ]}
    {[ 8%positive := sc_proc; 10%positive := mk_proc "[kernel]" 1 None None 0 1 (Some 11%positive) ]}
    {[ 9%positive := mk_sem "init" [] 0; 11%positive := mk_sem "[kernel]" [] 0 ]} ∅ 12 [].

(** Frames 0 to 3 belong to the kernel image, 4 and 5 to the process. *)
Definition sc_frames : list coremap_entry :=
  [ demo_untracked; demo_untracked; demo_untracked; demo_untracked;
    mk_cme COREMAP_BUSY_USER 1 6 5 0x400000 (Some 1%positive);
    mk_cme COREMAP_BUSY_USER 1 4 6 0x10000000 (Some 1%positive) ].

Definition sc_bitmap : bitmap := mk_bitmap SWAP_SLOTS (replicate 288 0).

(** The kernel process has pid 1, the user process pid 2. *)
Definition sc_ptab : proctab_st :=
  mk_ptab 1 ([None; Some 10%positive; Some 8%positive] ++ replicate 98 None) 2 (Some 10%positive).

(** [es]: the TLB. *)
Definition scenario (es : list (Z * Z)) : kstate memfs :=
  mk_state (mk_cpu [] 0 false (Some 8%positive)) (mk_ram 0x80004000 0x6000 0x6000)
    (mk_cm sc_frames 6 true 6 5 4) (mk_tlb es 0) (mk_stats true (replicate 10 0))
    (mk_swap (Some 1%positive) (Some sc_bitmap)) sc_heap sc_ptab
    (fun x => x mod 251) blank_fs [].

Definition sc_segs : segs :=
  mk_segs (fun r => match r with Code => 2 | Data => 4 | Stack => 6 end%positive)
    (fun r => match r with Code => sc_code | Data => sc_data | Stack => sc_stack end)
    (fun r => match r with Code => 3 | Data => 5 | Stack => 7 end%positive)
    (fun r => match r with Code => sc_code_pt | Data => sc_data_pt | Stack => sc_stack_pt end).

Section scenario.
Context (es : list (Z * Z)).

Lemma words_wf n base buf :
  is_u32 base -> zlen buf = n -> Forall (fun e => e = 0 \/ (page_paddr_ok e /\ e <> 0)) buf ->
  pt_wf (mk_pt n base (Some buf)) buf.
Proof.
  intros Hb Hl Hall. constructor; try done. intros i e He. rewrite Forall_forall in Hall.
  unfold zlookup in He. destruct (i <? 0); [done|]. apply list_elem_of_lookup_2, Hall in He as [->|He].
  - by exists pte_empty.
  - by exists (pte_resident e).
Qed.

Lemma sc_as_ok : as_ok (scenario es) 1 sc_segs.
Proof.
  constructor.
  - eexists. split; [reflexivity|]. by intros [].
  - intros []; (constructor; [reflexivity|reflexivity|reflexivity| |reflexivity|reflexivity|constructor; vm_compute; done]).
    + exists [0x4000]. apply words_wf; [done|done|]. constructor; [right; by split|constructor].
    + exists [0x5000; 0]. apply words_wf; [done|done|]. constructor; [right; by split|]. constructor; [by left|constructor].
    + exists (replicate 18 0). apply words_wf; [done|done|]. apply Forall_replicate. by left.
  - intros []; cbn; split_and!; try (vm_compute; done); by eexists.
  - intros r r' va. unfold seg_covers, page_of.
    destruct r, r'; cbn [sg_seg sc_segs sc_code sc_data sc_stack base_vaddr num_pages]; try done;
      unfold STACK_BASE, USERSTACK, MIPS_KSEG0, PAGEVM_STACKPAGES, PAGE_SIZE; lia.
Qed.

(** It is the only address space. *)
Lemma sc_only a G : as_ok (scenario es) a G -> a = 1%positive.
Proof.
  intros [(A & HA & _) _ _ _]. change (({[ 1%positive := mk_as (Some 2%positive) (Some 4%positive) (Some 6%positive) ]}
    : gmap positive addrspace_t) !! a = Some A) in HA. by apply lookup_singleton_Some in HA as [<- _].
Qed.

(** The resident pages. *)
Lemma sc_pages a va p :
  page_at (scenario es) a va p ->
  a = 1%positive /\
  ((p = pte_resident 0x4000 /\ page_of va = 0x400) \/ (p = pte_resident 0x5000 /\ page_of va = 0x10000) \/ p = pte_empty).
Proof.
  intros (G & r & Hok & Hc & Hv). pose proof (sc_only _ _ Hok) as ->. split; [done|].
  destruct (as_ok_unique _ _ _ _ sc_as_ok Hok r) as (_ & E2 & _ & E4). rewrite <- E2 in Hc. rewrite <- E4 in Hv.
  unfold seg_covers, pt_view, pt_index in *.
  destruct r; cbn [sg_seg sg_tab sc_segs sc_code sc_data sc_stack sc_code_pt sc_data_pt sc_stack_pt
    base_vaddr num_pages pt_base_vaddr page_buffer] in *.
  - assert (page_of va - page_of 0x400000 = 0) as E by lia. rewrite E in Hv. cbn in Hv. injection Hv as <-.
    left. split; [done|]. change (page_of 0x400000) with 0x400 in E. lia.
  - assert (page_of va - page_of 0x10000000 = 0 \/ page_of va - page_of 0x10000000 = 1) as [E|E] by lia;
      rewrite E in Hv; cbn in Hv; injection Hv as <-; [right; left|by right; right].
    split; [done|]. change (page_of 0x10000000) with 0x10000 in E. lia.
  - right. right. change (pte_of <$> zlookup (replicate 18 0) (page_of va - page_of STACK_BASE) = Some p) in Hv.
    rewrite zlookup_replicate in Hv. case_decide; [|done]. cbn in Hv. by injection Hv as <-.
Qed.

Lemma sc_bitmap_wf : bitmap_wf sc_bitmap.
Proof. apply full_words_wf; [done|]. intros w [-> _]%elem_of_replicate. lia. Qed.

Lemma sc_frames_wf : frames_wf (s_ram (scenario es)) (s_cm (scenario es)).
Proof.
  constructor; try reflexivity.
  - constructor; vm_compute; done.
  - intros i e Hi He. cbn in Hi. unfold PAGE_SIZE in Hi. cbn [coremap s_cm scenario] in He. zcases He; cbn; lia || done.
  - intros e He. cbn in He. by injection He as <-.
Qed.

Lemma sc_fifo : fifo (Some 6) (s_cm (scenario es)) [4; 5].
Proof.
  constructor; try reflexivity.
  - cbn. repeat split; eexists; repeat split; reflexivity.
  - apply (bool_decide_unpack _). reflexivity.
  - intros i e He Ht. cbn [coremap s_cm scenario] in He. zcases He; try done; assert (i = 4 \/ i = 5) by lia; set_solver.
Qed.

Lemma sc_inv : vm_inv None (scenario es) [4; 5] 1 sc_bitmap.
Proof.
  constructor; try done.
  - apply sc_frames_wf.
  - eapply fifo_weaken, sc_fifo.
  - split_and!; [done|apply sc_bitmap_wf|done].
  - intros a G r a' G' r' H H' E. pose proof (sc_only _ _ H) as ->. pose proof (sc_only _ _ H') as ->. split; [done|].
    destruct (as_ok_unique _ _ _ _ sc_as_ok H r) as (_ & _ & E1 & _).
    destruct (as_ok_unique _ _ _ _ sc_as_ok H' r') as (_ & _ & E2 & _). rewrite <- E1, <- E2 in E. by destruct r, r'.
  - intros i e Hi _ He. apply elem_of_cons in Hi as [->|Hi].
    + cbn in He. injection He as <-. exists 1%positive. split_and!; [done|vm_compute; done|].
      exists sc_segs, Code. split_and!; [apply sc_as_ok|vm_compute; done|reflexivity].
    + apply list_elem_of_singleton in Hi as ->. cbn in He. injection He as <-. exists 1%positive.
      split_and!; [done|vm_compute; done|]. exists sc_segs, Data. split_and!; [apply sc_as_ok|vm_compute; done|reflexivity].
  - intros a va pa Hp. apply sc_pages in Hp as [-> [[[= ->] Hpg]|[[[= ->] Hpg]|]]]; [| |done].
    + exists 4. eexists. split_and!; [done|set_solver|done|reflexivity|done|]. by rewrite Hpg.
    + exists 5. eexists. split_and!; [done|set_solver|done|reflexivity|done|]. by rewrite Hpg.
  - intros a va off Hp. by apply sc_pages in Hp as [_ [[? _]|[[? _]|?]]].
  - intros a va a' va' off Hp. by apply sc_pages in Hp as [_ [[? _]|[[? _]|?]]].
Qed.

Lemma sc_current : current_as (scenario es) 1.
Proof. eexists _, _. split_and!; reflexivity. Qed.

Lemma sc_free_slot : free_slot sc_bitmap.
Proof. exists 0. split; [vm_compute; done|reflexivity]. Qed.
End scenario.

(** A fault on the data page that was never touched. *)
Lemma sc_ready : fault_ready (scenario invalid_entries) [4; 5] 1 sc_bitmap 1 sc_segs Data 0x10001234.
Proof.
  constructor; try done.
  - apply sc_inv.
  - apply sc_current.
  - apply sc_as_ok.
  - apply _.
  - intros w [= <-]. split; [done|]. intros d len Hd Hl _ fs _. eexists _, _. split; [reflexivity|]. by apply zlen_mem_read.
  - constructor; [reflexivity|vm_compute; done|apply invalid_entries_unique].
  - left. right. split; [cbn; lia|apply sc_free_slot].
Qed.

(** ** Witnesses of the page fault theorems *)


(** ** After an eviction *)

(** The fault has moved the code page to slot 0 of the swap file; the frame of
    the other page is the oldest one now, with a back link. *)
Definition evicted : kstate memfs :=
  match vm_fault VM_FAULT_READ 0x10001234 (scenario invalid_entries) with Ok _ s => s | Stop _ => scenario invalid_entries end.

Lemma evicted_eq z s' : vm_fault VM_FAULT_READ 0x10001234 (scenario invalid_entries) = Ok z s' -> evicted = s'.
Proof. intros E. unfold evicted. by rewrite E. Qed.

#[local] Opaque evicted.

Lemma evicted_code G : as_ok evicted 1 G -> elf_vnode (sg_seg G Code) = Some 2%positive.
Proof.
  intros [(A & HA & Hp) Hl _ _]. assert (cell_at (T := addrspace_t) evicted 1%positive = Some (mk_as (Some 2%positive) (Some 4%positive) (Some 6%positive))) as E
    by (vm_compute; reflexivity).
  rewrite E in HA. injection HA as <-. pose proof (Hp Code) as Hc. injection Hc as Hc. pose proof (sl_seg _ _ _ _ _ (Hl Code)) as Hs.
  rewrite <- Hc in Hs. assert (elf_vnode <$> cell_at (T := ps_t) evicted 2%positive = Some (Some 2%positive)) as E2 by (vm_compute; reflexivity).
  rewrite Hs in E2. by injection E2.
Qed.

Lemma evicted_swapped G : as_ok evicted 1 G -> page_at evicted 1 0x400000 (pte_swapped 0).
Proof.
  intros Hok. exists G, Code. split; [done|]. destruct Hok as [(A & HA & Hp) Hl _ _].
  assert (cell_at (T := addrspace_t) evicted 1%positive = Some (mk_as (Some 2%positive) (Some 4%positive) (Some 6%positive))) as E by (vm_compute; reflexivity).
  rewrite E in HA. injection HA as <-. pose proof (Hp Code) as Hc. injection Hc as Hc. destruct (Hl Code) as [L1 L2 L3 _ _ _ _]. rewrite <- Hc in L1.
  assert ((fun g => (base_vaddr g, num_pages g, page_table g)) <$> cell_at (T := ps_t) evicted 2%positive = Some (0x400000, 1, Some 3%positive)) as E2 by (vm_compute; reflexivity).
  rewrite L1 in E2. injection E2 as B1 B2 B3. rewrite B3 in L2. injection L2 as L2. rewrite <- L2 in L3.
  assert ((fun t => pt_view t 0x400000) <$> cell_at (T := pt_t) evicted 3%positive = Some (Some (pte_swapped 0))) as E3 by (vm_compute; reflexivity).
  rewrite L3 in E3. injection E3 as E3. split; [|done]. unfold seg_covers. rewrite B1, B2. clear. vm_compute. done.
Qed.

Lemma evicted_queue : current_victim_page (s_cm evicted) = 5 /\ invalid_reference (s_cm evicted) = 6 /\ previous_allocated <$> zlookup (coremap (s_cm evicted)) 5 = Some 4.
Proof. split_and!; vm_compute; reflexivity. Qed.

Lemma evicted_ok : exists q b G, vm_inv None evicted q 1 b /\ back_link (s_cm evicted) q = 4 /\ link_ok (s_cm evicted) q /\ as_ok evicted 1 G.
Proof.
  destruct (vm_fault_run (scenario invalid_entries) [4; 5] 1%positive sc_bitmap 1%positive sc_segs Data 0x10001234 VM_FAULT_READ sc_ready (or_introl eq_refl))
    as (s' & q & b & pa & e & Hrun & Hinv & (G & r & Hok & _) & _).
  pose proof (evicted_eq _ _ Hrun) as E. subst s'. exists q, b, G. split; [exact Hinv|].
  destruct evicted_queue as (E1 & E2 & E3).
  pose proof (ff_victim _ _ _ (vi_fifo _ _ _ _ _ Hinv)) as Hv. rewrite E1, E2 in Hv.
  assert (back_link (s_cm evicted) q = 4) as Hb by (destruct q as [|h q]; [done|]; cbn in Hv; subst h; cbn [back_link]; by rewrite E3).
  split; [exact Hb|]. split; [|exact Hok]. unfold link_ok. rewrite Hb, E2. clear. lia.
Qed.

Lemma sc_link es : link_ok (s_cm (scenario es)) [4; 5].
Proof. vm_compute. done. Qed.

Lemma as_destroy_releases_witness :
  (exists s' b', as_destroy (Some 1%positive) (scenario invalid_entries) = Ok tt s' /\
      vm_inv None s' (filter (fun i => i ∉ as_frames sc_segs) [4; 5]) 1%positive b' /\
      as_released (scenario invalid_entries) s' 1%positive sc_bitmap b' 1%positive sc_segs) /\
  (exists q b G s' b', as_destroy (Some 1%positive) evicted = Ok tt s' /\ back_link (s_cm evicted) q = 4 /\
      page_at evicted 1%positive 0x400000 (pte_swapped 0) /\ bit b' 0 = false /\ as_released evicted s' 1%positive b b' 1%positive G).
Proof.
  split.
  - destruct (as_destroy_releases (scenario invalid_entries) [4; 5] 1%positive sc_bitmap 1%positive sc_segs 2%positive) as (s' & b' & Hrun & Hr & Hq);
      [apply sc_inv|apply sc_link|apply sc_as_ok|reflexivity|discriminate|].
    destruct (Hq eq_refl) as [Hinv _]. exists s', b'. split; [exact Hrun|]. split; [exact Hinv|exact Hr].
  - destruct evicted_ok as (q & b & G & Hinv & Hb & Hl & Hok).
    destruct (as_destroy_releases evicted q 1%positive b 1%positive G 2%positive Hinv Hl Hok (evicted_code G Hok)) as (s' & b' & Hrun & Hr & _); [discriminate|].
    exists q, b, G, s', b'. split; [exact Hrun|]. split; [exact Hb|]. split; [exact (evicted_swapped G Hok)|]. split; [|exact Hr].
    rewrite (ar_bits _ _ _ _ _ _ _ Hr), bool_decide_eq_false_2; [apply andb_false_r| |clear; split; [discriminate|reflexivity]].
    intros Hk. apply Hk. apply (ar_slots _ _ _ _ _ _ _ Hr). exists 0x400000. exact (evicted_swapped G Hok).
Defined.

Lemma sc_procs es x pr :
  cell_at (scenario es) x = Some pr ->
  (x = 8%positive /\ pr = sc_proc) \/
  (x = 10%positive /\ pr = mk_proc "[kernel]" 1 None None 0 1 (Some 11%positive)).
Proof.
  unfold cell_at. cbn -[insert singletonM map_insert map_singleton]. intros [[<- <-]|[Hne Hx]]%lookup_insert_Some; [by left|].
  apply lookup_singleton_Some in Hx as [<- <-]. by right.
Qed.

Lemma sc_table es : table_wf (scenario es).
Proof.
  split; try done. intros i x.
  change (pt_proc (s_ptab (scenario es))) with ([None; Some 10%positive; Some 8%positive] ++ replicate 98 (None : ptr)). split.
  - intros Hx. unfold zlookup in Hx. destruct (i <? 0) eqn:Hi; [done|]. apply Z.ltb_ge in Hi.
    destruct (Z.to_nat i) as [|[|[|n]]] eqn:E; cbn in Hx; [done| | |].
    + injection Hx as <-. exists (mk_proc "[kernel]" 1 None None 0 1 (Some 11%positive)). split; [reflexivity|cbn; lia].
    + injection Hx as <-. exists sc_proc. split; [reflexivity|cbn; lia].
    + change (replicate 98 (None : ptr) !! n = Some (Some x)) in Hx. by apply lookup_replicate in Hx as [? _].
  - intros (pr & [[-> ->]|[-> ->]]%sc_procs & <-); done.
Qed.

(** The process exits after the eviction. *)
Lemma evicted_procs : s_ptab evicted = sc_ptab /\ h_proc (s_heap evicted) = h_proc sc_heap /\ h_sem (s_heap evicted) = h_sem sc_heap /\
  curproc (s_cpu evicted) = Some 8%positive.
Proof. split_and!; vm_compute; reflexivity. Qed.

Lemma evicted_child : exists q b G, running_child evicted q 1 b 1 G 2 8 9 sc_proc (mk_sem "init" [] 0) /\ page_at evicted 1 0x400000 (pte_swapped 0).
Proof.
  destruct evicted_ok as (q & b & G & Hinv & Hb & Hl & Hok). exists q, b, G. split; [|exact (evicted_swapped G Hok)].
  destruct evicted_procs as (E1 & E2 & E3 & E4).
  split; [exact Hinv|exact Hl|exact Hok|apply evicted_code; exact Hok| |rewrite E1|rewrite E4|unfold cell_at; cbn -[evicted]; rewrite E2| | | |unfold cell_at; cbn -[evicted]; rewrite E3| |]; try (clear; reflexivity); [|clear; discriminate].
  - apply (table_wf_same (scenario invalid_entries)); [exact E1| |apply sc_table]. intros x. unfold cell_at. cbn -[evicted]. by rewrite E2.
Qed.

Lemma exit_wait_reaps_witness :
  exists q s1 s2 b', page_at evicted 1%positive 0x400000 (pte_swapped 0) /\ back_link (s_cm evicted) q <> invalid_reference (s_cm evicted) /\
    proc_wait (Some 8%positive) (resume (Some 10%positive) evicted) = Stop (would_sleep "wchan_sleep(sem->sem_wchan, &sem->sem_lock)") /\
    sys__exit 0x1ff evicted = Ok tt s1 /\
    proc_wait_resumed (Some 9%positive) (Some 8%positive) (resume (Some 10%positive) s1) = Ok (Z.land 0x1ff 0xff) s2 /\
    cell_at (T := proc) s2 8%positive = None /\ zlookup (pt_proc (s_ptab s2)) 2 = Some None /\ bit b' 0 = false.
Proof.
  destruct evicted_child as (q & b & G & Hc & Hsw).
  destruct (exit_wait_reaps evicted q 1%positive b 1%positive G 2%positive 8%positive 9%positive sc_proc (mk_sem "init" [] 0) 0x1ff (Some 10%positive) Hc)
    as (Hsleep & s1 & s2 & b' & R1 & R2 & R3 & P1 & P2 & P3 & P4 & P5 & P6 & P7 & _); [discriminate|].
  exists q, s1, s2, b'. split; [exact Hsw|]. split.
  { destruct evicted_queue as (Q1 & Q2 & Q3). rewrite Q2. 
    pose proof (ff_victim _ _ _ (vi_fifo _ _ _ _ _ (rc_inv _ _ _ _ _ _ _ _ _ _ _ Hc))) as V.
    rewrite Q1, Q2 in V. destruct q as [|h q]; [discriminate V|]. cbn [hd] in V. subst h. cbn [back_link]. rewrite Q3. discriminate. }
  split; [exact Hsleep|]. split; [exact R1|]. split; [exact R3|]. split; [exact P1|]. split; [exact P5|]. apply P7. exists 0x400000. exact Hsw.
Defined.

Lemma sc_no_frame es : no_frame (scenario es).
Proof.
  split; [|vm_compute; done]. intros i (e & He & Ht). cbn [coremap s_cm scenario] in He. zcases He; done.
Qed.

Lemma eviction_then_free_keeps_freed_victim_witness :
  exists s1 s2, alloc_user_page 0x10001000 (scenario invalid_entries) = Ok (4 * PAGE_SIZE) s1 /\
      free_user_page (5 * PAGE_SIZE) s1 = Ok tt s2 /\
      current_victim_page (s_cm s2) = 5 /\ freed (coremap (s_cm s2)) 5.
Proof.
  apply (eviction_then_free_keeps_freed_victim (scenario invalid_entries) 4 5 [] 1%positive sc_bitmap 1%positive 0x10001000).
  - apply sc_inv.
  - reflexivity.
  - apply sc_current.
  - vm_compute. done.
  - reflexivity.
  - apply _.
  - apply sc_no_frame.
  - apply sc_free_slot.
Defined.

Lemma vm_fault_correct_witness :
  exists s' q' b' pa e, vm_fault VM_FAULT_READ 0x10001234 (scenario invalid_entries) = Ok 0 s' /\
      vm_inv None s' q' 1%positive b' /\ page_at s' 1%positive 0x10001234 (pte_resident pa) /\
      tlb_wf (s_tlb s') /\ tlb_match (tlb_entries (s_tlb s')) 0x10001234 = Some e /\
      entry_valid e = true /\ entry_paddr e = pa /\ entry_writable e = true /\
      (forall a0 va0 j x, 0 <= j < PAGE_SIZE -> page_byte (scenario invalid_entries) 1%positive a0 va0 j x ->
         page_byte s' 1%positive a0 va0 j x) /\
      (forall a0 va0, ~ (a0 = 1%positive /\ page_of va0 = page_of 0x10001234) ->
         page_at (scenario invalid_entries) a0 va0 pte_empty -> page_at s' a0 va0 pte_empty) /\
      (page_at (scenario invalid_entries) 1%positive 0x10001234 pte_empty -> forall j, 0 <= j < PAGE_SIZE ->
         page_byte s' 1%positive 1%positive 0x10001234 j
           (first_byte (scenario invalid_entries) Data sc_data (page_base 0x10001234 + j))).
Proof.
  apply (vm_fault_correct (scenario invalid_entries) [4; 5] 1%positive sc_bitmap 1%positive sc_segs Data);
    [apply sc_ready|by left].
Defined.

Lemma vm_fault_counts_witness :
  exists s', vm_fault VM_FAULT_READ 0x10001234 (scenario invalid_entries) = Ok 0 s' /\ stats_consistent (s_stats s').
Proof.
  apply (vm_fault_counts (scenario invalid_entries) [4; 5] 1%positive sc_bitmap 1%positive sc_segs Data);
    [apply sc_ready|by left|reflexivity|vm_compute; done].
Defined.

Lemma vm_fault_errors_witness :
  let s := scenario invalid_entries in
    (~ (0 <= 5 <= 2) -> vm_fault 5 0x123 s = Ok EINVAL s) /\
    (5 = VM_FAULT_READONLY -> vm_fault 5 0x123 s = Ok EACCES s) /\
    (5 = VM_FAULT_READ \/ 5 = VM_FAULT_WRITE ->
       (curproc (s_cpu s) = None -> vm_fault 5 0x123 s = Ok EFAULT s) /\
       (forall x pr, curproc (s_cpu s) = Some x -> cell_at s x = Some pr -> p_addrspace pr = None ->
          vm_fault 5 0x123 s = Ok EFAULT s) /\
       (forall a G, current_as s a -> as_ok s a G -> (forall r, ~ seg_contains r (sg_seg G r) 0x123) ->
          vm_fault 5 0x123 s = Ok EFAULT s)).
Proof. apply vm_fault_errors. reflexivity. Defined.

(** ** Starting a second program *)

Definition be16 (x : Z) : list Z := [x / 256; x mod 256].
Definition be32 (x : Z) : list Z := be16 (x / 65536) ++ be16 (x mod 65536).

Definition sc_ph1 : Elf_Phdr := mk_phdr PT_LOAD 0x1000 0x400000 0x800 0x800 5.
Definition sc_ph2 : Elf_Phdr := mk_phdr PT_LOAD 0x2000 0x10000000 0x1400 0x1800 6.

Definition phdr_bytes (ph : Elf_Phdr) : list Z :=
  be32 (p_type ph) ++ be32 (p_offset ph) ++ be32 (p_vaddr ph) ++ be32 0 ++
  be32 (p_filesz ph) ++ be32 (p_memsz ph) ++ be32 (p_flags ph) ++ be32 0x1000.

(** An executable with a register-information header and two regions. *)
Definition sc_elf : list Z :=
  [0x7f; 0x45; 0x4c; 0x46; 1; 2; 1; 0; 0; 0; 0; 0; 0; 0; 0; 0] ++
  be16 2 ++ be16 8 ++ be32 1 ++ be32 0x400120 ++ be32 52 ++ be32 0 ++ be32 0 ++
  be16 52 ++ be16 32 ++ be16 3 ++ be16 0 ++ be16 0 ++ be16 0 ++
  phdr_bytes (mk_phdr PT_MIPS_REGINFO 0x94 0x400094 24 24 4) ++ phdr_bytes sc_ph1 ++ phdr_bytes sc_ph2.

Definition sc_elf_fs : memfs :=
  mk_memfs (fun w o => if bool_decide (w = 2%positive) then default 0 (zlookup sc_elf o) else 0).

(** The kernel process starts the program. *)
Definition sc_boot : kstate memfs :=
  set_fs sc_elf_fs (set_cpu (mk_cpu [] 0 false (Some 10%positive)) (scenario invalid_entries)).

Lemma sc_boot_inv : vm_inv None sc_boot [4; 5] 1 sc_bitmap.
Proof. apply vm_inv_set_fs, (vm_inv_maps None (scenario invalid_entries)); try done. apply sc_inv. Qed.

Lemma sc_boot_bounded : heap_bounded sc_boot.
Proof.
  split; unfold cell_at; cbn -[insert singletonM map_insert map_singleton].
  - intros x A [<- <-]%lookup_singleton_Some. split; [done|]. by intros [] y [= <-].
  - intros x g. rewrite !lookup_insert_Some, lookup_singleton_Some. intros [[<- <-]|[_ [[<- <-]|[_ [<- <-]]]]]; (split; [done|]); by intros y [= <-].
  - intros x t. rewrite !lookup_insert_Some, lookup_singleton_Some. by intros [[<- <-]|[_ [[<- <-]|[_ [<- <-]]]]].
Qed.

Lemma sc_program_ok : program_ok sc_elf_fs 2%positive sc_ph1 sc_ph2.
Proof.
  split.
  - split; [intros fs _|intros k Hk fs _]; (eexists _, _; split; [reflexivity|]; apply zlen_mem_read); done.
  - vm_compute. reflexivity.
  - apply (Forall_impl (fun ph => skipped ph || ((p_type ph =? PT_LOAD) && negb (Z.land (p_flags ph) PF_R =? 0)) = true)).
    + apply Forall_forall. intros ph Hph. revert ph Hph. apply Forall_forall. vm_compute. repeat constructor.
    + intros ph. rewrite orb_true_iff, andb_true_iff, negb_true_iff, Z.eqb_eq, Z.eqb_neq. done.
  - vm_compute. reflexivity.
  - split; vm_compute; done.
  - split; vm_compute; done.
  - left. vm_compute. reflexivity.
Qed.

Lemma runprogram_ready_witness :
  exists s' a G, runprogram "emu0:/testbin/palin" sc_boot =
      Ok (inr (USERSTACK, e_entry (ehdr_at sc_elf_fs 2%positive))) s' /\
    vm_inv None s' [4; 5] 1%positive sc_bitmap /\ current_as s' a /\ as_ok s' a G /\
    (forall va, seg_contains Code (sg_seg G Code) va <-> p_vaddr sc_ph1 <= va < p_vaddr sc_ph1 + p_memsz sc_ph1) /\
    (forall va, seg_contains Data (sg_seg G Data) va <-> p_vaddr sc_ph2 <= va < p_vaddr sc_ph2 + p_memsz sc_ph2) /\
    (forall r va, seg_covers (sg_seg G r) va -> page_at s' a va pte_empty) /\
    (forall a' va p, a' <> a -> page_at s' a' va p <-> page_at sc_boot a' va p) /\
    tlb_wf (s_tlb s') /\ (forall va, 0 <= va < USERSTACK -> tlb_match (tlb_entries (s_tlb s')) va = None).
Proof.
  apply (runprogram_ready sc_boot "emu0:/testbin/palin" 10%positive (mk_proc "[kernel]" 1 None None 0 1 (Some 11%positive))
    [4; 5] 1%positive sc_bitmap 2%positive sc_elf_fs sc_ph1 sc_ph2); try reflexivity.
  - apply sc_boot_inv.
  - vm_compute. done.
  - apply sc_boot_bounded.
  - apply sc_program_ok.
Defined.

(** ** Where the code misbehaves *)

(** The observations on the state after a run. *)
Definition observe {A} (m : M memfs A) (s : kstate memfs) (f : A -> kstate memfs -> bool) : bool :=
  match m s with Ok a s' => f a s' | Stop _ => false end.

Lemma observe_true {A} (m : M memfs A) s f :
  observe m s f = true -> exists a s', m s = Ok a s' /\ f a s' = true.
Proof. unfold observe. destruct (m s) as [a s'|]; [eauto|done]. Qed.

(** The TLB maps the code page to its frame. *)
Definition tlb_code : list (Z * Z) := <[10%nat := tlb_entry 0x400000 0x4000 false]> invalid_entries.

(** An eviction leaves the victim's TLB entry in place: after a fault that
      takes the frame of the code page for a data page, the code page is marked
      as swapped and its frame belongs to the data page, but the TLB still maps
      the code page, validly, to that frame. *)
Theorem vm_fault_stale_tlb :
  exists s' e c, vm_fault VM_FAULT_WRITE 0x10001234 (scenario tlb_code) = Ok 0 s' /\
    seg_get_paddr (Some 2%positive) 0x400000 s' = Ok PT_SWAPPED_ENTRY s' /\
    zlookup (coremap (s_cm s')) 4 = Some c /\ virtual_address c = 0x10001000 /\
    tlb_match (tlb_entries (s_tlb s')) 0x400000 = Some e /\ entry_valid e = true /\ entry_paddr e = 4 * PAGE_SIZE.
Proof.
  destruct (observe_true (vm_fault VM_FAULT_WRITE 0x10001234) (scenario tlb_code) (fun r s' =>
    (r =? 0) &&
    match zlookup (coremap (s_cm s')) 4, tlb_match (tlb_entries (s_tlb s')) 0x400000, cell_at (T := ps_t) s' 2, cell_at (T := pt_t) s' 3 with
    | Some c, Some e, Some g, Some t =>
        (virtual_address c =? 0x10001000) && entry_valid e && (entry_paddr e =? 4 * PAGE_SIZE) &&
        bool_decide (page_table g = Some 3%positive) && bool_decide (page_buffer t = Some [1]) &&
        (pt_base_vaddr t =? 0x400000) && (pt_num_pages t =? 1)
    | _, _, _, _ => false
    end)) as (r & s' & Hrun & Hobs); [vm_compute; reflexivity|].
  apply andb_true_iff in Hobs as [->%Z.eqb_eq Hobs].
  destruct (zlookup (coremap (s_cm s')) 4) as [c|] eqn:Ec; [|done].
  destruct (tlb_match (tlb_entries (s_tlb s')) 0x400000) as [e|] eqn:Ee; [|done].
  destruct (cell_at (T := ps_t) s' 2) as [g|] eqn:Eg; [|done]. destruct (cell_at (T := pt_t) s' 3) as [t|] eqn:Et; [|done].
  rewrite !andb_true_iff, !Z.eqb_eq, !bool_decide_eq_true in Hobs.
  destruct Hobs as ((((((H1 & H2) & H3) & H4) & H5) & H6) & H7).
  exists s', e, c. split; [exact Hrun|]. clear Hrun. split; [|by split_and!]. unfold seg_get_paddr, seg_check. run. rewrite (run_load 2%positive g), H4 by done. run. rewrite H4.
  assert (pt_wf t [1]) as Hwf.
  { constructor; [done|by rewrite H7|rewrite H6; vm_compute; done|]. intros i x Hx. unfold zlookup in Hx.
    destruct (i <? 0); [done|]. destruct (Z.to_nat i) as [|[]]; cbn in Hx; [|done..]. injection Hx as <-. by exists (pte_swapped 0). }
  apply (pt_get_entry_run 3%positive t [1] 0x400000 (pte_swapped 0)); [done|done|vm_compute; done|].
  unfold pt_view, pt_index. by rewrite H5, H6.
Qed.
